(* ===== verification/_CoqProject ===== *)
-Q . S2P
Prelude.v
StateMonad.v
Crc.v
LinkFrame.v
LinkParser.v
LinkFsm.v
Transport.v
Stack.v
LinkLayer.v
TaskQueue.v
AppHeader.v
AppObject.v
AppFragment.v
Values.v
Floats.v
Objects.v
Codecs.v
CommandEvents.v
FileObjects.v
ExtObjects.v
Dispatch.v
EventBuffer.v
Database.v
ExtendedDatabase.v
Commands.v
Response.v
ReadResponse.v
EventResponse.v
Crypto.v
OutstationState.v
Respond.v
Unsolicited.v
Services.v
Freeze.v
FileServer.v
FileTransfer.v
Security.v
Requests.v
Serve.v
SessionFrame.v
SessionSafety.v
SessionInvariant.v
SessionRuns.v
MasterState.v
MasterTasks.v
MasterFiles.v
MasterSession.v
MasterApi.v
MasterInvariant.v
MasterCommands.v
MasterOperate.v
MasterAnswers.v
MasterRuns.v
Multidrop.v
MultidropRouting.v
Registry.v
MultidropRuns.v
Channel.v
Udp.v
Text.v
Names.v
DecoderValues.v
Decoder.v
DecodeCommand.v
MemFiles.v
FileUpload.v
Simulator.v
SimConfig.v
Simulated.v
Recording.v
MasterCommand.v
Generator.v
DutModel.v
Dut.v
