(* ===== verification/Prelude.v ===== *)
(** * A verification of the protocol core of go-dnp3

    go-dnp3 implements DNP3 (IEEE 1815), the protocol between a master station and the
    outstations it polls.  Octets from a channel go up through layers and come down again:

      channel octets <-> link frames <-> transport segments <-> application fragments
        <-> object headers <-> measurements, events and points

    This development models the layers below the sessions, the outstation and the master as
    a whole, and the package that lets several sessions share a line.  An outstation session is
    driven by what arrives and by a ticker: [Serve] says which step follows which, [Requests]
    what a request does, [Respond] and [Unsolicited] what is sent and when, and the stack of
    [Stack] carries it.  A master session runs tasks: [MasterApi] hands them over,
    [MasterSession] schedules, sends and completes them, [MasterTasks] and [MasterFiles] say
    what each asks and what it makes of the answer.  A shared line ([Multidrop]) stands
    between sessions and one channel.  Around these stand the decoder, which shows a capture
    as text, the generator the codecs come from, and the programs: a simulated outstation,
    a master that records what it polls, a tool that decodes hex, and the device conformance
    tests are run against.

    ** Files

    - [Prelude]: results, machine integers, slices, little-endian octets, tactics and hints;
      [StateMonad]: the monad of both sessions and its triples.
    - [Crc] (src/internal/link/crc.go): the check sequence, by table and bit by bit.
    - [LinkFrame] (src/internal/link/frame.go): control octets, headers, [Encode], [Decode].
    - [LinkParser] (src/internal/link/parser.go): [Parser] with its array and offsets,
      [Write], [Next], [resync], [slide] and [Drain].
    - [LinkFsm] (src/internal/link/primary.go, secondary.go): [Primary] and [Secondary], one
      function per method, and [link_step], two stations joined by a line that loses frames.
    - [Transport] (src/internal/transport/transport.go): [Segmenter] and [Reassembler].
    - [Stack] (src/internal/stack/stack.go): the layers joined, [SendTo], [Receive],
      [OnTimeout]; and the guards of [checkKeepAlive] of src/master/session.go.
      [LinkLayer]: what a session asks of the stack, as a class, and the stack as an instance.
    - [TaskQueue] (src/master/task.go): the master's scheduler, a heap, and the ordered list
      it implements.
    - [AppHeader] (src/internal/app/funccode.go, iin.go, header.go): function codes, internal
      indications, the fragment header.
    - [AppObject] (src/internal/app/qualifier.go, objheader.go, sizes.go, freeformat.go and the
      generated size table): object headers and the walk over their data.
    - [AppFragment] (src/internal/app/fragment.go): parsing and building fragments.
    - [Values] (src/flags.go, types.go, timeinterval.go): flags, times, measurements, classes.
    - [Floats]: floating point conversions of the language, on [spec_float].
    - [Objects] (src/objects/objects.go and the generated descriptors): the registry of
      objects and the context relative times are read in.
    - [Codecs] (src/objects/convert.go, packed.go, zz_generated_codecs.go): the codecs of every
      measurement variation, one pair of functions each, and the packed variations.
    - [CommandEvents], [FileObjects], [ExtObjects] (src/objects/commandevent.go, file.go,
      attribute.go, dataset.go, activation.go, authentication.go): the other objects.
    - [Dispatch] (src/master/dispatch.go, handler.go, [deliver] of session.go): how a master
      turns the objects of a response into calls of its handler.
    - [EventBuffer] (src/outstation/eventbuffer.go): the queue of events to report.
    - [Database], [ExtendedDatabase] (src/outstation/database.go, extended_database.go,
      dataset.go): the points, their updates and freezes.
    - [Commands] (src/objects/commands.go, src/outstation/command.go): command objects, the
      selection, and the handling of SELECT, OPERATE and DIRECT_OPERATE requests.
    - [Response] (src/outstation/response.go): the response builder; [ReadResponse] and
      [EventResponse] prove what a master decodes from what it builds.
    - [Crypto] (src/internal/security/crypto.go): message authentication and key wrapping.
    - [OutstationState] (src/outstation/session.go): configuration and state of a session, the
      monad [M] its handlers are written in, and how their properties are proved.
    - [Respond] (session.go): responses, confirmations, repeated requests, indications.
    - [Unsolicited] (src/outstation/unsolicited.go), [Freeze] (freeze.go), [Services]
      (services.go, dataset.go, attribute.go), [FileServer] (file.go, file_auth.go) with
      [FileTransfer], [Security] (security.go): one file per service.
    - [Requests] (session.go): the handlers of requests, [handle]; [Serve] (session.go): [New],
      [Update], [Restart], and the steps of a connection ([session_step], [lived]).
    - [SessionFrame], [SessionSafety], [SessionInvariant]: what handlers leave alone, what a
      request can never do, and what is true of every state a session reaches.
    - [SessionRuns]: a concrete station; the witnesses of the theorems on sessions, and the
      runs in which the code departs from its comments.
    - [MasterState] (src/master/session.go, task.go): tasks, configuration and state of a
      master session; [MasterTasks] (task.go, command.go, attribute.go) and [MasterFiles]
      (file.go, fileapi.go, file_auth.go, security.go): the tasks; [MasterSession] (session.go,
      security.go): the session; [MasterApi] (api.go and the calls of the other files): what
      callers do, and the steps of a session ([master_step], [lives]).
    - [MasterInvariant], [MasterOperate], [MasterAnswers], [MasterCommands]: what is true of
      every state of a master, of the requests it sends, of what callers and handlers are
      told, and of controls from the caller to the plant and back.  [MasterRuns]: a concrete
      master, the witnesses, and runs in which the code departs from its comments.
    - [Multidrop] (src/multidrop/multidrop.go, arbiter.go, conn.go): a shared line, its
      stations and their turns; [MultidropRouting]: what it delivers; [Registry]
      (registry.go): buses shared by name; [MultidropRuns]: runs and witnesses.
    - [Channel] (src/channel/channel.go, tls.go, serial.go): connecting and the delays between
      attempts, accepting, pipes; [Udp] (udp.go): datagrams as a channel, with the stack on it.
    - [Text]: the formatting verbs and the functions on strings the source uses; [Names] (the
      [String] methods of the whole repository): how values are shown.
    - [DecoderValues], [Decoder] (src/decoder/): frames, fragments and objects as a trace;
      [DecodeCommand] (src/cmd/dnp3-decode/main.go): hex in, trace out.
    - [MemFiles] (src/cmd/dnp3-outstation/files.go): files in memory, and (src/outstation/file.go)
      the handler over a directory of the host, whose calls of [os.Root] are parameters;
      [FileUpload]: a whole upload, from the first request to the stored content.
    - [Simulator] (src/cmd/dnp3-outstation/sim.go): the plant; [SimConfig]
      (config.go, device.go): its configuration; [Simulated] (main.go): the plant and the
      files as the application of an outstation session.
    - [Recording] (src/cmd/dnp3-master/record.go and the queueing handler of
      src/master/handler.go): what is recorded of what a master hears; [MasterCommand]
      (config.go, run.go, main.go): the sites and the work done at each.
    - [Generator] (src/internal/gen/): the table of objects, its checks, and the code made of it.
    - [DutModel], [Dut] (src/conformance/dnp3c/dut/): the device conformance tests are run
      against, with the changes it makes and the checks of what is reported.

    ** How code becomes definitions

    A Go method is a function from its receiver's record (and arguments) to the new record
    and the results, with the names of the source; [Type_Method] where two types share a
    method name.  An [error] is a value of an inductive type per component; the text an error
    wraps is dropped.  Where the source makes text for a reader it is a [string] of octets,
    built by the same verbs.  Octets are integers of [Z] in 0..255 ([octet_ok]); unsigned integers
    are reduced with [u8] to [u64] where the code may wrap; [float64] is [spec_float] with 53
    bits of precision, without NaN payloads.  The methods of [EventBuffer] and [Database] hold a mutex throughout,
    so a run is a sequence of calls.  Slices are values, except the octet strings of
    [Database], which share backing arrays with queued events and are modelled as such.
    The handlers of a session share its state, the application and the connection: they are
    computations of [M], written in the order of the source, and [if err := ...] is
    [or_return].  What the application's own goroutines do ([Update], [Restart],
    [SetIndication]) is a step of its own, and so is a call of a master's API.  A task of a
    master is a record whose closures are computations on the variables they capture, kept in
    a store; who waits for a task has a channel, in which the outcome is found.  Goroutines
    that share a line are sections under a mutex that follow each other in any order.  A
    channel is given, turn by turn, what sockets, timers and contexts did.

    Code outside the repository is a parameter: the [io.Writer] a stack writes to
    ([w_Write], and [w_message] for its optional message bracket), the callback a received
    fragment goes to ([fn], which may call the stack again), the reads of [Drain], the
    capacity [append] chooses ([grow]), and the application of an outstation: a state [W] with
    a clock ([appl_Now]) and a [CommandHandler], a record of functions on it.  For a session
    they are the class [Environment]: the application with its callbacks, its file handler
    with readers and writers, the host's clock and random source, HMAC-SHA256 and AES; for a
    master they are [MasterEnvironment].  The line under a bus is a state and a write, and the
    names of channels are a function.  The programs take the sine, the random source, the
    parsers of numbers and durations, the printing of floats and of local time, and the table
    of printable characters as parameters.  What
    theorems need of them is stated where they need it: [Reads] is the contract of an
    [io.Reader], [Hclock] says that reading the clock changes nothing, and the key wrapping
    needs a cipher that decrypts what it encrypted.  The stack is the class [LinkLayer] to a
    session, with the instance [stackLink]; [Reliable] (a link that takes what it is given)
    and [Walking] (receiving calls back and does nothing else) are proved of that instance.
    The object sizer, an interface in the source, is the
    class [ObjectSizer] with the instance [SpecSizer]; the theorems on object headers hold for
    every sizer.

    ** Loops and fuel

    Loops that are not structural take fuel and answer [None] when it runs out.  Each such
    function has a theorem that the fuel its caller gives is enough: one turn per buffered
    octet for [Next] and [Drain] ([Next_terminates], [Drain_any_chunking]), one per octet of
    data for [Receive] ([Receive_total]), one per octet of the fragment for [SegmentAll] and
    [pumpFrames], one per octet for the walks over object data and command objects
    ([for_range_total], [command_loop_run]).  In [M] a loop that could run out returns instead
    of stopping; the fuel is its number of turns at most ([fit_loop] halves an interval,
    [read_full] reads an octet or ends, [deadband_loop] takes an object a turn).  The heap sifts
    at most once per element ([scheduler_refines] rests on it), and the pump of a shared line
    takes an octet or a frame a turn ([read_spec]).

    ** What the theorems show

    - Outstation sessions (C1, C2, C5, C13 to C15, C23, C37): every state a session reaches is
      orderly and everything it sends is well formed; a repeated request is not carried out
      again; nothing is changed without authentication where it is required; a response
      completes when the master confirms; an unconfirmed report is repeated as it was, every second poll, and then
      given up without loss; broadcasts are never answered; files arrive whole, read (C37) or
      written (C23).
    - Controls (C3, C4, C12): an outstation acts on an OPERATE only through the live selection
      of the same octets, which it uses up; a master sends an OPERATE only directly after its
      SELECT; and the caller is told the status of each control.
    - Master sessions (C6 to C8, C26, C27): every caller is answered once, failures included;
      responses are put together from their fragments whatever is repeated; the scheduler is
      an ordered list; the startup flag is exact.
    - Events and data (C9 to C11, C28, C29): events are never lost silently and the
      overflow indication is exact; events, static data and flags arrive at the master's
      handler as they were; deadbands track what was reported.
    - Link and stack (C16 to C21, C39, C40): a frame is read back as it was encoded; exactly-once delivery over a lossy line, and
      progress; end-to-end delivery; the stack agrees with the link layer about what is
      outstanding; receiving is total and does not depend on how the stream is cut; the fast
      CRC is the reference one.
    - Shared lines (C22, C24, C25): a station hears exactly the frames addressed to it, the line
      comes back from whoever has it, and buses are open exactly as long as they are used.
    - Application layer (C30 to C33): each generated codec implements the description of
      its variation; the builder only ever adds whole objects within the limit; fragments round
      trip and every octet of them is accounted for.
    - Transport and datagrams (C34 to C36): soundness under loss, bounded memory, and over UDP
      a fragment is one datagram that arrives as it was sent.
    - Decoder (C38): a capture shows, frame by frame, the fragment the station it is for delivers.
    - Generator ([codecs_generated], [pstmt_shown], [wstmt_shown]): the codecs are what the
      generator makes of the table of objects, and its text is that of the code it stands for.

    Theorems without a number support these, or show how the code departs from what its
    comments say: [paused_forever] and [pending_data_destination] of [Stack],
    [octet_event_overwritten] of [Database], [attribute_roundtrip_framing] of [ExtObjects],
    and the runs at the end of [SessionRuns], [MasterRuns], [MultidropRuns] and of the files on
    the programs.

    ** Not modelled

    Of the channels the loading of certificates, the listing of serial ports and the addresses
    of listeners; the goroutine that reads a connection (operating system I/O); of the programs
    the reading of flags and files, YAML,
    logging and signals, and of the conformance device HTTP and JSON; the explorer, a terminal
    user interface on a third-party toolkit. *)

From stdpp Require Export base list list_numbers numbers relations.
From Stdlib Require Export ZArith Lia Bool.

#[export] Set Default Goal Selector "!".
#[global] Open Scope Z_scope.

(** ** Results

    A Go function returning [(T, error)] is a function into [result E T]. *)

Inductive result (E A : Type) : Type :=
| Ok (a : A)
| Err (e : E).
Arguments Ok {E A} a.
Arguments Err {E A} e.

#[export] Instance result_bind E : MBind (result E) :=
  fun A B f r => match r with Ok a => f a | Err e => Err e end.
#[export] Instance result_ret E : MRet (result E) := fun A a => Ok a.

Definition is_ok {E A} (r : result E A) : bool :=
  match r with Ok _ => true | Err _ => false end.

Lemma result_bind_ok {E A B} (r : result E A) (f : A -> result E B) b :
  (r ≫= f) = Ok b <-> exists a, r = Ok a /\ f a = Ok b.
Proof. destruct r; cbn; naive_solver. Qed.

(** The errors of an [io.Reader] and of the functions of the Go library that read from one. *)
Inductive ReadErr := EOF | ErrUnexpectedEOF | ErrNoProgress | ErrRead.
#[export] Instance ReadErr_eq_dec : EqDecision ReadErr.
Proof. solve_decision. Defined.

(** ** Machine integers: a w-bit unsigned value is an integer of [Z] reduced modulo [2^w] *)

Definition u8 (x : Z) : Z := x mod 256.
Definition u16 (x : Z) : Z := x mod 65536.
Definition u32 (x : Z) : Z := x mod 4294967296.
Definition u64 (x : Z) : Z := x mod 18446744073709551616.

(** Reinterpretation of a w-bit pattern as a two's complement integer, and back. *)
Definition int_of (w : Z) (x : Z) : Z := if x <? 2 ^ (w - 1) then x else x - 2 ^ w.
Definition uint_of (w : Z) (x : Z) : Z := x mod 2 ^ w.

Abbreviation octet := Z (only parsing).
Abbreviation octets := (list Z) (only parsing).

Definition octet_ok (b : Z) : Prop := 0 <= b < 256.
Definition octets_ok (l : list Z) : Prop := Forall octet_ok l.
Definition is_u16 (x : Z) : Prop := 0 <= x < 65536.
Definition is_u32 (x : Z) : Prop := 0 <= x < 4294967296.

#[export] Instance octet_ok_dec b : Decision (octet_ok b).
Proof. unfold octet_ok. apply _. Defined.
#[export] Instance octets_ok_dec l : Decision (octets_ok l).
Proof. unfold octets_ok. apply _. Defined.

(** Length of a slice as Go's [int]; the sub-slice [l[a:b]]. *)
Definition len {A} (l : list A) : Z := Z.of_nat (length l).
Definition slice {A} (a b : Z) (l : list A) : list A :=
  take (Z.to_nat (b - a)) (drop (Z.to_nat a) l).
(** The octet at an index the code has already bounds-checked. *)
Definition at_ (l : list Z) (i : Z) : Z := nth (Z.to_nat i) l 0.

Lemma len_nonneg {A} (l : list A) : 0 <= len l.
Proof. unfold len. lia. Qed.
Lemma len_app {A} (l k : list A) : len (l ++ k) = len l + len k.
Proof. unfold len. rewrite length_app. lia. Qed.
Lemma len_nil {A} : len (@nil A) = 0.
Proof. reflexivity. Qed.
Lemma len_cons {A} (x : A) l : len (x :: l) = 1 + len l.
Proof. unfold len. cbn [length]. lia. Qed.

Create HintDb dnp3.
Create Rewrite HintDb dnp3.
#[export] Hint Rewrite @len_app @len_nil @len_cons : dnp3.

Lemma u8_ok x : octet_ok (u8 x).
Proof. unfold octet_ok, u8. apply Z.mod_pos_bound. lia. Qed.
Lemma u8_small x : octet_ok x -> u8 x = x.
Proof. unfold octet_ok, u8. intros. by apply Z.mod_small. Qed.
Lemma u16_small x : is_u16 x -> u16 x = x.
Proof. unfold is_u16, u16. intros. by apply Z.mod_small. Qed.
Lemma u32_small x : is_u32 x -> u32 x = x.
Proof. unfold is_u32, u32. intros. by apply Z.mod_small. Qed.
Lemma u16_range x : is_u16 (u16 x).
Proof. unfold is_u16, u16. apply Z.mod_pos_bound. lia. Qed.
Lemma u32_range x : is_u32 (u32 x).
Proof. unfold is_u32, u32. apply Z.mod_pos_bound. lia. Qed.
#[export] Hint Resolve u8_ok u16_range u32_range : dnp3.

Lemma octets_ok_app l k : octets_ok (l ++ k) <-> octets_ok l /\ octets_ok k.
Proof. apply Forall_app. Qed.
Lemma octets_ok_cons x l : octets_ok (x :: l) <-> octet_ok x /\ octets_ok l.
Proof. apply Forall_cons_iff. Qed.
Lemma octets_ok_nil : octets_ok [].
Proof. constructor. Qed.
Lemma octets_ok_take n l : octets_ok l -> octets_ok (take n l).
Proof. apply Forall_take. Qed.
Lemma octets_ok_drop n l : octets_ok l -> octets_ok (drop n l).
Proof. apply Forall_drop. Qed.
Lemma octets_ok_slice a b l : octets_ok l -> octets_ok (slice a b l).
Proof. intros. by apply octets_ok_take, octets_ok_drop. Qed.
Lemma octets_ok_at l i : octets_ok l -> octet_ok (at_ l i).
Proof.
  intros H. unfold at_. destruct (nth_in_or_default (Z.to_nat i) l 0) as [Hin | ->].
  - unfold octets_ok in H. rewrite List.Forall_forall in H. by apply H.
  - unfold octet_ok. lia.
Qed.
#[export] Hint Resolve octets_ok_nil octets_ok_take octets_ok_drop octets_ok_slice octets_ok_at : dnp3.

(** ** Deciding a statement about every octet by evaluating it on all 256 *)

Lemma forall_below (n : nat) (P : Z -> bool) :
  forallb P (Z.of_nat <$> seq 0 n) = true -> forall x, 0 <= x < Z.of_nat n -> P x = true.
Proof.
  intros H x Hx. rewrite forallb_forall in H. apply H.
  apply list_elem_of_In, list_elem_of_fmap. exists (Z.to_nat x). split; [lia|].
  apply elem_of_seq. lia.
Qed.

Lemma forall_octets (P : Z -> bool) :
  forallb P (Z.of_nat <$> seq 0 256) = true -> forall x, octet_ok x -> P x = true.
Proof. intros H x Hx. apply (forall_below 256); [done | exact Hx]. Qed.

(** [by_octets x] proves a boolean-reflectable goal about the octet [x]. *)
Ltac by_octets x :=
  revert x; match goal with
  | |- forall y : Z, octet_ok y -> @?P y = true => exact (forall_octets P ltac:(vm_compute; reflexivity))
  end.

(** ** Little-endian integers *)

Fixpoint le_bytes (n : nat) (x : Z) : list Z :=
  match n with
  | O => []
  | S n' => u8 x :: le_bytes n' (Z.shiftr x 8)
  end.

Fixpoint le_val (l : list Z) : Z :=
  match l with
  | [] => 0
  | b :: l' => b + 256 * le_val l'
  end.

Abbreviation le16 x := (le_bytes 2 x).
Abbreviation le32 x := (le_bytes 4 x).
Abbreviation le64 x := (le_bytes 8 x).

Lemma length_le_bytes n x : length (le_bytes n x) = n.
Proof. revert x. induction n; intros; cbn; auto. Qed.
Lemma len_le_bytes n x : len (le_bytes n x) = Z.of_nat n.
Proof. unfold len. by rewrite length_le_bytes. Qed.
Lemma le_bytes_ok n x : octets_ok (le_bytes n x).
Proof. revert x. induction n; intros; cbn; constructor; [apply u8_ok | apply IHn]. Qed.
#[export] Hint Resolve le_bytes_ok : dnp3.
#[export] Hint Rewrite length_le_bytes len_le_bytes : dnp3.

Lemma shiftr_8 x : Z.shiftr x 8 = x / 256.
Proof. by rewrite Z.shiftr_div_pow2. Qed.

Lemma le_val_bytes n x : le_val (le_bytes n x) = x mod 256 ^ Z.of_nat n.
Proof.
  revert x. induction n as [|n IH]; intros x.
  - cbn. by rewrite Z.mod_1_r.
  - cbn [le_bytes le_val]. rewrite IH, shiftr_8. unfold u8.
    replace (Z.of_nat (S n)) with (Z.succ (Z.of_nat n)) by lia.
    rewrite Z.pow_succ_r by lia. rewrite Z.rem_mul_r; lia.
Qed.

Lemma le_val_bound l : octets_ok l -> 0 <= le_val l < 256 ^ len l.
Proof.
  induction 1 as [|b l Hb Hl IH]; [change (256 ^ len (@nil Z)) with 1; cbn; lia|].
  cbn [le_val]. rewrite len_cons. replace (1 + len l) with (Z.succ (len l)) by lia.
  rewrite Z.pow_succ_r by apply len_nonneg. unfold octet_ok in Hb.
  generalize dependent (256 ^ len l). intros p IH. lia.
Qed.

Lemma le_bytes_val l n : octets_ok l -> length l = n -> le_bytes n (le_val l) = l.
Proof.
  intros H <-. induction H as [|b l Hb Hl IH]; [done|].
  cbn [length le_bytes le_val]. unfold octet_ok in Hb. f_equal.
  - unfold u8. rewrite Z.mul_comm, Z_mod_plus_full. by apply Z.mod_small.
  - rewrite shiftr_8. rewrite Z.mul_comm, Z.div_add by lia.
    rewrite Z.div_small by done. apply IH.
Qed.

Lemma le16_val x : is_u16 x -> le_val (le16 x) = x.
Proof. unfold is_u16. intros. rewrite le_val_bytes. apply Z.mod_small. cbn. lia. Qed.
Lemma le32_val x : is_u32 x -> le_val (le32 x) = x.
Proof. unfold is_u32. intros. rewrite le_val_bytes. apply Z.mod_small. cbn. lia. Qed.

(** [norm_nat] evaluates [Z.to_nat] at literals, so indexed reads of explicit lists reduce. *)
Ltac norm_nat :=
  repeat match goal with
  | |- context [Z.to_nat ?z] =>
      match z with Z0 => idtac | Zpos _ => idtac end;
      let n := eval vm_compute in (Z.to_nat z) in change (Z.to_nat z) with n
  end.

(** ** Lists *)

Lemma take_drop_app {A} n (l k : list A) : length l = n -> take n (l ++ k) = l /\ drop n (l ++ k) = k.
Proof. intros <-. by rewrite take_app_length, drop_app_length. Qed.

Lemma slice_mid {A} (a b c : list A) i j :
  i = len a -> j = i + len b -> slice i j (a ++ b ++ c) = b.
Proof.
  intros -> ->. unfold slice, len. rewrite Nat2Z.id, drop_app_length.
  replace (Z.to_nat _) with (length b) by lia. apply take_app_length.
Qed.

Lemma slice_front {A} (b c : list A) j : j = len b -> slice 0 j (b ++ c) = b.
Proof. intros ->. by apply (slice_mid [] b c). Qed.

Lemma length_slice {A} (l : list A) a b :
  0 <= a -> a <= b -> b <= len l -> length (slice a b l) = Z.to_nat (b - a).
Proof. intros. unfold slice, len in *. rewrite length_take, length_drop. lia. Qed.

Lemma len_slice {A} (l : list A) a b :
  0 <= a -> a <= b -> b <= len l -> len (slice a b l) = b - a.
Proof. intros. unfold len at 1. rewrite length_slice by done. lia. Qed.

Lemma slice_app_l {A} (l k : list A) a b : 0 <= a -> b <= len l -> slice a b (l ++ k) = slice a b l.
Proof.
  intros Ha Hb. unfold slice, len in *. destruct (Z.lt_ge_cases b a).
  { by replace (Z.to_nat (b - a)) with 0%nat by lia. }
  rewrite drop_app_le by lia. rewrite take_app_le; [done|]. rewrite length_drop. lia.
Qed.

Lemma slice_full {A} (l : list A) b : len l <= b -> slice 0 b l = l.
Proof. intros. unfold slice, len in *. norm_nat. rewrite drop_0. apply take_ge. lia. Qed.

Lemma at_app_l l k i : 0 <= i < len l -> at_ (l ++ k) i = at_ l i.
Proof. intros. unfold at_, len in *. rewrite app_nth1; [done|lia]. Qed.

(** Reading one field of an object laid out as [f1 ++ f2 ++ ...]: skip the fields before it. *)
Lemma slice_skip {A} (x y : list A) a b : len x <= a -> slice a b (x ++ y) = slice (a - len x) (b - len x) y.
Proof.
  intros Ha. unfold slice, len in *. replace (b - Z.of_nat (length x) - (a - Z.of_nat (length x))) with (b - a) by lia.
  f_equal. replace (Z.to_nat a) with (length x + Z.to_nat (a - Z.of_nat (length x)))%nat by lia.
  rewrite <- drop_drop, drop_app_length. done.
Qed.
Lemma slice_here {A} (x y : list A) a b : a = 0 -> b = len x -> slice a b (x ++ y) = x.
Proof. intros ->. apply slice_front. Qed.
Lemma slice_last {A} (x : list A) a b : a = 0 -> b = len x -> slice a b x = x.
Proof. intros -> ->. by apply slice_full. Qed.
Lemma drop_skip {A} (x y : list A) a : len x <= a -> drop (Z.to_nat a) (x ++ y) = drop (Z.to_nat (a - len x)) y.
Proof.
  intros Ha. unfold len in *. replace (Z.to_nat a) with (length x + Z.to_nat (a - Z.of_nat (length x)))%nat by lia.
  by rewrite <- drop_drop, drop_app_length.
Qed.
Lemma drop_here {A} (x : list A) a : a = 0 -> drop (Z.to_nat a) x = x.
Proof. by intros ->. Qed.
Lemma at_skip (x y : list Z) a : len x <= a -> at_ (x ++ y) a = at_ y (a - len x).
Proof. intros Ha. unfold at_, len in *. rewrite app_nth2 by lia. f_equal. lia. Qed.
Lemma at_here x (y : list Z) a : a = 0 -> at_ ([x] ++ y) a = x.
Proof. by intros ->. Qed.

Lemma slice_pair l i : 0 <= i -> i + 2 <= len l -> slice i (i + 2) l = [at_ l i; at_ l (i + 1)].
Proof.
  intros Hi Hl. unfold slice, at_, len in *. replace (i + 2 - i) with 2 by lia. norm_nat.
  rewrite <- (Z2Nat.id i) in Hl |- * by lia. generalize dependent (Z.to_nat i). clear i Hi. intros i Hl.
  replace (Z.to_nat (Z.of_nat i)) with i by lia.
  replace (Z.to_nat (Z.of_nat i + 1)) with (S i) by lia.
  revert l Hl. induction i as [|i IH]; intros l Hl.
  - destruct l as [|x [|y l]]; cbn in Hl; [lia..|]. done.
  - destruct l as [|x l]; cbn in Hl; [lia|]. cbn. apply IH. lia.
Qed.

(** ** Automation

    [go_case] splits the first conditional or match of the goal; [zify_ok] exposes the
    integer content of the width predicates to [lia]. *)

Ltac zify_ok := unfold octet_ok, is_u16, is_u32, u8, u16, u32, len in *.
Ltac destr_if :=
  match goal with
  | |- context [if ?b then _ else _] => destruct b eqn:?
  end.
Ltac bool_prop :=
  repeat match goal with
  | H : (_ && _)%bool = true |- _ => apply andb_true_iff in H as [? ?]
  | H : (_ || _)%bool = false |- _ => apply orb_false_iff in H as [? ?]
  | H : negb _ = true |- _ => apply negb_true_iff in H
  | H : negb _ = false |- _ => apply negb_false_iff in H
  | H : (_ =? _) = true |- _ => apply Z.eqb_eq in H
  | H : (_ =? _) = false |- _ => apply Z.eqb_neq in H
  | H : (_ <? _) = true |- _ => apply Z.ltb_lt in H
  | H : (_ <? _) = false |- _ => apply Z.ltb_ge in H
  | H : (_ <=? _) = true |- _ => apply Z.leb_le in H
  | H : (_ <=? _) = false |- _ => apply Z.leb_gt in H
  end.

(** [read_field] evaluates one read of an object laid out as a concatenation of fields. *)
Ltac len_lia := unfold len; rewrite ?length_app, ?length_le_bytes; cbn [length]; lia.
Ltac read_field :=
  first [repeat (rewrite slice_skip by len_lia); first [rewrite slice_here by len_lia | rewrite slice_last by len_lia]
        |repeat (rewrite at_skip by len_lia); rewrite at_here by len_lia
        |repeat (rewrite drop_skip by len_lia); rewrite drop_here by len_lia].
