(* ===== verification/StateMonad.v ===== *)
(** * Computations on a state

    The handlers of both sessions are computations [ST S T]: functions from a state to the
    state they leave and what they return.  [guarantees R m] says that [m] relates the state
    it starts in and the one it ends in by the preorder [R], and [returns P m] that what it
    returns satisfies [P]; the lemmas prove both operation by operation, and a session's
    tactic [by_parts] applies them. *)

From S2P Require Import Prelude.

Definition ST (S T : Type) : Type := S -> S * T.
#[export] Instance M_ret {S} : MRet (ST S) := fun T v st => (st, v).
#[export] Instance M_bind {S} : MBind (ST S) := fun T U k m st => let '(st, v) := m st in k v st.

Section Computations.
Context {S : Type}.
Abbreviation M := (ST S).

Definition when (b : bool) (m : M unit) : M unit := if b then m else mret tt.
(** [if err := m; err != nil { return err }]. *)
Definition or_return {E} (m k : M (option E)) : M (option E) :=
  err ← m; match err with Some _ => mret err | None => k end.
Definition ok {E} : M (option E) := mret None.

Fixpoint each {T} (f : T -> M unit) (l : list T) : M unit :=
  match l with
  | [] => mret tt
  | x :: l => f x ;; each f l
  end.

Definition guarantees {T} (R : relation S) (m : M T) : Prop := forall st, R st (m st).1.

(** What a computation returns, in whatever state it starts. *)
Definition returns {T} (P : T -> Prop) (m : M T) : Prop := forall st, P (m st).2.

Lemma returns_bind {T U} (P : U -> Prop) (m : M T) (k : T -> M U) : (forall v, returns P (k v)) -> returns P (m ≫= k).
Proof. intros H st. unfold mbind, M_bind. destruct (m st). apply H. Qed.
Lemma returns_bind_post {T U} (Q : T -> Prop) (P : U -> Prop) (m : M T) (k : T -> M U) :
  returns Q m -> (forall v, Q v -> returns P (k v)) -> returns P (m ≫= k).
Proof. intros Hm H st. unfold mbind, M_bind. specialize (Hm st). destruct (m st). by apply H. Qed.
Lemma returns_ret {T} (P : T -> Prop) v : P v -> returns P (mret v : M T).
Proof. intros H st. exact H. Qed.

Context (R : relation S).

Lemma g_bind {HR : PreOrder R} {T U} (m : M T) (k : T -> M U) :
  guarantees R m -> (forall v, guarantees R (k v)) -> guarantees R (m ≫= k).
Proof.
  intros Hm Hk st. unfold mbind, M_bind. specialize (Hm st). destruct (m st) as [st' v].
  etransitivity; [exact Hm | apply Hk].
Qed.

(** The rest of a computation may rely on what the first part returns. *)
Lemma g_bind_post {HR : PreOrder R} {T U} (P : T -> Prop) (m : M T) (k : T -> M U) :
  guarantees R m -> returns P m -> (forall v, P v -> guarantees R (k v)) -> guarantees R (m ≫= k).
Proof.
  intros Hm HP Hk st. unfold mbind, M_bind. specialize (Hm st). specialize (HP st). destruct (m st) as [st' v].
  etransitivity; [exact Hm | by apply Hk].
Qed.

Lemma g_ret {HR : PreOrder R} {T} (v : T) : guarantees R (mret v : M T).
Proof. intros st. cbn. reflexivity. Qed.

Lemma g_when {HR : PreOrder R} b m : guarantees R m -> guarantees R (when b m).
Proof. intros H. destruct b; [exact H | apply g_ret]. Qed.

Lemma g_or_return {HR : PreOrder R} {E} (m k : M (option E)) :
  guarantees R m -> guarantees R k -> guarantees R (or_return m k).
Proof. intros Hm Hk. apply g_bind; [done|]. intros [e|]; [apply g_ret | done]. Qed.

Lemma g_ok {HR : PreOrder R} {E} : guarantees R (@ok E).
Proof. apply g_ret. Qed.

Lemma g_each {HR : PreOrder R} {T} (f : T -> M unit) l :
  (forall x, guarantees R (f x)) -> guarantees R (each f l).
Proof. intros H. induction l; [apply g_ret | apply g_bind; auto]. Qed.
End Computations.

(** ** Before and after

    [triple P m Q]: from a state with [P], [m] returns a value and leaves a state with [Q]. *)

Section Triples.
Context {S : Type}.
Implicit Types (P : S -> Prop).

Definition triple {T} P (m : ST S T) (Q : T -> S -> Prop) : Prop := forall st, P st -> Q (m st).2 (m st).1.

Lemma t_bind {T U} P (Q : T -> S -> Prop) (R : U -> S -> Prop) (m : ST S T) (k : T -> ST S U) :
  triple P m Q -> (forall v, triple (Q v) (k v) R) -> triple P (m ≫= k) R.
Proof. intros Hm Hk st H. unfold mbind, M_bind. specialize (Hm st H). destruct (m st) as [st' v]. by apply Hk. Qed.
Lemma t_ret {T} P (Q : T -> S -> Prop) v : (forall st, P st -> Q v st) -> triple P (mret v) Q.
Proof. intros H st Hst. by apply H. Qed.
Lemma t_weaken {T} P P' (Q Q' : T -> S -> Prop) (m : ST S T) :
  triple P' m Q' -> (forall st, P st -> P' st) -> (forall v st, Q' v st -> Q v st) -> triple P m Q.
Proof. intros Hm HP HQ st H. apply HQ, Hm, HP, H. Qed.
Lemma t_when P (Q : S -> Prop) b m :
  (b = true -> triple P m (fun _ => Q)) -> (b = false -> forall st, P st -> Q st) -> triple P (when b m) (fun _ => Q).
Proof. intros Ht Hf. destruct b; [by apply Ht | by apply t_ret, Hf]. Qed.
(** A computation that leaves a part alone keeps what is said about that part. *)
Lemma t_same {T A} P (f : S -> A) (m : ST S T) :
  guarantees (fun st st' => f st' = f st) m -> (forall st st', f st' = f st -> P st -> P st') -> triple P m (fun _ => P).
Proof. intros Hm HP st H. eapply HP; [apply Hm | exact H]. Qed.
End Triples.

(** A relation given by an invariant. *)
Definition keeps {S : Type} (I : S -> Prop) : relation S := fun st st' => I st -> I st'.
#[export] Instance keeps_preorder {S : Type} (I : S -> Prop) : PreOrder (keeps I).
Proof. split; unfold keeps; [auto | intros x y z H1 H2 H; auto]. Qed.

(** A relation given by a part of the state that does not change. *)
Definition same {S T : Type} (f : S -> T) : relation S := fun st st' => f st' = f st.
#[export] Instance same_preorder {S T : Type} (f : S -> T) : PreOrder (same f).
Proof. split; unfold same; [done | congruence]. Qed.

(** [by_parts_with prims] takes a computation apart; the hints of [parts] prove the
    operations it does not look into, and [prims] the primitive ones of a session. *)
Create HintDb parts.
Ltac by_parts_with prims :=
  repeat first
    [ progress intros
    | match goal with |- PreOrder _ => exact _ end
    | solve [auto with parts nocore]
    | apply g_bind | apply g_ret | apply g_when | apply g_or_return | apply g_ok | apply g_each
    | match goal with
      | |- guarantees _ (match ?x with _ => _ end) => destruct x
      | |- guarantees _ (let _ := _ in _) => cbv zeta
      end
    | prims ].

(** [by_returns] does the same for what is returned. *)
Ltac by_returns :=
  repeat first
    [ progress intros
    | match goal with |- returns _ (match ?x with _ => _ end) => destruct x end
    | apply returns_ret | apply returns_bind ].
