(* ===== verification/Crc.v ===== *)
(** * The link-layer check sequence, CRC-16/DNP (src/internal/link/crc.go)

    The table-driven [CRC] that production code calls, the bit-at-a-time reference
    [crcBitwise], and the two routines that check and append a CRC in transmission order.
    The theorems show that the table routine computes the reference, and what the code
    detects: any corruption confined to two adjacent octets changes the CRC. *)

From S2P Require Import Prelude.

(** ** Definitions *)

Definition crcPoly : Z := 0x3D65.
Definition crcRevPoly : Z := 0xA6BC.
Definition crcXorOut : Z := 0xFFFF.

(** One turn of the inner loop, shared by the table builder and the reference. *)
Definition crc_shift (crc : Z) : Z :=
  if negb (Z.land crc 1 =? 0) then Z.lxor (Z.shiftr crc 1) crcRevPoly else Z.shiftr crc 1.

(** The loop [for range 8]. *)
Definition crc_shift8 (crc : Z) : Z := Nat.iter 8 crc_shift crc.

Definition buildCRCTable : list Z := (fun i => crc_shift8 (u16 (Z.of_nat i))) <$> seq 0 256.

Definition crcTable : list Z := buildCRCTable.

Definition crc_step (crc b : Z) : Z :=
  Z.lxor (Z.shiftr crc 8) (at_ crcTable (Z.lxor (u8 crc) b)).

Definition CRC (data : list Z) : Z := Z.lxor (fold_left crc_step data 0) crcXorOut.

Definition crcBitwise_step (crc b : Z) : Z := crc_shift8 (Z.lxor crc (u16 b)).

Definition crcBitwise (data : list Z) : Z :=
  Z.lxor (fold_left crcBitwise_step data 0) crcXorOut.

Definition CRCValid (data crc : list Z) : bool :=
  if len crc <? 2 then false
  else
    let want := CRC data in
    (at_ crc 0 =? u8 want) && (at_ crc 1 =? u8 (Z.shiftr want 8)).

Definition appendCRC (dst data : list Z) : list Z :=
  let c := CRC data in dst ++ [u8 c; u8 (Z.shiftr c 8)].

(** ** Bit-level lemmas *)

Lemma land_ones_bound n x : 0 <= n -> (0 <= x < 2 ^ n <-> Z.land x (Z.ones n) = x).
Proof.
  intros Hn. rewrite Z.land_ones by done. split.
  - intros. by apply Z.mod_small.
  - intros <-. apply Z.mod_pos_bound. lia.
Qed.

Lemma lxor_bound n a b : 0 <= n -> 0 <= a < 2 ^ n -> 0 <= b < 2 ^ n -> 0 <= Z.lxor a b < 2 ^ n.
Proof.
  intros Hn Ha Hb. rewrite land_ones_bound in * by done.
  rewrite <- Ha, <- Hb at 1. apply Z.bits_inj'. intros i Hi.
  rewrite ?Z.land_spec, ?Z.lxor_spec, ?Z.land_spec.
  rewrite <- Ha at 2. rewrite <- Hb at 2. rewrite !Z.land_spec.
  destruct (Z.testbit a i), (Z.testbit b i), (Z.testbit (Z.ones n) i); done.
Qed.

Lemma lxor_u16 a b : is_u16 a -> is_u16 b -> is_u16 (Z.lxor a b).
Proof. apply (lxor_bound 16). lia. Qed.

Lemma land_255_u8 x : Z.land x 255 = u8 x.
Proof. apply (Z.land_ones x 8). lia. Qed.

Lemma octet_shiftr b : octet_ok b -> Z.shiftr b 8 = 0.
Proof. intros. rewrite shiftr_8. by apply Z.div_small. Qed.

Lemma lxor_swap4 a b c d : Z.lxor (Z.lxor a b) (Z.lxor c d) = Z.lxor (Z.lxor a c) (Z.lxor b d).
Proof. rewrite !Z.lxor_assoc. f_equal. rewrite <- !Z.lxor_assoc. f_equal. apply Z.lxor_comm. Qed.

(** ** The shift register is linear, keeps 16 bits, and is injective *)

Lemma crc_shift_odd x :
  crc_shift x = Z.lxor (Z.shiftr x 1) (if Z.odd x then crcRevPoly else 0).
Proof.
  unfold crc_shift. change 1 with (Z.ones 1) at 1. rewrite Z.land_ones by lia.
  change (2 ^ 1) with 2. rewrite Zmod_odd.
  destruct (Z.odd x); cbn; [done | by rewrite Z.lxor_0_r].
Qed.

Lemma crc_shift_lxor a b : crc_shift (Z.lxor a b) = Z.lxor (crc_shift a) (crc_shift b).
Proof.
  rewrite !crc_shift_odd, Z.shiftr_lxor, lxor_swap4. f_equal.
  rewrite <- !Z.bit0_odd, Z.lxor_spec.
  destruct (Z.testbit a 0), (Z.testbit b 0); cbn; rewrite ?Z.lxor_0_r, ?Z.lxor_nilpotent; done.
Qed.

Lemma crc_shift_u16 x : is_u16 x -> is_u16 (crc_shift x).
Proof.
  intros Hx. rewrite crc_shift_odd. apply lxor_u16.
  - unfold is_u16 in *. rewrite Z.shiftr_div_pow2 by lia.
    change (2 ^ 1) with 2. split; [apply Z.div_pos; lia | apply Z.div_lt_upper_bound; lia].
  - destruct (Z.odd x); unfold is_u16, crcRevPoly; lia.
Qed.

(** The register never loses information: its top bit tells which branch was taken. *)
Lemma crc_shift_zero x : is_u16 x -> crc_shift x = 0 -> x = 0.
Proof.
  intros Hx H. rewrite crc_shift_odd in H. apply Z.lxor_eq in H.
  unfold is_u16 in Hx. rewrite Z.shiftr_div_pow2 in H by lia. change (2 ^ 1) with 2 in H.
  assert (x / 2 < 32768) by (apply Z.div_lt_upper_bound; lia).
  pose proof (Z.div_mod x 2 ltac:(lia)) as E. rewrite Zmod_odd in E.
  destruct (Z.odd x); [unfold crcRevPoly in H |]; lia.
Qed.

Lemma crc_iter_lxor n a b :
  Nat.iter n crc_shift (Z.lxor a b) = Z.lxor (Nat.iter n crc_shift a) (Nat.iter n crc_shift b).
Proof. induction n as [|n IH]; [done|]. by rewrite !Nat.iter_succ, IH, crc_shift_lxor. Qed.

Lemma crc_iter_u16 n x : is_u16 x -> is_u16 (Nat.iter n crc_shift x).
Proof. induction n; intros; [done|]. rewrite Nat.iter_succ. by apply crc_shift_u16, IHn. Qed.

Lemma crc_iter_zero n x : is_u16 x -> Nat.iter n crc_shift x = 0 -> x = 0.
Proof.
  induction n as [|n IH]; intros Hx H; [done|]. rewrite Nat.iter_succ in H.
  apply IH; [done|]. apply crc_shift_zero; [by apply crc_iter_u16 | done].
Qed.

Lemma crc_iter_inj n a b :
  is_u16 a -> is_u16 b -> Nat.iter n crc_shift a = Nat.iter n crc_shift b -> a = b.
Proof.
  intros Ha Hb H. apply Z.lxor_eq. apply (crc_iter_zero n); [by apply lxor_u16|].
  by rewrite crc_iter_lxor, H, Z.lxor_nilpotent.
Qed.

Lemma crc_iter_shiftl n h : Nat.iter n crc_shift (Z.shiftl h (Z.of_nat n)) = h.
Proof.
  revert h. induction n as [|n IH]; intros h; [by rewrite Z.shiftl_0_r|].
  rewrite Nat.iter_succ_r. rewrite crc_shift_odd.
  replace (Z.odd (Z.shiftl h (Z.of_nat (S n)))) with false.
  - rewrite Z.lxor_0_r. rewrite Z.shiftr_shiftl_l by lia.
    replace (Z.of_nat (S n) - 1) with (Z.of_nat n) by lia. apply IH.
  - symmetry. rewrite <- Z.bit0_odd. rewrite Z.shiftl_spec_low; [done | lia].
Qed.

(** Eight turns shift the high octet down and fold the low octet in through the table. *)
Lemma crc_shift8_split x : crc_shift8 x = Z.lxor (Z.shiftr x 8) (crc_shift8 (u8 x)).
Proof.
  assert (E : x = Z.lxor (Z.shiftl (Z.shiftr x 8) 8) (Z.land x 255)).
  { apply Z.bits_inj'. intros i Hi. rewrite Z.lxor_spec, Z.land_spec, Z.shiftl_spec by done.
    change 255 with (Z.ones 8). destruct (Z.lt_ge_cases i 8).
    - rewrite (Z.testbit_neg_r _ (i - 8)) by lia. rewrite Z.ones_spec_low by lia.
      by destruct (Z.testbit x i).
    - rewrite Z.shiftr_spec by lia. rewrite Z.ones_spec_high by lia.
      replace (i - 8 + 8) with i by lia. by destruct (Z.testbit x i). }
  unfold crc_shift8. rewrite E at 1. rewrite crc_iter_lxor. f_equal.
  - apply (crc_iter_shiftl 8).
  - by rewrite land_255_u8.
Qed.

Lemma crcTable_lookup i : octet_ok i -> at_ crcTable i = crc_shift8 i.
Proof.
  intros Hi. apply Z.eqb_eq. revert i Hi.
  apply (forall_octets (fun i => at_ crcTable i =? crc_shift8 i)). by vm_compute.
Qed.

Lemma u8_lxor a b : octet_ok b -> u8 (Z.lxor a b) = Z.lxor (u8 a) b.
Proof.
  intros Hb. rewrite <- !land_255_u8. apply (land_ones_bound 8) in Hb; [|lia].
  rewrite <- Hb at 2. apply Z.bits_inj'. intros i Hi.
  change (Z.ones 8) with 255.
  rewrite ?Z.land_spec, ?Z.lxor_spec, ?Z.land_spec.
  destruct (Z.testbit a i), (Z.testbit b i), (Z.testbit 255 i); done.
Qed.

Lemma crc_step_bitwise crc b : octet_ok b -> crc_step crc b = crcBitwise_step crc b.
Proof.
  intros Hb. unfold crc_step, crcBitwise_step.
  rewrite u16_small by (unfold is_u16, octet_ok in *; lia).
  rewrite crc_shift8_split, Z.shiftr_lxor, (octet_shiftr b) by done.
  rewrite Z.lxor_0_r, <- u8_lxor by done. by rewrite crcTable_lookup by apply u8_ok.
Qed.

Lemma crc_bitwise_fold data c :
  octets_ok data -> fold_left crc_step data c = fold_left crcBitwise_step data c.
Proof.
  intros H. revert c. induction H as [|b l Hb Hl IH]; intros c; [done|].
  cbn. by rewrite crc_step_bitwise, IH.
Qed.

Lemma crcBitwise_step_u16 c b : is_u16 c -> octet_ok b -> is_u16 (crcBitwise_step c b).
Proof.
  intros Hc Hb. apply crc_iter_u16, lxor_u16; [done|]. apply u16_range.
Qed.

Lemma crc_fold_u16 data c : is_u16 c -> octets_ok data -> is_u16 (fold_left crc_step data c).
Proof.
  intros Hc H. rewrite crc_bitwise_fold by done. revert c Hc.
  induction H as [|b l Hb Hl IH]; intros c Hc; [done|].
  cbn. by apply IH, crcBitwise_step_u16.
Qed.

Lemma CRC_u16 data : octets_ok data -> is_u16 (CRC data).
Proof.
  intros. apply lxor_u16; [by apply crc_fold_u16 | done].
Qed.

Lemma crcBitwise_step_inj c c' b b' :
  is_u16 c -> is_u16 c' -> octet_ok b -> octet_ok b' ->
  crcBitwise_step c b = crcBitwise_step c' b' -> Z.lxor c b = Z.lxor c' b'.
Proof.
  intros Hc Hc' Hb Hb' H. unfold crcBitwise_step in H.
  assert (is_u16 b /\ is_u16 b') as [? ?] by (unfold is_u16, octet_ok in *; lia).
  rewrite !u16_small in H by done. revert H. apply crc_iter_inj; by apply lxor_u16.
Qed.

(** The state reached over a common suffix determines the state before it. *)
Lemma crc_fold_inj data c c' :
  octets_ok data -> is_u16 c -> is_u16 c' ->
  fold_left crc_step data c = fold_left crc_step data c' -> c = c'.
Proof.
  intros H. rewrite !crc_bitwise_fold by done. revert c c'.
  induction H as [|b l Hb Hl IH]; intros c c' Hc Hc'; [done|].
  cbn. intros E. apply IH in E; [|by apply crcBitwise_step_u16..].
  apply crcBitwise_step_inj in E; [|done..].
  apply (f_equal (fun z => Z.lxor z b)) in E.
  by rewrite !Z.lxor_assoc, !Z.lxor_nilpotent, !Z.lxor_0_r in E.
Qed.

(** Two octets fed one after the other are one 16-bit word fed at once. *)
Lemma crc_two_steps c b0 b1 :
  octet_ok b0 -> octet_ok b1 ->
  crcBitwise_step (crcBitwise_step c b0) b1 =
  Nat.iter 16 crc_shift (Z.lxor c (Z.lxor b0 (Z.shiftl b1 8))).
Proof.
  intros H0 H1. unfold crcBitwise_step.
  rewrite !u16_small by (unfold is_u16, octet_ok in *; lia).
  rewrite <- (crc_iter_shiftl 8 b1) at 1. unfold crc_shift8 at 2.
  rewrite <- crc_iter_lxor. unfold crc_shift8.
  change 16%nat with (8 + 8)%nat. rewrite Nat.iter_add. by rewrite Z.lxor_assoc.
Qed.

Lemma octet_pair_word b0 b1 :
  octet_ok b0 -> octet_ok b1 ->
  Z.lxor b0 (Z.shiftl b1 8) = b0 + 256 * b1.
Proof.
  intros H0 H1. rewrite Z.shiftl_mul_pow2 by lia. change (2 ^ 8) with 256.
  rewrite <- Z.add_nocarry_lxor; [lia|].
  replace (b1 * 256) with (Z.shiftl b1 8) by (rewrite Z.shiftl_mul_pow2; lia).
  apply Z.bits_inj'. intros i Hi. rewrite Z.land_spec, Z.bits_0.
  destruct (Z.lt_ge_cases i 8); [rewrite Z.shiftl_spec_low by lia; by rewrite andb_false_r|].
  replace (Z.testbit b0 i) with false; [done|]. symmetry.
  destruct (Z.eq_dec b0 0) as [->|]; [apply Z.testbit_0_l|].
  apply Z.bits_above_log2; [unfold octet_ok in *; lia|].
  apply Z.log2_lt_pow2; [unfold octet_ok in *; lia|].
  apply Z.lt_le_trans with (2 ^ 8); [unfold octet_ok in *; lia|].
  apply Z.pow_le_mono_r; lia.
Qed.

Lemma crc_pair_inj c b0 b1 b0' b1' :
  is_u16 c -> octet_ok b0 -> octet_ok b1 -> octet_ok b0' -> octet_ok b1' ->
  crc_step (crc_step c b0) b1 = crc_step (crc_step c b0') b1' -> b0 = b0' /\ b1 = b1'.
Proof.
  intros Hc H0 H1 H0' H1' E. rewrite !crc_step_bitwise in E by done.
  rewrite !crc_two_steps, !octet_pair_word in E by done.
  assert (is_u16 (b0 + 256 * b1) /\ is_u16 (b0' + 256 * b1')) as [? ?]
    by (unfold is_u16, octet_ok in *; lia).
  apply crc_iter_inj in E; [|by apply lxor_u16..].
  apply (f_equal (Z.lxor c)) in E.
  rewrite <- !Z.lxor_assoc, !Z.lxor_nilpotent, !Z.lxor_0_l in E.
  unfold octet_ok in *. lia.
Qed.

Lemma CRC_inj_fold a b : CRC a = CRC b -> fold_left crc_step a 0 = fold_left crc_step b 0.
Proof.
  unfold CRC. intros E. apply (f_equal (fun z => Z.lxor z crcXorOut)) in E.
  by rewrite !Z.lxor_assoc, !Z.lxor_nilpotent, !Z.lxor_0_r in E.
Qed.

Lemma CRC_octets_inj data data' :
  octets_ok data -> octets_ok data' ->
  u8 (CRC data) = u8 (CRC data') -> u8 (Z.shiftr (CRC data) 8) = u8 (Z.shiftr (CRC data') 8) ->
  CRC data = CRC data'.
Proof.
  intros H H' E1 E2. pose proof (CRC_u16 data H). pose proof (CRC_u16 data' H').
  rewrite !shiftr_8 in E2. unfold is_u16, u8 in *.
  rewrite (Z.mod_small (CRC data / 256)), (Z.mod_small (CRC data' / 256)) in E2
    by (split; [apply Z.div_pos | apply Z.div_lt_upper_bound]; lia).
  rewrite (Z.div_mod (CRC data) 256), (Z.div_mod (CRC data') 256) by lia. lia.
Qed.

(** The three helpers the frame codec rests on. *)
Lemma appendCRC_length dst data : length (appendCRC dst data) = (length dst + 2)%nat.
Proof. unfold appendCRC. by rewrite length_app. Qed.

Lemma appendCRC_app dst data : appendCRC dst data = dst ++ appendCRC [] data.
Proof. reflexivity. Qed.

Lemma appendCRC_ok dst data : octets_ok dst -> octets_ok (appendCRC dst data).
Proof.
  intros. apply octets_ok_app. split; [done|].
  repeat (apply octets_ok_cons; split; [apply u8_ok|]). apply octets_ok_nil.
Qed.

Lemma CRCValid_append data : CRCValid data (appendCRC [] data) = true.
Proof. unfold CRCValid, appendCRC, at_. cbn. by rewrite !Z.eqb_refl. Qed.

Lemma CRCValid_iff data crc :
  length crc = 2%nat -> (CRCValid data crc = true <-> crc = appendCRC [] data).
Proof.
  intros Hl. destruct crc as [|a [|b [|]]]; try discriminate.
  unfold CRCValid, appendCRC, at_. change (len [a; b] <? 2) with false. norm_nat.
  cbn -[u8 Z.shiftr].
  rewrite andb_true_iff, !Z.eqb_eq. split; [intros [-> ->]; done | naive_solver].
Qed.

(** ** Properties *)

(** [crcRevPoly] is [crcPoly] with its sixteen bits reversed, as the comment in the source
    says. *)
Lemma crcRevPoly_reversed :
  forallb (fun i => Bool.eqb (Z.testbit crcRevPoly i) (Z.testbit crcPoly (15 - i)))
    (Z.of_nat <$> seq 0 16) = true.
Proof. by vm_compute. Qed.

(** The published check value: the CRC of ["123456789"] is 0xEA82. *)
Example CRC_check_value : CRC [49; 50; 51; 52; 53; 54; 55; 56; 57] = 0xEA82.
Proof. by vm_compute. Qed.

(** C40. The table-driven routine production code calls computes, on every octet sequence,
    the value of the unoptimised bitwise reference, and that value fits sixteen bits. *)
Theorem CRC_is_crcBitwise (data : list Z) :
  octets_ok data -> CRC data = crcBitwise data /\ is_u16 (CRC data).
Proof.
  intros H. split; [|by apply CRC_u16].
  unfold CRC, crcBitwise. by rewrite crc_bitwise_fold.
Qed.

Lemma CRC_is_crcBitwise_witness :
  octets_ok [5; 100; 255] /\ CRC [5; 100; 255] = crcBitwise [5; 100; 255].
Proof.
  assert (H : octets_ok [5; 100; 255]) by (repeat constructor; unfold octet_ok; lia).
  exact (conj H (proj1 (CRC_is_crcBitwise [5; 100; 255] H))).
Defined.

(** Burst detection. If two messages differ only inside one window of two adjacent
    octets (so in any burst of up to sixteen bits aligned to octets), the CRC octets of one
    are not accepted for the other. *)
Theorem CRC_detects_burst (pre post : list Z) (a b a' b' : Z) :
  octets_ok (pre ++ [a; b] ++ post) -> octet_ok a' -> octet_ok b' ->
  (a, b) <> (a', b') ->
  CRCValid (pre ++ [a'; b'] ++ post) (appendCRC [] (pre ++ [a; b] ++ post)) = false.
Proof.
  intros Hok Ha' Hb' Hne. apply not_true_is_false. rewrite CRCValid_iff by done.
  intros E. apply Hne. rewrite !octets_ok_app, !octets_ok_cons in Hok.
  destruct Hok as (Hpre & (Ha & Hb & _) & Hpost).
  assert (Hm : octets_ok (pre ++ [a; b] ++ post) /\ octets_ok (pre ++ [a'; b'] ++ post)).
  { rewrite !octets_ok_app, !octets_ok_cons. split_and!; auto with dnp3. }
  unfold appendCRC in E. cbn in E. injection E as E1 E2.
  apply CRC_octets_inj, CRC_inj_fold in E2; [|by apply Hm..|done].
  rewrite !fold_left_app in E2. cbn in E2.
  assert (Hc : is_u16 (fold_left crc_step pre 0)) by (by apply crc_fold_u16).
  assert (Hs : forall c x, is_u16 c -> octet_ok x -> is_u16 (crc_step c x)).
  { intros c x ? ?. rewrite crc_step_bitwise by done. by apply crcBitwise_step_u16. }
  apply crc_fold_inj in E2; [|auto..].
  apply crc_pair_inj in E2 as [-> ->]; done.
Qed.

Lemma CRC_detects_burst_witness :
  CRCValid ([5; 100] ++ [7; 9] ++ [1]) (appendCRC [] ([5; 100] ++ [6; 9] ++ [1])) = false.
Proof.
  apply (CRC_detects_burst [5; 100] [1] 6 9 7 9).
  - repeat constructor; unfold octet_ok; lia.
  - unfold octet_ok; lia.
  - unfold octet_ok; lia.
  - discriminate.
Defined.
