(* ===== verification/LinkFrame.v ===== *)
(** * Link frames (src/internal/link/frame.go)

    Addresses, the control octet, the frame header, and the encoder and decoder of a whole
    frame: an eight-octet header with its CRC followed by the payload in blocks of sixteen
    octets, each with a CRC of its own.

    A Go [error] is a value of [LinkErr] (the text an error wraps is dropped).  The payload
    [Decode] returns is a value here; in the code it may alias a caller's buffer. *)

From S2P Require Import Prelude Crc.

(** ** Wire constants *)

Definition StartByte0 : Z := 0x05.
Definition StartByte1 : Z := 0x64.
Definition HeaderSize : Z := 10.
Definition BlockSize : Z := 16.
Definition CRCSize : Z := 2.
Definition MinLength : Z := 5.
Definition MaxLength : Z := 255.
Definition MaxPayload : Z := MaxLength - MinLength.
Definition MaxFrameSize : Z := HeaderSize + MaxPayload + 16 * CRCSize.

(** ** Addresses *)

Definition BroadcastOptionalConfirm : Z := 0xFFFF.
Definition BroadcastMandatoryConfirm : Z := 0xFFFE.
Definition BroadcastNoConfirm : Z := 0xFFFD.
Definition SelfAddress : Z := 0xFFFC.
Definition reservedLow : Z := 0xFFF0.
Definition reservedHigh : Z := 0xFFFB.

Definition IsBroadcast (addr : Z) : bool :=
  (BroadcastNoConfirm <=? addr) && (addr <=? BroadcastOptionalConfirm).
Definition IsReserved (addr : Z) : bool := (reservedLow <=? addr) && (addr <=? reservedHigh).
Definition IsValidSource (addr : Z) : bool :=
  negb (IsReserved addr) && negb (IsBroadcast addr) && negb (addr =? SelfAddress).

(** ** Function codes *)

Definition FuncResetLinkStates : Z := 0.
Definition FuncTestLinkStates : Z := 2.
Definition FuncConfirmedUserData : Z := 3.
Definition FuncUnconfirmedUserData : Z := 4.
Definition FuncRequestLinkStatus : Z := 9.
Definition FuncAck : Z := 0.
Definition FuncNack : Z := 1.
Definition FuncLinkStatus : Z := 11.
Definition FuncNotSupported : Z := 15.

(** ** The control octet *)

Record Control := mkControl { Dir : bool; Prm : bool; Fcb : bool; Fcv : bool; Func : Z }.

Definition ctrlDir : Z := 0x80.
Definition ctrlPrm : Z := 0x40.
Definition ctrlFcb : Z := 0x20.
Definition ctrlFcv : Z := 0x10.
Definition ctrlFunc : Z := 0x0F.

(** [if cond { b |= mask }] *)
Definition set_if (cond : bool) (mask b : Z) : Z := if cond then Z.lor b mask else b.

Definition Control_Byte (c : Control) : Z :=
  let b := set_if (Dir c) ctrlDir 0 in
  let b := set_if (Prm c) ctrlPrm b in
  let b := set_if (Fcb c) ctrlFcb b in
  let b := set_if (Fcv c) ctrlFcv b in
  Z.lor b (Z.land (u8 (Func c)) ctrlFunc).

Definition ParseControl (b : Z) : Control :=
  {| Dir := negb (Z.land b ctrlDir =? 0);
     Prm := negb (Z.land b ctrlPrm =? 0);
     Fcb := negb (Z.land b ctrlFcb =? 0);
     Fcv := negb (Z.land b ctrlFcv =? 0);
     Func := Z.land b ctrlFunc |}.

Definition Dfc (c : Control) : bool := negb (Prm c) && Fcv c.

(** ** Headers and frames *)

Record Header := mkHeader { HControl : Control; Dest : Z; Src : Z; Length : Z }.
Record Frame := mkFrame { FHeader : Header; Payload : list Z }.

(** The zero values a failing Go function returns beside its error. *)
Definition Control0 : Control := mkControl false false false false 0.
Definition Header0 : Header := mkHeader Control0 0 0 0.
Definition Frame0 : Frame := mkFrame Header0 [].

#[export] Instance Control_eq_dec : EqDecision Control.
Proof. solve_decision. Defined.
#[export] Instance Header_eq_dec : EqDecision Header.
Proof. solve_decision. Defined.
#[export] Instance Frame_eq_dec : EqDecision Frame.
Proof. solve_decision. Defined.

Definition PayloadLen (h : Header) : Z := Length h - MinLength.

Inductive LinkErr :=
| ErrShortFrame
| ErrBadStart
| ErrBadLength
| ErrHeaderCRC
| ErrBodyCRC
| ErrPayloadTooLong.

Definition bodySize (n : Z) : Z :=
  if n =? 0 then 0
  else let blocks := (n + BlockSize - 1) / BlockSize in n + blocks * CRCSize.

Definition FrameSize (n : Z) : Z := HeaderSize + bodySize n.

(** ** Encoding *)

(** The loop [for off := 0; off < len(payload); off += BlockSize]; each turn takes at least
    one octet, so [length payload] turns are enough. *)
Fixpoint encode_body (fuel : nat) (dst payload : list Z) (off : Z) : list Z :=
  match fuel with
  | O => dst
  | S fuel =>
      if off <? len payload then
        let block := slice off (Z.min (off + BlockSize) (len payload)) payload in
        encode_body fuel (appendCRC (dst ++ block) block) payload (off + BlockSize)
      else dst
  end.

Definition header_octets (h : Header) (payload : list Z) : list Z :=
  [StartByte0; StartByte1; u8 (MinLength + len payload); Control_Byte (HControl h)]
    ++ le16 (Dest h) ++ le16 (Src h).

Definition Encode (dst : list Z) (h : Header) (payload : list Z) : result LinkErr (list Z) :=
  if MaxPayload <? len payload then Err ErrPayloadTooLong
  else
    let hdr := header_octets h payload in
    let dst := appendCRC (dst ++ hdr) hdr in
    Ok (encode_body (length payload) dst payload 0).

(** ** Decoding *)

Definition DecodeHeader (buf : list Z) : result LinkErr Header :=
  if len buf <? HeaderSize then Err ErrShortFrame
  else if negb (at_ buf 0 =? StartByte0) || negb (at_ buf 1 =? StartByte1) then Err ErrBadStart
  else if negb (CRCValid (slice 0 8 buf) (slice 8 10 buf)) then Err ErrHeaderCRC
  else
    let length := at_ buf 2 in
    if length <? MinLength then Err ErrBadLength
    else
      Ok {| HControl := ParseControl (at_ buf 3);
            Dest := le_val (slice 4 6 buf);
            Src := le_val (slice 6 8 buf);
            Length := length |}.

(** The loop over the CRC-protected blocks of a frame body. *)
Fixpoint decode_body (fuel : nat) (payload body : list Z) (off payloadLen : Z)
    : result LinkErr (list Z) :=
  match fuel with
  | O => Ok payload
  | S fuel =>
      if off <? payloadLen then
        let n := Z.min BlockSize (payloadLen - off) in
        let block := slice 0 n body in
        if negb (CRCValid block (slice n (n + CRCSize) body)) then Err ErrBodyCRC
        else
          decode_body fuel (payload ++ block) (drop (Z.to_nat (n + CRCSize)) body)
            (off + BlockSize) payloadLen
      else Ok payload
  end.

Definition Decode (buf : list Z) : result LinkErr (Frame * Z) :=
  match DecodeHeader buf with
  | Err e => Err e
  | Ok h =>
      let payloadLen := PayloadLen h in
      let total := FrameSize payloadLen in
      if len buf <? total then Err ErrShortFrame
      else
        match decode_body (Z.to_nat payloadLen) [] (slice HeaderSize total buf) 0 payloadLen with
        | Err e => Err e
        | Ok payload => Ok (mkFrame h payload, total)
        end
  end.

(** ** Well-formed headers: what the Go field types and the four-bit code leave *)

Definition control_ok (c : Control) : Prop := 0 <= Func c < 16.
Definition header_ok (h : Header) : Prop := control_ok (HControl h) /\ is_u16 (Dest h) /\ is_u16 (Src h).
(** A frame whose LEN octet agrees with its payload. *)
Definition frame_ok (f : Frame) : Prop :=
  header_ok (FHeader f) /\ octets_ok (Payload f) /\ len (Payload f) <= MaxPayload /\
  Length (FHeader f) = MinLength + len (Payload f).

(** ** The control octet round trip *)

Lemma ParseControl_Byte c : control_ok c -> ParseControl (Control_Byte c) = c.
Proof.
  destruct c as [d p fb fv fn]. unfold control_ok; cbn [Func]. intros Hf.
  assert (E : forall n, 0 <= n < 16 ->
     bool_decide (ParseControl (Control_Byte (mkControl d p fb fv n)) = mkControl d p fb fv n) = true).
  { apply (forall_below 16). destruct d, p, fb, fv; vm_compute; reflexivity. }
  by apply (bool_decide_eq_true_1 _), E.
Qed.

Lemma Byte_ParseControl b : octet_ok b -> Control_Byte (ParseControl b) = b.
Proof.
  intros Hb. apply Z.eqb_eq. revert b Hb.
  apply (forall_octets (fun b => Control_Byte (ParseControl b) =? b)). by vm_compute.
Qed.

Lemma ParseControl_ok b : octet_ok b -> control_ok (ParseControl b).
Proof.
  intros Hb. unfold control_ok, ParseControl, ctrlFunc. cbn [Func].
  change 0x0F with (Z.ones 4). rewrite Z.land_ones by lia. apply Z.mod_pos_bound. lia.
Qed.

Lemma Control_Byte_ok c : octet_ok (Control_Byte c).
Proof.
  unfold Control_Byte, octet_ok.
  assert (H : forall n, octet_ok n -> forall d p fb fv,
    let v := Z.lor (set_if fv ctrlFcv (set_if fb ctrlFcb (set_if p ctrlPrm (set_if d ctrlDir 0))))
      (Z.land n ctrlFunc) in (0 <=? v) && (v <? 256) = true).
  { intros n Hn d p fb fv. revert n Hn. cbv zeta.
    apply (forall_octets (fun n => let v := Z.lor (set_if fv ctrlFcv (set_if fb ctrlFcb
       (set_if p ctrlPrm (set_if d ctrlDir 0)))) (Z.land n ctrlFunc) in (0 <=? v) && (v <? 256))).
    destruct d, p, fb, fv; vm_compute; reflexivity. }
  specialize (H _ (u8_ok (Func c)) (Dir c) (Prm c) (Fcb c) (Fcv c)). cbv zeta in *.
  apply andb_true_iff in H. lia.
Qed.

(** ** The body as blocks: the shape both loops share *)

Fixpoint blocks_of (fuel : nat) (l : list Z) : list Z :=
  match fuel with
  | O => []
  | S fuel =>
      match l with
      | [] => []
      | _ => appendCRC (take 16 l) (take 16 l) ++ blocks_of fuel (drop 16 l)
      end
  end.

Lemma slice_block (p : list Z) (k : nat) :
  slice (Z.of_nat k) (Z.min (Z.of_nat k + BlockSize) (len p)) p = take 16 (drop k p).
Proof.
  unfold slice, BlockSize, len. rewrite Nat2Z.id.
  destruct (decide (length p <= k + 16)%nat).
  - rewrite (take_ge (drop k p) 16) by (rewrite length_drop; lia).
    apply take_ge. rewrite length_drop. lia.
  - f_equal. lia.
Qed.

Lemma encode_body_blocks fuel dst p (k : nat) :
  encode_body fuel dst p (Z.of_nat k) = dst ++ blocks_of fuel (drop k p).
Proof.
  revert dst k. induction fuel as [|fuel IH]; intros dst k; cbn [encode_body blocks_of].
  { by rewrite app_nil_r. }
  destruct (Z.of_nat k <? len p) eqn:E; bool_prop; unfold len in E.
  - rewrite slice_block. rewrite appendCRC_app.
    replace (Z.of_nat k + BlockSize) with (Z.of_nat (k + 16)) by (unfold BlockSize; lia).
    rewrite IH. destruct (drop k p) as [|x l] eqn:Ed.
    { apply (f_equal length) in Ed. rewrite length_drop in Ed. cbn in Ed. lia. }
    rewrite <- Ed, drop_drop.
    rewrite (appendCRC_app (take 16 (drop k p))). by rewrite <- !app_assoc.
  - rewrite drop_ge by lia. by rewrite app_nil_r.
Qed.

Lemma bodySize_step n :
  0 < n -> bodySize n = Z.min 16 n + 2 + bodySize (n - Z.min 16 n).
Proof.
  intros Hn. unfold bodySize, BlockSize, CRCSize.
  destruct (Z.eqb_spec n 0); [lia|]. destruct (Z.eqb_spec (n - Z.min 16 n) 0).
  - replace ((n + 16 - 1) / 16) with 1; [lia|].
    apply Z.div_unique with (n - 1); lia.
  - replace (n + 16 - 1) with ((n - Z.min 16 n + 16 - 1) + 1 * 16) by lia.
    rewrite Z.div_add by lia. lia.
Qed.

Lemma bodySize_nonneg n : 0 <= n -> 0 <= bodySize n.
Proof.
  intros. unfold bodySize, BlockSize, CRCSize. destruct (n =? 0); [lia|].
  pose proof (Z.div_pos (n + 16 - 1) 16). lia.
Qed.

Lemma bodySize_max n : 0 <= n <= MaxPayload -> bodySize n <= MaxPayload + 16 * CRCSize.
Proof.
  unfold bodySize, MaxPayload, MaxLength, MinLength, BlockSize, CRCSize. intros.
  destruct (n =? 0); [lia|].
  assert ((n + 16 - 1) / 16 < 17) by (apply Z.div_lt_upper_bound; lia). lia.
Qed.

Lemma len_blocks fuel l : (length l <= fuel)%nat -> len (blocks_of fuel l) = bodySize (len l).
Proof.
  revert l. induction fuel as [|fuel IH]; intros l Hl; cbn [blocks_of].
  { destruct l; [done|]. cbn in Hl. lia. }
  destruct l as [|x l']; [done|]. set (l := x :: l') in *.
  assert (0 < len l) by (unfold l, len; cbn; lia).
  rewrite len_app. rewrite IH.
  - unfold len at 1. rewrite appendCRC_length, length_take.
    rewrite (bodySize_step (len l)) by done.
    replace (len (drop 16 l)) with (len l - Z.min 16 (len l)); [unfold len; lia|].
    unfold len. rewrite length_drop. lia.
  - rewrite length_drop. unfold l in *. cbn in *. lia.
Qed.

Lemma blocks_ok fuel l : octets_ok l -> octets_ok (blocks_of fuel l).
Proof.
  revert l. induction fuel as [|fuel IH]; intros l Hl; cbn; [constructor|].
  destruct l as [|x l']; [constructor|]. apply octets_ok_app. split.
  - apply appendCRC_ok. by apply octets_ok_take.
  - apply IH. by apply octets_ok_drop.
Qed.

(** One turn of the decoding loop on an encoded block. *)
Lemma first_block_split (l rest : list Z) (n : Z) :
  l <> [] -> n = Z.min 16 (len l) ->
  let body := appendCRC (take 16 l) (take 16 l) ++ rest in
  slice 0 n body = take 16 l /\ slice n (n + CRCSize) body = appendCRC [] (take 16 l) /\
  drop (Z.to_nat (n + CRCSize)) body = rest.
Proof.
  intros Hne Hn body. unfold body. rewrite appendCRC_app, <- app_assoc.
  assert (Hlen : length (take 16 l) = Z.to_nat n) by (rewrite length_take; unfold len in Hn; lia).
  unfold slice. rewrite Z.sub_0_r. norm_nat. rewrite drop_0.
  split_and!.
  - by rewrite <- Hlen, take_app_length.
  - rewrite <- Hlen, drop_app_length. unfold CRCSize.
    replace (n + 2 - n) with 2 by lia. reflexivity.
  - unfold CRCSize. unfold len in Hn. rewrite Z2Nat.inj_add by lia. rewrite <- Hlen.
    by rewrite <- drop_drop, drop_app_length.
Qed.

Lemma decode_body_blocks fuel acc l off plen :
  (length l <= fuel)%nat -> plen - off = len l ->
  decode_body fuel acc (blocks_of fuel l) off plen = Ok (acc ++ l).
Proof.
  revert acc l off. induction fuel as [|fuel IH]; intros acc l off Hl Hoff.
  { destruct l; [by rewrite app_nil_r|]. cbn in Hl. lia. }
  cbn [decode_body blocks_of]. destruct l as [|x l'].
  { cbn in Hoff. replace (off <? plen) with false by (symmetry; apply Z.ltb_ge; unfold len in *; cbn in *; lia).
    by rewrite app_nil_r. }
  set (l := x :: l') in *. assert (0 < len l) by (unfold l, len; cbn; lia).
  replace (off <? plen) with true by (symmetry; apply Z.ltb_lt; lia).
  destruct (first_block_split l (blocks_of fuel (drop 16 l)) (Z.min BlockSize (plen - off)))
    as (-> & -> & ->); [done | unfold BlockSize; lia |].
  rewrite CRCValid_append. cbn [negb].
  destruct (decide (length l <= 16)%nat) as [Hs|Hs].
  - rewrite (take_ge l 16), (drop_ge l 16) by lia.
    assert (Hd : forall k a, decode_body k a (blocks_of k []) (off + BlockSize) plen = Ok a).
    { intros [|k] a; [done|]. cbn.
      replace (off + BlockSize <? plen) with false; [done|].
      symmetry. apply Z.ltb_ge. unfold len, BlockSize in *. lia. }
    apply Hd.
  - rewrite IH; [| rewrite length_drop; unfold l in *; cbn in *; lia |].
    + by rewrite <- app_assoc, take_drop.
    + unfold BlockSize, len in *. rewrite length_drop. lia.
Qed.

(** What the loop accepts is exactly an encoding. *)
Lemma decode_body_sound fuel acc body off plen p :
  (Z.to_nat (plen - off) <= fuel)%nat -> len body = bodySize (Z.max 0 (plen - off)) ->
  decode_body fuel acc body off plen = Ok p ->
  exists l, p = acc ++ l /\ len l = Z.max 0 (plen - off) /\ body = blocks_of fuel l.
Proof.
  revert acc body off. induction fuel as [|fuel IH]; intros acc body off Hf Hb; cbn [decode_body].
  { intros [= <-]. exists []. rewrite app_nil_r. split; [done|]. split; [unfold len; cbn; lia|].
    replace (Z.max 0 (plen - off)) with 0 in Hb by lia. unfold bodySize, len in Hb. cbn in Hb.
    destruct body; [done|]. cbn in Hb. lia. }
  destruct (off <? plen) eqn:E; bool_prop.
  2:{ intros [= <-]. exists []. rewrite app_nil_r. split; [done|]. split; [unfold len; cbn; lia|].
      replace (Z.max 0 (plen - off)) with 0 in Hb by lia. unfold bodySize, len in Hb. cbn in Hb.
      destruct body; [done|]. cbn in Hb. lia. }
  set (n := Z.min BlockSize (plen - off)) in *.
  assert (Hn : 0 < n <= 16 /\ n <= plen - off) by (unfold n, BlockSize; lia).
  rewrite Z.max_r in Hb by lia. rewrite bodySize_step in Hb by lia.
  replace (Z.min 16 (plen - off)) with n in Hb by done.
  destruct (CRCValid _ _) eqn:Ec; [|done]. cbn [negb]. intros Hd.
  pose proof (bodySize_nonneg (plen - off - n)).
  assert (Hblk : length (slice 0 n body) = Z.to_nat n).
  { unfold slice. rewrite length_take, length_drop. unfold len in Hb. lia. }
  apply CRCValid_iff in Ec.
  2:{ unfold slice, CRCSize. rewrite length_take, length_drop. unfold len in Hb. lia. }
  apply IH in Hd; [| unfold n, BlockSize in *; lia |].
  2:{ unfold len in *. rewrite length_drop. unfold CRCSize.
      replace (Z.max 0 (plen - (off + BlockSize))) with (plen - off - n)
        by (unfold n, BlockSize; lia). lia. }
  destruct Hd as (l & -> & Hl & Hrest).
  exists (slice 0 n body ++ l). split; [by rewrite <- app_assoc|]. split.
  { rewrite len_app. unfold len at 1. rewrite Hblk. unfold n, BlockSize in *. lia. }
  cbn [blocks_of]. destruct (slice 0 n body ++ l) as [|y l''] eqn:El.
  { apply (f_equal length) in El. rewrite length_app, Hblk in El. cbn in El. lia. }
  rewrite <- El.
  assert (Hcut : take 16 (slice 0 n body ++ l) = slice 0 n body /\ drop 16 (slice 0 n body ++ l) = l).
  { destruct (decide (n = 16)) as [->|Hn'].
    - apply take_drop_app. by rewrite Hblk.
    - assert (l = []) as ->.
      { destruct l; [done|]. unfold len in Hl. cbn in Hl. unfold n, BlockSize in *. lia. }
      rewrite app_nil_r. rewrite take_ge, drop_ge by lia. done. }
  destruct Hcut as [-> ->]. rewrite appendCRC_app, <- Ec, <- Hrest.
  unfold slice, CRCSize. replace (n + 2 - n) with 2 by lia. rewrite Z.sub_0_r. norm_nat. rewrite drop_0.
  rewrite <- app_assoc. rewrite <- (take_drop (Z.to_nat n) body) at 1. f_equal.
  rewrite <- (take_drop 2 (drop (Z.to_nat n) body)) at 1. f_equal.
  rewrite drop_drop. f_equal. lia.
Qed.

(** ** Whole frames *)

Definition frame_octets (h : Header) (p : list Z) : list Z :=
  appendCRC (header_octets h p) (header_octets h p) ++ blocks_of (length p) p.

Lemma length_header_octets h p : length (header_octets h p) = 8%nat.
Proof. reflexivity. Qed.

Lemma header_octets_ok h p : octets_ok (header_octets h p).
Proof.
  unfold header_octets. rewrite !octets_ok_app, !octets_ok_cons.
  split_and!; auto with dnp3; try apply Control_Byte_ok; unfold octet_ok, StartByte0, StartByte1; lia.
Qed.

Lemma Encode_frame dst h p :
  len p <= MaxPayload -> Encode dst h p = Ok (dst ++ frame_octets h p).
Proof.
  intros Hp. unfold Encode, frame_octets. destruct (MaxPayload <? len p) eqn:E; bool_prop; [lia|].
  rewrite (encode_body_blocks _ _ p 0), drop_0. f_equal.
  rewrite (appendCRC_app (dst ++ _)), (appendCRC_app (header_octets h p)).
  by rewrite <- !app_assoc.
Qed.

Lemma len_frame_octets h p : len (frame_octets h p) = FrameSize (len p).
Proof.
  unfold frame_octets. rewrite len_app, len_blocks by done.
  unfold len at 1. rewrite appendCRC_length. reflexivity.
Qed.

Lemma frame_octets_ok h p : octets_ok p -> octets_ok (frame_octets h p).
Proof.
  intros. apply octets_ok_app. split; [apply appendCRC_ok, header_octets_ok | by apply blocks_ok].
Qed.

Lemma FrameSize_bounds n : 0 <= n <= MaxPayload -> HeaderSize <= FrameSize n <= MaxFrameSize.
Proof.
  intros H. unfold FrameSize, MaxFrameSize. pose proof (bodySize_nonneg n).
  pose proof (bodySize_max n). lia.
Qed.

Definition with_length (h : Header) (n : Z) : Header :=
  mkHeader (HControl h) (Dest h) (Src h) n.

Lemma DecodeHeader_octets h p rest :
  header_ok h -> len p <= MaxPayload ->
  DecodeHeader (appendCRC (header_octets h p) (header_octets h p) ++ rest) =
  Ok (with_length h (MinLength + len p)).
Proof.
  intros (Hc & Hd & Hs) Hp. pose proof (len_nonneg p).
  unfold MaxPayload, MaxLength, MinLength in Hp.
  rewrite appendCRC_app, <- app_assoc. unfold DecodeHeader.
  assert (Hu : u8 (MinLength + len p) = MinLength + len p).
  { apply u8_small. unfold octet_ok, MinLength. lia. }
  assert (H8 : len (header_octets h p) = 8) by reflexivity.
  assert (H2 : len (appendCRC [] (header_octets h p)) = 2) by reflexivity.
  remember (header_octets h p) as hdr eqn:Ehdr.
  destruct (len _ <? HeaderSize) eqn:E0.
  { bool_prop. rewrite !len_app in E0. unfold HeaderSize in E0. pose proof (len_nonneg rest). lia. }
  rewrite (slice_front hdr (appendCRC [] hdr ++ rest) 8) by lia.
  rewrite (slice_mid hdr (appendCRC [] hdr) rest 8 10) by lia.
  rewrite CRCValid_append. cbn [negb].
  rewrite !at_app_l by lia. rewrite !(slice_app_l hdr) by lia. subst hdr.
  unfold header_octets, at_. norm_nat. cbn [nth app]. rewrite Hu. cbn [negb orb].
  change (StartByte0 =? StartByte0) with true. change (StartByte1 =? StartByte1) with true. cbn [negb orb].
  destruct (MinLength + len p <? MinLength) eqn:E1; bool_prop; [lia|].
  rewrite ParseControl_Byte by done. f_equal. unfold with_length. f_equal.
  - by apply le16_val.
  - by apply le16_val.
Qed.

Lemma Decode_frame_octets h p rest :
  header_ok h -> octets_ok p -> len p <= MaxPayload ->
  Decode (frame_octets h p ++ rest) =
  Ok (mkFrame (with_length h (MinLength + len p)) p, FrameSize (len p)).
Proof.
  intros Hh Hok Hp. pose proof (len_nonneg p) as Hp0. unfold Decode.
  assert (Hlen : len (frame_octets h p ++ rest) = FrameSize (len p) + len rest)
    by (rewrite len_app, len_frame_octets; done).
  assert (Hcut : slice HeaderSize (FrameSize (len p)) (frame_octets h p ++ rest) = blocks_of (length p) p).
  { unfold frame_octets. rewrite <- app_assoc. apply slice_mid; [done|].
    by rewrite len_blocks. }
  assert (Hhdr : DecodeHeader (frame_octets h p ++ rest) = Ok (with_length h (MinLength + len p))).
  { unfold frame_octets. rewrite <- app_assoc. by apply DecodeHeader_octets. }
  rewrite Hhdr. unfold PayloadLen. cbn [Length with_length].
  replace (MinLength + len p - MinLength) with (len p) by lia.
  rewrite Hlen. destruct (_ <? _) eqn:E; bool_prop.
  { pose proof (len_nonneg rest). lia. }
  rewrite Hcut.
  replace (Z.to_nat (len p)) with (length p) by (unfold len; lia).
  rewrite decode_body_blocks by (done || lia). done.
Qed.

(** ** What the decoder accepts *)

Lemma DecodeHeader_ok_inv buf h :
  octets_ok buf -> DecodeHeader buf = Ok h ->
  header_ok h /\ HeaderSize <= len buf /\ MinLength <= Length h < 256 /\
  forall p, len p = Length h - MinLength ->
    slice 0 HeaderSize buf = appendCRC (header_octets h p) (header_octets h p).
Proof.
  intros Hok. unfold DecodeHeader.
  destruct (len buf <? HeaderSize) eqn:E0; [done|]. bool_prop. unfold HeaderSize in E0.
  destruct (_ || _) eqn:E1; [done|]. bool_prop.
  destruct (CRCValid _ _) eqn:E2; [|done]. cbn [negb].
  destruct (_ <? _) eqn:E3; [done|]. bool_prop. intros [= <-]. cbn [Length].
  assert (Ho : forall i, octet_ok (at_ buf i)) by auto with dnp3.
  apply CRCValid_iff in E2; [|by rewrite length_slice by lia].
  assert (Hw : forall i, 0 <= i -> i + 2 <= len buf -> is_u16 (le_val (slice i (i + 2) buf))).
  { intros i Hi Hl. pose proof (le_val_bound (slice i (i + 2) buf) (octets_ok_slice _ _ _ Hok)) as Hb.
    rewrite len_slice in Hb by lia. replace (i + 2 - i) with 2 in Hb by lia. exact Hb. }
  split; [|split; [unfold HeaderSize; lia | split; [pose proof (Ho 2) as Ho2; unfold octet_ok in Ho2; lia|]]].
  - split_and!; cbn; [by apply ParseControl_ok | apply (Hw 4); lia | apply (Hw 6); lia].
  - intros p Hp.
    assert (Hhdr : slice 0 8 buf = header_octets (mkHeader (ParseControl (at_ buf 3))
                 (le_val (slice 4 6 buf)) (le_val (slice 6 8 buf)) (at_ buf 2)) p).
    { unfold header_octets. cbn [HControl Dest Src]. rewrite Byte_ParseControl by done.
      rewrite Hp. replace (MinLength + (at_ buf 2 - MinLength)) with (at_ buf 2) by lia.
      rewrite u8_small by done. rewrite !le_bytes_val by
        (first [by apply octets_ok_slice | by rewrite length_slice by lia]).
      rewrite <- H, <- H0. clear -E0. unfold len in E0.
      do 8 (destruct buf as [|? buf]; [cbn in E0; lia|]). done. }
    rewrite <- Hhdr, appendCRC_app, <- E2. clear -E0.
    unfold slice, HeaderSize, len in *. cbn in E0.
    do 10 (destruct buf as [|? buf]; [cbn in E0; lia|]). done.
Qed.

Lemma Decode_inv buf f n :
  octets_ok buf -> Decode buf = Ok (f, n) ->
  frame_ok f /\ n = FrameSize (len (Payload f)) /\ n <= len buf /\
  slice 0 n buf = frame_octets (FHeader f) (Payload f).
Proof.
  intros Hok. unfold Decode. destruct (DecodeHeader buf) as [h|] eqn:Eh; [|done].
  apply DecodeHeader_ok_inv in Eh as (Hh & H10 & Hlen & Henc); [|done].
  destruct (_ <? _) eqn:E; [done|]. bool_prop. unfold PayloadLen in *.
  destruct (decode_body _ _ _ _ _) as [p|] eqn:Ed; [|done]. intros [= <- <-].
  set (m := Length h - MinLength) in *.
  assert (Hm : 0 <= m <= MaxPayload) by (unfold m, MaxPayload, MaxLength, MinLength in *; lia).
  pose proof (FrameSize_bounds m Hm) as Hfs.
  assert (Hbody : len (slice HeaderSize (FrameSize m) buf) = bodySize m).
  { rewrite len_slice by (unfold HeaderSize in *; lia). unfold FrameSize. lia. }
  apply decode_body_sound in Ed as (l & Hl & Hll & Hb);
    [| lia | rewrite Z.sub_0_r, Z.max_r by lia; done].
  cbn in Hl. subst p. rewrite Z.sub_0_r, Z.max_r in Hll by lia. cbn [FHeader Payload].
  assert (Hsplit : slice 0 (FrameSize m) buf =
            slice 0 HeaderSize buf ++ slice HeaderSize (FrameSize m) buf).
  { unfold slice. rewrite !Z.sub_0_r. change (Z.to_nat 0) with 0%nat. rewrite !drop_0.
    rewrite <- (take_drop (Z.to_nat HeaderSize) (take (Z.to_nat (FrameSize m)) buf)).
    rewrite take_take, Nat.min_l by (unfold HeaderSize in *; lia). f_equal.
    rewrite skipn_firstn_comm. f_equal. unfold HeaderSize in *. lia. }
  assert (Hfull : slice 0 (FrameSize m) buf = frame_octets h l).
  { rewrite Hsplit, (Henc l Hll), Hb. unfold frame_octets. do 2 f_equal. unfold len in Hll. lia. }
  rewrite Hll. split_and!; [|done|lia|done].
  unfold frame_ok. cbn. split_and!; [done| |lia|lia].
  assert (octets_ok (blocks_of (Z.to_nat m) l)) as Hbk by (rewrite <- Hb; auto with dnp3).
  assert (Hfl : (length l <= Z.to_nat m)%nat) by (unfold len in Hll; lia).
  clear -Hbk Hfl. revert l Hbk Hfl. induction (Z.to_nat m) as [|k IH]; intros l Hbk Hfl.
  - destruct l; [constructor | cbn in Hfl; lia].
  - cbn in Hbk. destruct l as [|x l']; [constructor|]. set (l := x :: l') in *.
    apply octets_ok_app in Hbk as [Hb1 Hb2]. apply octets_ok_app in Hb1 as [Hb1 _].
    rewrite <- (take_drop 16 l). apply octets_ok_app. split; [done|].
    apply IH; [done|]. rewrite length_drop. unfold l in *. cbn in *. lia.
Qed.

(** ** Decoding looks no further than the frame *)

Lemma DecodeHeader_prefix buf more :
  HeaderSize <= len buf -> DecodeHeader (buf ++ more) = DecodeHeader buf.
Proof.
  unfold HeaderSize. intros H. unfold DecodeHeader. rewrite len_app.
  pose proof (len_nonneg more).
  replace (len buf + len more <? HeaderSize) with false by (symmetry; apply Z.ltb_ge; unfold HeaderSize; lia).
  replace (len buf <? HeaderSize) with false by (symmetry; apply Z.ltb_ge; unfold HeaderSize; lia).
  rewrite !at_app_l, !slice_app_l by lia. done.
Qed.

Lemma DecodeHeader_short buf : DecodeHeader buf = Err ErrShortFrame -> len buf < HeaderSize.
Proof.
  unfold DecodeHeader. destruct (len buf <? HeaderSize) eqn:E; bool_prop; [done|].
  repeat destr_if; done.
Qed.

Lemma decode_body_err fuel acc body off plen e :
  decode_body fuel acc body off plen = Err e -> e = ErrBodyCRC.
Proof.
  revert acc body off. induction fuel as [|k IH]; intros acc body off; cbn; [done|].
  repeat destr_if; try done; [congruence|]. apply IH.
Qed.

Lemma Decode_prefix buf more :
  Decode buf <> Err ErrShortFrame -> Decode (buf ++ more) = Decode buf.
Proof.
  intros H. unfold Decode in *.
  destruct (Z.lt_ge_cases (len buf) HeaderSize) as [Hs|Hs].
  { destruct H. unfold DecodeHeader. apply Z.ltb_lt in Hs. by rewrite Hs. }
  rewrite DecodeHeader_prefix by lia. destruct (DecodeHeader buf) as [h|e]; [|done].
  destruct (len buf <? _) eqn:E; [done|]. bool_prop. rewrite len_app. pose proof (len_nonneg more).
  replace (len buf + len more <? _) with false by (symmetry; apply Z.ltb_ge; lia).
  by rewrite slice_app_l by (unfold HeaderSize in *; lia).
Qed.

Lemma Decode_short buf :
  octets_ok buf -> Decode buf = Err ErrShortFrame -> len buf < MaxFrameSize.
Proof.
  intros Hok. unfold Decode. destruct (DecodeHeader buf) as [h|e] eqn:Eh.
  - apply DecodeHeader_ok_inv in Eh as (_ & _ & Hl & _); [|done].
    unfold PayloadLen. destruct (len buf <? _) eqn:E; bool_prop.
    + intros _. pose proof (FrameSize_bounds (Length h - MinLength)).
      unfold MaxPayload, MaxLength in *. lia.
    + destruct (decode_body _ _ _ _ _) eqn:Ed; [done|]. apply decode_body_err in Ed. congruence.
  - intros [= ->]. apply DecodeHeader_short in Eh. unfold HeaderSize, MaxFrameSize, HeaderSize in *.
    change (10 + MaxPayload + 16 * CRCSize) with 292. lia.
Qed.

Lemma Decode_consumes buf f n :
  octets_ok buf -> Decode buf = Ok (f, n) -> HeaderSize <= n <= len buf.
Proof.
  intros Hok H. apply Decode_inv in H as ((_ & _ & Hp & _) & -> & Hle & _); [|done].
  pose proof (FrameSize_bounds (len (Payload f))). pose proof (len_nonneg (Payload f)). lia.
Qed.

Lemma Decode_not_too_long buf : Decode buf <> Err ErrPayloadTooLong.
Proof.
  unfold Decode, DecodeHeader. repeat destr_if; try done.
  destruct (decode_body _ _ _ _ _) eqn:Ed; [done|]. apply decode_body_err in Ed. congruence.
Qed.

(** A frame on the wire starts with the delimiter. *)
Lemma frame_octets_start h p : exists l, frame_octets h p = StartByte0 :: StartByte1 :: l.
Proof. unfold frame_octets, header_octets, appendCRC. cbn. eauto. Qed.

(** ** Properties *)

(** A source address is valid exactly when it lies below 0xFFF0: the reserved range, the
    self-address and the three broadcast addresses together are the whole of
    0xFFF0-0xFFFF. *)
Lemma IsValidSource_iff addr : is_u16 addr -> (IsValidSource addr = true <-> addr < 0xFFF0).
Proof.
  unfold is_u16, IsValidSource, IsReserved, IsBroadcast, reservedLow, reservedHigh,
    BroadcastNoConfirm, BroadcastOptionalConfirm, SelfAddress. lia.
Qed.

(** C39. A frame survives the wire. Encoding any payload of at most 250 octets under any header
    whose function code and addresses are within their widths succeeds, produces exactly [FrameSize] octets (never more than 292), and decoding those octets,
    whatever follows them in the buffer, gives back the control field, the addresses and
    the payload, with LEN set to five plus the payload length and the count of octets
    consumed. *)
Theorem Decode_Encode (h : Header) (payload rest : list Z) :
  header_ok h -> octets_ok payload -> len payload <= MaxPayload ->
  exists bs, Encode [] h payload = Ok bs /\
    len bs = FrameSize (len payload) /\ len bs <= MaxFrameSize /\ octets_ok bs /\
    Decode (bs ++ rest) =
      Ok (mkFrame (mkHeader (HControl h) (Dest h) (Src h) (MinLength + len payload)) payload, len bs).
Proof.
  intros Hh Hok Hp. exists (frame_octets h payload).
  rewrite Encode_frame, len_frame_octets, Decode_frame_octets by done.
  split_and!; try done; [|by apply frame_octets_ok].
  apply FrameSize_bounds. split; [apply len_nonneg | done].
Qed.

Lemma Decode_Encode_witness :
  exists bs, Encode [] (mkHeader (mkControl true true false false 4) 10 1 0) [192; 1] = Ok bs /\
    Decode (bs ++ [7]) =
      Ok (mkFrame (mkHeader (mkControl true true false false 4) 10 1 7) [192; 1], 14).
Proof.
  destruct (Decode_Encode (mkHeader (mkControl true true false false 4) 10 1 0) [192; 1] [7])
    as (bs & H1 & H2 & _ & _ & H3).
  - repeat split; cbn; lia.
  - repeat constructor; unfold octet_ok; lia.
  - vm_compute. discriminate.
  - exists bs. split; [exact H1|]. rewrite H3, H2. reflexivity.
Defined.

(** The decoder accepts nothing but encodings. If it accepts a frame at the front of a
    buffer, then the frame is well formed (its LEN agrees with its payload, which is at most
    250 octets), the octets it consumed are exactly what [Encode] produces for that frame,
    and it never claims more octets than the buffer holds. *)
Theorem Decode_canonical (buf : list Z) (f : Frame) (n : Z) :
  octets_ok buf -> Decode buf = Ok (f, n) ->
  frame_ok f /\ HeaderSize <= n <= len buf /\
  Encode [] (FHeader f) (Payload f) = Ok (slice 0 n buf).
Proof.
  intros Hok H. pose proof (Decode_consumes _ _ _ Hok H).
  apply Decode_inv in H as (Hf & Hn & Hle & Heq); [|done].
  split_and!; [done | lia | lia |].
  rewrite Heq. apply (Encode_frame []). apply Hf.
Qed.

Definition witness_frame : list Z :=
  match Encode [] (mkHeader (mkControl false false false false 0) 1 10 0) [] with
  | Ok bs => bs | Err _ => [] end.

Lemma Decode_canonical_witness :
  exists f n, Decode witness_frame = Ok (f, n) /\
    Encode [] (FHeader f) (Payload f) = Ok (slice 0 n witness_frame).
Proof.
  exists (mkFrame (mkHeader (mkControl false false false false 0) 1 10 5) []), 10.
  assert (H : Decode witness_frame =
     Ok (mkFrame (mkHeader (mkControl false false false false 0) 1 10 5) [], 10)) by (vm_compute; reflexivity).
  split; [exact H|].
  apply (Decode_canonical witness_frame) in H as (_ & _ & H); [exact H|].
  vm_compute. repeat constructor; discriminate.
Defined.
