(* ===== verification/LinkParser.v ===== *)
(** * The resynchronising frame parser (src/internal/link/parser.go)

    [Parser] keeps its octets in a fixed array of [parserBufSize] octets addressed by a read
    and a write offset, exactly as the code does: [slide] moves the buffered octets to the
    front, [Write] copies what fits, [resync] discards up to the next delimiter and [Next]
    loops over decode failures.  [Drain] runs the parser over the reads of an [io.Reader].

    The specification is a function on the octet stream alone, [scan]: which frames it
    contains and which octets are left over.  The theorems show that the array
    implementation refines it, that the loop of [Next] ends, that no octet goes uncounted,
    and that how the stream is cut into reads does not change the frames delivered.

    The counters are [uint64] and wrap.  The frame [Next] returns is a value here; in the
    code its payload aliases the parser until the next call. *)

From S2P Require Import Prelude Crc LinkFrame.

(** ** State *)

Record Stats := mkStats {
  FramesDecoded : Z; BytesDiscarded : Z; HeaderCRCErrors : Z;
  BodyCRCErrors : Z; BadLength : Z; Resyncs : Z }.

Definition parserBufSize : Z := MaxFrameSize * 2.
Definition delimiter : list Z := [StartByte0; StartByte1].

Record Parser := mkParser { pbuf : list Z; pr : Z; pw : Z; pstats : Stats }.

Definition NewParser : Parser :=
  mkParser (replicate (Z.to_nat parserBufSize) 0) 0 0 (mkStats 0 0 0 0 0 0).

Definition Buffered (p : Parser) : Z := pw p - pr p.
Definition Free (p : Parser) : Z := len (pbuf p) - Buffered p.

Inductive ParserErr := ErrNeedMore | ErrBufferFull.

(** Counter updates. *)
Definition count_frame (s : Stats) : Stats :=
  mkStats (u64 (FramesDecoded s + 1)) (BytesDiscarded s) (HeaderCRCErrors s) (BodyCRCErrors s)
    (BadLength s) (Resyncs s).
Definition count_discarded (n : Z) (s : Stats) : Stats :=
  mkStats (FramesDecoded s) (u64 (BytesDiscarded s + n)) (HeaderCRCErrors s) (BodyCRCErrors s)
    (BadLength s) (Resyncs s).
Definition count_resync (s : Stats) : Stats :=
  mkStats (FramesDecoded s) (BytesDiscarded s) (HeaderCRCErrors s) (BodyCRCErrors s)
    (BadLength s) (u64 (Resyncs s + 1)).
Definition count_error (e : LinkErr) (s : Stats) : Stats :=
  match e with
  | ErrHeaderCRC =>
      mkStats (FramesDecoded s) (BytesDiscarded s) (u64 (HeaderCRCErrors s + 1)) (BodyCRCErrors s)
        (BadLength s) (Resyncs s)
  | ErrBodyCRC =>
      mkStats (FramesDecoded s) (BytesDiscarded s) (HeaderCRCErrors s) (u64 (BodyCRCErrors s + 1))
        (BadLength s) (Resyncs s)
  | ErrBadLength =>
      mkStats (FramesDecoded s) (BytesDiscarded s) (HeaderCRCErrors s) (BodyCRCErrors s)
        (u64 (BadLength s + 1)) (Resyncs s)
  | _ => s
  end.

Definition with_stats (s : Stats) (p : Parser) : Parser := mkParser (pbuf p) (pr p) (pw p) s.
Definition with_r (r : Z) (p : Parser) : Parser := mkParser (pbuf p) r (pw p) (pstats p).

(** ** Operations *)

Definition slide (p : Parser) : Parser :=
  if pr p =? 0 then p
  else
    let moved := slice (pr p) (pw p) (pbuf p) in
    mkParser (moved ++ drop (length moved) (pbuf p)) 0 (len moved) (pstats p).

(** [Write] returns the count of octets accepted and whether it was short. *)
Definition Write (p : Parser) (b : list Z) : Parser * Z * option ParserErr :=
  let p := if len (pbuf p) - pw p <? len b then slide p else p in
  let n := Z.min (len (pbuf p) - pw p) (len b) in
  let p' := mkParser
    (slice 0 (pw p) (pbuf p) ++ slice 0 n b ++ drop (Z.to_nat (pw p + n)) (pbuf p))
    (pr p) (pw p + n) (pstats p) in
  (p', n, if n <? len b then Some ErrBufferFull else None).

(** [bytes.Index(buf, delimiter)]: the first position of the delimiter, or -1. *)
Fixpoint Index (l : list Z) : Z :=
  match l with
  | x :: ((y :: _) as l') =>
      if (x =? StartByte0) && (y =? StartByte1) then 0
      else let i := Index l' in if i <? 0 then -1 else i + 1
  | _ => -1
  end.

Definition resync (p : Parser) : Parser :=
  let p := with_stats (count_resync (pstats p)) p in
  let buf := slice (pr p) (pw p) (pbuf p) in
  let i := Index buf in
  let p :=
    if i <? 0 then
      let keep := if (0 <? len buf) && (at_ buf (len buf - 1) =? StartByte0) then 1 else 0 in
      with_r (pw p - keep) (with_stats (count_discarded (len buf - keep) (pstats p)) p)
    else if 0 <? i then with_r (pr p + i) (with_stats (count_discarded i (pstats p)) p)
    else p in
  slide p.

(** The loop of [Next]; [None] when the fuel runs out, which [Next_terminates] excludes. *)
Fixpoint Next_loop (fuel : nat) (p : Parser) : option (Parser * result ParserErr Frame) :=
  match fuel with
  | O => None
  | S fuel =>
      let buf := slice (pr p) (pw p) (pbuf p) in
      if len buf <? HeaderSize then Some (p, Err ErrNeedMore)
      else if negb (at_ buf 0 =? StartByte0) || negb (at_ buf 1 =? StartByte1) then
        Next_loop fuel (resync p)
      else
        match Decode buf with
        | Ok (f, n) =>
            Some (with_stats (count_frame (pstats p)) (with_r (pr p + n) p), Ok f)
        | Err ErrShortFrame => Some (p, Err ErrNeedMore)
        | Err e =>
            let p := with_stats (count_error e (pstats p)) p in
            let p := with_stats (count_discarded 1 (pstats p)) (with_r (pr p + 1) p) in
            Next_loop fuel (resync p)
        end
  end.

(** Every turn but the last discards an octet, so one turn per buffered octet is enough. *)
Definition Next (p : Parser) : Parser * result ParserErr Frame :=
  default (p, Err ErrNeedMore) (Next_loop (S (Z.to_nat (Buffered p))) p).

(** ** The specification: frames of an octet stream *)

(** Octets that can no longer belong to a frame are dropped from the front. *)
Fixpoint norm (l : list Z) : list Z :=
  match l with
  | x :: ((y :: _) as l') =>
      if (x =? StartByte0) && (y =? StartByte1) then l else norm l'
  | [x] => if x =? StartByte0 then [x] else []
  | [] => []
  end.

Inductive scan_step := Wait | Skip (l : list Z) | Emit (f : Frame) (l : list Z).

Definition step (l : list Z) : scan_step :=
  if len l <? HeaderSize then Wait
  else if negb (at_ l 0 =? StartByte0) || negb (at_ l 1 =? StartByte1) then Skip (norm l)
  else
    match Decode l with
    | Ok (f, n) => Emit f (drop (Z.to_nat n) l)
    | Err ErrShortFrame => Wait
    | Err _ => Skip (norm (drop 1 l))
    end.

Fixpoint scan_fuel (fuel : nat) (l : list Z) : list Frame * list Z :=
  match fuel with
  | O => ([], l)
  | S fuel =>
      match step l with
      | Wait => ([], l)
      | Skip l' => scan_fuel fuel l'
      | Emit f l' => let '(fs, r) := scan_fuel fuel l' in (f :: fs, r)
      end
  end.

Definition scan (l : list Z) : list Frame * list Z := scan_fuel (length l) l.

(** ** Draining a reader *)

(** One [Read]: the octets it returned and its error. *)
Inductive ReadErr := EOF | IoError.
Record Read := mkRead { rdata : list Z; rerr : option ReadErr }.

Inductive DrainErr := DrainParser (e : ParserErr) | DrainFn | DrainRead.

Section Drain.
Context {S : Type} (fn : S -> Frame -> S * bool).

(** The inner loop: every complete frame goes to the callback, whose [false] is an error. *)
Fixpoint drain_frames (fuel : nat) (p : Parser) (s : S) : option (Parser * S * option DrainErr) :=
  match fuel with
  | O => None
  | Datatypes.S fuel =>
      match Next p with
      | (p, Err ErrNeedMore) => Some (p, s, None)
      | (p, Err e) => Some (p, s, Some (DrainParser e))
      | (p, Ok f) =>
          match fn s f with
          | (s, true) => drain_frames fuel p s
          | (s, false) => Some (p, s, Some DrainFn)
          end
      end
  end.

Fixpoint drain_pending (fuel : nat) (p : Parser) (s : S) (pending : list Z)
    : option (Parser * S * option DrainErr) :=
  match fuel with
  | O => None
  | Datatypes.S fuel =>
      if len pending =? 0 then Some (p, s, None)
      else
        let '(p, written, werr) := Write p pending in
        let pending := drop (Z.to_nat written) pending in
        match drain_frames (Datatypes.S (Z.to_nat (Buffered p))) p s with
        | Some (p, s, None) =>
            let p :=
              if bool_decide (werr <> None) && (written =? 0) && (Buffered p =? len (pbuf p)) then
                resync (with_stats (count_discarded 1 (pstats p)) (with_r (pr p + 1) p))
              else p in
            drain_pending fuel p s pending
        | other => other
        end
  end.

(** [Drain] over the reads made so far; the outer option is the fuel of the inner loops. *)
Fixpoint Drain (reads : list Read) (p : Parser) (s : S) : option (Parser * S * option DrainErr) :=
  match reads with
  | [] => Some (p, s, None)
  | rd :: reads =>
      match drain_pending (Datatypes.S (length (rdata rd))) p s (rdata rd) with
      | Some (p, s, None) =>
          match rerr rd with
          | None => Drain reads p s
          | Some EOF => Some (p, s, None)
          | Some IoError => Some (p, s, Some DrainRead)
          end
      | other => other
      end
  end.

End Drain.

(** ** Invariant and content *)

Definition content (p : Parser) : list Z := slice (pr p) (pw p) (pbuf p).

Definition parser_ok (p : Parser) : Prop :=
  len (pbuf p) = parserBufSize /\ 0 <= pr p <= pw p /\ pw p <= len (pbuf p) /\ octets_ok (pbuf p).

Lemma NewParser_ok : parser_ok NewParser.
Proof.
  unfold parser_ok. split_and!; [by vm_compute.. |].
  apply Forall_replicate. unfold octet_ok. lia.
Qed.

Lemma content_len p : parser_ok p -> len (content p) = Buffered p.
Proof. intros (? & ? & ? & ?). unfold content, Buffered. by rewrite len_slice by lia. Qed.

Lemma content_ok p : parser_ok p -> octets_ok (content p).
Proof. intros (? & ? & ? & ?). by apply octets_ok_slice. Qed.

(** Moving the read offset forward by [n] drops [n] octets of the content. *)
Lemma advance_spec p n r s :
  parser_ok p -> 0 <= n <= Buffered p -> r = pr p + n ->
  parser_ok (mkParser (pbuf p) r (pw p) s) /\
  content (mkParser (pbuf p) r (pw p) s) = drop (Z.to_nat n) (content p).
Proof.
  intros (? & ? & ? & ?) Hn ->. unfold content, slice, Buffered, parser_ok in *. cbn. split.
  - split_and!; lia || done.
  - rewrite skipn_firstn_comm, drop_drop. f_equal; [lia|]. f_equal. lia.
Qed.

Lemma with_stats_ok p s : parser_ok p -> parser_ok (with_stats s p).
Proof. done. Qed.

Lemma slide_spec p :
  parser_ok p -> parser_ok (slide p) /\ content (slide p) = content p /\
  pstats (slide p) = pstats p /\ pr (slide p) = 0 /\ pw (slide p) = Buffered p.
Proof.
  intros Hp. pose proof (content_len p Hp) as Hl. pose proof (content_ok p Hp) as Ho.
  destruct Hp as (H1 & H2 & H3 & H4). unfold slide. destruct (Z.eqb_spec (pr p) 0) as [E|E].
  - unfold Buffered. split_and!; done || lia.
  - unfold content in *. set (m := slice (pr p) (pw p) (pbuf p)) in *. cbn.
    split_and!; [|by apply slice_front|done|done|done].
    unfold parser_ok. cbn. unfold Buffered in Hl. split_and!; try lia.
    + rewrite len_app. unfold len in *. rewrite length_drop. lia.
    + rewrite len_app. unfold len in *. rewrite length_drop. lia.
    + apply octets_ok_app. split; [done|]. by apply octets_ok_drop.
Qed.

(** [Write] accepts as much as there is room for after sliding, and appends exactly that. *)
Lemma Write_spec p b p' n e :
  parser_ok p -> octets_ok b -> Write p b = (p', n, e) ->
  parser_ok p' /\ 0 <= n <= len b /\ content p' = content p ++ slice 0 n b /\
  pstats p' = pstats p /\ (e = None <-> n = len b) /\ (n < len b -> n = Free p).
Proof.
  intros Hp Hb. unfold Write.
  set (q := if len (pbuf p) - pw p <? len b then slide p else p).
  assert (Hq : parser_ok q /\ content q = content p /\ pstats q = pstats p /\
               (len (pbuf q) - pw q < len b -> len (pbuf q) - pw q = Free p)).
  { unfold q. destruct (len (pbuf p) - pw p <? len b) eqn:E; bool_prop.
    - destruct (slide_spec p Hp) as (Hs & Hc & Hst & Hr & Hw). split_and!; try done.
      intros _. rewrite Hw. unfold Free. f_equal. destruct Hs as [Hs _]. destruct Hp as [Hp _]. congruence.
    - split_and!; try done. lia. }
  destruct Hq as (Hq & Hc & Hst & Hfree). clearbody q. intros [= <- <- <-].
  destruct Hq as (Q1 & Q2 & Q3 & Q4). set (n := Z.min (len (pbuf q) - pw q) (len b)).
  assert (Hn : 0 <= n <= len b /\ n <= len (pbuf q) - pw q) by (pose proof (len_nonneg b); unfold n; lia).
  assert (Ht : len (slice 0 (pw q) (pbuf q)) = pw q) by (rewrite len_slice by lia; lia).
  assert (Htn : len (slice 0 n b) = n) by (rewrite len_slice by lia; lia).
  split_and!; try lia.
  - unfold parser_ok; cbn. rewrite !len_app, Ht, Htn.
    assert (len (drop (Z.to_nat (pw q + n)) (pbuf q)) = len (pbuf q) - pw q - n)
      by (unfold len in *; rewrite length_drop; lia).
    split_and!; try lia. rewrite !octets_ok_app. auto with dnp3.
  - rewrite <- Hc. unfold content at 1; cbn.
    assert (Hs : slice 0 (pw q) (pbuf q) = slice 0 (pr q) (pbuf q) ++ content q).
    { unfold content, slice. rewrite !Z.sub_0_r. norm_nat. rewrite !drop_0.
      rewrite <- (take_drop (Z.to_nat (pr q)) (take (Z.to_nat (pw q)) (pbuf q))).
      rewrite take_take, Nat.min_l by lia. f_equal. rewrite skipn_firstn_comm. f_equal. lia. }
    rewrite Hs, <- !app_assoc. rewrite (app_assoc (content q)). apply slice_mid.
    + rewrite len_slice by lia. lia.
    + rewrite len_app, Htn. rewrite content_len by done. unfold Buffered. lia.
  - done.
  - destruct (n <? len b) eqn:E; bool_prop; split; (done || lia).
Qed.

(** ** Resynchronisation *)

Lemma norm_cons2 x y l :
  norm (x :: y :: l) = if (x =? StartByte0) && (y =? StartByte1) then x :: y :: l else norm (y :: l).
Proof. reflexivity. Qed.

Lemma Index_cons2 x y l :
  Index (x :: y :: l) =
  if (x =? StartByte0) && (y =? StartByte1) then 0
  else if Index (y :: l) <? 0 then -1 else Index (y :: l) + 1.
Proof. reflexivity. Qed.

Lemma norm_delim l : norm (StartByte0 :: StartByte1 :: l) = StartByte0 :: StartByte1 :: l.
Proof. reflexivity. Qed.

Lemma norm_length l : (length (norm l) <= length l)%nat.
Proof.
  induction l as [|x [|y l] IH]; [done| |].
  - cbn. destruct (x =? StartByte0); cbn; lia.
  - rewrite norm_cons2. destruct (_ && _); [lia|]. cbn [length] in *. lia.
Qed.

Lemma norm_ok l : octets_ok l -> octets_ok (norm l).
Proof.
  induction l as [|x [|y l] IH]; intros H; [done| |].
  - cbn. destruct (x =? StartByte0); [done | constructor].
  - rewrite norm_cons2. destruct (_ && _); [done|]. apply IH. by apply octets_ok_cons in H as [_ ?].
Qed.

(** Octets before a position that cannot start a frame are dropped one at a time or all at
    once, whichever way the stream was cut. *)
Lemma norm_app a b : norm (norm a ++ b) = norm (a ++ b).
Proof.
  induction a as [|x [|y l] IH]; [done| |].
  - cbn [norm]. destruct (x =? StartByte0) eqn:E; [done|]. cbn [app].
    destruct b as [|y b]; [cbn [norm]; rewrite E; reflexivity|]. rewrite norm_cons2. by rewrite E.
  - rewrite norm_cons2. destruct (_ && _) eqn:E; [done|]. rewrite IH. cbn [app].
    by rewrite norm_cons2, E.
Qed.

Lemma norm_norm l : norm (norm l) = norm l.
Proof. pose proof (norm_app l []) as H. by rewrite !app_nil_r in H. Qed.

Lemma Index_range l : -1 <= Index l < Z.max 1 (len l).
Proof.
  induction l as [|x [|y l] IH]; [cbn; lia | cbn; lia |].
  rewrite Index_cons2, !len_cons in *. pose proof (len_nonneg l).
  destruct (_ && _); [lia|]. destr_if; lia.
Qed.

Lemma norm_Index l :
  norm l =
  if Index l <? 0 then
    if (0 <? len l) && (at_ l (len l - 1) =? StartByte0) then [StartByte0] else []
  else drop (Z.to_nat (Index l)) l.
Proof.
  induction l as [|x [|y l] IH]; [done| |].
  - cbn [norm Index]. change (-1 <? 0) with true. cbv iota. change (len [x] - 1) with 0.
    change (0 <? len [x]) with true. unfold at_. norm_nat. cbn [andb nth].
    destruct (Z.eqb_spec x StartByte0); [by subst | done].
  - rewrite norm_cons2, Index_cons2. destruct ((x =? _) && (y =? _)) eqn:E; [done|]. rewrite IH.
    pose proof (Index_range (y :: l)) as Hi.
    destruct (Index (y :: l) <? 0) eqn:Ei; bool_prop.
    + change (-1 <? 0) with true. cbv iota.
      pose proof (len_nonneg l).
      replace (0 <? len (y :: l)) with true by (symmetry; apply Z.ltb_lt; rewrite len_cons; lia).
      replace (0 <? len (x :: y :: l)) with true by (symmetry; apply Z.ltb_lt; rewrite !len_cons; lia).
      replace (at_ (x :: y :: l) (len (x :: y :: l) - 1)) with (at_ (y :: l) (len (y :: l) - 1)); [done|].
      unfold at_. rewrite !len_cons.
      replace (Z.to_nat (1 + (1 + len l) - 1)) with (S (Z.to_nat (1 + len l - 1))) by lia. done.
    + destruct (Index (y :: l) + 1 <? 0) eqn:Ej; bool_prop; [lia|].
      replace (Z.to_nat (Index (y :: l) + 1)) with (S (Z.to_nat (Index (y :: l)))) by lia. done.
Qed.

(** Without a delimiter at the front, at least one octet goes. *)
Lemma norm_shorter l :
  2 <= len l -> negb (at_ l 0 =? StartByte0) || negb (at_ l 1 =? StartByte1) = true ->
  (length (norm l) < length l)%nat.
Proof.
  intros Hl H. unfold len in Hl. destruct l as [|x [|y l]]; [cbn in Hl; lia | cbn in Hl; lia|].
  unfold at_ in H. change (Z.to_nat 0) with 0%nat in H. change (Z.to_nat 1) with 1%nat in H. cbn [nth] in H.
  rewrite norm_cons2. destruct (_ && _) eqn:E; bool_prop.
  - subst. done.
  - pose proof (norm_length (y :: l)). cbn [length] in *. lia.
Qed.

Lemma keep_last l :
  drop (Z.to_nat (len l - (if (0 <? len l) && (at_ l (len l - 1) =? StartByte0) then 1 else 0))) l =
  if (0 <? len l) && (at_ l (len l - 1) =? StartByte0) then [StartByte0] else [].
Proof.
  destruct (_ && _) eqn:E; bool_prop; [|apply drop_ge; unfold len; lia].
  unfold at_, len in *. destruct l as [|x l _] using rev_ind; [cbn in *; lia|].
  rewrite length_app in *. cbn [length] in *.
  replace (Z.to_nat (Z.of_nat (length l + 1) - 1)) with (length l) in * by lia.
  rewrite drop_app_length. rewrite app_nth2, Nat.sub_diag in * by lia. cbn in *. congruence.
Qed.

Lemma resync_spec p :
  parser_ok p ->
  parser_ok (resync p) /\ content (resync p) = norm (content p) /\
  BytesDiscarded (pstats (resync p)) =
    (if Index (content p) =? 0 then BytesDiscarded (pstats p)
     else u64 (BytesDiscarded (pstats p) + (Buffered p - len (norm (content p))))) /\
  FramesDecoded (pstats (resync p)) = FramesDecoded (pstats p).
Proof.
  intros Hp. pose proof (content_len p Hp) as Hl. rewrite (norm_Index (content p)).
  pose proof (Index_range (content p)) as Hi. unfold resync.
  set (q := with_stats (count_resync (pstats p)) p). cbv zeta.
  change (slice (pr q) (pw q) (pbuf q)) with (content p).
  change (pw q) with (pw p). change (pr q) with (pr p).
  assert (Hq : parser_ok q) by done.
  destruct (Index (content p) <? 0) eqn:Ei; bool_prop.
  - set (k := if (0 <? len (content p)) && _ then 1 else 0).
    assert (Hk : 0 <= k <= Buffered p).
    { unfold k. pose proof (len_nonneg (content p)). destruct (0 <? len (content p)) eqn:E; bool_prop; cbn; [|lia].
      destr_if; lia. }
    set (q' := with_r (pw p - k) _).
    assert (Hq' : parser_ok q' /\ content q' = drop (Z.to_nat (Buffered p - k)) (content p)).
    { apply (advance_spec p); [done | lia | unfold Buffered; lia]. }
    destruct Hq' as [Hok Hc]. destruct (slide_spec q' Hok) as (Hs & Hsc & Hst & _).
    rewrite Hsc, Hst, Hc. split; [done|]. rewrite Hl.
    destruct (Z.eqb_spec (Index (content p)) 0); [lia|].
    assert (Hd : drop (Z.to_nat (Buffered p - k)) (content p) =
       (if (0 <? Buffered p) && (at_ (content p) (Buffered p - 1) =? StartByte0) then [StartByte0] else []))
      by (rewrite <- Hl; apply keep_last).
    rewrite Hd. split; [done|]. split; [|done]. unfold q'; cbn. unfold k. rewrite Hl.
    destr_if; reflexivity.
  - destruct (0 <? Index (content p)) eqn:Ej; bool_prop.
    + assert (Hle : Index (content p) <= Buffered p) by lia.
      set (q' := with_r (pr p + Index (content p)) _).
      assert (Hq' : parser_ok q' /\ content q' = drop (Z.to_nat (Index (content p))) (content p))
        by (apply (advance_spec p); [done | lia | done]).
      destruct Hq' as [Hok Hc]. destruct (slide_spec q' Hok) as (Hs & Hsc & Hst & _).
      rewrite Hsc, Hst, Hc. split; [done|]. split; [done|]. destruct (Z.eqb_spec (Index (content p)) 0); [lia|]. split; [|done].
      cbn. f_equal. unfold len in *. rewrite length_drop. lia.
    + destruct (slide_spec q Hq) as (Hs & Hsc & Hst & _). rewrite Hsc, Hst.
      replace (Index (content p)) with 0 by lia. split; [done|]. norm_nat. rewrite drop_0. done.
Qed.

Lemma u64_add_l a b : u64 (u64 a + b) = u64 (a + b).
Proof. unfold u64. apply Zplus_mod_idemp_l. Qed.

Lemma u64_u64 a : u64 (u64 a) = u64 a.
Proof. unfold u64. by rewrite Z.mod_mod. Qed.

(** [p'] is reached from [p] by discarding [k] octets and decoding [n] frames. *)
Definition counted (p p' : Parser) (k n : Z) : Prop :=
  u64 (BytesDiscarded (pstats p')) = u64 (BytesDiscarded (pstats p) + k) /\
  u64 (FramesDecoded (pstats p')) = u64 (FramesDecoded (pstats p) + n).

Lemma counted_refl p : counted p p 0 0.
Proof. unfold counted. by rewrite !Z.add_0_r. Qed.

Lemma counted_trans p q r k1 k2 n1 n2 :
  counted p q k1 n1 -> counted q r k2 n2 -> counted p r (k1 + k2) (n1 + n2).
Proof.
  intros [A1 A2] [B1 B2]. split.
  - rewrite B1, <- u64_add_l, A1, u64_add_l. f_equal. lia.
  - rewrite B2, <- u64_add_l, A2, u64_add_l. f_equal. lia.
Qed.

Lemma resync_counted p :
  parser_ok p -> counted p (resync p) (Buffered p - Buffered (resync p)) 0.
Proof.
  intros Hp. destruct (resync_spec p Hp) as (Hok & Hc & Hbd & Hfd).
  unfold counted. rewrite Hfd, Z.add_0_r. split; [|done].
  rewrite <- (content_len (resync p) Hok), Hc, Hbd. destruct (Z.eqb_spec (Index (content p)) 0) as [E|E].
  - f_equal. rewrite norm_Index, E. norm_nat. cbn -[len]. rewrite drop_0, content_len by done. lia.
  - unfold u64. by rewrite Z.mod_mod.
Qed.

(** ** The specification unfolds *)

Lemma step_smaller l l' :
  octets_ok l -> (step l = Skip l' \/ exists f, step l = Emit f l') ->
  (length l' < length l)%nat /\ octets_ok l'.
Proof.
  intros Hok. unfold step. destruct (len l <? HeaderSize) eqn:E; [naive_solver|]. bool_prop.
  unfold HeaderSize in E. destruct (_ || _) eqn:E1.
  { intros [[= <-] | [f [=]]]. split; [apply norm_shorter; [lia | done] | by apply norm_ok]. }
  assert (Hd : (length (norm (drop 1 l)) < length l)%nat /\ octets_ok (norm (drop 1 l))).
  { split; [|apply norm_ok; auto with dnp3]. pose proof (norm_length (drop 1 l)).
    rewrite length_drop in *. unfold len in E. lia. }
  destruct (Decode l) as [[f n]|e] eqn:Ed.
  - apply Decode_consumes in Ed; [|done]. unfold HeaderSize in Ed.
    intros [[=]|[f' [= <- <-]]]. split; [rewrite length_drop; unfold len in *; lia | auto with dnp3].
  - destruct e; intros [H|[f H]]; try done; injection H as <-; done.
Qed.

Lemma scan_fuel_enough fuel fuel' l :
  octets_ok l -> (length l <= fuel)%nat -> (length l <= fuel')%nat ->
  scan_fuel fuel l = scan_fuel fuel' l.
Proof.
  revert fuel' l. induction fuel as [|fuel IH]; intros fuel' l Hok H H'.
  - destruct l; [|cbn in H; lia]. by destruct fuel'.
  - destruct fuel' as [|fuel']; [destruct l; [done | cbn in H'; lia]|]. cbn [scan_fuel].
    destruct (step l) as [|l'|f l'] eqn:Es; [done| |].
    + destruct (step_smaller l l') as [Hs Ho]; [done | by left |]. apply IH; [done | lia | lia].
    + destruct (step_smaller l l') as [Hs Ho]; [done | by right; eauto |].
      by rewrite (IH fuel' l') by (done || lia).
Qed.

Lemma scan_unfold l :
  octets_ok l ->
  scan l = match step l with
           | Wait => ([], l)
           | Skip l' => scan l'
           | Emit f l' => (f :: fst (scan l'), snd (scan l'))
           end.
Proof.
  intros Hok. unfold scan at 1. destruct l as [|x l]; [done|]. cbn [length scan_fuel].
  destruct (step (x :: l)) as [|l'|f l'] eqn:Es; [done| |].
  - destruct (step_smaller (x :: l) l') as [Hs Ho]; [done | by left |]. cbn in Hs.
    apply scan_fuel_enough; [done | lia | lia].
  - destruct (step_smaller (x :: l) l') as [Hs Ho]; [done | by right; eauto |]. cbn in Hs.
    rewrite (scan_fuel_enough _ (length l') l') by (done || lia). fold (scan l'). by destruct (scan l').
Qed.

(** ** [Next] refines the specification *)

(** What one call of [Next] may answer: a frame, after discarding the octets before it, or
    the request for more input with less than one frame buffered. *)
Definition Next_post (p p' : Parser) (r : result ParserErr Frame) : Prop :=
  parser_ok p' /\
  match r with
  | Ok f => frame_ok f /\ scan (content p) = (f :: fst (scan (content p')), snd (scan (content p'))) /\
            Buffered p' < Buffered p /\
            counted p p' (Buffered p - Buffered p' - FrameSize (len (Payload f))) 1
  | Err e => e = ErrNeedMore /\ scan (content p) = ([], content p') /\ Buffered p' < MaxFrameSize /\
             counted p p' (Buffered p - Buffered p') 0
  end.

Lemma Next_post_wait p :
  parser_ok p -> step (content p) = Wait -> Next_post p p (Err ErrNeedMore).
Proof.
  intros Hp Hs. pose proof (content_ok p Hp) as Ho. split; [done|]. split_and!; [done| | |].
  - rewrite scan_unfold by done. by rewrite Hs.
  - rewrite <- (content_len p Hp). unfold step in Hs.
    destruct (len (content p) <? HeaderSize) eqn:E0; bool_prop.
    { change MaxFrameSize with 292. unfold HeaderSize in *. lia. }
    destruct (_ || _); [done|]. destruct (Decode (content p)) as [[]|[]] eqn:Ed; try done.
    by apply Decode_short.
  - rewrite Z.sub_diag. apply counted_refl.
Qed.

Lemma Next_post_emit p f n :
  parser_ok p -> Decode (content p) = Ok (f, n) -> step (content p) = Emit f (drop (Z.to_nat n) (content p)) ->
  Next_post p (with_stats (count_frame (pstats p)) (with_r (pr p + n) p)) (Ok f).
Proof.
  intros Hp Ed Hs. pose proof (content_ok p Hp) as Ho. pose proof (content_len p Hp) as Hl.
  pose proof (Decode_consumes _ _ _ Ho Ed) as Hn. unfold HeaderSize in Hn.
  pose proof (Decode_inv _ _ _ Ho Ed) as (Hfok & Hnn & _).
  destruct (advance_spec p n (pr p + n) (count_frame (pstats p)) Hp) as [Hok' Hc']; [lia | done |].
  split; [exact Hok'|]. split_and!; [done| | |].
  - rewrite scan_unfold, Hs by done. unfold with_stats, with_r. cbn. by rewrite Hc'.
  - unfold Buffered; cbn. lia.
  - unfold counted, Buffered; cbn. split; [f_equal; lia | apply u64_u64].
Qed.

Lemma Next_post_skip p q p' r :
  parser_ok p -> parser_ok q -> counted p q (Buffered p - Buffered q) 0 -> Buffered q <= Buffered p ->
  step (content p) = Skip (norm (content q)) -> Next_post (resync q) p' r -> Next_post p p' r.
Proof.
  intros Hp Hq Hk Hle Hst [Hok' Hr]. split; [done|].
  destruct (resync_spec q Hq) as (Hrok & Hrc & _). pose proof (content_ok p Hp) as Ho.
  pose proof (counted_trans _ _ _ _ _ _ _ Hk (resync_counted q Hq)) as Hct.
  assert (Hrb : Buffered (resync q) <= Buffered q).
  { rewrite <- (content_len _ Hrok), <- (content_len _ Hq), Hrc.
    pose proof (norm_length (content q)). unfold len. lia. }
  rewrite scan_unfold, Hst, <- Hrc by done.
  destruct r as [f|e].
  - destruct Hr as (Hf' & Hs & Hlt' & Hc). split_and!; [done | done | lia |].
    pose proof (counted_trans _ _ _ _ _ _ _ Hct Hc) as HH.
    replace (Buffered p - Buffered p' - FrameSize (len (Payload f))) with
      (Buffered p - Buffered q + (Buffered q - Buffered (resync q)) +
       (Buffered (resync q) - Buffered p' - FrameSize (len (Payload f)))) by lia.
    exact HH.
  - destruct Hr as (-> & Hs & Hb & Hc). split_and!; [done..|].
    pose proof (counted_trans _ _ _ _ _ _ _ Hct Hc) as HH.
    replace (Buffered p - Buffered p') with
      (Buffered p - Buffered q + (Buffered q - Buffered (resync q)) + (Buffered (resync q) - Buffered p')) by lia.
    exact HH.
Qed.

Lemma Next_loop_spec fuel p :
  parser_ok p -> (Z.to_nat (Buffered p) < fuel)%nat ->
  exists p' r, Next_loop fuel p = Some (p', r) /\ Next_post p p' r.
Proof.
  revert p. induction fuel as [|fuel IH]; intros p Hp Hf; [lia|].
  pose proof (content_len p Hp) as Hl. pose proof (content_ok p Hp) as Ho.
  cbn [Next_loop]. cbv zeta. fold (content p).
  destruct (len (content p) <? HeaderSize) eqn:E0.
  { exists p, (Err ErrNeedMore). split; [done|]. apply Next_post_wait; [done|]. unfold step. by rewrite E0. }
  destruct (negb _ || negb _) eqn:E1.
  { assert (Hst : step (content p) = Skip (norm (content p))) by (unfold step; by rewrite E0, E1).
    destruct (resync_spec p Hp) as (Hrok & Hrc & _).
    destruct (IH (resync p)) as (p' & r & Hn & Hr); [done| |].
    { destruct (step_smaller (content p) (norm (content p))) as [Hlt _]; [done | by left|].
      rewrite <- Hrc in Hlt. unfold len in Hl. rewrite <- (content_len _ Hrok). unfold len. lia. }
    exists p', r. split; [done|]. apply (Next_post_skip p p); try done. rewrite Z.sub_diag. apply counted_refl. }
  destruct (Decode (content p)) as [[f n]|e] eqn:Ed.
  { eexists _, (Ok f). split; [done|]. apply Next_post_emit; [done..|].
    unfold step. by rewrite E0, E1, Ed. }
  destruct e.
  { exists p, (Err ErrNeedMore). split; [done|]. apply Next_post_wait; [done|].
    unfold step. by rewrite E0, E1, Ed. }
  all: match goal with |- context [Next_loop _ (resync ?q)] => set (q' := q) end.
  all: assert (Hst : step (content p) = Skip (norm (drop 1 (content p)))) by (unfold step; by rewrite E0, E1, Ed).
  all: destruct (advance_spec p 1 (pr p + 1) (pstats q') Hp) as [Hok' Hc'];
       [bool_prop; unfold HeaderSize in E0; lia | done |].
  all: change (mkParser (pbuf p) (pr p + 1) (pw p) (pstats q')) with q' in Hok', Hc'.
  all: change (Z.to_nat 1) with 1%nat in Hc'; rewrite <- Hc' in Hst.
  all: destruct (resync_spec q' Hok') as (Hrok & Hrc & _).
  all: destruct (IH (resync q')) as (p' & r & Hn & Hr); [done | |
    exists p', r; split; [done|]; apply (Next_post_skip p q'); try done].
  all: try (destruct (step_smaller (content p) (norm (content q'))) as [Hlt _]; [done | by left |];
            rewrite <- Hrc in Hlt; unfold len in Hl; rewrite <- (content_len _ Hrok); unfold len; lia).
  all: try (unfold Buffered; cbn; lia).
  all: unfold counted, Buffered; cbn; rewrite Z.add_0_r;
       (split; [|done]); rewrite u64_u64; f_equal; lia.
Qed.

(** ** Streams up to octets that can never start a frame *)

Definition same_stream (a b : list Frame * list Z) : Prop :=
  fst a = fst b /\ norm (snd a) = norm (snd b).

#[export] Instance same_stream_equiv : Equivalence same_stream.
Proof.
  split.
  - by intros [].
  - intros ? ? [? ?]. by split.
  - intros ? ? ? [? ?] [? ?]. split; congruence.
Qed.

#[export] Instance same_stream_fst : Proper (same_stream ==> eq) fst.
Proof. by intros ? ? [? ?]. Qed.

Lemma norm_front l :
  2 <= len l -> negb (at_ l 0 =? StartByte0) || negb (at_ l 1 =? StartByte1) = false -> norm l = l.
Proof.
  intros Hl H. unfold len in Hl. destruct l as [|x [|y l]]; [cbn in Hl; lia..|].
  unfold at_ in H. change (Z.to_nat 0) with 0%nat in H. change (Z.to_nat 1) with 1%nat in H. cbn [nth] in H.
  bool_prop. rewrite norm_cons2. subst. done.
Qed.

Lemma scan_norm l : octets_ok l -> same_stream (scan (norm l)) (scan l).
Proof.
  intros Hok. rewrite (scan_unfold l Hok). unfold step.
  destruct (len l <? HeaderSize) eqn:E.
  - rewrite scan_unfold by (by apply norm_ok). unfold step.
    replace (len (norm l) <? HeaderSize) with true.
    { split; cbn; [done | apply norm_norm]. }
    symmetry. pose proof (norm_length l). bool_prop. apply Z.ltb_lt. unfold len in *. lia.
  - bool_prop. unfold HeaderSize in E. destruct (_ || _) eqn:E1; [done|].
    rewrite norm_front by (done || lia).
    rewrite (scan_unfold l Hok). unfold step. unfold HeaderSize.
    replace (len l <? 10) with false by (symmetry; apply Z.ltb_ge; lia). by rewrite E1.
Qed.

Lemma step_app a b :
  octets_ok a ->
  match step a with
  | Wait => True
  | Skip l => norm l = l /\ step (a ++ b) = Skip (norm (l ++ b))
  | Emit f l => step (a ++ b) = Emit f (l ++ b)
  end.
Proof.
  intros Hok. unfold step at 1 2. destruct (len a <? HeaderSize) eqn:E; [done|]. bool_prop.
  pose proof (len_nonneg b). unfold HeaderSize in E.
  assert (E' : (len (a ++ b) <? HeaderSize) = false)
    by (apply Z.ltb_ge; rewrite len_app; unfold HeaderSize; lia).
  unfold step. rewrite E', !at_app_l by lia.
  destruct (_ || _) eqn:E1; [by rewrite norm_norm, norm_app|].
  destruct (Decode a) as [[f n]|e] eqn:Ed.
  - rewrite Decode_prefix by congruence. rewrite Ed.
    apply Decode_consumes in Ed; [|done]. rewrite drop_app_le; [done|]. unfold len in Ed. lia.
  - destruct e; try done; rewrite (Decode_prefix a b) by congruence; rewrite Ed, norm_norm, norm_app;
      (destruct a; [unfold len in E; cbn in E; lia | done]).
Qed.

(** Scanning a stream in two parts: the leftover of the first joins the second. *)
Lemma scan_app a b :
  octets_ok a -> octets_ok b ->
  same_stream (scan (a ++ b))
    (fst (scan a) ++ fst (scan (snd (scan a) ++ b)), snd (scan (snd (scan a) ++ b))).
Proof.
  intros Ha Hb. remember (length a) as n eqn:En. revert a Ha En.
  induction n as [n IH] using lt_wf_ind. intros a Ha ->.
  assert (Hab : octets_ok (a ++ b)) by (by apply octets_ok_app).
  rewrite (scan_unfold a Ha). rewrite (scan_unfold (a ++ b) Hab).
  pose proof (step_app a b Ha) as Hs. destruct (step a) as [|l|f l] eqn:Es.
  - cbn [fst snd app]. rewrite <- (scan_unfold (a ++ b) Hab). by split.
  - destruct Hs as [Hn ->]. destruct (step_smaller a l) as [Hlt Hl]; [done | by left|].
    rewrite scan_norm by (by apply octets_ok_app). by apply (IH (length l)).
  - rewrite Hs. destruct (step_smaller a l) as [Hlt Hl]; [done | by right; eauto|].
    destruct (IH (length l) Hlt l Hl eq_refl) as [H1 H2]. cbn [fst snd] in *.
    split; cbn [fst snd app]; congruence.
Qed.

Lemma scan_rest_ok l : octets_ok l -> octets_ok (snd (scan l)).
Proof.
  intros Hok. remember (length l) as n eqn:En. revert l Hok En.
  induction n as [n IH] using lt_wf_ind. intros l Hok ->. rewrite scan_unfold by done.
  destruct (step l) as [|l'|f l'] eqn:Es; [done| |].
  - destruct (step_smaller l l') as [Hlt Hl]; [done | by left|]. by apply (IH (length l')).
  - destruct (step_smaller l l') as [Hlt Hl]; [done | by right; eauto|]. by apply (IH (length l')).
Qed.

(** What can never start a frame does not matter to what follows it. *)
Lemma scan_same_rest a a' b : norm a = norm a' -> octets_ok a -> octets_ok a' -> octets_ok b -> same_stream (scan (a ++ b)) (scan (a' ++ b)).
Proof.
  intros Hn Ha Ha' Hb. rewrite <- (scan_norm (a ++ b)), <- (scan_norm (a' ++ b)) by (by apply octets_ok_app).
  by rewrite <- (norm_app a), <- (norm_app a'), Hn.
Qed.

(** Noise (octets without a delimiter, not ending in its first half) before a stream does
    not change what is found in it. *)
Lemma scan_noise g l :
  octets_ok g -> octets_ok l -> norm g = [] -> same_stream (scan (g ++ l)) (scan l).
Proof.
  intros Hg Hl Hn. rewrite <- (scan_norm (g ++ l)) by (by apply octets_ok_app).
  rewrite <- norm_app, Hn. cbn. by apply scan_norm.
Qed.

Lemma scan_frame f l :
  frame_ok f -> octets_ok l ->
  scan (frame_octets (FHeader f) (Payload f) ++ l) = (f :: fst (scan l), snd (scan l)).
Proof.
  intros Hf Hl. pose proof Hf as (Hh & Hp & Hlen & HL).
  assert (Ho : octets_ok (frame_octets (FHeader f) (Payload f) ++ l))
    by (apply octets_ok_app; split; [by apply frame_octets_ok | done]).
  rewrite scan_unfold by done.
  pose proof (len_nonneg (Payload f)) as Hp0. pose proof (len_nonneg l) as Hl0.
  pose proof (FrameSize_bounds (len (Payload f)) ltac:(lia)) as Hfs. unfold HeaderSize in Hfs.
  assert (Hlen' : len (frame_octets (FHeader f) (Payload f)) = FrameSize (len (Payload f))) by apply len_frame_octets.
  unfold step. replace (len _ <? HeaderSize) with false
    by (symmetry; apply Z.ltb_ge; rewrite len_app; unfold HeaderSize; lia).
  rewrite !at_app_l by lia. destruct (frame_octets_start (FHeader f) (Payload f)) as [k Hk].
  unfold at_ at 1 2. rewrite Hk at 1 2. change (Z.to_nat 0) with 0%nat. change (Z.to_nat 1) with 1%nat. cbn [nth].
  rewrite !Z.eqb_refl. cbn [negb orb]. rewrite Decode_frame_octets by done.
  replace (Z.to_nat (FrameSize (len (Payload f)))) with (length (frame_octets (FHeader f) (Payload f)))
    by (unfold len in *; lia).
  rewrite drop_app_length. do 2 f_equal. destruct f as [h p]. cbn in *. unfold with_length.
  rewrite <- HL. by destruct h.
Qed.

(** ** Running the parser over reads *)

(** The callback that records every frame it is given. *)
Definition collect (s : list Frame) (f : Frame) : list Frame * bool := (s ++ [f], true).

Lemma Next_spec p :
  parser_ok p -> Next_post p (fst (Next p)) (snd (Next p)).
Proof.
  intros Hp. unfold Next.
  destruct (Next_loop_spec (S (Z.to_nat (Buffered p))) p Hp) as (p' & r & -> & H); [lia|]. exact H.
Qed.

Lemma scan_rest_wait l : octets_ok l -> step (snd (scan l)) = Wait.
Proof.
  intros Hok. remember (length l) as n eqn:En. revert l Hok En.
  induction n as [n IH] using lt_wf_ind. intros l Hok ->. rewrite scan_unfold by done.
  destruct (step l) as [|l'|f l'] eqn:Es; [done| |].
  - destruct (step_smaller l l') as [Hlt Hl]; [done | by left|]. by apply (IH (length l')).
  - destruct (step_smaller l l') as [Hlt Hl]; [done | by right; eauto|]. by apply (IH (length l')).
Qed.

(** A parser [Next] has asked for more input: its buffer holds less than a frame. *)
Definition drained (p : Parser) : Prop := parser_ok p /\ step (content p) = Wait.

Lemma drained_room p : drained p -> MaxFrameSize < Free p.
Proof.
  intros [Hp Hs]. destruct (Next_post_wait p Hp Hs) as (_ & _ & _ & Hb & _).
  unfold Free. destruct Hp as [-> _]. unfold parserBufSize. lia.
Qed.

Lemma NewParser_drained : drained NewParser.
Proof. split; [apply NewParser_ok | by vm_compute]. Qed.

Lemma drain_frames_spec fuel p s :
  parser_ok p -> (Z.to_nat (Buffered p) < fuel)%nat ->
  exists p', drain_frames collect fuel p s = Some (p', s ++ fst (scan (content p)), None) /\
    drained p' /\ content p' = snd (scan (content p)).
Proof.
  revert p s. induction fuel as [|fuel IH]; intros p s Hp Hf; [lia|]. cbn [drain_frames].
  pose proof (Next_spec p Hp) as [Hok Hr]. destruct (Next p) as [p1 r]. cbn [fst snd] in *.
  destruct r as [f|e].
  - destruct Hr as (_ & Hs & Hlt & _). cbn [collect].
    assert (0 <= Buffered p1) by (rewrite <- (content_len _ Hok); apply len_nonneg).
    destruct (IH p1 (s ++ [f])) as (p' & He & Hok' & Hc); [done | lia |].
    exists p'. rewrite He, Hs. cbn [fst snd]. split_and!; try done. by rewrite <- app_assoc.
  - destruct Hr as (-> & Hs & Hb & _). exists p1. rewrite Hs. cbn [fst snd].
    rewrite app_nil_r. split_and!; try done. split; [done|].
    replace (content p1) with (snd (scan (content p))) by (by rewrite Hs).
    apply scan_rest_wait. by apply content_ok.
Qed.

Lemma drain_pending_spec fuel p s pending :
  drained p -> octets_ok pending -> (length pending < fuel)%nat ->
  exists p' fs, drain_pending collect fuel p s pending = Some (p', s ++ fs, None) /\
    drained p' /\ same_stream (fs, content p') (scan (content p ++ pending)).
Proof.
  revert p s pending. induction fuel as [|fuel IH]; intros p s pending Hp Hpd Hf; [lia|].
  cbn [drain_pending]. destruct (len pending =? 0) eqn:E0; bool_prop.
  { exists p, []. destruct pending; [|unfold len in E0; cbn in E0; lia].
    rewrite !app_nil_r. split_and!; try done. destruct Hp as [Hp Hw].
    rewrite scan_unfold, Hw by (by apply content_ok). done. }
  pose proof (drained_room p Hp) as Hroom. change MaxFrameSize with 292 in Hroom. destruct Hp as [Hp Hw].
  destruct (Write p pending) as [[p1 n] e] eqn:Ew.
  destruct (Write_spec _ _ _ _ _ Hp Hpd Ew) as (Hok1 & Hn & Hc1 & _ & _ & Hfree).
  pose proof (len_nonneg pending). assert (0 < n) by (destruct (decide (n < len pending)); lia).
  destruct (drain_frames_spec (S (Z.to_nat (Buffered p1))) p1 s Hok1) as (p2 & -> & Hd2 & Hc2); [lia|].
  replace (bool_decide (e <> None) && (n =? 0) && (Buffered p2 =? len (pbuf p2))) with false.
  2:{ symmetry. apply andb_false_iff. left. apply andb_false_iff. right. apply Z.eqb_neq. lia. }
  assert (Hrest : octets_ok (drop (Z.to_nat n) pending)) by auto with dnp3.
  destruct (IH p2 (s ++ fst (scan (content p1))) (drop (Z.to_nat n) pending)) as (p3 & fs & He & Hd3 & Hs3);
    [done | done | rewrite length_drop; unfold len in *; lia |].
  exists p3, (fst (scan (content p1)) ++ fs). rewrite He, <- app_assoc. split; [done|]. split; [done|].
  assert (Hsplit : content p ++ pending = content p1 ++ drop (Z.to_nat n) pending).
  { rewrite Hc1, <- app_assoc. f_equal. unfold slice. rewrite Z.sub_0_r. norm_nat. rewrite drop_0.
    symmetry. apply take_drop. }
  rewrite Hsplit. rewrite scan_app by (done || by apply content_ok).
  destruct Hs3 as [H1 H2]. rewrite Hc2 in *. cbn [fst snd] in *. split; cbn [fst snd]; congruence.
Qed.

Definition stream_of (reads : list Read) : list Z := concat (rdata <$> reads).

Lemma Drain_spec reads p s :
  drained p -> octets_ok (stream_of reads) -> Forall (fun r => rerr r = None) reads ->
  exists p' fs, Drain collect reads p s = Some (p', s ++ fs, None) /\
    drained p' /\ same_stream (fs, content p') (scan (content p ++ stream_of reads)).
Proof.
  unfold stream_of. revert p s. induction reads as [|rd reads IH]; intros p s Hp Hok He.
  { exists p, []. cbn. rewrite !app_nil_r. split_and!; try done. destruct Hp as [Hp Hw].
    rewrite scan_unfold, Hw by (by apply content_ok). done. }
  cbn [fmap list_fmap concat] in Hok. apply octets_ok_app in Hok as [Ho1 Ho2].
  inversion He as [|? ? He1 He2]; subst. cbn [Drain].
  destruct (drain_pending_spec (S (length (rdata rd))) p s (rdata rd)) as (p1 & fs1 & -> & Hd1 & Hs1);
    [done | done | lia |].
  rewrite He1. destruct (IH p1 (s ++ fs1) Hd1 Ho2 He2) as (p2 & fs2 & -> & Hd2 & Hs2).
  exists p2, (fs1 ++ fs2). rewrite <- app_assoc. split_and!; [done|done|].
  cbn [fmap list_fmap concat]. rewrite app_assoc.
  assert (Hop : octets_ok (content p)) by (apply content_ok, Hp).
  assert (Hop1 : octets_ok (content p1)) by (apply content_ok, Hd1).
  assert (Hopr : octets_ok (content p ++ rdata rd)) by (by apply octets_ok_app).
  rewrite scan_app by done.
  assert (Hj := scan_same_rest (content p1) (snd (scan (content p ++ rdata rd))) (concat (rdata <$> reads))
    (proj2 Hs1) Hop1 (scan_rest_ok _ Hopr) Ho2).
  destruct Hs1 as [H1 _], Hs2 as [H2 H3], Hj as [H4 H5]. cbn [fst snd] in *.
  split; cbn [fst snd]; congruence.
Qed.

(** ** Properties *)

(** [Next] terminates and keeps the parser sound. On any parser whose offsets and
    octets are in range the loop ends within one turn per buffered octet; it answers either
    a well-formed frame or [ErrNeedMore], nothing else, and after [ErrNeedMore] the buffer
    has room for more than one maximum frame. *)
Theorem Next_terminates (p : Parser) :
  parser_ok p ->
  exists p' r, Next_loop (S (Z.to_nat (Buffered p))) p = Some (p', r) /\ Next p = (p', r) /\
    parser_ok p' /\
    match r with
    | Ok f => frame_ok f /\ Buffered p' < Buffered p
    | Err e => e = ErrNeedMore /\ MaxFrameSize < Free p'
    end.
Proof.
  intros Hp. destruct (Next_loop_spec (S (Z.to_nat (Buffered p))) p Hp) as (p' & r & E & Hok & Hr); [lia|].
  exists p', r. unfold Next. rewrite E. split_and!; try done.
  destruct r as [f|e]; [naive_solver|]. destruct Hr as (-> & _ & Hb & _). split; [done|].
  unfold Free. destruct Hok as [-> _]. unfold parserBufSize. lia.
Qed.

(** The parser after one noisy frame has been written to it. *)
Definition witness_parser : Parser := fst (fst (Write NewParser ([1; 5; 9] ++ witness_frame))).

Lemma witness_parser_ok : parser_ok witness_parser.
Proof.
  destruct (Write NewParser ([1; 5; 9] ++ witness_frame)) as [[q n] e] eqn:E.
  unfold witness_parser. rewrite E.
  eapply Write_spec; [apply NewParser_ok | | exact E].
  vm_compute. repeat constructor; discriminate.
Qed.

Lemma Next_terminates_witness :
  exists p' r, Next witness_parser = (p', r) /\ parser_ok p' /\ is_ok r = true.
Proof.
  destruct (Next_terminates witness_parser witness_parser_ok) as (p' & r & H1 & H2 & H3 & _).
  exists p', r. split; [exact H2|]. split; [exact H3|].
  replace r with (snd (Next witness_parser)) by (rewrite H2; reflexivity). vm_compute. reflexivity.
Defined.

(** Every octet is accounted for. Over one call of [Next], the octets still buffered,
    the octets counted as discarded and the octets of the frame returned add up to what was
    there before (the counter being a [uint64]), and [FramesDecoded] counts exactly the
    frames returned. *)
Theorem Next_accounts (p : Parser) :
  parser_ok p ->
  let '(p', r) := Next p in
  u64 (BytesDiscarded (pstats p') + Buffered p' +
       match r with Ok f => FrameSize (len (Payload f)) | Err _ => 0 end) =
  u64 (BytesDiscarded (pstats p) + Buffered p) /\
  u64 (FramesDecoded (pstats p')) =
  u64 (FramesDecoded (pstats p) + if is_ok r then 1 else 0).
Proof.
  intros Hp. pose proof (Next_spec p Hp) as [_ Hr]. destruct (Next p) as [p' r]. cbn [fst snd] in Hr.
  assert (Hadd : forall a b k x y, u64 a = u64 (b + k) -> x + k = y -> u64 (a + x) = u64 (b + y)).
  { intros a b k x y H <-. rewrite <- u64_add_l, H, u64_add_l. f_equal. lia. }
  destruct r as [f|e]; cbn [is_ok].
  - destruct Hr as (_ & _ & _ & H1 & H2). split; [|done].
    rewrite <- Z.add_assoc. eapply Hadd; [exact H1 | lia].
  - destruct Hr as (_ & _ & _ & H1 & H2). split; [|done].
    rewrite <- Z.add_assoc. eapply Hadd; [exact H1 | lia].
Qed.

Lemma Next_accounts_witness :
  let '(p', r) := Next witness_parser in
  u64 (BytesDiscarded (pstats p') + Buffered p' +
       match r with Ok f => FrameSize (len (Payload f)) | Err _ => 0 end) =
  u64 (BytesDiscarded (pstats witness_parser) + Buffered witness_parser).
Proof.
  pose proof (Next_accounts witness_parser witness_parser_ok) as H.
  destruct (Next witness_parser) as [p' r]. exact (proj1 H).
Defined.

(** C21. How a stream is cut into reads does not matter. Draining any sequence of reads
    delivers exactly the frames [scan] finds in the concatenation of their octets, without
    error, and leaves the parser holding what [scan] leaves (up to octets that can no
    longer start a frame). *)
Theorem Drain_any_chunking (reads : list Read) :
  octets_ok (stream_of reads) -> Forall (fun r => rerr r = None) reads ->
  exists p', Drain collect reads NewParser [] = Some (p', fst (scan (stream_of reads)), None) /\
    parser_ok p' /\ norm (content p') = norm (snd (scan (stream_of reads))).
Proof.
  intros Hok He. destruct (Drain_spec reads NewParser [] NewParser_drained Hok He) as (p' & fs & H & Hd & Hs).
  replace (content NewParser) with (@nil Z) in Hs by (by vm_compute). cbn [app] in *.
  destruct Hs as [H1 H2]. cbn [fst snd] in *. exists p'. rewrite H, H1. split_and!; [done | apply Hd | done].
Qed.

Lemma Drain_any_chunking_witness :
  exists p', Drain collect [mkRead [9; 5] None; mkRead (drop 1 witness_frame) None] NewParser []
    = Some (p', [mkFrame (mkHeader (mkControl false false false false 0) 1 10 5) []], None) /\
    parser_ok p'.
Proof.
  destruct (Drain_any_chunking [mkRead [9; 5] None; mkRead (drop 1 witness_frame) None])
    as (p' & H1 & H2 & _).
  - vm_compute. repeat constructor; discriminate.
  - repeat constructor.
  - exists p'. split; [|exact H2]. rewrite H1. vm_compute. reflexivity.
Defined.

(** A frame on the wire, with noise in front of it that contains no delimiter and does not
    end in the first half of one. *)
Definition noisy (x : list Z * Frame) : list Z :=
  fst x ++ frame_octets (FHeader (snd x)) (Payload (snd x)).
Definition noisy_ok (x : list Z * Frame) : Prop :=
  octets_ok (fst x) /\ norm (fst x) = [] /\ frame_ok (snd x).

Lemma noisy_octets_ok xs : Forall noisy_ok xs -> octets_ok (concat (noisy <$> xs)).
Proof.
  induction 1 as [|x xs (Hg & Hn & Hf) Hxs IH]; [constructor|]. cbn [fmap list_fmap concat].
  unfold noisy at 1. rewrite !octets_ok_app. split_and!; try done. apply frame_octets_ok, Hf.
Qed.

Lemma scan_noisy xs :
  Forall noisy_ok xs -> same_stream (scan (concat (noisy <$> xs))) (snd <$> xs, []).
Proof.
  induction 1 as [|x xs (Hg & Hn & Hf) Hxs IH]; [by vm_compute|]. cbn [fmap list_fmap concat].
  pose proof (noisy_octets_ok xs Hxs) as Hok. unfold noisy at 1. rewrite <- app_assoc.
  assert (Hfo : octets_ok (frame_octets (FHeader (snd x)) (Payload (snd x)) ++ concat (noisy <$> xs)))
    by (apply octets_ok_app; split; [apply frame_octets_ok, Hf | exact Hok]).
  rewrite (scan_noise _ _ Hg Hfo Hn), scan_frame by done. destruct IH as [H1 H2]. cbn [fst snd] in *.
  split; cbn [fst snd]; congruence.
Qed.

(** Every intact frame survives. If a line carries frames with noise between them, and
    the octets arrive in reads of any sizes, the parser hands up exactly those frames, in
    order, and nothing else. *)
Theorem Drain_delivers (xs : list (list Z * Frame)) (reads : list Read) :
  Forall noisy_ok xs -> stream_of reads = concat (noisy <$> xs) ->
  Forall (fun r => rerr r = None) reads ->
  exists p', Drain collect reads NewParser [] = Some (p', snd <$> xs, None) /\ parser_ok p'.
Proof.
  intros Hxs Hst He. pose proof (noisy_octets_ok xs Hxs) as Hok.
  destruct (Drain_spec reads NewParser []) as (p' & fs & H & Hd & Hs);
    [apply NewParser_drained | by rewrite Hst | done |].
  replace (content NewParser) with (@nil Z) in Hs by (by vm_compute). cbn [app] in *.
  rewrite Hst in Hs. rewrite (scan_noisy xs Hxs) in Hs. destruct Hs as [H1 _]. cbn [fst] in H1.
  exists p'. rewrite H, H1. split; [done | apply Hd].
Qed.

Lemma Drain_delivers_witness :
  let f := mkFrame (mkHeader (mkControl true true false false 4) 10 1 7) [192; 1] in
  exists p', Drain collect [mkRead ([1; 2; 3] ++ frame_octets (FHeader f) [192; 1]) None] NewParser []
    = Some (p', [f], None) /\ parser_ok p'.
Proof.
  intros f.
  apply (Drain_delivers [([1; 2; 3], f)] [mkRead ([1; 2; 3] ++ frame_octets (FHeader f) [192; 1]) None]).
  - apply Forall_singleton. split; [vm_compute; repeat constructor; discriminate|].
    split; [vm_compute; reflexivity|].
    split; [|split; [vm_compute; repeat constructor; discriminate | vm_compute; split; [discriminate | reflexivity]]].
    repeat split; vm_compute; (reflexivity || discriminate).
  - reflexivity.
  - repeat constructor.
Defined.
