(* ===== verification/LinkFsm.v ===== *)
(** * The link state machines (src/internal/link/primary.go, secondary.go)

    [Primary] is the transmitting half: it resets the link, sends one confirmed frame at a
    time with an alternating frame count bit, retransmits on timeout and gives up after
    [MaxRetries].  [Secondary] is the receiving half: it answers, checks the frame count bit
    and hands payloads up.  Both are driven by calls, and so are their models: each method
    is a function from the state to the new state and what the method returns.

    The last part joins the two over a line that may lose any frame in either direction
    ([link_step]) and proves that confirmed delivery is exactly-once. *)

From S2P Require Import Prelude LinkFrame.

(** ** The primary station *)

Inductive Action := ActionNone | ActionTransmit | ActionComplete | ActionFailed.
Inductive priState := priIdle | priWaitLinkReset | priWaitConfirm | priWaitStatus.

#[export] Instance Action_eq_dec : EqDecision Action.
Proof. solve_decision. Defined.
#[export] Instance priState_eq_dec : EqDecision priState.
Proof. solve_decision. Defined.

Inductive SendErr := SendPayloadTooLong | SendBusy | ErrDataFlowControl.

Record Primary := mkPrimary {
  LocalAddr : Z; RemoteAddr : Z; IsMaster : bool; UseConfirms : bool; MaxRetries : Z;
  state : priState; linkUp : bool; fcb : bool; retries : Z;
  pending : list Z; lastSent : Frame; dfc : bool }.

Definition NewPrimary (local remote : Z) (isMaster useConfirms : bool) (maxRetries : Z) : Primary :=
  mkPrimary local remote isMaster useConfirms maxRetries priIdle false false 0 [] Frame0 false.

(** One assignment per field the methods write. *)
Definition with_remote (v : Z) (p : Primary) : Primary :=
  mkPrimary (LocalAddr p) v (IsMaster p) (UseConfirms p) (MaxRetries p) (state p) (linkUp p)
    (fcb p) (retries p) (pending p) (lastSent p) (dfc p).
Definition with_state (v : priState) (p : Primary) : Primary :=
  mkPrimary (LocalAddr p) (RemoteAddr p) (IsMaster p) (UseConfirms p) (MaxRetries p) v (linkUp p)
    (fcb p) (retries p) (pending p) (lastSent p) (dfc p).
Definition with_linkUp (v : bool) (p : Primary) : Primary :=
  mkPrimary (LocalAddr p) (RemoteAddr p) (IsMaster p) (UseConfirms p) (MaxRetries p) (state p) v
    (fcb p) (retries p) (pending p) (lastSent p) (dfc p).
Definition with_fcb (v : bool) (p : Primary) : Primary :=
  mkPrimary (LocalAddr p) (RemoteAddr p) (IsMaster p) (UseConfirms p) (MaxRetries p) (state p)
    (linkUp p) v (retries p) (pending p) (lastSent p) (dfc p).
Definition with_retries (v : Z) (p : Primary) : Primary :=
  mkPrimary (LocalAddr p) (RemoteAddr p) (IsMaster p) (UseConfirms p) (MaxRetries p) (state p)
    (linkUp p) (fcb p) v (pending p) (lastSent p) (dfc p).
Definition with_pending (v : list Z) (p : Primary) : Primary :=
  mkPrimary (LocalAddr p) (RemoteAddr p) (IsMaster p) (UseConfirms p) (MaxRetries p) (state p)
    (linkUp p) (fcb p) (retries p) v (lastSent p) (dfc p).
Definition with_lastSent (v : Frame) (p : Primary) : Primary :=
  mkPrimary (LocalAddr p) (RemoteAddr p) (IsMaster p) (UseConfirms p) (MaxRetries p) (state p)
    (linkUp p) (fcb p) (retries p) (pending p) v (dfc p).
Definition with_dfc (v : bool) (p : Primary) : Primary :=
  mkPrimary (LocalAddr p) (RemoteAddr p) (IsMaster p) (UseConfirms p) (MaxRetries p) (state p)
    (linkUp p) (fcb p) (retries p) (pending p) (lastSent p) v.

Definition Primary_Reset (p : Primary) : Primary :=
  with_dfc false (with_pending [] (with_retries 0 (with_fcb false (with_linkUp false
    (with_state priIdle p))))).

Definition Busy (p : Primary) : bool := negb (bool_decide (state p = priIdle)).

Definition frame (p : Primary) (fn : Z) (fcb fcv : bool) (payload : list Z) : Frame :=
  {| FHeader :=
       {| HControl := mkControl (IsMaster p) true fcb fcv fn;
          Dest := RemoteAddr p; Src := LocalAddr p; Length := u8 (MinLength + len payload) |};
     Payload := payload |}.

(** Record a frame as the last one sent and return it with an action. *)
Definition emit (p : Primary) (f : Frame) (a : Action) : Primary * Frame * Action :=
  (with_lastSent f p, f, a).

Definition sendPending (p : Primary) : Primary * Frame * Action :=
  let p := with_state priWaitConfirm p in
  emit p (frame p FuncConfirmedUserData (fcb p) true (pending p)) ActionTransmit.

Definition Send (p : Primary) (payload : list Z) : Primary * result SendErr (Frame * Action) :=
  if MaxPayload <? len payload then (p, Err SendPayloadTooLong)
  else if Busy p then (p, Err SendBusy)
  else if dfc p then (p, Err ErrDataFlowControl)
  else
    let p := with_retries 0 p in
    let '(p, f, a) :=
      if negb (UseConfirms p) then
        emit p (frame p FuncUnconfirmedUserData false false payload) ActionComplete
      else
        let p := with_pending payload p in
        if negb (linkUp p) then
          let p := with_state priWaitLinkReset p in
          emit p (frame p FuncResetLinkStates false false []) ActionTransmit
        else sendPending p in
    (p, Ok (f, a)).

Definition RequestLinkStatus (p : Primary) : Primary * result SendErr (Frame * Action) :=
  if Busy p then (p, Err SendBusy)
  else
    let p := with_retries 0 (with_state priWaitStatus p) in
    let '(p, f, a) := emit p (frame p FuncRequestLinkStatus false false []) ActionTransmit in
    (p, Ok (f, a)).

Definition fail (p : Primary) : Primary * Frame * Action :=
  (with_retries 0 (with_pending [] (with_dfc false (with_linkUp false (with_state priIdle p)))),
   Frame0, ActionFailed).

Definition Primary_OnFrame (p : Primary) (f : Frame) : Primary * Frame * Action :=
  if Prm (HControl (FHeader f)) then (p, Frame0, ActionNone)
  else if 0 <? len (Payload f) then (p, Frame0, ActionNone)
  else
    let p := if bool_decide (state p = priIdle) then p else with_dfc (Dfc (HControl (FHeader f))) p in
    let fn := Func (HControl (FHeader f)) in
    match state p with
    | priWaitLinkReset =>
        if fn =? FuncAck then sendPending (with_retries 0 (with_fcb true (with_linkUp true p)))
        else if (fn =? FuncNack) || (fn =? FuncNotSupported) then fail p
        else (p, Frame0, ActionNone)
    | priWaitConfirm =>
        if fn =? FuncAck then
          (with_retries 0 (with_pending [] (with_state priIdle (with_fcb (negb (fcb p)) p))),
           Frame0, ActionComplete)
        else if fn =? FuncNack then
          let p := with_retries 0 (with_state priWaitLinkReset (with_linkUp false p)) in
          emit p (frame p FuncResetLinkStates false false []) ActionTransmit
        else if fn =? FuncNotSupported then fail p
        else (p, Frame0, ActionNone)
    | priWaitStatus =>
        if (fn =? FuncLinkStatus) || (fn =? FuncAck) then
          (with_retries 0 (with_state priIdle p), Frame0, ActionComplete)
        else if (fn =? FuncNack) || (fn =? FuncNotSupported) then fail p
        else (p, Frame0, ActionNone)
    | priIdle => (p, Frame0, ActionNone)
    end.

Definition OnTimeout (p : Primary) : Primary * Frame * Action :=
  if bool_decide (state p = priIdle) then (p, Frame0, ActionNone)
  else if MaxRetries p <=? retries p then fail p
  else (with_retries (retries p + 1) p, lastSent p, ActionTransmit).

(** ** The secondary station *)

Record Secondary := mkSecondary {
  SLocalAddr : Z; SIsMaster : bool; reset : bool; expectFCB : bool }.

Record SecResult := mkSecResult {
  Reply : option Frame; SPayload : option (list Z); Discarded : bool }.

Definition NewSecondary (local : Z) (isMaster : bool) : Secondary :=
  mkSecondary local isMaster false false.

Definition validControl (c : Control) : bool :=
  if (Func c =? FuncTestLinkStates) || (Func c =? FuncConfirmedUserData) then Fcv c
  else if (Func c =? FuncResetLinkStates) || (Func c =? FuncUnconfirmedUserData)
       || (Func c =? FuncRequestLinkStatus) then negb (Fcv c)
  else true.

Definition validLength (c : Control) (payload : list Z) : bool :=
  if (Func c =? FuncConfirmedUserData) || (Func c =? FuncUnconfirmedUserData) then 0 <? len payload
  else if (Func c =? FuncResetLinkStates) || (Func c =? FuncTestLinkStates)
       || (Func c =? FuncRequestLinkStatus) then len payload =? 0
  else true.

Definition Secondary_Reset (s : Secondary) : Secondary :=
  mkSecondary (SLocalAddr s) (SIsMaster s) false false.

Definition reply (s : Secondary) (fn : Z) (dest : Z) : Frame :=
  {| FHeader :=
       {| HControl := mkControl (SIsMaster s) false false false fn;
          Dest := dest; Src := SLocalAddr s; Length := MinLength |};
     Payload := [] |}.

Definition onBroadcast (f : Frame) : SecResult :=
  let fn := Func (HControl (FHeader f)) in
  if (fn =? FuncConfirmedUserData) || (fn =? FuncUnconfirmedUserData)
  then mkSecResult None (Some (Payload f)) false
  else mkSecResult None None true.

Definition with_link (r e : bool) (s : Secondary) : Secondary :=
  mkSecondary (SLocalAddr s) (SIsMaster s) r e.

Definition Secondary_OnFrame (s : Secondary) (f : Frame) : Secondary * SecResult :=
  let c := HControl (FHeader f) in
  if negb (Prm c) then (s, mkSecResult None None false)
  else if negb (validControl c) || negb (validLength c (Payload f)) then
    (s, mkSecResult None None true)
  else if IsBroadcast (Dest (FHeader f)) then (s, onBroadcast f)
  else
    let src := Src (FHeader f) in
    let fn := Func c in
    if fn =? FuncResetLinkStates then
      (with_link true true s, mkSecResult (Some (reply s FuncAck src)) None false)
    else if fn =? FuncTestLinkStates then
      if negb (reset s) then (s, mkSecResult (Some (reply s FuncNack src)) None false)
      else if negb (Bool.eqb (Fcb c) (expectFCB s)) then
        (s, mkSecResult (Some (reply s FuncNack src)) None false)
      else (with_link (reset s) (negb (expectFCB s)) s,
            mkSecResult (Some (reply s FuncAck src)) None false)
    else if fn =? FuncConfirmedUserData then
      if negb (reset s) then (s, mkSecResult (Some (reply s FuncNack src)) None true)
      else if negb (Bool.eqb (Fcb c) (expectFCB s)) then
        (s, mkSecResult (Some (reply s FuncAck src)) None true)
      else (with_link (reset s) (negb (expectFCB s)) s,
            mkSecResult (Some (reply s FuncAck src)) (Some (Payload f)) false)
    else if fn =? FuncUnconfirmedUserData then (s, mkSecResult None (Some (Payload f)) false)
    else if fn =? FuncRequestLinkStatus then
      (s, mkSecResult (Some (reply s FuncLinkStatus src)) None false)
    else (s, mkSecResult (Some (reply s FuncNotSupported src)) None false).

(** ** Properties of each half *)

(** The primary after [n] unanswered timeouts, and the frames and actions they returned. *)
Fixpoint timeouts (n : nat) (p : Primary) : Primary * list (Frame * Action) :=
  match n with
  | O => (p, [])
  | S n => let '(p, f, a) := OnTimeout p in let '(p, l) := timeouts n p in (p, (f, a) :: l)
  end.

Lemma timeouts_retry (k : nat) p :
  state p <> priIdle -> Z.of_nat k <= MaxRetries p - retries p ->
  timeouts k p = (with_retries (retries p + Z.of_nat k) p, replicate k (lastSent p, ActionTransmit)).
Proof.
  revert p. induction k as [|k IH]; intros p Hs Hk.
  - cbn. rewrite Z.add_0_r. by destruct p.
  - cbn [timeouts]. unfold OnTimeout. rewrite bool_decide_eq_false_2 by done.
    replace (MaxRetries p <=? retries p) with false by (symmetry; apply Z.leb_gt; lia).
    rewrite IH; cbn -[Z.of_nat Z.add]; [|done|lia].
    replace (retries p + 1 + Z.of_nat k) with (retries p + Z.of_nat (S k)) by lia. done.
Qed.

(** A silent peer is given up on. If the peer never answers, exactly [MaxRetries]
    retransmissions follow the first transmission, each of them verbatim the frame last sent
    (its frame count bit included), and the next timeout fails the send, leaving the primary
    idle with the link down and flow control clear, so that the next [Send] is accepted
    again. *)
Theorem timeouts_fail (p : Primary) :
  state p <> priIdle -> retries p = 0 -> 0 <= MaxRetries p ->
  exists p', timeouts (S (Z.to_nat (MaxRetries p))) p =
      (p', replicate (Z.to_nat (MaxRetries p)) (lastSent p, ActionTransmit) ++ [(Frame0, ActionFailed)]) /\
    state p' = priIdle /\ linkUp p' = false /\ dfc p' = false /\ pending p' = [].
Proof.
  intros Hs Hr Hm.
  assert (Hsplit : forall n q, timeouts (S n) q =
    let '(q1, l) := timeouts n q in let '(q2, f, a) := OnTimeout q1 in (q2, l ++ [(f, a)])).
  { induction n as [|n IH]; intros q.
    - cbn. by destruct (OnTimeout q) as [[? ?] ?].
    - change (timeouts (S (S n)) q) with
        (let '(p, f, a) := OnTimeout q in let '(p, l) := timeouts (S n) p in (p, (f, a) :: l)).
      cbn [timeouts] in IH |- *. destruct (OnTimeout q) as [[q1 ?] a].
      rewrite IH. destruct (timeouts n q1) as [q2 l]. by destruct (OnTimeout q2) as [[? ?] ?]. }
  rewrite Hsplit, timeouts_retry by (done || lia). unfold OnTimeout. cbn [state with_retries].
  rewrite bool_decide_eq_false_2 by done. cbn [MaxRetries retries with_retries].
  replace (MaxRetries p <=? retries p + Z.of_nat (Z.to_nat (MaxRetries p))) with true
    by (symmetry; apply Z.leb_le; lia).
  eexists. split; [reflexivity|]. done.
Qed.

Lemma timeouts_fail_witness :
  let p := fst (Send (NewPrimary 1 10 true true 2) [192]) in
  exists p', timeouts 3 p =
      (p', [(lastSent p, ActionTransmit); (lastSent p, ActionTransmit); (Frame0, ActionFailed)]) /\ state p' = priIdle.
Proof.
  intros p. destruct (timeouts_fail p) as (p' & H & Hs & _);
    [vm_compute; discriminate | reflexivity | vm_compute; discriminate |].
  exists p'. split; [exact H | exact Hs].
Defined.

(** A broadcast is never answered and never moves the link state, whatever its
    control field says; only user data goes up. *)
Theorem Secondary_broadcast_silent (s : Secondary) (f : Frame) :
  IsBroadcast (Dest (FHeader f)) = true ->
  let '(s', r) := Secondary_OnFrame s f in
  s' = s /\ Reply r = None /\
  (forall d, SPayload r = Some d -> d = Payload f /\ d <> []).
Proof.
  intros Hb. unfold Secondary_OnFrame. rewrite Hb.
  destruct (negb (Prm _)); [done|]. destruct (negb _ || negb _) eqn:E; [done|]. bool_prop.
  unfold onBroadcast. destruct (_ || _) eqn:E1; [|done]. split_and!; try done. intros d [= <-].
  split; [done|]. unfold validLength in *. rewrite E1 in *. intros Hnil. by rewrite Hnil in *.
Qed.

Lemma Secondary_broadcast_silent_witness :
  let f := mkFrame (mkHeader (mkControl true true false false 4) 0xFFFF 1 6) [192] in
  let '(s', r) := Secondary_OnFrame (NewSecondary 10 false) f in
  s' = NewSecondary 10 false /\ Reply r = None.
Proof.
  intros f. pose proof (Secondary_broadcast_silent (NewSecondary 10 false) f eq_refl) as H.
  destruct (Secondary_OnFrame (NewSecondary 10 false) f) as [s' r].
  exact (conj (proj1 H) (proj1 (proj2 H))).
Defined.

(** ** The two halves over a lossy line

    At most one frame is on the line at a time, as the primary guarantees by sending nothing
    before an answer or a timeout, and the response timer is longer than a round trip.  Any
    frame may be lost, in either direction. *)

Inductive Wire := WNone | WFrame (f : Frame) | WReply (f : Frame).

(** [delivered] is what the secondary handed up; [log] is how each send ended, in order:
    [true] for [ActionComplete], [false] for [ActionFailed]. *)
Record Link := mkLink {
  lp : Primary; ls : Secondary; wire : Wire;
  delivered : list (list Z); log : list (list Z * bool) }.

Definition outcome (p : Primary) (a : Action) : list (list Z * bool) :=
  match state p, a with
  | priWaitLinkReset, ActionComplete | priWaitConfirm, ActionComplete => [(pending p, true)]
  | priWaitLinkReset, ActionFailed | priWaitConfirm, ActionFailed => [(pending p, false)]
  | _, _ => []
  end.

Definition on_wire (f : Frame) (a : Action) : Wire :=
  match a with ActionTransmit => WFrame f | _ => WNone end.

Inductive link_step : Link -> Link -> Prop :=
| step_send s payload p f :
    wire s = WNone -> payload <> [] -> Send (lp s) payload = (p, Ok (f, ActionTransmit)) ->
    link_step s (mkLink p (ls s) (WFrame f) (delivered s) (log s))
| step_status s p f :
    wire s = WNone -> RequestLinkStatus (lp s) = (p, Ok (f, ActionTransmit)) ->
    link_step s (mkLink p (ls s) (WFrame f) (delivered s) (log s))
| step_lose s :
    link_step s (mkLink (lp s) (ls s) WNone (delivered s) (log s))
| step_arrive s f sec r :
    wire s = WFrame f -> Secondary_OnFrame (ls s) f = (sec, r) ->
    link_step s (mkLink (lp s) sec (match Reply r with Some g => WReply g | None => WNone end)
                   (delivered s ++ option_list (SPayload r)) (log s))
| step_answer s f p g a :
    wire s = WReply f -> Primary_OnFrame (lp s) f = (p, g, a) ->
    link_step s (mkLink p (ls s) (on_wire g a) (delivered s) (log s ++ outcome (lp s) a))
| step_timeout s p g a :
    wire s = WNone -> OnTimeout (lp s) = (p, g, a) ->
    link_step s (mkLink p (ls s) (on_wire g a) (delivered s) (log s ++ outcome (lp s) a)).

(** Which deliveries account for which outcomes: a completed send was delivered exactly
    once, a failed one at most once, all in order. *)
Inductive explains : list (list Z * bool) -> list (list Z) -> Prop :=
| explains_nil : explains [] []
| explains_done l d x : explains l d -> explains (l ++ [(x, true)]) (d ++ [x])
| explains_lost l d x : explains l d -> explains (l ++ [(x, false)]) d
| explains_kept l d x : explains l d -> explains (l ++ [(x, false)]) (d ++ [x]).

(** The secondary agrees with the primary about the next frame count bit. *)
Definition in_step (s : Link) : Prop :=
  linkUp (lp s) = true -> reset (ls s) = true /\ expectFCB (ls s) = fcb (lp s).

Definition line_is (s : Link) (answer : Z) : Prop :=
  wire s = WNone \/ wire s = WFrame (lastSent (lp s)) \/
  wire s = WReply (reply (ls s) answer (LocalAddr (lp s))).

Definition link_inv (s : Link) : Prop :=
  let p := lp s in
  UseConfirms p = true /\ IsBroadcast (RemoteAddr p) = false /\ dfc p = false /\
  match state p with
  | priIdle => wire s = WNone /\ explains (log s) (delivered s) /\ in_step s
  | priWaitLinkReset =>
      linkUp p = false /\ lastSent p = frame p FuncResetLinkStates false false [] /\
      pending p <> [] /\ explains (log s) (delivered s) /\ line_is s FuncAck /\
      (wire s = WReply (reply (ls s) FuncAck (LocalAddr p)) -> ls s = with_link true true (ls s))
  | priWaitConfirm =>
      linkUp p = true /\ lastSent p = frame p FuncConfirmedUserData (fcb p) true (pending p) /\
      pending p <> [] /\ reset (ls s) = true /\
      ((expectFCB (ls s) = fcb p /\ explains (log s) (delivered s) /\
        (wire s = WNone \/ wire s = WFrame (lastSent p))) \/
       (expectFCB (ls s) = negb (fcb p) /\
        (exists d, delivered s = d ++ [pending p] /\ explains (log s) d) /\ line_is s FuncAck))
  | priWaitStatus =>
      lastSent p = frame p FuncRequestLinkStatus false false [] /\
      explains (log s) (delivered s) /\ in_step s /\ line_is s FuncLinkStatus
  end.

(** The replies of the secondary, by what the primary sends. *)
Lemma arrive_reset p s :
  IsBroadcast (RemoteAddr p) = false ->
  Secondary_OnFrame s (frame p FuncResetLinkStates false false []) =
  (with_link true true s, mkSecResult (Some (reply s FuncAck (LocalAddr p))) None false).
Proof. intros Hb. unfold Secondary_OnFrame. cbn -[IsBroadcast]. by rewrite Hb. Qed.

Lemma arrive_status p s :
  IsBroadcast (RemoteAddr p) = false ->
  Secondary_OnFrame s (frame p FuncRequestLinkStatus false false []) =
  (s, mkSecResult (Some (reply s FuncLinkStatus (LocalAddr p))) None false).
Proof. intros Hb. unfold Secondary_OnFrame. cbn -[IsBroadcast]. by rewrite Hb. Qed.

Lemma arrive_data p s b payload :
  IsBroadcast (RemoteAddr p) = false -> payload <> [] -> reset s = true ->
  Secondary_OnFrame s (frame p FuncConfirmedUserData b true payload) =
  if Bool.eqb b (expectFCB s)
  then (with_link true (negb (expectFCB s)) s,
        mkSecResult (Some (reply s FuncAck (LocalAddr p))) (Some payload) false)
  else (s, mkSecResult (Some (reply s FuncAck (LocalAddr p))) None true).
Proof.
  intros Hb Hp Hr. unfold Secondary_OnFrame. cbn -[IsBroadcast len].
  unfold validControl, validLength. cbn -[IsBroadcast len].
  replace (0 <? len payload) with true.
  - cbn -[IsBroadcast]. rewrite Hb, Hr. cbn. by destruct (Bool.eqb b (expectFCB s)).
  - symmetry. apply Z.ltb_lt. destruct payload; [done|]. unfold len. cbn. lia.
Qed.

Ltac open_inv H := destruct H as (Huc & Hbr & Hdfc & Hst).

Lemma inv_send s payload p f :
  link_inv s -> wire s = WNone -> payload <> [] -> Send (lp s) payload = (p, Ok (f, ActionTransmit)) ->
  link_inv (mkLink p (ls s) (WFrame f) (delivered s) (log s)).
Proof.
  intros H Hw Hp Hs. open_inv H. unfold Send in Hs.
  destruct (_ <? _); [done|]. unfold Busy in Hs. destruct (state (lp s)) eqn:Es; cbn in Hs; try done.
  rewrite Hdfc, Huc in Hs. cbn in Hs. destruct Hst as (_ & Hex & Hin). unfold link_inv; cbn.
  destruct (linkUp (lp s)) eqn:El; cbn in Hs; injection Hs as <- <-; cbn; split_and!; try done.
  - destruct (Hin El) as [Hr _]. exact Hr.
  - left. destruct (Hin El) as [_ He]. split_and!; [done | done | by right].
  - right. by left.
Qed.

Lemma inv_status s p f :
  link_inv s -> wire s = WNone -> RequestLinkStatus (lp s) = (p, Ok (f, ActionTransmit)) ->
  link_inv (mkLink p (ls s) (WFrame f) (delivered s) (log s)).
Proof.
  intros H Hw Hs. open_inv H. unfold RequestLinkStatus, Busy in Hs.
  destruct (state (lp s)) eqn:Es; cbn in Hs; try done. injection Hs as <- <-.
  destruct Hst as (_ & Hex & Hin). unfold link_inv; cbn. split_and!; try done. right. by left.
Qed.

Lemma inv_lose s : link_inv s -> link_inv (mkLink (lp s) (ls s) WNone (delivered s) (log s)).
Proof.
  intros H. open_inv H. unfold link_inv; cbn. split_and!; try done.
  destruct (state (lp s)); cbn.
  - by destruct Hst as (_ & ? & ?).
  - destruct Hst as (? & ? & ? & ? & _). split_and!; try done. by left.
  - destruct Hst as (? & ? & ? & ? & [(? & ? & _)|(? & ? & _)]); split_and!; try done.
    + left. split_and!; try done. by left.
    + right. split_and!; try done. by left.
  - destruct Hst as (? & ? & ? & _). split_and!; try done. by left.
Qed.

Lemma inv_arrive s f sec r :
  link_inv s -> wire s = WFrame f -> Secondary_OnFrame (ls s) f = (sec, r) ->
  link_inv (mkLink (lp s) sec (match Reply r with Some g => WReply g | None => WNone end)
              (delivered s ++ option_list (SPayload r)) (log s)).
Proof.
  intros H Hw Hs. open_inv H. unfold link_inv; cbn. split_and!; try done.
  assert (Hf : lastSent (lp s) = f).
  { destruct (state (lp s)).
    - destruct Hst as (Hn & _). congruence.
    - destruct Hst as (_ & _ & _ & _ & Hl & _). unfold line_is in Hl. naive_solver congruence.
    - destruct Hst as (_ & _ & _ & _ & [(_ & _ & Hl)|(_ & _ & Hl)]); unfold line_is in *; naive_solver congruence.
    - destruct Hst as (_ & _ & _ & Hl). unfold line_is in Hl. naive_solver congruence. }
  rewrite <- Hf in Hs. destruct (state (lp s)).
  - destruct Hst as (Hn & _). congruence.
  - destruct Hst as (Hl & He & Hp & Hx & _). rewrite He, arrive_reset in Hs by done.
    injection Hs as <- <-. cbn. rewrite app_nil_r. split_and!; try done. right. by right.
  - destruct Hst as (Hl & He & Hp & Hr & Hc). rewrite He, arrive_data in Hs by done.
    destruct (Bool.eqb (fcb (lp s)) (expectFCB (ls s))) eqn:Eq; injection Hs as <- <-; cbn;
      split_and!; try done.
    + apply Bool.eqb_prop in Eq. right. destruct Hc as [(Hx & Hex & _)|(Hx & _)].
      * split_and!; [by rewrite Eq | by exists (delivered s) | right; by right].
      * rewrite Hx in Eq. by destruct (fcb (lp s)).
    + right. destruct Hc as [(Hx & _)|(Hx & Hd & _)].
      * rewrite Hx, Bool.eqb_reflx in Eq. done.
      * rewrite app_nil_r. split_and!; try done. right. by right.
  - destruct Hst as (He & Hx & Hi & _). rewrite He, arrive_status in Hs by done.
    injection Hs as <- <-. cbn. rewrite app_nil_r. split_and!; try done. right. by right.
Qed.

(** What the primary does with those replies. *)
Lemma answer_reset p s a :
  state p = priWaitLinkReset ->
  Primary_OnFrame p (reply s FuncAck a) =
  sendPending (with_retries 0 (with_fcb true (with_linkUp true (with_dfc false p)))).
Proof. destruct p. cbn. by intros ->. Qed.

Lemma answer_data p s a :
  state p = priWaitConfirm ->
  Primary_OnFrame p (reply s FuncAck a) =
  (with_retries 0 (with_pending [] (with_state priIdle (with_fcb (negb (fcb p)) (with_dfc false p)))),
   Frame0, ActionComplete).
Proof. destruct p. cbn. by intros ->. Qed.

Lemma answer_status p s a :
  state p = priWaitStatus ->
  Primary_OnFrame p (reply s FuncLinkStatus a) =
  (with_retries 0 (with_state priIdle (with_dfc false p)), Frame0, ActionComplete).
Proof. destruct p. cbn. by intros ->. Qed.

Lemma inv_answer s f p g a :
  link_inv s -> wire s = WReply f -> Primary_OnFrame (lp s) f = (p, g, a) ->
  link_inv (mkLink p (ls s) (on_wire g a) (delivered s) (log s ++ outcome (lp s) a)).
Proof.
  intros H Hw Hs. open_inv H. unfold link_inv, outcome.
  assert (Hline : forall ans, line_is s ans -> f = reply (ls s) ans (LocalAddr (lp s)))
    by (unfold line_is; naive_solver congruence).
  destruct (state (lp s)) eqn:Es.
  - destruct Hst as (Hn & _). congruence.
  - destruct Hst as (Hl & He & Hp & Hx & Hli & Hsec). apply Hline in Hli as ->.
    rewrite answer_reset in Hs by done. injection Hs as <- <- <-. cbn.
    rewrite app_nil_r. specialize (Hsec Hw). rewrite Hsec. cbn.
    split_and!; try done. left. split_and!; try done. by right.
  - destruct Hst as (Hl & He & Hp & Hr & Hc).
    assert (Hc' : expectFCB (ls s) = negb (fcb (lp s)) /\
      (exists d, delivered s = d ++ [pending (lp s)] /\ explains (log s) d) /\ line_is s FuncAck)
      by (destruct Hc as [(_ & _ & Hl')|]; [naive_solver congruence | done]).
    destruct Hc' as (Hx & (d & Hd & Hex) & Hli). apply Hline in Hli as ->.
    rewrite answer_data in Hs by done. injection Hs as <- <- <-. cbn.
    split_and!; try done. rewrite Hd. by constructor.
  - destruct Hst as (He & Hx & Hi & Hli). apply Hline in Hli as ->.
    rewrite answer_status in Hs by done. injection Hs as <- <- <-. cbn. by rewrite app_nil_r.
Qed.

Lemma inv_timeout s p g a :
  link_inv s -> wire s = WNone -> OnTimeout (lp s) = (p, g, a) ->
  link_inv (mkLink p (ls s) (on_wire g a) (delivered s) (log s ++ outcome (lp s) a)).
Proof.
  intros H Hw Hs. open_inv H. unfold link_inv, OnTimeout, outcome in *.
  destruct (state (lp s)) eqn:Es; cbn in Hs.
  { injection Hs as <- <- <-. rewrite app_nil_r. cbn. rewrite Es. by destruct Hst as (? & ? & ?). }
  all: destruct (_ <=? _) in Hs; injection Hs as <- <- <-; cbn; rewrite ?app_nil_r, ?Es;
    split_and!; try done; try tauto.
  all: try (right; left; done).
  all: try (destruct Hst as (? & ? & ? & ? & ?); by constructor).
  - destruct Hst as (_ & _ & _ & _ & [(_ & Hx & _)|(_ & (d & -> & Hx) & _)]); by constructor.
  - destruct Hst as (_ & He & _ & _ & [(? & ? & _)|(? & ? & _)]); [left | right]; split_and!; try done.
    + by right.
    + right. by left.
Qed.

Lemma link_step_inv s s' : link_inv s -> link_step s s' -> link_inv s'.
Proof.
  intros H Hs. destruct Hs; eauto using inv_send, inv_status, inv_lose, inv_arrive, inv_answer, inv_timeout.
Qed.

Definition link_init (local remote : Z) (isMaster : bool) (maxRetries : Z) : Link :=
  mkLink (NewPrimary local remote isMaster true maxRetries) (NewSecondary remote (negb isMaster))
    WNone [] [].

Lemma link_init_inv local remote m r : IsBroadcast remote = false -> link_inv (link_init local remote m r).
Proof. intros Hb. unfold link_inv; cbn. split_and!; try done. constructor. Qed.

Lemma link_reachable_inv s0 s : link_inv s0 -> rtc link_step s0 s -> link_inv s.
Proof. intros H Hr. induction Hr; eauto using link_step_inv. Qed.

(** C16. Confirmed delivery is exactly-once. Whatever the line loses, in every reachable
    state the payloads handed up are those of the sends that ended, in order — each
    completed send exactly once, each failed one at most once — followed by at most the
    payload still in flight. *)
Theorem link_exactly_once (local remote : Z) (isMaster : bool) (maxRetries : Z) (s : Link) :
  IsBroadcast remote = false ->
  rtc link_step (link_init local remote isMaster maxRetries) s ->
  exists d inflight, delivered s = d ++ inflight /\ explains (log s) d /\
    (inflight = [] \/ (inflight = [pending (lp s)] /\ state (lp s) = priWaitConfirm)).
Proof.
  intros Hb Hr. pose proof (link_reachable_inv _ _ (link_init_inv local remote isMaster maxRetries Hb) Hr) as H.
  open_inv H. destruct (state (lp s)).
  - exists (delivered s), []. rewrite app_nil_r. naive_solver.
  - exists (delivered s), []. rewrite app_nil_r. naive_solver.
  - destruct Hst as (_ & _ & _ & _ & [(_ & Hx & _)|(_ & (d & Hd & Hx) & _)]).
    + exists (delivered s), []. rewrite app_nil_r. naive_solver.
    + exists d, [pending (lp s)]. naive_solver.
  - exists (delivered s), []. rewrite app_nil_r. naive_solver.
Qed.

Definition witness_link : Link :=
  let s := link_init 1 10 true 3 in
  let '(p, r) := Send (lp s) [192; 1] in
  mkLink p (ls s) (match r with Ok (f, _) => WFrame f | Err _ => WNone end) [] [].

Lemma witness_link_reachable : rtc link_step (link_init 1 10 true 3) witness_link.
Proof.
  apply rtc_once. eapply (step_send (link_init 1 10 true 3) [192; 1]);
    [reflexivity | discriminate | reflexivity].
Qed.

Lemma link_exactly_once_witness :
  exists d inflight, delivered witness_link = d ++ inflight /\ explains (log witness_link) d /\
    (inflight = [] \/ (inflight = [pending (lp witness_link)] /\ state (lp witness_link) = priWaitConfirm)).
Proof.
  apply (link_exactly_once 1 10 true 3 witness_link); [reflexivity | apply witness_link_reachable].
Defined.


(** A confirmed frame in flight completes once one frame and its answer get through. *)
Lemma confirm_round s f :
  link_inv s -> state (lp s) = priWaitConfirm -> wire s = WFrame f ->
  exists s', rtc link_step s s' /\ state (lp s') = priIdle /\
    log s' = log s ++ [(pending (lp s), true)] /\ pending (lp s) ∈ delivered s'.
Proof.
  intros H Es Hw. pose proof H as H0. open_inv H0. rewrite Es in Hst.
  destruct Hst as (Hl & He & Hp & Hr & Hc).
  assert (f = lastSent (lp s)) as -> by (unfold line_is in Hc; naive_solver congruence).
  destruct (Secondary_OnFrame (ls s) (lastSent (lp s))) as [sec r] eqn:Ea.
  pose proof (step_arrive s _ sec r Hw Ea) as St1. pose proof (inv_arrive s _ sec r H Hw Ea) as Inv1.
  rewrite He, arrive_data in Ea by done.
  assert (Hd : pending (lp s) ∈ delivered s ++ option_list (SPayload r) /\
               Reply r = Some (reply (ls s) FuncAck (LocalAddr (lp s)))).
  { destruct (Bool.eqb _ _) eqn:Eq; injection Ea as <- <-; cbn; (split; [|done]).
    - apply elem_of_app. right. apply list_elem_of_singleton. done.
    - destruct Hc as [(Hx & _)|(_ & (d & -> & _) & _)].
      + by rewrite Hx, Bool.eqb_reflx in Eq.
      + rewrite app_nil_r. apply elem_of_app. right. by apply list_elem_of_singleton. }
  destruct Hd as [Hin Hrep]. rewrite Hrep in St1.
  match type of St1 with link_step _ ?s1 => set (s1' := s1) in * end.
  eexists. split.
  - eapply rtc_l; [exact St1|]. apply rtc_once. eapply (step_answer s1'); [done|].
    apply (answer_data (lp s) (ls s) (LocalAddr (lp s)) Es).
  - cbn. unfold outcome. cbn. rewrite Es. done.
Qed.

(** C17. Progress. From every reachable state in which a send is under way, nothing is on
    the line and a retry is left, the send completes if the line loses nothing more: there
    are steps that end with the primary idle, the send logged as completed and its payload
    handed up. *)
Theorem link_completes (local remote : Z) (isMaster : bool) (maxRetries : Z) (s : Link) :
  IsBroadcast remote = false ->
  rtc link_step (link_init local remote isMaster maxRetries) s ->
  state (lp s) = priWaitLinkReset \/ state (lp s) = priWaitConfirm ->
  wire s = WNone -> retries (lp s) < MaxRetries (lp s) ->
  exists s', rtc link_step s s' /\ state (lp s') = priIdle /\
    log s' = log s ++ [(pending (lp s), true)] /\ pending (lp s) ∈ delivered s'.
Proof.
  intros Hb Hr Hs Hw Hret.
  pose proof (link_reachable_inv _ _ (link_init_inv local remote isMaster maxRetries Hb) Hr) as H.
  assert (Hto : OnTimeout (lp s) = (with_retries (retries (lp s) + 1) (lp s), lastSent (lp s), ActionTransmit)).
  { unfold OnTimeout. rewrite bool_decide_eq_false_2 by naive_solver congruence.
    by apply Z.leb_gt in Hret as ->. }
  pose proof (step_timeout s _ _ _ Hw Hto) as St1. pose proof (inv_timeout s _ _ _ H Hw Hto) as Inv1.
  assert (Hout : outcome (lp s) ActionTransmit = []) by (unfold outcome; by destruct (state (lp s))).
  rewrite Hout, app_nil_r in St1, Inv1. cbn [on_wire] in St1, Inv1.
  match type of St1 with link_step _ ?x => set (s1 := x) in * end.
  destruct Hs as [Es|Es].
  2:{ destruct (confirm_round s1 (lastSent (lp s)) Inv1 Es eq_refl) as (s' & Hs' & Hid & Hlog & Hd).
      exists s'. split; [|done]. by eapply rtc_l. }
  pose proof Inv1 as H1. open_inv H1. cbn in Hst. rewrite Es in Hst. destruct Hst as (_ & He & Hp & _).
  assert (Ea : Secondary_OnFrame (ls s1) (lastSent (lp s)) =
     (with_link true true (ls s), mkSecResult (Some (reply (ls s) FuncAck (LocalAddr (lp s)))) None false)).
  { rewrite He. by apply (arrive_reset (with_retries _ (lp s))). }
  pose proof (step_arrive s1 _ _ _ eq_refl Ea) as St2. pose proof (inv_arrive s1 _ _ _ Inv1 eq_refl Ea) as Inv2.
  match type of St2 with link_step _ ?x => set (s2 := x) in * end.
  pose proof (answer_reset (lp s2) (ls s) (LocalAddr (lp s)) Es) as Eb.
  destruct (sendPending _) as [[p3 g] a] eqn:Ep. injection Ep as <- <- <-.
  pose proof (step_answer s2 _ _ _ _ eq_refl Eb) as St3. pose proof (inv_answer s2 _ _ _ _ Inv2 eq_refl Eb) as Inv3.
  match type of St3 with link_step _ ?x => set (s3 := x) in * end.
  destruct (confirm_round s3 _ Inv3 eq_refl eq_refl) as (s' & Hs' & Hid & Hlog & Hd).
  exists s'. split; [do 3 (eapply rtc_l; [eassumption|]); exact Hs'|].
  assert (Hlog3 : log s3 = log s) by (cbn; unfold outcome; cbn; rewrite Es; apply app_nil_r).
  rewrite <- Hlog3. done.
Qed.

Definition witness_stalled : Link :=
  mkLink (lp witness_link) (ls witness_link) WNone [] [].

Lemma link_completes_witness :
  exists s', rtc link_step witness_stalled s' /\ state (lp s') = priIdle /\
    log s' = [([192; 1], true)] /\ [192; 1] ∈ delivered s'.
Proof.
  apply (link_completes 1 10 true 3 witness_stalled).
  - reflexivity.
  - eapply rtc_r; [apply witness_link_reachable|]. apply (step_lose witness_link).
  - left. reflexivity.
  - reflexivity.
  - vm_compute. reflexivity.
Defined.
