(* ===== verification/Transport.v ===== *)
(** * The transport function (src/internal/transport/transport.go)

    [Segmenter] cuts an application fragment into segments of at most 249 octets, each with
    a one-octet header carrying FIR, FIN and a six-bit sequence number that runs on from
    fragment to fragment.  [Reassembler] puts them together again and drops what does not
    fit, counting why.

    The theorems: the round trip, that a fragment never exceeds the configured maximum, and
    that over a line which loses segments the reassembler delivers only fragments that were
    sent, in order. *)

From S2P Require Import Prelude LinkFrame.

(** ** Constants and the segment header *)

Definition HeaderSize : Z := 1.
Definition MaxSegmentPayload : Z := 249.
Definition MaxSegmentSize : Z := HeaderSize + MaxSegmentPayload.
Definition SeqModulus : Z := 64.
Definition DefaultMaxFragment : Z := 2048.

Definition fin : Z := 0x80.
Definition fir : Z := 0x40.
Definition seqMask : Z := 0x3F.

Definition SegmentsFor (n : Z) : Z :=
  if n <=? 0 then 1 else (n + MaxSegmentPayload - 1) / MaxSegmentPayload.

Record Header := mkHeader { Fir : bool; Fin : bool; Seq : Z }.

Definition ParseHeader (b : Z) : Header :=
  {| Fir := negb (Z.land b fir =? 0); Fin := negb (Z.land b fin =? 0); Seq := Z.land b seqMask |}.

Definition Header_Byte (h : Header) : Z :=
  let b := set_if (Fin h) fin 0 in
  let b := set_if (Fir h) fir b in
  Z.lor b (Z.land (Seq h) seqMask).

#[export] Instance Header_eq_dec : EqDecision Header.
Proof. solve_decision. Defined.

(** ** Segmenter *)

Record Segmenter := mkSegmenter { s_frag : list Z; s_off : Z; s_seq : Z; s_live : bool }.

Definition NewSegmenter : Segmenter := mkSegmenter [] 0 0 false.
Definition SetSeq (s : Segmenter) (v : Z) : Segmenter :=
  mkSegmenter (s_frag s) (s_off s) (v mod SeqModulus) (s_live s).
Definition Segmenter_Reset (s : Segmenter) (fragment : list Z) : Segmenter :=
  mkSegmenter fragment 0 (s_seq s) true.
Definition Pending (s : Segmenter) : bool := s_live s.
Definition Clear (s : Segmenter) : Segmenter := mkSegmenter [] 0 (s_seq s) false.

(** [Next] appends a segment to [dst]; the boolean says whether a fragment was loaded. *)
Definition Next (s : Segmenter) (dst : list Z) : Segmenter * list Z * bool :=
  if negb (s_live s) then (s, dst, false)
  else
    let first := s_off s =? 0 in
    let end_ := Z.min (s_off s + MaxSegmentPayload) (len (s_frag s)) in
    let last := len (s_frag s) <=? end_ in
    let h := mkHeader first last (s_seq s) in
    let dst := dst ++ [Header_Byte h] in
    let dst := dst ++ slice (s_off s) end_ (s_frag s) in
    let seq' := u8 (s_seq s + 1) mod SeqModulus in
    (mkSegmenter (if last then [] else s_frag s) end_ seq' (if last then false else s_live s), dst, true).

(** The loop of [SegmentAll]; every turn but the last moves the offset, so a turn per octet
    and two more are enough. *)
Fixpoint segment_loop (fuel : nat) (s : Segmenter) (out : list (list Z)) : option (Segmenter * list (list Z)) :=
  match fuel with
  | O => None
  | S fuel =>
      match Next s [] with
      | (s, _, false) => Some (s, out)
      | (s, seg, true) => segment_loop fuel s (out ++ [seg])
      end
  end.

Definition SegmentAll (s : Segmenter) (fragment : list Z) : option (Segmenter * list (list Z)) :=
  segment_loop (length fragment + 2) (Segmenter_Reset s fragment) [].

(** ** Reassembler *)

Inductive DiscardReason :=
| DiscardNone | DiscardEmptySegment | DiscardNoFIR | DiscardUnexpectedFIR
| DiscardBadSequence | DiscardOverflow.

#[export] Instance DiscardReason_eq_dec : EqDecision DiscardReason.
Proof. solve_decision. Defined.

(** The index of a reason in the [Discards] array. *)
Definition reason_index (r : DiscardReason) : nat :=
  match r with
  | DiscardNone => 0 | DiscardEmptySegment => 1 | DiscardNoFIR => 2 | DiscardUnexpectedFIR => 3
  | DiscardBadSequence => 4 | DiscardOverflow => 5
  end.

Record Stats := mkStats {
  SegmentsReceived : Z; FragmentsCompleted : Z; SegmentsDiscarded : Z; Discards : list Z }.

Record Reassembler := mkReassembler {
  MaxFragment : Z; r_buf : list Z; r_expect : Z; r_assembly : bool; r_stats : Stats }.

Definition NewReassembler (maxFragment : Z) : Reassembler :=
  mkReassembler (if maxFragment <=? 0 then DefaultMaxFragment else maxFragment) [] 0 false
    (mkStats 0 0 0 (replicate 6 0)).

Record Result := mkResult { Fragment : option (list Z); Discarded : DiscardReason }.

Definition Complete (r : Result) : bool := bool_decide (is_Some (Fragment r)).

Definition maxFragment (r : Reassembler) : Z :=
  if MaxFragment r <=? 0 then DefaultMaxFragment else MaxFragment r.

Definition with_assembly (buf : list Z) (expect : Z) (assembly : bool) (r : Reassembler) : Reassembler :=
  mkReassembler (MaxFragment r) buf expect assembly (r_stats r).
Definition with_rstats (s : Stats) (r : Reassembler) : Reassembler :=
  mkReassembler (MaxFragment r) (r_buf r) (r_expect r) (r_assembly r) s.

Definition count_received (s : Stats) : Stats :=
  mkStats (u64 (SegmentsReceived s + 1)) (FragmentsCompleted s) (SegmentsDiscarded s) (Discards s).
Definition count_completed (s : Stats) : Stats :=
  mkStats (SegmentsReceived s) (u64 (FragmentsCompleted s + 1)) (SegmentsDiscarded s) (Discards s).
Definition count_discard (d : DiscardReason) (s : Stats) : Stats :=
  mkStats (SegmentsReceived s) (FragmentsCompleted s) (u64 (SegmentsDiscarded s + 1))
    (alter (fun n => u64 (n + 1)) (reason_index d) (Discards s)).

Definition Reassembler_Reset (r : Reassembler) : Reassembler :=
  with_assembly [] (r_expect r) false r.

Definition discard (r : Reassembler) (d : DiscardReason) : Reassembler * Result :=
  (with_rstats (count_discard d (r_stats r)) r, mkResult None d).

Definition append (r : Reassembler) (h : Header) (payload : list Z) : Reassembler * Result :=
  if maxFragment r <? len (r_buf r) + len payload then discard (Reassembler_Reset r) DiscardOverflow
  else
    let r := with_assembly (r_buf r ++ payload) (u8 (Seq h + 1) mod SeqModulus) (r_assembly r) r in
    if negb (Fin h) then (r, mkResult None DiscardNone)
    else
      let r := with_rstats (count_completed (r_stats r)) (with_assembly (r_buf r) (r_expect r) false r) in
      (r, mkResult (Some (r_buf r)) DiscardNone).

Definition Accept (r : Reassembler) (segment : list Z) : Reassembler * Result :=
  let r := with_rstats (count_received (r_stats r)) r in
  if len segment <? HeaderSize then discard r DiscardEmptySegment
  else
    let h := ParseHeader (at_ segment 0) in
    let payload := drop (Z.to_nat HeaderSize) segment in
    if Fir h then
      let '(r, reported) :=
        if r_assembly r
        then (with_rstats (count_discard DiscardUnexpectedFIR (r_stats r)) r, DiscardUnexpectedFIR)
        else (r, DiscardNone) in
      let r := with_assembly [] (Seq h) true r in
      let '(r, res) := append r h payload in
      (r, if bool_decide (Discarded res = DiscardNone) then mkResult (Fragment res) reported else res)
    else if negb (r_assembly r) then discard r DiscardNoFIR
    else if negb (Seq h =? r_expect r) then discard (Reassembler_Reset r) DiscardBadSequence
    else append r h payload.

(** ** The header octet *)

Definition header_ok (h : Header) : Prop := 0 <= Seq h < 64.

Lemma ParseHeader_Byte h : header_ok h -> ParseHeader (Header_Byte h) = h.
Proof.
  destruct h as [a b q]. unfold header_ok. cbn [Seq]. intros Hq.
  apply (bool_decide_eq_true_1 _).
  revert q Hq. apply (forall_below 64 (fun q =>
    bool_decide (ParseHeader (Header_Byte (mkHeader a b q)) = mkHeader a b q))).
  destruct a, b; vm_compute; reflexivity.
Qed.

(** ** The segments of a fragment, as a list *)

Definition next_seq (q : Z) : Z := (q + 1) mod 64.

Lemma next_seq_u8 q : 0 <= q < 64 -> u8 (q + 1) mod SeqModulus = next_seq q.
Proof. intros. unfold SeqModulus, next_seq. rewrite u8_small by (unfold octet_ok; lia). done. Qed.

Lemma next_seq_range q : 0 <= next_seq q < 64.
Proof. apply Z.mod_pos_bound. lia. Qed.

(** The segments still to send of a fragment of which [first] says nothing has been sent. *)
Fixpoint segs (fuel : nat) (q : Z) (first : bool) (rest : list Z) : list (list Z) :=
  match fuel with
  | O => []
  | S fuel =>
      if len rest <=? MaxSegmentPayload then [Header_Byte (mkHeader first true q) :: rest]
      else (Header_Byte (mkHeader first false q) :: take 249 rest)
             :: segs fuel (next_seq q) false (drop 249 rest)
  end.

Lemma Next_step frag (k : nat) q :
  0 <= q < 64 -> (k = 0 \/ k < length frag)%nat ->
  Next (mkSegmenter frag (Z.of_nat k) q true) [] =
  if (length (drop k frag) <=? 249)%nat then
    (mkSegmenter [] (len frag) (next_seq q) false,
     Header_Byte (mkHeader (k =? 0)%nat true q) :: drop k frag, true)
  else
    (mkSegmenter frag (Z.of_nat (k + 249)) (next_seq q) true,
     Header_Byte (mkHeader (k =? 0)%nat false q) :: take 249 (drop k frag), true).
Proof.
  intros Hq Hk. unfold Next. cbn [s_live negb s_off s_frag s_seq]. rewrite next_seq_u8 by done.
  replace (Z.of_nat k =? 0) with (k =? 0)%nat
    by (destruct (Nat.eqb_spec k 0), (Z.eqb_spec (Z.of_nat k) 0); done || lia).
  rewrite length_drop. destruct (Nat.leb_spec (length frag - k) 249).
  - replace (Z.min (Z.of_nat k + MaxSegmentPayload) (len frag)) with (len frag)
      by (unfold MaxSegmentPayload, len; lia).
    rewrite Z.leb_refl. unfold slice, len. rewrite Nat2Z.id.
    rewrite take_ge by (rewrite length_drop; lia). done.
  - replace (Z.min (Z.of_nat k + MaxSegmentPayload) (len frag)) with (Z.of_nat (k + 249))
      by (unfold MaxSegmentPayload, len; lia).
    replace (len frag <=? Z.of_nat (k + 249)) with false by (symmetry; apply Z.leb_gt; unfold len; lia).
    unfold slice. rewrite Nat2Z.id.
    replace (Z.to_nat (Z.of_nat (k + 249) - Z.of_nat k)) with 249%nat by lia. done.
Qed.

Lemma segment_loop_segs fuel frag (k : nat) q out :
  0 <= q < 64 -> (k = 0 \/ k < length frag)%nat -> (length frag - k + 2 <= fuel)%nat ->
  exists s, segment_loop fuel (mkSegmenter frag (Z.of_nat k) q true) out =
    Some (s, out ++ segs fuel q (k =? 0)%nat (drop k frag)) /\
    s_seq s = (q + len (segs fuel q (k =? 0)%nat (drop k frag))) mod 64 /\ s_live s = false.
Proof.
  revert k q out. induction fuel as [|fuel IH]; intros k q out Hq Hk Hf; [lia|].
  cbn [segment_loop segs]. rewrite Next_step by done.
  replace (len (drop k frag) <=? MaxSegmentPayload) with (length (drop k frag) <=? 249)%nat.
  2:{ unfold len, MaxSegmentPayload. destruct (Nat.leb_spec (length (drop k frag)) 249);
        symmetry; [apply Z.leb_le | apply Z.leb_gt]; lia. }
  destruct (Nat.leb_spec (length (drop k frag)) 249) as [Hl|Hl].
  - destruct fuel as [|fuel]; [lia|]. cbn [segment_loop Next s_live negb].
    eexists. split; [reflexivity|]. done.
  - rewrite length_drop in Hl.
    destruct (IH (k + 249)%nat (next_seq q)
       (out ++ [Header_Byte (mkHeader (k =? 0)%nat false q) :: take 249 (drop k frag)])) as (s & -> & Hs & Hp);
      [apply next_seq_range | lia | lia |].
    replace (k + 249 =? 0)%nat with false in * by (symmetry; apply Nat.eqb_neq; lia).
    exists s. rewrite drop_drop, <- app_assoc. split; [done|]. split; [|done].
    rewrite Hs, len_cons. unfold next_seq. rewrite Zplus_mod_idemp_l. f_equal. lia.
Qed.

Lemma SegmentAll_segs s fragment :
  0 <= s_seq s < 64 ->
  exists s', SegmentAll s fragment = Some (s', segs (length fragment + 2) (s_seq s) true fragment) /\
    s_seq s' = (s_seq s + len (segs (length fragment + 2) (s_seq s) true fragment)) mod 64 /\
    s_live s' = false.
Proof.
  intros Hq. destruct (segment_loop_segs (length fragment + 2) fragment 0 (s_seq s) []) as (s' & H & Hs);
    [done | lia | lia |].
  exists s'. split; [exact H | exact Hs].
Qed.

(** ** What one segment does to the reassembler

    [view] is the part of the state that decides what later segments do: the assembly in
    progress, with the sequence number it waits for. *)

Definition view (r : Reassembler) : option (Z * list Z) :=
  if r_assembly r then Some (r_expect r, r_buf r) else None.

(** Taking a payload into an assembly that holds [buf]. *)
Definition take_in (cap : Z) (h : Header) (buf p : list Z) : option (Z * list Z) * option (list Z) :=
  if cap <? len buf + len p then (None, None)
  else if Fin h then (None, Some (buf ++ p)) else (Some (next_seq (Seq h), buf ++ p), None).

(** The reassembler as a machine on views: a FIR segment always starts afresh, a
    continuation counts only in an assembly waiting for its number. *)
Definition view_step (cap : Z) (v : option (Z * list Z)) (h : Header) (p : list Z)
    : option (Z * list Z) * option (list Z) :=
  if Fir h then take_in cap h [] p
  else match v with
       | Some (e, buf) => if Seq h =? e then take_in cap h buf p else (None, None)
       | None => (None, None)
       end.

Lemma append_view r h p :
  header_ok h -> r_assembly r = true ->
  (view (fst (append r h p)), Fragment (snd (append r h p))) = take_in (maxFragment r) h (r_buf r) p /\
  MaxFragment (fst (append r h p)) = MaxFragment r.
Proof.
  intros Hh Ha. unfold append, take_in.
  destruct (maxFragment r <? len (r_buf r) + len p); [done|].
  destruct (Fin h); cbn [negb]; [done|]. unfold view. cbn. rewrite Ha, next_seq_u8 by exact Hh. done.
Qed.

Lemma Accept_view r h p :
  header_ok h ->
  (view (fst (Accept r (Header_Byte h :: p))), Fragment (snd (Accept r (Header_Byte h :: p))))
    = view_step (maxFragment r) (view r) h p /\
  MaxFragment (fst (Accept r (Header_Byte h :: p))) = MaxFragment r.
Proof.
  intros Hh. unfold Accept.
  replace (len (Header_Byte h :: p) <? HeaderSize) with false
    by (symmetry; apply Z.ltb_ge; rewrite len_cons; pose proof (len_nonneg p); unfold HeaderSize; lia).
  change (at_ (Header_Byte h :: p) 0) with (Header_Byte h). rewrite ParseHeader_Byte by done.
  change (drop (Z.to_nat HeaderSize) (Header_Byte h :: p)) with p. unfold view_step.
  destruct (Fir h).
  - pose proof (append_view) as HA.
    cbn [r_assembly with_rstats]. destruct (r_assembly r); cbn beta iota.
    all: match goal with |- context [append ?r0 ?h0 ?p0] => specialize (HA r0 h0 p0 Hh eq_refl) end.
    all: destruct (append _ _ _) as [r' res]; cbn [fst snd] in *; destruct HA as [HA HM].
    all: split; [|exact HM]; refine (eq_trans _ HA); by case_bool_decide.
  - cbn [r_assembly with_rstats]. unfold view at 2. destruct (r_assembly r) eqn:Ha; cbn [negb].
    2:{ unfold view. cbn. by rewrite Ha. }
    cbn [r_expect with_rstats]. destruct (Seq h =? r_expect r); cbn [negb]; [|done].
    refine (append_view (with_rstats (count_received (r_stats r)) r) h p Hh Ha).
Qed.

(** ** Bounds: whatever arrives, an assembly stays within the configured maximum *)

Definition reassembler_ok (r : Reassembler) : Prop :=
  len (r_buf r) <= maxFragment r /\ 0 <= r_expect r < 64 /\ length (Discards (r_stats r)) = 6%nat.

Lemma maxFragment_pos r : 0 < maxFragment r.
Proof. unfold maxFragment. destr_if; bool_prop; [vm_compute; done | done]. Qed.

Lemma NewReassembler_ok n : reassembler_ok (NewReassembler n).
Proof.
  unfold reassembler_ok. cbn [NewReassembler r_buf r_expect r_stats Discards]. rewrite len_nil.
  pose proof (maxFragment_pos (NewReassembler n)). rewrite length_replicate. lia.
Qed.

Lemma append_ok r h p : reassembler_ok r ->
  reassembler_ok (fst (append r h p)) /\ MaxFragment (fst (append r h p)) = MaxFragment r /\
  (forall f, Fragment (snd (append r h p)) = Some f -> f = r_buf (fst (append r h p))).
Proof.
  intros (Hl & He & Hd). pose proof (maxFragment_pos r) as Hm. unfold append, reassembler_ok, maxFragment in *.
  destruct (_ <? len (r_buf r) + len p) eqn:Hc; cbn.
  - unfold len. cbn [length]. rewrite length_alter. repeat split; try lia; try done.
  - bool_prop. pose proof (Z.mod_pos_bound (u8 (Seq h + 1)) 64 ltac:(lia)).
    destruct (Fin h); cbn; rewrite len_app; repeat split; try lia; try done; naive_solver.
Qed.

Lemma Accept_ok r s : reassembler_ok r ->
  reassembler_ok (fst (Accept r s)) /\ MaxFragment (fst (Accept r s)) = MaxFragment r /\
  (forall f, Fragment (snd (Accept r s)) = Some f -> f = r_buf (fst (Accept r s))).
Proof.
  intros Hr. pose proof (maxFragment_pos r) as Hm.
  assert (Hh : forall b, 0 <= Seq (ParseHeader b) < 64).
  { intros b. cbn [ParseHeader Seq]. change seqMask with (Z.ones 6). rewrite Z.land_ones by lia.
    apply (Z.mod_pos_bound b (2 ^ 6)). lia. }
  unfold Accept. cbn [r_assembly with_rstats r_expect].
  set (r0 := with_rstats _ r).
  assert (Hr0 : reassembler_ok r0) by exact Hr.
  assert (Hd : forall d r1, reassembler_ok r1 -> reassembler_ok (fst (discard r1 d))).
  { intros d r1 (H1 & H2 & H3). split; [exact H1|]. split; [exact H2|]. cbn. by rewrite length_alter. }
  assert (Hz : reassembler_ok (Reassembler_Reset r0)).
  { split; [|exact (proj2 Hr0)]. change (maxFragment (Reassembler_Reset r0)) with (maxFragment r).
    cbn. rewrite len_nil. lia. }
  destruct (len s <? HeaderSize).
  { split; [by apply Hd | done]. }
  destruct (Fir (ParseHeader (at_ s 0))).
  - destruct (r_assembly r); cbn beta iota.
    all: match goal with |- context [append ?r1 ?h ?p] =>
      assert (Hr1 : reassembler_ok r1) by
        (split; [change (0 <= maxFragment r); lia | split; [apply Hh |
           destruct Hr as (?&?&?); cbn; rewrite ?length_alter; done]]);
      destruct (append_ok r1 h p Hr1) as (HA & HB & HC); destruct (append r1 h p) as [r2 res] end.
    all: cbn [fst snd] in *; split; [done|]; split; [done|]; by case_bool_decide.
  - destruct (r_assembly r); cbn [negb]; [|split; [by apply Hd | done]].
    destruct (_ =? r_expect r); cbn [negb]; [|split; [by apply Hd | done]].
    apply (append_ok r0 _ _ Hr0).
Qed.

(** Feeding segments one after another; the fragments delivered, in order. *)
Fixpoint accept_all (r : Reassembler) (l : list (list Z)) : Reassembler * list (list Z) :=
  match l with
  | [] => (r, [])
  | s :: l => let '(r, res) := Accept r s in
              let '(r, out) := accept_all r l in
              (r, match Fragment res with Some f => f :: out | None => out end)
  end.

(** C36. Whatever segments arrive, well formed or not, the reassembler keeps its buffer
    within [MaxFragment], its expected sequence number within six bits, and delivers no
    fragment larger than the maximum. *)
Theorem Accept_bounded r l :
  reassembler_ok r ->
  reassembler_ok (fst (accept_all r l)) /\
  Forall (fun f => len f <= maxFragment r) (snd (accept_all r l)).
Proof.
  revert r. induction l as [|s l IH]; intros r Hr; [split; [done | constructor]|].
  cbn [accept_all]. destruct (Accept_ok r s Hr) as (Hr' & Hm & Hf).
  destruct (Accept r s) as [r' res]. cbn [fst snd] in *. specialize (IH r' Hr') as [IH1 IH2].
  destruct (accept_all r' l) as [r'' out]. cbn [fst snd] in *.
  replace (maxFragment r') with (maxFragment r) in IH2 by (unfold maxFragment; by rewrite Hm).
  split; [done|]. destruct (Fragment res) as [f|]; [|done].
  constructor; [|done]. rewrite (Hf f eq_refl). unfold maxFragment. rewrite <- Hm. apply Hr'.
Qed.

Lemma Accept_bounded_witness :
  snd (accept_all (NewReassembler 3) [[0xC0; 1; 2; 3; 4]; [0xC1; 7]]) = [[7]] /\
  Forall (fun f => len f <= 3) (snd (accept_all (NewReassembler 3) [[0xC0; 1; 2; 3; 4]; [0xC1; 7]])).
Proof. split; [reflexivity|]. apply (Accept_bounded (NewReassembler 3)), NewReassembler_ok. Defined.

(** ** The round trip *)

Lemma accept_all_segs fuel q (first : bool) rest r buf :
  0 <= q < 64 -> (length rest < fuel)%nat -> len buf + len rest <= maxFragment r ->
  (if first then buf = [] else view r = Some (q, buf)) ->
  snd (accept_all r (segs fuel q first rest)) = [buf ++ rest] /\
  view (fst (accept_all r (segs fuel q first rest))) = None.
Proof.
  revert q first rest r buf. induction fuel as [|fuel IH]; intros q first rest r buf Hq Hf Hm Hv; [lia|].
  assert (Hs : forall (fin : bool) p, len buf + len p <= maxFragment r ->
     view_step (maxFragment r) (view r) (mkHeader first fin q) p
     = if fin then (@None (Z * list Z), Some (buf ++ p)) else (Some (next_seq q, buf ++ p), None)).
  { intros fin p Hp. unfold view_step, take_in. cbn [Fir Seq Fin].
    destruct first; [subst buf | rewrite Hv, Z.eqb_refl];
      by replace (_ <? _) with false by (symmetry; apply Z.ltb_ge; lia). }
  cbn [segs]. destruct (len rest <=? MaxSegmentPayload) eqn:Hl; cbn [accept_all].
  - destruct (Accept_view r (mkHeader first true q) rest Hq) as [HA _].
    destruct (Accept r _) as [r' res]. cbn [fst snd] in *. rewrite Hs in HA by done.
    injection HA as HA1 HA2. by rewrite HA2.
  - bool_prop. assert (Ht : len (take 249 rest) = 249 /\ len rest = 249 + len (drop 249 rest)).
    { unfold len, MaxSegmentPayload in *. rewrite length_take, length_drop. lia. }
    pose proof (len_nonneg (drop 249 rest)).
    destruct (Accept_view r (mkHeader first false q) (take 249 rest) Hq) as [HA HM].
    destruct (Accept r _) as [r' res]. cbn [fst snd] in *. rewrite Hs in HA by lia.
    injection HA as HA1 HA2.
    destruct (IH (next_seq q) false (drop 249 rest) r' (buf ++ take 249 rest)) as [IH1 IH2].
    { apply next_seq_range. }
    { rewrite length_drop. unfold len, MaxSegmentPayload in *. lia. }
    { unfold maxFragment in *. rewrite HM, len_app. lia. }
    { done. }
    destruct (accept_all r' _) as [r'' out]. cbn [fst snd] in *. rewrite HA2. split; [|done].
    by rewrite IH1, <- app_assoc, take_drop.
Qed.

(** Round trip: the segments a fragment is cut into, fed to a reassembler in any state
    whatever (even in the middle of another fragment) and with any starting sequence number,
    deliver exactly that fragment, provided it fits the configured maximum; and the
    segmenter is left idle, the reassembler with nothing in progress. *)
Theorem SegmentAll_Accept s r fragment :
  0 <= s_seq s < 64 -> len fragment <= maxFragment r ->
  exists s' out, SegmentAll s fragment = Some (s', out) /\ Pending s' = false /\
    snd (accept_all r out) = [fragment] /\ r_assembly (fst (accept_all r out)) = false.
Proof.
  intros Hq Hm. destruct (SegmentAll_segs s fragment Hq) as (s' & HS & _ & Hp).
  exists s', (segs (length fragment + 2) (s_seq s) true fragment). split; [done|]. split; [done|].
  destruct (accept_all_segs (length fragment + 2) (s_seq s) true fragment r []) as [H1 H2];
    [done | lia | rewrite len_nil; lia | done |].
  split; [done|]. unfold view in H2. by destruct (r_assembly _).
Qed.

Lemma SegmentAll_Accept_witness :
  exists s' out, SegmentAll (SetSeq NewSegmenter 63) (replicate 600 7) = Some (s', out) /\
    Pending s' = false /\ snd (accept_all (NewReassembler 0) out) = [replicate 600 7] /\
    r_assembly (fst (accept_all (NewReassembler 0) out)) = false.
Proof. apply SegmentAll_Accept; [vm_compute; split; [discriminate | reflexivity] | vm_compute; discriminate]. Defined.

(** ** Over a line that loses segments

    [stream q cur segs frags]: [segs] are the segments of the fragments [frags] sent one
    after another, numbered from [q]; [cur] is what was already sent of the first one, or
    [None] between two fragments. *)

Inductive stream : Z -> option (list Z) -> list (list Z) -> list (list Z) -> Prop :=
| stream_end q : stream q None [] []
| stream_more q cur p segs frags :
    stream (next_seq q) (Some (default [] cur ++ p)) segs frags ->
    stream q cur ((Header_Byte (mkHeader (bool_decide (cur = None)) false q) :: p) :: segs) frags
| stream_last q cur p segs frags :
    stream (next_seq q) None segs frags ->
    stream q cur ((Header_Byte (mkHeader (bool_decide (cur = None)) true q) :: p) :: segs)
      ((default [] cur ++ p) :: frags).

(** [lossy g sent received]: some of [sent] are lost, never 64 in a row, where the [g]
    segments just before were lost. *)
Inductive lossy {A} : Z -> list A -> list A -> Prop :=
| lossy_end g : lossy g [] []
| lossy_keep g x l k : lossy 0 l k -> lossy g (x :: l) (x :: k)
| lossy_lose g x l k : g < 63 -> lossy (g + 1) l k -> lossy g (x :: l) k.

(** An assembly either holds exactly what was sent of the current fragment, or waits for a
    number that the next continuation does not carry. *)
Definition in_step (g : Z) (q : Z) (cur : option (list Z)) (v : option (Z * list Z)) : Prop :=
  match v with
  | None => True
  | Some (e, buf) => e = (q - g) mod 64 /\ (g = 0 -> cur = Some buf)
  end.

Lemma view_step_in_step g q cur v cap fin p :
  0 <= q < 64 -> 0 <= g <= 63 -> in_step g q cur v ->
  forall v' f, view_step cap v (mkHeader (bool_decide (cur = None)) fin q) p = (v', f) ->
  in_step 0 (next_seq q) (if fin then None else Some (default [] cur ++ p)) v' /\
  (f = None \/ fin = true /\ f = Some (default [] cur ++ p)).
Proof.
  intros Hq Hg Hv v' f. unfold view_step. cbn [Fir Seq].
  assert (Ht : take_in cap (mkHeader (bool_decide (cur = None)) fin q) (default [] cur) p = (v', f) ->
    in_step 0 (next_seq q) (if fin then None else Some (default [] cur ++ p)) v' /\
    (f = None \/ fin = true /\ f = Some (default [] cur ++ p))).
  { unfold take_in. cbn [Fin Seq]. destruct (cap <? _); [naive_solver|].
    destruct fin; intros [= <- <-]; [naive_solver|]. split; [|by left]. cbn. split; [|done].
    rewrite Z.sub_0_r, Z.mod_small; [done | apply next_seq_range]. }
  case_bool_decide as Hc; [by subst cur|].
  destruct v as [[e buf]|]; [|naive_solver]. destruct Hv as [He Hb].
  destruct (Z.eqb_spec q e) as [Hqe|]; [|naive_solver].
  assert (g = 0) as ->.
  { subst e. pose proof (Z.div_mod (q - g) 64 ltac:(lia)). lia. }
  rewrite (Hb eq_refl) in *. exact Ht.
Qed.

Lemma lossy_delivers g q cur sent received frags r :
  stream q cur sent frags -> lossy g sent received -> 0 <= q < 64 -> 0 <= g <= 63 ->
  in_step g q cur (view r) -> sublist (snd (accept_all r received)) frags.
Proof.
  intros Hs. revert g received r.
  induction Hs as [q|q cur p sent frags Hs IH|q cur p sent frags Hs IH];
    intros g received r Hl Hq Hg Hv; inversion Hl as [|? ? ? k Hk|? ? ? ? Hg' Hk]; subst; [constructor|..].
  (* a lost segment only widens the gap *)
  all: try match goal with Hk : lossy (?g0 + 1) _ _, IH : forall g _ _, _ -> _ -> _ -> _ -> sublist _ ?fr
      |- sublist (snd (accept_all ?r0 ?rc)) _ =>
    assert (sublist (snd (accept_all r0 rc)) fr) by
      (apply (IH (g0 + 1)); [done | apply next_seq_range | lia |];
       destruct (view r0) as [[e buf]|]; [|done]; destruct Hv as [-> _]; cbn; split; [|lia];
       unfold next_seq; rewrite Zminus_mod_idemp_l; f_equal; lia);
    done || by apply sublist_cons end.
  all: cbn [accept_all].
  all: match goal with |- context [Accept ?r0 (Header_Byte ?h :: ?p0)] =>
    destruct (Accept_view r0 h p0 Hq) as [HA _];
    destruct (Accept r0 (Header_Byte h :: p0)) as [r' res]; cbn [fst snd] in HA;
    destruct (view_step_in_step _ _ _ _ (maxFragment r0) (Fin h) p0 Hq Hg Hv _ _ (eq_sym HA)) as [Hv' Hf]
  end.
  all: specialize (IH 0 k r' Hk (next_seq_range q) ltac:(lia) Hv').
  all: destruct (accept_all r' k) as [r'' out]; cbn [fst snd Fin] in *.
  - destruct Hf as [-> | [? _]]; done.
  - destruct Hf as [-> | [_ ->]]; [by apply sublist_cons | by apply sublist_skip].
Qed.

(** The segmenter's segments of several fragments form a stream. *)
Fixpoint segment_many (s : Segmenter) (frags : list (list Z)) : option (list (list Z)) :=
  match frags with
  | [] => Some []
  | f :: frags => '(s, out) ← SegmentAll s f; rest ← segment_many s frags; Some (out ++ rest)
  end.

Lemma segs_stream fuel q rest cur tail frags :
  (length rest < fuel)%nat ->
  stream ((q + len (segs fuel q (bool_decide (cur = None)) rest)) mod 64) None tail frags ->
  stream q cur (segs fuel q (bool_decide (cur = None)) rest ++ tail) ((default [] cur ++ rest) :: frags).
Proof.
  revert q rest cur. induction fuel as [|fuel IH]; intros q rest cur Hf; [lia|]. cbn [segs].
  destruct (len rest <=? MaxSegmentPayload) eqn:Hl; [by constructor|].
  intros H. cbn [app]. rewrite len_cons in H. apply stream_more.
  assert (Hd : (length (drop 249 rest) < fuel)%nat).
  { bool_prop. rewrite length_drop. unfold len, MaxSegmentPayload in Hl. lia. }
  specialize (IH (next_seq q) (drop 249 rest) (Some (default [] cur ++ take 249 rest)) Hd).
  cbn [default from_option bool_decide decide] in IH.
  rewrite bool_decide_eq_false_2 in IH by done. cbn in IH.
  rewrite <- app_assoc, take_drop in IH. apply IH.
  rewrite Z.add_assoc in H. unfold next_seq at 1. by rewrite Zplus_mod_idemp_l.
Qed.

Lemma segment_many_stream s frags :
  0 <= s_seq s < 64 ->
  exists sent, segment_many s frags = Some sent /\ stream (s_seq s) None sent frags.
Proof.
  revert s. induction frags as [|f frags IH]; intros s Hs.
  { exists []. split; [done | constructor]. }
  cbn [segment_many]. destruct (SegmentAll_segs s f Hs) as (s' & -> & Hq & _). cbn.
  destruct (IH s') as (sent & -> & Hst). { rewrite Hq. by apply Z.mod_pos_bound. }
  cbn. eexists. split; [reflexivity|]. rewrite Hq in Hst.
  apply (segs_stream _ _ _ None); [lia | exact Hst].
Qed.

(** C34. Over a line that loses segments, never 64 in a row (the sequence number has six
    bits), a reassembler that starts idle delivers only whole fragments that were sent, each
    at most once and in the order they were sent: no fragment is ever stitched together from
    parts of two, or around a hole. *)
Theorem lossy_line_sound s r frags sent received :
  0 <= s_seq s < 64 -> r_assembly r = false ->
  segment_many s frags = Some sent -> lossy 0 sent received ->
  sublist (snd (accept_all r received)) frags.
Proof.
  intros Hs Hr Hm Hl. destruct (segment_many_stream s frags Hs) as (sent' & Hm' & Hst).
  simplify_eq. eapply lossy_delivers; [done | done | done | lia |]. unfold view. by rewrite Hr.
Qed.

(** Two fragments of two segments each; the second segment of the first one and the first
    of the second one are lost, the tail of the second would continue the head of the first. *)
Lemma lossy_line_sound_witness :
  let a := replicate 250 1 in let b := replicate 250 2 in let c := [3] in
  exists sent, segment_many NewSegmenter [a; b; c] = Some sent /\
  sublist (snd (accept_all (NewReassembler 0) (nth 0 sent [] :: drop 3 sent))) [a; b; c] /\
  snd (accept_all (NewReassembler 0) (nth 0 sent [] :: drop 3 sent)) = [c].
Proof.
  intros a b c. eexists. split; [vm_compute; reflexivity|]. split; [|vm_compute; reflexivity].
  apply (lossy_line_sound NewSegmenter (NewReassembler 0) [a; b; c]
    (nth 0 (segs 252 0 true a) [] :: nth 1 (segs 252 0 true a) [] :: segs 252 2 true b ++ segs 3 4 true c)).
  - cbn. lia.
  - reflexivity.
  - vm_compute. reflexivity.
  - vm_compute. repeat first [apply lossy_keep | apply lossy_end]; [].
    do 2 (apply lossy_lose; [done|]). repeat first [apply lossy_keep | apply lossy_end].
Defined.
