(* ===== verification/Stack.v ===== *)
(** * The station stack (src/internal/stack/stack.go)

    [Stack] couples the parser, the two link state machines, the segmenter and the
    reassembler to a byte stream.  It does no I/O of its own: [io.Writer] is a parameter, a
    function on the caller's state [S] that may fail, with the bracket of a message transport
    when the writer has one.  [fn] is the callback of [Receive]; the sessions call [SendTo]
    from inside it, so it takes the stack and returns it.

    The theorems: [Receive] accepts every input and fails only when the writer fails; the
    [awaiting] flag agrees with the link state machine whenever no write failed; a fragment
    sent by one stack is delivered by another, through any chunking; and two results about
    behaviour that contradicts the comments of the code. *)

From S2P Require Import Prelude LinkFrame LinkParser LinkFsm Transport.

Record Config := mkConfig {
  c_LocalAddr : Z; c_RemoteAddr : Z; c_IsMaster : bool; c_SelfAddress : bool;
  c_UseConfirms : bool; c_MaxRetries : Z; c_MaxRxFragment : Z }.

(** The transmit and receive scratch buffers carry nothing from one call to the next and
    are left out. *)
Record Stack := mkStack {
  cfg : Config; parser : Parser; pri : Primary; sec : Secondary;
  seg : Segmenter; reasm : Reassembler; awaiting : bool; dest : Z }.

Definition with_parser (v : Parser) (s : Stack) : Stack :=
  mkStack (cfg s) v (pri s) (sec s) (seg s) (reasm s) (awaiting s) (dest s).
Definition with_pri (v : Primary) (s : Stack) : Stack :=
  mkStack (cfg s) (parser s) v (sec s) (seg s) (reasm s) (awaiting s) (dest s).
Definition with_sec (v : Secondary) (s : Stack) : Stack :=
  mkStack (cfg s) (parser s) (pri s) v (seg s) (reasm s) (awaiting s) (dest s).
Definition with_seg (v : Segmenter) (s : Stack) : Stack :=
  mkStack (cfg s) (parser s) (pri s) (sec s) v (reasm s) (awaiting s) (dest s).
Definition with_reasm (v : Reassembler) (s : Stack) : Stack :=
  mkStack (cfg s) (parser s) (pri s) (sec s) (seg s) v (awaiting s) (dest s).
Definition with_awaiting (v : bool) (s : Stack) : Stack :=
  mkStack (cfg s) (parser s) (pri s) (sec s) (seg s) (reasm s) v (dest s).
Definition with_dest (v : Z) (s : Stack) : Stack :=
  mkStack (cfg s) (parser s) (pri s) (sec s) (seg s) (reasm s) (awaiting s) v.

Definition New (c : Config) : Stack :=
  let c := if c_MaxRxFragment c <=? 0
           then mkConfig (c_LocalAddr c) (c_RemoteAddr c) (c_IsMaster c) (c_SelfAddress c)
                  (c_UseConfirms c) (c_MaxRetries c) DefaultMaxFragment
           else c in
  mkStack c NewParser
    (NewPrimary (c_LocalAddr c) (c_RemoteAddr c) (c_IsMaster c) (c_UseConfirms c) (c_MaxRetries c))
    (NewSecondary (c_LocalAddr c) (c_IsMaster c))
    NewSegmenter (NewReassembler (c_MaxRxFragment c)) false (c_RemoteAddr c).

Definition Stack_Reset (s : Stack) : Stack :=
  mkStack (cfg s) NewParser (Primary_Reset (pri s)) (Secondary_Reset (sec s))
    (Clear (seg s)) (Reassembler_Reset (reasm s)) false (dest s).

Definition Stack_Pending (s : Stack) : bool := awaiting s.
Definition Stack_Busy (s : Stack) : bool := awaiting s || Pending (seg s).

Record Received := mkReceived {
  RFragment : list Z; Source : Z; RDest : Z; Broadcast : bool }.

Definition addressedToUs (s : Stack) (d : Z) : bool :=
  (d =? c_LocalAddr (cfg s)) || IsBroadcast d ||
  (c_SelfAddress (cfg s) && negb (c_IsMaster (cfg s)) && (d =? SelfAddress)).

(** The errors of the stack; [ErrWrite] carries what the writer said. *)
Inductive StackErr (E : Type) :=
| ErrEmptyFragment
| ErrInFlight
| ErrLinkSend (e : SendErr)
| ErrRefused
| ErrEncode (e : LinkErr)
| ErrWrite (e : E)
| ErrParser (e : ParserErr)
| ErrDecode (e : ParserErr).
Arguments ErrEmptyFragment {E}.
Arguments ErrInFlight {E}.
Arguments ErrLinkSend {E}.
Arguments ErrRefused {E}.
Arguments ErrEncode {E}.
Arguments ErrWrite {E}.
Arguments ErrParser {E}.
Arguments ErrDecode {E}.

Section Operations.
Context {S E : Type}.
Context (w_Write : S -> list Z -> S * option E).
(** [BeginMessage] and [EndMessage], when the writer is a message writer. *)
Context (w_message : option ((S -> S) * (S -> S * option E))).
Context (fn : Stack -> S -> Received -> Stack * S).

Definition write (x : S) (f : Frame) : S * option (StackErr E) :=
  match Encode [] (FHeader f) (Payload f) with
  | Err e => (x, Some (ErrEncode e))
  | Ok out => let '(x, err) := w_Write x out in (x, ErrWrite <$> err)
  end.

(** One turn per segment; a fragment has at most one segment per octet, and one more. *)
Fixpoint pumpFrames (fuel : nat) (s : Stack) (x : S) : option (Stack * S * option (StackErr E)) :=
  match fuel with
  | O => None
  | Datatypes.S fuel =>
      if negb (Pending (seg s)) then Some (with_awaiting false s, x, None)
      else if dfc (pri s) then Some (s, x, None)
      else
        match Transport.Next (seg s) [] with
        | (g, _, false) => Some (with_awaiting false (with_seg g s), x, None)
        | (g, sg, true) =>
            let s := with_seg g s in
            let saved := RemoteAddr (pri s) in
            let '(p, r) := LinkFsm.Send (with_remote (dest s) (pri s)) sg in
            let s := with_pri (with_remote saved p) s in
            match r with
            | Err e => Some (s, x, Some (ErrLinkSend e))
            | Ok (f, action) =>
                if bool_decide (action = ActionFailed) then Some (s, x, Some ErrRefused)
                else
                  match write x f with
                  | (x, Some err) => Some (s, x, Some err)
                  | (x, None) =>
                      if bool_decide (action = ActionTransmit)
                      then Some (with_awaiting true s, x, None)
                      else pumpFrames fuel s x
                  end
            end
        end
  end.

Definition pump (s : Stack) (x : S) : option (Stack * S * option (StackErr E)) :=
  let fuel := (length (s_frag (seg s)) + 2)%nat in
  match w_message with
  | None => pumpFrames fuel s x
  | Some (begin_, end_) =>
      '(s, x, err) ← pumpFrames fuel s (begin_ x);
      let '(x, eerr) := end_ x in
      Some (s, x, match err with None => ErrWrite <$> eerr | Some _ => err end)
  end.

Definition SendTo (s : Stack) (x : S) (d : Z) (fragment : list Z)
    : option (Stack * S * option (StackErr E)) :=
  if len fragment =? 0 then Some (s, x, Some ErrEmptyFragment)
  else if Stack_Busy s then Some (s, x, Some ErrInFlight)
  else pump (with_seg (Segmenter_Reset (seg s) fragment) (with_dest d s)) x.

Definition Send (s : Stack) (x : S) (fragment : list Z) : option (Stack * S * option (StackErr E)) :=
  SendTo s x (c_RemoteAddr (cfg s)) fragment.

(** The boolean says whether the transmission failed for good. *)
Definition OnTimeout (s : Stack) (x : S) : Stack * S * bool * option (StackErr E) :=
  if negb (awaiting s) then (s, x, false, None)
  else
    let '(p, f, action) := LinkFsm.OnTimeout (pri s) in
    let s := with_pri p s in
    match action with
    | ActionTransmit => let '(x, err) := write x f in (s, x, false, err)
    | ActionFailed => (with_seg (Clear (seg s)) (with_awaiting false s), x, true, None)
    | _ => (with_awaiting false s, x, false, None)
    end.

Definition deliver (s : Stack) (x : S) (f : Frame) (payload : list Z) : Stack * S :=
  let '(r, res) := Accept (reasm s) payload in
  let s := with_reasm r s in
  match Fragment res with
  | None => (s, x)
  | Some frag =>
      fn s x (mkReceived frag (Src (FHeader f)) (Dest (FHeader f)) (IsBroadcast (Dest (FHeader f))))
  end.

(** The body of the loop of [drain], for one frame. *)
Definition drain_frame (s : Stack) (x : S) (f : Frame) : option (Stack * S * option (StackErr E)) :=
  if negb (addressedToUs s (Dest (FHeader f))) then Some (s, x, None)
  else if Bool.eqb (Dir (HControl (FHeader f))) (c_IsMaster (cfg s)) then Some (s, x, None)
  else if negb (IsValidSource (Src (FHeader f))) then Some (s, x, None)
  else if Prm (HControl (FHeader f)) then
    let '(sc, res) := Secondary_OnFrame (sec s) f in
    let s := with_sec sc s in
    let '(x, err) := match Reply res with Some rep => write x rep | None => (x, None) end in
    match err with
    | Some err => Some (s, x, Some err)
    | None =>
        let '(s, x) := match SPayload res with Some p => deliver s x f p | None => (s, x) end in
        Some (s, x, None)
    end
  else if negb (Src (FHeader f) =? dest s) &&
          (negb (dest s =? SelfAddress) || negb (IsValidSource (Src (FHeader f)))) then Some (s, x, None)
  else
    let s := with_dest (Src (FHeader f)) s in
    let '(p, next, action) := Primary_OnFrame (pri s) f in
    let s := with_pri p s in
    match action with
    | ActionTransmit => let '(x, err) := write x next in Some (s, x, err)
    | ActionComplete => pump (with_awaiting false s) x
    | ActionFailed => Some (with_seg (Clear (seg s)) (with_awaiting false s), x, None)
    | ActionNone => Some (s, x, None)
    end.

(** [Next] takes at least one octet for each frame it returns. *)
Fixpoint drain (fuel : nat) (s : Stack) (x : S) : option (Stack * S * option (StackErr E)) :=
  match fuel with
  | O => None
  | Datatypes.S fuel =>
      match LinkParser.Next (parser s) with
      | (p, Err ErrNeedMore) => Some (with_parser p s, x, None)
      | (p, Err e) => Some (with_parser p s, x, Some (ErrDecode e))
      | (p, Ok f) =>
          match drain_frame (with_parser p s) x f with
          | Some (s, x, None) => drain fuel s x
          | other => other
          end
      end
  end.

Fixpoint Receive_loop (fuel : nat) (s : Stack) (x : S) (data : list Z)
    : option (Stack * S * option (StackErr E)) :=
  match fuel with
  | O => None
  | Datatypes.S fuel =>
      if negb (0 <? len data) then Some (s, x, None)
      else
        let '(p, n, werr) := Write (parser s) data in
        let s := with_parser p s in
        let data := drop (Z.to_nat n) data in
        match drain (Datatypes.S (Z.to_nat (Buffered p))) s x with
        | Some (s, x, None) =>
            match werr with
            | Some e => if n =? 0 then Some (s, x, Some (ErrParser e)) else Receive_loop fuel s x data
            | None => Receive_loop fuel s x data
            end
        | other => other
        end
  end.

Definition Receive (s : Stack) (x : S) (data : list Z) : option (Stack * S * option (StackErr E)) :=
  Receive_loop (length data + 1) s x data.

Definition SendLinkStatusRequest (s : Stack) (x : S) : Stack * S * option (StackErr E) :=
  if awaiting s then (s, x, None)
  else
    let '(p, r) := RequestLinkStatus (pri s) in
    let s := with_pri p s in
    match r with
    | Err e => (s, x, Some (ErrLinkSend e))
    | Ok (f, action) =>
        if negb (bool_decide (action = ActionTransmit)) then (s, x, None)
        else let '(x, err) := write x f in (with_awaiting true s, x, err)
    end.

End Operations.

(** ** Well-formed components

    What the stack keeps true of its parts, whatever the peer and the writer do. *)

Definition pri_ok (p : Primary) : Prop :=
  len (pending p) <= MaxPayload /\ len (Payload (lastSent p)) <= MaxPayload.

Definition seg_ok (g : Segmenter) : Prop :=
  s_live g = true -> 0 <= s_off g /\ (s_off g = 0 \/ s_off g < len (s_frag g)).

(** Turns left of [pumpFrames]. *)
Definition turns (g : Segmenter) : Z := if s_live g then len (s_frag g) - s_off g + 1 else 0.

Lemma Next_seg_ok g g' sg b :
  Transport.Next g [] = (g', sg, b) -> seg_ok g -> s_live g = true ->
  b = true /\ len sg <= MaxPayload /\ seg_ok g' /\ 0 <= turns g' < turns g.
Proof.
  unfold Transport.Next, seg_ok, turns. intros H Hok Hl. rewrite Hl in *. cbn [negb] in H.
  destruct (Hok eq_refl) as [H0 H1]. clear Hok. injection H as <- <- <-. cbn [s_live s_off s_frag].
  assert (Hlen : 0 <= len (s_frag g)) by apply len_nonneg.
  set (e := Z.min (s_off g + MaxSegmentPayload) (len (s_frag g))).
  assert (He : s_off g <= e /\ e <= len (s_frag g) /\ e - s_off g <= 249 /\ (e < len (s_frag g) -> s_off g < e))
    by (unfold e, MaxSegmentPayload; lia).
  split; [done|]. split.
  { cbn [app]. rewrite len_cons. unfold MaxPayload, MaxLength, MinLength.
    rewrite len_slice by lia. lia. }
  destruct (len (s_frag g) <=? e) eqn:E; bool_prop; [split; [done | lia]|].
  split; [|lia]. intros _. lia.
Qed.

Lemma Clear_seg_ok g : seg_ok (Clear g).
Proof. done. Qed.

Lemma Busy_true p : Busy p = true <-> state p <> priIdle.
Proof. unfold Busy. rewrite negb_true_iff, bool_decide_eq_false. done. Qed.
Lemma Busy_false p : Busy p = false <-> state p = priIdle.
Proof. unfold Busy. rewrite negb_false_iff, bool_decide_eq_true. done. Qed.

Lemma len_nil_MaxPayload : len (@nil Z) <= MaxPayload.
Proof. vm_compute. discriminate. Qed.

(** An idle primary whose peer takes data accepts every payload that fits a frame. *)
Lemma Send_accepts p payload :
  Busy p = false -> dfc p = false -> len payload <= MaxPayload -> pri_ok p ->
  exists p' f a, LinkFsm.Send p payload = (p', Ok (f, a)) /\ pri_ok p' /\
    len (Payload f) <= MaxPayload /\
    ((a = ActionTransmit /\ Busy p' = true) \/
     (a = ActionComplete /\ Busy p' = false /\ dfc p' = false)).
Proof.
  intros Hb Hd Hl [Hp1 Hp2]. pose proof len_nil_MaxPayload. unfold LinkFsm.Send.
  replace (MaxPayload <? len payload) with false by (symmetry; apply Z.ltb_ge; done).
  rewrite Hb, Hd. cbn [UseConfirms with_retries].
  destruct (UseConfirms p); cbn [negb linkUp with_pending with_retries]; [destruct (linkUp p)|].
  all: eexists _, _, _; split; [reflexivity|]; split_and!; cbn; try done.
  all: unfold Busy in *; cbn; naive_solver.
Qed.

Lemma Send_wf p payload p' r :
  LinkFsm.Send p payload = (p', r) -> pri_ok p -> len payload <= MaxPayload -> pri_ok p'.
Proof.
  intros H [Hp1 Hp2] Hl. pose proof len_nil_MaxPayload. unfold LinkFsm.Send in H.
  destruct (_ <? _); [by simplify_eq|]. destruct (Busy p); [by simplify_eq|].
  destruct (dfc p); [by simplify_eq|]. cbn [UseConfirms with_retries] in H.
  destruct (UseConfirms p); cbn in H; [destruct (linkUp p); cbn in H|]; by simplify_eq.
Qed.

Lemma OnFrame_ok p f p' g a :
  Primary_OnFrame p f = (p', g, a) -> pri_ok p ->
  pri_ok p' /\ len (Payload g) <= MaxPayload /\
  match a with
  | ActionTransmit => Busy p = true /\ Busy p' = true
  | ActionComplete | ActionFailed => Busy p' = false
  | ActionNone => Busy p' = Busy p
  end.
Proof.
  intros H [Hp1 Hp2]. pose proof len_nil_MaxPayload. unfold Primary_OnFrame in H.
  destruct (Prm _); [by simplify_eq|]. destruct (0 <? _); [by simplify_eq|].
  unfold Busy, fail, sendPending, emit in *. case_bool_decide as Hs.
  { rewrite Hs in H. injection H as <- <- <-. split_and!; [done.. |]. by rewrite bool_decide_eq_true_2. }
  cbn [state with_dfc] in H. destruct (state p) eqn:Es; [done|..]; cbn in H.
  all: repeat match type of H with context [if ?b then _ else _] => destruct b end; simplify_eq; cbn.
  all: rewrite ?Es; done.
Qed.

Lemma OnTimeout_ok p p' f a :
  LinkFsm.OnTimeout p = (p', f, a) -> pri_ok p ->
  pri_ok p' /\ len (Payload f) <= MaxPayload /\
  match a with
  | ActionTransmit => Busy p' = Busy p
  | _ => Busy p' = false
  end.
Proof.
  intros H [Hp1 Hp2]. pose proof len_nil_MaxPayload. unfold LinkFsm.OnTimeout, fail, Busy in *.
  case_bool_decide as Hs; [simplify_eq; cbn; rewrite Hs; done|].
  destruct (_ <=? _); simplify_eq; cbn; rewrite ?bool_decide_eq_false_2 by done; done.
Qed.

Lemma RequestLinkStatus_ok p :
  Busy p = false -> pri_ok p ->
  exists p' f, RequestLinkStatus p = (p', Ok (f, ActionTransmit)) /\ pri_ok p' /\
    len (Payload f) <= MaxPayload /\ Busy p' = true.
Proof.
  intros Hb [Hp1 Hp2]. pose proof len_nil_MaxPayload. unfold RequestLinkStatus. rewrite Hb.
  eexists _, _. split; [reflexivity|]. done.
Qed.

Lemma reply_small s fn d : len (Payload (reply s fn d)) <= MaxPayload.
Proof. apply len_nil_MaxPayload. Qed.

Lemma Secondary_reply_small s f s' r g :
  Secondary_OnFrame s f = (s', r) -> Reply r = Some g -> len (Payload g) <= MaxPayload.
Proof.
  unfold Secondary_OnFrame, onBroadcast. intros H Hr.
  repeat match type of H with context [if ?b then _ else _] => destruct b end.
  all: simplify_eq; cbn in Hr; try done; injection Hr as <-; apply reply_small.
Qed.

(** [stack_wf] holds always; [in_sync] whenever no write has failed: the stack waits for an
    acknowledgement exactly while the link state machine does. *)
Definition stack_wf (s : Stack) : Prop := pri_ok (pri s) /\ seg_ok (seg s).
Definition in_sync (s : Stack) : Prop := awaiting s = Busy (pri s).

Section Results.
Context {S E : Type}.
Context (w_Write : S -> list Z -> S * option E).
Context (w_message : option ((S -> S) * (S -> S * option E))).
Context (fn : Stack -> S -> Received -> Stack * S).

(** An operation returned nothing, or an error of the writer. *)
Definition only_write_err (e : option (StackErr E)) : Prop :=
  match e with None => True | Some (ErrWrite _) => True | Some _ => False end.

Lemma write_only x f : len (Payload f) <= MaxPayload -> only_write_err (snd (write w_Write x f)).
Proof.
  intros Hf. unfold write. rewrite Encode_frame by done. destruct (w_Write x _) as [x' [e|]]; done.
Qed.

(** What an operation that transmits leaves: the parts it does not own untouched, a
    well-formed state, and the flag in step unless a write failed. *)
Definition pump_post (s s' : Stack) (e : option (StackErr E)) : Prop :=
  parser s' = parser s /\ cfg s' = cfg s /\ dest s' = dest s /\ stack_wf s' /\
  only_write_err e /\ (e = None -> in_sync s').

Lemma pumpFrames_spec fuel s x :
  Busy (pri s) = false -> awaiting s = false -> stack_wf s -> turns (seg s) < Z.of_nat fuel ->
  exists s' x' e, pumpFrames w_Write fuel s x = Some (s', x', e) /\ pump_post s s' e.
Proof.
  revert s x. induction fuel as [|fuel IH]; intros s x Hb Ha [Hp Hg] Ht.
  { unfold turns in Ht. destruct (s_live (seg s)) eqn:Hl; [|lia]. specialize (Hg Hl). pose proof (len_nonneg (s_frag (seg s))). lia. }
  cbn [pumpFrames]. unfold Pending. destruct (s_live (seg s)) eqn:Hl; cbn [negb].
  2:{ eexists _, _, _. split; [reflexivity|]. unfold pump_post, in_sync, stack_wf. cbn. by rewrite Hb. }
  destruct (dfc (pri s)) eqn:Hd.
  { eexists _, _, _. split; [reflexivity|]. unfold pump_post, in_sync, stack_wf. by rewrite Ha, Hb. }
  destruct (Transport.Next (seg s) []) as [[g sg] b] eqn:En.
  destruct (Next_seg_ok _ _ _ _ En Hg Hl) as (-> & Hsg & Hg' & Ht').
  cbn [pri with_seg dest].
  destruct (Send_accepts (with_remote (dest s) (pri s)) sg) as (p' & f & a & -> & Hp' & Hf & Hcase);
    [done..|].
  pose proof (write_only x f Hf) as Hw. destruct (write w_Write x f) as [x' err]. cbn [snd] in Hw.
  destruct Hcase as [[-> Hb'] | (-> & Hb' & Hd')]; cbn [bool_decide decide]; destruct err as [err|].
  all: try rewrite bool_decide_eq_false_2 by done.
  1, 2, 3: eexists _, _, _; split; [reflexivity|]; unfold pump_post, in_sync, stack_wf; done.
  rewrite bool_decide_eq_false_2 by done.
  destruct (IH (with_pri (with_remote (RemoteAddr (pri s)) p') (with_seg g s)) x') as (s' & x'' & e & He & Hpost);
    [done | done | done | cbn; lia |].
  exists s', x'', e. split; [exact He | exact Hpost].
Qed.

Lemma pump_spec s x :
  Busy (pri s) = false -> awaiting s = false -> stack_wf s ->
  exists s' x' e, pump w_Write w_message s x = Some (s', x', e) /\ pump_post s s' e.
Proof.
  intros Hb Ha Hwf.
  assert (Ht : turns (seg s) < Z.of_nat (length (s_frag (seg s)) + 2)).
  { unfold turns, len. destruct (s_live (seg s)) eqn:Hl; [|lia].
    destruct Hwf as [_ Hg]. specialize (Hg Hl). lia. }
  unfold pump. destruct w_message as [[b e_]|]; [|by apply pumpFrames_spec].
  destruct (pumpFrames_spec _ s (b x) Hb Ha Hwf Ht) as (s' & x' & e & -> & Hpost). cbn.
  destruct (e_ x') as [x'' ee]. eexists _, _, _. split; [reflexivity|].
  destruct Hpost as (? & ? & ? & ? & He & Hs). split_and!; try done.
  - destruct e; [done|]. by destruct ee.
  - destruct e; [done|]. intros _. by apply Hs.
Qed.

Lemma SendTo_spec s x d frag :
  stack_wf s -> in_sync s ->
  exists s' x' e, SendTo w_Write w_message s x d frag = Some (s', x', e) /\
    parser s' = parser s /\ cfg s' = cfg s /\ stack_wf s' /\
    ((forall we, e <> Some (ErrWrite we)) -> in_sync s') /\
    (len frag <> 0 -> Stack_Busy s = false -> only_write_err e).
Proof.
  intros Hwf Hs. unfold SendTo. destruct (len frag =? 0) eqn:E0; bool_prop.
  { eexists _, _, _. split; [reflexivity|]. split_and!; done. }
  destruct (Stack_Busy s) eqn:Eb.
  { eexists _, _, _. split; [reflexivity|]. split_and!; done. }
  apply orb_false_iff in Eb as [Ea El]. unfold in_sync in Hs.
  destruct (pump_spec (with_seg (Segmenter_Reset (seg s) frag) (with_dest d s)) x)
    as (s' & x' & e & He & Hpost).
  - cbn. congruence.
  - done.
  - split; [apply Hwf|]. intros _. cbn. lia.
  - exists s', x', e. split; [exact He|]. destruct Hpost as (? & ? & ? & ? & Ho & Hn).
    split_and!; try done. intros Hne. apply Hn. destruct e as [[]|]; try done. by edestruct Hne.
Qed.

(** In or out of step, and whatever the writer does, sending leaves the parts well formed. *)
Lemma pumpFrames_wf fuel s x s' x' e :
  pumpFrames w_Write fuel s x = Some (s', x', e) -> stack_wf s -> stack_wf s' /\ parser s' = parser s.
Proof.
  revert s x. induction fuel as [|fuel IH]; intros s x H [Hp Hg]; [done|]. cbn [pumpFrames] in H.
  unfold Pending in H. destruct (s_live (seg s)) eqn:Hl; cbn [negb] in H; [|by simplify_eq].
  destruct (dfc (pri s)); [by simplify_eq|].
  destruct (Transport.Next (seg s) []) as [[g sg] b] eqn:En.
  destruct (Next_seg_ok _ _ _ _ En Hg Hl) as (-> & Hsg & Hg' & _). cbn [pri with_seg dest] in H.
  destruct (LinkFsm.Send (with_remote (dest s) (pri s)) sg) as [p r] eqn:Es.
  pose proof (Send_wf _ _ _ _ Es Hp Hsg) as Hp'.
  destruct r as [[f a]|err]; [|by simplify_eq].
  case_bool_decide; [by simplify_eq|]. destruct (write w_Write x f) as [x1 [err|]]; [by simplify_eq|].
  case_bool_decide; [by simplify_eq|]. by destruct (IH _ _ H).
Qed.

Lemma SendTo_wf s x d frag s' x' e :
  SendTo w_Write w_message s x d frag = Some (s', x', e) -> stack_wf s ->
  stack_wf s' /\ parser s' = parser s.
Proof.
  unfold SendTo. intros H [Hp Hg]. destruct (len frag =? 0); [by simplify_eq|].
  destruct (Stack_Busy s); [by simplify_eq|]. unfold pump in H.
  assert (Hwf : stack_wf (with_seg (Segmenter_Reset (seg s) frag) (with_dest d s))).
  { split; [done|]. intros _. cbn. lia. }
  destruct w_message as [[b e_]|].
  - destruct (pumpFrames w_Write _ _ _) as [[[s1 x1] e1]|] eqn:E1; [|done]. cbn in H.
    destruct (e_ x1). simplify_eq. by destruct (pumpFrames_wf _ _ _ _ _ _ E1 Hwf).
  - by destruct (pumpFrames_wf _ _ _ _ _ _ H Hwf).
Qed.

Lemma OnTimeout_spec s x s' x' b e :
  Stack.OnTimeout w_Write s x = (s', x', b, e) -> stack_wf s ->
  parser s' = parser s /\ stack_wf s' /\ only_write_err e /\ (in_sync s -> in_sync s').
Proof.
  unfold OnTimeout, in_sync. intros H [Hp Hg]. destruct (awaiting s) eqn:Ea; cbn [negb] in H.
  2:{ simplify_eq. split_and!; try done. by rewrite Ea. }
  destruct (LinkFsm.OnTimeout (pri s)) as [[p f] a] eqn:Eo.
  destruct (OnTimeout_ok _ _ _ _ Eo Hp) as (Hp' & Hf & Hb).
  destruct a.
  2:{ pose proof (write_only x f Hf). destruct (write w_Write x f) as [x1 e1]. simplify_eq. cbn.
      split_and!; try done. congruence. }
  all: simplify_eq; cbn; split_and!; try done; congruence.
Qed.

Lemma SendLinkStatusRequest_spec s x s' x' e :
  SendLinkStatusRequest w_Write s x = (s', x', e) -> stack_wf s -> in_sync s ->
  parser s' = parser s /\ stack_wf s' /\ only_write_err e /\ in_sync s'.
Proof.
  unfold SendLinkStatusRequest, in_sync. intros H [Hp Hg] Hs. destruct (awaiting s) eqn:Ea.
  { simplify_eq. split_and!; try done. by rewrite Ea. }
  destruct (RequestLinkStatus_ok (pri s) (eq_sym Hs) Hp) as (p & f & Hr & Hp' & Hf & Hb).
  rewrite Hr in H. rewrite bool_decide_eq_true_2 in H by done. cbn [negb] in H.
  pose proof (write_only x f Hf). destruct (write w_Write x f) as [x1 e1]. simplify_eq. cbn.
  split_and!; done.
Qed.

(** ** A proof rule for [Receive]

    [I fs s x] is what holds with the frames [fs] still to come; [W] what holds of an error
    that ends the call and of the state it leaves.  If handling a frame takes [I (f :: fs)] to [I fs], then [Receive]
    runs to its end, with the frames the octets make. *)
Section Rule.
Context (I : list Frame -> Stack -> S -> Prop) (W : StackErr E -> Stack -> Prop).

Definition frame_rule : Prop := forall f fs s x,
  frame_ok f -> parser_ok (parser s) -> I (f :: fs) s x ->
  exists s' x' e, drain_frame w_Write w_message fn s x f = Some (s', x', e) /\
    parser s' = parser s /\ match e with None => I fs s' x' | Some e => W e s' end.
Definition parser_blind : Prop := forall p fs s x, I fs s x -> I fs (with_parser p s) x.

Context (HI : frame_rule) (HB : parser_blind).

Lemma drain_rule fuel s x more :
  parser_ok (parser s) -> (Z.to_nat (Buffered (parser s)) < fuel)%nat ->
  I (fst (scan (content (parser s))) ++ more) s x ->
  exists s' x' e, drain w_Write w_message fn fuel s x = Some (s', x', e) /\
    match e with
    | None => I more s' x' /\ drained (parser s') /\
              content (parser s') = snd (scan (content (parser s)))
    | Some e => W e s'
    end.
Proof.
  revert s x. induction fuel as [|fuel IH]; intros s x Hp Hf HIs; [lia|]. cbn [drain].
  pose proof (Next_spec (parser s) Hp) as [Hok Hr].
  destruct (LinkParser.Next (parser s)) as [p r]. cbn [fst snd] in *. destruct r as [f|e].
  - destruct Hr as (Hfr & Hs & Hlt & _). rewrite Hs in HIs |- *. cbn [fst snd app] in *.
    destruct (HI f _ (with_parser p s) x Hfr Hok (HB p _ _ _ HIs)) as (s' & x' & e & -> & Hps & He).
    destruct e as [e|]; [by eexists _, _, _|]. cbn [parser with_parser] in Hps. rewrite <- Hps in *.
    apply IH; [done | | done]. pose proof (content_len _ Hok) as Hc. pose proof (len_nonneg (content (parser s'))). lia.
  - destruct Hr as (-> & Hs & Hb & _). rewrite Hs in *. cbn [fst snd app] in *.
    eexists _, _, None. split; [reflexivity|]. cbn [parser with_parser]. split; [by apply HB|].
    split; [|done]. split; [done|].
    replace (content p) with (snd (scan (content (parser s)))) by (by rewrite Hs).
    by apply scan_rest_wait, content_ok.
Qed.

Lemma Receive_rule s x data more :
  drained (parser s) -> octets_ok data ->
  I (fst (scan (content (parser s) ++ data)) ++ more) s x ->
  exists s' x' e, Receive w_Write w_message fn s x data = Some (s', x', e) /\
    match e with
    | None => I more s' x' /\ drained (parser s') /\
              norm (content (parser s')) = norm (snd (scan (content (parser s) ++ data)))
    | Some e => W e s'
    end.
Proof.
  unfold Receive. assert (Hf : (length data < length data + 1)%nat) by lia.
  revert Hf. generalize (length data + 1)%nat as fuel. intros fuel. revert s x data.
  induction fuel as [|fuel IH]; intros s x data Hf Hd Hok HIs; [lia|]. cbn [Receive_loop].
  destruct (0 <? len data) eqn:E0; cbn [negb]; bool_prop.
  2:{ destruct data; [|rewrite len_cons in E0; pose proof (len_nonneg data); lia].
      rewrite app_nil_r in *. eexists _, _, None. split; [reflexivity|].
      destruct Hd as [Hp Hw]. rewrite scan_unfold, Hw in HIs |- * by (by apply content_ok). done. }
  pose proof (drained_room _ Hd) as Hroom. change MaxFrameSize with 292 in Hroom. destruct Hd as [Hp Hw].
  destruct (Write (parser s) data) as [[p n] we] eqn:Ew.
  destruct (Write_spec _ _ _ _ _ Hp Hok Ew) as (Hok1 & Hn & Hc1 & _ & _ & Hfree).
  assert (Hn0 : 0 < n) by (destruct (decide (n < len data)); lia).
  assert (Hsplit : content (parser s) ++ data = content p ++ drop (Z.to_nat n) data).
  { rewrite Hc1, <- app_assoc. f_equal. unfold slice. rewrite Z.sub_0_r. norm_nat. rewrite drop_0.
    symmetry. apply take_drop. }
  assert (Hrest : octets_ok (drop (Z.to_nat n) data)) by auto with dnp3.
  rewrite Hsplit in HIs |- *. pose proof (scan_app (content p) _ (content_ok _ Hok1) Hrest) as Hsc.
  destruct Hsc as [Hsc1 Hsc2]. rewrite Hsc1 in HIs. cbn [fst] in HIs. rewrite <- app_assoc in HIs.
  destruct (drain_rule (Datatypes.S (Z.to_nat (Buffered p))) (with_parser p s) x
     (fst (scan (snd (scan (content p)) ++ drop (Z.to_nat n) data)) ++ more)) as (s1 & x1 & e1 & -> & H1);
    [done | cbn; lia | by apply HB |].
  destruct e1 as [e1|]; [by eexists _, _, _|]. destruct H1 as (HI1 & Hd1 & Hcn).
  cbn [parser with_parser] in Hcn.
  replace (match we with Some e => if n =? 0 then Some (s1, x1, Some (ErrParser e))
             else Receive_loop w_Write w_message fn fuel s1 x1 (drop (Z.to_nat n) data)
           | None => _ end)
    with (Receive_loop w_Write w_message fn fuel s1 x1 (drop (Z.to_nat n) data)).
  2:{ destruct we; [|done]. by destruct (Z.eqb_spec n 0); [lia|]. }
  destruct (IH s1 x1 (drop (Z.to_nat n) data)) as (s2 & x2 & e2 & -> & H2).
  { rewrite length_drop. unfold len in *. lia. }
  { done. }
  { done. }
  { by rewrite Hcn. }
  exists s2, x2, e2. split; [done|]. destruct e2; [done|]. rewrite Hcn in H2. by rewrite Hsc2.
Qed.

End Rule.

(** ** Totality of [Receive] *)

(** What the callback may do: anything the operations of the stack do, successfully or not.
    It leaves the parser alone and every part well formed. *)
Definition fn_wf : Prop := forall s x r,
  stack_wf s -> stack_wf (fst (fn s x r)) /\ parser (fst (fn s x r)) = parser s.

Lemma deliver_spec s x f p :
  fn_wf -> stack_wf s ->
  stack_wf (fst (deliver fn s x f p)) /\ parser (fst (deliver fn s x f p)) = parser s.
Proof.
  intros Hfn Hwf. unfold deliver. destruct (Accept (reasm s) p) as [r res].
  destruct (Fragment res) as [frag|]; [|done].
  split; [apply Hfn; done | apply (Hfn (with_reasm r s)); done].
Qed.

Lemma drain_frame_spec s x f :
  fn_wf -> stack_wf s ->
  exists s' x' e, drain_frame w_Write w_message fn s x f = Some (s', x', e) /\
    parser s' = parser s /\ stack_wf s' /\ only_write_err e.
Proof.
  intros Hfn Hwf. unfold drain_frame.
  destruct (negb (addressedToUs _ _)); [by eexists _, _, None|].
  destruct (Bool.eqb _ _); [by eexists _, _, None|].
  destruct (negb (IsValidSource _)); [by eexists _, _, None|].
  destruct (Prm (HControl (FHeader f))).
  - destruct (Secondary_OnFrame (sec s) f) as [sc res] eqn:Esec.
    assert (Hrep : only_write_err (snd (match Reply res with Some rep => write w_Write x rep | None => (x, None) end))).
    { destruct (Reply res) as [g|] eqn:Er; [|done]. apply write_only. by eapply Secondary_reply_small. }
    destruct (match Reply res with Some rep => write w_Write x rep | None => (x, None) end) as [x1 err].
    destruct err as [err|]; [by eexists _, _, _|].
    destruct (SPayload res) as [p|]; [|by eexists _, _, None].
    destruct (deliver_spec (with_sec sc s) x1 f p Hfn Hwf) as (H1 & H2).
    destruct (deliver fn (with_sec sc s) x1 f p) as [s2 x2]. by eexists _, _, None.
  - destruct (negb _ && _); [by eexists _, _, None|].
    destruct (Primary_OnFrame (pri (with_dest (Src (FHeader f)) s)) f) as [[p next] a] eqn:Ep.
    destruct Hwf as [Hp Hg]. destruct (OnFrame_ok _ _ _ _ _ Ep Hp) as (Hp' & Hn & Hb).
    cbn [pri with_dest] in Hb. destruct a.
    + by eexists _, _, None.
    + pose proof (write_only x next Hn). destruct (write w_Write x next) as [x1 e1]. by eexists _, _, _.
    + match goal with |- context [pump w_Write w_message ?s1 x] =>
        destruct (pump_spec s1 x Hb eq_refl (conj Hp' Hg)) as (s2 & x2 & e & He & Hps) end.
      exists s2, x2, e. destruct Hps as (? & ? & ? & ? & ? & ?). by split_and!.
    + by eexists _, _, None.
Qed.

End Results.

Arguments fn_wf {S} fn.

(** C20. [Receive] is total: whatever octets arrive, it reads them all and returns; the
    parser's buffer is never full for it and its decoding never fails, so that the only
    error it can return is one of the writer.  After a call without error the parser has
    room for a whole frame again.  The callback may send on the stack. *)
Theorem Receive_total {S E} (w_Write : S -> list Z -> S * option E) w_message fn s x data :
  fn_wf fn -> stack_wf s -> drained (parser s) -> octets_ok data ->
  exists s' x' e, Receive w_Write w_message fn s x data = Some (s', x', e) /\
    only_write_err e /\ (e = None -> stack_wf s' /\ drained (parser s')).
Proof.
  intros Hfn Hwf Hd Hok.
  assert (HI : frame_rule w_Write w_message fn (fun _ s _ => stack_wf s) (fun e _ => only_write_err (Some e))).
  { intros f fs s1 x1 _ _ H1. destruct (drain_frame_spec w_Write w_message fn s1 x1 f Hfn H1)
      as (s2 & x2 & e & -> & Hp & Hw & Ho). exists s2, x2, e. by destruct e. }
  destruct (Receive_rule _ _ _ _ _ HI (fun _ _ _ _ H => H) s x data [] Hd Hok Hwf)
    as (s' & x' & e & He & Hr).
  exists s', x', e. split; [done|]. destruct e; [done|]. by destruct Hr as (? & ? & ?).
Qed.

(** A callback that answers every fragment with the octets [ans] computes, as the sessions do. *)
Definition answering {S E} (w_Write : S -> list Z -> S * option E) w_message
    (ans : Received -> list Z) (s : Stack) (x : S) (r : Received) : Stack * S :=
  match SendTo w_Write w_message s x (Source r) (ans r) with
  | Some (s', x', _) => (s', x')
  | None => (s, x)
  end.

Lemma answering_wf {S E} (w_Write : S -> list Z -> S * option E) w_message ans :
  fn_wf (answering w_Write w_message ans).
Proof.
  intros s x r Hwf. unfold answering.
  destruct (SendTo _ _ _ _ _ _) as [[[s' x'] e]|] eqn:H; [|done]. by eapply SendTo_wf.
Qed.

(** A writer that keeps what it is given, and never fails. *)
Definition keep (x o : list Z) : list Z * option unit := (x ++ o, None).

Definition witness_config : Config := mkConfig 10 1 false false false 3 0.

Lemma Receive_total_witness :
  let fn := answering keep None (fun r => RFragment r) in
  let data := frame_octets (LinkFrame.mkHeader (mkControl true true false false 4) 10 1 8) [0xC0; 1; 2] in
  exists s' x' e, Receive keep None fn (New witness_config) [] data = Some (s', x', e) /\
    only_write_err e /\ (e = None -> stack_wf s' /\ drained (parser s')).
Proof.
  intros fn data. apply (Receive_total keep None fn).
  - apply answering_wf.
  - split; [vm_compute; split; discriminate | done].
  - apply NewParser_drained.
  - vm_compute. repeat constructor; discriminate.
Defined.

(** ** The life of a stack

    A session calls the operations one after another, and the callback of [Receive] calls them
    too: it is any [script] of sends that may look at the stack and at how a send went in
    between.  A write may fail at any time.  Whoever sent may ignore that, as the master does
    with a confirmation; an error [Receive] itself returns ends the connection, and the stack is
    reset before it is used again. *)

Inductive script (E : Type) : Type :=
| Over
| SendThen (d : Z) (fragment : list Z) (k : option (StackErr E) -> script E)
| LookThen (k : Stack -> script E).
Arguments Over {E}.
Arguments SendThen {E} d fragment k.
Arguments LookThen {E} k.

(** A writer that notes whether a write or the end of a message has failed. *)
Definition noting {S E} (w_Write : S -> list Z -> S * option E) (x : S * bool) (o : list Z) : (S * bool) * option E :=
  let '(y, e) := w_Write x.1 o in ((y, x.2 || bool_decide (is_Some e)), e).
Definition noting_message {S E} (w_message : option ((S -> S) * (S -> S * option E)))
    : option ((S * bool -> S * bool) * (S * bool -> (S * bool) * option E)) :=
  (fun m => (fun x => (m.1 x.1, x.2), fun x => let '(y, e) := m.2 x.1 in ((y, x.2 || bool_decide (is_Some e)), e))) <$> w_message.

Section Life.
Context {S E : Type}.
Context (w_Write : S -> list Z -> S * option E).
Context (w_message : option ((S -> S) * (S -> S * option E))).

Fixpoint run_script (p : script E) (s : Stack) (x : S) : Stack * S :=
  match p with
  | Over => (s, x)
  | SendThen d frag k =>
      match SendTo w_Write w_message s x d frag with
      | Some (s, x, e) => run_script (k e) s x
      | None => (s, x)
      end
  | LookThen k => run_script (k s) s x
  end.
Definition reacting (react : Received -> script E) (s : Stack) (x : S) (r : Received) : Stack * S := run_script (react r) s x.

Lemma run_script_wf p : forall s x, stack_wf s ->
  stack_wf (run_script p s x).1 /\ parser (run_script p s x).1 = parser s.
Proof.
  induction p as [|d frag k IH|k IH]; intros s x Hwf; cbn [run_script]; [done| |by apply IH].
  destruct (SendTo _ _ _ _ _ _) as [[[s1 x1] e]|] eqn:H; [|done].
  destruct (SendTo_wf _ _ _ _ _ _ _ _ _ H Hwf) as [Hwf1 Hp1]. destruct (IH e s1 x1 Hwf1) as [H1 H2].
  split; [done | by rewrite H2].
Qed.
Lemma reacting_wf react : fn_wf (reacting react).
Proof. intros s x r. apply run_script_wf. Qed.

Lemma SendLinkStatusRequest_wf s x s' x' e :
  SendLinkStatusRequest w_Write s x = (s', x', e) -> stack_wf s -> stack_wf s' /\ parser s' = parser s.
Proof.
  unfold SendLinkStatusRequest. intros H [[Hp1 Hp2] Hg]. pose proof len_nil_MaxPayload.
  destruct (awaiting s); [by simplify_eq|]. destruct (RequestLinkStatus (pri s)) as [p r] eqn:R. unfold RequestLinkStatus in R.
  destruct (Busy (pri s)); [by simplify_eq|]. unfold emit in R. injection R as <- <-. destruct (negb _); [by simplify_eq|].
  destruct (write w_Write x _) as [x1 e1]. by simplify_eq.
Qed.

(** [ok x]: no write has failed so far. *)
Context (ok : S -> Prop).
Definition tells : Prop :=
  (forall x o, ok (w_Write x o).1 -> ok x /\ (w_Write x o).2 = None) /\
  match w_message with
  | None => True
  | Some (b, e) => (forall x, ok (b x) -> ok x) /\ (forall x, ok (e x).1 -> ok x /\ (e x).2 = None)
  end.
Context (Ht : tells).

Definition not_write (e : option (StackErr E)) : Prop := forall we, e <> Some (ErrWrite we).

Lemma write_tells x f : ok (write w_Write x f).1 -> ok x /\ not_write (write w_Write x f).2.
Proof.
  unfold write. destruct (Encode _ _ _) as [o|]; [|done]. destruct Ht as [Hw _]. specialize (Hw x o).
  destruct (w_Write x o) as [y e]. cbn [fst snd] in *. intros H. destruct (Hw H) as [? ->]. done.
Qed.
Lemma pumpFrames_tells fuel : forall s x s' x' e,
  pumpFrames w_Write fuel s x = Some (s', x', e) -> ok x' -> ok x /\ not_write e.
Proof.
  induction fuel as [|fuel IH]; intros s x s' x' e H Hx; [done|]. cbn [pumpFrames] in H.
  destruct (negb _); [by simplify_eq|]. destruct (dfc _); [by simplify_eq|].
  destruct (Transport.Next _ _) as [[g sg] []]; [|by simplify_eq].
  destruct (LinkFsm.Send _ _) as [p [[f a]|]]; [|by simplify_eq]. case_bool_decide; [by simplify_eq|].
  pose proof (write_tells x f) as Hw. destruct (write w_Write x f) as [x1 [e1|]]; cbn [fst snd] in Hw; [by simplify_eq; apply Hw|].
  case_bool_decide; [by simplify_eq; apply Hw|]. destruct (IH _ _ _ _ _ H Hx) as [Hx1 He]. by destruct (Hw Hx1).
Qed.
Lemma pump_tells s x s' x' e : pump w_Write w_message s x = Some (s', x', e) -> ok x' -> ok x /\ not_write e.
Proof.
  unfold pump. destruct Ht as [_ Hm]. destruct w_message as [[b e_]|]; [|apply pumpFrames_tells].
  destruct (pumpFrames w_Write _ s (b x)) as [[[s1 x1] e1]|] eqn:Hp; [|done]. cbn. destruct Hm as [Hb He].
  specialize (He x1). destruct (e_ x1) as [x2 e2]. cbn [fst snd] in He. intros H Hx. simplify_eq. destruct (He Hx) as [Hx1 ->].
  destruct (pumpFrames_tells _ _ _ _ _ _ Hp Hx1) as [Hx0 Hn]. split; [by apply Hb|]. by destruct e1.
Qed.
Lemma SendTo_tells s x d frag s' x' e : SendTo w_Write w_message s x d frag = Some (s', x', e) -> ok x' -> ok x /\ not_write e.
Proof.
  unfold SendTo. destruct (_ =? 0); [by intros; simplify_eq|]. destruct (Stack_Busy s); [by intros; simplify_eq|]. apply pump_tells.
Qed.

(** In step as long as no write has failed. *)
Definition in_step (s : Stack) (x : S) : Prop := ok x -> in_sync s.

Lemma SendTo_step s x d frag s' x' e :
  SendTo w_Write w_message s x d frag = Some (s', x', e) -> stack_wf s -> in_step s x -> in_step s' x'.
Proof.
  intros H Hwf Hs Hx. destruct (SendTo_tells _ _ _ _ _ _ _ H Hx) as [Hx0 Hn].
  destruct (SendTo_spec w_Write w_message s x d frag Hwf (Hs Hx0)) as (s1 & x1 & e1 & H1 & _ & _ & _ & Hy & _).
  rewrite H in H1. simplify_eq. by apply Hy.
Qed.
Lemma OnTimeout_step s x s' x' b e :
  OnTimeout w_Write s x = (s', x', b, e) -> stack_wf s -> in_step s x -> in_step s' x'.
Proof.
  intros H Hwf Hs Hx. destruct (OnTimeout_spec _ _ _ _ _ _ _ H Hwf) as (_ & _ & _ & Hy). apply Hy, Hs.
  unfold OnTimeout in H. destruct (negb _); [by simplify_eq|]. destruct (LinkFsm.OnTimeout _) as [[p f] []]; try by simplify_eq.
  pose proof (write_tells x f) as Hw. destruct (write w_Write x f) as [x1 e1]. simplify_eq. by apply Hw.
Qed.
Lemma SendLinkStatusRequest_step s x s' x' e :
  SendLinkStatusRequest w_Write s x = (s', x', e) -> stack_wf s -> in_step s x -> in_step s' x'.
Proof.
  intros H Hwf Hs Hx. refine (proj2 (proj2 (proj2 (SendLinkStatusRequest_spec _ _ _ _ _ _ H Hwf (Hs _))))).
  unfold SendLinkStatusRequest in H. destruct (awaiting s); [by simplify_eq|].
  destruct (RequestLinkStatus _) as [p [[f a]|]]; [|by simplify_eq]. destruct (negb _); [by simplify_eq|].
  pose proof (write_tells x f) as Hw. destruct (write w_Write x f) as [x1 e1]. simplify_eq. by apply Hw.
Qed.

Lemma run_script_step p : forall s x, stack_wf s -> in_step s x ->
  in_step (run_script p s x).1 (run_script p s x).2 /\ (ok (run_script p s x).2 -> ok x).
Proof.
  induction p as [|d frag k IH|k IH]; intros s x Hwf Hs; cbn [run_script]; [done| |by apply IH].
  destruct (SendTo _ _ _ _ _ _) as [[[s1 x1] e]|] eqn:H; [|done].
  destruct (SendTo_wf _ _ _ _ _ _ _ _ _ H Hwf) as [Hwf1 _].
  destruct (IH e s1 x1 Hwf1 (SendTo_step _ _ _ _ _ _ _ H Hwf Hs)) as [H1 H2]. split; [done|].
  intros Hx. by destruct (SendTo_tells _ _ _ _ _ _ _ H (H2 Hx)).
Qed.

Lemma drain_frame_step react s x f s' x' e :
  drain_frame w_Write w_message (reacting react) s x f = Some (s', x', e) -> stack_wf s -> in_step s x -> in_step s' x'.
Proof.
  unfold drain_frame. intros H Hwf Hs.
  destruct (negb (addressedToUs _ _)); [by simplify_eq|]. destruct (Bool.eqb _ _); [by simplify_eq|].
  destruct (negb (IsValidSource _)); [by simplify_eq|]. destruct (Prm (HControl (FHeader f))).
  - destruct (Secondary_OnFrame (sec s) f) as [sc res].
    assert (Hr : ok (match Reply res with Some rep => write w_Write x rep | None => (x, None) end).1 -> ok x).
    { destruct (Reply res) as [g|]; [|done]. intros Hx. by destruct (write_tells _ _ Hx). }
    destruct (match Reply res with Some rep => write w_Write x rep | None => (x, None) end) as [x1 err]. cbn [fst] in Hr.
    assert (Hs1 : in_step (with_sec sc s) x1) by (intros Hx; apply (Hs (Hr Hx))).
    destruct err as [err|]; [by simplify_eq|]. destruct (SPayload res) as [p|]; [|by simplify_eq].
    unfold deliver in H. destruct (Accept _ p) as [r acc]. destruct (Fragment acc) as [frag|]; [|by simplify_eq].
    unfold reacting in H.
    match type of H with context [run_script ?p ?s ?x] => destruct (run_script_step p s x Hwf Hs1) as [H1 _]; destruct (run_script p s x) end.
    by simplify_eq.
  - destruct (negb _ && _); [by simplify_eq|].
    destruct (Primary_OnFrame (pri (with_dest (Src (FHeader f)) s)) f) as [[p next] a] eqn:Ep.
    destruct Hwf as [Hp Hg]. destruct (OnFrame_ok _ _ _ _ _ Ep Hp) as (Hp' & _ & Hb). cbn [pri with_dest] in Hb.
    unfold in_step, in_sync in *. destruct a.
    + simplify_eq. intros Hx. cbn. rewrite Hb. by apply Hs.
    + pose proof (write_tells x next) as Hw. destruct (write w_Write x next) as [x1 e1]. simplify_eq. intros Hx. cbn.
      destruct Hb as [Hb0 Hb1]. destruct (Hw Hx) as [Hx0 _]. rewrite (Hs Hx0). congruence.
    + intros Hx. destruct (pump_tells _ _ _ _ _ H Hx) as [_ Hn].
      match type of H with pump _ _ ?s1 _ = _ => destruct (pump_spec w_Write w_message s1 x Hb eq_refl (conj Hp' Hg)) as (s2 & x2 & e2 & He & Hps) end.
      rewrite H in He. simplify_eq. destruct Hps as (_ & _ & _ & _ & Ho & Hy). apply Hy.
      destruct e2 as [[]|]; try done. by edestruct Hn.
    + simplify_eq. intros _. cbn. by rewrite Hb.
Qed.

Definition stack_inv (s : Stack) (x : S) : Prop := stack_wf s /\ drained (parser s) /\ in_step s x.

Lemma Reset_inv s x : stack_wf s -> stack_inv (Stack_Reset s) x.
Proof.
  intros [[Hp1 Hp2] Hg]. split; [|split; [apply NewParser_drained | done]].
  split; [|done]. split; [vm_compute; discriminate | done].
Qed.
Lemma New_inv c x : stack_inv (New c) x.
Proof.
  split; [|split; [unfold New; cbn [parser]; apply NewParser_drained | done]].
  split; [|done]. split; vm_compute; discriminate.
Qed.
Lemma Receive_inv react s x data s' x' e : octets_ok data ->
  Receive w_Write w_message (reacting react) s x data = Some (s', x', e) -> stack_inv s x ->
  stack_wf s' /\ (e = None -> stack_inv s' x').
Proof.
  intros Hok H (Hwf & Hd & Hs).
  assert (HI : frame_rule w_Write w_message (reacting react) (fun _ s x => stack_wf s /\ in_step s x) (fun _ s => stack_wf s)).
  { intros f fs s1 x1 _ _ [H1 H2].
    destruct (drain_frame_spec w_Write w_message (reacting react) s1 x1 f (reacting_wf react) H1) as (s2 & x2 & e2 & E2 & Hp & Hw2 & _).
    exists s2, x2, e2. split; [done|]. split; [done|]. destruct e2; [done|]. split; [done|]. exact (drain_frame_step _ _ _ _ _ _ _ E2 H1 H2). }
  destruct (Receive_rule _ _ _ _ _ HI (fun _ _ _ _ H => H) s x data [] Hd Hok (conj Hwf Hs)) as (s1 & x1 & e1 & H1 & Hr).
  rewrite H in H1. simplify_eq. destruct e1; [done|]. destruct Hr as ([? ?] & ? & _). by split.
Qed.
End Life.

(** The steps of a session with its stack, and whether a write has failed since the last reset. *)
Section Steps.
Context {S E : Type}.
Context (w_Write : S -> list Z -> S * option E).
Context (w_message : option ((S -> S) * (S -> S * option E))).
#[local] Notation wr := (noting w_Write).
#[local] Notation msg := (noting_message w_message).

Inductive life_step : Stack * (S * bool) -> Stack * (S * bool) -> Prop :=
| life_send s x d frag s' x' e : SendTo wr msg s x d frag = Some (s', x', e) -> life_step (s, x) (s', x')
| life_timeout s x s' x' b e : OnTimeout wr s x = (s', x', b, e) -> life_step (s, x) (s', x')
| life_status s x s' x' e : SendLinkStatusRequest wr s x = (s', x', e) -> life_step (s, x) (s', x')
| life_receive s x data react s' x' : octets_ok data ->
    Receive wr msg (reacting wr msg react) s x data = Some (s', x', None) -> life_step (s, x) (s', x')
| life_lost s x data react s' x' e y : octets_ok data ->
    Receive wr msg (reacting wr msg react) s x data = Some (s', x', Some e) -> life_step (s, x) (Stack_Reset s', (y, false))
| life_reset s x y : life_step (s, x) (Stack_Reset s, (y, false)).

Definition unfailed (x : S * bool) : Prop := x.2 = false.
Lemma noting_tells : tells wr msg unfailed.
Proof.
  assert (Hf : forall (f : bool) (e : option E), f || bool_decide (is_Some e) = false -> f = false /\ e = None).
  { intros [] e He; [done|]. cbn [orb] in He. split; [done|]. apply bool_decide_eq_false in He. by apply eq_None_not_Some. }
  split.
  - intros [y f] o. unfold noting, unfailed. cbn [fst snd]. destruct (w_Write y o) as [z e]. cbn [fst snd]. apply Hf.
  - destruct w_message as [[b e_]|]; [|done]. cbn [noting_message fmap option_fmap option_map fst snd]. split; [done|].
    intros [y f]. unfold unfailed. cbn [fst snd]. destruct (e_ y) as [z e]. cbn [fst snd]. apply Hf.
Qed.

Lemma life_inv c x t : rtc life_step (New c, (x, false)) t -> stack_inv unfailed t.1 t.2.
Proof.
  apply (rtc_ind_r (fun t => stack_inv unfailed t.1 t.2)); [apply New_inv|].
  intros t1 t2 _ Hstep Hi. pose proof noting_tells as Ht.
  destruct Hstep as [s x1 d frag s' x' e H|s x1 s' x' b e H|s x1 s' x' e H|s x1 data react s' x' Hok H|s x1 data react s' x' e y Hok H|s x1 y];
    cbn [fst snd] in *.
  - destruct Hi as (Hwf & Hd & Hs). destruct (SendTo_wf _ _ _ _ _ _ _ _ _ H Hwf) as [Hwf' Hp].
    split; [done|]. split; [by rewrite Hp | exact (SendTo_step _ _ _ Ht _ _ _ _ _ _ _ H Hwf Hs)].
  - destruct Hi as (Hwf & Hd & Hs). destruct (OnTimeout_spec _ _ _ _ _ _ _ H Hwf) as (Hp & Hwf' & _).
    split; [done|]. split; [by rewrite Hp | exact (OnTimeout_step _ _ _ Ht _ _ _ _ _ _ H Hwf Hs)].
  - destruct Hi as (Hwf & Hd & Hs). destruct (SendLinkStatusRequest_wf _ _ _ _ _ _ H Hwf) as [Hwf' Hp].
    split; [done|]. split; [by rewrite Hp | exact (SendLinkStatusRequest_step _ _ _ Ht _ _ _ _ _ H Hwf Hs)].
  - exact (proj2 (Receive_inv _ _ _ Ht _ _ _ _ _ _ _ Hok H Hi) eq_refl).
  - apply Reset_inv. exact (proj1 (Receive_inv _ _ _ Ht _ _ _ _ _ _ _ Hok H Hi)).
  - apply Reset_inv, Hi.
Qed.
End Steps.

(** C19. The stack and the link state machine fall out of step only when a write has failed and
    the stack was not reset since.  A session calls the operations of the stack in any order, from the
    callback of [Receive] too, with any fragments, and goes on after errors of its sends as it
    likes; an error of [Receive] is followed by a reset.  In every state it reaches, if no write has
    failed since the last reset, [awaiting] is set exactly while the primary station waits for an answer,
    and a fragment handed to a stack that is not busy is not refused by the link layer below:
    the only error [SendTo] can return for it is one of the writer. *)
Theorem stack_in_sync {S E} (w_Write : S -> list Z -> S * option E) w_message c x0 s x :
  rtc (life_step w_Write w_message) (New c, (x0, false)) (s, (x, false)) ->
  Stack_Pending s = Busy (pri s) /\
  forall y d frag, frag <> [] -> Stack_Busy s = false ->
    exists s' y' e, SendTo w_Write w_message s y d frag = Some (s', y', e) /\ only_write_err e.
Proof.
  intros Hr. destruct (life_inv _ _ _ _ _ Hr) as (Hwf & _ & Hs). specialize (Hs eq_refl). cbn [fst] in *. split; [exact Hs|].
  intros y d frag Hne Hb. destruct (SendTo_spec w_Write w_message s y d frag Hwf Hs)
    as (s' & y' & e & H & _ & _ & _ & _ & Ho). exists s', y', e. split; [done|]. apply Ho; [|done].
  destruct frag as [|b frag]; [done|]. rewrite len_cons. pose proof (len_nonneg frag). lia.
Qed.

(** A confirmed send. *)
Lemma stack_in_sync_witness :
  exists s x, rtc (life_step keep None) (New (mkConfig 10 1 false false true 3 0), ([], false)) (s, (x, false)) /\
    Stack_Pending s = true /\ Stack_Pending s = Busy (pri s).
Proof.
  set (c := mkConfig 10 1 false false true 3 0).
  destruct (SendTo (noting keep) (noting_message None) (New c) ([], false) 1 [0xC0; 0x81]) as [[[s [x f]] e]|] eqn:H; [|by vm_compute in H].
  assert (Hf : f = false) by (vm_compute in H; by injection H). subst f.
  assert (Hr : rtc (life_step keep None) (New c, ([], false)) (s, (x, false))) by (apply rtc_once; by eapply life_send).
  exists s, x. split; [exact Hr|]. destruct (stack_in_sync keep None c [] s x Hr) as [Hs _].
  split; [|exact Hs]. vm_compute in H. injection H as <- _ _. reflexivity.
Defined.

(** Once a write has failed and its error is ignored, the stack no longer waits but the link
    layer does: the next fragment is refused, and no timeout helps. *)
Lemma out_of_step_after_failure :
  let broken := fun (x : unit) (_ : list Z) => (x, Some tt) in
  let c := mkConfig 10 1 false false true 3 0 in
  exists s, SendTo (noting broken) (noting_message None) (New c) (tt, false) 1 [0xC0; 0x81] =
      Some (s, (tt, true), Some (ErrWrite tt)) /\
    Stack_Pending s = false /\ Busy (pri s) = true /\ (OnTimeout broken s tt).1.1.1 = s.
Proof. eexists. split; [vm_compute; reflexivity|]. by vm_compute. Qed.

(** ** From one stack to another *)

(** The data frame an unconfirmed primary makes of a segment for station [d]. *)
Definition data_frame (p : Primary) (d : Z) (sg : list Z) : Frame :=
  frame (with_remote d p) FuncUnconfirmedUserData false false sg.
Definition frames_octets (fs : list Frame) : list Z :=
  concat ((fun f => frame_octets (FHeader f) (Payload f)) <$> fs).

Lemma frames_octets_cons f fs :
  frames_octets (f :: fs) = frame_octets (FHeader f) (Payload f) ++ frames_octets fs.
Proof. done. Qed.

Lemma Send_unconfirmed p payload :
  UseConfirms p = false -> Busy p = false -> dfc p = false -> len payload <= MaxPayload ->
  LinkFsm.Send p payload =
    (with_lastSent (frame p FuncUnconfirmedUserData false false payload) (with_retries 0 p),
     Ok (frame p FuncUnconfirmedUserData false false payload, ActionComplete)).
Proof.
  intros Hu Hb Hd Hl. unfold LinkFsm.Send.
  replace (MaxPayload <? len payload) with false by (symmetry; apply Z.ltb_ge; done).
  rewrite Hb, Hd. cbn [UseConfirms with_retries]. by rewrite Hu.
Qed.

Lemma data_frame_same p p' d sg :
  LocalAddr p' = LocalAddr p -> IsMaster p' = IsMaster p -> data_frame p' d sg = data_frame p d sg.
Proof. intros H1 H2. unfold data_frame, frame. cbn. by rewrite H1, H2. Qed.

Definition quiet (p : Primary) : Prop := UseConfirms p = false /\ Busy p = false /\ dfc p = false.

(** A writer that has room for [cap] octets: [inv] says what it was given. *)
Lemma pumpFrames_unconfirmed {X E} (w_Write : X -> list Z -> X * option E) (inv : X -> list Z -> Prop) cap
    (Hw : forall x l o, inv x l -> len (l ++ o) <= cap -> exists x', w_Write x o = (x', None) /\ inv x' (l ++ o))
    fuel s x l frag (k : nat) q :
  quiet (pri s) -> seg s = mkSegmenter frag (Z.of_nat k) q true ->
  0 <= q < 64 -> (k = 0 \/ k < length frag)%nat -> (length frag - k + 2 <= fuel)%nat -> inv x l ->
  let out := l ++ frames_octets (data_frame (pri s) (dest s) <$> segs fuel q (k =? 0)%nat (drop k frag)) in
  len out <= cap ->
  exists s' x', pumpFrames w_Write fuel s x = Some (s', x', None) /\ inv x' out.
Proof.
  revert s x l k q. induction fuel as [|fuel IH]; intros s x l k q (Hu & Hb & Hd) Hg Hq Hk Hf Hx; [lia|].
  assert (Hw' : forall o (r : list Z), len (l ++ o) + len r <= cap -> exists x', w_Write x o = (x', None) /\ inv x' (l ++ o))
    by (intros o r Hr; pose proof (len_nonneg r); apply Hw; [done | lia]).
  cbn [pumpFrames segs]. rewrite Hg. cbn [Pending s_live negb]. rewrite Hd, Next_step by done.
  replace (len (drop k frag) <=? MaxSegmentPayload) with (length (drop k frag) <=? 249)%nat.
  2:{ unfold len, MaxSegmentPayload. destruct (Nat.leb_spec (length (drop k frag)) 249);
        symmetry; [apply Z.leb_le | apply Z.leb_gt]; lia. }
  destruct (Nat.leb_spec (length (drop k frag)) 249) as [Hl|Hl]; cbn [pri with_seg dest fmap list_fmap].
  all: rewrite frames_octets_cons, app_assoc, Send_unconfirmed by (try done; rewrite len_cons; unfold len, MaxPayload, MaxLength, MinLength;
         rewrite ?length_take; lia).
  all: rewrite !bool_decide_eq_false_2 by done.
  all: unfold write, frame; cbn [FHeader Payload].
  all: rewrite Encode_frame by (rewrite len_cons; unfold len, MaxPayload, MaxLength, MinLength;
         rewrite ?length_take; lia).
  all: cbn [app]; intros Hcap; rewrite len_app in Hcap.
  all: destruct (Hw' _ _ Hcap) as (x1 & E1 & Hx1).
  all: unfold data_frame, frame in E1; cbn [app pri with_pri with_seg dest with_remote LocalAddr IsMaster FHeader Payload RemoteAddr] in *.
  all: rewrite E1; cbn [fmap option_fmap option_map].
  - destruct fuel as [|fuel]; [lia|]. cbn [pumpFrames Pending seg with_pri with_seg s_live negb].
    eexists _, _. split; [done|]. unfold frames_octets. cbn. by rewrite app_nil_r.
  - match type of Hx1 with inv _ ?l1 => match goal with |- context [pumpFrames w_Write fuel ?s1 x1] =>
      destruct (IH s1 x1 l1 (k + 249)%nat (next_seq q)) as (s' & x' & Hs' & Hx') end end;
      [done | done | apply next_seq_range | rewrite length_drop in Hl; lia | rewrite length_drop in Hl; lia | done | |].
    all: replace (k + 249 =? 0)%nat with false in * by (symmetry; apply Nat.eqb_neq; lia).
    all: cbn [pri with_pri with_seg dest] in *; rewrite drop_drop in *.
    + rewrite len_app. exact Hcap.
    + exists s', x'. split; [done|]. exact Hx'.
Qed.

Lemma segs_nonempty fuel q first rest : Forall (fun sg => 0 < len sg <= MaxPayload) (segs fuel q first rest).
Proof.
  revert q first rest. induction fuel as [|fuel IH]; intros q first rest; cbn [segs]; [constructor|].
  destruct (len rest <=? MaxSegmentPayload) eqn:E; bool_prop; repeat constructor; try apply IH.
  all: rewrite len_cons; unfold len, MaxPayload, MaxLength, MinLength, MaxSegmentPayload in *;
       rewrite ?length_take; lia.
Qed.

Lemma Header_Byte_ok a b q : 0 <= q < 64 -> octet_ok (Header_Byte (Transport.mkHeader a b q)).
Proof.
  intros Hq. apply (bool_decide_eq_true_1 _). revert q Hq.
  apply (forall_below 64 (fun q => bool_decide (octet_ok (Header_Byte (Transport.mkHeader a b q))))).
  destruct a, b; vm_compute; reflexivity.
Qed.

Lemma segs_octets fuel q first rest :
  0 <= q < 64 -> octets_ok rest -> Forall octets_ok (segs fuel q first rest).
Proof.
  revert q first rest. induction fuel as [|fuel IH]; intros q first rest Hq Hr; cbn [segs]; [constructor|].
  destruct (len rest <=? MaxSegmentPayload).
  - constructor; [|constructor]. apply octets_ok_cons. split; [by apply Header_Byte_ok | done].
  - constructor; [apply octets_ok_cons; split; [by apply Header_Byte_ok | auto with dnp3]|].
    apply IH; [apply next_seq_range | auto with dnp3].
Qed.

Lemma data_frame_ok p d sg :
  is_u16 (LocalAddr p) -> is_u16 d -> octets_ok sg -> len sg <= MaxPayload -> frame_ok (data_frame p d sg).
Proof.
  intros Hl Hd Hs Hn. split_and!; try done. cbn. apply u8_small.
  pose proof (len_nonneg sg). unfold octet_ok, MinLength, MaxPayload, MaxLength, MinLength in *. lia.
Qed.

Lemma scan_frames fs :
  Forall frame_ok fs -> scan (frames_octets fs) = (fs, []) /\ octets_ok (frames_octets fs).
Proof.
  induction 1 as [|f fs Hf _ [IH Ho]]; [by vm_compute|]. rewrite frames_octets_cons. split.
  - rewrite scan_frame by done. by rewrite IH.
  - apply octets_ok_app. split; [apply frame_octets_ok, Hf | done].
Qed.

(** The receiving side: it keeps what is written, and the fragments delivered. *)
Definition keep_write (x : list Z * list Received) (o : list Z) : (list Z * list Received) * option unit :=
  ((fst x ++ o, snd x), None).
Definition keep_received (s : Stack) (x : list Z * list Received) (r : Received) :=
  (s, (fst x, snd x ++ [r])).

(** [Receive] for each chunk the reader hands over. *)
Fixpoint receive_all (s : Stack) (x : list Z * list Received) (chunks : list (list Z))
    : option (Stack * (list Z * list Received) * option (StackErr unit)) :=
  match chunks with
  | [] => Some (s, x, None)
  | c :: chunks =>
      match Receive keep_write None keep_received s x c with
      | Some (s, x, None) => receive_all s x chunks
      | other => other
      end
  end.

Lemma receive_all_rule I s x chunks :
  frame_rule keep_write None keep_received I (fun _ _ => False) -> parser_blind I ->
  drained (parser s) -> Forall octets_ok chunks ->
  I (fst (scan (content (parser s) ++ concat chunks))) s x ->
  exists s' x', receive_all s x chunks = Some (s', x', None) /\ I [] s' x' /\ drained (parser s').
Proof.
  intros HI HB Hd Hok. revert s x Hd. induction Hok as [|c chunks Hc Hok IH]; intros s x Hd HIs.
  - cbn [concat receive_all] in *. rewrite app_nil_r in HIs. pose proof Hd as [Hp Hw].
    rewrite scan_unfold, Hw in HIs by (by apply content_ok). by eexists _, _.
  - cbn [concat receive_all] in *. pose proof Hd as [Hp _].
    assert (Ho1 : octets_ok (content (parser s) ++ c)) by (apply octets_ok_app; split; [by apply content_ok | done]).
    assert (Ho2 : octets_ok (concat chunks)) by (by apply Forall_concat).
    rewrite app_assoc in HIs. rewrite (same_stream_fst _ _ (scan_app _ _ Ho1 Ho2)) in HIs. cbn [fst] in HIs.
    destruct (Receive_rule _ _ _ _ _ HI HB s x c _ Hd Hc HIs) as (s1 & x1 & e1 & -> & H1).
    destruct e1; [done|]. destruct H1 as (HI1 & Hd1 & Hn).
    apply IH; [done|]. pose proof Hd1 as [Hp1 _].
    rewrite (same_stream_fst _ _ (scan_same_rest _ _ _ Hn (content_ok _ Hp1) (scan_rest_ok _ Ho1) Ho2)).
    done.
Qed.

(** A station's view of one unconfirmed data frame addressed to it. *)
Lemma drain_data_frame s x p d sg :
  addressedToUs s d = true -> IsMaster p = negb (c_IsMaster (cfg s)) ->
  IsValidSource (LocalAddr p) = true -> 0 < len sg ->
  drain_frame keep_write None keep_received s x (data_frame p d sg) =
    let '(r, res) := Accept (reasm s) sg in
    Some (with_reasm r s, (fst x, snd x ++ match Fragment res with
      | Some f => [mkReceived f (LocalAddr p) d (IsBroadcast d)] | None => [] end), None).
Proof.
  intros Ha Hm Hv Hsg. unfold drain_frame, data_frame, frame. cbn [FHeader HControl Dest Src Dir Prm RemoteAddr with_remote LocalAddr IsMaster].
  rewrite Ha, Hv, Hm. cbn [negb].
  replace (Bool.eqb (negb (c_IsMaster (cfg s))) (c_IsMaster (cfg s))) with false by (by destruct (c_IsMaster (cfg s))).
  unfold Secondary_OnFrame, onBroadcast. cbn [FHeader HControl Dest Src Dir Prm Func Fcv Payload negb].
  change (validControl _) with true. unfold validLength. cbn [Func].
  replace (0 <? len sg) with true by (symmetry; by apply Z.ltb_lt). cbn [Z.eqb].
  change (FuncUnconfirmedUserData =? FuncConfirmedUserData) with false.
  change (FuncUnconfirmedUserData =? FuncUnconfirmedUserData) with true.
  change (FuncUnconfirmedUserData =? FuncResetLinkStates) with false.
  change (FuncUnconfirmedUserData =? FuncTestLinkStates) with false. cbn [negb orb].
  destruct (IsBroadcast d) eqn:Eb; cbn [Reply SPayload].
  all: unfold deliver; cbn [reasm with_sec FHeader Dest Src]; destruct (Accept (reasm s) sg) as [r res].
  all: rewrite ?Eb; destruct s, x; destruct (Fragment res); cbn; rewrite ?app_nil_r; done.
Qed.

(** The frames of a fragment for [d], as [a] sends them. *)
Definition fragment_frames (a : Stack) (d : Z) (frag : list Z) : list Frame :=
  data_frame (pri a) d <$> segs (length frag + 2) (s_seq (seg a)) true frag.

Section Delivery.
Context (a b : Stack) (d : Z) (frag : list Z).
Context (Hseq : 0 <= s_seq (seg a) < 64) (Hla : is_u16 (LocalAddr (pri a))) (Hd : is_u16 d) (Hfrag : octets_ok frag).

Lemma fragment_frames_ok : Forall frame_ok (fragment_frames a d frag).
Proof.
  apply Forall_fmap. pose proof (segs_nonempty (length frag + 2) (s_seq (seg a)) true frag) as H1.
  pose proof (segs_octets (length frag + 2) _ true frag Hseq Hfrag) as H2.
  eapply Forall_impl; [apply Forall_and; exact (conj H1 H2)|]. intros sg [[_ ?] ?]. by apply data_frame_ok.
Qed.

(** Sent without confirms, they go to a writer with room for them. *)
Lemma SendTo_frames {X E} (w_Write : X -> list Z -> X * option E) (inv : X -> list Z -> Prop) cap w_message x l :
  (forall x l o, inv x l -> len (l ++ o) <= cap -> exists x', w_Write x o = (x', None) /\ inv x' (l ++ o)) ->
  quiet (pri a) -> Stack_Busy a = false -> frag <> [] ->
  let out := l ++ frames_octets (fragment_frames a d frag) in
  len out <= cap ->
  match w_message with
  | None => inv x l
  | Some (begin_, _) => inv (begin_ x) l
  end ->
  exists a' x', SendTo w_Write w_message a x d frag =
      Some (match w_message with None => (a', x', None) | Some (_, end_) => (a', (end_ x').1, ErrWrite <$> (end_ x').2) end) /\ inv x' out.
Proof.
  intros Hw Hq Hb Hne out Hcap Hm. unfold SendTo. replace (len frag =? 0) with false.
  2:{ symmetry. apply Z.eqb_neq. destruct frag; [done|]. rewrite len_cons. pose proof (len_nonneg l0). lia. }
  rewrite Hb. unfold pump. set (a1 := with_seg (Segmenter_Reset (seg a) frag) (with_dest d a)).
  assert (Hp : forall x, inv x l -> exists a' x', pumpFrames w_Write (length frag + 2) a1 x = Some (a', x', None) /\ inv x' out).
  { intros x0 Hx0. apply (pumpFrames_unconfirmed w_Write inv cap Hw (length frag + 2) a1 x0 l frag 0 (s_seq (seg a)) Hq eq_refl Hseq);
      [lia | lia | done | done]. }
  change (s_frag (seg a1)) with frag. destruct w_message as [[begin_ end_]|].
  - destruct (Hp _ Hm) as (a' & x' & -> & Hx'). exists a', x'. cbn [mbind option_bind]. by destruct (end_ x').
  - destruct (Hp _ Hm) as (a' & x' & -> & Hx'). by exists a', x'.
Qed.

(** However they are cut into reads, the station they are for delivers the fragment. *)
Lemma frames_delivered chunks :
  IsValidSource (LocalAddr (pri a)) = true -> addressedToUs b d = true -> IsMaster (pri a) = negb (c_IsMaster (cfg b)) ->
  drained (parser b) -> norm (content (parser b)) = [] -> len frag <= maxFragment (reasm b) ->
  concat chunks = frames_octets (fragment_frames a d frag) ->
  exists b', receive_all b ([], []) chunks = Some (b', ([], [mkReceived frag (LocalAddr (pri a)) d (IsBroadcast d)]), None).
Proof.
  intros Hva Haddr Hrole Hdr Hnorm Hmax Hch.
  set (sgs := segs (length frag + 2) (s_seq (seg a)) true frag). set (fs := fragment_frames a d frag) in *.
  destruct (scan_frames fs fragment_frames_ok) as [Hscan Hoct].
  destruct (accept_all_segs (length frag + 2) (s_seq (seg a)) true frag (reasm b) []) as [Hacc _];
    [done | lia | rewrite len_nil; lia | done |]. fold sgs in Hacc. cbn [app] in Hacc.
  set (wrap f := mkReceived f (LocalAddr (pri a)) d (IsBroadcast d)).
  (* with the frames of [l] to come, what [l] will deliver completes what was delivered *)
  set (I (gs : list Frame) (s : Stack) (x : list Z * list Received) :=
    cfg s = cfg b /\ fst x = [] /\ exists l, gs = data_frame (pri a) d <$> l /\ Forall (fun sg => 0 < len sg) l /\
      snd x ++ (wrap <$> snd (accept_all (reasm s) l)) = [wrap frag]).
  destruct (receive_all_rule I b ([], []) chunks) as (b' & x' & Hr & (_ & Hx1 & l & Hl & _ & Hx2) & _).
  - intros f gs s x _ _ (Hc & Hx & l & Hl & Hpos & Hout). destruct l as [|sg l]; [done|].
    cbn in Hl. injection Hl as -> ->. apply Forall_cons in Hpos as [Hsg Hpos].
    rewrite drain_data_frame; [|unfold addressedToUs in *; by rewrite Hc | by rewrite Hc | done | done].
    cbn [accept_all] in Hout. destruct (Accept (reasm s) sg) as [r res].
    eexists _, _, None. split; [reflexivity|]. split; [done|]. split; [done|]. split; [done|].
    exists l. split; [done|]. split; [done|]. cbn [reasm with_reasm snd fst].
    destruct (accept_all r l) as [r' out]. cbn [snd] in *. rewrite <- app_assoc, <- Hout.
    by destruct (Fragment res).
  - intros p gs s x H. exact H.
  - done.
  - rewrite <- Hch in Hoct. by apply Forall_concat.
  - rewrite Hch. pose proof Hdr as [Hp _].
    rewrite (same_stream_fst _ _ (scan_noise _ _ (content_ok _ Hp) Hoct Hnorm)), Hscan. cbn [fst].
    split; [done|]. split; [done|]. exists sgs. split; [done|]. split; [|by rewrite Hacc].
    eapply Forall_impl; [apply segs_nonempty|]. naive_solver.
  - exists b'. rewrite Hr. destruct x' as [o rs]. cbn in *. subst o.
    destruct l; [|done]. cbn in Hx2. rewrite app_nil_r in Hx2. by rewrite Hx2.
Qed.
End Delivery.

(** C18. End to end: a fragment that is not empty, sent without link confirms by an idle stack [a]
    with a valid source address to station [d], is delivered by every stack [b] that answers to
    [d] (its own address or a broadcast one) and has the other role, when the fragment is within
    the fragment limit of [b] and its parser holds no part of a frame: once, whole, with the right source
    and destination, however the octets are split into reads, whatever the reassembler was
    doing, and without [b] writing a single octet in return. *)
Theorem stack_delivers a b d frag :
  quiet (pri a) -> Stack_Busy a = false -> 0 <= s_seq (seg a) < 64 ->
  is_u16 (LocalAddr (pri a)) -> IsValidSource (LocalAddr (pri a)) = true ->
  is_u16 d -> octets_ok frag -> frag <> [] ->
  addressedToUs b d = true -> IsMaster (pri a) = negb (c_IsMaster (cfg b)) ->
  drained (parser b) -> norm (content (parser b)) = [] -> len frag <= maxFragment (reasm b) ->
  exists a' octs, SendTo keep None a [] d frag = Some (a', octs, None) /\
    forall chunks, concat chunks = octs ->
    exists b', receive_all b ([], []) chunks =
      Some (b', ([], [mkReceived frag (LocalAddr (pri a)) d (IsBroadcast d)]), None).
Proof.
  intros Hq Hb Hseq Hla Hva Hd Hfrag Hne Haddr Hrole Hdr Hnorm Hmax. set (octs := frames_octets (fragment_frames a d frag)).
  destruct (SendTo_frames a d frag Hseq Hfrag keep eq (len octs) None [] []) as (a' & x' & Hs & Hx); try done.
  { intros x l o -> _. by eexists. }
  exists a', octs. change ([] ++ octs) with octs in Hx. split; [by rewrite Hs, Hx|]. intros chunks Hch. by apply frames_delivered.
Qed.

(** A master broadcasts a two-segment fragment; the outstation reads it in two pieces. *)
Lemma stack_delivers_witness :
  let a := New (mkConfig 1 10 true false false 3 0) in
  let b := New (mkConfig 10 1 false false false 3 0) in
  let frag := replicate 300 7 in
  exists a' octs, SendTo keep None a [] 0xFFFF frag = Some (a', octs, None) /\
    exists b', receive_all b ([], []) [take 100 octs; drop 100 octs] =
      Some (b', ([], [mkReceived frag 1 0xFFFF true]), None).
Proof.
  intros a b frag. destruct (stack_delivers a b 0xFFFF frag) as (a' & octs & Hs & Hr).
  - by vm_compute.
  - reflexivity.
  - vm_compute. split; [discriminate | reflexivity].
  - vm_compute. split; [discriminate | reflexivity].
  - reflexivity.
  - vm_compute. split; [discriminate | reflexivity].
  - apply Forall_replicate. vm_compute. split; [discriminate | reflexivity].
  - discriminate.
  - reflexivity.
  - reflexivity.
  - apply NewParser_drained.
  - by vm_compute.
  - vm_compute. discriminate.
  - exists a', octs. split; [exact Hs|]. apply Hr. cbn [concat]. rewrite app_nil_r. apply take_drop.
Defined.

(** ** A fragment paused by flow control

    A reply with the DFC bit leaves the rest of the fragment queued, to go out when a later
    reply clears the bit; the comment in [pumpFrames] names the link status probe as what
    elicits that reply.  The probe's only caller is the keep-alive of the master session
    (src/master/session.go). *)

Section Paused.
Context {S E : Type}.
Context (w_Write : S -> list Z -> S * option E).
Context (w_message : option ((S -> S) * (S -> S * option E))).
Context (fn : Stack -> S -> Received -> Stack * S).

(** [enabled]: a keep-alive period is configured; [inflight]: a request waits for its
    response; [due]: the period has passed since the last octets. *)
Definition checkKeepAlive (enabled inflight due : bool) (s : Stack) (x : S)
    : Stack * S * option (StackErr E) :=
  if negb enabled || inflight || Stack_Busy s then (s, x, None)
  else if negb due then (s, x, None)
  else SendLinkStatusRequest w_Write s x.

(** What a session does with its stack while the connection lasts. *)
Inductive session_step : Stack -> Stack -> Prop :=
| session_send s x d frag s' x' e :
    SendTo w_Write w_message s x d frag = Some (s', x', e) -> session_step s s'
| session_timeout s x s' x' b e : OnTimeout w_Write s x = (s', x', b, e) -> session_step s s'
| session_keepalive enabled inflight due s x s' x' e :
    checkKeepAlive enabled inflight due s x = (s', x', e) -> session_step s s'
| session_receive s x data s' x' :
    octets_ok data -> Receive w_Write w_message fn s x data = Some (s', x', None) -> session_step s s'.

Definition paused (s : Stack) : Prop :=
  awaiting s = false /\ Pending (seg s) = true /\ dfc (pri s) = true /\ state (pri s) = priIdle.

Definition same_tx (s s' : Stack) : Prop :=
  awaiting s' = awaiting s /\ seg s' = seg s /\ pri s' = pri s.

Definition fn_paused : Prop := forall s x r,
  paused s -> same_tx s (fst (fn s x r)) /\ parser (fst (fn s x r)) = parser s.

Lemma same_tx_paused s s' : paused s -> same_tx s s' -> paused s'.
Proof. unfold paused, same_tx. intros (?&?&?&?) (->&->&->). done. Qed.

Lemma paused_busy s : paused s -> Stack_Busy s = true.
Proof. intros (H & H1 & _). unfold Stack_Busy. by rewrite H1, orb_true_r. Qed.

Lemma paused_send s x d frag s' x' e :
  paused s -> SendTo w_Write w_message s x d frag = Some (s', x', e) -> s' = s.
Proof.
  intros Hp. unfold SendTo. rewrite (paused_busy s Hp). destruct (_ =? 0); by intros [= <- _ _].
Qed.

Lemma paused_frame s x f :
  fn_paused -> paused s ->
  exists s' x' e, drain_frame w_Write w_message fn s x f = Some (s', x', e) /\
    parser s' = parser s /\ same_tx s s'.
Proof.
  intros Hfn Hp. unfold drain_frame.
  destruct (negb (addressedToUs _ _)); [by eexists _, _, None|].
  destruct (Bool.eqb _ _); [by eexists _, _, None|].
  destruct (negb (IsValidSource _)); [by eexists _, _, None|].
  destruct (Prm (HControl (FHeader f))) eqn:Eprm.
  - destruct (Secondary_OnFrame (sec s) f) as [sc res].
    destruct (match Reply res with Some rep => write w_Write x rep | None => (x, None) end) as [x1 [err|]];
      [by eexists _, _, _|].
    destruct (SPayload res) as [p|]; [|by eexists _, _, None]. unfold deliver.
    destruct (Accept _ p) as [r ar]. destruct (Fragment ar) as [frag|]; [|by eexists _, _, None].
    match goal with |- context [fn ?s1 ?x2 ?rr] => destruct (Hfn s1 x2 rr) as [H1 H2]; [done|];
      destruct (fn s1 x2 rr) as [s2 x3] end.
    eexists _, _, None. split; [reflexivity|]. split; [done|]. exact H1.
  - destruct (negb _ && _); [by eexists _, _, None|].
    unfold Primary_OnFrame. rewrite Eprm. destruct Hp as (H1 & H2 & H3 & H4).
    cbn [pri with_dest]. destruct (0 <? len (Payload f)); [by eexists _, _, None|].
    rewrite bool_decide_eq_true_2, H4 by done. by eexists _, _, None.
Qed.

Lemma paused_step s s' :
  fn_paused -> drained (parser s) -> paused s -> session_step s s' ->
  same_tx s s' /\ drained (parser s').
Proof.
  intros Hfn Hd Hp Hs.
  destruct Hs as [s x d frag s' x' e H|s x s' x' b e H|en inf due s x s' x' e H|s x data s' x' Hok H].
  - apply paused_send in H as ->; done.
  - unfold OnTimeout in H. destruct Hp as [Ha _]. rewrite Ha in H. cbn [negb] in H. by simplify_eq.
  - unfold checkKeepAlive in H. rewrite (paused_busy s Hp), orb_true_r in H. by simplify_eq.
  - assert (HI : frame_rule w_Write w_message fn (fun _ s1 _ => same_tx s s1) (fun _ _ => True)).
    { intros f fs s1 x1 _ _ H1. destruct (paused_frame s1 x1 f Hfn) as (s2 & x2 & e2 & -> & Hps & H2).
      - by eapply same_tx_paused.
      - exists s2, x2, e2. split; [done|]. split; [done|]. destruct e2; [done|].
        destruct H1 as (?&?&?), H2 as (?&?&?). split_and!; congruence. }
    destruct (Receive_rule _ _ _ _ _ HI (fun _ _ _ _ H => H) s x data [] Hd Hok) as (s1 & x1 & e1 & H1 & Hr).
    { done. }
    rewrite H in H1. simplify_eq. by destruct Hr as (? & ? & _).
Qed.

End Paused.

Arguments fn_paused {S} fn.

Lemma answering_paused {S E} (w_Write : S -> list Z -> S * option E) w_message ans :
  fn_paused (answering w_Write w_message ans).
Proof.
  intros s x r Hp. unfold answering.
  destruct (SendTo _ _ _ _ _ _) as [[[s' x'] e]|] eqn:H; [|done]. by apply paused_send in H as ->.
Qed.

(** A fragment paused by the peer's DFC bit stays paused for the rest of the
    connection: no send, timeout, keep-alive tick or received octet resumes it, since the
    primary is idle and ignores every reply, no timer runs while [Pending] is false, and
    the keep-alive that would probe the peer is withheld while [Busy] is true.  Every
    later send is refused. *)
Theorem paused_forever {S E} (w_Write : S -> list Z -> S * option E) w_message fn s s' :
  fn_paused fn -> drained (parser s) -> paused s ->
  rtc (session_step w_Write w_message fn) s s' ->
  paused s' /\ seg s' = seg s /\
  forall x d frag, frag <> [] -> SendTo w_Write w_message s' x d frag = Some (s', x, Some ErrInFlight).
Proof.
  intros Hfn Hd Hp Hr.
  assert (H : same_tx s s' /\ drained (parser s')).
  { revert s' Hr. apply rtc_ind_r; [done|]. intros s1 s2 _ Hstep [H1 Hd1].
    destruct (paused_step _ _ _ s1 s2 Hfn Hd1 (same_tx_paused _ _ Hp H1) Hstep) as [H2 Hd2].
    split; [|done]. destruct H1 as (?&?&?), H2 as (?&?&?). split_and!; congruence. }
  destruct H as [Hs Hd']. pose proof (same_tx_paused _ _ Hp Hs) as Hp'.
  split; [done|]. split; [apply Hs|]. intros x d frag Hne. unfold SendTo. rewrite (paused_busy _ Hp').
  destruct frag as [|b frag]; [done|]. rewrite len_cons. pose proof (len_nonneg frag).
  by destruct (Z.eqb_spec (1 + len frag) 0); [lia|].
Qed.

Definition ack_from (src dst : Z) (dfc_ : bool) : list Z :=
  frame_octets (LinkFrame.mkHeader (mkControl false false false dfc_ FuncAck) dst src 5) [].

(** A master with link confirms sends two segments; the peer acknowledges the reset, then
    the first segment with DFC set: the second segment is never sent. *)
Definition witness_paused : option Stack :=
  let nofn (s : Stack) (x : list Z) (_ : Received) := (s, x) in
  '(s, x, _) ← Send keep None (New (mkConfig 1 10 true false true 3 0)) [] (replicate 300 7);
  '(s, x, _) ← Receive keep None nofn s x (ack_from 10 1 false);
  '(s, x, _) ← Receive keep None nofn s x (ack_from 10 1 true);
  Some s.

Lemma paused_forever_witness :
  exists s, witness_paused = Some s /\ paused s /\
    forall s', rtc (session_step keep None (answering keep None (fun r => RFragment r))) s s' -> paused s'.
Proof.
  destruct witness_paused as [s|] eqn:Hs; [|vm_compute in Hs; discriminate].
  assert (Hp : paused s /\ drained (parser s)).
  { vm_compute in Hs. injection Hs as <-. split; [by vm_compute|]. split; [|by vm_compute].
    split_and!; try (by vm_compute). vm_compute. repeat constructor; discriminate. }
  exists s. split; [reflexivity|]. split; [apply Hp|]. intros s' Hr.
  destruct (paused_forever keep None _ s s' (answering_paused _ _ _) (proj2 Hp) (proj1 Hp) Hr) as [H _].
  exact H.
Defined.

(** ** The destination of a confirmed fragment *)

(** [SendTo] overrides the destination only of the frame it sends at once.  When the
    link has to be reset first, the acknowledgement of the reset makes the primary send the
    queued data itself, and that frame goes to the configured remote address, whatever
    destination [SendTo] was given. *)
Theorem pending_data_destination fn s x f :
  state (pri s) = priWaitLinkReset -> pri_ok (pri s) ->
  HControl (FHeader f) = mkControl (negb (c_IsMaster (cfg s))) false false false FuncAck ->
  Payload f = [] -> addressedToUs s (Dest (FHeader f)) = true ->
  Src (FHeader f) = dest s -> IsValidSource (dest s) = true ->
  exists s' g, drain_frame keep None fn s x f = Some (s', x ++ frame_octets (FHeader g) (Payload g), None) /\
    Payload g = pending (pri s) /\ Dest (FHeader g) = RemoteAddr (pri s).
Proof.
  intros Hst [Hp _] Hc Hpl Ha Hsrc Hv. unfold drain_frame. rewrite Ha, Hsrc, Hv, Hc. cbn [Dir Prm negb].
  replace (Bool.eqb (negb (c_IsMaster (cfg s))) (c_IsMaster (cfg s))) with false by (by destruct (c_IsMaster (cfg s))).
  rewrite Z.eqb_refl. cbn [negb andb pri with_dest]. unfold Primary_OnFrame. rewrite Hc, Hpl, Hst.
  cbn [Prm]. change (0 <? len []) with false. rewrite bool_decide_eq_false_2 by done.
  cbn [state with_dfc]. rewrite Hst. cbn [Func]. change (FuncAck =? FuncAck) with true.
  unfold sendPending, emit. eexists _, (frame (pri s) FuncConfirmedUserData true true (pending (pri s))).
  split; [|done]. unfold write. rewrite Encode_frame by exact Hp. reflexivity.
Qed.

(** An outstation configured for master 1 answers master 2: the link reset goes to 2, the
    response itself to 1. *)
Lemma pending_data_destination_witness :
  let nofn (s : Stack) (x : list Z) (_ : Received) := (s, x) in
  let f := mkFrame (LinkFrame.mkHeader (mkControl true false false false FuncAck) 10 2 5) [] in
  exists s x s' g, SendTo keep None (New (mkConfig 10 1 false false true 3 0)) [] 2 [0xC0; 0x81; 0; 0] = Some (s, x, None) /\
    drain_frame keep None nofn s x f = Some (s', x ++ frame_octets (FHeader g) (Payload g), None) /\
    dest s = 2 /\ Payload g = [0xC0; 0xC0; 0x81; 0; 0] /\ Dest (FHeader g) = 1.
Proof.
  intros nofn f.
  destruct (SendTo keep None (New (mkConfig 10 1 false false true 3 0)) [] 2 [0xC0; 0x81; 0; 0]) as [[[s x] e]|] eqn:H;
    [|vm_compute in H; discriminate].
  vm_compute in H. injection H as <- <- <-. eexists _, _.
  edestruct (pending_data_destination nofn) as (s' & g & H1 & H2 & H3); cycle -1.
  { exists s', g. split; [reflexivity|]. split; [exact H1|]. split; [reflexivity|]. split; [exact H2 | exact H3]. }
  all: first [reflexivity | vm_compute; split; discriminate].
Defined.
