(* ===== verification/LinkLayer.v ===== *)
(** * What a session uses of the stack (src/internal/stack/stack.go)

    Both sessions, the outstation's and the master's, are written against the class
    [LinkLayer]; the instance [stackLink] is made of the operations of Stack.  Theorems that
    need more of the link state it: [Reliable], a link that takes what it is given, and
    [Walking], a link that touches its caller's state by writing and by calling back and not
    otherwise.  Both are proved of [stackLink]. *)

From S2P Require Import Prelude LinkFrame LinkParser LinkFsm Transport Stack.

(** What a session needs of the stack: sending a fragment, the retry of a frame, the
    probe of an idle link, and the walk over what arrived, which calls back for every fragment. *)
Class LinkLayer := {
  Link : Type;
  Wire : Type;
  LinkError : Type;
  link_SendTo : Link -> Wire -> Z -> list Z -> Link * Wire * option LinkError;
  link_Send : Link -> Wire -> list Z -> Link * Wire * option LinkError;
  link_OnTimeout : Link -> Wire -> Link * Wire * bool * option LinkError;
  link_Busy : Link -> bool;
  link_Pending : Link -> bool;
  link_Reset : Link -> Link;
  link_SendLinkStatusRequest : Link -> Wire -> Link * Wire * option LinkError;
  link_Receive : forall S : Type, (S -> Wire) -> (Wire -> S -> S) -> (Link -> S -> Received -> Link * S) ->
    Link -> S -> list Z -> Link * S * option LinkError }.
Arguments link_Receive {_ S}.

(** ** The stack as a link layer *)

Section StackLink.
Context {X E : Type} (w_Write : X -> list Z -> X * option E).
Context (w_message : option ((X -> X) * (X -> X * option E))).

(** The writer and its bracket, on a state that contains the wire. *)
Definition lift_write {S} (get : S -> X) (put : X -> S -> S) (s : S) (o : list Z) : S * option E :=
  let '(x, e) := w_Write (get s) o in (put x s, e).
Definition lift_message {S} (get : S -> X) (put : X -> S -> S) : option ((S -> S) * (S -> S * option E)) :=
  match w_message with
  | None => None
  | Some (b, f) => Some (fun s => put (b (get s)) s, fun s => let '(x, e) := f (get s) in (put x s, e))
  end.

(** The operations of the stack never run out of fuel on a stack that is well formed and in
    step with its link layer ([SendTo_total] and [Receive_total]), so the default is never taken. *)
#[export] Instance stackLink : LinkLayer := {
  Link := Stack; Wire := X; LinkError := StackErr E;
  link_SendTo s x d frag := default (s, x, None) (Stack.SendTo w_Write w_message s x d frag);
  link_Send s x frag := default (s, x, None) (Stack.Send w_Write w_message s x frag);
  link_OnTimeout s x := Stack.OnTimeout w_Write s x;
  link_Busy := Stack_Busy;
  link_Pending := Stack_Pending;
  link_Reset := Stack_Reset;
  link_SendLinkStatusRequest s x := Stack.SendLinkStatusRequest w_Write s x;
  link_Receive S get put fn s x data :=
    default (s, x, None) (Stack.Receive (lift_write get put) (lift_message get put) fn s x data) }.

Lemma SendTo_total s x d frag :
  stack_wf s -> in_sync s -> Stack.SendTo w_Write w_message s x d frag = Some (link_SendTo s x d frag).
Proof.
  intros Hs Hy. cbn [link_SendTo stackLink]. destruct (SendTo_spec w_Write w_message s x d frag) as (s' & x' & e & H & _); [done..|].
  by rewrite H.
Qed.
End StackLink.

(** ** A link that takes what it is given *)

Class Reliable {LL : LinkLayer} := {
  ready : Link -> Prop;
  ready_idle l : ready l -> link_Busy l = false;
  ready_SendTo l x d frag : ready l -> frag <> [] -> exists l' x', link_SendTo l x d frag = (l', x', None) /\ ready l';
  ready_Send l x frag : ready l -> frag <> [] -> exists l' x', link_Send l x frag = (l', x', None) /\ ready l' }.

(** ** The stack is such a link

    Without link confirmations, over a writer that takes what it is given. *)

Section StackReliable.
Context {X E : Type} (w_Write : X -> list Z -> X * option E).
Context (w_message : option ((X -> X) * (X -> X * option E))).
Hypothesis (Hwrite : forall x o, (w_Write x o).2 = None).
Hypothesis (Hend : forall b e x, w_message = Some (b, e) -> (e x).2 = None).

Definition stack_ready (s : Stack) : Prop :=
  stack_wf s /\ quiet (pri s) /\ awaiting s = false /\ s_live (seg s) = false.

Lemma write_done x f : len (Payload f) <= MaxPayload -> exists x', write w_Write x f = (x', None).
Proof.
  intros Hf. unfold write. rewrite Encode_frame by done. specialize (Hwrite x (frame_octets (LinkFrame.FHeader f) (Payload f))).
  destruct (w_Write x _) as [x' e]. cbn in Hwrite. subst. by exists x'.
Qed.

Lemma pumpFrames_ready fuel s x :
  stack_wf s -> quiet (pri s) -> Stack.turns (seg s) < Z.of_nat fuel ->
  exists s' x', pumpFrames w_Write fuel s x = Some (s', x', None) /\ stack_ready s'.
Proof.
  revert s x. induction fuel as [|fuel IH]; intros s x [Hp Hg] (Hu & Hb & Hd) Ht.
  { unfold Stack.turns in Ht. destruct (s_live (seg s)) eqn:Hl; [|lia]. specialize (Hg Hl). pose proof (len_nonneg (s_frag (seg s))). lia. }
  cbn [pumpFrames]. unfold Pending. destruct (s_live (seg s)) eqn:Hl; cbn [negb].
  2:{ eexists _, _. split; [reflexivity|]. split_and!; try done; by split_and!. }
  rewrite Hd. destruct (Transport.Next (seg s) []) as [[g sg] b] eqn:En.
  destruct (Next_seg_ok _ _ _ _ En Hg Hl) as (-> & Hsg & Hg' & Ht'). cbn [pri with_seg Stack.dest].
  rewrite Send_unconfirmed by done. rewrite !bool_decide_eq_false_2 by done.
  match goal with |- context [write _ x ?f] => destruct (write_done x f) as [x' ->]; [done|] end.
  destruct Hp as [Hp1 Hp2]. apply IH; [split; [split|]; done | split_and!; done | cbn; lia].
Qed.

Lemma SendTo_ready s x d frag :
  stack_ready s -> frag <> [] -> exists s' x', Stack.SendTo w_Write w_message s x d frag = Some (s', x', None) /\ stack_ready s'.
Proof.
  intros (Hwf & Hq & Ha & Hl) Hn. unfold Stack.SendTo, Stack_Busy, Pending. rewrite Ha, Hl.
  replace (len frag =? 0) with false by (destruct frag; [done | rewrite len_cons; pose proof (len_nonneg frag); lia]).
  cbn [orb]. unfold pump. set (s1 := with_seg _ _).
  assert (Ht : Stack.turns (seg s1) < Z.of_nat (length (s_frag (seg s1)) + 2)) by (cbn; unfold Stack.turns, len; cbn; lia).
  assert (Hwf1 : stack_wf s1) by (split; [apply Hwf|]; intros _; cbn; lia).
  destruct w_message as [[b e]|] eqn:Em; [|by apply pumpFrames_ready].
  destruct (pumpFrames_ready _ s1 (b x) Hwf1 Hq Ht) as (s' & x' & -> & Hr). cbn.
  specialize (Hend b e x' eq_refl). destruct (e x') as [x'' ee]. cbn in Hend. subst. by exists s', x''.
Qed.

Definition stack_reliable : @Reliable (stackLink w_Write w_message).
Proof.
  refine (@Build_Reliable (stackLink w_Write w_message) stack_ready _ _ _).
  - intros s (_ & _ & Ha & Hl). cbn. unfold Stack_Busy, Pending. by rewrite Ha, Hl.
  - intros s x d frag Hr Hn. destruct (SendTo_ready s x d frag Hr Hn) as (s' & x' & H & Hr'). exists s', x'.
    split; [|done]. cbn. by rewrite H.
  - intros s x frag Hr Hn. destruct (SendTo_ready s x (c_RemoteAddr (Stack.cfg s)) frag Hr Hn) as (s' & x' & H & Hr'). exists s', x'.
    split; [|done]. cbn. unfold Stack.Send. by rewrite H.
Defined.
End StackReliable.

(** ** The walk over what arrived *)

(** [Receive] touches the caller's state by writing and by calling back, and not otherwise. *)
Class Walking {LL : LinkLayer} := {
  Receive_keeps (S : Type) (get : S -> Wire) (put : Wire -> S -> S) (fn : Link -> S -> Received -> Link * S) (P : S -> Prop) l s data :
    (forall x s, P s -> P (put x s)) -> (forall l s r, P s -> P (fn l s r).2) -> P s ->
    P (link_Receive get put fn l s data).1.2 }.

Section Walk.
Context {S E : Type} (w_Write : S -> list Z -> S * option E) (w_message : option ((S -> S) * (S -> S * option E))).
Context (fn : Stack -> S -> Received -> Stack * S) (P : S -> Prop).
Hypothesis (Hw : forall x o, P x -> P (w_Write x o).1).
Hypothesis (Hm : forall b e, w_message = Some (b, e) -> (forall x, P x -> P (b x)) /\ (forall x, P x -> P (e x).1)).
Hypothesis (Hfn : forall s x r, P x -> P (fn s x r).2).

Definition ends_well {A B} (r : option (A * S * B)) : Prop := match r with Some (_, x, _) => P x | None => True end.

Lemma write_keeps x f : P x -> P (write w_Write x f).1.
Proof.
  intros H. unfold write. destruct (Encode _ _ _) as [o|]; [|done]. specialize (Hw x o H). by destruct (w_Write x o).
Qed.
Lemma pumpFrames_keeps fuel s x : P x -> ends_well (pumpFrames w_Write fuel s x).
Proof.
  revert s x. induction fuel as [|fuel IH]; intros s x H; [done|]. cbn [pumpFrames].
  destruct (negb _); [done|]. destruct (dfc _); [done|]. destruct (Transport.Next _ _) as [[g sg] [|]]; [|done].
  destruct (LinkFsm.Send _ _) as [p [[f action]|e]]; [|done]. destruct (bool_decide _); [done|].
  match goal with |- context [write _ x ?f] => pose proof (write_keeps x f H) as H'; destruct (write w_Write x f) as [x' [e|]] end;
    [done|]. destruct (bool_decide _); [done | by apply IH].
Qed.
Lemma pump_keeps s x : P x -> ends_well (pump w_Write w_message s x).
Proof.
  intros H. unfold pump. destruct w_message as [[b e]|] eqn:Em; [|by apply pumpFrames_keeps].
  destruct (Hm _ _ eq_refl) as [Hb He]. pose proof (pumpFrames_keeps (length (s_frag (seg s)) + 2) s (b x) (Hb _ H)) as Hp.
  destruct (pumpFrames _ _ _ _) as [[[s' x'] err]|]; [|done]. cbn in *. specialize (He _ Hp). by destruct (e x').
Qed.
Lemma drain_frame_keeps s x f : P x -> ends_well (drain_frame w_Write w_message fn s x f).
Proof.
  intros H. unfold drain_frame. destruct (negb _); [done|]. destruct (Bool.eqb _ _); [done|]. destruct (negb _); [done|].
  destruct (Prm _).
  - destruct (Secondary_OnFrame _ _) as [sc res].
    assert (Hr : P (match Reply res with Some rep => write w_Write x rep | None => (x, None) end).1)
      by (destruct (Reply res); [by apply write_keeps | done]).
    destruct (match Reply res with Some _ => _ | None => _ end) as [x' [e|]]; [done|]. cbn [fst] in Hr.
    destruct (SPayload res); [|done]. unfold deliver. destruct (Accept _ _) as [r' res']. destruct (Transport.Fragment res'); [|done].
    match goal with |- context [fn ?s x' ?r] => pose proof (Hfn s x' r Hr) as H'; by destruct (fn s x' r) end.
  - destruct (_ && _); [done|]. destruct (Primary_OnFrame _ _) as [[p next] []]; try done; [|by apply pump_keeps].
    pose proof (write_keeps x next H). by destruct (write w_Write x next).
Qed.
Lemma drain_keeps fuel s x : P x -> ends_well (drain w_Write w_message fn fuel s x).
Proof.
  revert s x. induction fuel as [|fuel IH]; intros s x H; [done|]. cbn [drain].
  destruct (LinkParser.Next _) as [p [f|[]]]; try done.
  pose proof (drain_frame_keeps (with_parser p s) x f H) as Hd.
  destruct (drain_frame _ _ _ _ _ _) as [[[s' x'] [e|]]|]; [done | by apply IH | done].
Qed.
Lemma Receive_loop_keeps fuel s x data : P x -> ends_well (Receive_loop w_Write w_message fn fuel s x data).
Proof.
  revert s x data. induction fuel as [|fuel IH]; intros s x data H; [done|]. cbn [Receive_loop].
  destruct (negb _); [done|]. destruct (LinkParser.Write _ _) as [[p n] werr].
  pose proof (drain_keeps (Datatypes.S (Z.to_nat (Buffered p))) (with_parser p s) x H) as Hd.
  destruct (drain _ _ _ _ _ _) as [[[s' x'] [e|]]|]; [done | | done].
  destruct werr; [destruct (n =? 0); [done|]|]; by apply IH.
Qed.
End Walk.

#[export] Instance stack_walking {X E} (w_Write : X -> list Z -> X * option E) w_message : @Walking (stackLink w_Write w_message).
Proof.
  split. intros S get put fn P l s data Hput Hfn Hs. cbn [link_Receive stackLink]. unfold Receive.
  pose proof (Receive_loop_keeps (lift_write w_Write get put) (lift_message w_message get put) fn P) as H.
  specialize (H ltac:(intros x o Hx; unfold lift_write; destruct (w_Write _ _); by apply Hput)).
  specialize (H ltac:(unfold lift_message; intros b e He; destruct w_message as [[b' e']|]; [|done]; injection He as <- <-;
    split; intros x Hx; [by apply Hput | destruct (e' _); by apply Hput]) Hfn (length data + 1)%nat l s data Hs).
  destruct (Receive_loop _ _ _ _ _ _ _) as [[[s' x'] e]|]; exact H || exact Hs.
Qed.
