(* ===== verification/TaskQueue.v ===== *)
(** * The queue of a master's tasks (src/master/task.go)

    [container/heap] over [taskQueue], and the [scheduler] that keeps it.  What a task is does
    not matter here: the section is over a type with the fields the queue looks at.  The field
    [index] is written by [Swap] and never read, and is left out.

    [scheduler_refines]: the heap serves tasks as a list kept in order would, earliest first,
    then by priority, then in the order they were pushed. *)

From stdpp Require Import sorting.
From S2P Require Import Prelude.

Class QueueItem (T : Type) := {
  due : T -> Z; priority : T -> Z; order : T -> Z; period : T -> Z;
  set_order : Z -> T -> T;
  order_set n t : order (set_order n t) = n }.

Section Queue.
Context {T : Type} {QI : QueueItem T}.

(** ** taskQueue and container/heap *)

Definition before (a b : T) : bool :=
  if negb (due a =? due b) then due a <? due b
  else if negb (priority a =? priority b) then priority a <? priority b
  else order a <? order b.

Definition Less (q : list T) (i j : nat) : bool :=
  match q !! i, q !! j with Some a, Some b => before a b | _, _ => false end.
Definition Swap (q : list T) (i j : nat) : list T :=
  match q !! i, q !! j with Some a, Some b => <[i := b]> (<[j := a]> q) | _, _ => q end.

Definition parent (j : nat) : nat := (j - 1) / 2.

(** The position decreases with every turn, so a turn per position is enough. *)
Fixpoint up (fuel : nat) (q : list T) (j : nat) : list T :=
  match fuel with
  | O => q
  | S fuel =>
      let i := parent j in
      if (i =? j)%nat || negb (Less q j i) then q else up fuel (Swap q i j) i
  end.

(** The position increases with every turn and stays below [n]. *)
Fixpoint down (fuel : nat) (q : list T) (i n : nat) : list T :=
  match fuel with
  | O => q
  | S fuel =>
      let j1 := (2 * i + 1)%nat in
      if (n <=? j1)%nat then q
      else
        let j2 := (j1 + 1)%nat in
        let j := if (j2 <? n)%nat && Less q j2 j1 then j2 else j1 in
        if negb (Less q j i) then q else down fuel (Swap q i j) j n
  end.

Definition heap_Push (q : list T) (t : T) : list T :=
  let q := q ++ [t] in up (length q) q (length q - 1).
Definition heap_Pop (q : list T) : list T * option T :=
  let n := (length q - 1)%nat in
  let q := down (S n) (Swap q 0 n) 0 n in
  (take n q, q !! n).
(** The positions from [k - 1] down to the first. *)
Fixpoint init_loop (k : nat) (q : list T) (n : nat) : list T :=
  match k with
  | O => q
  | S k => init_loop k (down (S n) q k n) n
  end.
Definition heap_Init (q : list T) : list T := init_loop (length q / 2) q (length q).

(** ** scheduler *)

Record scheduler := mkScheduler { q : list T; pushN : Z }.

Definition push (t : T) (s : scheduler) : scheduler :=
  let n := u64 (pushN s + 1) in mkScheduler (heap_Push (q s) (set_order n t)) n.
Definition pop (s : scheduler) : scheduler * option T :=
  if (length (q s) =? 0)%nat then (s, None)
  else let '(q', t) := heap_Pop (q s) in (mkScheduler q' (pushN s), t).
Definition peek (s : scheduler) : option T := q s !! 0%nat.
(** The tasks that are dropped are returned, in the order [clear] finishes them. *)
Definition clear (s : scheduler) : scheduler * list T :=
  (mkScheduler (heap_Init (filter (fun t => 0 < period t) (q s))) (pushN s),
   filter (fun t => ~ 0 < period t) (q s)).
End Queue.
Arguments scheduler : clear implicits.

(** ** The order of tasks *)

Section Order.
Context {T : Type} {QI : QueueItem T}.
Implicit Types (a b c x y : T).

Lemma before_spec a b : before a b = true <->
  due a < due b \/ (due a = due b /\ (priority a < priority b \/ (priority a = priority b /\ order a < order b))).
Proof. unfold before. repeat destr_if; bool_prop; lia. Qed.
Lemma before_irrefl a : before a a = false.
Proof. apply not_true_iff_false. rewrite before_spec. lia. Qed.
Lemma before_asym a b : before a b = true -> before b a = false.
Proof. intros H. apply not_true_iff_false. revert H. rewrite !before_spec. lia. Qed.
(** Not being before is transitive. *)
Lemma not_before_trans a b c : before b a = false -> before c b = false -> before c a = false.
Proof. rewrite <- !not_true_iff_false, !before_spec. lia. Qed.
Lemma before_total a b : order a <> order b -> before a b = false -> before b a = true.
Proof. rewrite <- not_true_iff_false, !before_spec. lia. Qed.
Lemma before_trans a b c : before a b = true -> before b c = true -> before a c = true.
Proof. rewrite !before_spec. lia. Qed.
Lemma before_not_trans a b c : before a b = true -> before c b = false -> before a c = true.
Proof. rewrite <- not_true_iff_false, !before_spec. lia. Qed.
End Order.

(** ** Swapping *)

Section Swapping.
Context {T : Type}.

(** Where a position goes when [i] and [j] are exchanged. *)
Definition moved (i j k : nat) : nat := if decide (k = i) then j else if decide (k = j) then i else k.

Lemma Swap_lookup (q : list T) i j k :
  (i < length q)%nat -> (j < length q)%nat -> Swap q i j !! k = q !! moved i j k.
Proof.
  intros Hi Hj. unfold Swap, moved. destruct (lookup_lt_is_Some_2 q i Hi) as [a Ha].
  destruct (lookup_lt_is_Some_2 q j Hj) as [b Hb]. rewrite Ha, Hb. destruct (decide (k = i)) as [->|Hki].
  { rewrite list_lookup_insert_eq; [done | by rewrite length_insert]. }
  rewrite list_lookup_insert_ne by done. destruct (decide (k = j)) as [->|Hkj]; [by rewrite list_lookup_insert_eq|].
  by rewrite list_lookup_insert_ne.
Qed.
Lemma Swap_length (q : list T) i j : length (Swap q i j) = length q.
Proof. unfold Swap. repeat case_match; by rewrite ?length_insert. Qed.
Lemma Swap_perm (q : list T) i j : Swap q i j ≡ₚ q.
Proof.
  destruct (decide (i < length q)%nat) as [Hi|Hi], (decide (j < length q)%nat) as [Hj|Hj].
  2-4: unfold Swap; rewrite ?(lookup_ge_None_2 q i), ?(lookup_ge_None_2 q j) by lia; by repeat case_match.
  apply Permutation_inj. split; [apply Swap_length|]. exists (moved i j). split; [|intros k; by apply Swap_lookup].
  intros x y. unfold moved. repeat destruct (decide _); lia.
Qed.
End Swapping.

(** ** Heaps

    [heap_from lo n q]: within the first [n] positions, nothing is before its parent, where the
    parent is at [lo] or after.  While an element moves, one position is excepted: as a child
    ([rising]) or as a parent ([sinking]). *)

Section Heap.
Context {T : Type} {QI : QueueItem T}.
Implicit Types (q : list T).

Definition fine q (i j : nat) : Prop := forall a b, q !! i = Some a -> q !! j = Some b -> before a b = false.
Definition heap_from (lo n : nat) q : Prop := forall k, (0 < k < n)%nat -> (lo <= parent k)%nat -> fine q k (parent k).
Definition heap_ok q : Prop := heap_from 0 (length q) q.

(** Everything but the position [j] as a child. *)
Definition rising (j : nat) q : Prop :=
  (forall k, (0 < k < length q)%nat -> k <> j -> fine q k (parent k)) /\
  (forall k, (0 < k < length q)%nat -> parent k = j -> (0 < j)%nat -> fine q k (parent j)).
(** Everything but the position [i] as a parent. *)
Definition sinking (lo n i : nat) q : Prop :=
  (forall k, (0 < k < n)%nat -> (lo <= parent k)%nat -> parent k <> i -> fine q k (parent k)) /\
  (forall k, (0 < k < n)%nat -> parent k = i -> (0 < i)%nat -> (lo <= parent i)%nat -> fine q k (parent i)).

Lemma parent_lt j : (0 < j)%nat -> (parent j < j)%nat.
Proof. unfold parent. intros. apply Nat.Div0.div_lt_upper_bound. lia. Qed.
Lemma parent_bounds j : (0 < j)%nat -> (2 * parent j + 1 <= j <= 2 * parent j + 2)%nat.
Proof. intros. unfold parent. pose proof (Nat.div_mod_eq (j - 1) 2). pose proof (Nat.mod_upper_bound (j - 1) 2). lia. Qed.
Lemma parent_left i : parent (2 * i + 1) = i.
Proof. unfold parent. replace (2 * i + 1 - 1)%nat with (i * 2)%nat by lia. by apply Nat.div_mul. Qed.
Lemma parent_right i : parent (2 * i + 1 + 1) = i.
Proof. unfold parent. replace (2 * i + 1 + 1 - 1)%nat with (1 + i * 2)%nat by lia. by rewrite Nat.div_add. Qed.

Lemma Less_false q i j : Less q i j = false -> fine q i j.
Proof. unfold Less, fine. intros H a b Ha Hb. by rewrite Ha, Hb in H. Qed.
Lemma Less_true q i j : Less q i j = true -> exists a b, q !! i = Some a /\ q !! j = Some b /\ before a b = true.
Proof. unfold Less. repeat case_match; naive_solver. Qed.
Lemma fine_Swap q i j k l :
  (i < length q)%nat -> (j < length q)%nat -> fine q (moved i j k) (moved i j l) -> fine (Swap q i j) k l.
Proof. intros Hi Hj H a b. rewrite !Swap_lookup by done. apply H. Qed.
Lemma fine_via q i j k : (j < length q)%nat -> fine q i j -> fine q j k -> fine q i k.
Proof.
  intros Hj H1 H2 a c Ha Hc. destruct (lookup_lt_is_Some_2 q j Hj) as [b Hb].
  eapply not_before_trans; [by eapply H2 | by eapply H1].
Qed.
Lemma fine_of_less q i j : Less q i j = true -> fine q j i.
Proof. intros H a b Ha Hb. destruct (Less_true _ _ _ H) as (b' & a' & ? & ? & ?). simplify_eq. by apply before_asym. Qed.

Lemma up_perm fuel q j : up fuel q j ≡ₚ q.
Proof.
  revert q j. induction fuel as [|fuel IH]; intros q j; [done|]. cbn [up]. destr_if; [done|].
  rewrite IH. apply Swap_perm.
Qed.
Lemma up_ok fuel q j : (j < length q)%nat -> (j < fuel)%nat -> rising j q -> heap_ok (up fuel q j).
Proof.
  revert q j. induction fuel as [|fuel IH]; intros q j Hj Hf [H1 H2]; [lia|]. cbn [up].
  destruct (Nat.eqb_spec (parent j) j) as [Hp|Hp]; cbn [orb].
  { intros k Hk _. apply H1; [done|]. intros ->. pose proof (parent_lt j). lia. }
  assert (Hj0 : (0 < j)%nat) by (destruct j; [done | lia]). pose proof (parent_lt j Hj0).
  destruct (Less q j (parent j)) eqn:EL; cbn [negb].
  2:{ intros k Hk _. destruct (decide (k = j)) as [->|]; [by apply Less_false | by apply H1]. }
  assert (Hpj : (parent j < length q)%nat) by lia. pose proof (fine_of_less _ _ _ EL) as HL.
  apply IH; [by rewrite Swap_length | lia |]. split; rewrite Swap_length; intros k Hk.
  - intros Hkp. apply fine_Swap; [done..|]. pose proof (parent_lt k ltac:(lia)). unfold moved.
    destruct (decide (k = parent j)); [done|]. destruct (decide (k = j)) as [->|].
    { destruct (decide (parent j = parent j)); [|done]. done. }
    destruct (decide (parent k = parent j)) as [E|].
    { apply (fine_via q k (parent j) j); [done | rewrite <- E; by apply H1 | done]. }
    destruct (decide (parent k = j)) as [E|]; [by apply H2 | by apply H1].
  - intros Hkp Hpp. apply fine_Swap; [done..|]. unfold moved. pose proof (parent_lt (parent j) Hpp).
    destruct (decide (k = parent j)); [pose proof (parent_lt k); lia|].
    destruct (decide (parent (parent j) = parent j)); [lia|]. destruct (decide (parent (parent j) = j)); [lia|].
    assert (Hgp : fine q (parent j) (parent (parent j))) by (apply H1; lia).
    destruct (decide (k = j)) as [->|]; [done|].
    apply (fine_via q k (parent j)); [done | rewrite <- Hkp; by apply H1 | done].
Qed.

Lemma down_perm fuel q i n : down fuel q i n ≡ₚ q.
Proof.
  revert q i. induction fuel as [|fuel IH]; intros q i; [done|]. cbn [down]. destr_if; [done|]. cbv zeta.
  destr_if; [done|]. rewrite IH. apply Swap_perm.
Qed.
Lemma down_length fuel q i n : length (down fuel q i n) = length q.
Proof. apply Permutation_length, down_perm. Qed.
(** Positions from [n] on stay as they are. *)
Lemma down_beyond fuel q i n k : (n <= length q)%nat -> (n <= k)%nat -> down fuel q i n !! k = q !! k.
Proof.
  revert q i. induction fuel as [|fuel IH]; intros q i Hn Hk; [done|]. cbn [down].
  destruct (Nat.leb_spec n (2 * i + 1)); [done|]. cbv zeta. set (j := (if (2 * i + 1 + 1 <? n)%nat && _ then _ else _)).
  assert (Hj : (i < j < n)%nat) by (unfold j; destruct (Nat.ltb_spec (2 * i + 1 + 1) n); cbn [andb]; [destruct (Less _ _ _)|]; lia).
  destr_if; [done|]. rewrite IH by (rewrite ?Swap_length; lia). rewrite Swap_lookup by lia. unfold moved.
  repeat destruct (decide _); lia || done.
Qed.

(** The smaller child of [i]. *)
Lemma child_spec q i n j :
  (2 * i + 1 < n)%nat ->
  j = (if (2 * i + 1 + 1 <? n)%nat && Less q (2 * i + 1 + 1) (2 * i + 1) then 2 * i + 1 + 1 else 2 * i + 1)%nat ->
  (i < j < n)%nat /\ parent j = i /\ forall k, (0 < k < n)%nat -> parent k = i -> fine q k j.
Proof.
  intros Hn ->. split; [|split].
  - destruct (Nat.ltb_spec (2 * i + 1 + 1) n); cbn [andb]; [destruct (Less _ _ _)|]; lia.
  - destruct (_ && _); [apply parent_right | apply parent_left].
  - intros k Hk Hp. pose proof (parent_bounds k ltac:(lia)) as Hb. rewrite Hp in Hb.
    assert (Hk' : k = (2 * i + 1)%nat \/ k = (2 * i + 1 + 1)%nat) by lia. clear Hb.
    destruct (Nat.ltb_spec (2 * i + 1 + 1) n); cbn [andb].
    + destruct (Less q (2 * i + 1 + 1) (2 * i + 1)) eqn:E; destruct Hk' as [-> | ->].
      * by apply fine_of_less.
      * intros a b -> [= ->]. apply before_irrefl.
      * intros a b -> [= ->]. apply before_irrefl.
      * by apply Less_false.
    + destruct Hk' as [-> | ->]; [|lia]. intros a b -> [= ->]. apply before_irrefl.
Qed.

Lemma down_ok fuel q lo i n :
  (n <= length q)%nat -> (n - i < fuel)%nat -> sinking lo n i q -> heap_from lo n (down fuel q i n).
Proof.
  revert q i. induction fuel as [|fuel IH]; intros q i Hn Hf [H1 H2]; [lia|]. cbn [down].
  destruct (Nat.leb_spec n (2 * i + 1)) as [Hend|Hc].
  { intros k Hk Hlo. apply H1; [done..|]. pose proof (parent_bounds k ltac:(lia)). lia. }
  cbv zeta. set (j := (if (2 * i + 1 + 1 <? n)%nat && _ then _ else _)). destruct (child_spec q i n j Hc eq_refl) as (Hj & Hpj & Hmin).
  destruct (Less q j i) eqn:EL; cbn [negb].
  2:{ intros k Hk Hlo. destruct (decide (parent k = i)) as [E|E]; [|by apply H1].
      rewrite E. apply (fine_via q k j); [lia | by apply Hmin | by apply Less_false]. }
  pose proof (fine_of_less _ _ _ EL) as HL.
  apply IH; [by rewrite Swap_length | lia |]. split; intros k Hk.
  - intros Hlo Hkp. apply fine_Swap; [lia..|]. pose proof (parent_lt k ltac:(lia)). unfold moved.
    destruct (decide (k = i)) as [->|Hki].
    { destruct (decide (parent i = i)); [lia|]. destruct (decide (parent i = j)); [done|]. apply H2; [lia | done | lia | done]. }
    destruct (decide (k = j)) as [->|Hkj].
    { rewrite Hpj. by rewrite decide_True by done. }
    destruct (decide (parent k = i)) as [E|E]; [by apply Hmin|]. destruct (decide (parent k = j)); [done|]. by apply H1.
  - intros Hkp Hj0 Hlo. rewrite Hpj in *. apply fine_Swap; [lia..|]. pose proof (parent_lt k ltac:(lia)). unfold moved.
    rewrite (decide_True (P := i = i)) by done. destruct (decide (k = i)); [lia|]. destruct (decide (k = j)); [lia|].
    rewrite <- Hkp. apply H1; [done | lia | lia].
Qed.

Lemma init_loop_perm k q n : init_loop k q n ≡ₚ q.
Proof. revert q. induction k as [|k IH]; intros q; [done|]. cbn [init_loop]. rewrite IH. apply down_perm. Qed.
Lemma init_loop_ok k q n : n = length q -> heap_from k n q -> heap_from 0 n (init_loop k q n).
Proof.
  revert q. induction k as [|k IH]; intros q Hn H; [done|]. cbn [init_loop]. apply IH; [by rewrite down_length|].
  apply down_ok; [lia..|]. split; intros l Hl.
  - intros Hlo Hp. apply H; [done | lia].
  - intros Hp Hk Hlo. pose proof (parent_lt k Hk). lia.
Qed.
Lemma heap_Init_ok q : heap_ok (heap_Init q) /\ heap_Init q ≡ₚ q.
Proof.
  assert (Hp : heap_Init q ≡ₚ q) by apply init_loop_perm. split; [|done]. unfold heap_ok.
  rewrite (Permutation_length Hp). apply init_loop_ok; [done|]. intros k Hk Hlo. exfalso.
  pose proof (parent_bounds k ltac:(lia)). pose proof (Nat.div_mod_eq (length q) 2). pose proof (Nat.mod_upper_bound (length q) 2). lia.
Qed.

Lemma heap_Push_ok q t : heap_ok q -> heap_ok (heap_Push q t) /\ heap_Push q t ≡ₚ t :: q.
Proof.
  intros H. unfold heap_Push. rewrite length_app. cbn [length]. replace (length q + 1 - 1)%nat with (length q) by lia. split.
  - apply up_ok; [rewrite length_app; cbn; lia | lia|].
    assert (Hl : forall k, (k < length q)%nat -> (q ++ [t]) !! k = q !! k) by (intros; by apply lookup_app_l).
    split; rewrite length_app; cbn [length]; intros k Hk.
    + intros Hne a b. pose proof (parent_lt k ltac:(lia)). rewrite !Hl by lia. apply H; lia.
    + intros Hp. pose proof (parent_lt k ltac:(lia)). lia.
  - rewrite up_perm. symmetry. apply Permutation_cons_append.
Qed.

(** The first is before nothing else. *)
Lemma heap_least q x : heap_ok q -> q !! 0%nat = Some x -> forall y, y ∈ q -> before y x = false.
Proof.
  intros H Hx y Hy. apply list_elem_of_lookup in Hy as [k Hk]. revert y Hk.
  induction (lt_wf k) as [k _ IH]. intros y Hk. destruct (decide (k = 0)%nat) as [->|Hk0]; [simplify_eq; apply before_irrefl|].
  pose proof (lookup_lt_Some _ _ _ Hk). pose proof (parent_lt k ltac:(lia)).
  destruct (lookup_lt_is_Some_2 q (parent k) ltac:(lia)) as [z Hz].
  eapply not_before_trans; [by apply (IH (parent k))|]. apply (H k); [lia | lia | done | done].
Qed.

(** The first is taken out, whatever the order of the others. *)
Lemma heap_Pop_perm q x : q !! 0%nat = Some x ->
  exists q', heap_Pop q = (q', Some x) /\ q ≡ₚ x :: q'.
Proof.
  intros Hx. pose proof (lookup_lt_Some _ _ _ Hx) as Hlen. unfold heap_Pop. set (n := (length q - 1)%nat).
  set (d := down (S n) (Swap q 0 n) 0 n).
  assert (Hn : d !! n = Some x).
  { unfold d. rewrite down_beyond by (rewrite ?Swap_length; unfold n; lia). rewrite Swap_lookup by (unfold n; lia). unfold moved.
    destruct (decide (n = 0%nat)) as [E|]; [by rewrite <- E in Hx|]. by rewrite decide_True. }
  assert (Hd : d ≡ₚ q) by (unfold d; rewrite down_perm; apply Swap_perm).
  assert (Hl : length d = length q) by by apply Permutation_length.
  exists (take n d). split; [by rewrite Hn|].
  rewrite <- Hd. rewrite <- (take_drop n d) at 1. rewrite (drop_S d x n) by done. rewrite drop_ge by (unfold n in *; lia).
  symmetry. apply Permutation_cons_append.
Qed.
Lemma heap_Pop_ok q : heap_ok q -> heap_ok (heap_Pop q).1.
Proof.
  intros H. unfold heap_Pop. set (n := (length q - 1)%nat). cbn [fst]. intros k Hk _ a b. rewrite length_take in Hk.
  rewrite down_length, Swap_length in Hk. pose proof (parent_lt k ltac:(lia)). rewrite !lookup_take_lt by lia.
  refine (down_ok (S n) (Swap q 0 n) 0 0 n _ _ _ k ltac:(lia) ltac:(lia) a b); [rewrite Swap_length; unfold n; lia | lia |].
  split; [|lia]. intros l Hl' _ Hp. pose proof (parent_lt l ltac:(lia)). apply fine_Swap; [unfold n in *; lia..|].
  unfold moved. repeat destruct (decide _); try (unfold n in *; lia). apply H; [unfold n in *; lia | lia].
Qed.
End Heap.

(** ** The scheduler as an ordered list

    The specification: the tasks in the order they will run. *)

Section Specification.
Context {T : Type} {QI : QueueItem T}.
Implicit Types (l : list T) (s : scheduler T).

Fixpoint enqueue (t : T) (l : list T) : list T :=
  match l with
  | [] => [t]
  | x :: l => if before t x then t :: x :: l else x :: enqueue t l
  end.

(** What is asked of a scheduler, and what it answers. *)
Inductive request := Push (t : T) | Pop | Peek | Clear.
Inductive answer := Done | Next (t : option T) | Dropped (l : list T).

Definition serve_heap (s : scheduler T) (r : request) : scheduler T * answer :=
  match r with
  | Push t => (push t s, Done)
  | Pop => let '(s, t) := pop s in (s, Next t)
  | Peek => (s, Next (peek s))
  | Clear => let '(s, l) := clear s in (s, Dropped l)
  end.
(** The list and the number of tasks pushed so far. *)
Definition serve_list (x : list T * Z) (r : request) : list T * Z * answer :=
  let '(l, n) := x in
  match r with
  | Push t => (enqueue (set_order (n + 1) t) l, n + 1, Done)
  | Pop => (tail l, n, Next (head l))
  | Peek => (l, n, Next (head l))
  | Clear => (filter (fun t => 0 < period t) l, n, Dropped (filter (fun t => ~ 0 < period t) l))
  end.

Fixpoint answers {S} (serve : S -> request -> S * answer) (s : S) (rs : list request) : list answer :=
  match rs with
  | [] => []
  | r :: rs => let '(s, a) := serve s r in a :: answers serve s rs
  end.

(** The tasks that are dropped have no order of their own. *)
Definition same_answer (a b : answer) : Prop :=
  match a, b with Dropped l, Dropped k => l ≡ₚ k | _, _ => a = b end.

Record scheduled s (l : list T) : Prop := mkScheduled {
  sch_perm : q s ≡ₚ l;
  sch_heap : heap_ok (q s);
  sch_sorted : StronglySorted (fun a b => before a b = true) l;
  sch_orders : Forall (fun t => order t <= pushN s) l }.

Lemma enqueue_perm t l : enqueue t l ≡ₚ t :: l.
Proof. induction l as [|x l IH]; [done|]. cbn. destr_if; [done|]. rewrite IH. apply Permutation_swap. Qed.
Lemma enqueue_sorted t l :
  StronglySorted (fun a b => before a b = true) l -> Forall (fun x => order x <> order t) l ->
  StronglySorted (fun a b => before a b = true) (enqueue t l).
Proof.
  induction l as [|x l IH]; intros Hs Ho; [repeat constructor|]. apply StronglySorted_inv in Hs as [Hs Hx].
  apply Forall_cons in Ho as [Ho Hos]. cbn. destruct (before t x) eqn:E.
  - constructor; [by constructor|]. constructor; [done|]. eapply Forall_impl; [exact Hx|]. intros y Hy. by eapply before_trans.
  - constructor; [by apply IH|]. rewrite (enqueue_perm t l). constructor; [apply before_total; congruence | done].
Qed.
Lemma Forall_kept (Q P : T -> Prop) `{!forall x, Decision (P x)} l : Forall Q l -> Forall Q (filter P l).
Proof. rewrite !Forall_forall. intros HQ x. rewrite list_elem_of_filter. naive_solver. Qed.
Lemma sorted_filter (P : T -> Prop) `{!forall x, Decision (P x)} l :
  StronglySorted (fun a b => before a b = true) l -> StronglySorted (fun a b => before a b = true) (filter P l).
Proof.
  induction 1 as [|x l Hs IH Hx]; [constructor|]. rewrite filter_cons. destr_if; [|done].
  constructor; [done|]. by apply Forall_kept.
Qed.

(** The root of the heap is the head of the list. *)
Lemma scheduled_head s l : scheduled s l -> peek s = head l.
Proof.
  intros [Hp Hh Hs _]. unfold peek. destruct l as [|x l].
  { apply Permutation_nil_r in Hp. by rewrite Hp. }
  destruct (q s) as [|y r] eqn:E; [by apply Permutation_nil_cons in Hp|]. cbn [lookup list_lookup head]. f_equal.
  assert (Hy : y ∈ x :: l) by (rewrite <- Hp; set_solver). apply StronglySorted_inv in Hs as [_ Hs].
  rewrite list_elem_of_In in Hy. destruct Hy as [|Hy]; [done|]. rewrite List.Forall_forall in Hs. specialize (Hs _ Hy).
  assert (Hx : x ∈ y :: r) by (rewrite Hp; set_solver). pose proof (heap_least _ y Hh eq_refl _ Hx). congruence.
Qed.

Lemma push_scheduled t s l : 0 <= pushN s < 2 ^ 64 - 1 -> scheduled s l ->
  scheduled (push t s) (enqueue (set_order (pushN s + 1) t) l).
Proof.
  intros Hn [Hp Hh Hs Ho]. unfold push. replace (u64 (pushN s + 1)) with (pushN s + 1) by (unfold u64; rewrite Z.mod_small; lia).
  destruct (heap_Push_ok (q s) (set_order (pushN s + 1) t) Hh) as [Hh' Hp']. split; cbn [q pushN]; [|done|..].
  - by rewrite Hp', enqueue_perm, Hp.
  - apply enqueue_sorted; [done|]. eapply Forall_impl; [exact Ho|]. intros x Hx. cbn in Hx |- *. rewrite order_set. lia.
  - rewrite enqueue_perm. constructor; [rewrite order_set; lia|]. eapply Forall_impl; [exact Ho|]. intros x Hx. cbn in Hx |- *. lia.
Qed.
Lemma pop_scheduled s l : scheduled s l ->
  (pop s).2 = head l /\ scheduled (pop s).1 (tail l) /\ pushN (pop s).1 = pushN s.
Proof.
  intros H. pose proof (scheduled_head _ _ H) as Hhd. destruct H as [Hp Hh Hs Ho]. unfold pop, peek in *.
  destruct (Nat.eqb_spec (length (q s)) 0) as [E|E].
  { apply nil_length_inv in E. rewrite E in Hp. apply Permutation_nil_l in Hp as <-. split_and!; [done | | done]. split; cbn [fst tail]; rewrite ?E; [done | intros k Hk; cbn in Hk; lia | constructor | constructor]. }
  destruct l as [|x l]; [apply Permutation_nil_r in Hp; by rewrite Hp in E|]. cbn [head tail] in *.
  pose proof (heap_Pop_ok _ Hh) as Hh'. destruct (heap_Pop_perm (q s) x Hhd) as (q' & Eq & Hp'). rewrite Eq in *. cbn [fst] in Hh'. split_and!; [done | | done]. cbn [fst].
  apply StronglySorted_inv in Hs as [Hs _]. apply Forall_cons in Ho as [_ Ho]. split; [|done..]. cbn [q].
  apply (Permutation_cons_inv (a := x)). by rewrite <- Hp'.
Qed.
Lemma clear_scheduled s l : scheduled s l ->
  (clear s).2 ≡ₚ filter (fun t => ~ 0 < period t) l /\
  scheduled (clear s).1 (filter (fun t => 0 < period t) l) /\ pushN (clear s).1 = pushN s.
Proof.
  intros [Hp Hh Hs Ho]. unfold clear. cbn [fst snd]. destruct (heap_Init_ok (filter (fun t => 0 < period t) (q s))) as [Hh' Hp'].
  split_and!; [by rewrite Hp | | done]. split; cbn [q pushN]; [by rewrite Hp', Hp | done | by apply sorted_filter | by apply Forall_kept].
Qed.

Lemma serve_scheduled s l n r :
  scheduled s l -> pushN s = n -> 0 <= n < 2 ^ 64 - 1 ->
  same_answer (serve_heap s r).2 (serve_list (l, n) r).2 /\
  scheduled (serve_heap s r).1 (serve_list (l, n) r).1.1 /\
  pushN (serve_heap s r).1 = (serve_list (l, n) r).1.2 /\ n <= (serve_list (l, n) r).1.2 <= n + 1.
Proof.
  intros H <- Hn. destruct r as [t| | |]; cbn [serve_heap serve_list fst snd].
  - split_and!; [done | by apply push_scheduled | | lia..]. unfold push. cbn. unfold u64. rewrite Z.mod_small; lia.
  - destruct (pop_scheduled s l H) as (He & Hs & Hp). destruct (pop s). cbn in *. subst. split_and!; [done | done | done | lia..].
  - rewrite (scheduled_head _ _ H). split_and!; [done | done | done | lia..].
  - destruct (clear_scheduled s l H) as (He & Hs & Hp). destruct (clear s). cbn in *. split_and!; [done | done | done | lia..].
Qed.

Lemma answers_agree rs s l n :
  scheduled s l -> pushN s = n -> 0 <= n -> n + len rs < 2 ^ 64 ->
  Forall2 same_answer (answers serve_heap s rs) (answers serve_list (l, n) rs).
Proof.
  revert s l n. induction rs as [|r rs IH]; intros s l n H Hp H0 Hn; [constructor|]. cbn [answers].
  rewrite len_cons in Hn. pose proof (len_nonneg rs). destruct (serve_scheduled s l n r H Hp ltac:(lia)) as (Ha & Hs & Hp' & Hb).
  destruct (serve_heap s r) as [s' a]. destruct (serve_list (l, n) r) as [[l' n'] b]. cbn [fst snd] in *.
  constructor; [done|]. apply IH; [done | done | lia | lia].
Qed.

(** C26. The scheduler implements a list ordered by due time, priority and arrival. For any
    sequence of fewer than 2^64 calls (the counter of arrivals is a uint64), the heap
    answers as the ordered list does: the same task is popped and looked at, and what
    clearing drops is the same up to its order. *)
Theorem scheduler_refines rs : len rs < 2 ^ 64 ->
  Forall2 same_answer (answers serve_heap (mkScheduler [] 0) rs) (answers serve_list ([], 0) rs).
Proof.
  intros H. apply answers_agree; [|done | done | done]. split; cbn; [done | | constructor | constructor].
  intros k Hk. cbn in Hk. lia.
Qed.
End Specification.
Arguments request : clear implicits.
Arguments answer : clear implicits.
