(* ===== verification/AppHeader.v ===== *)
(** * The fragment header (src/internal/app/funccode.go, header.go, iin.go)

    The application control octet, the function codes with the predicates the parser and
    the sessions branch on, the internal indications, and the header they make up. *)

From S2P Require Import Prelude.

(** ** Function codes *)

Definition FuncConfirm : Z := 0.
Definition FuncRead : Z := 1.
Definition FuncWrite : Z := 2.
Definition FuncSelect : Z := 3.
Definition FuncOperate : Z := 4.
Definition FuncDirectOperate : Z := 5.
Definition FuncDirectOperateNR : Z := 6.
Definition FuncImmedFreeze : Z := 7.
Definition FuncImmedFreezeNR : Z := 8.
Definition FuncFreezeClear : Z := 9.
Definition FuncFreezeClearNR : Z := 10.
Definition FuncFreezeAtTime : Z := 11.
Definition FuncFreezeAtTimeNR : Z := 12.
Definition FuncColdRestart : Z := 13.
Definition FuncWarmRestart : Z := 14.
Definition FuncInitializeData : Z := 15.
Definition FuncInitializeAppl : Z := 16.
Definition FuncStartAppl : Z := 17.
Definition FuncStopAppl : Z := 18.
Definition FuncSaveConfig : Z := 19.
Definition FuncEnableUnsolicited : Z := 20.
Definition FuncDisableUnsolicited : Z := 21.
Definition FuncAssignClass : Z := 22.
Definition FuncDelayMeasure : Z := 23.
Definition FuncRecordCurrentTime : Z := 24.
Definition FuncOpenFile : Z := 25.
Definition FuncCloseFile : Z := 26.
Definition FuncDeleteFile : Z := 27.
Definition FuncGetFileInfo : Z := 28.
Definition FuncAuthenticateFile : Z := 29.
Definition FuncAbortFile : Z := 30.
Definition FuncActivateConfig : Z := 31.
Definition FuncAuthRequest : Z := 32.
Definition FuncAuthRequestNoAck : Z := 33.
Definition FuncResponse : Z := 129.
Definition FuncUnsolicitedResponse : Z := 130.
Definition FuncAuthResponse : Z := 131.

(** The keys of the [funcNames] map. *)
Definition funcNames : list Z :=
  [FuncConfirm; FuncRead; FuncWrite; FuncSelect; FuncOperate; FuncDirectOperate;
   FuncDirectOperateNR; FuncImmedFreeze; FuncImmedFreezeNR; FuncFreezeClear; FuncFreezeClearNR;
   FuncFreezeAtTime; FuncFreezeAtTimeNR; FuncColdRestart; FuncWarmRestart; FuncInitializeData;
   FuncInitializeAppl; FuncStartAppl; FuncStopAppl; FuncSaveConfig; FuncEnableUnsolicited;
   FuncDisableUnsolicited; FuncAssignClass; FuncDelayMeasure; FuncRecordCurrentTime;
   FuncOpenFile; FuncCloseFile; FuncDeleteFile; FuncGetFileInfo; FuncAuthenticateFile;
   FuncAbortFile; FuncActivateConfig; FuncAuthRequest; FuncAuthRequestNoAck; FuncResponse;
   FuncUnsolicitedResponse; FuncAuthResponse].

(** A [switch] over constants: is [x] one of the cases? *)
Definition one_of (x : Z) (cases : list Z) : bool := existsb (Z.eqb x) cases.

Definition IsResponse (f : Z) : bool :=
  (f =? FuncResponse) || (f =? FuncUnsolicitedResponse) || (f =? FuncAuthResponse).
Definition IsKnown (f : Z) : bool := one_of f funcNames.
Definition NoReply (f : Z) : bool :=
  one_of f [FuncDirectOperateNR; FuncImmedFreezeNR; FuncFreezeClearNR; FuncFreezeAtTimeNR;
            FuncAuthRequestNoAck].
Definition CarriesObjectData (f : Z) : bool :=
  negb (one_of f [FuncRead; FuncImmedFreeze; FuncImmedFreezeNR; FuncFreezeClear; FuncFreezeClearNR;
    FuncEnableUnsolicited; FuncDisableUnsolicited; FuncAssignClass; FuncConfirm; FuncColdRestart;
    FuncWarmRestart; FuncDelayMeasure; FuncRecordCurrentTime; FuncInitializeData; FuncSaveConfig;
    FuncGetFileInfo; FuncDeleteFile]).
Definition RequiresObjects (f : Z) : bool :=
  one_of f [FuncRead; FuncWrite; FuncSelect; FuncOperate; FuncDirectOperate; FuncDirectOperateNR;
    FuncFreezeAtTime; FuncFreezeAtTimeNR; FuncEnableUnsolicited; FuncDisableUnsolicited;
    FuncAssignClass].
Definition IsControl (f : Z) : bool :=
  one_of f [FuncSelect; FuncOperate; FuncDirectOperate; FuncDirectOperateNR].

(** ** Internal indications *)

Definition IINBroadcast : Z := 0x0001.
Definition IINClass1Events : Z := 0x0002.
Definition IINClass2Events : Z := 0x0004.
Definition IINClass3Events : Z := 0x0008.
Definition IINNeedTime : Z := 0x0010.
Definition IINLocalControl : Z := 0x0020.
Definition IINDeviceTrouble : Z := 0x0040.
Definition IINDeviceRestart : Z := 0x0080.
Definition IINNoFuncCodeSupport : Z := 0x0100.
Definition IINObjectUnknown : Z := 0x0200.
Definition IINParameterError : Z := 0x0400.
Definition IINEventBufferOverflow : Z := 0x0800.
Definition IINAlreadyExecuting : Z := 0x1000.
Definition IINConfigCorrupt : Z := 0x2000.
Definition IINReserved1 : Z := 0x4000.
Definition IINReserved2 : Z := 0x8000.

Definition or_all (l : list Z) : Z := fold_right Z.lor 0 l.
Definition EventClassMask : Z := or_all [IINClass1Events; IINClass2Events; IINClass3Events].
Definition RequestErrorMask : Z :=
  or_all [IINNoFuncCodeSupport; IINObjectUnknown; IINParameterError; IINAlreadyExecuting].
Definition ErrorMask : Z :=
  or_all [IINNoFuncCodeSupport; IINObjectUnknown; IINParameterError; IINAlreadyExecuting; IINConfigCorrupt].

Definition ParseIIN (iin1 iin2 : Z) : Z := Z.lor iin1 (Z.shiftl iin2 8).
Definition IIN_Octets (i : Z) : Z * Z := (u8 i, u8 (Z.shiftr i 8)).
Definition Has (i mask : Z) : bool := Z.land i mask =? mask.
Definition HasAny (i mask : Z) : bool := negb (Z.land i mask =? 0).
Definition IIN_Set (i mask : Z) : Z := Z.lor i mask.
Definition IIN_Clear (i mask : Z) : Z := Z.ldiff i mask.
Definition HasEvents (i : Z) : bool := HasAny i EventClassMask.
Definition HasError (i : Z) : bool := HasAny i ErrorMask.
Definition EventClasses (i : Z) : Z := Z.land i EventClassMask.

(** ** The control octet and the header *)

Definition RequestHeaderSize : Z := 2.
Definition ResponseHeaderSize : Z := 4.
Definition SeqModulus : Z := 16.
Definition DefaultMaxFragment : Z := 2048.

Definition acFir : Z := 0x80.
Definition acFin : Z := 0x40.
Definition acCon : Z := 0x20.
Definition acUns : Z := 0x10.
Definition acSeq : Z := 0x0F.

Record Control := mkControl { Fir : bool; Fin : bool; Con : bool; Uns : bool; Seq : Z }.

#[export] Instance Control_eq_dec : EqDecision Control.
Proof. solve_decision. Defined.

Definition ParseControl (b : Z) : Control :=
  {| Fir := negb (Z.land b acFir =? 0); Fin := negb (Z.land b acFin =? 0);
     Con := negb (Z.land b acCon =? 0); Uns := negb (Z.land b acUns =? 0);
     Seq := Z.land b acSeq |}.

Definition or_if (cond : bool) (mask b : Z) : Z := if cond then Z.lor b mask else b.

Definition Control_Byte (c : Control) : Z :=
  let b := or_if (Fir c) acFir 0 in
  let b := or_if (Fin c) acFin b in
  let b := or_if (Con c) acCon b in
  let b := or_if (Uns c) acUns b in
  Z.lor b (Z.land (Seq c) acSeq).

Definition Single (c : Control) : bool := Fir c && Fin c.

Record Header := mkHeader { HControl : Control; Func : Z; HIIN : Z }.

#[export] Instance Header_eq_dec : EqDecision Header.
Proof. solve_decision. Defined.

Definition Header_IsResponse (h : Header) : bool := IsResponse (Func h).
Definition Header_Size (h : Header) : Z :=
  if Header_IsResponse h then ResponseHeaderSize else RequestHeaderSize.

Inductive AppErr :=
| ErrShortFragment | ErrTruncated | ErrBadQualifier | ErrBadRange | ErrUnknownObject
| ErrFragmentTooLarge.

#[export] Instance AppErr_eq_dec : EqDecision AppErr.
Proof. solve_decision. Defined.

Definition ParseHeader (buf : list Z) : result AppErr (Header * Z) :=
  if len buf <? RequestHeaderSize then Err ErrShortFragment
  else
    let h := mkHeader (ParseControl (at_ buf 0)) (at_ buf 1) 0 in
    if negb (Header_IsResponse h) then Ok (h, RequestHeaderSize)
    else if len buf <? ResponseHeaderSize then Err ErrShortFragment
    else Ok (mkHeader (HControl h) (Func h) (ParseIIN (at_ buf 2) (at_ buf 3)), ResponseHeaderSize).

Definition AppendHeader (dst : list Z) (h : Header) : list Z :=
  let dst := dst ++ [Control_Byte (HControl h); Func h] in
  if Header_IsResponse h
  then let '(iin1, iin2) := IIN_Octets (HIIN h) in dst ++ [iin1; iin2]
  else dst.

(** ** Round trips *)

Definition control_ok (c : Control) : Prop := 0 <= Seq c < 16.

Lemma app_ParseControl_Byte c : control_ok c -> ParseControl (Control_Byte c) = c.
Proof.
  destruct c as [a b d e q]. unfold control_ok. cbn [Seq]. intros Hq. apply (bool_decide_eq_true_1 _).
  revert q Hq. apply (forall_below 16 (fun q =>
    bool_decide (ParseControl (Control_Byte (mkControl a b d e q)) = mkControl a b d e q))).
  destruct a, b, d, e; vm_compute; reflexivity.
Qed.

Lemma app_Byte_ParseControl b : octet_ok b -> Control_Byte (ParseControl b) = b.
Proof.
  intros Hb. apply (bool_decide_eq_true_1 _). revert b Hb.
  apply (forall_octets (fun b => bool_decide (Control_Byte (ParseControl b) = b))).
  vm_compute. reflexivity.
Qed.

Lemma app_ParseControl_ok b : octet_ok b -> control_ok (ParseControl b).
Proof.
  intros Hb. unfold control_ok, ParseControl. cbn [Seq]. change acSeq with (Z.ones 4).
  rewrite Z.land_ones by lia. apply (Z.mod_pos_bound b (2 ^ 4)). lia.
Qed.

Lemma app_Control_Byte_ok c : octet_ok (Control_Byte c).
Proof.
  assert (H : Control_Byte c = Control_Byte (mkControl (Fir c) (Fin c) (Con c) (Uns c) (Z.land (Seq c) acSeq))).
  { unfold Control_Byte. cbn [Fir Fin Con Uns Seq]. f_equal. by rewrite <- Z.land_assoc, Z.land_diag. }
  rewrite H. clear H. destruct c as [a b d e q]. cbn [Fir Fin Con Uns Seq].
  assert (Hq : 0 <= Z.land q acSeq < 16).
  { change acSeq with (Z.ones 4). rewrite Z.land_ones by lia. apply (Z.mod_pos_bound q (2 ^ 4)). lia. }
  apply (bool_decide_eq_true_1 _). revert Hq. generalize (Z.land q acSeq) as r.
  apply (forall_below 16 (fun r => bool_decide (octet_ok (Control_Byte (mkControl a b d e r))))).
  destruct a, b, d, e; vm_compute; reflexivity.
Qed.

Lemma ParseIIN_octets a b : octet_ok a -> octet_ok b -> ParseIIN a b = a + 256 * b.
Proof.
  unfold octet_ok. intros Ha Hb. unfold ParseIIN.
  assert (H : Z.land a (Z.shiftl b 8) = 0).
  { apply Z.bits_inj'. intros n Hn. rewrite Z.land_spec, Z.bits_0, Z.shiftl_spec by done.
    destruct (Z.ltb_spec n 8) as [H8|H8].
    - rewrite (Z.testbit_neg_r b) by lia. apply andb_false_r.
    - apply andb_false_iff. left. apply Z.bits_above_log2; [lia|].
      destruct (decide (a = 0)) as [->|]; [cbn; lia|]. apply Z.lt_le_trans with 8; [|done].
      apply Z.log2_lt_pow2; [lia | cbn; lia]. }
  rewrite <- Z.lxor_lor, <- Z.add_nocarry_lxor, Z.shiftl_mul_pow2 by (done || lia). lia.
Qed.

Lemma IIN_roundtrip i : is_u16 i -> let '(a, b) := IIN_Octets i in ParseIIN a b = i.
Proof.
  intros Hi. unfold IIN_Octets. rewrite ParseIIN_octets by apply u8_ok. unfold u8.
  rewrite shiftr_8. unfold is_u16 in Hi. rewrite (Z.mod_small (i / 256)).
  - pose proof (Z.div_mod i 256). lia.
  - split; [apply Z.div_pos; lia | apply Z.div_lt_upper_bound; lia].
Qed.

Lemma IIN_Octets_Parse a b : octet_ok a -> octet_ok b -> IIN_Octets (ParseIIN a b) = (a, b).
Proof.
  intros Ha Hb. rewrite ParseIIN_octets by done. unfold IIN_Octets, u8, octet_ok in *. rewrite shiftr_8.
  rewrite (Z.mul_comm 256), Z_mod_plus_full, Z.div_add by lia.
  rewrite (Z.div_small a), Z.add_0_l, !Z.mod_small by lia. done.
Qed.

(** A header the Go types allow: a request carries no indications. *)
Definition header_ok (h : Header) : Prop :=
  control_ok (HControl h) /\ octet_ok (Func h) /\ is_u16 (HIIN h) /\
  (Header_IsResponse h = false -> HIIN h = 0).

Lemma AppendHeader_dst dst h : AppendHeader dst h = dst ++ AppendHeader [] h.
Proof.
  unfold AppendHeader. destruct (Header_IsResponse h), (IIN_Octets (HIIN h));
    cbn [app]; rewrite <- ?app_assoc; done.
Qed.

Lemma AppendHeader_size h : len (AppendHeader [] h) = Header_Size h.
Proof. unfold AppendHeader, Header_Size. by destruct (Header_IsResponse h), (IIN_Octets (HIIN h)). Qed.

Lemma ParseHeader_Append h rest :
  header_ok h -> ParseHeader (AppendHeader [] h ++ rest) = Ok (h, Header_Size h).
Proof.
  intros (Hc & Hf & Hi & Hz). destruct h as [c f i]. cbn [HControl Func HIIN] in *.
  pose proof (IIN_roundtrip i Hi) as Hr. pose proof (len_nonneg rest).
  unfold ParseHeader, AppendHeader, Header_Size. unfold Header_IsResponse in *. cbn [Func HIIN HControl app] in *.
  destruct (IIN_Octets i) as [i1 i2]. destruct (IsResponse f) eqn:E; cbn [app].
  all: unfold at_; norm_nat; cbn [nth]; rewrite E; cbn [negb]; rewrite !len_cons, app_ParseControl_Byte by done.
  all: repeat match goal with |- context [?a <? ?b] =>
         replace (a <? b) with false
           by (symmetry; apply Z.ltb_ge; unfold RequestHeaderSize, ResponseHeaderSize; lia) end.
  - by rewrite Hr.
  - by rewrite (Hz eq_refl).
Qed.

(** A parsed header is well formed and re-encodes to the octets it was read from. *)
Lemma ParseHeader_inv buf h n :
  octets_ok buf -> ParseHeader buf = Ok (h, n) ->
  header_ok h /\ n = Header_Size h /\ buf = AppendHeader [] h ++ drop (Z.to_nat n) buf.
Proof.
  intros Ho. unfold ParseHeader. destruct (len buf <? RequestHeaderSize) eqn:E0; [done|]. bool_prop.
  unfold RequestHeaderSize in E0. destruct buf as [|a [|b buf]]; [unfold len in E0; cbn in E0; lia..|].
  apply octets_ok_cons in Ho as [Ha Ho]. apply octets_ok_cons in Ho as [Hb Ho].
  unfold at_. norm_nat. cbn [nth]. unfold Header_IsResponse. cbn [Func HControl].
  destruct (IsResponse b) eqn:Er; cbn [negb].
  2:{ intros [= <- <-]. unfold header_ok, Header_Size, AppendHeader, Header_IsResponse. cbn [Func HControl HIIN].
      rewrite Er, app_Byte_ParseControl by done. split_and!; try done; try lia. by apply app_ParseControl_ok. }
  destruct (_ <? ResponseHeaderSize) eqn:E1; [done|]. bool_prop.
  unfold ResponseHeaderSize in E1. destruct buf as [|c [|d buf]]; [unfold len in E1; cbn in E1; lia..|].
  apply octets_ok_cons in Ho as [Hc Ho]. apply octets_ok_cons in Ho as [Hd Ho]. cbn [nth].
  intros [= <- <-]. unfold header_ok, Header_Size, AppendHeader, Header_IsResponse. cbn [Func HControl HIIN].
  rewrite Er, app_Byte_ParseControl, IIN_Octets_Parse by done.
  split_and!; try done; try (by apply app_ParseControl_ok).
  all: rewrite ParseIIN_octets by done; unfold octet_ok, is_u16 in *; lia.
Qed.
