(* ===== verification/AppObject.v ===== *)
(** * Object headers (src/internal/app/qualifier.go, objheader.go, sizes.go,
    zz_generated_sizes.go, freeformat.go)

    An object header names a group and variation, a qualifier, and a range; the octets of
    object data that follow are delimited only by what those four say.  This file models the
    qualifier and range encodings, the size table, the walk over the object data, and the
    header codec, and proves that the walk stays inside the buffer and that the codec is a
    round trip in both directions. *)

From S2P Require Import Prelude AppHeader.

(** ** Qualifier *)

Definition IndexPrefix (q : Z) : Z := Z.land (Z.shiftr q 4) 0x07.
Definition RangeSpec (q : Z) : Z := Z.land q 0x0F.
Definition Reserved (q : Z) : bool := negb (Z.land q 0x80 =? 0).
Definition MakeQualifier (p r : Z) : Z :=
  Z.lor (u8 (Z.shiftl (Z.land p 0x07) 4)) (Z.land r 0x0F).

Definition PrefixNone : Z := 0.
Definition PrefixIndex1 : Z := 1.
Definition PrefixIndex2 : Z := 2.
Definition PrefixIndex4 : Z := 3.
Definition PrefixSize1 : Z := 4.
Definition PrefixSize2 : Z := 5.
Definition PrefixSize4 : Z := 6.
Definition PrefixReserved : Z := 7.

Definition RangeStartStop8 : Z := 0.
Definition RangeStartStop16 : Z := 1.
Definition RangeStartStop32 : Z := 2.
Definition RangeVirtual8 : Z := 3.
Definition RangeVirtual16 : Z := 4.
Definition RangeVirtual32 : Z := 5.
Definition RangeAllObjects : Z := 6.
Definition RangeCount8 : Z := 7.
Definition RangeCount16 : Z := 8.
Definition RangeCount32 : Z := 9.
Definition RangeReservedA : Z := 10.
Definition RangeVariable : Z := 11.

Definition IndexPrefix_Octets (p : Z) : Z :=
  if p =? PrefixNone then 0
  else if one_of p [PrefixIndex1; PrefixSize1] then 1
  else if one_of p [PrefixIndex2; PrefixSize2] then 2
  else if one_of p [PrefixIndex4; PrefixSize4] then 4
  else 0.
Definition IsIndex (p : Z) : bool := (p =? PrefixIndex1) || (p =? PrefixIndex2) || (p =? PrefixIndex4).
Definition IsSize (p : Z) : bool := (p =? PrefixSize1) || (p =? PrefixSize2) || (p =? PrefixSize4).
Definition IndexPrefix_Valid (p : Z) : bool := p <=? PrefixSize4.

Definition RangeSpec_Octets (r : Z) : Z :=
  if one_of r [RangeStartStop8; RangeVirtual8] then 2
  else if one_of r [RangeStartStop16; RangeVirtual16] then 4
  else if one_of r [RangeStartStop32; RangeVirtual32] then 8
  else if r =? RangeAllObjects then 0
  else if one_of r [RangeCount8; RangeVariable] then 1
  else if r =? RangeCount16 then 2
  else if r =? RangeCount32 then 4
  else 0.
Definition IsStartStop (r : Z) : bool := r <=? RangeVirtual32.
Definition IsCount (r : Z) : bool :=
  (r =? RangeCount8) || (r =? RangeCount16) || (r =? RangeCount32) || (r =? RangeVariable).
Definition RangeSpec_Valid (r : Z) : bool := (r <=? RangeCount32) || (r =? RangeVariable).

Definition Consistent (q : Z) : bool :=
  let p := IndexPrefix q in
  let r := RangeSpec q in
  if Reserved q || negb (IndexPrefix_Valid p) || negb (RangeSpec_Valid r) then false
  else if IsIndex p then (r =? RangeCount8) || (r =? RangeCount16) || (r =? RangeCount32)
  else if IsSize p then r =? RangeVariable
  else negb (r =? RangeVariable).

(** ** Range *)

Record Range := mkRange { Spec : Z; Start : Z; Stop : Z; Count : Z }.

#[export] Instance Range_eq_dec : EqDecision Range.
Proof. solve_decision. Defined.

Definition IndexOf (r : Range) (i : Z) : Z := u32 (Start r + i).

Definition parseRange (spec : Z) (buf : list Z) : result AppErr (Range * Z) :=
  let n := RangeSpec_Octets spec in
  if len buf <? n then Err ErrTruncated
  else if spec =? RangeAllObjects then Ok (mkRange spec 0 0 0, 0)
  else
    rng ← (if one_of spec [RangeStartStop8; RangeVirtual8]
           then Ok (mkRange spec (at_ buf 0) (at_ buf 1) 0)
           else if one_of spec [RangeStartStop16; RangeVirtual16]
           then Ok (mkRange spec (le_val (slice 0 2 buf)) (le_val (slice 2 4 buf)) 0)
           else if one_of spec [RangeStartStop32; RangeVirtual32]
           then Ok (mkRange spec (le_val (slice 0 4 buf)) (le_val (slice 4 8 buf)) 0)
           else if one_of spec [RangeCount8; RangeVariable]
           then Ok (mkRange spec 0 0 (at_ buf 0))
           else if spec =? RangeCount16 then Ok (mkRange spec 0 0 (le_val (slice 0 2 buf)))
           else if spec =? RangeCount32 then Ok (mkRange spec 0 0 (le_val (slice 0 4 buf)))
           else Err ErrBadQualifier);
    if IsStartStop spec then
      if Stop rng <? Start rng then Err ErrBadRange
      else
        let count := Stop rng - Start rng + 1 in
        if 0xFFFFFFFF <? count then Err ErrBadRange
        else Ok (mkRange spec (Start rng) (Stop rng) (u32 count), n)
    else Ok (rng, n).

Definition appendRange (dst : list Z) (r : Range) : list Z :=
  if Spec r =? RangeAllObjects then dst
  else if one_of (Spec r) [RangeStartStop8; RangeVirtual8] then dst ++ [u8 (Start r); u8 (Stop r)]
  else if one_of (Spec r) [RangeStartStop16; RangeVirtual16] then (dst ++ le16 (Start r)) ++ le16 (Stop r)
  else if one_of (Spec r) [RangeStartStop32; RangeVirtual32] then (dst ++ le32 (Start r)) ++ le32 (Stop r)
  else if one_of (Spec r) [RangeCount8; RangeVariable] then dst ++ [u8 (Count r)]
  else if Spec r =? RangeCount16 then dst ++ le16 (Count r)
  else if Spec r =? RangeCount32 then dst ++ le32 (Count r)
  else dst.

(** ** Object sizes *)

(** [ObjectSizer]: the size of one object in bits, or nothing when it is not known. *)
Class ObjectSizer := SizeBits : Z -> Z -> option Z.

Definition gv (group variation : Z) : Z := Z.lor (Z.shiftl group 8) variation.

Definition generatedSizes_table : list ((Z * Z) * Z) :=
  [((1, 1), 1); ((1, 2), 8); ((2, 1), 8); ((2, 2), 56); ((2, 3), 24); ((3, 1), 2); ((3, 2), 8);
   ((4, 1), 8); ((4, 2), 56); ((4, 3), 24); ((10, 1), 1); ((10, 2), 8); ((11, 1), 8);
   ((11, 2), 56); ((12, 1), 88); ((12, 2), 88); ((12, 3), 1); ((13, 1), 8); ((13, 2), 56);
   ((20, 1), 40); ((20, 2), 24); ((20, 5), 32); ((20, 6), 16); ((21, 1), 40); ((21, 2), 24);
   ((21, 5), 88); ((21, 6), 72); ((21, 9), 32); ((21, 10), 16); ((22, 1), 40); ((22, 2), 24);
   ((22, 5), 88); ((22, 6), 72); ((23, 1), 40); ((23, 2), 24); ((23, 5), 88); ((23, 6), 72);
   ((30, 1), 40); ((30, 2), 24); ((30, 3), 32); ((30, 4), 16); ((30, 5), 40); ((30, 6), 72);
   ((31, 1), 40); ((31, 2), 24); ((31, 3), 88); ((31, 4), 72); ((31, 5), 32); ((31, 6), 16);
   ((31, 7), 40); ((31, 8), 72); ((32, 1), 40); ((32, 2), 24); ((32, 3), 88); ((32, 4), 72);
   ((32, 5), 40); ((32, 6), 72); ((32, 7), 88); ((32, 8), 120); ((33, 1), 40); ((33, 2), 24);
   ((33, 3), 88); ((33, 4), 72); ((33, 5), 40); ((33, 6), 72); ((33, 7), 88); ((33, 8), 120);
   ((34, 1), 16); ((34, 2), 32); ((34, 3), 32); ((40, 1), 40); ((40, 2), 24); ((40, 3), 40);
   ((40, 4), 72); ((41, 1), 40); ((41, 2), 24); ((41, 3), 40); ((41, 4), 72); ((42, 1), 40);
   ((42, 2), 24); ((42, 3), 88); ((42, 4), 72); ((42, 5), 40); ((42, 6), 72); ((42, 7), 88);
   ((42, 8), 120); ((43, 1), 40); ((43, 2), 24); ((43, 3), 88); ((43, 4), 72); ((43, 5), 40);
   ((43, 6), 72); ((43, 7), 88); ((43, 8), 120); ((50, 1), 48); ((50, 2), 80); ((50, 3), 48);
   ((50, 4), 88); ((51, 1), 48); ((51, 2), 48); ((52, 1), 16); ((52, 2), 16); ((60, 1), 0);
   ((60, 2), 0); ((60, 3), 0); ((60, 4), 0); ((80, 1), 1); ((86, 2), 8); ((120, 3), 48);
   ((120, 4), 16); ((121, 1), 56); ((122, 1), 56); ((122, 2), 104)].

(** The map as the generated file builds it, keyed by [gv]. *)
Definition generatedSizes (k : Z) : option Z :=
  snd <$> find (fun e => gv (fst (fst e)) (snd (fst e)) =? k) generatedSizes_table.
Definition lengthIsVariationGroups (group : Z) : bool := one_of group [110; 111; 112; 113].
Definition variableGroups (group : Z) : bool := one_of group [0; 70; 85; 86; 87; 88; 90; 91; 120].

#[export] Instance SpecSizer : ObjectSizer := fun group variation =>
  if lengthIsVariationGroups group then Some (variation * 8)
  else match generatedSizes (gv group variation) with
       | Some bits => Some bits
       | None => if variableGroups group then None else generatedSizes (gv group variation)
       end.
Definition SpecSizer_Known (group variation : Z) : bool := bool_decide (is_Some (SpecSizer group variation)).
Definition DefaultSizer : ObjectSizer := SpecSizer.

(** ** Object headers *)

Definition ObjectHeaderSize : Z := 3.

Record ObjectHeader := mkObjectHeader {
  Group : Z; Variation : Z; Qualifier : Z; ORange : Range; Data : list Z;
  Offset : Z; DataOffset : Z }.

#[export] Instance ObjectHeader_eq_dec : EqDecision ObjectHeader.
Proof. solve_decision. Defined.

Definition GroupVar (h : ObjectHeader) : Z := Z.lor (Z.shiftl (Group h) 8) (Variation h).
Definition ObjectHeader_Count (h : ObjectHeader) : Z := Count (ORange h).
Definition ObjectHeader_Size (h : ObjectHeader) : Z :=
  ObjectHeaderSize + RangeSpec_Octets (RangeSpec (Qualifier h)) + len (Data h).

Definition readUintLE (buf : list Z) (width : Z) : Z :=
  if width =? 1 then at_ buf 0
  else if width =? 2 then le_val (slice 0 2 buf)
  else if width =? 4 then le_val (slice 0 4 buf)
  else 0.

(** [for range count { body }] with a return on error, threading the offset.  Counts go up to
    2^32 - 1; every body moves the offset towards the end of the buffer, so a turn per octet
    and one more are enough. *)
Fixpoint range_loop (fuel : nat) (count : Z) (body : Z -> result AppErr Z) (off : Z)
    : option (result AppErr Z) :=
  if count <=? 0 then Some (Ok off)
  else match fuel with
       | O => None
       | S fuel => match body off with
                   | Ok off => range_loop fuel (count - 1) body off
                   | Err e => Some (Err e)
                   end
       end.

Definition for_range (count : Z) (body : Z -> result AppErr Z) (buf : list Z) (off : Z) : result AppErr Z :=
  default (Err ErrTruncated) (range_loop (length buf + 1) count body off).

Definition attribute_body (buf : list Z) (off : Z) : result AppErr Z :=
  if len buf <? off + 2 then Err ErrTruncated
  else
    let size := at_ buf (off + 1) in
    if len buf <? off + 2 + size then Err ErrTruncated else Ok (off + (2 + size)).
Definition walkAttributes (count : Z) (buf : list Z) : result AppErr Z :=
  for_range count (attribute_body buf) buf 0.

Definition sized_body (width : Z) (buf : list Z) (off : Z) : result AppErr Z :=
  if len buf <? off + width then Err ErrTruncated
  else
    let size := readUintLE (drop (Z.to_nat off) buf) width in
    let off := off + width in
    if len buf <? off + size then Err ErrTruncated else Ok (off + size).
Definition walkSizePrefixed (width count : Z) (buf : list Z) : result AppErr Z :=
  for_range count (sized_body width buf) buf 0.

(** Group 91 variation 1: status octets, then counted strings. *)
Definition string_body (buf : list Z) (off : Z) : result AppErr Z :=
  if (len buf <=? off) || (at_ buf off =? 0) || (len buf - off <? at_ buf off + 1) then Err ErrTruncated
  else Ok (off + (1 + at_ buf off)).
Definition activation_body (buf : list Z) (off : Z) : result AppErr Z :=
  if len buf - off <? 5 then Err ErrTruncated
  else for_range (at_ buf (off + 4)) (string_body buf) buf (off + 5).

Definition checkFits (total : Z) (buf : list Z) : result AppErr Z :=
  if len buf <? total then Err ErrTruncated else Ok total.

Definition objectDataLen (sizer : ObjectSizer) (h : ObjectHeader) (buf : list Z) (carriesData : bool)
    : result AppErr Z :=
  let prefix := IndexPrefix (Qualifier h) in
  let count := Count (ORange h) in
  if IsSize prefix && (0 <? count) && negb (Variation h =? 0) then
    walkSizePrefixed (IndexPrefix_Octets prefix) count buf
  else if IsSize prefix && (0 <? count) then Err ErrBadQualifier
  else if negb carriesData then
    if IsIndex prefix && IsCount (Spec (ORange h))
    then checkFits (u64 (count * IndexPrefix_Octets prefix)) buf
    else Ok 0
  else if Variation h =? 0 then Ok 0
  else if Spec (ORange h) =? RangeAllObjects then Ok 0
  else if count =? 0 then Ok 0
  else if Group h =? 0 then walkAttributes count buf
  else if (Group h =? 91) && (Variation h =? 1) then
    if negb (prefix =? PrefixNone) then Err ErrBadQualifier
    else for_range count (activation_body buf) buf 0
  else
    match sizer (Group h) (Variation h) with
    | None => Err ErrUnknownObject
    | Some bits =>
        if bits =? 0 then Ok 0
        else
          let prefixOctets := IndexPrefix_Octets prefix in
          if bits <? 8 then
            if negb (prefixOctets =? 0) then Err ErrBadQualifier
            else checkFits (u64 (u64 (count * u64 bits) + 7) / 8) buf
          else if negb (Z.rem bits 8 =? 0) then Err ErrUnknownObject
          else checkFits (u64 (count * u64 (prefixOctets + u64 bits / 8))) buf
    end.

(** A nil sizer is [DefaultSizer]. *)
Definition ParseObjectHeader (sizer : option ObjectSizer) (buf : list Z) (offset : Z) (carriesData : bool)
    : result AppErr (ObjectHeader * Z) :=
  let sizer := default DefaultSizer sizer in
  if len buf <? ObjectHeaderSize then Err ErrTruncated
  else
    let q := at_ buf 2 in
    if Reserved q then Err ErrBadQualifier
    else if negb (IndexPrefix_Valid (IndexPrefix q)) then Err ErrBadQualifier
    else if negb (RangeSpec_Valid (RangeSpec q)) then Err ErrBadQualifier
    else
      '(rng, rangeLen) ← parseRange (RangeSpec q) (drop (Z.to_nat ObjectHeaderSize) buf);
      let dataStart := ObjectHeaderSize + rangeLen in
      let h := mkObjectHeader (at_ buf 0) (at_ buf 1) q rng [] offset (offset + dataStart) in
      dataLen ← objectDataLen sizer h (drop (Z.to_nat dataStart) buf) carriesData;
      Ok (mkObjectHeader (Group h) (Variation h) q rng (slice dataStart (dataStart + dataLen) buf)
            offset (offset + dataStart),
          dataStart + dataLen).

Definition AppendObjectHeader (dst : list Z) (h : ObjectHeader) : list Z :=
  let dst := dst ++ [Group h; Variation h; Qualifier h] in
  let dst := appendRange dst (ORange h) in
  dst ++ Data h.

(** ** Free format *)

Definition FreeFormatQualifier : Z := MakeQualifier PrefixSize2 RangeVariable.
Definition MaxFreeFormatObject : Z := 0xFFFF.

Inductive FreeFormatErr := FreeFormatTooLong | NotFreeFormat | PrefixPastEnd | ObjectPastEnd | NoObject.

Definition FreeFormat (group variation : Z) (object : list Z) : result FreeFormatErr ObjectHeader :=
  if MaxFreeFormatObject <? len object then Err FreeFormatTooLong
  else Ok (mkObjectHeader group variation FreeFormatQualifier (mkRange RangeVariable 0 0 1)
             (le16 (u16 (len object)) ++ object) 0 0).

Fixpoint freeFormat_loop (fuel : nat) (width : Z) (data : list Z) (off : Z) (out : list (list Z))
    : option (result FreeFormatErr (list (list Z))) :=
  if len data <=? off then Some (Ok out)
  else match fuel with
       | O => None
       | S fuel =>
           if len data <? off + width then Some (Err PrefixPastEnd)
           else
             let size := readUintLE (drop (Z.to_nat off) data) width in
             let off := off + width in
             if len data <? off + size then Some (Err ObjectPastEnd)
             else freeFormat_loop fuel width data (off + size) (out ++ [slice off (off + size) data])
       end.

Definition FreeFormatObjects (h : ObjectHeader) : result FreeFormatErr (list (list Z)) :=
  let prefix := IndexPrefix (Qualifier h) in
  if negb (IsSize prefix) then Err NotFreeFormat
  else default (Err PrefixPastEnd)
         (freeFormat_loop (length (Data h)) (IndexPrefix_Octets prefix) (Data h) 0 []).

Definition FirstFreeFormatObject (h : ObjectHeader) : result FreeFormatErr (list Z) :=
  objs ← FreeFormatObjects h;
  match objs with [] => Err NoObject | o :: _ => Ok o end.

(** ** Walking object data

    A loop body is good when it moves the offset forward inside the buffer and does not
    depend on octets behind the offset it returns. *)

Definition good_body (B : list Z -> Z -> result AppErr Z) : Prop :=
  (forall d off off', octets_ok d -> 0 <= off -> B d off = Ok off' -> off < off' <= len d) /\
  (forall d rest off off', octets_ok d -> octets_ok rest -> 0 <= off -> off' <= len d ->
     (B d off = Ok off' <-> B (d ++ rest) off = Ok off')).

(** The successful runs of [for range count]. *)
Inductive loops (B : Z -> result AppErr Z) : Z -> Z -> Z -> Prop :=
| loops_done count off : count <= 0 -> loops B count off off
| loops_turn count off off' r :
    0 < count -> B off = Ok off' -> loops B (count - 1) off' r -> loops B count off r.

Section Walk.
Context (B : list Z -> Z -> result AppErr Z) (HB : good_body B).

Lemma loops_bounds d count off r :
  octets_ok d -> 0 <= off <= len d -> loops (B d) count off r -> off <= r <= len d.
Proof.
  intros Hd Ho H. induction H as [|count off off' r Hc Hb _ IH]; [lia|].
  destruct HB as [H1 _]. specialize (H1 d off off' Hd ltac:(lia) Hb). lia.
Qed.

Lemma range_loop_loops d fuel count off :
  octets_ok d -> 0 <= off <= len d -> len d - off < Z.of_nat fuel ->
  exists res, range_loop fuel count (B d) off = Some res /\
    forall r, res = Ok r <-> loops (B d) count off r.
Proof.
  intros Hd. revert count off. induction fuel as [|fuel IH]; intros count off Ho Hf; [lia|].
  cbn [range_loop]. destruct (count <=? 0) eqn:Ec; bool_prop.
  { exists (Ok off). split; [done|]. intros r. split.
    - intros [= <-]. by constructor.
    - intros H. inversion H; [done | lia]. }
  destruct (B d off) as [off'|e] eqn:Eb.
  - destruct HB as [H1 _]. pose proof (H1 d off off' Hd ltac:(lia) Eb).
    destruct (IH (count - 1) off' ltac:(lia) ltac:(lia)) as (res & -> & Hr).
    exists res. split; [done|]. intros r. rewrite Hr. split.
    + intros Hl. by eapply loops_turn.
    + intros H'. inversion H' as [|? ? ? ? ? Hb' Hl']; subst; [lia|].
      rewrite Eb in Hb'. by injection Hb' as ->.
  - exists (Err e). split; [done|]. intros r. split; [done|].
    intros H'. inversion H' as [|? ? ? ? ? Hb' Hl']; subst; [lia|]. congruence.
Qed.

(** The fuel of [for_range] is always enough. *)
Lemma for_range_total d count off :
  octets_ok d -> 0 <= off <= len d -> is_Some (range_loop (length d + 1) count (B d) off).
Proof.
  intros Hd Ho. destruct (range_loop_loops d (length d + 1) count off Hd Ho) as (res & -> & _); [|done].
  unfold len in *. lia.
Qed.

Lemma for_range_loops d count off r :
  octets_ok d -> 0 <= off <= len d ->
  for_range count (B d) d off = Ok r <-> loops (B d) count off r.
Proof.
  intros Hd Ho. unfold for_range.
  destruct (range_loop_loops d (length d + 1) count off Hd Ho) as (res & -> & H); [|exact (H r)].
  unfold len in *. lia.
Qed.

Lemma loops_local d rest count off r :
  octets_ok d -> octets_ok rest -> 0 <= off <= len d -> r <= len d ->
  loops (B d) count off r <-> loops (B (d ++ rest)) count off r.
Proof.
  intros Hd Hrest Ho Hr. pose proof HB as [H1 H2].
  assert (Hdr : octets_ok (d ++ rest)) by (by apply octets_ok_app). split; intros H.
  - induction H as [|count off off' r Hc Hb Hl IH]; [by constructor|].
    pose proof (H1 d off off' Hd ltac:(lia) Hb).
    eapply loops_turn; [done | | apply IH; lia]. apply H2; [done.. | lia | lia | done].
  - induction H as [|count off off' r Hc Hb Hl IH]; [by constructor|].
    pose proof (H1 _ off off' Hdr ltac:(lia) Hb).
    assert (off' <= r).
    { eapply loops_bounds in Hl; [lia | done | lia]. }
    eapply loops_turn; [done | | apply IH; lia]. by apply (H2 d rest off off'); try lia.
Qed.

Lemma for_range_local d rest count off r :
  octets_ok d -> octets_ok rest -> 0 <= off <= len d -> r <= len d ->
  for_range count (B d) d off = Ok r <-> for_range count (B (d ++ rest)) (d ++ rest) off = Ok r.
Proof.
  intros Hd Hrest Ho Hr. rewrite !for_range_loops; try done.
  - by apply loops_local.
  - by apply octets_ok_app.
  - rewrite len_app. pose proof (len_nonneg rest). lia.
Qed.

End Walk.

Lemma attribute_good : good_body attribute_body.
Proof.
  unfold attribute_body. split.
  - intros d off off' Hd Ho. pose proof (octets_ok_at d (off + 1) Hd) as Ha. unfold octet_ok in Ha.
    repeat destr_if; bool_prop; intros [= <-]; lia.
  - intros d rest off off' Hd Hrest Ho Hl. rewrite len_app. pose proof (len_nonneg rest).
    pose proof (octets_ok_at (d ++ rest) (off + 1)) as Ha. unfold octet_ok in Ha.
    specialize (Ha (proj2 (octets_ok_app _ _) (conj Hd Hrest))).
    destruct (len d <? off + 2) eqn:E1; bool_prop.
    + split; [done|]. repeat destr_if; bool_prop; intros [= <-]; lia.
    + rewrite at_app_l by lia. replace (len d + len rest <? off + 2) with false by (symmetry; apply Z.ltb_ge; lia).
      rewrite at_app_l in Ha by lia.
      destruct (len d <? off + 2 + at_ d (off + 1)) eqn:E2, (len d + len rest <? off + 2 + at_ d (off + 1)) eqn:E3;
        bool_prop; split; intros [= <-]; first [lia | done].
Qed.

Lemma string_good : good_body string_body.
Proof.
  unfold string_body. split.
  - intros d off off' Hd Ho. pose proof (octets_ok_at d off Hd) as Ha. unfold octet_ok in Ha.
    destruct (_ || _) eqn:E; [done|]. bool_prop. intros [= <-]. lia.
  - intros d rest off off' Hd Hrest Ho Hl. rewrite len_app. pose proof (len_nonneg rest).
    pose proof (octets_ok_at (d ++ rest) off) as Ha. unfold octet_ok in Ha.
    specialize (Ha (proj2 (octets_ok_app _ _) (conj Hd Hrest))).
    destruct (Z.leb_spec (len d) off).
    + cbn [orb]. split; [done|]. destruct (_ || _) eqn:E; [done|]. bool_prop. intros [= <-]. lia.
    + rewrite at_app_l in * by lia.
      replace (len d + len rest <=? off) with false by (symmetry; apply Z.leb_gt; lia). cbn [orb].
      destruct (at_ d off =? 0) eqn:E0; [done|]. cbn [orb].
      destruct (len d - off <? at_ d off + 1) eqn:E2, (len d + len rest - off <? at_ d off + 1) eqn:E3;
        bool_prop; split; intros [= <-]; first [lia | done].
Qed.

Lemma activation_good : good_body activation_body.
Proof.
  unfold activation_body. split.
  - intros d off off' Hd Ho. destruct (_ <? 5) eqn:E; [done|]. bool_prop.
    rewrite (for_range_loops _ string_good) by (done || lia). intros H.
    apply (loops_bounds _ string_good) in H; [lia | done | lia].
  - intros d rest off off' Hd Hrest Ho Hl. rewrite len_app. pose proof (len_nonneg rest).
    assert (Hdr : octets_ok (d ++ rest)) by (by apply octets_ok_app).
    destruct (len d - off <? 5) eqn:E1; bool_prop.
    + split; [done|]. destruct (len d + len rest - off <? 5) eqn:E2; [done|]. bool_prop.
      rewrite (for_range_loops _ string_good) by (rewrite ?len_app; done || lia). intros H1.
      apply (loops_bounds _ string_good) in H1; [lia | done | rewrite len_app; lia].
    + replace (len d + len rest - off <? 5) with false by (symmetry; apply Z.ltb_ge; lia).
      rewrite at_app_l by lia. apply (for_range_local _ string_good); done || lia.
Qed.

Lemma readUintLE_bound d off width :
  octets_ok d -> 0 <= readUintLE (drop (Z.to_nat off) d) width.
Proof.
  intros Hd. unfold readUintLE.
  repeat destr_if; try lia; try (apply octets_ok_at; auto with dnp3).
  all: apply le_val_bound; auto with dnp3.
Qed.

Lemma readUintLE_app d rest off width :
  0 <= off -> off + width <= len d ->
  readUintLE (drop (Z.to_nat off) (d ++ rest)) width = readUintLE (drop (Z.to_nat off) d) width.
Proof.
  intros Ho Hl. unfold readUintLE.
  destruct (Z.eqb_spec width 1); [|destruct (Z.eqb_spec width 2); [|destruct (Z.eqb_spec width 4); [|done]]].
  all: rewrite drop_app_le by (unfold len in *; lia).
  1: rewrite at_app_l; [done|].
  2, 3: rewrite slice_app_l; [done | lia |].
  all: unfold len in *; rewrite length_drop; lia.
Qed.

Lemma sized_good width : 0 < width -> good_body (sized_body width).
Proof.
  intros Hw. unfold sized_body. split.
  - intros d off off' Hd Ho. pose proof (readUintLE_bound d off width Hd).
    repeat destr_if; bool_prop; intros [= <-]; lia.
  - intros d rest off off' Hd Hrest Ho Hl. rewrite len_app. pose proof (len_nonneg rest).
    pose proof (readUintLE_bound (d ++ rest) off width (proj2 (octets_ok_app _ _) (conj Hd Hrest))) as Hb.
    destruct (len d <? off + width) eqn:E1; bool_prop.
    + split; [done|]. repeat destr_if; bool_prop; intros [= <-]; lia.
    + rewrite readUintLE_app in * by lia.
      replace (len d + len rest <? off + width) with false by (symmetry; apply Z.ltb_ge; lia).
      destruct (len d <? off + width + _) eqn:E2, (len d + len rest <? off + width + _) eqn:E3;
        bool_prop; split; intros [= <-]; first [lia | done].
Qed.

(** ** What [objectDataLen] promises: a length inside the buffer that does not depend on what
    comes after it *)

Definition local (L : list Z -> result AppErr Z) : Prop :=
  (forall d n, octets_ok d -> L d = Ok n -> 0 <= n <= len d) /\
  (forall d rest n, octets_ok d -> octets_ok rest -> n <= len d -> (L d = Ok n <-> L (d ++ rest) = Ok n)).

Lemma local_const n : n = 0 -> local (fun _ => Ok n).
Proof. intros ->. split; [|done]. intros d n _ [= <-]. pose proof (len_nonneg d). lia. Qed.
Lemma local_err e : local (fun _ => Err e).
Proof. done. Qed.

Lemma local_checkFits total : 0 <= total -> local (checkFits total).
Proof.
  intros Ht. unfold checkFits. split.
  - intros d n _. destr_if; bool_prop; intros [= <-]; lia.
  - intros d rest n _ _ Hn. rewrite len_app. pose proof (len_nonneg rest).
    repeat destr_if; bool_prop; split; intros [= <-]; first [lia | done].
Qed.

Lemma local_for_range B count :
  good_body B -> local (fun d => for_range count (B d) d 0).
Proof.
  intros HB. split.
  - intros d n Hd H. pose proof (len_nonneg d).
    rewrite (for_range_loops _ HB) in H by (done || lia).
    apply (loops_bounds _ HB) in H; [lia | done | lia].
  - intros d rest n Hd Hrest Hn. pose proof (len_nonneg d). apply (for_range_local _ HB); done || lia.
Qed.

Lemma size_prefix_pos p : IsSize p = true -> 0 < IndexPrefix_Octets p.
Proof.
  unfold IsSize. intros H. rewrite !orb_true_iff, !Z.eqb_eq in H. by destruct H as [[-> | ->] | ->].
Qed.

Lemma u64_nonneg x : 0 <= u64 x.
Proof. unfold u64. by apply Z.mod_pos_bound. Qed.

Lemma objectDataLen_local sizer h cd : local (fun d => objectDataLen sizer h d cd).
Proof.
  unfold objectDataLen.
  destruct (IsSize (IndexPrefix (Qualifier h))) eqn:Es; cbn [andb].
  1: destruct (0 <? Count (ORange h)); cbn [andb];
     [destruct (negb (Variation h =? 0));
      [apply local_for_range, sized_good, size_prefix_pos, Es | apply local_err]|].
  all: repeat match goal with |- local (fun d => if ?b then _ else _) => destruct b end.
  all: try apply local_err; try (by apply local_const); try (apply local_checkFits, u64_nonneg).
  all: try apply local_for_range, attribute_good; try apply local_for_range, activation_good.
  all: destruct (sizer (Group h) (Variation h)) as [bits|]; [|apply local_err].
  all: repeat match goal with |- local (fun d => if ?b then _ else _) => destruct b end.
  all: try apply local_err; try (by apply local_const); try (apply local_checkFits, u64_nonneg).
  all: apply local_checkFits, Z.div_pos; [apply u64_nonneg | lia].
Qed.

(** ** The range codec *)

(** A range a header can carry: its fields fit the widths its specifier gives them. *)
Definition range_ok (r : Range) : Prop :=
  0 <= Spec r /\ RangeSpec_Valid (Spec r) = true /\
  if IsStartStop (Spec r)
  then 0 <= Start r <= Stop r /\ Stop r < 2 ^ (4 * RangeSpec_Octets (Spec r)) /\
       Count r = Stop r - Start r + 1 /\ Count r <= 0xFFFFFFFF
  else Start r = 0 /\ Stop r = 0 /\ 0 <= Count r < 2 ^ (8 * RangeSpec_Octets (Spec r)).

Lemma spec_cases s :
  0 <= s -> RangeSpec_Valid s = true ->
  s = 0 \/ s = 1 \/ s = 2 \/ s = 3 \/ s = 4 \/ s = 5 \/ s = 6 \/ s = 7 \/ s = 8 \/ s = 9 \/ s = 11.
Proof.
  intros H0 H. unfold RangeSpec_Valid, RangeCount32, RangeVariable in H.
  apply orb_true_iff in H as [H|H]; [apply Z.leb_le in H | apply Z.eqb_eq in H]; lia.
Qed.

Lemma appendRange_dst dst r : appendRange dst r = dst ++ appendRange [] r.
Proof. unfold appendRange. repeat destr_if; rewrite ?app_nil_r, <- ?app_assoc; done. Qed.

Lemma len_appendRange r : 0 <= Spec r -> RangeSpec_Valid (Spec r) = true ->
  len (appendRange [] r) = RangeSpec_Octets (Spec r).
Proof.
  intros H0 Hv. destruct r as [s a b c]. cbn [Spec] in *.
  destruct (spec_cases s H0 Hv) as [->|[->|[->|[->|[->|[->|[->|[->|[->|[->| ->]]]]]]]]]]; reflexivity.
Qed.

Lemma appendRange_ok r : octets_ok (appendRange [] r).
Proof.
  unfold appendRange. repeat destr_if; cbn [app]; rewrite ?octets_ok_app; split_and?; auto with dnp3.
  all: repeat (constructor; [apply u8_ok|]); constructor.
Qed.

(** [eval_tests] decides the tests on a known specifier. *)
Ltac eval_tests :=
  repeat match goal with |- context [if ?b then _ else _] =>
    let v := eval vm_compute in b in
    match v with true => idtac | false => idtac end; change b with v; cbv iota
  end.

(** The two fields of a start-stop range, and the field of a count, read back. *)
Lemma fields8 a b rest :
  octet_ok a -> octet_ok b -> at_ ([u8 a; u8 b] ++ rest) 0 = a /\ at_ ([u8 a; u8 b] ++ rest) 1 = b.
Proof. intros. unfold at_. norm_nat. cbn [nth app]. by rewrite !u8_small. Qed.
Lemma fields16 a b rest :
  is_u16 a -> is_u16 b ->
  le_val (slice 0 2 (le16 a ++ le16 b ++ rest)) = a /\ le_val (slice 2 4 (le16 a ++ le16 b ++ rest)) = b.
Proof.
  intros. rewrite slice_front by (by rewrite len_le_bytes).
  rewrite slice_mid by (by rewrite len_le_bytes). by rewrite !le16_val.
Qed.
Lemma fields32 a b rest :
  is_u32 a -> is_u32 b ->
  le_val (slice 0 4 (le32 a ++ le32 b ++ rest)) = a /\ le_val (slice 4 8 (le32 a ++ le32 b ++ rest)) = b.
Proof.
  intros. rewrite slice_front by (by rewrite len_le_bytes).
  rewrite slice_mid by (by rewrite len_le_bytes). by rewrite !le32_val.
Qed.
Lemma field16 c rest : is_u16 c -> le_val (slice 0 2 (le16 c ++ rest)) = c.
Proof. intros. rewrite slice_front by (by rewrite len_le_bytes). by apply le16_val. Qed.
Lemma field32 c rest : is_u32 c -> le_val (slice 0 4 (le32 c ++ rest)) = c.
Proof. intros. rewrite slice_front by (by rewrite len_le_bytes). by apply le32_val. Qed.

Lemma parseRange_Append r rest :
  range_ok r -> parseRange (Spec r) (appendRange [] r ++ rest) = Ok (r, RangeSpec_Octets (Spec r)).
Proof.
  intros (H0 & Hv & Hr). pose proof (len_appendRange r H0 Hv) as Hl. pose proof (len_nonneg rest).
  unfold parseRange. rewrite len_app, Hl.
  replace (_ + len rest <? _) with false by (symmetry; apply Z.ltb_ge; lia).
  destruct r as [s a b c]. cbn [Spec Start Stop Count] in *. clear Hl.
  assert (Hend : forall s (n : Z), 0 <= a <= b -> c = b - a + 1 -> c <= 0xFFFFFFFF ->
    (if b <? a then Err ErrBadRange else if 0xFFFFFFFF <? b - a + 1 then Err ErrBadRange
     else Ok (mkRange s a b (u32 (b - a + 1)), n)) = Ok (mkRange s a b c, n)).
  { intros s' n Hab -> Hc. replace (b <? a) with false by (symmetry; apply Z.ltb_ge; lia).
    replace (_ <? _) with false by (symmetry; apply Z.ltb_ge; lia).
    by rewrite u32_small by (unfold is_u32; lia). }
  destruct (spec_cases s H0 Hv) as [->|[->|[->|[->|[->|[->|[->|[->|[->|[->| ->]]]]]]]]]].
  all: unfold appendRange; cbn [Spec Start Stop Count]; eval_tests; cbn in Hr.
  all: cbn [mbind result_bind]; rewrite <- ?app_assoc, ?app_nil_l; cbv beta.
  1, 4: destruct (fields8 a b rest) as [-> ->]; [unfold octet_ok; lia.. |]; apply Hend; lia.
  1, 3: destruct (fields16 a b rest) as [-> ->]; [unfold is_u16; lia.. |]; apply Hend; lia.
  1, 2: destruct (fields32 a b rest) as [-> ->]; [unfold is_u32; lia.. |]; apply Hend; lia.
  - destruct Hr as (-> & -> & Hc). by replace c with 0 by lia.
  - unfold at_. norm_nat. cbn [nth app]. rewrite u8_small by (unfold octet_ok; lia).
    by destruct Hr as (-> & -> & _).
  - rewrite field16 by (unfold is_u16; lia). by destruct Hr as (-> & -> & _).
  - rewrite field32 by (unfold is_u32; lia). by destruct Hr as (-> & -> & _).
  - unfold at_. norm_nat. cbn [nth app]. rewrite u8_small by (unfold octet_ok; lia).
    by destruct Hr as (-> & -> & _).
Qed.

Lemma refields8 buf : octets_ok buf -> 2 <= len buf -> [u8 (at_ buf 0); u8 (at_ buf 1)] = take 2 buf.
Proof.
  intros Ho Hl. destruct buf as [|x [|y buf]]; [unfold len in Hl; cbn in Hl; lia..|].
  apply octets_ok_cons in Ho as [Hx Ho]. apply octets_ok_cons in Ho as [Hy _].
  unfold at_. norm_nat. cbn [nth take]. by rewrite !u8_small.
Qed.
Lemma refield w buf i j :
  octets_ok buf -> 0 <= i -> j = i + Z.of_nat w -> j <= len buf ->
  le_bytes w (le_val (slice i j buf)) = slice i j buf /\ 0 <= le_val (slice i j buf) < 256 ^ Z.of_nat w.
Proof.
  intros Ho Hi -> Hl. assert (Hlen : length (slice i (i + Z.of_nat w) buf) = w).
  { rewrite length_slice by lia. lia. }
  split; [apply le_bytes_val; auto with dnp3|].
  pose proof (le_val_bound (slice i (i + Z.of_nat w) buf) ltac:(auto with dnp3)) as H.
  unfold len in H. by rewrite Hlen in H.
Qed.
Lemma slice_join (buf : list Z) i : 0 <= i -> slice 0 i buf ++ slice i (i + i) buf = take (Z.to_nat (i + i)) buf.
Proof.
  intros Hi. unfold slice. rewrite drop_0, Z.sub_0_r. replace (i + i - i) with i by lia.
  replace (Z.to_nat (i + i)) with (Z.to_nat i + Z.to_nat i)%nat by lia. apply take_take_drop.
Qed.

(** A parsed range is well formed and re-encodes to the octets it was read from. *)
Lemma parseRange_inv s buf r n :
  octets_ok buf -> 0 <= s -> RangeSpec_Valid s = true -> parseRange s buf = Ok (r, n) ->
  Spec r = s /\ range_ok r /\ n = RangeSpec_Octets s /\ appendRange [] r = take (Z.to_nat n) buf /\ n <= len buf.
Proof.
  intros Ho H0 Hv H. unfold parseRange in H.
  destruct (len buf <? RangeSpec_Octets s) eqn:El; [done|]. bool_prop.
  pose proof (octets_ok_at buf 0 Ho) as A0. pose proof (octets_ok_at buf 1 Ho) as A1. unfold octet_ok in A0, A1.
  assert (Hend : forall s a b (n n0 : Z) r0, (if b <? a then Err ErrBadRange
     else if 0xFFFFFFFF <? b - a + 1 then Err ErrBadRange
     else Ok (mkRange s a b (u32 (b - a + 1)), n0)) = Ok (r0, n) -> 0 <= a ->
     r0 = mkRange s a b (b - a + 1) /\ n = n0 /\ a <= b /\ b - a + 1 <= 0xFFFFFFFF).
  { intros s' a b n' n0 r0 He Ha. repeat match type of He with context [if ?b then _ else _] => destruct b eqn:? end;
      bool_prop; try done. injection He as <- <-. rewrite u32_small by (unfold is_u32; lia). lia || (split_and!; [done | done | lia | lia]). }
  assert (F16 : 4 <= len buf -> (slice 0 2 buf ++ slice 2 4 buf = take 4 buf /\
    le16 (le_val (slice 0 2 buf)) = slice 0 2 buf /\ le16 (le_val (slice 2 4 buf)) = slice 2 4 buf) /\
    0 <= le_val (slice 0 2 buf) < 65536 /\ 0 <= le_val (slice 2 4 buf) < 65536).
  { intros H4. destruct (refield 2 buf 0 2 Ho) as [? ?]; [lia.. |]. destruct (refield 2 buf 2 4 Ho) as [? ?]; [lia.. |].
    change (256 ^ Z.of_nat 2) with 65536 in *. split; [split; [by apply (slice_join buf 2) | done] | done]. }
  assert (F32 : 8 <= len buf -> (slice 0 4 buf ++ slice 4 8 buf = take 8 buf /\
    le32 (le_val (slice 0 4 buf)) = slice 0 4 buf /\ le32 (le_val (slice 4 8 buf)) = slice 4 8 buf) /\
    0 <= le_val (slice 0 4 buf) < 4294967296 /\ 0 <= le_val (slice 4 8 buf) < 4294967296).
  { intros H4. destruct (refield 4 buf 0 4 Ho) as [? ?]; [lia.. |]. destruct (refield 4 buf 4 8 Ho) as [? ?]; [lia.. |].
    change (256 ^ Z.of_nat 4) with 4294967296 in *. split; [split; [by apply (slice_join buf 4) | done] | done]. }
  assert (F1 : 1 <= len buf -> [u8 (at_ buf 0)] = take 1 buf).
  { intros H1. rewrite u8_small by done. destruct buf; [unfold len in H1; cbn in H1; lia | done]. }
  destruct (spec_cases s H0 Hv) as [->|[->|[->|[->|[->|[->|[->|[->|[->|[->| ->]]]]]]]]]].
  all: revert H; eval_tests; cbn [mbind result_bind]; eval_tests; cbn [Start Stop]; intros H.
  all: match type of El with RangeSpec_Octets ?s <= _ => let v := eval vm_compute in (RangeSpec_Octets s) in
         change (RangeSpec_Octets s) with v in * end.
  2, 5: destruct (F16 El) as ((J1 & J2 & J3) & J4 & J5).
  4, 6: destruct (F32 El) as ((J1 & J2 & J3) & J4 & J5).
  1, 2, 3, 4, 5, 6: apply Hend in H as (-> & -> & Hab & Hc); [|lia].
  7, 8, 9, 10, 11: injection H as <- <-.
  all: unfold range_ok, appendRange; cbn [Spec Start Stop Count]; eval_tests; norm_nat.
  all: split; [done|]; split; [split; [lia|]; split; [done|] | split; [done|]; split; [|lia]].
  all: match goal with |- context [2 ^ ?e] => let v := eval vm_compute in (2 ^ e) in change (2 ^ e) with v
       | _ => idtac end.
  all: try lia; rewrite ?app_nil_l; try done.
  all: try (rewrite J2, J3; exact J1); try (by apply refields8); try (by apply F1).
  all: try (destruct (refield 2 buf 0 2 Ho) as [J2 J3]; [lia.. |];
       change (256 ^ Z.of_nat 2) with 65536 in J3; first [lia | rewrite J2; done]).
  all: destruct (refield 4 buf 0 4 Ho) as [J2 J3]; [lia.. |];
       change (256 ^ Z.of_nat 4) with 4294967296 in J3; first [lia | rewrite J2; done].
Qed.

(** ** The object header codec *)

(** A header as the wire can carry it: the qualifier says the range's specifier, and the data
    is exactly what the group, variation, qualifier and range announce. *)
Definition object_ok (sizer : ObjectSizer) (cd : bool) (h : ObjectHeader) : Prop :=
  octet_ok (Group h) /\ octet_ok (Variation h) /\ octet_ok (Qualifier h) /\
  Reserved (Qualifier h) = false /\ IndexPrefix_Valid (IndexPrefix (Qualifier h)) = true /\
  RangeSpec (Qualifier h) = Spec (ORange h) /\ range_ok (ORange h) /\ octets_ok (Data h) /\
  objectDataLen sizer h (Data h) cd = Ok (len (Data h)).

(** The header as a parser at offset [off] of a fragment reports it. *)
Definition located (off : Z) (h : ObjectHeader) : ObjectHeader :=
  mkObjectHeader (Group h) (Variation h) (Qualifier h) (ORange h) (Data h)
    off (off + (ObjectHeaderSize + RangeSpec_Octets (RangeSpec (Qualifier h)))).

Lemma objectDataLen_ext sizer h h' d cd :
  Group h = Group h' -> Variation h = Variation h' -> Qualifier h = Qualifier h' -> ORange h = ORange h' ->
  objectDataLen sizer h d cd = objectDataLen sizer h' d cd.
Proof. intros H1 H2 H3 H4. unfold objectDataLen. by rewrite H1, H2, H3, H4. Qed.

Lemma AppendObjectHeader_app dst h :
  AppendObjectHeader dst h =
  dst ++ [Group h; Variation h; Qualifier h] ++ appendRange [] (ORange h) ++ Data h.
Proof. unfold AppendObjectHeader. by rewrite appendRange_dst, <- !app_assoc. Qed.

Lemma len_AppendObjectHeader sizer cd h :
  object_ok sizer cd h -> len (AppendObjectHeader [] h) = ObjectHeader_Size h.
Proof.
  intros (_ & _ & _ & _ & _ & Hs & (H0 & Hv & _) & _ & _). rewrite AppendObjectHeader_app, app_nil_l, !len_app.
  unfold ObjectHeader_Size. rewrite len_appendRange, Hs by done. change (len [_; _; _]) with 3. unfold ObjectHeaderSize. lia.
Qed.

Lemma ParseObjectHeader_Append sizer h rest off cd :
  object_ok (default DefaultSizer sizer) cd h -> octets_ok rest ->
  ParseObjectHeader sizer (AppendObjectHeader [] h ++ rest) off cd = Ok (located off h, ObjectHeader_Size h).
Proof.
  intros Hok Hrest. pose proof (len_AppendObjectHeader _ _ _ Hok) as Hlen.
  destruct Hok as (Hg & Hv & Hq & Hres & Hip & Hs & Hr & Hd & Hdl). pose proof Hr as (H0 & Hrv & _).
  unfold ParseObjectHeader. rewrite len_app, Hlen.
  assert (Ho0 : 0 <= RangeSpec_Octets (RangeSpec (Qualifier h)))
    by (rewrite Hs, <- (len_appendRange _ H0 Hrv); apply len_nonneg).
  pose proof (len_nonneg rest). pose proof (len_nonneg (Data h)).
  replace (_ <? ObjectHeaderSize) with false
    by (symmetry; apply Z.ltb_ge; unfold ObjectHeader_Size, ObjectHeaderSize; lia).
  rewrite AppendObjectHeader_app, app_nil_l.
  set (tail := appendRange [] (ORange h) ++ Data h). 
  change (at_ (([Group h; Variation h; Qualifier h] ++ tail) ++ rest) 0) with (Group h).
  change (at_ (([Group h; Variation h; Qualifier h] ++ tail) ++ rest) 1) with (Variation h).
  change (at_ (([Group h; Variation h; Qualifier h] ++ tail) ++ rest) 2) with (Qualifier h).
  rewrite Hres, Hip, Hs, Hrv. cbn [negb].
  change (drop (Z.to_nat ObjectHeaderSize) _) with (tail ++ rest). unfold tail.
  rewrite <- (app_assoc (appendRange [] (ORange h))), parseRange_Append by done. cbn [mbind result_bind].
  set (k := ObjectHeaderSize + RangeSpec_Octets (Spec (ORange h))).
  assert (Hk : len ([Group h; Variation h; Qualifier h] ++ appendRange [] (ORange h)) = k).
  { rewrite len_app, len_appendRange by done. reflexivity. }
  assert (Hbuf : ([Group h; Variation h; Qualifier h] ++ appendRange [] (ORange h) ++ Data h) ++ rest
               = ([Group h; Variation h; Qualifier h] ++ appendRange [] (ORange h)) ++ Data h ++ rest).
  { by rewrite <- !app_assoc. }
  rewrite Hbuf. replace (drop (Z.to_nat k) _) with (Data h ++ rest).
  2:{ rewrite <- Hk. unfold len. by rewrite Nat2Z.id, drop_app_length. }
  assert (Hn : objectDataLen (default DefaultSizer sizer) h (Data h ++ rest) cd = Ok (len (Data h))).
  { apply (proj2 (objectDataLen_local (default DefaultSizer sizer) h cd)); done || lia. }
  erewrite objectDataLen_ext with (h' := h); [|done..]. rewrite Hn. cbn [mbind result_bind].
  rewrite slice_mid by lia. unfold located, ObjectHeader_Size. rewrite Hs. done.
Qed.

Lemma slice_split (buf : list Z) k n :
  0 <= k -> 0 <= n -> take (Z.to_nat k) buf ++ slice k (k + n) buf = take (Z.to_nat (k + n)) buf.
Proof.
  intros Hk Hn. unfold slice. replace (k + n - k) with n by lia. rewrite Z2Nat.inj_add by done.
  apply take_take_drop.
Qed.

Lemma ParseObjectHeader_inv sizer buf off cd h n :
  octets_ok buf -> ParseObjectHeader sizer buf off cd = Ok (h, n) ->
  object_ok (default DefaultSizer sizer) cd h /\ h = located off h /\
  n = ObjectHeader_Size h /\ 3 <= n <= len buf /\ AppendObjectHeader [] h = take (Z.to_nat n) buf.
Proof.
  intros Ho H. unfold ParseObjectHeader in H. destruct (len buf <? ObjectHeaderSize) eqn:El; [done|].
  bool_prop. unfold ObjectHeaderSize in El.
  destruct buf as [|g [|v [|q buf]]]; [unfold len in El; cbn in El; lia..|].
  pose proof Ho as Ho'. apply octets_ok_cons in Ho' as [Hg Ho']. apply octets_ok_cons in Ho' as [Hv Ho'].
  apply octets_ok_cons in Ho' as [Hq Ho'].
  change (at_ (g :: v :: q :: buf) 0) with g in H. change (at_ (g :: v :: q :: buf) 1) with v in H.
  change (at_ (g :: v :: q :: buf) 2) with q in H.
  destruct (Reserved q) eqn:Er; [done|]. destruct (IndexPrefix_Valid (IndexPrefix q)) eqn:Ei; [|done].
  destruct (RangeSpec_Valid (RangeSpec q)) eqn:Es; [|done]. cbn [negb] in H.
  change (drop (Z.to_nat ObjectHeaderSize) _) with buf in H.
  destruct (parseRange (RangeSpec q) buf) as [[rng k]|] eqn:Ep; [|done]. cbn [mbind result_bind] in H.
  assert (Hq0 : 0 <= RangeSpec q) by (unfold RangeSpec; apply Z.land_nonneg; lia).
  destruct (parseRange_inv _ _ _ _ Ho' Hq0 Es Ep) as (Hspec & Hrok & Hk & Happ & Hkl).
  assert (Hk0 : 0 <= k) by (subst k; rewrite <- Hspec, <- len_appendRange; [apply len_nonneg | lia | by rewrite Hspec]).
  set (h0 := mkObjectHeader g v q rng [] off _) in H.
  replace (drop (Z.to_nat (ObjectHeaderSize + k)) (g :: v :: q :: buf)) with (drop (Z.to_nat k) buf) in H.
  2:{ unfold ObjectHeaderSize. rewrite Z2Nat.inj_add by lia. reflexivity. }
  destruct (objectDataLen _ h0 _ cd) as [m|] eqn:Ed; [|done]. cbn [mbind result_bind] in H.
  injection H as <- <-. cbn [Group Variation h0].
  assert (Hod : octets_ok (drop (Z.to_nat k) buf)) by auto with dnp3.
  destruct (objectDataLen_local (default DefaultSizer sizer) h0 cd) as [L1 L2].
  pose proof (L1 _ _ Hod Ed) as Hm. assert (Hdl : len (drop (Z.to_nat k) buf) = len buf - k)
    by (unfold len in *; rewrite length_drop; lia).
  set (dat := slice (ObjectHeaderSize + k) (ObjectHeaderSize + k + m) (g :: v :: q :: buf)).
  assert (Hdat : dat = take (Z.to_nat m) (drop (Z.to_nat k) buf)).
  { unfold dat, slice, ObjectHeaderSize. replace (3 + k + m - (3 + k)) with m by lia.
    rewrite Z2Nat.inj_add by lia. reflexivity. }
  assert (Hdok : octets_ok dat) by (rewrite Hdat; auto with dnp3). clearbody dat.
  assert (Hlen : len dat = m) by (rewrite Hdat; unfold len in *; rewrite length_take; lia).
  unfold located, object_ok, ObjectHeader_Size. cbn [Group Variation Qualifier ORange Data Offset DataOffset].
  rewrite Hlen, <- Hk. repeat (rewrite !len_cons in * ).
  split; [split_and!; try done; try exact Hdok|split; [done|split; [done|split]]].
  - erewrite objectDataLen_ext with (h' := h0); [|done..].
    apply (L2 dat (drop (Z.to_nat m) (drop (Z.to_nat k) buf)) m); [exact Hdok | auto with dnp3 | lia |].
    by rewrite Hdat, take_drop.
  - unfold ObjectHeaderSize. lia.
  - rewrite AppendObjectHeader_app. cbn [Group Variation Qualifier ORange Data app]. rewrite Happ, Hdat.
    unfold ObjectHeaderSize. replace (3 + k + m) with (3 + (k + m)) by lia.
    rewrite (Z2Nat.inj_add 3), (Z2Nat.inj_add k) by lia. cbn [Nat.add Z.to_nat]. 
    change (Z.to_nat 3) with 3%nat. cbn [take Nat.add]. by rewrite take_take_drop.
Qed.

(** ** Free-format objects *)

(** One object with its size prefix of [width] octets. *)
Definition sized (width : Z) (o : list Z) : list Z := le_bytes (Z.to_nat width) (len o) ++ o.

Definition width_ok (width : Z) : Prop := width = 1 \/ width = 2 \/ width = 4.

Lemma size_prefix_width p : IsSize p = true -> width_ok (IndexPrefix_Octets p).
Proof.
  unfold IsSize, width_ok. intros H. rewrite !orb_true_iff, !Z.eqb_eq in H.
  destruct H as [[-> | ->] | ->]; vm_compute; tauto.
Qed.

Lemma readUintLE_slice d off width :
  width_ok width -> octets_ok d -> 0 <= off -> off + width <= len d ->
  readUintLE (drop (Z.to_nat off) d) width = le_val (slice off (off + width) d).
Proof.
  intros Hw Hd Ho Hl. unfold readUintLE, slice. replace (off + width - off) with width by lia.
  unfold len in Hl. destruct Hw as [-> | [-> | ->]]; cbn [Z.eqb Pos.eqb]; [|done..].
  unfold at_. norm_nat. assert (H : (1 <= length (drop (Z.to_nat off) d))%nat) by (rewrite length_drop; lia).
  destruct (drop (Z.to_nat off) d); [cbn in H; lia|]. cbn [nth take le_val]. rewrite take_0. cbn [le_val]. lia.
Qed.

Lemma slice_at (d : list Z) off n : 0 <= off -> 0 <= n ->
  drop (Z.to_nat off) d = slice off (off + n) d ++ drop (Z.to_nat (off + n)) d.
Proof.
  intros Ho Hn. unfold slice. replace (off + n - off) with n by lia.
  rewrite Z2Nat.inj_add, <- drop_drop by done. symmetry. apply take_drop.
Qed.

(** What the size walk accepts is exactly what the object reader splits. *)
Lemma freeFormat_walk d width count off fuel out :
  width_ok width -> octets_ok d -> 0 <= off <= len d -> len d - off <= Z.of_nat fuel ->
  loops (sized_body width d) count off (len d) ->
  exists objs, freeFormat_loop fuel width d off out = Some (Ok (out ++ objs)) /\
    len objs = Z.max 0 count /\ drop (Z.to_nat off) d = concat (sized width <$> objs).
Proof.
  intros Hw Hd Ho Hf H. assert (Hwp : 0 < width) by (destruct Hw as [-> | [-> | ->]]; lia).
  remember (len d) as r eqn:Er. revert fuel out Ho Hf Er.
  induction H as [count off Hc|count off off' r Hc Hb Hl IH]; intros fuel out Ho Hf Er.
  - exists []. rewrite app_nil_r. split; [|split].
    + destruct fuel; cbn [freeFormat_loop]; rewrite <- Er; by rewrite Z.leb_refl.
    + rewrite len_nil. lia.
    + cbn. apply drop_ge. unfold len in Er. lia.
  - pose proof (sized_good width Hwp) as HG.
    pose proof (proj1 HG d off off' Hd ltac:(lia) Hb) as Hprog.
    unfold sized_body in Hb.
    destruct (len d <? off + width) eqn:E1; [done|].
    destruct (len d <? off + width + _) eqn:E2; [done|]. bool_prop. injection Hb as <-.
    set (size := readUintLE (drop (Z.to_nat off) d) width) in *.
    assert (Hs0 : 0 <= size) by (by apply readUintLE_bound).
    destruct fuel as [|fuel]; [lia|].
    set (o := slice (off + width) (off + width + size) d).
    assert (Hoff : off + width + size <= r) by lia.
    destruct (IH fuel (out ++ [o])) as (objs & He & Hn & Hcat); [lia | lia | done |].
    exists (o :: objs). cbn [freeFormat_loop].
    replace (len d <=? off) with false by (symmetry; apply Z.leb_gt; lia).
    replace (len d <? off + width) with false by (symmetry; apply Z.ltb_ge; lia). fold size.
    replace (len d <? off + width + size) with false by (symmetry; apply Z.ltb_ge; lia).
    split; [|split].
    + fold o. rewrite He, <- app_assoc. done.
    + rewrite len_cons. lia.
    + cbn [fmap list_fmap concat]. rewrite <- Hcat, (slice_at d off width), (slice_at d (off + width) size) by lia.
      fold o. rewrite app_assoc. f_equal. unfold sized. f_equal.
      assert (Ho' : len o = size) by (unfold o; rewrite len_slice by lia; lia).
      rewrite Ho'. unfold size. rewrite readUintLE_slice by (done || lia). symmetry. apply le_bytes_val; [auto with dnp3|].
      rewrite length_slice by lia. lia.
Qed.

(** Encoding then parsing an object header gives it back, with its place in the
    fragment filled in, whatever octets follow; for every group, variation, qualifier and
    range and every object sizer, provided the data is what the header announces. *)
Theorem object_roundtrip sizer h rest off cd :
  object_ok (default DefaultSizer sizer) cd h -> octets_ok rest ->
  ParseObjectHeader sizer (AppendObjectHeader [] h ++ rest) off cd = Ok (located off h, ObjectHeader_Size h).
Proof. apply ParseObjectHeader_Append. Qed.

(** Three 16-bit analog inputs with flag, indexes 2 to 4. *)
Definition witness_object : ObjectHeader :=
  mkObjectHeader 30 2 0 (mkRange RangeStartStop8 2 4 3) [1; 5; 0; 1; 6; 0; 1; 7; 0] 0 0.

Lemma object_roundtrip_witness :
  ParseObjectHeader None (AppendObjectHeader [] witness_object ++ [60; 1; 6]) 4 true =
    Ok (located 4 witness_object, 14).
Proof.
  apply (object_roundtrip None witness_object [60; 1; 6] 4 true).
  - unfold object_ok, range_ok. cbn -[Z.pow]. split_and!; try (vm_compute; done).
    all: vm_compute; repeat constructor; discriminate.
  - vm_compute. repeat constructor; discriminate.
Defined.

(** Parsing is exact: a header accepted from arbitrary octets lies inside them, carries
    exactly the data its fields announce, and re-encodes to the octets it was read from, so
    no two encodings are read as the same header. *)
Theorem object_canonical sizer buf off cd h n :
  octets_ok buf -> ParseObjectHeader sizer buf off cd = Ok (h, n) ->
  object_ok (default DefaultSizer sizer) cd h /\ n = ObjectHeader_Size h /\ 3 <= n <= len buf /\
  AppendObjectHeader [] h = take (Z.to_nat n) buf.
Proof. intros Ho H. by destruct (ParseObjectHeader_inv _ _ _ _ _ _ Ho H) as (? & _ & ? & ? & ?). Qed.

Lemma object_canonical_witness :
  let buf := AppendObjectHeader [] witness_object ++ [9; 9] in
  AppendObjectHeader [] (located 0 witness_object) = take 14 buf.
Proof.
  intros buf. destruct (object_canonical None buf 0 true (located 0 witness_object) 14) as (_ & _ & _ & H).
  - vm_compute. repeat constructor; discriminate.
  - vm_compute. reflexivity.
  - exact H.
Defined.

(** The size walk and the object reader agree: a free-format header the parser accepted
    always splits, into exactly the number of objects its range announces, and the pieces
    with their size prefixes are its data. *)
Theorem freeFormat_agrees sizer cd h :
  object_ok sizer cd h -> IsSize (IndexPrefix (Qualifier h)) = true ->
  0 < Count (ORange h) -> Variation h <> 0 ->
  exists objs, FreeFormatObjects h = Ok objs /\ len objs = Count (ORange h) /\
    Data h = concat (sized (IndexPrefix_Octets (IndexPrefix (Qualifier h))) <$> objs).
Proof.
  intros (_ & _ & _ & _ & _ & _ & _ & Hd & Hdl) Hs Hc Hv.
  unfold objectDataLen in Hdl. rewrite Hs in Hdl. apply Z.ltb_lt in Hc as Hc'. rewrite Hc' in Hdl.
  apply Z.eqb_neq in Hv. rewrite Hv in Hdl. cbn [andb negb] in Hdl.
  pose proof (len_nonneg (Data h)).
  unfold walkSizePrefixed in Hdl.
  rewrite (for_range_loops _ (sized_good _ (size_prefix_pos _ Hs))) in Hdl by (done || lia).
  destruct (freeFormat_walk (Data h) _ (Count (ORange h)) 0 (length (Data h)) [] (size_prefix_width _ Hs) Hd) as (objs & He & Hn & Hcat);
    [lia | unfold len; lia | exact Hdl |].
  exists objs. unfold FreeFormatObjects. rewrite Hs. cbn [negb]. rewrite He. split_and!; [done | lia | exact Hcat].
Qed.

Lemma freeFormat_agrees_witness :
  exists h, FreeFormat 70 5 [1; 2; 3] = Ok h /\
  exists objs, FreeFormatObjects h = Ok objs /\ len objs = 1 /\ Data h = concat (sized 2 <$> objs).
Proof.
  eexists. split; [vm_compute; reflexivity|]. eapply (freeFormat_agrees DefaultSizer true).
  - unfold object_ok, range_ok. cbn -[Z.pow]. split_and!; try (vm_compute; done).
    all: vm_compute; repeat constructor; discriminate.
  - reflexivity.
  - reflexivity.
  - discriminate.
Defined.

(** An object in free format is well formed whatever it holds, and comes back. *)
Lemma FreeFormat_roundtrip sizer cd g v o h :
  octet_ok g -> 0 < v < 256 -> octets_ok o -> FreeFormat g v o = Ok h ->
  object_ok sizer cd h /\ FreeFormatObjects h = Ok [o] /\ ObjectHeader_Size h = 6 + len o.
Proof.
  intros Hg Hv Ho Hf. unfold FreeFormat in Hf. destruct (Z.ltb_spec MaxFreeFormatObject (len o)) as [|Hl]; [done|].
  injection Hf as <-. unfold MaxFreeFormatObject in Hl. pose proof (len_nonneg o).
  rewrite u16_small by (unfold is_u16; lia). set (d := le16 (len o) ++ o).
  change (u8 (len o) :: u8 (Z.shiftr (len o) 8) :: o) with d.
  assert (Hd : len d = 2 + len o) by (unfold d; by rewrite len_app, len_le_bytes).
  assert (Hdo : octets_ok d) by (unfold d; apply octets_ok_app; split; [apply le_bytes_ok | done]).
  assert (Hr : readUintLE d 2 = len o).
  { change d with (drop (Z.to_nat 0) d). rewrite readUintLE_slice; [|by (unfold width_ok; auto) | done | lia | lia].
    unfold d. rewrite slice_here by (rewrite ?len_le_bytes; done). apply le16_val. unfold is_u16. lia. }
  assert (Hsl : slice (0 + 2) (0 + 2 + len o) d = o).
  { unfold d. by rewrite slice_skip, slice_last by (rewrite ?len_le_bytes; lia). }
  clearbody d. split_and!.
  - unfold object_ok, range_ok. cbn [Group Variation Qualifier ORange Data Spec Start Stop Count].
    split_and!; try done; [unfold octet_ok; lia|].
    unfold objectDataLen. cbn [Qualifier ORange Count Variation]. change (IsSize (IndexPrefix FreeFormatQualifier)) with true.
    rewrite (proj2 (Z.eqb_neq v 0)) by lia. cbn [Z.ltb Z.compare andb negb]. change (IndexPrefix_Octets (IndexPrefix FreeFormatQualifier)) with 2.
    unfold walkSizePrefixed, for_range. replace (length d + 1)%nat with (S (length d)) by lia. cbn [range_loop Z.leb Z.compare].
    unfold sized_body. cbv zeta. change (Z.to_nat 0) with 0%nat. rewrite drop_0, Hr.
    rewrite (proj2 (Z.ltb_ge (len d) (0 + 2))), (proj2 (Z.ltb_ge (len d) (0 + 2 + len o))) by lia.
    change (1 - 1) with 0. destruct (length d); cbn [range_loop Z.leb Z.compare default]; unfold id; f_equal; lia.
  - unfold FreeFormatObjects. cbn [Qualifier Data]. change (IsSize (IndexPrefix FreeFormatQualifier)) with true.
    change (IndexPrefix_Octets (IndexPrefix FreeFormatQualifier)) with 2. cbn [negb].
    assert (Hn : exists m, length d = S (S m)) by (exists (length d - 2)%nat; unfold len in *; lia). destruct Hn as [m ->].
    cbn [freeFormat_loop]. rewrite (proj2 (Z.leb_gt (len d) 0)), (proj2 (Z.ltb_ge (len d) (0 + 2))) by lia.
    cbv zeta. change (Z.to_nat 0) with 0%nat. rewrite drop_0, Hr, (proj2 (Z.ltb_ge (len d) (0 + 2 + len o))) by lia.
    rewrite (proj2 (Z.leb_le (len d) (0 + 2 + len o))) by lia. cbn [app default]. by rewrite Hsl.
  - unfold ObjectHeader_Size. cbn [Qualifier Data]. rewrite Hd. change (RangeSpec_Octets (RangeSpec FreeFormatQualifier)) with 1.
    unfold ObjectHeaderSize. lia.
Qed.
