(* ===== verification/AppFragment.v ===== *)
(** * Application fragments (src/internal/app/fragment.go)

    Parsing a fragment into its header and object headers, and building one, either in one
    call or with the size-limited [Builder].

    The theorems: parsing always terminates, accounts for every octet it accepts and is the
    inverse of building; and a builder never exceeds its limit and never half-writes. *)

From S2P Require Import Prelude AppHeader AppObject.

Record Fragment := mkFragment { FHeader : Header; Objects : list ObjectHeader; Raw : list Z }.

Definition Header0 : Header := mkHeader (mkControl false false false false 0) 0 0.

(** The error of a fragment: of its header, or of the object header at an offset. *)
Inductive FragmentErr :=
| ErrHeader (e : AppErr)
| ErrObjectAt (off : Z) (e : AppErr)
| ErrExpectedRequest
| ErrExpectedResponse.

(** Parsing returns the headers decoded so far even when it fails.  Every turn takes at least
    one octet, so a turn per octet is enough. *)
Fixpoint parse_objects (fuel : nat) (sizer : option ObjectSizer) (func : Z) (buf : list Z) (off : Z)
    (objs : list ObjectHeader) : option (list ObjectHeader * option FragmentErr) :=
  if len buf <=? off then Some (objs, None)
  else match fuel with
       | O => None
       | S fuel =>
           let objectCarriesData :=
             if (func =? FuncFreezeAtTime) || (func =? FuncFreezeAtTimeNR)
             then at_ buf off =? 50 else CarriesObjectData func in
           match ParseObjectHeader sizer (drop (Z.to_nat off) buf) off objectCarriesData with
           | Err e => Some (objs, Some (ErrObjectAt off e))
           | Ok (oh, used) =>
               if used =? 0 then Some (objs, Some (ErrObjectAt off ErrTruncated))
               else parse_objects fuel sizer func buf (off + used) (objs ++ [oh])
           end
       end.

Definition ParseFragment (sizer : option ObjectSizer) (buf : list Z) : Fragment * option FragmentErr :=
  match ParseHeader buf with
  | Err e => (mkFragment Header0 [] buf, Some (ErrHeader e))
  | Ok (h, n) =>
      match parse_objects (length buf) sizer (Func h) buf n [] with
      | Some (objs, err) => (mkFragment h objs buf, err)
      | None => (mkFragment h [] buf, Some (ErrHeader ErrTruncated))
      end
  end.

Definition ParseRequest (sizer : option ObjectSizer) (buf : list Z) : Fragment * option FragmentErr :=
  let '(f, err) := ParseFragment sizer buf in
  match err with
  | Some _ => (f, err)
  | None => if Header_IsResponse (FHeader f) then (f, Some ErrExpectedRequest) else (f, None)
  end.

Definition ParseResponse (sizer : option ObjectSizer) (buf : list Z) : Fragment * option FragmentErr :=
  let '(f, err) := ParseFragment sizer buf in
  match err with
  | Some _ => (f, err)
  | None => if negb (Header_IsResponse (FHeader f)) then (f, Some ErrExpectedResponse) else (f, None)
  end.

(** ** Building *)

Record Builder := mkBuilder { b_buf : list Z; b_max : Z; headerWritten : bool }.

Inductive BuildErr := AlreadyWritten | HeaderMissing | BuildTooLarge.

Definition NewBuilder (max : Z) : Builder :=
  mkBuilder [] (if max <=? 0 then DefaultMaxFragment else max) false.
Definition Builder_Reset (b : Builder) : Builder := mkBuilder [] (b_max b) false.
Definition Builder_Len (b : Builder) : Z := len (b_buf b).
Definition Remaining (b : Builder) : Z := b_max b - len (b_buf b).
Definition Bytes (b : Builder) : list Z := b_buf b.

Definition SetHeader (b : Builder) (h : Header) : Builder * option BuildErr :=
  if headerWritten b then (b, Some AlreadyWritten)
  else if Remaining b <? Header_Size h then (b, Some BuildTooLarge)
  else (mkBuilder (AppendHeader (b_buf b) h) (b_max b) true, None).

Definition AddObject (b : Builder) (h : ObjectHeader) : Builder * option BuildErr :=
  if negb (headerWritten b) then (b, Some HeaderMissing)
  else if Remaining b <? ObjectHeader_Size h then (b, Some BuildTooLarge)
  else (mkBuilder (AppendObjectHeader (b_buf b) h) (b_max b) (headerWritten b), None).

Definition Fits (b : Builder) (h : ObjectHeader) : bool := ObjectHeader_Size h <=? Remaining b.

Definition append_objects (dst : list Z) (objects : list ObjectHeader) : list Z :=
  fold_left AppendObjectHeader objects dst.
Definition BuildRequest (dst : list Z) (c : Control) (fc : Z) (objects : list ObjectHeader) : list Z :=
  append_objects (AppendHeader dst (mkHeader c fc 0)) objects.
Definition BuildResponse (dst : list Z) (c : Control) (fc iin : Z) (objects : list ObjectHeader) : list Z :=
  append_objects (AppendHeader dst (mkHeader c fc iin)) objects.

Definition ReadAllObjects (group variation : Z) : ObjectHeader :=
  mkObjectHeader group variation (MakeQualifier PrefixNone RangeAllObjects)
    (mkRange RangeAllObjects 0 0 0) [] 0 0.

Definition ReadRange (group variation start stop : Z) : ObjectHeader :=
  let spec := if stop <=? 0xFF then RangeStartStop8
              else if stop <=? 0xFFFF then RangeStartStop16 else RangeStartStop32 in
  mkObjectHeader group variation (MakeQualifier PrefixNone spec)
    (mkRange spec start stop (u32 (u32 (stop - start) + 1))) [] 0 0.

(** ** Parsing and building are inverse *)

(** Whether the object header starting with octet [g] carries data, in a fragment with this
    function code. *)
Definition carries (func g : Z) : bool :=
  if (func =? FuncFreezeAtTime) || (func =? FuncFreezeAtTimeNR) then g =? 50 else CarriesObjectData func.

Definition encode_objects (objs : list ObjectHeader) : list Z :=
  concat ((fun o => AppendObjectHeader [] o) <$> objs).

Lemma AppendObjectHeader_dst dst h : AppendObjectHeader dst h = dst ++ AppendObjectHeader [] h.
Proof. by rewrite !AppendObjectHeader_app. Qed.

Lemma append_objects_encode dst objs : append_objects dst objs = dst ++ encode_objects objs.
Proof.
  revert dst. induction objs as [|o objs IH]; intros dst; cbn.
  - by rewrite app_nil_r.
  - unfold append_objects in IH. rewrite IH, AppendObjectHeader_dst. by rewrite <- app_assoc.
Qed.

(** Object headers laid out one after another from offset [off]. *)
Fixpoint laid_out (off : Z) (objs : list ObjectHeader) : list ObjectHeader :=
  match objs with
  | [] => []
  | o :: objs => located off o :: laid_out (off + ObjectHeader_Size o) objs
  end.

Lemma AppendObjectHeader_located off o dst : AppendObjectHeader dst (located off o) = AppendObjectHeader dst o.
Proof. done. Qed.

Lemma AppendObjectHeader_octets sizer cd o : object_ok sizer cd o -> octets_ok (AppendObjectHeader [] o).
Proof.
  intros (Hg & Hv & Hq & _ & _ & _ & _ & Hd & _). rewrite AppendObjectHeader_app, app_nil_l.
  rewrite !octets_ok_app. split_and!; [|apply appendRange_ok | done].
  by repeat (constructor; [done|]).
Qed.

Lemma object_size_pos sizer cd o : object_ok sizer cd o -> 3 <= ObjectHeader_Size o.
Proof.
  intros H. pose proof H as (_ & _ & _ & _ & _ & Hs & (H0 & Hv & _) & _ & _).
  unfold ObjectHeader_Size, ObjectHeaderSize. rewrite Hs, <- (len_appendRange _ H0 Hv).
  pose proof (len_nonneg (appendRange [] (ORange o))). pose proof (len_nonneg (Data o)). lia.
Qed.

Section Codec.
Context (sizer : option ObjectSizer) (func : Z).

Definition objects_ok (objs : list ObjectHeader) : Prop :=
  Forall (fun o => object_ok (default DefaultSizer sizer) (carries func (Group o)) o) objs.

Lemma parse_objects_encode fuel pre objs acc :
  octets_ok pre -> objects_ok objs -> (length (encode_objects objs) <= fuel)%nat ->
  parse_objects fuel sizer func (pre ++ encode_objects objs) (len pre) acc =
    Some (acc ++ laid_out (len pre) objs, None).
Proof.
  intros Hpre Ho. revert fuel pre acc Hpre.
  induction Ho as [|o objs Hok Ho IH]; intros fuel pre acc Hpre Hf.
  { unfold encode_objects. cbn. rewrite !app_nil_r. destruct fuel; cbn; by rewrite Z.leb_refl. }
  pose proof (object_size_pos _ _ _ Hok) as Hsz. pose proof (len_AppendObjectHeader _ _ _ Hok) as Hlen.
  change (encode_objects (o :: objs)) with (AppendObjectHeader [] o ++ encode_objects objs) in *.
  rewrite length_app in Hf. pose proof Hlen as HlenN. unfold len in HlenN.
  destruct fuel as [|fuel]; [lia|]. cbn [parse_objects].
  pose proof (len_nonneg (encode_objects objs)).
  replace (len (pre ++ _) <=? len pre) with false.
  2:{ symmetry. apply Z.leb_gt. rewrite !len_app. lia. }
  replace (drop (Z.to_nat (len pre)) _) with (AppendObjectHeader [] o ++ encode_objects objs).
  2:{ unfold len. by rewrite Nat2Z.id, drop_app_length. }
  replace (at_ (pre ++ AppendObjectHeader [] o ++ encode_objects objs) (len pre)) with (Group o).
  2:{ unfold at_, len. rewrite Nat2Z.id, app_nth2, Nat.sub_diag by lia. by rewrite AppendObjectHeader_app. }
  fold (carries func (Group o)).
  assert (Hoct : octets_ok (encode_objects objs)).
  { apply Forall_concat, Forall_fmap. eapply Forall_impl; [exact Ho|]. intros x Hx. exact (AppendObjectHeader_octets _ _ _ Hx). }
  rewrite ParseObjectHeader_Append by done.
  destruct (Z.eqb_spec (ObjectHeader_Size o) 0); [lia|].
  specialize (IH fuel (pre ++ AppendObjectHeader [] o) (acc ++ [located (len pre) o])).
  rewrite <- app_assoc, len_app, Hlen in IH.
  rewrite IH; [|apply octets_ok_app; split; [done | exact (AppendObjectHeader_octets _ _ _ Hok)] | lia].
  by rewrite <- app_assoc.
Qed.

(** How the loop ended after [k] octets from [off]: at the end of the fragment, or on the
    object header that starts there. *)
Definition stopped (buf : list Z) (off k : Z) (err : option FragmentErr) : Prop :=
  match err with
  | None => off + k = Z.max off (len buf)
  | Some (ErrObjectAt o _) => o = off + k /\ o < len buf
  | Some _ => False
  end.

(** Whatever the octets, the loop ends within its fuel; what it accepts is laid out where it
    was found and re-encodes to the octets consumed. *)
Lemma parse_objects_sound fuel buf off acc :
  octets_ok buf -> 0 <= off -> len buf - off <= Z.of_nat fuel ->
  exists objs err, parse_objects fuel sizer func buf off acc = Some (acc ++ objs, err) /\
    objects_ok objs /\ laid_out off objs = objs /\
    exists k, 0 <= k /\ encode_objects objs = slice off (off + k) buf /\
      off + k <= Z.max off (len buf) /\ stopped buf off k err.
Proof.
  intros Hb. revert off acc. induction fuel as [|fuel IH]; intros off acc Ho Hf; cbn [parse_objects].
  all: assert (Hnil : slice off (off + 0) buf = [])
    by (unfold slice; replace (off + 0 - off) with 0 by lia; by rewrite take_0).
  all: destruct (len buf <=? off) eqn:E; bool_prop; [|try lia].
  1, 2: exists [], None; rewrite app_nil_r; split_and!; try done; [constructor|].
  1, 2: exists 0; rewrite Hnil; split_and!; try done; cbn [stopped]; lia.
  fold (carries func (at_ buf off)).
  assert (Hod : octets_ok (drop (Z.to_nat off) buf)) by auto with dnp3.
  assert (Hdl : len (drop (Z.to_nat off) buf) = len buf - off) by (unfold len in *; rewrite length_drop; lia).
  destruct (ParseObjectHeader sizer (drop (Z.to_nat off) buf) off _) as [[oh used]|e] eqn:Ep.
  2:{ exists [], (Some (ErrObjectAt off e)). rewrite app_nil_r. split_and!; try done; [constructor|].
      exists 0. rewrite Hnil. split_and!; try done; cbn [stopped]; lia. }
  destruct (ParseObjectHeader_inv _ _ _ _ _ _ Hod Ep) as (Hok & Hloc & Hn & Hb3 & Henc).
  destruct (Z.eqb_spec used 0); [lia|].
  destruct (IH (off + used) (acc ++ [oh])) as (objs & err & He & Hoks & Hlay & k & Hk0 & Hk1 & Hk2 & Hk3); [lia | lia |].
  exists (oh :: objs), err. rewrite He, <- app_assoc. split; [done|].
  assert (Hg : Group oh = at_ buf off).
  { pose proof (f_equal (fun l => at_ l 0) Henc) as Hg. rewrite AppendObjectHeader_app in Hg.
    change (Group oh = at_ (take (Z.to_nat used) (drop (Z.to_nat off) buf)) 0) in Hg. rewrite Hg.
    unfold at_. norm_nat. rewrite <- (take_drop (Z.to_nat off) buf) at 2.
    rewrite app_nth2; rewrite length_take; [|unfold len in *; lia].
    replace (Z.to_nat off - _)%nat with 0%nat by (unfold len in *; lia).
    destruct (drop (Z.to_nat off) buf) as [|y l]; [by rewrite take_nil|].
    by replace (Z.to_nat used) with (S (Z.to_nat (used - 1))) by lia. }
  assert (Hsl : take (Z.to_nat used) (drop (Z.to_nat off) buf) = slice off (off + used) buf)
    by (unfold slice; by replace (off + used - off) with used by lia).
  split; [constructor; [by rewrite Hg | done]|].
  split; [cbn [laid_out]; by rewrite <- Hn, Hlay, <- Hloc|].
  exists (used + k). split; [lia|].
  split; [|split; [lia | destruct err as [[]|]; cbn [stopped] in *; try done; lia]].
  change (encode_objects (oh :: objs)) with (AppendObjectHeader [] oh ++ encode_objects objs).
  rewrite Henc, Hk1, Hsl. unfold slice.
  replace (off + used - off) with used by lia. replace (off + (used + k) - off) with (used + k) by lia.
  replace (off + used + k - (off + used)) with k by lia.
  rewrite !Z2Nat.inj_add, <- drop_drop by lia. apply take_take_drop.
Qed.

End Codec.

(** C32. Parsing arbitrary octets always comes to an end and accounts for all of them.  On
    success the header and the object headers re-encode to exactly the octets given; on an
    object error the headers returned are exactly the octets before the offset reported;
    every header returned is well formed, carries the data it announces, and is labelled
    with its place in the fragment. *)
Theorem ParseFragment_sound sizer buf :
  octets_ok buf ->
  let '(f, err) := ParseFragment sizer buf in
  Raw f = buf /\
  objects_ok sizer (Func (FHeader f)) (Objects f) /\
  laid_out (Header_Size (FHeader f)) (Objects f) = Objects f /\
  let encoded := AppendHeader [] (FHeader f) ++ encode_objects (Objects f) in
  match err with
  | None => header_ok (FHeader f) /\ encoded = buf
  | Some (ErrObjectAt off e) => header_ok (FHeader f) /\ encoded = take (Z.to_nat off) buf /\ 0 <= off < len buf
  | Some (ErrHeader e) => e = ErrShortFragment /\ len buf < ResponseHeaderSize
  | Some _ => False
  end.
Proof.
  intros Hb. unfold ParseFragment. destruct (ParseHeader buf) as [[h n]|e] eqn:Eh.
  2:{ cbn. split_and!; try done; [constructor|..].
      all: unfold ParseHeader in Eh; unfold RequestHeaderSize, ResponseHeaderSize in *.
      all: repeat match type of Eh with context [if ?b then _ else _] => destruct b eqn:? end; bool_prop; try done; try lia.
      all: by injection Eh as <-. }
  destruct (ParseHeader_inv _ _ _ Hb Eh) as (Hh & Hn & Hsplit).
  assert (Hn0 : 2 <= n) by (subst n; unfold Header_Size, ResponseHeaderSize, RequestHeaderSize; destr_if; lia).
  assert (Hnl : n <= len buf).
  { rewrite Hsplit, len_app, AppendHeader_size. pose proof (len_nonneg (drop (Z.to_nat n) buf)). lia. }
  destruct (parse_objects_sound sizer (Func h) (length buf) buf n []) as (objs & err & -> & Ho & Hl & k & Hk & He & Hm & Hs);
    [done | lia | unfold len; lia |].
  cbn [Raw FHeader Objects app]. subst n. split_and!; try done.
  assert (Hpre : AppendHeader [] h = take (Z.to_nat (Header_Size h)) buf).
  { rewrite Hsplit at 1. rewrite <- AppendHeader_size at 1. unfold len at 1. by rewrite Nat2Z.id, take_app_length. }
  assert (Henc : AppendHeader [] h ++ encode_objects objs = take (Z.to_nat (Header_Size h + k)) buf).
  { rewrite He, Hpre. apply slice_split; lia. }
  rewrite Henc. destruct err as [[]|]; cbn [stopped] in Hs; try done.
  - destruct Hs as [-> ?]. split_and!; try done; lia.
  - split; [done|]. apply take_ge. unfold len in *. lia.
Qed.

(** A read of two headers of which the second is cut short. *)
Lemma ParseFragment_sound_witness :
  let buf := [0xC0; 1; 60; 2; 6; 30; 1; 0; 4] in
  let '(f, err) := ParseFragment None buf in
  err = Some (ErrObjectAt 5 ErrTruncated) /\
  AppendHeader [] (FHeader f) ++ encode_objects (Objects f) = take 5 buf.
Proof.
  intros buf. assert (Hb : octets_ok buf) by (vm_compute; repeat constructor; discriminate).
  pose proof (ParseFragment_sound None buf Hb) as H.
  destruct (ParseFragment None buf) as [f err] eqn:E. vm_compute in E. injection E as <- <-.
  split; [reflexivity|]. destruct H as (_ & _ & _ & _ & H & _). exact H.
Defined.

Lemma ParseFragment_Append sizer h objs :
  header_ok h -> objects_ok sizer (Func h) objs ->
  let buf := AppendHeader [] h ++ encode_objects objs in
  ParseFragment sizer buf = (mkFragment h (laid_out (Header_Size h) objs) buf, None).
Proof.
  intros Hh Ho buf. unfold ParseFragment, buf. rewrite ParseHeader_Append by done.
  rewrite <- AppendHeader_size at 1.
  rewrite parse_objects_encode; [by rewrite AppendHeader_size| |done|rewrite length_app; lia].
  destruct Hh as (_ & Hf & _). unfold AppendHeader, IIN_Octets.
  destruct (Header_IsResponse h); cbn [app].
  all: rewrite !octets_ok_cons; split_and!; auto using app_Control_Byte_ok with dnp3.
Qed.

(** C33. Building then parsing gives back the header and the object headers, each at its
    place, for responses and for requests, with any object sizer. *)
Theorem ParseFragment_Build sizer c fc iin objs :
  header_ok (mkHeader c fc iin) -> objects_ok sizer fc objs ->
  let h := mkHeader c fc iin in
  let buf := BuildResponse [] c fc iin objs in
  ParseFragment sizer buf = (mkFragment h (laid_out (Header_Size h) objs) buf, None) /\
  (iin = 0 -> BuildRequest [] c fc objs = buf).
Proof.
  intros Hh Ho h buf. split; [|by intros ->]. unfold buf, BuildResponse. rewrite append_objects_encode.
  by apply ParseFragment_Append.
Qed.

Lemma ParseFragment_Build_witness :
  let c := mkControl true true true false 5 in
  let buf := BuildResponse [] c FuncResponse 0x0090 [witness_object] in
  ParseFragment None buf = (mkFragment (mkHeader c FuncResponse 0x0090) [located 4 witness_object] buf, None).
Proof.
  intros c buf. apply (ParseFragment_Build None c FuncResponse 0x0090 [witness_object]).
  - unfold header_ok. cbn. split_and!; try done; vm_compute; split; congruence.
  - constructor; [|constructor]. unfold object_ok, range_ok. cbn -[Z.pow].
    split_and!; try (vm_compute; done). all: vm_compute; repeat constructor; discriminate.
Defined.

(** ** The builder *)

Inductive builder_op := OpHeader (h : Header) | OpObject (o : ObjectHeader) | OpReset.

Definition apply_op (b : Builder) (op : builder_op) : Builder * option BuildErr :=
  match op with
  | OpHeader h => SetHeader b h
  | OpObject o => AddObject b o
  | OpReset => (Builder_Reset b, None)
  end.

Fixpoint apply_ops (b : Builder) (ops : list builder_op) : Builder :=
  match ops with
  | [] => b
  | op :: ops => apply_ops (fst (apply_op b op)) ops
  end.

(** The specification: what has been written is a header and whole objects, or nothing. *)
Definition content := option (Header * list ObjectHeader).

Definition written (c : content) : list Z :=
  match c with None => [] | Some (h, objs) => AppendHeader [] h ++ encode_objects objs end.

(** An operation is accepted when what it would write still fits in [max]. *)
Definition spec_op (max : Z) (c : content) (op : builder_op) : content :=
  match op, c with
  | OpReset, _ => None
  | OpHeader h, None => if Header_Size h <=? max then Some (h, []) else None
  | OpHeader _, Some _ => c
  | OpObject o, Some (h, objs) =>
      if len (written c) + ObjectHeader_Size o <=? max then Some (h, objs ++ [o]) else c
  | OpObject _, None => None
  end.

(** The size a builder charges for an object is the size it writes: the qualifier names the
    range's specifier. *)
Definition op_ok (op : builder_op) : Prop :=
  match op with
  | OpObject o => RangeSpec (Qualifier o) = Spec (ORange o) /\ 0 <= Spec (ORange o) /\
                  RangeSpec_Valid (Spec (ORange o)) = true
  | _ => True
  end.

Lemma op_size o : op_ok (OpObject o) -> len (AppendObjectHeader [] o) = ObjectHeader_Size o.
Proof.
  intros (Hs & H0 & Hv). rewrite AppendObjectHeader_app, app_nil_l, !len_app, len_appendRange by done.
  unfold ObjectHeader_Size. rewrite Hs. change (len [_; _; _]) with 3. unfold ObjectHeaderSize. lia.
Qed.

Definition refines (b : Builder) (c : content) : Prop :=
  Bytes b = written c /\ headerWritten b = bool_decide (is_Some c) /\ len (written c) <= b_max b.

Lemma encode_objects_snoc objs o : encode_objects (objs ++ [o]) = encode_objects objs ++ AppendObjectHeader [] o.
Proof. unfold encode_objects. rewrite fmap_app, concat_app. cbn. by rewrite app_nil_r. Qed.

Lemma apply_op_refines b c op :
  op_ok op -> 0 <= b_max b -> refines b c ->
  refines (fst (apply_op b op)) (spec_op (b_max b) c op) /\
  b_max (fst (apply_op b op)) = b_max b /\
  (snd (apply_op b op) <> None -> fst (apply_op b op) = b).
Proof.
  intros Hop Hmax (Hb & Hw & Hl). unfold Bytes in Hb. destruct op as [h|o|]; cbn [apply_op].
  - unfold SetHeader. destruct c as [[h0 objs]|]; cbn in Hw; rewrite Hw; [done|]. unfold Remaining.
    rewrite Hb. cbn [written spec_op]. rewrite len_nil, Z.sub_0_r, Z.ltb_antisym. cbn [negb].
    destruct (Z.leb_spec (Header_Size h) (b_max b)); cbn [negb fst snd]; [|done].
    split; [|done]. split_and!; cbn; rewrite ?app_nil_r; try done. by rewrite AppendHeader_size.
  - unfold AddObject. destruct c as [[h0 objs]|]; cbn in Hw; rewrite Hw; cbn [negb]; [|done].
    unfold Remaining. rewrite Hb. cbn [spec_op].
    destruct (Z.ltb_spec (b_max b - len (written (Some (h0, objs)))) (ObjectHeader_Size o)) as [Hc|Hc].
    { replace (_ <=? b_max b) with false by (symmetry; apply Z.leb_gt; lia). done. }
    replace (_ <=? b_max b) with true by (symmetry; apply Z.leb_le; lia). cbn [fst snd b_max]. split; [|done].
    split_and!; [cbn..|].
    + by rewrite AppendObjectHeader_dst, encode_objects_snoc, app_assoc.
    + done.
    + cbn [written b_max] in *. rewrite encode_objects_snoc, app_assoc, len_app, op_size by done. lia.
  - cbn. split; [|done]. done.
Qed.

Lemma apply_ops_refines ops : Forall op_ok ops -> forall b c, 0 <= b_max b -> refines b c ->
  refines (apply_ops b ops) (fold_left (spec_op (b_max b)) ops c) /\ b_max (apply_ops b ops) = b_max b.
Proof.
  induction 1 as [|op ops Hop _ IH]; intros b c Hm Hr; [done|]. cbn [apply_ops fold_left].
  destruct (apply_op_refines b c op Hop Hm Hr) as (H1 & H2 & _).
  destruct (IH (fst (apply_op b op)) (spec_op (b_max b) c op)) as [H3 H4]; [lia | done |].
  rewrite H2 in *. done.
Qed.

(** C31. A builder implements its specification: after any calls, its bytes are one encoded
    header and the whole objects that were accepted, within the limit; a call that fails
    changes nothing, and one fails for size only when the object really does not fit. *)
Theorem builder_refines max ops :
  Forall op_ok ops ->
  let b := apply_ops (NewBuilder max) ops in
  let c := fold_left (spec_op (b_max (NewBuilder max))) ops None in
  Bytes b = written c /\ len (Bytes b) <= b_max (NewBuilder max) /\
  forall op, snd (apply_op b op) <> None -> fst (apply_op b op) = b.
Proof.
  intros Hops b c.
  assert (Hmax : 0 <= b_max (NewBuilder max)) by (cbn; unfold DefaultMaxFragment; destr_if; bool_prop; lia).
  destruct (apply_ops_refines ops Hops (NewBuilder max) None) as [(Hb & Hw & Hl) Hm]; [done | done |].
  fold b c in Hb, Hl, Hm. split; [done|]. split; [rewrite Hb; lia|].
  intros op. unfold apply_op, SetHeader, AddObject. destruct op; repeat destr_if; done.
Qed.

Lemma builder_refines_witness :
  let ops := [OpHeader (mkHeader (mkControl true true false false 1) FuncResponse 0);
              OpObject witness_object; OpObject witness_object] in
  len (Bytes (apply_ops (NewBuilder 20) ops)) = 18 /\
  Bytes (apply_ops (NewBuilder 20) ops) = written (fold_left (spec_op 20) ops None).
Proof.
  intros ops. split; [reflexivity|].
  destruct (builder_refines 20 ops) as (H & _); [|exact H].
  repeat constructor; discriminate.
Defined.

(** ** Reads *)

Lemma read_range_ok sizer g v start stop :
  octet_ok g -> octet_ok v -> 0 <= start <= stop -> stop < 0xFFFFFFFF + 1 -> stop - start + 1 <= 0xFFFFFFFF ->
  object_ok sizer false (ReadRange g v start stop) /\ Count (ORange (ReadRange g v start stop)) = stop - start + 1.
Proof.
  intros Hg Hv Hs Hst Hc. unfold ReadRange, object_ok, range_ok.
  rewrite (u32_small (stop - start)), (u32_small (stop - start + 1)) by (unfold is_u32; lia).
  cbn [Group Variation Qualifier ORange Data Spec Start Stop Count].
  split; [|done]. destruct (Z.leb_spec stop 0xFF); [|destruct (Z.leb_spec stop 0xFFFF)].
  all: split; [exact Hg|]; split; [exact Hv|]; split; [vm_compute; split; congruence|].
  all: split; [reflexivity|]; split; [reflexivity|]; split; [reflexivity|].
  all: split; [|split; [constructor | reflexivity]].
  all: split; [vm_compute; discriminate|]; split; [reflexivity|].
  all: match goal with |- context [2 ^ ?e] => let w := eval vm_compute in (2 ^ e) in change (2 ^ e) with w end.
  all: match goal with |- if ?b then _ else _ => change b with true end; cbv iota; lia.
Qed.

(** A range read says what was asked: for every index range a request can name, the
    READ request built for it parses to one header of that group and variation covering
    exactly the indexes [start] to [stop], with no data. *)
Theorem ReadRange_means sizer c g v start stop :
  control_ok c -> octet_ok g -> octet_ok v ->
  0 <= start <= stop -> stop < 0xFFFFFFFF + 1 -> stop - start + 1 <= 0xFFFFFFFF ->
  exists o f, ParseRequest sizer (BuildRequest [] c FuncRead [ReadRange g v start stop]) = (f, None) /\
    Objects f = [o] /\ Group o = g /\ Variation o = v /\ Data o = [] /\
    Start (ORange o) = start /\ Stop (ORange o) = stop /\ Count (ORange o) = stop - start + 1 /\
    forall i, 0 <= i < Count (ORange o) -> IndexOf (ORange o) i = start + i.
Proof.
  intros Hc Hg Hv Hs Hst Hcnt.
  destruct (read_range_ok (default DefaultSizer sizer) g v start stop) as [Hok Hn]; try done.
  exists (located 2 (ReadRange g v start stop)). unfold ParseRequest, BuildRequest.
  rewrite append_objects_encode, ParseFragment_Append.
  - eexists. split; [reflexivity|]. split_and!; try done. intros i Hi. cbn [ORange located] in *.
    unfold IndexOf. rewrite u32_small; [done|]. rewrite Hn in Hi. cbn. unfold is_u32. lia.
  - split_and!; try done.
  - by constructor.
Qed.

Lemma ReadRange_means_witness :
  exists o f, ParseRequest None (BuildRequest [] (mkControl true true false false 3) FuncRead [ReadRange 30 2 7 300]) = (f, None) /\
    Objects f = [o] /\ Start (ORange o) = 7 /\ Stop (ORange o) = 300 /\ Count (ORange o) = 294.
Proof.
  destruct (ReadRange_means None (mkControl true true false false 3) 30 2 7 300) as (o & f & H1 & H2 & H3 & H4 & H5 & H6 & H7 & H8 & _).
  all: try (unfold control_ok, octet_ok; cbn; lia).
  exists o, f. split; [exact H1|]. split; [exact H2|]. split; [exact H6|]. split; [exact H7|exact H8].
Defined.

