(* ===== verification/Values.v ===== *)
(** * Measurements, quality and time (src/flags.go, src/types.go, src/timeinterval.go)

    The data every layer above the wire shares: quality flags, the measurement types,
    timestamps, event classes, control codes and command statuses.

    A [float64] is a [spec_float] of the Standard Library, IEEE 754 with 53 bits of precision;
    a [time.Time] is the instant, in nanoseconds since the UNIX epoch. *)

From Stdlib Require Export SpecFloat.
From S2P Require Import Prelude.

(** ** float64 *)

Abbreviation float64 := spec_float (only parsing).
Definition f64_prec : Z := 53.
Definition f64_emax : Z := 1024.
Definition f64_sub (x y : spec_float) : spec_float := SFsub f64_prec f64_emax x y.
Definition f64_of_Z (z : Z) : spec_float := binary_normalize f64_prec f64_emax z 0 false.
Definition IsNaN (x : spec_float) : bool := match x with S754_nan => true | _ => false end.

#[export] Instance spec_float_eq_dec : EqDecision spec_float.
Proof. solve_decision. Defined.

(** ** Quality flags *)

Definition Online : Z := 0x01.
Definition Restart : Z := 0x02.
Definition CommLost : Z := 0x04.
Definition RemoteForced : Z := 0x08.
Definition LocalForced : Z := 0x10.
Definition ChatterFilter : Z := 0x20.
Definition Rollover : Z := 0x20.
Definition Discontinuity : Z := 0x40.
Definition OverRange : Z := 0x20.
Definition ReferenceErr : Z := 0x40.
Definition StateBit : Z := 0x80.

Definition Flags_Has (f mask : Z) : bool := Z.land f mask =? mask.
Definition Flags_HasAny (f mask : Z) : bool := negb (Z.land f mask =? 0).
Definition Flags_Set (f mask : Z) : Z := Z.lor f mask.
Definition Flags_Clear (f mask : Z) : Z := Z.ldiff f mask.
Definition IsGood (f : Z) : bool :=
  Flags_Has f Online &&
  negb (Flags_HasAny f (Z.lor (Z.lor (Z.lor Restart CommLost) RemoteForced) LocalForced)).

Inductive PointType :=
| TypeUnknown | TypeBinary | TypeDoubleBitBinary | TypeCounter | TypeFrozenCounter | TypeAnalog
| TypeBinaryOutputStatus | TypeAnalogOutputStatus | TypeOctetString | TypeBinaryCommandEvent
| TypeAnalogCommandEvent | TypeFrozenAnalog | TypeVirtualTerminal | TypeSecurityStatistic
| TypeDataset.

#[export] Instance PointType_eq_dec : EqDecision PointType.
Proof. solve_decision. Defined.

(** ** Time *)

Inductive TimestampQuality := TimestampInvalid | TimestampUnsynchronized | TimestampSynchronized.

#[export] Instance TimestampQuality_eq_dec : EqDecision TimestampQuality.
Proof. solve_decision. Defined.

(** [Time] is an instant in nanoseconds since the epoch; Go's zero time is the start of year 1. *)
Record Timestamp := mkTimestamp { TTime : Z; Quality : TimestampQuality }.

#[export] Instance Timestamp_eq_dec : EqDecision Timestamp.
Proof. solve_decision. Defined.

Definition zeroTime : Z := -62135596800 * 1000000000.
Definition Now (t : Z) : Timestamp := mkTimestamp t TimestampSynchronized.
Definition Unsynchronized (t : Z) : Timestamp := mkTimestamp t TimestampUnsynchronized.
Definition NoTime : Timestamp := mkTimestamp zeroTime TimestampInvalid.
Definition Timestamp_IsValid (t : Timestamp) : bool := negb (bool_decide (Quality t = TimestampInvalid)).

(** [time.Time.UnixMilli] and [time.UnixMilli] of the Go library. *)
Definition UnixMilli (t : Z) : Z := t / 1000000.
Definition time_UnixMilli (ms : Z) : Z := ms * 1000000.

Definition MaxDNP3Time : Z := 2 ^ 48 - 1.
Definition TimeToDNP3 (t : Z) : Z :=
  let ms := UnixMilli t in
  if ms <? 0 then 0 else if MaxDNP3Time <? ms then MaxDNP3Time else ms.
Definition DNP3ToTime (ms : Z) : Z := time_UnixMilli (Z.land ms MaxDNP3Time).

(** ** Measurements *)

Definition DoubleBitIntermediate : Z := 0.
Definition DoubleBitDeterminedOff : Z := 1.
Definition DoubleBitDeterminedOn : Z := 2.
Definition DoubleBitIndeterminate : Z := 3.

(** Every measurement is a value with flags and a time: [Binary] and [BinaryOutputStatus]
    with a [bool], [DoubleBitBinary] with its two-bit state, [Counter] and [FrozenCounter]
    with a [uint32], [Analog] and [AnalogOutputStatus] with a [float64]. *)
Record measurement (T : Type) := mkMeasurement { Value : T; Flags : Z; Time : Timestamp }.
Arguments mkMeasurement {T}.
Arguments Value {T}.
Arguments Flags {T}.
Arguments Time {T}.

Abbreviation Binary := (measurement bool) (only parsing).
Abbreviation DoubleBitBinary := (measurement Z) (only parsing).
Abbreviation Counter := (measurement Z) (only parsing).
Abbreviation FrozenCounter := (measurement Z) (only parsing).
Abbreviation Analog := (measurement spec_float) (only parsing).
Abbreviation BinaryOutputStatus := (measurement bool) (only parsing).
Abbreviation AnalogOutputStatus := (measurement spec_float) (only parsing).
Definition MaxOctetStringLen : Z := 255.

Record TimeAndInterval := mkTimeAndInterval { TI_Time : Timestamp; Interval : Z; Units : Z }.

(** The zero values of the Go types. *)
Definition f64_zero : spec_float := S754_zero false.
Definition Binary0 : Binary := mkMeasurement false 0 NoTime.
Definition Counter0 : Counter := mkMeasurement 0 0 NoTime.
Definition Analog0 : Analog := mkMeasurement f64_zero 0 NoTime.
Definition TimeAndInterval0 : TimeAndInterval := mkTimeAndInterval NoTime 0 0.

(** ** Event classes *)

Definition Class0 : Z := 1.
Definition Class1 : Z := 2.
Definition Class2 : Z := 4.
Definition Class3 : Z := 8.
Definition ClassNone : Z := 0.
Definition Class123 : Z := Z.lor (Z.lor Class1 Class2) Class3.
Definition ClassAll : Z := Z.lor Class0 Class123.
Definition Class_Has (c mask : Z) : bool := Z.land c mask =? mask.

(** ** Control codes *)

Definition ControlNUL : Z := 0x00.
Definition ControlPulseOn : Z := 0x01.
Definition ControlPulseOff : Z := 0x02.
Definition ControlLatchOn : Z := 0x03.
Definition ControlLatchOff : Z := 0x04.
Definition controlOpTypeMask : Z := 0x0F.
Definition controlQueue : Z := 0x10.
Definition controlClear : Z := 0x20.
Definition controlTripCloseMsk : Z := 0xC0.
Definition ControlClose : Z := 0x40.
Definition ControlTrip : Z := 0x80.

Definition OpType (c : Z) : Z := Z.land c controlOpTypeMask.
Definition IsTrip (c : Z) : bool := Z.land c controlTripCloseMsk =? ControlTrip.
Definition IsClose (c : Z) : bool := Z.land c controlTripCloseMsk =? ControlClose.
Definition ControlCode_Clear (c : Z) : bool := negb (Z.land c controlClear =? 0).

Definition CommandSuccess : Z := 0.
Definition CommandTimeout : Z := 1.
Definition CommandNoSelect : Z := 2.
Definition CommandFormatError : Z := 3.
Definition CommandNotSupported : Z := 4.
Definition CommandAlreadyActive : Z := 5.
Definition CommandHardwareError : Z := 6.
Definition CommandLocal : Z := 7.
Definition CommandTooManyOps : Z := 8.
Definition CommandNotAuthorized : Z := 9.
Definition CommandAutomationInhibit : Z := 10.
Definition CommandProcessingLimited : Z := 11.
Definition CommandOutOfRange : Z := 12.
Definition CommandDownstreamLocal : Z := 13.
Definition CommandAlreadyComplete : Z := 14.
Definition CommandBlocked : Z := 15.
Definition CommandCanceled : Z := 16.
Definition CommandBlockedOtherMstr : Z := 17.
Definition CommandDownstreamFail : Z := 18.
Definition CommandNonParticipating : Z := 126.
Definition CommandUndefined : Z := 127.
Definition CommandStatus_OK (s : Z) : bool := s =? CommandSuccess.

Record ControlRelayOutputBlock := mkCROB {
  Code : Z; CCount : Z; OnTime : Z; OffTime : Z; CStatus : Z }.

(** The four analog output commands: a value of an integer type, or the bit pattern of a
    [float32] or a [float64], and a status. *)
Record AnalogOutputInt16 := mkAO16 { AO16_Value : Z; AO16_Status : Z }.
Record AnalogOutputInt32 := mkAO32 { AO32_Value : Z; AO32_Status : Z }.
Record AnalogOutputFloat32 := mkAOF { AOF_Bits : Z; AOF_Status : Z }.
Record AnalogOutputFloat64 := mkAOD { AOD_Bits : Z; AOD_Status : Z }.

(** ** Properties *)

(** A DNP3 time is what it came from, to the millisecond, over the whole 48-bit range. *)
Lemma DNP3ToTime_land ms : 0 <= ms <= MaxDNP3Time -> DNP3ToTime ms = ms * 1000000.
Proof.
  intros H. unfold DNP3ToTime, time_UnixMilli, MaxDNP3Time in *. change (2 ^ 48 - 1) with (Z.ones 48).
  rewrite Z.land_ones by lia. by rewrite Z.mod_small by lia.
Qed.

(** Time on the wire: the 48-bit form is always in range and read back exactly; an
    instant inside the range loses at most what is below a millisecond; one before the
    epoch or past the range clamps to its end. *)
Theorem time_roundtrip t :
  0 <= TimeToDNP3 t <= MaxDNP3Time /\
  TimeToDNP3 (DNP3ToTime (TimeToDNP3 t)) = TimeToDNP3 t /\
  (0 <= UnixMilli t <= MaxDNP3Time -> 0 <= t - DNP3ToTime (TimeToDNP3 t) < 1000000) /\
  (t < 0 -> DNP3ToTime (TimeToDNP3 t) = 0) /\
  (MaxDNP3Time < UnixMilli t -> TimeToDNP3 t = MaxDNP3Time).
Proof.
  assert (HM : MaxDNP3Time = 281474976710655) by reflexivity.
  assert (Hr : 0 <= TimeToDNP3 t <= MaxDNP3Time).
  { unfold TimeToDNP3. repeat destr_if; bool_prop; lia. }
  split; [done|]. rewrite DNP3ToTime_land by done. split_and!.
  - unfold TimeToDNP3 at 1, UnixMilli. rewrite Z.div_mul by lia.
    repeat destr_if; bool_prop; lia.
  - intros H. unfold TimeToDNP3. destruct (Z.ltb_spec (UnixMilli t) 0); [lia|].
    destruct (Z.ltb_spec MaxDNP3Time (UnixMilli t)); [lia|]. unfold UnixMilli in *.
    pose proof (Z.div_mod t 1000000). pose proof (Z.mod_pos_bound t 1000000). lia.
  - intros H. unfold TimeToDNP3. assert (UnixMilli t < 0) by (unfold UnixMilli; apply Z.div_lt_upper_bound; lia).
    destruct (Z.ltb_spec (UnixMilli t) 0); lia.
  - intros H. unfold TimeToDNP3. destruct (Z.ltb_spec (UnixMilli t) 0); [lia|].
    destruct (Z.ltb_spec MaxDNP3Time (UnixMilli t)); lia.
Qed.

Lemma time_roundtrip_witness :
  let t := 1700000000123456789 in 0 <= t - DNP3ToTime (TimeToDNP3 t) < 1000000.
Proof. intros t. apply (time_roundtrip t). vm_compute. split; discriminate. Defined.
