(* ===== verification/Floats.v ===== *)
(** * Floating point as the codecs use it

    What Go's [math.Float64bits], [math.Float64frombits] and the conversions between
    [float64], [float32] and the integer types do, on the [spec_float] of the Standard
    Library.  A NaN has no payload here.  A [float64] is a [spec_float] that satisfies
    [f64_valid]: canonical, with 53 bits of precision. *)

From Stdlib Require Import SpecFloat.
From S2P Require Import Prelude Values.

Definition f64_valid (x : spec_float) : Prop := valid_binary f64_prec f64_emax x = true.

Definition sign_bit (s : bool) (n : Z) : Z := if s then 2 ^ n else 0.

(** The fields of a bit pattern with [p] bits of mantissa and an exponent field whose largest
    value is [top]; and back. *)
Definition float_bits (p top bias : Z) (x : spec_float) (n : Z) : Z :=
  match x with
  | S754_zero s => sign_bit s n
  | S754_infinity s => sign_bit s n + top * 2 ^ p
  | S754_nan => top * 2 ^ p + 2 ^ (p - 1)
  | S754_finite s m e =>
      sign_bit s n + (if Zpos m <? 2 ^ p then Zpos m else (e + bias) * 2 ^ p + (Zpos m - 2 ^ p))
  end.

(** [math.Float64bits], [math.Float64frombits]. *)
Definition f64_bits (x : spec_float) : Z := float_bits 52 0x7FF 1075 x 63.
Definition f64_from_bits (b : Z) : spec_float :=
  let s := Z.testbit b 63 in
  let e := Z.land (Z.shiftr b 52) 0x7FF in
  let m := Z.land b (2 ^ 52 - 1) in
  if e =? 0x7FF then if m =? 0 then S754_infinity s else S754_nan
  else
    match (if e =? 0 then m else m + 2 ^ 52) with
    | Zpos p => S754_finite s p ((if e =? 0 then 1 else e) - 1075)
    | _ => S754_zero s
    end.

(** [float32(x)], rounding to nearest even; [math.Float32bits]; and the [float64] of the
    [float32] of a bit pattern, which it holds exactly. *)
Definition f32_of_f64 (x : spec_float) : spec_float :=
  match x with
  | S754_finite s m e => binary_normalize 24 128 (cond_Zopp s (Zpos m)) e s
  | _ => x
  end.
Definition f32_bits (x : spec_float) : Z := u32 (float_bits 23 0xFF 150 x 31).
Definition f64_of_f32_bits (b : Z) : spec_float :=
  let s := Z.testbit b 31 in
  let e := Z.land (Z.shiftr b 23) 0xFF in
  let m := Z.land b (2 ^ 23 - 1) in
  if e =? 0xFF then if m =? 0 then S754_infinity s else S754_nan
  else
    let v := if e =? 0 then m else m + 2 ^ 23 in
    binary_normalize f64_prec f64_emax (cond_Zopp s v) ((if e =? 0 then 1 else e) - 150) s.

(** Arithmetic, rounding to nearest even. *)
Definition f64_one : spec_float := f64_of_Z 1.
Definition f64_two : spec_float := f64_of_Z 2.
Definition f64_add := SFadd f64_prec f64_emax.
Definition f64_mul := SFmul f64_prec f64_emax.
Definition f64_div := SFdiv f64_prec f64_emax.

(** The integer part, as a conversion to an integer type that can hold it gives. *)
Definition f64_trunc (x : spec_float) : Z :=
  match x with
  | S754_finite s m e => cond_Zopp s (if 0 <=? e then Zpos m * 2 ^ e else Zpos m / 2 ^ (- e))
  | _ => 0
  end.

(** ** Bit patterns of valid numbers *)

Lemma digits_range m : 2 ^ (Zpos (digits2_pos m) - 1) <= Zpos m < 2 ^ Zpos (digits2_pos m).
Proof.
  induction m as [m IH|m IH|]; cbn [digits2_pos]; [| |done].
  all: rewrite Pos2Z.inj_succ; replace (Z.succ (Zpos (digits2_pos m)) - 1) with (Z.succ (Zpos (digits2_pos m) - 1)) by lia.
  all: rewrite !Z.pow_succ_r by lia; lia.
Qed.

Lemma f64_finite_range s m e : f64_valid (S754_finite s m e) ->
  -1074 <= e <= 971 /\ Zpos m < 2 ^ 53 /\ (Zpos m < 2 ^ 52 -> e = -1074).
Proof.
  unfold f64_valid, valid_binary, bounded, canonical_mantissa, fexp, emin, f64_prec, f64_emax.
  rewrite andb_true_iff, Z.eqb_eq, Z.leb_le. intros [H1 H2]. pose proof (digits_range m) as [H3 H4].
  set (d := Zpos (digits2_pos m)) in *. assert (d <= 53) by lia.
  split_and!; [lia | lia | | ].
  - apply Z.lt_le_trans with (2 ^ d); [done|]. apply Z.pow_le_mono_r; lia.
  - intros Hm. destruct (Z.lt_ge_cases d 53); [lia|]. replace d with 53 in * by lia. cbn in H3. lia.
Qed.

Lemma f64_fields s e m : 0 <= e < 0x800 -> 0 <= m < 2 ^ 52 ->
  let b := sign_bit s 63 + (e * 2 ^ 52 + m) in
  0 <= b < 2 ^ 64 /\ Z.testbit b 63 = s /\ Z.land (Z.shiftr b 52) 0x7FF = e /\ Z.land b (2 ^ 52 - 1) = m.
Proof.
  intros He Hm b. assert (Hs : 0 <= sign_bit s 63 <= 2 ^ 63) by (destruct s; cbn; lia).
  assert (Hb : 0 <= b < 2 ^ 64) by (unfold b; destruct s; cbn [sign_bit]; lia). split; [done|].
  change 0x7FF with (Z.ones 11). change (2 ^ 52 - 1) with (Z.ones 52). rewrite !Z.land_ones by lia.
  rewrite Z.shiftr_div_pow2 by lia.
  assert (Hq : b / 2 ^ 52 = (if s then 2048 else 0) + e).
  { symmetry. apply Z.div_unique with m; [lia|]. unfold b. destruct s; cbn [sign_bit]; lia. }
  split_and!.
  - rewrite Z.testbit_eqb by lia. replace (2 ^ 63) with (2 ^ 52 * 2 ^ 11) by reflexivity.
    rewrite <- Z.div_div, Hq by lia. destruct s.
    + replace ((2048 + e) / 2 ^ 11) with 1; [done|]. apply Z.div_unique with e; lia.
    + replace ((0 + e) / 2 ^ 11) with 0; [done|]. symmetry. apply Z.div_small. lia.
  - rewrite Hq. symmetry. destruct s; [apply Z.mod_unique with 1 | apply Z.mod_unique with 0]; lia.
  - symmetry. apply Z.mod_unique with ((if s then 2048 else 0) + e); [lia|]. unfold b. destruct s; cbn [sign_bit]; lia.
Qed.

Lemma f64_bits_roundtrip x : f64_valid x -> f64_from_bits (f64_bits x) = x /\ 0 <= f64_bits x < 2 ^ 64.
Proof.
  intros Hx. unfold f64_bits, float_bits. destruct x as [s|s| |s m e].
  - by destruct s.
  - by destruct s.
  - done.
  - destruct (f64_finite_range _ _ _ Hx) as (He & Hm & Hsub). unfold f64_from_bits.
    destruct (Z.ltb_spec (Zpos m) (2 ^ 52)) as [Hlt|Hge].
    + destruct (f64_fields s 0 (Zpos m)) as (H1 & H2 & H3 & H4); [lia..|].
      replace (0 * 2 ^ 52 + Zpos m) with (Zpos m) in * by lia.
      rewrite H2, H3, H4. cbn [Z.eqb]. split; [|done]. by rewrite (Hsub Hlt).
    + destruct (f64_fields s (e + 1075) (Zpos m - 2 ^ 52)) as (H1 & H2 & H3 & H4); [lia..|].
      rewrite H2, H3, H4. destruct (Z.eqb_spec (e + 1075) 0x7FF); [lia|]. destruct (Z.eqb_spec (e + 1075) 0); [lia|].
      replace (Zpos m - 2 ^ 52 + 2 ^ 52) with (Zpos m) by lia. split; [|done]. f_equal. lia.
Qed.

(** ** Conversion to integers in range *)

Lemma SFltb_false x y : SFltb x y = false -> SFcompare x y <> Some Lt.
Proof. unfold SFltb. by destruct (SFcompare x y) as [[]|]. Qed.

Lemma div_bound a b n c : 0 <= a -> 0 <= n <= b -> a < c * 2 ^ n -> 0 <= a / 2 ^ b < c.
Proof.
  intros Ha Hn Hc. assert (0 < 2 ^ b) by (apply Z.pow_pos_nonneg; lia). assert (0 < 2 ^ n) by (apply Z.pow_pos_nonneg; lia).
  split; [apply Z.div_pos; lia|]. apply Z.div_lt_upper_bound; [done|].
  assert (2 ^ n <= 2 ^ b) by (apply Z.pow_le_mono_r; lia). nia.
Qed.

(** Between the largest and the smallest value of a signed type of [k + 1] bits, given as the
    numbers they convert to, the integer part fits the type. *)
Lemma f64_trunc_range k M N v :
  0 < k < 52 -> Zpos M = (2 ^ k - 1) * 2 ^ (53 - k) -> Zpos N = 2 ^ 52 -> f64_valid v -> IsNaN v = false ->
  SFltb (S754_finite false M (k - 53)) v = false ->
  SFltb v (S754_finite true N (k - 52)) = false ->
  - 2 ^ k <= f64_trunc v <= 2 ^ k - 1.
Proof.
  intros Hk HM HN Hv Hn Hhi%SFltb_false Hlo%SFltb_false.
  assert (Hp : 0 < 2 ^ k) by (apply Z.pow_pos_nonneg; lia).
  destruct v as [s|[]| |s m e]; cbn in Hhi, Hlo; try done; cbn [f64_trunc]; [lia|].
  destruct (f64_finite_range _ _ _ Hv) as (He & Hm & _).
  assert (H53 : 2 ^ 53 = 2 ^ k * 2 ^ (53 - k)) by (rewrite <- Z.pow_add_r by lia; f_equal; lia).
  destruct s; cbn [cond_Zopp].
  - (* negative *)
    destruct (Z.compare_spec e (k - 52)) as [E|E|E]; [| |done].
    + destruct (Z.leb_spec 0 e); [lia|]. assert (Hle : Zpos m <= 2 ^ 52).
      { change (Pos.compare_cont Eq m N) with (m ?= N)%positive in Hlo.
        destruct (Pos.compare_spec m N) as [->|Hlt|Hgt]; [lia | lia | done]. }
      pose proof (div_bound (Zpos m) (- e) (- e) (2 ^ k + 1)) as Hd. rewrite E in *.
      assert (2 ^ k * 2 ^ (- (k - 52)) = 2 ^ 52) by (rewrite <- Z.pow_add_r by lia; f_equal; lia).
      assert (0 < 2 ^ (- (k - 52))) by (apply Z.pow_pos_nonneg; lia). lia.
    + destruct (Z.leb_spec 0 e); [lia|]. pose proof (div_bound (Zpos m) (- e) (53 - k) (2 ^ k)). lia.
  - destruct (Z.compare_spec (k - 53) e) as [E|E|E]; [|done|].
    + destruct (Z.leb_spec 0 e); [lia|]. assert (Hle : Zpos m <= Zpos M).
      { change (Pos.compare_cont Eq M m) with (M ?= m)%positive in Hhi.
        destruct (Pos.compare_spec M m) as [->|Hlt|Hgt]; [done | done | lia]. }
      pose proof (div_bound (Zpos m) (- e) (53 - k) (2 ^ k)) as Hd.
      assert (0 < 2 ^ (53 - k)) by (apply Z.pow_pos_nonneg; lia).
      replace (- e) with (53 - k) in * by lia.
      assert (Zpos m / 2 ^ (53 - k) <= 2 ^ k - 1) by (apply Z.div_le_upper_bound; lia).
      assert (0 <= Zpos m / 2 ^ (53 - k)) by (apply Z.div_pos; lia). lia.
    + destruct (Z.leb_spec 0 e); [lia|]. pose proof (div_bound (Zpos m) (- e) (53 - k) (2 ^ k)). lia.
Qed.
