(* ===== verification/Objects.v ===== *)
(** * The object registry and the codec context (src/objects/objects.go,
    src/objects/zz_generated_descriptors.go)

    What is known about each group and variation, and what a codec needs that is not in the
    octets: whether the clock was synchronised, and the common time of occurrence relative
    times are measured from. *)

From S2P Require Import Prelude Values AppHeader AppObject.

Record GroupVar := mkGV { GV_Group : Z; GV_Variation : Z }.
Definition GV (group variation : Z) : GroupVar := mkGV group variation.
Definition GV_Key (g : GroupVar) : Z := Z.lor (Z.shiftl (GV_Group g) 8) (GV_Variation g).

#[export] Instance GroupVar_eq_dec : EqDecision GroupVar.
Proof. solve_decision. Defined.

Inductive Kind :=
| KindUnknown | KindStatic | KindEvent | KindCommand | KindCommandEvent | KindTime | KindClass
| KindIndication | KindDeadband | KindString | KindFile | KindAttribute.

(** The name and the subset level are for display only and are left out. *)
Record Descriptor := mkDescriptor {
  D_Kind : Kind; Measurement : PointType; D_SizeBits : Z; Packed : bool;
  HasFlags : bool; HasTime : bool; RelativeTimed : bool; ValueBits : Z; FloatValue : bool }.

Definition SizeOctets (d : Descriptor) : option Z :=
  if Packed d || negb (Z.rem (D_SizeBits d) 8 =? 0) then None else Some (D_SizeBits d / 8).

(** The table, in parts of a few groups each. *)
Definition binary_input_descriptors : list ((Z * Z) * Descriptor) :=
  [((1, 1), mkDescriptor KindStatic TypeBinary 1 true false false false 0 false);
   ((1, 2), mkDescriptor KindStatic TypeBinary 8 false true false false 0 false);
   ((2, 1), mkDescriptor KindEvent TypeBinary 8 false true false false 0 false);
   ((2, 2), mkDescriptor KindEvent TypeBinary 56 false true true false 0 false);
   ((2, 3), mkDescriptor KindEvent TypeBinary 24 false true true true 0 false);
   ((3, 1), mkDescriptor KindStatic TypeDoubleBitBinary 2 true false false false 0 false);
   ((3, 2), mkDescriptor KindStatic TypeDoubleBitBinary 8 false true false false 0 false);
   ((4, 1), mkDescriptor KindEvent TypeDoubleBitBinary 8 false true false false 0 false);
   ((4, 2), mkDescriptor KindEvent TypeDoubleBitBinary 56 false true true false 0 false);
   ((4, 3), mkDescriptor KindEvent TypeDoubleBitBinary 24 false true true true 0 false)].
Definition binary_output_descriptors : list ((Z * Z) * Descriptor) :=
  [((10, 1), mkDescriptor KindStatic TypeBinaryOutputStatus 1 true false false false 0 false);
   ((10, 2), mkDescriptor KindStatic TypeBinaryOutputStatus 8 false true false false 0 false);
   ((11, 1), mkDescriptor KindEvent TypeBinaryOutputStatus 8 false true false false 0 false);
   ((11, 2), mkDescriptor KindEvent TypeBinaryOutputStatus 56 false true true false 0 false);
   ((12, 1), mkDescriptor KindCommand TypeUnknown 88 false false false false 0 false);
   ((12, 2), mkDescriptor KindCommand TypeUnknown 88 false false false false 0 false);
   ((12, 3), mkDescriptor KindCommand TypeUnknown 1 true false false false 0 false);
   ((13, 1), mkDescriptor KindCommandEvent TypeUnknown 8 false false false false 0 false);
   ((13, 2), mkDescriptor KindCommandEvent TypeUnknown 56 false false true false 0 false)].
Definition counter_descriptors : list ((Z * Z) * Descriptor) :=
  [((20, 1), mkDescriptor KindStatic TypeCounter 40 false true false false 32 false);
   ((20, 2), mkDescriptor KindStatic TypeCounter 24 false true false false 16 false);
   ((20, 5), mkDescriptor KindStatic TypeCounter 32 false false false false 32 false);
   ((20, 6), mkDescriptor KindStatic TypeCounter 16 false false false false 16 false);
   ((21, 1), mkDescriptor KindStatic TypeFrozenCounter 40 false true false false 32 false);
   ((21, 2), mkDescriptor KindStatic TypeFrozenCounter 24 false true false false 16 false);
   ((21, 5), mkDescriptor KindStatic TypeFrozenCounter 88 false true true false 32 false);
   ((21, 6), mkDescriptor KindStatic TypeFrozenCounter 72 false true true false 16 false);
   ((21, 9), mkDescriptor KindStatic TypeFrozenCounter 32 false false false false 32 false);
   ((21, 10), mkDescriptor KindStatic TypeFrozenCounter 16 false false false false 16 false)].
Definition counter_event_descriptors : list ((Z * Z) * Descriptor) :=
  [((22, 1), mkDescriptor KindEvent TypeCounter 40 false true false false 32 false);
   ((22, 2), mkDescriptor KindEvent TypeCounter 24 false true false false 16 false);
   ((22, 5), mkDescriptor KindEvent TypeCounter 88 false true true false 32 false);
   ((22, 6), mkDescriptor KindEvent TypeCounter 72 false true true false 16 false);
   ((23, 1), mkDescriptor KindEvent TypeFrozenCounter 40 false true false false 32 false);
   ((23, 2), mkDescriptor KindEvent TypeFrozenCounter 24 false true false false 16 false);
   ((23, 5), mkDescriptor KindEvent TypeFrozenCounter 88 false true true false 32 false);
   ((23, 6), mkDescriptor KindEvent TypeFrozenCounter 72 false true true false 16 false)].
Definition analog_input_descriptors : list ((Z * Z) * Descriptor) :=
  [((30, 1), mkDescriptor KindStatic TypeAnalog 40 false true false false 32 false);
   ((30, 2), mkDescriptor KindStatic TypeAnalog 24 false true false false 16 false);
   ((30, 3), mkDescriptor KindStatic TypeAnalog 32 false false false false 32 false);
   ((30, 4), mkDescriptor KindStatic TypeAnalog 16 false false false false 16 false);
   ((30, 5), mkDescriptor KindStatic TypeAnalog 40 false true false false 32 true);
   ((30, 6), mkDescriptor KindStatic TypeAnalog 72 false true false false 64 true)].
Definition frozen_analog_descriptors : list ((Z * Z) * Descriptor) :=
  [((31, 1), mkDescriptor KindStatic TypeAnalog 40 false true false false 32 false);
   ((31, 2), mkDescriptor KindStatic TypeAnalog 24 false true false false 16 false);
   ((31, 3), mkDescriptor KindStatic TypeAnalog 88 false true true false 32 false);
   ((31, 4), mkDescriptor KindStatic TypeAnalog 72 false true true false 16 false);
   ((31, 5), mkDescriptor KindStatic TypeAnalog 32 false false false false 32 false);
   ((31, 6), mkDescriptor KindStatic TypeAnalog 16 false false false false 16 false);
   ((31, 7), mkDescriptor KindStatic TypeAnalog 40 false true false false 32 true);
   ((31, 8), mkDescriptor KindStatic TypeAnalog 72 false true false false 64 true)].
Definition analog_event_descriptors : list ((Z * Z) * Descriptor) :=
  [((32, 1), mkDescriptor KindEvent TypeAnalog 40 false true false false 32 false);
   ((32, 2), mkDescriptor KindEvent TypeAnalog 24 false true false false 16 false);
   ((32, 3), mkDescriptor KindEvent TypeAnalog 88 false true true false 32 false);
   ((32, 4), mkDescriptor KindEvent TypeAnalog 72 false true true false 16 false);
   ((32, 5), mkDescriptor KindEvent TypeAnalog 40 false true false false 32 true);
   ((32, 6), mkDescriptor KindEvent TypeAnalog 72 false true false false 64 true);
   ((32, 7), mkDescriptor KindEvent TypeAnalog 88 false true true false 32 true);
   ((32, 8), mkDescriptor KindEvent TypeAnalog 120 false true true false 64 true)].
Definition frozen_analog_event_descriptors : list ((Z * Z) * Descriptor) :=
  [((33, 1), mkDescriptor KindEvent TypeAnalog 40 false true false false 32 false);
   ((33, 2), mkDescriptor KindEvent TypeAnalog 24 false true false false 16 false);
   ((33, 3), mkDescriptor KindEvent TypeAnalog 88 false true true false 32 false);
   ((33, 4), mkDescriptor KindEvent TypeAnalog 72 false true true false 16 false);
   ((33, 5), mkDescriptor KindEvent TypeAnalog 40 false true false false 32 true);
   ((33, 6), mkDescriptor KindEvent TypeAnalog 72 false true false false 64 true);
   ((33, 7), mkDescriptor KindEvent TypeAnalog 88 false true true false 32 true);
   ((33, 8), mkDescriptor KindEvent TypeAnalog 120 false true true false 64 true);
   ((34, 1), mkDescriptor KindDeadband TypeUnknown 16 false false false false 16 false);
   ((34, 2), mkDescriptor KindDeadband TypeUnknown 32 false false false false 32 false);
   ((34, 3), mkDescriptor KindDeadband TypeUnknown 32 false false false false 32 true)].
Definition analog_output_descriptors : list ((Z * Z) * Descriptor) :=
  [((40, 1), mkDescriptor KindStatic TypeAnalogOutputStatus 40 false true false false 32 false);
   ((40, 2), mkDescriptor KindStatic TypeAnalogOutputStatus 24 false true false false 16 false);
   ((40, 3), mkDescriptor KindStatic TypeAnalogOutputStatus 40 false true false false 32 true);
   ((40, 4), mkDescriptor KindStatic TypeAnalogOutputStatus 72 false true false false 64 true);
   ((41, 1), mkDescriptor KindCommand TypeUnknown 40 false false false false 32 false);
   ((41, 2), mkDescriptor KindCommand TypeUnknown 24 false false false false 16 false);
   ((41, 3), mkDescriptor KindCommand TypeUnknown 40 false false false false 32 true);
   ((41, 4), mkDescriptor KindCommand TypeUnknown 72 false false false false 64 true)].
Definition analog_output_event_descriptors : list ((Z * Z) * Descriptor) :=
  [((42, 1), mkDescriptor KindEvent TypeAnalogOutputStatus 40 false true false false 32 false);
   ((42, 2), mkDescriptor KindEvent TypeAnalogOutputStatus 24 false true false false 16 false);
   ((42, 3), mkDescriptor KindEvent TypeAnalogOutputStatus 88 false true true false 32 false);
   ((42, 4), mkDescriptor KindEvent TypeAnalogOutputStatus 72 false true true false 16 false);
   ((42, 5), mkDescriptor KindEvent TypeAnalogOutputStatus 40 false true false false 32 true);
   ((42, 6), mkDescriptor KindEvent TypeAnalogOutputStatus 72 false true false false 64 true);
   ((42, 7), mkDescriptor KindEvent TypeAnalogOutputStatus 88 false true true false 32 true);
   ((42, 8), mkDescriptor KindEvent TypeAnalogOutputStatus 120 false true true false 64 true)].
Definition analog_command_event_descriptors : list ((Z * Z) * Descriptor) :=
  [((43, 1), mkDescriptor KindCommandEvent TypeUnknown 40 false false false false 32 false);
   ((43, 2), mkDescriptor KindCommandEvent TypeUnknown 24 false false false false 16 false);
   ((43, 3), mkDescriptor KindCommandEvent TypeUnknown 88 false false true false 32 false);
   ((43, 4), mkDescriptor KindCommandEvent TypeUnknown 72 false false true false 16 false);
   ((43, 5), mkDescriptor KindCommandEvent TypeUnknown 40 false false false false 32 true);
   ((43, 6), mkDescriptor KindCommandEvent TypeUnknown 72 false false false false 64 true);
   ((43, 7), mkDescriptor KindCommandEvent TypeUnknown 88 false false true false 32 true);
   ((43, 8), mkDescriptor KindCommandEvent TypeUnknown 120 false false true false 64 true)].
Definition time_class_descriptors : list ((Z * Z) * Descriptor) :=
  [((50, 1), mkDescriptor KindTime TypeUnknown 48 false false true false 0 false);
   ((50, 2), mkDescriptor KindTime TypeUnknown 80 false false true false 0 false);
   ((50, 3), mkDescriptor KindTime TypeUnknown 48 false false true false 0 false);
   ((50, 4), mkDescriptor KindTime TypeUnknown 88 false false true false 0 false);
   ((51, 1), mkDescriptor KindTime TypeUnknown 48 false false true false 0 false);
   ((51, 2), mkDescriptor KindTime TypeUnknown 48 false false true false 0 false);
   ((52, 1), mkDescriptor KindTime TypeUnknown 16 false false false false 16 false);
   ((52, 2), mkDescriptor KindTime TypeUnknown 16 false false false false 16 false);
   ((60, 1), mkDescriptor KindClass TypeUnknown 0 false false false false 0 false);
   ((60, 2), mkDescriptor KindClass TypeUnknown 0 false false false false 0 false);
   ((60, 3), mkDescriptor KindClass TypeUnknown 0 false false false false 0 false);
   ((60, 4), mkDescriptor KindClass TypeUnknown 0 false false false false 0 false);
   ((80, 1), mkDescriptor KindIndication TypeUnknown 1 true false false false 0 false)].
Definition security_descriptors : list ((Z * Z) * Descriptor) :=
  [((86, 2), mkDescriptor KindAttribute TypeUnknown 8 false false false false 0 false);
   ((120, 3), mkDescriptor KindTime TypeUnknown 48 false false false false 0 false);
   ((120, 4), mkDescriptor KindTime TypeUnknown 16 false false false false 0 false);
   ((121, 1), mkDescriptor KindStatic TypeUnknown 56 false true false false 32 false);
   ((122, 1), mkDescriptor KindEvent TypeUnknown 56 false true false false 32 false);
   ((122, 2), mkDescriptor KindEvent TypeUnknown 104 false true true false 32 false)].

Definition descriptors : list ((Z * Z) * Descriptor) :=
  binary_input_descriptors ++ binary_output_descriptors ++ counter_descriptors ++ counter_event_descriptors ++
  analog_input_descriptors ++ frozen_analog_descriptors ++ analog_event_descriptors ++
  frozen_analog_event_descriptors ++ analog_output_descriptors ++ analog_output_event_descriptors ++
  analog_command_event_descriptors ++ time_class_descriptors ++ security_descriptors.

Definition Lookup (g : GroupVar) : option Descriptor :=
  snd <$> find (fun e => (fst (fst e) =? GV_Group g) && (snd (fst e) =? GV_Variation g)) descriptors.

(** ** The codec context *)

Record Context := mkContext { Synchronized : bool; CTO : Z; HasCTO : bool; CTOSynchronized : bool }.

Definition TimeQuality (c : Context) : TimestampQuality :=
  if Synchronized c then TimestampSynchronized else TimestampUnsynchronized.

Definition RelativeTime (c : Context) (offsetMillis : Z) : Timestamp :=
  if negb (HasCTO c) then NoTime
  else mkTimestamp (CTO c + offsetMillis * 1000000)
         (if CTOSynchronized c then TimestampSynchronized else TimestampUnsynchronized).

(** [time.Time.Sub] saturates at the ends of an [int64]; [Milliseconds] truncates. *)
Definition time_Sub (t u : Z) : Z := Z.max (- 2 ^ 63) (Z.min (2 ^ 63 - 1) (t - u)).
Definition Milliseconds (d : Z) : Z := Z.quot d 1000000.

Definition RelativeOffset (c : Context) (t : Timestamp) : Z :=
  if negb (HasCTO c) || negb (Timestamp_IsValid t) then 0
  else
    let delta := Milliseconds (time_Sub (TTime t) (CTO c)) in
    if delta <? 0 then 0 else if 0xFFFF <? delta then 0xFFFF else delta.

Definition WithCTO (c : Context) (t : Z) : Context := mkContext (Synchronized c) t true (Synchronized c).
Definition WithGroup51 (c : Context) (t variation : Z) : Context :=
  let c := WithCTO c t in mkContext (Synchronized c) (CTO c) (HasCTO c) (variation =? 1).

(** ** Properties *)

(** Whether the two generated tables agree at one group and variation. *)
Definition tables_agree (g v : Z) : bool :=
  bool_decide (generatedSizes (gv g v) = D_SizeBits <$> Lookup (GV g v)) &&
  match Lookup (GV g v) with
  | Some d => Bool.eqb (Packed d) ((0 <? D_SizeBits d) && (D_SizeBits d <? 8))
  | None => true
  end.

(** The framing layer and the registry cannot disagree: for every group and variation,
    the size table the fragment walk uses has an entry exactly when the registry describes
    the object, with the same size, and an object is packed exactly when it is smaller than
    an octet. *)
Theorem size_tables_agree g v :
  octet_ok g -> octet_ok v ->
  generatedSizes (gv g v) = D_SizeBits <$> Lookup (GV g v) /\
  forall d, Lookup (GV g v) = Some d -> (Packed d = true <-> 0 < D_SizeBits d < 8).
Proof.
  intros Hg Hv. assert (H : tables_agree g v = true).
  { revert v Hv. apply (forall_octets (tables_agree g)). revert g Hg.
    apply (forall_octets (fun g => forallb (tables_agree g) (Z.of_nat <$> seq 0 256))).
    vm_compute. reflexivity. }
  unfold tables_agree in H. apply andb_true_iff in H as [H1 H2]. apply bool_decide_eq_true_1 in H1.
  split; [done|]. intros d Hd. rewrite Hd in H2. apply eqb_prop in H2. rewrite H2, andb_true_iff, !Z.ltb_lt. done.
Qed.

Lemma size_tables_agree_witness :
  generatedSizes (gv 30 2) = D_SizeBits <$> Lookup (GV 30 2) /\ generatedSizes (gv 30 2) = Some 24.
Proof. split; [|reflexivity]. apply size_tables_agree; vm_compute; split; congruence. Defined.

(** A relative time survives the wire: encoding an instant at most 65.535 seconds after
    the common time of occurrence and decoding it against the same base loses less than a
    millisecond, and takes its quality from the base. *)
Theorem relative_time_roundtrip c t :
  HasCTO c = true -> Timestamp_IsValid t = true ->
  0 <= TTime t - CTO c < 65536 * 1000000 ->
  let r := RelativeTime c (RelativeOffset c t) in
  0 <= RelativeOffset c t <= 0xFFFF /\ 0 <= TTime t - TTime r < 1000000 /\
  Quality r = (if CTOSynchronized c then TimestampSynchronized else TimestampUnsynchronized).
Proof.
  intros Hc Ht Hd r. unfold r, RelativeTime. rewrite Hc. cbn [negb TTime Quality].
  unfold RelativeOffset. rewrite Hc, Ht. cbn [negb orb].
  assert (Hs : time_Sub (TTime t) (CTO c) = TTime t - CTO c)
    by (unfold time_Sub; change (2 ^ 63) with 9223372036854775808; lia).
  rewrite Hs. unfold Milliseconds. rewrite Z.quot_div_nonneg by lia.
  pose proof (Z.div_mod (TTime t - CTO c) 1000000). pose proof (Z.mod_pos_bound (TTime t - CTO c) 1000000).
  assert (Hq : 0 <= (TTime t - CTO c) / 1000000 < 65536).
  { split; [apply Z.div_pos; lia | apply Z.div_lt_upper_bound; lia]. }
  destruct (Z.ltb_spec ((TTime t - CTO c) / 1000000) 0); [lia|].
  destruct (Z.ltb_spec 0xFFFF ((TTime t - CTO c) / 1000000)); [lia|].
  split; [lia|]. split; [lia | done].
Qed.

Lemma relative_time_roundtrip_witness :
  let c := WithGroup51 (mkContext true 0 false false) 1000000000 2 in
  let t := Now 1234567890 in
  let r := RelativeTime c (RelativeOffset c t) in
  RelativeOffset c t = 234 /\ 0 <= TTime t - TTime r < 1000000.
Proof.
  intros c t r. split; [reflexivity|].
  apply (relative_time_roundtrip c t); [reflexivity | reflexivity | vm_compute; split; congruence].
Defined.
