(* ===== verification/Codecs.v ===== *)
(** * The measurement codecs (src/objects/convert.go, src/objects/packed.go,
    src/objects/zz_generated_codecs.go, the time objects of src/objects/commands.go)

    One pair of functions per variation, as the generator writes them, the tables they are
    looked up in, and the bit-packed variations, which encode a whole range at once.

    The theorems: each codec of each table does what the descriptor of its variation says
    (its size, whether it carries flags, a time and of which kind, and how wide its value
    is), so that what a master reads is the point's value as that variation can express it;
    and a packed range comes back bit for bit. *)

From Stdlib Require Import SpecFloat.
From S2P Require Import Prelude Values Floats AppHeader AppObject Objects.

(** ** Helpers of the generated code *)

Definition appendTime48 (dst : list Z) (ms : Z) : list Z :=
  dst ++ [u8 ms; u8 (Z.shiftr ms 8); u8 (Z.shiftr ms 16); u8 (Z.shiftr ms 24); u8 (Z.shiftr ms 32); u8 (Z.shiftr ms 40)].

Definition readTime48 (buf : list Z) : Z :=
  Z.lor (Z.lor (Z.lor (Z.lor (Z.lor (at_ buf 0) (Z.shiftl (at_ buf 1) 8)) (Z.shiftl (at_ buf 2) 16))
    (Z.shiftl (at_ buf 3) 24)) (Z.shiftl (at_ buf 4) 32)) (Z.shiftl (at_ buf 5) 40).

(** The expression the generated code writes out for an absolute time at [off]. *)
Definition parseTime (buf : list Z) (off : nat) (ctx : Context) : Timestamp :=
  mkTimestamp (DNP3ToTime (readTime48 (drop off buf))) (TimeQuality ctx).

(** Time objects (src/objects/commands.go). *)
Definition Time48Size : Z := 6.
Definition ParseTime48 (buf : list Z) : Timestamp := mkTimestamp (DNP3ToTime (readTime48 buf)) TimestampSynchronized.
Definition AppendTime48 (dst : list Z) (t : Timestamp) : list Z := appendTime48 dst (TimeToDNP3 (TTime t)).
Definition ParseTimeDelay (variation : Z) (buf : list Z) : Z :=
  let v := le_val (slice 0 2 buf) in
  if variation =? 1 then u32 (v * 1000) else v.

Definition clampInt16 (v : spec_float) : Z * bool :=
  if IsNaN v then (0, true)
  else if SFltb (f64_of_Z 32767) v then (32767, true)
  else if SFltb v (f64_of_Z (-32768)) then (-32768, true)
  else (f64_trunc v, false).
Definition clampInt32 (v : spec_float) : Z * bool :=
  if IsNaN v then (0, true)
  else if SFltb (f64_of_Z 2147483647) v then (2147483647, true)
  else if SFltb v (f64_of_Z (-2147483648)) then (-2147483648, true)
  else (f64_trunc v, false).
Definition clampUint16 (v : spec_float) : Z * bool :=
  if IsNaN v then (0, true)
  else if SFltb v f64_zero then (0, true)
  else if SFltb (f64_of_Z 65535) v then (65535, true)
  else (f64_trunc v, false).
Definition clampUint32 (v : spec_float) : Z * bool :=
  if IsNaN v then (0, true)
  else if SFltb v f64_zero then (0, true)
  else if SFltb (f64_of_Z 4294967295) v then (4294967295, true)
  else (f64_trunc v, false).

(** ** The generated codecs *)

Record Codec (T : Type) := mkCodec { Parse : list Z -> Context -> T; Write : list Z -> T -> Context -> list Z }.
Arguments mkCodec {T}.
Arguments Parse {T}.
Arguments Write {T}.

(** *** [Binary] *)

Definition parseG1V2 (buf : list Z) (ctx : Context) : Binary :=
  mkMeasurement (negb (Z.land (at_ buf 0) 0x80 =? 0)) (at_ buf 0) NoTime.
Definition writeG1V2 (dst : list Z) (v : Binary) (ctx : Context) : list Z :=
  let flags := Z.ldiff (Flags v) StateBit in
  let flags := if Value v then Z.lor flags StateBit else flags in
  let dst := dst ++ [u8 flags] in
  dst.
Definition parseG2V1 (buf : list Z) (ctx : Context) : Binary :=
  mkMeasurement (negb (Z.land (at_ buf 0) 0x80 =? 0)) (at_ buf 0) NoTime.
Definition writeG2V1 (dst : list Z) (v : Binary) (ctx : Context) : list Z :=
  let flags := Z.ldiff (Flags v) StateBit in
  let flags := if Value v then Z.lor flags StateBit else flags in
  let dst := dst ++ [u8 flags] in
  dst.
Definition parseG2V2 (buf : list Z) (ctx : Context) : Binary :=
  mkMeasurement (negb (Z.land (at_ buf 0) 0x80 =? 0)) (at_ buf 0) (parseTime buf 1 ctx).
Definition writeG2V2 (dst : list Z) (v : Binary) (ctx : Context) : list Z :=
  let flags := Z.ldiff (Flags v) StateBit in
  let flags := if Value v then Z.lor flags StateBit else flags in
  let dst := dst ++ [u8 flags] in
  let dst := appendTime48 dst (TimeToDNP3 (TTime (Time v))) in
  dst.
Definition parseG2V3 (buf : list Z) (ctx : Context) : Binary :=
  mkMeasurement (negb (Z.land (at_ buf 0) 0x80 =? 0)) (at_ buf 0) (RelativeTime ctx (le_val (slice 1 3 buf))).
Definition writeG2V3 (dst : list Z) (v : Binary) (ctx : Context) : list Z :=
  let flags := Z.ldiff (Flags v) StateBit in
  let flags := if Value v then Z.lor flags StateBit else flags in
  let dst := dst ++ [u8 flags] in
  let dst := dst ++ le16 (RelativeOffset ctx (Time v)) in
  dst.
Definition binaryCodecs : list ((Z * Z) * Codec Binary) :=
  [((1, 2), mkCodec parseG1V2 writeG1V2);
   ((2, 1), mkCodec parseG2V1 writeG2V1);
   ((2, 2), mkCodec parseG2V2 writeG2V2);
   ((2, 3), mkCodec parseG2V3 writeG2V3)].

(** *** [DoubleBitBinary] *)

Definition parseG3V2 (buf : list Z) (ctx : Context) : DoubleBitBinary :=
  mkMeasurement (Z.shiftr (at_ buf 0) 6) (at_ buf 0) NoTime.
Definition writeG3V2 (dst : list Z) (v : DoubleBitBinary) (ctx : Context) : list Z :=
  let dst := dst ++ [Z.lor (u8 (Z.land (Flags v) 0x3F)) (u8 (Z.shiftl (u8 (Z.land (Value v) 0x03)) 6))] in
  dst.
Definition parseG4V1 (buf : list Z) (ctx : Context) : DoubleBitBinary :=
  mkMeasurement (Z.shiftr (at_ buf 0) 6) (at_ buf 0) NoTime.
Definition writeG4V1 (dst : list Z) (v : DoubleBitBinary) (ctx : Context) : list Z :=
  let dst := dst ++ [Z.lor (u8 (Z.land (Flags v) 0x3F)) (u8 (Z.shiftl (u8 (Z.land (Value v) 0x03)) 6))] in
  dst.
Definition parseG4V2 (buf : list Z) (ctx : Context) : DoubleBitBinary :=
  mkMeasurement (Z.shiftr (at_ buf 0) 6) (at_ buf 0) (parseTime buf 1 ctx).
Definition writeG4V2 (dst : list Z) (v : DoubleBitBinary) (ctx : Context) : list Z :=
  let dst := dst ++ [Z.lor (u8 (Z.land (Flags v) 0x3F)) (u8 (Z.shiftl (u8 (Z.land (Value v) 0x03)) 6))] in
  let dst := appendTime48 dst (TimeToDNP3 (TTime (Time v))) in
  dst.
Definition parseG4V3 (buf : list Z) (ctx : Context) : DoubleBitBinary :=
  mkMeasurement (Z.shiftr (at_ buf 0) 6) (at_ buf 0) (RelativeTime ctx (le_val (slice 1 3 buf))).
Definition writeG4V3 (dst : list Z) (v : DoubleBitBinary) (ctx : Context) : list Z :=
  let dst := dst ++ [Z.lor (u8 (Z.land (Flags v) 0x3F)) (u8 (Z.shiftl (u8 (Z.land (Value v) 0x03)) 6))] in
  let dst := dst ++ le16 (RelativeOffset ctx (Time v)) in
  dst.
Definition doublebitCodecs : list ((Z * Z) * Codec DoubleBitBinary) :=
  [((3, 2), mkCodec parseG3V2 writeG3V2);
   ((4, 1), mkCodec parseG4V1 writeG4V1);
   ((4, 2), mkCodec parseG4V2 writeG4V2);
   ((4, 3), mkCodec parseG4V3 writeG4V3)].

(** *** [Counter] *)

Definition parseG20V1 (buf : list Z) (ctx : Context) : Counter :=
  mkMeasurement (le_val (slice 1 5 buf)) (at_ buf 0) NoTime.
Definition writeG20V1 (dst : list Z) (v : Counter) (ctx : Context) : list Z :=
  let dst := dst ++ [u8 (Flags v)] in
  let dst := dst ++ le32 (u32 (Value v)) in
  dst.
Definition parseG20V2 (buf : list Z) (ctx : Context) : Counter :=
  mkMeasurement (le_val (slice 1 3 buf)) (at_ buf 0) NoTime.
Definition writeG20V2 (dst : list Z) (v : Counter) (ctx : Context) : list Z :=
  let dst := dst ++ [u8 (Flags v)] in
  let dst := dst ++ le16 (u16 (Value v)) in
  dst.
Definition parseG20V5 (buf : list Z) (ctx : Context) : Counter :=
  mkMeasurement (le_val (slice 0 4 buf)) Online NoTime.
Definition writeG20V5 (dst : list Z) (v : Counter) (ctx : Context) : list Z :=
  let dst := dst ++ le32 (u32 (Value v)) in
  dst.
Definition parseG20V6 (buf : list Z) (ctx : Context) : Counter :=
  mkMeasurement (le_val (slice 0 2 buf)) Online NoTime.
Definition writeG20V6 (dst : list Z) (v : Counter) (ctx : Context) : list Z :=
  let dst := dst ++ le16 (u16 (Value v)) in
  dst.
Definition parseG22V1 (buf : list Z) (ctx : Context) : Counter :=
  mkMeasurement (le_val (slice 1 5 buf)) (at_ buf 0) NoTime.
Definition writeG22V1 (dst : list Z) (v : Counter) (ctx : Context) : list Z :=
  let dst := dst ++ [u8 (Flags v)] in
  let dst := dst ++ le32 (u32 (Value v)) in
  dst.
Definition parseG22V2 (buf : list Z) (ctx : Context) : Counter :=
  mkMeasurement (le_val (slice 1 3 buf)) (at_ buf 0) NoTime.
Definition writeG22V2 (dst : list Z) (v : Counter) (ctx : Context) : list Z :=
  let dst := dst ++ [u8 (Flags v)] in
  let dst := dst ++ le16 (u16 (Value v)) in
  dst.
Definition parseG22V5 (buf : list Z) (ctx : Context) : Counter :=
  mkMeasurement (le_val (slice 1 5 buf)) (at_ buf 0) (parseTime buf 5 ctx).
Definition writeG22V5 (dst : list Z) (v : Counter) (ctx : Context) : list Z :=
  let dst := dst ++ [u8 (Flags v)] in
  let dst := dst ++ le32 (u32 (Value v)) in
  let dst := appendTime48 dst (TimeToDNP3 (TTime (Time v))) in
  dst.
Definition parseG22V6 (buf : list Z) (ctx : Context) : Counter :=
  mkMeasurement (le_val (slice 1 3 buf)) (at_ buf 0) (parseTime buf 3 ctx).
Definition writeG22V6 (dst : list Z) (v : Counter) (ctx : Context) : list Z :=
  let dst := dst ++ [u8 (Flags v)] in
  let dst := dst ++ le16 (u16 (Value v)) in
  let dst := appendTime48 dst (TimeToDNP3 (TTime (Time v))) in
  dst.
Definition counterCodecs : list ((Z * Z) * Codec Counter) :=
  [((20, 1), mkCodec parseG20V1 writeG20V1);
   ((20, 2), mkCodec parseG20V2 writeG20V2);
   ((20, 5), mkCodec parseG20V5 writeG20V5);
   ((20, 6), mkCodec parseG20V6 writeG20V6);
   ((22, 1), mkCodec parseG22V1 writeG22V1);
   ((22, 2), mkCodec parseG22V2 writeG22V2);
   ((22, 5), mkCodec parseG22V5 writeG22V5);
   ((22, 6), mkCodec parseG22V6 writeG22V6)].

(** *** [FrozenCounter] *)

Definition parseG21V1 (buf : list Z) (ctx : Context) : FrozenCounter :=
  mkMeasurement (le_val (slice 1 5 buf)) (at_ buf 0) NoTime.
Definition writeG21V1 (dst : list Z) (v : FrozenCounter) (ctx : Context) : list Z :=
  let dst := dst ++ [u8 (Flags v)] in
  let dst := dst ++ le32 (u32 (Value v)) in
  dst.
Definition parseG21V2 (buf : list Z) (ctx : Context) : FrozenCounter :=
  mkMeasurement (le_val (slice 1 3 buf)) (at_ buf 0) NoTime.
Definition writeG21V2 (dst : list Z) (v : FrozenCounter) (ctx : Context) : list Z :=
  let dst := dst ++ [u8 (Flags v)] in
  let dst := dst ++ le16 (u16 (Value v)) in
  dst.
Definition parseG21V5 (buf : list Z) (ctx : Context) : FrozenCounter :=
  mkMeasurement (le_val (slice 1 5 buf)) (at_ buf 0) (parseTime buf 5 ctx).
Definition writeG21V5 (dst : list Z) (v : FrozenCounter) (ctx : Context) : list Z :=
  let dst := dst ++ [u8 (Flags v)] in
  let dst := dst ++ le32 (u32 (Value v)) in
  let dst := appendTime48 dst (TimeToDNP3 (TTime (Time v))) in
  dst.
Definition parseG21V6 (buf : list Z) (ctx : Context) : FrozenCounter :=
  mkMeasurement (le_val (slice 1 3 buf)) (at_ buf 0) (parseTime buf 3 ctx).
Definition writeG21V6 (dst : list Z) (v : FrozenCounter) (ctx : Context) : list Z :=
  let dst := dst ++ [u8 (Flags v)] in
  let dst := dst ++ le16 (u16 (Value v)) in
  let dst := appendTime48 dst (TimeToDNP3 (TTime (Time v))) in
  dst.
Definition parseG21V9 (buf : list Z) (ctx : Context) : FrozenCounter :=
  mkMeasurement (le_val (slice 0 4 buf)) Online NoTime.
Definition writeG21V9 (dst : list Z) (v : FrozenCounter) (ctx : Context) : list Z :=
  let dst := dst ++ le32 (u32 (Value v)) in
  dst.
Definition parseG21V10 (buf : list Z) (ctx : Context) : FrozenCounter :=
  mkMeasurement (le_val (slice 0 2 buf)) Online NoTime.
Definition writeG21V10 (dst : list Z) (v : FrozenCounter) (ctx : Context) : list Z :=
  let dst := dst ++ le16 (u16 (Value v)) in
  dst.
Definition parseG23V1 (buf : list Z) (ctx : Context) : FrozenCounter :=
  mkMeasurement (le_val (slice 1 5 buf)) (at_ buf 0) NoTime.
Definition writeG23V1 (dst : list Z) (v : FrozenCounter) (ctx : Context) : list Z :=
  let dst := dst ++ [u8 (Flags v)] in
  let dst := dst ++ le32 (u32 (Value v)) in
  dst.
Definition parseG23V2 (buf : list Z) (ctx : Context) : FrozenCounter :=
  mkMeasurement (le_val (slice 1 3 buf)) (at_ buf 0) NoTime.
Definition writeG23V2 (dst : list Z) (v : FrozenCounter) (ctx : Context) : list Z :=
  let dst := dst ++ [u8 (Flags v)] in
  let dst := dst ++ le16 (u16 (Value v)) in
  dst.
Definition parseG23V5 (buf : list Z) (ctx : Context) : FrozenCounter :=
  mkMeasurement (le_val (slice 1 5 buf)) (at_ buf 0) (parseTime buf 5 ctx).
Definition writeG23V5 (dst : list Z) (v : FrozenCounter) (ctx : Context) : list Z :=
  let dst := dst ++ [u8 (Flags v)] in
  let dst := dst ++ le32 (u32 (Value v)) in
  let dst := appendTime48 dst (TimeToDNP3 (TTime (Time v))) in
  dst.
Definition parseG23V6 (buf : list Z) (ctx : Context) : FrozenCounter :=
  mkMeasurement (le_val (slice 1 3 buf)) (at_ buf 0) (parseTime buf 3 ctx).
Definition writeG23V6 (dst : list Z) (v : FrozenCounter) (ctx : Context) : list Z :=
  let dst := dst ++ [u8 (Flags v)] in
  let dst := dst ++ le16 (u16 (Value v)) in
  let dst := appendTime48 dst (TimeToDNP3 (TTime (Time v))) in
  dst.
Definition frozencounterCodecs : list ((Z * Z) * Codec FrozenCounter) :=
  [((21, 1), mkCodec parseG21V1 writeG21V1);
   ((21, 2), mkCodec parseG21V2 writeG21V2);
   ((21, 5), mkCodec parseG21V5 writeG21V5);
   ((21, 6), mkCodec parseG21V6 writeG21V6);
   ((21, 9), mkCodec parseG21V9 writeG21V9);
   ((21, 10), mkCodec parseG21V10 writeG21V10);
   ((23, 1), mkCodec parseG23V1 writeG23V1);
   ((23, 2), mkCodec parseG23V2 writeG23V2);
   ((23, 5), mkCodec parseG23V5 writeG23V5);
   ((23, 6), mkCodec parseG23V6 writeG23V6)].

(** *** [Analog] *)

Definition parseG30V1 (buf : list Z) (ctx : Context) : Analog :=
  mkMeasurement (f64_of_Z (int_of 32 (le_val (slice 1 5 buf)))) (at_ buf 0) NoTime.
Definition writeG30V1 (dst : list Z) (v : Analog) (ctx : Context) : list Z :=
  let '(n, over) := clampInt32 (Value v) in
  let flags := Flags v in
  let flags := if over then Z.lor flags OverRange else flags in
  let dst := dst ++ [u8 flags] in
  let dst := dst ++ le32 (uint_of 32 n) in
  dst.
Definition parseG30V2 (buf : list Z) (ctx : Context) : Analog :=
  mkMeasurement (f64_of_Z (int_of 16 (le_val (slice 1 3 buf)))) (at_ buf 0) NoTime.
Definition writeG30V2 (dst : list Z) (v : Analog) (ctx : Context) : list Z :=
  let '(n, over) := clampInt16 (Value v) in
  let flags := Flags v in
  let flags := if over then Z.lor flags OverRange else flags in
  let dst := dst ++ [u8 flags] in
  let dst := dst ++ le16 (uint_of 16 n) in
  dst.
Definition parseG30V3 (buf : list Z) (ctx : Context) : Analog :=
  mkMeasurement (f64_of_Z (int_of 32 (le_val (slice 0 4 buf)))) Online NoTime.
Definition writeG30V3 (dst : list Z) (v : Analog) (ctx : Context) : list Z :=
  let '(n, _) := clampInt32 (Value v) in
  let dst := dst ++ le32 (uint_of 32 n) in
  dst.
Definition parseG30V4 (buf : list Z) (ctx : Context) : Analog :=
  mkMeasurement (f64_of_Z (int_of 16 (le_val (slice 0 2 buf)))) Online NoTime.
Definition writeG30V4 (dst : list Z) (v : Analog) (ctx : Context) : list Z :=
  let '(n, _) := clampInt16 (Value v) in
  let dst := dst ++ le16 (uint_of 16 n) in
  dst.
Definition parseG30V5 (buf : list Z) (ctx : Context) : Analog :=
  mkMeasurement (f64_of_f32_bits (le_val (slice 1 5 buf))) (at_ buf 0) NoTime.
Definition writeG30V5 (dst : list Z) (v : Analog) (ctx : Context) : list Z :=
  let dst := dst ++ [u8 (Flags v)] in
  let dst := dst ++ le32 (f32_bits (f32_of_f64 (Value v))) in
  dst.
Definition parseG30V6 (buf : list Z) (ctx : Context) : Analog :=
  mkMeasurement (f64_from_bits (le_val (slice 1 9 buf))) (at_ buf 0) NoTime.
Definition writeG30V6 (dst : list Z) (v : Analog) (ctx : Context) : list Z :=
  let dst := dst ++ [u8 (Flags v)] in
  let dst := dst ++ le64 (f64_bits (Value v)) in
  dst.
Definition parseG31V1 (buf : list Z) (ctx : Context) : Analog :=
  mkMeasurement (f64_of_Z (int_of 32 (le_val (slice 1 5 buf)))) (at_ buf 0) NoTime.
Definition writeG31V1 (dst : list Z) (v : Analog) (ctx : Context) : list Z :=
  let '(n, over) := clampInt32 (Value v) in
  let flags := Flags v in
  let flags := if over then Z.lor flags OverRange else flags in
  let dst := dst ++ [u8 flags] in
  let dst := dst ++ le32 (uint_of 32 n) in
  dst.
Definition parseG31V2 (buf : list Z) (ctx : Context) : Analog :=
  mkMeasurement (f64_of_Z (int_of 16 (le_val (slice 1 3 buf)))) (at_ buf 0) NoTime.
Definition writeG31V2 (dst : list Z) (v : Analog) (ctx : Context) : list Z :=
  let '(n, over) := clampInt16 (Value v) in
  let flags := Flags v in
  let flags := if over then Z.lor flags OverRange else flags in
  let dst := dst ++ [u8 flags] in
  let dst := dst ++ le16 (uint_of 16 n) in
  dst.
Definition parseG31V3 (buf : list Z) (ctx : Context) : Analog :=
  mkMeasurement (f64_of_Z (int_of 32 (le_val (slice 1 5 buf)))) (at_ buf 0) (parseTime buf 5 ctx).
Definition writeG31V3 (dst : list Z) (v : Analog) (ctx : Context) : list Z :=
  let '(n, over) := clampInt32 (Value v) in
  let flags := Flags v in
  let flags := if over then Z.lor flags OverRange else flags in
  let dst := dst ++ [u8 flags] in
  let dst := dst ++ le32 (uint_of 32 n) in
  let dst := appendTime48 dst (TimeToDNP3 (TTime (Time v))) in
  dst.
Definition parseG31V4 (buf : list Z) (ctx : Context) : Analog :=
  mkMeasurement (f64_of_Z (int_of 16 (le_val (slice 1 3 buf)))) (at_ buf 0) (parseTime buf 3 ctx).
Definition writeG31V4 (dst : list Z) (v : Analog) (ctx : Context) : list Z :=
  let '(n, over) := clampInt16 (Value v) in
  let flags := Flags v in
  let flags := if over then Z.lor flags OverRange else flags in
  let dst := dst ++ [u8 flags] in
  let dst := dst ++ le16 (uint_of 16 n) in
  let dst := appendTime48 dst (TimeToDNP3 (TTime (Time v))) in
  dst.
Definition parseG31V5 (buf : list Z) (ctx : Context) : Analog :=
  mkMeasurement (f64_of_Z (int_of 32 (le_val (slice 0 4 buf)))) Online NoTime.
Definition writeG31V5 (dst : list Z) (v : Analog) (ctx : Context) : list Z :=
  let '(n, _) := clampInt32 (Value v) in
  let dst := dst ++ le32 (uint_of 32 n) in
  dst.
Definition parseG31V6 (buf : list Z) (ctx : Context) : Analog :=
  mkMeasurement (f64_of_Z (int_of 16 (le_val (slice 0 2 buf)))) Online NoTime.
Definition writeG31V6 (dst : list Z) (v : Analog) (ctx : Context) : list Z :=
  let '(n, _) := clampInt16 (Value v) in
  let dst := dst ++ le16 (uint_of 16 n) in
  dst.
Definition parseG31V7 (buf : list Z) (ctx : Context) : Analog :=
  mkMeasurement (f64_of_f32_bits (le_val (slice 1 5 buf))) (at_ buf 0) NoTime.
Definition writeG31V7 (dst : list Z) (v : Analog) (ctx : Context) : list Z :=
  let dst := dst ++ [u8 (Flags v)] in
  let dst := dst ++ le32 (f32_bits (f32_of_f64 (Value v))) in
  dst.
Definition parseG31V8 (buf : list Z) (ctx : Context) : Analog :=
  mkMeasurement (f64_from_bits (le_val (slice 1 9 buf))) (at_ buf 0) NoTime.
Definition writeG31V8 (dst : list Z) (v : Analog) (ctx : Context) : list Z :=
  let dst := dst ++ [u8 (Flags v)] in
  let dst := dst ++ le64 (f64_bits (Value v)) in
  dst.
Definition parseG32V1 (buf : list Z) (ctx : Context) : Analog :=
  mkMeasurement (f64_of_Z (int_of 32 (le_val (slice 1 5 buf)))) (at_ buf 0) NoTime.
Definition writeG32V1 (dst : list Z) (v : Analog) (ctx : Context) : list Z :=
  let '(n, over) := clampInt32 (Value v) in
  let flags := Flags v in
  let flags := if over then Z.lor flags OverRange else flags in
  let dst := dst ++ [u8 flags] in
  let dst := dst ++ le32 (uint_of 32 n) in
  dst.
Definition parseG32V2 (buf : list Z) (ctx : Context) : Analog :=
  mkMeasurement (f64_of_Z (int_of 16 (le_val (slice 1 3 buf)))) (at_ buf 0) NoTime.
Definition writeG32V2 (dst : list Z) (v : Analog) (ctx : Context) : list Z :=
  let '(n, over) := clampInt16 (Value v) in
  let flags := Flags v in
  let flags := if over then Z.lor flags OverRange else flags in
  let dst := dst ++ [u8 flags] in
  let dst := dst ++ le16 (uint_of 16 n) in
  dst.
Definition parseG32V3 (buf : list Z) (ctx : Context) : Analog :=
  mkMeasurement (f64_of_Z (int_of 32 (le_val (slice 1 5 buf)))) (at_ buf 0) (parseTime buf 5 ctx).
Definition writeG32V3 (dst : list Z) (v : Analog) (ctx : Context) : list Z :=
  let '(n, over) := clampInt32 (Value v) in
  let flags := Flags v in
  let flags := if over then Z.lor flags OverRange else flags in
  let dst := dst ++ [u8 flags] in
  let dst := dst ++ le32 (uint_of 32 n) in
  let dst := appendTime48 dst (TimeToDNP3 (TTime (Time v))) in
  dst.
Definition parseG32V4 (buf : list Z) (ctx : Context) : Analog :=
  mkMeasurement (f64_of_Z (int_of 16 (le_val (slice 1 3 buf)))) (at_ buf 0) (parseTime buf 3 ctx).
Definition writeG32V4 (dst : list Z) (v : Analog) (ctx : Context) : list Z :=
  let '(n, over) := clampInt16 (Value v) in
  let flags := Flags v in
  let flags := if over then Z.lor flags OverRange else flags in
  let dst := dst ++ [u8 flags] in
  let dst := dst ++ le16 (uint_of 16 n) in
  let dst := appendTime48 dst (TimeToDNP3 (TTime (Time v))) in
  dst.
Definition parseG32V5 (buf : list Z) (ctx : Context) : Analog :=
  mkMeasurement (f64_of_f32_bits (le_val (slice 1 5 buf))) (at_ buf 0) NoTime.
Definition writeG32V5 (dst : list Z) (v : Analog) (ctx : Context) : list Z :=
  let dst := dst ++ [u8 (Flags v)] in
  let dst := dst ++ le32 (f32_bits (f32_of_f64 (Value v))) in
  dst.
Definition parseG32V6 (buf : list Z) (ctx : Context) : Analog :=
  mkMeasurement (f64_from_bits (le_val (slice 1 9 buf))) (at_ buf 0) NoTime.
Definition writeG32V6 (dst : list Z) (v : Analog) (ctx : Context) : list Z :=
  let dst := dst ++ [u8 (Flags v)] in
  let dst := dst ++ le64 (f64_bits (Value v)) in
  dst.
Definition parseG32V7 (buf : list Z) (ctx : Context) : Analog :=
  mkMeasurement (f64_of_f32_bits (le_val (slice 1 5 buf))) (at_ buf 0) (parseTime buf 5 ctx).
Definition writeG32V7 (dst : list Z) (v : Analog) (ctx : Context) : list Z :=
  let dst := dst ++ [u8 (Flags v)] in
  let dst := dst ++ le32 (f32_bits (f32_of_f64 (Value v))) in
  let dst := appendTime48 dst (TimeToDNP3 (TTime (Time v))) in
  dst.
Definition parseG32V8 (buf : list Z) (ctx : Context) : Analog :=
  mkMeasurement (f64_from_bits (le_val (slice 1 9 buf))) (at_ buf 0) (parseTime buf 9 ctx).
Definition writeG32V8 (dst : list Z) (v : Analog) (ctx : Context) : list Z :=
  let dst := dst ++ [u8 (Flags v)] in
  let dst := dst ++ le64 (f64_bits (Value v)) in
  let dst := appendTime48 dst (TimeToDNP3 (TTime (Time v))) in
  dst.
Definition parseG33V1 (buf : list Z) (ctx : Context) : Analog :=
  mkMeasurement (f64_of_Z (int_of 32 (le_val (slice 1 5 buf)))) (at_ buf 0) NoTime.
Definition writeG33V1 (dst : list Z) (v : Analog) (ctx : Context) : list Z :=
  let '(n, over) := clampInt32 (Value v) in
  let flags := Flags v in
  let flags := if over then Z.lor flags OverRange else flags in
  let dst := dst ++ [u8 flags] in
  let dst := dst ++ le32 (uint_of 32 n) in
  dst.
Definition parseG33V2 (buf : list Z) (ctx : Context) : Analog :=
  mkMeasurement (f64_of_Z (int_of 16 (le_val (slice 1 3 buf)))) (at_ buf 0) NoTime.
Definition writeG33V2 (dst : list Z) (v : Analog) (ctx : Context) : list Z :=
  let '(n, over) := clampInt16 (Value v) in
  let flags := Flags v in
  let flags := if over then Z.lor flags OverRange else flags in
  let dst := dst ++ [u8 flags] in
  let dst := dst ++ le16 (uint_of 16 n) in
  dst.
Definition parseG33V3 (buf : list Z) (ctx : Context) : Analog :=
  mkMeasurement (f64_of_Z (int_of 32 (le_val (slice 1 5 buf)))) (at_ buf 0) (parseTime buf 5 ctx).
Definition writeG33V3 (dst : list Z) (v : Analog) (ctx : Context) : list Z :=
  let '(n, over) := clampInt32 (Value v) in
  let flags := Flags v in
  let flags := if over then Z.lor flags OverRange else flags in
  let dst := dst ++ [u8 flags] in
  let dst := dst ++ le32 (uint_of 32 n) in
  let dst := appendTime48 dst (TimeToDNP3 (TTime (Time v))) in
  dst.
Definition parseG33V4 (buf : list Z) (ctx : Context) : Analog :=
  mkMeasurement (f64_of_Z (int_of 16 (le_val (slice 1 3 buf)))) (at_ buf 0) (parseTime buf 3 ctx).
Definition writeG33V4 (dst : list Z) (v : Analog) (ctx : Context) : list Z :=
  let '(n, over) := clampInt16 (Value v) in
  let flags := Flags v in
  let flags := if over then Z.lor flags OverRange else flags in
  let dst := dst ++ [u8 flags] in
  let dst := dst ++ le16 (uint_of 16 n) in
  let dst := appendTime48 dst (TimeToDNP3 (TTime (Time v))) in
  dst.
Definition parseG33V5 (buf : list Z) (ctx : Context) : Analog :=
  mkMeasurement (f64_of_f32_bits (le_val (slice 1 5 buf))) (at_ buf 0) NoTime.
Definition writeG33V5 (dst : list Z) (v : Analog) (ctx : Context) : list Z :=
  let dst := dst ++ [u8 (Flags v)] in
  let dst := dst ++ le32 (f32_bits (f32_of_f64 (Value v))) in
  dst.
Definition parseG33V6 (buf : list Z) (ctx : Context) : Analog :=
  mkMeasurement (f64_from_bits (le_val (slice 1 9 buf))) (at_ buf 0) NoTime.
Definition writeG33V6 (dst : list Z) (v : Analog) (ctx : Context) : list Z :=
  let dst := dst ++ [u8 (Flags v)] in
  let dst := dst ++ le64 (f64_bits (Value v)) in
  dst.
Definition parseG33V7 (buf : list Z) (ctx : Context) : Analog :=
  mkMeasurement (f64_of_f32_bits (le_val (slice 1 5 buf))) (at_ buf 0) (parseTime buf 5 ctx).
Definition writeG33V7 (dst : list Z) (v : Analog) (ctx : Context) : list Z :=
  let dst := dst ++ [u8 (Flags v)] in
  let dst := dst ++ le32 (f32_bits (f32_of_f64 (Value v))) in
  let dst := appendTime48 dst (TimeToDNP3 (TTime (Time v))) in
  dst.
Definition parseG33V8 (buf : list Z) (ctx : Context) : Analog :=
  mkMeasurement (f64_from_bits (le_val (slice 1 9 buf))) (at_ buf 0) (parseTime buf 9 ctx).
Definition writeG33V8 (dst : list Z) (v : Analog) (ctx : Context) : list Z :=
  let dst := dst ++ [u8 (Flags v)] in
  let dst := dst ++ le64 (f64_bits (Value v)) in
  let dst := appendTime48 dst (TimeToDNP3 (TTime (Time v))) in
  dst.
Definition analogCodecs : list ((Z * Z) * Codec Analog) :=
  [((30, 1), mkCodec parseG30V1 writeG30V1);
   ((30, 2), mkCodec parseG30V2 writeG30V2);
   ((30, 3), mkCodec parseG30V3 writeG30V3);
   ((30, 4), mkCodec parseG30V4 writeG30V4);
   ((30, 5), mkCodec parseG30V5 writeG30V5);
   ((30, 6), mkCodec parseG30V6 writeG30V6);
   ((31, 1), mkCodec parseG31V1 writeG31V1);
   ((31, 2), mkCodec parseG31V2 writeG31V2);
   ((31, 3), mkCodec parseG31V3 writeG31V3);
   ((31, 4), mkCodec parseG31V4 writeG31V4);
   ((31, 5), mkCodec parseG31V5 writeG31V5);
   ((31, 6), mkCodec parseG31V6 writeG31V6);
   ((31, 7), mkCodec parseG31V7 writeG31V7);
   ((31, 8), mkCodec parseG31V8 writeG31V8);
   ((32, 1), mkCodec parseG32V1 writeG32V1);
   ((32, 2), mkCodec parseG32V2 writeG32V2);
   ((32, 3), mkCodec parseG32V3 writeG32V3);
   ((32, 4), mkCodec parseG32V4 writeG32V4);
   ((32, 5), mkCodec parseG32V5 writeG32V5);
   ((32, 6), mkCodec parseG32V6 writeG32V6);
   ((32, 7), mkCodec parseG32V7 writeG32V7);
   ((32, 8), mkCodec parseG32V8 writeG32V8);
   ((33, 1), mkCodec parseG33V1 writeG33V1);
   ((33, 2), mkCodec parseG33V2 writeG33V2);
   ((33, 3), mkCodec parseG33V3 writeG33V3);
   ((33, 4), mkCodec parseG33V4 writeG33V4);
   ((33, 5), mkCodec parseG33V5 writeG33V5);
   ((33, 6), mkCodec parseG33V6 writeG33V6);
   ((33, 7), mkCodec parseG33V7 writeG33V7);
   ((33, 8), mkCodec parseG33V8 writeG33V8)].

(** *** [BinaryOutputStatus] *)

Definition parseG10V2 (buf : list Z) (ctx : Context) : BinaryOutputStatus :=
  mkMeasurement (negb (Z.land (at_ buf 0) 0x80 =? 0)) (at_ buf 0) NoTime.
Definition writeG10V2 (dst : list Z) (v : BinaryOutputStatus) (ctx : Context) : list Z :=
  let flags := Z.ldiff (Flags v) StateBit in
  let flags := if Value v then Z.lor flags StateBit else flags in
  let dst := dst ++ [u8 flags] in
  dst.
Definition parseG11V1 (buf : list Z) (ctx : Context) : BinaryOutputStatus :=
  mkMeasurement (negb (Z.land (at_ buf 0) 0x80 =? 0)) (at_ buf 0) NoTime.
Definition writeG11V1 (dst : list Z) (v : BinaryOutputStatus) (ctx : Context) : list Z :=
  let flags := Z.ldiff (Flags v) StateBit in
  let flags := if Value v then Z.lor flags StateBit else flags in
  let dst := dst ++ [u8 flags] in
  dst.
Definition parseG11V2 (buf : list Z) (ctx : Context) : BinaryOutputStatus :=
  mkMeasurement (negb (Z.land (at_ buf 0) 0x80 =? 0)) (at_ buf 0) (parseTime buf 1 ctx).
Definition writeG11V2 (dst : list Z) (v : BinaryOutputStatus) (ctx : Context) : list Z :=
  let flags := Z.ldiff (Flags v) StateBit in
  let flags := if Value v then Z.lor flags StateBit else flags in
  let dst := dst ++ [u8 flags] in
  let dst := appendTime48 dst (TimeToDNP3 (TTime (Time v))) in
  dst.
Definition binaryoutputCodecs : list ((Z * Z) * Codec BinaryOutputStatus) :=
  [((10, 2), mkCodec parseG10V2 writeG10V2);
   ((11, 1), mkCodec parseG11V1 writeG11V1);
   ((11, 2), mkCodec parseG11V2 writeG11V2)].

(** *** [AnalogOutputStatus] *)

Definition parseG40V1 (buf : list Z) (ctx : Context) : AnalogOutputStatus :=
  mkMeasurement (f64_of_Z (int_of 32 (le_val (slice 1 5 buf)))) (at_ buf 0) NoTime.
Definition writeG40V1 (dst : list Z) (v : AnalogOutputStatus) (ctx : Context) : list Z :=
  let '(n, over) := clampInt32 (Value v) in
  let flags := Flags v in
  let flags := if over then Z.lor flags OverRange else flags in
  let dst := dst ++ [u8 flags] in
  let dst := dst ++ le32 (uint_of 32 n) in
  dst.
Definition parseG40V2 (buf : list Z) (ctx : Context) : AnalogOutputStatus :=
  mkMeasurement (f64_of_Z (int_of 16 (le_val (slice 1 3 buf)))) (at_ buf 0) NoTime.
Definition writeG40V2 (dst : list Z) (v : AnalogOutputStatus) (ctx : Context) : list Z :=
  let '(n, over) := clampInt16 (Value v) in
  let flags := Flags v in
  let flags := if over then Z.lor flags OverRange else flags in
  let dst := dst ++ [u8 flags] in
  let dst := dst ++ le16 (uint_of 16 n) in
  dst.
Definition parseG40V3 (buf : list Z) (ctx : Context) : AnalogOutputStatus :=
  mkMeasurement (f64_of_f32_bits (le_val (slice 1 5 buf))) (at_ buf 0) NoTime.
Definition writeG40V3 (dst : list Z) (v : AnalogOutputStatus) (ctx : Context) : list Z :=
  let dst := dst ++ [u8 (Flags v)] in
  let dst := dst ++ le32 (f32_bits (f32_of_f64 (Value v))) in
  dst.
Definition parseG40V4 (buf : list Z) (ctx : Context) : AnalogOutputStatus :=
  mkMeasurement (f64_from_bits (le_val (slice 1 9 buf))) (at_ buf 0) NoTime.
Definition writeG40V4 (dst : list Z) (v : AnalogOutputStatus) (ctx : Context) : list Z :=
  let dst := dst ++ [u8 (Flags v)] in
  let dst := dst ++ le64 (f64_bits (Value v)) in
  dst.
Definition parseG42V1 (buf : list Z) (ctx : Context) : AnalogOutputStatus :=
  mkMeasurement (f64_of_Z (int_of 32 (le_val (slice 1 5 buf)))) (at_ buf 0) NoTime.
Definition writeG42V1 (dst : list Z) (v : AnalogOutputStatus) (ctx : Context) : list Z :=
  let '(n, over) := clampInt32 (Value v) in
  let flags := Flags v in
  let flags := if over then Z.lor flags OverRange else flags in
  let dst := dst ++ [u8 flags] in
  let dst := dst ++ le32 (uint_of 32 n) in
  dst.
Definition parseG42V2 (buf : list Z) (ctx : Context) : AnalogOutputStatus :=
  mkMeasurement (f64_of_Z (int_of 16 (le_val (slice 1 3 buf)))) (at_ buf 0) NoTime.
Definition writeG42V2 (dst : list Z) (v : AnalogOutputStatus) (ctx : Context) : list Z :=
  let '(n, over) := clampInt16 (Value v) in
  let flags := Flags v in
  let flags := if over then Z.lor flags OverRange else flags in
  let dst := dst ++ [u8 flags] in
  let dst := dst ++ le16 (uint_of 16 n) in
  dst.
Definition parseG42V3 (buf : list Z) (ctx : Context) : AnalogOutputStatus :=
  mkMeasurement (f64_of_Z (int_of 32 (le_val (slice 1 5 buf)))) (at_ buf 0) (parseTime buf 5 ctx).
Definition writeG42V3 (dst : list Z) (v : AnalogOutputStatus) (ctx : Context) : list Z :=
  let '(n, over) := clampInt32 (Value v) in
  let flags := Flags v in
  let flags := if over then Z.lor flags OverRange else flags in
  let dst := dst ++ [u8 flags] in
  let dst := dst ++ le32 (uint_of 32 n) in
  let dst := appendTime48 dst (TimeToDNP3 (TTime (Time v))) in
  dst.
Definition parseG42V4 (buf : list Z) (ctx : Context) : AnalogOutputStatus :=
  mkMeasurement (f64_of_Z (int_of 16 (le_val (slice 1 3 buf)))) (at_ buf 0) (parseTime buf 3 ctx).
Definition writeG42V4 (dst : list Z) (v : AnalogOutputStatus) (ctx : Context) : list Z :=
  let '(n, over) := clampInt16 (Value v) in
  let flags := Flags v in
  let flags := if over then Z.lor flags OverRange else flags in
  let dst := dst ++ [u8 flags] in
  let dst := dst ++ le16 (uint_of 16 n) in
  let dst := appendTime48 dst (TimeToDNP3 (TTime (Time v))) in
  dst.
Definition parseG42V5 (buf : list Z) (ctx : Context) : AnalogOutputStatus :=
  mkMeasurement (f64_of_f32_bits (le_val (slice 1 5 buf))) (at_ buf 0) NoTime.
Definition writeG42V5 (dst : list Z) (v : AnalogOutputStatus) (ctx : Context) : list Z :=
  let dst := dst ++ [u8 (Flags v)] in
  let dst := dst ++ le32 (f32_bits (f32_of_f64 (Value v))) in
  dst.
Definition parseG42V6 (buf : list Z) (ctx : Context) : AnalogOutputStatus :=
  mkMeasurement (f64_from_bits (le_val (slice 1 9 buf))) (at_ buf 0) NoTime.
Definition writeG42V6 (dst : list Z) (v : AnalogOutputStatus) (ctx : Context) : list Z :=
  let dst := dst ++ [u8 (Flags v)] in
  let dst := dst ++ le64 (f64_bits (Value v)) in
  dst.
Definition parseG42V7 (buf : list Z) (ctx : Context) : AnalogOutputStatus :=
  mkMeasurement (f64_of_f32_bits (le_val (slice 1 5 buf))) (at_ buf 0) (parseTime buf 5 ctx).
Definition writeG42V7 (dst : list Z) (v : AnalogOutputStatus) (ctx : Context) : list Z :=
  let dst := dst ++ [u8 (Flags v)] in
  let dst := dst ++ le32 (f32_bits (f32_of_f64 (Value v))) in
  let dst := appendTime48 dst (TimeToDNP3 (TTime (Time v))) in
  dst.
Definition parseG42V8 (buf : list Z) (ctx : Context) : AnalogOutputStatus :=
  mkMeasurement (f64_from_bits (le_val (slice 1 9 buf))) (at_ buf 0) (parseTime buf 9 ctx).
Definition writeG42V8 (dst : list Z) (v : AnalogOutputStatus) (ctx : Context) : list Z :=
  let dst := dst ++ [u8 (Flags v)] in
  let dst := dst ++ le64 (f64_bits (Value v)) in
  let dst := appendTime48 dst (TimeToDNP3 (TTime (Time v))) in
  dst.
Definition analogoutputCodecs : list ((Z * Z) * Codec AnalogOutputStatus) :=
  [((40, 1), mkCodec parseG40V1 writeG40V1);
   ((40, 2), mkCodec parseG40V2 writeG40V2);
   ((40, 3), mkCodec parseG40V3 writeG40V3);
   ((40, 4), mkCodec parseG40V4 writeG40V4);
   ((42, 1), mkCodec parseG42V1 writeG42V1);
   ((42, 2), mkCodec parseG42V2 writeG42V2);
   ((42, 3), mkCodec parseG42V3 writeG42V3);
   ((42, 4), mkCodec parseG42V4 writeG42V4);
   ((42, 5), mkCodec parseG42V5 writeG42V5);
   ((42, 6), mkCodec parseG42V6 writeG42V6);
   ((42, 7), mkCodec parseG42V7 writeG42V7);
   ((42, 8), mkCodec parseG42V8 writeG42V8)].


(** The lookups of src/objects/objects.go. *)
Definition codec_lookup {T} (table : list ((Z * Z) * Codec T)) (g : GroupVar) : option (Codec T) :=
  snd <$> find (fun e => (fst (fst e) =? GV_Group g) && (snd (fst e) =? GV_Variation g)) table.
Definition BinaryCodec := codec_lookup binaryCodecs.
Definition DoubleBitCodec := codec_lookup doublebitCodecs.
Definition CounterCodec := codec_lookup counterCodecs.
Definition FrozenCounterCodec := codec_lookup frozencounterCodecs.
Definition AnalogCodec := codec_lookup analogCodecs.
Definition BinaryOutputCodec := codec_lookup binaryoutputCodecs.
Definition AnalogOutputCodec := codec_lookup analogoutputCodecs.

(** ** Packed ranges *)

Definition PackedOctets (count bitsPerObject : Z) : Z :=
  if (count <=? 0) || (bitsPerObject <=? 0) then 0 else (count * bitsPerObject + 7) / 8.

Definition bitAt (buf : list Z) (i : Z) : bool :=
  let idx := i / 8 in
  let shift := i mod 8 in
  if len buf <=? idx then false else negb (Z.land (at_ buf idx) (Z.shiftl 1 shift) =? 0).

Definition ParsePackedBinary (buf : list Z) (count : Z) (out : list Binary) : list Binary :=
  out ++ ((fun i => mkMeasurement (bitAt buf i) Online NoTime) <$> seqZ 0 count).
Definition ParsePackedBinaryOutput (buf : list Z) (count : Z) (out : list BinaryOutputStatus) : list BinaryOutputStatus :=
  out ++ ((fun i => mkMeasurement (bitAt buf i) Online NoTime) <$> seqZ 0 count).

Definition pairAt (buf : list Z) (i : Z) : Z :=
  let pair := i * 2 in
  let idx := pair / 8 in
  let shift := pair mod 8 in
  if idx <? len buf then Z.land (Z.shiftr (at_ buf idx) shift) 0x03 else 0.
Definition ParsePackedDoubleBit (buf : list Z) (count : Z) (out : list DoubleBitBinary) : list DoubleBitBinary :=
  out ++ ((fun i => mkMeasurement (pairAt buf i) Online NoTime) <$> seqZ 0 count).

(** [dst[i] |= b] *)
Definition or_at (i b : Z) (dst : list Z) : list Z := alter (fun x => Z.lor x b) (Z.to_nat i) dst.

Definition AppendPackedBinary (dst : list Z) (values : list bool) : list Z :=
  if len values =? 0 then dst
  else
    let start := len dst in
    let dst := dst ++ replicate (Z.to_nat (PackedOctets (len values) 1)) 0 in
    snd (fold_left (fun '(i, dst) (v : bool) =>
      (i + 1, if v then or_at (start + i / 8) (u8 (Z.shiftl 1 (i mod 8))) dst else dst)) values (0, dst)).

Definition AppendPackedDoubleBit (dst : list Z) (values : list Z) : list Z :=
  if len values =? 0 then dst
  else
    let start := len dst in
    let dst := dst ++ replicate (Z.to_nat (PackedOctets (len values) 2)) 0 in
    snd (fold_left (fun '(i, dst) v =>
      let pair := i * 2 in
      (i + 1, or_at (start + pair / 8) (u8 (Z.shiftl (u8 (Z.land v 0x03)) (pair mod 8))) dst)) values (0, dst)).

(** ** Reading back what was written *)

Lemma lor_shiftl a b n : 0 <= n -> 0 <= a < 2 ^ n -> Z.lor a (Z.shiftl b n) = a + b * 2 ^ n.
Proof.
  intros Hn Ha. rewrite <- Z.add_lor_land, Z.shiftl_mul_pow2 by done.
  replace (Z.land a (b * 2 ^ n)) with 0; [by rewrite Z.add_0_r|]. symmetry. apply Z.bits_inj_0. intros i.
  rewrite Z.land_spec. destruct (Z.lt_ge_cases i n).
  - rewrite Z.mul_pow2_bits_low by done. apply andb_false_r.
  - destruct (Z.eq_dec a 0) as [->|]; [by rewrite Z.bits_0|]. rewrite (Z.bits_above_log2 a); [done | lia |].
    apply Z.log2_lt_pow2; [lia|]. apply Z.lt_le_trans with (2 ^ n); [lia|]. apply Z.pow_le_mono_r; lia.
Qed.

Lemma readTime48_octets a b c d e f rest : octets_ok [a; b; c; d; e; f] ->
  readTime48 (a :: b :: c :: d :: e :: f :: rest) = le_val [a; b; c; d; e; f].
Proof.
  unfold octets_ok. rewrite !Forall_cons. unfold octet_ok. intros H. unfold readTime48, at_. norm_nat. cbn [nth].
  rewrite (lor_shiftl a) by lia. rewrite (lor_shiftl (a + _)) by lia. rewrite (lor_shiftl (a + _ + _)) by lia.
  rewrite (lor_shiftl (a + _ + _ + _)) by lia. rewrite (lor_shiftl (a + _ + _ + _ + _)) by lia. cbn [le_val]. lia.
Qed.

Lemma TimeToDNP3_range t : 0 <= TimeToDNP3 t <= MaxDNP3Time.
Proof. unfold TimeToDNP3. assert (0 <= MaxDNP3Time) by (vm_compute; discriminate). repeat destr_if; bool_prop; lia. Qed.

Lemma RelativeOffset_range ctx t : 0 <= RelativeOffset ctx t <= 0xFFFF.
Proof. unfold RelativeOffset. repeat destr_if; bool_prop; lia. Qed.

Lemma parseTime_written pre t rest off ctx : length pre = off ->
  parseTime (pre ++ appendTime48 [] (TimeToDNP3 t) ++ rest) off ctx =
    mkTimestamp (DNP3ToTime (TimeToDNP3 t)) (TimeQuality ctx).
Proof.
  intros <-. unfold parseTime. rewrite drop_app_length. unfold appendTime48. cbn [app].
  pose proof (TimeToDNP3_range t) as Hr. set (ms := TimeToDNP3 t) in *.
  rewrite readTime48_octets by (repeat constructor; apply u8_ok).
  replace (Z.shiftr ms 16) with (Z.shiftr (Z.shiftr ms 8) 8) by (by rewrite Z.shiftr_shiftr).
  replace (Z.shiftr ms 24) with (Z.shiftr (Z.shiftr (Z.shiftr ms 8) 8) 8) by (by rewrite !Z.shiftr_shiftr).
  replace (Z.shiftr ms 32) with (Z.shiftr (Z.shiftr (Z.shiftr (Z.shiftr ms 8) 8) 8) 8) by (by rewrite !Z.shiftr_shiftr).
  replace (Z.shiftr ms 40) with (Z.shiftr (Z.shiftr (Z.shiftr (Z.shiftr (Z.shiftr ms 8) 8) 8) 8) 8)
    by (by rewrite !Z.shiftr_shiftr).
  change (le_val _) with (le_val (le_bytes 6 ms)) at 1. rewrite le_val_bytes, Z.mod_small; [done|].
  change (256 ^ Z.of_nat 6) with (MaxDNP3Time + 1). lia.
Qed.

Lemma ParseTime48_written pre t rest n : length pre = Z.to_nat n ->
  ParseTime48 (drop (Z.to_nat n) (pre ++ appendTime48 [] (TimeToDNP3 t) ++ rest)) =
    mkTimestamp (DNP3ToTime (TimeToDNP3 t)) TimestampSynchronized.
Proof. intros Hn. apply (parseTime_written pre t rest _ (mkContext true 0 false false) Hn). Qed.
Lemma ParseTime48_read t : ParseTime48 (appendTime48 [] (TimeToDNP3 t)) = mkTimestamp (DNP3ToTime (TimeToDNP3 t)) TimestampSynchronized.
Proof.
  rewrite <- (app_nil_r (appendTime48 _ _)). apply (parseTime_written [] t [] 0 (mkContext true 0 false false) eq_refl).
Qed.

Lemma len_appendTime48 ms : len (appendTime48 [] ms) = 6.
Proof. done. Qed.
Lemma appendTime48_ok ms : octets_ok (appendTime48 [] ms).
Proof. repeat constructor; apply u8_ok. Qed.
Lemma appendTime48_dst dst ms : appendTime48 dst ms = dst ++ appendTime48 [] ms.
Proof. done. Qed.

(** An integer of [n] octets at offset [a]. *)
Lemma field_read n a b pre x rest : len pre = a -> b = a + Z.of_nat n ->
  le_val (slice a b (pre ++ le_bytes n x ++ rest)) = x mod 256 ^ Z.of_nat n.
Proof.
  intros Ha ->. rewrite <- le_val_bytes. f_equal. rewrite <- Ha. unfold slice, len.
  replace (Z.to_nat (Z.of_nat (length pre) + Z.of_nat n - Z.of_nat (length pre))) with n by lia.
  rewrite Nat2Z.id, drop_app_length. rewrite take_app_le by (rewrite length_le_bytes; lia).
  apply take_ge. rewrite length_le_bytes. lia.
Qed.

Lemma int_of_uint_of w x : 0 < w -> - 2 ^ (w - 1) <= x < 2 ^ (w - 1) -> int_of w (uint_of w x) = x.
Proof.
  intros Hw Hx. unfold int_of, uint_of.
  assert (H2 : 2 ^ w = 2 * 2 ^ (w - 1)) by (rewrite <- Z.pow_succ_r by lia; f_equal; lia).
  destruct (Z.lt_ge_cases x 0).
  - rewrite <- (Z.mod_add x 1), Z.mod_small by lia. destruct (Z.ltb_spec (x + 1 * 2 ^ w) (2 ^ (w - 1))); lia.
  - rewrite Z.mod_small by lia. destruct (Z.ltb_spec x (2 ^ (w - 1))); lia.
Qed.

Lemma int_field w n x : w = 8 * Z.of_nat n -> 0 < w -> - 2 ^ (w - 1) <= x < 2 ^ (w - 1) ->
  int_of w (uint_of w x mod 256 ^ Z.of_nat n) = x.
Proof.
  intros -> Hw Hx. replace (256 ^ Z.of_nat n) with (2 ^ (8 * Z.of_nat n)) by (rewrite Z.pow_mul_r by lia; done).
  unfold uint_of. rewrite Zmod_mod. by apply (int_of_uint_of (8 * Z.of_nat n)).
Qed.

Lemma clampInt16_range v : f64_valid v -> -32768 <= fst (clampInt16 v) <= 32767.
Proof.
  intros Hv. unfold clampInt16. destruct (IsNaN v) eqn:En; [cbn; lia|].
  destruct (SFltb (f64_of_Z 32767) v) eqn:E1; [cbn; lia|]. destruct (SFltb v _) eqn:E2; [cbn; lia|].
  apply (f64_trunc_range 15 (32767 * 2 ^ 38) (2 ^ 52)); [lia | done | done | done | done | exact E1 | exact E2].
Qed.
Lemma clampInt32_range v : f64_valid v -> -2147483648 <= fst (clampInt32 v) <= 2147483647.
Proof.
  intros Hv. unfold clampInt32. destruct (IsNaN v) eqn:En; [cbn; lia|].
  destruct (SFltb (f64_of_Z 2147483647) v) eqn:E1; [cbn; lia|]. destruct (SFltb v _) eqn:E2; [cbn; lia|].
  apply (f64_trunc_range 31 (2147483647 * 2 ^ 22) (2 ^ 52)); [lia | done | done | done | done | exact E1 | exact E2].
Qed.

Create HintDb codec.
#[local] Hint Unfold parseG1V2 writeG1V2 parseG2V1 writeG2V1 parseG2V2 writeG2V2 parseG2V3 writeG2V3 : codec.
#[local] Hint Unfold parseG3V2 writeG3V2 parseG4V1 writeG4V1 parseG4V2 writeG4V2 parseG4V3 writeG4V3 : codec.
#[local] Hint Unfold parseG20V1 writeG20V1 parseG20V2 writeG20V2 parseG20V5 writeG20V5 parseG20V6 writeG20V6 : codec.
#[local] Hint Unfold parseG22V1 writeG22V1 parseG22V2 writeG22V2 parseG22V5 writeG22V5 parseG22V6 writeG22V6 : codec.
#[local] Hint Unfold parseG21V1 writeG21V1 parseG21V2 writeG21V2 parseG21V5 writeG21V5 parseG21V6 writeG21V6 : codec.
#[local] Hint Unfold parseG21V9 writeG21V9 parseG21V10 writeG21V10 parseG23V1 writeG23V1 parseG23V2 writeG23V2 : codec.
#[local] Hint Unfold parseG23V5 writeG23V5 parseG23V6 writeG23V6 parseG30V1 writeG30V1 parseG30V2 writeG30V2 : codec.
#[local] Hint Unfold parseG30V3 writeG30V3 parseG30V4 writeG30V4 parseG30V5 writeG30V5 parseG30V6 writeG30V6 : codec.
#[local] Hint Unfold parseG31V1 writeG31V1 parseG31V2 writeG31V2 parseG31V3 writeG31V3 parseG31V4 writeG31V4 : codec.
#[local] Hint Unfold parseG31V5 writeG31V5 parseG31V6 writeG31V6 parseG31V7 writeG31V7 parseG31V8 writeG31V8 : codec.
#[local] Hint Unfold parseG32V1 writeG32V1 parseG32V2 writeG32V2 parseG32V3 writeG32V3 parseG32V4 writeG32V4 : codec.
#[local] Hint Unfold parseG32V5 writeG32V5 parseG32V6 writeG32V6 parseG32V7 writeG32V7 parseG32V8 writeG32V8 : codec.
#[local] Hint Unfold parseG33V1 writeG33V1 parseG33V2 writeG33V2 parseG33V3 writeG33V3 parseG33V4 writeG33V4 : codec.
#[local] Hint Unfold parseG33V5 writeG33V5 parseG33V6 writeG33V6 parseG33V7 writeG33V7 parseG33V8 writeG33V8 : codec.
#[local] Hint Unfold parseG10V2 writeG10V2 parseG11V1 writeG11V1 parseG11V2 writeG11V2 parseG40V1 writeG40V1 : codec.
#[local] Hint Unfold parseG40V2 writeG40V2 parseG40V3 writeG40V3 parseG40V4 writeG40V4 parseG42V1 writeG42V1 : codec.
#[local] Hint Unfold parseG42V2 writeG42V2 parseG42V3 writeG42V3 parseG42V4 writeG42V4 parseG42V5 writeG42V5 : codec.
#[local] Hint Unfold parseG42V6 writeG42V6 parseG42V7 writeG42V7 parseG42V8 writeG42V8 : codec.

(** ** What a variation reports

    The descriptor of a variation says what of a measurement survives it. *)

Definition reported_time (d : Descriptor) (ctx : Context) (t : Timestamp) : Timestamp :=
  if negb (HasTime d) then NoTime
  else if RelativeTimed d then RelativeTime ctx (RelativeOffset ctx t)
  else mkTimestamp (DNP3ToTime (TimeToDNP3 (TTime t))) (TimeQuality ctx).

(** The state of a binary is the top bit of its flags; that of a double-bit binary the top two. *)
Definition reported_binary (d : Descriptor) (ctx : Context) (v : Binary) : Binary :=
  mkMeasurement (Value v) (Z.land (Flags v) 0x7F + if Value v then 0x80 else 0) (reported_time d ctx (Time v)).
Definition reported_doubleBit (d : Descriptor) (ctx : Context) (v : DoubleBitBinary) : DoubleBitBinary :=
  mkMeasurement (Value v) (Z.land (Flags v) 0x3F + 64 * Value v) (reported_time d ctx (Time v)).

(** Without flags a point is taken to be online. *)
Definition reported_counter (d : Descriptor) (ctx : Context) (v : Counter) : Counter :=
  mkMeasurement (Value v mod 2 ^ ValueBits d) (if HasFlags d then Flags v else Online) (reported_time d ctx (Time v)).

(** An integer variation saturates, and says so when it has flags. *)
Definition reported_analog (d : Descriptor) (ctx : Context) (v : Analog) : Analog :=
  let '(n, over) := if ValueBits d =? 16 then clampInt16 (Value v) else clampInt32 (Value v) in
  mkMeasurement
    (if FloatValue d
     then if ValueBits d =? 64 then Value v else f64_of_f32_bits (f32_bits (f32_of_f64 (Value v)))
     else f64_of_Z n)
    (if HasFlags d then if negb (FloatValue d) && over then Z.lor (Flags v) OverRange else Flags v else Online)
    (reported_time d ctx (Time v)).

Definition binary_ok (v : Binary) : Prop := octet_ok (Flags v).
Definition doubleBit_ok (v : DoubleBitBinary) : Prop := octet_ok (Flags v) /\ 0 <= Value v <= 3.
Definition counter_ok (v : Counter) : Prop := octet_ok (Flags v) /\ is_u32 (Value v).
Definition analog_ok (v : Analog) : Prop := octet_ok (Flags v) /\ f64_valid (Value v).

(** The codec of a table entry does what the registry says of its variation: it appends
    exactly the octets the registry gives it, and reading them back, whatever follows, gives
    the measurement as reported. *)
Definition codec_ok {T} (ok : T -> Prop) (reported : Descriptor -> Context -> T -> T)
    (e : (Z * Z) * Codec T) : Prop :=
  exists d n, Lookup (GV (fst (fst e)) (snd (fst e))) = Some d /\ SizeOctets d = Some n /\
    forall v ctx, ok v -> exists o, (forall dst, Write (snd e) dst v ctx = dst ++ o) /\
      len o = n /\ octets_ok o /\ forall rest, Parse (snd e) (o ++ rest) ctx = reported d ctx v.

Lemma state_octet (b : bool) f : octet_ok f ->
  let o := u8 (if b then Z.lor (Z.ldiff f StateBit) StateBit else Z.ldiff f StateBit) in
  o = Z.land f 0x7F + (if b then 0x80 else 0) /\ negb (Z.land o 0x80 =? 0) = b.
Proof.
  intros Hf. assert (H : (let o := u8 (if b then Z.lor (Z.ldiff f StateBit) StateBit else Z.ldiff f StateBit) in
    (o =? Z.land f 0x7F + (if b then 0x80 else 0)) && Bool.eqb (negb (Z.land o 0x80 =? 0)) b) = true).
  { destruct b; revert Hf; by_octets f. }
  cbn zeta in H |- *. apply andb_true_iff in H as [H1%Z.eqb_eq H2%eqb_prop]. by split.
Qed.

Lemma pair_octet f x : octet_ok f -> 0 <= x <= 3 ->
  let o := Z.lor (u8 (Z.land f 0x3F)) (u8 (Z.shiftl (u8 (Z.land x 0x03)) 6)) in
  o = Z.land f 0x3F + 64 * x /\ Z.shiftr o 6 = x /\ octet_ok o.
Proof.
  intros Hf Hx. assert (H : (let o := Z.lor (u8 (Z.land f 0x3F)) (u8 (Z.shiftl (u8 (Z.land x 0x03)) 6)) in
    (o =? Z.land f 0x3F + 64 * x) && (Z.shiftr o 6 =? x) && ((0 <=? o) && (o <? 256))) = true).
  { assert (x = 0 \/ x = 1 \/ x = 2 \/ x = 3) as [-> | [-> | [-> | ->]]] by lia; revert Hf; by_octets f. }
  cbn zeta in H |- *. unfold octet_ok. rewrite !andb_true_iff, !Z.eqb_eq, Z.leb_le, Z.ltb_lt in H. tauto.
Qed.

Lemma at_first x (l : list Z) : at_ ([x] ++ l) 0 = x.
Proof. done. Qed.

Lemma measurement_eq {T} (a a' : T) f f' t t' : a = a' -> f = f' -> t = t' -> mkMeasurement a f t = mkMeasurement a' f' t'.
Proof. by intros -> -> ->. Qed.

Lemma field_read0 n b x rest : b = Z.of_nat n -> le_val (slice 0 b (le_bytes n x ++ rest)) = x mod 256 ^ Z.of_nat n.
Proof. intros Hb. by apply (field_read n 0 b []). Qed.

(** Opens an entry of a table: the descriptor, the octets written, their number and range. *)
Ltac codec_start v ctx Hok rest :=
  eexists _, _; split; [vm_compute; reflexivity|]; split; [reflexivity|];
  intros v ctx Hok; cbn [fst snd Write Parse]; autounfold with codec.
Ltac codec_octets :=
  eexists; split; [intros dst; rewrite ?(appendTime48_dst (_ ++ _)), <- ?app_assoc; reflexivity|];
  split; [reflexivity|];
  split; [rewrite ?octets_ok_app, ?octets_ok_cons; split_and?; auto using appendTime48_ok with dnp3|];
  intros rest; rewrite <- ?app_assoc, ?at_first.

Ltac codec_time :=
  unfold reported_time; cbn [HasTime RelativeTimed negb];
  first [reflexivity
        |rewrite (field_read 2) by reflexivity; f_equal; apply Z.mod_small; change (256 ^ Z.of_nat 2) with 65536;
         match goal with |- context [RelativeOffset ?c ?t] => pose proof (RelativeOffset_range c t); lia end
        |rewrite (parseTime_written [_]) by reflexivity; reflexivity
        |rewrite (app_assoc [_] (le_bytes _ _)), parseTime_written by reflexivity; reflexivity].

Lemma binary_codecs_ok : Forall (codec_ok binary_ok reported_binary) binaryCodecs.
Proof.
  repeat constructor.
  all: codec_start v ctx Hok rest.
  all: codec_octets.
  all: destruct (state_octet (Value v) (Flags v) Hok) as [H1 H2]; cbn zeta in H1, H2.
  all: unfold reported_binary; apply measurement_eq; [exact H2 | exact H1 | codec_time].
Qed.

Lemma binaryoutput_codecs_ok : Forall (codec_ok binary_ok reported_binary) binaryoutputCodecs.
Proof.
  repeat constructor.
  all: codec_start v ctx Hok rest.
  all: codec_octets.
  all: destruct (state_octet (Value v) (Flags v) Hok) as [H1 H2]; cbn zeta in H1, H2.
  all: unfold reported_binary; apply measurement_eq; [exact H2 | exact H1 | codec_time].
Qed.

Lemma doublebit_codecs_ok : Forall (codec_ok doubleBit_ok reported_doubleBit) doublebitCodecs.
Proof.
  repeat constructor.
  all: codec_start v ctx Hok rest.
  all: destruct (pair_octet (Flags v) (Value v) (proj1 Hok) (proj2 Hok)) as (H1 & H2 & H3); cbn zeta in H1, H2, H3.
  all: codec_octets.
  all: unfold reported_doubleBit; apply measurement_eq; [exact H2 | exact H1 | codec_time].
Qed.

Lemma counter_codecs_ok : Forall (codec_ok counter_ok reported_counter) counterCodecs.
Proof.
  repeat constructor.
  all: codec_start v ctx Hok rest.
  all: codec_octets.
  all: unfold reported_counter; cbn [HasFlags ValueBits]; apply measurement_eq; [|try reflexivity; apply u8_small, Hok|codec_time].
  all: rewrite ?field_read, ?field_read0 by reflexivity; apply Zmod_mod.
Qed.

Lemma frozencounter_codecs_ok : Forall (codec_ok counter_ok reported_counter) frozencounterCodecs.
Proof.
  repeat constructor.
  all: codec_start v ctx Hok rest.
  all: codec_octets.
  all: unfold reported_counter; cbn [HasFlags ValueBits]; apply measurement_eq; [|try reflexivity; apply u8_small, Hok|codec_time].
  all: rewrite ?field_read, ?field_read0 by reflexivity; apply Zmod_mod.
Qed.

(** The integer variations of an analog. *)
Lemma analog_int16 x : f64_valid x -> int_of 16 (uint_of 16 (fst (clampInt16 x)) mod 256 ^ Z.of_nat 2) = fst (clampInt16 x).
Proof.
  intros Hx. pose proof (clampInt16_range x Hx). change (256 ^ Z.of_nat 2) with (2 ^ 16). unfold uint_of at 1.
  rewrite Zmod_mod. apply (int_of_uint_of 16); lia.
Qed.
Lemma analog_int32 x : f64_valid x -> int_of 32 (uint_of 32 (fst (clampInt32 x)) mod 256 ^ Z.of_nat 4) = fst (clampInt32 x).
Proof.
  intros Hx. pose proof (clampInt32_range x Hx). change (256 ^ Z.of_nat 4) with (2 ^ 32). unfold uint_of at 1.
  rewrite Zmod_mod. apply (int_of_uint_of 32); lia.
Qed.

Lemma over_octet f : octet_ok f -> u8 (Z.lor f OverRange) = Z.lor f OverRange.
Proof. intros Hf. apply Z.eqb_eq. revert Hf. by_octets f. Qed.

Lemma f32_bits_read x : f32_bits x mod 256 ^ Z.of_nat 4 = f32_bits x.
Proof. apply Zmod_mod. Qed.
Lemma f64_bits_read x : f64_valid x -> f64_from_bits (f64_bits x mod 256 ^ Z.of_nat 8) = x.
Proof. intros Hx. destruct (f64_bits_roundtrip x Hx) as [H1 H2]. by rewrite Z.mod_small. Qed.

Ltac codec_analog v Hok :=
  let I16 := fresh "I16" in let I32 := fresh "I32" in
  pose proof (analog_int16 _ (proj2 Hok)) as I16; pose proof (analog_int32 _ (proj2 Hok)) as I32;
  unfold reported_analog; destruct (clampInt16 (Value v)) as [n16 o16]; destruct (clampInt32 (Value v)) as [n32 o32];
  cbn [fst] in I16, I32; codec_octets; cbn [ValueBits FloatValue HasFlags Z.eqb Pos.eqb negb andb];
  apply measurement_eq;
  [rewrite ?field_read, ?field_read0 by reflexivity;
   rewrite ?I16, ?I32, ?f32_bits_read, ?(f64_bits_read _ (proj2 Hok)); reflexivity
  |try reflexivity; try destruct o16; try destruct o32; first [apply over_octet, Hok | apply u8_small, Hok]
  |codec_time].

Lemma analog_codecs_ok : Forall (codec_ok analog_ok reported_analog) analogCodecs.
Proof.
  repeat constructor.
  all: codec_start v ctx Hok rest.
  all: codec_analog v Hok.
Qed.

Lemma analogoutput_codecs_ok : Forall (codec_ok analog_ok reported_analog) analogoutputCodecs.
Proof.
  repeat constructor.
  all: codec_start v ctx Hok rest.
  all: codec_analog v Hok.
Qed.

(** C30. The generated codecs implement the registry. For every measurement type and every
    variation its table has, the registry describes the variation; writing a measurement
    appends exactly the octets the registry gives it; and reading them back, whatever
    follows, gives the measurement as that description says the variation can express it: the
    flags if it has any, the value reduced, saturated (with OVER_RANGE set) or rounded to its
    width, and the time absolute to the millisecond, relative to the common time, or absent. *)
Theorem codecs_refine :
  Forall (codec_ok binary_ok reported_binary) binaryCodecs /\
  Forall (codec_ok doubleBit_ok reported_doubleBit) doublebitCodecs /\
  Forall (codec_ok counter_ok reported_counter) counterCodecs /\
  Forall (codec_ok counter_ok reported_counter) frozencounterCodecs /\
  Forall (codec_ok analog_ok reported_analog) analogCodecs /\
  Forall (codec_ok binary_ok reported_binary) binaryoutputCodecs /\
  Forall (codec_ok analog_ok reported_analog) analogoutputCodecs.
Proof.
  exact (conj binary_codecs_ok (conj doublebit_codecs_ok (conj counter_codecs_ok (conj frozencounter_codecs_ok
    (conj analog_codecs_ok (conj binaryoutput_codecs_ok analogoutput_codecs_ok)))))).
Qed.

(** 70000 in a 16-bit variation is the largest value, marked. *)
Lemma codecs_refine_witness :
  let v := mkMeasurement (f64_of_Z 70000) Online NoTime in
  exists o, writeG30V2 [] v (mkContext true 0 false false) = o /\ len o = 3 /\
    parseG30V2 o (mkContext true 0 false false) = mkMeasurement (f64_of_Z 32767) (Z.lor Online OverRange) NoTime.
Proof.
  intros v. destruct codecs_refine as (_ & _ & _ & _ & H & _). rewrite Forall_forall in H.
  destruct (H ((30, 2), mkCodec parseG30V2 writeG30V2)) as (d & n & Hd & Hn & Hc); [by apply list_elem_of_lookup_2 with 1%nat|].
  destruct (Hc v (mkContext true 0 false false)) as (o & Hw & Hl & _ & Hp); [split; vm_compute; [split; congruence | done]|].
  exists o. vm_compute in Hd. injection Hd as <-. vm_compute in Hn. injection Hn as <-.
  split; [exact (Hw [])|]. split; [exact Hl|]. specialize (Hp []). rewrite app_nil_r in Hp.
  etransitivity; [exact Hp|]. vm_compute. reflexivity.
Defined.

(** ** Packed ranges come back *)

(** The bits of an octet sequence, least significant first. *)
Definition bit (l : list Z) (p : Z) : bool := Z.testbit (at_ l (p / 8)) (p mod 8).

Lemma bit_or_at l k b p : 0 <= k < len l -> 0 <= p ->
  bit (or_at k b l) p = bit l p || ((p / 8 =? k) && Z.testbit b (p mod 8)).
Proof.
  intros Hk Hp. unfold bit, or_at, at_. rewrite !nth_lookup. pose proof (Z.div_pos p 8 Hp).
  destruct (Z.eqb_spec (p / 8) k) as [->|Hne].
  - rewrite list_lookup_alter_eq. destruct (lookup_lt_is_Some_2 l (Z.to_nat k)) as [x ->]; [unfold len in Hk; lia|].
    cbn. by rewrite Z.lor_spec.
  - rewrite list_lookup_alter_ne by lia. by rewrite orb_false_r.
Qed.

Lemma bit_zeros n p : bit (replicate n 0) p = false.
Proof. unfold bit, at_. rewrite nth_lookup. destruct (_ !! _) as [x|] eqn:E; [apply lookup_replicate in E as [-> _]|]; apply Z.bits_0. Qed.

Section Packed.
(** Values of [w] bits each, [w] being 1 or 2. *)
Context (w : Z) (Hw : w = 1 \/ w = 2).

Definition pack_step (start : Z) (st : Z * list Z) (v : Z) : Z * list Z :=
  (fst st + 1, or_at (start + fst st * w / 8) (u8 (Z.shiftl v (fst st * w mod 8))) (snd st)).

(** Bit [p] of the packing of [vs]. *)
Definition packed_bit (vs : list Z) (p : Z) : bool :=
  match vs !! Z.to_nat (p / w) with Some v => Z.testbit v (p mod w) | None => false end.

Lemma packed_bit_snoc vs v p : 0 <= p -> 0 <= v < 2 ^ w ->
  packed_bit (vs ++ [v]) p =
    packed_bit vs p || ((p / 8 =? len vs * w / 8) && Z.testbit (u8 (Z.shiftl v (len vs * w mod 8))) (p mod 8)).
Proof using Hw.
  intros Hp Hv. unfold packed_bit, u8. change 256 with (2 ^ 8).
  assert (Hpw : 0 <= p / w) by (apply Z.div_pos; lia). pose proof (len_nonneg vs) as Hn.
  assert (Hb : Z.testbit (Z.shiftl v (len vs * w mod 8) mod 2 ^ 8) (p mod 8) = Z.testbit v (p mod 8 - len vs * w mod 8)).
  { rewrite Z.mod_pow2_bits_low by (apply Z.mod_pos_bound; lia). apply Z.shiftl_spec, Z.mod_pos_bound. lia. }
  rewrite Hb. clear Hb. destruct (Z.eq_dec (p / w) (len vs)) as [E|E].
  - rewrite (lookup_ge_None_2 vs) by (unfold len in E; lia). rewrite lookup_app_r by (unfold len in E; lia).
    replace (Z.to_nat (p / w) - length vs)%nat with 0%nat by (unfold len in E; lia). cbn [lookup list_lookup orb].
    replace (p / 8 =? len vs * w / 8) with true; [cbn [andb]; f_equal|]; rewrite <- E.
    + destruct Hw as [-> | ->]; Z.div_mod_to_equations; lia.
    + symmetry. apply Z.eqb_eq. destruct Hw as [-> | ->]; Z.div_mod_to_equations; lia.
  - replace ((p / 8 =? len vs * w / 8) && Z.testbit v (p mod 8 - len vs * w mod 8)) with false.
    + rewrite orb_false_r. destruct (Z.lt_ge_cases (p / w) (len vs)).
      * by rewrite lookup_app_l by (unfold len in *; lia).
      * rewrite !lookup_ge_None_2; [done|unfold len in *..]; rewrite ?length_app; cbn [length]; lia.
    + symmetry. apply andb_false_iff. destruct (Z.eqb_spec (p / 8) (len vs * w / 8)) as [E8|]; [right|by left].
      destruct (Z.lt_ge_cases (p mod 8 - len vs * w mod 8) 0); [by apply Z.testbit_neg_r|].
      destruct (Z.eq_dec v 0) as [->|]; [apply Z.bits_0|]. apply Z.bits_above_log2; [lia|].
      apply Z.log2_lt_pow2; [lia|]. apply Z.lt_le_trans with (2 ^ w); [lia|]. apply Z.pow_le_mono_r; [lia|].
      destruct Hw as [-> | ->]; Z.div_mod_to_equations; lia.
Qed.

Lemma pack_loop dst vs' vs o :
  Forall (fun v => 0 <= v < 2 ^ w) vs' -> PackedOctets (len vs + len vs') w <= len o ->
  (forall p, 0 <= p -> bit o p = packed_bit vs p) ->
  exists o', fold_left (pack_step (len dst)) vs' (len vs, dst ++ o) = (len vs + len vs', dst ++ o') /\
    len o' = len o /\ forall p, 0 <= p -> bit o' p = packed_bit (vs ++ vs') p.
Proof using Hw.
  revert vs o. induction vs' as [|v vs' IH]; intros vs o Hv Hl Hb.
  { exists o. rewrite app_nil_r, len_nil, Z.add_0_r. by split_and!. }
  apply Forall_cons in Hv as [Hv0 Hv]. rewrite len_cons in Hl |- *. pose proof (len_nonneg vs). pose proof (len_nonneg vs').
  assert (Hk : 0 <= len vs * w / 8 < len o).
  { unfold PackedOctets in Hl. destruct (Z.leb_spec (len vs + (1 + len vs')) 0); [lia|].
    destruct Hw as [-> | ->]; cbn [Z.leb Z.compare orb] in Hl; Z.div_mod_to_equations; lia. }
  set (o1 := or_at (len vs * w / 8) (u8 (Z.shiftl v (len vs * w mod 8))) o).
  destruct (IH (vs ++ [v]) o1) as (o' & Hf & Hlo & Hbo).
  - done.
  - unfold o1, or_at, len in *. rewrite length_alter, length_app. cbn [length].
    replace (Z.of_nat (length vs + 1) + Z.of_nat (length vs')) with (Z.of_nat (length vs) + (1 + Z.of_nat (length vs'))) by lia.
    done.
  - intros p Hp. unfold o1. rewrite bit_or_at, Hb by done. by rewrite packed_bit_snoc.
  - exists o'. rewrite <- app_assoc in Hbo. split_and!; [|unfold o1, or_at, len in *; rewrite Hlo; apply f_equal, length_alter|done].
    cbn [fold_left]. unfold pack_step at 2. cbn [fst snd].
    replace (or_at (len dst + len vs * w / 8) _ (dst ++ o)) with (dst ++ o1).
    + rewrite len_app, len_cons, len_nil in Hf. rewrite Z.add_0_r in Hf. rewrite Hf. f_equal. lia.
    + unfold o1, or_at. generalize dependent (len vs * w / 8). intros k Hk. intros.
      replace (Z.to_nat (len dst + k)) with (length dst + Z.to_nat k)%nat by (unfold len; lia).
      symmetry. apply alter_app_r.
Qed.
End Packed.

Lemma or_at_0 k l : or_at k 0 l = l.
Proof.
  unfold or_at. apply list_eq. intros i. destruct (decide (i = Z.to_nat k)) as [->|].
  - rewrite list_lookup_alter_eq. destruct (l !! _); [|done]. cbn. by rewrite Z.lor_0_r.
  - by rewrite list_lookup_alter_ne.
Qed.

Lemma fold_left_eq {A B} (f g : A -> B -> A) l a :
  (forall a b, b ∈ l -> f a b = g a b) -> fold_left f l a = fold_left g l a.
Proof.
  revert a. induction l as [|b l IH]; intros a H; [done|]. cbn. rewrite H by (by left). apply IH.
  intros. apply H. by right.
Qed.

Lemma fold_left_fmap {A B C} (f : A -> B -> A) (h : C -> B) l a :
  fold_left f (h <$> l) a = fold_left (fun a c => f a (h c)) l a.
Proof. revert a. induction l; intros; cbn; auto. Qed.

(** A whole range, packed after [dst]. *)
Lemma pack_all w (Hw : w = 1 \/ w = 2) dst vs :
  Forall (fun v => 0 <= v < 2 ^ w) vs ->
  exists o, snd (fold_left (pack_step w (len dst)) vs (0, dst ++ replicate (Z.to_nat (PackedOctets (len vs) w)) 0)) = dst ++ o /\
    len o = PackedOctets (len vs) w /\ forall p, 0 <= p -> bit o p = packed_bit w vs p.
Proof.
  intros Hv. assert (Hn : 0 <= PackedOctets (len vs) w).
  { unfold PackedOctets. destruct (_ || _) eqn:E; [done|]. apply orb_false_iff in E as [E1%Z.leb_gt E2%Z.leb_gt].
    apply Z.div_pos; nia. }
  assert (Hl : len (replicate (Z.to_nat (PackedOctets (len vs) w)) 0) = PackedOctets (len vs) w)
    by (unfold len at 1; rewrite length_replicate; lia).
  destruct (pack_loop w Hw dst vs [] (replicate (Z.to_nat (PackedOctets (len vs) w)) 0)) as (o & Hf & Hlo & Hb).
  - done.
  - rewrite len_nil, Z.add_0_l, Hl. lia.
  - intros p Hp. by rewrite bit_zeros.
  - rewrite len_nil in Hf. exists o. rewrite Hf, Hlo, Hl. by split_and!.
Qed.

Lemma testbit_mask x s : 0 <= s -> negb (Z.land x (Z.shiftl 1 s) =? 0) = Z.testbit x s.
Proof.
  intros Hs. destruct (Z.testbit x s) eqn:E; destruct (Z.eqb_spec (Z.land x (Z.shiftl 1 s)) 0) as [H|H]; try done.
  - apply (f_equal (fun z => Z.testbit z s)) in H. rewrite Z.land_spec, Z.shiftl_spec, Z.sub_diag, E, Z.bits_0 in H by lia. done.
  - exfalso. apply H, Z.bits_inj_0. intros i. rewrite Z.land_spec. destruct (Z.eq_dec i s) as [->|Hne]; [by rewrite E|].
    rewrite Z.shiftl_mul_pow2, Z.mul_1_l, Z.pow2_bits_false by lia. apply andb_false_r.
Qed.

Lemma packed_index n w i : w = 1 \/ w = 2 -> 0 <= i < n -> i * w / 8 < PackedOctets n w.
Proof.
  intros Hw Hi. unfold PackedOctets. destruct (Z.leb_spec n 0); [lia|].
  destruct Hw as [-> | ->]; cbn [Z.leb Z.compare orb]; Z.div_mod_to_equations; lia.
Qed.

Lemma list_fmap_seqZ {A B} (f : Z -> B) (g : A -> B) (l : list A) :
  (forall i a, l !! i = Some a -> f (Z.of_nat i) = g a) -> f <$> seqZ 0 (len l) = g <$> l.
Proof.
  intros H. apply list_eq. intros i. rewrite !list_lookup_fmap. destruct (l !! i) as [a|] eqn:E.
  - rewrite lookup_seqZ_lt by (apply lookup_lt_Some in E; unfold len; lia). cbn. f_equal.
    rewrite Z.add_0_l. by apply H.
  - rewrite lookup_seqZ_ge; [done|]. apply lookup_ge_None in E. unfold len. lia.
Qed.

Lemma packed_binary dst rest bs :
  exists o, AppendPackedBinary dst bs = dst ++ o /\ len o = PackedOctets (len bs) 1 /\
    ParsePackedBinary (o ++ rest) (len bs) [] = (fun b => mkMeasurement b Online NoTime) <$> bs.
Proof.
  destruct (pack_all 1 ltac:(lia) dst (Z.b2z <$> bs)) as (o & Hf & Hl & Hb).
  { apply Forall_fmap, Forall_true. intros []; cbn; lia. }
  assert (Hlen : len (Z.b2z <$> bs) = len bs) by (unfold len; by rewrite length_fmap). rewrite Hlen in *.
  exists o. split_and!; [|done|].
  - unfold AppendPackedBinary. destruct (Z.eqb_spec (len bs) 0) as [E|E].
    { rewrite E in Hl. cbn in Hl. destruct o; [by rewrite app_nil_r | rewrite len_cons in Hl; pose proof (len_nonneg o); lia]. }
    rewrite <- Hf, fold_left_fmap. f_equal. apply fold_left_eq. intros [i l] b _. unfold pack_step. cbn [fst snd].
    rewrite Z.mul_1_r. destruct b; [done|]. cbn [Z.b2z]. rewrite Z.shiftl_0_l. by rewrite or_at_0.
  - unfold ParsePackedBinary. rewrite app_nil_l. apply list_fmap_seqZ. intros i b Ei. f_equal.
    pose proof (lookup_lt_Some _ _ _ Ei) as Hi. pose proof (packed_index (len bs) 1 (Z.of_nat i)) as Hx. rewrite Z.mul_1_r in Hx.
    assert (Hp : Z.of_nat i / 8 < len o) by (rewrite Hl; apply Hx; unfold len; lia).
    unfold bitAt. rewrite len_app. destruct (Z.leb_spec (len o + len rest) (Z.of_nat i / 8)).
    { pose proof (len_nonneg rest). lia. }
    rewrite testbit_mask by (apply Z.mod_pos_bound; lia). rewrite at_app_l by (pose proof (Z.div_pos (Z.of_nat i) 8); lia).
    fold (bit o (Z.of_nat i)). rewrite Hb by lia. unfold packed_bit.
    rewrite Z.div_1_r, Nat2Z.id, list_lookup_fmap, Ei, Z.mod_1_r. by destruct b.
Qed.

Lemma packed_doubleBit dst rest ds :
  Forall (fun d => 0 <= d <= 3) ds ->
  exists o, AppendPackedDoubleBit dst ds = dst ++ o /\ len o = PackedOctets (len ds) 2 /\
    ParsePackedDoubleBit (o ++ rest) (len ds) [] = (fun d => mkMeasurement d Online NoTime) <$> ds.
Proof.
  intros Hd.
  destruct (pack_all 2 ltac:(lia) dst ds) as (o & Hf & Hl & Hb).
  { eapply Forall_impl; [exact Hd|]. cbn. lia. }
  exists o. split_and!; [|done|].
  - unfold AppendPackedDoubleBit. destruct (Z.eqb_spec (len ds) 0) as [E|E].
    { rewrite E in Hl. cbn in Hl. destruct o; [by rewrite app_nil_r | rewrite len_cons in Hl; pose proof (len_nonneg o); lia]. }
    rewrite <- Hf. f_equal. apply fold_left_eq. intros [i l] v Hv. unfold pack_step. cbn [fst snd].
    rewrite Forall_forall in Hd. specialize (Hd v Hv). do 4 f_equal.
    change 0x03 with (Z.ones 2). rewrite Z.land_ones, Z.mod_small by (cbn; lia). apply u8_small. unfold octet_ok. lia.
  - unfold ParsePackedDoubleBit. rewrite app_nil_l. apply list_fmap_seqZ. intros i v Ei. f_equal.
    pose proof (lookup_lt_Some _ _ _ Ei) as Hi.
    assert (Hp : Z.of_nat i * 2 / 8 < len o) by (rewrite Hl; apply packed_index; unfold len; lia).
    unfold pairAt. rewrite len_app. destruct (Z.ltb_spec (Z.of_nat i * 2 / 8) (len o + len rest)).
    2:{ pose proof (len_nonneg rest). lia. }
    rewrite at_app_l by (pose proof (Z.div_pos (Z.of_nat i * 2) 8); lia).
    rewrite Forall_lookup in Hd. specialize (Hd _ _ Ei). apply Z.bits_inj'. intros k Hk.
    change 0x03 with (Z.ones 2). rewrite Z.land_spec, Z.shiftr_spec by done.
    destruct (Z.lt_ge_cases k 2).
    + rewrite Z.ones_spec_low, andb_true_r by lia. specialize (Hb (Z.of_nat i * 2 + k) ltac:(lia)).
      unfold bit, packed_bit in Hb.
      replace ((Z.of_nat i * 2 + k) / 8) with (Z.of_nat i * 2 / 8) in Hb by (Z.div_mod_to_equations; lia).
      replace ((Z.of_nat i * 2 + k) mod 8) with (k + Z.of_nat i * 2 mod 8) in Hb by (Z.div_mod_to_equations; lia).
      replace ((Z.of_nat i * 2 + k) / 2) with (Z.of_nat i) in Hb by (Z.div_mod_to_equations; lia).
      replace ((Z.of_nat i * 2 + k) mod 2) with k in Hb by (Z.div_mod_to_equations; lia).
      by rewrite Nat2Z.id, Ei in Hb.
    + rewrite Z.ones_spec_high, andb_false_r by lia. symmetry. destruct (Z.eq_dec v 0) as [->|]; [apply Z.bits_0|].
      apply Z.bits_above_log2; [lia|]. apply Z.log2_lt_pow2; [lia|].
      apply Z.lt_le_trans with (2 ^ 2); [lia | apply Z.pow_le_mono_r; lia].
Qed.

(** Packed ranges come back. A range of binary or double-bit values is packed into the
    number of octets the framing layer expects, after whatever precedes it, and unpacking
    that many values, whatever follows, gives each of them back, online and without a time. *)
Theorem packed_roundtrip dst rest bs ds :
  Forall (fun d => 0 <= d <= 3) ds ->
  (exists o, AppendPackedBinary dst bs = dst ++ o /\ len o = PackedOctets (len bs) 1 /\
     ParsePackedBinary (o ++ rest) (len bs) [] = (fun b => mkMeasurement b Online NoTime) <$> bs) /\
  (exists o, AppendPackedDoubleBit dst ds = dst ++ o /\ len o = PackedOctets (len ds) 2 /\
     ParsePackedDoubleBit (o ++ rest) (len ds) [] = (fun d => mkMeasurement d Online NoTime) <$> ds).
Proof. intros Hd. split; [apply packed_binary | by apply packed_doubleBit]. Qed.

Lemma packed_roundtrip_witness :
  exists o, AppendPackedDoubleBit [7] [2; 1; 3; 0; 1] = [7] ++ o /\ len o = 2 /\
    ParsePackedDoubleBit (o ++ [255]) 5 [] = (fun d => mkMeasurement d Online NoTime) <$> [2; 1; 3; 0; 1].
Proof. apply (packed_roundtrip [7] [255] [] [2; 1; 3; 0; 1]). repeat constructor; discriminate. Defined.
