(* ===== verification/CommandEvents.v ===== *)
(** * Command events (src/objects/commandevent.go)

    The objects that report that a control was operated: group 13 for a binary output, group
    43 for an analog output.  They are outside the generated codecs because what they carry
    is not a measurement.

    The theorem: every variation decodes to what was commanded, as far as its width allows,
    and takes exactly the octets the registry says. *)

From Stdlib Require Import SpecFloat.
From S2P Require Import Prelude Values Floats AppHeader AppObject Objects Codecs.

Record CommandEvent := mkCommandEvent {
  CE_Status : Z; CE_Analog : bool; CE_State : bool; CE_Value : spec_float; CE_Time : Timestamp }.

Definition CommandEventSize (group variation : Z) : option Z :=
  if group =? 13 then
    if variation =? 1 then Some 1
    else if variation =? 2 then Some (1 + Time48Size)
    else None
  else if group =? 43 then
    if one_of variation [1; 5] then Some 5
    else if variation =? 2 then Some 3
    else if one_of variation [3; 7] then Some (5 + Time48Size)
    else if variation =? 4 then Some (3 + Time48Size)
    else if variation =? 6 then Some 9
    else if variation =? 8 then Some (9 + Time48Size)
    else None
  else None.

Definition commandEventHasTime (group variation : Z) : bool :=
  if group =? 13 then variation =? 2 else one_of variation [3; 4; 7; 8].

Definition saturate (v : spec_float) (lo hi : Z) : Z :=
  if IsNaN v then 0
  else if SFleb (f64_of_Z hi) v then hi
  else if SFleb v (f64_of_Z lo) then lo
  else f64_trunc v.

Definition MinInt16 : Z := -32768.
Definition MaxInt16 : Z := 32767.
Definition MinInt32 : Z := -2147483648.
Definition MaxInt32 : Z := 2147483647.

Definition AppendCommandEvent (dst : list Z) (group variation : Z) (e : CommandEvent) : list Z :=
  match CommandEventSize group variation with
  | None => dst
  | Some _ =>
      let dst :=
        if group =? 13 then
          let b := Z.land (u8 (CE_Status e)) 0x7F in
          dst ++ [if CE_State e then Z.lor b 0x80 else b]
        else
          let dst := dst ++ [u8 (CE_Status e)] in
          if one_of variation [1; 3] then dst ++ le32 (uint_of 32 (saturate (CE_Value e) MinInt32 MaxInt32))
          else if one_of variation [2; 4] then dst ++ le16 (uint_of 16 (saturate (CE_Value e) MinInt16 MaxInt16))
          else if one_of variation [5; 7] then dst ++ le32 (f32_bits (f32_of_f64 (CE_Value e)))
          else if one_of variation [6; 8] then dst ++ le64 (f64_bits (CE_Value e))
          else dst in
      if commandEventHasTime group variation then AppendTime48 dst (CE_Time e) else dst
  end.

Definition ParseCommandEvent (group variation : Z) (buf : list Z) : option CommandEvent :=
  match CommandEventSize group variation with
  | None => None
  | Some size =>
      if len buf <? size then None
      else
        let time := if commandEventHasTime group variation
                    then ParseTime48 (drop (Z.to_nat (size - Time48Size)) buf) else NoTime in
        if group =? 13 then
          Some (mkCommandEvent (Z.land (at_ buf 0) 0x7F) false (negb (Z.land (at_ buf 0) 0x80 =? 0)) f64_zero time)
        else
          let value :=
            if one_of variation [1; 3] then f64_of_Z (int_of 32 (le_val (slice 1 5 buf)))
            else if one_of variation [2; 4] then f64_of_Z (int_of 16 (le_val (slice 1 3 buf)))
            else if one_of variation [5; 7] then f64_of_f32_bits (le_val (slice 1 5 buf))
            else if one_of variation [6; 8] then f64_from_bits (le_val (slice 1 9 buf))
            else f64_zero in
          Some (mkCommandEvent (at_ buf 0) true false value time)
  end.

(** ** Properties *)

Lemma SFleb_false_ltb x y : SFleb x y = false -> SFltb x y = false.
Proof. unfold SFleb, SFltb. by destruct (SFcompare x y) as [[]|]. Qed.

Lemma saturate16_range v : f64_valid v -> MinInt16 <= saturate v MinInt16 MaxInt16 <= MaxInt16.
Proof.
  intros Hv. unfold saturate, MinInt16, MaxInt16. destruct (IsNaN v) eqn:En; [lia|].
  destruct (SFleb (f64_of_Z 32767) v) eqn:E1; [lia|]. destruct (SFleb v _) eqn:E2; [lia|].
  apply (f64_trunc_range 15 (32767 * 2 ^ 38) (2 ^ 52)); [lia | done | done | done | done | |];
    by apply SFleb_false_ltb.
Qed.
Lemma saturate32_range v : f64_valid v -> MinInt32 <= saturate v MinInt32 MaxInt32 <= MaxInt32.
Proof.
  intros Hv. unfold saturate, MinInt32, MaxInt32. destruct (IsNaN v) eqn:En; [lia|].
  destruct (SFleb (f64_of_Z 2147483647) v) eqn:E1; [lia|]. destruct (SFleb v _) eqn:E2; [lia|].
  apply (f64_trunc_range 31 (2147483647 * 2 ^ 22) (2 ^ 52)); [lia | done | done | done | done | |];
    by apply SFleb_false_ltb.
Qed.

(** The value a variation of group 43 reports, and what a whole event comes back as. *)
Definition reported_command_value (variation : Z) (v : spec_float) : spec_float :=
  if one_of variation [1; 3] then f64_of_Z (saturate v MinInt32 MaxInt32)
  else if one_of variation [2; 4] then f64_of_Z (saturate v MinInt16 MaxInt16)
  else if one_of variation [5; 7] then f64_of_f32_bits (f32_bits (f32_of_f64 v))
  else v.
Definition reported_command (group variation : Z) (e : CommandEvent) : CommandEvent :=
  let time := if commandEventHasTime group variation
              then mkTimestamp (DNP3ToTime (TimeToDNP3 (TTime (CE_Time e)))) TimestampSynchronized else NoTime in
  if group =? 13 then mkCommandEvent (CE_Status e) false (CE_State e) f64_zero time
  else mkCommandEvent (CE_Status e) true false (reported_command_value variation (CE_Value e)) time.

Definition command_event_ok (group : Z) (e : CommandEvent) : Prop :=
  0 <= CE_Status e < (if group =? 13 then 128 else 256) /\ f64_valid (CE_Value e).

(** The variations there are. *)
Definition command_variations : list (Z * Z) :=
  [(13, 1); (13, 2); (43, 1); (43, 2); (43, 3); (43, 4); (43, 5); (43, 6); (43, 7); (43, 8)].

Lemma CommandEventSize_cases g v : is_Some (CommandEventSize g v) -> (g, v) ∈ command_variations.
Proof.
  unfold CommandEventSize. intros [n Hn].
  destruct (Z.eqb_spec g 13) as [->|_].
  { destruct (Z.eqb_spec v 1) as [->|_]; [by apply list_elem_of_lookup_2 with 0%nat|].
    destruct (Z.eqb_spec v 2) as [->|_]; [by apply list_elem_of_lookup_2 with 1%nat | done]. }
  destruct (Z.eqb_spec g 43) as [->|_]; [|done].
  assert (Hv : v ∈ [1; 2; 3; 4; 5; 6; 7; 8]).
  { cbn in Hn. rewrite !elem_of_cons. destruct (Z.eqb_spec v 1), (Z.eqb_spec v 2), (Z.eqb_spec v 3), (Z.eqb_spec v 4),
      (Z.eqb_spec v 5), (Z.eqb_spec v 6), (Z.eqb_spec v 7), (Z.eqb_spec v 8); cbn in Hn; try done; tauto. }
  rewrite !elem_of_cons in Hv. destruct Hv as [->|[->|[->|[->|[->|[->|[->|[->|Hv]]]]]]]]; [..|by apply not_elem_of_nil in Hv].
  1: by apply list_elem_of_lookup_2 with 2%nat.
  1: by apply list_elem_of_lookup_2 with 3%nat.
  1: by apply list_elem_of_lookup_2 with 4%nat.
  1: by apply list_elem_of_lookup_2 with 5%nat.
  1: by apply list_elem_of_lookup_2 with 6%nat.
  1: by apply list_elem_of_lookup_2 with 7%nat.
  1: by apply list_elem_of_lookup_2 with 8%nat.
  by apply list_elem_of_lookup_2 with 9%nat.
Qed.

Lemma command_status_octet (state : bool) s : 0 <= s < 128 ->
  let o := if state then Z.lor (Z.land (u8 s) 0x7F) 0x80 else Z.land (u8 s) 0x7F in
  octet_ok o /\ Z.land o 0x7F = s /\ negb (Z.land o 0x80 =? 0) = state.
Proof.
  intros Hs. assert (H : (let o := if state then Z.lor (Z.land (u8 s) 0x7F) 0x80 else Z.land (u8 s) 0x7F in
    ((0 <=? o) && (o <? 256)) && (Z.land o 0x7F =? s) && Bool.eqb (negb (Z.land o 0x80 =? 0)) state) = true).
  { destruct state; revert s Hs; refine (forall_below 128 _ _); vm_compute; reflexivity. }
  cbn zeta in H |- *. rewrite !andb_true_iff, Z.eqb_eq, Z.leb_le, Z.ltb_lt in H. destruct H as [[? ?] ?%eqb_prop]. done.
Qed.

(** Each variation writes some octets, as many as it declares; a decoder that finds them at
    the front of a buffer reads the event back. *)
Definition command_event_codec (g v : Z) : Prop :=
  forall e, command_event_ok g e ->
  exists o, (forall dst, AppendCommandEvent dst g v e = dst ++ o) /\ octets_ok o /\
    CommandEventSize g v = Some (len o) /\
    forall rest, ParseCommandEvent g v (o ++ rest) = Some (reported_command g v e).

Ltac command_event_octets :=
  intros e [Hs Hv]; cbn [Z.eqb Pos.eqb] in Hs; eexists; split;
  [intros dst; unfold AppendCommandEvent, AppendTime48;
   cbn [CommandEventSize commandEventHasTime Z.eqb Pos.eqb one_of existsb orb];
   rewrite ?(appendTime48_dst (_ ++ _)), <- ?app_assoc; reflexivity|];
  split; [rewrite ?octets_ok_app, ?octets_ok_cons; split_and?; auto using appendTime48_ok, le_bytes_ok, u8_ok, octets_ok_nil|];
  split; [reflexivity|]; intros rest; unfold ParseCommandEvent; rewrite <- ?app_assoc.

(** The decoder finds the octets it needs. *)
Lemma command_buffer (o rest : list Z) size : len o = size -> (len (o ++ rest) <? size) = false.
Proof. intros <-. rewrite len_app. pose proof (len_nonneg rest). apply Z.ltb_ge. lia. Qed.

Lemma command_event_binary v : v ∈ [1; 2] -> command_event_codec 13 v.
Proof.
  rewrite !elem_of_cons. intros [->|[->|H%not_elem_of_nil]]; [..|done].
  all: intros e [Hs Hv]; cbn [Z.eqb Pos.eqb] in Hs; destruct (command_status_octet (CE_State e) _ Hs) as (H1 & H2 & H3).
  all: cbn zeta in H1, H2, H3; set (o := if CE_State e then _ else _) in *.
  - exists [o]. split; [done|]. split; [apply octets_ok_cons; split; [exact H1 | apply octets_ok_nil]|]. split; [done|]. intros rest.
    unfold ParseCommandEvent. cbn [CommandEventSize Z.eqb Pos.eqb]. rewrite (command_buffer [o]) by done.
    unfold reported_command, commandEventHasTime. cbn [Z.eqb Pos.eqb]. rewrite at_first. by rewrite H2, H3.
  - exists ([o] ++ appendTime48 [] (TimeToDNP3 (TTime (CE_Time e)))). split; [intros; by rewrite app_assoc|].
    split; [apply octets_ok_cons; split; [exact H1 | apply appendTime48_ok]|]. split; [done|]. intros rest.
    unfold ParseCommandEvent. cbn [CommandEventSize Z.eqb Pos.eqb]. rewrite command_buffer by done.
    unfold reported_command, commandEventHasTime. cbn [Z.eqb Pos.eqb]. rewrite <- app_assoc, at_first, H2, H3.
    by rewrite ParseTime48_written.
Qed.

Lemma command_event_eq s s' b t a' x x' y y' : s = s' -> b = t -> x = x' -> y = y' ->
  Some (mkCommandEvent s a' b x y) = Some (mkCommandEvent s' a' t x' y').
Proof. by intros -> -> -> ->. Qed.

Lemma command_event_analog v : v ∈ [1; 2; 3; 4; 5; 6; 7; 8] -> command_event_codec 43 v.
Proof.
  rewrite !elem_of_cons.
  intros [->|[->|[->|[->|[->|[->|[->|[->|H%not_elem_of_nil]]]]]]]]; [..|done].
  all: command_event_octets; pose proof (saturate16_range _ Hv) as H16; pose proof (saturate32_range _ Hv) as H32.
  all: unfold MinInt16, MaxInt16, MinInt32, MaxInt32 in H16, H32.
  all: cbn [CommandEventSize Z.eqb Pos.eqb one_of existsb orb].
  all: rewrite (proj2 (Z.ltb_ge _ _)) by
    (rewrite ?len_app, ?len_cons, ?len_nil, ?len_appendTime48, ?len_le_bytes; pose proof (len_nonneg rest); unfold Time48Size; lia).
  all: unfold reported_command, commandEventHasTime; cbn [Z.eqb Pos.eqb one_of existsb orb].
  all: apply command_event_eq; [rewrite at_first; apply u8_small; unfold octet_ok; lia | done | |].
  all: try (rewrite (app_assoc [_] (le_bytes _ _)), ParseTime48_written by reflexivity; reflexivity).
  all: try reflexivity.
  all: rewrite field_read by reflexivity; unfold reported_command_value, MinInt16, MaxInt16, MinInt32, MaxInt32;
    cbn [Z.eqb Pos.eqb one_of existsb orb].
  all: rewrite ?f32_bits_read, ?(f64_bits_read _ Hv), ?(int_field 16 2), ?(int_field 32 4) by (cbn; lia); reflexivity.
Qed.

Lemma command_event_written g v e n :
  command_event_ok g e -> CommandEventSize g v = Some n ->
  exists o, (forall dst, AppendCommandEvent dst g v e = dst ++ o) /\ len o = n /\ octets_ok o /\
    forall rest, ParseCommandEvent g v (o ++ rest) = Some (reported_command g v e).
Proof.
  intros He En. pose proof (CommandEventSize_cases g v (mk_is_Some _ _ En)) as Hin.
  assert (Hc : command_event_codec g v).
  { unfold command_variations in Hin. rewrite !elem_of_cons in Hin.
    destruct Hin as [E|[E|Hin]]; [injection E as -> ->; apply command_event_binary; set_solver ..|].
    assert (g = 43 /\ v ∈ [1; 2; 3; 4; 5; 6; 7; 8]) as [-> Hv] by (clear -Hin; set_solver).
    by apply command_event_analog. }
  destruct (Hc e He) as (o & H1 & H2 & H3 & H4). rewrite En in H3. injection H3 as ->. by exists o.
Qed.

(** What is written for a command event is what is read back, whatever follows it in the
    buffer, as far as the variation's width allows; the octets are as many as the framing
    layer expects; and a variation that does not exist writes nothing and reads nothing. *)
Theorem command_event_roundtrip g v e dst rest :
  command_event_ok g e ->
  match CommandEventSize g v with
  | Some n =>
      exists o, AppendCommandEvent dst g v e = dst ++ o /\ len o = n /\ octets_ok o /\
        generatedSizes (gv g v) = Some (8 * n) /\
        ParseCommandEvent g v (o ++ rest) = Some (reported_command g v e)
  | None => AppendCommandEvent dst g v e = dst /\ ParseCommandEvent g v rest = None
  end.
Proof.
  intros He. destruct (CommandEventSize g v) as [n|] eqn:En.
  2:{ unfold AppendCommandEvent, ParseCommandEvent. by rewrite En. }
  destruct (command_event_written g v e n He En) as (o & H1 & H2 & H3 & H4).
  exists o. split_and!; try done. pose proof (CommandEventSize_cases g v (mk_is_Some _ _ En)) as Hin. clear -Hin En.
  assert (Hall : Forall (fun p => generatedSizes (gv (fst p) (snd p)) = (fun n => 8 * n) <$> CommandEventSize (fst p) (snd p))
    command_variations) by (repeat constructor).
  rewrite Forall_forall in Hall. specialize (Hall _ Hin). cbn [fst snd] in Hall. by rewrite Hall, En.
Qed.

Lemma command_event_roundtrip_witness :
  exists o, AppendCommandEvent [7] 43 4 (mkCommandEvent 0 true false (f64_of_Z (-2)) (Now 1500000000)) = [7] ++ o /\
    len o = 9 /\ octets_ok o /\ generatedSizes (gv 43 4) = Some (8 * 9) /\
    ParseCommandEvent 43 4 (o ++ [1; 2]) =
      Some (reported_command 43 4 (mkCommandEvent 0 true false (f64_of_Z (-2)) (Now 1500000000))).
Proof.
  apply (command_event_roundtrip 43 4 (mkCommandEvent 0 true false (f64_of_Z (-2)) (Now 1500000000)) [7] [1; 2]).
  split; [cbn; lia | vm_compute; reflexivity].
Defined.
