(* ===== verification/FileObjects.v ===== *)
(** * File objects (src/file.go, src/objects/file.go)

    The objects of group 70 a file transfer is made of.  They have no fixed size: a name, a
    password or a block of data follows a fixed part, at an offset the object states.  Go
    strings are lists of octets here.

    The theorems: each object is read back as it was written, and the contents of a directory,
    a run of descriptors that each say how long they are, come back entry by entry. *)

From S2P Require Import Prelude Values AppHeader Objects Codecs.

(** ** Vocabulary (src/file.go) *)

Definition FileTypeDirectory : Z := 0.
Definition FileTypeSimple : Z := 1.

Definition FileModeNull : Z := 0.
Definition FileModeRead : Z := 1.
Definition FileModeWrite : Z := 2.
Definition FileModeAppend : Z := 3.

Definition FileSuccess : Z := 0.
Definition FilePermissionDenied : Z := 1.
Definition FileInvalidMode : Z := 2.
Definition FileNotFound : Z := 3.
Definition FileLocked : Z := 4.
Definition FileTooManyOpen : Z := 5.
Definition FileInvalidHandle : Z := 6.
Definition FileWriteBlockSize : Z := 7.
Definition FileCommLost : Z := 8.
Definition FileCannotAbort : Z := 9.
Definition FileNotOpen : Z := 16.
Definition FileHandleExpired : Z := 17.
Definition FileBufferOverrun : Z := 18.
Definition FileFatal : Z := 19.
Definition FileBlockSequence : Z := 20.
Definition FileUndefined : Z := 255.

Record FileInfo := mkFileInfo {
  FI_Name : list Z; FI_Type : Z; FI_Size : Z; FI_Created : Z; FI_Permissions : Z }.
Definition FileInfo0 : FileInfo := mkFileInfo [] 0 0 zeroTime 0.
Definition IsDir (f : FileInfo) : bool := FI_Type f =? FileTypeDirectory.

(** ** Objects *)

Definition FileAuthSize : Z := 12.
Definition FileCommandSize : Z := 26.
Definition FileCommandStatusSize : Z := 13.
Definition FileTransportSize : Z := 8.
Definition FileTransportStatusSize : Z := 9.
Definition FileDescriptorSize : Z := 20.

Definition fileLastBlock : Z := 2 ^ 31.

Inductive FileErr := ErrObjectShort | ErrStringInFixed | ErrStringPastEnd.

(** A string an object points at. *)
Definition sliceString (buf : list Z) (offset size fixed : Z) : result FileErr (list Z) :=
  if size =? 0 then Ok []
  else if offset <? fixed then Err ErrStringInFixed
  else
    let end_ := offset + size in
    if len buf <? end_ then Err ErrStringPastEnd else Ok (slice offset end_ buf).

Definition parseFileTime (buf : list Z) : Z :=
  let ms := readTime48 buf in if ms =? 0 then zeroTime else DNP3ToTime ms.
Definition appendFileTime (dst : list Z) (t : Z) : list Z :=
  if t =? zeroTime then appendTime48 dst 0 else appendTime48 dst (TimeToDNP3 t).

Record FileAuth := mkFileAuth { FA_User : list Z; FA_Password : list Z; FA_Key : Z }.

Definition ParseFileAuth (buf : list Z) : result FileErr FileAuth :=
  if len buf <? FileAuthSize then Err ErrObjectShort
  else
    user ← sliceString buf (le_val (slice 0 2 buf)) (le_val (slice 2 4 buf)) FileAuthSize;
    password ← sliceString buf (le_val (slice 4 6 buf)) (le_val (slice 6 8 buf)) FileAuthSize;
    Ok (mkFileAuth user password (le_val (slice 8 12 buf))).

Definition AppendFileAuth (dst : list Z) (a : FileAuth) : list Z :=
  dst ++ le16 FileAuthSize ++ le16 (u16 (len (FA_User a))) ++ le16 (u16 (FileAuthSize + len (FA_User a)))
    ++ le16 (u16 (len (FA_Password a))) ++ le32 (FA_Key a) ++ FA_User a ++ FA_Password a.

Record FileCommand := mkFileCommand {
  FC_Name : list Z; FC_Created : Z; FC_Permissions : Z; FC_Key : Z; FC_Size : Z; FC_Mode : Z;
  FC_MaxBlockSize : Z; FC_RequestID : Z }.

Definition ParseFileCommand (buf : list Z) : result FileErr FileCommand :=
  if len buf <? FileCommandSize then Err ErrObjectShort
  else
    name ← sliceString buf (le_val (slice 0 2 buf)) (le_val (slice 2 4 buf)) FileCommandSize;
    Ok (mkFileCommand name (parseFileTime (slice 4 10 buf)) (le_val (slice 10 12 buf)) (le_val (slice 12 16 buf))
          (le_val (slice 16 20 buf)) (le_val (slice 20 22 buf)) (le_val (slice 22 24 buf)) (le_val (slice 24 26 buf))).

Definition AppendFileCommand (dst : list Z) (c : FileCommand) : list Z :=
  let dst := dst ++ le16 FileCommandSize ++ le16 (u16 (len (FC_Name c))) in
  let dst := appendFileTime dst (FC_Created c) in
  dst ++ le16 (FC_Permissions c) ++ le32 (FC_Key c) ++ le32 (FC_Size c) ++ le16 (FC_Mode c)
    ++ le16 (FC_MaxBlockSize c) ++ le16 (FC_RequestID c) ++ FC_Name c.

Record FileCommandStatus := mkFileCommandStatus {
  FS_Handle : Z; FS_Size : Z; FS_MaxBlockSize : Z; FS_RequestID : Z; FS_Status : Z; FS_Text : list Z }.
Definition FileCommandStatus0 : FileCommandStatus := mkFileCommandStatus 0 0 0 0 0 [].

Definition ParseFileCommandStatus (buf : list Z) : result FileErr FileCommandStatus :=
  if len buf <? FileCommandStatusSize then Err ErrObjectShort
  else Ok (mkFileCommandStatus (le_val (slice 0 4 buf)) (le_val (slice 4 8 buf)) (le_val (slice 8 10 buf))
             (le_val (slice 10 12 buf)) (at_ buf 12) (drop (Z.to_nat FileCommandStatusSize) buf)).

Definition AppendFileCommandStatus (dst : list Z) (s : FileCommandStatus) : list Z :=
  dst ++ le32 (FS_Handle s) ++ le32 (FS_Size s) ++ le16 (FS_MaxBlockSize s) ++ le16 (FS_RequestID s)
    ++ [u8 (FS_Status s)] ++ FS_Text s.

Record FileTransport := mkFileTransport { FT_Handle : Z; FT_Block : Z; FT_Last : bool; FT_Data : list Z }.

Definition ParseFileTransport (buf : list Z) : result FileErr FileTransport :=
  if len buf <? FileTransportSize then Err ErrObjectShort
  else
    let block := le_val (slice 4 8 buf) in
    Ok (mkFileTransport (le_val (slice 0 4 buf)) (Z.ldiff block fileLastBlock)
          (negb (Z.land block fileLastBlock =? 0)) (drop (Z.to_nat FileTransportSize) buf)).

(** The block number with the mark of the last one. *)
Definition block_field (block : Z) (last : bool) : Z :=
  let block := Z.ldiff block fileLastBlock in
  if last then Z.lor block fileLastBlock else block.

Definition AppendFileTransport (dst : list Z) (t : FileTransport) : list Z :=
  dst ++ le32 (FT_Handle t) ++ le32 (block_field (FT_Block t) (FT_Last t)) ++ FT_Data t.

Record FileTransportStatus := mkFileTransportStatus {
  TS_Handle : Z; TS_Block : Z; TS_Last : bool; TS_Status : Z; TS_Text : list Z }.

Definition ParseFileTransportStatus (buf : list Z) : result FileErr FileTransportStatus :=
  if len buf <? FileTransportStatusSize then Err ErrObjectShort
  else
    let block := le_val (slice 4 8 buf) in
    Ok (mkFileTransportStatus (le_val (slice 0 4 buf)) (Z.ldiff block fileLastBlock)
          (negb (Z.land block fileLastBlock =? 0)) (at_ buf 8) (drop (Z.to_nat FileTransportStatusSize) buf)).

Definition AppendFileTransportStatus (dst : list Z) (s : FileTransportStatus) : list Z :=
  dst ++ le32 (TS_Handle s) ++ le32 (block_field (TS_Block s) (TS_Last s)) ++ [u8 (TS_Status s)] ++ TS_Text s.

Record FileDescriptor := mkFileDescriptor {
  FD_Name : list Z; FD_Type : Z; FD_Size : Z; FD_Created : Z; FD_Permissions : Z; FD_RequestID : Z }.

(** The descriptor and the octets it takes. *)
Definition parseFileDescriptor (buf : list Z) : result FileErr (FileDescriptor * Z) :=
  if len buf <? FileDescriptorSize then Err ErrObjectShort
  else
    let offset := le_val (slice 0 2 buf) in
    let size := le_val (slice 2 4 buf) in
    name ← sliceString buf offset size FileDescriptorSize;
    Ok (mkFileDescriptor name (le_val (slice 4 6 buf)) (le_val (slice 6 10 buf)) (parseFileTime (slice 10 16 buf))
          (le_val (slice 16 18 buf)) (le_val (slice 18 20 buf)),
        Z.max (offset + size) FileDescriptorSize).
Definition ParseFileDescriptor (buf : list Z) : result FileErr FileDescriptor :=
  '(d, _) ← parseFileDescriptor buf; Ok d.

Definition AppendFileDescriptor (dst : list Z) (d : FileDescriptor) : list Z :=
  let dst := dst ++ le16 FileDescriptorSize ++ le16 (u16 (len (FD_Name d))) ++ le16 (FD_Type d) ++ le32 (FD_Size d) in
  let dst := appendFileTime dst (FD_Created d) in
  dst ++ le16 (FD_Permissions d) ++ le16 (FD_RequestID d) ++ FD_Name d.

Definition FileDescriptor_Info (d : FileDescriptor) : FileInfo :=
  mkFileInfo (FD_Name d) (FD_Type d) (FD_Size d) (FD_Created d) (FD_Permissions d).
Definition DescriptorFor (info : FileInfo) (requestID : Z) : FileDescriptor :=
  mkFileDescriptor (FI_Name info) (FI_Type info) (FI_Size info) (FI_Created info) (FI_Permissions info) requestID.

(** A descriptor takes at least twenty octets, so a turn per octet is enough.  An error comes
    with the entries before it. *)
Fixpoint directory_loop (fuel : nat) (data : list Z) (off : Z) (out : list FileInfo)
    : option (list FileInfo * option FileErr) :=
  if len data <=? off then Some (out, None)
  else match fuel with
       | O => None
       | S fuel =>
           match parseFileDescriptor (drop (Z.to_nat off) data) with
           | Err e => Some (out, Some e)
           | Ok (d, n) => directory_loop fuel data (off + n) (out ++ [FileDescriptor_Info d])
           end
       end.
Definition ParseDirectory (data : list Z) : list FileInfo * option FileErr :=
  default ([], None) (directory_loop (length data) data 0 []).

(** ** Round trips *)

(** What a creation time comes back as: the zero time stays the zero time. *)
Definition reported_file_time (t : Z) : Z :=
  if (t =? zeroTime) || (TimeToDNP3 t =? 0) then zeroTime else DNP3ToTime (TimeToDNP3 t).

Definition file_time_octets (t : Z) : list Z := appendFileTime [] t.

Lemma appendFileTime_dst dst t : appendFileTime dst t = dst ++ file_time_octets t.
Proof. unfold file_time_octets, appendFileTime. by destruct (_ =? _). Qed.
Lemma length_file_time t : length (file_time_octets t) = 6%nat.
Proof. unfold file_time_octets, appendFileTime. by destruct (_ =? _). Qed.
Lemma parseFileTime_written t : parseFileTime (file_time_octets t) = reported_file_time t.
Proof.
  unfold file_time_octets, reported_file_time, appendFileTime, parseFileTime.
  destruct (t =? zeroTime); [done|]. cbn [orb].
  assert (H : readTime48 (appendTime48 [] (TimeToDNP3 t)) = TimeToDNP3 t).
  { unfold appendTime48. cbn [app]. rewrite readTime48_octets by (repeat constructor; apply u8_ok).
    set (ms := TimeToDNP3 t).
    replace (Z.shiftr ms 16) with (Z.shiftr (Z.shiftr ms 8) 8) by (by rewrite Z.shiftr_shiftr).
    replace (Z.shiftr ms 24) with (Z.shiftr (Z.shiftr (Z.shiftr ms 8) 8) 8) by (by rewrite !Z.shiftr_shiftr).
    replace (Z.shiftr ms 32) with (Z.shiftr (Z.shiftr (Z.shiftr (Z.shiftr ms 8) 8) 8) 8) by (by rewrite !Z.shiftr_shiftr).
    replace (Z.shiftr ms 40) with (Z.shiftr (Z.shiftr (Z.shiftr (Z.shiftr (Z.shiftr ms 8) 8) 8) 8) 8)
      by (by rewrite !Z.shiftr_shiftr).
    change (le_val (le_bytes 6 ms) = ms). rewrite le_val_bytes. apply Z.mod_small.
    pose proof (TimeToDNP3_range t). change (256 ^ Z.of_nat 6) with (MaxDNP3Time + 1). lia. }
  by rewrite H.
Qed.

Lemma le16_read x : le_val (le16 (u16 x)) = u16 x.
Proof. apply le16_val, u16_range. Qed.

(** A name that follows the fixed part [pre]. *)
Lemma sliceString_here pre name rest fixed :
  len pre = fixed -> len name < 65536 -> sliceString (pre ++ name ++ rest) fixed (u16 (len name)) fixed = Ok name.
Proof.
  intros Hp Hn. pose proof (len_nonneg name). pose proof (len_nonneg rest). unfold sliceString.
  rewrite u16_small by (unfold is_u16; lia).
  destruct (Z.eqb_spec (len name) 0) as [E|E].
  { unfold len in E. destruct name; [done | cbn in E; lia]. }
  rewrite (proj2 (Z.ltb_ge _ _)) by lia. rewrite !len_app.
  rewrite (proj2 (Z.ltb_ge _ _)) by lia. by rewrite slice_mid.
Qed.

(** Values that fit their fields. *)
Definition file_auth_ok (a : FileAuth) : Prop :=
  12 + len (FA_User a) < 65536 /\ len (FA_Password a) < 65536 /\ is_u32 (FA_Key a).
Definition file_command_ok (c : FileCommand) : Prop :=
  len (FC_Name c) < 65536 /\ is_u16 (FC_Permissions c) /\ is_u32 (FC_Key c) /\ is_u32 (FC_Size c) /\
  is_u16 (FC_Mode c) /\ is_u16 (FC_MaxBlockSize c) /\ is_u16 (FC_RequestID c).
Definition file_status_ok (s : FileCommandStatus) : Prop :=
  is_u32 (FS_Handle s) /\ is_u32 (FS_Size s) /\ is_u16 (FS_MaxBlockSize s) /\ is_u16 (FS_RequestID s) /\ octet_ok (FS_Status s).
Definition file_transport_ok (handle block : Z) : Prop := is_u32 handle /\ 0 <= block < 2 ^ 31.
Definition file_descriptor_ok (d : FileDescriptor) : Prop :=
  len (FD_Name d) < 65536 - 20 /\ is_u16 (FD_Type d) /\ is_u32 (FD_Size d) /\ is_u16 (FD_Permissions d) /\ is_u16 (FD_RequestID d).

Definition with_file_time (c : FileCommand) : FileCommand :=
  mkFileCommand (FC_Name c) (reported_file_time (FC_Created c)) (FC_Permissions c) (FC_Key c) (FC_Size c) (FC_Mode c)
    (FC_MaxBlockSize c) (FC_RequestID c).
Definition with_descriptor_time (d : FileDescriptor) : FileDescriptor :=
  mkFileDescriptor (FD_Name d) (FD_Type d) (FD_Size d) (reported_file_time (FD_Created d)) (FD_Permissions d) (FD_RequestID d).

Lemma FileAuth_roundtrip a : file_auth_ok a -> ParseFileAuth (AppendFileAuth [] a) = Ok a.
Proof.
  intros (Hu & Hp & Hk). pose proof (len_nonneg (FA_User a)). pose proof (len_nonneg (FA_Password a)).
  unfold ParseFileAuth, AppendFileAuth. rewrite app_nil_l. set (buf := le16 FileAuthSize ++ _).
  assert (Hl : len buf = 12 + len (FA_User a) + len (FA_Password a)) by (unfold buf; autorewrite with dnp3; lia).
  rewrite (proj2 (Z.ltb_ge _ _)) by (unfold FileAuthSize; lia).
  replace (le_val (slice 0 2 buf)) with FileAuthSize by (unfold buf; by read_field).
  replace (le_val (slice 2 4 buf)) with (u16 (len (FA_User a))) by (unfold buf; read_field; by rewrite le16_read).
  replace (le_val (slice 4 6 buf)) with (u16 (FileAuthSize + len (FA_User a))) by (unfold buf; read_field; by rewrite le16_read).
  replace (le_val (slice 6 8 buf)) with (u16 (len (FA_Password a))) by (unfold buf; read_field; by rewrite le16_read).
  replace (le_val (slice 8 12 buf)) with (FA_Key a) by (unfold buf; read_field; by rewrite le32_val).
  set (pre := le16 FileAuthSize ++ le16 (u16 (len (FA_User a))) ++ le16 (u16 (FileAuthSize + len (FA_User a)))
    ++ le16 (u16 (len (FA_Password a))) ++ le32 (FA_Key a)).
  assert (Hpre : len pre = 12) by (unfold pre; autorewrite with dnp3; lia).
  assert (Hb : buf = pre ++ FA_User a ++ FA_Password a) by (unfold buf, pre; by rewrite <- !app_assoc).
  rewrite Hb at 1. rewrite sliceString_here by (unfold FileAuthSize; lia). cbn [mbind result_bind].
  replace (u16 (FileAuthSize + len (FA_User a))) with (len (pre ++ FA_User a))
    by (rewrite u16_small, len_app; unfold FileAuthSize, is_u16; lia).
  assert (Hs : sliceString buf (len (pre ++ FA_User a)) (u16 (len (FA_Password a))) FileAuthSize = Ok (FA_Password a)).
  { rewrite Hb, app_assoc. rewrite <- (app_nil_r (FA_Password a)) at 1. unfold sliceString.
    rewrite u16_small by (unfold is_u16; lia). destruct (Z.eqb_spec (len (FA_Password a)) 0) as [E|E].
    { unfold len in E. destruct (FA_Password a); [done | cbn in E; lia]. }
    rewrite (proj2 (Z.ltb_ge _ _)) by (rewrite len_app; unfold FileAuthSize; lia). rewrite app_nil_r.
    rewrite !len_app. rewrite (proj2 (Z.ltb_ge _ _)) by lia.
    rewrite <- len_app. f_equal. rewrite <- (app_nil_r (FA_Password a)) at 2. by rewrite slice_mid. }
  rewrite Hs. cbn [mbind result_bind]. by destruct a.
Qed.

(** The first octets of an object whose fixed part is [pre], [pre] ending with a name. *)
Lemma FileCommand_roundtrip c : file_command_ok c -> ParseFileCommand (AppendFileCommand [] c) = Ok (with_file_time c).
Proof.
  intros (Hn & H1 & H2 & H3 & H4 & H5 & H6). pose proof (len_nonneg (FC_Name c)).
  unfold ParseFileCommand, AppendFileCommand. rewrite appendFileTime_dst, app_nil_l, <- !app_assoc.
  set (buf := le16 FileCommandSize ++ _). pose proof (length_file_time (FC_Created c)) as Ht.
  assert (Hlt : len (file_time_octets (FC_Created c)) = 6) by (unfold len; lia).
  assert (Hl : len buf = 26 + len (FC_Name c)) by (unfold buf; autorewrite with dnp3; lia).
  rewrite (proj2 (Z.ltb_ge _ _)) by (unfold FileCommandSize; lia).
  replace (le_val (slice 0 2 buf)) with FileCommandSize by (unfold buf; by read_field).
  replace (le_val (slice 2 4 buf)) with (u16 (len (FC_Name c))) by (unfold buf; read_field; by rewrite le16_read).
  replace (slice 4 10 buf) with (file_time_octets (FC_Created c)) by (unfold buf; by read_field).
  replace (le_val (slice 10 12 buf)) with (FC_Permissions c) by (unfold buf; read_field; by rewrite le16_val).
  replace (le_val (slice 12 16 buf)) with (FC_Key c) by (unfold buf; read_field; by rewrite le32_val).
  replace (le_val (slice 16 20 buf)) with (FC_Size c) by (unfold buf; read_field; by rewrite le32_val).
  replace (le_val (slice 20 22 buf)) with (FC_Mode c) by (unfold buf; read_field; by rewrite le16_val).
  replace (le_val (slice 22 24 buf)) with (FC_MaxBlockSize c) by (unfold buf; read_field; by rewrite le16_val).
  replace (le_val (slice 24 26 buf)) with (FC_RequestID c) by (unfold buf; read_field; by rewrite le16_val).
  rewrite parseFileTime_written.
  assert (Hs : sliceString buf FileCommandSize (u16 (len (FC_Name c))) FileCommandSize = Ok (FC_Name c)).
  { unfold buf. rewrite <- (app_nil_r (FC_Name c)) at 2. rewrite !app_assoc, <- (app_assoc _ (FC_Name c)).
    apply sliceString_here; [|lia]. autorewrite with dnp3. rewrite Hlt. done. }
  rewrite Hs. done.
Qed.

Lemma FileCommandStatus_roundtrip s :
  file_status_ok s -> ParseFileCommandStatus (AppendFileCommandStatus [] s) = Ok s.
Proof.
  intros (H1 & H2 & H3 & H4 & H5). unfold ParseFileCommandStatus, AppendFileCommandStatus. rewrite app_nil_l.
  set (buf := le32 (FS_Handle s) ++ _). pose proof (len_nonneg (FS_Text s)).
  rewrite (proj2 (Z.ltb_ge _ _)) by (unfold buf, FileCommandStatusSize; autorewrite with dnp3; lia).
  replace (le_val (slice 0 4 buf)) with (FS_Handle s) by (unfold buf; read_field; by rewrite le32_val).
  replace (le_val (slice 4 8 buf)) with (FS_Size s) by (unfold buf; read_field; by rewrite le32_val).
  replace (le_val (slice 8 10 buf)) with (FS_MaxBlockSize s) by (unfold buf; read_field; by rewrite le16_val).
  replace (le_val (slice 10 12 buf)) with (FS_RequestID s) by (unfold buf; read_field; by rewrite le16_val).
  replace (at_ buf 12) with (FS_Status s) by (unfold buf; read_field; by rewrite u8_small).
  replace (drop (Z.to_nat FileCommandStatusSize) buf) with (FS_Text s) by (unfold buf, FileCommandStatusSize; by read_field).
  by destruct s.
Qed.

Lemma block_field_ok block last : 0 <= block < 2 ^ 31 ->
  is_u32 (block_field block last) /\ Z.ldiff (block_field block last) fileLastBlock = block /\
  negb (Z.land (block_field block last) fileLastBlock =? 0) = last.
Proof.
  intros Hb. assert (Hsmall : forall i, 31 <= i -> Z.testbit block i = false).
  { intros i Hi. destruct (Z.eq_dec block 0) as [->|]; [apply Z.bits_0|]. apply Z.bits_above_log2; [lia|].
    apply Z.log2_lt_pow2; [lia|]. apply Z.lt_le_trans with (2 ^ 31); [lia|]. apply Z.pow_le_mono_r; lia. }
  assert (Hd : Z.ldiff block fileLastBlock = block).
  { apply Z.bits_inj. intros i. rewrite Z.ldiff_spec. unfold fileLastBlock. destruct (Z.lt_ge_cases i 0); [by rewrite !Z.testbit_neg_r|].
    rewrite Z.pow2_bits_eqb by lia. destruct (Z.eqb_spec 31 i) as [<-|]; [|by rewrite andb_true_r].
    by rewrite (Hsmall 31) by lia. }
  assert (Hl : Z.lor block fileLastBlock = block + 2 ^ 31).
  { unfold fileLastBlock. change (2 ^ 31) with (Z.shiftl 1 31) at 1. rewrite lor_shiftl by lia. lia. }
  unfold block_field. rewrite Hd. destruct last.
  - split_and!; [unfold is_u32; lia | |].
    + apply Z.bits_inj. intros i. rewrite Z.ldiff_spec, Z.lor_spec. unfold fileLastBlock.
      destruct (Z.lt_ge_cases i 0); [by rewrite !Z.testbit_neg_r|].
      rewrite Z.pow2_bits_eqb by lia. destruct (Z.eqb_spec 31 i) as [<-|]; [by rewrite (Hsmall 31), andb_false_r by lia|].
      by rewrite orb_false_r, andb_true_r.
    + apply negb_true_iff, Z.eqb_neq. intros H. assert (Ht : Z.testbit (Z.land (Z.lor block fileLastBlock) fileLastBlock) 31 = true).
      { rewrite Z.land_spec, Z.lor_spec. unfold fileLastBlock. rewrite Z.pow2_bits_true by lia. by rewrite orb_true_r. }
      rewrite H in Ht. by rewrite Z.bits_0 in Ht.
  - split_and!; [unfold is_u32; lia | done |]. apply negb_false_iff, Z.eqb_eq. apply Z.bits_inj. intros i.
    rewrite Z.land_spec, Z.bits_0. unfold fileLastBlock. destruct (Z.lt_ge_cases i 0); [by rewrite !Z.testbit_neg_r|].
    rewrite Z.pow2_bits_eqb by lia. destruct (Z.eqb_spec 31 i) as [<-|]; [by rewrite (Hsmall 31) by lia | apply andb_false_r].
Qed.

Lemma FileTransport_roundtrip t :
  file_transport_ok (FT_Handle t) (FT_Block t) -> ParseFileTransport (AppendFileTransport [] t) = Ok t.
Proof.
  intros (H1 & H2). unfold ParseFileTransport, AppendFileTransport. rewrite app_nil_l.
  destruct (block_field_ok (FT_Block t) (FT_Last t) H2) as (H3 & H4 & H5).
  set (buf := le32 (FT_Handle t) ++ _). pose proof (len_nonneg (FT_Data t)).
  rewrite (proj2 (Z.ltb_ge _ _)) by (unfold buf, FileTransportSize; autorewrite with dnp3; lia).
  replace (le_val (slice 0 4 buf)) with (FT_Handle t) by (unfold buf; read_field; by rewrite le32_val).
  replace (le_val (slice 4 8 buf)) with (block_field (FT_Block t) (FT_Last t)) by (unfold buf; read_field; by rewrite le32_val).
  replace (drop (Z.to_nat FileTransportSize) buf) with (FT_Data t) by (unfold buf, FileTransportSize; by read_field).
  rewrite H4, H5. by destruct t.
Qed.

Lemma FileTransportStatus_roundtrip s :
  file_transport_ok (TS_Handle s) (TS_Block s) -> octet_ok (TS_Status s) ->
  ParseFileTransportStatus (AppendFileTransportStatus [] s) = Ok s.
Proof.
  intros (H1 & H2) Hs. unfold ParseFileTransportStatus, AppendFileTransportStatus. rewrite app_nil_l.
  destruct (block_field_ok (TS_Block s) (TS_Last s) H2) as (H3 & H4 & H5).
  set (buf := le32 (TS_Handle s) ++ _). pose proof (len_nonneg (TS_Text s)).
  rewrite (proj2 (Z.ltb_ge _ _)) by (unfold buf, FileTransportStatusSize; autorewrite with dnp3; lia).
  replace (le_val (slice 0 4 buf)) with (TS_Handle s) by (unfold buf; read_field; by rewrite le32_val).
  replace (le_val (slice 4 8 buf)) with (block_field (TS_Block s) (TS_Last s)) by (unfold buf; read_field; by rewrite le32_val).
  replace (at_ buf 8) with (TS_Status s) by (unfold buf; read_field; by rewrite u8_small).
  replace (drop (Z.to_nat FileTransportStatusSize) buf) with (TS_Text s) by (unfold buf, FileTransportStatusSize; by read_field).
  rewrite H4, H5. by destruct s.
Qed.

(** A descriptor at the front of a buffer, and the octets it takes. *)
Lemma parseFileDescriptor_written d rest : file_descriptor_ok d ->
  parseFileDescriptor (AppendFileDescriptor [] d ++ rest) = Ok (with_descriptor_time d, len (AppendFileDescriptor [] d)).
Proof.
  intros (Hn & H1 & H2 & H3 & H4). pose proof (len_nonneg (FD_Name d)). pose proof (len_nonneg rest).
  unfold parseFileDescriptor, AppendFileDescriptor. rewrite appendFileTime_dst, app_nil_l, <- !app_assoc.
  set (buf := le16 FileDescriptorSize ++ _ ++ _ ++ _ ++ _ ++ _ ++ _ ++ _ ++ rest). pose proof (length_file_time (FD_Created d)) as Ht.
  assert (Hlt : len (file_time_octets (FD_Created d)) = 6) by (unfold len; lia).
  assert (Hl : len buf = 20 + len (FD_Name d) + len rest) by (unfold buf; autorewrite with dnp3; lia).
  rewrite (proj2 (Z.ltb_ge _ _)) by (unfold FileDescriptorSize; lia).
  replace (le_val (slice 0 2 buf)) with FileDescriptorSize by (unfold buf; by read_field).
  replace (le_val (slice 2 4 buf)) with (u16 (len (FD_Name d))) by (unfold buf; read_field; by rewrite le16_read).
  replace (le_val (slice 4 6 buf)) with (FD_Type d) by (unfold buf; read_field; by rewrite le16_val).
  replace (le_val (slice 6 10 buf)) with (FD_Size d) by (unfold buf; read_field; by rewrite le32_val).
  replace (slice 10 16 buf) with (file_time_octets (FD_Created d)) by (unfold buf; by read_field).
  replace (le_val (slice 16 18 buf)) with (FD_Permissions d) by (unfold buf; read_field; by rewrite le16_val).
  replace (le_val (slice 18 20 buf)) with (FD_RequestID d) by (unfold buf; read_field; by rewrite le16_val).
  rewrite parseFileTime_written.
  assert (Hs : sliceString buf FileDescriptorSize (u16 (len (FD_Name d))) FileDescriptorSize = Ok (FD_Name d)).
  { unfold buf. rewrite !app_assoc, <- (app_assoc _ (FD_Name d)).
    apply sliceString_here; [|lia]. autorewrite with dnp3. rewrite Hlt. done. }
  rewrite Hs. cbn [mbind result_bind]. f_equal. f_equal. rewrite u16_small by (unfold is_u16; lia).
  autorewrite with dnp3. rewrite Hlt. unfold FileDescriptorSize. lia.
Qed.

Definition directory_octets (ds : list FileDescriptor) : list Z := concat (AppendFileDescriptor [] <$> ds).

Lemma len_descriptor d : 20 <= len (AppendFileDescriptor [] d).
Proof.
  pose proof (length_file_time (FD_Created d)). pose proof (len_nonneg (FD_Name d)). unfold AppendFileDescriptor.
  rewrite appendFileTime_dst. autorewrite with dnp3. unfold len in *. lia.
Qed.

Lemma directory_loop_written ds : forall fuel pre out,
  Forall file_descriptor_ok ds -> (length ds <= fuel)%nat ->
  directory_loop fuel (pre ++ directory_octets ds) (len pre) out =
    Some (out ++ (FileDescriptor_Info ∘ with_descriptor_time <$> ds), None).
Proof.
  induction ds as [|d ds IH]; intros fuel pre out Hok Hf.
  - cbn [directory_octets fmap list_fmap concat]. unfold directory_octets. cbn. rewrite !app_nil_r.
    destruct fuel; cbn [directory_loop]; by rewrite Z.leb_refl.
  - destruct fuel as [|fuel]; [cbn in Hf; lia|]. apply Forall_cons in Hok as [Hd Hok]. cbn in Hf.
    pose proof (len_descriptor d) as Hlen. cbn [directory_loop].
    assert (He : directory_octets (d :: ds) = AppendFileDescriptor [] d ++ directory_octets ds) by done.
    rewrite He. rewrite (proj2 (Z.leb_gt _ _)) by (rewrite !len_app; pose proof (len_nonneg (directory_octets ds)); lia).
    unfold len at 1. rewrite Nat2Z.id, drop_app_length, parseFileDescriptor_written by done.
    rewrite <- len_app, app_assoc, IH by (done || lia). f_equal. f_equal. cbn [fmap list_fmap]. by rewrite <- app_assoc.
Qed.

(** File objects survive the wire: authentications, commands, statuses, blocks and block
    statuses are read back as written, and a directory listing, one run of descriptors,
    comes back as the same entries in the same order. *)
Theorem file_objects_roundtrip a c s t u ds :
  file_auth_ok a -> file_command_ok c -> file_status_ok s ->
  file_transport_ok (FT_Handle t) (FT_Block t) ->
  file_transport_ok (TS_Handle u) (TS_Block u) -> octet_ok (TS_Status u) ->
  Forall file_descriptor_ok ds ->
  ParseFileAuth (AppendFileAuth [] a) = Ok a /\
  ParseFileCommand (AppendFileCommand [] c) = Ok (with_file_time c) /\
  ParseFileCommandStatus (AppendFileCommandStatus [] s) = Ok s /\
  ParseFileTransport (AppendFileTransport [] t) = Ok t /\
  ParseFileTransportStatus (AppendFileTransportStatus [] u) = Ok u /\
  ParseDirectory (directory_octets ds) = (FileDescriptor_Info ∘ with_descriptor_time <$> ds, None).
Proof.
  intros Ha Hc Hs Ht Hu Hus Hds. split_and!.
  - by apply FileAuth_roundtrip.
  - by apply FileCommand_roundtrip.
  - by apply FileCommandStatus_roundtrip.
  - by apply FileTransport_roundtrip.
  - by apply FileTransportStatus_roundtrip.
  - unfold ParseDirectory. change (directory_octets ds) with ([] ++ directory_octets ds) at 2.
    change 0 with (len (@nil Z)). rewrite directory_loop_written; [done | done |].
    clear - ds. induction ds as [|d ds IH]; [done|]. pose proof (len_descriptor d). unfold len in *.
    change (directory_octets (d :: ds)) with (AppendFileDescriptor [] d ++ directory_octets ds).
    rewrite length_app. cbn [length]. lia.
Qed.

(** The walk over a directory stops for every input: each entry takes octets. *)
Lemma directory_loop_total data : forall fuel off out, 0 <= off -> (Z.to_nat (len data - off) <= fuel)%nat ->
  exists r, directory_loop fuel data off out = Some r.
Proof.
  induction fuel as [|fuel IH]; intros off out Hoff Hf; cbn [directory_loop].
  - rewrite (proj2 (Z.leb_le _ _)) by lia. eauto.
  - destruct (Z.leb_spec (len data) off); [eauto|].
    destruct (parseFileDescriptor _) as [[d n]|e] eqn:Ep; [|eauto].
    assert (Hn : 20 <= n).
    { unfold parseFileDescriptor in Ep. destruct (_ <? _); [done|]. destruct (sliceString _ _ _ _); [|done].
      cbn in Ep. injection Ep as _ <-. unfold FileDescriptorSize. lia. }
    apply IH; lia.
Qed.
