(* ===== verification/ExtObjects.v ===== *)
(** * Self-describing objects (src/attribute.go, src/objects/attribute.go, dataset.go,
    activation.go, authentication.go)

    Device attributes (group 0), data set descriptors (groups 85 and 86), activation results
    (group 91) and authentication objects (group 120): objects that carry their own lengths,
    so that decoding can fail.

    The theorems: each of them is read back as it was written; and the walk over the object
    data of a fragment, which must find the end of an attribute to get to the next object,
    agrees with the attribute codec on every attribute but the extended list. *)

From Stdlib Require Import SpecFloat.
From S2P Require Import Prelude Values Floats AppHeader AppObject Objects Codecs.

(** ** Device attributes *)

Definition AttrVisibleString : Z := 1.
Definition AttrUnsignedInt : Z := 2.
Definition AttrSignedInt : Z := 3.
Definition AttrFloat : Z := 4.
Definition AttrOctetString : Z := 5.
Definition AttrBitString : Z := 6.
Definition AttrTime : Z := 7.
Definition AttrAttributeList : Z := 254.
Definition AttrExtAttributeList : Z := 255.

Definition AttrSetStandard : Z := 0.
Definition AttrAll : Z := 254.
Definition AttrList : Z := 255.

Record Attribute := mkAttribute {
  A_Set : Z; A_Variation : Z; A_Type : Z; A_Text : list Z; A_Number : Z; A_Real : spec_float;
  A_Octets : list Z; A_Time : Z }.

Record AttributeListItem := mkListItem { LI_Variation : Z; LI_Writable : bool }.

(** The pairs of octets of a list. *)
Fixpoint list_items (octets : list Z) : list AttributeListItem :=
  match octets with
  | v :: p :: rest => mkListItem v (negb (Z.land p 0x01 =? 0)) :: list_items rest
  | _ => []
  end.
(** [List]; a Go nil is the empty list. *)
Definition Attribute_List (a : Attribute) : list AttributeListItem :=
  if negb (A_Type a =? AttrAttributeList) && negb (A_Type a =? AttrExtAttributeList) then []
  else list_items (A_Octets a).

Definition AttributeHeaderSize : Z := 2.
Definition MaxAttributeValue : Z := 255.

Inductive AttributeErr := ErrAttrShort | ErrAttrPastEnd | ErrAttrWidth | ErrAttrList | ErrAttrLong.

Definition attributeUint (b : list Z) : result AttributeErr Z :=
  if one_of (len b) [1; 2; 4; 8] then Ok (le_val b) else Err ErrAttrWidth.
Definition attributeInt (b : list Z) : result AttributeErr Z :=
  if one_of (len b) [1; 2; 4; 8] then Ok (int_of (8 * len b) (le_val b)) else Err ErrAttrWidth.

Definition ParseAttribute (set variation : Z) (buf : list Z) : result AttributeErr (Attribute * Z) :=
  if len buf <? AttributeHeaderSize then Err ErrAttrShort
  else
    let type := at_ buf 0 in
    let size := at_ buf 1 in
    let size := if type =? AttrExtAttributeList then size + 256 else size in
    let end_ := AttributeHeaderSize + size in
    if len buf <? end_ then Err ErrAttrPastEnd
    else
      let value := slice AttributeHeaderSize end_ buf in
      let attr text number real octets time := mkAttribute set variation type text number real octets time in
      a ← (if type =? AttrVisibleString then Ok (attr value 0 f64_zero [] zeroTime)
           else if type =? AttrUnsignedInt then
             n ← attributeUint value; Ok (attr [] (int_of 64 n) f64_zero [] zeroTime)
           else if type =? AttrSignedInt then
             n ← attributeInt value; Ok (attr [] n f64_zero [] zeroTime)
           else if type =? AttrFloat then
             if size =? 4 then Ok (attr [] 0 (f64_of_f32_bits (le_val value)) [] zeroTime)
             else if size =? 8 then Ok (attr [] 0 (f64_from_bits (le_val value)) [] zeroTime)
             else Err ErrAttrWidth
           else if type =? AttrTime then
             if negb (size =? Time48Size) then Err ErrAttrWidth
             else Ok (attr [] 0 f64_zero [] (TTime (ParseTime48 value)))
           else Ok (attr [] 0 f64_zero value zeroTime));
      Ok (a, end_).

Definition appendNarrowInt (dst : list Z) (v : Z) (signed : bool) : list Z :=
  if signed && (-128 <=? v) && (v <=? 127) then dst ++ [uint_of 8 v]
  else if negb signed && (0 <=? v) && (v <=? 255) then dst ++ [u8 v]
  else if signed && (-32768 <=? v) && (v <=? 32767) then dst ++ le16 (uint_of 16 v)
  else if negb signed && (0 <=? v) && (v <=? 65535) then dst ++ le16 (u16 v)
  else if signed && (-2147483648 <=? v) && (v <=? 2147483647) then dst ++ le32 (uint_of 32 v)
  else if negb signed && (0 <=? v) && (v <=? 4294967295) then dst ++ le32 (u32 v)
  else dst ++ le64 (uint_of 64 v).

Definition AppendAttribute (dst : list Z) (a : Attribute) : result AttributeErr (list Z) :=
  if one_of (A_Type a) [AttrAttributeList; AttrExtAttributeList] then
    if negb (Z.rem (len (A_Octets a)) 2 =? 0) then Err ErrAttrList
    else if MaxAttributeValue <? len (A_Octets a) then
      if MaxAttributeValue + 256 <? len (A_Octets a) then Err ErrAttrLong
      else Ok ((dst ++ [AttrExtAttributeList; u8 (len (A_Octets a) - 256)]) ++ A_Octets a)
    else Ok ((dst ++ [AttrAttributeList; u8 (len (A_Octets a))]) ++ A_Octets a)
  else
    let value :=
      if A_Type a =? AttrVisibleString then A_Text a
      else if one_of (A_Type a) [AttrUnsignedInt; AttrSignedInt]
      then appendNarrowInt [] (A_Number a) (A_Type a =? AttrSignedInt)
      else if A_Type a =? AttrFloat then le32 (f32_bits (f32_of_f64 (A_Real a)))
      else if A_Type a =? AttrTime then appendTime48 [] (TimeToDNP3 (A_Time a))
      else A_Octets a in
    if MaxAttributeValue <? len value then Err ErrAttrLong
    else Ok ((dst ++ [u8 (A_Type a); u8 (len value)]) ++ value).

Definition StringAttribute (variation : Z) (text : list Z) : Attribute :=
  mkAttribute 0 variation AttrVisibleString text 0 f64_zero [] zeroTime.
Definition UintAttribute (variation v : Z) : Attribute :=
  mkAttribute 0 variation AttrUnsignedInt [] (int_of 64 v) f64_zero [] zeroTime.
Definition IntAttribute (variation v : Z) : Attribute :=
  mkAttribute 0 variation AttrSignedInt [] v f64_zero [] zeroTime.
Definition list_octets (items : list AttributeListItem) : list Z :=
  concat ((fun it => [LI_Variation it; if LI_Writable it then 0x01 else 0]) <$> items).
Definition ListAttribute (items : list AttributeListItem) : Attribute :=
  mkAttribute 0 AttrList AttrAttributeList [] 0 f64_zero (list_octets items) zeroTime.

(** ** Data set descriptors *)

Record DatasetElement := mkDatasetElement { DE_Code : Z; DE_DataType : Z; DE_MaxLength : Z; DE_Ancillary : list Z }.

Inductive ObjectErr := ErrMalformed | ErrBadConfig.

(** An element takes at least four octets, so a turn per octet is enough. *)
Fixpoint dataset_loop (fuel : nat) (data : list Z) (out : list DatasetElement)
    : option (result ObjectErr (list DatasetElement)) :=
  if len data <=? 0 then Some (Ok out)
  else match fuel with
       | O => None
       | S fuel =>
           let n := at_ data 0 in
           if (n <? 3) || (len data <=? n) then Some (Err ErrMalformed)
           else dataset_loop fuel (drop (Z.to_nat (n + 1)) data)
                  (out ++ [mkDatasetElement (at_ data 1) (at_ data 2) (at_ data 3) (slice 4 (n + 1) data)])
       end.
Definition ParseDatasetDescriptor (data : list Z) : result ObjectErr (list DatasetElement) :=
  default (Err ErrMalformed) (dataset_loop (length data) data []).

Fixpoint AppendDatasetDescriptor (dst : list Z) (elements : list DatasetElement) : result ObjectErr (list Z) :=
  match elements with
  | [] => Ok dst
  | e :: elements =>
      if 252 <? len (DE_Ancillary e) then Err ErrBadConfig
      else AppendDatasetDescriptor
             ((dst ++ [u8 (3 + len (DE_Ancillary e)); DE_Code e; DE_DataType e; DE_MaxLength e]) ++ DE_Ancillary e)
             elements
  end.

(** ** Activation results *)

Record ActivationStatus := mkActivationStatus { AS_Code : Z; AS_Text : list Z }.
Record ActivationResult := mkActivationResult { AR_Delay : Z; AR_Statuses : list ActivationStatus }.

Fixpoint append_statuses (dst : list Z) (l : list ActivationStatus) : result ObjectErr (list Z) :=
  match l with
  | [] => Ok dst
  | s :: l =>
      if 254 <? len (AS_Text s) then Err ErrBadConfig
      else append_statuses ((dst ++ [u8 (len (AS_Text s) + 1); AS_Code s]) ++ AS_Text s) l
  end.
Definition AppendActivationResult (dst : list Z) (v : ActivationResult) : result ObjectErr (list Z) :=
  let ms := Z.quot (AR_Delay v) 1000000 in
  if (ms <? 0) || (0xffffffff <? ms) || (255 <? len (AR_Statuses v)) then Err ErrBadConfig
  else append_statuses (dst ++ le32 ms ++ [u8 (len (AR_Statuses v))]) (AR_Statuses v).

(** The loop runs as many times as the count says. *)
Fixpoint parse_statuses (n : nat) (data : list Z) (out : list ActivationStatus)
    : result ObjectErr (list ActivationStatus * list Z) :=
  match n with
  | O => Ok (out, data)
  | S n =>
      if (len data <? 2) || (at_ data 0 =? 0) || (len data <=? at_ data 0) then Err ErrMalformed
      else
        let length := at_ data 0 in
        parse_statuses n (drop (Z.to_nat (1 + length)) data)
          (out ++ [mkActivationStatus (at_ data 1) (slice 2 (1 + length) data)])
  end.
Definition ParseActivationResult (data : list Z) : result ObjectErr ActivationResult :=
  if len data <? 5 then Err ErrMalformed
  else
    '(statuses, rest) ← parse_statuses (Z.to_nat (at_ data 4)) (drop 5 data) [];
    if negb (len rest =? 0) then Err ErrMalformed
    else Ok (mkActivationResult (le_val (slice 0 4 data) * 1000000) statuses).

(** ** Authentication objects *)

Record AuthChallenge := mkAuthChallenge {
  AC_Sequence : Z; AC_User : Z; AC_Algorithm : Z; AC_Reason : Z; AC_Data : list Z }.
Definition AppendAuthChallenge (dst : list Z) (v : AuthChallenge) : list Z :=
  dst ++ le32 (AC_Sequence v) ++ le16 (AC_User v) ++ [AC_Algorithm v] ++ [AC_Reason v] ++ AC_Data v.
Definition ParseAuthChallenge (data : list Z) : result ObjectErr AuthChallenge :=
  if len data <? 12 then Err ErrMalformed
  else Ok (mkAuthChallenge (le_val (slice 0 4 data)) (le_val (slice 4 6 data)) (at_ data 6) (at_ data 7) (drop (Z.to_nat 8) data)).

Record AuthReply := mkAuthReply { AY_Sequence : Z; AY_User : Z; AY_MAC : list Z }.
Definition AppendAuthReply (dst : list Z) (v : AuthReply) : list Z :=
  dst ++ le32 (AY_Sequence v) ++ le16 (AY_User v) ++ AY_MAC v.
Definition ParseAuthReply (data : list Z) : result ObjectErr AuthReply :=
  if len data <? 7 then Err ErrMalformed
  else Ok (mkAuthReply (le_val (slice 0 4 data)) (le_val (slice 4 6 data)) (drop (Z.to_nat 6) data)).

Record AuthKeyStatus := mkAuthKeyStatus {
  AK_Sequence : Z; AK_User : Z; AK_WrapAlgorithm : Z; AK_Status : Z; AK_Algorithm : Z;
  AK_Challenge : list Z; AK_MAC : list Z }.
Definition AppendAuthKeyStatus (dst : list Z) (v : AuthKeyStatus) : list Z :=
  dst ++ le32 (AK_Sequence v) ++ le16 (AK_User v) ++ [AK_WrapAlgorithm v] ++ [AK_Status v] ++ [AK_Algorithm v]
    ++ le16 (u16 (len (AK_Challenge v))) ++ AK_Challenge v ++ AK_MAC v.
Definition ParseAuthKeyStatus (data : list Z) : result ObjectErr AuthKeyStatus :=
  if len data <? 11 then Err ErrMalformed
  else
    let n := le_val (slice 9 11 data) in
    if (n <? 4) || (len data - 11 <? n) then Err ErrMalformed
    else Ok (mkAuthKeyStatus (le_val (slice 0 4 data)) (le_val (slice 4 6 data)) (at_ data 6) (at_ data 7) (at_ data 8)
               (slice 11 (11 + n) data) (drop (Z.to_nat (11 + n)) data)).

Record AuthKeyChange := mkAuthKeyChange { KC_Sequence : Z; KC_User : Z; Wrapped : list Z }.
Definition AppendAuthKeyChange (dst : list Z) (v : AuthKeyChange) : list Z :=
  dst ++ le32 (KC_Sequence v) ++ le16 (KC_User v) ++ Wrapped v.
Definition ParseAuthKeyChange (data : list Z) : result ObjectErr AuthKeyChange :=
  if (len data <? 30) || negb (Z.rem (len data - 6) 8 =? 0) then Err ErrMalformed
  else Ok (mkAuthKeyChange (le_val (slice 0 4 data)) (le_val (slice 4 6 data)) (drop (Z.to_nat 6) data)).

(** ** Attributes on the wire *)

Definition is_list_type (t : Z) : bool := one_of t [AttrAttributeList; AttrExtAttributeList].

(** The list does not fit a plain length octet. *)
Definition extended (a : Attribute) : bool := is_list_type (A_Type a) && (MaxAttributeValue <? len (A_Octets a)).

(** What an attribute comes back as under the identity its header gives it: the one field
    its type uses, a list in the form its length calls for, a real rounded to single
    precision, a time to the millisecond. *)
Definition reported_attribute (set variation : Z) (a : Attribute) : Attribute :=
  let attr text number real octets time := mkAttribute set variation
    (if is_list_type (A_Type a) then if extended a then AttrExtAttributeList else AttrAttributeList else A_Type a)
    text number real octets time in
  if A_Type a =? AttrVisibleString then attr (A_Text a) 0 f64_zero [] zeroTime
  else if one_of (A_Type a) [AttrUnsignedInt; AttrSignedInt] then attr [] (A_Number a) f64_zero [] zeroTime
  else if A_Type a =? AttrFloat then attr [] 0 (f64_of_f32_bits (f32_bits (f32_of_f64 (A_Real a)))) [] zeroTime
  else if A_Type a =? AttrTime then attr [] 0 f64_zero [] (DNP3ToTime (TimeToDNP3 (A_Time a)))
  else attr [] 0 f64_zero (A_Octets a) zeroTime.

(** The two octets in front of a value. *)
Definition attribute_header (a : Attribute) (value : list Z) : list Z :=
  if is_list_type (A_Type a) then
    if extended a then [AttrExtAttributeList; u8 (len value - 256)] else [AttrAttributeList; u8 (len value)]
  else [u8 (A_Type a); u8 (len value)].

Definition attribute_value (a : Attribute) : list Z :=
  if A_Type a =? AttrVisibleString then A_Text a
  else if one_of (A_Type a) [AttrUnsignedInt; AttrSignedInt]
  then appendNarrowInt [] (A_Number a) (A_Type a =? AttrSignedInt)
  else if A_Type a =? AttrFloat then le32 (f32_bits (f32_of_f64 (A_Real a)))
  else if A_Type a =? AttrTime then appendTime48 [] (TimeToDNP3 (A_Time a))
  else A_Octets a.

Lemma list_value a : is_list_type (A_Type a) = true -> attribute_value a = A_Octets a.
Proof.
  unfold is_list_type, one_of, attribute_value. cbn [existsb]. rewrite orb_false_r, orb_true_iff, !Z.eqb_eq.
  by intros [-> | ->].
Qed.

Lemma AppendAttribute_inv dst a v : AppendAttribute dst a = Ok v ->
  v = dst ++ attribute_header a (attribute_value a) ++ attribute_value a /\
  len (attribute_value a) <= (if extended a then 511 else 255) /\ (extended a = true -> 256 <= len (attribute_value a)).
Proof.
  unfold AppendAttribute, attribute_header, extended. fold (is_list_type (A_Type a)).
  destruct (is_list_type (A_Type a)) eqn:El; cbn [andb].
  - rewrite (list_value a El). destruct (Z.eqb_spec (Z.rem (len (A_Octets a)) 2) 0) as [Er|]; cbn [negb]; [|done].
    unfold MaxAttributeValue. destruct (Z.ltb_spec 255 (len (A_Octets a))) as [Hl|Hl].
    + destruct (Z.ltb_spec (255 + 256) (len (A_Octets a))); [done|]. intros [= <-]. rewrite <- app_assoc. split_and!; [done | lia | lia].
    + intros [= <-]. rewrite <- app_assoc. split_and!; [done | lia | done].
  - fold (attribute_value a). unfold MaxAttributeValue. destruct (Z.ltb_spec 255 (len (attribute_value a))); [done|].
    intros [= <-]. rewrite <- app_assoc. split_and!; [done | lia | done].
Qed.

Lemma len_narrow v signed : one_of (len (appendNarrowInt [] v signed)) [1; 2; 4; 8] = true.
Proof. unfold appendNarrowInt. repeat destr_if; done. Qed.

(** A narrow integer is read back, whichever width was chosen. *)
Lemma narrow_signed v : - 2 ^ 63 <= v < 2 ^ 63 -> attributeInt (appendNarrowInt [] v true) = Ok v.
Proof.
  intros Hv. unfold attributeInt. rewrite len_narrow. f_equal. unfold appendNarrowInt. cbn [andb negb app].
  destruct ((-128 <=? v) && (v <=? 127)) eqn:E1; bool_prop.
  { unfold len. cbn [length le_val]. rewrite Z.mul_0_r, Z.add_0_r. apply (int_of_uint_of 8); lia. }
  destruct ((-32768 <=? v) && (v <=? 32767)) eqn:E2; bool_prop.
  { rewrite len_le_bytes, le_val_bytes. apply (int_field 16 2); lia. }
  destruct ((-2147483648 <=? v) && (v <=? 2147483647)) eqn:E3; bool_prop.
  all: rewrite len_le_bytes, le_val_bytes.
  - apply (int_field 32 4); lia.
  - apply (int_field 64 8); lia.
Qed.

Lemma narrow_unsigned v : - 2 ^ 63 <= v < 2 ^ 63 ->
  exists n, attributeUint (appendNarrowInt [] v false) = Ok n /\ int_of 64 n = v.
Proof.
  intros Hv. unfold attributeUint. rewrite len_narrow. eexists. split; [reflexivity|]. unfold appendNarrowInt. cbn [andb negb app].
  assert (Hid : forall x, 0 <= x < 2 ^ 63 -> int_of 64 x = x).
  { intros x Hx. unfold int_of. rewrite (proj2 (Z.ltb_lt _ _)); [done|]. change (64 - 1) with 63. lia. }
  destruct ((0 <=? v) && (v <=? 255)) eqn:E1; bool_prop.
  { cbn [le_val]. rewrite u8_small by (unfold octet_ok; lia). rewrite Z.mul_0_r, Z.add_0_r. apply Hid. lia. }
  destruct ((0 <=? v) && (v <=? 65535)) eqn:E2; bool_prop.
  { rewrite u16_small, le16_val by (unfold is_u16; lia). apply Hid. lia. }
  destruct ((0 <=? v) && (v <=? 4294967295)) eqn:E3; bool_prop.
  { rewrite u32_small, le32_val by (unfold is_u32; lia). apply Hid. lia. }
  rewrite le_val_bytes. apply (int_field 64 8); lia.
Qed.

Lemma attribute_header_len a value : len (attribute_header a value) = 2.
Proof. unfold attribute_header. by repeat destr_if. Qed.

(** What the header says: the type of the attribute as reported, and a length octet that
    gives the length, counting from 256 for an extended list. *)
Lemma attribute_header_read a rest :
  octet_ok (A_Type a) -> len (attribute_value a) <= (if extended a then 511 else 255) ->
  (extended a = true -> 256 <= len (attribute_value a)) ->
  let buf := attribute_header a (attribute_value a) ++ rest in
  at_ buf 0 = A_Type (reported_attribute 0 0 a) /\
  at_ buf 1 = len (attribute_value a) - (if extended a then 256 else 0) /\
  (at_ buf 0 =? AttrExtAttributeList) = extended a.
Proof.
  intros Ht Hl Hx. pose proof (len_nonneg (attribute_value a)) as Hn.
  assert (Hrep : A_Type (reported_attribute 0 0 a) =
    if is_list_type (A_Type a) then if extended a then AttrExtAttributeList else AttrAttributeList else A_Type a)
    by (unfold reported_attribute; repeat destr_if; done).
  rewrite Hrep. unfold attribute_header, extended in *. destruct (is_list_type (A_Type a)) eqn:El; cbn [andb] in *.
  - destruct (MaxAttributeValue <? len (A_Octets a)); cbn [at_ Z.to_nat app nth].
    + specialize (Hx eq_refl). unfold at_. norm_nat. cbn [app nth]. rewrite u8_small by (unfold octet_ok; lia). done.
    + unfold at_. norm_nat. cbn [app nth]. rewrite u8_small by (unfold octet_ok; lia). rewrite Z.sub_0_r. done.
  - unfold at_. norm_nat. cbn [app nth]. rewrite !u8_small by (unfold octet_ok in *; lia). rewrite Z.sub_0_r. split_and!; [done | done |].
    apply Z.eqb_neq. intros E. by rewrite E in El.
Qed.

(** An attribute written is the attribute read, whatever follows it, with the number of
    octets it took. *)
Lemma attribute_read set variation a v rest :
  octet_ok (A_Type a) -> - 2 ^ 63 <= A_Number a < 2 ^ 63 -> AppendAttribute [] a = Ok v ->
  ParseAttribute set variation (v ++ rest) = Ok (reported_attribute set variation a, len v).
Proof.
  intros Ht Hnum Hv. destruct (AppendAttribute_inv _ _ _ Hv) as (-> & Hl & Hx). rewrite app_nil_l.
  set (value := attribute_value a) in *. set (hdr := attribute_header a value).
  pose proof (attribute_header_len a value) as Hh. fold hdr in Hh.
  pose proof (len_nonneg value) as Hnv. pose proof (len_nonneg rest) as Hnr.
  destruct (attribute_header_read a (value ++ rest) Ht Hl Hx) as (H0 & H1 & H2). fold value hdr in H0, H1, H2.
  unfold ParseAttribute. rewrite <- app_assoc. rewrite !len_app, Hh. rewrite (proj2 (Z.ltb_ge _ _)) by (unfold AttributeHeaderSize; lia).
  rewrite H2, H1. replace (if extended a then _ else _) with (len value) by (destruct (extended a); lia).
  unfold AttributeHeaderSize. rewrite (proj2 (Z.ltb_ge _ _)) by lia.
  rewrite (slice_mid hdr value rest) by lia. rewrite H0.
  unfold reported_attribute, value, attribute_value. clear - Hnum Ht.
  destruct (Z.eqb_spec (A_Type a) AttrVisibleString) as [->|N1]; [done|].
  unfold is_list_type, one_of. cbn [existsb].
  destruct (Z.eqb_spec (A_Type a) AttrUnsignedInt) as [->|N2].
  { cbn -[appendNarrowInt attributeUint]. destruct (narrow_unsigned _ Hnum) as (n & -> & Hn). cbn [mbind result_bind]. by rewrite Hn. }
  destruct (Z.eqb_spec (A_Type a) AttrSignedInt) as [->|N3].
  { cbn -[appendNarrowInt attributeInt]. by rewrite (narrow_signed _ Hnum). }
  destruct (Z.eqb_spec (A_Type a) AttrFloat) as [->|N4].
  { cbn -[le_bytes f32_bits]. rewrite len_le_bytes. cbn -[le_bytes f32_bits]. by rewrite le_val_bytes, f32_bits_read. }
  destruct (Z.eqb_spec (A_Type a) AttrTime) as [->|N5].
  { cbn -[appendTime48 ParseTime48]. rewrite len_appendTime48. cbn -[appendTime48 ParseTime48]. do 2 f_equal.
    by rewrite ParseTime48_read. }
  destruct (Z.eqb_spec (A_Type a) AttrAttributeList) as [E|N6]; [|destruct (Z.eqb_spec (A_Type a) AttrExtAttributeList) as [E|N7]].
  all: cbn [orb andb]; rewrite ?E; destruct (extended a); try done.
  all: cbn [A_Type]; rewrite ?(proj2 (Z.eqb_neq _ _) N1), ?(proj2 (Z.eqb_neq _ _) N2), ?(proj2 (Z.eqb_neq _ _) N3),
    ?(proj2 (Z.eqb_neq _ _) N4), ?(proj2 (Z.eqb_neq _ _) N5); done.
Qed.

Lemma walk_one buf n : attribute_body buf 0 = Ok n -> walkAttributes 1 buf = Ok n.
Proof.
  intros H. unfold walkAttributes, for_range. rewrite Nat.add_1_r. cbn [range_loop]. cbn [Z.leb Z.compare]. rewrite H.
  by destruct (length buf).
Qed.

(** Where a fragment's walk finds the end of an attribute that was written. *)
Lemma attribute_walk a v rest : octet_ok (A_Type a) -> AppendAttribute [] a = Ok v ->
  walkAttributes 1 (v ++ rest) = Ok (len v - (if extended a then 256 else 0)).
Proof.
  intros Ht Hv. destruct (AppendAttribute_inv _ _ _ Hv) as (-> & Hl & Hx). rewrite app_nil_l.
  set (value := attribute_value a) in *. pose proof (attribute_header_len a value) as Hh.
  pose proof (len_nonneg value) as Hnv. pose proof (len_nonneg rest) as Hnr.
  destruct (attribute_header_read a (value ++ rest) Ht Hl Hx) as (_ & H1 & _). fold value in H1.
  apply walk_one. unfold attribute_body. change (0 + 1) with 1. rewrite <- app_assoc, !len_app, Hh, H1.
  rewrite (proj2 (Z.ltb_ge _ _)) by lia. rewrite (proj2 (Z.ltb_ge _ _)) by (destruct (extended a); [specialize (Hx eq_refl)|]; lia).
  f_equal. lia.
Qed.

(** Attributes: what is written is read back under the identity of its header, by the codec;
    and the walk over the object data of a fragment, which has to step over the attribute to
    find the next object, ends where the codec ends exactly when the attribute is not an
    extended list.  An extended list, which a device with more than 127 attributes sends,
    makes the walk stop 256 octets early, in the middle of the list. *)
Theorem attribute_roundtrip_framing set variation a v rest :
  octet_ok (A_Type a) -> - 2 ^ 63 <= A_Number a < 2 ^ 63 -> AppendAttribute [] a = Ok v ->
  ParseAttribute set variation (v ++ rest) = Ok (reported_attribute set variation a, len v) /\
  walkAttributes 1 (v ++ rest) = Ok (if extended a then len v - 256 else len v).
Proof.
  intros Ht Hn Hv. split; [by apply attribute_read|]. rewrite (attribute_walk a v rest Ht Hv). f_equal.
  destruct (extended a); lia.
Qed.

Definition list_attribute_128 : Attribute := ListAttribute (replicate 128 (mkListItem 7 true)).

Lemma attribute_roundtrip_framing_witness :
  exists v, AppendAttribute [] list_attribute_128 = Ok v /\ len v = 258 /\
    ParseAttribute 0 255 (v ++ [9; 9]) = Ok (reported_attribute 0 255 list_attribute_128, len v) /\
    walkAttributes 1 (v ++ [9; 9]) = Ok (if extended list_attribute_128 then len v - 256 else len v).
Proof.
  eexists. split; [vm_compute; reflexivity|]. split; [vm_compute; reflexivity|].
  apply (attribute_roundtrip_framing 0 255 list_attribute_128 _ [9; 9]).
  - vm_compute. split; congruence.
  - vm_compute. split; congruence.
  - vm_compute. reflexivity.
Defined.

Lemma list_items_octets items : list_items (list_octets items) = items.
Proof.
  induction items as [|[v w] items IH]; [done|]. unfold list_octets in *. cbn [fmap list_fmap concat app list_items LI_Variation LI_Writable].
  rewrite IH. by destruct w.
Qed.

(** ** Data sets, activation results and authentication objects *)

Definition dataset_element_ok (e : DatasetElement) : Prop := len (DE_Ancillary e) <= 252.
Definition element_octets (e : DatasetElement) : list Z :=
  [u8 (3 + len (DE_Ancillary e)); DE_Code e; DE_DataType e; DE_MaxLength e] ++ DE_Ancillary e.

Lemma AppendDataset_octets es : forall dst, Forall dataset_element_ok es ->
  AppendDatasetDescriptor dst es = Ok (dst ++ concat (element_octets <$> es)).
Proof.
  induction es as [|e es IH]; intros dst Hok; [by rewrite app_nil_r|]. apply Forall_cons in Hok as [He Hok].
  cbn [AppendDatasetDescriptor]. rewrite (proj2 (Z.ltb_ge _ _)) by exact He. rewrite IH by done. f_equal.
  cbn [fmap list_fmap concat]. unfold element_octets at 2. by rewrite <- !app_assoc.
Qed.

Lemma dataset_loop_written es : forall fuel out, Forall dataset_element_ok es -> (length es <= fuel)%nat ->
  dataset_loop fuel (concat (element_octets <$> es)) out = Some (Ok (out ++ es)).
Proof.
  induction es as [|e es IH]; intros fuel out Hok Hf.
  { rewrite app_nil_r. by destruct fuel. }
  destruct fuel as [|fuel]; [cbn in Hf; lia|]. apply Forall_cons in Hok as [He Hok]. unfold dataset_element_ok in He.
  pose proof (len_nonneg (DE_Ancillary e)) as Hn. cbn [fmap list_fmap concat dataset_loop]. set (more := concat _).
  pose proof (len_nonneg more) as Hm.
  assert (Hl : len (element_octets e) = 4 + len (DE_Ancillary e)) by (unfold element_octets; rewrite len_app; done).
  rewrite (proj2 (Z.leb_gt _ _)) by (rewrite len_app; lia).
  assert (H0 : at_ (element_octets e ++ more) 0 = 3 + len (DE_Ancillary e)).
  { unfold element_octets. change (u8 (3 + len (DE_Ancillary e)) = 3 + len (DE_Ancillary e)). apply u8_small. unfold octet_ok. lia. }
  rewrite H0, len_app, Hl. rewrite (proj2 (Z.ltb_ge _ _)), (proj2 (Z.leb_gt _ _)) by lia. cbn [orb].
  replace (drop _ _) with more.
  2:{ replace (Z.to_nat _) with (length (element_octets e)) by (unfold len in *; lia). by rewrite drop_app_length. }
  rewrite IH by (done || (cbn in Hf; lia)). rewrite <- app_assoc. do 3 f_equal.
  unfold element_octets. rewrite <- app_assoc. rewrite (slice_mid [_; _; _; _] (DE_Ancillary e)) by (done || len_lia).
  by destruct e.
Qed.

Lemma dataset_roundtrip es v : AppendDatasetDescriptor [] es = Ok v -> ParseDatasetDescriptor v = Ok es.
Proof.
  intros Hv. assert (Hok : Forall dataset_element_ok es).
  { revert v Hv. generalize (@nil Z). induction es as [|e es IH]; intros dst v Hv; [constructor|]. cbn [AppendDatasetDescriptor] in Hv.
    destruct (Z.ltb_spec 252 (len (DE_Ancillary e))); [done|]. constructor; [done | by eapply IH]. }
  rewrite AppendDataset_octets in Hv by done. injection Hv as <-. unfold ParseDatasetDescriptor.
  rewrite dataset_loop_written; [done | done |]. clear. induction es as [|e es IH]; [done|].
  cbn [fmap list_fmap concat length]. rewrite length_app. cbn [length element_octets app]. lia.
Qed.

Definition activation_ok (v : ActivationResult) : Prop :=
  exists ms, AR_Delay v = ms * 1000000 /\ is_u32 ms /\ len (AR_Statuses v) <= 255 /\
    Forall (fun s => len (AS_Text s) <= 254) (AR_Statuses v).
Definition status_octets (s : ActivationStatus) : list Z := [u8 (len (AS_Text s) + 1); AS_Code s] ++ AS_Text s.

Lemma append_statuses_octets l : forall dst, Forall (fun s => len (AS_Text s) <= 254) l ->
  append_statuses dst l = Ok (dst ++ concat (status_octets <$> l)).
Proof.
  induction l as [|s l IH]; intros dst Hok; [by rewrite app_nil_r|]. apply Forall_cons in Hok as [Hs Hok].
  cbn [append_statuses]. rewrite (proj2 (Z.ltb_ge _ _)) by exact Hs. rewrite IH by done. f_equal.
  cbn [fmap list_fmap concat]. unfold status_octets at 2. by rewrite <- !app_assoc.
Qed.

Lemma parse_statuses_written l : forall out, Forall (fun s => len (AS_Text s) <= 254) l ->
  parse_statuses (length l) (concat (status_octets <$> l)) out = Ok (out ++ l, []).
Proof.
  induction l as [|s l IH]; intros out Hok; [by rewrite app_nil_r|]. apply Forall_cons in Hok as [Hs Hok].
  pose proof (len_nonneg (AS_Text s)) as Hn. cbn [length fmap list_fmap concat parse_statuses]. set (more := concat _).
  pose proof (len_nonneg more) as Hm.
  assert (Hl : len (status_octets s) = 2 + len (AS_Text s)) by (unfold status_octets; rewrite len_app; done).
  assert (H0 : at_ (status_octets s ++ more) 0 = len (AS_Text s) + 1).
  { unfold status_octets. change (u8 (len (AS_Text s) + 1) = len (AS_Text s) + 1). apply u8_small. unfold octet_ok. lia. }
  rewrite H0, len_app, Hl. rewrite (proj2 (Z.ltb_ge _ _)), (proj2 (Z.eqb_neq _ _)), (proj2 (Z.leb_gt _ _)) by lia. cbn [orb].
  replace (drop _ _) with more.
  2:{ replace (Z.to_nat _) with (length (status_octets s)) by (unfold len in *; lia). by rewrite drop_app_length. }
  rewrite IH by done. rewrite <- app_assoc. do 3 f_equal.
  unfold status_octets. rewrite <- app_assoc. rewrite (slice_mid [_; _] (AS_Text s)) by len_lia. by destruct s.
Qed.

Lemma activation_roundtrip v : activation_ok v ->
  exists o, AppendActivationResult [] v = Ok o /\ ParseActivationResult o = Ok v.
Proof.
  intros (ms & Hd & Hms & Hn & Hok). unfold is_u32 in Hms. unfold AppendActivationResult. rewrite Hd, Z.quot_mul by lia.
  rewrite !(proj2 (Z.ltb_ge _ _)) by lia. cbn [orb]. rewrite append_statuses_octets by done. eexists. split; [reflexivity|].
  rewrite app_nil_l, <- app_assoc. set (more := concat _). pose proof (len_nonneg more) as Hm. pose proof (len_nonneg (AR_Statuses v)) as Hs.
  unfold ParseActivationResult. rewrite !len_app, len_le_bytes. rewrite (proj2 (Z.ltb_ge _ _)) by (change (len [_]) with 1; lia).
  assert (H4 : at_ (le32 ms ++ [u8 (len (AR_Statuses v))] ++ more) 4 = len (AR_Statuses v)).
  { read_field. apply u8_small. unfold octet_ok. lia. }
  rewrite H4. change (drop 5 ?l) with (drop (Z.to_nat 5) l). replace (drop _ _) with more by (by read_field).
  replace (Z.to_nat (len (AR_Statuses v))) with (length (AR_Statuses v)) by (unfold len; lia).
  unfold more. rewrite parse_statuses_written by done. cbn -[le_bytes slice]. fold more.
  read_field. rewrite le32_val by done. rewrite <- Hd. by destruct v.
Qed.

Definition auth_challenge_ok (v : AuthChallenge) : Prop := is_u32 (AC_Sequence v) /\ is_u16 (AC_User v) /\ 4 <= len (AC_Data v).
Definition auth_reply_ok (v : AuthReply) : Prop := is_u32 (AY_Sequence v) /\ is_u16 (AY_User v) /\ 1 <= len (AY_MAC v).
Definition auth_status_ok (v : AuthKeyStatus) : Prop :=
  is_u32 (AK_Sequence v) /\ is_u16 (AK_User v) /\ 4 <= len (AK_Challenge v) < 65536.
Definition auth_change_ok (v : AuthKeyChange) : Prop :=
  is_u32 (KC_Sequence v) /\ is_u16 (KC_User v) /\ 24 <= len (Wrapped v) /\ Z.rem (len (Wrapped v)) 8 = 0.

Lemma auth_challenge_roundtrip v : auth_challenge_ok v -> ParseAuthChallenge (AppendAuthChallenge [] v) = Ok v.
Proof.
  intros (H1 & H2 & H3). unfold ParseAuthChallenge, AppendAuthChallenge. rewrite app_nil_l. set (buf := le32 (AC_Sequence v) ++ _).
  rewrite (proj2 (Z.ltb_ge _ _)) by (unfold buf; autorewrite with dnp3; lia).
  replace (le_val (slice 0 4 buf)) with (AC_Sequence v) by (unfold buf; read_field; by rewrite le32_val).
  replace (le_val (slice 4 6 buf)) with (AC_User v) by (unfold buf; read_field; by rewrite le16_val).
  replace (at_ buf 6) with (AC_Algorithm v) by (unfold buf; by read_field).
  replace (at_ buf 7) with (AC_Reason v) by (unfold buf; by read_field).
  replace (drop (Z.to_nat 8) buf) with (AC_Data v) by (unfold buf; by read_field).
  by destruct v.
Qed.

Lemma auth_reply_roundtrip v : auth_reply_ok v -> ParseAuthReply (AppendAuthReply [] v) = Ok v.
Proof.
  intros (H1 & H2 & H3). unfold ParseAuthReply, AppendAuthReply. rewrite app_nil_l. set (buf := le32 (AY_Sequence v) ++ _).
  rewrite (proj2 (Z.ltb_ge _ _)) by (unfold buf; autorewrite with dnp3; lia).
  replace (le_val (slice 0 4 buf)) with (AY_Sequence v) by (unfold buf; read_field; by rewrite le32_val).
  replace (le_val (slice 4 6 buf)) with (AY_User v) by (unfold buf; read_field; by rewrite le16_val).
  replace (drop (Z.to_nat 6) buf) with (AY_MAC v) by (unfold buf; by read_field).
  by destruct v.
Qed.

Lemma auth_status_roundtrip v : auth_status_ok v -> ParseAuthKeyStatus (AppendAuthKeyStatus [] v) = Ok v.
Proof.
  intros (H1 & H2 & H3). unfold ParseAuthKeyStatus, AppendAuthKeyStatus. rewrite app_nil_l. set (buf := le32 (AK_Sequence v) ++ _).
  pose proof (len_nonneg (AK_MAC v)) as Hm.
  assert (Hl : len buf = 11 + len (AK_Challenge v) + len (AK_MAC v)) by (unfold buf; autorewrite with dnp3; lia).
  rewrite (proj2 (Z.ltb_ge _ _)) by lia.
  replace (le_val (slice 9 11 buf)) with (len (AK_Challenge v))
    by (unfold buf; read_field; rewrite le16_val, u16_small by (auto with dnp3; unfold is_u16; lia); done).
  rewrite !(proj2 (Z.ltb_ge _ _)) by lia. cbn [orb].
  replace (le_val (slice 0 4 buf)) with (AK_Sequence v) by (unfold buf; read_field; by rewrite le32_val).
  replace (le_val (slice 4 6 buf)) with (AK_User v) by (unfold buf; read_field; by rewrite le16_val).
  replace (at_ buf 6) with (AK_WrapAlgorithm v) by (unfold buf; by read_field).
  replace (at_ buf 7) with (AK_Status v) by (unfold buf; by read_field).
  replace (at_ buf 8) with (AK_Algorithm v) by (unfold buf; by read_field).
  replace (slice 11 (11 + len (AK_Challenge v)) buf) with (AK_Challenge v) by (unfold buf; by read_field).
  replace (drop (Z.to_nat (11 + len (AK_Challenge v))) buf) with (AK_MAC v) by (unfold buf; by read_field).
  by destruct v.
Qed.

Lemma auth_change_roundtrip v : auth_change_ok v -> ParseAuthKeyChange (AppendAuthKeyChange [] v) = Ok v.
Proof.
  intros (H1 & H2 & H3 & H4). unfold ParseAuthKeyChange, AppendAuthKeyChange. rewrite app_nil_l. set (buf := le32 (KC_Sequence v) ++ _).
  assert (Hl : len buf = 6 + len (Wrapped v)) by (unfold buf; autorewrite with dnp3; lia).
  rewrite Hl. rewrite (proj2 (Z.ltb_ge _ _)) by lia. replace (6 + len (Wrapped v) - 6) with (len (Wrapped v)) by lia. rewrite H4. cbn [orb negb Z.eqb].
  replace (le_val (slice 0 4 buf)) with (KC_Sequence v) by (unfold buf; read_field; by rewrite le32_val).
  replace (le_val (slice 4 6 buf)) with (KC_User v) by (unfold buf; read_field; by rewrite le16_val).
  replace (drop (Z.to_nat 6) buf) with (Wrapped v) by (unfold buf; by read_field).
  by destruct v.
Qed.
