(* ===== verification/Dispatch.v ===== *)
(** * What the master makes of a response (src/master/dispatch.go, handler.go, and [deliver]
    of src/master/session.go)

    A master decodes the object headers of a response one after another and hands typed
    measurements to its handler.  The calls the handler gets are a list of [HandlerCall];
    the optional interfaces a handler may implement are flags.

    The theorems about this file are in the files that build responses: what the outstation
    puts in, the master's handler gets. *)

From S2P Require Import Prelude Values Floats AppHeader AppObject AppFragment Objects Codecs CommandEvents.

Record HeaderInfo := mkHeaderInfo { I_GV : Objects.GroupVar; I_Kind : Kind; I_Class : Z }.
Definition IsEvent (h : HeaderInfo) : bool :=
  match I_Kind h with KindEvent => true | _ => false end.

Record Indexed (T : Type) := mkIndexed { Index : Z; IValue : T }.
Arguments mkIndexed {T}.
Arguments Index {T}.
Arguments IValue {T}.

(** What a fragment's calls are bracketed with. *)
Record ResponseInfo := mkResponseInfo { RI_IIN : Z; RI_Unsolicited : bool; RI_Sequence : Z; RI_Received : Z }.

(** A call of the handler. *)
Inductive HandlerCall :=
| BeginFragment (info : ResponseInfo)
| EndFragment (info : ResponseInfo)
| HandleBinary (info : HeaderInfo) (values : list (Indexed Binary))
| HandleDoubleBit (info : HeaderInfo) (values : list (Indexed DoubleBitBinary))
| HandleCounter (info : HeaderInfo) (values : list (Indexed Counter))
| HandleFrozenCounter (info : HeaderInfo) (values : list (Indexed FrozenCounter))
| HandleAnalog (info : HeaderInfo) (values : list (Indexed Analog))
| HandleFrozenAnalog (info : HeaderInfo) (values : list (Indexed Analog))
| HandleBinaryOutputStatus (info : HeaderInfo) (values : list (Indexed BinaryOutputStatus))
| HandleAnalogOutputStatus (info : HeaderInfo) (values : list (Indexed AnalogOutputStatus))
| HandleOctetString (info : HeaderInfo) (values : list (Indexed (list Z)))
| HandleCommandEvent (info : HeaderInfo) (values : list (Indexed CommandEvent))
| HandleDataset (info : HeaderInfo) (data : list Z).

(** Which of the optional interfaces the handler implements. *)
Record HandlerKind := mkHandlerKind { isDatasetHandler : bool; isCommandEventHandler : bool; isFrozenAnalogHandler : bool }.

Definition groupOctetString : Z := 110.
Definition groupOctetStringEvent : Z := 111.

(** The [readPrefix] of the master's package. *)
Definition dispatch_readPrefix (buf : list Z) (width : Z) : Z :=
  if width =? 1 then at_ buf 0
  else if width =? 2 then Z.lor (at_ buf 0) (Z.shiftl (at_ buf 1) 8)
  else if width =? 4 then
    Z.lor (Z.lor (Z.lor (at_ buf 0) (Z.shiftl (at_ buf 1) 8)) (Z.shiftl (at_ buf 2) 16)) (Z.shiftl (at_ buf 3) 24)
  else 0.

(** The loop of [decodeRun]; each turn takes an object of at least one octet or stops, so a
    turn per octet and one more are enough. *)
Fixpoint decode_loop {T} (fuel : nat) (h : ObjectHeader) (size prefixLen : Z) (parse : list Z -> T) (i off : Z)
    (out : list (Indexed T)) : option (list (Indexed T)) :=
  if ObjectHeader_Count h <=? i then Some out
  else match fuel with
       | O => None
       | S fuel =>
           if len (Data h) <? off + prefixLen + size then Some out
           else
             let index := IndexOf (ORange h) (u32 i) in
             let index := if 0 <? prefixLen then dispatch_readPrefix (drop (Z.to_nat off) (Data h)) prefixLen else index in
             let off := if 0 <? prefixLen then off + prefixLen else off in
             decode_loop fuel h size prefixLen parse (i + 1) (off + size)
               (out ++ [mkIndexed index (parse (slice off (off + size) (Data h)))])
       end.
Definition decodeRun {T} (h : ObjectHeader) (size prefixLen : Z) (parse : list Z -> T) : list (Indexed T) :=
  default [] (decode_loop (length (Data h) + 1) h size prefixLen parse 0 0 []).

(** A codec the table does not have has no [Parse], and decodes nothing. *)
Definition decode_with {T} (h : ObjectHeader) (size prefixLen : Z) (ctx : Context) (c : option (Codec T)) : list (Indexed T) :=
  match c with Some c => decodeRun h size prefixLen (fun b => Parse c b ctx) | None => [] end.

Definition prefix_len (h : ObjectHeader) : Z :=
  let p := IndexPrefix (Qualifier h) in if IsIndex p then IndexPrefix_Octets p else 0.

Definition CommandEvent0 : CommandEvent := mkCommandEvent 0 false false f64_zero NoTime.

Definition dispatchCommandEvents (k : HandlerKind) (h : ObjectHeader) (info : HeaderInfo) : list HandlerCall :=
  if negb (isCommandEventHandler k) then []
  else
    match CommandEventSize (Group h) (Variation h) with
    | None => []
    | Some size =>
        let vals := decodeRun h size (prefix_len h)
                      (fun b => default CommandEvent0 (ParseCommandEvent (Group h) (Variation h) b)) in
        if 0 <? len vals then [HandleCommandEvent info vals] else []
    end.

(** The values of a packed range with their indexes. *)
Definition packed_indexed {T} (start : Z) (raw : list T) : list (Indexed T) :=
  imap (fun i v => mkIndexed (u32 (start + Z.of_nat i)) v) raw.

Definition dispatchPacked (h : ObjectHeader) (d : Descriptor) (info : HeaderInfo) : list HandlerCall :=
  let count := ObjectHeader_Count h in
  let start := Start (ORange h) in
  match Measurement d with
  | TypeBinary => [HandleBinary info (packed_indexed start (ParsePackedBinary (Data h) count []))]
  | TypeDoubleBitBinary => [HandleDoubleBit info (packed_indexed start (ParsePackedDoubleBit (Data h) count []))]
  | TypeBinaryOutputStatus =>
      [HandleBinaryOutputStatus info (packed_indexed start (ParsePackedBinaryOutput (Data h) count []))]
  | _ => []
  end.

(** Strings are copied out of the receive buffer. *)
Definition dispatchOctetStrings (h : ObjectHeader) (info : HeaderInfo) (isEvent : bool) : list HandlerCall :=
  let info := if isEvent then mkHeaderInfo (I_GV info) KindEvent (I_Class info) else info in
  let size := Variation h in
  if size =? 0 then []
  else [HandleOctetString info (decodeRun h size (prefix_len h) (fun b => b))].

Definition dispatchDatasets (k : HandlerKind) (h : ObjectHeader) : list HandlerCall :=
  if negb (isDatasetHandler k) then []
  else
    let info := mkHeaderInfo (GV (Group h) (Variation h)) (if Group h =? 88 then KindEvent else KindStatic) ClassNone in
    if (Group h =? 86) && (Variation h =? 2) then [HandleDataset info (Data h)]
    else match FreeFormatObjects h with
         | Ok values => HandleDataset info <$> values
         | Err _ => []
         end.

Definition dispatch (k : HandlerKind) (h : ObjectHeader) (ctx : Context) : list HandlerCall :=
  let g := GV (Group h) (Variation h) in
  if len (Data h) =? 0 then []
  else if (85 <=? Group h) && (Group h <=? 88) then dispatchDatasets k h
  else if one_of (Group h) [groupOctetString; groupOctetStringEvent; 112; 113] then
    dispatchOctetStrings h (mkHeaderInfo g KindString ClassNone) ((Group h =? groupOctetStringEvent) || (Group h =? 113))
  else if one_of (Group h) [13; 43] then dispatchCommandEvents k h (mkHeaderInfo g KindCommandEvent ClassNone)
  else
    match Lookup g with
    | None => []
    | Some d =>
        let info := mkHeaderInfo g (D_Kind d) ClassNone in
        let run {T} (c : option (Codec T)) size := decode_with h size (prefix_len h) ctx c in
        if bool_decide (Measurement d = TypeUnknown) then []
        else if Packed d then dispatchPacked h d info
        else
          match SizeOctets d with
          | None => []
          | Some size =>
              if size =? 0 then []
              else
                match Measurement d with
                | TypeBinary => [HandleBinary info (run (BinaryCodec g) size)]
                | TypeDoubleBitBinary => [HandleDoubleBit info (run (DoubleBitCodec g) size)]
                | TypeCounter => [HandleCounter info (run (CounterCodec g) size)]
                | TypeFrozenCounter => [HandleFrozenCounter info (run (FrozenCounterCodec g) size)]
                | TypeAnalog =>
                    let vals := run (AnalogCodec g) size in
                    if isFrozenAnalogHandler k && one_of (Group h) [31; 33] then [HandleFrozenAnalog info vals]
                    else [HandleAnalog info vals]
                | TypeBinaryOutputStatus => [HandleBinaryOutputStatus info (run (BinaryOutputCodec g) size)]
                | TypeAnalogOutputStatus => [HandleAnalogOutputStatus info (run (AnalogOutputCodec g) size)]
                | _ => []
                end
          end
    end.

(** The headers of a fragment in order: a common time of occurrence is the base of the
    relative times that follow it in the fragment. *)
Fixpoint deliver_objects (k : HandlerKind) (ctx : Context) (hs : list ObjectHeader) : list HandlerCall :=
  match hs with
  | [] => []
  | h :: hs =>
      if (Group h =? 51) && (Time48Size <=? len (Data h))
      then deliver_objects k (WithGroup51 ctx (TTime (ParseTime48 (Data h))) (Variation h)) hs
      else dispatch k h ctx ++ deliver_objects k ctx hs
  end.

(** [objects.Context{Synchronized: s.synchronized}]. *)
Definition fragment_context (synchronized : bool) : Context := mkContext synchronized zeroTime false false.

(** [now] is the host's clock. *)
Definition deliver (k : HandlerKind) (synchronized : bool) (now : Z) (frag : Fragment) (unsolicited : bool)
    : list HandlerCall :=
  let info := mkResponseInfo (HIIN (FHeader frag)) unsolicited (Seq (HControl (FHeader frag))) now in
  [BeginFragment info] ++ deliver_objects k (fragment_context synchronized) (Objects frag) ++ [EndFragment info].

(** ** Readings

    A handler call as the points it reports: an index and a value each. *)

Inductive reading :=
| RBinary (v : Binary)
| RDoubleBit (v : DoubleBitBinary)
| RCounter (v : Counter)
| RFrozenCounter (v : FrozenCounter)
| RAnalog (v : Analog)
| RFrozenAnalog (v : Analog)
| RBinaryOutputStatus (v : BinaryOutputStatus)
| RAnalogOutputStatus (v : AnalogOutputStatus)
| ROctetString (v : list Z)
| RCommandEvent (v : CommandEvent)
| RDataset (v : list Z).

(** The group and variation a point was reported in, its index and its value. *)
Definition report : Type := Objects.GroupVar * Z * reading.

Definition reports_of {T} (wrap : T -> reading) (info : HeaderInfo) (values : list (Indexed T)) : list report :=
  (fun x => (I_GV info, Index x, wrap (IValue x))) <$> values.

Definition reports (c : HandlerCall) : list report :=
  match c with
  | BeginFragment _ | EndFragment _ => []
  | HandleBinary i vs => reports_of RBinary i vs
  | HandleDoubleBit i vs => reports_of RDoubleBit i vs
  | HandleCounter i vs => reports_of RCounter i vs
  | HandleFrozenCounter i vs => reports_of RFrozenCounter i vs
  | HandleAnalog i vs => reports_of RAnalog i vs
  | HandleFrozenAnalog i vs => reports_of RFrozenAnalog i vs
  | HandleBinaryOutputStatus i vs => reports_of RBinaryOutputStatus i vs
  | HandleAnalogOutputStatus i vs => reports_of RAnalogOutputStatus i vs
  | HandleOctetString i vs => reports_of ROctetString i vs
  | HandleCommandEvent i vs => reports_of RCommandEvent i vs
  | HandleDataset i d => [(I_GV i, 0, RDataset d)]
  end.
Definition all_reports (cs : list HandlerCall) : list report := concat (reports <$> cs).

(** ** Lemmas *)

Lemma all_reports_app cs cs' : all_reports (cs ++ cs') = all_reports cs ++ all_reports cs'.
Proof. unfold all_reports. by rewrite fmap_app, concat_app. Qed.

(** What is delivered does not depend on where in the fragment a header was. *)
Lemma decode_loop_located {T} fuel off h size plen (parse : list Z -> T) i o out :
  decode_loop fuel (located off h) size plen parse i o out = decode_loop fuel h size plen parse i o out.
Proof.
  revert i o out. induction fuel as [|fuel IH]; intros i o out; cbn [decode_loop]; [done|].
  change (ObjectHeader_Count (located off h)) with (ObjectHeader_Count h). cbn [located Data ORange]. destr_if; [done|].
  destr_if; [done | apply IH].
Qed.

Lemma decodeRun_located {T} off h size plen (parse : list Z -> T) :
  decodeRun (located off h) size plen parse = decodeRun h size plen parse.
Proof. unfold decodeRun. by rewrite decode_loop_located. Qed.

Lemma dispatch_located k off h ctx : dispatch k (located off h) ctx = dispatch k h ctx.
Proof.
  unfold dispatch, dispatchOctetStrings, dispatchCommandEvents, decode_with.
  cbn [located Group Variation Data Qualifier]. change (prefix_len (located off h)) with (prefix_len h).
  repeat (match goal with |- (match ?x with _ => _ end) = (match ?x with _ => _ end) => destruct x end; try done).
  all: cbv zeta; rewrite ?decodeRun_located; try done.
  all: repeat match goal with |- context [match ?x with Some _ => _ | None => _ end] => destruct x end.
  all: by rewrite ?decodeRun_located.
Qed.

Lemma deliver_laid_out k ctx off hs : deliver_objects k ctx (laid_out off hs) = deliver_objects k ctx hs.
Proof.
  revert ctx off. induction hs as [|h hs IH]; intros ctx off; [done|]. cbn [laid_out deliver_objects].
  rewrite dispatch_located. cbn [located Group Data Variation]. by rewrite !IH.
Qed.

(** The context after some headers. *)
Definition next_context (ctx : Context) (h : ObjectHeader) : Context :=
  if (Group h =? 51) && (Time48Size <=? len (Data h))
  then WithGroup51 ctx (TTime (ParseTime48 (Data h))) (Variation h) else ctx.

Lemma deliver_objects_app k ctx hs hs' :
  deliver_objects k ctx (hs ++ hs') = deliver_objects k ctx hs ++ deliver_objects k (fold_left next_context hs ctx) hs'.
Proof.
  revert ctx. induction hs as [|h hs IH]; intros ctx; [done|]. cbn [app deliver_objects fold_left]. unfold next_context at 2.
  destruct ((Group h =? 51) && _); rewrite IH; [done | by rewrite app_assoc].
Qed.

Lemma context_sync hs ctx : Synchronized (fold_left next_context hs ctx) = Synchronized ctx.
Proof.
  revert ctx. induction hs as [|h hs IH]; intros ctx; [done|]. cbn [fold_left]. rewrite IH.
  unfold next_context. by destruct (_ && _).
Qed.

Lemma dispatch_readPrefix_app (p rest : list Z) w : len p = w -> 0 < w ->
  dispatch_readPrefix (p ++ rest) w = dispatch_readPrefix p w.
Proof.
  intros Hl Hw. unfold dispatch_readPrefix. repeat destr_if; try done; rewrite !at_app_l; try done; lia.
Qed.

Lemma len_items plen size (l : list (list Z * list Z)) :
  Forall (fun x => len x.1 = plen /\ len x.2 = size) l ->
  len (concat ((fun x => x.1 ++ x.2) <$> l)) = len l * (plen + size).
Proof.
  induction 1 as [|y l [Hy1 Hy2] _ IHl]; [done|]. cbn [fmap list_fmap concat]. rewrite !len_app, len_cons, IHl. lia.
Qed.

(** A run of objects of one size, each after its prefix, is decoded object by object. *)
Section Run.
Context {T : Type} (h : ObjectHeader) (size plen : Z) (parse : list Z -> T).
Context (items : list (list Z * list Z)).
Hypotheses (Hsize : 0 < size) (Hplen : 0 <= plen)
  (Hitems : Forall (fun x => len x.1 = plen /\ len x.2 = size) items)
  (Hdata : Data h = concat ((fun x => x.1 ++ x.2) <$> items))
  (Hcount : ObjectHeader_Count h = len items).

Definition run_item (i : nat) (x : list Z * list Z) : Indexed T :=
  mkIndexed (if 0 <? plen then dispatch_readPrefix x.1 plen else IndexOf (ORange h) (u32 (Z.of_nat i))) (parse x.2).

Lemma decode_loop_items fuel rest done_ out :
  items = done_ ++ rest -> (length rest <= fuel)%nat ->
  decode_loop fuel h size plen parse (len done_) (len done_ * (plen + size)) out =
    Some (out ++ imap (fun i => run_item (length done_ + i)) rest).
Proof.
  revert done_ out fuel. induction rest as [|x rest IH]; intros done_ out fuel E Hf.
  { cbn [imap]. rewrite app_nil_r. destruct fuel; cbn [decode_loop]; rewrite Hcount, E, app_nil_r, Z.leb_refl; done. }
  destruct fuel as [|fuel]; [cbn in Hf; lia|]. cbn [decode_loop].
  assert (Hx : x ∈ items) by (rewrite E; set_solver). pose proof Hitems as HF. rewrite Forall_forall in HF.
  destruct (HF _ Hx) as [Hp Ho].
  assert (Hd : Data h = concat ((fun x => x.1 ++ x.2) <$> done_) ++ x.1 ++ x.2 ++ concat ((fun x => x.1 ++ x.2) <$> rest)).
  { rewrite Hdata, E, fmap_app, concat_app. cbn. by rewrite <- app_assoc. }
  assert (Hl : len (concat ((fun x : list Z * list Z => x.1 ++ x.2) <$> done_)) = len done_ * (plen + size)).
  { apply len_items, Forall_forall. intros y Hy. apply HF. rewrite E. set_solver. }
  rewrite Hcount, E, len_app, len_cons. pose proof (len_nonneg rest).
  destruct (Z.leb_spec (len done_ + (1 + len rest)) (len done_)); [lia|].
  set (front := concat ((fun x : list Z * list Z => x.1 ++ x.2) <$> done_)) in *.
  set (back := concat ((fun x : list Z * list Z => x.1 ++ x.2) <$> rest)) in *. rewrite Hd.
  destruct (Z.ltb_spec (len (front ++ x.1 ++ x.2 ++ back)) (len done_ * (plen + size) + plen + size)) as [Hs|_].
  { rewrite !len_app in Hs. pose proof (len_nonneg back). lia. }
  rewrite drop_skip, Hl, drop_here by lia.
  assert (Hoff : (if 0 <? plen then len done_ * (plen + size) + plen else len done_ * (plen + size)) = len (front ++ x.1)).
  { rewrite len_app. destruct (Z.ltb_spec 0 plen); lia. }
  rewrite Hoff, (app_assoc front), slice_mid by lia.
  replace (len done_ + 1) with (len (done_ ++ [x])) by (rewrite len_app; done).
  replace (len (front ++ x.1) + size) with (len (done_ ++ [x]) * (plen + size))
    by (rewrite !len_app, Hl, Hp; change (len [x]) with 1; lia).
  rewrite (IH (done_ ++ [x])) by (first [by rewrite <- app_assoc | cbn in Hf; lia]).
  rewrite <- app_assoc. cbn [app imap]. do 2 f_equal. f_equal.
  - unfold run_item. rewrite Nat.add_0_r. f_equal. fold (len done_). destruct (Z.ltb_spec 0 plen); [|done].
    apply dispatch_readPrefix_app; lia.
  - apply imap_ext. intros i y _. unfold compose. rewrite length_app. cbn. f_equal. lia.
Qed.

Lemma decodeRun_items : decodeRun h size plen parse = imap run_item items.
Proof.
  unfold decodeRun. rewrite (decode_loop_items _ items [] []); [done | done |].
  pose proof (len_items _ _ _ Hitems) as Hl. rewrite <- Hdata in Hl. unfold len in Hl. nia.
Qed.
End Run.
