(* ===== verification/EventBuffer.v ===== *)
(** * The event buffer (src/outstation/eventbuffer.go)

    An event is queued, then selected when it goes into a response, and removed only when the
    master confirms that response; when the buffer is full the oldest event is dropped and
    the loss is latched.  Each method is a function on the buffer; the mutex serialises the
    calls, so a run is a sequence of them.

    The theorems: every event ever added is accounted for, exactly once; a selection takes the
    oldest matching events and can be given back exactly; and a loss stays reported until the
    master has confirmed a response built after it. *)

From S2P Require Import Prelude Values.
From Stdlib Require Import Sorted Permutation.

(** A Go slice of octets: a backing array, a length and a capacity.  Octet strings stay
    slices here because two of them may share an array. *)
Record GoSlice := mkSlice { arr : nat; slen : Z; scap : Z }.
Definition nil_slice : GoSlice := mkSlice 0 0 0.

Record Event := mkEvent {
  EType : PointType; EIndex : Z; EClass : Z; EVariation : Z; ETime : Timestamp;
  EBinary : Binary; EDoubleBit : DoubleBitBinary; ECounter : Counter;
  EFrozenCounter : FrozenCounter; EDataset : list Z; ESecurityStatistic : Z;
  EFrozenAnalog : Analog; EAnalog : Analog; EBinaryOutput : BinaryOutputStatus;
  EAnalogOutput : AnalogOutputStatus; EOctetString : GoSlice;
  CommandStatus : Z; CommandState : bool; CommandValue : spec_float;
  selected : bool; seq_ : Z }.

Definition with_selected (v : bool) (e : Event) : Event :=
  mkEvent (EType e) (EIndex e) (EClass e) (EVariation e) (ETime e) (EBinary e) (EDoubleBit e)
    (ECounter e) (EFrozenCounter e) (EDataset e) (ESecurityStatistic e) (EFrozenAnalog e)
    (EAnalog e) (EBinaryOutput e) (EAnalogOutput e) (EOctetString e) (CommandStatus e)
    (CommandState e) (CommandValue e) v (seq_ e).
Definition with_seq (v : Z) (e : Event) : Event :=
  mkEvent (EType e) (EIndex e) (EClass e) (EVariation e) (ETime e) (EBinary e) (EDoubleBit e)
    (ECounter e) (EFrozenCounter e) (EDataset e) (ESecurityStatistic e) (EFrozenAnalog e)
    (EAnalog e) (EBinaryOutput e) (EAnalogOutput e) (EOctetString e) (CommandStatus e)
    (CommandState e) (CommandValue e) (selected e) v.
Definition with_class (v : Z) (e : Event) : Event :=
  mkEvent (EType e) (EIndex e) v (EVariation e) (ETime e) (EBinary e) (EDoubleBit e)
    (ECounter e) (EFrozenCounter e) (EDataset e) (ESecurityStatistic e) (EFrozenAnalog e)
    (EAnalog e) (EBinaryOutput e) (EAnalogOutput e) (EOctetString e) (CommandStatus e)
    (CommandState e) (CommandValue e) (selected e) (seq_ e).

(** The zero value of [Event], from which a composite literal starts. *)
Definition Event0 : Event :=
  mkEvent TypeUnknown 0 ClassNone 0 NoTime Binary0 Counter0 Counter0 Counter0 [] 0 Analog0 Analog0
    Binary0 Analog0 nil_slice 0 false f64_zero false 0.

Definition DefaultMaxEvents : Z := 1000.

Record EventBuffer := mkEventBuffer {
  events : list Event; max : Z; overflow : bool; drops : Z; dropsAtSelect : Z; nextSeq : Z }.

Definition NewEventBuffer (maxEvents : Z) : EventBuffer :=
  mkEventBuffer [] (if maxEvents <=? 0 then DefaultMaxEvents else maxEvents) false 0 0 0.

Definition with_events (v : list Event) (b : EventBuffer) : EventBuffer :=
  mkEventBuffer v (max b) (overflow b) (drops b) (dropsAtSelect b) (nextSeq b).
Definition with_overflow (v : bool) (b : EventBuffer) : EventBuffer :=
  mkEventBuffer (events b) (max b) v (drops b) (dropsAtSelect b) (nextSeq b).
Definition with_drops (v : Z) (b : EventBuffer) : EventBuffer :=
  mkEventBuffer (events b) (max b) (overflow b) v (dropsAtSelect b) (nextSeq b).

Definition Add (b : EventBuffer) (e : Event) : EventBuffer :=
  let b := if max b <=? len (events b)
           then with_drops (u64 (drops b + 1)) (with_overflow true (with_events (drop 1 (events b)) b))
           else b in
  let n := u64 (nextSeq b + 1) in
  mkEventBuffer (events b ++ [with_seq n e]) (max b) (overflow b) (drops b) (dropsAtSelect b) n.

Definition in_mask (mask : Z) (e : Event) : bool := negb (Z.land (EClass e) mask =? 0).
Definition count_if (f : Event -> bool) (l : list Event) : Z := len (List.filter f l).

Definition Count (b : EventBuffer) (mask : Z) : Z := count_if (in_mask mask) (events b).
Definition Total (b : EventBuffer) : Z := len (events b).
Definition Classes (b : EventBuffer) : Z :=
  fold_left (fun mask e => if negb (selected e) then Z.lor mask (EClass e) else mask) (events b) 0.
Definition Overflowed (b : EventBuffer) : bool := overflow b.
Definition ClearOverflow (b : EventBuffer) : EventBuffer := with_overflow false b.

(** The loop of [selectWhere]: the events, with those taken marked, and copies of these. *)
Fixpoint select_loop (limit : Z) (match_ : Event -> bool) (l : list Event) (out : list Event)
    : list Event * list Event :=
  match l with
  | [] => ([], out)
  | e :: l' =>
      if limit <=? len out then (l, out)
      else if selected e || negb (match_ e) then
        let '(l', out) := select_loop limit match_ l' out in (e :: l', out)
      else
        let e := with_selected true e in
        let '(l', out) := select_loop limit match_ l' (out ++ [e]) in (e :: l', out)
  end.

Definition selectWhere (b : EventBuffer) (limit : Z) (match_ : Event -> bool) : EventBuffer * list Event :=
  let b := mkEventBuffer (events b) (max b) (overflow b) (drops b) (drops b) (nextSeq b) in
  if limit <=? 0 then (b, [])
  else let '(l, out) := select_loop limit match_ (events b) [] in (with_events l b, out).

Definition Select (b : EventBuffer) (mask limit : Z) : EventBuffer * list Event :=
  selectWhere b limit (in_mask mask).
Definition SelectType (b : EventBuffer) (pt : PointType) (limit : Z) : EventBuffer * list Event :=
  selectWhere b limit (fun e => bool_decide (EType e = pt)).

Definition SelectedCount (b : EventBuffer) : Z := count_if selected (events b).

Definition Confirm (b : EventBuffer) : EventBuffer * Z :=
  let kept := List.filter (fun e => negb (selected e)) (events b) in
  let removed := count_if selected (events b) in
  let b := with_events kept b in
  (if (0 <? removed) && (drops b =? dropsAtSelect b) then with_overflow false b else b, removed).

Definition Unselect (b : EventBuffer) : EventBuffer * Z :=
  (with_events (map (fun e => if selected e then with_selected false e else e) (events b)) b,
   count_if selected (events b)).

(** Is the event's number among those of the events handed back? *)
Definition listed (es : list Event) (e : Event) : bool := existsb (fun x => seq_ x =? seq_ e) es.

Definition Release (b : EventBuffer) (es : list Event) : EventBuffer * Z :=
  if len es =? 0 then (b, 0)
  else
    let hit e := selected e && listed es e in
    (with_events (map (fun e => if hit e then with_selected false e else e) (events b)) b,
     count_if hit (events b)).

Definition Discard (b : EventBuffer) (es : list Event) : EventBuffer * Z :=
  if len es =? 0 then (b, 0)
  else
    let hit e := listed es e && selected e in
    let n := count_if hit (events b) in
    let b := with_events (List.filter (fun e => negb (hit e)) (events b)) b in
    (if 0 <? n then with_drops (u64 (drops b + u64 n)) (with_overflow true b) else b, n).

Definition EventBuffer_Reset (b : EventBuffer) : EventBuffer :=
  with_overflow false (with_events [] b).

(** ** Selection *)

Definition seqs (l : list Event) : list Z := seq_ <$> l.
Definition free (m : Event -> bool) (e : Event) : bool := negb (selected e) && m e.
Definition mark (es : list Event) (e : Event) : Event := if listed es e then with_selected true e else e.

Lemma listed_iff es e : listed es e = true <-> seq_ e ∈ seqs es.
Proof.
  unfold listed, seqs. rewrite existsb_exists, list_elem_of_fmap. split.
  - intros (x & Hx & He). apply Z.eqb_eq in He. exists x. split; [done | by apply list_elem_of_In].
  - intros (x & He & Hx). exists x. split; [by apply list_elem_of_In | by apply Z.eqb_eq].
Qed.
Lemma listed_false es e : listed es e = false <-> seq_ e ∉ seqs es.
Proof. rewrite <- listed_iff. by destruct (listed es e). Qed.

Lemma seqs_selected v es : seqs (with_selected v <$> es) = seqs es.
Proof. unfold seqs. rewrite <- list_fmap_compose. by apply list_fmap_ext. Qed.

Lemma listed_seqs es es' e e' : seqs es = seqs es' -> seq_ e = seq_ e' -> listed es e = listed es' e'.
Proof. intros H He. apply eq_bool_prop_intro. rewrite !Is_true_true, !listed_iff, H, He. done. Qed.

Lemma filter_sub f (l : list Event) : sublist (List.filter f l) l.
Proof. induction l as [|e l IH]; cbn; [constructor|]. destruct (f e); by constructor. Qed.

Lemma seqs_sub l k : sublist l k -> sublist (seqs l) (seqs k).
Proof. intros H. by apply fmap_sublist. Qed.

Lemma seqs_in_sub l k x : sublist l k -> x ∈ seqs l -> x ∈ seqs k.
Proof. intros Hs Hx. eapply elem_of_sublist; [exact Hx | by apply seqs_sub]. Qed.

Lemma select_loop_spec limit m l out :
  NoDup (seqs l) ->
  let picked := take (Z.to_nat (limit - len out)) (List.filter (free m) l) in
  select_loop limit m l out = (mark picked <$> l, out ++ (with_selected true <$> picked)).
Proof.
  revert out. induction l as [|e l IH]; intros out Hnd picked.
  { unfold picked. cbn. rewrite take_nil. cbn. by rewrite app_nil_r. }
  cbn [select_loop]. inversion Hnd as [|? ? Hni Hnd']; subst.
  destruct (limit <=? len out) eqn:El; bool_prop.
  { unfold picked. replace (Z.to_nat (limit - len out)) with 0%nat by lia. rewrite take_0, app_nil_r.
    f_equal. symmetry. apply list_fmap_id. }
  assert (Hsub : forall n, seq_ e ∉ seqs (take n (List.filter (free m) l))).
  { intros n Hx. apply Hni. eapply seqs_in_sub; [|exact Hx].
    etrans; [apply sublist_take | apply filter_sub]. }
  unfold free at 1 in (value of picked). cbn [List.filter] in picked.
  destruct (selected e) eqn:Es, (m e) eqn:Em; cbn [negb andb orb] in *.
  1, 2, 4: rewrite (IH out Hnd'); unfold picked; f_equal; cbn [fmap list_fmap]; f_equal;
    unfold mark; by rewrite (proj2 (listed_false _ _) (Hsub _)).
  rewrite (IH (out ++ [with_selected true e]) Hnd'). unfold picked.
  assert (Hn : Z.to_nat (limit - len out) = S (Z.to_nat (limit - len (out ++ [with_selected true e])))).
  { rewrite len_app. change (len [with_selected true e]) with 1. lia. }
  rewrite Hn. cbn [take fmap list_fmap]. rewrite <- app_assoc. cbn [app]. f_equal. f_equal.
  - unfold mark. cbn [listed existsb]. by rewrite Z.eqb_refl.
  - apply list_fmap_ext. intros i x Hx. unfold mark. cbn [listed existsb].
    destruct (Z.eqb_spec (seq_ e) (seq_ x)) as [He|]; [|done].
    exfalso. apply Hni. rewrite He. apply list_elem_of_fmap. exists x. split; [done|].
    by eapply list_elem_of_lookup_2.
Qed.

(** The events a selection takes: the oldest matching ones not already in a response. *)
Definition chosen (b : EventBuffer) (limit : Z) (m : Event -> bool) : list Event :=
  take (Z.to_nat limit) (List.filter (free m) (events b)).

Lemma selectWhere_spec b limit m :
  NoDup (seqs (events b)) ->
  events (fst (selectWhere b limit m)) = mark (chosen b limit m) <$> events b /\
  snd (selectWhere b limit m) = with_selected true <$> chosen b limit m.
Proof.
  intros Hnd. unfold selectWhere, chosen. destruct (limit <=? 0) eqn:E; bool_prop.
  { replace (Z.to_nat limit) with 0%nat by lia. rewrite take_0. split; [|done]. symmetry. apply list_fmap_id. }
  cbn [events]. rewrite (select_loop_spec limit m (events b) [] Hnd). rewrite len_nil, Z.sub_0_r. done.
Qed.

Lemma chosen_sub b limit m : sublist (chosen b limit m) (events b).
Proof. unfold chosen. etrans; [apply sublist_take | apply filter_sub]. Qed.

Lemma chosen_free b limit m e : e ∈ chosen b limit m -> selected e = false /\ m e = true.
Proof.
  intros H. apply (elem_of_sublist _ (List.filter (free m) (events b))) in H; [|apply sublist_take].
  apply list_elem_of_In, filter_In in H as [_ H]. apply andb_true_iff in H as [H ?].
  by apply negb_true_iff in H.
Qed.

Lemma same_seq l e x : NoDup (seqs l) -> e ∈ l -> x ∈ l -> seq_ e = seq_ x -> e = x.
Proof.
  intros Hnd He Hx Hs. apply list_elem_of_lookup_1 in He as [i Hi]. apply list_elem_of_lookup_1 in Hx as [j Hj].
  assert (i = j) as ->; [|congruence].
  eapply NoDup_lookup; [exact Hnd | |]; unfold seqs; rewrite list_lookup_fmap; [by rewrite Hi | by rewrite Hj, Hs].
Qed.

(** A selection of at most [limit] events returns exactly the oldest matching events
    that are not already part of a response, oldest first; the buffer keeps all its events
    in place and only marks the ones returned. *)
Theorem select_oldest b limit m :
  NoDup (seqs (events b)) ->
  let out := take (Z.to_nat limit) (List.filter (fun e => negb (selected e) && m e) (events b)) in
  snd (selectWhere b limit m) = with_selected true <$> out /\
  events (fst (selectWhere b limit m)) =
    (fun e => if listed out e then with_selected true e else e) <$> events b.
Proof. intros Hnd out. destruct (selectWhere_spec b limit m Hnd) as [H1 H2]. split; [exact H2 | exact H1]. Qed.

Definition ev (class : Z) : Event := with_class class Event0.
Definition witness_buffer : EventBuffer :=
  fold_left Add [ev Class1; ev Class2; ev Class1; ev Class1] (NewEventBuffer 10).

Lemma witness_buffer_nodup : NoDup (seqs (events witness_buffer)).
Proof. apply (bool_decide_eq_true_1 _). vm_compute. reflexivity. Qed.

Lemma select_oldest_witness :
  seqs (snd (Select witness_buffer Class1 2)) = [1; 3] /\
  snd (Select witness_buffer Class1 2) =
    with_selected true <$> take 2 (List.filter (fun e => negb (selected e) && in_mask Class1 e) (events witness_buffer)).
Proof. split; [reflexivity|]. apply (select_oldest witness_buffer 2 (in_mask Class1)), witness_buffer_nodup. Defined.

Lemma Release_events b es :
  events (fst (Release b es)) =
  (fun e => if selected e && listed es e then with_selected false e else e) <$> events b.
Proof.
  unfold Release. destruct (len es =? 0) eqn:E; [|done]. bool_prop.
  destruct es; [|unfold len in E; cbn in E; lia]. cbn. symmetry.
  rewrite <- list_fmap_id. apply list_fmap_ext. intros i x _. by rewrite andb_false_r.
Qed.

(** Giving back the surplus of a selection leaves exactly the selection of what was
    kept: selecting [limit] events and releasing all but the first [k] marks the same events
    as selecting [k] would have, and with [k = 0] the buffer's events are as before. *)
Theorem release_surplus b limit m (k : nat) :
  NoDup (seqs (events b)) -> Z.of_nat k <= limit ->
  let '(b1, out) := selectWhere b limit m in
  events (fst (Release b1 (drop k out))) = events (fst (selectWhere b (Z.of_nat k) m)) /\
  (k = 0%nat -> events (fst (Release b1 out)) = events b).
Proof.
  intros Hnd Hk. destruct (selectWhere_spec b limit m Hnd) as [H1 H2].
  destruct (selectWhere b limit m) as [b1 out]. cbn [fst snd] in *.
  assert (Hmain : forall k : nat, Z.of_nat k <= limit ->
    events (fst (Release b1 (drop k out))) = events (fst (selectWhere b (Z.of_nat k) m))).
  2:{ split; [by apply Hmain|]. intros ->. change out with (drop 0 out). rewrite Hmain by done.
      destruct (selectWhere_spec b (Z.of_nat 0) m Hnd) as [-> _]. unfold chosen. rewrite take_0. apply list_fmap_id. }
  clear k Hk. intros k Hk. destruct (selectWhere_spec b (Z.of_nat k) m Hnd) as [-> _].
  rewrite Release_events, H1, H2, <- list_fmap_compose. rewrite <- fmap_drop.
  set (all := chosen b limit m). assert (Hall : take k all = chosen b (Z.of_nat k) m).
  { unfold all, chosen. rewrite take_take, Nat2Z.id. f_equal. lia. }
  apply list_fmap_ext. intros i e He. apply list_elem_of_lookup_2 in He. cbn.
  assert (Hndall : NoDup (seqs all)) by (eapply sublist_NoDup; [done | apply seqs_sub, chosen_sub]).
  assert (Hparts : seqs all = seqs (take k all) ++ seqs (drop k all))
    by (unfold seqs; by rewrite <- fmap_app, take_drop).
  rewrite Hparts in Hndall. apply NoDup_app in Hndall as (_ & Hdis & _).
  rewrite <- Hall, (listed_seqs _ (drop k all) _ e) by (apply seqs_selected || by unfold mark; destruct (listed all e)).
  unfold mark at 2 4. destruct (listed (take k all) e) eqn:Et, (listed (drop k all) e) eqn:Ed.
  - apply listed_iff in Et, Ed. by destruct (Hdis _ Et).
  - assert (listed all e = true) by (rewrite listed_iff, Hparts, elem_of_app; left; by apply listed_iff).
    unfold mark. by replace (listed all e) with true.
  - assert (Hl : listed all e = true) by (rewrite listed_iff, Hparts, elem_of_app; right; by apply listed_iff).
    unfold mark. rewrite Hl. cbn [selected with_selected andb].
    apply listed_iff, list_elem_of_fmap in Hl as (x & Hxs & Hx).
    assert (e = x) as ->.
    { eapply same_seq; [exact Hnd | done | | done]. eapply elem_of_sublist; [exact Hx | apply chosen_sub]. }
    destruct (chosen_free _ _ _ _ Hx) as [Hf _]. destruct x. cbn in Hf. by subst.
  - assert (listed all e = false).
    { rewrite listed_false, Hparts, not_elem_of_app. split; by apply listed_false. }
    unfold mark. replace (listed all e) with false. by rewrite andb_false_r.
Qed.

Lemma release_surplus_witness :
  let '(b1, out) := selectWhere witness_buffer 3 (in_mask Class1) in
  seqs out = [1; 3; 4] /\
  events (fst (Release b1 (drop 1 out))) = events (fst (selectWhere witness_buffer 1 (in_mask Class1))).
Proof.
  pose proof (release_surplus witness_buffer 3 (in_mask Class1) 1 witness_buffer_nodup ltac:(lia)) as H.
  destruct (selectWhere witness_buffer 3 (in_mask Class1)) as [b1 out] eqn:E.
  split; [vm_compute in E; by injection E as <- <- | apply H].
Defined.

(** ** Every event is accounted for

    A run is a sequence of calls.  The ledger is the specification: it records, by number,
    what became of each event that left the buffer, and how many losses the master has been
    told of. *)

Inductive op :=
| OpAdd (e : Event)
| OpSelect (limit : Z) (m : Event -> bool)
| OpConfirm
| OpUnselect
| OpRelease (es : list Event)
| OpDiscard (es : list Event)
| OpClearOverflow
| OpReset.

Definition apply_op (b : EventBuffer) (o : op) : EventBuffer :=
  match o with
  | OpAdd e => Add b e
  | OpSelect limit m => fst (selectWhere b limit m)
  | OpConfirm => fst (Confirm b)
  | OpUnselect => fst (Unselect b)
  | OpRelease es => fst (Release b es)
  | OpDiscard es => fst (Discard b es)
  | OpClearOverflow => ClearOverflow b
  | OpReset => EventBuffer_Reset b
  end.

Record ledger := mkLedger {
  added : list Event;      (** every event handed to [Add], in order *)
  confirmed : list Z;      (** removed because the master confirmed them *)
  lost : list Z;           (** overflowed or discarded *)
  wiped : list Z;          (** removed by a restart *)
  at_select : Z;           (** losses when a response was last built *)
  told : Z }.              (** losses the master has confirmed hearing of *)

Definition ledger0 : ledger := mkLedger [] [] [] [] 0 0.

Definition record (b : EventBuffer) (g : ledger) (o : op) : ledger :=
  let losses := len (lost g) in
  match o with
  | OpAdd e =>
      mkLedger (added g ++ [e]) (confirmed g)
        (lost g ++ if max b <=? len (events b) then seqs (take 1 (events b)) else []) (wiped g)
        (at_select g) (told g)
  | OpSelect _ _ => mkLedger (added g) (confirmed g) (lost g) (wiped g) losses (told g)
  | OpConfirm =>
      let sent := List.filter selected (events b) in
      mkLedger (added g) (confirmed g ++ seqs sent) (lost g) (wiped g) (at_select g)
        (if 0 <? len sent then Z.max (told g) (at_select g) else told g)
  | OpDiscard es =>
      mkLedger (added g) (confirmed g)
        (lost g ++ seqs (List.filter (fun e => listed es e && selected e) (events b))) (wiped g)
        (at_select g) (told g)
  | OpClearOverflow => mkLedger (added g) (confirmed g) (lost g) (wiped g) (at_select g) losses
  | OpReset => mkLedger (added g) (confirmed g) (lost g) (wiped g ++ seqs (events b)) (at_select g) losses
  | OpUnselect | OpRelease _ => g
  end.

Fixpoint run (b : EventBuffer) (g : ledger) (ops : list op) : EventBuffer * ledger :=
  match ops with
  | [] => (b, g)
  | o :: ops => run (apply_op b o) (record b g o) ops
  end.

(** An event of the buffer is the one that was added under its number, unchanged. *)
Definition original (g : ledger) (e : Event) : Prop :=
  exists a, added g !! Z.to_nat (seq_ e - 1) = Some a /\ e = with_selected (selected e) (with_seq (seq_ e) a).

Definition accounted (b : EventBuffer) (g : ledger) : Prop :=
  nextSeq b = len (added g) /\
  sublist (seqs (events b)) (seqZ 1 (nextSeq b)) /\
  Permutation (seqZ 1 (nextSeq b)) (seqs (events b) ++ confirmed g ++ lost g ++ wiped g) /\
  Forall (original g) (events b) /\
  0 < max b /\ len (events b) <= max b /\
  drops b = len (lost g) /\ dropsAtSelect b = at_select g /\
  0 <= at_select g <= len (lost g) /\ 0 <= told g <= len (lost g) /\
  (overflow b = true <-> told g < len (lost g)).

Lemma seqs_split f (l : list Event) :
  Permutation (seqs l) (seqs (List.filter f l) ++ seqs (List.filter (fun e => negb (f e)) l)).
Proof.
  induction l as [|e l IH]; cbn; [done|]. destruct (f e); cbn; [by constructor|].
  rewrite IH. apply Permutation_middle.
Qed.

Lemma seqs_app (l k : list Event) : seqs (l ++ k) = seqs l ++ seqs k.
Proof. apply fmap_app. Qed.

Lemma seqs_map f (l : list Event) : (forall e, seq_ (f e) = seq_ e) -> seqs (f <$> l) = seqs l.
Proof. intros H. unfold seqs. rewrite <- list_fmap_compose. apply list_fmap_ext. intros. apply H. Qed.

Lemma original_selected g v e : original g e -> original g (with_selected v e).
Proof. intros (a & Ha & He). exists a. split; [done|]. rewrite He. done. Qed.

Lemma Forall_filter_list {A} (P : A -> Prop) f l : Forall P l -> Forall P (List.filter f l).
Proof. induction 1; cbn; [constructor|]. destruct (f x); by try constructor. Qed.

Lemma len_filter_le {A} (f : A -> bool) (l : list A) : len (List.filter f l) <= len l.
Proof. unfold len. pose proof (List.filter_length_le f l). lia. Qed.

(** An operation that only moves marks keeps the books as they are. *)
Lemma accounted_marks b g f b' :
  (forall e, f e = with_selected (selected (f e)) e) -> accounted b g ->
  events b' = f <$> events b -> max b' = max b -> nextSeq b' = nextSeq b -> drops b' = drops b ->
  dropsAtSelect b' = dropsAtSelect b -> overflow b' = overflow b -> accounted b' g.
Proof.
  intros Hf (H1 & H2 & H3 & H4 & H5 & H6 & H7 & H8 & H9 & H10 & H11) He Hm Hn Hd Hs Ho.
  assert (Hseq : seqs (events b') = seqs (events b)).
  { rewrite He. apply seqs_map. intros e. rewrite Hf. done. }
  unfold accounted. rewrite Hseq, Hm, Hn, Hd, Hs, Ho. split_and!; try done; try lia; try apply H11.
  - rewrite He. apply Forall_fmap. eapply Forall_impl; [exact H4|]. intros e Hor. cbn. rewrite Hf.
    by apply original_selected.
  - rewrite He. unfold len. rewrite length_fmap. exact H6.
Qed.

(** An operation that removes the events hit by [f]. *)
Lemma sub_filter_seqZ f l n : sublist (seqs l) (seqZ 1 n) -> sublist (seqs (List.filter f l)) (seqZ 1 n).
Proof. intros H. etrans; [apply seqs_sub, filter_sub | exact H]. Qed.

Lemma lost_bound b g : accounted b g -> len (lost g) + len (events b) <= nextSeq b.
Proof.
  intros (H1 & H2 & H3 & _). apply Permutation_length in H3. rewrite length_seqZ in H3.
  unfold seqs in H3. rewrite !length_app, length_fmap in H3. unfold len in *. lia.
Qed.

Lemma accounted_select b g limit m :
  accounted b g -> accounted (fst (selectWhere b limit m)) (record b g (OpSelect limit m)).
Proof.
  intros H. pose proof H as (H1 & H2 & H3 & H4 & H5 & H6 & H7 & H8 & H9 & H10 & H11).
  assert (Hnd : NoDup (seqs (events b))) by (eapply sublist_NoDup; [apply NoDup_seqZ | done]).
  assert (Hb0 : accounted (mkEventBuffer (events b) (max b) (overflow b) (drops b) (drops b) (nextSeq b))
                  (record b g (OpSelect limit m))).
  { unfold accounted. cbn. split_and!; try done; try lia; apply H11. }
  destruct (selectWhere_spec b limit m Hnd) as [He _].
  apply (accounted_marks _ _ (mark (chosen b limit m))) with (b' := fst (selectWhere b limit m)) in Hb0; [done|..].
  - intros e. unfold mark. destruct (listed _ e); by destruct e.
  - exact He.
  - unfold selectWhere. destruct (limit <=? 0); [done|]. by destruct (select_loop _ _ _ _).
  - unfold selectWhere. destruct (limit <=? 0); [done|]. by destruct (select_loop _ _ _ _).
  - unfold selectWhere. destruct (limit <=? 0); [done|]. by destruct (select_loop _ _ _ _).
  - unfold selectWhere. destruct (limit <=? 0); [done|]. by destruct (select_loop _ _ _ _).
  - unfold selectWhere. destruct (limit <=? 0); [done|]. by destruct (select_loop _ _ _ _).
Qed.

Lemma u64_succ n : 0 <= n -> n + 1 < 2 ^ 64 -> u64 (n + 1) = n + 1.
Proof. intros. unfold u64. apply Z.mod_small. change (2 ^ 64) with 18446744073709551616 in *. lia. Qed.

(** Queuing into a buffer with room. *)
Lemma accounted_push b g e :
  accounted b g -> nextSeq b + 1 < 2 ^ 64 -> len (events b) < max b ->
  accounted (mkEventBuffer (events b ++ [with_seq (nextSeq b + 1) e]) (max b) (overflow b) (drops b)
               (dropsAtSelect b) (nextSeq b + 1))
    (mkLedger (added g ++ [e]) (confirmed g) (lost g) (wiped g) (at_select g) (told g)).
Proof.
  intros H Hn Hroom. destruct H as (H1 & H2 & H3 & H4 & H5 & H6 & H7 & H8 & H9 & H10 & H11).
  assert (Hn0 : 0 <= nextSeq b) by (rewrite H1; apply len_nonneg).
  assert (Hz : seqZ 1 (nextSeq b + 1) = seqZ 1 (nextSeq b) ++ [nextSeq b + 1]).
  { rewrite seqZ_app by lia. f_equal. unfold seqZ. norm_nat. cbn [seq fmap list_fmap]. f_equal. lia. }
  unfold accounted. cbn [events max overflow drops dropsAtSelect nextSeq added confirmed lost wiped at_select told].
  rewrite seqs_app. change (seqs [with_seq (nextSeq b + 1) e]) with [nextSeq b + 1].
  rewrite Hz, !len_app. change (len [e]) with 1. change (len [with_seq (nextSeq b + 1) e]) with 1.
  split_and!; try done; try lia; try apply H11.
  - by apply sublist_app.
  - rewrite H3. solve_Permutation.
  - apply Forall_app. split.
    + eapply Forall_impl; [exact H4|]. intros x (a & Ha & Hx). exists a. split; [|done]. cbn.
      by rewrite lookup_app_l by (by eapply lookup_lt_Some).
    + constructor; [|constructor]. exists e. split; [|done]. cbn [seq_ with_seq added].
      replace (Z.to_nat (nextSeq b + 1 - 1)) with (length (added g)) by (unfold len in H1; lia).
      by rewrite lookup_app_r, Nat.sub_diag by lia.
Qed.

(** Dropping the oldest event of a full buffer. *)
Lemma accounted_overflow b g :
  accounted b g -> max b <= len (events b) -> nextSeq b < 2 ^ 64 ->
  accounted (with_drops (u64 (drops b + 1)) (with_overflow true (with_events (drop 1 (events b)) b)))
    (mkLedger (added g) (confirmed g) (lost g ++ seqs (take 1 (events b))) (wiped g) (at_select g) (told g)) /\
  len (drop 1 (events b)) < max b.
Proof.
  intros H Hfull Hn. pose proof (lost_bound b g H) as Hlb.
  destruct H as (H1 & H2 & H3 & H4 & H5 & H6 & H7 & H8 & H9 & H10 & H11).
  destruct (events b) as [|e l] eqn:Ee; [rewrite len_nil in *; lia|]. rewrite len_cons in *.
  change (take 1 (e :: l)) with [e]. change (drop 1 (e :: l)) with l. pose proof (len_nonneg (lost g)). pose proof (len_nonneg l).
  split; [|lia]. unfold accounted.
  cbn [events max overflow drops dropsAtSelect nextSeq added confirmed lost wiped at_select told with_drops
    with_overflow with_events]. rewrite len_app. change (len (seqs [e])) with 1.
  rewrite u64_succ by lia. inversion H4; subst. split_and!; try done; try lia.
  - etrans; [|exact H2]. cbn. by constructor.
  - rewrite H3. change (seqs (e :: l)) with (seq_ e :: seqs l). change (seqs [e]) with [seq_ e]. solve_Permutation.
Qed.

Lemma accounted_add b g e :
  accounted b g -> nextSeq b + 1 < 2 ^ 64 -> accounted (Add b e) (record b g (OpAdd e)).
Proof.
  intros H Hn. unfold Add, record. destruct (max b <=? len (events b)) eqn:E; bool_prop.
  - destruct (accounted_overflow b g H E ltac:(lia)) as [H' Hr].
    pose proof (accounted_push _ _ e H' Hn Hr) as H2. cbn -[Z.add] in H2 |- *.
    rewrite (u64_succ (nextSeq b)); [exact H2 | destruct H as [-> _]; apply len_nonneg | done].
  - pose proof (accounted_push _ _ e H Hn E) as H2. rewrite app_nil_r.
    rewrite (u64_succ (nextSeq b)); [exact H2 | destruct H as [-> _]; apply len_nonneg | done].
Qed.

Lemma accounted_confirm b g : accounted b g -> accounted (fst (Confirm b)) (record b g OpConfirm).
Proof.
  intros (H1 & H2 & H3 & H4 & H5 & H6 & H7 & H8 & H9 & H10 & H11).
  assert (Hb : forall o, (o = true <-> told (record b g OpConfirm) < len (lost g)) ->
    accounted (with_overflow o (with_events (List.filter (fun e => negb (selected e)) (events b)) b))
      (record b g OpConfirm)).
  { intros o Ho. unfold accounted. cbn in *. split_and!; try done; try lia; try apply Ho.
    - by apply sub_filter_seqZ.
    - rewrite H3, (seqs_split selected (events b)). solve_Permutation.
    - by apply Forall_filter_list.
    - pose proof (len_filter_le (fun e => negb (selected e)) (events b)). lia.
    - destruct (0 <? _); lia.
    - destruct (0 <? _); lia. }
  unfold Confirm, count_if. cbn [fst drops dropsAtSelect with_events record].
  cbn [record told] in Hb. pose proof (len_nonneg (List.filter selected (events b))).
  destruct (0 <? len (List.filter selected (events b))) eqn:E0; cbn [andb] in *.
  - destruct (drops b =? dropsAtSelect b) eqn:E1; bool_prop.
    + apply Hb. split; [done | lia].
    + apply (Hb (overflow b)). rewrite H11. lia.
  - apply (Hb (overflow b)). exact H11.
Qed.

Lemma accounted_discard b g es :
  accounted b g -> nextSeq b < 2 ^ 64 -> accounted (fst (Discard b es)) (record b g (OpDiscard es)).
Proof.
  intros H Hn. pose proof (lost_bound b g H) as Hlb.
  destruct H as (H1 & H2 & H3 & H4 & H5 & H6 & H7 & H8 & H9 & H10 & H11).
  set (hit e := listed es e && selected e). set (gone := List.filter hit (events b)).
  pose proof (len_nonneg gone) as Hg0. pose proof (len_filter_le hit (events b)) as Hgl. fold gone in Hgl.
  pose proof (len_nonneg (lost g)).
  assert (Hb : forall o, (o = true <-> told g < len (lost g) + len gone) ->
    accounted (mkEventBuffer (List.filter (fun e => negb (hit e)) (events b)) (max b) o
                 (drops b + len gone) (dropsAtSelect b) (nextSeq b)) (record b g (OpDiscard es))).
  { intros o Ho. unfold accounted. cbn [record events max overflow drops dropsAtSelect nextSeq added confirmed lost wiped at_select told].
    fold hit gone. assert (Hs : len (lost g ++ seqs gone) = len (lost g) + len gone).
    { rewrite len_app. unfold len, seqs. rewrite length_fmap. lia. }
    rewrite Hs. split_and!; try done; try lia; try apply Ho.
    - by apply sub_filter_seqZ.
    - rewrite H3, (seqs_split hit (events b)). fold gone. solve_Permutation.
    - by apply Forall_filter_list.
    - pose proof (len_filter_le (fun e => negb (hit e)) (events b)). lia. }
  unfold Discard. destruct (len es =? 0) eqn:E0; bool_prop.
  { assert (Hg : gone = []).
    { destruct es; [|rewrite len_cons in E0; pose proof (len_nonneg es); lia]. unfold gone, hit.
      clear. induction (events b) as [|x l IH]; [done | exact IH]. }
    assert (Hk : List.filter (fun e => negb (hit e)) (events b) = events b).
    { destruct es; [|rewrite len_cons in E0; pose proof (len_nonneg es); lia]. unfold hit.
      clear. induction (events b) as [|x l IH]; [done|]. cbn [List.filter listed existsb andb negb] in *. by rewrite IH. }
    specialize (Hb (overflow b)). rewrite Hg, Hk, len_nil, !Z.add_0_r in Hb. cbn [fst].
    destruct b. apply Hb, H11. }
  unfold count_if. fold hit gone. cbn [drops with_events].
  destruct (0 <? len gone) eqn:E1; bool_prop; cbn [fst].
  - assert (Hu : u64 (drops b + u64 (len gone)) = drops b + len gone).
    { unfold u64. change (2 ^ 64) with 18446744073709551616 in *. rewrite (Z.mod_small (len gone)) by lia.
      apply Z.mod_small. lia. }
    rewrite Hu. apply Hb. split; [lia | done].
  - replace (len gone) with 0 in Hb by lia. rewrite !Z.add_0_r in Hb. apply Hb, H11.
Qed.

Lemma accounted_step b g o :
  accounted b g -> nextSeq b + 1 < 2 ^ 64 -> accounted (apply_op b o) (record b g o).
Proof.
  intros H Hn. destruct o; cbn [apply_op].
  - by apply accounted_add.
  - by apply accounted_select.
  - by apply accounted_confirm.
  - eapply (accounted_marks b g (fun e => if selected e then with_selected false e else e)); try done.
    intros e. destruct e as [? ? ? ? ? ? ? ? ? ? ? ? ? ? ? ? ? ? ? [] ?]; done.
  - eapply (accounted_marks b g (fun e => if selected e && listed es e then with_selected false e else e)); try done.
    + intros e. destruct (listed es e), e as [? ? ? ? ? ? ? ? ? ? ? ? ? ? ? ? ? ? ? [] ?]; done.
    + apply Release_events.
    + unfold Release. by destruct (len es =? 0).
    + unfold Release. by destruct (len es =? 0).
    + unfold Release. by destruct (len es =? 0).
    + unfold Release. by destruct (len es =? 0).
    + unfold Release. by destruct (len es =? 0).
  - apply accounted_discard; [done | lia].
  - destruct H as (H1 & H2 & H3 & H4 & H5 & H6 & H7 & H8 & H9 & H10 & H11).
    unfold accounted. cbn. split_and!; try done; lia.
  - destruct H as (H1 & H2 & H3 & H4 & H5 & H6 & H7 & H8 & H9 & H10 & H11).
    unfold accounted. cbn [record EventBuffer_Reset with_overflow with_events events max overflow drops dropsAtSelect
      nextSeq added confirmed lost wiped at_select told]. change (seqs []) with (@nil Z). rewrite app_nil_l.
    split_and!; try done; try lia.
    + apply sublist_nil_l.
    + rewrite H3. solve_Permutation.
    + rewrite len_nil. lia.
Qed.

Lemma run_accounted ops b g :
  accounted b g -> nextSeq b + len ops < 2 ^ 64 ->
  accounted (fst (run b g ops)) (snd (run b g ops)) /\ max (fst (run b g ops)) = max b.
Proof.
  revert b g. induction ops as [|o ops IH]; intros b g H Hn; [done|]. rewrite len_cons in Hn.
  pose proof (len_nonneg ops). cbn [run].
  assert (Hns : nextSeq (apply_op b o) <= nextSeq b + 1).
  { destruct H as [H1 _]. pose proof (len_nonneg (added g)). destruct o; cbn [apply_op]; try (cbn; lia).
    - unfold Add. cbn [nextSeq]. destruct (max b <=? _); cbn [nextSeq with_drops with_overflow with_events];
        rewrite u64_succ by lia; lia.
    - unfold selectWhere. destruct (limit <=? 0); [cbn; lia|]. destruct (select_loop _ _ _ _). cbn. lia.
    - unfold Confirm. cbn [fst]. destruct (_ && _); cbn; lia.
    - unfold Release. destruct (_ =? 0); cbn; lia.
    - unfold Discard. destruct (_ =? 0); [cbn; lia|]. cbn [fst]. destruct (0 <? _); cbn; lia. }
  assert (Hmax : max (apply_op b o) = max b).
  { destruct o; cbn [apply_op]; try done.
    - unfold Add. by destruct (max b <=? _).
    - unfold selectWhere. destruct (limit <=? 0); [done|]. by destruct (select_loop _ _ _ _).
    - unfold Confirm. cbn [fst]. by destruct (_ && _).
    - unfold Release. by destruct (_ =? 0).
    - unfold Discard. destruct (_ =? 0); [done|]. cbn [fst]. by destruct (0 <? _). }
  destruct (IH (apply_op b o) (record b g o)) as [H1 H2]; [apply accounted_step; [done | lia] | lia |].
  split; [done | congruence].
Qed.

Lemma New_accounted n : accounted (NewEventBuffer n) ledger0.
Proof.
  assert (Hm : 0 < max (NewEventBuffer n)).
  { cbn. unfold DefaultMaxEvents. destruct (n <=? 0) eqn:E; bool_prop; lia. }
  unfold accounted. cbn [NewEventBuffer max] in Hm |- *. cbn. split_and!; try done; try constructor; try lia. rewrite len_nil. lia.
Qed.

(** C9. No event is lost silently.  After any calls, each event ever added is exactly one
    of: still queued, unchanged and in arrival order; confirmed by the master; lost, and
    counted in [drops]; or wiped by a restart.  The buffer never exceeds its capacity. *)
Theorem events_accounted n ops :
  len ops < 2 ^ 64 ->
  let '(b, g) := run (NewEventBuffer n) ledger0 ops in
  Permutation (seqZ 1 (len (added g))) (seqs (events b) ++ confirmed g ++ lost g ++ wiped g) /\
  sublist (seqs (events b)) (seqZ 1 (len (added g))) /\
  Forall (original g) (events b) /\
  drops b = len (lost g) /\ Total b <= max (NewEventBuffer n).
Proof.
  intros Hn. destruct (run_accounted ops _ _ (New_accounted n)) as [H Hm]; [cbn; lia|].
  destruct (run _ _ _) as [b g]. cbn [fst snd] in *. rewrite <- Hm.
  destruct H as (H1 & H2 & H3 & H4 & H5 & H6 & H7 & _). rewrite <- H1. done.
Qed.

Definition witness_ops : list op :=
  [OpAdd (ev Class1); OpAdd (ev Class2); OpSelect 1 (in_mask Class1); OpAdd (ev Class3);
   OpSelect 1 (in_mask Class2); OpConfirm].

Lemma events_accounted_witness :
  let '(b, g) := run (NewEventBuffer 2) ledger0 witness_ops in
  (seqs (events b), confirmed g, lost g) = ([3], [2], [1]) /\ drops b = len (lost g).
Proof.
  pose proof (events_accounted 2 witness_ops ltac:(vm_compute; reflexivity)) as H.
  destruct (run (NewEventBuffer 2) ledger0 witness_ops) as [b g] eqn:E.
  split; [vm_compute in E; by injection E as <- <- | apply H].
Defined.

(** C28. The overflow indication is exact: it is set precisely while there are losses the
    master has not confirmed hearing of, that is losses since the response whose
    confirmation last removed events was built (or since it was cleared by hand, or by a
    restart). *)
Theorem overflow_exact n ops :
  len ops < 2 ^ 64 ->
  let '(b, g) := run (NewEventBuffer n) ledger0 ops in
  Overflowed b = true <-> told g < len (lost g).
Proof.
  intros Hn. destruct (run_accounted ops _ _ (New_accounted n)) as [H Hm]; [cbn; lia|].
  destruct (run _ _ _) as [b g]. cbn [fst snd] in *.
  destruct H as (_ & _ & _ & _ & _ & _ & _ & _ & _ & _ & H). exact H.
Qed.

(** A loss after the response was built keeps the indication set when it is confirmed. *)
Lemma overflow_exact_witness :
  let ops := [OpAdd (ev Class1); OpAdd (ev Class1); OpSelect 2 (in_mask Class1); OpAdd (ev Class2); OpConfirm] in
  let '(b, g) := run (NewEventBuffer 2) ledger0 ops in
  Overflowed b = true /\ (Overflowed b = true <-> told g < len (lost g)).
Proof.
  intros ops. pose proof (overflow_exact 2 ops ltac:(vm_compute; reflexivity)) as H.
  destruct (run (NewEventBuffer 2) ledger0 ops) as [b g] eqn:E.
  split; [vm_compute in E; by injection E as <- <- | exact H].
Defined.
