(* ===== verification/Database.v ===== *)
(** * The outstation database (src/outstation/database.go)

    The points of an outstation, their reporting configuration, and the events their changes
    raise.  The methods run under a mutex and are functions on the database, which holds the
    event buffer it shares with the session.

    Octet strings are Go slices over backing arrays: [UpdateOctetString] reuses the array of
    the value it replaces, and the event it queues shares it, so the arrays are part of the
    state.

    The theorems: what is reported to the master never strays further than the deadband from
    the stored value; a freeze is a snapshot; a configuration accepted can be encoded; and
    what becomes of the octets of a queued event. *)

From stdpp Require Import gmap.
From S2P Require Import Prelude Values AppHeader AppObject Objects EventBuffer.

Record PointConfig := mkPointConfig {
  Class : Z; StaticVariation : Z; EventVariation : Z; Deadband : spec_float;
  CommandEventClass : Z; CommandEventVariation : Z }.
Definition PointConfig0 : PointConfig := mkPointConfig ClassNone 0 0 f64_zero ClassNone 0.

Record DatabaseConfig := mkDatabaseConfig {
  n_Binary : Z; n_DoubleBitBinary : Z; n_Counter : Z; n_FrozenCounter : Z; n_Analog : Z;
  n_FrozenAnalog : Z; n_TimeAndInterval : Z; n_VirtualTerminal : Z; n_BinaryOutputStatus : Z;
  n_AnalogOutputStatus : Z; n_OctetString : Z; DefaultClass : Z }.

Record point (T : Type) := mkPoint { value : T; pcfg : PointConfig; reported : spec_float; hasEvent : bool }.
Arguments mkPoint {T}.
Arguments value {T}.
Arguments pcfg {T}.
Arguments reported {T}.
Arguments hasEvent {T}.

Record Database := mkDatabase {
  binary : list (point Binary); doubleBit : list (point DoubleBitBinary);
  counter : list (point Counter); frozen : list (point FrozenCounter);
  analog : list (point Analog); frozenAnalog : list (point Analog);
  timeAndInterval : list TimeAndInterval; terminal : list (point GoSlice);
  binaryOut : list (point BinaryOutputStatus); analogOut : list (point AnalogOutputStatus);
  octet : list (point GoSlice);
  datasets : gmap (Z * Z * Z) (list Z); datasetClasses : gmap Z Z;
  db_events : option EventBuffer;
  arrays : list (list Z) }.

Definition set_binary v db := mkDatabase v (doubleBit db) (counter db) (frozen db) (analog db)
  (frozenAnalog db) (timeAndInterval db) (terminal db) (binaryOut db) (analogOut db) (octet db)
  (datasets db) (datasetClasses db) (db_events db) (arrays db).
Definition set_doubleBit v db := mkDatabase (binary db) v (counter db) (frozen db) (analog db)
  (frozenAnalog db) (timeAndInterval db) (terminal db) (binaryOut db) (analogOut db) (octet db)
  (datasets db) (datasetClasses db) (db_events db) (arrays db).
Definition set_counter v db := mkDatabase (binary db) (doubleBit db) v (frozen db) (analog db)
  (frozenAnalog db) (timeAndInterval db) (terminal db) (binaryOut db) (analogOut db) (octet db)
  (datasets db) (datasetClasses db) (db_events db) (arrays db).
Definition set_frozen v db := mkDatabase (binary db) (doubleBit db) (counter db) v (analog db)
  (frozenAnalog db) (timeAndInterval db) (terminal db) (binaryOut db) (analogOut db) (octet db)
  (datasets db) (datasetClasses db) (db_events db) (arrays db).
Definition set_analog v db := mkDatabase (binary db) (doubleBit db) (counter db) (frozen db) v
  (frozenAnalog db) (timeAndInterval db) (terminal db) (binaryOut db) (analogOut db) (octet db)
  (datasets db) (datasetClasses db) (db_events db) (arrays db).
Definition set_frozenAnalog v db := mkDatabase (binary db) (doubleBit db) (counter db) (frozen db)
  (analog db) v (timeAndInterval db) (terminal db) (binaryOut db) (analogOut db) (octet db)
  (datasets db) (datasetClasses db) (db_events db) (arrays db).
Definition set_terminal v db := mkDatabase (binary db) (doubleBit db) (counter db) (frozen db)
  (analog db) (frozenAnalog db) (timeAndInterval db) v (binaryOut db) (analogOut db) (octet db)
  (datasets db) (datasetClasses db) (db_events db) (arrays db).
Definition set_binaryOut v db := mkDatabase (binary db) (doubleBit db) (counter db) (frozen db)
  (analog db) (frozenAnalog db) (timeAndInterval db) (terminal db) v (analogOut db) (octet db)
  (datasets db) (datasetClasses db) (db_events db) (arrays db).
Definition set_analogOut v db := mkDatabase (binary db) (doubleBit db) (counter db) (frozen db)
  (analog db) (frozenAnalog db) (timeAndInterval db) (terminal db) (binaryOut db) v (octet db)
  (datasets db) (datasetClasses db) (db_events db) (arrays db).
Definition set_octet v db := mkDatabase (binary db) (doubleBit db) (counter db) (frozen db)
  (analog db) (frozenAnalog db) (timeAndInterval db) (terminal db) (binaryOut db) (analogOut db) v
  (datasets db) (datasetClasses db) (db_events db) (arrays db).
Definition set_datasetClasses v db := mkDatabase (binary db) (doubleBit db) (counter db) (frozen db)
  (analog db) (frozenAnalog db) (timeAndInterval db) (terminal db) (binaryOut db) (analogOut db)
  (octet db) (datasets db) v (db_events db) (arrays db).
Definition set_events v db := mkDatabase (binary db) (doubleBit db) (counter db) (frozen db)
  (analog db) (frozenAnalog db) (timeAndInterval db) (terminal db) (binaryOut db) (analogOut db)
  (octet db) (datasets db) (datasetClasses db) v (arrays db).
Definition set_arrays v db := mkDatabase (binary db) (doubleBit db) (counter db) (frozen db)
  (analog db) (frozenAnalog db) (timeAndInterval db) (terminal db) (binaryOut db) (analogOut db)
  (octet db) (datasets db) (datasetClasses db) (db_events db) v.

(** ** Construction and configuration *)

(** A missing key of the Go maps reads as zero. *)
Definition defaultStaticVariations (pt : PointType) : Z :=
  match pt with
  | TypeBinary | TypeDoubleBitBinary | TypeBinaryOutputStatus => 2
  | TypeCounter | TypeFrozenCounter | TypeFrozenAnalog | TypeAnalog | TypeAnalogOutputStatus => 1
  | _ => 0
  end.
Definition defaultEventVariations (pt : PointType) : Z :=
  match pt with
  | TypeBinary | TypeDoubleBitBinary | TypeBinaryOutputStatus => 2
  | TypeCounter | TypeFrozenCounter => 5
  | TypeFrozenAnalog | TypeAnalog | TypeAnalogOutputStatus => 3
  | _ => 0
  end.

Definition makePoints {T} (zero : T) (n : Z) (pt : PointType) (class : Z) : list (point T) :=
  replicate (Z.to_nat n)
    (mkPoint zero
       (mkPointConfig class (defaultStaticVariations pt) (defaultEventVariations pt) f64_zero ClassNone 0)
       f64_zero false).

Definition NewDatabase (cfg : DatabaseConfig) (events : option EventBuffer) : Database :=
  let c := DefaultClass cfg in
  {| binary := makePoints Binary0 (n_Binary cfg) TypeBinary c;
     doubleBit := makePoints Counter0 (n_DoubleBitBinary cfg) TypeDoubleBitBinary c;
     counter := makePoints Counter0 (n_Counter cfg) TypeCounter c;
     frozen := makePoints Counter0 (n_FrozenCounter cfg) TypeFrozenCounter c;
     analog := makePoints Analog0 (n_Analog cfg) TypeAnalog c;
     frozenAnalog := makePoints Analog0 (n_FrozenAnalog cfg) TypeFrozenAnalog c;
     timeAndInterval := replicate (Z.to_nat (n_TimeAndInterval cfg)) TimeAndInterval0;
     terminal := makePoints nil_slice (n_VirtualTerminal cfg) TypeVirtualTerminal c;
     binaryOut := makePoints Binary0 (n_BinaryOutputStatus cfg) TypeBinaryOutputStatus c;
     analogOut := makePoints Analog0 (n_AnalogOutputStatus cfg) TypeAnalogOutputStatus c;
     octet := makePoints nil_slice (n_OctetString cfg) TypeOctetString c;
     datasets := ∅; datasetClasses := ∅; db_events := events; arrays := [] |}.

Definition Counts (db : Database) : DatabaseConfig :=
  mkDatabaseConfig (len (binary db)) (len (doubleBit db)) (len (counter db)) (len (frozen db))
    (len (analog db)) (len (frozenAnalog db)) (len (timeAndInterval db)) (len (terminal db))
    (len (binaryOut db)) (len (analogOut db)) (len (octet db)) 0.

(** The event group of a point type (src/outstation/response.go). *)
Definition eventGroup (pt : PointType) : Z :=
  match pt with
  | TypeBinary => 2 | TypeDoubleBitBinary => 4 | TypeBinaryOutputStatus => 11 | TypeCounter => 22
  | TypeFrozenCounter => 23 | TypeFrozenAnalog => 33 | TypeDataset => 88 | TypeSecurityStatistic => 122
  | TypeVirtualTerminal => 113 | TypeAnalog => 32 | TypeAnalogOutputStatus => 42
  | TypeOctetString => 111 | TypeBinaryCommandEvent => 13 | TypeAnalogCommandEvent => 43
  | TypeUnknown => 0
  end.

Definition eventVariationEncodable (pt : PointType) (v : Z) : bool :=
  if (v =? 0) || bool_decide (pt = TypeOctetString) || bool_decide (pt = TypeVirtualTerminal) then true
  else match Lookup (GV (eventGroup pt) v) with
       | None => false
       | Some d => match SizeOctets d with Some size => 0 <? size | None => false end
       end.

Definition with_cfg {T} (c : PointConfig) (p : point T) : point T :=
  mkPoint (value p) c (reported p) (hasEvent p).

Definition setConfig {T} (pts : list (point T)) (i : Z) (cfg : PointConfig) : option (list (point T)) :=
  if (i <? 0) || (len pts <=? i) then None
  else
    (fun p =>
      let cfg := if StaticVariation cfg =? 0
        then mkPointConfig (Class cfg) (StaticVariation (pcfg p)) (EventVariation cfg) (Deadband cfg)
               (CommandEventClass cfg) (CommandEventVariation cfg) else cfg in
      let cfg := if EventVariation cfg =? 0
        then mkPointConfig (Class cfg) (StaticVariation cfg) (EventVariation (pcfg p)) (Deadband cfg)
               (CommandEventClass cfg) (CommandEventVariation cfg) else cfg in
      <[Z.to_nat i := with_cfg cfg p]> pts) <$> pts !! Z.to_nat i.

(** The boolean is what the method returns. *)
Definition Configure (db : Database) (pt : PointType) (index : Z) (cfg : PointConfig) : Database * bool :=
  let put {T} (set : list (point T) -> Database -> Database) (pts : list (point T)) :=
    match setConfig pts index cfg with Some pts => (set pts db, true) | None => (db, false) end in
  if negb (eventVariationEncodable pt (EventVariation cfg)) then (db, false)
  else match pt with
       | TypeBinary => put set_binary (binary db)
       | TypeDoubleBitBinary => put set_doubleBit (doubleBit db)
       | TypeCounter => put set_counter (counter db)
       | TypeFrozenCounter => put set_frozen (frozen db)
       | TypeFrozenAnalog => put set_frozenAnalog (frozenAnalog db)
       | TypeVirtualTerminal => put set_terminal (terminal db)
       | TypeAnalog => put set_analog (analog db)
       | TypeBinaryOutputStatus => put set_binaryOut (binaryOut db)
       | TypeAnalogOutputStatus => put set_analogOut (analogOut db)
       | TypeOctetString => put set_octet (octet db)
       | _ => (db, false)
       end.

Definition with_pclass (class : Z) (c : PointConfig) : PointConfig :=
  mkPointConfig class (StaticVariation c) (EventVariation c) (Deadband c) (CommandEventClass c)
    (CommandEventVariation c).

Definition assignClass {T} (pts : list (point T)) (class start stop : Z) : list (point T) :=
  imap (fun i p => if (start <=? Z.of_nat i) && (Z.of_nat i <=? stop)
                   then with_cfg (with_pclass class (pcfg p)) p else p) pts.

Definition assignClassRange (db : Database) (pt : PointType) (class start stop : Z) : Database :=
  match pt with
  | TypeDataset =>
      set_datasetClasses
        (foldr (fun (k : Z * Z * Z) m =>
           if (fst (fst k) =? 87) && (start <=? snd k) && (snd k <=? stop) then <[snd k := class]> m else m)
         (datasetClasses db) (fst <$> map_to_list (datasets db))) db
  | TypeBinary => set_binary (assignClass (binary db) class start stop) db
  | TypeDoubleBitBinary => set_doubleBit (assignClass (doubleBit db) class start stop) db
  | TypeCounter => set_counter (assignClass (counter db) class start stop) db
  | TypeFrozenCounter => set_frozen (assignClass (frozen db) class start stop) db
  | TypeFrozenAnalog => set_frozenAnalog (assignClass (frozenAnalog db) class start stop) db
  | TypeVirtualTerminal => set_terminal (assignClass (terminal db) class start stop) db
  | TypeAnalog => set_analog (assignClass (analog db) class start stop) db
  | TypeBinaryOutputStatus => set_binaryOut (assignClass (binaryOut db) class start stop) db
  | TypeAnalogOutputStatus => set_analogOut (assignClass (analogOut db) class start stop) db
  | TypeOctetString => set_octet (assignClass (octet db) class start stop) db
  | _ => db
  end.
Definition AssignClass (db : Database) (pt : PointType) (class : Z) : Database :=
  assignClassRange db pt class 0 0xFFFF.

(** ** Updates *)

Definition raise (db : Database) (cfg : PointConfig) (e : Event) : Database :=
  match db_events db with
  | None => db
  | Some b => if Class cfg =? ClassNone then db else set_events (Some (Add b (with_class (Class cfg) e))) db
  end.

Definition with_value {T} (v : T) (p : point T) : point T := mkPoint v (pcfg p) (reported p) (hasEvent p).

(** Whether an update warrants an event; the point remembers what was reported. *)
Definition shouldReport {T} (p : point T) (v : spec_float) (flagsChanged : bool) : point T * bool :=
  let first := negb (hasEvent p) in
  let keep := mkPoint (value p) (pcfg p) (reported p) true in
  let report := mkPoint (value p) (pcfg p) v true in
  if first || flagsChanged then (report, true)
  else
    let nowNaN := IsNaN v in
    let wasNaN := IsNaN (reported p) in
    if nowNaN || wasNaN then if Bool.eqb nowNaN wasNaN then (keep, false) else (report, true)
    else
      let delta := f64_sub v (reported p) in
      let delta := if SFltb delta f64_zero then SFopp delta else delta in
      if SFltb (Deadband (pcfg p)) delta then (report, true) else (keep, false).

(** A composite literal of [Event] with the fields every measurement sets. *)
Definition event (pt : PointType) (index : Z) (cfg : PointConfig) (t : Timestamp) (e : Event) : Event :=
  mkEvent pt index (EClass e) (EventVariation cfg) t (EBinary e) (EDoubleBit e) (ECounter e)
    (EFrozenCounter e) (EDataset e) (ESecurityStatistic e) (EFrozenAnalog e) (EAnalog e)
    (EBinaryOutput e) (EAnalogOutput e) (EOctetString e) (CommandStatus e) (CommandState e)
    (CommandValue e) (selected e) (seq_ e).

Definition of_binary (v : Binary) : Event :=
  mkEvent TypeUnknown 0 ClassNone 0 NoTime v Counter0 Counter0 Counter0 [] 0 Analog0 Analog0
    Binary0 Analog0 nil_slice 0 false f64_zero false 0.
Definition of_doubleBit (v : DoubleBitBinary) : Event :=
  mkEvent TypeUnknown 0 ClassNone 0 NoTime Binary0 v Counter0 Counter0 [] 0 Analog0 Analog0
    Binary0 Analog0 nil_slice 0 false f64_zero false 0.
Definition of_counter (v : Counter) : Event :=
  mkEvent TypeUnknown 0 ClassNone 0 NoTime Binary0 Counter0 v Counter0 [] 0 Analog0 Analog0
    Binary0 Analog0 nil_slice 0 false f64_zero false 0.
Definition of_frozen (v : FrozenCounter) : Event :=
  mkEvent TypeUnknown 0 ClassNone 0 NoTime Binary0 Counter0 Counter0 v [] 0 Analog0 Analog0
    Binary0 Analog0 nil_slice 0 false f64_zero false 0.
Definition of_analog (v : Analog) : Event :=
  mkEvent TypeUnknown 0 ClassNone 0 NoTime Binary0 Counter0 Counter0 Counter0 [] 0 Analog0 v
    Binary0 Analog0 nil_slice 0 false f64_zero false 0.
Definition of_binaryOut (v : BinaryOutputStatus) : Event :=
  mkEvent TypeUnknown 0 ClassNone 0 NoTime Binary0 Counter0 Counter0 Counter0 [] 0 Analog0 Analog0
    v Analog0 nil_slice 0 false f64_zero false 0.
Definition of_analogOut (v : AnalogOutputStatus) : Event :=
  mkEvent TypeUnknown 0 ClassNone 0 NoTime Binary0 Counter0 Counter0 Counter0 [] 0 Analog0 Analog0
    Binary0 v nil_slice 0 false f64_zero false 0.
Definition of_octets (s : GoSlice) : Event :=
  mkEvent TypeUnknown 0 ClassNone 0 NoTime Binary0 Counter0 Counter0 Counter0 [] 0 Analog0 Analog0
    Binary0 Analog0 s 0 false f64_zero false 0.
Definition of_command (status : Z) (state : bool) (v : spec_float) : Event :=
  mkEvent TypeUnknown 0 ClassNone 0 NoTime Binary0 Counter0 Counter0 Counter0 [] 0 Analog0 Analog0
    Binary0 Analog0 nil_slice status state v false 0.

Definition changed {T} (eqb : T -> T -> bool) (a b : measurement T) : bool :=
  negb (eqb (Value a) (Value b)) || negb (Flags a =? Flags b).

Definition UpdateBinary (db : Database) (index : Z) (v : Binary) : Database :=
  match binary db !! Z.to_nat index with
  | None => db
  | Some p =>
      let db := set_binary (<[Z.to_nat index := with_value v p]> (binary db)) db in
      if changed Bool.eqb (value p) v
      then raise db (pcfg p) (event TypeBinary index (pcfg p) (Time v) (of_binary v)) else db
  end.

Definition UpdateDoubleBit (db : Database) (index : Z) (v : DoubleBitBinary) : Database :=
  match doubleBit db !! Z.to_nat index with
  | None => db
  | Some p =>
      let db := set_doubleBit (<[Z.to_nat index := with_value v p]> (doubleBit db)) db in
      if changed Z.eqb (value p) v
      then raise db (pcfg p) (event TypeDoubleBitBinary index (pcfg p) (Time v) (of_doubleBit v)) else db
  end.

Definition UpdateBinaryOutputStatus (db : Database) (index : Z) (v : BinaryOutputStatus) : Database :=
  match binaryOut db !! Z.to_nat index with
  | None => db
  | Some p =>
      let db := set_binaryOut (<[Z.to_nat index := with_value v p]> (binaryOut db)) db in
      if changed Bool.eqb (value p) v
      then raise db (pcfg p) (event TypeBinaryOutputStatus index (pcfg p) (Time v) (of_binaryOut v)) else db
  end.

Definition setCounter (db : Database) (index : Z) (v : Counter) : Database :=
  match counter db !! Z.to_nat index with
  | None => db
  | Some p =>
      let flagsChanged := negb (Flags (value p) =? Flags v) in
      let valueChanged := negb (Value (value p) =? Value v) in
      let p := with_value v p in
      let '(p, report) :=
        if flagsChanged || valueChanged then shouldReport p (f64_of_Z (Value v)) flagsChanged else (p, false) in
      let db := set_counter (<[Z.to_nat index := p]> (counter db)) db in
      if report then raise db (pcfg p) (event TypeCounter index (pcfg p) (Time v) (of_counter v)) else db
  end.
Definition UpdateCounter := setCounter.

Definition setFrozen (db : Database) (i : Z) (v : FrozenCounter) (freeze : bool) : Database :=
  match frozen db !! Z.to_nat i with
  | None => db
  | Some p =>
      let db := set_frozen (<[Z.to_nat i := with_value v p]> (frozen db)) db in
      if changed Z.eqb (value p) v || freeze
      then raise db (pcfg p) (event TypeFrozenCounter (u16 i) (pcfg p) (Time v) (of_frozen v)) else db
  end.
Definition UpdateFrozenCounter (db : Database) (index : Z) (v : FrozenCounter) : Database :=
  if index <? len (frozen db) then setFrozen db index v false else db.

Definition UpdateAnalog (db : Database) (index : Z) (v : Analog) : Database :=
  match analog db !! Z.to_nat index with
  | None => db
  | Some p =>
      let flagsChanged := negb (Flags (value p) =? Flags v) in
      let '(p, report) := shouldReport (with_value v p) (Value v) flagsChanged in
      let db := set_analog (<[Z.to_nat index := p]> (analog db)) db in
      if report then raise db (pcfg p) (event TypeAnalog index (pcfg p) (Time v) (of_analog v)) else db
  end.

Definition UpdateAnalogOutputStatus (db : Database) (index : Z) (v : AnalogOutputStatus) : Database :=
  match analogOut db !! Z.to_nat index with
  | None => db
  | Some p =>
      let flagsChanged := negb (Flags (value p) =? Flags v) in
      let '(p, report) := shouldReport (with_value v p) (Value v) flagsChanged in
      let db := set_analogOut (<[Z.to_nat index := p]> (analogOut db)) db in
      if report then raise db (pcfg p) (event TypeAnalogOutputStatus index (pcfg p) (Time v) (of_analogOut v)) else db
  end.

(** Command events are added whatever the point's own class is. *)
Definition command_event (pt : PointType) (index class variation : Z) (t : Timestamp) (e : Event) : Event :=
  mkEvent pt index class variation t (EBinary e) (EDoubleBit e) (ECounter e) (EFrozenCounter e)
    (EDataset e) (ESecurityStatistic e) (EFrozenAnalog e) (EAnalog e) (EBinaryOutput e)
    (EAnalogOutput e) (EOctetString e) (CommandStatus e) (CommandState e) (CommandValue e)
    (selected e) (seq_ e).

Definition RaiseBinaryCommandEvent (db : Database) (index : Z) (state : bool) (status at_ : Z) : Database :=
  match binaryOut db !! Z.to_nat index, db_events db with
  | Some p, Some b =>
      let cfg := pcfg p in
      if CommandEventClass cfg =? ClassNone then db
      else
        let variation := CommandEventVariation cfg in
        let variation := if negb (variation =? 1) && negb (variation =? 2) then 2 else variation in
        set_events (Some (Add b (command_event TypeBinaryCommandEvent index (CommandEventClass cfg) variation
          (Now at_) (of_command status state f64_zero)))) db
  | _, _ => db
  end.

Definition RaiseAnalogCommandEvent (db : Database) (index : Z) (v : spec_float)
    (commandVariation status at_ : Z) : Database :=
  match analogOut db !! Z.to_nat index, db_events db with
  | Some p, Some b =>
      let cfg := pcfg p in
      if CommandEventClass cfg =? ClassNone then db
      else
        let variation := CommandEventVariation cfg in
        let variation :=
          if (variation <? 1) || (8 <? variation) then
            if commandVariation =? 2 then 4 else if commandVariation =? 3 then 7
            else if commandVariation =? 4 then 8 else 3
          else variation in
        set_events (Some (Add b (command_event TypeAnalogCommandEvent index (CommandEventClass cfg) variation
          (Now at_) (of_command status false v)))) db
  | _, _ => db
  end.

(** ** Octet strings *)

(** The octets a slice shows. *)
Definition read (h : list (list Z)) (s : GoSlice) : list Z := take (Z.to_nat (slen s)) (h !!! arr s).

Section Octets.
(** The capacity [append] gives a new array, for the old capacity and the length needed: the
    language says only that the result fits. *)
Context (grow : Z -> Z -> Z).

(** [append(s[:0], v...)]: into the array of [s] when its capacity suffices, into a new one
    otherwise. *)
Definition append_over (h : list (list Z)) (s : GoSlice) (v : list Z) : list (list Z) * GoSlice :=
  let n := len v in
  if n <=? scap s
  then (alter (fun a => v ++ drop (length v) a) (arr s) h, mkSlice (arr s) n (scap s))
  else
    let cap := grow (scap s) n in
    (h ++ [v ++ replicate (Z.to_nat (cap - n)) 0], mkSlice (length h) n cap).

Definition UpdateOctetString (db : Database) (index : Z) (v : list Z) : Database :=
  match octet db !! Z.to_nat index with
  | None => db
  | Some p =>
      let v := if MaxOctetStringLen <? len v then take (Z.to_nat MaxOctetStringLen) v else v in
      let differs := negb (bool_decide (read (arrays db) (value p) = v)) in
      let '(h, s) := append_over (arrays db) (value p) v in
      let db := set_arrays h (set_octet (<[Z.to_nat index := with_value s p]> (octet db)) db) in
      if differs
      then raise db (pcfg p)
             (command_event TypeOctetString index ClassNone (u8 (len v)) NoTime (of_octets s))
      else db
  end.
End Octets.

(** ** Reads *)

Definition get {T} (zero : T) (pts : list (point T)) (index : Z) : T * PointConfig * bool :=
  match pts !! Z.to_nat index with
  | None => (zero, PointConfig0, false)
  | Some p => (value p, pcfg p, true)
  end.
Definition Database_Binary (db : Database) (index : Z) := get Binary0 (binary db) index.
Definition Database_DoubleBit (db : Database) (index : Z) := get Counter0 (doubleBit db) index.
Definition Database_Counter (db : Database) (index : Z) := get Counter0 (counter db) index.
Definition Database_FrozenCounter (db : Database) (index : Z) := get Counter0 (frozen db) index.
Definition Database_Analog (db : Database) (index : Z) := get Analog0 (analog db) index.
Definition Database_BinaryOutputStatus (db : Database) (index : Z) := get Binary0 (binaryOut db) index.
Definition Database_AnalogOutputStatus (db : Database) (index : Z) := get Analog0 (analogOut db) index.
Definition Database_OctetString (db : Database) (index : Z) := get nil_slice (octet db) index.

(** ** Freezes *)

Definition freeze_one (clear : bool) (at_ : Timestamp) (db : Database) (i : Z) : Database :=
  match counter db !! Z.to_nat i with
  | None => db
  | Some p =>
      let c := value p in
      let db := setFrozen db i (mkMeasurement (Value c) (Flags c) at_) true in
      if clear then setCounter db (u16 i) (mkMeasurement 0 (Flags c) at_) else db
  end.

Definition freezeRange (db : Database) (start stop : Z) (at_ : Timestamp) (clear : bool) : Database :=
  let n := Z.min (len (counter db)) (len (frozen db)) in
  fold_left (freeze_one clear at_) (seqZ start (Z.min (stop + 1) n - start)) db.
Definition freezeCountersRange (db : Database) (start stop : Z) (at_ : Timestamp) : Database :=
  freezeRange db start stop at_ false.
Definition freezeClearCountersRange (db : Database) (start stop : Z) (at_ : Timestamp) : Database :=
  freezeRange db start stop at_ true.
Definition FreezeCounters (db : Database) (now : Z) : Database :=
  freezeCountersRange db 0 0xFFFF (Unsynchronized now).

Definition staticGroupVar (pt : PointType) (variation : Z) : GroupVar :=
  GV (match pt with
      | TypeBinary => 1 | TypeDoubleBitBinary => 3 | TypeCounter => 20 | TypeFrozenCounter => 21
      | TypeFrozenAnalog => 31 | TypeVirtualTerminal => 112 | TypeAnalog => 30
      | TypeBinaryOutputStatus => 10 | TypeAnalogOutputStatus => 40 | TypeOctetString => 110
      | _ => 0
      end) variation.

(** ** The deadband *)

(** The master's picture [r] of a point is close enough to its value [v]: it is that value,
    or both are NaN, or they differ by no more than the deadband [d]. *)
Definition close (d r v : spec_float) : Prop :=
  r = v \/ (IsNaN r = true /\ IsNaN v = true) \/
  (IsNaN r = false /\ IsNaN v = false /\
   SFltb d (if SFltb (f64_sub v r) f64_zero then SFopp (f64_sub v r) else f64_sub v r) = false).

Lemma shouldReport_spec {T} (p p' : point T) v fl rep :
  shouldReport p v fl = (p', rep) ->
  value p' = value p /\ pcfg p' = pcfg p /\ hasEvent p' = true /\
  close (Deadband (pcfg p)) (reported p') v /\
  (if rep then reported p' = v else reported p' = reported p /\ hasEvent p = true /\ fl = false) /\
  (hasEvent p = false -> rep = true).
Proof.
  unfold shouldReport, close. intros H.
  destruct (hasEvent p) eqn:Eh, fl; cbn [negb orb] in H.
  2:{ destruct (IsNaN v) eqn:Ev, (IsNaN (reported p)) eqn:Er; cbn [orb Bool.eqb] in H.
      4: destruct (SFltb (Deadband (pcfg p)) _) eqn:Ed.
      all: injection H as <- <-; cbn; split_and!; try done; auto. }
  all: injection H as <- <-; cbn; split_and!; try done; auto.
Qed.

(** The event an analog update raises, and the buffer after raising one. *)
Definition analog_event (i : Z) (cfg : PointConfig) (v : Analog) : Event :=
  with_class (Class cfg) (event TypeAnalog i cfg (Time v) (of_analog v)).
Definition raised (cfg : PointConfig) (b : option EventBuffer) (e : Event) : option EventBuffer :=
  if Class cfg =? ClassNone then b else (fun b => Add b e) <$> b.

Lemma raise_events db cfg e :
  db_events (raise db cfg e) = raised cfg (db_events db) (with_class (Class cfg) e).
Proof. unfold raise, raised. destruct (db_events db) as [b|] eqn:E, (Class cfg =? ClassNone); cbn; congruence. Qed.
Lemma raise_analog db cfg e : analog (raise db cfg e) = analog db.
Proof. unfold raise. destruct (db_events db); [|done]. by destruct (Class cfg =? ClassNone). Qed.

Lemma UpdateAnalog_spec db i v p :
  0 <= i -> analog db !! Z.to_nat i = Some p ->
  exists p' (rep : bool), analog (UpdateAnalog db i v) !! Z.to_nat i = Some p' /\
    value p' = v /\ pcfg p' = pcfg p /\ hasEvent p' = true /\
    close (Deadband (pcfg p)) (reported p') (Value v) /\
    (hasEvent p = false -> rep = true) /\
    (if rep then reported p' = Value v /\
       db_events (UpdateAnalog db i v) = raised (pcfg p) (db_events db) (analog_event i (pcfg p) v)
     else reported p' = reported p /\ db_events (UpdateAnalog db i v) = db_events db).
Proof.
  intros Hi Hp. unfold UpdateAnalog. rewrite Hp.
  destruct (shouldReport (with_value v p) (Value v) _) as [p' rep] eqn:E.
  destruct (shouldReport_spec _ _ _ _ _ E) as (H1 & H2 & H3 & H4 & H5 & H6).
  exists p', rep. assert (Hlt : (Z.to_nat i < length (analog db))%nat) by (by eapply lookup_lt_Some).
  destruct rep.
  - rewrite raise_analog, raise_events. cbn. rewrite list_lookup_insert_eq by done. rewrite H2.
    split_and!; try done.
  - cbn. rewrite list_lookup_insert_eq by done. destruct H5 as (? & ? & ?). split_and!; try done.
Qed.

Fixpoint updates (db : Database) (i : Z) (vs : list Analog) : Database :=
  match vs with [] => db | v :: vs => updates (UpdateAnalog db i v) i vs end.

Lemma updates_spec vs db i p :
  0 <= i -> analog db !! Z.to_nat i = Some p ->
  exists p' rs, analog (updates db i vs) !! Z.to_nat i = Some p' /\ pcfg p' = pcfg p /\
    sublist rs vs /\
    db_events (updates db i vs) = fold_left (raised (pcfg p)) (analog_event i (pcfg p) <$> rs) (db_events db) /\
    reported p' = default (reported p) (Value <$> last rs) /\
    value p' = default (value p) (last vs) /\
    (vs <> [] -> close (Deadband (pcfg p)) (reported p') (Value (value p')) /\
                 (hasEvent p = false -> head rs = head vs)).
Proof.
  revert db p. induction vs as [|v vs IH]; intros db p Hi Hp.
  { exists p, []. split_and!; try done. }
  cbn [updates]. destruct (UpdateAnalog_spec db i v p Hi Hp) as (q & rep & Hq & Hv & Hc & Hh & Hcl & Hf & Hr).
  destruct (IH _ q Hi Hq) as (p' & rs & H1 & H2 & H3 & H4 & H5 & H6 & H7). rewrite Hc in *.
  exists p', (if rep then v :: rs else rs).
  assert (Hlast : last (v :: vs) = Some (default v (last vs))) by (by rewrite last_cons; destruct (last vs)).
  assert (Hval : value p' = default (value p) (last (v :: vs))) by (rewrite Hlast, H6, Hv; done).
  split_and!; try done.
  - destruct rep; by constructor.
  - destruct rep; cbn [fmap list_fmap fold_left]; rewrite H4; destruct Hr as [_ ->]; done.
  - destruct rep; [|destruct Hr as [<- _]; done]. rewrite H5, last_cons. destruct Hr as [-> _].
    by destruct (last rs).
  - intros _. split.
    + destruct vs as [|w vs']; [|by apply H7]. inversion H3. subst rs. cbn in H5, H6. by rewrite H5, H6, Hv.
    + intros Hn. rewrite (Hf Hn). done.
Qed.

(** C29. Deadbands are measured against what the master was told.  Over any sequence of
    updates of an analog point, the events raised are those of a subsequence of the updates,
    in order, starting with the first; and after the last update its value is within the
    deadband of the value of the last event raised (or both are NaN), however slowly it
    drifted there. *)
Theorem deadband_tracks db i vs p :
  0 <= i -> analog db !! Z.to_nat i = Some p -> hasEvent p = false -> vs <> [] ->
  exists p' rs r, analog (updates db i vs) !! Z.to_nat i = Some p' /\ Some (value p') = last vs /\
    sublist rs vs /\ head rs = head vs /\ last rs = Some r /\
    db_events (updates db i vs) = fold_left (raised (pcfg p)) (analog_event i (pcfg p) <$> rs) (db_events db) /\
    close (Deadband (pcfg p)) (Value r) (Value (value p')).
Proof.
  intros Hi Hp Hh Hne. destruct (updates_spec vs db i p Hi Hp) as (p' & rs & H1 & H2 & H3 & H4 & H5 & H6 & H7).
  destruct (H7 Hne) as [Hc Hhd]. specialize (Hhd Hh).
  destruct rs as [|r0 rs]; [destruct vs; done|].
  destruct (last (r0 :: rs)) as [r|] eqn:El; [|by apply last_None in El].
  exists p', (r0 :: rs), r. cbn in H5. rewrite H5 in Hc. split_and!; try done.
  rewrite H6. destruct vs as [|v vs]; [done|]. rewrite last_cons. by destruct (last vs).
Qed.

Definition analog_of (z : Z) : Analog := mkMeasurement (f64_of_Z z) Online NoTime.
Definition witness_db : Database :=
  fst (Configure (NewDatabase (mkDatabaseConfig 0 0 2 2 1 0 0 0 0 0 1 Class1) (Some (NewEventBuffer 10)))
         TypeAnalog 0 (mkPointConfig Class2 0 0 (f64_of_Z 5) ClassNone 0)).

(** A ramp of 2 per update, with a deadband of 5, is reported every third update. *)
Lemma deadband_tracks_witness :
  let vs := analog_of <$> [0; 2; 4; 6; 8; 10] in
  (fun b => (fun e => Value (EAnalog e)) <$> events b) <$> db_events (updates witness_db 0 vs)
    = Some (f64_of_Z <$> [0; 6]) /\
  exists p' r, analog (updates witness_db 0 vs) !! 0%nat = Some p' /\ close (f64_of_Z 5) (Value r) (Value (value p')).
Proof.
  intros vs. split; [vm_compute; reflexivity|].
  destruct (analog witness_db !! 0%nat) as [p|] eqn:Ep; [|vm_compute in Ep; discriminate].
  destruct (deadband_tracks witness_db 0 vs p) as (p' & rs & r & H1 & _ & _ & _ & _ & _ & H2).
  - lia.
  - exact Ep.
  - vm_compute in Ep. by injection Ep as <-.
  - discriminate.
  - exists p', r. split; [exact H1|]. vm_compute in Ep. injection Ep as <-. exact H2.
Defined.

(** ** Freezes *)

Lemma raise_points db cfg e :
  counter (raise db cfg e) = counter db /\ frozen (raise db cfg e) = frozen db.
Proof. unfold raise. destruct (db_events db); [|done]. by destruct (Class cfg =? ClassNone). Qed.

Lemma setFrozen_points db i v fz p :
  frozen db !! Z.to_nat i = Some p ->
  counter (setFrozen db i v fz) = counter db /\
  frozen (setFrozen db i v fz) = <[Z.to_nat i := with_value v p]> (frozen db).
Proof.
  intros Hp. unfold setFrozen. rewrite Hp.
  destruct (_ || fz); [|done]. by rewrite !(proj1 (raise_points _ _ _)), !(proj2 (raise_points _ _ _)).
Qed.

Lemma setCounter_points db i v p :
  counter db !! Z.to_nat i = Some p ->
  frozen (setCounter db i v) = frozen db /\
  exists p', counter (setCounter db i v) = <[Z.to_nat i := p']> (counter db) /\ value p' = v /\ pcfg p' = pcfg p.
Proof.
  intros Hp. unfold setCounter. rewrite Hp.
  destruct (_ || _).
  - destruct (shouldReport (with_value v p) _ _) as [p' rep] eqn:E.
    destruct (shouldReport_spec _ _ _ _ _ E) as (H1 & H2 & _).
    destruct rep; rewrite ?(proj1 (raise_points _ _ _)), ?(proj2 (raise_points _ _ _)); split; try done;
      exists p'; done.
  - split; [done|]. by exists (with_value v p).
Qed.

(** One point of a freeze: its frozen value is the counter's, stamped with the time of the
    freeze; with [clear] the counter starts again from zero; no other point moves. *)
Definition froze_point (clear : bool) (at_ : Timestamp) (db db' : Database) (j : nat) : Prop :=
  match counter db !! j, frozen db !! j with
  | Some c, Some f =>
      (exists f', frozen db' !! j = Some f' /\
         value f' = mkMeasurement (Value (value c)) (Flags (value c)) at_ /\ pcfg f' = pcfg f) /\
      (exists c', counter db' !! j = Some c' /\
         value c' = (if clear then mkMeasurement 0 (Flags (value c)) at_ else value c) /\ pcfg c' = pcfg c)
  | _, _ => True
  end.
Definition same_point (db db' : Database) (j : nat) : Prop :=
  counter db' !! j = counter db !! j /\ frozen db' !! j = frozen db !! j.

Lemma freeze_one_spec clear at_ db i :
  0 <= i < 65536 -> i < len (counter db) -> i < len (frozen db) ->
  froze_point clear at_ db (freeze_one clear at_ db i) (Z.to_nat i) /\
  (forall j, j <> Z.to_nat i -> same_point db (freeze_one clear at_ db i) j) /\
  len (counter (freeze_one clear at_ db i)) = len (counter db) /\
  len (frozen (freeze_one clear at_ db i)) = len (frozen db).
Proof.
  intros Hi Hc Hf. unfold len in *.
  destruct (lookup_lt_is_Some_2 (counter db) (Z.to_nat i)) as [c Ec]; [lia|].
  destruct (lookup_lt_is_Some_2 (frozen db) (Z.to_nat i)) as [f Ef]; [lia|].
  unfold freeze_one. rewrite Ec.
  set (v := mkMeasurement (Value (value c)) (Flags (value c)) at_).
  destruct (setFrozen_points db i v true f Ef) as [Hfc Hff].
  unfold froze_point, same_point. rewrite Ec, Ef. destruct clear.
  - rewrite u16_small by done.
    assert (Ec' : counter (setFrozen db i v true) !! Z.to_nat i = Some c) by (by rewrite Hfc).
    destruct (setCounter_points _ i (mkMeasurement 0 (Flags (value c)) at_) c Ec') as (H1 & c' & H2 & H3 & H4).
    rewrite H1, H2, Hfc, Hff, !length_insert. split_and!.
    + exists (with_value v f). by rewrite list_lookup_insert_eq by lia.
    + exists c'. by rewrite list_lookup_insert_eq by lia.
    + intros j Hj. by rewrite !list_lookup_insert_ne by done.
    + done.
    + done.
  - rewrite Hfc, Hff, length_insert. split_and!; try done.
    + exists (with_value v f). by rewrite list_lookup_insert_eq by lia.
    + by exists c.
    + intros j Hj. by rewrite list_lookup_insert_ne by done.
Qed.

Lemma freeze_loop_spec clear at_ (n : nat) start db :
  0 <= start -> start + Z.of_nat n <= 65536 ->
  start + Z.of_nat n <= len (counter db) -> start + Z.of_nat n <= len (frozen db) ->
  let db' := fold_left (freeze_one clear at_) (seqZ start (Z.of_nat n)) db in
  forall j, if (start <=? Z.of_nat j) && (Z.of_nat j <? start + Z.of_nat n)
            then froze_point clear at_ db db' j else same_point db db' j.
Proof.
  revert start db. induction n as [|n IH]; intros start db H0 H1 H2 H3 db' j.
  { replace ((start <=? Z.of_nat j) && _) with false; [done|]. symmetry. apply andb_false_iff.
    destruct (Z.leb_spec start (Z.of_nat j)); [right; apply Z.ltb_ge; lia | by left]. }
  unfold db'. rewrite seqZ_cons by lia. cbn [fold_left].
  destruct (freeze_one_spec clear at_ db start) as (S1 & S2 & S3 & S4); [lia.. |].
  replace (Z.pred (Z.of_nat (S n))) with (Z.of_nat n) by lia.
  specialize (IH (Z.succ start) (freeze_one clear at_ db start)).
  cbv zeta in IH. rewrite S3, S4 in IH. specialize (IH ltac:(lia) ltac:(lia) ltac:(lia) ltac:(lia) j).
  destruct (decide (j = Z.to_nat start)) as [->|Hj].
  - replace ((Z.succ start <=? _) && _) with false in IH
      by (symmetry; apply andb_false_iff; left; apply Z.leb_gt; lia).
    replace ((start <=? _) && _) with true
      by (symmetry; apply andb_true_iff; rewrite Z.leb_le, Z.ltb_lt; lia).
    destruct IH as [I1 I2]. unfold froze_point in *. rewrite I1, I2. exact S1.
  - specialize (S2 j Hj). destruct S2 as [E1 E2].
    replace ((start <=? Z.of_nat j) && (Z.of_nat j <? start + Z.of_nat (S n)))
      with ((Z.succ start <=? Z.of_nat j) && (Z.of_nat j <? Z.succ start + Z.of_nat n)).
    2:{ apply eq_bool_prop_intro. rewrite !Is_true_true, !andb_true_iff, !Z.leb_le, !Z.ltb_lt. lia. }
    destruct (_ && _); [unfold froze_point in *; by rewrite <- E1, <- E2|].
    destruct IH as [I1 I2]. split; congruence.
Qed.

(** A freeze is a snapshot: for each counter named that has a frozen counterpart, the
    frozen value becomes the counter's value and flags at the time of the freeze; a
    freeze-and-clear then resets exactly those counters to zero, keeping their flags; every
    other point is untouched. *)
Theorem freeze_snapshot db start stop at_ clear :
  0 <= start <= 0xFFFF -> 0 <= stop <= 0xFFFF ->
  let db' := freezeRange db start stop at_ clear in
  forall j, if (start <=? Z.of_nat j) && (Z.of_nat j <=? stop) &&
               (Z.of_nat j <? Z.min (len (counter db)) (len (frozen db)))
            then froze_point clear at_ db db' j else same_point db db' j.
Proof.
  intros Hs Ht db' j. unfold db', freezeRange.
  set (m := Z.min (len (counter db)) (len (frozen db))). set (k := Z.min (stop + 1) m - start).
  destruct (Z.le_gt_cases k 0) as [Hk|Hk].
  { rewrite seqZ_nil by lia. cbn [fold_left].
    replace ((start <=? Z.of_nat j) && _ && _) with false; [done|]. symmetry. apply not_true_iff_false.
    rewrite !andb_true_iff, !Z.leb_le, Z.ltb_lt. lia. }
  replace k with (Z.of_nat (Z.to_nat k)) by lia.
  pose proof (freeze_loop_spec clear at_ (Z.to_nat k) start db ltac:(lia) ltac:(lia) ltac:(lia) ltac:(lia) j) as H.
  replace ((start <=? Z.of_nat j) && (Z.of_nat j <=? stop) && (Z.of_nat j <? m))
    with ((start <=? Z.of_nat j) && (Z.of_nat j <? start + Z.of_nat (Z.to_nat k))); [exact H|].
  apply eq_bool_prop_intro. rewrite !Is_true_true, !andb_true_iff, !Z.leb_le, !Z.ltb_lt. lia.
Qed.

Lemma freeze_snapshot_witness :
  let db := UpdateCounter (UpdateCounter witness_db 0 (mkMeasurement 7 Online NoTime)) 1 (mkMeasurement 9 Online NoTime) in
  let db' := freezeRange db 1 5 (Now 1000) true in
  (fun p => Value (value p)) <$> counter db' = [7; 0] /\ (fun p => Value (value p)) <$> frozen db' = [0; 9] /\
  froze_point true (Now 1000) db db' 1 /\ same_point db db' 0.
Proof.
  intros db db'. split; [vm_compute; reflexivity|]. split; [vm_compute; reflexivity|].
  pose proof (freeze_snapshot db 1 5 (Now 1000) true ltac:(lia) ltac:(lia)) as H.
  split; [exact (H 1%nat) | exact (H 0%nat)].
Defined.

(** ** Configurations *)

#[local] Opaque eventVariationEncodable.

Definition cfgs_ok {T} (pt : PointType) (pts : list (point T)) : Prop :=
  Forall (fun p => eventVariationEncodable pt (EventVariation (pcfg p)) = true) pts.

(** Every point's events can be encoded in the variation it is configured with. *)
Definition encodable (db : Database) : Prop :=
  cfgs_ok TypeBinary (binary db) /\ cfgs_ok TypeDoubleBitBinary (doubleBit db) /\
  cfgs_ok TypeCounter (counter db) /\ cfgs_ok TypeFrozenCounter (frozen db) /\
  cfgs_ok TypeFrozenAnalog (frozenAnalog db) /\ cfgs_ok TypeAnalog (analog db) /\
  cfgs_ok TypeBinaryOutputStatus (binaryOut db) /\ cfgs_ok TypeAnalogOutputStatus (analogOut db).

Lemma makePoints_ok {T} (zero : T) n pt class :
  eventVariationEncodable pt (defaultEventVariations pt) = true -> cfgs_ok pt (makePoints zero n pt class).
Proof. intros H. by apply Forall_replicate. Qed.

Lemma setConfig_ok {T} (pt : PointType) (pts pts' : list (point T)) i cfg :
  eventVariationEncodable pt (EventVariation cfg) = true -> cfgs_ok pt pts ->
  setConfig pts i cfg = Some pts' -> cfgs_ok pt pts'.
Proof.
  intros He Hok. unfold setConfig. destruct (_ || _); [done|].
  destruct (pts !! Z.to_nat i) as [p|] eqn:Ep; [|done]. intros [= <-].
  apply Forall_insert; [done|]. cbn [pcfg with_cfg].
  pose proof (Forall_lookup_1 _ _ _ _ Hok Ep) as Hp. cbn in Hp.
  destruct (StaticVariation cfg =? 0); cbn [EventVariation]; by destruct (EventVariation cfg =? 0).
Qed.

Lemma assignClass_ok {T} (pt : PointType) (pts : list (point T)) class start stop :
  cfgs_ok pt pts -> cfgs_ok pt (assignClass pts class start stop).
Proof.
  intros Hok. unfold assignClass, cfgs_ok in *. apply Forall_lookup. intros i p Hp.
  rewrite list_lookup_imap in Hp. destruct (pts !! i) as [q|] eqn:Eq; [|done]. cbn in Hp.
  injection Hp as <-. pose proof (Forall_lookup_1 _ _ _ _ Hok Eq) as Hq. cbn in Hq.
  by destruct (_ && _).
Qed.

Inductive config_step : Database -> Database -> Prop :=
| step_configure db pt i cfg : config_step db (fst (Configure db pt i cfg))
| step_assign db pt class start stop : config_step db (assignClassRange db pt class start stop).

(** Closes a goal on one table by the hypothesis on that table, changed or not. *)
Ltac cfgs_tac :=
  lazymatch goal with
  | H : cfgs_ok ?pt ?pts |- cfgs_ok ?pt ?pts => exact H
  | E : setConfig _ _ _ = Some ?pts, H : cfgs_ok ?pt _, He : eventVariationEncodable ?pt _ = true
    |- cfgs_ok ?pt ?pts => exact (setConfig_ok _ _ _ _ _ He H E)
  | H : cfgs_ok ?pt ?pts |- cfgs_ok ?pt (assignClass ?pts _ _ _) => exact (assignClass_ok _ _ _ _ _ H)
  end.

Lemma config_step_encodable db db' : encodable db -> config_step db db' -> encodable db'.
Proof.
  intros H Hs. pose proof H as (H1 & H2 & H3 & H4 & H5 & H6 & H7 & H8).
  destruct Hs as [db pt i cfg|db pt class start stop].
  - unfold Configure. destruct (eventVariationEncodable pt (EventVariation cfg)) eqn:E; cbn [negb]; [|exact H].
    destruct pt; try exact H.
    all: destruct (setConfig _ i cfg) as [pts|] eqn:Es; cbn [fst]; [|exact H].
    all: unfold encodable, set_binary, set_doubleBit, set_counter, set_frozen, set_frozenAnalog, set_terminal,
           set_analog, set_binaryOut, set_analogOut, set_octet.
    all: cbn [binary doubleBit counter frozen frozenAnalog analog binaryOut analogOut].
    all: repeat apply conj; cfgs_tac.
  - unfold assignClassRange. destruct pt; try exact H.
    all: unfold encodable, set_binary, set_doubleBit, set_counter, set_frozen, set_frozenAnalog, set_terminal,
           set_analog, set_binaryOut, set_analogOut, set_octet, set_datasetClasses.
    all: cbn [binary doubleBit counter frozen frozenAnalog analog binaryOut analogOut].
    all: repeat apply conj; cfgs_tac.
Qed.

(** However a database is configured, by the application or by ASSIGN_CLASS requests,
    every measurement point keeps an event variation that an encoding of a whole number of
    octets exists for, so that no event it raises is impossible to report. *)
Theorem config_encodable cfg events db :
  rtc config_step (NewDatabase cfg events) db -> encodable db.
Proof.
  revert db. apply rtc_ind_r.
  - unfold encodable, NewDatabase. cbn [binary doubleBit counter frozen frozenAnalog analog binaryOut analogOut].
    split_and!; apply makePoints_ok; vm_compute; reflexivity.
  - intros db db' _ Hs Hok. exact (config_step_encodable db db' Hok Hs).
Qed.

(** A variation without an encoding is refused. *)
Lemma config_encodable_witness :
  let db0 := NewDatabase (mkDatabaseConfig 1 0 0 0 1 0 0 0 0 0 0 Class1) None in
  snd (Configure db0 TypeAnalog 0 (mkPointConfig Class1 0 9 f64_zero ClassNone 0)) = false /\
  encodable (fst (Configure db0 TypeAnalog 0 (mkPointConfig Class1 0 7 f64_zero ClassNone 0))).
Proof.
  intros db0. split; [vm_compute; reflexivity|].
  apply (config_encodable (mkDatabaseConfig 1 0 0 0 1 0 0 0 0 0 0 Class1) None).
  apply rtc_once. apply step_configure.
Defined.

(** ** The octets of a queued event *)

Definition octet_event (i : Z) (s : GoSlice) : Event :=
  command_event TypeOctetString i ClassNone (u8 (slen s)) NoTime (of_octets s).

(** What an update that changes the string does, on a point that reports to a class. *)
Lemma UpdateOctetString_changes grow db i p v b h s :
  octet db !! Z.to_nat i = Some p -> db_events db = Some b -> Class (pcfg p) <> ClassNone ->
  len v <= MaxOctetStringLen -> read (arrays db) (value p) <> v ->
  append_over grow (arrays db) (value p) v = (h, s) ->
  UpdateOctetString grow db i v =
    set_events (Some (Add b (with_class (Class (pcfg p)) (octet_event i s))))
      (set_arrays h (set_octet (<[Z.to_nat i := with_value s p]> (octet db)) db)).
Proof.
  intros Hp Hb Hcl Hv Hne Ha. apply Z.eqb_neq in Hcl. unfold UpdateOctetString. rewrite Hp.
  destruct (Z.ltb_spec MaxOctetStringLen (len v)) as [Hx|_]; [lia|].
  rewrite bool_decide_eq_false_2 by done. rewrite Ha. cbn [negb]. unfold raise.
  cbn [db_events set_arrays set_octet]. rewrite Hb, Hcl. unfold octet_event.
  replace (slen s) with (len v); [done|]. revert Ha. unfold append_over.
  destruct (_ <=? _); by intros [= _ <-].
Qed.

Lemma append_over_new grow h v : 0 < len v ->
  append_over grow h nil_slice v =
    (h ++ [v ++ replicate (Z.to_nat (grow 0 (len v) - len v)) 0], mkSlice (length h) (len v) (grow 0 (len v))).
Proof. intros Hv. unfold append_over. cbn [scap nil_slice]. by destruct (Z.leb_spec (len v) 0); [lia|]. Qed.

Lemma append_over_reuse grow h s v : len v <= scap s ->
  append_over grow h s v = (alter (fun a => v ++ drop (length v) a) (arr s) h, mkSlice (arr s) (len v) (scap s)).
Proof. intros Hv. unfold append_over. by destruct (Z.leb_spec (len v) (scap s)); [|lia]. Qed.

(** A slice of the array just allocated, before and after a shorter string is written over it. *)
Lemma read_new h a n c : read (h ++ [a]) (mkSlice (length h) n c) = take (Z.to_nat n) a.
Proof. unfold read. cbn [arr slen]. by rewrite list_lookup_total_alt, lookup_app_r, Nat.sub_diag by lia. Qed.

Lemma read_overwritten h a f n c :
  read (alter f (length h) (h ++ [a])) (mkSlice (length h) n c) = take (Z.to_nat n) (f a).
Proof.
  unfold read. cbn [arr slen].
  by rewrite list_lookup_total_alt, list_lookup_alter_eq, lookup_app_r, Nat.sub_diag by lia.
Qed.

Lemma Add_room b e : len (events b) < max b ->
  events (Add b e) = events b ++ [with_seq (u64 (nextSeq b + 1)) e] /\ max (Add b e) = max b.
Proof. intros H. unfold Add. by destruct (Z.leb_spec (max b) (len (events b))); [lia|]. Qed.

(** The event an octet string update queues shares the array of the stored value, and
    the next update reuses that array when the new string is no longer: the event still in
    the queue then shows the new octets followed by what is left of the old ones, whatever
    [append]'s growth policy. *)
Theorem octet_event_overwritten grow db i p v1 v2 b :
  0 <= i -> octet db !! Z.to_nat i = Some p -> value p = nil_slice ->
  db_events db = Some b -> events b = [] -> 1 < max b -> Class (pcfg p) <> ClassNone ->
  0 < len v1 <= MaxOctetStringLen -> len v2 <= len v1 -> v1 <> v2 ->
  (forall c n, n <= grow c n) ->
  let db1 := UpdateOctetString grow db i v1 in
  let db2 := UpdateOctetString grow db1 i v2 in
  exists e1 e2 b2, db_events db2 = Some b2 /\ events b2 = [e1; e2] /\
    read (arrays db1) (EOctetString e1) = v1 /\
    read (arrays db2) (EOctetString e1) = v2 ++ drop (length v2) v1.
Proof.
  intros Hi Hp Hnil Hb He Hmax Hcl Hv1 Hv2 Hne Hg db1 db2.
  set (s1 := mkSlice (length (arrays db)) (len v1) (grow 0 (len v1))).
  set (a1 := v1 ++ replicate (Z.to_nat (grow 0 (len v1) - len v1)) 0).
  assert (H1 : db1 = set_events (Some (Add b (with_class (Class (pcfg p)) (octet_event i s1))))
     (set_arrays (arrays db ++ [a1]) (set_octet (<[Z.to_nat i := with_value s1 p]> (octet db)) db))).
  { apply UpdateOctetString_changes; [done..|lia| |rewrite Hnil; apply append_over_new; lia].
    rewrite Hnil. intros Hx%(f_equal len). unfold read in Hx. rewrite take_0, len_nil in Hx. lia. }
  assert (Hr1 : read (arrays db1) s1 = v1).
  { rewrite H1. cbn [arrays set_events set_arrays]. unfold s1. rewrite read_new. unfold len, a1.
    by rewrite Nat2Z.id, take_app_length. }
  set (s2 := mkSlice (length (arrays db)) (len v2) (grow 0 (len v1))).
  assert (H2 : db2 = set_events (Some (Add (Add b (with_class (Class (pcfg p)) (octet_event i s1)))
                                       (with_class (Class (pcfg p)) (octet_event i s2))))
     (set_arrays (alter (fun a => v2 ++ drop (length v2) a) (length (arrays db)) (arrays db ++ [a1]))
       (set_octet (<[Z.to_nat i := with_value s2 (with_value s1 p)]> (octet db1)) db1))).
  { apply (UpdateOctetString_changes grow db1 i (with_value s1 p)); [| |done|lia| |].
    - rewrite H1. cbn. rewrite list_lookup_insert_eq; [done|]. by eapply lookup_lt_Some.
    - by rewrite H1.
    - cbn [value with_value]. by rewrite Hr1.
    - rewrite H1. apply (append_over_reuse _ _ s1). specialize (Hg 0 (len v1)). cbn [scap s1]. lia. }
  destruct (Add_room b (with_class (Class (pcfg p)) (octet_event i s1))) as [He1 Hm1]; [rewrite He, len_nil; lia|].
  destruct (Add_room (Add b (with_class (Class (pcfg p)) (octet_event i s1)))
              (with_class (Class (pcfg p)) (octet_event i s2))) as [He2 _].
  { rewrite Hm1, He1, He. change (len ([] ++ [_])) with 1. lia. }
  rewrite He1, He in He2. eexists _, _, _. split; [by rewrite H2|]. split; [exact He2|]. split; [exact Hr1|].
  rewrite H2. cbn [arrays set_events set_arrays].
  etransitivity; [apply (read_overwritten (arrays db) a1 _ (len v1) (grow 0 (len v1)))|].
  unfold a1, len in *. rewrite Nat2Z.id, drop_app_le, app_assoc by lia.
  rewrite take_app_le; [apply take_ge|]; rewrite length_app, length_drop; lia.
Qed.

(** "pump off" is queued, then "ready" is stored before the master polls. *)
Lemma octet_event_overwritten_witness :
  let grow (c n : Z) := Z.max 8 n in
  let db := UpdateOctetString grow witness_db 0 [112; 117; 109; 112; 32; 111; 102; 102] in
  let db2 := UpdateOctetString grow db 0 [114; 101; 97; 100; 121] in
  exists e1 e2 b2, db_events db2 = Some b2 /\ events b2 = [e1; e2] /\
    read (arrays db2) (EOctetString e1) = [114; 101; 97; 100; 121; 111; 102; 102].
Proof.
  intros grow db db2.
  assert (Hp : octet witness_db !! Z.to_nat 0 = Some (hd (mkPoint nil_slice PointConfig0 f64_zero false) (octet witness_db)))
    by (vm_compute; reflexivity).
  assert (Hb : db_events witness_db = Some (default (NewEventBuffer 0) (db_events witness_db))) by (vm_compute; reflexivity).
  destruct (octet_event_overwritten grow witness_db 0 _ [112; 117; 109; 112; 32; 111; 102; 102]
    [114; 101; 97; 100; 121] _ ltac:(lia) Hp eq_refl Hb eq_refl)
    as (e1 & e2 & b2 & H1 & H2 & _ & H3).
  - vm_compute. reflexivity.
  - vm_compute. discriminate.
  - vm_compute. split; congruence.
  - vm_compute. congruence.
  - discriminate.
  - intros c n. unfold grow. lia.
  - exists e1, e2, b2. split; [exact H1|]. split; [exact H2 | exact H3].
Defined.
