(* ===== verification/ExtendedDatabase.v ===== *)
(** * The rest of the database (src/outstation/extended_database.go, dataset.go)

    Frozen analogs, times with intervals, virtual terminals and data sets: the points the
    extended services of an outstation read and write. *)

From stdpp Require Import gmap.
From S2P Require Import Prelude Values Floats AppHeader AppObject Objects Codecs ExtObjects EventBuffer Database.

(** ** Frozen analogs *)

Definition Database_FrozenAnalog (db : Database) (index : Z) := get Analog0 (frozenAnalog db) index.

Definition of_frozenAnalog (v : Analog) : Event :=
  mkEvent TypeUnknown 0 ClassNone 0 NoTime Binary0 Counter0 Counter0 Counter0 [] 0 v Analog0
    Binary0 Analog0 nil_slice 0 false f64_zero false 0.

Definition with_reported {T} (v : spec_float) (p : point T) : point T := mkPoint (value p) (pcfg p) v (hasEvent p).

(** [index] is in range. *)
Definition setFrozenAnalog (db : Database) (index : Z) (v : Analog) (freeze : bool) : Database :=
  match frozenAnalog db !! Z.to_nat index with
  | None => db
  | Some p =>
      let flagsChanged := negb (Flags (value p) =? Flags v) in
      let '(p, report) := shouldReport (with_value v p) (Value v) flagsChanged in
      let '(p, report) := if freeze && negb report then (with_reported (Value v) p, true) else (p, report) in
      let db := set_frozenAnalog (<[Z.to_nat index := p]> (frozenAnalog db)) db in
      if report then raise db (pcfg p) (event TypeFrozenAnalog index (pcfg p) (Time v) (of_frozenAnalog v)) else db
  end.

Definition UpdateFrozenAnalog (db : Database) (index : Z) (v : Analog) : Database :=
  if index <? len (frozenAnalog db) then setFrozenAnalog db index v false else db.

Definition freeze_analog (clear : bool) (at_ : Timestamp) (db : Database) (i : Z) : Database :=
  match analog db !! Z.to_nat i with
  | None => db
  | Some p =>
      let v := mkMeasurement (Value (value p)) (Flags (value p)) at_ in
      let db := setFrozenAnalog db (u16 i) v true in
      if clear then
        let v := mkMeasurement f64_zero (Flags v) at_ in
        let '(p, report) := shouldReport (with_value v p) f64_zero false in
        let db := set_analog (<[Z.to_nat i := p]> (analog db)) db in
        if report then raise db (pcfg p) (event TypeAnalog (u16 i) (pcfg p) at_ (of_analog v)) else db
      else db
  end.

Definition freezeAnalogsRange (db : Database) (start stop : Z) (at_ : Timestamp) (clear : bool) : Database :=
  let n := Z.min (len (analog db)) (len (frozenAnalog db)) in
  fold_left (freeze_analog clear at_) (seqZ start (Z.min (stop + 1) n - start)) db.
(** [now] is the host's clock. *)
Definition FreezeAnalogs (db : Database) (now : Z) : Database :=
  freezeAnalogsRange db 0 0xffff (Unsynchronized now) false.

(** ** Times with intervals *)

Definition Database_TimeAndInterval (db : Database) (index : Z) : TimeAndInterval * bool :=
  match timeAndInterval db !! Z.to_nat index with
  | None => (TimeAndInterval0, false)
  | Some v => (v, true)
  end.

Definition set_timeAndInterval v db := mkDatabase (binary db) (doubleBit db) (counter db) (frozen db)
  (analog db) (frozenAnalog db) v (terminal db) (binaryOut db) (analogOut db) (octet db)
  (datasets db) (datasetClasses db) (db_events db) (arrays db).

Definition UpdateTimeAndInterval (db : Database) (index : Z) (v : TimeAndInterval) : Database * bool :=
  if len (timeAndInterval db) <=? index then (db, false)
  else (set_timeAndInterval (<[Z.to_nat index := v]> (timeAndInterval db)) db, true).

(** ** Virtual terminals *)

(** [append(nil, v...)] takes a new array, of the capacity [grow] says. *)
Definition UpdateVirtualTerminal (grow : Z -> Z -> Z) (db : Database) (index : Z) (v : list Z) : Database :=
  match terminal db !! Z.to_nat index with
  | None => db
  | Some p =>
      if (len v =? 0) || (255 <? len v) then db
      else
        let '(h, s) := append_over grow (arrays db) nil_slice v in
        let db := set_arrays h (set_terminal (<[Z.to_nat index := with_value s p]> (terminal db)) db) in
        raise db (pcfg p) (command_event TypeVirtualTerminal index ClassNone (u8 (len v)) NoTime (of_octets s))
  end.

(** ** Data sets *)

Record DatasetObject := mkDatasetObject { DO_Group : Z; DO_Variation : Z; DO_Index : Z; DO_Data : list Z }.

Definition datasetVariationKnown (group variation : Z) : bool :=
  if one_of group [85; 87; 88] then variation =? 1
  else if group =? 86 then (1 <=? variation) && (variation <=? 3)
  else false.

Definition of_dataset (v : list Z) : Event :=
  mkEvent TypeUnknown 0 ClassNone 0 NoTime Binary0 Counter0 Counter0 Counter0 v 0 Analog0 Analog0
    Binary0 Analog0 nil_slice 0 false f64_zero false 0.

Definition set_datasets v db := mkDatabase (binary db) (doubleBit db) (counter db) (frozen db)
  (analog db) (frozenAnalog db) (timeAndInterval db) (terminal db) (binaryOut db) (analogOut db)
  (octet db) v (datasetClasses db) (db_events db) (arrays db).

(** Whether a data set object may be stored. *)
Definition dataset_error (v : DatasetObject) : option ObjectErr :=
  if negb (datasetVariationKnown (DO_Group v) (DO_Variation v)) || (DO_Group v =? 88) || (len (DO_Data v) =? 0)
     || (MaxFreeFormatObject <? len (DO_Data v)) then Some ErrBadConfig
  else if (DO_Group v =? 86) && (DO_Variation v =? 2) && negb (len (DO_Data v) =? 1) then Some ErrBadConfig
  else if (DO_Group v =? 85) || ((DO_Group v =? 86) && (DO_Variation v =? 1)) then
    match ParseDatasetDescriptor (DO_Data v) with Err e => Some e | Ok _ => None end
  else None.

Definition UpdateDataset (db : Database) (v : DatasetObject) (class : Z) : Database * option ObjectErr :=
  match dataset_error v with
  | Some e => (db, Some e)
  | None =>
      let db := set_datasets (<[(DO_Group v, DO_Variation v, DO_Index v) := DO_Data v]> (datasets db)) db in
      let class := default class (datasetClasses db !! DO_Index v) in
      let db :=
        match db_events db with
        | Some b =>
            if (DO_Group v =? 87) && negb (Z.land class Class123 =? 0)
            then set_events (Some (Add b (command_event TypeDataset (DO_Index v) (Z.land class Class123) 1 NoTime
                                           (of_dataset (DO_Data v))))) db
            else db
        | None => db
        end in
      (db, None)
  end.
