(* ===== verification/Commands.v ===== *)
(** * Controls (src/objects/commands.go, src/outstation/command.go)

    The command objects a master sends, and how an outstation carries them out: directly, or
    reserved by a SELECT and released by the OPERATE that repeats it exactly.

    The part of the outstation session the handlers of this file touch is [Session]: the
    selection, the internal indications and the database.  The application is a parameter:
    a state [W] with a clock and a command handler, whose methods may change it.  What the
    session does with the response body ([respond]) is outside this file, and [onCommand]
    returns the body it is called with; log lines are left out.

    The theorems: an OPERATE reaches the handler only through a live selection of the same
    octets, which it uses up; and a response is the request with the statuses filled in. *)

From S2P Require Import Prelude Values Floats AppHeader AppObject AppFragment Objects EventBuffer Database.

(** ** Command objects *)

Definition CROBSize : Z := 11.

Definition ParseCROB (buf : list Z) : ControlRelayOutputBlock :=
  mkCROB (at_ buf 0) (at_ buf 1) (le_val (slice 2 6 buf)) (le_val (slice 6 10 buf)) (at_ buf 10).
Definition AppendCROB (dst : list Z) (c : ControlRelayOutputBlock) : list Z :=
  (dst ++ [u8 (Code c); CCount c]) ++ le32 (OnTime c) ++ le32 (OffTime c) ++ [u8 (CStatus c)].

Definition AnalogOutput32Size : Z := 5.
Definition AnalogOutput16Size : Z := 3.
Definition AnalogOutputFloatSize : Z := 5.
Definition AnalogOutputDblSize : Z := 9.

Definition ParseAnalogOutputInt32 (buf : list Z) : AnalogOutputInt32 :=
  mkAO32 (int_of 32 (le_val (slice 0 4 buf))) (at_ buf 4).
Definition AppendAnalogOutputInt32 (dst : list Z) (v : AnalogOutputInt32) : list Z :=
  (dst ++ le32 (uint_of 32 (AO32_Value v))) ++ [u8 (AO32_Status v)].
Definition ParseAnalogOutputInt16 (buf : list Z) : AnalogOutputInt16 :=
  mkAO16 (int_of 16 (le_val (slice 0 2 buf))) (at_ buf 2).
Definition AppendAnalogOutputInt16 (dst : list Z) (v : AnalogOutputInt16) : list Z :=
  (dst ++ le16 (uint_of 16 (AO16_Value v))) ++ [u8 (AO16_Status v)].
Definition ParseAnalogOutputFloat32 (buf : list Z) : AnalogOutputFloat32 :=
  mkAOF (le_val (slice 0 4 buf)) (at_ buf 4).
Definition AppendAnalogOutputFloat32 (dst : list Z) (v : AnalogOutputFloat32) : list Z :=
  (dst ++ le32 (AOF_Bits v)) ++ [u8 (AOF_Status v)].
Definition ParseAnalogOutputFloat64 (buf : list Z) : AnalogOutputFloat64 :=
  mkAOD (le_val (slice 0 8 buf)) (at_ buf 8).
Definition AppendAnalogOutputFloat64 (dst : list Z) (v : AnalogOutputFloat64) : list Z :=
  (dst ++ le64 (AOD_Bits v)) ++ [u8 (AOD_Status v)].

(** ** The selection *)

Inductive OperateType := OperateDirect | OperateDirectNoAck | OperateSelected.

Record AnalogOutput := mkAnalogOutput { AOValue : spec_float; AOVariation : Z }.

Record selection := mkSelection { active : bool; sel_objects : list Z; sel_seq : Z; expires : Z }.
Definition selection0 : selection := mkSelection false [] 0 zeroTime.

Definition sel_clear (s : selection) : selection := mkSelection false [] (sel_seq s) (expires s).

Definition nextSeq (s : Z) : Z := Z.rem (u8 (s + 1)) SeqModulus.

Definition matches (s : selection) (objectsRaw : list Z) (seq now : Z) : Z :=
  if negb (active s) then CommandNoSelect
  else if expires s <? now then CommandTimeout
  else if negb (seq =? nextSeq (sel_seq s)) then CommandNoSelect
  else if negb (bool_decide (sel_objects s = objectsRaw)) then CommandNoSelect
  else CommandSuccess.

(** ** The application *)

(** [HasOutput] is the optional interface [OutputPoints]. *)
Record CommandHandler (W : Type) := mkCommandHandler {
  SelectCROB : W -> Z -> ControlRelayOutputBlock -> W * Z;
  OperateCROB : W -> Z -> ControlRelayOutputBlock -> OperateType -> W * Z;
  SelectAnalog : W -> Z -> AnalogOutput -> W * Z;
  OperateAnalog : W -> Z -> AnalogOutput -> OperateType -> W * Z;
  HasOutput : option (W -> PointType -> Z -> bool) }.
Arguments mkCommandHandler {W}.
Arguments SelectCROB {W}.
Arguments OperateCROB {W}.
Arguments SelectAnalog {W}.
Arguments OperateAnalog {W}.
Arguments HasOutput {W}.

Definition RejectingCommandHandler {W} : CommandHandler W :=
  mkCommandHandler (fun w _ _ => (w, CommandNotSupported)) (fun w _ _ _ => (w, CommandNotSupported))
    (fun w _ _ => (w, CommandNotSupported)) (fun w _ _ _ => (w, CommandNotSupported)) None.

(** ** The session, as far as controls touch it *)

Record Session := mkSession { sel : selection; s_iin : Z; s_db : Database }.
Definition set_sel (v : selection) (s : Session) : Session := mkSession v (s_iin s) (s_db s).
Definition set_iin (v : Z) (s : Session) : Session := mkSession (sel s) v (s_db s).
Definition set_db (v : Database) (s : Session) : Session := mkSession (sel s) (s_iin s) v.
Definition raise_iin (mask : Z) (s : Session) : Session := set_iin (IIN_Set (s_iin s) mask) s.

Record CommandConfig := mkCommandConfig { SelectTimeout : Z; MaxControlsPerRequest : Z }.

Definition typeCount (c : DatabaseConfig) (pt : PointType) : Z :=
  match pt with
  | TypeBinary => n_Binary c
  | TypeDoubleBitBinary => n_DoubleBitBinary c
  | TypeCounter => n_Counter c
  | TypeFrozenCounter => n_FrozenCounter c
  | TypeFrozenAnalog => n_FrozenAnalog c
  | TypeAnalog => n_Analog c
  | TypeBinaryOutputStatus => n_BinaryOutputStatus c
  | TypeAnalogOutputStatus => n_AnalogOutputStatus c
  | TypeOctetString => n_OctetString c
  | _ => 0
  end.

Definition parseAnalogOutput (variation : Z) (raw : list Z) : AnalogOutput :=
  mkAnalogOutput
    (if variation =? 1 then f64_of_Z (AO32_Value (ParseAnalogOutputInt32 raw))
     else if variation =? 2 then f64_of_Z (AO16_Value (ParseAnalogOutputInt16 raw))
     else if variation =? 3 then f64_of_f32_bits (AOF_Bits (ParseAnalogOutputFloat32 raw))
     else if variation =? 4 then f64_from_bits (AOD_Bits (ParseAnalogOutputFloat64 raw))
     else f64_zero) variation.

Definition readPrefix (buf : list Z) (width : Z) : Z :=
  if width =? 1 then at_ buf 0
  else if width =? 2 then Z.lor (at_ buf 0) (Z.shiftl (at_ buf 1) 8)
  else if width =? 4 then
    Z.lor (Z.lor (Z.lor (at_ buf 0) (Z.shiftl (at_ buf 1) 8)) (Z.shiftl (at_ buf 2) 16)) (Z.shiftl (at_ buf 3) 24)
  else 0.

Record commandOutcome := mkOutcome { o_index : Z; o_status : Z }.

Section Commands.
Context {W : Type} (appl_Now : W -> W * Z) (cmds : CommandHandler W) (cfg : CommandConfig).

Definition controlExists (s : Session) (w : W) (group index : Z) : bool :=
  let pt := if group =? 41 then TypeAnalogOutputStatus else TypeBinaryOutputStatus in
  match HasOutput cmds with
  | Some has => has w pt index
  | None => let n := typeCount (Counts (s_db s)) pt in (n =? 0) || (index <? n)
  end.

Definition runCommand (w : W) (group variation index : Z) (raw : list Z) (selecting : bool)
    (opType : OperateType) : W * Z :=
  if group =? 12 then
    if negb (variation =? 1) then (w, CommandNotSupported)
    else
      let c := ParseCROB raw in
      if selecting then SelectCROB cmds w index c else OperateCROB cmds w index c opType
  else if group =? 41 then
    let v := parseAnalogOutput variation raw in
    if selecting then SelectAnalog cmds w index v else OperateAnalog cmds w index v opType
  else (w, CommandNotSupported).

Definition recordCommandEvent (db : Database) (w : W) (group variation index : Z) (raw : list Z)
    (status : Z) : Database * W :=
  let '(w, now) := appl_Now w in
  if group =? 12 then
    if negb (variation =? 1) then (db, w)
    else
      let c := ParseCROB raw in
      let state :=
        if negb (IsClose (Code c)) && negb (IsTrip (Code c))
        then (OpType (Code c) =? ControlLatchOn) || (OpType (Code c) =? ControlPulseOn)
        else IsClose (Code c) in
      (RaiseBinaryCommandEvent db index state status now, w)
  else if group =? 41 then
    let v := parseAnalogOutput variation raw in
    (RaiseAnalogCommandEvent db index (AOValue v) variation status now, w)
  else (db, w).

(** What the walk over the objects carries along: [controls] counts the objects so far. *)
Record walk := mkWalk { w_session : Session; w_world : W; controls : Z; outcomes : list commandOutcome }.

(** One command object: the status it gets, and what it did. *)
Definition command_one (func : Z) (opType : OperateType) (selectStatus : Z) (h : ObjectHeader) (prefixLen : Z)
    (obj : list Z) (x : walk) : walk * Z :=
  let selecting := func =? FuncSelect in
  let wide := readPrefix obj prefixLen in
  let raw := drop (Z.to_nat prefixLen) obj in
  let index := u16 wide in
  let s := w_session x in
  let w := w_world x in
  let n := controls x + 1 in
  let '(s, w, status) :=
    if (0xFFFF <? wide) || negb (controlExists s w (Group h) index)
    then (raise_iin IINParameterError s, w, CommandNotSupported)
    else if (0 <? MaxControlsPerRequest cfg) && (MaxControlsPerRequest cfg <? n)
    then (s, w, CommandTooManyOps)
    else if CommandStatus_OK selectStatus then
      let '(w, status) := runCommand w (Group h) (Variation h) index raw selecting opType in
      if selecting then (s, w, status)
      else
        let '(db, w) := recordCommandEvent (s_db s) w (Group h) (Variation h) index raw status in
        (set_db db s, w, status)
    else (s, w, selectStatus) in
  (mkWalk s w n (outcomes x ++ [mkOutcome wide status]), status).

(** The objects of one header.  Each turn consumes an object of at least two octets or stops,
    so a turn per octet and one more are enough. *)
Fixpoint command_loop (fuel : nat) (func : Z) (opType : OperateType) (selectStatus : Z) (h : ObjectHeader)
    (prefixLen size count off : Z) (x : walk) (echo : list Z) (echoed : Z)
    : option (walk * list Z * Z) :=
  if count <=? 0 then Some (x, echo, echoed)
  else
    match fuel with
    | O => None
    | S fuel =>
        if len (Data h) <? off + prefixLen + size then Some (x, echo, echoed)
        else
          let obj := slice off (off + prefixLen + size) (Data h) in
          let off := off + prefixLen + size in
          let '(x, status) := command_one func opType selectStatus h prefixLen obj x in
          let echo := echo ++ take (length obj - 1) obj ++ [u8 status] in
          command_loop fuel func opType selectStatus h prefixLen size (count - 1) off x echo (echoed + 1)
    end.

(** The size of the objects of a header, when it holds commands that can be carried out. *)
Definition command_size (h : ObjectHeader) : option Z :=
  if (Group h =? 12) && negb (Variation h =? 1) then None
  else
    match Lookup (GV (Group h) (Variation h)) with
    | Some d =>
        match D_Kind d, SizeOctets d with
        | KindCommand, Some size => if size =? 0 then None else Some size
        | _, _ => None
        end
    | None => None
    end.

Definition with_data (h : ObjectHeader) (echo : list Z) (echoed : Z) : ObjectHeader :=
  mkObjectHeader (Group h) (Variation h) (Qualifier h)
    (mkRange (Spec (ORange h)) (Start (ORange h)) (Stop (ORange h)) (u32 echoed)) echo 0 0.

Definition command_header (func : Z) (opType : OperateType) (selectStatus : Z) (h : ObjectHeader)
    (x : walk) (body : list Z) : option (walk * list Z) :=
  let refuse mask := Some (mkWalk (raise_iin mask (w_session x)) (w_world x) (controls x) (outcomes x), body) in
  match command_size h with
  | None => refuse IINObjectUnknown
  | Some size =>
      let prefixLen := IndexPrefix_Octets (IndexPrefix (Qualifier h)) in
      if negb (IsIndex (IndexPrefix (Qualifier h))) then refuse IINParameterError
      else
        '(x, echo, echoed) ← command_loop (length (Data h) + 1) func opType selectStatus h prefixLen size
                               (ObjectHeader_Count h) 0 x [] 0;
        Some (x, AppendObjectHeader body (with_data h echo echoed))
  end.

Fixpoint command_headers (func : Z) (opType : OperateType) (selectStatus : Z) (hs : list ObjectHeader)
    (x : walk) (body : list Z) : option (walk * list Z) :=
  match hs with
  | [] => Some (x, body)
  | h :: hs =>
      '(x, body) ← command_header func opType selectStatus h x body;
      command_headers func opType selectStatus hs x body
  end.

Definition executeCommands (s : Session) (w : W) (frag : Fragment) (opType : OperateType) (selectStatus : Z)
    : option (Session * W * list Z * list commandOutcome) :=
  '(x, body) ← command_headers (Func (FHeader frag)) opType selectStatus (Objects frag) (mkWalk s w 0 []) [];
  Some (w_session x, w_world x, body, outcomes x).

(** A request with its broadcast mark; the body [respond] is called with, if it is. *)
Definition onSelect (s : Session) (w : W) (broadcast : bool) (frag : Fragment) (objectsRaw : list Z) (now : Z)
    : option (Session * W * option (list Z)) :=
  '(s, w, body, outs) ← executeCommands s w frag OperateDirect CommandSuccess;
  let s :=
    if forallb (fun o => CommandStatus_OK (o_status o)) outs
    then set_sel (mkSelection true objectsRaw (Seq (HControl (FHeader frag))) (now + SelectTimeout cfg)) s
    else set_sel (sel_clear (sel s)) s in
  Some (s, w, if broadcast then None else Some body).

Definition onCommand (s : Session) (w : W) (broadcast : bool) (frag : Fragment)
    : option (Session * W * option (list Z)) :=
  let '(w, now) := appl_Now w in
  let fc := Func (FHeader frag) in
  let objectsRaw := drop (Z.to_nat (Header_Size (FHeader frag))) (Raw frag) in
  if fc =? FuncSelect then onSelect s w broadcast frag objectsRaw now
  else
    let opType :=
      if fc =? FuncOperate then OperateSelected
      else if fc =? FuncDirectOperateNR then OperateDirectNoAck
      else OperateDirect in
    let '(s, selectStatus) :=
      match opType with
      | OperateSelected =>
          (set_sel (sel_clear (sel s)) s,
           matches (sel s) objectsRaw (Seq (HControl (FHeader frag))) now)
      | _ => (s, CommandSuccess)
      end in
    '(s, w, body, outs) ← executeCommands s w frag opType selectStatus;
    Some (s, w, if NoReply fc || broadcast then None else Some body).
End Commands.
Arguments walk : clear implicits.

(** ** The walk over the objects *)

(** The first [n] pieces of [k] octets. *)
Fixpoint chunks (n k : nat) (data : list Z) : list (list Z) :=
  match n with
  | O => []
  | S n => take k data :: chunks n k (drop k data)
  end.

Lemma length_chunks n k data : length (chunks n k data) = n.
Proof. revert data. induction n; intros; cbn; auto. Qed.

(** An object as it is echoed: its last octet is the status. *)
Definition status_written (obj : list Z) (status : Z) : list Z := take (length obj - 1) obj ++ [u8 status].

Lemma IsIndex_octets p : IsIndex p = true -> 1 <= IndexPrefix_Octets p <= 4.
Proof.
  unfold IsIndex. rewrite !orb_true_iff, !Z.eqb_eq. intros [[-> | ->] | ->]; vm_compute; split; congruence.
Qed.

Definition command_sizes : list (Z * Z * Z) := [(12, 1, 11); (41, 1, 5); (41, 2, 3); (41, 3, 5); (41, 4, 9)].

(** Only five objects are commands that can be carried out. *)
Lemma command_size_cases h size : command_size h = Some size -> (Group h, Variation h, size) ∈ command_sizes.
Proof.
  unfold command_size, Lookup. destruct (find _ _) as [e|] eqn:Ef; [|by destruct (_ && _)].
  apply find_some in Ef as [Hin Ef]. cbn [GV GV_Group GV_Variation] in Ef.
  apply andb_true_iff in Ef as [<-%Z.eqb_eq <-%Z.eqb_eq]. cbn [fmap option_fmap option_map].
  set (f := fun e : (Z * Z) * Descriptor =>
    if (fst (fst e) =? 12) && negb (snd (fst e) =? 1) then None
    else match D_Kind (snd e), SizeOctets (snd e) with
         | KindCommand, Some size => if size =? 0 then None else Some size
         | _, _ => None
         end).
  intros Hs. change (f e = Some size) in Hs.
  assert (Hall : forallb (fun e => match f e with
    | Some n => bool_decide ((fst (fst e), snd (fst e), n) ∈ command_sizes) | None => true end) descriptors = true)
    by (vm_compute; reflexivity).
  rewrite forallb_forall in Hall. specialize (Hall e Hin). rewrite Hs in Hall. by apply bool_decide_eq_true in Hall.
Qed.

Lemma command_size_pos h size : command_size h = Some size -> 1 <= size.
Proof.
  intros H%command_size_cases. unfold command_sizes in H. repeat (apply elem_of_cons in H as [H|H]; [injection H as _ _ ->; lia|]).
  by apply elem_of_nil in H.
Qed.

Lemma range_count r :
  range_ok r -> 0 <= AppObject.Count r <= 0xFFFFFFFF /\ (Spec r = RangeAllObjects -> AppObject.Count r = 0).
Proof.
  intros (H0 & Hv & Hr).
  destruct (spec_cases _ H0 Hv) as [E|[E|[E|[E|[E|[E|[E|[E|[E|[E|E]]]]]]]]]]; rewrite E in Hr |- *;
    cbn in Hr; unfold RangeAllObjects; lia.
Qed.

(** The data of a command header, as the parser accepts it, is that many whole objects. *)
Lemma command_data_len h size :
  object_ok DefaultSizer true h -> command_size h = Some size -> IsIndex (IndexPrefix (Qualifier h)) = true ->
  len (Data h) = ObjectHeader_Count h * (IndexPrefix_Octets (IndexPrefix (Qualifier h)) + size).
Proof.
  intros (_ & _ & _ & _ & _ & _ & Hr & _ & Hl) Hs%command_size_cases Hi.
  pose proof (IsIndex_octets _ Hi) as Hpl. set (pl := IndexPrefix_Octets (IndexPrefix (Qualifier h))) in *.
  unfold ObjectHeader_Count. set (c := AppObject.Count (ORange h)) in *.
  pose proof (range_count _ Hr) as Hc. fold c in Hc.
  destruct Hc as [Hc Hall]. unfold objectDataLen in Hl. fold c in Hl. fold pl in Hl.
  assert (Hz : IsSize (IndexPrefix (Qualifier h)) = false).
  { unfold IsIndex in Hi. rewrite !orb_true_iff, !Z.eqb_eq in Hi. by destruct Hi as [[-> | ->] | ->]. }
  rewrite Hz in Hl. cbn [andb negb] in Hl.
  unfold command_sizes in Hs. repeat (apply elem_of_cons in Hs as [Hs|Hs]; [|]); [..|by apply elem_of_nil in Hs].
  all: injection Hs as Eg Ev ->; rewrite Eg, Ev in Hl; cbn [Z.eqb Pos.eqb andb] in Hl.
  all: destruct (Z.eqb_spec (Spec (ORange h)) RangeAllObjects) as [Ea|_];
    [rewrite (Hall Ea); injection Hl; lia|].
  all: destruct (Z.eqb_spec c 0) as [->|_]; [injection Hl; lia|].
  all: match type of Hl with context [DefaultSizer ?g ?v] =>
         let r := eval vm_compute in (DefaultSizer g v) in change (DefaultSizer g v) with r in Hl end.
  all: cbn [Z.eqb Z.ltb Z.compare Pos.compare Pos.compare_cont] in Hl.
  all: match type of Hl with context [negb (Z.rem ?a ?b =? 0)] =>
         change (negb (Z.rem a b =? 0)) with false in Hl end; cbn iota beta in Hl.
  all: match type of Hl with context [u64 ?b / 8] =>
         let r := eval vm_compute in (u64 b / 8) in change (u64 b / 8) with r in Hl end.
  all: unfold checkFits, u64 in Hl; rewrite (Z.mod_small (pl + _)) in Hl by lia; rewrite Z.mod_small in Hl by nia.
  all: destruct (_ <? _) in Hl; [done | by injection Hl].
Qed.

Section Walk.
Context {W : Type} (appl_Now : W -> W * Z) (cmds : CommandHandler W) (cfg : CommandConfig).
Context (func : Z) (opType : OperateType) (selectStatus : Z).

(** The objects of one header, one after another, and their statuses. *)
Fixpoint commands_run (h : ObjectHeader) (prefixLen : Z) (objs : list (list Z)) (x : walk W) : walk W * list Z :=
  match objs with
  | [] => (x, [])
  | obj :: objs =>
      let '(x, st) := command_one appl_Now cmds cfg func opType selectStatus h prefixLen obj x in
      let '(x, sts) := commands_run h prefixLen objs x in (x, st :: sts)
  end.

Lemma commands_run_length h pl objs x : length (snd (commands_run h pl objs x)) = length objs.
Proof.
  revert x. induction objs as [|o objs IH]; intros x; [done|]. cbn [commands_run].
  destruct (command_one _ _ _ _ _ _ _ _ _ x) as [x1 st]. specialize (IH x1).
  destruct (commands_run h pl objs x1). cbn in *. lia.
Qed.

Lemma command_loop_run fuel h pl size count off x echo echoed :
  0 <= off <= len (Data h) -> 0 < pl + size ->
  (len (Data h) - off) / (pl + size) < Z.of_nat fuel ->
  let n := Z.to_nat (Z.min count ((len (Data h) - off) / (pl + size))) in
  let objs := chunks n (Z.to_nat (pl + size)) (drop (Z.to_nat off) (Data h)) in
  command_loop appl_Now cmds cfg fuel func opType selectStatus h pl size count off x echo echoed =
    let '(x', sts) := commands_run h pl objs x in
    Some (x', echo ++ concat (zip_with status_written objs sts), echoed + Z.of_nat n).
Proof.
  revert count off x echo echoed. induction fuel as [|fuel IH]; intros count off x echo echoed Ho Hw Hf n objs.
  { pose proof (Z.div_pos (len (Data h) - off) (pl + size)). lia. }
  pose proof (Z.div_pos (len (Data h) - off) (pl + size) ltac:(lia) Hw) as Hq.
  cbn [command_loop]. destruct (Z.leb_spec count 0) as [Hc0|Hc0].
  { unfold objs. replace n with 0%nat by lia. cbn. by rewrite app_nil_r, Z.add_0_r. }
  destruct (Z.ltb_spec (len (Data h)) (off + pl + size)) as [Hs|Hs].
  { unfold objs. replace n with 0%nat by (unfold n; rewrite (Z.div_small (len (Data h) - off)) by lia; lia).
    cbn. by rewrite app_nil_r, Z.add_0_r. }
  assert (Hstep : (len (Data h) - (off + pl + size)) / (pl + size) = (len (Data h) - off) / (pl + size) - 1).
  { replace (len (Data h) - (off + pl + size)) with (len (Data h) - off + (-1) * (pl + size)) by lia.
    rewrite Z.div_add by lia. lia. }
  assert (Hn : n = S (Z.to_nat (Z.min (count - 1) ((len (Data h) - (off + pl + size)) / (pl + size))))).
  { rewrite Hstep. unfold n. assert (1 <= (len (Data h) - off) / (pl + size)) by (apply Z.div_le_lower_bound; lia). lia. }
  unfold objs. rewrite Hn. cbn [chunks commands_run].
  replace (slice off (off + pl + size) (Data h)) with (take (Z.to_nat (pl + size)) (drop (Z.to_nat off) (Data h)))
    by (unfold slice; repeat f_equal; lia).
  destruct (command_one _ _ _ _ _ _ _ _ _ x) as [x1 st].
  rewrite IH by (rewrite ?Hstep; lia). rewrite drop_drop.
  replace (Z.to_nat off + Z.to_nat (pl + size))%nat with (Z.to_nat (off + pl + size)) by lia.
  destruct (commands_run h pl _ x1) as [x2 sts]. cbn [zip_with concat]. unfold status_written at 2.
  rewrite <- !app_assoc. do 2 f_equal. lia.
Qed.

(** A header that cannot be carried out only sets an indication. *)
Definition refused (mask : Z) (x : walk W) : walk W :=
  mkWalk (raise_iin mask (w_session x)) (w_world x) (controls x) (outcomes x).

(** A header of commands, and its objects. *)
Definition command_objs (h : ObjectHeader) : option (list (list Z)) :=
  match command_size h with
  | Some size =>
      if IsIndex (IndexPrefix (Qualifier h)) then
        let k := IndexPrefix_Octets (IndexPrefix (Qualifier h)) + size in
        Some (chunks (Z.to_nat (Z.min (ObjectHeader_Count h) (len (Data h) / k))) (Z.to_nat k) (Data h))
      else None
  | None => None
  end.

Definition echoed_header (h : ObjectHeader) (objs : list (list Z)) (sts : list Z) : ObjectHeader :=
  with_data h (concat (zip_with status_written objs sts)) (len objs).

Lemma command_header_run h x body :
  command_header appl_Now cmds cfg func opType selectStatus h x body =
    match command_objs h with
    | Some objs =>
        let '(x', sts) := commands_run h (IndexPrefix_Octets (IndexPrefix (Qualifier h))) objs x in
        Some (x', AppendObjectHeader body (echoed_header h objs sts))
    | None =>
        Some (refused (match command_size h with Some _ => IINParameterError | None => IINObjectUnknown end) x, body)
    end.
Proof.
  unfold command_header, command_objs, echoed_header.
  destruct (command_size h) as [size|] eqn:Es; [|done].
  destruct (IsIndex _) eqn:Ei; cbn [negb]; [|done].
  pose proof (IsIndex_octets _ Ei). pose proof (command_size_pos _ _ Es).
  set (pl := IndexPrefix_Octets _) in *. rewrite command_loop_run; [|pose proof (len_nonneg (Data h)); lia..|].
  - rewrite Z.sub_0_r. cbn [Z.to_nat]. rewrite drop_0. destruct (commands_run _ _ _ _) as [x' sts]. cbn.
    unfold len. by rewrite length_chunks.
  - rewrite Z.sub_0_r. pose proof (len_nonneg (Data h)). unfold len in *.
    assert (Z.of_nat (length (Data h)) / (pl + size) <= Z.of_nat (length (Data h)) / 1)
      by (apply Z.div_le_compat_l; lia). rewrite Z.div_1_r in *. lia.
Qed.

(** What every object and every refusal preserves, the whole walk preserves. *)
Section Rule.
Context (R : walk W -> walk W -> Prop) `{!PreOrder R}.
Context (R_one : forall h pl obj x, R x (fst (command_one appl_Now cmds cfg func opType selectStatus h pl obj x))).
Context (R_refused : forall mask x, R x (refused mask x)).

Lemma commands_run_rule h pl objs x : R x (fst (commands_run h pl objs x)).
Proof using PreOrder0 R_one.
  revert x. induction objs as [|o objs IH]; intros x; [done|]. cbn [commands_run].
  pose proof (R_one h pl o x) as H1. destruct (command_one _ _ _ _ _ _ _ _ _ x) as [x1 st].
  specialize (IH x1). destruct (commands_run h pl objs x1). cbn in *. by etransitivity.
Qed.

Lemma command_headers_rule hs x body :
  exists x' body', command_headers appl_Now cmds cfg func opType selectStatus hs x body = Some (x', body') /\ R x x'.
Proof using PreOrder0 R_one R_refused.
  revert x body. induction hs as [|h hs IH]; intros x body; cbn [command_headers]; [by exists x, body|].
  rewrite command_header_run. destruct (command_objs h) as [objs|].
  - pose proof (commands_run_rule h (IndexPrefix_Octets (IndexPrefix (Qualifier h))) objs x) as H1.
    destruct (commands_run _ _ _ _) as [x1 sts]. cbn [mbind option_bind].
    edestruct IH as (x' & body' & -> & H2). exists x', body'. split; [done|]. by etransitivity.
  - cbn [mbind option_bind]. edestruct IH as (x' & body' & -> & H2). exists x', body'. split; [done|].
    etransitivity; [apply R_refused | exact H2].
Qed.

Lemma executeCommands_rule s w frag :
  func = Func (FHeader frag) ->
  exists x' body, executeCommands appl_Now cmds cfg s w frag opType selectStatus =
      Some (w_session x', w_world x', body, outcomes x') /\ R (mkWalk s w 0 []) x'.
Proof using PreOrder0 R_one R_refused.
  intros Hf. unfold executeCommands. rewrite <- Hf.
  destruct (command_headers_rule (Objects frag) (mkWalk s w 0 []) []) as (x' & body & -> & HR). by exists x', body.
Qed.
End Rule.
End Walk.

(** ** Select before operate *)

Section SelectBeforeOperate.
Context {W : Type} (appl_Now : W -> W * Z) (cmds : CommandHandler W) (cfg : CommandConfig).

Lemma executeCommands_sel s w frag op st :
  exists s' w' body outs, executeCommands appl_Now cmds cfg s w frag op st = Some (s', w', body, outs) /\ sel s' = sel s.
Proof.
  pose (R := fun x y : walk W => sel (w_session y) = sel (w_session x)).
  assert (HR : PreOrder R) by (split; unfold R; [done | congruence]).
  destruct (executeCommands_rule appl_Now cmds cfg (Func (FHeader frag)) op st R) with (s := s) (w := w) (frag := frag)
    as (x' & body & He & Hr); [| |done|by eauto 6].
  - intros h pl obj x. unfold R, command_one. destruct (_ || _); [done|]. destruct (_ && _); [done|].
    destruct (CommandStatus_OK st); [|done]. destruct (runCommand _ _ _ _ _ _ _ _) as [w1 status].
    destruct (_ =? _); [done|]. by destruct (recordCommandEvent _ _ _ _ _ _ _ _).
  - done.
Qed.

(** With a selection that does not match, nothing reaches the application. *)
Lemma executeCommands_refused s w frag op st :
  CommandStatus_OK st = false ->
  exists s' body outs, executeCommands appl_Now cmds cfg s w frag op st = Some (s', w, body, outs) /\
    s_db s' = s_db s /\ Forall (fun o => CommandStatus_OK (o_status o) = false) outs.
Proof.
  intros Hst. pose (R := fun x y : walk W => w_world y = w_world x /\ s_db (w_session y) = s_db (w_session x) /\
    exists l, outcomes y = outcomes x ++ l /\ Forall (fun o => CommandStatus_OK (o_status o) = false) l).
  assert (HR : PreOrder R).
  { split.
    - intros x. split_and!; try done. exists []. by rewrite app_nil_r.
    - intros x y z (H1 & H2 & l & H3 & H4) (H5 & H6 & l' & H7 & H8). split_and!; [congruence..|].
      exists (l ++ l'). rewrite H7, H3, <- app_assoc. split; [done|]. by apply Forall_app. }
  destruct (executeCommands_rule appl_Now cmds cfg (Func (FHeader frag)) op st R) with (s := s) (w := w) (frag := frag)
    as (x' & body & He & H1 & H2 & l & H3 & H4); [| |done|].
  - intros h pl obj x. unfold R, command_one. rewrite Hst. destruct (_ || _); [|destruct (_ && _)]; cbn; eauto 10.
  - intros mask x. unfold R. cbn. split_and!; try done. exists []. by rewrite app_nil_r.
  - cbn in *. rewrite He, H1, H3. eauto 10.
Qed.

(** A command request as it was handled: when, and what became of its objects. *)
Record entry := mkEntry { e_frag : Fragment; e_now : Z; e_outcomes : list commandOutcome }.

Definition objects_raw (frag : Fragment) : list Z := drop (Z.to_nat (Header_Size (FHeader frag))) (Raw frag).
Definition request_seq (frag : Fragment) : Z := Seq (HControl (FHeader frag)).

Definition select_outcomes (s : Session) (w : W) (frag : Fragment) : list commandOutcome :=
  match executeCommands appl_Now cmds cfg s (fst (appl_Now w)) frag OperateDirect CommandSuccess with
  | Some (_, _, _, outs) => outs
  | None => []
  end.

(** The life of a session: command requests, and anything else, which leaves the selection
    alone (no other code of the package touches it). *)
Inductive history : list entry -> Session -> W -> Prop :=
| history_start s w : sel s = selection0 -> history [] s w
| history_other es s w s' w' : history es s w -> sel s' = sel s -> history es s' w'
| history_command es s w broadcast frag s' w' body :
    history es s w -> onCommand appl_Now cmds cfg s w broadcast frag = Some (s', w', body) ->
    history (es ++ [mkEntry frag (snd (appl_Now w)) (select_outcomes s w frag)]) s' w'.

(** A SELECT, all of whose objects the handler accepted, that no later SELECT or OPERATE has
    replaced or used up. *)
Definition last_select (es : list entry) (e : entry) : Prop :=
  exists pre post, es = pre ++ e :: post /\
    Func (FHeader (e_frag e)) = FuncSelect /\
    Forall (fun o => CommandStatus_OK (o_status o) = true) (e_outcomes e) /\
    Forall (fun e' => Func (FHeader (e_frag e')) <> FuncSelect /\ Func (FHeader (e_frag e')) <> FuncOperate) post.

Definition sel_inv (es : list entry) (s : Session) : Prop :=
  active (sel s) = true -> exists e, last_select es e /\
    sel s = mkSelection true (objects_raw (e_frag e)) (request_seq (e_frag e)) (e_now e + SelectTimeout cfg).

Lemma last_select_snoc es e e' :
  last_select es e -> Func (FHeader (e_frag e')) <> FuncSelect -> Func (FHeader (e_frag e')) <> FuncOperate ->
  last_select (es ++ [e']) e.
Proof.
  intros (pre & post & -> & Hf & Ho & Hp) H1 H2. exists pre, (post ++ [e']).
  rewrite <- app_assoc. split_and!; try done. apply Forall_app. split; [done|]. by repeat constructor.
Qed.

Lemma onCommand_inv es s w broadcast frag s' w' body :
  sel_inv es s -> onCommand appl_Now cmds cfg s w broadcast frag = Some (s', w', body) ->
  sel_inv (es ++ [mkEntry frag (snd (appl_Now w)) (select_outcomes s w frag)]) s'.
Proof.
  intros Hi. unfold onCommand, select_outcomes. destruct (appl_Now w) as [w1 now]. cbn [fst snd].
  destruct (Z.eqb_spec (Func (FHeader frag)) FuncSelect) as [Es|Es].
  - unfold onSelect. destruct (executeCommands_sel s w1 frag OperateDirect CommandSuccess) as (s1 & w2 & b & outs & -> & Hs).
    cbn [mbind option_bind]. intros [= <- <- <-]. destruct (forallb _ outs) eqn:Eo; intros Ha; [|done].
    exists (mkEntry frag now outs). split; [|done]. exists es, []. split_and!; try done.
    apply Forall_forall. intros o Ho. rewrite forallb_forall in Eo. by apply Eo, list_elem_of_In.
  - destruct (Z.eqb_spec (Func (FHeader frag)) FuncOperate) as [Eo|Eo].
    + edestruct (executeCommands_sel) as (s1 & w2 & b & outs & -> & Hs). cbn [mbind option_bind].
      intros [= <- <- <-] Ha. by rewrite Hs in Ha.
    + assert (Hgo : forall op,
          ('(s1, w2, b, outs) ← executeCommands appl_Now cmds cfg s w1 frag op CommandSuccess;
           Some (s1, w2, if NoReply (Func (FHeader frag)) || broadcast then None else Some b)) = Some (s', w', body) ->
          sel s' = sel s).
      { intros op. destruct (executeCommands_sel s w1 frag op CommandSuccess) as (s1 & w2 & b & outs & -> & Hs).
        cbn [mbind option_bind]. by intros [= <- <- <-]. }
      intros H. assert (Hs : sel s' = sel s) by (destruct (_ =? FuncDirectOperateNR) in H; by eapply Hgo).
      intros Ha. rewrite Hs in Ha |- *. destruct (Hi Ha) as (e & He & Hsel). exists e. split; [|done].
      by apply last_select_snoc.
Qed.

Lemma history_inv es s w : history es s w -> sel_inv es s.
Proof.
  induction 1 as [s w H | es s w s' w' _ IH H | es s w br frag s' w' body _ IH H].
  - intros Ha. by rewrite H in Ha.
  - intros Ha. rewrite H in Ha |- *. by apply IH.
  - by eapply onCommand_inv.
Qed.

Lemma matches_ok s raw seq now :
  CommandStatus_OK (matches s raw seq now) = true ->
  active s = true /\ now <= expires s /\ seq = nextSeq (sel_seq s) /\ sel_objects s = raw.
Proof.
  unfold matches. destruct (active s); [|done]. destruct (Z.ltb_spec (expires s) now); [done|].
  destruct (Z.eqb_spec seq (nextSeq (sel_seq s))); [|done]. by destruct (bool_decide_reflect (sel_objects s = raw)).
Qed.
End SelectBeforeOperate.

(** C3. Select before operate. Whatever requests came before, an OPERATE uses up the
    selection, and either does nothing at all (the application sees only its clock read, no
    event is recorded) or repeats, octet for octet, with the next sequence number and within
    the timeout, the last SELECT, every object of which the handler had accepted and which no
    SELECT or OPERATE has followed. *)
Theorem operate_needs_select {W} (appl_Now : W -> W * Z) cmds cfg es s w broadcast frag :
  history appl_Now cmds cfg es s w -> Func (FHeader frag) = FuncOperate ->
  exists s' w' body, onCommand appl_Now cmds cfg s w broadcast frag = Some (s', w', body) /\
    active (sel s') = false /\
    ((w' = fst (appl_Now w) /\ s_db s' = s_db s) \/
     exists e, last_select es e /\ objects_raw (e_frag e) = objects_raw frag /\
       request_seq frag = nextSeq (request_seq (e_frag e)) /\
       snd (appl_Now w) <= e_now e + SelectTimeout cfg).
Proof.
  intros Hh%history_inv Hf. unfold onCommand. destruct (appl_Now w) as [w1 now]. cbn [fst snd]. rewrite Hf.
  change (FuncOperate =? FuncSelect) with false. change (FuncOperate =? FuncOperate) with true. cbn iota.
  fold (objects_raw frag). fold (request_seq frag).
  set (st := matches (sel s) (objects_raw frag) (request_seq frag) now).
  destruct (executeCommands_sel appl_Now cmds cfg (set_sel (sel_clear (sel s)) s) w1 frag OperateSelected st)
    as (s' & w' & body & outs & He & Hs).
  rewrite He. cbn [mbind option_bind]. eexists _, _, _. split; [done|]. split; [by rewrite Hs|].
  destruct (CommandStatus_OK st) eqn:Est.
  - right. apply matches_ok in Est as (Ha & Hn & Hq & Ho). destruct (Hh Ha) as (e & Hl & Hsel). exists e.
    rewrite Hsel in Hn, Hq, Ho. by split_and!.
  - left. destruct (executeCommands_refused appl_Now cmds cfg (set_sel (sel_clear (sel s)) s) w1 frag OperateSelected st Est)
      as (s1 & b1 & o1 & He1 & Hd & _). rewrite He in He1. by injection He1 as -> -> -> ->.
Qed.

(** A plant that accepts everything, with a clock that ticks once per reading and the list of
    the points operated. *)
Definition witness_Now (w : Z * list Z) : (Z * list Z) * Z := ((fst w + 1, snd w), fst w).
Definition witness_cmds : CommandHandler (Z * list Z) :=
  mkCommandHandler (fun w _ _ => (w, CommandSuccess)) (fun w i _ _ => ((fst w, snd w ++ [i]), CommandSuccess))
    (fun w _ _ => (w, CommandSuccess)) (fun w i _ _ => ((fst w, snd w ++ [i]), CommandSuccess)) None.
Definition witness_cfg : CommandConfig := mkCommandConfig 5000000000 8.
Definition witness_session : Session :=
  mkSession selection0 IINDeviceRestart
    (NewDatabase (mkDatabaseConfig 0 0 0 0 0 0 0 0 10 0 0 Class1) (Some (NewEventBuffer 10))).
(** Close point 5. *)
Definition witness_request (fc seq : Z) : Fragment :=
  fst (ParseRequest None (BuildRequest [] (mkControl true true false false seq) fc
    [mkObjectHeader 12 1 (MakeQualifier PrefixIndex1 RangeCount8) (mkRange RangeCount8 0 0 1)
       [5; 0x41; 1; 100; 0; 0; 0; 100; 0; 0; 0; 0] 0 0])).

Lemma operate_needs_select_witness :
  exists s w b s' w' body,
    onCommand witness_Now witness_cmds witness_cfg witness_session (0, []) false (witness_request FuncSelect 3) = Some (s, w, b) /\
    onCommand witness_Now witness_cmds witness_cfg s w false (witness_request FuncOperate 4) = Some (s', w', body) /\
    snd w' = [5] /\ active (sel s') = false.
Proof.
  destruct (onCommand witness_Now witness_cmds witness_cfg witness_session (0, []) false (witness_request FuncSelect 3))
    as [[[s w] b]|] eqn:E; [|vm_compute in E; discriminate].
  assert (Hh := history_command witness_Now witness_cmds witness_cfg [] witness_session (0, []) false
    (witness_request FuncSelect 3) s w b (history_start _ _ _ witness_session _ eq_refl) E).
  destruct (operate_needs_select witness_Now witness_cmds witness_cfg _ s w false (witness_request FuncOperate 4) Hh)
    as (s' & w' & body & E' & Ha & _); [vm_compute; reflexivity|].
  exists s, w, b, s', w', body. split; [done|]. split; [exact E'|]. split; [|exact Ha].
  vm_compute in E. injection E as <- <- <-. vm_compute in E'. by injection E' as <- <- <-.
Defined.

(** ** The response *)

Lemma chunks_concat n k data : length data = (n * k)%nat ->
  concat (chunks n k data) = data /\ Forall (fun o => length o = k) (chunks n k data).
Proof.
  revert data. induction n as [|n IH]; intros data Hl; cbn [chunks concat].
  - by apply nil_length_inv in Hl as ->.
  - destruct (IH (drop k data)) as [Hc Hf]; [rewrite length_drop; lia|]. rewrite Hc, take_drop.
    split; [done|]. constructor; [rewrite length_take; lia | done].
Qed.

Definition is_command (h : ObjectHeader) : bool :=
  match command_size h with Some _ => IsIndex (IndexPrefix (Qualifier h)) | None => false end.

(** [e] is [h] with a status in each of its objects, as [outs] lists them: one outcome per
    object announced, naming the point its prefix names. *)
Definition echo_of (h e : ObjectHeader) (outs : list commandOutcome) : Prop :=
  let pl := IndexPrefix_Octets (IndexPrefix (Qualifier h)) in
  exists size objs, command_size h = Some size /\ Data h = concat objs /\
    Forall (fun o => len o = pl + size) objs /\ len outs = ObjectHeader_Count h /\
    o_index <$> outs = (fun o => readPrefix o pl) <$> objs /\
    e = mkObjectHeader (Group h) (Variation h) (Qualifier h) (ORange h)
          (concat (zip_with status_written objs (o_status <$> outs))) 0 0.

Lemma command_objs_ok h :
  object_ok DefaultSizer true h ->
  match command_objs h with
  | Some objs => is_command h = true /\ Data h = concat objs /\ len objs = ObjectHeader_Count h /\
      exists size, command_size h = Some size /\
        Forall (fun o => len o = IndexPrefix_Octets (IndexPrefix (Qualifier h)) + size) objs
  | None => is_command h = false
  end.
Proof.
  intros Hok. unfold command_objs, is_command. destruct (command_size h) as [size|] eqn:Es; [|done].
  destruct (IsIndex _) eqn:Ei; [|done]. pose proof (command_data_len h size Hok Es Ei) as Hl.
  pose proof (IsIndex_octets _ Ei). pose proof (command_size_pos _ _ Es). set (pl := IndexPrefix_Octets _) in *.
  assert (0 <= ObjectHeader_Count h) by (pose proof (len_nonneg (Data h)); nia).
  rewrite Hl, Z.div_mul, Z.min_id by lia.
  destruct (chunks_concat (Z.to_nat (ObjectHeader_Count h)) (Z.to_nat (pl + size)) (Data h)) as [Hc Hf].
  { unfold len in Hl. nia. }
  split_and!; [done | done | unfold len; rewrite length_chunks; lia |]. exists size. split; [done|].
  eapply Forall_impl; [exact Hf|]. intros o Ho. cbn in Ho. unfold len. lia.
Qed.

Section Echo.
Context {W : Type} (appl_Now : W -> W * Z) (cmds : CommandHandler W) (cfg : CommandConfig).
Context (func : Z) (op : OperateType) (st : Z).

Lemma commands_run_outcomes h pl objs x :
  let '(x', sts) := commands_run appl_Now cmds cfg func op st h pl objs x in
  outcomes x' = outcomes x ++ zip_with mkOutcome ((fun o => readPrefix o pl) <$> objs) sts.
Proof.
  revert x. induction objs as [|o objs IH]; intros x; cbn [commands_run]; [by rewrite app_nil_r|].
  destruct (command_one _ _ _ _ _ _ _ _ _ x) as [x1 s1] eqn:E1. specialize (IH x1).
  destruct (commands_run _ _ _ _ _ _ h pl objs x1) as [x2 sts]. rewrite IH. cbn [fmap list_fmap zip_with].
  replace (outcomes x1) with (outcomes x ++ [mkOutcome (readPrefix o pl) s1]); [by rewrite <- app_assoc|].
  revert E1. unfold command_one. destruct (if _ || _ then _ else _) as [[s0 w0] status]. by intros [= <- <-].
Qed.

Lemma zip_outcomes ixs sts : length sts = length ixs ->
  o_index <$> zip_with mkOutcome ixs sts = ixs /\ o_status <$> zip_with mkOutcome ixs sts = sts.
Proof.
  revert sts. induction ixs as [|i ixs IH]; intros [|x sts] Hl; try done.
  destruct (IH sts) as [H1 H2]; [by injection Hl|]. cbn [zip_with fmap list_fmap]. by rewrite H1, H2.
Qed.

Lemma command_headers_echo hs x body :
  Forall (object_ok DefaultSizer true) hs ->
  exists x' es outs, command_headers appl_Now cmds cfg func op st hs x body = Some (x', body ++ encode_objects es) /\
    outcomes x' = outcomes x ++ concat outs /\ Forall3 echo_of (List.filter is_command hs) es outs.
Proof.
  revert x body. induction hs as [|h hs IH]; intros x body Hok.
  { exists x, [], []. cbn. rewrite !app_nil_r. split_and!; [done..|constructor]. }
  apply Forall_cons in Hok as [Hh Hok]. cbn [command_headers List.filter]. rewrite command_header_run.
  pose proof (command_objs_ok h Hh) as Ho. destruct (command_objs h) as [objs|].
  - destruct Ho as (-> & Hd & Hn & size & Hs & Hf).
    pose proof (commands_run_outcomes h (IndexPrefix_Octets (IndexPrefix (Qualifier h))) objs x) as Hout.
    pose proof (commands_run_length appl_Now cmds cfg func op st h (IndexPrefix_Octets (IndexPrefix (Qualifier h))) objs x) as Hlen.
    destruct (commands_run _ _ _ _ _ _ h _ objs x) as [x1 sts]. cbn [mbind option_bind]. cbn [snd] in Hlen.
    destruct (zip_outcomes ((fun o => readPrefix o (IndexPrefix_Octets (IndexPrefix (Qualifier h)))) <$> objs) sts)
      as [Hi Hst]; [by rewrite length_fmap|].
    edestruct (IH x1 (AppendObjectHeader body (echoed_header h objs sts)) Hok) as (x' & es & outs & -> & Hx & H3).
    eexists x', (echoed_header h objs sts :: es), (_ :: outs). split; [|split; [|constructor; [|exact H3]]].
    + unfold encode_objects. cbn [fmap list_fmap concat]. by rewrite AppendObjectHeader_dst, <- app_assoc.
    + rewrite Hx, Hout. cbn [concat]. by rewrite <- app_assoc.
    + exists size, objs. split_and!; try done.
      * unfold len in *. rewrite length_zip_with, length_fmap. lia.
      * rewrite Hst. unfold echoed_header, with_data. rewrite Hn.
        destruct Hh as (_ & _ & _ & _ & _ & _ & Hr & _). destruct (range_count _ Hr) as [Hc _].
        unfold ObjectHeader_Count. rewrite u32_small by (unfold is_u32; lia). by destruct (ORange h).
  - rewrite Ho. cbn [mbind option_bind].
    lazymatch goal with |- context [refused ?m x] => destruct (IH (refused m x) body Hok) as (x' & es & outs & -> & Hx & H3) end.
    by exists x', es, outs.
Qed.
End Echo.

Lemma control_carries fc g : IsControl fc = true -> carries fc g = true.
Proof.
  unfold IsControl, one_of. cbn [existsb]. rewrite !orb_true_iff, !Z.eqb_eq.
  intros [-> | [-> | [-> | [-> | H]]]]; [vm_compute; reflexivity.. | discriminate H].
Qed.

(** The response echoes the request. For a control request as the parser returns it, every
    header of commands comes back with the same group, variation, qualifier and range, in
    order, its data the data of the request with each object's last octet replaced by the
    status recorded for it: one status per object announced, against the point its index
    prefix names. Headers that are not commands are left out. *)
Theorem commands_echoed {W} (appl_Now : W -> W * Z) cmds cfg s w frag op st :
  IsControl (Func (FHeader frag)) = true -> objects_ok None (Func (FHeader frag)) (Objects frag) ->
  exists s' w' es outs,
    executeCommands appl_Now cmds cfg s w frag op st = Some (s', w', encode_objects es, concat outs) /\
    Forall3 echo_of (List.filter is_command (Objects frag)) es outs.
Proof.
  intros Hc Hok. unfold executeCommands.
  destruct (command_headers_echo appl_Now cmds cfg (Func (FHeader frag)) op st (Objects frag) (mkWalk s w 0 []) [])
    as (x' & es & outs & -> & Hout & H3).
  { eapply Forall_impl; [exact Hok|]. intros h Hh. cbn beta in Hh.
    rewrite (control_carries _ (Group h) Hc) in Hh. exact Hh. }
  cbn [mbind option_bind]. rewrite Hout. by eexists _, _, _, _.
Qed.

Lemma commands_echoed_witness :
  exists s' w' es outs,
    executeCommands witness_Now witness_cmds witness_cfg witness_session (0, []) (witness_request FuncDirectOperate 1)
      OperateDirect CommandSuccess = Some (s', w', encode_objects es, concat outs) /\
    concat outs = [mkOutcome 5 CommandSuccess] /\ w' = (1, [5]) /\
    Forall3 echo_of (Objects (witness_request FuncDirectOperate 1)) es outs.
Proof.
  destruct (commands_echoed witness_Now witness_cmds witness_cfg witness_session (0, [])
    (witness_request FuncDirectOperate 1) OperateDirect CommandSuccess) as (s' & w' & es & outs & He & H3).
  - vm_compute. reflexivity.
  - apply Forall_singleton. unfold object_ok, range_ok. split_and!; vm_compute; try done; try (split_and!; congruence).
    repeat constructor; discriminate.
  - exists s', w', es, outs. split; [exact He|].
    assert (Hv : (fun r => (snd r, snd (fst (fst r)))) <$>
      executeCommands witness_Now witness_cmds witness_cfg witness_session (0, []) (witness_request FuncDirectOperate 1)
        OperateDirect CommandSuccess = Some ([mkOutcome 5 CommandSuccess], (1, [5]))) by (vm_compute; reflexivity).
    rewrite He in Hv. cbn in Hv. injection Hv as -> ->. split; [done|]. split; [done|]. exact H3.
Defined.
