(* ===== verification/Response.v ===== *)
(** * Building responses (src/outstation/response.go)

    How an outstation turns points and events into object headers, and these into fragments
    no longer than the session allows.  The functions take what they use of the session: the
    database, whether the clock is synchronised, and the application's clock.

    The theorems: a fragment never exceeds the limit and holds whole objects, in order; a
    static read reports every point it names once, with its value, in the variation the point
    calls for, and no point whose flags are not normal without its flags; and every selected
    event is in the response, or handed back as one that cannot be sent. *)

From S2P Require Import Prelude Values Floats AppHeader AppObject AppFragment Objects Codecs CommandEvents.
From S2P Require Import EventBuffer Database ExtendedDatabase Commands.

Definition staticTypes : list PointType :=
  [TypeBinary; TypeDoubleBitBinary; TypeBinaryOutputStatus; TypeCounter; TypeFrozenCounter; TypeAnalog;
   TypeFrozenAnalog; TypeAnalogOutputStatus; TypeOctetString].

(** ** The builder *)

Record responseBuilder := mkBuilder { b_max : Z; fragments : list (list Z); cur : list Z; b_ctx : Context }.

Definition newResponseBuilder (maxFragment : Z) (ctx : Context) : responseBuilder :=
  mkBuilder (if maxFragment <=? 0 then DefaultMaxFragment else maxFragment) [] [] ctx.

Definition room (b : responseBuilder) : Z := b_max b - ResponseHeaderSize - len (cur b).

Definition flush (b : responseBuilder) : responseBuilder :=
  if 0 <? len (cur b) then mkBuilder (b_max b) (fragments b ++ [cur b]) [] (b_ctx b) else b.

Definition add (b : responseBuilder) (h : ObjectHeader) : responseBuilder :=
  let b := if (room b <? ObjectHeader_Size h) && (0 <? len (cur b)) then flush b else b in
  mkBuilder (b_max b) (fragments b) (AppendObjectHeader (cur b) h) (b_ctx b).

Definition done (b : responseBuilder) : list (list Z) :=
  let b := flush b in
  if len (fragments b) =? 0 then [[]] else fragments b.

(** ** The points a header names *)

(** The runs of indexes of a list, consecutive ones merged; [open] holds the first and the
    last of the run under way. *)
Fixpoint merge_runs (open : option (Z * Z)) (idxs : list Z) : list (Z * Z) :=
  match idxs with
  | [] => match open with Some (first, last) => [(u16 first, u16 last)] | None => [] end
  | idx :: idxs =>
      if 0xFFFF <? idx then merge_runs open idxs
      else
        match open with
        | Some (first, last) =>
            if idx =? u32 (last + 1) then merge_runs (Some (first, idx)) idxs
            else (u16 first, u16 last) :: merge_runs (Some (idx, idx)) idxs
        | None => merge_runs (Some (idx, idx)) idxs
        end
  end.

(** The prefixes the loop reads, [width] octets apart. *)
Definition prefixes (width : Z) (data : list Z) : list Z :=
  (fun k => readPrefix (drop (Z.to_nat (Z.of_nat k * width)) data) width) <$> seq 0 (Z.to_nat (len data / width)).

(** The runs the callback is called with, in order; nothing when the header does not name
    points in a form that is understood. *)
Definition forEachPointRun (h : ObjectHeader) : option (list (Z * Z)) :=
  let spec := Spec (ORange h) in
  if spec =? RangeAllObjects then Some [(0, 0xFFFF)]
  else if IsStartStop spec then
    Some (if Start (ORange h) <=? 0xFFFF
          then [(u16 (Start (ORange h)), u16 (Z.min (Stop (ORange h)) 0xFFFF))] else [])
  else if IsCount spec && IsIndex (IndexPrefix (Qualifier h)) then
    Some (merge_runs None (prefixes (IndexPrefix_Octets (IndexPrefix (Qualifier h))) (Data h)))
  else None.

Definition namesBeyond (h : ObjectHeader) (n : Z) : bool :=
  let spec := Spec (ORange h) in
  if IsStartStop spec then (u32 n <=? Stop (ORange h)) || (Stop (ORange h) <? Start (ORange h))
  else if IsCount spec && IsIndex (IndexPrefix (Qualifier h)) then
    existsb (fun idx => u32 n <=? idx) (prefixes (IndexPrefix_Octets (IndexPrefix (Qualifier h))) (Data h))
  else false.

(** The indication a read of static points earns. *)
Definition checkStaticRead (db : Database) (iin : Z) (pt : PointType) (h : ObjectHeader) : Z :=
  let n := typeCount (Counts db) pt in
  if n =? 0 then IIN_Set iin IINObjectUnknown
  else if namesBeyond h n then IIN_Set iin IINParameterError
  else iin.

(** ** Static data *)

(** The variation with flags that matches one without. *)
Definition withFlags (pt : PointType) (v : Z) : option Z :=
  match pt with
  | TypeBinary | TypeDoubleBitBinary | TypeBinaryOutputStatus => if v =? 1 then Some 2 else None
  | TypeCounter => if v =? 5 then Some 1 else if v =? 6 then Some 2 else None
  | TypeFrozenCounter => if v =? 9 then Some 1 else if v =? 10 then Some 2 else None
  | TypeAnalog => if v =? 3 then Some 1 else if v =? 4 then Some 2 else None
  | TypeFrozenAnalog => if v =? 5 then Some 1 else if v =? 6 then Some 2 else None
  | _ => None
  end.

(** The static variation a point is configured with, its flags, and whether it exists. *)
Definition staticPoint (db : Database) (pt : PointType) (index : Z) : Z * Z * bool :=
  match pt with
  | TypeBinary => let '(v, cfg, ok) := Database_Binary db index in (StaticVariation cfg, Z.ldiff (Flags v) StateBit, ok)
  | TypeDoubleBitBinary => let '(v, cfg, ok) := Database_DoubleBit db index in (StaticVariation cfg, Z.land (Flags v) 0x3F, ok)
  | TypeCounter => let '(v, cfg, ok) := Database_Counter db index in (StaticVariation cfg, Flags v, ok)
  | TypeFrozenCounter => let '(v, cfg, ok) := Database_FrozenCounter db index in (StaticVariation cfg, Flags v, ok)
  | TypeFrozenAnalog => let '(v, cfg, ok) := Database_FrozenAnalog db index in (StaticVariation cfg, Flags v, ok)
  | TypeAnalog => let '(v, cfg, ok) := Database_Analog db index in (StaticVariation cfg, Flags v, ok)
  | TypeBinaryOutputStatus =>
      let '(v, cfg, ok) := Database_BinaryOutputStatus db index in (StaticVariation cfg, Z.ldiff (Flags v) StateBit, ok)
  | TypeAnalogOutputStatus => let '(v, cfg, ok) := Database_AnalogOutputStatus db index in (StaticVariation cfg, Flags v, ok)
  | _ => (0, 0, false)
  end.

Definition reportVariation (db : Database) (pt : PointType) (requested index : Z) : option Z :=
  let '(v, flags, ok) := staticPoint db pt index in
  if negb ok then None
  else
    let v := if negb (requested =? 0) then requested else v in
    Some (match withFlags pt v with
          | Some flagged => if negb (flags =? Online) then flagged else v
          | None => v
          end).

Definition packedBits (g : Objects.GroupVar) : Z :=
  if bool_decide (g = GV 1 1) || bool_decide (g = GV 10 1) then 1
  else if bool_decide (g = GV 3 1) then 2
  else 0.

Definition rangeObjectHeader (g : Objects.GroupVar) (start stop : Z) (data : list Z) : ObjectHeader :=
  let spec := if stop <=? 0xFF then RangeStartStop8 else RangeStartStop16 in
  mkObjectHeader (GV_Group g) (GV_Variation g) (MakeQualifier PrefixNone spec)
    (mkRange spec start stop (u16 (stop - start) + 1)) data 0 0.

Definition encode_with {T} (codec : option (Codec T)) (dst : list Z) (v : T) (ctx : Context) : list Z :=
  match codec with Some c => Write c dst v ctx | None => dst end.

Definition encodeStatic (db : Database) (dst : list Z) (pt : PointType) (g : Objects.GroupVar) (index : Z) (ctx : Context) : list Z :=
  match pt with
  | TypeBinary => encode_with (BinaryCodec g) dst (Database_Binary db index).1.1 ctx
  | TypeDoubleBitBinary => encode_with (DoubleBitCodec g) dst (Database_DoubleBit db index).1.1 ctx
  | TypeCounter => encode_with (CounterCodec g) dst (Database_Counter db index).1.1 ctx
  | TypeFrozenCounter => encode_with (FrozenCounterCodec g) dst (Database_FrozenCounter db index).1.1 ctx
  | TypeFrozenAnalog => encode_with (AnalogCodec g) dst (Database_FrozenAnalog db index).1.1 ctx
  | TypeAnalog => encode_with (AnalogCodec g) dst (Database_Analog db index).1.1 ctx
  | TypeBinaryOutputStatus => encode_with (BinaryOutputCodec g) dst (Database_BinaryOutputStatus db index).1.1 ctx
  | TypeAnalogOutputStatus => encode_with (AnalogOutputCodec g) dst (Database_AnalogOutputStatus db index).1.1 ctx
  | _ => dst
  end.

(** [const headerOverhead]: an object header and the widest range. *)
Definition headerOverhead : Z := ObjectHeaderSize + 4.

Definition packed_data (db : Database) (pt : PointType) (idx last : Z) : list Z :=
  match pt with
  | TypeDoubleBitBinary =>
      AppendPackedDoubleBit [] ((fun i => Value (Database_DoubleBit db (u16 i)).1.1) <$> seqZ idx (last - idx + 1))
  | TypeBinaryOutputStatus =>
      AppendPackedBinary [] ((fun i => Value (Database_BinaryOutputStatus db (u16 i)).1.1) <$> seqZ idx (last - idx + 1))
  | _ => AppendPackedBinary [] ((fun i => Value (Database_Binary db (u16 i)).1.1) <$> seqZ idx (last - idx + 1))
  end.

(** Each turn reports at least one point, so a turn per point is enough. *)
Fixpoint buildPackedRun (fuel : nat) (db : Database) (b : responseBuilder) (pt : PointType) (g : Objects.GroupVar)
    (bits idx stop : Z) : responseBuilder :=
  match fuel with
  | O => b
  | S fuel =>
      if stop <? idx then b
      else
        let capacity := Z.quot ((room b - headerOverhead) * 8) bits in
        let b := if capacity <? 1 then flush b else b in
        let capacity := if capacity <? 1 then Z.quot ((room b - headerOverhead) * 8) bits else capacity in
        if capacity <? 1 then b
        else
          let last := Z.min (idx + capacity - 1) stop in
          let b := add b (rangeObjectHeader g (u16 idx) (u16 last) (packed_data db pt idx last)) in
          buildPackedRun fuel db b pt g bits (last + 1) stop
  end.

Fixpoint static_run (fuel : nat) (db : Database) (b : responseBuilder) (pt : PointType) (g : Objects.GroupVar)
    (size idx stop : Z) : responseBuilder :=
  match fuel with
  | O => b
  | S fuel =>
      if stop <? idx then b
      else
        let avail := room b - headerOverhead in
        let b := if avail <? size then flush b else b in
        let avail := if avail <? size then room b - headerOverhead else avail in
        if avail <? size then b
        else
          let runLen := Z.min (Z.quot avail size) (stop - idx + 1) in
          let last := idx + runLen - 1 in
          let data := fold_left (fun data i => encodeStatic db data pt g (u16 i) (b_ctx b)) (seqZ idx runLen) [] in
          let b := add b (rangeObjectHeader g (u16 idx) (u16 last) data) in
          static_run fuel db b pt g size (last + 1) stop
  end.

Definition turns (idx stop : Z) : nat := Z.to_nat (stop - idx + 1).

Definition buildStaticRun (db : Database) (b : responseBuilder) (pt : PointType) (variation start stop : Z) : responseBuilder :=
  let g := staticGroupVar pt variation in
  let bits := packedBits g in
  if 0 <? bits then buildPackedRun (turns start stop) db b pt g bits start stop
  else
    match Lookup g with
    | None => b
    | Some d =>
        match SizeOctets d with
        | None => b
        | Some size => if size =? 0 then b else static_run (turns start stop) db b pt g size start stop
        end
    end.

(** [appendOctetString]. *)
Definition appendOctetString (dst v : list Z) (length : Z) : list Z :=
  let v := if length <? len v then take (Z.to_nat length) v else v in
  (dst ++ v) ++ replicate (Z.to_nat (length - len v)) 0.

(** The octets and existence of an octet string point. *)
Definition octet_string (db : Database) (index : Z) : option (list Z) :=
  let '(v, _, ok) := Database_OctetString db index in
  if (ok : bool) then Some (read (arrays db) v) else None.
Definition reported_length (v : list Z) : Z := Z.max (len v) 1.

(** The last point of the run of strings of one length that starts at or before [last]. *)
Fixpoint octet_run_end (fuel : nat) (db : Database) (length last stop : Z) : Z :=
  match fuel with
  | O => last
  | S fuel =>
      if last <? stop then
        match octet_string db (u16 (last + 1)) with
        | Some next => if reported_length next =? length then octet_run_end fuel db length (last + 1) stop else last
        | None => last
        end
      else last
  end.

(** The inner loop: [false] when the function returned from inside it. *)
Fixpoint octet_run (fuel : nat) (db : Database) (b : responseBuilder) (length idx last : Z) : responseBuilder * bool :=
  match fuel with
  | O => (b, true)
  | S fuel =>
      if last <? idx then (b, true)
      else
        let avail := room b - headerOverhead in
        let b := if avail <? length then flush b else b in
        let avail := if avail <? length then room b - headerOverhead else avail in
        if avail <? length then (b, false)
        else
          let runEnd := Z.min (idx + Z.quot avail length - 1) last in
          let data := fold_left (fun data i => appendOctetString data (default [] (octet_string db (u16 i))) length)
                        (seqZ idx (runEnd - idx + 1)) [] in
          let b := add b (rangeObjectHeader (GV 110 (u8 length)) (u16 idx) (u16 runEnd) data) in
          octet_run fuel db b length (runEnd + 1) last
  end.

Fixpoint octet_loop (fuel : nat) (db : Database) (b : responseBuilder) (idx stop : Z) : responseBuilder :=
  match fuel with
  | O => b
  | S fuel =>
      if stop <? idx then b
      else
        match octet_string db (u16 idx) with
        | None => b
        | Some v =>
            let length := reported_length v in
            let last := octet_run_end (turns idx stop) db length idx stop in
            let '(b, more) := octet_run (turns idx last) db b length idx last in
            if more : bool then octet_loop fuel db b (last + 1) stop else b
        end
  end.

Definition buildOctetStrings (db : Database) (b : responseBuilder) (start stop : Z) : responseBuilder :=
  if stop <? start then b else octet_loop (turns start stop) db b start stop.

(** The last point of the run that is reported in variation [v]. *)
Fixpoint run_end (fuel : nat) (db : Database) (pt : PointType) (variation v end_ stop : Z) : Z :=
  match fuel with
  | O => end_
  | S fuel =>
      if end_ <? stop then
        match reportVariation db pt variation (u16 (end_ + 1)) with
        | Some next => if next =? v then run_end fuel db pt variation v (end_ + 1) stop else end_
        | None => end_
        end
      else end_
  end.

Fixpoint static_loop (fuel : nat) (db : Database) (b : responseBuilder) (pt : PointType) (variation idx stop : Z)
    : responseBuilder :=
  match fuel with
  | O => b
  | S fuel =>
      if stop <? idx then b
      else
        match reportVariation db pt variation (u16 idx) with
        | None => b
        | Some v =>
            let end_ := run_end (turns idx stop) db pt variation v idx stop in
            static_loop fuel db (buildStaticRun db b pt v (u16 idx) (u16 end_)) pt variation (end_ + 1) stop
        end
  end.

Definition buildStaticRange (db : Database) (b : responseBuilder) (pt : PointType) (variation start stop : Z) : responseBuilder :=
  let limit := typeCount (Counts db) pt in
  if limit =? 0 then b
  else
    match pt with
    | TypeOctetString => buildOctetStrings db b start (Z.min stop (u16 (limit - 1)))
    | _ =>
        let stop := if limit <=? stop then u16 (limit - 1) else stop in
        if stop <? start then b else static_loop (turns start stop) db b pt variation start stop
    end.

(** The points a read of class 0 asks for: every type in turn ([onRead] of session.go). *)
Definition buildStatic (db : Database) (b : responseBuilder) : responseBuilder :=
  fold_left (fun b pt => buildStaticRange db b pt 0 0 0xFFFF) staticTypes b.

(** ** Events *)

Definition eventTypeForGroup (group : Z) : option PointType :=
  if group =? 2 then Some TypeBinary
  else if group =? 4 then Some TypeDoubleBitBinary
  else if group =? 11 then Some TypeBinaryOutputStatus
  else if group =? 13 then Some TypeBinaryCommandEvent
  else if group =? 22 then Some TypeCounter
  else if group =? 23 then Some TypeFrozenCounter
  else if group =? 33 then Some TypeFrozenAnalog
  else if group =? 88 then Some TypeDataset
  else if group =? 122 then Some TypeSecurityStatistic
  else if group =? 113 then Some TypeVirtualTerminal
  else if group =? 32 then Some TypeAnalog
  else if group =? 42 then Some TypeAnalogOutputStatus
  else if group =? 43 then Some TypeAnalogCommandEvent
  else if group =? 111 then Some TypeOctetString
  else None.

(** [h] holds the arrays octet strings live in. *)
Definition encodeEvent (h : list (list Z)) (dst : list Z) (g : Objects.GroupVar) (e : Event) (ctx : Context) : list Z :=
  match EType e with
  | TypeBinary => encode_with (BinaryCodec g) dst (EBinary e) ctx
  | TypeDoubleBitBinary => encode_with (DoubleBitCodec g) dst (EDoubleBit e) ctx
  | TypeCounter => encode_with (CounterCodec g) dst (ECounter e) ctx
  | TypeFrozenCounter => encode_with (FrozenCounterCodec g) dst (EFrozenCounter e) ctx
  | TypeFrozenAnalog => encode_with (AnalogCodec g) dst (EFrozenAnalog e) ctx
  | TypeAnalog => encode_with (AnalogCodec g) dst (EAnalog e) ctx
  | TypeBinaryOutputStatus => encode_with (BinaryOutputCodec g) dst (EBinaryOutput e) ctx
  | TypeAnalogOutputStatus => encode_with (AnalogOutputCodec g) dst (EAnalogOutput e) ctx
  | TypeSecurityStatistic =>
      let dst := (dst ++ [Online; 0; 0]) ++ le32 (ESecurityStatistic e) in
      if GV_Variation g =? 2 then AppendTime48 dst (ETime e) else dst
  | TypeOctetString | TypeVirtualTerminal => appendOctetString dst (read h (EOctetString e)) (GV_Variation g)
  | TypeBinaryCommandEvent | TypeAnalogCommandEvent =>
      AppendCommandEvent dst (GV_Group g) (GV_Variation g)
        (mkCommandEvent (CommandStatus e) (bool_decide (EType e = TypeAnalogCommandEvent)) (CommandState e)
           (CommandValue e) (ETime e))
  | _ => dst
  end.

Definition ctoHeader (synchronized : bool) (base : Z) : ObjectHeader :=
  mkObjectHeader 51 (if synchronized then 1 else 2) (MakeQualifier PrefixNone RangeCount8)
    (mkRange RangeCount8 0 0 1) (AppendTime48 [] (mkTimestamp base TimestampInvalid)) 0 0.

(** [time.Time.Truncate(time.Millisecond)]. *)
Definition truncate_ms (t : Z) : Z := t / 1000000 * 1000000.

(** Whether an event's time can be told as an offset from [base]. *)
Definition in_window (base : Z) (e : Event) : bool :=
  negb (Timestamp_IsValid (ETime e)) ||
  (let d := Milliseconds (time_Sub (TTime (ETime e)) base) in (0 <=? d) && (d <=? 0xFFFF)).

Fixpoint within_prefix (base : Z) (events : list Event) : Z :=
  match events with
  | [] => 0
  | e :: events => if in_window base e then 1 + within_prefix base events else 0
  end.
Definition eventsWithinWindow (events : list Event) (base : Z) : Z :=
  let n := within_prefix base events in
  if n <? len events then Z.max n 1 else len events.

(** How a run of events is encoded: all of them share these. *)
Record runFormat := mkRunFormat {
  f_gv : Objects.GroupVar; f_size : Z; f_relative : bool; f_prefix : Z; f_spec : Z; f_maxCount : Z }.

Definition same_encoding (g : Objects.GroupVar) (e : Event) : bool :=
  (eventGroup (EType e) =? GV_Group g) && (EVariation e =? GV_Variation g).

(** The longest prefix that shares the encoding, and the rest. *)
Fixpoint split_run (g : Objects.GroupVar) (events : list Event) : list Event * list Event :=
  match events with
  | [] => ([], [])
  | e :: rest =>
      if same_encoding g e then let '(run, rest) := split_run g rest in (e :: run, rest) else ([], events)
  end.

(** The size of an event's object, and whether its time is relative. *)
Definition event_size (g : Objects.GroupVar) (pt : PointType) : Z * bool :=
  match pt with
  | TypeOctetString | TypeVirtualTerminal => (GV_Variation g, false)
  | _ => match Lookup g with
         | Some d => (default 0 (SizeOctets d), RelativeTimed d)
         | None => (0, false)
         end
  end.

Definition run_format (g : Objects.GroupVar) (size : Z) (relative : bool) (run : list Event) : runFormat :=
  if existsb (fun e => 0xFF <? EIndex e) run
  then mkRunFormat g size relative PrefixIndex2 RangeCount16 0xFFFF
  else mkRunFormat g size relative PrefixIndex1 RangeCount8 0xFF.

Section Events.
Context {W : Type} (appl_Now : W -> W * Z) (synchronized : bool) (h : list (list Z)).

Definition eventBase (w : W) (e : Event) : W * Z :=
  if negb (Timestamp_IsValid (ETime e)) then let '(w, now) := appl_Now w in (w, truncate_ms now)
  else (w, truncate_ms (TTime (ETime e))).

Definition event_object (f : runFormat) (ctx : Context) (data : list Z) (e : Event) : list Z :=
  let data := if IndexPrefix_Octets (f_prefix f) =? 1 then data ++ [u8 (EIndex e)] else data ++ le16 (EIndex e) in
  encodeEvent h data (f_gv f) e ctx.

Definition event_header (f : runFormat) (ctx : Context) (run : list Event) : ObjectHeader :=
  mkObjectHeader (GV_Group (f_gv f)) (GV_Variation (f_gv f)) (MakeQualifier (f_prefix f) (f_spec f))
    (mkRange (f_spec f) 0 0 (u32 (len run))) (fold_left (event_object f ctx) run []) 0 0.

(** The inner loop; each turn takes at least one event of the run.  The events it could not
    place come back. *)
Fixpoint event_run (fuel : nat) (f : runFormat) (run : list Event) (b : responseBuilder) (w : W)
    : responseBuilder * W * list Event :=
  match fuel with
  | O => (b, w, [])
  | S fuel =>
      match run with
      | [] => (b, w, [])
      | e :: _ =>
          let perObject := IndexPrefix_Octets (f_prefix f) + f_size f in
          let overhead := ObjectHeaderSize + RangeSpec_Octets (f_spec f) in
          let ctoSize := if f_relative f then ObjectHeader_Size (ctoHeader synchronized zeroTime) else 0 in
          let avail := room b - ctoSize - overhead in
          let b := if avail <? perObject then flush b else b in
          let avail := if avail <? perObject then room b - ctoSize - overhead else avail in
          if avail <? perObject then (b, w, run)
          else
            let runLen := Z.min (Z.min (Z.quot avail perObject) (len run)) (f_maxCount f) in
            let '(b, w, runLen, ctx) :=
              if f_relative f then
                let '(w, base) := eventBase w e in
                (add b (ctoHeader synchronized base), w,
                 Z.min runLen (eventsWithinWindow (take (Z.to_nat runLen) run) base), WithCTO (b_ctx b) base)
              else (b, w, runLen, b_ctx b) in
            let b := add b (event_header f ctx (take (Z.to_nat runLen) run)) in
            event_run fuel f (drop (Z.to_nat runLen) run) b w
      end
  end.

(** Each turn takes at least one event.  The events that cannot be sent come back. *)
Fixpoint event_loop (fuel : nat) (events : list Event) (b : responseBuilder) (w : W)
    : responseBuilder * W * list Event :=
  match fuel with
  | O => (b, w, [])
  | S fuel =>
      match events with
      | [] => (b, w, [])
      | e :: rest =>
          if bool_decide (EType e = TypeDataset) then
            let '(b, lost) :=
              match FreeFormat 88 1 (EDataset e) with
              | Ok hd => if ObjectHeader_Size hd + ResponseHeaderSize <=? b_max b then (add b hd, []) else (b, [e])
              | Err _ => (b, [e])
              end in
            let '(b, w, unsent) := event_loop fuel rest b w in (b, w, lost ++ unsent)
          else
            let g := GV (eventGroup (EType e)) (EVariation e) in
            let '(size, relative) := event_size g (EType e) in
            if size =? 0 then
              let '(b, w, unsent) := event_loop fuel rest b w in (b, w, e :: unsent)
            else
              let '(run, rest) := split_run g events in
              let '(b, w, lost) := event_run (length run) (run_format g size relative run) run b w in
              let '(b, w, unsent) := event_loop fuel rest b w in (b, w, lost ++ unsent)
      end
  end.

Definition buildEvents (b : responseBuilder) (w : W) (events : list Event) : responseBuilder * W * list Event :=
  event_loop (length events) events b w.
End Events.
