(* ===== verification/ReadResponse.v ===== *)
(** * What a master reads in a response

    The composition of the outstation's response builder (Response) with the master's parser
    and dispatcher (AppFragment, Dispatch).  [adds] is the calculus of the proofs: it says
    what an operation on the builder adds to the reports a master gets from the fragments,
    whatever was in the builder before.

    The theorems: an integrity poll reports every static point of the database exactly once,
    in index order, with the value the variation it is reported in can express, in fragments
    within the limit; and every event a response is built from is reported once, in order,
    or handed back as one that cannot be sent. *)

From Stdlib Require Import SpecFloat.
From S2P Require Import Prelude Values Floats AppHeader AppObject AppFragment Objects Codecs CommandEvents.
From S2P Require Import EventBuffer Database ExtendedDatabase Commands Dispatch Response.

(** ** Fragments and what a master reads in them *)

Definition sound (h : ObjectHeader) : Prop := object_ok DefaultSizer true h.

(** A body, with the response header in front, as it reaches the master's handler. *)
Definition received (k : HandlerKind) (sync : bool) (now : Z) (hdr : Header) (body : list Z) : list HandlerCall :=
  deliver k sync now (ParseFragment None (AppendHeader [] hdr ++ body)).1 false.

Section Adds.
Context (k : HandlerKind) (sync : bool).

Definition fragment_reports (hs : list ObjectHeader) : list report :=
  all_reports (deliver_objects k (fragment_context sync) hs).
Definition said (D : list (list ObjectHeader)) : list report := concat (fragment_reports <$> D).

(** The fragments of [b] are those of [D], and the open one holds [C]. *)
Record holds (b : responseBuilder) (D : list (list ObjectHeader)) (C : list ObjectHeader) : Prop := mkHolds {
  holds_fragments : fragments b = encode_objects <$> D;
  holds_cur : cur b = encode_objects C;
  holds_sound : Forall (Forall sound) (D ++ [C]);
  holds_fit : Forall (fun C => len (encode_objects C) <= b_max b - ResponseHeaderSize) (D ++ [C]) }.

(** Going from [b] to [b'] adds the reports [R]. *)
Definition adds (b b' : responseBuilder) (R : list report) : Prop :=
  b_max b' = b_max b /\ b_ctx b' = b_ctx b /\
  forall D C, holds b D C -> exists D' C', holds b' D' C' /\ said (D' ++ [C']) = said (D ++ [C]) ++ R.

Lemma said_app D D' : said (D ++ D') = said D ++ said D'.
Proof. unfold said. by rewrite fmap_app, concat_app. Qed.

Lemma said_one C : said [C] = fragment_reports C.
Proof. unfold said. cbn. apply app_nil_r. Qed.

Lemma adds_refl b : adds b b [].
Proof. split_and!; [done | done|]. intros D C H. exists D, C. by rewrite app_nil_r. Qed.

Lemma adds_trans b1 b2 b3 R R' : adds b1 b2 R -> adds b2 b3 R' -> adds b1 b3 (R ++ R').
Proof.
  intros (M1 & X1 & H1) (M2 & X2 & H2). split_and!; [congruence | congruence|]. intros D C H.
  destruct (H1 _ _ H) as (D1 & C1 & h1 & E1). destruct (H2 _ _ h1) as (D2 & C2 & h2 & E2).
  exists D2, C2. split; [done|]. by rewrite E2, E1, app_assoc.
Qed.

Lemma encode_objects_app l l' : encode_objects (l ++ l') = encode_objects l ++ encode_objects l'.
Proof. unfold encode_objects. by rewrite fmap_app, concat_app. Qed.

Lemma adds_flush b : adds b (flush b) [].
Proof.
  unfold flush. destruct (Z.ltb_spec 0 (len (cur b))); [|apply adds_refl].
  split_and!; [done | done|]. intros D C [Hf Hc Hs Hl].
  pose proof Hl as Hl'. rewrite Forall_app, Forall_singleton in Hl'. destruct Hl' as [_ Hl'].
  exists (D ++ [C]), []. split.
  - constructor; cbn [fragments cur b_max].
    + by rewrite fmap_app, Hf, Hc.
    + done.
    + apply Forall_app. split; [done | by repeat constructor].
    + apply Forall_app. split; [done|]. apply Forall_singleton. pose proof (len_nonneg (encode_objects C)).
      change (encode_objects []) with (@nil Z). rewrite len_nil. lia.
  - by rewrite said_app, said_one.
Qed.

Lemma flush_room b : room (flush b) = if 0 <? len (cur b) then b_max b - ResponseHeaderSize else room b.
Proof. unfold flush, room. destr_if; cbn [b_max cur]; rewrite ?len_nil; lia. Qed.

Lemma b_max_add b h : b_max (add b h) = b_max b.
Proof. unfold add. destr_if; [|done]. cbn [b_max]. by destruct (adds_flush b) as (-> & _). Qed.

(** Adding a header that fits the open fragment. *)
Lemma add_fits b h : ObjectHeader_Size h <= room b ->
  add b h = mkBuilder (b_max b) (fragments b) (cur b ++ AppendObjectHeader [] h) (b_ctx b).
Proof.
  intros Hr. unfold add. destruct (Z.ltb_spec (room b) (ObjectHeader_Size h)); [lia|]. cbn [andb].
  by rewrite AppendObjectHeader_dst.
Qed.

Lemma size_AppendObjectHeader h : sound h -> len (AppendObjectHeader [] h) = ObjectHeader_Size h.
Proof. apply len_AppendObjectHeader. Qed.

(** A block of headers that fits the open fragment as a whole stays in one fragment. *)
Lemma add_block hs b :
  Forall sound hs -> len (encode_objects hs) <= room b ->
  fold_left add hs b = mkBuilder (b_max b) (fragments b) (cur b ++ encode_objects hs) (b_ctx b).
Proof.
  revert b. induction hs as [|h hs IH]; intros b Hs Hr.
  { cbn. rewrite app_nil_r. by destruct b. }
  apply Forall_cons in Hs as [Hh Hs]. change (encode_objects (h :: hs)) with (AppendObjectHeader [] h ++ encode_objects hs) in *.
  rewrite len_app, size_AppendObjectHeader in Hr by done. pose proof (len_nonneg (encode_objects hs)).
  cbn [fold_left]. rewrite add_fits by lia. rewrite IH; [|done|].
  - cbn [b_max fragments cur b_ctx]. by rewrite <- app_assoc.
  - unfold room in *. cbn [b_max cur]. rewrite len_app, size_AppendObjectHeader by done. lia.
Qed.

Lemma adds_block hs b R :
  Forall sound hs -> len (encode_objects hs) <= room b ->
  (forall ctx, Synchronized ctx = sync -> all_reports (deliver_objects k ctx hs) = R) ->
  adds b (fold_left add hs b) R.
Proof.
  intros Hs Hr HR. rewrite add_block by done. split_and!; [done | done|]. intros D C [Hf Hc Hso Hl].
  exists D, (C ++ hs). rewrite Forall_app, Forall_singleton in Hso, Hl. destruct Hso as [HD HC], Hl as [LD LC].
  split; [constructor; cbn [fragments cur b_max]|].
  - done.
  - by rewrite encode_objects_app, Hc.
  - rewrite Forall_app, Forall_singleton. split; [done|]. by apply Forall_app.
  - rewrite Forall_app, Forall_singleton. split; [done|]. rewrite encode_objects_app, len_app, <- Hc. unfold room in Hr. lia.
  - rewrite !said_app, !said_one, <- app_assoc. f_equal. unfold fragment_reports.
    rewrite deliver_objects_app, all_reports_app. f_equal. apply HR. by rewrite context_sync.
Qed.

(** One header that is not a common time. *)
Lemma adds_add b h R :
  sound h -> ObjectHeader_Size h <= b_max b - ResponseHeaderSize -> Group h <> 51 ->
  (forall ctx, Synchronized ctx = sync -> all_reports (dispatch k h ctx) = R) ->
  adds b (add b h) R.
Proof.
  intros Hs Hm Hg HR.
  assert (Hone : forall b', ObjectHeader_Size h <= room b' -> adds b' (add b' h) R).
  { intros b' Hr. apply (adds_block [h]); [by constructor| |].
    - unfold encode_objects. cbn [fmap list_fmap concat]. by rewrite app_nil_r, size_AppendObjectHeader.
    - intros ctx Hc. cbn [deliver_objects]. destruct (Z.eqb_spec (Group h) 51); [done|]. cbn [andb].
      rewrite app_nil_r. by apply HR. }
  destruct (Z.le_gt_cases (ObjectHeader_Size h) (room b)); [by apply Hone|].
  destruct (Z.ltb_spec 0 (len (cur b))) as [Hc|Hc].
  - replace (add b h) with (add (flush b) h).
    + change R with ([] ++ R). eapply adds_trans; [apply adds_flush | apply Hone]. rewrite flush_room.
      destruct (Z.ltb_spec 0 (len (cur b))); lia.
    + assert (cur (flush b) = []) as Hn by (unfold flush; by destruct (Z.ltb_spec 0 (len (cur b))); [|lia]).
      unfold add at 1. rewrite Hn. change (0 <? len []) with false. rewrite andb_false_r. unfold add.
      rewrite (proj2 (Z.ltb_lt (room b) (ObjectHeader_Size h))), (proj2 (Z.ltb_lt 0 (len (cur b)))) by lia. cbn [andb]. by rewrite Hn.
  - unfold room in *. pose proof (len_nonneg (cur b)). lia.
Qed.

(** What a master makes of the bodies the builder ends with. *)
Lemma deliver_received now hdr C :
  header_ok hdr -> Func hdr = FuncResponse -> Forall sound C ->
  all_reports (received k sync now hdr (encode_objects C)) = fragment_reports C.
Proof.
  intros Hh Hf Hs. unfold received. rewrite ParseFragment_Append.
  - unfold deliver, FHeader, Objects. cbn [fst]. rewrite !all_reports_app, deliver_laid_out. cbn. by rewrite app_nil_r.
  - done.
  - unfold objects_ok. eapply Forall_impl; [exact Hs|]. intros o Ho. by rewrite Hf.
Qed.

Lemma adds_done max ctx b R now hdr :
  header_ok hdr -> Func hdr = FuncResponse -> adds (newResponseBuilder max ctx) b R ->
  4 <= b_max b ->
  concat ((fun body => all_reports (received k sync now hdr body)) <$> done b) = R /\
  Forall (fun body => len body <= b_max b - ResponseHeaderSize) (done b).
Proof.
  intros Hh Hf (Hm & _ & H) H4. destruct (H [] []) as (D & C & Hb & HR).
  { constructor; cbn [newResponseBuilder fragments cur]; [done | done | by repeat constructor|].
    apply Forall_singleton. rewrite <- Hm. change (encode_objects []) with (@nil Z). rewrite len_nil. unfold ResponseHeaderSize. lia. }
  cbn [app] in HR. change (said [[]]) with (@nil report) in HR. rewrite app_nil_l in HR.
  destruct (adds_flush b) as (Hm' & _ & Hfl). destruct (Hfl _ _ Hb) as (D' & C' & [F' U' S' L'] & HR'). rewrite app_nil_r in HR'.
  assert (Hcur : cur (flush b) = []).
  { unfold flush. destruct (Z.ltb_spec 0 (len (cur b))) as [|Hc]; [done|]. destruct (cur b); [done|].
    rewrite len_cons in Hc. pose proof (len_nonneg l). lia. }
  assert (HC' : fragment_reports C' = []).
  { destruct C' as [|o C']; [done|]. exfalso. rewrite Hcur in U'. apply (f_equal (@len Z)) in U'.
    change (encode_objects (o :: C')) with (AppendObjectHeader [] o ++ encode_objects C') in U'.
    apply Forall_app in S' as [_ S']. rewrite Forall_singleton in S'. apply Forall_cons in S' as [So _].
    rewrite len_app, size_AppendObjectHeader in U' by done. pose proof (object_size_pos _ _ _ So).
    pose proof (len_nonneg (encode_objects C')). rewrite len_nil in U'. lia. }
  rewrite said_app, said_one, HC', app_nil_r in HR'.
  rewrite Forall_app in S', L'. destruct S' as [SD _], L' as [LD _].
  assert (Hall : concat ((fun body => all_reports (received k sync now hdr body)) <$> fragments (flush b)) = R /\
    Forall (fun body => len body <= b_max b - ResponseHeaderSize) (fragments (flush b))).
  { rewrite F', Hm' in *. split; [|by apply Forall_fmap]. rewrite <- HR, <- HR'. unfold said. f_equal.
    rewrite <- list_fmap_compose. apply list_fmap_ext. intros i C1 Hi. unfold compose.
    rewrite Forall_lookup in SD. apply deliver_received; [done | done | by eapply SD]. }
  unfold done. destruct (Z.eqb_spec (len (fragments (flush b))) 0) as [E|_]; [|exact Hall].
  destruct (fragments (flush b)); [|rewrite len_cons in E; pose proof (len_nonneg l0); lia].
  destruct Hall as [Hall _]. cbn in Hall. rewrite <- Hall. split.
  - cbn [fmap list_fmap concat]. rewrite app_nil_r. by apply (deliver_received now hdr []).
  - apply Forall_singleton. rewrite len_nil. unfold ResponseHeaderSize. lia.
Qed.
End Adds.

(** ** Measurements as the two sides see them

    [Served pt V]: the points of type [pt] hold a measurement of a [V], which the outstation
    encodes with a table of codecs and the master decodes with the same. *)

(** The times of two contexts are told alike in a variation. *)
Definition times_agree (d : Descriptor) (ctx ctx' : Context) : Prop :=
  RelativeTimed d = false \/ (HasCTO ctx = HasCTO ctx' /\ CTO ctx = CTO ctx').

(** What the outstation writes depends on its context only through the common time. *)
Definition writes_agree {T} (e : (Z * Z) * Codec T) : Prop :=
  forall d, Lookup (GV e.1.1 e.1.2) = Some d -> forall v dst ctx ctx', times_agree d ctx ctx' ->
  Write e.2 dst v ctx = Write e.2 dst v ctx'.

(** How the master treats an entry of a table that is in one of the groups given: it sizes
    its objects as the registry does and hands what it decodes to the handler. *)
Definition dispatched {V} (k : HandlerKind) (wrap : measurement V -> reading) (groups : list Z)
    (e : (Z * Z) * Codec (measurement V)) : Prop :=
  e.1.1 ∈ groups -> exists d n, Lookup (GV e.1.1 e.1.2) = Some d /\ SizeOctets d = Some n /\ 0 < n <= 15 /\
    Packed d = false /\ SpecSizer e.1.1 e.1.2 = Some (8 * n) /\ octet_ok e.1.1 /\ 0 < e.1.2 < 256 /\
    one_of e.1.1 [51; 91; 0] = false /\
    forall h ctx, Group h = e.1.1 -> Variation h = e.1.2 -> 0 < len (Data h) ->
      all_reports (dispatch k h ctx) =
      reports_of wrap (mkHeaderInfo (GV e.1.1 e.1.2) (D_Kind d) ClassNone)
        (decodeRun h n (prefix_len h) (fun b => Parse e.2 b ctx)).

(** A measurement as a variation reports it. *)
Definition as_reported {V} (rep : Descriptor -> Context -> measurement V -> measurement V) (g : Objects.GroupVar)
    (sync : bool) (m : measurement V) : measurement V :=
  match Lookup g with
  | Some d => if Packed d then mkMeasurement (Value m) Online NoTime else rep d (fragment_context sync) m
  | None => m
  end.

(** What a master reads of a point reported in group and variation [g]. *)
Definition static_reading (k : HandlerKind) (sync : bool) (db : Database) (pt : PointType) (g : Objects.GroupVar) (i : Z)
    : reading :=
  match pt with
  | TypeBinary => RBinary (as_reported reported_binary g sync (Database_Binary db i).1.1)
  | TypeDoubleBitBinary => RDoubleBit (as_reported reported_doubleBit g sync (Database_DoubleBit db i).1.1)
  | TypeCounter => RCounter (as_reported reported_counter g sync (Database_Counter db i).1.1)
  | TypeFrozenCounter => RFrozenCounter (as_reported reported_counter g sync (Database_FrozenCounter db i).1.1)
  | TypeAnalog => RAnalog (as_reported reported_analog g sync (Database_Analog db i).1.1)
  | TypeFrozenAnalog =>
      (if isFrozenAnalogHandler k then RFrozenAnalog else RAnalog)
        (as_reported reported_analog g sync (Database_FrozenAnalog db i).1.1)
  | TypeBinaryOutputStatus => RBinaryOutputStatus (as_reported reported_binary g sync (Database_BinaryOutputStatus db i).1.1)
  | TypeAnalogOutputStatus => RAnalogOutputStatus (as_reported reported_analog g sync (Database_AnalogOutputStatus db i).1.1)
  | _ => ROctetString (appendOctetString [] (default [] (octet_string db i)) (GV_Variation g))
  end.

Class Served (pt : PointType) (V : Type) := {
  sv_table : list ((Z * Z) * Codec (measurement V));
  sv_ok : measurement V -> Prop;
  sv_reported : Descriptor -> Context -> measurement V -> measurement V;
  sv_value : Database -> Z -> measurement V;
  sv_event : Event -> measurement V;
  sv_wrap : HandlerKind -> measurement V -> reading;
  sv_encode : forall db dst g i ctx,
    encodeStatic db dst pt g i ctx = encode_with (codec_lookup sv_table g) dst (sv_value db i) ctx;
  sv_encode_event : forall h dst g e ctx, EType e = pt ->
    encodeEvent h dst g e ctx = encode_with (codec_lookup sv_table g) dst (sv_event e) ctx;
  sv_codecs : Forall (codec_ok sv_ok sv_reported) sv_table;
  sv_writes : Forall writes_agree sv_table;
  sv_dispatched : forall k, Forall (dispatched k (sv_wrap k) [GV_Group (staticGroupVar pt 0); eventGroup pt]) sv_table;
  sv_reported_ctx : forall d ctx ctx' v, RelativeTimed d = false -> Synchronized ctx = Synchronized ctx' ->
    sv_reported d ctx v = sv_reported d ctx' v;
  sv_reading : forall k sync db g i,
    static_reading k sync db pt g i = sv_wrap k (as_reported sv_reported g sync (sv_value db i)) }.

Lemma reported_time_ctx d ctx ctx' t : RelativeTimed d = false -> Synchronized ctx = Synchronized ctx' ->
  reported_time d ctx t = reported_time d ctx' t.
Proof. intros Hr Hs. unfold reported_time, TimeQuality. by rewrite Hr, Hs. Qed.

Ltac table_cases := repeat (apply Forall_cons; split); [.. | apply Forall_nil; exact I].

Ltac solve_writes :=
  unfold writes_agree; cbn [fst snd Write];
  let d := fresh in let E := fresh in let Hr := fresh in let Hh := fresh in let Hc := fresh in
  intros d E; vm_compute in E; injection E as <-; intros ? ? ? ? [Hr|[Hh Hc]];
  [first [discriminate Hr | reflexivity]|];
  first [reflexivity | unfold writeG2V3, writeG4V3, RelativeOffset; by rewrite Hh, Hc].

Ltac solve_dispatched :=
  unfold dispatched; cbn [fst snd Parse]; let H := fresh in intros H;
  first [ exfalso; rewrite !elem_of_cons, elem_of_nil in H; cbn in H; lia
        | clear H; eexists _, _; split; [vm_compute; reflexivity|]; split; [vm_compute; reflexivity|];
          split; [lia|]; split; [reflexivity|]; split; [vm_compute; reflexivity|]; split; [split; lia|];
          split; [lia|]; split; [reflexivity|];
          let Hg := fresh in let Hv := fresh in let Hd := fresh in intros h ctx Hg Hv Hd; unfold dispatch;
          rewrite Hg, Hv, (proj2 (Z.eqb_neq (len (Data h)) 0)) by lia; cbn -[decodeRun prefix_len SizeOctets];
          rewrite bool_decide_eq_false_2 by discriminate;
          match goal with |- context [SizeOctets ?d] =>
            let x := eval vm_compute in (SizeOctets d) in change (SizeOctets d) with x end;
          cbn -[decodeRun prefix_len];
          match goal with k : HandlerKind |- _ => destruct (isFrozenAnalogHandler k); cbn -[decodeRun prefix_len] end;
          rewrite ?app_nil_r; reflexivity ].

#[export] Instance served_binary : Served TypeBinary bool.
Proof.
  refine (Build_Served _ _ binaryCodecs binary_ok reported_binary (fun db i => (Database_Binary db i).1.1) EBinary
    (fun _ => RBinary) _ _ binary_codecs_ok _ _ _ _).
  - done.
  - intros h dst g e ctx H. unfold encodeEvent. by rewrite H.
  - unfold binaryCodecs. table_cases. all: solve_writes.
  - intros k. unfold binaryCodecs. table_cases. all: solve_dispatched.
  - intros d ctx ctx' v Hr Hs. unfold reported_binary. by rewrite (reported_time_ctx d ctx ctx').
  - done.
Defined.

#[export] Instance served_doubleBit : Served TypeDoubleBitBinary Z.
Proof.
  refine (Build_Served _ _ doublebitCodecs doubleBit_ok reported_doubleBit (fun db i => (Database_DoubleBit db i).1.1) EDoubleBit
    (fun _ => RDoubleBit) _ _ doublebit_codecs_ok _ _ _ _).
  - done.
  - intros h dst g e ctx H. unfold encodeEvent. by rewrite H.
  - unfold doublebitCodecs. table_cases. all: solve_writes.
  - intros k. unfold doublebitCodecs. table_cases. all: solve_dispatched.
  - intros d ctx ctx' v Hr Hs. unfold reported_doubleBit. by rewrite (reported_time_ctx d ctx ctx').
  - done.
Defined.

#[export] Instance served_counter : Served TypeCounter Z.
Proof.
  refine (Build_Served _ _ counterCodecs counter_ok reported_counter (fun db i => (Database_Counter db i).1.1) ECounter
    (fun _ => RCounter) _ _ counter_codecs_ok _ _ _ _).
  - done.
  - intros h dst g e ctx H. unfold encodeEvent. by rewrite H.
  - unfold counterCodecs. table_cases. all: solve_writes.
  - intros k. unfold counterCodecs. table_cases. all: solve_dispatched.
  - intros d ctx ctx' v Hr Hs. unfold reported_counter. by rewrite (reported_time_ctx d ctx ctx').
  - done.
Defined.

#[export] Instance served_frozenCounter : Served TypeFrozenCounter Z.
Proof.
  refine (Build_Served _ _ frozencounterCodecs counter_ok reported_counter (fun db i => (Database_FrozenCounter db i).1.1) EFrozenCounter
    (fun _ => RFrozenCounter) _ _ frozencounter_codecs_ok _ _ _ _).
  - done.
  - intros h dst g e ctx H. unfold encodeEvent. by rewrite H.
  - unfold frozencounterCodecs. table_cases. all: solve_writes.
  - intros k. unfold frozencounterCodecs. table_cases. all: solve_dispatched.
  - intros d ctx ctx' v Hr Hs. unfold reported_counter. by rewrite (reported_time_ctx d ctx ctx').
  - done.
Defined.

#[export] Instance served_analog : Served TypeAnalog spec_float.
Proof.
  refine (Build_Served _ _ analogCodecs analog_ok reported_analog (fun db i => (Database_Analog db i).1.1) EAnalog
    (fun _ => RAnalog) _ _ analog_codecs_ok _ _ _ _).
  - done.
  - intros h dst g e ctx H. unfold encodeEvent. by rewrite H.
  - unfold analogCodecs. table_cases. all: solve_writes.
  - intros k. unfold analogCodecs. table_cases. all: solve_dispatched.
  - intros d ctx ctx' v Hr Hs. unfold reported_analog. by rewrite (reported_time_ctx d ctx ctx').
  - done.
Defined.

#[export] Instance served_frozenAnalog : Served TypeFrozenAnalog spec_float.
Proof.
  refine (Build_Served _ _ analogCodecs analog_ok reported_analog (fun db i => (Database_FrozenAnalog db i).1.1) EFrozenAnalog
    (fun k => if isFrozenAnalogHandler k then RFrozenAnalog else RAnalog) _ _ analog_codecs_ok _ _ _ _).
  - done.
  - intros h dst g e ctx H. unfold encodeEvent. by rewrite H.
  - unfold analogCodecs. table_cases. all: solve_writes.
  - intros k. unfold analogCodecs. table_cases. all: solve_dispatched.
  - intros d ctx ctx' v Hr Hs. unfold reported_analog. by rewrite (reported_time_ctx d ctx ctx').
  - done.
Defined.

#[export] Instance served_binaryOutput : Served TypeBinaryOutputStatus bool.
Proof.
  refine (Build_Served _ _ binaryoutputCodecs binary_ok reported_binary (fun db i => (Database_BinaryOutputStatus db i).1.1) EBinaryOutput
    (fun _ => RBinaryOutputStatus) _ _ binaryoutput_codecs_ok _ _ _ _).
  - done.
  - intros h dst g e ctx H. unfold encodeEvent. by rewrite H.
  - unfold binaryoutputCodecs. table_cases. all: solve_writes.
  - intros k. unfold binaryoutputCodecs. table_cases. all: solve_dispatched.
  - intros d ctx ctx' v Hr Hs. unfold reported_binary. by rewrite (reported_time_ctx d ctx ctx').
  - done.
Defined.

#[export] Instance served_analogOutput : Served TypeAnalogOutputStatus spec_float.
Proof.
  refine (Build_Served _ _ analogoutputCodecs analog_ok reported_analog (fun db i => (Database_AnalogOutputStatus db i).1.1) EAnalogOutput
    (fun _ => RAnalogOutputStatus) _ _ analogoutput_codecs_ok _ _ _ _).
  - done.
  - intros h dst g e ctx H. unfold encodeEvent. by rewrite H.
  - unfold analogoutputCodecs. table_cases. all: solve_writes.
  - intros k. unfold analogoutputCodecs. table_cases. all: solve_dispatched.
  - intros d ctx ctx' v Hr Hs. unfold reported_analog. by rewrite (reported_time_ctx d ctx ctx').
  - done.
Defined.

(** ** Ranges of objects *)

Lemma range_header_sound g start stop data bits :
  octet_ok (GV_Group g) -> 0 < GV_Variation g < 256 -> one_of (GV_Group g) [51; 91; 0] = false ->
  0 <= start <= stop -> stop <= 0xFFFF -> octets_ok data ->
  SpecSizer (GV_Group g) (GV_Variation g) = Some bits ->
  (0 < bits < 8 /\ len data = ((stop - start + 1) * bits + 7) / 8 \/
   exists n, 0 < n <= 255 /\ bits = 8 * n /\ len data = (stop - start + 1) * n) ->
  let h := rangeObjectHeader g start stop data in
  sound h /\ ObjectHeader_Size h <= headerOverhead + len data /\ prefix_len h = 0 /\
  ObjectHeader_Count h = stop - start + 1.
Proof.
  intros Hg Hv Hn Hs Hm Hd Hz Hl h. assert (Hc : u16 (stop - start) = stop - start) by (apply u16_small; unfold is_u16; lia).
  unfold one_of in Hn. cbn in Hn. rewrite !orb_false_iff, !Z.eqb_neq in Hn.
  assert (Hcount : ObjectHeader_Count h = stop - start + 1) by (cbn; by rewrite Hc).
  assert (Hro : RangeSpec_Octets (RangeSpec (Qualifier h)) <= 4) by (cbn; by destruct (Z.leb_spec stop 255)).
  split_and!; [|unfold ObjectHeader_Size, headerOverhead; change (Data h) with data; lia
               |unfold prefix_len; cbn; by destruct (Z.leb_spec stop 255) | done].
  assert (Hlen : objectDataLen DefaultSizer h data true = Ok (len data)).
  { unfold objectDataLen. change (AppObject.Count (ORange h)) with (ObjectHeader_Count h). rewrite Hcount.
    cbn [h rangeObjectHeader Qualifier Variation Group ORange Spec].
    replace (IndexPrefix (MakeQualifier PrefixNone _)) with 0 by (by destruct (Z.leb_spec stop 255)). cbn [IsSize Z.eqb andb orb].
    change (IsSize 0) with false. cbn [andb negb].
    rewrite (proj2 (Z.eqb_neq (GV_Variation g) 0)), (proj2 (Z.eqb_neq (stop - start + 1) 0)) by lia.
    replace ((if stop <=? 255 then RangeStartStop8 else RangeStartStop16) =? RangeAllObjects) with false
      by (by destruct (Z.leb_spec stop 255)).
    rewrite (proj2 (Z.eqb_neq (GV_Group g) 0)), (proj2 (Z.eqb_neq (GV_Group g) 91)) by lia. cbn [andb].
    unfold DefaultSizer. rewrite Hz. change (IndexPrefix_Octets 0) with 0.
    destruct Hl as [[Hb Hl]|(n & Hn0 & -> & Hl)].
    - destruct (Z.eqb_spec bits 0), (Z.ltb_spec bits 8); try lia. cbn [Z.eqb negb]. unfold checkFits, u64.
      rewrite (Z.mod_small bits), (Z.mod_small ((stop - start + 1) * bits)), Z.mod_small by nia.
      rewrite <- Hl, Z.ltb_irrefl. done.
    - destruct (Z.eqb_spec (8 * n) 0), (Z.ltb_spec (8 * n) 8); try lia.
      replace (Z.rem (8 * n) 8) with 0 by (rewrite Z.mul_comm, Z.rem_mul; lia). cbn [Z.eqb negb].
      unfold checkFits, u64. rewrite (Z.mod_small (8 * n)) by lia. rewrite (Z.mul_comm 8 n), Z.div_mul by lia.
      rewrite (Z.mod_small (0 + n)), Z.mod_small by nia. replace ((stop - start + 1) * (0 + n)) with (len data) by lia.
      by rewrite Z.ltb_irrefl. }
  unfold sound, object_ok. split_and!; try done; cbn [h rangeObjectHeader Group Variation Qualifier ORange Data Spec].
  - unfold octet_ok. lia.
  - unfold octet_ok. destruct (Z.leb_spec stop 255); vm_compute; split; congruence.
  - by destruct (Z.leb_spec stop 255).
  - by destruct (Z.leb_spec stop 255).
  - by destruct (Z.leb_spec stop 255).
  - unfold range_ok. cbn [Spec Start Stop AppObject.Count]. rewrite Hc. destruct (Z.leb_spec stop 255); cbn; split_and!; try done; lia.
Qed.

(** ** Static runs *)

(** What a codec of the tables is good for, once its group is one the master knows. *)
Lemma served_codec `{Served pt V} k g c :
  codec_lookup sv_table g = Some c -> GV_Group g ∈ [GV_Group (staticGroupVar pt 0); eventGroup pt] ->
  exists d n, Lookup g = Some d /\ SizeOctets d = Some n /\ 0 < n <= 15 /\ Packed d = false /\
    SpecSizer (GV_Group g) (GV_Variation g) = Some (8 * n) /\ octet_ok (GV_Group g) /\ 0 < GV_Variation g < 256 /\
    one_of (GV_Group g) [51; 91; 0] = false /\
    (forall v ctx, sv_ok v -> exists o, (forall dst, Write c dst v ctx = dst ++ o) /\ len o = n /\ octets_ok o /\
      forall ctx', times_agree d ctx ctx' -> Parse c o ctx' = sv_reported d ctx' v) /\
    (forall h ctx, Group h = GV_Group g -> Variation h = GV_Variation g -> 0 < len (Data h) ->
      all_reports (dispatch k h ctx) =
      reports_of (sv_wrap k) (mkHeaderInfo g (D_Kind d) ClassNone)
        (decodeRun h n (prefix_len h) (fun b => Parse c b ctx))).
Proof.
  intros Hc Hg. unfold codec_lookup in Hc. apply fmap_Some in Hc as (e & He & ->).
  apply find_some in He as [Hin Heq]. apply list_elem_of_In in Hin. rewrite andb_true_iff, !Z.eqb_eq in Heq.
  destruct g as [gr v], Heq as [E1 E2]. cbn [GV_Group GV_Variation] in *. subst gr v.
  pose proof sv_codecs as H1. pose proof sv_writes as H2. pose proof (sv_dispatched k) as H3.
  rewrite Forall_forall in H1, H2, H3. specialize (H1 _ Hin). specialize (H2 _ Hin). specialize (H3 _ Hin Hg).
  destruct H3 as (d & n & Hd & Hn & Hb & Hp & Hz & Ho & Hv & Ho' & Hdisp). exists d, n. split_and!; try done; try lia.
  intros m ctx Hm. destruct H1 as (d1 & n1 & Hd1 & Hn1 & Hw). unfold GV in *.
  assert (d1 = d) as -> by congruence. assert (n1 = n) as -> by congruence.
  destruct (Hw m ctx Hm) as (o & Ho1 & Ho2 & Ho3 & _). exists o. split_and!; try done. intros ctx' Ha.
  destruct (Hw m ctx' Hm) as (o' & Ho1' & _ & _ & Hp'). specialize (Hp' []). rewrite app_nil_r in Hp'. rewrite <- Hp'.
  f_equal. apply (app_inv_head []). rewrite <- Ho1, <- Ho1'. by apply (H2 d).
Qed.

(** Objects appended one after another. *)
Lemma fold_objects {A} (f : list Z -> A -> list Z) (P : A -> list Z -> Prop) l dst :
  (forall x dst, x ∈ l -> exists o, f dst x = dst ++ o /\ P x o) ->
  exists os, fold_left f l dst = dst ++ concat os /\ Forall2 P l os.
Proof.
  revert dst. induction l as [|x l IH]; intros dst H.
  { exists []. cbn. rewrite app_nil_r. auto. }
  destruct (H x dst) as (o & Ho & HP); [set_solver|]. destruct (IH (dst ++ o)) as (os & E & F).
  { intros y d Hy. apply H. set_solver. }
  exists (o :: os). cbn [fold_left concat]. rewrite Ho, E, <- app_assoc. auto.
Qed.

Lemma octets_ok_concat os : Forall octets_ok os -> octets_ok (concat os).
Proof. induction 1; [apply octets_ok_nil|]. cbn. by apply octets_ok_app. Qed.

(** Objects of [n] octets each, for points [start] to [stop]. *)
Lemma run_octets n start stop os (P : Z -> list Z -> Prop) :
  Forall2 (fun i o => (len o = n /\ P i o) /\ octets_ok o) (seqZ start (stop - start + 1)) os -> start <= stop + 1 ->
  octets_ok (concat os) /\ len (concat os) = (stop - start + 1) * n.
Proof.
  intros F Hs. pose proof (Forall2_length _ _ _ F) as HL. rewrite length_seqZ in HL. split.
  - apply octets_ok_concat, Forall_forall. intros o Hin. apply list_elem_of_lookup in Hin as [j Hj].
    by destruct (Forall2_lookup_r _ _ _ _ _ F Hj) as (x & _ & _ & Hx).
  - replace (concat os) with (concat ((fun x => x.1 ++ x.2) <$> ((fun o : list Z => (@nil Z, o)) <$> os)))
      by (rewrite <- list_fmap_compose; f_equal; apply list_fmap_id).
    rewrite (len_items 0 n); [unfold len; rewrite length_fmap, <- HL, Z2Nat.id by lia; lia|]. apply Forall_fmap, Forall_forall. intros o Hin.
    apply list_elem_of_lookup in Hin as [j Hj]. by destruct (Forall2_lookup_r _ _ _ _ _ F Hj) as (x & _ & [Hx _] & _).
Qed.

(** A range of objects, decoded. *)
Lemma decode_range {T} (parse : list Z -> T) g start stop os n (wrap : T -> reading) kind (out : Z -> reading) :
  0 <= start <= stop -> stop <= 0xFFFF -> 0 < n ->
  Forall2 (fun i o => len o = n /\ wrap (parse o) = out i) (seqZ start (stop - start + 1)) os ->
  prefix_len (rangeObjectHeader g start stop (concat os)) = 0 ->
  ObjectHeader_Count (rangeObjectHeader g start stop (concat os)) = stop - start + 1 ->
  reports_of wrap (mkHeaderInfo g kind ClassNone)
    (decodeRun (rangeObjectHeader g start stop (concat os)) n
       (prefix_len (rangeObjectHeader g start stop (concat os))) parse) =
  (fun i => (g, i, out i)) <$> seqZ start (stop - start + 1).
Proof.
  intros Hs Hm Hn HF Hp Hc. rewrite Hp. pose proof (Forall2_length _ _ _ HF) as Hl. rewrite length_seqZ in Hl.
  rewrite (decodeRun_items _ n 0 parse ((fun o => ([], o)) <$> os)).
  - unfold reports_of. rewrite imap_fmap. apply list_eq. intros i. rewrite !list_lookup_fmap, list_lookup_imap.
    destruct (os !! i) as [o|] eqn:Eo.
    + destruct (Forall2_lookup_r _ _ _ _ _ HF Eo) as (x & Ex & Hx1 & Hx2). rewrite Ex.
      apply lookup_seqZ in Ex as [-> Hi]. cbn. unfold run_item. cbn [fst snd Z.ltb Index IValue]. rewrite Hx2. f_equal. f_equal.
      unfold IndexOf. cbn. unfold u32. rewrite (Z.mod_small (Z.of_nat i)), Z.mod_small by lia. done.
    + rewrite lookup_seqZ_ge; [done|]. apply lookup_ge_None in Eo. lia.
  - done.
  - lia.
  - apply Forall_fmap, Forall_forall. intros o Ho. apply list_elem_of_lookup in Ho as [i Ho].
    destruct (Forall2_lookup_r _ _ _ _ _ HF Ho) as (x & _ & Hx & _). by cbn.
  - cbn [rangeObjectHeader Data]. f_equal. rewrite <- list_fmap_compose. symmetry. apply list_fmap_id.
  - rewrite Hc. unfold len. rewrite length_fmap. lia.
Qed.

(** The reports of points [start] through [stop], all in one variation. *)
Definition run_reports (k : HandlerKind) (sync : bool) (db : Database) (pt : PointType) (g : Objects.GroupVar)
    (start stop : Z) : list report :=
  (fun i => (g, i, static_reading k sync db pt g i)) <$> seqZ start (stop - start + 1).

Lemma seqZ_split a m n : 0 <= m <= n -> seqZ a n = seqZ a m ++ seqZ (a + m) (n - m).
Proof. intros H. rewrite <- seqZ_app by lia. f_equal. lia. Qed.

Lemma run_reports_split k sync db pt g start mid stop :
  start <= mid + 1 -> mid <= stop ->
  run_reports k sync db pt g start stop = run_reports k sync db pt g start mid ++ run_reports k sync db pt g (mid + 1) stop.
Proof.
  intros H1 H2. unfold run_reports. rewrite (seqZ_split start (mid - start + 1)), fmap_app by lia. do 3 f_equal; lia.
Qed.

Lemma run_reports_nil k sync db pt g start stop : stop < start -> run_reports k sync db pt g start stop = [].
Proof. intros H. unfold run_reports. by rewrite seqZ_nil by lia. Qed.

(** Making room: after a flush if need be, an object of [size] octets and its header fit. *)
Lemma make_room k sync b need size :
  0 <= need -> 0 < size -> size + need <= b_max b - ResponseHeaderSize ->
  let b1 := if room b - need <? size then flush b else b in
  let avail := if room b - need <? size then room b1 - need else room b - need in
  adds k sync b b1 [] /\ avail = room b1 - need /\ size <= avail /\ b_ctx b1 = b_ctx b /\ b_max b1 = b_max b.
Proof.
  intros Hn Hs Hm. cbv zeta. destruct (Z.ltb_spec (room b - need) size) as [Hlt|Hge].
  - assert (Hf := adds_flush k sync b). pose proof Hf as (Hfm & Hfx & _). split_and!; try done.
    rewrite flush_room. destruct (Z.ltb_spec 0 (len (cur b))) as [|Hc]; [lia|]. unfold room in *.
    pose proof (len_nonneg (cur b)). lia.
  - split_and!; try done. apply adds_refl.
Qed.

Section StaticRun.
Context `{SV : Served pt V} (k : HandlerKind) (sync : bool) (db : Database).

Definition served_ok (start stop : Z) : Prop := forall i, start <= i <= stop -> sv_ok (sv_value db i).

Lemma static_range_adds b v c g idx last n d :
  g = staticGroupVar pt v -> codec_lookup sv_table g = Some c -> Lookup g = Some d -> SizeOctets d = Some n ->
  RelativeTimed d = false ->
  0 <= idx <= last -> last <= 0xFFFF -> served_ok idx last ->
  (last - idx + 1) * n + headerOverhead <= room b ->
  adds k sync b
    (add b (rangeObjectHeader g (u16 idx) (u16 last)
       (fold_left (fun data i => encodeStatic db data pt g (u16 i) (b_ctx b)) (seqZ idx (last - idx + 1)) [])))
    (run_reports k sync db pt g idx last).
Proof.
  intros Hg Hc Hd Hn Hr Hi Hl Hok Hroom.
  destruct (served_codec k g c Hc ltac:(subst g; apply elem_of_cons; by left)) as
    (d' & n' & Hd' & Hn' & Hnb & Hp & Hz & Hgo & Hvo & Ho & Hw & Hdisp).
  rewrite Hd' in Hd. injection Hd as ->. rewrite Hn' in Hn. injection Hn as ->.
  rewrite !u16_small by (unfold is_u16; lia).
  destruct (fold_objects (fun data i => encodeStatic db data pt g (u16 i) (b_ctx b))
    (fun i o => (len o = n /\ (forall ctx, Synchronized ctx = sync ->
       sv_wrap k (Parse c o ctx) = static_reading k sync db pt g i)) /\ octets_ok o) (seqZ idx (last - idx + 1)) []) as (os & E & F).
  { intros i dst Hin. apply elem_of_seqZ in Hin. rewrite u16_small by (unfold is_u16; lia).
    destruct (Hw (sv_value db i) (b_ctx b) (Hok i ltac:(lia))) as (o & Ho1 & Ho2 & Ho3 & Ho4).
    exists o. rewrite sv_encode, Hc. cbn [encode_with]. rewrite Ho1. split_and!; try done. intros ctx Hctx.
    rewrite sv_reading. unfold as_reported. rewrite Hd', Hp, Ho4 by (by left). f_equal. by apply sv_reported_ctx. }
  rewrite E, app_nil_l. destruct (run_octets n idx last os _ F ltac:(lia)) as [Hos Hlen].
  destruct (range_header_sound g idx last (concat os) (8 * n)) as (Hso & Hsz & Hpl & Hcnt); try done.
  { right. exists n. lia. }
  rewrite Hlen in Hsz. pose proof (len_nonneg (cur b)). unfold room in Hroom.
  apply adds_add; [done | lia| |].
  - cbn. intros E51. by rewrite E51 in Ho.
  - intros ctx Hctx. rewrite Hdisp; [|done | done | cbn [rangeObjectHeader Data]; nia].
    rewrite (decode_range _ g idx last os n (sv_wrap k) _ (static_reading k sync db pt g)); try done; [lia|].
    eapply Forall2_impl; [exact F|]. cbn. intros i o [[? Hx] _]. auto.
Qed.

Lemma static_run_adds fuel b v c g idx stop n d :
  g = staticGroupVar pt v -> codec_lookup sv_table g = Some c -> Lookup g = Some d -> SizeOctets d = Some n ->
  RelativeTimed d = false -> 0 < n ->
  0 <= idx -> stop <= 0xFFFF -> served_ok idx stop -> (turns idx stop <= fuel)%nat ->
  n + headerOverhead <= b_max b - ResponseHeaderSize ->
  adds k sync b (static_run fuel db b pt g n idx stop) (run_reports k sync db pt g idx stop).
Proof.
  intros Hg Hc Hd Hn Hr Hn0. revert b idx. induction fuel as [|fuel IH]; intros b idx Hi Hs Hok Hf Hm.
  { cbn [static_run]. rewrite run_reports_nil by (unfold turns in Hf; lia). apply adds_refl. }
  cbn [static_run]. destruct (Z.ltb_spec stop idx); [rewrite run_reports_nil by lia; apply adds_refl|].
  destruct (make_room k sync b headerOverhead n ltac:(done) Hn0 Hm) as (A1 & Hav & Hfit & Hx & Hm1).
  set (b1 := if room b - headerOverhead <? n then flush b else b) in *.
  rewrite Hav in Hfit |- *. clear Hav. destruct (Z.ltb_spec (room b1 - headerOverhead) n); [lia|].
  assert (Hq : n * Z.quot (room b1 - headerOverhead) n <= room b1 - headerOverhead) by (apply Z.mul_quot_le; lia).
  assert (Hq1 : 1 <= Z.quot (room b1 - headerOverhead) n) by (apply Z.quot_le_lower_bound; lia).
  set (q := Z.min (Z.quot _ n) (stop - idx + 1)).
  assert (Hqb : 1 <= q <= stop - idx + 1) by lia. assert (Hqn : q * n + headerOverhead <= room b1) by nia.
  replace q with (idx + q - 1 - idx + 1) by lia. set (last := idx + q - 1) in *.
  replace (idx + (last - idx + 1) - 1) with last by lia.
  rewrite (run_reports_split _ _ _ _ _ idx last stop) by lia.
  change (run_reports k sync db pt g idx last ++ _) with ([] ++ run_reports k sync db pt g idx last ++ run_reports k sync db pt g (last + 1) stop).
  eapply adds_trans; [exact A1|]. eapply adds_trans.
  - apply (static_range_adds b1 v c g idx last n d); try done; try lia. intros i Hi'. apply Hok. lia.
  - apply IH; [lia | done | intros i Hi'; apply Hok; lia | unfold turns in *; lia|].
    rewrite (b_max_add k sync). lia.
Qed.
End StaticRun.

(** ** Packed runs *)

Lemma or_at_octets i b l : octet_ok b -> octets_ok l -> octets_ok (or_at i b l).
Proof.
  intros Hb Hl. unfold or_at. apply Forall_alter; [done|]. intros y _ Ho. unfold octet_ok in *.
  assert (0 <= Z.lor y b) by (apply Z.lor_nonneg; lia). split; [done|].
  change 256 with (2 ^ 8). destruct (Z.eq_dec (Z.lor y b) 0) as [->|Hn]; [lia|].
  apply Z.log2_lt_pow2; [lia|]. rewrite Z.log2_lor by lia.
  pose proof (Z.log2_le_mono y 255 ltac:(lia)). pose proof (Z.log2_le_mono b 255 ltac:(lia)).
  change (Z.log2 255) with 7 in *. lia.
Qed.

Lemma fold_octets {A} (f : Z * list Z -> A -> Z * list Z) l st :
  (forall st x, octets_ok st.2 -> octets_ok (f st x).2) -> octets_ok st.2 -> octets_ok (fold_left f l st).2.
Proof. intros Hf. revert st. induction l as [|x l IH]; intros st H; [done|]. cbn. by apply IH, Hf. Qed.

Lemma zeros_octets n : octets_ok (replicate n 0).
Proof. apply Forall_replicate. unfold octet_ok. lia. Qed.

Lemma packed_binary_octets bs : octets_ok (AppendPackedBinary [] bs).
Proof.
  unfold AppendPackedBinary. destr_if; [apply octets_ok_nil|]. apply fold_octets; [|apply zeros_octets].
  intros [i l] [] H; cbn [snd] in *; [|done]. apply or_at_octets; [apply u8_ok | done].
Qed.
Lemma packed_doubleBit_octets ds : octets_ok (AppendPackedDoubleBit [] ds).
Proof.
  unfold AppendPackedDoubleBit. destr_if; [apply octets_ok_nil|]. apply fold_octets; [|apply zeros_octets].
  intros [i l] v H; cbn [snd] in *. apply or_at_octets; [apply u8_ok | done].
Qed.

(** The values a packed range carries are octets enough for them, and decode to them. *)
Definition packed_pt (pt : PointType) : Prop :=
  pt = TypeBinary \/ pt = TypeDoubleBitBinary \/ pt = TypeBinaryOutputStatus.
Definition states_ok (db : Database) (pt : PointType) (start stop : Z) : Prop :=
  pt = TypeDoubleBitBinary -> forall i, start <= i <= stop -> 0 <= Value (Database_DoubleBit db i).1.1 <= 3.

Lemma packed_indexed_reports {T A} (wrap : T -> reading) (mk : A -> T) info start stop (vals : list A) (out : Z -> reading) :
  0 <= start <= stop -> stop <= 0xFFFF ->
  Forall2 (fun i a => wrap (mk a) = out i) (seqZ start (stop - start + 1)) vals ->
  reports_of wrap info (packed_indexed start (mk <$> vals)) = (fun i => (I_GV info, i, out i)) <$> seqZ start (stop - start + 1).
Proof.
  intros Hs Hm F. unfold reports_of, packed_indexed. apply list_eq. intros i.
  rewrite !list_lookup_fmap, list_lookup_imap, list_lookup_fmap.
  destruct (vals !! i) as [a|] eqn:Ea.
  - destruct (Forall2_lookup_r _ _ _ _ _ F Ea) as (x & Ex & Hx). rewrite Ex. apply lookup_seqZ in Ex as [-> Hi].
    cbn. rewrite u32_small by (unfold is_u32; lia). by rewrite Hx.
  - rewrite lookup_seqZ_ge; [done|]. apply lookup_ge_None in Ea. pose proof (Forall2_length _ _ _ F) as HL.
    rewrite length_seqZ in HL. lia.
Qed.

Ltac finish_packed octets wrap w Hpk Hval Hdisp Hcnt Hin E Ho Hp h data :=
  destruct (Hpk w ltac:(lia)) as [P1 P2]; rewrite Hval, ?P1, ?app_nil_r in *; cbn [app] in E; subst;
  split_and!; [apply octets | exact Ho|]; intros ctx; rewrite Hdisp by (unfold data, packed_data; lia);
  unfold dispatchPacked; cbn [Measurement]; rewrite Hcnt; change (Data h) with data; unfold data, packed_data;
  change ParsePackedBinaryOutput with ParsePackedBinary; rewrite Hp;
  unfold all_reports; cbn [fmap list_fmap concat reports]; rewrite app_nil_r;
  apply (packed_indexed_reports wrap (fun b => mkMeasurement b Online NoTime)); [done | done|];
  apply Hin; intros i _ Hi16; by rewrite Hi16.

Lemma packed_range_reports k sync db pt g idx last :
  packed_pt pt -> g = staticGroupVar pt 1 -> 0 <= idx <= last -> last <= 0xFFFF -> states_ok db pt idx last ->
  let data := packed_data db pt idx last in
  octets_ok data /\ len data = ((last - idx + 1) * packedBits g + 7) / 8 /\
  forall ctx, all_reports (dispatch k (rangeObjectHeader g idx last data) ctx) = run_reports k sync db pt g idx last.
Proof.
  intros Hpt -> Hi Hl Hst data. set (h := rangeObjectHeader _ idx last data).
  assert (Hcnt : ObjectHeader_Count h = last - idx + 1) by (cbn; rewrite u16_small by (unfold is_u16; lia); lia).
  assert (Hdisp : 0 < len data -> forall ctx, dispatch k h ctx = dispatchPacked h
    (mkDescriptor KindStatic pt (packedBits (staticGroupVar pt 1)) true false false false 0 false)
    (mkHeaderInfo (staticGroupVar pt 1) KindStatic ClassNone)).
  { intros Hd ctx. unfold dispatch. change (Data h) with data. rewrite (proj2 (Z.eqb_neq (len data) 0)) by lia.
    by destruct Hpt as [-> | [-> | ->]]. }
  assert (Hval : forall A (f : Z -> A), len (f <$> seqZ idx (last - idx + 1)) = last - idx + 1)
    by (intros A f; unfold len; rewrite length_fmap, length_seqZ; lia).
  assert (Hpk : forall w, w = 1 \/ w = 2 ->
    PackedOctets (last - idx + 1) w = ((last - idx + 1) * w + 7) / 8 /\ 0 < ((last - idx + 1) * w + 7) / 8).
  { intros w Hw. unfold PackedOctets. destruct (Z.leb_spec (last - idx + 1) 0), (Z.leb_spec w 0); try lia.
    split; [done | apply Z.div_str_pos; nia]. }
  assert (Hin : forall A (f : Z -> A) (P : Z -> A -> Prop), (forall i, idx <= i <= last -> u16 i = i -> P i (f i)) ->
    Forall2 P (seqZ idx (last - idx + 1)) (f <$> seqZ idx (last - idx + 1))).
  { intros A f P HP. apply Forall2_fmap_r, Forall_Forall2_diag, Forall_forall. intros i Hin. apply elem_of_seqZ in Hin.
    apply HP; [lia | apply u16_small; unfold is_u16; lia]. }
  destruct Hpt as [-> | [-> | ->]].
  - destruct (packed_binary [] [] ((fun i => Value (Database_Binary db (u16 i)).1.1) <$> seqZ idx (last - idx + 1))) as (o & E & Ho & Hp).
    finish_packed packed_binary_octets RBinary 1 Hpk Hval Hdisp Hcnt Hin E Ho Hp h data.
  - destruct (packed_doubleBit [] [] ((fun i => Value (Database_DoubleBit db (u16 i)).1.1) <$> seqZ idx (last - idx + 1))) as (o & E & Ho & Hp).
    { apply Forall_fmap, Forall_forall. intros i Hi'. apply elem_of_seqZ in Hi'. cbn. rewrite u16_small by (unfold is_u16; lia).
      apply Hst; [done | lia]. }
    finish_packed packed_doubleBit_octets RDoubleBit 2 Hpk Hval Hdisp Hcnt Hin E Ho Hp h data.
  - destruct (packed_binary [] [] ((fun i => Value (Database_BinaryOutputStatus db (u16 i)).1.1) <$> seqZ idx (last - idx + 1))) as (o & E & Ho & Hp).
    finish_packed packed_binary_octets RBinaryOutputStatus 1 Hpk Hval Hdisp Hcnt Hin E Ho Hp h data.
Qed.

Lemma packed_run_adds k sync db fuel b pt g bits idx stop :
  packed_pt pt -> g = staticGroupVar pt 1 -> bits = packedBits g -> 0 <= idx -> stop <= 0xFFFF ->
  states_ok db pt idx stop -> (turns idx stop <= fuel)%nat -> 1 + headerOverhead <= b_max b - ResponseHeaderSize ->
  adds k sync b (buildPackedRun fuel db b pt g bits idx stop) (run_reports k sync db pt g idx stop).
Proof.
  intros Hpt Hg Hbits. assert (Hb2 : bits = 1 \/ bits = 2) by (subst; destruct Hpt as [-> | [-> | ->]]; vm_compute; auto).
  revert b idx. induction fuel as [|fuel IH]; intros b idx Hi Hs Hst Hf Hm.
  { cbn [buildPackedRun]. rewrite run_reports_nil by (unfold turns in Hf; lia). apply adds_refl. }
  cbn [buildPackedRun]. destruct (Z.ltb_spec stop idx); [rewrite run_reports_nil by lia; apply adds_refl|].
  set (cap := fun b => Z.quot ((room b - headerOverhead) * 8) bits).
  assert (Hroom : exists b1 c, (if cap b <? 1 then flush b else b) = b1 /\
    (if cap b <? 1 then cap b1 else cap b) = c /\ c = cap b1 /\ 1 <= c /\ adds k sync b b1 [] /\ b_max b1 = b_max b).
  { eexists _, _. split; [reflexivity|]. split; [reflexivity|]. destruct (Z.ltb_spec (cap b) 1).
    - assert (Hfl := adds_flush k sync b). pose proof Hfl as (Hfm & _ & _). split_and!; try done. unfold cap in *.
      apply Z.quot_le_lower_bound; [lia|]. rewrite flush_room. destruct (Z.ltb_spec 0 (len (cur b))) as [|Hc]; [lia|].
      unfold room in *. pose proof (len_nonneg (cur b)). lia.
    - split_and!; try done. apply adds_refl. }
  destruct Hroom as (b1 & c & E1 & E2 & Ec & Hc1 & A1 & Hm1). unfold cap in E1, E2. cbv zeta. rewrite E1, E2.
  destruct (Z.ltb_spec c 1); [lia|]. set (last := Z.min (idx + c - 1) stop).
  assert (Hcap : bits * c <= (room b1 - headerOverhead) * 8) by (rewrite Ec; unfold cap; apply Z.mul_quot_le; [|lia];
    destruct (Z.lt_ge_cases ((room b1 - headerOverhead) * 8) 0); [|lia]; exfalso;
    rewrite Ec in Hc1; unfold cap in Hc1; pose proof (Z.quot_le_mono ((room b1 - headerOverhead) * 8) 0 bits); rewrite Z.quot_0_l in *; lia).
  rewrite (u16_small idx), (u16_small last) by (unfold is_u16; lia).
  destruct (packed_range_reports k sync db pt g idx last) as (Ho & Hl & Hd); try done; try lia.
  { intros Hp i Hi'. apply Hst; [done | lia]. }
  rewrite (run_reports_split _ _ _ _ _ idx last stop) by lia.
  change (run_reports k sync db pt g idx last ++ _) with ([] ++ run_reports k sync db pt g idx last ++ run_reports k sync db pt g (last + 1) stop).
  eapply adds_trans; [exact A1|]. eapply adds_trans.
  - destruct (range_header_sound g idx last (packed_data db pt idx last) bits) as (Hso & Hsz & _ & _).
    1-3, 7: subst; destruct Hpt as [-> | [-> | ->]]; vm_compute; intuition congruence.
    1-2: lia.
    { exact Ho. }
    { left. rewrite <- Hbits in Hl. lia. }
    assert (Hsmall : ((last - idx + 1) * bits + 7) / 8 <= room b1 - headerOverhead).
    { rewrite <- (Z.div_mul (room b1 - headerOverhead) 8) by lia. rewrite <- Hbits in Hl.
      assert ((last - idx + 1) * bits <= (room b1 - headerOverhead) * 8) by nia. Z.div_mod_to_equations. lia. }
    rewrite <- Hbits in Hl. pose proof (len_nonneg (cur b1)). apply adds_add; [done | unfold room in *; lia| |].
    + cbn. subst g. by destruct Hpt as [-> | [-> | ->]].
    + intros ctx _. apply Hd.
  - apply IH; [lia | done | intros Hp i Hi'; apply Hst; [done | lia] | unfold turns in *; lia|].
    rewrite (b_max_add k sync). lia.
Qed.

(** ** A range of points *)

(** The static variations of the measured types (octet strings have their own). *)
Definition static_variations (pt : PointType) : list Z :=
  match pt with
  | TypeBinary | TypeDoubleBitBinary | TypeBinaryOutputStatus => [1; 2]
  | TypeCounter => [1; 2; 5; 6]
  | TypeFrozenCounter => [1; 2; 5; 6; 9; 10]
  | TypeAnalog => [1; 2; 3; 4; 5; 6]
  | TypeFrozenAnalog => [1; 2; 3; 4; 5; 6; 7; 8]
  | TypeAnalogOutputStatus => [1; 2; 3; 4]
  | _ => []
  end.

(** A point's value is one its Go type can hold. *)
Definition point_ok (db : Database) (pt : PointType) (i : Z) : Prop :=
  match pt with
  | TypeBinary => binary_ok (Database_Binary db i).1.1
  | TypeDoubleBitBinary => doubleBit_ok (Database_DoubleBit db i).1.1
  | TypeCounter => counter_ok (Database_Counter db i).1.1
  | TypeFrozenCounter => counter_ok (Database_FrozenCounter db i).1.1
  | TypeAnalog => analog_ok (Database_Analog db i).1.1
  | TypeFrozenAnalog => analog_ok (Database_FrozenAnalog db i).1.1
  | TypeBinaryOutputStatus => binary_ok (Database_BinaryOutputStatus db i).1.1
  | TypeAnalogOutputStatus => analog_ok (Database_AnalogOutputStatus db i).1.1
  | _ => octets_ok (default [] (octet_string db i)) /\ len (default [] (octet_string db i)) <= 255
  end.

(** Octets enough for the header of a response, an object header and the widest object. *)
Definition min_fragment : Z := ResponseHeaderSize + headerOverhead + 11.

Lemma buildStaticRun_codec `{Served pt V} k sync db b v table d n start stop :
  let g := staticGroupVar pt v in
  packedBits g = 0 -> sv_table = table -> match codec_lookup table g with Some _ => true | None => false end = true -> Lookup g = Some d -> RelativeTimed d = false ->
  SizeOctets d = Some n -> 0 < n <= 11 ->
  0 <= start -> stop <= 0xFFFF -> served_ok db start stop -> min_fragment <= b_max b ->
  adds k sync b (buildStaticRun db b pt v start stop) (run_reports k sync db pt g start stop).
Proof.
  intros g Hp <- Hc Hd Hr Hn Hn0 Hs Hm Hok Hmin. destruct (codec_lookup sv_table g) as [c|] eqn:Ec; [|done].
  unfold buildStaticRun. fold g. rewrite Hp. cbn [Z.ltb Z.compare].
  rewrite Hd, Hn, (proj2 (Z.eqb_neq n 0)) by lia.
  apply (static_run_adds k sync db _ b v c g start stop n d); try done; [lia|]. unfold min_fragment in Hmin. lia.
Qed.

Ltac codec_case inst :=
  eapply (@buildStaticRun_codec _ _ inst);
    [reflexivity | reflexivity | vm_compute; reflexivity | vm_compute; reflexivity | reflexivity | vm_compute; reflexivity
    | lia | assumption | assumption | assumption | assumption].
Ltac codec_cases inst Hv := repeat (destruct Hv as [->|Hv]; [codec_case inst|]); destruct Hv.
Ltac packed_case :=
  unfold buildStaticRun; apply packed_run_adds; try reflexivity; try assumption; try (unfold packed_pt; tauto);
    [|unfold min_fragment in *; lia].

Lemma buildStaticRun_adds k sync db b pt v start stop :
  v ∈ static_variations pt -> 0 <= start -> stop <= 0xFFFF -> (forall i, start <= i <= stop -> point_ok db pt i) ->
  min_fragment <= b_max b ->
  adds k sync b (buildStaticRun db b pt v start stop) (run_reports k sync db pt (staticGroupVar pt v) start stop).
Proof.
  intros Hv Hs Hm Hok Hmin. destruct pt; cbn [static_variations] in Hv; rewrite ?elem_of_cons, elem_of_nil in Hv; try done.
  1: destruct Hv as [->|Hv]; [packed_case; discriminate | codec_cases served_binary Hv].
  1: destruct Hv as [->|Hv]; [packed_case; intros _ i Hi; by destruct (Hok i Hi) | codec_cases served_doubleBit Hv].
  1: codec_cases served_counter Hv.
  1: codec_cases served_frozenCounter Hv.
  1: codec_cases served_analog Hv.
  1: destruct Hv as [->|Hv]; [packed_case; discriminate | codec_cases served_binaryOutput Hv].
  1: codec_cases served_analogOutput Hv.
  1: codec_cases served_frozenAnalog Hv.
Qed.

(** The variation a point is reported in, and its report. *)
Definition point_variation (db : Database) (pt : PointType) (variation i : Z) : Z :=
  match pt with
  | TypeOctetString => reported_length (default [] (octet_string db i))
  | _ => default 0 (reportVariation db pt variation i)
  end.
Definition point_report (k : HandlerKind) (sync : bool) (db : Database) (pt : PointType) (variation i : Z) : report :=
  let g := staticGroupVar pt (point_variation db pt variation i) in (g, i, static_reading k sync db pt g i).
Definition range_reports (k : HandlerKind) (sync : bool) (db : Database) (pt : PointType) (variation start stop : Z)
    : list report :=
  point_report k sync db pt variation <$> seqZ start (stop - start + 1).

Lemma range_reports_split k sync db pt variation start mid stop :
  start <= mid + 1 -> mid <= stop ->
  range_reports k sync db pt variation start stop =
  range_reports k sync db pt variation start mid ++ range_reports k sync db pt variation (mid + 1) stop.
Proof.
  intros H1 H2. unfold range_reports. rewrite (seqZ_split start (mid - start + 1)), fmap_app by lia. do 3 f_equal; lia.
Qed.

(** A run of points that agree on their variation. *)
Lemma run_range_reports k sync db pt variation v start stop :
  (forall i, start <= i <= stop -> point_variation db pt variation i = v) ->
  run_reports k sync db pt (staticGroupVar pt v) start stop = range_reports k sync db pt variation start stop.
Proof.
  intros H. unfold run_reports, range_reports. apply list_fmap_ext. intros j i Hi. apply lookup_seqZ in Hi.
  unfold point_report. rewrite H by lia. done.
Qed.

Lemma run_end_spec fuel db pt variation v idx stop :
  idx <= stop -> stop <= 0xFFFF -> 0 <= idx -> (turns idx stop <= fuel)%nat ->
  let e := run_end fuel db pt variation v idx stop in
  idx <= e <= stop /\ forall i, idx < i <= e -> reportVariation db pt variation i = Some v.
Proof.
  revert idx. induction fuel as [|fuel IH]; intros idx Hs Hm Hi Hf; [unfold turns in Hf; lia|]. cbn [run_end].
  destruct (Z.ltb_spec idx stop); [|split; [lia | intros; lia]].
  rewrite u16_small by (unfold is_u16; lia).
  destruct (reportVariation db pt variation (idx + 1)) as [v'|] eqn:E; [|split; [lia | intros; lia]].
  destruct (Z.eqb_spec v' v) as [->|]; [|split; [lia | intros; lia]].
  destruct (IH (idx + 1)) as [H1 H2]; [lia | lia | lia | unfold turns in *; lia|]. split; [lia|].
  intros i Hi'. destruct (Z.eq_dec i (idx + 1)) as [->|]; [done|]. apply H2. lia.
Qed.

(** Every point of a range can be reported: it exists, holds a value of its type, and its
    variation is one of those of the type. *)
Definition reportable (db : Database) (pt : PointType) (variation start stop : Z) : Prop :=
  forall i, start <= i <= stop -> point_ok db pt i /\
    exists v, reportVariation db pt variation i = Some v /\ v ∈ static_variations pt.

Lemma static_loop_adds k sync db fuel b pt variation idx stop :
  pt <> TypeOctetString -> 0 <= idx -> stop <= 0xFFFF -> reportable db pt variation idx stop ->
  (turns idx stop <= fuel)%nat -> min_fragment <= b_max b ->
  adds k sync b (static_loop fuel db b pt variation idx stop) (range_reports k sync db pt variation idx stop).
Proof.
  intros Hpt. revert b idx. induction fuel as [|fuel IH]; intros b idx Hi Hs Hr Hf Hm.
  { cbn [static_loop]. unfold range_reports. rewrite seqZ_nil by (unfold turns in Hf; lia). apply adds_refl. }
  cbn [static_loop]. destruct (Z.ltb_spec stop idx).
  { unfold range_reports. rewrite seqZ_nil by lia. apply adds_refl. }
  rewrite u16_small by (unfold is_u16; lia). destruct (Hr idx ltac:(lia)) as (_ & v & Ev & Hv). rewrite Ev.
  destruct (run_end_spec (turns idx stop) db pt variation v idx stop) as [He1 He2]; [lia | lia | lia | lia|].
  set (e := run_end _ _ _ _ _ _ _) in *. rewrite u16_small by (unfold is_u16; lia).
  assert (Hvar : forall i, idx <= i <= e -> point_variation db pt variation i = v).
  { intros i Hi'. assert (reportVariation db pt variation i = Some v) as E.
    { destruct (Z.eq_dec i idx) as [->|]; [done | apply He2; lia]. }
    unfold point_variation. rewrite E. by destruct pt. }
  rewrite (range_reports_split _ _ _ _ _ idx e stop) by lia. eapply adds_trans.
  - rewrite <- (run_range_reports _ _ _ _ _ v) by done. apply buildStaticRun_adds; [done | done | lia | | done].
    intros i Hi'. apply Hr. lia.
  - apply IH; [lia | done | intros i Hi'; apply Hr; lia | unfold turns in *; lia|].
    destruct (buildStaticRun_adds k sync db b pt v idx e) as (-> & _); try done; try lia. intros i Hi'. apply Hr. lia.
Qed.

(** ** Octet strings *)

Lemma appendOctetString_dst dst v n : appendOctetString dst v n = dst ++ appendOctetString [] v n.
Proof. unfold appendOctetString. by rewrite <- !app_assoc. Qed.

Lemma len_appendOctetString v n : 0 <= n -> len (appendOctetString [] v n) = n.
Proof.
  intros Hn. unfold appendOctetString. cbn [app]. destruct (Z.ltb_spec n (len v)); unfold len in *;
    rewrite length_app, ?length_take, length_replicate, ?length_take; lia.
Qed.

Lemma appendOctetString_octets v n : octets_ok v -> octets_ok (appendOctetString [] v n).
Proof.
  intros Hv. unfold appendOctetString. cbn [app]. apply octets_ok_app. split; [|apply zeros_octets].
  destr_if; auto using octets_ok_take.
Qed.

(** Points [start] to [stop] are octet strings reported with [n] octets. *)
Definition strings_of (db : Database) (n start stop : Z) : Prop :=
  forall i, start <= i <= stop -> exists v, octet_string db i = Some v /\ octets_ok v /\ reported_length v = n.

Lemma octet_range_adds k sync db b n idx last :
  1 <= n <= 255 -> 0 <= idx <= last -> last <= 0xFFFF -> strings_of db n idx last ->
  (last - idx + 1) * n + headerOverhead <= room b ->
  adds k sync b
    (add b (rangeObjectHeader (GV 110 (u8 n)) (u16 idx) (u16 last)
       (fold_left (fun data i => appendOctetString data (default [] (octet_string db (u16 i))) n) (seqZ idx (last - idx + 1)) [])))
    (run_reports k sync db TypeOctetString (GV 110 n) idx last).
Proof.
  intros Hn Hi Hl Hst Hroom. rewrite !u16_small, u8_small by (unfold is_u16, octet_ok; lia). set (g := GV 110 n).
  destruct (fold_objects (fun data i => appendOctetString data (default [] (octet_string db (u16 i))) n)
    (fun i o => (len o = n /\ ROctetString o = static_reading k sync db TypeOctetString g i) /\ octets_ok o)
    (seqZ idx (last - idx + 1)) []) as (os & E & F).
  { intros i dst Hin. apply elem_of_seqZ in Hin. rewrite u16_small by (unfold is_u16; lia).
    destruct (Hst i ltac:(lia)) as (v & Hv & Ho & _). rewrite Hv. cbn [default].
    exists (appendOctetString [] v n). split; [apply appendOctetString_dst|]. split; [|by apply appendOctetString_octets].
    split; [apply len_appendOctetString; lia|]. cbn. by rewrite Hv. }
  rewrite E, app_nil_l. destruct (run_octets n idx last os _ F ltac:(lia)) as [Hos Hlen].
  destruct (range_header_sound g idx last (concat os) (8 * n)) as (Hso & Hsz & Hpl & Hcnt); try done; try lia.
  { cbn. lia. }
  { cbn [g GV GV_Group GV_Variation]. unfold SpecSizer. cbn. f_equal. lia. }
  { right. exists n. lia. }
  rewrite Hlen in Hsz. pose proof (len_nonneg (cur b)). unfold room in Hroom.
  apply adds_add; [done | lia | done|]. intros ctx _.
  assert (Hdisp : all_reports (dispatch k (rangeObjectHeader g idx last (concat os)) ctx) =
    reports_of ROctetString (mkHeaderInfo g KindString ClassNone)
      (decodeRun (rangeObjectHeader g idx last (concat os)) n (prefix_len (rangeObjectHeader g idx last (concat os))) (fun b => b))).
  { unfold dispatch. cbn [rangeObjectHeader Data]. rewrite (proj2 (Z.eqb_neq (len (concat os)) 0)) by nia.
    unfold dispatchOctetStrings. cbn [rangeObjectHeader Group Variation g GV GV_Group GV_Variation].
    rewrite (proj2 (Z.eqb_neq n 0)) by lia. cbn -[decodeRun prefix_len]. by rewrite app_nil_r. }
  rewrite Hdisp, (decode_range _ g idx last os n ROctetString _ (static_reading k sync db TypeOctetString g)); try done; [lia|].
  eapply Forall2_impl; [exact F|]. cbn. intros i o [Hx _]. exact Hx.
Qed.

Lemma octet_run_adds k sync db fuel b n idx last :
  1 <= n <= 255 -> 0 <= idx -> last <= 0xFFFF -> strings_of db n idx last -> (turns idx last <= fuel)%nat ->
  n + headerOverhead <= b_max b - ResponseHeaderSize ->
  adds k sync b (octet_run fuel db b n idx last).1 (run_reports k sync db TypeOctetString (GV 110 n) idx last) /\
  (octet_run fuel db b n idx last).2 = true.
Proof.
  intros Hn. revert b idx. induction fuel as [|fuel IH]; intros b idx Hi Hl Hst Hf Hm.
  { cbn [octet_run]. rewrite run_reports_nil by (unfold turns in Hf; lia). split; [apply adds_refl | done]. }
  cbn [octet_run]. destruct (Z.ltb_spec last idx); [rewrite run_reports_nil by lia; split; [apply adds_refl | done]|].
  destruct (make_room k sync b headerOverhead n ltac:(done) ltac:(lia) Hm) as (A1 & Hav & Hfit & Hx & Hm1).
  set (b1 := if room b - headerOverhead <? n then flush b else b) in *.
  rewrite Hav in Hfit |- *. clear Hav. destruct (Z.ltb_spec (room b1 - headerOverhead) n); [lia|].
  assert (Hq : n * Z.quot (room b1 - headerOverhead) n <= room b1 - headerOverhead) by (apply Z.mul_quot_le; lia).
  assert (Hq1 : 1 <= Z.quot (room b1 - headerOverhead) n) by (apply Z.quot_le_lower_bound; lia).
  set (e := Z.min (idx + Z.quot _ n - 1) last). assert (He : idx <= e <= last) by lia.
  assert (Hen : (e - idx + 1) * n + headerOverhead <= room b1) by nia.
  rewrite (run_reports_split _ _ _ _ _ idx e last) by lia.
  change (run_reports k sync db _ _ idx e ++ _) with
    ([] ++ run_reports k sync db TypeOctetString (GV 110 n) idx e ++ run_reports k sync db TypeOctetString (GV 110 n) (e + 1) last).
  assert (A2 := octet_range_adds k sync db b1 n idx e Hn ltac:(lia) ltac:(lia) ltac:(intros i Hi'; apply Hst; lia) Hen).
  destruct (IH (add b1 (rangeObjectHeader (GV 110 (u8 n)) (u16 idx) (u16 e)
    (fold_left (fun data i => appendOctetString data (default [] (octet_string db (u16 i))) n) (seqZ idx (e - idx + 1)) []))) (e + 1))
    as [A3 H3]; [lia | done | intros i Hi'; apply Hst; lia | unfold turns in *; lia | rewrite (b_max_add k sync); lia|].
  split; [|done]. eapply adds_trans; [exact A1|]. eapply adds_trans; [exact A2 | exact A3].
Qed.

Lemma octet_run_end_spec fuel db n idx stop :
  idx <= stop -> stop <= 0xFFFF -> 0 <= idx -> (turns idx stop <= fuel)%nat ->
  let e := octet_run_end fuel db n idx stop in
  idx <= e <= stop /\ forall i, idx < i <= e -> exists v, octet_string db i = Some v /\ reported_length v = n.
Proof.
  revert idx. induction fuel as [|fuel IH]; intros idx Hs Hm Hi Hf; [unfold turns in Hf; lia|]. cbn [octet_run_end].
  destruct (Z.ltb_spec idx stop); [|split; [lia | intros; lia]].
  rewrite u16_small by (unfold is_u16; lia).
  destruct (octet_string db (idx + 1)) as [v'|] eqn:E; [|split; [lia | intros; lia]].
  destruct (Z.eqb_spec (reported_length v') n); [|split; [lia | intros; lia]].
  destruct (IH (idx + 1)) as [H1 H2]; [lia | lia | lia | unfold turns in *; lia|]. split; [lia|].
  intros i Hi'. destruct (Z.eq_dec i (idx + 1)) as [->|]; [eauto|]. apply H2. lia.
Qed.

(** Strings that exist and are no longer than a variation can say. *)
Definition strings_ok (db : Database) (start stop : Z) : Prop :=
  forall i, start <= i <= stop -> point_ok db TypeOctetString i /\ is_Some (octet_string db i).

Definition min_string_fragment : Z := ResponseHeaderSize + headerOverhead + 255.

Lemma octet_loop_adds k sync db fuel b variation idx stop :
  0 <= idx -> stop <= 0xFFFF -> strings_ok db idx stop -> (turns idx stop <= fuel)%nat -> min_string_fragment <= b_max b ->
  adds k sync b (octet_loop fuel db b idx stop) (range_reports k sync db TypeOctetString variation idx stop).
Proof.
  revert b idx. induction fuel as [|fuel IH]; intros b idx Hi Hs Hok Hf Hm.
  { cbn [octet_loop]. unfold range_reports. rewrite seqZ_nil by (unfold turns in Hf; lia). apply adds_refl. }
  cbn [octet_loop]. destruct (Z.ltb_spec stop idx).
  { unfold range_reports. rewrite seqZ_nil by lia. apply adds_refl. }
  rewrite u16_small by (unfold is_u16; lia). destruct (Hok idx ltac:(lia)) as ([Ho Hlen] & [v Hv]). rewrite Hv in Ho, Hlen |- *. change (octets_ok v) in Ho.
  change (len v <= 255) in Hlen. pose proof (len_nonneg v). set (n := reported_length v). assert (Hn : 1 <= n <= 255) by (unfold n, reported_length; lia).
  destruct (octet_run_end_spec (turns idx stop) db n idx stop) as [He1 He2]; [lia | lia | lia | lia|].
  set (e := octet_run_end _ _ _ _ _) in *.
  assert (Hst : strings_of db n idx e).
  { intros i Hi'. destruct (Z.eq_dec i idx) as [->|]; [by exists v|]. destruct (He2 i ltac:(lia)) as (v' & Hv' & Hn').
    exists v'. split_and!; try done. destruct (Hok i ltac:(lia)) as ([Ho' _] & _). by rewrite Hv' in Ho'. }
  destruct (octet_run_adds k sync db (turns idx e) b n idx e) as [A1 H1]; [done | done | lia | done | lia | unfold min_string_fragment in *; lia|].
  destruct (octet_run _ db b n idx e) as [b1 more]. cbn [fst snd] in *. subst more.
  rewrite (range_reports_split _ _ _ _ _ idx e stop) by lia. eapply adds_trans.
  - rewrite <- (run_range_reports _ _ _ _ _ n); [exact A1|]. intros i Hi'. destruct (Hst i Hi') as (v' & Hv' & _ & Hn').
    unfold point_variation. by rewrite Hv'.
  - apply IH; [lia | done | intros i Hi'; apply Hok; lia | unfold turns in *; lia|]. by destruct A1 as (-> & _).
Qed.

(** ** A range of a type, and the whole database *)

(** What the device has of a type can be reported. *)
Definition device_ok (db : Database) (pt : PointType) (variation start stop : Z) : Prop :=
  match pt with
  | TypeOctetString => strings_ok db start stop
  | _ => reportable db pt variation start stop
  end.

(** The reports a read of a range earns: one for each point there is. *)
Definition read_reports (k : HandlerKind) (sync : bool) (db : Database) (pt : PointType) (variation start stop : Z)
    : list report :=
  range_reports k sync db pt variation start (Z.min stop (typeCount (Counts db) pt - 1)).

Lemma buildStaticRange_adds k sync db b pt variation start stop :
  0 <= start -> 0 <= stop <= 0xFFFF -> 0 <= typeCount (Counts db) pt <= 65536 ->
  device_ok db pt variation start (Z.min stop (typeCount (Counts db) pt - 1)) -> min_string_fragment <= b_max b ->
  adds k sync b (buildStaticRange db b pt variation start stop) (read_reports k sync db pt variation start stop).
Proof.
  intros Hst Hs Hn Hok Hm. unfold buildStaticRange, read_reports. destruct (Z.eqb_spec (typeCount (Counts db) pt) 0) as [E|E].
  { unfold range_reports. rewrite seqZ_nil by lia. apply adds_refl. }
  assert (Hl : u16 (typeCount (Counts db) pt - 1) = typeCount (Counts db) pt - 1) by (apply u16_small; unfold is_u16; lia).
  assert (Hoct : adds k sync b (buildOctetStrings db b start (Z.min stop (typeCount (Counts db) TypeOctetString - 1)))
    (range_reports k sync db TypeOctetString variation start (Z.min stop (typeCount (Counts db) TypeOctetString - 1))) \/ pt <> TypeOctetString).
  { destruct (decide (pt = TypeOctetString)) as [->|]; [left | by right]. unfold buildOctetStrings.
    destruct (Z.ltb_spec (Z.min stop (typeCount (Counts db) TypeOctetString - 1)) start).
    - unfold range_reports. rewrite seqZ_nil by lia. apply adds_refl.
    - apply octet_loop_adds; try done; lia. }
  set (last := Z.min stop (typeCount (Counts db) pt - 1)) in *.
  assert (Hgen : pt <> TypeOctetString ->
    adds k sync b (let stop := if typeCount (Counts db) pt <=? stop then u16 (typeCount (Counts db) pt - 1) else stop in
      if stop <? start then b else static_loop (turns start stop) db b pt variation start stop)
      (range_reports k sync db pt variation start last)).
  { intros Hpt. cbv zeta. replace (if _ <=? stop then _ else stop) with last
      by (unfold last; rewrite Hl; destruct (Z.leb_spec (typeCount (Counts db) pt) stop); lia).
    destruct (Z.ltb_spec last start); [unfold range_reports; rewrite seqZ_nil by lia; apply adds_refl|].
    apply static_loop_adds; [done | done | lia | by destruct pt | lia | unfold min_fragment, min_string_fragment in *; lia]. }
  destruct pt; try (apply Hgen; discriminate). rewrite Hl. by destruct Hoct.
Qed.

Definition database_ok (db : Database) : Prop :=
  forall pt, pt ∈ staticTypes -> 0 <= typeCount (Counts db) pt <= 65536 /\
    device_ok db pt 0 0 (typeCount (Counts db) pt - 1).

Lemma fold_adds {A} k sync (f : responseBuilder -> A -> responseBuilder) (R : A -> list report) l b :
  (forall x b', x ∈ l -> b_max b' = b_max b -> adds k sync b' (f b' x) (R x)) ->
  adds k sync b (fold_left f l b) (concat (R <$> l)).
Proof.
  revert b. induction l as [|x l IH]; intros b H; [apply adds_refl|]. cbn [fold_left fmap list_fmap concat].
  assert (A1 : adds k sync b (f b x) (R x)) by (apply H; [set_solver | done]). eapply adds_trans; [exact A1|].
  apply IH. intros y b' Hy Hb'. apply H; [set_solver|]. destruct A1 as (E & _). congruence.
Qed.

Lemma buildStatic_adds k sync db b :
  database_ok db -> min_string_fragment <= b_max b ->
  adds k sync b (buildStatic db b) (concat ((fun pt => read_reports k sync db pt 0 0 0xFFFF) <$> staticTypes)).
Proof.
  intros Hdb Hm. apply fold_adds. intros pt b' Hpt Hb. destruct (Hdb pt Hpt) as [Hn Hok].
  apply buildStaticRange_adds; [lia | lia | done | | congruence].
  replace (Z.min 65535 _) with (typeCount (Counts db) pt - 1) by lia. done.
Qed.

(** C11. An integrity poll reports every static point of the database ([buildStatic], which a
    read of class 0 answers with before the data sets, if the device has any; those are not
    points and not in this statement).  When every point's configured static
    variation is one of its type and the fragment limit leaves room for one object, the master
    that parses the fragments of the response, in order and whatever header they travel under,
    is handed exactly one report per static point, type by type and in index order, with the
    index, the group and variation the point is reported in, and its value as that variation
    expresses it; and every fragment is within the limit, the response header included. *)
Theorem integrity_reports_all k sync now hdr db max ctx :
  database_ok db -> min_string_fragment <= max -> header_ok hdr -> Func hdr = FuncResponse ->
  let bodies := done (buildStatic db (newResponseBuilder max ctx)) in
  concat ((fun body => all_reports (received k sync now hdr body)) <$> bodies) =
    concat ((fun pt => point_report k sync db pt 0 <$> seqZ 0 (typeCount (Counts db) pt)) <$> staticTypes) /\
  Forall (fun body => len body + ResponseHeaderSize <= max) bodies.
Proof.
  intros Hdb Hm Hh Hf bodies. assert (Hmax : b_max (newResponseBuilder max ctx) = max).
  { unfold newResponseBuilder. cbn [b_max]. unfold min_string_fragment in Hm. change (_ + _ + _) with 266 in Hm.
    destruct (Z.leb_spec max 0); lia. }
  assert (A := buildStatic_adds k sync db (newResponseBuilder max ctx) Hdb ltac:(by rewrite Hmax)).
  pose proof A as (Hb & _). rewrite Hmax in Hb.
  destruct (adds_done k sync max ctx _ _ now hdr Hh Hf A) as [H1 H2].
  { rewrite Hb. unfold min_string_fragment in Hm. change (_ + _ + _) with 266 in Hm. lia. }
  split; [|eapply Forall_impl; [exact H2|]; intros body; rewrite Hb; cbn; lia].
  fold bodies in H1. rewrite H1. f_equal. apply list_fmap_ext. intros j pt Hj.
  destruct (Hdb pt) as [Hn _]; [by eapply list_elem_of_lookup_2|]. unfold read_reports, range_reports. f_equal. f_equal. lia.
Qed.

(** Three binaries, the middle one offline, two analogs of different variations and a string,
    in fragments of 266 octets. *)
Definition witness_device : Database :=
  let online b := mkMeasurement b Online NoTime in
  let cfg v := mkPointConfig ClassNone v 0 f64_zero ClassNone 0 in
  let p {T} (x : T) v := mkPoint x (cfg v) f64_zero false in
  mkDatabase [p (online true) 1; p (mkMeasurement false 0 NoTime) 1; p (online true) 1] [] [] []
    [p (mkMeasurement (f64_of_Z 7) Online NoTime) 1; p (mkMeasurement (f64_of_Z 9) Online NoTime) 6] [] [] []
    [] [] [p (mkSlice 0 3 3) 0] ∅ ∅ None [[72; 105; 33]].

Lemma integrity_reports_all_witness :
  let bodies := done (buildStatic witness_device (newResponseBuilder 2048 (fragment_context true))) in
  concat ((fun body => all_reports (received (mkHandlerKind false false false) true 0
    (mkHeader (mkControl true true false false 3) FuncResponse 0) body)) <$> bodies) =
  [(GV 1 1, 0, RBinary (mkMeasurement true Online NoTime)); (GV 1 2, 1, RBinary (mkMeasurement false 0 NoTime));
   (GV 1 1, 2, RBinary (mkMeasurement true Online NoTime));
   (GV 30 1, 0, RAnalog (mkMeasurement (f64_of_Z 7) Online NoTime));
   (GV 30 6, 1, RAnalog (mkMeasurement (f64_of_Z 9) Online NoTime));
   (GV 110 3, 0, ROctetString [72; 105; 33])].
Proof.
  destruct (integrity_reports_all (mkHandlerKind false false false) true 0
    (mkHeader (mkControl true true false false 3) FuncResponse 0) witness_device 2048 (fragment_context true)) as [H _].
  - intros pt Hpt. unfold staticTypes in Hpt. rewrite !elem_of_cons, elem_of_nil in Hpt.
    repeat destruct Hpt as [->|Hpt]; try done; (split; [vm_compute; split; congruence|]).
    all: intros i Hi; match type of Hi with context [typeCount ?a ?b] =>
      let n := eval vm_compute in (typeCount a b) in change (typeCount a b) with n in Hi end.
    2-5, 7-8: exfalso; lia.
    + assert (i = 0 \/ i = 1 \/ i = 2) as [-> | [-> | ->]] by lia;
        (split; [vm_compute; split; congruence|]); eexists; (split; [vm_compute; reflexivity|]);
        cbn [static_variations]; rewrite !elem_of_cons; tauto.
    + assert (i = 0 \/ i = 1) as [-> | ->] by lia;
        (split; [split; [vm_compute; split; congruence | vm_compute; reflexivity]|]); eexists;
        (split; [vm_compute; reflexivity|]); cbn [static_variations]; rewrite !elem_of_cons; tauto.
    + assert (i = 0) as -> by lia. split; [split; [|vm_compute; congruence] | eexists; vm_compute; reflexivity].
      vm_compute. repeat constructor; congruence.
  - vm_compute. discriminate.
  - vm_compute. intuition congruence.
  - reflexivity.
  - etransitivity; [exact H | vm_compute; reflexivity].
Defined.

(** ** No point is taken for normal that is not *)

(** The flags of a reading, without the state bits a binary keeps among them. *)
Definition reading_flags (r : reading) : Z :=
  match r with
  | RBinary v | RBinaryOutputStatus v => Z.ldiff (Flags v) StateBit
  | RDoubleBit v => Z.land (Flags v) 0x3F
  | RCounter v | RFrozenCounter v => Flags v
  | RAnalog v | RFrozenAnalog v | RAnalogOutputStatus v => Flags v
  | _ => 0
  end.

Lemma state_flags f (b : bool) : octet_ok f -> Z.ldiff (Z.land f 0x7F + if b then 0x80 else 0) StateBit = Z.ldiff f StateBit.
Proof. intros Hf. apply Z.eqb_eq. destruct b; revert Hf; by_octets f. Qed.
Lemma pair_flags f x : octet_ok f -> 0 <= x <= 3 -> Z.land (Z.land f 0x3F + 64 * x) 0x3F = Z.land f 0x3F.
Proof.
  intros Hf Hx. apply Z.eqb_eq. assert (x = 0 \/ x = 1 \/ x = 2 \/ x = 3) as [-> | [-> | [-> | ->]]] by lia; revert Hf; by_octets f.
Qed.

(** A variation without flags is only reported for a point whose flags are normal. *)
Lemma plain_variation db pt requested i v flagged vs flags ok :
  staticPoint db pt i = (vs, flags, ok) -> reportVariation db pt requested i = Some v ->
  withFlags pt v = Some flagged -> flags = Online.
Proof.
  intros Hp Hr Hw. unfold reportVariation in Hr. rewrite Hp in Hr. destruct ok; [|done]. cbn [negb] in Hr.
  set (v0 := if negb (requested =? 0) then requested else vs) in Hr. destruct (withFlags pt v0) as [f|] eqn:E.
  - destruct (Z.eqb_spec flags Online) as [|]; [done|]. cbn [negb] in Hr. injection Hr as ->.
    exfalso. revert E Hw. unfold withFlags. destruct pt; repeat destr_if; bool_prop; congruence || (intros; simplify_eq; lia).
  - injection Hr as ->. congruence.
Qed.

Ltac destruct_point :=
  match goal with
  | H : context [Database_Binary ?db ?i] |- _ => destruct (Database_Binary db i) as [[m cfg] okb]
  | H : context [Database_DoubleBit ?db ?i] |- _ => destruct (Database_DoubleBit db i) as [[m cfg] okb]
  | H : context [Database_Counter ?db ?i] |- _ => destruct (Database_Counter db i) as [[m cfg] okb]
  | H : context [Database_FrozenCounter ?db ?i] |- _ => destruct (Database_FrozenCounter db i) as [[m cfg] okb]
  | H : context [Database_Analog ?db ?i] |- _ => destruct (Database_Analog db i) as [[m cfg] okb]
  | H : context [Database_FrozenAnalog ?db ?i] |- _ => destruct (Database_FrozenAnalog db i) as [[m cfg] okb]
  | H : context [Database_BinaryOutputStatus ?db ?i] |- _ => destruct (Database_BinaryOutputStatus db i) as [[m cfg] okb]
  | H : context [Database_AnalogOutputStatus ?db ?i] |- _ => destruct (Database_AnalogOutputStatus db i) as [[m cfg] okb]
  end.

Ltac evaluate_variation :=
  unfold as_reported;
  match goal with |- context [Lookup ?g] => let x := eval vm_compute in (Lookup g) in change (Lookup g) with x end;
  cbn [Packed].

(** The flags reach the master.  Whatever variation a read asks for, and in whatever variation
    a point is therefore reported, the flags the master reads are those the point has; only an
    analog forced into an integer too narrow for it has OVER_RANGE added.  In particular a
    point that is offline, forced or restarting is never read as good. *)
Theorem flags_reach_master k sync db pt requested i v vs flags :
  staticPoint db pt i = (vs, flags, true) -> point_ok db pt i ->
  reportVariation db pt requested i = Some v -> v ∈ static_variations pt ->
  let read := reading_flags (static_reading k sync db pt (staticGroupVar pt v) i) in
  read = flags \/ (pt ∈ [TypeAnalog; TypeFrozenAnalog; TypeAnalogOutputStatus] /\ read = Z.lor flags OverRange).
Proof.
  intros Hp Hok Hr Hv read.
  assert (Hplain : is_Some (withFlags pt v) -> flags = Online) by (intros [f Hf]; by eapply plain_variation).
  unfold read. clear read Hr. destruct pt; cbn [static_variations] in Hv; rewrite ?elem_of_cons, elem_of_nil in Hv; try done.
  all: cbn [staticPoint] in Hp; unfold static_reading; cbn [point_ok] in Hok.
  all: destruct_point; injection Hp as _ Hfl _; subst flags.
  all: cbn [fst] in *; repeat destruct Hv as [->|Hv]; try done.
  all: try (rewrite Hplain by (by eexists)); clear Hplain; try destruct (isFrozenAnalogHandler k).
  all: evaluate_variation; cbn [reading_flags Flags]; try (by left).
  all: try (left; apply state_flags; exact Hok); try (left; apply pair_flags; apply Hok).
  all: unfold reported_analog; cbn [ValueBits FloatValue HasFlags Z.eqb Pos.eqb negb andb].
  all: match goal with |- context [clampInt16 ?x] => destruct (clampInt16 x) as [n []]
                     | |- context [clampInt32 ?x] => destruct (clampInt32 x) as [n []] end; cbn [Flags andb]; try (by left).
  all: right; split; [rewrite !elem_of_cons; tauto | done].
Qed.

(** A forced counter asked for in variation 6, which has no flags, is read with its flags. *)
Lemma flags_reach_master_witness :
  let db := set_counter [mkPoint (mkMeasurement 12 (Z.lor Online LocalForced) NoTime)
    (mkPointConfig ClassNone 1 0 f64_zero ClassNone 0) f64_zero false] witness_device in
  reportVariation db TypeCounter 6 0 = Some 2 /\
  reading_flags (static_reading (mkHandlerKind false false false) true db TypeCounter (GV 20 2) 0) = Z.lor Online LocalForced.
Proof.
  intros db. assert (Hr : reportVariation db TypeCounter 6 0 = Some 2) by (vm_compute; reflexivity). split; [exact Hr|].
  destruct (flags_reach_master (mkHandlerKind false false false) true db TypeCounter 6 0 2 1 (Z.lor Online LocalForced)) as [H | [H _]].
  - vm_compute. reflexivity.
  - vm_compute. intuition congruence.
  - exact Hr.
  - cbn. rewrite !elem_of_cons. tauto.
  - exact H.
  - rewrite !elem_of_cons, elem_of_nil in H. exfalso. intuition discriminate.
Defined.
