(* ===== verification/EventResponse.v ===== *)
(** * The events of a response

    What a master makes of the event objects [buildEvents] puts in a response: the second half
    of the composition of src/outstation/response.go with src/master/dispatch.go.

    The theorem: every event handed to the builder is reported to the master exactly once, in
    order, with its index and its value and time as its variation expresses them, or comes
    back as one that cannot be sent; and only those come back that have no encoding or do not
    fit an empty fragment. *)

From Stdlib Require Import SpecFloat.
From S2P Require Import Prelude Values Floats AppHeader AppObject AppFragment Objects Codecs CommandEvents.
From S2P Require Import EventBuffer Database ExtendedDatabase Commands Dispatch Response ReadResponse.

(** ** What an event reports *)

Definition event_gv (e : Event) : Objects.GroupVar := GV (eventGroup (EType e)) (EVariation e).

(** A measurement as variation [g] expresses it in context [ctx]. *)
Definition expressed {V} (rep : Descriptor -> Context -> measurement V -> measurement V) (g : Objects.GroupVar)
    (ctx : Context) (m : measurement V) : measurement V :=
  match Lookup g with Some d => rep d ctx m | None => m end.

Definition command_of (e : Event) : CommandEvent :=
  mkCommandEvent (CommandStatus e) (bool_decide (EType e = TypeAnalogCommandEvent)) (CommandState e) (CommandValue e) (ETime e).

(** [h] holds the arrays octet strings live in; [ctx] is the context of the master. *)
Definition event_reading (k : HandlerKind) (h : list (list Z)) (ctx : Context) (e : Event) : option reading :=
  let g := event_gv e in
  match EType e with
  | TypeBinary => Some (RBinary (expressed reported_binary g ctx (EBinary e)))
  | TypeDoubleBitBinary => Some (RDoubleBit (expressed reported_doubleBit g ctx (EDoubleBit e)))
  | TypeCounter => Some (RCounter (expressed reported_counter g ctx (ECounter e)))
  | TypeFrozenCounter => Some (RFrozenCounter (expressed reported_counter g ctx (EFrozenCounter e)))
  | TypeAnalog => Some (RAnalog (expressed reported_analog g ctx (EAnalog e)))
  | TypeFrozenAnalog =>
      Some ((if isFrozenAnalogHandler k then RFrozenAnalog else RAnalog) (expressed reported_analog g ctx (EFrozenAnalog e)))
  | TypeBinaryOutputStatus => Some (RBinaryOutputStatus (expressed reported_binary g ctx (EBinaryOutput e)))
  | TypeAnalogOutputStatus => Some (RAnalogOutputStatus (expressed reported_analog g ctx (EAnalogOutput e)))
  | TypeOctetString | TypeVirtualTerminal =>
      Some (ROctetString (appendOctetString [] (read h (EOctetString e)) (EVariation e)))
  | TypeBinaryCommandEvent | TypeAnalogCommandEvent =>
      if isCommandEventHandler k
      then Some (RCommandEvent (reported_command (eventGroup (EType e)) (EVariation e) (command_of e))) else None
  | _ => None
  end.

Definition event_reports (k : HandlerKind) (h : list (list Z)) (ctx : Context) (e : Event) : list report :=
  match EType e with
  | TypeDataset => if isDatasetHandler k then [(GV 88 1, 0, RDataset (EDataset e))] else []
  | _ => match event_reading k h ctx e with Some r => [(event_gv e, EIndex e, r)] | None => [] end
  end.

(** Whether the event's time is told relative to a common time. *)
Definition relative_event (e : Event) : bool := (event_size (event_gv e) (EType e)).2.

(** An event a database raises: its fields hold what their Go types can hold, and the time it
    is sorted by is the time of its measurement. *)
Definition event_ok (h : list (list Z)) (e : Event) : Prop :=
  is_u16 (EIndex e) /\ octet_ok (EVariation e) /\
  (Timestamp_IsValid (ETime e) = true -> 0 <= UnixMilli (TTime (ETime e)) <= MaxDNP3Time) /\
  match EType e with
  | TypeBinary => binary_ok (EBinary e) /\ Time (EBinary e) = ETime e
  | TypeDoubleBitBinary => doubleBit_ok (EDoubleBit e) /\ Time (EDoubleBit e) = ETime e
  | TypeCounter => counter_ok (ECounter e)
  | TypeFrozenCounter => counter_ok (EFrozenCounter e)
  | TypeAnalog => analog_ok (EAnalog e)
  | TypeFrozenAnalog => analog_ok (EFrozenAnalog e)
  | TypeBinaryOutputStatus => binary_ok (EBinaryOutput e)
  | TypeAnalogOutputStatus => analog_ok (EAnalogOutput e)
  | TypeOctetString | TypeVirtualTerminal => octets_ok (read h (EOctetString e))
  | TypeBinaryCommandEvent | TypeAnalogCommandEvent => command_event_ok (eventGroup (EType e)) (command_of e)
  | TypeDataset => octets_ok (EDataset e)
  | _ => True
  end.

Lemma eventGroup_inj a b : eventGroup a = eventGroup b -> a = b.
Proof. by destruct a, b. Qed.

(** ** A run of events *)

Definition prefix_octets (f : runFormat) (e : Event) : list Z :=
  if IndexPrefix_Octets (f_prefix f) =? 1 then [u8 (EIndex e)] else le16 (EIndex e).

Definition format_ok (f : runFormat) (run : list Event) : Prop :=
  (f_prefix f = PrefixIndex1 /\ f_spec f = RangeCount8 /\ f_maxCount f = 0xFF /\ Forall (fun e => EIndex e <= 0xFF) run) \/
  (f_prefix f = PrefixIndex2 /\ f_spec f = RangeCount16 /\ f_maxCount f = 0xFFFF).

Lemma run_format_ok g size relative run : format_ok (run_format g size relative run) run.
Proof.
  unfold run_format. destruct (existsb _ run) eqn:E; [by right|]. left. cbn. split_and!; try done.
  apply Forall_forall. intros e He. apply list_elem_of_In in He.
  destruct (Z.ltb_spec 0xFF (EIndex e)) as [Hlt|]; [|done]. exfalso.
  assert (existsb (fun e => 0xFF <? EIndex e) run = true) as E' by (apply existsb_exists; exists e; split; [done | by apply Z.ltb_lt]).
  congruence.
Qed.

Definition plen (f : runFormat) : Z := IndexPrefix_Octets (f_prefix f).

Lemma prefix_octets_spec f run e : format_ok f run -> e ∈ run -> is_u16 (EIndex e) ->
  len (prefix_octets f e) = plen f /\ octets_ok (prefix_octets f e) /\ 0 < plen f /\
  dispatch_readPrefix (prefix_octets f e) (plen f) = EIndex e.
Proof.
  intros Hf He Hi. unfold prefix_octets, plen, is_u16 in *.
  destruct Hf as [(-> & _ & _ & Hs)|(-> & _ & _)]; cbn [IndexPrefix_Octets PrefixIndex1 PrefixIndex2 Z.eqb Pos.eqb orb].
  - rewrite Forall_forall in Hs. specialize (Hs _ He). split_and!; try done; [apply octets_ok_cons; split; [apply u8_ok | apply octets_ok_nil]|].
    cbn. unfold at_. cbn. apply u8_small. unfold octet_ok. lia.
  - split_and!; try done; [apply le_bytes_ok|]. 
    change (Z.lor (u8 (EIndex e)) (Z.shiftl (u8 (Z.shiftr (EIndex e) 8)) 8) = EIndex e). rewrite shiftr_8.
    pose proof (u8_ok (EIndex e)) as H8. unfold octet_ok in H8. rewrite lor_shiftl by (try change (2 ^ 8) with 256; lia).
    change (2 ^ 8) with 256. unfold u8. Z.div_mod_to_equations. lia.
Qed.

Lemma Forall2_weaken {A B} (P Q : A -> B -> Prop) l m :
  Forall2 P l m -> (forall x y, x ∈ l -> P x y -> Q x y) -> Forall2 Q l m.
Proof. induction 1; intros H'; constructor; [apply H'; [set_solver | done]|]. apply IHForall2. intros; apply H'; [set_solver | done]. Qed.

Lemma fold_items {A} (f : list Z -> A -> list Z) (Q : A -> list Z * list Z -> Prop) l dst :
  (forall x dst, x ∈ l -> exists p o, f dst x = dst ++ p ++ o /\ Q x (p, o)) ->
  exists items, fold_left f l dst = dst ++ concat ((fun x => x.1 ++ x.2) <$> items) /\ Forall2 Q l items.
Proof.
  revert dst. induction l as [|x l IH]; intros dst H.
  { exists []. cbn. rewrite app_nil_r. auto. }
  destruct (H x dst) as (p & o & Ho & HQ); [set_solver|]. destruct (IH (dst ++ p ++ o)) as (items & E & F).
  { intros y d Hy. apply H. set_solver. }
  exists ((p, o) :: items). cbn [fold_left fmap list_fmap concat fst snd]. rewrite Ho, E, <- !app_assoc. auto.
Qed.

Ltac by_format Hf :=
  let Ep := fresh in let Es := fresh in let Em := fresh in
  destruct Hf as [(Ep & Es & Em & _)|(Ep & Es & Em)]; rewrite ?Ep, ?Es, ?Em in *.

Lemma event_header_sound h f ctx run items :
  octet_ok (GV_Group (f_gv f)) -> 0 < GV_Variation (f_gv f) < 256 -> one_of (GV_Group (f_gv f)) [51; 91; 0] = false ->
  format_ok f run -> 0 < len run <= f_maxCount f ->
  SpecSizer (GV_Group (f_gv f)) (GV_Variation (f_gv f)) = Some (8 * f_size f) -> 0 < f_size f <= 255 ->
  Data (event_header h f ctx run) = concat ((fun x => x.1 ++ x.2) <$> items) ->
  Forall2 (fun _ x => (len x.1 = plen f /\ len x.2 = f_size f) /\ octets_ok x.1 /\ octets_ok x.2) run items ->
  let hd := event_header h f ctx run in
  sound hd /\ ObjectHeader_Size hd = ObjectHeaderSize + RangeSpec_Octets (f_spec f) + len run * (plen f + f_size f) /\
  prefix_len hd = plen f /\ ObjectHeader_Count hd = len run.
Proof.
  intros Hg Hv Hn Hf Hl Hz Hs Hd F hd.
  unfold one_of in Hn. cbn in Hn. rewrite !orb_false_iff, !Z.eqb_neq in Hn.
  assert (Hlen : len (Data hd) = len run * (plen f + f_size f)).
  { fold hd in Hd. rewrite Hd, (len_items (plen f) (f_size f)).
    - unfold len. by rewrite (Forall2_length _ _ _ F).
    - apply Forall_forall. intros x Hx. apply list_elem_of_lookup in Hx as [i Hx].
      by destruct (Forall2_lookup_r _ _ _ _ _ F Hx) as (_ & _ & H & _). }
  assert (Ho : octets_ok (Data hd)).
  { fold hd in Hd. rewrite Hd. apply octets_ok_concat, Forall_fmap, Forall_forall. intros x Hx. apply list_elem_of_lookup in Hx as [i Hx].
    destruct (Forall2_lookup_r _ _ _ _ _ F Hx) as (_ & _ & _ & H). cbn. by apply octets_ok_app. }
  assert (Hcnt : ObjectHeader_Count hd = len run).
  { cbn. apply u32_small. unfold is_u32. destruct Hf as [(_ & _ & Hm & _)|(_ & _ & Hm)]; rewrite Hm in Hl; lia. }
  assert (Hm : len run <= 0xFFFF) by (destruct Hf as [(_ & _ & Hm & _)|(_ & _ & Hm)]; lia).
  assert (Hp : 0 <= plen f <= 2) by (unfold plen; by_format Hf; vm_compute; split; congruence).
  assert (Hq : Qualifier hd = MakeQualifier (f_prefix f) (f_spec f)) by done.
  split_and!; [| |unfold prefix_len, plen; rewrite Hq; by by_format Hf | done].
  2:{ unfold ObjectHeader_Size. rewrite Hq, Hlen. by by_format Hf. }
  assert (Hdl : objectDataLen DefaultSizer hd (Data hd) true = Ok (len (Data hd))).
  { unfold objectDataLen. change (AppObject.Count (ORange hd)) with (ObjectHeader_Count hd). rewrite Hcnt, Hq.
    change (Group hd) with (GV_Group (f_gv f)). change (Variation hd) with (GV_Variation (f_gv f)).
    change (Spec (ORange hd)) with (f_spec f).
    replace (IndexPrefix (MakeQualifier (f_prefix f) (f_spec f))) with (f_prefix f)
      by (by by_format Hf).
    replace (IsSize (f_prefix f)) with false by (by by_format Hf). cbn [andb negb].
    rewrite (proj2 (Z.eqb_neq (GV_Variation (f_gv f)) 0)), (proj2 (Z.eqb_neq (len run) 0)) by lia.
    replace (f_spec f =? RangeAllObjects) with false by (by by_format Hf).
    rewrite (proj2 (Z.eqb_neq (GV_Group (f_gv f)) 0)), (proj2 (Z.eqb_neq (GV_Group (f_gv f)) 91)) by lia. cbn [andb].
    unfold DefaultSizer. rewrite Hz. fold (plen f).
    destruct (Z.eqb_spec (8 * f_size f) 0), (Z.ltb_spec (8 * f_size f) 8); try lia.
    replace (Z.rem (8 * f_size f) 8) with 0 by (rewrite Z.mul_comm, Z.rem_mul; lia). cbn [Z.eqb negb].
    unfold checkFits, u64. rewrite (Z.mod_small (8 * f_size f)) by lia. rewrite (Z.mul_comm 8 (f_size f)), Z.div_mul by lia.
    rewrite (Z.mod_small (plen f + f_size f)), Z.mod_small by nia. by rewrite <- Hlen, Z.ltb_irrefl. }
  unfold sound, object_ok. rewrite Hq. split_and!; try done.
  - change (octet_ok (GV_Variation (f_gv f))). unfold octet_ok. lia.
  - by_format Hf; vm_compute; split; congruence.
  - by by_format Hf.
  - by by_format Hf.
  - change (Spec (ORange hd)) with (f_spec f). by by_format Hf.
  - unfold range_ok. change (AppObject.Count (ORange hd)) with (ObjectHeader_Count hd). rewrite Hcnt.
    change (Spec (ORange hd)) with (f_spec f). by_format Hf; cbn; split_and!; try done; lia.
Qed.

Lemma GV_eta g : GV (GV_Group g) (GV_Variation g) = g.
Proof. by destruct g. Qed.

(** What holds of every row of the registry holds of what a lookup finds. *)
Lemma Lookup_all (P : (Z * Z) * Descriptor -> bool) g d :
  forallb P descriptors = true -> Lookup g = Some d -> P ((GV_Group g, GV_Variation g), d) = true.
Proof.
  intros HP Hd. unfold Lookup in Hd. apply fmap_Some in Hd as (e & He & ->). apply find_some in He as [Hin Heq].
  rewrite andb_true_iff, !Z.eqb_eq in Heq. destruct Heq as [<- <-]. rewrite forallb_forall in HP.
  specialize (HP _ Hin). by destruct e as [[a b] d].
Qed.

(** The rows of the command event groups agree with the command event codec and the framing
    layer, and those of the statistics group with their encoding. *)
Definition command_row (e : (Z * Z) * Descriptor) : bool :=
  negb ((e.1.1 =? 13) || (e.1.1 =? 43)) ||
  (bool_decide (CommandEventSize e.1.1 e.1.2 = SizeOctets e.2) && bool_decide (SpecSizer e.1.1 e.1.2 = (fun n => 8 * n) <$> SizeOctets e.2)
   && (0 <? e.1.2) && (e.1.2 <? 256) && bool_decide ((fun n => (0 <? n) && (n <? 256)) <$> SizeOctets e.2 = Some true)).
Definition statistic_row (e : (Z * Z) * Descriptor) : bool :=
  negb (e.1.1 =? 122) ||
  ((bool_decide (e.1.2 = 1 /\ SizeOctets e.2 = Some 7) || bool_decide (e.1.2 = 2 /\ SizeOctets e.2 = Some 13)) &&
   bool_decide (SpecSizer e.1.1 e.1.2 = (fun n => 8 * n) <$> SizeOctets e.2) && bool_decide (Measurement e.2 = TypeUnknown)).

Lemma command_rows : forallb command_row descriptors = true.
Proof. vm_compute. reflexivity. Qed.
Lemma statistic_rows : forallb statistic_row descriptors = true.
Proof. vm_compute. reflexivity. Qed.

Section Run.
Context (k : HandlerKind) (h : list (list Z)) (f : runFormat) (run : list Event).
Hypotheses (Hf : format_ok f run) (Hl : 0 < len run <= f_maxCount f)
  (Hrun : Forall (fun e => event_ok h e /\ event_gv e = f_gv f) run).

(** The octets of each event, in the outstation's context. *)
Definition encodes (ctx : Context) (e : Event) (o : list Z) : Prop :=
  (forall dst, encodeEvent h dst (f_gv f) e ctx = dst ++ o) /\ len o = f_size f /\ octets_ok o.

(** A run whose events are encoded so that [parse] reads them back. *)
Lemma run_decodes {T} (parse : list Z -> T) (wrap : T -> reading) (r : Event -> reading) ctx :
  octet_ok (GV_Group (f_gv f)) -> 0 < GV_Variation (f_gv f) < 256 -> one_of (GV_Group (f_gv f)) [51; 91; 0] = false ->
  SpecSizer (GV_Group (f_gv f)) (GV_Variation (f_gv f)) = Some (8 * f_size f) -> 0 < f_size f <= 255 ->
  (forall e, e ∈ run -> exists o, encodes ctx e o /\ wrap (parse o) = r e) ->
  let hd := event_header h f ctx run in
  sound hd /\ ObjectHeader_Size hd = ObjectHeaderSize + RangeSpec_Octets (f_spec f) + len run * (plen f + f_size f) /\
  0 < len (Data hd) /\
  forall kind cls, reports_of wrap (mkHeaderInfo (f_gv f) kind cls) (decodeRun hd (f_size f) (prefix_len hd) parse) =
    (fun e => (f_gv f, EIndex e, r e)) <$> run.
Proof.
  intros Hg Hv Hn Hz Hs Hall hd.
  assert (Hp0 : 0 < plen f) by (unfold plen; destruct Hf as [(-> & _)|(-> & _)]; done).
  assert (Hpre : forall e, e ∈ run -> len (prefix_octets f e) = plen f /\ octets_ok (prefix_octets f e) /\ 0 < plen f /\
    dispatch_readPrefix (prefix_octets f e) (plen f) = EIndex e).
  { intros e He. rewrite Forall_forall in Hrun. destruct (Hrun e He) as [(Hi & _) _]. by apply (prefix_octets_spec f run). }
  destruct (fold_items (event_object h f ctx) (fun e x => x.1 = prefix_octets f e /\ encodes ctx e x.2 /\ wrap (parse x.2) = r e)
    run []) as (items & E & F).
  { intros e dst He. destruct (Hall e He) as (o & [Ho1 Ho2] & Hp). exists (prefix_octets f e), o. split; [|done].
    unfold event_object, prefix_octets. destruct (_ =? 1); by rewrite Ho1, <- app_assoc. }
  rewrite app_nil_l in E.
  assert (F' : Forall2 (fun _ x => (len x.1 = plen f /\ len x.2 = f_size f) /\ octets_ok x.1 /\ octets_ok x.2) run items).
  { apply (Forall2_weaken _ _ _ _ F). intros e x He (-> & (_ & Ho & Hoo) & _). destruct (Hpre e He) as (? & ? & _). done. }
  destruct (event_header_sound h f ctx run items) as (S1 & S2 & S3 & S4); try done. fold hd in S1, S2, S3, S4.
  split_and!; try done.
  - fold hd in E. change (fold_left _ run []) with (Data hd) in E. rewrite E, (len_items (plen f) (f_size f)).
    + unfold len at 1. rewrite <- (Forall2_length _ _ _ F). fold (len run). nia.
    + apply Forall_forall. intros x Hx. apply list_elem_of_lookup in Hx as [i Hx].
      by destruct (Forall2_lookup_r _ _ _ _ _ F' Hx) as (_ & _ & Hx' & _).
  - intros kind cls. rewrite S3, (decodeRun_items _ (f_size f) (plen f) parse items).
    + unfold reports_of. apply list_eq. intros i. rewrite !list_lookup_fmap, list_lookup_imap.
      destruct (items !! i) as [x|] eqn:Ex.
      * destruct (Forall2_lookup_r _ _ _ _ _ F Ex) as (e & He & Hx1 & _ & Hx2). rewrite He. cbn.
        destruct (Hpre e ltac:(by eapply list_elem_of_lookup_2)) as (_ & _ & Hpp & Hpr).
        unfold run_item. cbn [Index IValue]. rewrite (proj2 (Z.ltb_lt 0 (plen f))) by done. by rewrite Hx1, Hx2, Hpr.
      * apply lookup_ge_None in Ex. rewrite <- (Forall2_length _ _ _ F) in Ex. by rewrite (proj2 (lookup_ge_None run i) Ex).
    + lia.
    + lia.
    + apply Forall_forall. intros x Hx. apply list_elem_of_lookup in Hx as [i Hx].
      by destruct (Forall2_lookup_r _ _ _ _ _ F' Hx) as (_ & _ & Hx' & _).
    + exact E.
    + rewrite S4. unfold len. by rewrite (Forall2_length _ _ _ F).
Qed.

(** What is to be shown of a run: its header is well formed, takes the octets it was given
    room for, and says what the events say. *)
Definition run_said (ctx ctxm : Context) : Prop :=
  let hd := event_header h f ctx run in
  sound hd /\ ObjectHeader_Size hd = ObjectHeaderSize + RangeSpec_Octets (f_spec f) + len run * (plen f + f_size f) /\
  all_reports (dispatch k hd ctxm) = concat (event_reports k h ctxm <$> run).

Lemma concat_singles {A B} (g : A -> B) (l : list A) F : (forall x, x ∈ l -> F x = [g x]) -> concat (F <$> l) = g <$> l.
Proof.
  induction l as [|x l IH]; intros H; [done|]. cbn [fmap list_fmap concat].
  rewrite H by set_solver. cbn [app]. f_equal. apply IH. intros; apply H; set_solver.
Qed.
Lemma concat_empties {A B} (l : list A) (F : A -> list B) : (forall x, x ∈ l -> F x = []) -> concat (F <$> l) = [].
Proof.
  induction l as [|x l IH]; intros H; [done|]. cbn [fmap list_fmap concat].
  rewrite H by set_solver. cbn [app]. apply IH. intros; apply H; set_solver.
Qed.

(** Measurements. *)
Lemma run_said_served `{SV : Served pt V} table ctx ctxm d n :
  sv_table = table ->
  forallb (fun e => negb (e.1.1 =? eventGroup pt) || match codec_lookup table (GV e.1.1 e.1.2) with Some _ => true | None => false end)
    descriptors = true ->
  eventGroup pt = GV_Group (f_gv f) -> Lookup (f_gv f) = Some d -> SizeOctets d = Some n -> f_size f = n ->
  times_agree d ctx ctxm ->
  (forall e, e ∈ run -> EType e = pt /\ sv_ok (sv_event e) /\ event_reports k h ctxm e =
     [(event_gv e, EIndex e, sv_wrap k (expressed sv_reported (event_gv e) ctxm (sv_event e)))]) ->
  run_said ctx ctxm.
Proof.
  intros <- Hcomp Hgrp Hd Hn Hfs Ht Hev. pose proof (Lookup_all _ _ _ Hcomp Hd) as Hc. cbn [fst snd] in Hc.
  rewrite GV_eta, <- Hgrp, Z.eqb_refl in Hc. cbn [negb orb] in Hc.
  destruct (codec_lookup sv_table (f_gv f)) as [c|] eqn:Ec; [|done].
  destruct (served_codec k (f_gv f) c Ec) as (d' & n' & Hd' & Hn' & Hnb & Hp & Hz & Hgo & Hvo & Ho & Hw & Hdisp).
  { rewrite !elem_of_cons. right. left. done. }
  assert (d' = d) as -> by congruence. assert (n' = n) as -> by congruence.
  destruct (run_decodes (fun b => Parse c b ctxm) (sv_wrap k)
    (fun e => sv_wrap k (expressed sv_reported (event_gv e) ctxm (sv_event e))) ctx) as (S1 & S2 & S3 & S4); try done; try lia.
  { by rewrite Hfs. }
  { intros e He. destruct (Hev e He) as (Et & Hok & _). destruct (Hw (sv_event e) ctx Hok) as (o & Ho1 & Ho2 & Ho3 & Ho4).
    exists o. split; [split_and!; [intros dst; rewrite sv_encode_event, Ec by done; apply Ho1 | lia | done]|].
    rewrite Ho4 by done. f_equal. unfold expressed. rewrite Forall_forall in Hrun. destruct (Hrun e He) as [_ ->]. by rewrite Hd. }
  split_and!; try done. rewrite Hdisp by done. rewrite <- Hfs, S4. symmetry.
  rewrite (concat_singles (fun e => (f_gv f, EIndex e, sv_wrap k (expressed sv_reported (event_gv e) ctxm (sv_event e))))); [done|].
  intros e He. destruct (Hev e He) as (_ & _ & ->). rewrite Forall_forall in Hrun. by destruct (Hrun e He) as [_ ->].
Qed.

Ltac served_run inst Hd Hn Hfn Ht Hok Hg :=
  let e := fresh in let He := fresh in let Hv := fresh in let Et := fresh in
  eapply (@run_said_served _ _ inst); [reflexivity | vm_compute; reflexivity | exact Hg | exact Hd | exact Hn | exact Hfn | exact Ht|];
  intros e He; destruct (Hok e He) as [(_ & _ & _ & Hv) Et]; rewrite Et in Hv;
  split; [exact Et|]; split; [first [exact Hv | exact (proj1 Hv)]|];
  unfold event_reports, event_reading; rewrite Et; reflexivity.

(** Octet strings and virtual terminals. *)
Lemma run_said_strings ctx ctxm :
  GV_Group (f_gv f) ∈ [111; 113] -> f_size f = GV_Variation (f_gv f) -> 0 < f_size f <= 255 ->
  (forall e, e ∈ run -> EType e = TypeOctetString \/ EType e = TypeVirtualTerminal) ->
  run_said ctx ctxm.
Proof.
  intros Hg Hs Hn Hev. rewrite !elem_of_cons, elem_of_nil in Hg.
  destruct (run_decodes (fun b => b) ROctetString
    (fun e => ROctetString (appendOctetString [] (read h (EOctetString e)) (EVariation e))) ctx) as (S1 & S2 & S3 & S4); try done; try lia.
  { destruct Hg as [->|[->|[]]]; unfold octet_ok; lia. }
  { destruct Hg as [->|[->|[]]]; done. }
  { unfold SpecSizer. destruct Hg as [->|[->|[]]]; cbn; f_equal; lia. }
  { intros e He. rewrite Forall_forall in Hrun. destruct (Hrun e He) as [(_ & _ & _ & Hok) Egv].
    exists (appendOctetString [] (read h (EOctetString e)) (EVariation e)). split; [|done].
    assert (Hv : GV_Variation (f_gv f) = EVariation e) by (by rewrite <- Egv). rewrite <- Hv. split_and!.
    - intros dst. unfold encodeEvent. destruct (Hev e He) as [-> | ->]; apply appendOctetString_dst.
    - rewrite len_appendOctetString; lia.
    - apply appendOctetString_octets. by destruct (Hev e He) as [E|E]; rewrite E in Hok. }
  split_and!; try done. set (hd := event_header h f ctx run) in *.
  assert (Hdisp : all_reports (dispatch k hd ctxm) =
    reports_of ROctetString (mkHeaderInfo (f_gv f) KindEvent ClassNone) (decodeRun hd (f_size f) (prefix_len hd) (fun b => b))).
  { unfold dispatch. rewrite (proj2 (Z.eqb_neq (len (Data hd)) 0)) by lia. unfold dispatchOctetStrings.
    change (Group hd) with (GV_Group (f_gv f)). change (Variation hd) with (GV_Variation (f_gv f)). rewrite GV_eta.
    rewrite <- Hs at 1. rewrite <- Hs at 1. rewrite (proj2 (Z.eqb_neq (f_size f) 0)) by lia.
    destruct Hg as [Hg|[Hg|[]]]; rewrite Hg; cbn -[decodeRun prefix_len]; by rewrite app_nil_r. }
  rewrite Hdisp, S4. symmetry. rewrite (concat_singles (fun e => (f_gv f, EIndex e,
    ROctetString (appendOctetString [] (read h (EOctetString e)) (EVariation e))))); [done|].
  intros e He. rewrite Forall_forall in Hrun. destruct (Hrun e He) as [_ Egv]. unfold event_reports, event_reading. rewrite Egv.
  by destruct (Hev e He) as [-> | ->].
Qed.

(** Command events. *)
Lemma run_said_commands ctx ctxm d n :
  GV_Group (f_gv f) ∈ [13; 43] -> Lookup (f_gv f) = Some d -> SizeOctets d = Some n -> f_size f = n -> 
  (forall e, e ∈ run -> EType e = TypeBinaryCommandEvent \/ EType e = TypeAnalogCommandEvent) ->
  run_said ctx ctxm.
Proof.
  intros Hg Hd Hn Hs Hev. rewrite !elem_of_cons, elem_of_nil in Hg.
  assert (Hrow := Lookup_all _ _ _ command_rows Hd). unfold command_row in Hrow. cbn [fst snd] in Hrow. rewrite Hn in Hrow.
  assert (Hor : (GV_Group (f_gv f) =? 13) || (GV_Group (f_gv f) =? 43) = true) by (destruct Hg as [->|[->|[]]]; done).
  rewrite Hor in Hrow. cbn [negb orb] in Hrow. rewrite !andb_true_iff, !bool_decide_eq_true, !Z.ltb_lt in Hrow.
  destruct Hrow as ((((Hcs & Hss) & Hv1) & Hv2) & Hnn). cbn in Hss, Hnn. injection Hnn as Hnn. rewrite andb_true_iff, !Z.ltb_lt in Hnn.
  destruct (run_decodes (fun b => default CommandEvent0 (ParseCommandEvent (GV_Group (f_gv f)) (GV_Variation (f_gv f)) b)) RCommandEvent
    (fun e => RCommandEvent (reported_command (eventGroup (EType e)) (EVariation e) (command_of e))) ctx) as (S1 & S2 & S3 & S4); try done; try lia.
  { destruct Hg as [->|[->|[]]]; unfold octet_ok; lia. }
  { destruct Hg as [->|[->|[]]]; done. }
  { by rewrite Hs. }
  { intros e He. rewrite Forall_forall in Hrun. destruct (Hrun e He) as [(_ & _ & _ & Hok) Egv]. rewrite <- Egv in Hcs |- *.
    cbn [event_gv GV GV_Group GV_Variation] in Hcs |- *.
    assert (Hce : command_event_ok (eventGroup (EType e)) (command_of e)) by (by destruct (Hev e He) as [E|E]; rewrite E in Hok |- *).
    destruct (command_event_written _ (EVariation e) _ n Hce Hcs) as (o & Ho1 & Ho2 & Ho3 & Ho5).
    specialize (Ho5 []). rewrite app_nil_r in Ho5. exists o. rewrite Ho5. split; [|done]. split_and!; [|lia | done]. intros dst.
    rewrite <- Ho1. unfold encodeEvent, command_of. rewrite <- Egv. cbn [event_gv GV GV_Group GV_Variation].
    by destruct (Hev e He) as [-> | ->]. }
  split_and!; try done. set (hd := event_header h f ctx run) in *.
  assert (Hdisp : all_reports (dispatch k hd ctxm) = if isCommandEventHandler k then
    reports_of RCommandEvent (mkHeaderInfo (f_gv f) KindCommandEvent ClassNone) (decodeRun hd (f_size f) (prefix_len hd)
      (fun b => default CommandEvent0 (ParseCommandEvent (GV_Group (f_gv f)) (GV_Variation (f_gv f)) b))) else []).
  { unfold dispatch. rewrite (proj2 (Z.eqb_neq (len (Data hd)) 0)) by lia. unfold dispatchCommandEvents.
    change (Group hd) with (GV_Group (f_gv f)). change (Variation hd) with (GV_Variation (f_gv f)). rewrite GV_eta, Hcs, <- Hs.
    destruct (isCommandEventHandler k); [|by destruct Hg as [->|[->|[]]]].
    set (vals := decodeRun hd _ _ _). replace (0 <? len vals) with true.
    - destruct Hg as [->|[->|[]]]; cbn -[reports_of]; by rewrite app_nil_r.
    - specialize (S4 KindEvent ClassNone). fold vals in S4. apply (f_equal length) in S4. unfold reports_of in S4.
      rewrite !length_fmap in S4. symmetry. apply Z.ltb_lt. unfold len in *. lia. }
  rewrite Hdisp, S4. destruct (isCommandEventHandler k) eqn:Ek; symmetry.
  - rewrite (concat_singles (fun e => (f_gv f, EIndex e,
      RCommandEvent (reported_command (eventGroup (EType e)) (EVariation e) (command_of e))))); [done|].
    intros e He. rewrite Forall_forall in Hrun. destruct (Hrun e He) as [_ Egv]. unfold event_reports, event_reading. rewrite Egv, Ek.
    by destruct (Hev e He) as [-> | ->].
  - apply concat_empties. intros e He. unfold event_reports, event_reading. rewrite Ek. by destruct (Hev e He) as [-> | ->].
Qed.

(** Statistics: the master has no use for them. *)
Lemma run_said_statistics ctx ctxm d n :
  GV_Group (f_gv f) = 122 -> Lookup (f_gv f) = Some d -> SizeOctets d = Some n -> f_size f = n ->
  (forall e, e ∈ run -> EType e = TypeSecurityStatistic) ->
  run_said ctx ctxm.
Proof.
  intros Hg Hd Hn Hs Hev.
  assert (Hrow := Lookup_all _ _ _ statistic_rows Hd). unfold statistic_row in Hrow. cbn [fst snd] in Hrow.
  rewrite Hg, Hn in Hrow. cbn [Z.eqb Pos.eqb negb orb] in Hrow.
  rewrite !andb_true_iff, orb_true_iff, !bool_decide_eq_true in Hrow. destruct Hrow as [[Hv Hz] Hu]. cbn in Hz.
  set (o := fun e => ([Online; 0; 0] ++ le32 (ESecurityStatistic e)) ++
    if GV_Variation (f_gv f) =? 2 then appendTime48 [] (TimeToDNP3 (TTime (ETime e))) else []).
  destruct (run_decodes (fun _ => NoTime) (fun _ => ROctetString []) (fun _ => ROctetString []) ctx)
    as (S1 & S2 & S3 & _); try done; try (destruct Hv as [[Hv1 Hv2]|[Hv1 Hv2]]; injection Hv2 as Hv2; lia).
  { rewrite Hg. unfold octet_ok. lia. }
  { by rewrite Hg. }
  { by rewrite Hg, Hs. }
  { intros e He. exists (o e). split; [|done]. split_and!.
    - intros dst. unfold encodeEvent, o. rewrite (Hev e He). unfold AppendTime48.
      destruct (_ =? 2); rewrite ?app_nil_r, <- ?app_assoc; [|done]. by rewrite appendTime48_dst, <- !app_assoc.
    - unfold o. rewrite !len_app. destruct Hv as [[-> Hv]|[-> Hv]]; injection Hv as ->; cbn [Z.eqb Pos.eqb];
        rewrite ?len_appendTime48, len_le_bytes, Hs; done.
    - unfold o. rewrite !octets_ok_app. split_and!; [vm_compute; repeat constructor; congruence | apply le_bytes_ok|].
      destruct (_ =? 2); [apply appendTime48_ok | apply octets_ok_nil]. }
  split_and!; try done. rewrite concat_empties.
  - unfold dispatch. set (hd := event_header h f ctx run) in *. rewrite (proj2 (Z.eqb_neq (len (Data hd)) 0)) by lia.
    change (Group hd) with (GV_Group (f_gv f)). change (Variation hd) with (GV_Variation (f_gv f)). rewrite GV_eta, Hg.
    cbn -[Lookup]. rewrite Hd. by rewrite bool_decide_eq_true_2.
  - intros e He. unfold event_reports, event_reading. by rewrite (Hev e He).
Qed.

Lemma run_said_any pt ctx ctxm :
  (forall e, e ∈ run -> EType e = pt) -> pt <> TypeDataset -> eventGroup pt = GV_Group (f_gv f) ->
  octet_ok (GV_Variation (f_gv f)) -> event_size (f_gv f) pt = (f_size f, f_relative f) -> 0 < f_size f ->
  (f_relative f = true -> HasCTO ctx = HasCTO ctxm /\ CTO ctx = CTO ctxm) ->
  run_said ctx ctxm.
Proof.
  intros Hpt Hds Hg Hv Hsz Hs Hrel.
  assert (Hev : forall e, e ∈ run -> event_ok h e /\ event_gv e = f_gv f /\ EType e = pt).
  { intros e He. rewrite Forall_forall in Hrun. destruct (Hrun e He). auto. }
  destruct (decide (pt = TypeOctetString \/ pt = TypeVirtualTerminal)) as [Hstr|Hns].
  { apply run_said_strings.
    - rewrite <- Hg, !elem_of_cons. destruct Hstr as [-> | ->]; auto.
    - destruct Hstr as [-> | ->]; by injection Hsz.
    - destruct Hstr as [-> | ->]; injection Hsz as ? ?; unfold octet_ok in Hv; lia.
    - intros e He. by destruct (Hev e He) as (_ & _ & ->). }
  assert (Hd : exists d n, Lookup (f_gv f) = Some d /\ SizeOctets d = Some n /\ f_size f = n /\ times_agree d ctx ctxm).
  { assert (Hsz' : match Lookup (f_gv f) with Some d => (default 0 (SizeOctets d), RelativeTimed d) | None => (0, false) end
      = (f_size f, f_relative f)) by (destruct pt; try exact Hsz; exfalso; apply Hns; auto).
    destruct (Lookup (f_gv f)) as [d|]; [|injection Hsz' as E1 E2; lia]. injection Hsz' as H1 H2. exists d.
    destruct (SizeOctets d) as [n|]; [|cbn in H1; lia]. exists n. split_and!; try done.
    unfold times_agree. rewrite H2. destruct (f_relative f); auto. }
  destruct Hd as (d & n & Hd & Hn & Hfn & Ht). clear Hsz Hrel.
  assert (Hok : forall e, e ∈ run -> event_ok h e /\ EType e = pt) by (intros e He; destruct (Hev e He); intuition).
  clear Hev. destruct pt; try done; try (exfalso; apply Hns; by auto).
  - exfalso. assert (Hz := Lookup_all (fun e => negb (e.1.1 =? 0)) (f_gv f) d ltac:(vm_compute; reflexivity) Hd).
    cbn [fst] in Hz. by rewrite <- Hg in Hz.
  - served_run served_binary Hd Hn Hfn Ht Hok Hg.
  - served_run served_doubleBit Hd Hn Hfn Ht Hok Hg.
  - served_run served_counter Hd Hn Hfn Ht Hok Hg.
  - served_run served_frozenCounter Hd Hn Hfn Ht Hok Hg.
  - served_run served_analog Hd Hn Hfn Ht Hok Hg.
  - served_run served_binaryOutput Hd Hn Hfn Ht Hok Hg.
  - served_run served_analogOutput Hd Hn Hfn Ht Hok Hg.
  - apply (run_said_commands ctx ctxm d n); try done; [rewrite <- Hg, !elem_of_cons; auto|]; intros e He; left; by apply Hok.
  - apply (run_said_commands ctx ctxm d n); try done; [rewrite <- Hg, !elem_of_cons; auto|]; intros e He; right; by apply Hok.
  - served_run served_frozenAnalog Hd Hn Hfn Ht Hok Hg.
  - apply (run_said_statistics ctx ctxm d n); try done; intros e He; by apply Hok.
Qed.
End Run.

(** ** The common time of occurrence *)

(** Times a 48-bit count of milliseconds can say. *)
Definition whole_ms (t : Z) : Prop := exists ms, t = ms * 1000000 /\ 0 <= ms <= MaxDNP3Time.

Lemma truncate_whole t : 0 <= UnixMilli t <= MaxDNP3Time -> whole_ms (truncate_ms t).
Proof. intros H. exists (UnixMilli t). split; [done | exact H]. Qed.

Lemma whole_roundtrip t q : whole_ms t -> TTime (ParseTime48 (AppendTime48 [] (mkTimestamp t q))) = t.
Proof.
  intros (ms & -> & Hms). unfold AppendTime48. rewrite ParseTime48_read. cbn [TTime].
  assert (UnixMilli (ms * 1000000) = ms) as E by (unfold UnixMilli; apply Z.div_mul; lia).
  unfold TimeToDNP3. rewrite E. destruct (Z.ltb_spec ms 0); [lia|]. destruct (Z.ltb_spec MaxDNP3Time ms); [lia|].
  apply DNP3ToTime_land. lia.
Qed.

Lemma cto_sound osync base : let hd := ctoHeader osync base in
  sound hd /\ ObjectHeader_Size hd = 10 /\ len (Data hd) = 6 /\ Group hd = 51.
Proof.
  intros hd. assert (Hl : len (Data hd) = 6) by (cbn; apply len_appendTime48).
  assert (Ho : octets_ok (Data hd)) by (cbn -[appendTime48]; apply appendTime48_ok).
  split_and!; try done. unfold sound, object_ok. split_and!; try done.
  - unfold octet_ok. cbn. destruct osync; lia.
  - unfold objectDataLen. rewrite Hl. cbn -[SpecSizer Data]. unfold checkFits. rewrite Hl. by destruct osync.
Qed.

(** The context a master reads a run of relative events in. *)
Definition event_context (sync osync : bool) (base : Z) : Context := mkContext sync base true osync.

Lemma cto_context ctx osync base : whole_ms base ->
  next_context ctx (ctoHeader osync base) = event_context (Synchronized ctx) osync base.
Proof.
  intros Hb. unfold next_context. destruct (cto_sound osync base) as (_ & _ & Hl & Hg). rewrite Hg, Hl. cbn -[ParseTime48 AppendTime48].
  unfold WithGroup51, WithCTO, event_context. cbn -[ParseTime48 AppendTime48]. rewrite whole_roundtrip by done. by destruct osync.
Qed.

(** An event whose time is not relative reads the same whatever the common time is. *)
Lemma event_reports_ctx k h ctx ctx' e :
  relative_event e = false -> Synchronized ctx = Synchronized ctx' -> event_reports k h ctx e = event_reports k h ctx' e.
Proof.
  intros Hr Hs. unfold event_reports, event_reading, relative_event, event_size in *.
  assert (Hx : forall V (rep : Descriptor -> Context -> measurement V -> measurement V) m,
    (EType e <> TypeOctetString -> EType e <> TypeVirtualTerminal -> forall d, RelativeTimed d = false -> rep d ctx m = rep d ctx' m) ->
    EType e <> TypeOctetString -> EType e <> TypeVirtualTerminal ->
    expressed rep (event_gv e) ctx m = expressed rep (event_gv e) ctx' m).
  { intros V rep m H H1 H2. unfold expressed. destruct (EType e); try done; destruct (Lookup (event_gv e)) as [d|]; try done; by apply H. }
  destruct (EType e) eqn:E; try done; rewrite Hx; try done; intros _ _ d Hd.
  all: unfold reported_binary, reported_doubleBit, reported_counter, reported_analog; by rewrite (reported_time_ctx d ctx ctx').
Qed.

(** ** The loops *)

(** An event read against a base: if its time is relative, the base is a whole number of
    milliseconds and the offset fits. *)
Definition based (base : Z) (e : Event) : Prop :=
  relative_event e = true -> whole_ms base /\ in_window base e = true.

Section Loops.
Context {W : Type} (appl_Now : W -> W * Z) (osync : bool) (h : list (list Z)).
Context (k : HandlerKind) (sync : bool).
Hypothesis Hnow : forall w, 0 <= UnixMilli (appl_Now w).2 <= MaxDNP3Time.

(** What the events say, each against its base. *)
Definition events_said (bases : list Z) (es : list Event) : list report :=
  concat (zip_with (fun base e => event_reports k h (event_context sync osync base) e) bases es).

Lemma events_said_app bases1 bases2 es1 es2 : length bases1 = length es1 ->
  events_said (bases1 ++ bases2) (es1 ++ es2) = events_said bases1 es1 ++ events_said bases2 es2.
Proof. intros H. unfold events_said. by rewrite zip_with_app, concat_app. Qed.

Lemma events_said_one base es :
  events_said (replicate (length es) base) es = concat (event_reports k h (event_context sync osync base) <$> es).
Proof. unfold events_said. f_equal. induction es as [|e es IH]; [done|]. cbn. by rewrite IH. Qed.

(** An event with a time is within the window of its own base. *)
Lemma own_base e : event_ok h e -> Timestamp_IsValid (ETime e) = true ->
  in_window (truncate_ms (TTime (ETime e))) e = true.
Proof.
  intros (_ & _ & Ht & _) Hv. specialize (Ht Hv). unfold in_window. rewrite Hv. cbn [negb orb].
  unfold truncate_ms, UnixMilli, time_Sub, Milliseconds in *. set (t := TTime (ETime e)) in *.
  assert (Hd : 0 <= t - t / 1000000 * 1000000 < 1000000) by (Z.div_mod_to_equations; lia).
  rewrite Z.min_r, Z.max_r, Z.quot_small by (cbn; lia). done.
Qed.

Lemma within_prefix_spec base es :
  0 <= within_prefix base es <= len es /\ Forall (fun e => in_window base e = true) (take (Z.to_nat (within_prefix base es)) es).
Proof.
  induction es as [|e es [IH1 IH2]]; [split; [done | constructor]|]. cbn [within_prefix]. rewrite len_cons.
  destruct (in_window base e) eqn:E; [|split; [pose proof (len_nonneg es); lia | constructor]].
  split; [lia|]. replace (Z.to_nat (1 + _)) with (S (Z.to_nat (within_prefix base es))) by lia. by constructor.
Qed.

Lemma events_within e es base : in_window base e = true ->
  let n := eventsWithinWindow (e :: es) base in
  1 <= n <= len (e :: es) /\ Forall (fun e => in_window base e = true) (take (Z.to_nat n) (e :: es)).
Proof.
  intros He n. destruct (within_prefix_spec base (e :: es)) as [H1 H2]. subst n. unfold eventsWithinWindow.
  assert (Hp : 1 <= within_prefix base (e :: es)).
  { cbn [within_prefix]. rewrite He. destruct (within_prefix_spec base es). lia. }
  destruct (Z.ltb_spec (within_prefix base (e :: es)) (len (e :: es))).
  - rewrite Z.max_l by lia. split; [lia | done].
  - replace (len (e :: es)) with (within_prefix base (e :: es)) by lia. split; [lia | done].
Qed.

(** A run the loop works on. *)
Definition run_ok (f : runFormat) (pt : PointType) (run : list Event) : Prop :=
  format_ok f run /\ Forall (fun e => event_ok h e /\ event_gv e = f_gv f) run /\ (forall e, e ∈ run -> EType e = pt) /\
  pt <> TypeDataset /\ eventGroup pt = GV_Group (f_gv f) /\ octet_ok (GV_Variation (f_gv f)) /\
  event_size (f_gv f) pt = (f_size f, f_relative f) /\ 0 < f_size f.

Lemma run_ok_sub f pt run run' : run' ⊆ run -> run_ok f pt run -> run_ok f pt run'.
Proof.
  intros Hs (Hf & Hr & Ht & H). split_and!; try apply H.
  - destruct Hf as [(H1 & H2 & H3 & H4)|H1]; [left | by right]. split_and!; try done.
    rewrite Forall_forall in H4 |- *. auto.
  - rewrite Forall_forall in Hr |- *. auto.
  - auto.
Qed.

Lemma run_relative f pt run e : run_ok f pt run -> e ∈ run -> relative_event e = f_relative f.
Proof.
  intros (_ & Hr & Ht & _ & _ & _ & Hz & _) He. rewrite Forall_forall in Hr. destruct (Hr e He) as [_ Eg].
  unfold relative_event. by rewrite Eg, (Ht e He), Hz.
Qed.

Definition cto_size (f : runFormat) : Z := if f_relative f then 10 else 0.
Definition overhead (f : runFormat) : Z := ObjectHeaderSize + RangeSpec_Octets (f_spec f).

(** One header of events, with its common time if their times are relative. *)
Lemma event_block_adds f pt run b base ctx :
  run_ok f pt run -> 0 < len run <= f_maxCount f ->
  (f_relative f = true -> whole_ms base /\ Forall (fun e => in_window base e = true) run /\ ctx = WithCTO (b_ctx b) base) ->
  cto_size f + overhead f + len run * (plen f + f_size f) <= room b ->
  let b1 := if f_relative f then add b (ctoHeader osync base) else b in
  adds k sync b (add b1 (event_header h f ctx run)) (events_said (replicate (length run) base) run) /\
  Forall2 based (replicate (length run) base) run.
Proof.
  intros Hok Hl Hrel Hroom b1. pose proof Hok as (Hf & Hr & Ht & Hd & Hg & Hv & Hz & Hs). split.
  2:{ apply Forall2_replicate_l; [done|]. apply Forall_forall. intros e He Hre. rewrite (run_relative f pt run e Hok He) in Hre.
      destruct (Hrel Hre) as (Hw & Hin & _). rewrite Forall_forall in Hin. auto. }
  rewrite events_said_one. unfold b1. clear b1. set (hd := event_header h f ctx run).
  assert (Hg51 : Group hd <> 51) by (change (GV_Group (f_gv f) <> 51); rewrite <- Hg; destruct pt; cbn; lia).
  destruct (f_relative f) eqn:Er.
  - destruct (Hrel eq_refl) as (Hw & Hin & Hctx). destruct (cto_sound osync base) as (C1 & C2 & C3 & C4).
    destruct (run_said_any k h f run Hf Hl Hr pt ctx (event_context sync osync base)) as (S1 & S2 & S3); try done.
    1: by rewrite Er.
    { intros _. by rewrite Hctx. }
    apply (adds_block k sync [ctoHeader osync base; hd]).
    + apply Forall_cons. split; [done|]. by apply Forall_singleton.
    + unfold encode_objects. cbn [fmap list_fmap concat]. rewrite app_nil_r, len_app, !size_AppendObjectHeader, C2 by done.
      fold hd in S2. rewrite S2. unfold cto_size in Hroom. rewrite Er in Hroom. unfold overhead in Hroom. lia.
    + intros c Hc. cbn [deliver_objects]. pose proof (cto_context c osync base Hw) as Hx. unfold next_context in Hx.
      rewrite C4, C3 in Hx |- *. cbn [Z.eqb Pos.eqb] in Hx |- *.
      change (Time48Size <=? 6) with true in Hx |- *. cbn [andb] in Hx |- *.
      rewrite Hx, Hc. destruct (Z.eqb_spec (Group hd) 51); [done|]. cbn [andb]. by rewrite app_nil_r.
  - apply (adds_add k sync b hd).
    + destruct (run_said_any k h f run Hf Hl Hr pt ctx ctx) as (S1 & S2 & S3); try done; by rewrite Er.
    + destruct (run_said_any k h f run Hf Hl Hr pt ctx ctx) as (S1 & S2 & S3); try done; [by rewrite Er|]. fold hd in S2. rewrite S2.
      unfold cto_size, overhead, room in Hroom. rewrite Er in Hroom. pose proof (len_nonneg (cur b)). lia.
    + done.
    + intros c Hc. destruct (run_said_any k h f run Hf Hl Hr pt ctx c) as (_ & _ & S3); try done; [by rewrite Er | by rewrite Er|].
      fold hd in S3. rewrite S3. f_equal. apply list_fmap_ext. intros i e He. apply event_reports_ctx; [|done].
      rewrite (run_relative f pt run e Hok); [done | by eapply list_elem_of_lookup_2].
Qed.

Lemma eventBase_ok w e : event_ok h e ->
  whole_ms (eventBase appl_Now w e).2 /\ in_window (eventBase appl_Now w e).2 e = true.
Proof.
  intros He. unfold eventBase. destruct (Timestamp_IsValid (ETime e)) eqn:Ev; cbn [negb].
  - split; [|by apply own_base]. apply truncate_whole. by apply He.
  - specialize (Hnow w). destruct (appl_Now w) as [w' now]. split; [by apply truncate_whole|]. unfold in_window. by rewrite Ev.
Qed.

(** What any event needs: the header of the response, a common time, an object header with a
    two-octet count, an index, and the object. *)
Definition fits (max size : Z) : Prop := ResponseHeaderSize + 17 + size <= max.

Lemma format_need f run : format_ok f run -> 0 < plen f <= 2 /\ 0 <= cto_size f + overhead f <= 15 /\ 1 <= f_maxCount f /\ overhead f <= 5.
Proof.
  intros Hf. unfold plen, cto_size, overhead, ObjectHeaderSize. destruct Hf as [(-> & -> & -> & _)|(-> & -> & ->)];
    destruct (f_relative f); vm_compute; intuition congruence.
Qed.

Definition ran (f : runFormat) (b : responseBuilder) (run : list Event) (r : responseBuilder * W * list Event) : Prop :=
  exists sent bases, run = sent ++ r.2 /\ adds k sync b r.1.1 (events_said bases sent) /\ Forall2 based bases sent /\
    (r.2 = [] \/ ~ fits (b_max b) (f_size f)).

Lemma event_run_adds fuel f pt run b w :
  (length run <= fuel)%nat -> run_ok f pt run ->
  ran f b run (event_run appl_Now osync h fuel f run b w).
Proof.
  revert run b w. induction fuel as [|fuel IH]; intros run b w Hf Hok.
  { destruct run; [|cbn in Hf; lia]. exists [], []. split_and!; [done | apply adds_refl | constructor | by left]. }
  destruct run as [|e rest]; [exists [], []; split_and!; [done | apply adds_refl | constructor | by left]|].
  cbn [event_run]. set (run := e :: rest) in *. pose proof Hok as (Hfo & Hr & _ & _ & _ & _ & _ & Hs).
  destruct (format_need f run Hfo) as (Hp & Hn & Hmc & _).
  change (IndexPrefix_Octets (f_prefix f)) with (plen f). change (ObjectHeaderSize + RangeSpec_Octets (f_spec f)) with (overhead f).
  replace (if f_relative f then ObjectHeader_Size (ctoHeader osync zeroTime) else 0) with (cto_size f)
    by (unfold cto_size; by destruct (f_relative f); [destruct (cto_sound osync zeroTime) as (_ & -> & _)|]).
  replace (room b - cto_size f - overhead f) with (room b - (cto_size f + overhead f)) by lia.
  set (need := cto_size f + overhead f) in *. set (per := plen f + f_size f) in *. cbv zeta.
  destruct (Z.le_gt_cases (per + need) (b_max b - ResponseHeaderSize)) as [Hfit|Hno].
  - destruct (make_room k sync b need per) as (A1 & Hav & Hge & Hx & Hm); [lia | lia | done|].
    set (b1 := if room b - need <? per then flush b else b) in *.
    replace (if room b - need <? per then room b1 - cto_size f - overhead f else room b - need) with (room b1 - need)
      by (rewrite <- Hav; destruct (room b - need <? per); lia).
    rewrite Hav in Hge. clear Hav. destruct (Z.ltb_spec (room b1 - need) per); [lia|].
    set (n0 := Z.min (Z.min (Z.quot (room b1 - need) per) (len run)) (f_maxCount f)).
    assert (Hq : per * Z.quot (room b1 - need) per <= room b1 - need) by (apply Z.mul_quot_le; lia).
    assert (Hq1 : 1 <= Z.quot (room b1 - need) per) by (apply Z.quot_le_lower_bound; lia).
    assert (Hlr : 1 <= len run) by (unfold run; rewrite len_cons; pose proof (len_nonneg rest); lia).
    assert (Hn0 : 1 <= n0) by lia. rewrite Forall_forall in Hr.
    destruct (eventBase_ok w e) as [Hw Hin]; [apply Hr; unfold run; set_solver|].
    destruct (eventBase appl_Now w e) as [w1 base]. cbn [snd] in Hw, Hin.
    set (n := if f_relative f then Z.min n0 (eventsWithinWindow (take (Z.to_nat n0) run) base) else n0).
    assert (Htk : take (Z.to_nat n0) run = e :: take (Z.to_nat n0 - 1) rest).
    { unfold run. by replace (Z.to_nat n0) with (S (Z.to_nat n0 - 1)) at 1 by lia. }
    assert (Hwin : 1 <= n <= n0 /\ (f_relative f = true -> Forall (fun e => in_window base e = true) (take (Z.to_nat n) run))).
    { unfold n. destruct (f_relative f); [|lia]. rewrite Htk. destruct (events_within e (take (Z.to_nat n0 - 1) rest) base Hin) as [H1 H2].
      rewrite <- Htk in H1, H2 |- *. set (m := eventsWithinWindow _ base) in *. split; [lia|]. intros _.
      assert (len (take (Z.to_nat n0) run) = n0) as Hl by (unfold len in *; rewrite length_take; lia).
      rewrite take_take in H2. by replace (Z.to_nat m `min` Z.to_nat n0)%nat with (Z.to_nat (Z.min n0 m)) in H2 by lia. }
    destruct Hwin as [Hn1 Hwin].
    set (ctx := if f_relative f then WithCTO (b_ctx b1) base else b_ctx b1).
    set (b2 := if f_relative f then add b1 (ctoHeader osync base) else b1).
    set (w2 := if f_relative f then w1 else w).
    replace (if f_relative f then (add b1 (ctoHeader osync base), w1,
        Z.min n0 (eventsWithinWindow (take (Z.to_nat n0) run) base), WithCTO (b_ctx b1) base) else (b1, w, n0, b_ctx b1))
      with (b2, w2, n, ctx) by (unfold b2, w2, n, ctx; by destruct (f_relative f)).
    assert (Hlt : len (take (Z.to_nat n) run) = n) by (unfold len in *; rewrite length_take; lia).
    destruct (event_block_adds f pt (take (Z.to_nat n) run) b1 base ctx) as [A2 HB].
    { apply (run_ok_sub f pt run); [|done]. intros x Hi. rewrite <- (take_drop (Z.to_nat n) run). set_solver. }
    { rewrite Hlt. lia. }
    { intros Er. split_and!; [done | by apply Hwin|]. unfold ctx. by rewrite Er. }
    { rewrite Hlt. fold need per. nia. }
    fold b2 in A2. set (b3 := add b2 _) in *.
    destruct (IH (drop (Z.to_nat n) run) b3 w2) as (sent & bases & E & A3 & F & Hlost).
    { unfold run in *. rewrite length_drop. cbn [length] in *. lia. }
    { apply (run_ok_sub f pt run); [|done]. intros x Hi. rewrite <- (take_drop (Z.to_nat n) run). set_solver. }
    destruct (event_run _ _ _ fuel f (drop (Z.to_nat n) run) b3 w2) as [[b4 w4] lost]. cbn [fst snd] in *.
    exists (take (Z.to_nat n) run ++ sent), (replicate (length (take (Z.to_nat n) run)) base ++ bases). cbn [fst snd]. split_and!.
    + by rewrite <- app_assoc, <- E, take_drop.
    + rewrite events_said_app by apply length_replicate. change (events_said _ _ ++ ?x) with ([] ++ events_said
        (replicate (length (take (Z.to_nat n) run)) base) (take (Z.to_nat n) run) ++ x).
      eapply adds_trans; [exact A1|]. eapply adds_trans; [exact A2 | exact A3].
    + by apply Forall2_app.
    + destruct A2 as (E2 & _). rewrite E2, Hm in Hlost. done.
  - assert (Hlt : room b - need < per).
    { unfold room. pose proof (len_nonneg (cur b)). lia. }
    rewrite (proj2 (Z.ltb_lt (room b - need) per)) by done.
    assert (Hlt' : room (flush b) - cto_size f - overhead f < per).
    { unfold need in *. pose proof (len_nonneg (cur (flush b))). destruct (adds_flush k sync b) as (Hm & _). unfold room. rewrite Hm. lia. }
    rewrite (proj2 (Z.ltb_lt _ per)) by done. exists [], []. split_and!; [done | apply adds_flush | constructor|].
    right. unfold fits. cbn [fst snd]. lia.
Qed.

(** The events can be sent: there is an encoding, and it fits an empty fragment. *)
Definition sendable (max : Z) (e : Event) : Prop :=
  match EType e with
  | TypeDataset => len (EDataset e) <= MaxFreeFormatObject /\ ResponseHeaderSize + 6 + len (EDataset e) <= max
  | _ => 0 < (event_size (event_gv e) (EType e)).1 /\ fits max (event_size (event_gv e) (EType e)).1
  end.

Lemma split_run_spec g es : let '(run, rest) := split_run g es in
  es = run ++ rest /\ Forall (fun e => event_gv e = g) run.
Proof.
  induction es as [|e es IH]; [by cbn|]. cbn [split_run]. destruct (same_encoding g e) eqn:E; [|by split].
  destruct (split_run g es) as [run rest]. destruct IH as [-> IH]. split; [done|]. constructor; [|done].
  unfold same_encoding in E. rewrite andb_true_iff, !Z.eqb_eq in E. destruct E as [E1 E2], g as [a b]. cbn in *. by subst.
Qed.

Lemma dataset_adds b hd e :
  event_ok h e -> EType e = TypeDataset -> FreeFormat 88 1 (EDataset e) = Ok hd -> ObjectHeader_Size hd + ResponseHeaderSize <= b_max b ->
  adds k sync b (add b hd) (event_reports k h (event_context sync osync 0) e).
Proof.
  intros (_ & _ & _ & Ho) Ht Hf Hs. rewrite Ht in Ho.
  destruct (FreeFormat_roundtrip DefaultSizer true 88 1 (EDataset e) hd) as (Hso & Hobj & Hsz); [by unfold octet_ok | lia | done | done|].
  assert (Hgv : Group hd = 88 /\ Variation hd = 1 /\ 0 < len (Data hd)).
  { unfold FreeFormat in Hf. destruct (_ <? _); [done|]. injection Hf as <-. by split_and!. }
  destruct Hgv as (Hg & Hv & Hl). apply adds_add; [done | lia | lia|]. intros ctx _.
  unfold dispatch, dispatchDatasets, event_reports. rewrite Hg, Hv, Ht, (proj2 (Z.eqb_neq (len (Data hd)) 0)), Hobj by lia.
  by destruct (isDatasetHandler k).
Qed.

(** [l] is [sent] and [unsent], each in its order. *)
Inductive parts {A} : list A -> list A -> list A -> Prop :=
| parts_nil : parts [] [] []
| parts_sent x l s u : parts l s u -> parts (x :: l) (x :: s) u
| parts_unsent x l s u : parts l s u -> parts (x :: l) s (x :: u).

Lemma parts_app {A} (s1 u1 l s u : list A) : parts l s u -> parts (s1 ++ u1 ++ l) (s1 ++ s) (u1 ++ u).
Proof. intros H. induction s1; cbn; [|by constructor]. induction u1; cbn; [done | by constructor]. Qed.

Definition sent_of (max : Z) (b b' : responseBuilder) (events unsent : list Event) : Prop :=
  exists sent bases, parts events sent unsent /\ adds k sync b b' (events_said bases sent) /\
    Forall2 based bases sent /\ Forall (fun e => ~ sendable max e) unsent.

Lemma sent_of_cons max b b1 b' lost head sent bases rest unsent :
  head = sent ++ lost -> adds k sync b b1 (events_said bases sent) -> Forall2 based bases sent ->
  Forall (fun e => ~ sendable max e) lost -> sent_of max b1 b' rest unsent ->
  sent_of max b b' (head ++ rest) (lost ++ unsent).
Proof.
  intros -> A1 F1 L1 (s2 & b2 & P & A2 & F2 & L2). exists (sent ++ s2), (bases ++ b2). rewrite <- app_assoc. split_and!.
  - by apply parts_app.
  - rewrite events_said_app by (by eapply Forall2_length). by eapply adds_trans.
  - by apply Forall2_app.
  - by apply Forall_app.
Qed.

Lemma event_size_pos e size relative :
  event_ok h e -> event_size (event_gv e) (EType e) = (size, relative) -> size <> 0 -> 0 < size.
Proof.
  intros (_ & Hv & _) Hs Hn. unfold event_size in Hs. unfold octet_ok in Hv.
  assert (Hrow : forall d, Lookup (event_gv e) = Some d -> 0 <= default 0 (SizeOctets d)).
  { intros d Hd. assert (Hz := Lookup_all (fun e => 0 <=? default 0 (SizeOctets e.2)) _ d ltac:(vm_compute; reflexivity) Hd).
    by apply Z.leb_le in Hz. }
  destruct (EType e); try (injection Hs as <- _; cbn in Hn |- *; lia).
  all: destruct (Lookup (event_gv e)) as [d|]; [specialize (Hrow d eq_refl)|]; injection Hs as <- _; lia.
Qed.

Lemma event_loop_adds fuel es b w :
  (length es <= fuel)%nat -> Forall (event_ok h) es ->
  let '(b', _, unsent) := event_loop appl_Now osync h fuel es b w in sent_of (b_max b) b b' es unsent.
Proof.
  revert es b w. induction fuel as [|fuel IH]; intros es b w Hf Hok.
  { destruct es; [|cbn in Hf; lia]. exists [], []. split_and!; constructor; try done; split; [done|]. apply (adds_refl k sync b). }
  destruct es as [|e rest]; cbn [event_loop].
  { exists [], []. split_and!; [constructor | apply adds_refl | constructor | constructor]. }
  pose proof Hok as Hok'. apply Forall_cons in Hok' as [He Hrest].
  assert (Hunsent : forall b' w', ~ sendable (b_max b) e -> b_max b' = b_max b -> adds k sync b b' [] ->
    let '(b'', _, unsent) := event_loop appl_Now osync h fuel rest b' w' in sent_of (b_max b) b b'' (e :: rest) (e :: unsent)).
  { intros b' w' Hns Hm A. specialize (IH rest b' w' ltac:(cbn in Hf; lia) Hrest).
    destruct (event_loop _ _ _ fuel rest b' w') as [[b'' w''] unsent]. rewrite Hm in IH.
    apply (sent_of_cons _ _ b' b'' [e] [e] [] [] rest unsent); try done; constructor; done. }
  destruct (bool_decide_reflect (EType e = TypeDataset)) as [Ht|Ht].
  - destruct (FreeFormat 88 1 (EDataset e)) as [hd|err] eqn:Ef.
    2:{ specialize (Hunsent b w). unfold FreeFormat in Ef. destruct (Z.ltb_spec MaxFreeFormatObject (len (EDataset e))) as [Hlt|]; [|done].
        destruct (event_loop _ _ _ fuel rest b w) as [[b'' w''] unsent]. apply Hunsent; [|done | apply adds_refl].
        unfold sendable. rewrite Ht. lia. }
    pose proof (FreeFormat_roundtrip DefaultSizer true 88 1 _ hd ltac:(by unfold octet_ok) ltac:(lia)
      ltac:(destruct He as (_ & _ & _ & He); by rewrite Ht in He) Ef) as (_ & _ & Hsz).
    destruct (Z.leb_spec (ObjectHeader_Size hd + ResponseHeaderSize) (b_max b)) as [Hle|Hgt].
    + specialize (IH rest (add b hd) w ltac:(cbn in Hf; lia) Hrest).
      destruct (event_loop _ _ _ fuel rest (add b hd) w) as [[b'' w''] unsent]. rewrite (b_max_add k sync) in IH.
      apply (sent_of_cons _ _ (add b hd) b'' [] [e] [e] [0] rest unsent); try done; [|].
      * unfold events_said. cbn [zip_with concat]. rewrite app_nil_r. by apply dataset_adds.
      * constructor; [|constructor]. intros Hr. exfalso. revert Hr. unfold relative_event, event_size, event_gv. rewrite Ht.
        destruct (Lookup _) as [d|] eqn:El; [|done].
        assert (Hz := Lookup_all (fun e => negb (e.1.1 =? 88)) _ d ltac:(vm_compute; reflexivity) El). done.
    + specialize (Hunsent b w). destruct (event_loop _ _ _ fuel rest b w) as [[b'' w''] unsent].
      apply Hunsent; [|done | apply adds_refl]. unfold sendable. rewrite Ht. lia.
  - fold (event_gv e). destruct (event_size (event_gv e) (EType e)) as [size relative] eqn:Esz.
    assert (Hsend : sendable (b_max b) e <-> 0 < size /\ fits (b_max b) size) by (unfold sendable; rewrite Esz; by destruct (EType e)).
    destruct (Z.eqb_spec size 0) as [Hz|Hnz].
    { specialize (Hunsent b w). destruct (event_loop _ _ _ fuel rest b w) as [[b'' w''] unsent].
      apply Hunsent; [|done | apply adds_refl]. rewrite Hsend. lia. }
    pose proof (split_run_spec (event_gv e) (e :: rest)) as Hsp.
    assert (Hhead : exists r rest', split_run (event_gv e) (e :: rest) = (e :: r, rest')).
    { cbn [split_run]. unfold same_encoding. cbn [event_gv GV GV_Group GV_Variation]. rewrite !Z.eqb_refl. cbn [andb].
      destruct (split_run _ rest) as [r rest']. by exists r, rest'. }
    destruct Hhead as (r & rest' & Es). rewrite Es in Hsp |- *. destruct Hsp as [Eer Hgv]. set (run := e :: r) in *.
    set (f := run_format (event_gv e) size relative run).
    assert (Hff : f_gv f = event_gv e /\ f_size f = size /\ f_relative f = relative) by (unfold f, run_format; by destruct (existsb _ run)).
    destruct Hff as (Hf1 & Hf2 & Hf3). rewrite Eer in Hok. apply Forall_app in Hok as [Hokr Hok'].
    assert (Hrok : run_ok f (EType e) run).
    { split_and!; rewrite ?Hf1, ?Hf2, ?Hf3; try done; [apply run_format_ok | | | by destruct He as (_ & ? & _) | by eapply (event_size_pos e)].
      - rewrite Forall_forall in Hokr, Hgv |- *. auto.
      - intros x Hx. rewrite Forall_forall in Hgv. specialize (Hgv x Hx). apply eventGroup_inj. by injection Hgv. }
    destruct (event_run_adds (length run) f (EType e) run b w ltac:(lia) Hrok) as (sent & bases & Er & A & F & Hl).
    destruct (event_run _ _ _ (length run) f run b w) as [[b1 w1] lost]. cbn [fst snd] in *.
    specialize (IH rest' b1 w1). apply (f_equal length) in Eer as Elen. rewrite length_app in Elen. cbn [length run] in Elen, Hf.
    specialize (IH ltac:(lia) Hok'). destruct (event_loop _ _ _ fuel rest' b1 w1) as [[b2 w2] unsent].
    rewrite Eer. pose proof A as (Em & _). rewrite Em in IH. apply (sent_of_cons _ _ b1 b2 lost run sent bases rest' unsent); try done.
    destruct Hl as [-> | Hno]; [constructor|]. apply Forall_forall. intros x Hx. assert (Hxr : x ∈ run) by (rewrite Er; set_solver).
    destruct Hrok as (_ & _ & Hty & Hnd & _). rewrite Forall_forall in Hgv. unfold sendable.
    rewrite (Hty x Hxr), (Hgv x Hxr), Esz, <- Hf2. cbn [fst]. destruct (EType e); tauto.
Qed.
End Loops.

(** The time a relative event is read with is its own to within a millisecond. *)
Definition told_time (c : Context) (e : Event) : Prop :=
  relative_event e = true -> Timestamp_IsValid (ETime e) = true ->
  Z.abs (TTime (RelativeTime c (RelativeOffset c (ETime e))) - TTime (ETime e)) < 1000000.

Lemma based_time sync osync base e : based base e -> told_time (event_context sync osync base) e.
Proof.
  intros Hb Hr Hv. destruct (Hb Hr) as [_ Hw]. unfold in_window in Hw. rewrite Hv in Hw. cbn [negb orb] in Hw.
  unfold RelativeTime, RelativeOffset, event_context. cbn [HasCTO CTO CTOSynchronized]. rewrite Hv. cbn [negb orb].
  set (d := Milliseconds _) in *. rewrite andb_true_iff, !Z.leb_le in Hw.
  rewrite (proj2 (Z.ltb_ge d 0)), (proj2 (Z.ltb_ge 0xFFFF d)) by lia. cbn [TTime].
  unfold d, Milliseconds, time_Sub in *. set (x := TTime (ETime e) - base) in *. set (y := Z.max _ _) in *.
  pose proof (Z.quot_rem' y 1000000) as Hq. pose proof (Z.rem_bound_abs y 1000000 ltac:(lia)) as Hm.
  assert (y = x) by (unfold y in *; lia). lia.
Qed.

(** C10. The events reach the master.  Of the events handed to the builder, each ends up in exactly
    one of two lists, both in the order of the events: those that cannot be sent, because their
    variation has no encoding or their object does not fit an empty fragment, which come back
    to the caller; and those in the response, for each of which, in order, the master that
    parses the fragments is handed a report (where its handler takes one) with the index of
    the point and the event's value and flags as its variation expresses them.  A time told
    relative to a common time of occurrence is resolved against the one in the same fragment,
    and is the event's own to within a millisecond.  The response is within the limit. *)
Theorem events_reach_master {W} (appl_Now : W -> W * Z) osync k sync h w now hdr max ctx events :
  (forall w, 0 <= UnixMilli (appl_Now w).2 <= MaxDNP3Time) -> Forall (event_ok h) events ->
  ResponseHeaderSize <= max -> header_ok hdr -> Func hdr = FuncResponse ->
  let '(b, _, unsent) := buildEvents appl_Now osync h (newResponseBuilder max ctx) w events in
  exists sent bases, parts events sent unsent /\ Forall (fun e => ~ sendable max e) unsent /\
    concat ((fun body => all_reports (received k sync now hdr body)) <$> done b) =
      concat (zip_with (fun base => event_reports k h (event_context sync osync base)) bases sent) /\
    Forall2 (fun base => told_time (event_context sync osync base)) bases sent /\
    Forall (fun body => len body + ResponseHeaderSize <= max) (done b).
Proof.
  intros Hnow Hok Hm Hh Hf. assert (Hmax : b_max (newResponseBuilder max ctx) = max).
  { unfold newResponseBuilder, ResponseHeaderSize in *. cbn [b_max]. destruct (Z.leb_spec max 0); lia. }
  unfold buildEvents. pose proof (event_loop_adds appl_Now osync h k sync Hnow (length events) events (newResponseBuilder max ctx) w
    ltac:(lia) Hok) as H. destruct (event_loop _ _ _ _ _ _ w) as [[b w'] unsent].
  destruct H as (sent & bases & HP & A & HB & HU). rewrite Hmax in HU. exists sent, bases. pose proof A as (Em & _). rewrite Hmax in Em.
  destruct (adds_done k sync max ctx b _ now hdr Hh Hf A) as [H1 H2]; [rewrite Em; unfold ResponseHeaderSize in Hm; lia|].
  split_and!; try done.
  - eapply Forall2_impl; [exact HB|]. intros base e. apply based_time.
  - eapply Forall_impl; [exact H2|]. cbn. intros body. rewrite Em. lia.
Qed.

Lemma parts_skip {A} (x y : A) l s : parts (x :: l) s [y] -> x <> y -> exists s', s = x :: s' /\ parts l s' [y].
Proof. intros H Hn. inversion H; subst; [eauto | done]. Qed.
Lemma parts_last {A} (y : A) s : parts [y] s [y] -> s = [].
Proof. intros H. inversion H as [|? ? ? ? H'|? ? ? ? H']; subst; by inversion H'. Qed.

(** Two binary events 300 ms apart and one a day later, in variation 3: two common times. *)
Definition witness_event (t i : Z) (v : bool) : Event :=
  let m := mkMeasurement v Online (mkTimestamp t TimestampSynchronized) in
  mkEvent TypeBinary i 1 3 (Time m) m Counter0 Counter0 Counter0 [] 0 Analog0 Analog0 Binary0 Analog0 nil_slice 0 false f64_zero true 1.

Lemma events_reach_master_witness :
  let t := 1700000000000000000 in
  let events := [witness_event t 4 true; witness_event (t + 300000000) 300 false; witness_event (t + 86400000000000) 4 false;
                 with_class 2 (mkEvent TypeBinary 1 1 9 NoTime Binary0 Counter0 Counter0 Counter0 [] 0 Analog0 Analog0 Binary0
                   Analog0 nil_slice 0 false f64_zero true 2)] in
  let r := buildEvents (fun w : unit => (w, t)) true [] (newResponseBuilder 2048 (fragment_context true)) tt events in
  r.2 = drop 3 events /\
  exists bases, length bases = 3%nat /\
    concat ((fun body => all_reports (received (mkHandlerKind false false false) false 0
      (mkHeader (mkControl true true true false 3) FuncResponse 0) body)) <$> done r.1.1) =
    concat (zip_with (fun base => event_reports (mkHandlerKind false false false) [] (event_context false true base)) bases (take 3 events)) /\
    Forall2 (fun base => told_time (event_context false true base)) bases (take 3 events).
Proof.
  intros t events r. assert (Hr : r.2 = drop 3 events) by (vm_compute; reflexivity). split; [exact Hr|].
  pose proof (events_reach_master (fun w : unit => (w, t)) true (mkHandlerKind false false false) false [] tt 0
    (mkHeader (mkControl true true true false 3) FuncResponse 0) 2048 (fragment_context true) events) as H.
  fold r in H. destruct r as [[b w] unsent]. cbn [fst snd] in *. subst unsent.
  destruct H as (sent & bases & HP & _ & H1 & H2 & _).
  - intros _. vm_compute. split; congruence.
  - repeat (apply Forall_cons; split); [vm_compute; intuition congruence .. | apply Forall_nil; exact I].
  - vm_compute. congruence.
  - vm_compute. intuition congruence.
  - reflexivity.
  - assert (sent = take 3 events) as ->.
    { clear -HP. cbn [drop events] in HP. cbn [take events].
      apply parts_skip in HP as (s1 & -> & HP); [|discriminate]. apply parts_skip in HP as (s2 & -> & HP); [|discriminate].
      apply parts_skip in HP as (s3 & -> & HP); [|discriminate]. apply parts_last in HP as ->. reflexivity. }
    exists bases. split; [by rewrite (Forall2_length _ _ _ H2)|]. split; [exact H1 | exact H2].
Defined.
