(* ===== verification/Crypto.v ===== *)
(** * Primitives of secure authentication (src/internal/security/crypto.go)

    The message authentication code and the key wrap of RFC 3394.  The hash and the block
    cipher come from the standard library of the language and are parameters; of the cipher
    the proofs use that it keeps the length of a block and that decryption undoes encryption.

    The theorem: unwrapping a wrapped key gives the key back ([Unwrap_Wrap]). *)

From S2P Require Import Prelude.

(** [binary.BigEndian] *)
Definition be64 (x : Z) : list Z := rev (le64 x).
Definition be_val (l : list Z) : Z := le_val (rev l).

Inductive CryptoErr := ErrAuthentication | ErrCipher.

(** [copy(out[off:off+len(v)], v)]. *)
Definition copy_at (off : Z) (v l : list Z) : list Z :=
  take (Z.to_nat off) l ++ v ++ drop (Z.to_nat off + length v) l.

Section Crypto.
Context (hmac_sha256 : list Z -> list Z -> list Z).
(** [aes.NewCipher]: the encryption and the decryption of a block under a key. *)
Context (aes_NewCipher : list Z -> option ((list Z -> list Z) * (list Z -> list Z))).

Definition MAC (key : list Z) (parts : list (list Z)) : list Z := take 16 (hmac_sha256 key (concat parts)).

Definition wrap_iv : list Z := replicate 8 0xa6.

(** One turn of the loops: [t] is the counter [n*j+i]. *)
Definition wrap_step (encrypt : list Z -> list Z) (out : list Z) (ti : Z * Z) : list Z :=
  let '(t, i) := ti in
  let b := encrypt (slice 0 8 out ++ slice (8 * i) (8 * i + 8) out) in
  copy_at (8 * i) (slice 8 16 b) (copy_at 0 (be64 (Z.lxor (be_val (slice 0 8 b)) (u64 t))) out).
Definition unwrap_step (decrypt : list Z -> list Z) (out : list Z) (ti : Z * Z) : list Z :=
  let '(t, i) := ti in
  let b := decrypt (be64 (Z.lxor (be_val (slice 0 8 out)) (u64 t)) ++ slice (8 * i) (8 * i + 8) out) in
  copy_at (8 * i) (slice 8 16 b) (copy_at 0 (slice 0 8 b) out).

(** The turns, in the order of [Wrap]; [Unwrap] takes them backwards. *)
Definition wrap_turns (n : Z) : list (Z * Z) :=
  j ← seqZ 0 6; i ← seqZ 1 n; mret (n * j + i, i).

Definition Wrap (key plaintext : list Z) : result CryptoErr (list Z) :=
  if (len plaintext <? 16) || negb (len plaintext mod 8 =? 0) then Err ErrAuthentication
  else
    match aes_NewCipher key with
    | None => Err ErrCipher
    | Some (encrypt, _) => Ok (fold_left (wrap_step encrypt) (wrap_turns (len plaintext / 8)) (wrap_iv ++ plaintext))
    end.

Definition Unwrap (key wrapped : list Z) : result CryptoErr (list Z) :=
  if (len wrapped <? 24) || negb (len wrapped mod 8 =? 0) then Err ErrAuthentication
  else
    match aes_NewCipher key with
    | None => Err ErrCipher
    | Some (_, decrypt) =>
        let out := fold_left (unwrap_step decrypt) (rev (wrap_turns (len wrapped / 8 - 1))) wrapped in
        if bool_decide (slice 0 8 out = wrap_iv) then Ok (drop 8 out) else Err ErrAuthentication
    end.
End Crypto.

(** ** The round trip *)

Lemma be64_val l : octets_ok l -> length l = 8%nat -> be64 (be_val l) = l.
Proof.
  intros Ho Hl. unfold be64, be_val. rewrite le_bytes_val; [apply rev_involutive | | by rewrite length_rev].
  unfold octets_ok in *. by apply Forall_rev.
Qed.
Lemma length_be64 x : length (be64 x) = 8%nat.
Proof. unfold be64. by rewrite length_rev, length_le_bytes. Qed.
Lemma be64_ok x : octets_ok (be64 x).
Proof. unfold be64, octets_ok. apply Forall_rev. apply le_bytes_ok. Qed.
Lemma be_val_64 x : 0 <= x < 2 ^ 64 -> be_val (be64 x) = x.
Proof.
  intros Hx. unfold be_val, be64. rewrite rev_involutive, le_val_bytes. apply Z.mod_small.
  change (256 ^ Z.of_nat 8) with (2 ^ 64). lia.
Qed.
Lemma be_val_bound l : octets_ok l -> length l = 8%nat -> 0 <= be_val l < 2 ^ 64.
Proof.
  intros Ho Hl. unfold be_val. assert (H : octets_ok (rev l)) by (by apply Forall_rev).
  apply le_val_bound in H. unfold len in H. rewrite length_rev, Hl in H. exact H.
Qed.

Lemma lxor_bound_64 a b : 0 <= a < 2 ^ 64 -> 0 <= b < 2 ^ 64 -> 0 <= Z.lxor a b < 2 ^ 64.
Proof.
  intros [Ha Ha'] [Hb Hb']. assert (Hn : 0 <= Z.lxor a b) by (apply Z.lxor_nonneg; tauto). split; [done|].
  destruct (Z.eq_dec (Z.lxor a b) 0) as [->|Hz]; [done|]. apply Z.log2_lt_pow2; [lia|].
  eapply Z.le_lt_trans; [by apply Z.log2_lxor|].
  apply Z.max_lub_lt; [destruct (Z.eq_dec a 0) as [->|]|destruct (Z.eq_dec b 0) as [->|]]; try (cbn; lia);
    apply Z.log2_lt_pow2; lia.
Qed.

Section RoundTrip.
Context (encrypt decrypt : list Z -> list Z).
Definition block_ok (b : list Z) : Prop := octets_ok b /\ length b = 16%nat.
Hypothesis (Henc : forall b, block_ok b -> block_ok (encrypt b)).
Hypothesis (Hdec : forall b, block_ok b -> decrypt (encrypt b) = b).

(** A text of [n] blocks of eight octets, after the register. *)
Definition text_ok (n : Z) (out : list Z) : Prop := octets_ok out /\ len out = 8 * (n + 1).

Lemma split_text n i out :
  text_ok n out -> 1 <= i <= n ->
  exists a m b z, out = a ++ m ++ b ++ z /\ length a = 8%nat /\ length b = 8%nat /\ len m = 8 * i - 8.
Proof.
  intros [_ Hl] Hi. unfold len in Hl.
  exists (take 8 out), (take (Z.to_nat (8 * i - 8)) (drop 8 out)),
    (take 8 (drop (Z.to_nat (8 * i)) out)), (drop 8 (drop (Z.to_nat (8 * i)) out)). split_and!.
  - rewrite take_drop. replace (drop (Z.to_nat (8 * i)) out) with (drop (Z.to_nat (8 * i - 8)) (drop 8 out)).
    + by rewrite take_drop, take_drop.
    + rewrite drop_drop. f_equal. lia.
  - rewrite length_take. lia.
  - rewrite length_take, length_drop. lia.
  - unfold len. rewrite length_take, length_drop. lia.
Qed.

(** The fields of such a text, and the copies into them. *)
Lemma copy_first v a r : length v = length a -> copy_at 0 v (a ++ r) = v ++ r.
Proof. intros Hv. unfold copy_at. rewrite Hv. cbn [Z.to_nat take app]. by rewrite Nat.add_0_l, drop_app_length. Qed.
Lemma copy_block v a m b z i :
  length a = 8%nat -> len m = 8 * i - 8 -> length b = 8%nat -> length v = 8%nat ->
  copy_at (8 * i) v (a ++ m ++ b ++ z) = a ++ m ++ v ++ z.
Proof.
  intros Ha Hm Hb Hv. unfold copy_at, len in *. rewrite !(app_assoc a m).
  assert (Hi : Z.to_nat (8 * i) = length (a ++ m)) by (rewrite length_app; lia).
  rewrite Hi, take_app_length, Hv. f_equal. f_equal.
  rewrite <- drop_drop, drop_app_length. by rewrite <- Hb, drop_app_length.
Qed.
Lemma slice_wrapped_block (a m b z : list Z) i :
  length a = 8%nat -> len m = 8 * i - 8 -> length b = 8%nat -> slice (8 * i) (8 * i + 8) (a ++ m ++ b ++ z) = b.
Proof. intros Ha Hm Hb. rewrite app_assoc. apply slice_mid; unfold len in *; rewrite ?length_app; lia. Qed.
Lemma slice_register (a r : list Z) : length a = 8%nat -> slice 0 8 (a ++ r) = a.
Proof. intros Ha. apply slice_front. unfold len. lia. Qed.

Lemma halves b : block_ok b -> length (slice 0 8 b) = 8%nat /\ length (slice 8 16 b) = 8%nat /\
  slice 0 8 b ++ slice 8 16 b = b /\ octets_ok (slice 0 8 b) /\ octets_ok (slice 8 16 b).
Proof.
  intros [Ho Hl]. split_and!; [apply length_slice; unfold len; lia | apply length_slice; unfold len; lia | | auto with dnp3..].
  unfold slice. norm_nat. rewrite drop_0. change (Z.to_nat (8 - 0)) with 8%nat. change (Z.to_nat (16 - 8)) with 8%nat.
  rewrite (take_ge (drop 8 b)) by (rewrite length_drop; lia). apply take_drop.
Qed.

Lemma unwrap_wrap_step n t i out :
  text_ok n out -> 1 <= i <= n ->
  text_ok n (wrap_step encrypt out (t, i)) /\ unwrap_step decrypt (wrap_step encrypt out (t, i)) (t, i) = out.
Proof.
  intros Ht Hi. destruct (split_text n i out Ht Hi) as (a & m & b & z & -> & Ha & Hb & Hm). destruct Ht as [Ho Hl].
  apply octets_ok_app in Ho as [Hoa Ho]. apply octets_ok_app in Ho as [Hom Ho]. apply octets_ok_app in Ho as [Hob Hoz].
  cbn [wrap_step]. rewrite slice_register, slice_wrapped_block by done.
  assert (Hblk : block_ok (a ++ b)) by (split; [by apply octets_ok_app | rewrite length_app; lia]).
  pose proof (Henc _ Hblk) as He. destruct (halves _ He) as (H1 & H2 & H3 & H4 & H5).
  set (c := slice 0 8 (encrypt (a ++ b))) in *. set (d := slice 8 16 (encrypt (a ++ b))) in *.
  set (x := Z.lxor (be_val c) (u64 t)).
  assert (Hx : 0 <= x < 2 ^ 64) by (apply lxor_bound_64; [by apply be_val_bound | unfold u64; apply Z.mod_pos_bound; lia]).
  rewrite copy_first by (by rewrite length_be64). rewrite copy_block by (done || apply length_be64). split.
  { split; [rewrite !octets_ok_app; pose proof (be64_ok x); tauto|]. unfold len in *. rewrite !length_app in *. rewrite length_be64. lia. }
  cbn [unwrap_step]. rewrite slice_register, slice_wrapped_block by (done || apply length_be64). rewrite be_val_64 by done.
  unfold x. rewrite Z.lxor_assoc, Z.lxor_nilpotent, Z.lxor_0_r, be64_val by done. fold x. rewrite H3, Hdec by done.
  rewrite slice_register by done. replace (slice 8 16 (a ++ b)) with b.
  2:{ symmetry. rewrite <- (app_nil_r b) at 1. apply (slice_mid a b []); unfold len; lia. }
  rewrite copy_first by (by rewrite length_be64). by rewrite copy_block.
Qed.

Lemma unwrap_wrap_turns n turns out :
  text_ok n out -> Forall (fun ti : Z * Z => 1 <= ti.2 <= n) turns ->
  text_ok n (fold_left (wrap_step encrypt) turns out) /\
  fold_left (unwrap_step decrypt) (rev turns) (fold_left (wrap_step encrypt) turns out) = out.
Proof.
  intros Ht Hi. revert out Ht. induction Hi as [|[t i] turns Hi _ IH]; intros out Ht; [done|].
  cbn [fold_left rev]. destruct (unwrap_wrap_step n t i out Ht Hi) as [Ht' Hs]. destruct (IH _ Ht') as [Hf Hr].
  split; [done|]. rewrite fold_left_app, Hr. exact Hs.
Qed.
End RoundTrip.

Lemma wrap_turns_ok n : Forall (fun ti : Z * Z => 1 <= ti.2 <= n) (wrap_turns n).
Proof.
  apply List.Forall_forall. intros [t i] H. apply list_elem_of_In in H. unfold wrap_turns in H.
  apply list_elem_of_bind in H as (j & H & _). apply list_elem_of_bind in H as (i' & H & Hi).
  apply list_elem_of_ret in H. injection H as -> ->. apply elem_of_seqZ in Hi. cbn. lia.
Qed.

(** A key wrapped under an update key is what unwrapping it under the same key gives,
    whatever the block cipher, as long as its decryption undoes its encryption. *)
Theorem Unwrap_Wrap aes_NewCipher key plaintext encrypt decrypt wrapped :
  aes_NewCipher key = Some (encrypt, decrypt) ->
  (forall b, block_ok b -> block_ok (encrypt b)) -> (forall b, block_ok b -> decrypt (encrypt b) = b) ->
  octets_ok plaintext ->
  Wrap aes_NewCipher key plaintext = Ok wrapped -> Unwrap aes_NewCipher key wrapped = Ok plaintext.
Proof.
  intros Hk He Hd Ho. unfold Wrap, Unwrap. destruct (_ || _) eqn:Ec; [done|]. bool_prop. rewrite Hk.
  intros Hw. set (n := len plaintext / 8). assert (Hn : len plaintext = 8 * n) by (pose proof (Z.div_mod (len plaintext) 8); unfold n; lia).
  assert (Ht : text_ok n (wrap_iv ++ plaintext)).
  { split; [apply octets_ok_app; split; [by vm_compute; repeat constructor | done] | rewrite len_app; change (len wrap_iv) with 8; lia]. }
  destruct (unwrap_wrap_turns encrypt decrypt He Hd n (wrap_turns n) _ Ht (wrap_turns_ok n)) as [[Ho' Hl'] Hr].
  fold n in Hw. set (w := fold_left (wrap_step encrypt) (wrap_turns n) (wrap_iv ++ plaintext)) in *.
  assert (wrapped = w) as -> by congruence. clear Hw.
  replace (len w <? 24) with false by lia. replace (len w mod 8 =? 0) with true by (rewrite Hl', Z.mul_comm, Z.mod_mul; done). cbn [negb orb].
  replace (len w / 8 - 1) with n by (rewrite Hl', Z.mul_comm, Z.div_mul; lia).
  cbv zeta. rewrite Hr.
  rewrite slice_register by done. rewrite bool_decide_eq_true_2 by done. done.
Qed.

(** A cipher that turns blocks around, and a key of sixteen octets. *)
Lemma Unwrap_Wrap_witness :
  let aes := fun _ : list Z => Some (@rev Z, @rev Z) in
  let key := seqZ 1 16 in
  exists wrapped, Wrap aes [] key = Ok wrapped /\ len wrapped = 24 /\ Unwrap aes [] wrapped = Ok key.
Proof.
  intros aes key. eexists. split; [vm_compute; reflexivity|]. split; [reflexivity|].
  apply (Unwrap_Wrap aes [] key (@rev Z) (@rev Z)).
  - reflexivity.
  - intros b [Ho Hl]. split; [unfold octets_ok in *; by apply Forall_rev | by rewrite length_rev].
  - intros b _. apply rev_involutive.
  - unfold key, octets_ok. apply List.Forall_forall. intros x Hx. apply list_elem_of_In, elem_of_seqZ in Hx.
    unfold octet_ok. lia.
  - vm_compute. reflexivity.
Defined.
