(* ===== verification/OutstationState.v ===== *)
(** * The state of an outstation session (src/outstation/session.go)

    The configuration and the state of [Session], what it asks of the world around it, and
    the monad its handlers are written in.

    - [Environment]: the application (its clock, its restart and file operations, the
      callbacks of the configuration), the host's clock and random source, and the
      cryptographic primitives; all of them parameters.
    - [M]: a computation on the session, the application, the host and the wire.  The ghost
      component [sent] lists the fragments the stack took for transmission.

    [by_parts] proves of a handler what [guarantees] states, operation by operation. *)

From stdpp Require Import gmap.
From S2P Require Import Prelude StateMonad Stack LinkLayer Values Floats AppHeader AppObject AppFragment Objects FileObjects ExtObjects.
From S2P Require Import EventBuffer Database ExtendedDatabase Commands.

(** ** The world around a session *)

(** What a session needs of the application and of the host.  [RestartSupport] is an optional
    interface of the application; [Reader] and [Writer] are what a file handler returns. *)
Class Environment := {
  App : Type;
  Host : Type;
  appl_Now : App -> App * Z;
  WriteAbsoluteTime : App -> Z -> App * bool;
  ColdRestart : App -> App * Z;
  WarmRestart : App -> App * Z;
  SupportsWriteTime : App -> App * bool;
  RestartSupport : option ((App -> App * bool) * (App -> App * bool));
  cmds : CommandHandler App;
  Reader : Type;
  Writer : Type;
  reader_Read : App -> Reader -> Z -> App * (list Z * option ReadErr);
  reader_Close : App -> Reader -> App * bool;
  writer_Write : App -> Writer -> list Z -> App * bool;
  writer_Close : App -> Writer -> App * bool;
  time_Now : Host -> Host * Z;
  rand_Read : Host -> Z -> Host * option (list Z);
  hmac_sha256 : list Z -> list Z -> list Z;
  aes_NewCipher : list Z -> option ((list Z -> list Z) * (list Z -> list Z));
  grow : Z -> Z -> Z }.

(** ** Configuration *)

Record UnsolicitedConfig := mkUnsolicitedConfig {
  Enabled : bool; HoldTime : Z; MaxEvents : Z; U_ConfirmTimeout : Z; MaxRetries : Z }.
Record ClockConfig := mkClockConfig { SyncInterval : Z; Holdover : Z }.
Record AttributeID := mkAttributeID { AI_Set : Z; AI_Variation : Z }.

Section Configuration.
Context {Env : Environment}.

(** A file name is its octets; a status is one of the codes of [FileObjects]. *)
Record FileHandler := mkFileHandler {
  FH_Info : App -> list Z -> App * (FileInfo * Z);
  FH_List : App -> list Z -> App * (list FileInfo * Z);
  FH_OpenRead : App -> list Z -> App * (Reader * FileInfo * Z);
  FH_OpenWrite : App -> list Z -> Z -> Z -> App * (Writer * Z);
  FH_Delete : App -> list Z -> App * Z }.

Record FileConfig := mkFileConfig {
  F_Handler : option FileHandler;
  F_Authenticate : option (App -> list Z -> list Z -> App * bool);
  F_MaxBlockSize : Z; F_Timeout : Z }.

Record SecureAuthenticationConfig := mkSecureConfig {
  SA_Users : gmap Z (list Z); SA_ReplyTimeout : Z; SA_KeyTimeout : Z; SA_MaxMessages : Z;
  SA_StatisticsClass : Z; SA_StatisticsThreshold : Z;
  SA_Authorize : option (App -> Z -> Z -> App * bool) }.

Record Config := mkConfig {
  LocalAddr : Z; RemoteAddr : Z; DatabaseCfg : DatabaseConfig; EventsCfg : Z;
  MaxTxFragment : Z; MaxRxFragment : Z; ConfirmTimeout : Z; Controls : CommandConfig;
  UnsolicitedCfg : UnsolicitedConfig; Clock : ClockConfig; Files : FileConfig;
  Attributes : list Attribute; DisableAttributes : bool; WritableAttributes : list AttributeID;
  AttributeWrite : option (App -> Attribute -> App * bool); SelfAddress : bool;
  Management : option (App -> Z -> list Z -> App * bool);
  ActivateConfig : option (App -> list (list Z) -> App * ActivationResult);
  SecureAuthentication : option SecureAuthenticationConfig;
  TerminalWrite : option (App -> Z -> list Z -> App * bool);
  Datasets : list DatasetObject;
  DatasetWrite : option (App -> Z -> Z -> list Z -> App * bool);
  UseLinkConfirms : bool; LinkRetries : Z; LinkTimeout : Z; Indications : Z }.

Definition second : Z := 1000000000.
Definition DefaultFileBlockSize : Z := 1024.
Definition DefaultFileTimeout : Z := 60 * second.

Definition Unsolicited_applyDefaults (c : UnsolicitedConfig) : UnsolicitedConfig :=
  mkUnsolicitedConfig (Enabled c) (HoldTime c) (MaxEvents c)
    (if U_ConfirmTimeout c <=? 0 then 5 * second else U_ConfirmTimeout c)
    (if MaxRetries c <=? 0 then 3 else MaxRetries c).
Definition Files_applyDefaults (c : FileConfig) : FileConfig :=
  mkFileConfig (F_Handler c) (F_Authenticate c)
    (if F_MaxBlockSize c =? 0 then DefaultFileBlockSize else F_MaxBlockSize c)
    (if F_Timeout c <=? 0 then DefaultFileTimeout else F_Timeout c).
Definition applyDefaults (c : Config) : Config :=
  mkConfig (LocalAddr c) (RemoteAddr c) (DatabaseCfg c) (EventsCfg c)
    (if MaxTxFragment c <=? 0 then DefaultMaxFragment else MaxTxFragment c)
    (if MaxRxFragment c <=? 0 then DefaultMaxFragment else MaxRxFragment c)
    (if ConfirmTimeout c <=? 0 then 5 * second else ConfirmTimeout c)
    (mkCommandConfig (if SelectTimeout (Controls c) <=? 0 then 5 * second else SelectTimeout (Controls c))
       (MaxControlsPerRequest (Controls c)))
    (Unsolicited_applyDefaults (UnsolicitedCfg c)) (Clock c) (Files_applyDefaults (Files c))
    (Attributes c) (DisableAttributes c) (WritableAttributes c) (AttributeWrite c) (SelfAddress c)
    (Management c) (ActivateConfig c) (SecureAuthentication c) (TerminalWrite c) (Datasets c)
    (DatasetWrite c) (UseLinkConfirms c) (LinkRetries c)
    (if LinkTimeout c <=? 0 then second else LinkTimeout c) (Indications c).
End Configuration.
Arguments FileHandler : clear implicits.
Arguments FileConfig : clear implicits.
Arguments SecureAuthenticationConfig : clear implicits.
Arguments Config : clear implicits.
Arguments FileHandler {Env}.
Arguments FileConfig {Env}.
Arguments SecureAuthenticationConfig {Env}.
Arguments Config {Env}.

(** ** The parts of the state *)

Record unsolState := mkUnsol {
  u_seq : Z; nullSent : bool; nullConfirmed : bool; u_awaiting : bool; awaitSeq : Z; deadline : Z;
  retries : Z; lastBody : list Z; retained : bool; nextAllowed : Z; firstEventAt : Z }.
Definition unsolState0 : unsolState := mkUnsol 0 false false false 0 zeroTime 0 [] false zeroTime zeroTime.

Record freezeSchedule := mkFreeze {
  f_next : Z; f_interval : Z; f_ranges : list (Z * Z); f_analogRanges : list (Z * Z) }.
#[export] Instance freezeSchedule_eq_dec : EqDecision freezeSchedule.
Proof. solve_decision. Defined.

Record fileAuthorization := mkFileAuthorization { fa_key : Z; fa_source : Z; fa_until : Z }.
Definition fileAuthorization0 : fileAuthorization := mkFileAuthorization 0 0 zeroTime.

(** [nil] for [status] is the empty list: a status has at least eleven octets. *)
Record securityUser := mkSecurityUser {
  su_update : list Z; su_control : list Z; su_monitor : list Z; su_status : list Z; su_keyChange : list Z;
  statusSource : Z; statusUntil : Z; su_source : Z; su_until : Z; messages : Z }.
Record authenticationPending := mkAuthPending {
  ap_received : Received; ap_challenge : list Z; ap_sequence : Z; ap_until : Z }.
Record securityState := mkSecurity {
  users : gmap Z securityUser; sequence : Z; keySequence : Z;
  ap_pending : option authenticationPending; statistics : list Z }.
Definition securityState0 : securityState := mkSecurity ∅ 0 0 None (replicate 18 0).

Inductive Counted :=
| RequestsReceived | ResponsesSent | FragmentsSent | ConfirmsReceived | ConfirmTimeouts
| UnknownFunction | RepeatedRequests | IncompleteRequests | MalformedRequests | Connections
| CommandsExecuted | CommandsRejected | UnsolicitedSent | UnsolicitedTimeouts | AttributesRead
| FilesOpened | FileBlocksSent | FileBlocksReceived | FileErrors | FileTimeouts | FilesAborted
| ScheduledFreezes.
#[export] Instance Counted_eq_dec : EqDecision Counted.
Proof. solve_decision. Defined.
Definition Stats := Counted -> Z.
Definition Stats0 : Stats := fun _ => 0.
Definition counted (c : Counted) (st : Stats) : Stats := fun c' => if decide (c' = c) then u64 (st c + 1) else st c'.

Section State.
Context {Env : Environment} {LL : LinkLayer}.

(** [FromHandler] is the reader a handler opened, [InMemory] a [bytes.Reader] with what is
    left of it. *)
Inductive source := FromHandler (r : Reader) | InMemory (rest : list Z).

(** A [bufio.Reader]: its size, what it holds that was not read yet, and the error it owes. *)
Record bufReader := mkBufReader { br_size : Z; br_buf : list Z; br_err : option ReadErr }.

Record transfer := mkTransfer {
  handle : Z; t_name : list Z; t_mode : Z; t_r : option source; t_br : bufReader; t_w : option Writer;
  t_block : Z; blockSize : Z; t_size : Z; t_received : Z; t_deadline : Z; t_done : bool }.

(** The session.  [core] holds the selection, the internal indications and the database. *)
Record Session := mkSession {
  cfg : Config; core : Commands.Session; stack : Link;
  synchronized : bool; syncedAt : Z; unsolClasses : Z;
  awaitingConfirm : bool; confirmSeq : Z; confirmDeadline : Z;
  pendingBodies : list (list Z); pendingIndex : Z; pendingDest : Z; pendingSeq : Z; pendingHasEvents : bool;
  freezes : list freezeSchedule; indications : Z; restartUntil : Z;
  lastReqValid : bool; lastReqSource : Z; lastReqSeq : Z; lastReqFrag : list Z;
  lastRespBodies : list (list Z); lastRespEvents : bool; lastRespErrors : Z;
  unsol : unsolState; connected : bool; broadcastConfirm : bool; deferredRead : option Received;
  linkDeadline : Z; attributes : gmap (Z * Z) Attribute; file : option transfer; handleSeq : Z;
  fileAuth : fileAuthorization; security : securityState; recordedTime : Z;
  updates : list (Database -> Database); serving : bool; restartPending : bool; stats : Stats }.

Definition Session_eta (s : Session) : Session :=
  mkSession (cfg s) (core s) (stack s) (synchronized s) (syncedAt s) (unsolClasses s) (awaitingConfirm s)
    (confirmSeq s) (confirmDeadline s) (pendingBodies s) (pendingIndex s) (pendingDest s) (pendingSeq s)
    (pendingHasEvents s) (freezes s) (indications s) (restartUntil s) (lastReqValid s) (lastReqSource s)
    (lastReqSeq s) (lastReqFrag s) (lastRespBodies s) (lastRespEvents s) (lastRespErrors s) (unsol s)
    (connected s) (broadcastConfirm s) (deferredRead s) (linkDeadline s) (attributes s) (file s) (handleSeq s)
    (fileAuth s) (security s) (recordedTime s) (updates s) (serving s) (restartPending s) (stats s).

(** [updated proj] is the function that replaces the field [proj] of a session. *)
Ltac updated proj :=
  let t := eval unfold Session_eta in Session_eta in
  match eval pattern proj in t with
  | ?F _ => let r := eval cbv beta in (fun v s => F (fun _ => v) s) in exact r
  end.

Definition set_core : Commands.Session -> Session -> Session := ltac:(updated core).
Definition set_stack : Link -> Session -> Session := ltac:(updated stack).
Definition set_synchronized : bool -> Session -> Session := ltac:(updated synchronized).
Definition set_syncedAt : Z -> Session -> Session := ltac:(updated syncedAt).
Definition set_unsolClasses : Z -> Session -> Session := ltac:(updated unsolClasses).
Definition set_awaitingConfirm : bool -> Session -> Session := ltac:(updated awaitingConfirm).
Definition set_confirmSeq : Z -> Session -> Session := ltac:(updated confirmSeq).
Definition set_confirmDeadline : Z -> Session -> Session := ltac:(updated confirmDeadline).
Definition set_pendingBodies : list (list Z) -> Session -> Session := ltac:(updated pendingBodies).
Definition set_pendingIndex : Z -> Session -> Session := ltac:(updated pendingIndex).
Definition set_pendingDest : Z -> Session -> Session := ltac:(updated pendingDest).
Definition set_pendingSeq : Z -> Session -> Session := ltac:(updated pendingSeq).
Definition set_pendingHasEvents : bool -> Session -> Session := ltac:(updated pendingHasEvents).
Definition set_freezes : list freezeSchedule -> Session -> Session := ltac:(updated freezes).
Definition set_indications : Z -> Session -> Session := ltac:(updated indications).
Definition set_restartUntil : Z -> Session -> Session := ltac:(updated restartUntil).
Definition set_lastReqValid : bool -> Session -> Session := ltac:(updated lastReqValid).
Definition set_lastReqSource : Z -> Session -> Session := ltac:(updated lastReqSource).
Definition set_lastReqSeq : Z -> Session -> Session := ltac:(updated lastReqSeq).
Definition set_lastReqFrag : list Z -> Session -> Session := ltac:(updated lastReqFrag).
Definition set_lastRespBodies : list (list Z) -> Session -> Session := ltac:(updated lastRespBodies).
Definition set_lastRespEvents : bool -> Session -> Session := ltac:(updated lastRespEvents).
Definition set_lastRespErrors : Z -> Session -> Session := ltac:(updated lastRespErrors).
Definition set_unsol : unsolState -> Session -> Session := ltac:(updated unsol).
Definition set_connected : bool -> Session -> Session := ltac:(updated connected).
Definition set_broadcastConfirm : bool -> Session -> Session := ltac:(updated broadcastConfirm).
Definition set_deferredRead : option Received -> Session -> Session := ltac:(updated deferredRead).
Definition set_linkDeadline : Z -> Session -> Session := ltac:(updated linkDeadline).
Definition set_attributes : gmap (Z * Z) Attribute -> Session -> Session := ltac:(updated attributes).
Definition set_file : option transfer -> Session -> Session := ltac:(updated file).
Definition set_handleSeq : Z -> Session -> Session := ltac:(updated handleSeq).
Definition set_fileAuth : fileAuthorization -> Session -> Session := ltac:(updated fileAuth).
Definition set_security : securityState -> Session -> Session := ltac:(updated security).
Definition set_recordedTime : Z -> Session -> Session := ltac:(updated recordedTime).
Definition set_updates : list (Database -> Database) -> Session -> Session := ltac:(updated updates).
Definition set_serving : bool -> Session -> Session := ltac:(updated serving).
Definition set_restartPending : bool -> Session -> Session := ltac:(updated restartPending).
Definition set_stats : Stats -> Session -> Session := ltac:(updated stats).

Definition iin (s : Session) : Z := s_iin (core s).
Definition db (s : Session) : Database := s_db (core s).
Definition set_siin (v : Z) (s : Session) : Session := set_core (set_iin v (core s)) s.
Definition set_sdb (v : Database) (s : Session) : Session := set_core (set_db v (core s)) s.

(** ** Computations *)

Record state := mkState {
  sess : Session; appl : App; host : Host; wire : Wire; sent : list (Z * list Z) }.

Abbreviation M := (ST state).

Definition gets {T} (f : Session -> T) : M T := fun st => (st, f (sess st)).
Definition modify (f : Session -> Session) : M unit := fun st =>
  (mkState (f (sess st)) (appl st) (host st) (wire st) (sent st), tt).
(** A call of the application. *)
Definition call {T} (f : App -> App * T) : M T := fun st =>
  let '(a, v) := f (appl st) in (mkState (sess st) a (host st) (wire st) (sent st), v).
(** A call of the host. *)
Definition host_call {T} (f : Host -> Host * T) : M T := fun st =>
  let '(h, v) := f (host st) in (mkState (sess st) (appl st) h (wire st) (sent st), v).

(** The errors a handler returns; they end the connection. *)
Inductive SessionErr := SErrLink (e : LinkError) | SErrTooLarge | SErrRand | SErrParse.

(** A fragment the stack took goes on the list [sent]. *)
Definition SendTo (d : Z) (frag : list Z) : M (option SessionErr) := fun st =>
  let '(l, x, err) := link_SendTo (stack (sess st)) (wire st) d frag in
  (mkState (set_stack l (sess st)) (appl st) (host st) x
     (match err with None => sent st ++ [(d, frag)] | Some _ => sent st end), SErrLink <$> err).
Definition Send (frag : list Z) : M (option SessionErr) := fun st =>
  let '(l, x, err) := link_Send (stack (sess st)) (wire st) frag in
  (mkState (set_stack l (sess st)) (appl st) (host st) x
     (match err with None => sent st ++ [(RemoteAddr (cfg (sess st)), frag)] | Some _ => sent st end), SErrLink <$> err).

Definition bump (c : Counted) : M unit := modify (fun s => set_stats (counted c (stats s)) s).
Definition raise_iin (mask : Z) : M unit := modify (fun s => set_siin (IIN_Set (iin s) mask) s).
Definition clear_iin (mask : Z) : M unit := modify (fun s => set_siin (IIN_Clear (iin s) mask) s).
Definition change_db (f : Database -> Database) : M unit := modify (fun s => set_sdb (f (db s)) s).

(** An operation of the event buffer. *)
Definition on_events {T} (zero : T) (f : EventBuffer -> EventBuffer * T) : M T := fun st =>
  match db_events (db (sess st)) with
  | None => (st, zero)
  | Some b =>
      let '(b, v) := f b in
      (mkState (set_sdb (set_events (Some b) (db (sess st))) (sess st)) (appl st) (host st) (wire st) (sent st), v)
  end.
Definition buffered (s : Session) : EventBuffer := default (NewEventBuffer 0) (db_events (db s)).

End State.

Abbreviation M := (ST state).

(** ** Reasoning about computations *)

Section Guarantees.
Context {Env : Environment} {LL : LinkLayer}.

Context (R : relation state).

Lemma g_gets {HR : PreOrder R} {T} (f : Session -> T) : guarantees R (gets f).
Proof. intros st. cbn. reflexivity. Qed.

Lemma g_modify f :
  (forall st, R st (mkState (f (sess st)) (appl st) (host st) (wire st) (sent st))) -> guarantees R (modify f).
Proof. intros H st. apply H. Qed.

Lemma g_call {T} (f : App -> App * T) :
  (forall st a, R st (mkState (sess st) a (host st) (wire st) (sent st))) -> guarantees R (call f).
Proof. intros H st. unfold call. destruct (f (appl st)). apply H. Qed.

Lemma g_host_call {T} (f : Host -> Host * T) :
  (forall st h, R st (mkState (sess st) (appl st) h (wire st) (sent st))) -> guarantees R (host_call f).
Proof. intros H st. unfold host_call. destruct (f (host st)). apply H. Qed.

Lemma g_on_events {HR : PreOrder R} {T} (zero : T) f :
  (forall st b b' v, db_events (db (sess st)) = Some b -> f b = (b', v) ->
     R st (mkState (set_sdb (set_events (Some b') (db (sess st))) (sess st)) (appl st) (host st) (wire st) (sent st))) ->
  guarantees R (on_events zero f).
Proof.
  intros H st. unfold on_events. destruct (db_events (db (sess st))) as [b|] eqn:E; [|reflexivity].
  destruct (f b) as [b' v] eqn:Ef. by eapply H.
Qed.
End Guarantees.

Ltac by_parts := by_parts_with ltac:(first [apply g_gets | apply g_modify | apply g_call | apply g_host_call | apply g_on_events]).

(** [compute_session] evaluates the primitive computations and the updates of fields, and
    nothing else. *)
Declare Reduction session :=
  cbn [gets modify when or_return ok bump raise_iin clear_iin change_db fst snd id fmap
    option_fmap option_map sess appl host wire sent  iin db s_iin s_db sel Commands.set_iin Commands.set_db
    cfg core stack synchronized syncedAt unsolClasses awaitingConfirm confirmSeq confirmDeadline pendingBodies
    pendingIndex pendingDest pendingSeq pendingHasEvents freezes indications restartUntil lastReqValid
    lastReqSource lastReqSeq lastReqFrag lastRespBodies lastRespEvents lastRespErrors unsol connected
    broadcastConfirm deferredRead linkDeadline attributes file handleSeq fileAuth security recordedTime updates
    serving restartPending stats set_core set_stack set_synchronized set_syncedAt set_unsolClasses
    set_awaitingConfirm set_confirmSeq set_confirmDeadline set_pendingBodies set_pendingIndex set_pendingDest
    set_pendingSeq set_pendingHasEvents set_freezes set_indications set_restartUntil set_lastReqValid
    set_lastReqSource set_lastReqSeq set_lastReqFrag set_lastRespBodies set_lastRespEvents set_lastRespErrors
    set_unsol set_connected set_broadcastConfirm set_deferredRead set_linkDeadline set_attributes set_file
    set_handleSeq set_fileAuth set_security set_recordedTime set_updates set_serving set_restartPending set_stats
    set_siin set_sdb].
Ltac compute_once := unfold or_return, ok, mbind, M_bind, mret, M_ret, set_siin, set_sdb, iin, db; match goal with |- ?G => let G' := eval session in G in change G' end.
Ltac compute_session := compute_once; compute_once.
Tactic Notation "compute_session" "in" hyp(H) :=
  unfold or_return, ok, mbind, M_bind, mret, M_ret, set_siin, set_sdb, iin, db in H; match type of H with ?T => let T' := eval session in T in change T' in H end.
