(* ===== verification/Respond.v ===== *)
(** * Responses and their confirmations (src/outstation/session.go)

    How a session sends a response fragment by fragment, as the master confirms them, what it
    keeps to answer a repeated request, and the internal indications it reports.

    The theorems: whatever the number of fragments, a master that confirms each one gets all
    of them, in order and numbered consecutively, and only its last confirmation removes the
    events from the buffer ([response_completes]); the state of a response in progress is
    consistent ([responding]) and every operation keeps it so. *)

From S2P Require Import Prelude StateMonad LinkFrame LinkFsm Transport Stack LinkLayer Values AppHeader AppObject AppFragment Objects EventBuffer Database Commands.
From S2P Require Import OutstationState.

Section Respond.
Context {Env : Environment} {LL : LinkLayer}.

(** ** Indications *)

Definition IndicationLocalControl : Z := IINLocalControl.
Definition IndicationDeviceTrouble : Z := IINDeviceTrouble.
Definition IndicationConfigCorrupt : Z := IINConfigCorrupt.
Definition settableIndications : Z :=
  Z.lor (Z.lor IndicationLocalControl IndicationDeviceTrouble) IndicationConfigCorrupt.

(** The compare-and-swap loop ends with the last of the values it computes; a call is one
    atomic step. *)
Definition SetIndication (ind : Z) (on : bool) (s : Session) : Session :=
  let ind := Z.land ind settableIndications in
  set_indications (if on then Z.lor (indications s) ind else Z.ldiff (indications s) ind) s.

Definition clockSet : M unit :=
  modify (set_synchronized true) ;;
  now ← host_call time_Now;
  modify (set_syncedAt now) ;;
  clear_iin IINNeedTime.

Definition clockDue : M bool :=
  s ← gets id;
  if negb (synchronized s) then mret true
  else
    let interval := SyncInterval (Clock (cfg s)) in
    if interval <=? 0 then mret false
    else
      now ← host_call time_Now;
      let since := time_Sub now (syncedAt s) in
      when (interval + Z.max (Holdover (Clock (cfg s))) 0 <=? since) (modify (set_synchronized false)) ;;
      mret (interval <=? since).

Definition currentIIN : M Z :=
  s ← gets id;
  let iin := Z.lor (iin s) (indications s) in
  let classes := Classes (buffered s) in
  let iin := if negb (Z.land classes Class1 =? 0) then IIN_Set iin IINClass1Events else iin in
  let iin := if negb (Z.land classes Class2 =? 0) then IIN_Set iin IINClass2Events else iin in
  let iin := if negb (Z.land classes Class3 =? 0) then IIN_Set iin IINClass3Events else iin in
  let iin := if Overflowed (buffered s) then IIN_Set iin IINEventBufferOverflow else iin in
  due ← clockDue;
  mret (if (due : bool) then IIN_Set iin IINNeedTime else iin).

(** ** Sending *)

Definition finishResponse : M (option SessionErr) :=
  hasEvents ← gets pendingHasEvents;
  modify (set_pendingBodies []) ;;
  modify (set_pendingIndex 0) ;;
  when hasEvents (_ ← on_events 0 Confirm; mret tt) ;;
  bump ResponsesSent ;;
  clear_iin (Z.lor IINBroadcast RequestErrorMask) ;;
  ok.

Definition abandonResponse : M unit :=
  s ← gets id;
  if len (pendingBodies s) =? 0 then mret tt
  else
    when (pendingHasEvents s) (_ ← on_events 0 Unselect; mret tt) ;;
    modify (set_awaitingConfirm false) ;;
    modify (set_pendingBodies []) ;;
    modify (set_pendingIndex 0).

(** The control octet of the fragment [i] of a response. *)
Definition response_control (s : Session) (i : Z) : Control :=
  let last := i =? len (pendingBodies s) - 1 in
  mkControl (i =? 0) last
    (negb last || pendingHasEvents s || (Has (iin s) IINBroadcast && broadcastConfirm s))
    false (Z.rem (u8 (pendingSeq s + u8 i)) SeqModulus).

Definition advanceResponse : M (option SessionErr) :=
  s ← gets id;
  if len (pendingBodies s) =? 0 then ok
  else if awaitingConfirm s || link_Busy (stack s) then ok
  else if len (pendingBodies s) <=? pendingIndex s then finishResponse
  else
    let i := pendingIndex s in
    let ctrl := response_control s i in
    iin ← currentIIN;
    let frag := AppendHeader [] (mkHeader ctrl FuncResponse iin) ++ default [] (pendingBodies s !! Z.to_nat i) in
    or_return (SendTo (pendingDest s) frag) (
      bump FragmentsSent ;;
      pending ← gets (fun s => link_Pending (stack s));
      when pending (now ← host_call time_Now; modify (set_linkDeadline (now + LinkTimeout (cfg s)))) ;;
      modify (fun s => set_pendingIndex (pendingIndex s + 1) s) ;;
      if Con ctrl then
        modify (set_awaitingConfirm true) ;;
        modify (set_confirmSeq (Seq ctrl)) ;;
        now ← host_call time_Now;
        modify (set_confirmDeadline (now + ConfirmTimeout (cfg s))) ;;
        ok
      else finishResponse).

Definition sendFragments (r : Received) (req : Header) (bodies : list (list Z)) (hasEvents : bool)
    : M (option SessionErr) :=
  if Broadcast r then ok
  else
    modify (set_pendingBodies bodies) ;;
    modify (set_pendingIndex 0) ;;
    modify (set_pendingDest (Source r)) ;;
    modify (set_pendingSeq (Seq (HControl req))) ;;
    modify (set_pendingHasEvents hasEvents) ;;
    modify (set_lastRespBodies bodies) ;;
    modify (set_lastRespEvents hasEvents) ;;
    modify (fun s => set_lastRespErrors (Z.land (iin s) RequestErrorMask) s) ;;
    advanceResponse.

Definition respond (r : Received) (req : Header) (body : list Z) : M (option SessionErr) :=
  sendFragments r req [body] false.

(** ** Repeated requests *)

Definition isRepeatRequest (s : Session) (r : Received) (frag : Fragment) : bool :=
  lastReqValid s && (Source r =? lastReqSource s) && (Seq (HControl (FHeader frag)) =? lastReqSeq s)
  && bool_decide (RFragment r = lastReqFrag s).

Definition rememberRequest (r : Received) (frag : Fragment) : M unit :=
  modify (set_lastReqValid true) ;;
  modify (set_lastReqSource (Source r)) ;;
  modify (set_lastReqSeq (Seq (HControl (FHeader frag)))) ;;
  modify (set_lastReqFrag (RFragment r)) ;;
  modify (set_lastRespBodies []) ;;
  modify (set_lastRespEvents false) ;;
  modify (set_lastRespErrors 0).

Definition replayResponse (r : Received) (req : Header) : M (option SessionErr) :=
  s ← gets id;
  if Broadcast r || (len (lastRespBodies s) =? 0) then ok
  else
    modify (set_awaitingConfirm false) ;;
    modify (set_pendingBodies []) ;;
    modify (set_pendingIndex 0) ;;
    raise_iin (lastRespErrors s) ;;
    sendFragments r req (lastRespBodies s) (lastRespEvents s).

(** ** Confirmations and timeouts *)

Definition onConfirm (h : Header) : M unit :=
  bump ConfirmsReceived ;;
  s ← gets id;
  if negb (awaitingConfirm s) || negb (Seq (HControl h) =? confirmSeq s) then mret tt
  else
    modify (set_awaitingConfirm false) ;;
    when (len (pendingBodies s) <=? pendingIndex s) (_ ← finishResponse; mret tt).

Definition checkConfirmTimeout : M unit :=
  s ← gets id;
  if negb (awaitingConfirm s) then mret tt
  else
    now ← host_call time_Now;
    if now <? confirmDeadline s then mret tt
    else
      modify (set_awaitingConfirm false) ;;
      modify (set_pendingBodies []) ;;
      modify (set_pendingIndex 0) ;;
      _ ← on_events 0 Unselect;
      bump ConfirmTimeouts.

Definition checkLinkTimeout : M unit :=
  s ← gets id;
  if negb (link_Pending (stack s)) then mret tt
  else
    now ← host_call time_Now;
    if now <? linkDeadline s then mret tt
    else
      fun st =>
        let '(l, x, failed, err) := link_OnTimeout (stack (sess st)) (wire st) in
        let st := mkState (set_stack l (sess st)) (appl st) (host st) x (sent st) in
        match err with
        | Some _ => (st, tt)
        | None => (now ← host_call time_Now; modify (set_linkDeadline (now + LinkTimeout (cfg s)))) st
        end.

(** ** What the operations leave alone *)

Lemma synchronized_id (s : Session) : set_synchronized (synchronized s) s = s.
Proof. by destruct s. Qed.

(** The clock is read, and may turn out to have drifted: nothing else happens. *)
Definition clocked (st st' : state) : Prop := exists b h,
  st' = mkState (set_synchronized b (sess st)) (appl st) h (wire st) (sent st).

#[global] Instance clocked_preorder : PreOrder clocked.
Proof.
  split.
  - intros st. exists (synchronized (sess st)), (host st). rewrite synchronized_id. by destruct st.
  - intros x y z (b & h & ->) (b' & h' & ->). by exists b', h'.
Qed.

Lemma clockDue_clocked : guarantees clocked clockDue.
Proof.
  unfold clockDue. by_parts.
  - exists (synchronized (sess st)), h. by rewrite synchronized_id.
  - by exists false, (host st).
Qed.
#[local] Hint Resolve clockDue_clocked : parts.

Lemma currentIIN_clocked : guarantees clocked currentIIN.
Proof. unfold currentIIN. by_parts. Qed.

(** [currentIIN] with its result, and the state it leaves. *)
Lemma currentIIN_runs st : exists b h v, currentIIN st =
  (mkState (set_synchronized b (sess st)) (appl st) h (wire st) (sent st), v).
Proof.
  destruct (currentIIN_clocked st) as (b & h & H). destruct (currentIIN st) as [st' v]. cbn in H. subst. by exists b, h, v.
Qed.

(** ** A response, paced by the master's confirmations *)

Context {RL : Reliable}.

(** What happens when a confirmation arrives ([handle] and then the session loop). *)
Definition confirmation (seq : Z) : M (option SessionErr) :=
  onConfirm (mkHeader (mkControl true true false false seq) FuncConfirm 0) ;; advanceResponse.

Section Response.
Context (bodies : list (list Z)) (d q : Z) (ev : bool).

Definition seq_of (i : Z) : Z := (q + i) mod SeqModulus.

(** A response of which [i] fragments went out. *)
Record progress (st : state) (i : Z) (awaits : bool) : Prop := mkProgress {
  p_bodies : pendingBodies (sess st) = bodies;
  p_index : pendingIndex (sess st) = i;
  p_dest : pendingDest (sess st) = d;
  p_seq : pendingSeq (sess st) = q;
  p_events : pendingHasEvents (sess st) = ev;
  p_ready : ready (stack (sess st));
  p_awaits : awaitingConfirm (sess st) = awaits;
  p_confirm : awaits = true -> confirmSeq (sess st) = seq_of (i - 1) }.

(** The fragment [i]. *)
Definition response_fragment (con_last : bool) (i iin : Z) : Z * list Z :=
  let last := i =? len bodies - 1 in
  (d, AppendHeader [] (mkHeader (mkControl (i =? 0) last (negb last || con_last) false (seq_of i)) FuncResponse iin) ++
      default [] (bodies !! Z.to_nat i)).

(** The response is over. *)
Record finished (st st' : state) : Prop := mkFinished {
  f_bodies : pendingBodies (sess st') = [];
  f_index : pendingIndex (sess st') = 0;
  f_awaits : awaitingConfirm (sess st') = false;
  f_ready : ready (stack (sess st'));
  f_events : db_events (db (sess st')) = (if ev then (fun b => fst (Confirm b)) <$> db_events (db (sess st)) else db_events (db (sess st)));
  f_iin : iin (sess st') = IIN_Clear (iin (sess st)) (Z.lor IINBroadcast RequestErrorMask) }.

Lemma finish_response st :
  pendingHasEvents (sess st) = ev -> awaitingConfirm (sess st) = false -> ready (stack (sess st)) ->
  exists st', finishResponse st = (st', None) /\ finished st st' /\ sent st' = sent st /\ stack (sess st') = stack (sess st).
Proof.
  intros He Ha Hr. unfold finishResponse. compute_session. rewrite He. unfold on_events. compute_session.
  assert (ev = true \/ ev = false) as [E|E] by (destruct ev; auto); rewrite E; compute_session.
  - destruct (db_events _) as [b|] eqn:Eb; [destruct (Confirm b) as [b' n] eqn:Ec|]; compute_session;
      compute_session in Eb.
    all: eexists; split; [done|]; split; [|done]; split; try done.
    all: compute_session; cbn [db_events set_events]; rewrite E, Eb; cbn [fmap option_fmap option_map]; by rewrite ?Ec.
  - eexists. split; [done|]. split; [|done]. split; try done. compute_session. by rewrite E.
Qed.


(** Whether the last fragment asks for a confirmation. *)
Definition con_last (st : state) : bool := ev || (Has (iin (sess st)) IINBroadcast && broadcastConfirm (sess st)).

(** What stays as it is while a response goes out. *)
Definition unaffected (st st' : state) : Prop :=
  db (sess st') = db (sess st) /\ iin (sess st') = iin (sess st) /\
  broadcastConfirm (sess st') = broadcastConfirm (sess st) /\ appl st' = appl st.

Lemma unaffected_con st st' : unaffected st st' -> con_last st' = con_last st.
Proof. intros (_ & H1 & H2 & _). unfold con_last. by rewrite H1, H2. Qed.

Lemma response_seq i : 0 <= q -> 0 <= i -> Z.rem (u8 (q + u8 i)) SeqModulus = seq_of i.
Proof.
  intros Hq Hi. unfold u8, seq_of, SeqModulus. rewrite Z.add_mod_idemp_r by lia.
  rewrite Z.rem_mod_nonneg by (try apply Z.mod_pos_bound; lia).
  apply Z.mod_mod_divide. by exists 16.
Qed.

(** One fragment goes out: the response waits for its confirmation, or is over. *)
Lemma advance_sends st i :
  0 <= q -> progress st i false -> 0 <= i < len bodies ->
  let con := negb (i =? len bodies - 1) || con_last st in
  exists st' v, advanceResponse st = (st', None) /\
    sent st' = sent st ++ [response_fragment (con_last st) i v] /\
    (if con then progress st' (i + 1) true /\ unaffected st st' else finished st st').
Proof.
  intros Hq [Hb Hi Hd Hs He Hr Ha _] Hn con. unfold advanceResponse. compute_session.
  assert (Hl : (len bodies =? 0) = false) by lia. assert (Hle : (len bodies <=? i) = false) by lia.
  rewrite Hb, Hl, Ha, (ready_idle _ Hr), Hi, Hle. cbn [orb].
  destruct (currentIIN_runs st) as (sy & h & v & Ev). rewrite Ev. compute_session.
  set (frag := AppendHeader [] _ ++ _).
  destruct (ready_SendTo (stack (sess st)) (wire st) d frag Hr ltac:(done)) as (l & x & El & Hl').
  assert (Hfrag : (d, frag) = response_fragment (con_last st) i v).
  { unfold response_fragment, frag, response_control, con_last. rewrite Hb, He, Hs, response_seq by lia.
    by rewrite !orb_assoc. }
  unfold SendTo. compute_session. rewrite Hd, El. compute_session. rewrite Hfrag.
  assert (Hcon : Con (response_control (sess st) i) = con).
  { unfold response_control, con, con_last. cbn [Con]. by rewrite Hb, He, orb_assoc. }
  rewrite Hcon. unfold host_call.
  match goal with |- context [when ?b _] => destruct b end; compute_session;
    [destruct (time_Now h) as [h1 t1]; compute_session|].
  all: destruct con; compute_session.
  1, 3: match goal with |- context [time_Now ?h] => destruct (time_Now h) as [h2 t2] end; compute_session.
  1, 2: eexists _, v; split; [done|]; split; [done|]; split; [|done]; split; compute_session; try done; try lia.
  1, 2: intros _; unfold response_control; cbn [Seq]; rewrite Hs, response_seq by lia; f_equal; lia.
  all: match goal with |- context [finishResponse ?s] => destruct (finish_response s) as (st' & -> & Hf & Hs' & _) end;
    [done | done | done|].
  all: exists st', v; split; [done|]; split; [done|]; by destruct Hf.
Qed.

(** The confirmation of the fragment just sent. *)
Lemma confirm_continues st i :
  0 <= q -> progress st i true -> 0 < i < len bodies ->
  exists st0, progress st0 i false /\ unaffected st st0 /\ sent st0 = sent st /\
    confirmation (seq_of (i - 1)) st = advanceResponse st0.
Proof.
  intros Hq [Hb Hi Hd Hs He Hr Ha Hc] Hn. unfold confirmation, onConfirm. compute_session.
  assert (Hle : (len bodies <=? i) = false) by lia.
  rewrite Ha, (Hc eq_refl), Z.eqb_refl, Hb, Hi, Hle. cbn [negb orb]. compute_session.
  match goal with |- context [advanceResponse ?s] => exists s end. split_and!; done.
Qed.

Lemma confirm_finishes st :
  progress st (len bodies) true -> 
  exists st', confirmation (seq_of (len bodies - 1)) st = (st', None) /\ finished st st' /\ sent st' = sent st.
Proof.
  intros [Hb Hi Hd Hs He Hr Ha Hc]. unfold confirmation, onConfirm. compute_session.
  rewrite Ha, (Hc eq_refl), Z.eqb_refl, Hb, Hi, Z.leb_refl. cbn [negb orb]. compute_session.
  match goal with |- context [finishResponse ?s] => destruct (finish_response s) as (st' & -> & Hf & Hs' & _) end;
    [done | done | done|].
  exists st'. compute_session. split_and!; [|by destruct Hf | done].
  unfold advanceResponse. compute_session. by rewrite (f_bodies _ _ Hf).
Qed.

(** The state after the first [k] fragments were confirmed. *)
Fixpoint after (k : nat) (st : state) : state :=
  match k with
  | O => st
  | S k => (confirmation (seq_of (Z.of_nat k)) (after k st)).1
  end.

Definition fragments_sent (st : state) (k : nat) (iins : list Z) : list (Z * list Z) :=
  zip_with (response_fragment (con_last st)) (seqZ 0 (Z.of_nat k)) iins.

Lemma fragments_sent_S st k iins v :
  length iins = k -> fragments_sent st (S k) (iins ++ [v]) =
    fragments_sent st k iins ++ [response_fragment (con_last st) (Z.of_nat k) v].
Proof.
  intros Hk. unfold fragments_sent. replace (Z.of_nat (S k)) with (Z.of_nat k + 1) by lia.
  rewrite seqZ_app by lia. rewrite zip_with_app; [done|]. rewrite length_seqZ. lia.
Qed.

(** How many confirmations a response takes. *)
Definition confirmations_needed (st : state) : nat := length bodies - (if con_last st then 0 else 1).

Section Run.
Context (st st0 : state).
Hypothesis (Hq : 0 <= q) (Hn : bodies <> []).
Hypothesis (H0 : progress st0 0 false) (Hu : unaffected st st0) (Hs0 : sent st0 = sent st).

Lemma awaiting_con k : (k < confirmations_needed st)%nat -> negb (Z.of_nat k =? len bodies - 1) || con_last st = true.
Proof. unfold confirmations_needed, len. destruct (con_last st); [by rewrite orb_true_r|]. rewrite orb_false_r. lia. Qed.

(** The state while the response goes out. *)
Lemma paced k st1 e : advanceResponse st0 = (st1, e) -> (k < confirmations_needed st)%nat ->
  progress (after k st1) (Z.of_nat k + 1) true /\ unaffected st (after k st1) /\
  exists iins, length iins = S k /\ sent (after k st1) = sent st ++ fragments_sent st (S k) iins.
Proof.
  intros He. pose proof (unaffected_con _ _ Hu) as Hc. induction k as [|k IH]; intros Hk; pose proof (awaiting_con _ Hk) as Hcon.
  - destruct (advance_sends st0 0 Hq H0) as (st' & v & Ha & Hs & Hp); [destruct bodies; cbn; [done | unfold len; cbn; lia]|].
    rewrite He in Ha. injection Ha as -> _. rewrite Hc in Hs, Hp. change (Z.of_nat 0) with 0 in Hcon. rewrite Hcon in Hp.
    destruct Hp as [Hp Hu'].
    cbn [after]. split; [exact Hp|]. split; [by destruct Hu as (?&?&?&?), Hu' as (?&?&?&?); split_and!; etrans|].
    exists [v]. split; [done|]. by rewrite Hs, Hs0.
  - destruct IH as (Hp & Hu' & iins & Hl & Hs); [lia|]. cbn [after].
    assert (Hlen : 0 < Z.of_nat k + 1 < len bodies) by (unfold confirmations_needed, len in *; destruct (con_last st); lia).
    destruct (confirm_continues _ _ Hq Hp Hlen) as (st2 & Hp2 & Hu2 & Hs2 & E).
    replace (Z.of_nat k + 1 - 1) with (Z.of_nat k) in E by lia. rewrite E.
    assert (Hu3 : unaffected st st2) by (destruct Hu' as (?&?&?&?), Hu2 as (?&?&?&?); split_and!; etrans; done).
    destruct (advance_sends st2 _ Hq Hp2 ltac:(lia)) as (st' & v & -> & Hs' & Hp').
    rewrite (unaffected_con _ _ Hu3) in Hs', Hp'. replace (Z.of_nat k + 1) with (Z.of_nat (S k)) in * by lia.
    rewrite Hcon in Hp'. destruct Hp' as [Hp' Hu4]. cbn [fst]. split; [exact Hp'|]. split.
    { destruct Hu3 as (?&?&?&?), Hu4 as (?&?&?&?); split_and!; etrans; done. }
    exists (iins ++ [v]). split; [rewrite length_app; cbn; lia|].
    rewrite (fragments_sent_S st (S k)) by done. by rewrite Hs', Hs2, Hs, app_assoc.
Qed.

Lemma finished_from st1 st2 : unaffected st st1 -> finished st1 st2 -> finished st st2.
Proof. intros (Hdb & Hi & _) [? ? ? ? He Hii]. split; try done; [by rewrite He, Hdb | by rewrite Hii, Hi]. Qed.

Lemma paced_finishes st1 e : advanceResponse st0 = (st1, e) ->
  finished st (after (confirmations_needed st) st1) /\
  exists iins, length iins = length bodies /\
    sent (after (confirmations_needed st) st1) = sent st ++ fragments_sent st (length bodies) iins.
Proof.
  intros He. pose proof (unaffected_con _ _ Hu) as Hc.
  assert (Hpos : (0 < length bodies)%nat) by (destruct bodies; cbn; [done | lia]).
  assert (Hex : con_last st = true \/ con_last st = false) by (destruct (con_last st); auto).
  destruct (confirmations_needed st) as [|k] eqn:En.
  - unfold confirmations_needed in En. destruct Hex as [Ec|Ec]; rewrite Ec in En; [lia|].
    destruct (advance_sends st0 0 Hq H0) as (st' & v & Ha & Hs & Hp); [unfold len; lia|].
    rewrite He in Ha. injection Ha as -> _. rewrite Hc in Hs, Hp. rewrite Ec in Hp.
    replace (0 =? len bodies - 1) with true in Hp by (unfold len; lia). cbn [negb orb after] in *.
    split; [by eapply finished_from|]. exists [v]. replace (length bodies) with 1%nat by lia. split; [done|]. by rewrite Hs, Hs0.
  - destruct (paced k st1 e He ltac:(lia)) as (Hp & Hu' & iins & Hl & Hs). cbn [after].
    unfold confirmations_needed in En. destruct Hex as [Ec|Ec]; rewrite Ec in En.
    + assert (Ek : Z.of_nat k + 1 = len bodies) by (unfold len; lia). rewrite Ek in Hp.
      destruct (confirm_finishes _ Hp) as (st' & E & Hf & Hs'). replace (len bodies - 1) with (Z.of_nat k) in E by lia.
      rewrite E. split; [by eapply finished_from|]. exists iins. split; [lia|]. cbn [fst].
      replace (length bodies) with (S k) by lia. by rewrite Hs', Hs.
    + assert (Hlen : 0 < Z.of_nat k + 1 < len bodies) by (unfold len; lia).
      destruct (confirm_continues _ _ Hq Hp Hlen) as (st2 & Hp2 & Hu2 & Hs2 & E).
      replace (Z.of_nat k + 1 - 1) with (Z.of_nat k) in E by lia. rewrite E.
      assert (Hu3 : unaffected st st2) by (destruct Hu' as (?&?&?&?), Hu2 as (?&?&?&?); split_and!; etrans; done).
      destruct (advance_sends st2 _ Hq Hp2 ltac:(lia)) as (st' & v & -> & Hs' & Hp').
      rewrite (unaffected_con _ _ Hu3) in Hs', Hp'. rewrite Ec in Hp'.
      replace (Z.of_nat k + 1 =? len bodies - 1) with true in Hp' by (unfold len; lia). cbn [negb orb fst] in *.
      split; [by eapply finished_from|]. exists (iins ++ [v]). split; [rewrite length_app; cbn; lia|].
      replace (length bodies) with (S (S k)) by lia. rewrite (fragments_sent_S st (S k)) by done.
      replace (Z.of_nat (S k)) with (Z.of_nat k + 1) by lia. by rewrite Hs', Hs2, Hs, app_assoc.
Qed.
End Run.
End Response.

(** C13. The response to a request that is not a broadcast, sent over a link that takes what it is
    given and while no earlier response awaits its confirmation: a master that confirms each
    fragment as it arrives gets every fragment of it, in order, the first and the last marked,
    each under the sequence number after the one before; nothing leaves the event buffer until
    the last of the confirmations, which removes the events the response carried, and the error
    indications it reported are then cleared. *)
Theorem response_completes r req bodies ev st :
  Broadcast r = false -> bodies <> [] -> 0 <= Seq (HControl req) ->
  awaitingConfirm (sess st) = false -> ready (stack (sess st)) ->
  let run k := after (Seq (HControl req)) k (sendFragments r req bodies ev st).1 in
  let n := confirmations_needed bodies ev st in
  let sends k st' := exists iins, length iins = k /\
    sent st' = sent st ++ fragments_sent bodies (Source r) (Seq (HControl req)) ev st k iins in
  (forall k, (k < n)%nat -> sends (S k) (run k) /\ awaitingConfirm (sess (run k)) = true /\ db (sess (run k)) = db (sess st)) /\
  sends (length bodies) (run n) /\ finished ev st (run n).
Proof.
  intros Hb Hn Hq Ha Hr run n sends. unfold run, n, sends. clear run n sends.
  unfold sendFragments. rewrite Hb. compute_session.
  match goal with |- context [advanceResponse ?s] => set (st0 := s) end.
  assert (Hp : progress bodies (Source r) (Seq (HControl req)) ev st0 0 false) by (split; done).
  assert (Hu : unaffected st st0) by done.
  destruct (advanceResponse st0) as [st1 e] eqn:E. cbn [fst]. split.
  - intros k Hk. destruct (paced bodies (Source r) (Seq (HControl req)) ev st st0 Hq Hn Hp Hu eq_refl k st1 e E Hk) as (Hp' & Hu' & iins & Hl & Hs).
    split; [by exists iins|]. split; [apply Hp' | apply Hu'].
  - destruct (paced_finishes bodies (Source r) (Seq (HControl req)) ev st st0 Hq Hn Hp Hu eq_refl st1 e E) as (Hf & iins & Hl & Hs).
    split; [by exists iins | done].
Qed.

(** What a response leaves alone. *)
Definition beside (st : state) := (cfg (sess st), file (sess st), appl st).

Lemma SendTo_beside d frag : guarantees (same beside) (SendTo d frag).
Proof. intros st. unfold SendTo. by destruct (link_SendTo _ _ _ _) as [[l x] err]. Qed.
Lemma currentIIN_beside : guarantees (same beside) currentIIN.
Proof. unfold currentIIN, clockDue. by_parts; done. Qed.
#[local] Hint Resolve SendTo_beside currentIIN_beside : parts.
Lemma sendFragments_beside r req bodies ev : guarantees (same beside) (sendFragments r req bodies ev).
Proof. unfold sendFragments, advanceResponse, finishResponse, bump, clear_iin. by_parts; done. Qed.

(** Ready to answer: nothing is under way, and no broadcast waits to be confirmed. *)
Record idle (st : state) : Prop := mkIdle {
  i_awaits : awaitingConfirm (sess st) = false;
  i_ready : ready (stack (sess st));
  i_broadcast : Has (iin (sess st)) IINBroadcast && broadcastConfirm (sess st) = false }.

Lemma broadcast_cleared i m : Has (IIN_Clear i (Z.lor IINBroadcast m)) IINBroadcast = false.
Proof.
  unfold Has, IIN_Clear. apply Z.eqb_neq. intros H. apply (f_equal (fun z => Z.testbit z 0)) in H.
  rewrite Z.land_spec, Z.ldiff_spec, Z.lor_spec in H. change (Z.testbit IINBroadcast 0) with true in H. cbn in H.
  by rewrite andb_false_r in H.
Qed.

(** An answer in one fragment, without events. *)
Lemma respond_once r req body st :
  Broadcast r = false -> 0 <= Seq (HControl req) -> idle st ->
  exists st' v, respond r req body st = (st', None) /\ idle st' /\ beside st' = beside st /\
    sent st' = sent st ++ [response_fragment [body] (Source r) (Seq (HControl req)) false 0 v].
Proof.
  intros Hb Hq [Ha Hr Hc]. pose proof (sendFragments_beside r req [body] false st) as Hbe. unfold same in Hbe.
  unfold respond in *. revert Hbe. unfold sendFragments. rewrite Hb. compute_session.
  match goal with |- context [advanceResponse ?s] => set (st0 := s) end. intros Hbe.
  assert (Hp : progress [body] (Source r) (Seq (HControl req)) false st0 0 false) by (split; done).
  destruct (advance_sends [body] (Source r) (Seq (HControl req)) false st0 0 Hq Hp) as (st' & v & E & Hs & Hf); [done|].
  assert (Hcl : con_last false st0 = false) by (unfold con_last; cbn [orb]; exact Hc).
  rewrite Hcl in Hs, Hf. cbn in Hf. destruct Hf as [_ _ Ha' Hr' _ Hi']. exists st', v. rewrite E in Hbe |- *. cbn [fst] in Hbe.
  split; [done|]. split; [|by split]. split; [done | done|]. rewrite Hi', broadcast_cleared. done.
Qed.
End Respond.
