(* ===== verification/Unsolicited.v ===== *)
(** * Unsolicited responses (src/outstation/unsolicited.go)

    When a session reports events without being asked, and how it repeats a report the
    master did not confirm.

    The theorem: a report that is not confirmed is sent again, under the same number and with
    the same content, as often as the configuration allows and no more, and its events are then
    free to be reported again ([unsolicited_repeated]). *)

From S2P Require Import Prelude StateMonad Stack LinkLayer Values AppHeader AppObject AppFragment Objects Codecs EventBuffer Database.
From S2P Require Import Commands Response OutstationState Respond.

Section Unsolicited.
Context {Env : Environment} {LL : LinkLayer}.

(** [unsolState.reset]. *)
Definition unsol_reset : M unit := modify (set_unsol unsolState0).

Definition set_u (f : unsolState -> unsolState) : M unit := modify (fun s => set_unsol (f (unsol s)) s).
Definition with_awaiting (v : bool) (u : unsolState) : unsolState :=
  mkUnsol (u_seq u) (nullSent u) (nullConfirmed u) v (awaitSeq u) (deadline u) (retries u) (lastBody u)
    (retained u) (nextAllowed u) (firstEventAt u).
Definition with_retries (v : Z) (u : unsolState) : unsolState :=
  mkUnsol (u_seq u) (nullSent u) (nullConfirmed u) (u_awaiting u) (awaitSeq u) (deadline u) v (lastBody u)
    (retained u) (nextAllowed u) (firstEventAt u).
Definition with_seq (v : Z) (u : unsolState) : unsolState :=
  mkUnsol v (nullSent u) (nullConfirmed u) (u_awaiting u) (awaitSeq u) (deadline u) (retries u) (lastBody u)
    (retained u) (nextAllowed u) (firstEventAt u).
Definition with_nullConfirmed (u : unsolState) : unsolState :=
  mkUnsol (u_seq u) (nullSent u) true (u_awaiting u) (awaitSeq u) (deadline u) (retries u) (lastBody u)
    (retained u) (nextAllowed u) (firstEventAt u).
Definition with_firstEventAt (v : Z) (u : unsolState) : unsolState :=
  mkUnsol (u_seq u) (nullSent u) (nullConfirmed u) (u_awaiting u) (awaitSeq u) (deadline u) (retries u) (lastBody u)
    (retained u) (nextAllowed u) v.
Definition with_nextAllowed (v : Z) (u : unsolState) : unsolState :=
  mkUnsol (u_seq u) (nullSent u) (nullConfirmed u) (u_awaiting u) (awaitSeq u) (deadline u) (retries u) (lastBody u)
    (retained u) v (firstEventAt u).
(** Nothing is kept for a retry any more. *)
Definition forget_body (u : unsolState) : unsolState :=
  mkUnsol (u_seq u) (nullSent u) (nullConfirmed u) (u_awaiting u) (awaitSeq u) (deadline u) 0 []
    false (nextAllowed u) (firstEventAt u).
(** A response went out under the current number, to be confirmed by [until]. *)
Definition now_awaiting (until : Z) (u : unsolState) : unsolState :=
  mkUnsol (u_seq u) (nullSent u) (nullConfirmed u) true (u_seq u) until (retries u) (lastBody u)
    (retained u) (nextAllowed u) (firstEventAt u).
Definition keep_body (null : bool) (body : list Z) (u : unsolState) : unsolState :=
  mkUnsol (u_seq u) (nullSent u || null) (nullConfirmed u) (u_awaiting u) (awaitSeq u) (deadline u) (retries u) body
    true (nextAllowed u) (firstEventAt u).

(** ** The fragment *)

Definition unsolicitedFragment (body : list Z) : M (list Z) :=
  iin ← currentIIN;
  u ← gets unsol;
  mret (AppendHeader [] (mkHeader (mkControl true true true true (u_seq u)) FuncUnsolicitedResponse iin) ++ body).

Definition response_context (s : Session) : Context := mkContext (synchronized s) zeroTime false false.

(** [s.buildEvents]: the application's clock is read for events without a time. *)
Definition build_events (b : responseBuilder) (events : list Event) : M (responseBuilder * list Event) := fun st =>
  let '(b, a, unsent) :=
    buildEvents appl_Now (synchronized (sess st)) (arrays (db (sess st))) b (appl st) events in
  (mkState (sess st) a (host st) (wire st) (sent st), (b, unsent)).

(** Do the first [n] events fit in one fragment? *)
Definition fits (events : list Event) (n : Z) : M bool :=
  s ← gets id;
  '(b, _) ← build_events (newResponseBuilder (MaxTxFragment (cfg s)) (response_context s)) (take (Z.to_nat n) events);
  mret (len (done b) =? 1).

(** The loop of [eventsThatFit]; it halves [hi - lo], so a turn per event is more than enough. *)
Fixpoint fit_loop (fuel : nat) (events : list Event) (lo hi : Z) : M Z :=
  match fuel with
  | O => mret lo
  | S fuel =>
      if lo <? hi then
        let mid := Z.quot (lo + hi + 1) 2 in
        f ← fits events mid;
        if (f : bool) then fit_loop fuel events mid hi else fit_loop fuel events lo (mid - 1)
      else mret lo
  end.
Definition eventsThatFit (events : list Event) : M Z := fit_loop (length events) events 1 (len events).

(** ** Sending *)

Definition retryUnsolicited (now : Z) : M (option SessionErr) :=
  s ← gets id;
  frag ← unsolicitedFragment (lastBody (unsol s));
  or_return (Send frag) (
    set_u (now_awaiting (now + U_ConfirmTimeout (UnsolicitedCfg (cfg s)))) ;;
    bump UnsolicitedSent ;;
    ok).

Definition sendUnsolicited (events : list Event) (now : Z) (null : bool) : M (option SessionErr) :=
  events ← (if null then mret events
            else
              fit ← eventsThatFit events;
              _ ← on_events 0 (fun b => Release b (drop (Z.to_nat fit) events));
              mret (take (Z.to_nat fit) events));
  s ← gets id;
  let b := newResponseBuilder (MaxTxFragment (cfg s)) (response_context s) in
  b ← (if null then mret b
       else
         '(b, unsent) ← build_events b events;
         _ ← on_events 0 (fun b => Discard b unsent);
         mret b);
  let body := default [] (head (done b)) in
  set_u (fun u => with_seq (Z.rem (u8 (u_seq u + 1)) SeqModulus) u) ;;
  frag ← unsolicitedFragment body;
  or_return (Send frag) (
    set_u (now_awaiting (now + U_ConfirmTimeout (UnsolicitedCfg (cfg s)))) ;;
    set_u (keep_body null body) ;;
    bump UnsolicitedSent ;;
    ok).

(** ** Timeouts and confirmations *)

Definition onUnsolicitedTimeout (now : Z) : M (option SessionErr) :=
  set_u (with_awaiting false) ;;
  set_u (fun u => with_retries (retries u + 1) u) ;;
  bump UnsolicitedTimeouts ;;
  s ← gets id;
  let release_events :=
    _ ← on_events 0 Unselect;
    set_u forget_body ;;
    set_u (with_nextAllowed (now + U_ConfirmTimeout (UnsolicitedCfg (cfg s)))) ;;
    ok in
  if bool_decide (is_Some (deferredRead s)) && nullConfirmed (unsol s) then release_events
  else if MaxRetries (UnsolicitedCfg (cfg s)) <? retries (unsol s) then release_events
  else ok.

Definition onUnsolicitedConfirm (h : Header) : M unit :=
  u ← gets unsol;
  if negb (u_awaiting u) || negb (Seq (HControl h) =? awaitSeq u) then mret tt
  else
    set_u (with_awaiting false) ;;
    set_u forget_body ;;
    if negb (nullConfirmed u) then set_u with_nullConfirmed
    else _ ← on_events 0 Confirm; mret tt.

Definition pollUnsolicited (now : Z) : M (option SessionErr) :=
  s ← gets id;
  let u := unsol s in
  let c := UnsolicitedCfg (cfg s) in
  if negb (Enabled c) || negb (connected s) then ok
  else if u_awaiting u then (if now <? deadline u then ok else onUnsolicitedTimeout now)
  else if 0 <? len (pendingBodies s) then ok
  else if (0 <? retries u) && retained u then retryUnsolicited now
  else if negb (nullConfirmed u) then
    (if negb (nullSent u) || (nextAllowed u <? now) then sendUnsolicited [] now true else ok)
  else if (unsolClasses s =? 0) || (now <? nextAllowed u) then ok
  else
    let pending := Count (buffered s) (unsolClasses s) in
    if pending =? 0 then ok
    else
      when ((0 <? HoldTime c) && (firstEventAt u =? zeroTime)) (set_u (with_firstEventAt now)) ;;
      u ← gets unsol;
      let enough := (0 <? MaxEvents c) && (MaxEvents c <=? pending) in
      if (0 <? HoldTime c) && negb enough && (time_Sub now (firstEventAt u) <? HoldTime c) then ok
      else
        set_u (with_firstEventAt zeroTime) ;;
        events ← on_events [] (fun b => Select b (unsolClasses s) 64);
        if len events =? 0 then ok else sendUnsolicited events now false.

(** ** Reports that are not confirmed *)

Context {RL : Reliable}.

(** The state after [k] polls, at the times [t 0], [t 1], ... *)
Fixpoint polled (t : nat -> Z) (k : nat) (st : state) : state :=
  match k with
  | O => st
  | S k => (pollUnsolicited (t k) (polled t k st)).1
  end.

Section Repeats.
Context (c : Config) (q : Z) (body : list Z) (events : option EventBuffer).

(** A report under the number [q] went out, [n] times again so far. *)
Record reported (st : state) (n : Z) (awaits : bool) : Prop := mkReported {
  rp_cfg : cfg (sess st) = c;
  rp_connected : connected (sess st) = true;
  rp_idle : pendingBodies (sess st) = [];
  rp_deferred : deferredRead (sess st) = None;
  rp_ready : ready (stack (sess st));
  rp_events : db_events (db (sess st)) = events;
  rp_seq : u_seq (unsol (sess st)) = q;
  rp_body : lastBody (unsol (sess st)) = body;
  rp_retained : retained (unsol (sess st)) = true;
  rp_awaits : u_awaiting (unsol (sess st)) = awaits;
  rp_retries : retries (unsol (sess st)) = n }.

Definition report_fragment (iin : Z) : Z * list Z :=
  (RemoteAddr c, AppendHeader [] (mkHeader (mkControl true true true true q) FuncUnsolicitedResponse iin) ++ body).

Lemma poll_timeout st n now :
  Enabled (UnsolicitedCfg c) = true -> reported st n true -> deadline (unsol (sess st)) <= now ->
  n < MaxRetries (UnsolicitedCfg c) ->
  let st' := (pollUnsolicited now st).1 in reported st' (n + 1) false /\ sent st' = sent st.
Proof.
  intros He [Hc Hcn Hi Hd Hr Hev Hq Hb Hrt Ha Hn] Ht Hm st'. unfold st', pollUnsolicited, onUnsolicitedTimeout, set_u. compute_session.
  rewrite Hc, He, Hcn, Ha. cbn [negb orb]. replace (now <? _) with false by lia. compute_session. rewrite Hd, Hc. cbn [retries with_retries with_awaiting].
  rewrite bool_decide_eq_false_2 by (intros []; done). cbn [andb]. rewrite Hn. replace (_ <? n + 1) with false by lia. compute_session.
  split; [|done]. by split.
Qed.

Lemma poll_repeats st n now :
  Enabled (UnsolicitedCfg c) = true -> reported st n false -> 0 < n ->
  exists v, let st' := (pollUnsolicited now st).1 in
    reported st' n true /\ sent st' = sent st ++ [report_fragment v] /\
    deadline (unsol (sess st')) = now + U_ConfirmTimeout (UnsolicitedCfg c).
Proof.
  intros He [Hc Hcn Hi Hd Hr Hev Hq Hb Hrt Ha Hn] Hpos. unfold pollUnsolicited, retryUnsolicited, unsolicitedFragment. compute_session.
  rewrite Hc, He, Hcn, Ha, Hi, Hn, Hrt. cbn [negb orb]. replace (0 <? len []) with false by done. replace (0 <? n) with true by lia.
  cbn [andb]. compute_session. destruct (currentIIN_runs st) as (b & h & v & ->). compute_session. exists v.
  unfold Send. compute_session. rewrite Hq, Hb.
  match goal with |- context [link_Send ?l ?x ?f] => destruct (ready_Send l x f Hr ltac:(done)) as (l' & x' & -> & Hr') end.
  unfold set_u. compute_session. rewrite Hc. split_and!; try done.
Qed.

Lemma poll_gives_up st n now :
  Enabled (UnsolicitedCfg c) = true -> reported st n true -> deadline (unsol (sess st)) <= now ->
  MaxRetries (UnsolicitedCfg c) <= n ->
  let st' := (pollUnsolicited now st).1 in
  u_awaiting (unsol (sess st')) = false /\ retained (unsol (sess st')) = false /\ sent st' = sent st /\
  db_events (db (sess st')) = (fun b => fst (Unselect b)) <$> events.
Proof.
  intros He [Hc Hcn Hi Hd Hr Hev Hq Hb Hrt Ha Hn] Ht Hm st'. unfold st', pollUnsolicited, onUnsolicitedTimeout, set_u. compute_session.
  rewrite Hc, He, Hcn, Ha. cbn [negb orb]. replace (now <? _) with false by lia. compute_session. rewrite Hd, Hc. cbn [retries with_retries with_awaiting].
  rewrite bool_decide_eq_false_2 by (intros []; done). cbn [andb]. rewrite Hn. replace (_ <? n + 1) with true by lia. unfold on_events. compute_session.
  compute_session in Hev. rewrite Hev. destruct events as [e|]; [destruct (Unselect e) as [e' k] eqn:Eu|]; compute_session; split_and!; try done.
  cbn [fmap option_fmap option_map]. by rewrite Eu.
Qed.

Section Polls.
Context (t : nat -> Z) (st : state) (n0 : Z).
Hypothesis (He : Enabled (UnsolicitedCfg c) = true).
Hypothesis (H0 : reported st n0 true) (Hn0 : 0 <= n0).
Hypothesis (Ht0 : deadline (unsol (sess st)) <= t 0%nat).
Hypothesis (Ht : forall k, t k + U_ConfirmTimeout (UnsolicitedCfg c) <= t (S k)).

Lemma polled_repeats k : n0 + Z.of_nat k <= MaxRetries (UnsolicitedCfg c) ->
  reported (polled t (2 * k) st) (n0 + Z.of_nat k) true /\ deadline (unsol (sess (polled t (2 * k) st))) <= t (2 * k)%nat /\
  exists iins, length iins = k /\ sent (polled t (2 * k) st) = sent st ++ (report_fragment <$> iins).
Proof.
  induction k as [|k IH]; intros Hk.
  - cbn [polled Nat.mul]. rewrite Z.add_0_r. split; [done|]. split; [done|]. exists []. by rewrite app_nil_r.
  - destruct IH as (Hr & Hd & iins & Hl & Hs); [lia|]. replace (2 * S k)%nat with (S (S (2 * k))) by lia. cbn [polled].
    destruct (poll_timeout _ _ _ He Hr Hd ltac:(lia)) as [Hr1 Hs1].
    destruct (poll_repeats _ _ (t (S (2 * k))) He Hr1 ltac:(lia)) as (v & Hr2 & Hs2 & Hd2).
    split; [by replace (n0 + Z.of_nat (S k)) with (n0 + Z.of_nat k + 1) by lia|]. split; [rewrite Hd2; apply Ht|].
    exists (iins ++ [v]). rewrite length_app, Hl, fmap_app. split; [cbn; lia|]. by rewrite Hs2, Hs1, Hs, app_assoc.
Qed.
(** The poll between two repeats sends nothing. *)
Lemma polled_silent k : n0 + Z.of_nat k <= MaxRetries (UnsolicitedCfg c) ->
  sent (polled t (2 * k + 1) st) = sent (polled t (2 * k) st).
Proof.
  intros Hk. destruct (polled_repeats k Hk) as (Hr & Hd & _). rewrite Nat.add_1_r. cbn [polled].
  destruct (Z.lt_ge_cases (n0 + Z.of_nat k) (MaxRetries (UnsolicitedCfg c))) as [Hm|Hm].
  - apply (poll_timeout _ _ _ He Hr Hd Hm).
  - apply (poll_gives_up _ _ _ He Hr Hd Hm).
Qed.
End Polls.
End Repeats.

(** C14. A report the master does not confirm is repeated every second poll.  The session is
    connected over a link that takes what it is given, unsolicited responses are enabled, no
    READ is deferred and no response is pending, and the polls come at least the confirmation
    timeout apart, the first one past the deadline.  Then the polls alternate: one past the
    deadline notes the timeout and sends nothing, and the next one sends the report again under
    the same number and with the same content, so that [k] repeats take [2 * k] polls, until the
    retries counted are [MaxRetries].  The poll after that gives the report up: its events are no
    longer held, and all of them are still in the buffer. *)
Theorem unsolicited_repeated c q body events t st n0 :
  Enabled (UnsolicitedCfg c) = true -> reported c q body events st n0 true -> 0 <= n0 <= MaxRetries (UnsolicitedCfg c) ->
  deadline (unsol (sess st)) <= t 0%nat -> (forall k, t k + U_ConfirmTimeout (UnsolicitedCfg c) <= t (S k)) ->
  let repeats k st' := exists iins, length iins = k /\ sent st' = sent st ++ (report_fragment c q body <$> iins) in
  let n := Z.to_nat (MaxRetries (UnsolicitedCfg c) - n0) in
  (forall k, (k <= n)%nat -> repeats k (polled t (2 * k) st) /\ repeats k (polled t (2 * k + 1) st) /\
    db_events (db (sess (polled t (2 * k) st))) = events) /\
  (let st' := polled t (2 * n + 1) st in
   repeats n st' /\ u_awaiting (unsol (sess st')) = false /\ retained (unsol (sess st')) = false /\
   db_events (db (sess st')) = (fun b => fst (Unselect b)) <$> events).
Proof.
  intros He H0 Hn0 Ht0 Ht repeats n. unfold n. clear n. split.
  - intros k Hk. destruct (polled_repeats c q body events t st n0 He H0 ltac:(lia) Ht0 Ht k) as (Hr & _ & Hs); [lia|].
    split; [exact Hs|]. split; [|apply Hr]. unfold repeats. by rewrite (polled_silent c q body events t st n0 He H0 ltac:(lia) Ht0 Ht k) by lia.
  - destruct (polled_repeats c q body events t st n0 He H0 ltac:(lia) Ht0 Ht (Z.to_nat (MaxRetries (UnsolicitedCfg c) - n0)))
      as (Hr & Hd & iins & Hl & Hs); [lia|].
    rewrite Nat.add_1_r. cbn [polled].
    destruct (poll_gives_up c q body events _ _ _ He Hr Hd ltac:(lia)) as (Ha & Hret & Hs' & Hev).
    split_and!; try done. exists iins. split; [done|]. by rewrite Hs', Hs.
Qed.
End Unsolicited.
