(* ===== verification/Services.v ===== *)
(** * The extended services of an outstation (src/outstation/services.go, dataset.go, attribute.go)

    Device attributes, the clock and the indications as objects, times with intervals, virtual
    terminals, data sets, and the operations of the application a master may ask for.  A
    function that adds to a response takes the builder and returns it. *)

From stdpp Require Import gmap.
From S2P Require Import Prelude StateMonad Stack LinkLayer Values AppHeader AppObject AppFragment Objects Codecs FileObjects ExtObjects.
From S2P Require Import EventBuffer Database ExtendedDatabase Commands Response OutstationState Respond.

Section Services.
Context {Env : Environment} {LL : LinkLayer}.

Fixpoint each_b {T} (f : responseBuilder -> T -> M responseBuilder) (l : list T) (b : responseBuilder) : M responseBuilder :=
  match l with
  | [] => mret b
  | x :: l => b ← f b x; each_b f l b
  end.

(** The indexes of a run that a table of [n] points has. *)
Definition run_indexes (n : Z) (run : Z * Z) : list Z := seqZ run.1 (Z.min (run.2 + 1) n - run.1).

(** [forEachPointRun] with a callback that adds to the response, and the indication when the
    header does not name points. *)
Definition each_run (h : ObjectHeader) (f : responseBuilder -> Z * Z -> M responseBuilder) (b : responseBuilder)
    : M responseBuilder :=
  match forEachPointRun h with
  | None => raise_iin IINParameterError ;; mret b
  | Some runs => each_b f runs b
  end.

(** ** Attributes *)

Definition AttrAnalogOutputCount : Z := 221.
Definition AttrBinaryOutputCount : Z := 224.
Definition AttrCounterCount : Z := 229.
Definition AttrAnalogInputCount : Z := 233.
Definition AttrDoubleBitInputCount : Z := 236.
Definition AttrBinaryInputCount : Z := 239.
Definition AttrMaxTxFragment : Z := 240.
Definition AttrMaxRxFragment : Z := 241.

Definition derivedAttributes (c : Config) : list Attribute :=
  let n := DatabaseCfg c in
  let counts := [(AttrBinaryInputCount, n_Binary n); (AttrDoubleBitInputCount, n_DoubleBitBinary n);
    (AttrCounterCount, n_Counter n); (AttrAnalogInputCount, n_Analog n);
    (AttrBinaryOutputCount, n_BinaryOutputStatus n); (AttrAnalogOutputCount, n_AnalogOutputStatus n)] in
  ((fun c => UintAttribute c.1 (u64 c.2)) <$> List.filter (fun c => negb (c.2 <=? 0)) counts) ++
  [UintAttribute AttrMaxTxFragment (u64 (MaxTxFragment c)); UintAttribute AttrMaxRxFragment (u64 (MaxRxFragment c))].

Definition store_attribute (store : gmap (Z * Z) Attribute) (a : Attribute) : gmap (Z * Z) Attribute :=
  <[(A_Set a, A_Variation a) := a]> store.
Definition buildAttributes (c : Config) : gmap (Z * Z) Attribute :=
  if DisableAttributes c then ∅
  else fold_left store_attribute (Attributes c) (fold_left store_attribute (derivedAttributes c) ∅).

Definition attributeWritable (c : Config) (set variation : Z) : bool :=
  if (variation =? 0) || (AttrAll <=? variation) then false
  else existsb (fun id => (AI_Set id =? set) && (AI_Variation id =? variation)) (WritableAttributes c).

Definition writeAttribute (h : ObjectHeader) : M unit :=
  let r := ORange h in
  if negb (IsStartStop (Spec r)) || negb (Start r =? Stop r) || (255 <? Start r) || negb (ObjectHeader_Count h =? 1)
     || negb (IndexPrefix (Qualifier h) =? PrefixNone) then raise_iin IINParameterError
  else
    s ← gets id;
    let set := u8 (Start r) in
    let key := (set, Variation h) in
    match attributes s !! key with
    | None => raise_iin IINObjectUnknown
    | Some old =>
        match ParseAttribute set (Variation h) (Data h) with
        | Err _ => raise_iin IINParameterError
        | Ok (v, n) =>
            if negb (n =? len (Data h)) || negb (A_Type old =? A_Type v) || negb (attributeWritable (cfg s) set (Variation h))
            then raise_iin IINParameterError
            else
              accepted ← match AttributeWrite (cfg s) with
                         | None => mret true
                         | Some write => call (fun a => write a v)
                         end;
              if (accepted : bool) then modify (set_attributes (<[key := v]> (attributes s)))
              else raise_iin IINParameterError
        end
    end.

(** The attributes that answer a request.  Those of a set are sorted by variation; every one
    is stored under its own variation, an octet, so their order is that of the octets. *)
Definition attributesFor (s : Session) (set variation : Z) : list Attribute :=
  if variation =? AttrAll then omap (fun v => attributes s !! (set, v)) (seqZ 0 256)
  else match attributes s !! (set, variation) with Some a => [a] | None => [] end.

Definition with_attr_set (set : Z) (a : Attribute) : Attribute :=
  mkAttribute set (A_Variation a) (A_Type a) (A_Text a) (A_Number a) (A_Real a) (A_Octets a) (A_Time a).

Definition attributeHeader (frag : Fragment) : option ObjectHeader := find (fun h => Group h =? 0) (Objects frag).

Definition attribute_object (a : Attribute) (value : list Z) : ObjectHeader :=
  mkObjectHeader 0 (A_Variation a) (MakeQualifier PrefixNone RangeStartStop8)
    (mkRange RangeStartStop8 (A_Set a) (A_Set a) 1) value 0 0.

Fixpoint append_attributes (body : list Z) (attrs : list Attribute) : M (list Z) :=
  match attrs with
  | [] => mret body
  | a :: attrs =>
      match AppendAttribute [] a with
      | Err _ => raise_iin IINParameterError ;; append_attributes body attrs
      | Ok value => append_attributes (AppendObjectHeader body (attribute_object a value)) attrs
      end
  end.

Definition onAttributeRead (r : Received) (frag : Fragment) (h : ObjectHeader) : M (option SessionErr) :=
  s ← gets id;
  let set := if IsStartStop (Spec (ORange h)) then u8 (Start (ORange h)) else 0 in
  let attrs :=
    if Variation h =? AttrList then
      match attributesFor s set AttrAll with
      | [] => []
      | all => [with_attr_set set (ListAttribute
                 ((fun a => mkListItem (A_Variation a) (attributeWritable (cfg s) (A_Set a) (A_Variation a))) <$> all))]
      end
    else attributesFor s set (Variation h) in
  if len attrs =? 0 then raise_iin IINObjectUnknown ;; respond r (FHeader frag) []
  else
    body ← append_attributes [] attrs;
    bump AttributesRead ;;
    respond r (FHeader frag) body.

(** ** The clock and the indications *)

Definition time_object (variation : Z) (t : Timestamp) : ObjectHeader :=
  mkObjectHeader 50 variation (MakeQualifier PrefixNone RangeCount8) (mkRange RangeCount8 0 0 1)
    (AppendTime48 [] t) 0 0.

Definition readCurrentTime (h : ObjectHeader) (b : responseBuilder) : M responseBuilder :=
  let spec := Spec (ORange h) in
  if negb (spec =? RangeAllObjects)
     && (negb (IsCount spec) || negb (ObjectHeader_Count h =? 1) || negb (IndexPrefix (Qualifier h) =? PrefixNone))
  then raise_iin IINParameterError ;; mret b
  else now ← call appl_Now; mret (add b (time_object 1 (Now now))).

(** The octets of the bits [start] to [stop] of the indications. *)
Definition iin_octets (iin start stop : Z) : list Z :=
  let bits := Z.shiftr (u16 iin) start in
  let n := (stop - start + 8) / 8 in
  let data := (fun i => u8 (Z.shiftr bits (8 * i))) <$> seqZ 0 n in
  let rest := (stop - start + 1) mod 8 in
  if rest =? 0 then data
  else alter (fun o => Z.land o (Z.shiftl 1 rest - 1)) (Z.to_nat (n - 1)) data.

Definition readIIN (h : ObjectHeader) (b : responseBuilder) : M responseBuilder :=
  let r := ORange h in
  let bad := raise_iin IINParameterError ;; mret b in
  let read start stop :=
    if (stop <? start) || (15 <? stop) then bad
    else iin ← currentIIN; mret (add b (rangeObjectHeader (GV 80 1) (u16 start) (u16 stop) (iin_octets iin start stop))) in
  if IsStartStop (Spec r) then read (Start r) (Stop r)
  else if negb (Spec r =? RangeAllObjects) then bad
  else read 0 15.

(** ** Objects with an index *)

(** The indexes and octets the callback is called with; nothing when the header does not
    hold objects with an index. *)
Definition eachIndexedValue (h : ObjectHeader) (size : Z) : option (list (Z * list Z)) :=
  let p := IndexPrefix (Qualifier h) in
  let prefix := IndexPrefix_Octets p in
  if (size <=? 0) || (negb (IsStartStop (Spec (ORange h))) && (negb (IsCount (Spec (ORange h))) || negb (IsIndex p)))
  then None
  else if negb (u64 (ObjectHeader_Count h * (size + prefix)) =? len (Data h)) then None
  else Some ((fun i =>
    let off := i * (size + prefix) in
    (if 0 <? prefix then readPrefix (drop (Z.to_nat off) (Data h)) prefix else u32 (Start (ORange h) + i),
     slice (off + prefix) (off + prefix + size) (Data h))) <$> seqZ 0 (ObjectHeader_Count h)).

Definition time_interval_octets (v : TimeAndInterval) : list Z :=
  (AppendTime48 [] (TI_Time v) ++ le32 (Interval v)) ++ [Units v].

Definition readTimeIntervals (h : ObjectHeader) (b : responseBuilder) : M responseBuilder :=
  each_run h (fun b run =>
    d ← gets db;
    mret (fold_left (fun b i => add b (rangeObjectHeader (GV 50 4) (u16 i) (u16 i)
                                  (time_interval_octets (Database_TimeAndInterval d (u16 i)).1)))
            (run_indexes (n_TimeAndInterval (Counts d)) run) b)) b.

Definition write_time_interval (v : Z * list Z) : M unit :=
  let '(index, data) := v in
  if (65535 <? index) || (9 <? at_ data 10) then raise_iin IINParameterError
  else
    d ← gets db;
    let '(d, stored) := UpdateTimeAndInterval d (u16 index)
      (mkTimeAndInterval (ParseTime48 data) (le_val (slice 6 10 data)) (at_ data 10)) in
    if (stored : bool) then change_db (fun _ => d) else raise_iin IINParameterError.

Definition writeTimeIntervals (h : ObjectHeader) : M unit :=
  match eachIndexedValue h 11 with
  | None => raise_iin IINParameterError
  | Some values => each write_time_interval values
  end.

(** ** Virtual terminals *)

Definition readTerminals (h : ObjectHeader) (b : responseBuilder) : M responseBuilder :=
  each_run h (fun b run =>
    d ← gets db;
    mret (fold_left (fun b i =>
            let v := match terminal d !! Z.to_nat i with Some p => read (arrays d) (value p) | None => [] end in
            if 0 <? len v then add b (rangeObjectHeader (GV 112 (u8 (len v))) (u16 i) (u16 i) v) else b)
          (run_indexes (len (terminal d)) run) b)) b.

Definition write_terminal (write : App -> Z -> list Z -> App * bool) (v : Z * list Z) : M unit :=
  let '(index, data) := v in
  d ← gets db;
  if u32 (n_VirtualTerminal (Counts d)) <=? index then raise_iin IINParameterError
  else
    accepted ← call (fun a => write a (u16 index) data);
    if (accepted : bool) then mret tt else raise_iin IINParameterError.

Definition writeTerminals (h : ObjectHeader) : M unit :=
  c ← gets cfg;
  match TerminalWrite c with
  | None => raise_iin IINNoFuncCodeSupport
  | Some write =>
      match eachIndexedValue h (Variation h) with
      | None => raise_iin IINParameterError
      | Some values => each (write_terminal write) values
      end
  end.

(** ** Data sets *)

Definition dataset_header (group variation index : Z) (value : list Z) : ObjectHeader :=
  if (group =? 86) && (variation =? 2) then rangeObjectHeader (GV 86 2) (u16 index) (u16 index) value
  else match FreeFormat group variation value with
       | Ok h => h
       | Err _ => mkObjectHeader 0 0 0 (mkRange 0 0 0 0) [] 0 0
       end.

Definition read_dataset (group variation : Z) (b : responseBuilder) (index : Z) : M responseBuilder :=
  s ← gets id;
  match datasets (db s) !! (group, variation, u16 index) with
  | None => mret b
  | Some value =>
      let header := dataset_header group variation index value in
      if MaxTxFragment (cfg s) <? ObjectHeader_Size header + ResponseHeaderSize
      then raise_iin IINParameterError ;; mret b
      else mret (add b header)
  end.

Definition readDatasets (h : ObjectHeader) (b : responseBuilder) : M responseBuilder :=
  let variation := if Variation h =? 0 then 1 else Variation h in
  if negb (datasetVariationKnown (Group h) variation) then raise_iin IINObjectUnknown ;; mret b
  else each_run h (fun b run => each_b (read_dataset (Group h) variation) (run_indexes 65536 run) b) b.

Definition write_dataset (h : ObjectHeader) (write : App -> Z -> Z -> list Z -> App * bool) (v : list Z) : M unit :=
  let described := (Group h =? 85) || ((Group h =? 86) && (Variation h =? 1)) in
  if described && negb (is_ok (ParseDatasetDescriptor v)) then raise_iin IINParameterError
  else
    accepted ← call (fun a => write a (Group h) (Variation h) v);
    if (accepted : bool) then mret tt else raise_iin IINParameterError.

Definition writeDatasets (h : ObjectHeader) : M unit :=
  c ← gets cfg;
  if negb (datasetVariationKnown (Group h) (Variation h)) || ((Group h =? 86) && (Variation h =? 2))
  then raise_iin IINObjectUnknown
  else
    match DatasetWrite c with
    | None => raise_iin IINNoFuncCodeSupport
    | Some write =>
        if negb (Qualifier h =? FreeFormatQualifier) then raise_iin IINParameterError
        else
          match FreeFormatObjects h with
          | Err _ => raise_iin IINParameterError
          | Ok values =>
              if negb (u32 (len values) =? ObjectHeader_Count h) then raise_iin IINParameterError
              else each (write_dataset h write) values
          end
    end.

(** ** Operations of the application *)

(** The names of an ACTIVATE_CONFIG request, when it is well formed. *)
Fixpoint activation_names (hs : list ObjectHeader) : option (list (list Z)) :=
  match hs with
  | [] => Some []
  | h :: hs =>
      if negb (Group h =? 70) || negb (Variation h =? 8) || negb (Qualifier h =? FreeFormatQualifier) then None
      else
        match FreeFormatObjects h with
        | Err _ => None
        | Ok data => if existsb (fun v => len v =? 0) data then None else app data <$> activation_names hs
        end
  end.

Definition activate (apply : App -> list (list Z) -> App * ActivationResult) (r : Received) (frag : Fragment)
    : M (option SessionErr) :=
  let refuse := raise_iin IINParameterError ;; respond r (FHeader frag) [] in
  match activation_names (Objects frag) with
  | None | Some [] => refuse
  | Some names =>
      result ← call (fun a => apply a names);
      match AppendActivationResult [] result with
      | Err _ => refuse
      | Ok value =>
          let h := mkObjectHeader 91 1 (MakeQualifier PrefixNone RangeCount8) (mkRange RangeCount8 0 0 1) value 0 0 in
          c ← gets cfg;
          if MaxTxFragment c <? ObjectHeader_Size h + ResponseHeaderSize then refuse
          else respond r (FHeader frag) (AppendObjectHeader [] h)
      end
  end.

Definition onManagement (r : Received) (frag : Fragment) : M (option SessionErr) :=
  c ← gets cfg;
  match ActivateConfig c, Func (FHeader frag) =? FuncActivateConfig with
  | Some apply, true => activate apply r frag
  | _, _ =>
      match Management c with
      | None => raise_iin IINNoFuncCodeSupport
      | Some manage =>
          accepted ← call (fun a => manage a (Func (FHeader frag)) (drop (Z.to_nat (Header_Size (FHeader frag))) (Raw frag)));
          if (accepted : bool) then mret tt else raise_iin IINParameterError
      end ;;
      if Broadcast r then ok else respond r (FHeader frag) []
  end.

End Services.
