(* ===== verification/Freeze.v ===== *)
(** * Freezes (src/outstation/freeze.go, [onFreeze] of session.go)

    Freezes carried out at once, and those that wait for their moment.

    The theorem: every freeze that is due is carried out once, with the moment it was due, and
    what is left waits for a moment still to come; a freeze that repeats keeps to the multiples
    of its interval ([freezes_on_time]). *)

From S2P Require Import Prelude StateMonad Stack LinkLayer Values AppHeader AppObject AppFragment Objects Codecs EventBuffer Database.
From S2P Require Import ExtendedDatabase Commands Response OutstationState Respond.

(** [int64] arithmetic wraps. *)
Definition i64 (x : Z) : Z := int_of 64 (uint_of 64 x).

Section Freezes.
Context {Env : Environment} {LL : LinkLayer}.

(** ** At once *)

(** The moment of a freeze, as good as the clock. *)
Definition freeze_time (s : Session) (t : Z) : Timestamp := if synchronized s then Now t else Unsynchronized t.

Definition freeze_counters (clear : bool) (t : Timestamp) (run : Z * Z) : M unit :=
  change_db (fun d => if clear then freezeClearCountersRange d run.1 run.2 t else freezeCountersRange d run.1 run.2 t).
Definition freeze_analogs (clear : bool) (t : Timestamp) (run : Z * Z) : M unit :=
  change_db (fun d => freezeAnalogsRange d run.1 run.2 t clear).

Definition freeze_header (clear : bool) (t : Timestamp) (h : ObjectHeader) : M unit :=
  if Group h =? 30 then
    match forEachPointRun h with
    | Some runs => each (freeze_analogs clear t) runs
    | None => raise_iin IINParameterError
    end
  else if negb (Group h =? 20) then raise_iin IINObjectUnknown
  else
    match forEachPointRun h with
    | Some runs => each (freeze_counters clear t) runs
    | None => raise_iin IINParameterError
    end.

Definition onFreeze (frag : Fragment) (clear : bool) : M unit :=
  now ← call appl_Now;
  s ← gets id;
  let t := freeze_time s now in
  if len (Objects frag) =? 0 then freeze_counters clear t (0, 0xFFFF) ;; freeze_analogs clear t (0, 0xFFFF)
  else each (freeze_header clear t) (Objects frag).

(** ** At a time *)

Definition maxFreezeSchedules : Z := 16.

(** What the headers of a request say: the time and the interval of its first object of
    group 50, the ranges of counters and analogs, and whether it named any. *)
Record freezeRequest := mkFreezeRequest {
  fr_time : option (Z * Z); fr_ranges : list (Z * Z); fr_analogs : list (Z * Z); fr_named : bool }.

(** The loop over the headers, or the indication it ends with. *)
Fixpoint freeze_request (hs : list ObjectHeader) (q : freezeRequest) : freezeRequest + Z :=
  match hs with
  | [] => inl q
  | h :: hs =>
      if (Group h =? 50) && (Variation h =? 2) && negb (bool_decide (is_Some (fr_time q))) then
        let skip := IndexPrefix_Octets (IndexPrefix (Qualifier h)) in
        if negb (ObjectHeader_Count h =? 1) || (len (Data h) <? skip + Time48Size + 4) then inr IINParameterError
        else
          let d := drop (Z.to_nat skip) (Data h) in
          let ms := le_val (slice 6 10 d) in
          freeze_request hs (mkFreezeRequest (Some (TTime (ParseTime48 d), ms * 1000000)) (fr_ranges q) (fr_analogs q) (fr_named q))
      else if Group h =? 30 then
        match forEachPointRun h with
        | None => inr IINParameterError
        | Some runs => freeze_request hs (mkFreezeRequest (fr_time q) (fr_ranges q) (fr_analogs q ++ runs) true)
        end
      else if Group h =? 20 then
        match forEachPointRun h with
        | None => inr IINParameterError
        | Some runs => freeze_request hs (mkFreezeRequest (fr_time q) (fr_ranges q ++ runs) (fr_analogs q) true)
        end
      else inr IINObjectUnknown
  end.

(** The first multiple of the interval after [now], for a freeze that was due at [t]. *)
Definition next_multiple (t interval now : Z) : Z :=
  t + i64 (i64 (Z.quot (time_Sub now t) interval + 1) * interval).

Definition onFreezeAtTime (frag : Fragment) : M unit :=
  match freeze_request (Objects frag) (mkFreezeRequest None [] [] false) with
  | inr mask => raise_iin mask
  | inl q =>
      match fr_time q with
      | None => raise_iin IINParameterError
      | Some (first, interval) =>
          let ranges := if fr_named q then fr_ranges q else [(0, 0xFFFF)] in
          let analogs := if fr_named q then fr_analogs q else [(0, 0xFFFF)] in
          now ← call appl_Now;
          if (first <? now) && (interval <=? 0) then raise_iin IINParameterError
          else
            let next := if first <? now then next_multiple first interval now else first in
            s ← gets id;
            let f := mkFreeze next interval ranges analogs in
            if bool_decide (f ∈ freezes s) then raise_iin IINAlreadyExecuting
            else if maxFreezeSchedules <=? len (freezes s) then raise_iin IINParameterError
            else modify (set_freezes (freezes s ++ [f]))
      end
  end.

(** One schedule: what is left of it. *)
Definition run_freeze (now : Z) (f : freezeSchedule) : M (list freezeSchedule) :=
  if now <? f_next f then mret [f]
  else
    s ← gets id;
    let t := freeze_time s (f_next f) in
    each (freeze_counters false t) (f_ranges f) ;;
    each (freeze_analogs false t) (f_analogRanges f) ;;
    bump ScheduledFreezes ;;
    mret (if f_interval f <=? 0 then []
          else [mkFreeze (next_multiple (f_next f) (f_interval f) now) (f_interval f) (f_ranges f) (f_analogRanges f)]).

Fixpoint run_freezes (now : Z) (fs : list freezeSchedule) : M (list freezeSchedule) :=
  match fs with
  | [] => mret []
  | f :: fs => kept ← run_freeze now f; rest ← run_freezes now fs; mret (kept ++ rest)
  end.

Definition runFreezes (now : Z) : M unit :=
  s ← gets id;
  if len (freezes s) =? 0 then mret tt
  else kept ← run_freezes now (freezes s); modify (set_freezes kept).

(** ** Freezes at their time *)

(** What is left of a schedule once [now] has come. *)
Definition reschedule (now : Z) (f : freezeSchedule) : option freezeSchedule :=
  if now <? f_next f then Some f
  else if f_interval f <=? 0 then None
  else Some (mkFreeze (f_next f + ((now - f_next f) / f_interval f + 1) * f_interval f) (f_interval f) (f_ranges f) (f_analogRanges f)).

(** The database once a schedule was carried out. *)
Definition frozen_by (s : Session) (d : Database) (f : freezeSchedule) : Database :=
  let t := freeze_time s (f_next f) in
  fold_left (fun d run => freezeAnalogsRange d run.1 run.2 t false) (f_analogRanges f)
    (fold_left (fun d run => freezeCountersRange d run.1 run.2 t) (f_ranges f) d).

Definition due (now : Z) (f : freezeSchedule) : bool := f_next f <=? now.

(** Times and intervals whose differences a [time.Duration] holds. *)
Definition schedulable (now : Z) (f : freezeSchedule) : Prop :=
  now - f_next f < 2 ^ 62 /\ f_interval f < 2 ^ 62.

Lemma next_multiple_exact t i now :
  t <= now -> now - t < 2 ^ 62 -> 0 < i < 2 ^ 62 -> next_multiple t i now = t + ((now - t) / i + 1) * i.
Proof.
  intros Ht Hn Hi. unfold next_multiple, time_Sub. rewrite Z.min_r, Z.max_r by lia. rewrite Z.quot_div_nonneg by lia.
  assert (Hq : 0 <= (now - t) / i) by (apply Z.div_pos; lia).
  assert (Hm : ((now - t) / i) * i <= now - t) by (rewrite Z.mul_comm; apply Z.mul_div_le; lia).
  assert (Hwrap : forall x, 0 <= x < 2 ^ 63 -> i64 x = x).
  { intros x Hx. unfold i64, int_of, uint_of. rewrite Z.mod_small by lia. by replace (x <? _) with true by lia. }
  assert (Hle : (now - t) / i <= now - t) by (apply Z.div_le_upper_bound; nia).
  rewrite !Hwrap by (try rewrite Hwrap; nia). done.
Qed.

Lemma each_change_db {T} (g : T -> Database -> Database) l st :
  each (fun x => change_db (g x)) l st =
    (mkState (set_sdb (fold_left (fun d x => g x d) l (db (sess st))) (sess st)) (appl st) (host st) (wire st) (sent st), tt).
Proof.
  revert st. induction l as [|x l IH]; intros st; cbn [each fold_left].
  - unfold mret, M_ret. destruct st as [s ? ? ? ?]. by destruct s as [? [] ].
  - unfold mbind, M_bind. cbn [change_db modify]. rewrite IH. done.
Qed.

(** What carrying out freezes changes: the database, and no more of what matters here. *)
Definition froze (f : Database -> Database) (st st' : state) : Prop :=
  db (sess st') = f (db (sess st)) /\ freezes (sess st') = freezes (sess st) /\
  synchronized (sess st') = synchronized (sess st) /\ appl st' = appl st /\ sent st' = sent st.

Lemma run_freeze_spec now f st :
  schedulable now f ->
  (run_freeze now f st).2 = option_list (reschedule now f) /\
  froze (fun x => if due now f then frozen_by (sess st) x f else x) st (run_freeze now f st).1.
Proof.
  intros [Hn Hi]. unfold due, run_freeze, reschedule, froze. destruct (now <? f_next f) eqn:El.
  { by replace (_ <=? now) with false by lia. }
  replace (_ <=? now) with true by lia. unfold freeze_counters, freeze_analogs. compute_session.
  rewrite (each_change_db (fun run d => freezeCountersRange d run.1 run.2 _)).
  rewrite (each_change_db (fun run d => freezeAnalogsRange d run.1 run.2 _ false)). compute_session.
  split; [|by split_and!].
  destruct (f_interval f <=? 0) eqn:E0; [done|]. by rewrite next_multiple_exact by lia.
Qed.

Lemma run_freezes_spec now fs st :
  Forall (schedulable now) fs ->
  (run_freezes now fs st).2 = omap (reschedule now) fs /\
  froze (fold_left (frozen_by (sess st)) (filter (fun f => due now f = true) fs)) st (run_freezes now fs st).1.
Proof.
  intros Hfs. revert st. induction Hfs as [|f fs Hf Hfs IH]; intros st; cbn [run_freezes]; [by split_and!|].
  destruct (run_freeze_spec now f st Hf) as (E1 & D1 & F1 & S1 & A1 & T1). unfold mbind, M_bind.
  destruct (run_freeze now f st) as [st1 kept]. cbn [fst snd] in *. subst kept.
  destruct (IH st1) as (E2 & D2 & F2 & S2 & A2 & T2).
  destruct (run_freezes now fs st1) as [st2 rest]. cbn [fst snd] in *. subst rest. split.
  { unfold mret, M_ret. cbn [snd omap list_omap]. by destruct (reschedule now f). }
  assert (Hs : frozen_by (sess st1) = frozen_by (sess st)) by (unfold frozen_by, freeze_time; by rewrite S1).
  unfold froze, mret, M_ret. cbn [fst]. rewrite D2, D1, F2, F1, S2, S1, A2, A1, T2, T1, Hs, filter_cons.
  split_and!; try done. destruct (due now f); [by rewrite decide_True | by rewrite decide_False].
Qed.

Lemma reschedule_later now f f' :
  reschedule now f = Some f' ->
  now < f_next f' /\ f_interval f' = f_interval f /\ (f' = f \/ 0 < f_interval f /\ f_next f' <= now + f_interval f /\ (f_interval f | f_next f' - f_next f)).
Proof.
  unfold reschedule. destruct (now <? f_next f) eqn:El; [intros [= <-]; split_and!; auto; lia|].
  destruct (f_interval f <=? 0) eqn:E0; [done|]. intros [= <-]. cbn [f_next f_interval].
  pose proof (Z.div_mod (now - f_next f) (f_interval f) ltac:(lia)). pose proof (Z.mod_pos_bound (now - f_next f) (f_interval f) ltac:(lia)).
  split; [nia|]. split; [done|]. right. split_and!; [lia | nia|]. exists ((now - f_next f) / f_interval f + 1). lia.
Qed.

(** When the ticker fires at [now], every freeze that is due is carried out, once, over its
    ranges and with the moment it was scheduled for, in the order they were asked for; those
    that do not repeat are then over, and every one that is left waits for a moment after
    [now]: the one it waited for, or the next that is a whole number of intervals later. *)
Theorem freezes_on_time now st :
  Forall (schedulable now) (freezes (sess st)) ->
  let st' := (runFreezes now st).1 in
  db (sess st') = fold_left (frozen_by (sess st)) (filter (fun f => due now f = true) (freezes (sess st))) (db (sess st)) /\
  freezes (sess st') = omap (reschedule now) (freezes (sess st)) /\
  Forall (fun f' => now < f_next f' /\ exists f, f ∈ freezes (sess st) /\
    (f' = f \/ f_next f <= now /\ f_next f' <= now + f_interval f /\ (f_interval f | f_next f' - f_next f))) (freezes (sess st')).
Proof.
  intros Hf st'. destruct (run_freezes_spec now (freezes (sess st)) st Hf) as (E & D & _).
  assert (H : db (sess st') = fold_left (frozen_by (sess st)) (filter (fun f => due now f = true) (freezes (sess st))) (db (sess st)) /\
              freezes (sess st') = omap (reschedule now) (freezes (sess st))).
  { destruct (len (freezes (sess st)) =? 0) eqn:E0.
    - assert (Es : st' = st) by (unfold st', runFreezes, mbind, M_bind, gets; cbn [id]; by rewrite E0).
      assert (Ef : freezes (sess st) = []) by (destruct (freezes (sess st)) as [|f l]; [done|]; rewrite len_cons in E0; pose proof (len_nonneg l); lia).
      by rewrite Es, Ef.
    - unfold st', runFreezes, mbind, M_bind, gets. cbn [id]. rewrite E0. destruct (run_freezes now _ st) as [st1 kept].
      cbn [fst snd] in *. subst kept. by split. }
  destruct H as [H1 H2]. split; [done|]. split; [done|]. rewrite H2. apply Forall_forall. intros f' (f & Hin & Hr)%list_elem_of_omap.
  assert (Hdue : f' = f \/ f_next f <= now).
  { unfold reschedule in Hr. destruct (now <? f_next f) eqn:El; [left; by injection Hr | right; lia]. }
  destruct (reschedule_later _ _ _ Hr) as (Hl & _ & Hx). split; [done|]. exists f. split; [done|]. naive_solver.
Qed.

(** At most sixteen freezes wait. *)
Lemma onFreezeAtTime_bounded frag st :
  len (freezes (sess st)) <= maxFreezeSchedules -> len (freezes (sess (onFreezeAtTime frag st).1)) <= maxFreezeSchedules.
Proof.
  intros H. unfold onFreezeAtTime. destruct (freeze_request _ _) as [q|m]; [|done]. destruct (fr_time q) as [[first interval]|]; [|done].
  unfold call. compute_session. destruct (appl_Now _) as [a now]. compute_session. destruct (_ && _); [done|]. compute_session.
  destruct (bool_decide _); [done|]. destruct (_ <=? _) eqn:El; [done|]. compute_session. rewrite len_app, len_cons, len_nil. lia.
Qed.
End Freezes.
