(* ===== verification/FileServer.v ===== *)
(** * File transfer (src/outstation/file.go, file_auth.go)

    A session serves one file at a time: it opens a file, hands out or takes its blocks in
    order, and closes it.  The handler that owns the files is a parameter ([FileHandler]), and
    so are the readers and writers it returns.  The theorems are in FileTransfer. *)

From stdpp Require Import gmap.
From S2P Require Import Prelude StateMonad Stack LinkLayer Values AppHeader AppObject AppFragment Objects Codecs FileObjects ExtObjects.
From S2P Require Import EventBuffer Database ExtendedDatabase Commands Response OutstationState Respond.

Section FileServer.
Context {Env : Environment} {LL : LinkLayer}.

(** ** Buffered reading

    [bufio.Reader] and [io.ReadFull] over the reader of a transfer. *)

Definition src_Read (src : source) (n : Z) : M (source * list Z * option ReadErr) :=
  match src with
  | FromHandler r => '(data, err) ← call (fun a => reader_Read a r n); mret (FromHandler r, data, err)
  | InMemory [] => mret (InMemory [], [], Some EOF)
  | InMemory rest => mret (InMemory (drop (Z.to_nat n) rest), take (Z.to_nat n) rest, None)
  end.

Definition NewReaderSize (size : Z) : bufReader := mkBufReader (Z.max size 16) [] None.

(** [Read] into [n] octets. *)
Definition br_Read (src : source) (br : bufReader) (n : Z) : M (source * bufReader * list Z * option ReadErr) :=
  match br_buf br, br_err br with
  | [], Some e => mret (src, mkBufReader (br_size br) [] None, [], Some e)
  | [], None =>
      if br_size br <=? n then
        '(src, data, err) ← src_Read src n;
        mret (src, mkBufReader (br_size br) [] None, data, err)
      else
        '(src, data, err) ← src_Read src (br_size br);
        mret (if len data =? 0 then (src, mkBufReader (br_size br) [] None, [], err)
              else (src, mkBufReader (br_size br) (drop (Z.to_nat n) data) err, take (Z.to_nat n) data, None))
  | buf, err => mret (src, mkBufReader (br_size br) (drop (Z.to_nat n) buf) err, take (Z.to_nat n) buf, None)
  end.

(** [io.ReadFull], with what it has so far.  A turn that ends neither with octets nor with an
    error is against the contract of a reader; the loop of the source would go on, and here
    it ends with [ErrNoProgress]. *)
Fixpoint read_full (fuel : nat) (src : source) (br : bufReader) (n : Z) (got : list Z)
    : M (source * bufReader * list Z * option ReadErr) :=
  if n <=? len got then mret (src, br, got, None)
  else
    match fuel with
    | O => mret (src, br, got, Some ErrNoProgress)
    | S fuel =>
        '(src, br, data, err) ← br_Read src br (n - len got);
        let got := got ++ data in
        match err with
        | None => read_full fuel src br n got
        | Some e =>
            mret (src, br, got,
              if n <=? len got then None
              else match e with EOF => Some (if 0 <? len got then ErrUnexpectedEOF else EOF) | _ => Some e end)
        end
    end.

(** [fill] tries a hundred times. *)
Fixpoint br_fill (tries : nat) (src : source) (br : bufReader) : M (source * bufReader) :=
  match tries with
  | O => mret (src, mkBufReader (br_size br) (br_buf br) (Some ErrNoProgress))
  | S tries =>
      '(src, data, err) ← src_Read src (br_size br - len (br_buf br));
      let br' := mkBufReader (br_size br) (br_buf br ++ data) err in
      match err with
      | Some _ => mret (src, br')
      | None => if 0 <? len data then mret (src, br') else br_fill tries src br'
      end
  end.

(** [Peek(1)]: the error it returns, if it does. *)
Definition br_Peek1 (src : source) (br : bufReader) : M (source * bufReader * option ReadErr) :=
  '(src, br) ← (match br_buf br, br_err br with
                | [], None => br_fill 100 src br
                | _, _ => mret (src, br)
                end);
  match br_buf br with
  | [] => mret (src, mkBufReader (br_size br) [] None, br_err br)
  | _ => mret (src, br, None)
  end.

(** ** The transfer in flight *)

Definition with_reading (src : source) (br : bufReader) (t : transfer) : transfer :=
  mkTransfer (handle t) (t_name t) (t_mode t) (Some src) br (t_w t) (t_block t) (blockSize t) (t_size t)
    (t_received t) (t_deadline t) (t_done t).
Definition with_deadline (v : Z) (t : transfer) : transfer :=
  mkTransfer (handle t) (t_name t) (t_mode t) (t_r t) (t_br t) (t_w t) (t_block t) (blockSize t) (t_size t)
    (t_received t) v (t_done t).
Definition with_handle (v : Z) (t : transfer) : transfer :=
  mkTransfer v (t_name t) (t_mode t) (t_r t) (t_br t) (t_w t) (t_block t) (blockSize t) (t_size t)
    (t_received t) (t_deadline t) (t_done t).
(** The next block, with what was received so far, and whether the last one passed. *)
Definition next_block (received : Z) (last : bool) (t : transfer) : transfer :=
  mkTransfer (handle t) (t_name t) (t_mode t) (t_r t) (t_br t) (t_w t) (u32 (t_block t + 1)) (blockSize t) (t_size t)
    received (t_deadline t) last.

(** [transfer.close]; [false] is an error. *)
Definition transfer_close (t : transfer) : M bool :=
  match t_r t, t_w t with
  | Some (FromHandler r), _ => call (fun a => reader_Close a r)
  | Some (InMemory _), _ => mret true
  | None, Some w => call (fun a => writer_Close a w)
  | None, None => mret true
  end.

Definition closeFile : M bool :=
  f ← gets file;
  match f with
  | None => mret true
  | Some t => modify (set_file None) ;; transfer_close t
  end.

Definition checkFileTimeout (now : Z) : M unit :=
  f ← gets file;
  match f with
  | None => mret tt
  | Some t => if now <? t_deadline t then mret tt else (_ ← closeFile; bump FileTimeouts)
  end.

Definition readBlock (t : transfer) : M (transfer * result ReadErr (list Z * bool)) :=
  match t_r t with
  | None => mret (t, Err EOF)
  | Some src =>
      '(src, br, buf, err) ← read_full (Z.to_nat (blockSize t) + 1) src (t_br t) (blockSize t) [];
      match err with
      | None =>
          '(src, br, perr) ← br_Peek1 src br;
          mret (with_reading src br t,
            match perr with
            | None => Ok (buf, false)
            | Some EOF => Ok (buf, true)
            | Some e => Err e
            end)
      | Some EOF | Some ErrUnexpectedEOF => mret (with_reading src br t, Ok (buf, true))
      | Some e => mret (with_reading src br t, Err e)
      end
  end.

(** ** Answers *)

Definition fileObject (frag : Fragment) : option ObjectHeader := find (fun h => Group h =? 70) (Objects frag).

Definition fileEnabled (s : Session) : bool := bool_decide (is_Some (F_Handler (Files (cfg s)))).

Definition unsupportedFile (r : Received) (req : Header) : M (option SessionErr) :=
  bump UnknownFunction ;;
  raise_iin IINNoFuncCodeSupport ;;
  if Broadcast r then ok else respond r req [].

Definition parameter_error (r : Received) (req : Header) : M (option SessionErr) :=
  raise_iin IINParameterError ;; respond r req [].

Definition respondFile (r : Received) (req : Header) (variation : Z) (obj : list Z) : M (option SessionErr) :=
  match FreeFormat 70 variation obj with
  | Err _ => parameter_error r req
  | Ok h => respond r req (AppendObjectHeader [] h)
  end.

Definition commandStatus (r : Received) (req : Header) (st : FileCommandStatus) : M (option SessionErr) :=
  when (negb (FS_Status st =? FileSuccess)) (bump FileErrors) ;;
  respondFile r req 4 (AppendFileCommandStatus [] st).

Definition transportStatus (r : Received) (req : Header) (st : FileTransportStatus) : M (option SessionErr) :=
  when (negb (TS_Status st =? FileSuccess)) (bump FileErrors) ;;
  respondFile r req 6 (AppendFileTransportStatus [] st).

(** ** Authentication *)

(** A key that is not zero.  A draw is zero once in 2^32; after a thousand of them the model
    gives up, where the source would draw on. *)
Fixpoint draw_key (fuel : nat) : M (option Z) :=
  match fuel with
  | O => mret None
  | S fuel =>
      octets ← host_call (fun h => rand_Read h 4);
      match octets with
      | None => mret None
      | Some o => if le_val o =? 0 then draw_key fuel else mret (Some (le_val o))
      end
  end.

Definition fileAuthorized (source key : Z) : M bool :=
  s ← gets id;
  match F_Authenticate (Files (cfg s)) with
  | None => mret (key =? 0)
  | Some _ =>
      if negb (key =? 0) && (key =? fa_key (fileAuth s)) && (source =? fa_source (fileAuth s))
      then now ← call appl_Now; mret (now <? fa_until (fileAuth s))
      else mret false
  end.

(** The credentials of a request, when it is well formed. *)
Definition file_credentials (frag : Fragment) : option FileAuth :=
  h ← fileObject frag;
  if negb (len (Objects frag) =? 1) || negb (Variation h =? 2) || negb (ObjectHeader_Count h =? 1) then None
  else
    match FirstFreeFormatObject h with
    | Err _ => None
    | Ok data =>
        match ParseFileAuth data with
        | Err _ => None
        | Ok a => if FA_Key a =? 0 then Some a else None
        end
    end.

Definition onAuthenticateFile (r : Received) (frag : Fragment) : M (option SessionErr) :=
  s ← gets id;
  match F_Authenticate (Files (cfg s)) with
  | Some authenticate =>
      if negb (fileEnabled s) then unsupportedFile r (FHeader frag)
      else
        match file_credentials frag with
        | None => parameter_error r (FHeader frag)
        | Some a =>
            modify (set_fileAuth fileAuthorization0) ;;
            accepted ← call (fun w => authenticate w (FA_User a) (FA_Password a));
            let answer :=
              s ← gets id;
              respondFile r (FHeader frag) 2 (AppendFileAuth [] (mkFileAuth [] [] (fa_key (fileAuth s)))) in
            if (accepted : bool) then
              key ← draw_key 1000;
              match key with
              | None => mret (Some SErrRand)
              | Some key =>
                  now ← call appl_Now;
                  modify (set_fileAuth (mkFileAuthorization key (Source r) (now + F_Timeout (Files (cfg s))))) ;;
                  answer
              end
            else answer
        end
  | None => unsupportedFile r (FHeader frag)
  end.

(** ** Opening *)

Definition negotiateBlockSize (c : Config) (requested : Z) : Z :=
  let size := F_MaxBlockSize (Files c) in
  let size := if (0 <? requested) && (requested <? size) then requested else size in
  let room := MaxTxFragment c - 32 in
  if (0 <? room) && (room <? size) then u16 room else size.

Definition parseFileCommand (frag : Fragment) : option FileCommand :=
  h ← fileObject frag;
  match FirstFreeFormatObject h with
  | Err _ => None
  | Ok obj => match ParseFileCommand obj with Err _ => None | Ok c => Some c end
  end.

Definition directoryContents (h : FileHandler) (cmd : FileCommand) : M (list Z * Z) :=
  '(entries, status) ← call (fun a => FH_List h a (FC_Name cmd));
  mret (if status =? FileSuccess
        then (fold_left (fun content e => AppendFileDescriptor content (DescriptorFor e (FC_RequestID cmd))) entries [], FileSuccess)
        else ([], status)).

(** A transfer for reading, and one for writing. *)
Definition reading_transfer (cmd : FileCommand) (bs size : Z) (src : source) : transfer :=
  mkTransfer 0 (FC_Name cmd) (FC_Mode cmd) (Some src) (NewReaderSize (bs + 1)) None 0 bs size 0 zeroTime false.
Definition writing_transfer (cmd : FileCommand) (bs : Z) (w : Writer) : transfer :=
  mkTransfer 0 (FC_Name cmd) (FC_Mode cmd) None (mkBufReader 0 [] None) (Some w) 0 bs (FC_Size cmd) 0 zeroTime false.

Definition openTransfer (h : FileHandler) (cmd : FileCommand) : M (option transfer * Z) :=
  c ← gets cfg;
  let bs := negotiateBlockSize c (FC_MaxBlockSize cmd) in
  if FC_Mode cmd =? FileModeRead then
    '(info, status) ← call (fun a => FH_Info h a (FC_Name cmd));
    if negb (status =? FileSuccess) then mret (None, status)
    else if IsDir info then
      '(content, status) ← directoryContents h cmd;
      if negb (status =? FileSuccess) then mret (None, status)
      else mret (Some (reading_transfer cmd bs (u32 (len content)) (InMemory content)), FileSuccess)
    else
      '(rc, _, status) ← call (fun a => FH_OpenRead h a (FC_Name cmd));
      if negb (status =? FileSuccess) then mret (None, status)
      else mret (Some (reading_transfer cmd bs (FI_Size info) (FromHandler rc)), FileSuccess)
  else if (FC_Mode cmd =? FileModeWrite) || (FC_Mode cmd =? FileModeAppend) then
    '(wc, status) ← call (fun a => FH_OpenWrite h a (FC_Name cmd) (FC_Mode cmd) (FC_Size cmd));
    if negb (status =? FileSuccess) then mret (None, status)
    else mret (Some (writing_transfer cmd bs wc), FileSuccess)
  else mret (None, FileInvalidMode).

(** [FileCommandStatus] with a request's identifier and a status. *)
Definition file_reply (handle size block request status : Z) : FileCommandStatus :=
  mkFileCommandStatus handle size block request status [].

Definition onOpenFile (r : Received) (frag : Fragment) : M (option SessionErr) :=
  s ← gets id;
  match F_Handler (Files (cfg s)) with
  | None => unsupportedFile r (FHeader frag)
  | Some h =>
      match parseFileCommand frag with
      | None => parameter_error r (FHeader frag)
      | Some cmd =>
          let refuse status := commandStatus r (FHeader frag) (file_reply 0 0 0 (FC_RequestID cmd) status) in
          authorized ← fileAuthorized (Source r) (FC_Key cmd);
          if negb authorized then refuse FilePermissionDenied
          else if bool_decide (is_Some (file s)) then refuse FileTooManyOpen
          else
            '(t, status) ← openTransfer h cmd;
            match t with
            | None => refuse status
            | Some t =>
                modify (fun s => set_handleSeq (u32 (handleSeq s + 1)) s) ;;
                n ← gets handleSeq;
                now ← call appl_Now;
                modify (set_file (Some (with_deadline (now + F_Timeout (Files (cfg s))) (with_handle n t)))) ;;
                bump FilesOpened ;;
                commandStatus r (FHeader frag) (file_reply n (t_size t) (blockSize t) (FC_RequestID cmd) FileSuccess)
            end
      end
  end.

(** ** Closing, deleting, aborting *)

Definition parseFileStatus (frag : Fragment) : option FileCommandStatus :=
  h ← fileObject frag;
  match FirstFreeFormatObject h with
  | Err _ => None
  | Ok obj => match ParseFileCommandStatus obj with Err _ => None | Ok c => Some c end
  end.

Definition is_writing (t : transfer) : bool := (t_mode t =? FileModeWrite) || (t_mode t =? FileModeAppend).

(** Was a file being written cut short? *)
Definition incomplete (t : transfer) : bool := is_writing t && (negb (t_done t) || negb (t_received t =? t_size t)).

Definition onCloseFile (r : Received) (frag : Fragment) : M (option SessionErr) :=
  s ← gets id;
  if negb (fileEnabled s) then unsupportedFile r (FHeader frag)
  else
    match parseFileStatus frag with
    | None => parameter_error r (FHeader frag)
    | Some req =>
        let reply status := commandStatus r (FHeader frag)
          (file_reply (FS_Handle req) 0 0 (FS_RequestID req) status) in
        match file s with
        | None => reply FileInvalidHandle
        | Some t =>
            if negb (handle t =? FS_Handle req) then reply FileInvalidHandle
            else
              closed ← closeFile;
              if negb closed || incomplete t then reply FileFatal else reply FileSuccess
        end
    end.

Definition onDeleteFile (r : Received) (frag : Fragment) : M (option SessionErr) :=
  s ← gets id;
  match F_Handler (Files (cfg s)) with
  | None => unsupportedFile r (FHeader frag)
  | Some h =>
      match parseFileCommand frag with
      | None => parameter_error r (FHeader frag)
      | Some cmd =>
          let reply status := commandStatus r (FHeader frag) (file_reply 0 0 0 (FC_RequestID cmd) status) in
          authorized ← fileAuthorized (Source r) (FC_Key cmd);
          if negb authorized then reply FilePermissionDenied
          else if bool_decide (t_name <$> file s = Some (FC_Name cmd)) then reply FileLocked
          else
            status ← call (fun a => FH_Delete h a (FC_Name cmd));
            reply status
      end
  end.

Definition onAbortFile (r : Received) (frag : Fragment) : M (option SessionErr) :=
  s ← gets id;
  if negb (fileEnabled s) then unsupportedFile r (FHeader frag)
  else
    let '(n, request) :=
      match parseFileStatus frag with
      | Some st => (FS_Handle st, FS_RequestID st)
      | None => (0, 0)
      end in
    let reply status := commandStatus r (FHeader frag) (file_reply n 0 0 request status) in
    match file s with
    | None => reply FileNotOpen
    | Some t =>
        if negb (n =? 0) && negb (n =? handle t) then reply FileInvalidHandle
        else
          _ ← closeFile;
          bump FilesAborted ;;
          reply FileSuccess
    end.

Definition onGetFileInfo (r : Received) (frag : Fragment) : M (option SessionErr) :=
  s ← gets id;
  match F_Handler (Files (cfg s)) with
  | None => unsupportedFile r (FHeader frag)
  | Some h =>
      match fileObject frag with
      | None => parameter_error r (FHeader frag)
      | Some hd =>
          match FirstFreeFormatObject hd with
          | Err _ => parameter_error r (FHeader frag)
          | Ok obj =>
              match ParseFileDescriptor obj with
              | Err _ => parameter_error r (FHeader frag)
              | Ok req =>
                  '(info, status) ← call (fun a => FH_Info h a (FD_Name req));
                  if negb (status =? FileSuccess) then
                    bump FileErrors ;;
                    commandStatus r (FHeader frag) (file_reply 0 0 0 (FD_RequestID req) status)
                  else respondFile r (FHeader frag) 7 (AppendFileDescriptor [] (DescriptorFor info (FD_RequestID req)))
              end
          end
      end
  end.

(** ** Blocks *)

Definition onFileRead (r : Received) (frag : Fragment) (h : ObjectHeader) : M (option SessionErr) :=
  s ← gets id;
  if negb (fileEnabled s) then unsupportedFile r (FHeader frag)
  else
    match FirstFreeFormatObject h with
    | Err _ => parameter_error r (FHeader frag)
    | Ok obj =>
        match ParseFileTransport obj with
        | Err _ => parameter_error r (FHeader frag)
        | Ok req =>
            let fail status :=
              transportStatus r (FHeader frag) (mkFileTransportStatus (FT_Handle req) (FT_Block req) false status []) in
            match file s with
            | None => fail FileNotOpen
            | Some t =>
                if negb (handle t =? FT_Handle req) then fail FileInvalidHandle
                else if negb (t_mode t =? FileModeRead) then fail FileInvalidMode
                else if t_done t then fail FileNotOpen
                else if negb (FT_Block req =? t_block t) then fail FileBlockSequence
                else
                  now ← call appl_Now;
                  '(t, res) ← readBlock (with_deadline (now + F_Timeout (Files (cfg s))) t);
                  modify (set_file (Some t)) ;;
                  match res with
                  | Err _ => _ ← closeFile; fail FileFatal
                  | Ok (data, last) =>
                      modify (set_file (Some (next_block (t_received t) last t))) ;;
                      bump FileBlocksSent ;;
                      respondFile r (FHeader frag) 5 (AppendFileTransport [] (mkFileTransport (handle t) (t_block t) last data))
                  end
            end
        end
    end.

(** The status of a written block. *)
Definition write_block (t : transfer) (block : FileTransport) : M Z :=
  c ← gets cfg;
  now ← call appl_Now;
  let t := with_deadline (now + F_Timeout (Files c)) t in
  modify (set_file (Some t)) ;;
  written ← match t_w t with
            | Some w => call (fun a => writer_Write a w (FT_Data block))
            | None => mret false
            end;
  if (written : bool) then
    modify (set_file (Some (next_block (u64 (t_received t + len (FT_Data block))) (FT_Last block) t))) ;;
    bump FileBlocksReceived ;;
    mret FileSuccess
  else _ ← closeFile; mret FileFatal.

Definition onFileWrite (r : Received) (frag : Fragment) (h : ObjectHeader) : M (option SessionErr) :=
  s ← gets id;
  if negb (fileEnabled s) then unsupportedFile r (FHeader frag)
  else
    match FirstFreeFormatObject h with
    | Err _ => parameter_error r (FHeader frag)
    | Ok obj =>
        match ParseFileTransport obj with
        | Err _ => parameter_error r (FHeader frag)
        | Ok block =>
            status ←
              match file s with
              | None => mret FileNotOpen
              | Some t =>
                  if negb (handle t =? FT_Handle block) then mret FileInvalidHandle
                  else if negb (is_writing t) then mret FileInvalidMode
                  else if negb (FT_Block block =? t_block t) then mret FileBlockSequence
                  else if blockSize t <? len (FT_Data block) then mret FileWriteBlockSize
                  else write_block t block
              end;
            transportStatus r (FHeader frag)
              (mkFileTransportStatus (FT_Handle block) (FT_Block block) (FT_Last block) status [])
        end
    end.

End FileServer.
