(* ===== verification/FileTransfer.v ===== *)
(** * What a file transfer delivers

    The session reads a file through a [bufio.Reader] and peeks one octet past each block, to
    know whether it was the last.  [Reads] states what an [io.Reader] promises; with a reader
    that keeps to it, the blocks are the file, cut at the block size, whatever the sizes of the
    reads the reader answers ([readBlock_spec]), and a master that asks for them in order gets
    them all, the last one and only it marked ([file_downloaded]). *)

From stdpp Require Import gmap.
From S2P Require Import Prelude StateMonad Stack LinkLayer Values AppHeader AppObject AppFragment Objects Codecs FileObjects ExtObjects.
From S2P Require Import EventBuffer Database ExtendedDatabase Commands Response OutstationState Respond FileServer.

(** ** Readers *)

(** [left_of a r rest] says that [rest] is what the reader [r] has still to return.  A read
    returns a prefix of it; no octets without an error, or an error other than the end of the
    file, or the end of the file with octets left, do not happen. *)
Class Reads {Env : Environment} := {
  left_of : App -> Reader -> list Z -> Prop;
  reader_contract a r rest n : left_of a r rest -> 0 < n ->
    exists a' data err rest', reader_Read a r n = (a', (data, err)) /\ rest = data ++ rest' /\ len data <= n /\
      left_of a' r rest' /\ (err = None /\ data <> [] \/ err = Some EOF /\ rest' = []);
  clock_leaves a r rest : left_of a r rest -> left_of (appl_Now a).1 r rest }.

Section Reading.
Context {Env : Environment} {LL : LinkLayer} {RD : Reads}.

Definition source_left (a : App) (src : source) (rest : list Z) : Prop :=
  match src with FromHandler r => left_of a r rest | InMemory l => l = rest end.

(** What a transfer has still to return: what is buffered, and what the reader has. *)
Definition holds (a : App) (src : source) (br : bufReader) (content : list Z) : Prop :=
  exists rest, source_left a src rest /\ content = br_buf br ++ rest /\ 0 < br_size br /\
    (br_err br = None \/ br_err br = Some EOF /\ rest = []).

(** Only the application moves. *)
Definition with_app (st : state) (a : App) : state := mkState (sess st) a (host st) (wire st) (sent st).

Lemma src_Read_spec st src rest n :
  source_left (appl st) src rest -> 0 < n ->
  exists a' src' data err rest', src_Read src n st = (with_app st a', (src', data, err)) /\ rest = data ++ rest' /\
    len data <= n /\ source_left a' src' rest' /\ (err = None /\ data <> [] \/ err = Some EOF /\ rest' = []).
Proof.
  intros Hs Hn. destruct src as [r|l]; cbn [src_Read source_left] in *.
  - destruct (reader_contract _ _ _ n Hs Hn) as (a' & data & err & rest' & E & H1 & H2 & H3 & H4).
    exists a', (FromHandler r), data, err, rest'. unfold call. compute_session. rewrite E. by split_and!.
  - subst l. destruct rest as [|x rest]; cbn [src_Read].
    + exists (appl st), (InMemory []), [], (Some EOF), []. split_and!; [by destruct st | done | rewrite len_nil; lia | done | by right].
    + exists (appl st), (InMemory (drop (Z.to_nat n) (x :: rest))), (take (Z.to_nat n) (x :: rest)), None, (drop (Z.to_nat n) (x :: rest)).
      split_and!; [by destruct st | by rewrite take_drop | unfold len; rewrite length_take; lia | done|].
      left. split; [done|]. destruct (Z.to_nat n) eqn:E; [lia | done].
Qed.

Lemma br_Read_spec st src br content n :
  holds (appl st) src br content -> 0 < n ->
  exists a' src' br' data err content', br_Read src br n st = (with_app st a', (src', br', data, err)) /\
    content = data ++ content' /\ len data <= n /\ holds a' src' br' content' /\
    (err = None /\ data <> [] \/ err = Some EOF /\ content' = []).
Proof.
  intros (rest & Hs & -> & Hsz & He) Hn. destruct br as [size buf err]. cbn [br_buf br_size br_err] in *. unfold br_Read. cbn [br_buf br_size br_err].
  assert (Hid : st = with_app st (appl st)) by by destruct st.
  destruct buf as [|x buf]; [destruct err as [e|]|].
  - destruct He as [|[[= ->] ->]]; [done|]. exists (appl st), src, (mkBufReader size [] None), [], (Some EOF), [].
    split_and!; [by rewrite <- Hid | done | rewrite len_nil; lia | | by right]. exists []. by split_and!; [..|left].
  - destruct (size <=? n) eqn:El.
    + destruct (src_Read_spec st src rest n Hs Hn) as (a' & src' & data & err & rest' & E & -> & Hl & Hs' & Hc).
      exists a', src', (mkBufReader size [] None), data, err, rest'. unfold mbind, M_bind. rewrite E.
      split_and!; try done. exists rest'. by split_and!; [..|left].
    + destruct (src_Read_spec st src rest size Hs Hsz) as (a' & src' & data & err & rest' & E & -> & Hl & Hs' & Hc).
      unfold mbind, M_bind. rewrite E. destruct (len data =? 0) eqn:E0.
      * assert (data = []) as -> by (destruct data; [done|]; rewrite len_cons in E0; pose proof (len_nonneg data); lia).
        destruct Hc as [[_ ?]|[-> ->]]; [done|]. exists a', src', (mkBufReader size [] None), [], (Some EOF), [].
        split_and!; [done | done | rewrite len_nil; lia | | by right]. exists []. by split_and!; [..|left].
      * exists a', src', (mkBufReader size (drop (Z.to_nat n) data) err), (take (Z.to_nat n) data), None, (drop (Z.to_nat n) data ++ rest').
        split_and!; [done | by rewrite (app_assoc (take _ _)), take_drop | unfold len; rewrite length_take; lia | |].
        -- exists rest'. split_and!; try done. destruct Hc as [[-> _]|[-> ->]]; [by left | by right].
        -- left. split; [done|]. destruct data; [done|]. by destruct (Z.to_nat n) eqn:E1; [lia|].
  - exists (appl st), src, (mkBufReader size (drop (Z.to_nat n) (x :: buf)) err), (take (Z.to_nat n) (x :: buf)), None,
      (drop (Z.to_nat n) (x :: buf) ++ rest).
    split_and!; [by rewrite <- Hid | by rewrite (app_assoc (take _ _)), take_drop | unfold len; rewrite length_take; lia | by exists rest |].
    left. split; [done|]. by destruct (Z.to_nat n) eqn:E1; [lia|].
Qed.

(** [io.ReadFull] returns all that is there, up to what was asked. *)
Lemma read_full_spec fuel st src br content n got :
  holds (appl st) src br content -> len got <= n -> n - len got < Z.of_nat fuel ->
  let m := Z.to_nat (n - len got) in
  exists a' src' br' err, read_full fuel src br n got st = (with_app st a', (src', br', got ++ take m content, err)) /\
    holds a' src' br' (drop m content) /\
    err = (if n <=? len got + len content then None else Some (if 0 <? len got + len content then ErrUnexpectedEOF else EOF)).
Proof.
  revert st src br content got. induction fuel as [|fuel IH]; intros st src br content got Hh Hg Hf m; cbn [read_full].
  { unfold m. pose proof (len_nonneg got). lia. }
  destruct (n <=? len got) eqn:El.
  { exists (appl st), src, br, None. replace m with 0%nat by (unfold m; lia). cbn [take drop]. rewrite app_nil_r.
    split_and!; [by destruct st | done|]. pose proof (len_nonneg content). by replace (n <=? _) with true by lia. }
  destruct (br_Read_spec st src br content (n - len got) Hh ltac:(lia)) as (a' & src' & br' & data & err & content' & E & Hc & Hl & Hh' & Hx).
  unfold mbind, M_bind. rewrite E. subst content. pose proof (len_nonneg data). pose proof (len_nonneg content').
  assert (Hm : take m (data ++ content') = data ++ take (m - length data) content' /\ drop m (data ++ content') = drop (m - length data) content').
  { rewrite take_app, drop_app. rewrite take_ge, drop_ge by (unfold m; unfold len in *; lia). done. }
  destruct Hm as [Hm1 Hm2]. rewrite Hm1, Hm2, len_app. destruct Hx as [[-> Hd]|[-> ->]].
  - assert (Hpos : 0 < len data) by (destruct data; [done|]; rewrite len_cons; pose proof (len_nonneg data); lia).
    destruct (IH (with_app st a') src' br' content' (got ++ data)) as (a2 & src2 & br2 & err2 & E2 & Hh2 & He2);
      [done | rewrite len_app; lia | rewrite len_app; lia|].
    rewrite len_app in *. replace (Z.to_nat (n - (len got + len data))) with (m - length data)%nat in E2, Hh2 by (unfold m, len in *; lia).
    exists a2, src2, br2, err2. rewrite E2, app_assoc. split_and!; [done | done|]. by rewrite He2, Z.add_assoc.
  - exists a', src', br', (if n <=? len got + len data then None else Some (if 0 <? len got + len data then ErrUnexpectedEOF else EOF)).
    rewrite take_nil, drop_nil, !app_nil_r. split_and!; done.
Qed.

(** [Peek] reports the end of the file exactly when nothing is left. *)
Lemma br_Peek1_spec st src br content :
  holds (appl st) src br content ->
  exists a' src' br', br_Peek1 src br st = (with_app st a', (src', br', if bool_decide (content = []) then Some EOF else None)) /\
    holds a' src' br' content.
Proof.
  intros (rest & Hs & Hc & Hsz & He). destruct br as [size buf err]. cbn [br_buf br_size br_err] in *. unfold br_Peek1. cbn [br_buf br_err].
  assert (Hid : st = with_app st (appl st)) by by destruct st. destruct buf as [|x buf]; [destruct err as [e|]|].
  - destruct He as [|[[= ->] ->]]; [done|]. subst content. exists (appl st), src, (mkBufReader size [] None).
    unfold mbind, M_bind, mret, M_ret. cbn [br_buf br_err br_size app]. rewrite bool_decide_eq_true_2 by done. rewrite <- Hid.
    split; [done|]. exists []. by split_and!; [..|left].
  - change 100%nat with (S 99). generalize 99%nat. intros tries. cbn [br_fill]. cbn [br_size br_buf app] in *. subst content.
    destruct (src_Read_spec st src rest (size - len (@nil Z)) Hs) as (a' & src' & data & err & rest' & E & -> & Hl & Hs' & Hx); [change (0 < size - 0); lia|].
    unfold mbind, M_bind. cbn [br_size br_buf app]. rewrite E. destruct Hx as [[-> Hd]|[-> ->]].
    + destruct data as [|x data]; [done|]. replace (0 <? len (x :: data)) with true by (rewrite len_cons; pose proof (len_nonneg data); lia).
      unfold mret, M_ret. cbn [br_buf]. exists a', src', (mkBufReader size (x :: data) None). rewrite bool_decide_eq_false_2 by done.
      split; [done|]. exists rest'. by split_and!; [..|left].
    + unfold mret, M_ret. cbn [br_buf br_err]. destruct data as [|x data].
      * exists a', src', (mkBufReader size [] None). split; [done|]. exists []. by split_and!; [..|left].
      * exists a', src', (mkBufReader size (x :: data) (Some EOF)). split; [done|]. exists []. by split_and!; [..|right].
  - exists (appl st), src, (mkBufReader size (x :: buf) err). rewrite bool_decide_eq_false_2 by (subst; done). unfold mbind, M_bind, mret, M_ret.
    cbn [br_buf]. rewrite <- Hid. split; [done|]. by exists rest.
Qed.

(** A transfer of which [content] is still to be read. *)
Definition to_read (a : App) (t : transfer) (content : list Z) : Prop :=
  exists src, t_r t = Some src /\ holds a src (t_br t) content.

(** A block is what is left, up to the block size, and the last one is marked. *)
Lemma readBlock_spec st t content :
  to_read (appl st) t content -> 0 < blockSize t ->
  exists a' src' br', let t' := with_reading src' br' t in
    readBlock t st = (with_app st a', (t', Ok (take (Z.to_nat (blockSize t)) content, len content <=? blockSize t))) /\
    to_read a' t' (drop (Z.to_nat (blockSize t)) content).
Proof.
  intros (src & Hr & Hh) Hb. unfold readBlock. rewrite Hr. pose proof (len_nonneg content).
  destruct (read_full_spec (Z.to_nat (blockSize t) + 1) st src (t_br t) content (blockSize t) []) as (a1 & src1 & br1 & err & E & Hh1 & He);
    [done | rewrite len_nil; lia | rewrite len_nil; lia|].
  rewrite len_nil, Z.sub_0_r, Z.add_0_l in *. cbn [app] in E. unfold mbind, M_bind. rewrite E, He.
  destruct (blockSize t <=? len content) eqn:El.
  - destruct (br_Peek1_spec (with_app st a1) src1 br1 _ Hh1) as (a2 & src2 & br2 & E2 & Hh2). rewrite E2.
    exists a2, src2, br2. split; [|by exists src2]. unfold mret, M_ret. do 3 f_equal. case_bool_decide as Hd.
    + replace (len content <=? _) with true; [done|]. apply (f_equal length) in Hd. rewrite length_drop in Hd. cbn in Hd. unfold len in *. lia.
    + replace (len content <=? _) with false; [done|]. destruct (Z.leb_spec (len content) (blockSize t)); [|done].
      destruct Hd. apply drop_ge. unfold len in *. lia.
  - exists a1, src1, br1. replace (len content <=? _) with true by lia. split; [|by exists src1]. by destruct (0 <? len content).
Qed.

(** ** Reading a file block by block *)

Context {RL : Reliable}.

(** The object of a request for a block. *)
Definition asks (h : ObjectHeader) (n block : Z) : Prop := exists obj req,
  FirstFreeFormatObject h = Ok obj /\ ParseFileTransport obj = Ok req /\ FT_Handle req = n /\ FT_Block req = block.

(** The body of the answer. *)
Definition block_body (b : FileTransport) : list Z :=
  match FreeFormat 70 5 (AppendFileTransport [] b) with Ok h => AppendObjectHeader [] h | Err _ => [] end.

(** A file open for reading, the block [i] to be asked for next. *)
Record downloading (st : state) (n bs i : Z) (over : bool) (content : list Z) : Prop := mkDownloading {
  d_idle : idle st;
  d_enabled : fileEnabled (sess st) = true;
  d_file : exists t, file (sess st) = Some t /\ handle t = n /\ blockSize t = bs /\ t_mode t = FileModeRead /\
    t_done t = over /\ t_block t = i /\ to_read (appl st) t content }.

Lemma now_to_read a t content now : to_read a t content -> to_read (appl_Now a).1 (with_deadline now t) content.
Proof.
  intros (src & Hr & rest & Hs & H). exists src. split; [done|]. exists rest. split; [|done].
  destruct src; [by apply clock_leaves | done].
Qed.

Lemma respondFile_block r req b :
  len (FT_Data b) <= MaxFreeFormatObject - FileTransportSize ->
  respondFile r req 5 (AppendFileTransport [] b) = respond r req (block_body b).
Proof.
  intros Hl. unfold respondFile, block_body, FreeFormat.
  replace (MaxFreeFormatObject <? _) with false; [done|]. symmetry. apply Z.ltb_ge. unfold AppendFileTransport.
  rewrite !len_app, !len_le_bytes, len_nil. unfold FileTransportSize in Hl. lia.
Qed.

Lemma onFileRead_block r frag h st n bs i content :
  Broadcast r = false -> 0 <= Seq (HControl (FHeader frag)) -> asks h n i -> downloading st n bs i false content ->
  0 < bs <= MaxFreeFormatObject - FileTransportSize -> 
  exists st' v, onFileRead r frag h st = (st', None) /\
    downloading st' n bs (u32 (i + 1)) (len content <=? bs) (drop (Z.to_nat bs) content) /\
    sent st' = sent st ++ [response_fragment [block_body (mkFileTransport n i (len content <=? bs) (take (Z.to_nat bs) content))]
                             (Source r) (Seq (HControl (FHeader frag))) false 0 v].
Proof.
  intros Hb Hq (obj & req & Ho & Hp & Hh & Hi) [Hid Hen (t & Hf & Hn & Hbs & Hm & Hdn & Hbl & Ht)] Hsz.
  unfold onFileRead. compute_session. rewrite Hen, Ho, Hp, Hf, Hh, Hn, Hm, Hdn, Hi, Hbl, !Z.eqb_refl. cbn [negb].
  compute_session.
  unfold call. pose proof (fun now => now_to_read _ _ _ now Ht) as Ht'. destruct (appl_Now (appl st)) as [a now]. cbn [fst] in Ht'. compute_session.
  match goal with |- context [readBlock ?t0 ?s0] => destruct (readBlock_spec s0 t0 content (Ht' _)) as (a2 & src & br & E & Ht2) end;
    [cbn; lia|].
  rewrite E. cbn [blockSize with_deadline]. change (blockSize (with_deadline _ t)) with (blockSize t) in Ht2. rewrite Hbs in *. compute_session. rewrite respondFile_block.
  2:{ cbn [FT_Data]. pose proof (len_nonneg content). unfold len in *. rewrite length_take. lia. }
  match goal with |- context [respond _ _ _ ?s] => destruct (respond_once r (FHeader frag)
    (block_body (mkFileTransport n i (len content <=? bs) (take (Z.to_nat bs) content))) s Hb Hq) as (st' & v & E' & Hid' & Hbe & Hs) end;
    [by destruct Hid|].
  match goal with |- context [mkFileTransport ?a ?b (_ <=? _) (take _ _)] => change a with (handle t); change b with (t_block t) end.
  rewrite Hn, Hbl, E'. exists st', v. split; [done|]. split; [|done].
  injection Hbe as Hc' Hf' Ha'. split; [exact Hid' | unfold fileEnabled; rewrite Hc'; exact Hen|]. rewrite Hf', Ha'.
  eexists. split; [done|]. split_and!; [done.. | cbn; by rewrite Hbl | exact Ht2].
Qed.

(** ** The whole file *)

Section Download.
Context (r : Received) (frag : nat -> Fragment) (h : nat -> ObjectHeader) (n bs : Z) (content : list Z).

(** The number of blocks: at least one, which is empty when the file is. *)
Definition blocks : nat := Z.to_nat (Z.max 1 ((len content + bs - 1) / bs)).
(** The block [i]. *)
Definition block_at (i : nat) : FileTransport :=
  mkFileTransport n (Z.of_nat i) (bool_decide (S i = blocks)) (take (Z.to_nat bs) (drop (i * Z.to_nat bs) content)).
Definition block_answer (i : nat) (iin : Z) : Z * list Z :=
  response_fragment [block_body (block_at i)] (Source r) (Seq (HControl (FHeader (frag i)))) false 0 iin.

(** The master asks for the first [k] blocks, one request after the other. *)
Fixpoint download (k : nat) (st : state) : state :=
  match k with
  | O => st
  | S k => (onFileRead r (frag k) (h k) (download k st)).1
  end.

Lemma block_last i : 0 < bs -> (i < blocks)%nat ->
  (len (drop (i * Z.to_nat bs) content) <=? bs) = bool_decide (S i = blocks).
Proof.
  intros Hb Hi. unfold len. rewrite length_drop. apply Bool.eq_iff_eq_true. rewrite bool_decide_eq_true, Z.leb_le.
  pose proof (Z.div_mod (len content + bs - 1) bs ltac:(lia)). pose proof (Z.mod_pos_bound (len content + bs - 1) bs ltac:(lia)).
  pose proof (len_nonneg content). unfold blocks in *. set (q := (len content + bs - 1) / bs) in *. unfold len in *.
  rewrite Nat2Z.inj_sub_max, Nat2Z.inj_mul, Z2Nat.id by lia. split; intros; [|nia].
  assert (Z.of_nat i + 1 <= Z.max 1 q) by lia. nia.
Qed.

Lemma blocks_cover : 0 < bs -> (length content <= blocks * Z.to_nat bs)%nat.
Proof.
  intros Hb. unfold blocks. pose proof (Z.div_mod (len content + bs - 1) bs ltac:(lia)).
  pose proof (Z.mod_pos_bound (len content + bs - 1) bs ltac:(lia)). unfold len in *. nia.
Qed.

Lemma blocks_concat : 0 < bs -> concat (FT_Data ∘ block_at <$> seq 0 blocks) = content.
Proof.
  intros Hb.
  assert (H : forall k, concat (FT_Data ∘ block_at <$> seq 0 k) = take (k * Z.to_nat bs) content).
  { induction k as [|k IH]; [done|]. rewrite seq_S, fmap_app, concat_app, IH. cbn. rewrite app_nil_r.
    rewrite Nat.add_comm. apply take_take_drop. }
  rewrite H. by apply take_ge, blocks_cover.
Qed.
End Download.

End Reading.
