(* ===== verification/Security.v ===== *)
(** * Secure authentication of requests (src/outstation/security.go)

    With secure authentication configured, a request that changes anything is not carried out
    when it arrives: the session answers with a challenge and keeps the request, and carries
    it out when the reply holds the authentication code of both under the user's session key.

    Users are in a map, and Go visits a map in no particular order; [map_to_list] stands for
    that order.  [resume] is the handler of an authenticated request. *)

From stdpp Require Import gmap.
From S2P Require Import Prelude StateMonad Crypto Stack LinkLayer Values AppHeader AppObject AppFragment Objects Codecs FileObjects ExtObjects.
From S2P Require Import EventBuffer Database ExtendedDatabase Commands Response OutstationState Respond Services.

Section Security.
Context {Env : Environment} {LL : LinkLayer}.

Definition security_MAC := MAC hmac_sha256.
Definition security_Unwrap := Unwrap aes_NewCipher.

Definition change_security (f : securityState -> securityState) : M unit :=
  modify (fun s => set_security (f (security s)) s).
Definition with_users (v : gmap Z securityUser) (x : securityState) : securityState :=
  mkSecurity v (sequence x) (keySequence x) (ap_pending x) (statistics x).
Definition with_pending (v : option authenticationPending) (x : securityState) : securityState :=
  mkSecurity (users x) (sequence x) (keySequence x) v (statistics x).
Definition set_user (id : Z) (u : securityUser) : M unit := change_security (fun x => with_users (<[id := u]> (users x)) x).

(** ** Users and their keys *)

Definition configured_user (id : Z) (key : list Z) : option securityUser :=
  if negb (id =? 0) && ((len key =? 16) || (len key =? 32))
  then Some (mkSecurityUser key [] [] [] [] 0 zeroTime 0 zeroTime 0) else None.

Definition resetSecurity : M unit :=
  modify (fun s =>
    let x := security s in
    set_security (mkSecurity
      (match SecureAuthentication (cfg s) with
       | None => ∅
       | Some c => map_imap configured_user (SA_Users c)
       end) (sequence x) (keySequence x) None (statistics x)) s).

Definition securityMaxMessages (c : SecureAuthenticationConfig) : Z :=
  if 0 <? SA_MaxMessages c then SA_MaxMessages c else 1000.
Definition securityReplyTimeout (c : SecureAuthenticationConfig) : Z :=
  if 0 <? SA_ReplyTimeout c then SA_ReplyTimeout c else 5 * second.
Definition securityKeyTimeout (c : SecureAuthenticationConfig) : Z :=
  if 0 <? SA_KeyTimeout c then SA_KeyTimeout c else 15 * 60 * second.

Definition securityKeyValid (c : SecureAuthenticationConfig) (u : option securityUser) (source : Z) : M bool :=
  match u with
  | None => mret false
  | Some u =>
      if (16 <=? len (su_control u)) && (su_source u =? source) then
        now ← call appl_Now;
        mret ((now <? su_until u) && (messages u <? securityMaxMessages c))
      else mret false
  end.

Definition criticalFunction (f : Z) : bool :=
  one_of f [FuncImmedFreeze; FuncImmedFreezeNR; FuncFreezeClear; FuncFreezeClearNR; FuncFreezeAtTime;
    FuncFreezeAtTimeNR; FuncAssignClass; FuncInitializeData] ||
  one_of f [FuncWrite; FuncSelect; FuncOperate; FuncDirectOperate; FuncDirectOperateNR; FuncColdRestart;
    FuncWarmRestart; FuncInitializeAppl; FuncStartAppl; FuncStopAppl; FuncSaveConfig; FuncEnableUnsolicited;
    FuncDisableUnsolicited; FuncRecordCurrentTime; FuncOpenFile; FuncCloseFile; FuncDeleteFile; FuncGetFileInfo;
    FuncAuthenticateFile; FuncAbortFile; FuncActivateConfig].

Definition hasAuthenticationObject (f : Fragment) : bool := existsb (fun h => Group h =? 120) (Objects f).

(** ** Statistics *)

Definition statistic (s : Session) (index : Z) : Z := default 0 (statistics (security s) !! Z.to_nat index).

Definition of_statistic (v : Z) : Event :=
  mkEvent TypeUnknown 0 ClassNone 0 NoTime Binary0 Counter0 Counter0 Counter0 [] v Analog0 Analog0
    Binary0 Analog0 nil_slice 0 false f64_zero false 0.

Definition countSecurity (index : Z) : M unit :=
  change_security (fun x => mkSecurity (users x) (sequence x) (keySequence x) (ap_pending x)
    (alter (fun v => u32 (v + 1)) (Z.to_nat index) (statistics x))) ;;
  s ← gets id;
  match SecureAuthentication (cfg s) with
  | None => mret tt
  | Some c =>
      let threshold := if SA_StatisticsThreshold c =? 0 then 10 else SA_StatisticsThreshold c in
      if negb (statistic s index mod threshold =? 0) then mret tt
      else
        let class := Z.land (SA_StatisticsClass c) Class123 in
        let class := if class =? ClassNone then Class1 else class in
        now ← call appl_Now;
        on_events tt (fun b => (Add b (command_event TypeSecurityStatistic (u16 index) class 2 (Now now)
                                         (of_statistic (statistic s index))), tt))
  end.

Definition readSecurityStatistics (h : ObjectHeader) (b : responseBuilder) : M responseBuilder :=
  s ← gets id;
  match SecureAuthentication (cfg s) with
  | Some _ =>
      if negb (Variation h =? 1) then raise_iin IINObjectUnknown ;; mret b
      else each_run h (fun b run =>
        mret (fold_left (fun b i => add b (rangeObjectHeader (GV 121 1) (u16 i) (u16 i)
                                      ([Online; 0; 0] ++ le32 (statistic s i)))) (run_indexes 18 run) b)) b
  | None => raise_iin IINObjectUnknown ;; mret b
  end.

Definition without_control (u : securityUser) : securityUser :=
  mkSecurityUser (su_update u) [] (su_monitor u) (su_status u) (su_keyChange u) (statusSource u) (statusUntil u)
    (su_source u) (su_until u) (messages u).

Definition expire_user (c : SecureAuthenticationConfig) (iu : Z * securityUser) : M unit :=
  let '(id, u) := iu in
  now ← call appl_Now;
  when (negb (now <? su_until u) || (securityMaxMessages c <=? messages u)) (set_user id (without_control u)).

Definition expireSecurity : M unit :=
  s ← gets id;
  match SecureAuthentication (cfg s) with
  | None => mret tt
  | Some c =>
      match ap_pending (security s) with
      | None => mret tt
      | Some p =>
          now ← call appl_Now;
          when (negb (now <? ap_until p)) (
            change_security (with_pending None) ;;
            countSecurity 3 ;;
            countSecurity 9)
      end ;;
      us ← gets (fun s => map_to_list (users (security s)));
      each (expire_user c) us
  end.

(** ** Messages *)

Definition free_format (group variation : Z) (data : list Z) : ObjectHeader :=
  match FreeFormat group variation data with
  | Ok h => h
  | Err _ => mkObjectHeader 0 0 0 (mkRange 0 0 0 0) [] 0 0
  end.

(** The fragment that was sent, and the error. *)
Definition sendAuthentication (r : Received) (seq : Z) (h : ObjectHeader) : M (list Z * option SessionErr) :=
  if Broadcast r then mret ([], None)
  else
    iin ← currentIIN;
    let data := AppendObjectHeader
      (AppendHeader [] (mkHeader (mkControl true true false false seq) FuncAuthResponse iin)) h in
    c ← gets cfg;
    if MaxTxFragment c <? len data then mret ([], Some SErrTooLarge)
    else
      countSecurity 5 ;;
      err ← SendTo (Source r) data;
      mret (data, err).

Definition authenticationError (r : Received) (seq user code : Z) : M (option SessionErr) :=
  s ← gets id;
  now ← call appl_Now;
  let data := AppendTime48 (le32 (sequence (security s)) ++ le16 user ++ le16 0 ++ [code]) (Now now) in
  countSecurity 10 ;;
  '(_, err) ← sendAuthentication r seq (free_format 120 7 data);
  mret err.

Fixpoint any_ready (c : SecureAuthenticationConfig) (source : Z) (us : list (Z * securityUser)) : M bool :=
  match us with
  | [] => mret false
  | (_, u) :: us =>
      v ← securityKeyValid c (Some u) source;
      if (v : bool) then mret true else any_ready c source us
  end.

Definition challengeRequest (c : SecureAuthenticationConfig) (r : Received) (frag : Fragment) : M (option SessionErr) :=
  if Broadcast r then countSecurity 9 ;; ok
  else
    s ← gets id;
    ready ← any_ready c (Source r) (map_to_list (users (security s)));
    if negb ready then authenticationError r (Seq (HControl (FHeader frag))) 0 1
    else
      change_security (fun x => mkSecurity (users x) (u32 (sequence x + 1)) (keySequence x) (ap_pending x) (statistics x)) ;;
      nonce ← host_call (fun h => rand_Read h 32);
      match nonce with
      | None => mret (Some SErrRand)
      | Some nonce =>
          q ← gets (fun s => sequence (security s));
          '(data, err) ← sendAuthentication r (Seq (HControl (FHeader frag)))
            (free_format 120 1 (AppendAuthChallenge [] (mkAuthChallenge q 0 4 1 nonce)));
          match err with
          | Some _ => mret err
          | None =>
              now ← call appl_Now;
              change_security (with_pending (Some (mkAuthPending r data q (now + securityReplyTimeout c)))) ;;
              countSecurity 8 ;;
              ok
          end
      end.

(** The status without its code is kept: the key change has to repeat it. *)
Definition sendKeyStatus (c : SecureAuthenticationConfig) (r : Received) (seq user : Z) (u : securityUser)
    : M (option SessionErr) :=
  change_security (fun x => mkSecurity (users x) (sequence x) (u32 (keySequence x + 1)) (ap_pending x) (statistics x)) ;;
  nonce ← host_call (fun h => rand_Read h 32);
  match nonce with
  | None => mret (Some SErrRand)
  | Some nonce =>
      q ← gets (fun s => keySequence (security s));
      valid ← securityKeyValid c (Some u) (Source r);
      let '(algorithm, mac) := if 0 <? len (su_monitor u) then (4, security_MAC (su_monitor u) [su_keyChange u]) else (0, []) in
      let status := mkAuthKeyStatus q user (if len (su_update u) =? 32 then 2 else 1) (if (valid : bool) then 1 else 2)
                      algorithm nonce mac in
      let octets := AppendAuthKeyStatus [] status in
      now ← call appl_Now;
      set_user user (mkSecurityUser (su_update u) (su_control u) (su_monitor u)
        (take (length octets - length mac) octets) (su_keyChange u) (Source r) (now + securityReplyTimeout c)
        (su_source u) (su_until u) (messages u)) ;;
      '(_, err) ← sendAuthentication r seq (free_format 120 5 octets);
      mret err
  end.

(** ** Requests of the authentication function code *)

Definition with_status (v : list Z) (u : securityUser) : securityUser :=
  mkSecurityUser (su_update u) (su_control u) (su_monitor u) v (su_keyChange u) (statusSource u) (statusUntil u)
    (su_source u) (su_until u) (messages u).
Definition with_messages (v : Z) (u : securityUser) : securityUser :=
  mkSecurityUser (su_update u) (su_control u) (su_monitor u) (su_status u) (su_keyChange u) (statusSource u)
    (statusUntil u) (su_source u) (su_until u) v.

(** The keys in an unwrapped key change, when it repeats the status. *)
Definition session_keys (plain status : list Z) : option (list Z * list Z) :=
  let n := le_val (slice 0 2 plain) in
  let end_ := 2 + 2 * n in
  if (n <? 16) || (64 <? n) || (len plain <? end_ + len status) || (7 <? len plain - end_ - len status)
     || negb (bool_decide (slice end_ (end_ + len status) plain = status)) then None
  else Some (slice 2 (2 + n) plain, slice (2 + n) end_ plain).

Definition onKeyChange (c : SecureAuthenticationConfig) (r : Received) (frag : Fragment) (data : list Z)
    : M (option SessionErr) :=
  let seq := Seq (HControl (FHeader frag)) in
  match ParseAuthKeyChange data with
  | Err _ => authenticationError r seq 0 1
  | Ok v =>
      s ← gets id;
      match users (security s) !! KC_User v with
      | None => authenticationError r seq (KC_User v) 11
      | Some u =>
          let status := su_status u in
          let u := with_status [] u in
          set_user (KC_User v) u ;;
          let refuse := authenticationError r seq (KC_User v) 1 in
          if (len status <? 11) || negb (KC_Sequence v =? le_val (slice 0 4 status)) || negb (statusSource u =? Source r)
          then refuse
          else
            now ← call appl_Now;
            if negb (now <? statusUntil u) then refuse
            else
              match security_Unwrap (su_update u) (Wrapped v) with
              | Err _ => countSecurity 14 ;; refuse
              | Ok plain =>
                  if len plain <? 2 then refuse
                  else
                    match session_keys plain status with
                    | None => countSecurity 14 ;; refuse
                    | Some (control, monitor) =>
                        now ← call appl_Now;
                        let u := mkSecurityUser (su_update u) control monitor [] (Raw frag) (statusSource u)
                                   (statusUntil u) (Source r) (now + securityKeyTimeout c) 0 in
                        set_user (KC_User v) u ;;
                        change_security (with_pending None) ;;
                        countSecurity 13 ;;
                        sendKeyStatus c r seq (KC_User v) u
                    end
              end
      end
  end.

Definition onReply (c : SecureAuthenticationConfig) (resume : Received -> M (option SessionErr)) (r : Received)
    (frag : Fragment) (data : list Z) : M (option SessionErr) :=
  let seq := Seq (HControl (FHeader frag)) in
  s ← gets id;
  match ParseAuthReply data, ap_pending (security s) with
  | Ok v, Some p =>
      change_security (with_pending None) ;;
      let u := users (security s) !! AY_User v in
      let refuse := countSecurity 2 ;; authenticationError r seq (AY_User v) 1 in
      if negb (AY_Sequence v =? ap_sequence p) || negb (Source r =? Source (ap_received p)) then refuse
      else
        now ← call appl_Now;
        if negb (now <? ap_until p) then refuse
        else
          valid ← securityKeyValid c u (Source r);
          match u, valid with
          | Some u, true =>
              if negb (bool_decide (AY_MAC v = security_MAC (su_control u) [ap_challenge p; RFragment (ap_received p)]))
              then refuse
              else
                match ParseRequest None (RFragment (ap_received p)) with
                | (_, Some _) => mret (Some SErrParse)
                | (original, None) =>
                    granted ← match SA_Authorize c with
                              | None => mret true
                              | Some authorize => call (fun a => authorize a (AY_User v) (Func (FHeader original)))
                              end;
                    if negb granted then countSecurity 1 ;; authenticationError r seq (AY_User v) 7
                    else
                      set_user (AY_User v) (with_messages (u32 (messages u + 1)) u) ;;
                      countSecurity 12 ;;
                      resume (ap_received p)
                end
          | _, _ => refuse
          end
  | _, _ => authenticationError r seq 0 1
  end.

Definition onAuthentication (resume : Received -> M (option SessionErr)) (r : Received) (frag : Fragment)
    : M (option SessionErr) :=
  let seq := Seq (HControl (FHeader frag)) in
  s ← gets id;
  match SecureAuthentication (cfg s) with
  | None =>
      raise_iin IINNoFuncCodeSupport ;;
      if NoReply (Func (FHeader frag)) then ok else respond r (FHeader frag) []
  | Some c =>
      if Func (FHeader frag) =? FuncAuthRequestNoAck then
        change_security (with_pending None) ;; countSecurity 11 ;; ok
      else
        match Broadcast r, Objects frag with
        | false, [h] =>
            if negb (Group h =? 120) || negb (ObjectHeader_Count h =? 1) then authenticationError r seq 0 1
            else if Variation h =? 4 then
              if negb (Qualifier h =? MakeQualifier PrefixNone RangeCount8) || negb (len (Data h) =? 2)
              then authenticationError r seq 0 1
              else
                let user := le_val (Data h) in
                match users (security s) !! user with
                | None => authenticationError r seq user 11
                | Some u => sendKeyStatus c r seq user u
                end
            else if negb (Qualifier h =? FreeFormatQualifier) then authenticationError r seq 0 1
            else
              match FirstFreeFormatObject h with
              | Err _ => authenticationError r seq 0 1
              | Ok data =>
                  if Variation h =? 6 then onKeyChange c r frag data
                  else if Variation h =? 2 then onReply c resume r frag data
                  else authenticationError r seq 0 4
              end
        | _, _ => authenticationError r seq 0 1
        end
  end.

End Security.
