(* ===== verification/Requests.v ===== *)
(** * Requests (src/outstation/session.go)

    The handlers of the function codes an outstation knows, and [handle], which chooses among
    them: what is refused before anything is done, how a repeated request is recognised, and
    what a broadcast leaves unanswered. *)

From stdpp Require Import gmap.
From S2P Require Import Prelude StateMonad LinkFrame Stack LinkLayer Values Floats AppHeader AppObject AppFragment Objects Codecs FileObjects.
From S2P Require Import ExtObjects EventBuffer Database ExtendedDatabase Commands Response OutstationState Respond Unsolicited Services.
From S2P Require Import Freeze FileServer Security.

(** ** Groups *)

Definition pointTypeForGroup (group : Z) : option PointType :=
  if one_of group [1; 2] then Some TypeBinary
  else if one_of group [3; 4] then Some TypeDoubleBitBinary
  else if one_of group [10; 11] then Some TypeBinaryOutputStatus
  else if one_of group [20; 22] then Some TypeCounter
  else if one_of group [21; 23] then Some TypeFrozenCounter
  else if one_of group [31; 33] then Some TypeFrozenAnalog
  else if one_of group [87; 88] then Some TypeDataset
  else if one_of group [112; 113] then Some TypeVirtualTerminal
  else if one_of group [30; 32] then Some TypeAnalog
  else if one_of group [40; 42] then Some TypeAnalogOutputStatus
  else if one_of group [110; 111] then Some TypeOctetString
  else None.

Definition isEventGroup (group : Z) : bool := bool_decide (is_Some (eventTypeForGroup group)).

Definition eventVariationKnown (pt : PointType) (variation : Z) : bool :=
  match pt with
  | TypeDataset => variation =? 1
  | TypeOctetString | TypeVirtualTerminal => false
  | _ => bool_decide (is_Some (Lookup (GV (eventGroup pt) variation)))
  end.

Definition MaxInt32 : Z := 2147483647.

Definition eventReadLimit (h : ObjectHeader) : option Z :=
  if negb (IndexPrefix (Qualifier h) =? PrefixNone) then None
  else
    let spec := Spec (ORange h) in
    if spec =? RangeAllObjects then Some MaxInt32
    else if one_of spec [RangeCount8; RangeCount16; RangeCount32] then Some (AppObject.Count (ORange h))
    else None.

Definition with_variation (v : Z) (e : Event) : Event :=
  mkEvent (EType e) (EIndex e) (EClass e) v (ETime e) (EBinary e) (EDoubleBit e) (ECounter e) (EFrozenCounter e)
    (EDataset e) (ESecurityStatistic e) (EFrozenAnalog e) (EAnalog e) (EBinaryOutput e) (EAnalogOutput e)
    (EOctetString e) (CommandStatus e) (CommandState e) (CommandValue e) (selected e) (seq_ e).

Definition timeWriteData (h : ObjectHeader) : option (list Z) :=
  let skip := IndexPrefix_Octets (IndexPrefix (Qualifier h)) in
  if len (Data h) <? skip + Time48Size then None else Some (slice skip (skip + Time48Size) (Data h)).

Definition decodeDeadband (variation : Z) (buf : list Z) : spec_float :=
  if variation =? 1 then f64_of_Z (le_val (slice 0 2 buf))
  else if variation =? 2 then f64_of_Z (le_val (slice 0 4 buf))
  else if variation =? 3 then f64_of_f32_bits (le_val (slice 0 4 buf))
  else f64_zero.

Definition handlesFunc (f : Z) : bool :=
  one_of f [FuncConfirm; FuncRead; FuncWrite; FuncDelayMeasure;
    FuncAuthRequest; FuncAuthRequestNoAck; FuncAuthenticateFile; FuncInitializeData; FuncInitializeAppl; FuncStartAppl;
    FuncStopAppl; FuncSaveConfig; FuncActivateConfig; FuncRecordCurrentTime; FuncOpenFile; FuncCloseFile;
    FuncDeleteFile; FuncGetFileInfo; FuncAbortFile; FuncColdRestart; FuncWarmRestart; FuncEnableUnsolicited;
    FuncDisableUnsolicited; FuncAssignClass; FuncSelect; FuncOperate; FuncDirectOperate; FuncDirectOperateNR;
    FuncImmedFreeze; FuncImmedFreezeNR; FuncFreezeClear; FuncFreezeClearNR; FuncFreezeAtTime; FuncFreezeAtTimeNR].

Section Requests.
Context {Env : Environment} {LL : LinkLayer}.

(** [if r.Broadcast { return nil }; return s.respond(...)]. *)
Definition answer (r : Received) (req : Header) (body : list Z) : M (option SessionErr) :=
  if Broadcast r then ok else respond r req body.

(** ** READ *)

(** The events a header selects, and what it adds to the response once they are built. *)
Definition later := list (responseBuilder -> M responseBuilder).
Definition refused (mask : Z) : M (list Event * later) := raise_iin mask ;; mret ([], []).

Definition static_range (pt : PointType) (variation start stop : Z) (b : responseBuilder) : M responseBuilder :=
  d ← gets db; mret (buildStaticRange d b pt variation start stop).

(** All points, and then the data sets there are. *)
Definition read_class0 (b : responseBuilder) : M responseBuilder :=
  d ← gets db;
  readDatasets (ReadAllObjects 87 1) (buildStatic d b).

Definition read_class (h : ObjectHeader) : M (list Event * later) :=
  if Variation h =? 1 then mret ([], [read_class0])
  else if one_of (Variation h) [2; 3; 4] then
    match eventReadLimit h with
    | None => refused IINParameterError
    | Some limit =>
        evs ← on_events [] (fun b => Select b (Z.shiftl Class1 (Variation h - 2)) limit);
        mret (evs, [])
    end
  else mret ([], []).

Definition read_events (pt : PointType) (h : ObjectHeader) : M (list Event * later) :=
  d ← gets db;
  if negb (Variation h =? 0) && negb (eventVariationKnown pt (Variation h)) then refused IINObjectUnknown
  else if bool_decide (pt ∈ staticTypes) && (typeCount (Counts d) pt =? 0) then refused IINObjectUnknown
  else
    match eventReadLimit h with
    | None => refused IINParameterError
    | Some limit =>
        evs ← on_events [] (fun b => SelectType b pt limit);
        mret (if negb (Variation h =? 0) && negb (bool_decide (pt = TypeOctetString))
              then with_variation (Variation h) <$> evs else evs, [])
    end.

Definition read_static (h : ObjectHeader) : M (list Event * later) :=
  match pointTypeForGroup (Group h) with
  | None => refused IINObjectUnknown
  | Some pt =>
      if negb (Variation h =? 0) && negb (bool_decide (pt = TypeOctetString))
         && negb (bool_decide (is_Some (Lookup (staticGroupVar pt (Variation h))))) then refused IINObjectUnknown
      else
        modify (fun s => set_siin (checkStaticRead (db s) (iin s) pt h) s) ;;
        mret ([], [fun b => each_b (fun b run => static_range pt (Variation h) run.1 run.2 b)
                              (default [(0, 0xFFFF)] (forEachPointRun h)) b])
  end.

Definition read_header (h : ObjectHeader) : M (list Event * later) :=
  let defer f := mret ([], [f]) in
  let g := Group h in
  let v := Variation h in
  if g =? 60 then read_class h
  else
    match eventTypeForGroup g with
    | Some pt => read_events pt h
    | None =>
        if (g =? 50) && (v =? 1) then defer (readCurrentTime h)
        else if (g =? 80) && (v =? 1) then defer (readIIN h)
        else if (g =? 50) && (v =? 4) then defer (readTimeIntervals h)
        else if (85 <=? g) && (g <=? 87) then defer (readDatasets h)
        else if g =? 121 then defer (readSecurityStatistics h)
        else if g =? 112 then defer (readTerminals h)
        else if (g =? 50) && (v =? 3) then
          recorded ← gets recordedTime;
          if recorded =? zeroTime then refused IINParameterError
          else defer (fun b => mret (add b (time_object 3 (Now recorded))))
        else read_static h
    end.

Fixpoint read_headers (hs : list ObjectHeader) : M (list Event * later) :=
  match hs with
  | [] => mret ([], [])
  | h :: hs =>
      '(evs, ls) ← read_header h;
      '(evs', ls') ← read_headers hs;
      mret (evs ++ evs', ls ++ ls')
  end.

Definition onRead (r : Received) (frag : Fragment) : M (option SessionErr) :=
  match fileObject frag with
  | Some h => onFileRead r frag h
  | None =>
      match attributeHeader frag with
      | Some h => onAttributeRead r frag h
      | None =>
          s ← gets id;
          let b := newResponseBuilder (MaxTxFragment (cfg s)) (response_context s) in
          '(selected, ls) ← read_headers (Objects frag);
          '(b, hasEvents) ←
            (if 0 <? len selected then
               '(b, unsent) ← build_events b selected;
               _ ← on_events 0 (fun b => Discard b unsent);
               mret (b, len unsent <? len selected)
             else mret (b, false));
          b ← each_b (fun b f => f b) ls b;
          sendFragments r (FHeader frag) (done b) hasEvents
      end
  end.

(** ** WRITE *)

Definition with_deadband (v : spec_float) (c : PointConfig) : PointConfig :=
  mkPointConfig (Class c) (StaticVariation c) (EventVariation c) v (CommandEventClass c) (CommandEventVariation c).

(** One turn of the loop. *)
Definition write_deadband (variation : Z) (wide : Z) (value : spec_float) : M unit :=
  d ← gets db;
  if 0xFFFF <? wide then raise_iin IINParameterError
  else
    let index := u16 wide in
    let '(_, c, exists_) := Database_Analog d index in
    if negb exists_ then raise_iin IINParameterError
    else change_db (fun d => (Configure d TypeAnalog index (with_deadband value c)).1).

(** Each turn takes an object of at least two octets, or stops: a turn per octet and one more
    are enough. *)
Fixpoint deadband_loop (fuel : nat) (h : ObjectHeader) (prefixLen size i off : Z) : M unit :=
  match fuel with
  | O => mret tt
  | S fuel =>
      if ObjectHeader_Count h <=? i then mret tt
      else if len (Data h) <? off + prefixLen + size then raise_iin IINParameterError
      else
        let wide := if 0 <? prefixLen then readPrefix (drop (Z.to_nat off) (Data h)) prefixLen
                    else IndexOf (ORange h) i in
        let at_ := off + prefixLen in
        write_deadband (Variation h) wide (decodeDeadband (Variation h) (slice at_ (at_ + size) (Data h))) ;;
        deadband_loop fuel h prefixLen size (i + 1) (at_ + size)
  end.

Definition writeDeadbands (h : ObjectHeader) : M unit :=
  match Lookup (GV (Group h) (Variation h)) with
  | None => raise_iin IINObjectUnknown
  | Some d =>
      match SizeOctets d with
      | None => raise_iin IINObjectUnknown
      | Some size =>
          if size =? 0 then raise_iin IINObjectUnknown
          else
            let p := IndexPrefix (Qualifier h) in
            deadband_loop (length (Data h) + 1) h (if IsIndex p then IndexPrefix_Octets p else 0) size 0 0
      end
  end.

(** [if s.appl.WriteAbsoluteTime(t)], and what [accepted] does. *)
Definition write_time (t : Z) (accepted : M unit) : M unit :=
  done ← call (fun a => WriteAbsoluteTime a t);
  if (done : bool) then accepted else raise_iin IINParameterError.

Definition write_recorded_time (h : ObjectHeader) : M unit :=
  supported ← call SupportsWriteTime;
  if negb supported then raise_iin IINNoFuncCodeSupport
  else
    s ← gets id;
    if recordedTime s =? zeroTime then raise_iin IINParameterError
    else
      match timeWriteData h with
      | None => raise_iin IINParameterError
      | Some data =>
          now ← call appl_Now;
          let elapsed := time_Sub now (recordedTime s) in
          write_time (TTime (ParseTime48 data) + elapsed) (clockSet ;; modify (set_recordedTime zeroTime))
      end.

Definition write_clock (h : ObjectHeader) : M unit :=
  supported ← call SupportsWriteTime;
  if negb supported then raise_iin IINNoFuncCodeSupport
  else
    match timeWriteData h with
    | None => raise_iin IINParameterError
    | Some data => write_time (TTime (ParseTime48 data)) clockSet
    end.

Definition write_header (h : ObjectHeader) : M unit :=
  let g := Group h in
  let v := Variation h in
  if (85 <=? g) && (g <=? 87) then writeDatasets h
  else if g =? 0 then writeAttribute h
  else if (g =? 50) && (v =? 4) then writeTimeIntervals h
  else if g =? 112 then writeTerminals h
  else if (g =? 80) && (v =? 1) then clear_iin IINDeviceRestart
  else if (g =? 50) && (v =? 3) then write_recorded_time h
  else if (g =? 50) && (v =? 1) then write_clock h
  else if g =? 34 then writeDeadbands h
  else raise_iin IINObjectUnknown.

Definition onWrite (r : Received) (frag : Fragment) : M (option SessionErr) :=
  match fileObject frag with
  | Some h => onFileWrite r frag h
  | None => each write_header (Objects frag) ;; answer r (FHeader frag) []
  end.

(** ** Time and restarts *)

(** A time delay in milliseconds, as an object of group 52. *)
Definition delay_body (ms : Z) : list Z :=
  AppendObjectHeader [] (mkObjectHeader 52 2 (MakeQualifier PrefixNone RangeCount8) (mkRange RangeCount8 0 0 1)
    [u8 ms; u8 (Z.shiftr ms 8)] 0 0).

Definition onDelayMeasure (r : Received) (frag : Fragment) : M (option SessionErr) :=
  respond r (FHeader frag) (delay_body 0).

Definition onRecordCurrentTime (r : Received) (frag : Fragment) : M (option SessionErr) :=
  now ← call appl_Now;
  modify (set_recordedTime now) ;;
  answer r (FHeader frag) [].

Definition restart_supported (cold : bool) : M bool :=
  match RestartSupport with
  | None => mret true
  | Some (cold_supported, warm_supported) =>
      warm ← call warm_supported;
      if cold then call cold_supported else mret warm
  end.

(** The delay to report. *)
Definition restart (cold : bool) : M Z :=
  now ← call appl_Now;
  s ← gets id;
  if now <? restartUntil s then
    raise_iin IINAlreadyExecuting ;;
    mret (time_Sub (restartUntil s) now)
  else
    d ← (if cold then d ← call ColdRestart; on_events tt (fun b => (EventBuffer_Reset b, tt)) ;; mret d
         else call WarmRestart);
    when (0 <? d) (now ← call appl_Now; modify (set_restartUntil (now + d))) ;;
    raise_iin IINDeviceRestart ;;
    modify (set_synchronized false) ;;
    mret d.

Definition onRestart (r : Received) (frag : Fragment) : M (option SessionErr) :=
  let cold := Func (FHeader frag) =? FuncColdRestart in
  supported ← restart_supported cold;
  if negb supported then raise_iin IINNoFuncCodeSupport ;; answer r (FHeader frag) []
  else
    d ← restart cold;
    answer r (FHeader frag) (delay_body (Z.min (Milliseconds d) 0xFFFF)).

(** ** Classes *)

Definition unsolicited_class (enable : bool) (h : ObjectHeader) : M unit :=
  if negb (Group h =? 60) || (Variation h <? 2) || (4 <? Variation h) then raise_iin IINObjectUnknown
  else
    let class := Z.shiftl Class1 (Variation h - 2) in
    modify (fun s => set_unsolClasses (if enable then Z.lor (unsolClasses s) class else Z.ldiff (unsolClasses s) class) s).

Definition onUnsolicitedControl (r : Received) (frag : Fragment) : M (option SessionErr) :=
  s ← gets id;
  if negb (Enabled (UnsolicitedCfg (cfg s))) then raise_iin IINNoFuncCodeSupport ;; answer r (FHeader frag) []
  else
    each (unsolicited_class (Func (FHeader frag) =? FuncEnableUnsolicited)) (Objects frag) ;;
    answer r (FHeader frag) [].

Fixpoint assign_classes (class : Z) (hs : list ObjectHeader) : M unit :=
  match hs with
  | [] => mret tt
  | h :: hs =>
      if Group h =? 60 then
        assign_classes (if Variation h =? 1 then ClassNone
                        else if one_of (Variation h) [2; 3; 4] then Z.shiftl Class1 (Variation h - 2)
                        else class) hs
      else
        match pointTypeForGroup (Group h) with
        | None => raise_iin IINObjectUnknown
        | Some pt =>
            match forEachPointRun h with
            | None => raise_iin IINParameterError
            | Some runs => each (fun run => change_db (fun d => assignClassRange d pt class run.1 run.2)) runs
            end
        end ;;
        assign_classes class hs
  end.

Definition onAssignClass (r : Received) (frag : Fragment) : M (option SessionErr) :=
  assign_classes ClassNone (Objects frag) ;; answer r (FHeader frag) [].

(** ** Controls *)

(** [command_loop_run] shows that [onCommand] always has a result. *)
Definition on_command (r : Received) (frag : Fragment) : M (option SessionErr) := fun st =>
  match onCommand appl_Now cmds (Controls (cfg (sess st))) (core (sess st)) (appl st) (Broadcast r) frag with
  | None => ok st
  | Some (c, a, body) =>
      match body with Some body => respond r (FHeader frag) body | None => ok end
        (mkState (set_core c (sess st)) a (host st) (wire st) (sent st))
  end.

(** ** A request *)

(** The indication a request that cannot be parsed earns; [unknown] says the error was about
    an object that is not known. *)
Definition rejectMalformed (r : Received) (unknown : bool) : M (option SessionErr) :=
  match ParseHeader (RFragment r) with
  | Err _ => raise_iin IINParameterError ;; ok
  | Ok (hdr, _) =>
      if Header_IsResponse hdr then raise_iin IINParameterError ;; ok
      else
        (if negb (handlesFunc (Func hdr)) then bump UnknownFunction ;; raise_iin IINNoFuncCodeSupport
         else if unknown then raise_iin IINObjectUnknown
         else raise_iin IINParameterError) ;;
        if (Func hdr =? FuncConfirm) || NoReply (Func hdr) || Broadcast r || negb (Fir (HControl hdr))
           || negb (Fin (HControl hdr)) then ok
        else respond r hdr []
  end.

Definition unknown_object (e : FragmentErr) : bool :=
  match e with
  | ErrHeader e | ErrObjectAt _ e => bool_decide (e = ErrUnknownObject)
  | _ => false
  end.

Definition deferRead (r : Received) : M bool :=
  s ← gets id;
  if negb (u_awaiting (unsol s)) || Broadcast r then mret false
  else
    match ParseHeader (RFragment r) with
    | Err _ => mret false
    | Ok (hdr, _) =>
        if Header_IsResponse hdr || (Func hdr =? FuncConfirm) then mret false
        else if negb (Func hdr =? FuncRead) then modify (set_deferredRead None) ;; mret false
        else modify (set_deferredRead (Some r)) ;; mret true
    end.

(** The switch over the function code. *)
Definition dispatch_request (r : Received) (frag : Fragment) : M (option SessionErr) :=
  let hdr := FHeader frag in
  let f := Func hdr in
  if f =? FuncConfirm then (if Uns (HControl hdr) then onUnsolicitedConfirm hdr else onConfirm hdr) ;; ok
  else if f =? FuncRead then onRead r frag
  else if f =? FuncWrite then onWrite r frag
  else if f =? FuncDelayMeasure then onDelayMeasure r frag
  else if f =? FuncRecordCurrentTime then onRecordCurrentTime r frag
  else if f =? FuncAuthenticateFile then onAuthenticateFile r frag
  else if one_of f [FuncInitializeData; FuncInitializeAppl; FuncStartAppl; FuncStopAppl; FuncSaveConfig;
                    FuncActivateConfig] then onManagement r frag
  else if f =? FuncOpenFile then onOpenFile r frag
  else if f =? FuncCloseFile then onCloseFile r frag
  else if f =? FuncDeleteFile then onDeleteFile r frag
  else if f =? FuncGetFileInfo then onGetFileInfo r frag
  else if f =? FuncAbortFile then onAbortFile r frag
  else if one_of f [FuncColdRestart; FuncWarmRestart] then onRestart r frag
  else if one_of f [FuncEnableUnsolicited; FuncDisableUnsolicited] then onUnsolicitedControl r frag
  else if f =? FuncAssignClass then onAssignClass r frag
  else if one_of f [FuncSelect; FuncOperate; FuncDirectOperate; FuncDirectOperateNR] then on_command r frag
  else if one_of f [FuncImmedFreeze; FuncImmedFreezeNR; FuncFreezeClear; FuncFreezeClearNR] then
    onFreeze frag (one_of f [FuncFreezeClear; FuncFreezeClearNR]) ;;
    if NoReply f || Broadcast r then ok else respond r hdr []
  else if one_of f [FuncFreezeAtTime; FuncFreezeAtTimeNR] then
    onFreezeAtTime frag ;;
    if NoReply f || Broadcast r then ok else respond r hdr []
  else
    bump UnknownFunction ;;
    raise_iin IINNoFuncCodeSupport ;;
    answer r hdr [].

(** A request that is whole, well formed and, where that matters, authentic. *)
Definition execute (r : Received) (frag : Fragment) : M (option SessionErr) :=
  let hdr := FHeader frag in
  s ← gets id;
  if negb (Func hdr =? FuncConfirm) && isRepeatRequest s r frag then bump RepeatedRequests ;; replayResponse r hdr
  else
    when (negb (Func hdr =? FuncConfirm)) (rememberRequest r frag ;; abandonResponse) ;;
    when (Broadcast r) (
      raise_iin IINBroadcast ;;
      modify (set_broadcastConfirm (RDest r =? BroadcastMandatoryConfirm))) ;;
    if RequiresObjects (Func hdr) && (len (Objects frag) =? 0) then
      bump MalformedRequests ;;
      raise_iin IINParameterError ;;
      if NoReply (Func hdr) || Broadcast r then ok else respond r hdr []
    else dispatch_request r frag.

(** The fragment of a request, or the reason it is not one. *)
Inductive verdict := Malformed (unknown : bool) | Incomplete | Discarded | Accepted.

Definition inspect (frag : Fragment) (err : option FragmentErr) : verdict :=
  let hdr := FHeader frag in
  match err with
  | Some e => Malformed (unknown_object e)
  | None =>
      if negb (Fir (HControl hdr)) || negb (Fin (HControl hdr)) then Incomplete
      else if (Func hdr =? FuncConfirm) && (0 <? len (Objects frag)) then Discarded
      else if negb (Func hdr =? FuncConfirm) && (Con (HControl hdr) || Uns (HControl hdr)) then Discarded
      else if negb (forallb (fun h => Consistent (Qualifier h)) (Objects frag)) then Malformed false
      else Accepted
  end.

(** A request that was challenged is handled again once it is authentic.  Only a request that
    is not itself an authentication message is challenged, since that is tested first, so the
    second turn never asks for a third. *)
Fixpoint handleAuthenticated (fuel : nat) (r : Received) (authenticated : bool) : M (option SessionErr) :=
  match fuel with
  | O => ok
  | S fuel =>
      deferred ← deferRead r;
      if (deferred : bool) then ok
      else
        bump RequestsReceived ;;
        _ ← clockDue;
        s ← gets id;
        when (bool_decide (is_Some (SecureAuthentication (cfg s)))) (countSecurity 6 ;; expireSecurity) ;;
        let '(frag, err) := ParseFragment None (RFragment r) in
        let f := Func (FHeader frag) in
        match inspect frag err with
        | Malformed unknown => bump MalformedRequests ;; rejectMalformed r unknown
        | Incomplete => bump IncompleteRequests ;; raise_iin IINParameterError ;; ok
        | Discarded => bump MalformedRequests ;; ok
        | Accepted =>
            if (f =? FuncAuthRequest) || (f =? FuncAuthRequestNoAck)
            then onAuthentication (fun r => handleAuthenticated fuel r true) r frag
            else
              match SecureAuthentication (cfg s) with
              | Some c =>
                  if negb authenticated && (criticalFunction f || hasAuthenticationObject frag)
                  then challengeRequest c r frag
                  else execute r frag
              | None => execute r frag
              end
        end
  end.

Definition handle (r : Received) : M (option SessionErr) := handleAuthenticated 2 r false.

Definition resumeDeferredRead : M (option SessionErr) :=
  s ← gets id;
  match deferredRead s with
  | None => ok
  | Some r =>
      if u_awaiting (unsol s) then ok
      else
        modify (set_deferredRead None) ;;
        or_return (handle r) advanceResponse
  end.

End Requests.
