(* ===== verification/Serve.v ===== *)
(** * The life of an outstation session (src/outstation/session.go)

    Construction, the updates and restarts an application asks for, and the loop that serves
    a connection: what happens when it starts, when octets arrive, when the ticker fires, and
    when it ends.  Everything that touches the state runs on the session goroutine, so a run
    is a sequence of these steps ([session_step]). *)

From stdpp Require Import gmap.
From S2P Require Import Prelude StateMonad LinkFrame Stack LinkLayer Values Floats AppHeader AppObject AppFragment Objects Codecs FileObjects.
From S2P Require Import ExtObjects EventBuffer Database ExtendedDatabase Commands Response OutstationState Respond Unsolicited Services.
From S2P Require Import Freeze FileServer Security Requests.

Section Serve.
Context {Env : Environment} {LL : LinkLayer}.

(** ** Construction *)

(** The stack is made by [Run]; [l] is what the field holds before. *)
Definition New (c : Config) (l : Link) : Session :=
  let c := applyDefaults c in
  let d := NewDatabase (DatabaseCfg c) (Some (NewEventBuffer (EventsCfg c))) in
  let '(d, iin) := fold_left (fun '(d, iin) v =>
      match UpdateDataset d v ClassNone with
      | (d, None) => (d, iin)
      | (d, Some _) => (d, IIN_Set iin IINConfigCorrupt)
      end) (Datasets c) (d, IINDeviceRestart) in
  mkSession c (Commands.mkSession selection0 iin d) l false zeroTime 0 false 0 zeroTime [] 0 0 0 false [] 
    (Z.land (Indications c) settableIndications) zeroTime false 0 0 [] [] false 0 unsolState0 false false None zeroTime
    (buildAttributes c) None 0 fileAuthorization0
    (mkSecurity (match SecureAuthentication c with
                 | None => ∅
                 | Some sc => map_imap configured_user (SA_Users sc)
                 end) 0 0 None (replicate 18 0)) zeroTime [] false false Stats0.

(** ** What an application asks for *)

Definition Restart : M unit :=
  modify (set_restartPending true) ;;
  on_events tt (fun b => (EventBuffer_Reset b, tt)).

Definition applyRestart : M unit :=
  pending ← gets restartPending;
  modify (set_restartPending false) ;;
  if negb pending then mret tt
  else
    raise_iin IINDeviceRestart ;;
    modify (set_synchronized false) ;;
    unsol_reset.

Definition Update (fn : Database -> Database) : M unit :=
  s ← gets id;
  if serving s then modify (set_updates (updates s ++ [fn])) else change_db fn.

Definition drainUpdates : M unit :=
  batch ← gets updates;
  modify (set_updates []) ;;
  each change_db batch ;;
  applyRestart.

Definition setServing (on : bool) : M unit :=
  modify (set_serving on) ;;
  if on then mret tt
  else
    batch ← gets updates;
    each change_db batch ;;
    modify (set_updates []).

(** ** One connection *)

(** [serve] before its loop.  A transmission that fails is logged. *)
Definition serve_start : M unit :=
  modify (set_connected true) ;;
  modify (set_lastReqValid false) ;;
  modify (set_deferredRead None) ;;
  unsol_reset ;;
  applyRestart ;;
  setServing true ;;
  now ← call appl_Now;
  _ ← pollUnsolicited now;
  mret tt.

(** The deferred function of [serve]. *)
Definition serve_end : M unit :=
  setServing false ;;
  modify (set_connected false) ;;
  resetSecurity ;;
  modify (set_fileAuth fileAuthorization0) ;;
  _ ← closeFile;
  mret tt.

(** [s.stack.Receive] with its callback: once a request has failed the others are dropped.
    The first error is of the stack, the second of a request. *)
Definition with_stack (l : Link) (st : state) : state :=
  mkState (set_stack l (sess st)) (appl st) (host st) (wire st) (sent st).
Definition with_wire (x : Wire) (st : state) : state :=
  mkState (sess st) (appl st) (host st) x (sent st).

Definition on_fragment (l : Link) (x : state * option SessionErr) (r : Received) : Link * (state * option SessionErr) :=
  let '(st, herr) := x in
  match herr with
  | Some _ => (l, x)
  | None => let '(st, herr) := handle r (with_stack l st) in (stack (sess st), (st, herr))
  end.

Definition receive (data : list Z) : M (option SessionErr) := fun st =>
  let '(l, (st, herr), err) :=
    link_Receive (fun x => wire x.1) (fun w x => (with_wire w x.1, x.2)) on_fragment (stack (sess st)) (st, None) data in
  (with_stack l st, match err with Some e => Some (SErrLink e) | None => herr end).

(** [case data := <-rx]; an error ends the connection. *)
Definition on_data (data : list Z) : M (option SessionErr) :=
  drainUpdates ;;
  or_return (receive data) (or_return advanceResponse resumeDeferredRead).

(** [case <-ticker.C]. *)
Definition on_tick : M (option SessionErr) :=
  now ← call appl_Now;
  checkLinkTimeout ;;
  checkConfirmTimeout ;;
  checkFileTimeout now ;;
  _ ← clockDue;
  runFreezes now ;;
  expireSecurity ;;
  or_return (pollUnsolicited now) resumeDeferredRead.

(** A new connection of [Run]. *)
Definition connect : M unit :=
  bump Connections ;;
  modify (fun s => set_stack (link_Reset (stack s)) s) ;;
  serve_start.

(** An error of a handler ends the connection. *)
Definition or_end (m : M (option SessionErr)) : M unit :=
  err ← m; match err with Some _ => serve_end | None => mret tt end.

(** One step of the life of a session: of the goroutine that serves it, of the goroutines of
    the application that call it, or of the world, in which time passes, the application goes
    about its business and the line takes octets or fails. *)
Inductive session_step : state -> state -> Prop :=
| step_world st a h x : session_step st (mkState (sess st) a h x (sent st))
| step_connect st : connected (sess st) = false -> session_step st (connect st).1
| step_data st data : connected (sess st) = true -> session_step st (or_end (on_data data) st).1
| step_tick st : connected (sess st) = true -> session_step st (or_end on_tick st).1
| step_wake st : connected (sess st) = true -> session_step st (drainUpdates st).1
| step_disconnect st : connected (sess st) = true -> session_step st (serve_end st).1
| step_update st fn : session_step st (Update fn st).1
| step_restart st : session_step st (Restart st).1
| step_indication st ind on : session_step st (modify (SetIndication ind on) st).1.

(** The states a session with the configuration [c] can be in. *)
Inductive lived (c : Config) : state -> Prop :=
| lived_new l a h x : lived c (mkState (New c l) a h x [])
| lived_step st st' : lived c st -> session_step st st' -> lived c st'.

End Serve.
