(* ===== verification/SessionFrame.v ===== *)
(** * What the handlers leave alone

    Most handlers touch the database, the application and a few fields of their own, and
    reach the rest of the session only through [sendFragments], [sendAuthentication] and the
    handling of confirmations.  [Framed R] says a relation is blind to what the handlers touch
    themselves; [handle_guarantees] reduces a property of a whole request to those few
    operations.  [read_class0_points] says what a read of class 0 builds. *)

From stdpp Require Import gmap.
From S2P Require Import Prelude StateMonad LinkFrame Stack LinkLayer Values Floats AppHeader AppObject AppFragment Objects Codecs FileObjects.
From S2P Require Import ExtObjects EventBuffer Database ExtendedDatabase Commands Response OutstationState Respond Unsolicited Services.
From S2P Require Import Freeze FileServer Security Requests.

Section Frame.
Context {Env : Environment} {LL : LinkLayer}.

(** The parts of a session that decide what is sent when. *)
Definition transmission (s : Session) :=
  (cfg s, stack s, unsol s, connected s, (awaitingConfirm s, confirmSeq s, confirmDeadline s),
   (pendingBodies s, pendingIndex s, pendingDest s, pendingSeq s, pendingHasEvents s),
   (lastReqValid s, lastReqSource s, lastReqSeq s, lastReqFrag s), (lastRespBodies s, lastRespEvents s)).

Class Framed (R : relation state) := {
  framed_preorder :: PreOrder R;
  framed_by st s a h : transmission s = transmission (sess st) -> R st (mkState s a h (wire st) (sent st)) }.

Context (R : relation state) {FR : Framed R}.

Ltac frame := by_parts; try (apply framed_by; reflexivity).

Lemma clockDue_framed : guarantees R clockDue.
Proof. unfold clockDue. frame. Qed.
Lemma clockSet_framed : guarantees R clockSet.
Proof. unfold clockSet, clear_iin. frame. Qed.
Lemma raise_iin_framed mask : guarantees R (raise_iin mask).
Proof. unfold raise_iin. frame. Qed.
Lemma clear_iin_framed mask : guarantees R (clear_iin mask).
Proof. unfold clear_iin. frame. Qed.
Lemma bump_framed c : guarantees R (bump c).
Proof. unfold bump. frame. Qed.
Lemma change_db_framed f : guarantees R (change_db f).
Proof. unfold change_db. frame. Qed.
Lemma on_events_framed {T} (zero : T) f : guarantees R (on_events zero f).
Proof. frame. Qed.
Lemma call_framed {T} (f : App -> App * T) : guarantees R (call f).
Proof. frame. Qed.
Lemma host_call_framed {T} (f : Host -> Host * T) : guarantees R (host_call f).
Proof. frame. Qed.
#[local] Hint Resolve clockDue_framed clockSet_framed raise_iin_framed clear_iin_framed bump_framed change_db_framed
  @on_events_framed @call_framed @host_call_framed : parts.
Lemma currentIIN_framed : guarantees R currentIIN.
Proof. unfold currentIIN. frame. Qed.
Lemma each_b_framed {T} (f : responseBuilder -> T -> M responseBuilder) l :
  (forall b x, guarantees R (f b x)) -> forall b, guarantees R (each_b f l b).
Proof. intros H. induction l; intros b; cbn [each_b]; frame; auto. Qed.
#[local] Hint Resolve currentIIN_framed : parts.
Lemma each_run_framed h f b : (forall b run, guarantees R (f b run)) -> guarantees R (each_run h f b).
Proof. intros H. unfold each_run. frame. by apply each_b_framed. Qed.
Lemma build_events_framed b evs : guarantees R (build_events b evs).
Proof.
  intros st. unfold build_events. destruct (buildEvents _ _ _ _ _ _) as [[b' a] u]. by apply framed_by.
Qed.
#[local] Hint Resolve build_events_framed : parts.

Lemma fit_loop_framed fuel events : forall lo hi, guarantees R (fit_loop fuel events lo hi).
Proof. induction fuel; intros lo hi; cbn [fit_loop]; unfold fits; frame. Qed.

(** ** Services, freezes, files *)

Lemma writeAttribute_framed h : guarantees R (writeAttribute h).
Proof. unfold writeAttribute. frame. Qed.
Lemma append_attributes_framed l : forall body, guarantees R (append_attributes body l).
Proof. induction l; intros body; cbn [append_attributes]; frame. Qed.
Lemma readCurrentTime_framed h b : guarantees R (readCurrentTime h b).
Proof. unfold readCurrentTime. frame. Qed.
Lemma readIIN_framed h b : guarantees R (readIIN h b).
Proof. unfold readIIN. frame. Qed.
Lemma readTimeIntervals_framed h b : guarantees R (readTimeIntervals h b).
Proof. unfold readTimeIntervals. apply each_run_framed. frame. Qed.
Lemma writeTimeIntervals_framed h : guarantees R (writeTimeIntervals h).
Proof. unfold writeTimeIntervals, write_time_interval. frame. Qed.
Lemma readTerminals_framed h b : guarantees R (readTerminals h b).
Proof. unfold readTerminals. apply each_run_framed. frame. Qed.
Lemma writeTerminals_framed h : guarantees R (writeTerminals h).
Proof. unfold writeTerminals, write_terminal. frame. Qed.
Lemma readDatasets_framed h b : guarantees R (readDatasets h b).
Proof.
  unfold readDatasets. frame. apply each_run_framed. intros. apply each_b_framed. unfold read_dataset. frame.
Qed.
Lemma writeDatasets_framed h : guarantees R (writeDatasets h).
Proof. unfold writeDatasets, write_dataset. frame. Qed.
#[local] Hint Resolve writeAttribute_framed append_attributes_framed readCurrentTime_framed readIIN_framed
  readTimeIntervals_framed writeTimeIntervals_framed readTerminals_framed writeTerminals_framed readDatasets_framed
  writeDatasets_framed : parts.

Lemma onFreeze_framed frag clear : guarantees R (onFreeze frag clear).
Proof. unfold onFreeze, freeze_header, freeze_counters, freeze_analogs. frame. Qed.
Lemma onFreezeAtTime_framed frag : guarantees R (onFreezeAtTime frag).
Proof. unfold onFreezeAtTime. frame. Qed.
Lemma run_freezes_framed now fs : guarantees R (run_freezes now fs).
Proof.
  induction fs; cbn [run_freezes]; frame. unfold run_freeze, freeze_counters, freeze_analogs. frame.
Qed.
#[local] Hint Resolve onFreeze_framed onFreezeAtTime_framed run_freezes_framed : parts.
Lemma runFreezes_framed now : guarantees R (runFreezes now).
Proof. unfold runFreezes. frame. Qed.

Lemma src_Read_framed src n : guarantees R (src_Read src n).
Proof. unfold src_Read. frame. Qed.
#[local] Hint Resolve src_Read_framed : parts.
Lemma br_Read_framed src br n : guarantees R (br_Read src br n).
Proof. unfold br_Read. frame. Qed.
#[local] Hint Resolve br_Read_framed : parts.
Lemma read_full_framed fuel : forall src br n got, guarantees R (read_full fuel src br n got).
Proof. induction fuel; intros; cbn [read_full]; frame. Qed.
Lemma br_fill_framed tries : forall src br, guarantees R (br_fill tries src br).
Proof. induction tries; intros; cbn [br_fill]; frame. Qed.
#[local] Hint Resolve read_full_framed br_fill_framed : parts.
Lemma br_Peek1_framed src br : guarantees R (br_Peek1 src br).
Proof. unfold br_Peek1. frame. Qed.
#[local] Hint Resolve br_Peek1_framed : parts.
Lemma readBlock_framed t : guarantees R (readBlock t).
Proof. unfold readBlock. frame. Qed.
Lemma closeFile_framed : guarantees R closeFile.
Proof. unfold closeFile, transfer_close. frame. Qed.
#[local] Hint Resolve readBlock_framed closeFile_framed : parts.
Lemma checkFileTimeout_framed now : guarantees R (checkFileTimeout now).
Proof. unfold checkFileTimeout. frame. Qed.
Lemma draw_key_framed fuel : guarantees R (draw_key fuel).
Proof. induction fuel; cbn [draw_key]; frame. Qed.
Lemma fileAuthorized_framed source key : guarantees R (fileAuthorized source key).
Proof. unfold fileAuthorized. frame. Qed.
Lemma openTransfer_framed h cmd : guarantees R (openTransfer h cmd).
Proof. unfold openTransfer, directoryContents. frame. Qed.
#[local] Hint Resolve checkFileTimeout_framed draw_key_framed fileAuthorized_framed openTransfer_framed : parts.

(** ** Security *)

Lemma countSecurity_framed i : guarantees R (countSecurity i).
Proof. unfold countSecurity, change_security. frame. Qed.
#[local] Hint Resolve countSecurity_framed : parts.
Lemma set_user_framed i u : guarantees R (set_user i u).
Proof. unfold set_user, change_security. frame. Qed.
#[local] Hint Resolve set_user_framed : parts.
Lemma expireSecurity_framed : guarantees R expireSecurity.
Proof. unfold expireSecurity, change_security, expire_user. frame. Qed.
Lemma securityKeyValid_framed c u source : guarantees R (securityKeyValid c u source).
Proof. unfold securityKeyValid. frame. Qed.
#[local] Hint Resolve expireSecurity_framed securityKeyValid_framed : parts.
Lemma any_ready_framed c source us : guarantees R (any_ready c source us).
Proof. induction us as [|[i u] us IH]; cbn [any_ready]; frame. Qed.
Lemma readSecurityStatistics_framed h b : guarantees R (readSecurityStatistics h b).
Proof. unfold readSecurityStatistics. frame. apply each_run_framed. frame. Qed.
#[local] Hint Resolve any_ready_framed readSecurityStatistics_framed : parts.

(** ** Requests *)

Lemma deferRead_framed r : guarantees R (deferRead r).
Proof. unfold deferRead. frame. Qed.
Lemma read_header_framed h : guarantees R (read_header h).
Proof. unfold read_header, read_class, read_events, read_static, refused. frame. Qed.
#[local] Hint Resolve deferRead_framed read_header_framed : parts.
Lemma read_headers_framed hs : guarantees R (read_headers hs).
Proof. induction hs; cbn [read_headers]; frame. Qed.
#[local] Hint Resolve read_headers_framed : parts.

(** What the headers of a read leave for later does no more. *)
Definition framed_later (ls : later) : Prop := Forall (fun f => forall b, guarantees R (f b)) ls.

Lemma static_range_framed pt v start stop b : guarantees R (static_range pt v start stop b).
Proof. unfold static_range. frame. Qed.
#[local] Hint Resolve static_range_framed : parts.
Lemma read_class0_framed b : guarantees R (read_class0 b).
Proof. unfold read_class0. frame. Qed.

Lemma read_header_later h : returns (fun x => framed_later x.2) (read_header h).
Proof.
  unfold read_header, read_class, read_events, read_static, refused. by_returns.
  all: cbn [snd]; unfold framed_later; try (by apply Forall_nil).
  all: apply Forall_cons; split; [intros b|by apply Forall_nil].
  all: try (by auto with parts nocore); try apply read_class0_framed; try apply g_ret; try exact _.
  all: apply each_b_framed; frame.
Qed.
Lemma read_headers_later hs : returns (fun x => framed_later x.2) (read_headers hs).
Proof.
  induction hs as [|h hs IH]; cbn [read_headers]; [apply returns_ret; by apply Forall_nil|].
  eapply returns_bind_post; [apply read_header_later|]. intros [evs ls] Hls.
  eapply returns_bind_post; [apply IH|]. intros [evs' ls'] Hls'. apply returns_ret. by apply Forall_app.
Qed.
Lemma run_later_framed ls b : framed_later ls -> guarantees R (each_b (fun b f => f b) ls b).
Proof. intros H. revert b. induction H; intros b; cbn [each_b]; frame; auto. Qed.

Lemma deadband_loop_framed fuel h p size : forall i off, guarantees R (deadband_loop fuel h p size i off).
Proof. induction fuel; intros i off; cbn [deadband_loop]; frame. Qed.
#[local] Hint Resolve deadband_loop_framed : parts.
Lemma write_header_framed h : guarantees R (write_header h).
Proof. unfold write_header, write_recorded_time, write_clock, write_time, writeDeadbands. frame. Qed.
Lemma assign_classes_framed hs : forall class, guarantees R (assign_classes class hs).
Proof. induction hs; intros class; cbn [assign_classes]; frame. Qed.
Lemma restart_framed cold : guarantees R (restart cold).
Proof. unfold restart. frame. Qed.
Lemma restart_supported_framed cold : guarantees R (restart_supported cold).
Proof. unfold restart_supported. frame. Qed.
Lemma unsolicited_class_framed enable h : guarantees R (unsolicited_class enable h).
Proof. unfold unsolicited_class. frame. Qed.
#[local] Hint Resolve write_header_framed assign_classes_framed restart_framed restart_supported_framed
  unsolicited_class_framed : parts.

Section OneRequest.
Context (r : Received).
Hypothesis (Hsend : forall req bodies ev, guarantees R (sendFragments r req bodies ev)).
Hypothesis (Hauth : forall seq h, guarantees R (sendAuthentication r seq h)).
Hypothesis (Hconfirm : forall h, guarantees R (onConfirm h)).
Hypothesis (Hunsol : forall h, guarantees R (onUnsolicitedConfirm h)).
Hypothesis (Habandon : guarantees R abandonResponse).
Hypothesis (Hremember : forall frag, guarantees R (rememberRequest r frag)).
Hypothesis (Hreplay : forall req, guarantees R (replayResponse r req)).
#[local] Hint Resolve Hsend Hauth Hconfirm Hunsol Habandon Hremember Hreplay : parts.

Lemma respond_framed req body : guarantees R (respond r req body).
Proof. apply Hsend. Qed.
#[local] Hint Resolve respond_framed : parts.
Lemma answer_framed req body : guarantees R (answer r req body).
Proof. unfold answer. frame. Qed.
Lemma parameter_error_framed req : guarantees R (parameter_error r req).
Proof. unfold parameter_error. frame. Qed.
Lemma unsupportedFile_framed req : guarantees R (unsupportedFile r req).
Proof. unfold unsupportedFile. frame. Qed.
#[local] Hint Resolve answer_framed parameter_error_framed unsupportedFile_framed : parts.
Lemma respondFile_framed req v obj : guarantees R (respondFile r req v obj).
Proof. unfold respondFile. frame. Qed.
#[local] Hint Resolve respondFile_framed : parts.
Lemma commandStatus_framed req x : guarantees R (commandStatus r req x).
Proof. unfold commandStatus. frame. Qed.
Lemma transportStatus_framed req x : guarantees R (transportStatus r req x).
Proof. unfold transportStatus. frame. Qed.
#[local] Hint Resolve commandStatus_framed transportStatus_framed : parts.

Lemma onFileRead_framed frag h : guarantees R (onFileRead r frag h).
Proof. unfold onFileRead. frame. Qed.
Lemma onFileWrite_framed frag h : guarantees R (onFileWrite r frag h).
Proof. unfold onFileWrite, write_block. frame. Qed.
Lemma onAttributeRead_framed frag h : guarantees R (onAttributeRead r frag h).
Proof. unfold onAttributeRead. frame. Qed.
#[local] Hint Resolve onFileRead_framed onFileWrite_framed onAttributeRead_framed : parts.

Lemma onRead_framed frag : guarantees R (onRead r frag).
Proof.
  unfold onRead. destruct (fileObject frag); [frame|]. destruct (attributeHeader frag); [frame|].
  apply g_bind; [exact _ | frame|]. intros s.
  apply g_bind_post with (fun x => framed_later x.2); [exact _ | frame | apply read_headers_later|].
  intros [evs ls] Hls. cbn [snd] in Hls. pose proof (fun b => run_later_framed ls b Hls). frame.
Qed.
Lemma onWrite_framed frag : guarantees R (onWrite r frag).
Proof. unfold onWrite. frame. Qed.
Lemma onAuthenticateFile_framed frag : guarantees R (onAuthenticateFile r frag).
Proof. unfold onAuthenticateFile. frame. Qed.
Lemma onManagement_framed frag : guarantees R (onManagement r frag).
Proof. unfold onManagement, activate. frame. Qed.
Lemma onOpenFile_framed frag : guarantees R (onOpenFile r frag).
Proof. unfold onOpenFile. frame. Qed.
Lemma onCloseFile_framed frag : guarantees R (onCloseFile r frag).
Proof. unfold onCloseFile. frame. Qed.
Lemma onDeleteFile_framed frag : guarantees R (onDeleteFile r frag).
Proof. unfold onDeleteFile. frame. Qed.
Lemma onGetFileInfo_framed frag : guarantees R (onGetFileInfo r frag).
Proof. unfold onGetFileInfo. frame. Qed.
Lemma onAbortFile_framed frag : guarantees R (onAbortFile r frag).
Proof. unfold onAbortFile. frame. Qed.
Lemma on_command_framed frag : guarantees R (on_command r frag).
Proof.
  intros st. unfold on_command. destruct (onCommand _ _ _ _ _ _ _) as [[[c a] body]|]; [|reflexivity].
  transitivity (mkState (set_core c (sess st)) a (host st) (wire st) (sent st)); [by apply framed_by|].
  destruct body; [apply respond_framed | reflexivity].
Qed.
#[local] Hint Resolve onRead_framed onWrite_framed onAuthenticateFile_framed onManagement_framed onOpenFile_framed
  onCloseFile_framed onDeleteFile_framed onGetFileInfo_framed onAbortFile_framed on_command_framed : parts.

Lemma dispatch_request_framed frag : guarantees R (dispatch_request r frag).
Proof.
  unfold dispatch_request, onDelayMeasure, onRecordCurrentTime, onRestart, onUnsolicitedControl, onAssignClass. frame.
Qed.
#[local] Hint Resolve dispatch_request_framed : parts.
Lemma execute_framed frag : guarantees R (execute r frag).
Proof. unfold execute. frame. Qed.
Lemma rejectMalformed_framed unknown : guarantees R (rejectMalformed r unknown).
Proof. unfold rejectMalformed. frame. Qed.
Lemma authenticationError_framed seq user code : guarantees R (authenticationError r seq user code).
Proof. unfold authenticationError. frame. Qed.
#[local] Hint Resolve execute_framed rejectMalformed_framed authenticationError_framed : parts.
Lemma challengeRequest_framed c frag : guarantees R (challengeRequest c r frag).
Proof. unfold challengeRequest, change_security. frame. Qed.
Lemma sendKeyStatus_framed c seq user u : guarantees R (sendKeyStatus c r seq user u).
Proof. unfold sendKeyStatus, change_security. frame. Qed.
#[local] Hint Resolve challengeRequest_framed sendKeyStatus_framed : parts.
Lemma onKeyChange_framed c frag data : guarantees R (onKeyChange c r frag data).
Proof. unfold onKeyChange, change_security. frame. Qed.
#[local] Hint Resolve onKeyChange_framed : parts.

Lemma onReply_framed resume c frag data :
  (forall p, guarantees R (resume p)) -> guarantees R (onReply c resume r frag data).
Proof. intros Hresume. unfold onReply, change_security. frame. Qed.
Lemma onAuthentication_framed resume frag :
  (Broadcast r = false -> forall p, guarantees R (resume p)) -> guarantees R (onAuthentication resume r frag).
Proof.
  intros Hresume. pose proof (fun c data Hb => onReply_framed resume c frag data (Hresume Hb)) as Hreply. clear Hresume.
  unfold onAuthentication, change_security. revert Hreply. generalize (Broadcast r). intros b Hreply.
  destruct b; [|pose proof (fun c data => Hreply c data eq_refl)]; frame.
Qed.
End OneRequest.

(** A whole request: [Hhandled] is about the requests other than this one that are handled on
    the way, which a broadcast cannot lead to. *)
Definition request_ok (r : Received) : Prop :=
  (forall req bodies ev, guarantees R (sendFragments r req bodies ev)) /\
  (forall seq h, guarantees R (sendAuthentication r seq h)) /\
  (forall frag, guarantees R (rememberRequest r frag)) /\ (forall req, guarantees R (replayResponse r req)).

Lemma handle_guarantees r :
  (forall h, guarantees R (onConfirm h)) -> (forall h, guarantees R (onUnsolicitedConfirm h)) ->
  guarantees R abandonResponse -> request_ok r -> (Broadcast r = false -> forall p, request_ok p) ->
  guarantees R (handle r).
Proof.
  intros Hc Hu Ha. unfold handle. generalize 2%nat. intros fuel.
  enough (forall authenticated r, request_ok r -> (Broadcast r = false -> forall p, request_ok p) ->
    guarantees R (handleAuthenticated fuel r authenticated)) by auto. clear r.
  induction fuel as [|fuel IH]; intros authenticated r Hr Hp; cbn [handleAuthenticated]; [frame|].
  destruct Hr as (H1 & H2 & H3 & H4).
  pose proof (execute_framed r H1 Hc Hu Ha H3 H4). pose proof (rejectMalformed_framed r H1).
  pose proof (challengeRequest_framed r H2).
  assert (forall frag, guarantees R (onAuthentication (fun r => handleAuthenticated fuel r true) r frag)).
  { intros frag. apply onAuthentication_framed; [done | done|]. intros Hb p. apply IH; [exact (Hp Hb p) | intros _; exact (Hp Hb)]. }
  frame.
Qed.
End Frame.

(** ** The static part of a class 0 read

    A read of class 0 answers with [buildStatic] of the database, and with the data sets, if the
    device has any, after it. *)
Section Class0.
Context {Env : Environment} {LL : LinkLayer}.

Lemma each_b_skips {T} (f : responseBuilder -> T -> M responseBuilder) l b (st : state) :
  (forall x, f b x st = (st, b)) -> each_b f l b st = (st, b).
Proof. intros Hf. induction l as [|x l IH]; [done|]. cbn [each_b]. unfold mbind, M_bind. by rewrite Hf. Qed.

Lemma read_class0_points b (st : state) :
  (forall i, datasets (db (sess st)) !! (87, 1, i) = None) ->
  read_class0 b st = (st, buildStatic (db (sess st)) b).
Proof.
  intros Hd. unfold read_class0, readDatasets, each_run. compute_session. change (forEachPointRun _) with (Some [(0, 0xFFFF)]).
  change (negb _) with false. cbn match. apply each_b_skips. intros run. apply each_b_skips. intros i.
  unfold read_dataset. compute_session. by rewrite Hd.
Qed.
End Class0.
