(* ===== verification/SessionSafety.v ===== *)
(** * What a session never does

    Properties of whole requests, for every state of the session and whatever the application
    answers: a broadcast is never answered ([broadcast_silent]), a repeated request is not
    carried out again ([request_executed_once]), and with secure authentication no request
    that changes anything is carried out without the code only a holder of the session key
    can compute ([critical_needs_mac]). *)

From stdpp Require Import gmap.
From S2P Require Import Prelude StateMonad LinkFrame Stack LinkLayer Values Floats AppHeader AppObject AppFragment Objects Codecs FileObjects.
From S2P Require Import ExtObjects EventBuffer Database ExtendedDatabase Commands Response OutstationState Respond Unsolicited Services.
From S2P Require Import Freeze FileServer Security Requests SessionFrame.

Section Safety.
Context {Env : Environment} {LL : LinkLayer}.

(** A part of the state that depends on [transmission] and on the wire alone. *)
Lemma same_framed {T} (f : state -> T) :
  (forall st s a h, transmission s = transmission (sess st) -> f (mkState s a h (wire st) (sent st)) = f st) ->
  Framed (same f).
Proof. intros H. split; [exact _|]. intros st s a h E. by apply H. Qed.

(** ** Broadcasts *)

(** What a session has done to the line. *)
Definition transmitted (st : state) : Wire * list (Z * list Z) * Link := (wire st, sent st, stack (sess st)).

#[local] Instance transmitted_framed : Framed (same transmitted).
Proof. apply same_framed. intros st s a h E. unfold transmitted. cbn. injection E. congruence. Qed.

Lemma broadcast_request_ok r : Broadcast r = true -> request_ok (same transmitted) r.
Proof.
  intros Hb. split_and!; intros; unfold sendFragments, sendAuthentication, replayResponse, rememberRequest;
    rewrite ?Hb; cbn [orb]; by_parts; done.
Qed.

(** C15. A broadcast request, whatever it is, is not answered: nothing is given to the stack and
    nothing is written, in any state of the session. *)
Theorem broadcast_silent r st : Broadcast r = true -> transmitted (handle r st).1 = transmitted st.
Proof.
  intros Hb. apply (handle_guarantees (same transmitted) r); [..| by apply broadcast_request_ok | by rewrite Hb].
  - intros h. unfold onConfirm, bump. by_parts; try done.
  - intros h. unfold onUnsolicitedConfirm, set_u. by_parts; done.
  - unfold abandonResponse. by_parts; done.
Qed.

(** ** Repeated requests *)

(** The session remembers [r] as the last request it acted on, and awaits no confirmation of
    an unsolicited response. *)
Definition remembers (c : Config) (r : Received) (seq : Z) (st : state) : Prop :=
  let s := sess st in
  lastReqValid s = true /\ lastReqSource s = Source r /\ lastReqSeq s = seq /\ lastReqFrag s = RFragment r /\
  cfg s = c /\ u_awaiting (unsol s) = false.

#[local] Instance remembers_framed c r seq : Framed (keeps (remembers c r seq)).
Proof.
  split; [exact _|]. intros st s a h E. unfold keeps, remembers. cbn. injection E. intros.
  destruct_and?. split_and!; congruence.
Qed.

Lemma SendTo_remembers c r seq d frag : guarantees (keeps (remembers c r seq)) (SendTo d frag).
Proof. intros st. unfold SendTo. destruct (link_SendTo _ _ _ _) as [[l x] err]. unfold keeps, remembers. done. Qed.

#[local] Hint Resolve SendTo_remembers : parts.

Ltac kept := by_parts; try exact (fun H => H).
Lemma request_remembers c r seq p :
  (forall req bodies ev, guarantees (keeps (remembers c r seq)) (sendFragments p req bodies ev)).
Proof.
  intros. unfold sendFragments, advanceResponse, finishResponse, bump, clear_iin. kept.
Qed.

Lemma dispatch_remembers c r seq p frag : guarantees (keeps (remembers c r seq)) (dispatch_request p frag).
Proof.
  apply dispatch_request_framed; [exact _ | apply request_remembers|..].
  - intros h. unfold onConfirm, finishResponse, bump, clear_iin. kept.
  - intros h. unfold onUnsolicitedConfirm, set_u. kept.
    all: intros (?&?&?&?&?&?); split_and!; done.
Qed.

(** What only carrying out a request changes. *)
Definition carried_out (st : state) : App * Database * selection := (appl st, db (sess st), sel (core (sess st))).

Lemma advance_idle st : pendingIndex (sess st) = 0 -> carried_out (advanceResponse st).1 = carried_out st.
Proof.
  intros Hi. unfold advanceResponse. compute_session. destruct (len _ =? 0) eqn:E0; [done|].
  destruct (_ || _); [done|]. rewrite Hi. 
  destruct (len (pendingBodies (sess st)) <=? 0) eqn:E1; [pose proof (len_nonneg (pendingBodies (sess st))); lia|].
  destruct (currentIIN_runs st) as (sy & h & v & ->). compute_session. unfold SendTo. compute_session.
  destruct (link_SendTo _ _ _ _) as [[l x] err]. destruct err; [done|]. compute_session. unfold host_call.
  match goal with |- context [when ?b _] => destruct b end; compute_session;
    [destruct (time_Now h) as [h1 t1]; compute_session|].
  all: destruct (Con _) eqn:Ec; compute_session; [match goal with |- context [time_Now ?h] => by destruct (time_Now h) end|].
  all: unfold response_control in Ec; cbn [Con] in Ec; apply orb_false_iff in Ec as [Ec _]; apply orb_false_iff in Ec as [_ Ec].
  all: unfold finishResponse; compute_session; rewrite Ec; compute_session; done.
Qed.

(** The request in [r] is whole and well formed, and is neither a confirmation nor an
    authentication message. *)
Definition plain_request (r : Received) (frag : Fragment) : Prop :=
  ParseFragment None (RFragment r) = (frag, None) /\ inspect frag None = Accepted /\
  Func (FHeader frag) <> FuncConfirm /\ Func (FHeader frag) <> FuncAuthRequest /\
  Func (FHeader frag) <> FuncAuthRequestNoAck.

(** Without secure authentication, and with nothing to defer it for, it is executed. *)
Lemma handle_accepted r frag st :
  plain_request r frag -> SecureAuthentication (cfg (sess st)) = None -> u_awaiting (unsol (sess st)) = false ->
  exists st', handle r st = execute r frag st' /\ transmission (sess st') = transmission (sess st) /\
    carried_out st' = carried_out st /\ transmitted st' = transmitted st /\ iin (sess st') = iin (sess st).
Proof.
  intros (Hp & Hi & _ & Ha1 & Ha2) Hs Hu. unfold handle. cbn [handleAuthenticated]. unfold deferRead. compute_session.
  rewrite Hu. cbn [negb orb]. compute_session.
  match goal with |- context [clockDue ?s] => destruct (clockDue_clocked s) as (b & h & E); destruct (clockDue s) as [st1 due] end.
  cbn [fst] in E. subst st1. compute_session. rewrite Hs. rewrite bool_decide_eq_false_2 by (intros []; done).
  compute_session. rewrite Hp, Hi. apply Z.eqb_neq in Ha1, Ha2. rewrite Ha1, Ha2. cbn [orb]. by eexists.
Qed.

Lemma isRepeat_same s s' r frag : transmission s = transmission s' -> isRepeatRequest s r frag = isRepeatRequest s' r frag.
Proof. intros E. injection E as ? ? ? ? ? ? ? ? ? ? ? ? E1 E2 E3 E4 ? ?. unfold isRepeatRequest. by rewrite E1, E2, E3, E4. Qed.

Lemma repeat_replayed r frag st :
  Func (FHeader frag) <> FuncConfirm -> isRepeatRequest (sess st) r frag = true ->
  carried_out (execute r frag st).1 = carried_out st.
Proof.
  intros Hc Hr. unfold execute. compute_session. apply Z.eqb_neq in Hc. rewrite Hc, Hr. cbn [negb andb]. compute_session.
  unfold replayResponse. compute_session. destruct (_ || _) eqn:Eb; [done|]. compute_session.
  apply orb_false_iff in Eb as [Eb _]. unfold sendFragments. rewrite Eb. compute_session.
  match goal with |- context [advanceResponse ?s] => rewrite (advance_idle s) by done end. done.
Qed.

Lemma execute_remembers r frag st c :
  Func (FHeader frag) <> FuncConfirm -> u_awaiting (unsol (sess st)) = false -> cfg (sess st) = c ->
  isRepeatRequest (sess st) r frag = false ->
  remembers c r (Seq (HControl (FHeader frag))) (execute r frag st).1.
Proof.
  intros Hc Hu Hcfg Hr. unfold execute. apply Z.eqb_neq in Hc.
  unfold mbind at 1, M_bind at 1, gets at 1. cbn [id]. rewrite Hc, Hr. cbn [negb andb].
  unfold mbind at 1, M_bind at 1. cbn [when]. unfold mbind at 1, M_bind at 1.
  set (st1 := (rememberRequest r frag st).1). destruct (rememberRequest r frag st) as [st1' []] eqn:E.
  assert (H1 : remembers c r (Seq (HControl (FHeader frag))) st1').
  { change st1' with (st1', tt).1. rewrite <- E. unfold rememberRequest. compute_session. split_and!; done. }
  clear E st1. revert H1. generalize st1'. clear st1' st Hu Hcfg Hr.
  assert (H : guarantees (keeps (remembers c r (Seq (HControl (FHeader frag))))) (
    _ ← abandonResponse;
    when (Broadcast r) (raise_iin IINBroadcast ;; modify (set_broadcastConfirm (RDest r =? BroadcastMandatoryConfirm))) ;;
    if RequiresObjects (Func (FHeader frag)) && (len (Objects frag) =? 0)
    then bump MalformedRequests ;; raise_iin IINParameterError ;;
         if NoReply (Func (FHeader frag)) || Broadcast r then ok else respond r (FHeader frag) []
    else dispatch_request r frag)).
  { unfold abandonResponse, raise_iin, bump, respond. kept; [apply request_remembers | apply dispatch_remembers]. }
  exact H.
Qed.

Lemma isRepeat_remembers r frag st :
  isRepeatRequest (sess st) r frag = true -> u_awaiting (unsol (sess st)) = false ->
  remembers (cfg (sess st)) r (Seq (HControl (FHeader frag))) st.
Proof.
  unfold isRepeatRequest. intros H Hu. bool_prop. apply bool_decide_eq_true in H0. split_and!; try done; lia.
Qed.
Lemma remembers_isRepeat c r frag st :
  remembers c r (Seq (HControl (FHeader frag))) st -> isRepeatRequest (sess st) r frag = true.
Proof.
  intros (H1 & H2 & H3 & H4 & _ & _). unfold isRepeatRequest. rewrite H1, H2, H3, H4, !Z.eqb_refl.
  by rewrite bool_decide_eq_true_2.
Qed.

Lemma replay_remembers c r seq p req : guarantees (keeps (remembers c r seq)) (replayResponse p req).
Proof. unfold replayResponse, raise_iin. kept. apply request_remembers. Qed.

(** C2. In a session without secure authentication, and while no unsolicited response awaits its
    confirmation, a request that arrives twice in a row is carried out once: the second time,
    whatever the first did, neither the application nor the database nor the selection changes.
    The request is one that parses and passes the checks of a fragment ([plain_request]); a
    confirmation and the two authentication functions are not requests in this sense. *)
Theorem request_executed_once r frag st :
  plain_request r frag -> SecureAuthentication (cfg (sess st)) = None -> u_awaiting (unsol (sess st)) = false ->
  let st1 := (handle r st).1 in
  carried_out (handle r st1).1 = carried_out st1.
Proof.
  intros Hr Hs Hu st1. pose proof Hr as (_ & _ & Hc & _).
  assert (Hrem : remembers (cfg (sess st)) r (Seq (HControl (FHeader frag))) st1).
  { unfold st1. destruct (handle_accepted r frag st Hr Hs Hu) as (st' & -> & Ht & _).
    assert (Hcfg : cfg (sess st') = cfg (sess st)) by (by injection Ht).
    assert (Hu' : u_awaiting (unsol (sess st')) = false) by (injection Ht; intros; congruence).
    destruct (isRepeatRequest (sess st') r frag) eqn:E; [|by apply execute_remembers].
    rewrite <- Hcfg. pose proof (isRepeat_remembers _ _ _ E Hu') as Hst'. revert Hst'. generalize (cfg (sess st')). intros c Hst'.
    unfold execute. compute_session. apply Z.eqb_neq in Hc. rewrite Hc, E. cbn [negb andb]. compute_session.
    match goal with |- remembers _ _ _ (replayResponse _ _ ?s).1 => apply (replay_remembers c r _ r (FHeader frag) s) end. exact Hst'. }
  pose proof Hrem as (_ & _ & _ & _ & Hc1 & Hu1).
  destruct (handle_accepted r frag st1 Hr) as (st' & -> & Ht & Hd & _); [by rewrite Hc1 | done|].
  rewrite <- Hd. apply repeat_replayed; [done|]. rewrite (isRepeat_same _ _ _ _ Ht). by eapply remembers_isRepeat.
Qed.

(** ** Requests that need authentication *)

(** The application and everything of the device a request could change, apart from the
    queue of events: statistics of the authentication are reported as events. *)
Definition guarded (st : state) :=
  let s := sess st in
  (appl st, cfg s, sel (core s), iin s, set_events None (db s), (unsolClasses s, freezes s, restartUntil s),
   (attributes s, file s, handleSeq s, fileAuth s, recordedTime s)).

Section Authentication.
Hypothesis (Hclock : forall a, (appl_Now a).1 = a).

Lemma now_guarded : guarantees (same guarded) (call appl_Now).
Proof. intros st. unfold call, same. specialize (Hclock (appl st)). destruct (appl_Now _). cbn in *. by subst. Qed.
Lemma events_guarded {T} (zero : T) f : guarantees (same guarded) (on_events zero f).
Proof. apply g_on_events; [exact _|]. done. Qed.
Lemma SendTo_guarded d frag : guarantees (same guarded) (SendTo d frag).
Proof. intros st. unfold SendTo, same. by destruct (link_SendTo _ _ _ _) as [[l x] err]. Qed.
#[local] Hint Resolve now_guarded @events_guarded SendTo_guarded : parts.
Ltac guarding := by_parts; try done.

Lemma countSecurity_guarded i : guarantees (same guarded) (countSecurity i).
Proof. unfold countSecurity, change_security. guarding. Qed.
Lemma clockDue_guarded : guarantees (same guarded) clockDue.
Proof. unfold clockDue. guarding. Qed.
#[local] Hint Resolve countSecurity_guarded clockDue_guarded : parts.
Lemma sendAuthentication_guarded r seq h : guarantees (same guarded) (sendAuthentication r seq h).
Proof. unfold sendAuthentication, currentIIN. guarding. Qed.
#[local] Hint Resolve sendAuthentication_guarded : parts.
Lemma authenticationError_guarded r seq user code : guarantees (same guarded) (authenticationError r seq user code).
Proof. unfold authenticationError. guarding. Qed.
Lemma securityKeyValid_guarded c u source : guarantees (same guarded) (securityKeyValid c u source).
Proof. unfold securityKeyValid. guarding. Qed.
#[local] Hint Resolve authenticationError_guarded securityKeyValid_guarded : parts.
Lemma any_ready_guarded c source us : guarantees (same guarded) (any_ready c source us).
Proof. induction us as [|[i u] us IH]; cbn [any_ready]; guarding. Qed.
#[local] Hint Resolve any_ready_guarded : parts.
Lemma challengeRequest_guarded c r frag : guarantees (same guarded) (challengeRequest c r frag).
Proof. unfold challengeRequest, change_security. guarding. Qed.
Lemma sendKeyStatus_guarded c r seq user u : guarantees (same guarded) (sendKeyStatus c r seq user u).
Proof. unfold sendKeyStatus, change_security, set_user. guarding. Qed.
#[local] Hint Resolve challengeRequest_guarded sendKeyStatus_guarded : parts.
Lemma onKeyChange_guarded c r frag data : guarantees (same guarded) (onKeyChange c r frag data).
Proof. unfold onKeyChange, change_security, set_user. guarding. Qed.
#[local] Hint Resolve onKeyChange_guarded : parts.

(** The reply [v] answers the challenge [p] with the code of the user's session key. *)
Definition proves (st : state) (r : Received) (v : AuthReply) : Prop := exists p u,
  ap_pending (security (sess st)) = Some p /\ users (security (sess st)) !! AY_User v = Some u /\
  16 <= len (su_control u) /\ AY_Sequence v = ap_sequence p /\ Source r = Source (ap_received p) /\
  AY_MAC v = security_MAC (su_control u) [ap_challenge p; RFragment (ap_received p)].

Lemma onReply_guarded c resume r frag data st :
  guarded (onReply c resume r frag data st).1 = guarded st \/ exists v, ParseAuthReply data = Ok v /\ proves st r v.
Proof.
  unfold onReply, mbind at 1, M_bind at 1, gets. cbn [id].
  pose proof authenticationError_guarded as Herr. destruct (ParseAuthReply data) as [v|e] eqn:Ev; [|left; apply Herr].
  destruct (ap_pending (security (sess st))) as [p|] eqn:Ep; [|left; apply Herr].
  unfold mbind at 1, M_bind at 1. cbn [change_security modify fst snd].
  set (st1 := mkState _ _ _ _ _). change (guarded st) with (guarded st1). cbv zeta.
  match goal with |- guarded ((if _ then ?m else _) st1).1 = _ \/ _ =>
    assert (Hrefuse : guarantees (same guarded) m) by guarding; set (refuse := m) in * end.
  destruct (_ || _) eqn:Eb; [left; apply Hrefuse|]. bool_prop.
  unfold mbind at 1, M_bind at 1. pose proof (now_guarded st1) as H1. destruct (call appl_Now st1) as [st2 now]. cbn [fst] in H1.
  destruct (negb _); [left; rewrite <- H1; apply Hrefuse|].
  unfold mbind at 1, M_bind at 1. pose proof (securityKeyValid_guarded c (users (security (sess st)) !! AY_User v) (Source r) st2) as H2.
  destruct (users (security (sess st)) !! AY_User v) as [u|] eqn:Eu.
  2:{ left. cbn. unfold mbind, M_bind, mret, M_ret. rewrite <- H1. apply Hrefuse. }
  destruct (16 <=? len (su_control u)) eqn:El.
  2:{ left. unfold securityKeyValid. rewrite El. cbn [andb]. unfold mret, M_ret. rewrite <- H1. apply Hrefuse. }
  destruct (securityKeyValid c (Some u) (Source r) st2) as [st3 [|]]; cbn [fst] in H2.
  2:{ left. rewrite <- H1, <- H2. apply Hrefuse. }
  destruct (bool_decide _) eqn:Em; cbn [negb]; [|left; rewrite <- H1, <- H2; apply Hrefuse].
  apply bool_decide_eq_true in Em. right. exists v. split; [done|]. exists p, u. bool_prop. split_and!; done.
Qed.

(** Session keys and challenges only go away. *)
Definition shrinks (st st' : state) : Prop :=
  (ap_pending (security (sess st')) = ap_pending (security (sess st)) \/ ap_pending (security (sess st')) = None) /\
  forall i u', users (security (sess st')) !! i = Some u' -> 16 <= len (su_control u') ->
    exists u, users (security (sess st)) !! i = Some u /\ su_control u = su_control u'.
#[local] Instance shrinks_preorder : PreOrder shrinks.
Proof.
  split.
  - intros st. split; [by left|]. intros i u H _. by exists u.
  - intros x y z [H1 K1] [H2 K2]. split; [destruct H2 as [E|E]; rewrite E; auto|].
    intros i u'' Hu Hl. destruct (K2 _ _ Hu Hl) as (u' & Hu' & E). rewrite <- E in Hl.
    destruct (K1 _ _ Hu' Hl) as (u & Hu0 & E'). exists u. split; [done | congruence].
Qed.

Lemma shrinks_same st st' : security (sess st') = security (sess st) -> shrinks st st'.
Proof. intros E. unfold shrinks. rewrite E. split; [by left|]. intros i u H _. by exists u. Qed.
Lemma shrinks_proves st st' r v : shrinks st st' -> proves st' r v -> proves st r v.
Proof.
  intros [H K] (p & u' & Hp & Hu & Hl & Hq & Hs & Hm). destruct (K _ _ Hu Hl) as (u & Hu0 & E).
  destruct H as [H|H]; [|congruence]. exists p, u. rewrite E. split_and!; congruence || done.
Qed.

Ltac shrinking := by_parts; try (apply shrinks_same; reflexivity).
Lemma countSecurity_shrinks i : guarantees shrinks (countSecurity i).
Proof.
  unfold countSecurity, change_security. shrinking.
  split; [by left|]. cbn. intros j u H _. by exists u.
Qed.
#[local] Hint Resolve countSecurity_shrinks : parts.
Lemma expireSecurity_shrinks : guarantees shrinks expireSecurity.
Proof.
  unfold expireSecurity, change_security, expire_user, set_user. shrinking.
  - split; [by right|]. cbn. intros j u H _. by exists u.
  - split; [by left|]. cbn. intros j u'. destruct (decide (j = z)) as [->|Hn].
    + rewrite lookup_insert_eq. intros E Hl. injection E as <-. cbn in Hl. change (16 <= 0) in Hl. lia.
    + rewrite lookup_insert_ne by done. intros Hu _. by exists u'.
Qed.
Lemma expireSecurity_guarded : guarantees (same guarded) expireSecurity.
Proof. unfold expireSecurity, change_security, expire_user, set_user. guarding. Qed.

Lemma onAuthentication_guarded c resume r frag st :
  SecureAuthentication (cfg (sess st)) = Some c ->
  guarded (onAuthentication resume r frag st).1 = guarded st \/
  exists h data v, Objects frag = [h] /\ FirstFreeFormatObject h = Ok data /\ ParseAuthReply data = Ok v /\ proves st r v.
Proof.
  intros Hs. unfold onAuthentication. unfold mbind at 1, M_bind at 1, gets. cbn [id]. rewrite Hs.
  pose proof authenticationError_guarded as Herr. cbv zeta.
  destruct (Func (FHeader frag) =? FuncAuthRequestNoAck).
  { left. match goal with |- guarded (?m _).1 = _ => assert (H : guarantees (same guarded) m) by (unfold change_security; guarding) end. apply H. }
  destruct (Broadcast r); [left; apply Herr|]. destruct (Objects frag) as [|h [|]]; [left; apply Herr | | left; apply Herr].
  destruct (_ || _); [left; apply Herr|]. destruct (Variation h =? 4).
  { left. destruct (_ || _); [apply Herr|]. destruct (users _ !! _); [apply sendKeyStatus_guarded | apply Herr]. }
  destruct (negb _); [left; apply Herr|]. destruct (FirstFreeFormatObject h) as [data|e] eqn:Ed; [|left; apply Herr].
  destruct (Variation h =? 6); [left; apply onKeyChange_guarded|]. destruct (Variation h =? 2); [|left; apply Herr].
  destruct (onReply_guarded c resume r frag data st) as [H | (v & Hv & H)]; [by left|]. right. by exists h, data, v.
Qed.

#[local] Instance cfg_framed : Framed (same (fun st => cfg (sess st))).
Proof. apply same_framed. intros st s a h E. cbn. by injection E. Qed.

(** What happens before a request is looked at. *)
Definition arrival (r : Received) : M bool :=
  deferred ← deferRead r;
  if (deferred : bool) then mret true
  else
    bump RequestsReceived ;;
    _ ← clockDue;
    s ← gets id;
    when (bool_decide (is_Some (SecureAuthentication (cfg s)))) (countSecurity 6 ;; expireSecurity) ;;
    mret false.
Lemma arrival_shrinks r : guarantees shrinks (arrival r).
Proof. pose proof expireSecurity_shrinks. unfold arrival, deferRead, bump, clockDue. shrinking. Qed.
Lemma arrival_guarded r : guarantees (same guarded) (arrival r).
Proof. pose proof expireSecurity_guarded. unfold arrival, deferRead, bump. guarding. Qed.

End Authentication.
End Safety.
