(* ===== verification/SessionInvariant.v ===== *)
(** * What is always true of a session

    [orderly]: what every state of a session satisfies, from its construction on, whatever
    arrives, whatever the application does and however the line fails.  The index of the
    fragment to send next is within the response, the sequence number a confirmation is
    compared with is the one of the fragment sent last, an unsolicited response carries
    nothing before the null response was confirmed, and everything ever sent is a response
    with the control bits of its kind. *)

From stdpp Require Import gmap.
From S2P Require Import Prelude StateMonad LinkFrame LinkParser LinkFsm Transport Stack LinkLayer Values Floats AppHeader AppObject AppFragment Objects Codecs.
From S2P Require Import FileObjects ExtObjects EventBuffer Database ExtendedDatabase Commands Response OutstationState Respond Unsolicited.
From S2P Require Import Services Freeze FileServer Security Requests Serve SessionFrame.

(** ** The invariant *)

Section Invariant.
Context {Env : Environment} {LL : LinkLayer} {WL : Walking}.
Context (c : Config).

(** A response of a kind, to the address [d]. *)
Inductive response_to (d : Z) (ctl : Control) : Z -> Prop :=
| solicited : Uns ctl = false -> response_to d ctl FuncResponse
| authentication q : ctl = mkControl true true false false q -> response_to d ctl FuncAuthResponse
| unsolicited q : 0 <= q < SeqModulus -> ctl = mkControl true true true true q -> d = RemoteAddr c ->
    response_to d ctl FuncUnsolicitedResponse.

Definition well_formed_response (x : Z * list Z) : Prop :=
  exists ctl f iin body, x.2 = AppendHeader [] (mkHeader ctl f iin) ++ body /\ response_to x.1 ctl f.

(** A response in progress. *)
Record responding (s : Session) : Prop := mkResponding {
  r_index : 0 <= pendingIndex s <= len (pendingBodies s);
  r_awaits : awaitingConfirm s = true -> 0 < pendingIndex s ->
    confirmSeq s = Seq (response_control s (pendingIndex s - 1)) }.

(** The unsolicited responses. *)
Record reporting (u : unsolState) : Prop := mkReporting {
  u_seq_ok : 0 <= u_seq u < SeqModulus;
  u_awaits : u_awaiting u = true -> retained u = true /\ awaitSeq u = u_seq u;
  u_retained : retained u = true -> nullSent u = true;
  u_confirmed : nullConfirmed u = true -> nullSent u = true;
  u_forgotten : retained u = false -> lastBody u = [] /\ retries u = 0;
  u_null : nullConfirmed u = false -> lastBody u = [];
  u_retries : 0 <= retries u <= MaxRetries (UnsolicitedCfg c) }.

Record orderly (st : state) : Prop := mkOrderly {
  o_cfg : cfg (sess st) = c;
  o_responding : responding (sess st);
  o_reporting : reporting (unsol (sess st));
  o_sent : Forall well_formed_response (sent st) }.

#[local] Instance orderly_framed : Framed (keeps orderly).
Proof.
  split; [exact _|]. intros st s a h E [Hc Hr Hu Hs].
  injection E as E1 _ E2 _ E3 E4 _ E5 E6 _ E7 _ _ _ _ _ _ _. split; cbn [sess sent]; [congruence | | by rewrite E2 | done].
  destruct Hr as [H1 H2]. split; rewrite ?E5, ?E6, ?E3, ?E4; [exact H1|].
  unfold response_control in *. cbn [Seq] in *. by rewrite E7.
Qed.
Ltac ordered := by_parts; try (apply framed_by; reflexivity).

(** The stack and the line are of no concern. *)
Lemma on_line_orderly st l x m h :
  orderly st -> Forall well_formed_response m -> orderly (mkState (set_stack l (sess st)) (appl st) h x m).
Proof. intros [Hc [Hi Hw] Hu Hs] Hm. by split. Qed.

(** What is given to the stack is on the list of what was sent. *)
Lemma SendTo_orderly d frag st :
  orderly st -> well_formed_response (d, frag) ->
  exists l x m e, SendTo d frag st = (mkState (set_stack l (sess st)) (appl st) (host st) x m, e) /\ Forall well_formed_response m.
Proof.
  intros [_ _ _ Hs] Hf. unfold SendTo. destruct (link_SendTo _ _ _ _) as [[l x] err]. eexists l, x, _, _. split; [done|].
  destruct err; [done|]. apply Forall_app. split; [done|]. by apply Forall_singleton.
Qed.
Lemma Send_orderly frag st :
  orderly st -> well_formed_response (RemoteAddr c, frag) ->
  exists l x m e, Send frag st = (mkState (set_stack l (sess st)) (appl st) (host st) x m, e) /\ Forall well_formed_response m.
Proof.
  intros [Hc _ _ Hs] Hf. unfold Send. destruct (link_Send _ _ _) as [[l x] err]. eexists l, x, _, _. split; [done|].
  destruct err; [done|]. apply Forall_app. split; [done|]. rewrite Hc. by apply Forall_singleton.
Qed.

(** ** Solicited responses *)

Lemma unsent_responding s : pendingIndex s = 0 -> responding s.
Proof. intros H. split; rewrite H; [|lia]. pose proof (len_nonneg (pendingBodies s)). lia. Qed.

Lemma finishResponse_orderly : guarantees (keeps orderly) finishResponse.
Proof.
  intros st [Hc Hr Hu Hs]. unfold finishResponse. compute_session. unfold on_events.
  destruct (pendingHasEvents _); compute_session; [destruct (db_events _) as [b|]; [destruct (Confirm b)|]; compute_session|].
  all: split; compute_session; try done; by apply unsent_responding.
Qed.

Lemma response_solicited s i iin body : well_formed_response (pendingDest s, AppendHeader [] (mkHeader (response_control s i) FuncResponse iin) ++ body).
Proof. eexists _, _, _, _. split; [reflexivity|]. by apply solicited. Qed.

Lemma advanceResponse_orderly : guarantees (keeps orderly) advanceResponse.
Proof.
  intros st Ho. pose proof Ho as [Hc [Hi Hw] Hu Hs]. unfold advanceResponse. compute_session. destruct (len _ =? 0) eqn:E0; [done|].
  destruct (_ || _) eqn:Eb; [done|]. apply orb_false_iff in Eb as [Ea _].
  destruct (len _ <=? _) eqn:E1; [by apply finishResponse_orderly|].
  pose proof (currentIIN_framed (keeps orderly) st Ho) as Ho1. destruct (currentIIN_runs st) as (sy & h & v & Ev).
  rewrite Ev in Ho1 |- *. cbn [fst] in Ho1. compute_session.
  match goal with |- context [SendTo _ _ ?s] => set (st1 := s) in * end.
  pose proof (response_solicited (sess st) (pendingIndex (sess st)) v (default [] (pendingBodies (sess st) !! Z.to_nat (pendingIndex (sess st))))) as Hf.
  destruct (SendTo_orderly _ _ st1 Ho1 Hf) as (l & x & m & [e|] & -> & Hm); compute_session.
  { by apply on_line_orderly. }
  unfold host_call. assert (Ho2 : forall h, orderly (mkState (set_stack l (sess st1)) (appl st1) h x m)) by (intros; by apply on_line_orderly).
  match goal with |- context [when ?b _] => destruct b end; compute_session;
    [match goal with |- context [time_Now ?h] => destruct (time_Now h) as [h1 t1] end; compute_session|].
  all: destruct (Con _) eqn:Ec; compute_session;
    [match goal with |- context [time_Now ?h] => destruct (time_Now h) as [h2 t2] end; compute_session|].
  all: try apply finishResponse_orderly.
  all: split; compute_session; try done; split; compute_session; unfold st1; compute_session; try lia.
  all: try (rewrite Ea; discriminate).
  all: intros _ _; unfold response_control; cbn [Seq]; do 4 f_equal; lia.
Qed.

#[local] Hint Resolve finishResponse_orderly advanceResponse_orderly : parts.

Lemma sendFragments_orderly r req bodies ev : guarantees (keeps orderly) (sendFragments r req bodies ev).
Proof.
  unfold sendFragments. destruct (Broadcast r); [ordered|]. intros st Ho. compute_session. apply advanceResponse_orderly.
  destruct Ho. split; try done; by apply unsent_responding.
Qed.
Lemma onConfirm_orderly h : guarantees (keeps orderly) (onConfirm h).
Proof.
  unfold onConfirm, bump. ordered. intros [Hc [Hi _] Hu Hs]. by split.
Qed.
Lemma abandonResponse_orderly : guarantees (keeps orderly) abandonResponse.
Proof.
  intros st Ho. unfold abandonResponse. compute_session. destruct (_ =? 0); [done|]. unfold on_events.
  destruct (pendingHasEvents _); compute_session; [destruct (db_events _) as [b|]; [destruct (Unselect b)|]; compute_session|].
  all: destruct Ho; split; try done; by apply unsent_responding.
Qed.
Lemma rememberRequest_orderly r frag : guarantees (keeps orderly) (rememberRequest r frag).
Proof. intros st [Hc [Hi Hw] Hu Hs]. by split. Qed.
Lemma replayResponse_orderly r req : guarantees (keeps orderly) (replayResponse r req).
Proof.
  intros st Ho. unfold replayResponse. compute_session. destruct (_ || _); [done|]. compute_session. apply sendFragments_orderly.
  destruct Ho. split; try done; by apply unsent_responding.
Qed.
Lemma checkConfirmTimeout_orderly : guarantees (keeps orderly) checkConfirmTimeout.
Proof.
  intros st Ho. unfold checkConfirmTimeout, host_call, on_events. compute_session. destruct (awaitingConfirm _); [|done]. cbn [negb].
  destruct (time_Now _) as [h t]. compute_session. destruct (_ <? _); compute_session; [by destruct Ho|].
  destruct (db_events _) as [b|]; [destruct (Unselect b)|]; compute_session; destruct Ho; split; try done; by apply unsent_responding.
Qed.
Lemma checkLinkTimeout_orderly : guarantees (keeps orderly) checkLinkTimeout.
Proof.
  unfold checkLinkTimeout. ordered. intros st Ho. destruct (link_OnTimeout _ _) as [[[l x] failed] [e|]]; [by apply on_line_orderly; destruct Ho|].
  unfold host_call. compute_session. destruct (time_Now _) as [h t]. destruct Ho as [? [] ? ?]. by split.
Qed.

Lemma sendAuthentication_orderly r seq h : guarantees (keeps orderly) (sendAuthentication r seq h).
Proof.
  unfold sendAuthentication. destruct (Broadcast r); [ordered|].
  apply g_bind; [exact _ | apply currentIIN_framed; exact _|]. intros iin. apply g_bind; [exact _ | ordered|]. intros c0.
  destruct (_ <? _); [ordered|]. apply g_bind; [exact _ | apply countSecurity_framed; exact _|]. intros _ st Ho.
  compute_session. match goal with |- context [SendTo ?d ?f st] => destruct (SendTo_orderly d f st Ho) as (l & x & m & e & -> & Hm) end.
  - eexists _, _, _, _. cbn [fst snd]. split; [apply AppendObjectHeader_app | by eapply authentication].
  - by apply on_line_orderly.
Qed.

(** ** Unsolicited responses *)

(** A change of the unsolicited state alone. *)
Lemma set_u_orderly f st : orderly st -> reporting (f (unsol (sess st))) -> orderly (set_u f st).1.
Proof. intros [Hc [Hi Hw] Hu Hs] Hf. by split. Qed.

Lemma set_u_then {T} f (k : M T) st : (set_u f ;; k) st = k (set_u f st).1.
Proof. done. Qed.
Lemma set_u_set_u f g st : set_u g (set_u f st).1 = set_u (fun u => g (f u)) st.
Proof. done. Qed.

Lemma onUnsolicitedConfirm_orderly h : guarantees (keeps orderly) (onUnsolicitedConfirm h).
Proof.
  intros st Ho. unfold onUnsolicitedConfirm. unfold mbind at 1, M_bind at 1, gets. destruct (_ || _) eqn:Eb; [done|].
  assert (Hr : reporting (unsol (sess st))) by apply Ho. bool_prop. destruct Hr as [H1 H2 H3 H4 H5 H6 H7].
  destruct (H2 H) as [Hret _].
  pose proof (set_u_orderly (with_awaiting false) st Ho ltac:(by split)) as Ho1. unfold mbind, M_bind.
  destruct (set_u _ st) as [st1 []] eqn:E1. assert (Eu : unsol (sess st1) = with_awaiting false (unsol (sess st))) by by injection E1 as <-.
  pose proof (set_u_orderly forget_body st1 Ho1 ltac:(rewrite Eu; split; cbn; done || lia)) as Ho2.
  destruct (set_u _ st1) as [st2 []] eqn:E2. assert (Eu2 : unsol (sess st2) = forget_body (unsol (sess st1))) by by injection E2 as <-.
  destruct (nullConfirmed (unsol (sess st))); cbn [negb].
  - apply (on_events_framed (keeps orderly) 0 Confirm) in Ho2. cbn [fst] in Ho2. by destruct (on_events _ _ st2).
  - apply set_u_orderly; [done|]. rewrite Eu2, Eu. split; cbn; auto; lia.
Qed.

Lemma unsolicitedFragment_runs st body : exists b h v, unsolicitedFragment body st =
  (mkState (set_synchronized b (sess st)) (appl st) h (wire st) (sent st),
   AppendHeader [] (mkHeader (mkControl true true true true (u_seq (unsol (sess st)))) FuncUnsolicitedResponse v) ++ body).
Proof.
  unfold unsolicitedFragment. destruct (currentIIN_runs st) as (b & h & v & E). unfold mbind, M_bind, gets. rewrite E.
  by exists b, h, v.
Qed.

Lemma then_keeps {T U} (m : M T) (k : T -> M U) st :
  orderly (m st).1 -> (forall v, guarantees (keeps orderly) (k v)) -> orderly ((m ≫= k) st).1.
Proof. intros Hm Hk. unfold mbind, M_bind. destruct (m st) as [st' v]. by apply Hk. Qed.

(** The fragment goes out; the state it leaves differs in what the stack and the clock hold. *)
Lemma transmit_unsolicited body (k : M (option SessionErr)) st :
  orderly st -> (forall st', orderly st' -> unsol (sess st') = unsol (sess st) -> orderly (k st').1) ->
  orderly ((frag ← unsolicitedFragment body; or_return (Send frag) k) st).1.
Proof.
  intros Ho Hk. unfold mbind, M_bind. destruct (unsolicitedFragment_runs st body) as (b & h & v & ->).
  set (st1 := mkState _ _ _ _ _). pose proof (framed_by (R := keeps orderly) st (set_synchronized b (sess st)) (appl st) h eq_refl Ho : orderly st1) as Ho1.
  match goal with |- context [or_return (Send ?f)] => destruct (Send_orderly f st1 Ho1) as (l & x & m & e & E & Hm) end.
  { destruct Ho as [_ _ [Hq _] _]. eexists _, _, _, _. cbn [fst snd]. split; [done|]. by eapply unsolicited. }
  unfold or_return, mbind, M_bind. rewrite E. destruct e; [by apply on_line_orderly|]. apply Hk; [by apply on_line_orderly | done].
Qed.

Lemma retryUnsolicited_orderly now st :
  retained (unsol (sess st)) = true -> orderly st -> orderly (retryUnsolicited now st).1.
Proof.
  intros Hret Ho. unfold retryUnsolicited. unfold mbind at 1, M_bind at 1, gets. apply transmit_unsolicited; [done|].
  intros st' Ho' Eu. apply then_keeps; [|intros _; unfold bump; ordered].
  apply set_u_orderly; [done|]. rewrite Eu. destruct Ho as [_ _ [] _]. by split.
Qed.

(** Which events go out is found without touching any of this. *)
Definition held (st st' : state) : Prop := (orderly st -> orderly st') /\ unsol (sess st') = unsol (sess st).
#[local] Instance held_framed : Framed held.
Proof.
  split.
  - split; [by split|]. intros x y z [H1 E1] [H2 E2]. split; [auto | congruence].
  - intros st s a h E. split; [by apply (framed_by (R := keeps orderly)) | by injection E].
Qed.
Lemma then_held {T U} (m : M T) (k : T -> M U) st :
  guarantees held m -> orderly st ->
  (forall v st', orderly st' -> unsol (sess st') = unsol (sess st) -> orderly (k v st').1) -> orderly ((m ≫= k) st).1.
Proof.
  intros Hm Ho Hk. unfold mbind, M_bind. destruct (Hm st) as [Ho' E]. destruct (m st) as [st' v]. apply Hk; [by apply Ho' | done].
Qed.

Lemma next_seq q : 0 <= Z.rem (u8 (q + 1)) SeqModulus < SeqModulus.
Proof.
  unfold u8. pose proof (Z.mod_pos_bound (q + 1) 256). unfold SeqModulus. rewrite Z.rem_mod_nonneg by lia.
  apply Z.mod_pos_bound. lia.
Qed.

Lemma sendUnsolicited_orderly events now null st :
  u_awaiting (unsol (sess st)) = false -> nullConfirmed (unsol (sess st)) = negb null -> orderly st ->
  orderly (sendUnsolicited events now null st).1.
Proof.
  intros Ha Hn Ho. unfold sendUnsolicited, eventsThatFit. pose proof (fit_loop_framed held). pose proof (build_events_framed held).
  apply then_held; [by_parts; by apply framed_by | done|]. intros evs st1 Ho1 E1.
  apply then_held; [by_parts | done|]. intros s st2 Ho2 E2.
  set (built := if null then mret _ else _ : M responseBuilder).
  assert (Hb : guarantees held built) by (unfold built; destruct null; by_parts; by apply framed_by).
  assert (Hnil : null = true -> head (done (built st2).2) = Some []) by (intros ->; done).
  unfold mbind at 1, M_bind at 1. destruct (Hb st2) as [Ho3 E3]. specialize (Ho3 Ho2). destruct (built st2) as [st3 b].
  cbn [fst snd] in *. clear Hb built. cbv zeta. set (body := default [] _).
  assert (Hbody : null = true -> body = []) by (intros Et; unfold body; by rewrite Hnil).
  assert (Hu : unsol (sess st3) = unsol (sess st)) by congruence. clear - Hbody Hu Ha Hn Ho3.
  assert (Hr : reporting (unsol (sess st))) by (rewrite <- Hu; apply Ho3). destruct Hr as [H1 H2 H3 H3' H4 H5 H6].
  unfold mbind at 1, M_bind at 1. destruct (set_u _ st3) as [st4 []] eqn:E4.
  assert (E5 : unsol (sess st4) = with_seq (Z.rem (u8 (u_seq (unsol (sess st)) + 1)) SeqModulus) (unsol (sess st)))
    by (rewrite <- Hu; by injection E4 as <-).
  assert (Ho4 : orderly st4).
  { change st4 with (st4, ()).1. rewrite <- E4. apply set_u_orderly; [done|]. rewrite Hu. split; cbn; try done; [apply next_seq | by rewrite Ha]. }
  apply transmit_unsolicited; [done|]. intros st' Ho' Eu. rewrite E5 in Eu.
  rewrite set_u_then. apply then_keeps; [|intros _; unfold bump; ordered].
  rewrite set_u_set_u. apply set_u_orderly; [done|]. rewrite Eu.
  split; cbn; try done; [apply next_seq | ..].
  - intros _. destruct null; [apply orb_true_r|]. by rewrite H3'.
  - intros Ht. by rewrite H3'.
  - rewrite Hn. destruct null; [intros _; by apply Hbody | discriminate].
Qed.

Lemma onUnsolicitedTimeout_orderly now st :
  u_awaiting (unsol (sess st)) = true -> orderly st -> orderly (onUnsolicitedTimeout now st).1.
Proof.
  intros Ha Ho. pose proof Ho as [Hc _ [H1 H2 H3 H3' H4 H5 H6] _]. destruct (H2 Ha) as [Hret _].
  unfold onUnsolicitedTimeout, set_u, on_events. compute_session. rewrite Hc.
  assert (Hgive : forall u, u_awaiting u = false -> u_seq u = u_seq (unsol (sess st)) -> nullSent u = nullSent (unsol (sess st)) ->
    nullConfirmed u = nullConfirmed (unsol (sess st)) -> reporting (with_nextAllowed (now + U_ConfirmTimeout (UnsolicitedCfg c)) (forget_body u))).
  { intros u E1 E2 E3 E4. split; cbn; rewrite ?E1, ?E2, ?E3, ?E4; done || lia. }
  destruct (_ && _); [|destruct (_ <? _) eqn:El]; compute_session; try (destruct (db_events _) as [b|]; [destruct (Unselect b)|]; compute_session).
  all: destruct Ho as [_ [Hi Hw] _ Hs]; split; try done; compute_session; try by apply Hgive.
  split; cbn in *; try done; [by rewrite Hret | lia].
Qed.

Lemma pollUnsolicited_orderly now : guarantees (keeps orderly) (pollUnsolicited now).
Proof.
  intros st Ho. unfold pollUnsolicited. unfold mbind at 1, M_bind at 1, gets. cbn [id]. cbv zeta.
  destruct (_ || _); [done|]. destruct (u_awaiting _) eqn:Ha.
  { destruct (_ <? _); [done | by apply onUnsolicitedTimeout_orderly]. }
  destruct (_ <? _); [done|]. destruct (_ && _) eqn:Er; [apply andb_true_iff in Er as [_ Er]; by apply retryUnsolicited_orderly|]. clear Er.
  destruct (nullConfirmed _) eqn:En; cbn [negb].
  2:{ destruct (_ || _); [by apply sendUnsolicited_orderly | done]. }
  destruct (_ || _); [done|]. destruct (_ =? 0); [done|].
  assert (Hfirst : forall v, reporting (with_firstEventAt v (unsol (sess st)))) by (intros v; destruct Ho as [_ _ [] _]; by split).
  set (m := when _ _).
  assert (Hm : orderly (m st).1 /\ exists v, unsol (sess (m st).1) = with_firstEventAt v (unsol (sess st))).
  { unfold m. destruct (_ && _); cbn [when].
    - split; [by apply set_u_orderly | by eexists].
    - split; [done|]. exists (firstEventAt (unsol (sess st))). transitivity (unsol (sess st)); [reflexivity|]. by destruct (unsol (sess st)). }
  unfold mbind at 1, M_bind at 1. destruct (m st) as [st1 []]. cbn [fst] in Hm. destruct Hm as (Ho1 & v & Eu).
  unfold mbind at 1, M_bind at 1. cbv beta iota. match goal with |- context [if ?b then ok else _] => destruct b end; [done|]. rewrite set_u_then.
  match goal with |- context [set_u ?f st1] => assert (Ho2 : orderly (set_u f st1).1) by (apply set_u_orderly; [done|]; rewrite Eu; apply (Hfirst zeroTime)) end.
  apply then_held; [by_parts; by apply framed_by | done|]. intros evs st2 Ho3 E3. cbn in E3. rewrite Eu in E3.
  destruct (_ =? 0); [done|]. apply sendUnsolicited_orderly; [by rewrite E3 | by rewrite E3 | done].
Qed.

Lemma unsol_reset_orderly : guarantees (keeps orderly) unsol_reset.
Proof.
  intros st [Hc [Hi Hw] [_ _ _ _ _ _ Hn] Hs]. split; try done. split; try done. cbn. lia.
Qed.

(** ** Requests and steps *)

Lemma handle_orderly r : guarantees (keeps orderly) (handle r).
Proof.
  assert (Hr : forall p, request_ok (keeps orderly) p).
  { intros p. split_and!; intros; [apply sendFragments_orderly | apply sendAuthentication_orderly
      | apply rememberRequest_orderly | apply replayResponse_orderly]. }
  apply handle_guarantees; [exact _ | exact onConfirm_orderly | exact onUnsolicitedConfirm_orderly | exact abandonResponse_orderly | apply Hr | intros _; exact Hr].
Qed.
#[local] Hint Resolve handle_orderly pollUnsolicited_orderly unsol_reset_orderly checkLinkTimeout_orderly
  checkConfirmTimeout_orderly : parts.

Lemma receive_orderly data : guarantees (keeps orderly) (receive data).
Proof.
  intros st Ho. unfold receive.
  match goal with |- context [link_Receive ?g ?p ?f ?l ?s data] =>
    pose proof (Receive_keeps (state * option SessionErr) g p f (fun x => orderly x.1) l s data) as H;
    destruct (link_Receive g p f l s data) as [[l' [st' herr]] err] end.
  cbn [fst snd] in *. assert (Ho' : orderly st').
  { apply H; [| | exact Ho].
    - intros x [s e] [Hc [Hi Hw] Hu Hs]. by split.
    - intros l1 [s e] r Hs. cbn [fst] in Hs. unfold on_fragment. destruct e; [exact Hs|].
      pose proof (handle_orderly r (with_stack l1 s)) as Hh.
      destruct (handle r (with_stack l1 s)) as [s2 e2]. cbn [fst snd] in *. apply Hh.
      destruct Hs as [? [] ? ?]. by split. }
  destruct Ho' as [? [] ? ?]. by split.
Qed.
#[local] Hint Resolve receive_orderly : parts.
Lemma resumeDeferredRead_orderly : guarantees (keeps orderly) resumeDeferredRead.
Proof. unfold resumeDeferredRead. ordered. Qed.
Lemma drainUpdates_orderly : guarantees (keeps orderly) drainUpdates.
Proof. unfold drainUpdates, applyRestart, change_db, raise_iin. ordered. Qed.
#[local] Hint Resolve resumeDeferredRead_orderly drainUpdates_orderly : parts.
Lemma serve_end_orderly : guarantees (keeps orderly) serve_end.
Proof.
  pose proof (closeFile_framed (keeps orderly)). unfold serve_end, setServing, resetSecurity, change_security, change_db. ordered.
  all: intros [? [] ? ?]; by split.
Qed.
#[local] Hint Resolve serve_end_orderly : parts.
Lemma connect_orderly : guarantees (keeps orderly) connect.
Proof.
  unfold connect, serve_start, setServing, applyRestart, raise_iin, bump, change_db. ordered.
  all: intros [? [] ? ?]; by split.
Qed.
Lemma on_tick_orderly : guarantees (keeps orderly) on_tick.
Proof.
  pose proof (checkFileTimeout_framed (keeps orderly)). pose proof (runFreezes_framed (keeps orderly)).
  pose proof (clockDue_framed (keeps orderly)). pose proof (expireSecurity_framed (keeps orderly)). unfold on_tick. ordered.
Qed.

Lemma session_step_orderly st st' : session_step st st' -> orderly st -> orderly st'.
Proof.
  intros Hs Ho. destruct Hs.
  - by destruct Ho.
  - by apply connect_orderly.
  - revert Ho. apply (g_bind (keeps orderly)); [unfold on_data; ordered | intros []; ordered].
  - revert Ho. apply (g_bind (keeps orderly)); [apply on_tick_orderly | intros []; ordered].
  - by apply drainUpdates_orderly.
  - by apply serve_end_orderly.
  - revert Ho. assert (H : guarantees (keeps orderly) (Update fn)) by (unfold Update, change_db; ordered). apply H.
  - revert Ho. assert (H : guarantees (keeps orderly) Restart) by (unfold Restart; ordered). apply H.
  - revert Ho. assert (H : guarantees (keeps orderly) (modify (SetIndication ind on))) by ordered. apply H.
Qed.
End Invariant.

Section Always.
Context {Env : Environment} {LL : LinkLayer} {WL : Walking}.

Lemma New_core c l : cfg (New c l) = applyDefaults c /\ pendingIndex (New c l) = 0 /\ unsol (New c l) = unsolState0.
Proof. unfold New. by destruct (fold_left _ _ _). Qed.

(** C1. Every state of a session is [orderly]: whatever the master sends, whatever the application
    does and however the line fails, the fragment to send next is one of the response, a
    confirmation is compared with the number of the fragment sent last, unsolicited responses
    carry data only once the null response was confirmed and are repeated at most as often as
    configured, and everything that was ever given to the stack is a response with the control
    bits of its kind, unsolicited ones to the configured master alone. *)
Theorem session_orderly c st : lived c st -> orderly (applyDefaults c) st.
Proof.
  induction 1 as [l a h x | st st' _ IH Hs]; [|by eapply session_step_orderly].
  destruct (New_core c l) as (Hc & Hi & Hu). split; cbn [sess sent]; [done | by apply unsent_responding | | by apply Forall_nil].
  rewrite Hu. split; try done. cbn. destruct (_ <=? 0) eqn:E; lia.
Qed.
End Always.
