(* ===== verification/SessionRuns.v ===== *)
(** * Sessions at work

    A concrete station, to run the session on: an application that accepts everything and
    remembers what it was told to operate, a clock set by hand, and a line that records what is
    written to it.  The witnesses of the theorems about every session are runs of it. *)

From stdpp Require Import gmap.
From S2P Require Import Prelude StateMonad LinkFrame LinkFsm Transport Stack LinkLayer Values Floats AppHeader AppObject AppFragment Objects Codecs.
From S2P Require Import FileObjects ExtObjects EventBuffer Database ExtendedDatabase Commands Crypto Response OutstationState Respond Unsolicited.
From S2P Require Import Services Freeze FileServer FileTransfer Security Requests Serve SessionFrame SessionSafety SessionInvariant.

(** A line that takes every write. *)
Definition record_write (x : list (list Z)) (o : list Z) : list (list Z) * option unit := (x ++ [o], None).
Definition quiet_line : @Reliable (stackLink record_write None) :=
  stack_reliable record_write None (fun _ _ => eq_refl) (fun b e x H => ltac:(done)).

(** ** A shelf with one file *)

Module Shelf.
(** What is left of the file. *)
#[local] Instance shelf : Environment := {|
  App := list Z; Host := unit;
  appl_Now a := (a, 0);
  WriteAbsoluteTime a _ := (a, false);
  ColdRestart a := (a, 0);
  WarmRestart a := (a, 0);
  SupportsWriteTime a := (a, false);
  RestartSupport := None;
  cmds := RejectingCommandHandler;
  Reader := unit; Writer := unit;
  reader_Read a _ n := (drop (Z.to_nat n) a, (take (Z.to_nat n) a, if len a <=? n then Some EOF else None));
  reader_Close a _ := (a, true);
  writer_Write a _ _ := (a, false);
  writer_Close a _ := (a, true);
  time_Now h := (h, 0);
  rand_Read h _ := (h, None);
  hmac_sha256 _ _ := [];
  aes_NewCipher _ := None;
  grow _ n := n |}.
#[local] Instance line : LinkLayer := stackLink record_write None.
#[local] Instance line_reliable : Reliable := quiet_line.

#[local] Instance shelf_reads : Reads.
Proof.
  refine {| left_of := fun (a : @App shelf) _ rest => a = rest |}; [|done].
  intros a [] rest n -> Hn. cbn [reader_Read shelf] in *. eexists _, _, _, _. split; [done|]. rewrite take_drop.
  split_and!; [done | unfold len; rewrite length_take; lia | done|]. destruct (len rest <=? n) eqn:E; [right | left].
  - split; [done|]. apply drop_ge. unfold len in E. lia.
  - split; [done|]. destruct rest; [rewrite len_nil in E; lia|]. by destruct (Z.to_nat n) eqn:E1; [lia|].
Defined.

Definition handler : FileHandler :=
  mkFileHandler (fun a _ => (a, (FileInfo0, FileNotFound))) (fun a _ => (a, ([], FileNotFound)))
    (fun a _ => (a, (tt, FileInfo0, FileSuccess))) (fun a _ _ _ => (a, (tt, FilePermissionDenied))) (fun a _ => (a, FilePermissionDenied)).
Definition config : Config := mkConfig 10 1 (mkDatabaseConfig 0 0 0 0 0 0 0 0 0 0 0 0) 10 2048 2048 second
  (mkCommandConfig second 8) (mkUnsolicitedConfig false 0 0 second 3) (mkClockConfig 0 0) (mkFileConfig (Some handler) None 4 second)
  [] false [] None false None None None None [] None false 0 0 0.
Definition start (content : list Z) : state :=
  mkState (set_file (Some (mkTransfer 7 [] FileModeRead (Some (FromHandler tt)) (NewReaderSize 5) None 0 4 10 0 second false))
    (New config (Stack.New (Stack.mkConfig 10 1 false false false 0 2048)))) content tt [] [].

Definition block_request (i : nat) : ObjectHeader :=
  match FreeFormat 70 5 (AppendFileTransport [] (mkFileTransport 7 (Z.of_nat i) false [])) with Ok h => h | Err _ => ReadAllObjects 60 1 end.

Lemma start_downloading content : downloading (start content) 7 4 0 false content.
Proof.
  split; [|by vm_compute|].
  - split; [by vm_compute | | by vm_compute]. vm_compute. repeat split; done || discriminate.
  - eexists. split; [reflexivity|]. split_and!; try done. exists (@FromHandler shelf tt). split; [done|]. exists content. by split_and!; [..|left].
Qed.

End Shelf.

(** ** The station *)

(** The time, and the points operated. *)
Definition Plant : Type := Z * list Z.
Definition plant_Now (a : Plant) : Plant * Z := (a, a.1).

#[local] Instance station : Environment := {|
  App := Plant; Host := Z;
  appl_Now := plant_Now;
  WriteAbsoluteTime a t := ((t, a.2), true);
  ColdRestart a := (a, 0);
  WarmRestart a := (a, 0);
  SupportsWriteTime a := (a, true);
  RestartSupport := None;
  cmds := witness_cmds;
  Reader := list Z; Writer := unit;
  reader_Read a r n := (a, (take (Z.to_nat n) r, if len r <=? n then Some EOF else None));
  reader_Close a _ := (a, true);
  writer_Write a _ _ := (a, true);
  writer_Close a _ := (a, true);
  time_Now h := (h, h);
  rand_Read h n := (h, Some (replicate (Z.to_nat n) 7));
  hmac_sha256 k m := take 32 (k ++ m ++ replicate 32 0);
  aes_NewCipher k := if decide (length k = 16%nat) then Some (fun b => b, fun b => b) else None;
  grow _ n := n |}.

#[local] Instance line : LinkLayer := stackLink record_write None.
#[local] Instance line_reliable : Reliable := quiet_line.

(** An outstation at address 10 with two binary inputs, two analog inputs and two outputs,
    polled by the master at address 1. *)
Definition station_config (unsolicited confirms : bool) : Config := mkConfig 10 1
  (mkDatabaseConfig 2 0 0 0 2 0 0 0 2 0 0 Class1) 10 2048 2048 (5 * second) (mkCommandConfig (5 * second) 8)
  (mkUnsolicitedConfig unsolicited 0 0 (5 * second) 3) (mkClockConfig 0 0) (mkFileConfig None None 0 0)
  [] false [] None false None None None None [] None confirms 2 0 0.
Definition station_stack (confirms : bool) : Stack := Stack.New (Stack.mkConfig 10 1 false false confirms 2 2048).
Definition station_start (unsolicited confirms : bool) : state :=
  mkState (New (station_config unsolicited confirms) (station_stack confirms)) (1000 * second, []) 0 [] [].

(** A request of the master. *)
Definition from_master (dst : Z) (frag : list Z) : Received := mkReceived frag 1 dst (IsBroadcast dst).
Definition request (seq fc : Z) (objs : list ObjectHeader) : list Z :=
  BuildRequest [] (mkControl true true false false seq) fc objs.
Definition read_events_request (seq : Z) : list Z := request seq FuncRead [ReadAllObjects 60 2].

(** What the master writes to send a fragment. *)
Definition master_stack : Stack := Stack.New (Stack.mkConfig 1 10 true false false 0 2048).
Definition written (dst : Z) (frag : list Z) : list Z :=
  match Stack.SendTo record_write None master_stack [] dst frag with Some (_, x, _) => concat x | None => [] end.

(** ** Histories *)

Inductive happening :=
| Connects | Disconnects
| Changes (i : Z)             (* the application reports binary input [i] closed *)
| Hears (dst : Z) (frag : list Z)   (* a fragment of the master arrives *)
| Acknowledged                (* the master's link layer acknowledges a frame *)
| Ticks (t : Z).              (* the ticker fires, [t] nanoseconds later *)

(** An error ends the connection. *)
Definition happens (e : happening) : M unit :=
  let ended err := match (err : option SessionErr) with Some _ => serve_end | None => mret tt end in
  match e with
  | Connects => connect
  | Disconnects => serve_end
  | Changes i => Update (fun d => UpdateBinary d i (mkMeasurement true Online NoTime)) ;; drainUpdates
  | Hears dst frag => err ← on_data (written dst frag); ended err
  | Acknowledged => err ← on_data (frame_octets (LinkFrame.mkHeader (LinkFrame.mkControl true false false false FuncAck) 10 1 5) []); ended err
  | Ticks t => call (fun a => ((a.1 + t, a.2), tt)) ;; host_call (fun h => (h + t, tt)) ;; err ← on_tick; ended err
  end.
Fixpoint history (es : list happening) (st : state) : state :=
  match es with [] => st | e :: es => history es (happens e st).1 end.

Definition confirm (uns : bool) (seq : Z) : list Z := BuildRequest [] (mkControl true true false uns seq) FuncConfirm [].

(** The object that reports binary input [i] closed. *)
Definition reports (i : Z) : list Z := [2; 2; 23; 1; i; 129; 0; 0; 0; 0; 0; 0].
Definition queued (st : state) : nat := length (EventBuffer.events (buffered (sess st))).

(** ** Witnesses *)

Lemma station_ready unsolicited : stack_ready (stack (sess (station_start unsolicited false))).
Proof. destruct unsolicited; vm_compute; repeat split; done || discriminate. Qed.

Lemma response_completes_witness :
  let run k := after 3 k (sendFragments (from_master 10 (read_events_request 3))
    (mkHeader (mkControl true true false false 3) FuncRead 0) [[1]; [2]; [3]] true (station_start false false)).1 in
  awaitingConfirm (sess (run 2%nat)) = true /\ awaitingConfirm (sess (run 3%nat)) = false /\
  pendingBodies (sess (run 3%nat)) = [].
Proof.
  intros run.
  destruct (response_completes (from_master 10 (read_events_request 3)) (mkHeader (mkControl true true false false 3) FuncRead 0)
    [[1]; [2]; [3]] true (station_start false false)) as (H & _ & Hf); [done | done | cbn; lia | done | apply station_ready|].
  split; [apply (H 2%nat); vm_compute; lia|]. split; [exact (f_awaits _ _ _ Hf) | exact (f_bodies _ _ _ Hf)].
Defined.

Lemma transmitted_parts st st' : transmitted st = transmitted st' -> wire st = wire st' /\ sent st = sent st'.
Proof. intros H. by injection H. Qed.

Lemma broadcast_silent_witness :
  let st := (handle (from_master 65535 (read_events_request 1)) (station_start false false)).1 in
  sent st = [] /\ wire st = [].
Proof.
  intros st. pose proof (broadcast_silent (from_master 65535 (read_events_request 1)) (station_start false false) eq_refl) as H.
  destruct (transmitted_parts _ _ H) as [Hw Hs]. split; [exact Hs | exact Hw].
Defined.

(** Close output 1. *)
Definition direct_operate (seq : Z) : list Z := request seq FuncDirectOperate
  [mkObjectHeader 12 1 (MakeQualifier PrefixIndex1 RangeCount8) (mkRange RangeCount8 0 0 1)
     [1; 0x41; 1; 100; 0; 0; 0; 100; 0; 0; 0; 0] 0 0].

Lemma carried_out_parts st st' : carried_out st = carried_out st' -> appl st = appl st'.
Proof. intros H. by injection H. Qed.

Lemma request_executed_once_witness :
  let st := (handle (from_master 10 (direct_operate 4)) (station_start false false)).1 in
  (appl st).2 = [1] /\ (appl (handle (from_master 10 (direct_operate 4)) st).1).2 = [1].
Proof.
  intros st.
  pose proof (request_executed_once (from_master 10 (direct_operate 4)) (ParseFragment None (direct_operate 4)).1
    (station_start false false)) as H. cbv zeta in H. fold st in H. assert (E : (appl st).2 = [1]) by by vm_compute.
  split; [exact E|]. specialize (H ltac:(split_and!; vm_compute; done || discriminate) eq_refl eq_refl).
  rewrite (carried_out_parts _ _ H). exact E.
Defined.

(** The station with one user, who holds the update key [7, 7, ...]. *)
Definition secure_start : state :=
  let c := station_config false false in
  mkState (New (mkConfig 10 1 (DatabaseCfg c) 10 2048 2048 (5 * second) (Controls c) (UnsolicitedCfg c) (Clock c) (Files c)
      [] false [] None false None None (Some (mkSecureConfig {[ 1 := replicate 16 7 ]} (2 * second) (900 * second) 1000 0 0 None))
      None [] None false 0 0 0) (station_stack false)) (1000 * second, []) 0 [] [].

Lemma guarded_parts st st' : guarded st = guarded st' -> appl st = appl st'.
Proof. intros H. by injection H. Qed.


Lemma session_orderly_witness :
  let st := (or_end (on_data (written 10 (read_events_request 1))) (connect (station_start true false)).1).1 in
  Forall (well_formed_response (applyDefaults (station_config true false))) (sent st) /\ length (sent st) = 1%nat.
Proof.
  intros st.
  assert (H : lived (station_config true false) (connect (station_start true false)).1)
    by (eapply lived_step; [apply lived_new | by apply step_connect]).
  split; [|by vm_compute]. apply (session_orderly (station_config true false) st).
  eapply lived_step; [exact H | apply step_data; by vm_compute].
Defined.

Lemma unsolicited_repeated_witness :
  let st := history [Connects] (station_start true false) in
  let st' := polled (fun k => (2000 + 10 * Z.of_nat k) * second) 7 st in
  length (sent st') = 4%nat /\ u_awaiting (unsol (sess st)) = true /\ u_awaiting (unsol (sess st')) = false /\
  retained (unsol (sess st')) = false.
Proof.
  set (st0 := station_start true false). cbv zeta. set (st := history [Connects] st0).
  destruct (unsolicited_repeated (cfg (sess st)) (u_seq (unsol (sess st))) (lastBody (unsol (sess st))) (db_events (db (sess st)))
    (fun k => (2000 + 10 * Z.of_nat k) * second) st 0) as (_ & _ & Ha & Hr & _).
  - by vm_compute.
  - split; reflexivity || (by vm_compute) || (vm_compute; repeat split; done || discriminate).
  - vm_compute. split; discriminate.
  - vm_compute. discriminate.
  - intros k. replace (U_ConfirmTimeout _) with (5 * second) by by vm_compute. unfold second. lia.
  - assert (E : Z.to_nat (MaxRetries (UnsolicitedCfg (cfg (sess st))) - 0) = 3%nat) by by vm_compute. rewrite E in Ha, Hr.
    split_and!; [by vm_compute | by vm_compute | exact Ha | exact Hr].
Defined.

Definition freeze_start (fs : list freezeSchedule) : state :=
  let st := station_start false false in mkState (set_freezes fs (sess st)) (appl st) (host st) (wire st) (sent st).
Lemma freezes_on_time_witness :
  freezes (sess (runFreezes 1005 (freeze_start [mkFreeze 1000 10 [(0, 1)] []; mkFreeze 1003 0 [] [(0, 1)]; mkFreeze 2000 0 [] []])).1) =
  [mkFreeze 1010 10 [(0, 1)] []; mkFreeze 2000 0 [] []].
Proof.
  destruct (freezes_on_time 1005 (freeze_start [mkFreeze 1000 10 [(0, 1)] []; mkFreeze 1003 0 [] [(0, 1)]; mkFreeze 2000 0 [] []]))
    as (_ & H & _); [repeat constructor|]. rewrite H. by vm_compute.
Defined.

(** ** Events that are lost *)

(** A broadcast READ marks the events it asks for as sent, although a broadcast is not
    answered: they are left out of the next response, and the confirmation of that response
    removes them.  The master never hears of input 0. *)
Theorem broadcast_read_loses_event :
  let st := history [Connects; Changes 0; Hears 65535 (read_events_request 1); Changes 1; Hears 10 (read_events_request 2);
                     Hears 10 (confirm false 2)] (station_start false false) in
  sent st = [(1, [226; 129; 145; 0] ++ reports 1)] /\ queued st = 0%nat.
Proof. by vm_compute. Qed.

(** A connection that ends before an unsolicited response is confirmed leaves its events
    marked: on the next connection they are reported neither in a response nor unasked, and
    the next confirmation removes them. *)
Theorem reconnect_loses_event :
  let st := history [Connects; Hears 10 (confirm true 1); Hears 10 (request 1 FuncEnableUnsolicited [ReadAllObjects 60 2]);
                     Changes 0; Ticks 50; Disconnects] (station_start true false) in
  let st' := history [Connects; Hears 10 (confirm true 1); Changes 1; Ticks 50; Hears 10 (confirm true 2)] st in
  queued st = 1%nat /\ queued st' = 0%nat /\
  sent st' = sent st ++ [(1, [241; 130; 144; 0]); (1, [242; 130; 144; 0] ++ reports 1)].
Proof. by vm_compute. Qed.

(** With link confirmations, an event that is to be reported while the acknowledgement of a
    frame is still on its way ends the connection. *)
Theorem unsolicited_while_busy_disconnects :
  let st := history [Connects; Acknowledged; Acknowledged; Hears 10 (confirm true 1);
                     Hears 10 (request 1 FuncEnableUnsolicited [ReadAllObjects 60 2]); Changes 0] (station_start true true) in
  connected (sess st) = true /\ link_Pending (stack (sess st)) = true /\ connected (sess (history [Ticks 50] st)) = false.
Proof. by vm_compute. Qed.

(** A response the last connection left unconfirmed keeps the session from announcing itself
    on the next one. *)
Theorem reconnect_not_announced :
  let st := history [Connects; Hears 10 (confirm true 1); Changes 0; Hears 10 (read_events_request 1); Disconnects; Connects]
    (station_start true false) in
  length (sent st) = 2%nat /\ nullSent (unsol (sess st)) = false /\ awaitingConfirm (sess st) = true.
Proof. by vm_compute. Qed.

(** Commands are carried out, and not counted. *)
Theorem commands_not_counted :
  let st := history [Connects; Hears 10 (direct_operate 4)] (station_start false false) in
  (appl st).2 = [1] /\ stats (sess st) CommandsExecuted = 0 /\ stats (sess st) CommandsRejected = 0.
Proof. by vm_compute. Qed.

(** A request that cannot be parsed, while a response awaits its confirmation, takes the place
    of that response and is not answered: a master that has moved on confirms nothing, and
    when the confirmation is overdue the answer is dropped with it. *)
Theorem malformed_not_answered :
  let st := history [Connects; Changes 0; Hears 10 (read_events_request 1); Hears 10 [194; 1; 1; 0; 255]; Ticks (6 * second);
                     Ticks 50] (station_start false false) in
  sent st = [(1, [225; 129; 144; 0] ++ reports 0)] /\ stats (sess st) MalformedRequests = 1 /\
  pendingBodies (sess st) = [] /\ awaitingConfirm (sess st) = false.
Proof. by vm_compute. Qed.
