(* ===== verification/MasterState.v ===== *)
(** * The state of a master session (src/master/session.go, task.go)

    What a master asks of the world, its tasks, its configuration and its state, and the monad
    its operations are written in.

    A [task] of the source is a struct of closures.  The closures [build], [onFragment] and
    [onDone] are computations on the variables they capture; these live in a [store], where
    the caller that waits for the task reads them afterwards.  The closure [next] creates
    tasks, possibly without end (the blocks of a file), and is the data type [chain], which
    [run_next] of [MasterFiles] interprets.  Each task is held by one variable at a time (the submit channel,
    the queue, [inflight], or the chain of the task before it), so tasks are values. *)

From stdpp Require Import gmap.
From S2P Require Import Prelude StateMonad Stack LinkLayer TaskQueue Values Floats AppHeader AppObject AppFragment Objects Codecs.
From S2P Require Import CommandEvents FileObjects ExtObjects Dispatch Crypto.

(** ** The world around a session *)

(** The host's clock and random source, the cryptographic primitives, and the [io.Writer] and
    [io.Reader] a caller hands over for a file.  A write returns whether it succeeded. *)
Class MasterEnvironment := {
  World : Type;
  time_Now : World -> World * Z;
  rand_Read : World -> Z -> World * option (list Z);
  hmac_sha256 : list Z -> list Z -> list Z;
  aes_NewCipher : list Z -> option ((list Z -> list Z) * (list Z -> list Z));
  Sink : Type;
  Source : Type;
  sink_Write : World -> Sink -> list Z -> World * bool;
  source_Read : World -> Source -> Z -> World * (list Z * option ReadErr) }.

(** ** Configuration *)

Record FileCredentials := mkFileCredentials { User : list Z; Password : list Z }.
Record SecureAuthenticationConfig := mkSecureConfig {
  SA_User : Z; UpdateKey : list Z; KeyTimeout : Z; MaxMessages : Z }.

Record Config := mkConfig {
  LocalAddr : Z; RemoteAddr : Z; ResponseTimeout : Z; TaskRetryPeriod : Z;
  IntegrityOnStartup : bool; DisableUnsolOnStartup : bool; UnsolClassMask : Z;
  MaxTxFragment : Z; MaxRxFragment : Z; FileBlockSize : Z; FileCreds : option FileCredentials;
  SecureAuthentication : option SecureAuthenticationConfig;
  UseLinkConfirms : bool; LinkRetries : Z; LinkTimeout : Z; KeepAlive : Z }.

Definition second : Z := 1000000000.
Definition millisecond : Z := 1000000.

Definition applyDefaults (c : Config) : Config :=
  mkConfig (LocalAddr c) (RemoteAddr c)
    (if ResponseTimeout c <=? 0 then 5 * second else ResponseTimeout c)
    (if TaskRetryPeriod c <=? 0 then 5 * second else TaskRetryPeriod c)
    (IntegrityOnStartup c) (DisableUnsolOnStartup c) (UnsolClassMask c)
    (if MaxTxFragment c <=? 0 then DefaultMaxFragment else MaxTxFragment c)
    (if MaxRxFragment c <=? 0 then DefaultMaxFragment else MaxRxFragment c)
    (FileBlockSize c) (FileCreds c) (SecureAuthentication c) (UseLinkConfirms c) (LinkRetries c)
    (if LinkTimeout c <=? 0 then second else LinkTimeout c) (KeepAlive c).

(** ** What tasks are made of *)

(** A control to issue; [data] is the encoded object. *)
Record Command := mkCommand { Index : Z; c_gv : Objects.GroupVar; c_data : list Z }.

(** The closures [next] of the source.  [FileNext] is given what follows by [ReadFile] and
    [WriteFile]. *)
Inductive file_step := ReadStep | AfterRead | WriteStep | AfterWrite.
Inductive chain (T : Type) :=
| NoNext
| Then (t : T)
| ThenOperate (cmds : list Command) (selectResult operateResult : nat)
| ThenWriteTime (outstationDelay sentAt gotAt : nat)
| ThenWriteRecorded (recorded rejected : nat)
| FileNext (t : nat) (after : file_step)
| AuthNext (t : nat) (after : option T).
Arguments NoNext {T}.
Arguments Then {T}.
Arguments ThenOperate {T}.
Arguments ThenWriteTime {T}.
Arguments ThenWriteRecorded {T}.
Arguments FileNext {T}.
Arguments AuthNext {T}.

Section Tasks.
Context {Env : MasterEnvironment} {LL : LinkLayer}.

(** ** Errors

    The errors of the package and of what it calls; the text they wrap is dropped. *)

Inductive MasterErr :=
| ErrTimeout | ErrNoConnection | ErrTaskFailed | ErrBadConfig | ErrNotSupported
| ErrRejected (iin : Z)
| ErrMalformed (e : FragmentErr)
| ErrBuild (e : BuildErr)
| ErrFreeFormat (e : FreeFormatErr)
| ErrSend (e : LinkError)
| ErrSecurity (e : CryptoErr)
| ErrRandom
| ErrObject (e : ObjectErr)
| ErrAttribute (e : AttributeErr)
| ErrWriteAttribute (iin : Z)
| ErrNoAttribute
| ErrFileObject (e : FileErr)
| ErrFileStatus (status : Z)
| ErrNoFileObject
| ErrNoHandle
| ErrBlockNumber (got want : Z)
| ErrSink
| ErrSource (e : ReadErr)
| ErrNoStatuses
| ErrCommandFailed (failures : list (Z * Z)).

(** ** What closures capture *)

(** The destination of a file: the caller's writer, or the [limitedWriter] of
    [ReadFileBytes] over a [bytes.Buffer]. *)
Inductive destination := ToSink (s : Sink) | Limited (max written : Z) (buf : list Z).

Record transfer := mkTransfer {
  x_name : list Z; requestID : Z; x_key : Z; handle : Z; x_size : Z; blockSize : Z; block : Z; last : bool;
  dst : option destination; src : option Source; transferred : Z; x_err : option MasterErr;
  x_write : bool; closed : bool }.

(** What [newSessionKeysTask] shares between its two tasks. *)
Record keyExchange := mkKeyExchange {
  k_status : AuthKeyStatus; k_control : list Z; k_monitor : list Z; changeASDU : list Z }.

(** A captured variable. *)
Inductive cell :=
| Statuses (l : list Z)
| Transfer (t : transfer)
| Moment (t : Z)
| Delay (ms : Z)
| Failure (e : option MasterErr)
| AttributeList (l : list Attribute)
| Info (i : FileInfo)
| Keys (k : keyExchange).

Record masterSecurity := mkMasterSecurity {
  control : list Z; monitor : list Z; until : Z; messages : Z; lastRequest : list Z }.
Definition masterSecurity0 : masterSecurity := mkMasterSecurity [] [] zeroTime 0 [].

(** The variables, the session's keys, and the world.  [fresh] is the name of the next
    variable. *)
Record store := mkStore { world : World; cells : gmap nat cell; fresh : nat; security : masterSecurity }.

Abbreviation C := (ST store).

Definition new_cell (v : cell) : C nat := fun s =>
  (mkStore (world s) (<[fresh s := v]> (cells s)) (S (fresh s)) (security s), fresh s).
Definition assign (x : nat) (v : cell) : C unit := fun s =>
  (mkStore (world s) (<[x := v]> (cells s)) (fresh s) (security s), tt).
Definition read {T} (f : cell -> option T) (zero : T) (x : nat) : C T := fun s =>
  (s, default zero (c ← cells s !! x; f c)).
Definition ask {T} (f : World -> World * T) : C T := fun s =>
  let '(w, v) := f (world s) in (mkStore w (cells s) (fresh s) (security s), v).
Definition get_security : C masterSecurity := fun s => (s, security s).
Definition set_security (v : masterSecurity) : C unit := fun s => (mkStore (world s) (cells s) (fresh s) v, tt).

Definition transfer0 : transfer := mkTransfer [] 0 0 0 0 0 0 false None None 0 None false false.
Definition AuthKeyStatus0 : AuthKeyStatus := mkAuthKeyStatus 0 0 0 0 0 [] [].
Definition keyExchange0 : keyExchange := mkKeyExchange AuthKeyStatus0 [] [] [].

Definition statuses_of : nat -> C (list Z) := read (fun c => match c with Statuses l => Some l | _ => None end) [].
Definition transfer_of : nat -> C transfer := read (fun c => match c with Transfer t => Some t | _ => None end) transfer0.
Definition moment_of : nat -> C Z := read (fun c => match c with Moment t => Some t | _ => None end) zeroTime.
Definition delay_of : nat -> C Z := read (fun c => match c with Delay t => Some t | _ => None end) 0.
Definition failure_of : nat -> C (option MasterErr) :=
  read (fun c => match c with Failure e => Some e | _ => None end) None.
Definition attributes_of : nat -> C (list Attribute) :=
  read (fun c => match c with AttributeList l => Some l | _ => None end) [].
Definition info_of : nat -> C FileInfo := read (fun c => match c with Info i => Some i | _ => None end) FileInfo0.
Definition keys_of : nat -> C keyExchange := read (fun c => match c with Keys k => Some k | _ => None end) keyExchange0.

(** ** Tasks *)

Definition priorityStartup : Z := 0.
Definition priorityCommand : Z := 1.
Definition priorityIntegrity : Z := 2.
Definition priorityPoll : Z := 3.

(** [onFragment] may set the field [failure] of its own task: what it returns, if it is an
    error, is put there. *)
#[warnings="-register-all"] Inductive task := mkTask {
  failure : option MasterErr; funcCode : Z; t_priority : Z;
  build : Builder -> C (Builder * option MasterErr);
  onFragment : option (Fragment -> C (option MasterErr));
  onDone : option (Z -> C unit);
  noResponse : bool; startup : bool; next : chain task; t_period : Z;
  t_due : Z; deadline : Z; t_seq : Z; started : bool; respSeq : Z; t_done : option nat; t_order : Z }.

(** A task literal: the fields that are not given are zero. *)
Definition new_task (fc priority : Z) (b : Builder -> C (Builder * option MasterErr)) : task :=
  mkTask None fc priority b None None false false NoNext 0 zeroTime zeroTime 0 false 0 None 0.

Definition task_eta (t : task) : task :=
  mkTask (failure t) (funcCode t) (t_priority t) (build t) (onFragment t) (onDone t) (noResponse t) (startup t)
    (next t) (t_period t) (t_due t) (deadline t) (t_seq t) (started t) (respSeq t) (t_done t) (t_order t).
Ltac task_with proj :=
  let t := eval unfold task_eta in task_eta in
  match eval pattern proj in t with
  | ?F _ => let r := eval cbv beta in (fun v s => F (fun _ => v) s) in exact r
  end.
Definition with_failure : option MasterErr -> task -> task := ltac:(task_with failure).
Definition with_onFragment : option (Fragment -> C (option MasterErr)) -> task -> task := ltac:(task_with onFragment).
Definition with_onDone : option (Z -> C unit) -> task -> task := ltac:(task_with onDone).
Definition with_noResponse : bool -> task -> task := ltac:(task_with noResponse).
Definition with_startup : bool -> task -> task := ltac:(task_with startup).
Definition with_next : chain task -> task -> task := ltac:(task_with next).
Definition with_period : Z -> task -> task := ltac:(task_with t_period).
Definition with_due : Z -> task -> task := ltac:(task_with t_due).
Definition with_deadline : Z -> task -> task := ltac:(task_with deadline).
Definition with_seq : Z -> task -> task := ltac:(task_with t_seq).
Definition with_started : bool -> task -> task := ltac:(task_with started).
Definition with_respSeq : Z -> task -> task := ltac:(task_with respSeq).
Definition with_done : option nat -> task -> task := ltac:(task_with t_done).
Definition with_order : Z -> task -> task := ltac:(task_with t_order).

#[global] Instance task_item : QueueItem task := {
  due := t_due; priority := t_priority; order := t_order; period := t_period; set_order := with_order;
  order_set n t := eq_refl }.

(** ** The session *)

Inductive Counted :=
| TasksRun | TasksSucceeded | TasksFailed | ResponseTimeouts | FragmentsRx | FragmentsDiscarded
| UnsolicitedRx | Connections | RestartsSeen.
#[global] Instance Counted_eq_dec : EqDecision Counted.
Proof. solve_decision. Defined.
Definition Stats := Counted -> Z.
Definition counted (c : Counted) (st : Stats) : Stats := fun c' => if decide (c' = c) then u64 (st c + 1) else st c'.

(** [handler] says which optional interfaces the handler implements; [submit] is the channel
    tasks are handed over on, which holds 32. *)
Record Session := mkSession {
  cfg : Config; handler : HandlerKind; stack : Link; seq : Z; unsolSeq : Z; hasUnsolSeq : bool;
  peerSilent : bool; synchronized : bool; sched : scheduler task; inflight : option task; fileSeq : Z;
  submit : list task; stats : Stats; connected : bool; lastIIN : Z; lastRx : Z; linkDeadline : Z;
  startupActive : bool }.

Definition Session_eta (s : Session) : Session :=
  mkSession (cfg s) (handler s) (stack s) (seq s) (unsolSeq s) (hasUnsolSeq s) (peerSilent s) (synchronized s)
    (sched s) (inflight s) (fileSeq s) (submit s) (stats s) (connected s) (lastIIN s) (lastRx s) (linkDeadline s)
    (startupActive s).
Ltac updated proj :=
  let t := eval unfold Session_eta in Session_eta in
  match eval pattern proj in t with
  | ?F _ => let r := eval cbv beta in (fun v s => F (fun _ => v) s) in exact r
  end.
Definition set_stack : Link -> Session -> Session := ltac:(updated stack).
Definition set_seq : Z -> Session -> Session := ltac:(updated seq).
Definition set_unsolSeq : Z -> Session -> Session := ltac:(updated unsolSeq).
Definition set_hasUnsolSeq : bool -> Session -> Session := ltac:(updated hasUnsolSeq).
Definition set_peerSilent : bool -> Session -> Session := ltac:(updated peerSilent).
Definition set_synchronized : bool -> Session -> Session := ltac:(updated synchronized).
Definition set_sched : scheduler task -> Session -> Session := ltac:(updated sched).
Definition set_inflight : option task -> Session -> Session := ltac:(updated inflight).
Definition set_fileSeq : Z -> Session -> Session := ltac:(updated fileSeq).
Definition set_submit : list task -> Session -> Session := ltac:(updated submit).
Definition set_stats : Stats -> Session -> Session := ltac:(updated stats).
Definition set_connected : bool -> Session -> Session := ltac:(updated connected).
Definition set_lastIIN : Z -> Session -> Session := ltac:(updated lastIIN).
Definition set_lastRx : Z -> Session -> Session := ltac:(updated lastRx).
Definition set_linkDeadline : Z -> Session -> Session := ltac:(updated linkDeadline).
Definition set_startupActive : bool -> Session -> Session := ltac:(updated startupActive).

(** ** The monad

    A state is the session, the store, the wire, and three records of what happened: the
    fragments the stack took for transmission, the calls the handler got, and the outcomes
    put into the channels callers wait on.  A channel holds one outcome; [channels] is the
    name of the next one. *)

Record state := mkState {
  sess : Session; mem : store; wire : Wire; sent : list (list Z); heard : list HandlerCall;
  outcomes : gmap nat (option MasterErr); channels : nat }.

Abbreviation M := (ST state).

Definition gets {T} (f : Session -> T) : M T := fun st => (st, f (sess st)).
Definition modify (f : Session -> Session) : M unit := fun st =>
  (mkState (f (sess st)) (mem st) (wire st) (sent st) (heard st) (outcomes st) (channels st), tt).
(** A closure, or anything else on the store. *)
Definition run {T} (c : C T) : M T := fun st =>
  let '(s, v) := c (mem st) in (mkState (sess st) s (wire st) (sent st) (heard st) (outcomes st) (channels st), v).
Definition now : M Z := run (ask time_Now).

Definition Send (frag : list Z) : M (option MasterErr) := fun st =>
  let '(l, x, err) := link_Send (stack (sess st)) (wire st) frag in
  (mkState (set_stack l (sess st)) (mem st) x
     (match err with None => sent st ++ [frag] | Some _ => sent st end) (heard st) (outcomes st) (channels st), ErrSend <$> err).
Definition call_handler (calls : list HandlerCall) : M unit := fun st =>
  (mkState (sess st) (mem st) (wire st) (sent st) (heard st ++ calls) (outcomes st) (channels st), tt).
(** A send on a channel with room for one, that gives way when there is none. *)
Definition offer (ch : nat) (err : option MasterErr) : M unit := fun st =>
  (mkState (sess st) (mem st) (wire st) (sent st) (heard st)
     (match outcomes st !! ch with None => <[ch := err]> (outcomes st) | Some _ => outcomes st end) (channels st), tt).

Definition bump (c : Counted) : M unit := modify (fun s => set_stats (counted c (stats s)) s).
End Tasks.

Abbreviation C := (ST store).
Abbreviation M := (ST state).
