(* ===== verification/MasterTasks.v ===== *)
(** * The tasks of a master (src/master/task.go, command.go, attribute.go)

    One definition per constructor of the source: the request it builds and what it does with
    the answer.  [buildCommands] and [parseCommandStatuses] are the two directions of a
    control; that they fit together with the outstation's handling of the request is
    proved in [MasterCommands]. *)

From stdpp Require Import gmap sorting.
From S2P Require Import Prelude StateMonad Stack LinkLayer TaskQueue Values Floats AppHeader AppObject AppFragment Objects Codecs.
From S2P Require Import CommandEvents FileObjects ExtObjects Dispatch Commands Crypto MasterState.

Section Tasks.
Context {Env : MasterEnvironment} {LL : LinkLayer}.

(** [b.AddObject(h)], as the last statement of a [build]. *)
Definition add_object (h : ObjectHeader) (b : Builder) : C (Builder * option MasterErr) :=
  let '(b, err) := AddObject b h in mret (b, ErrBuild <$> err).
(** The loop over headers, which ends at the first error. *)
Fixpoint add_objects (hs : list ObjectHeader) (b : Builder) : C (Builder * option MasterErr) :=
  match hs with
  | [] => mret (b, None)
  | h :: hs =>
      '(b, err) ← add_object h b;
      match err with Some e => mret (b, Some e) | None => add_objects hs b end
  end.
Definition add_nothing (b : Builder) : C (Builder * option MasterErr) := mret (b, None).

(** ** task.go *)

Definition newClearRestartTask : task :=
  new_task FuncWrite priorityStartup
    (add_object (mkObjectHeader 80 1 (MakeQualifier PrefixNone RangeStartStop8) (mkRange RangeStartStop8 7 7 1) [0] 0 0)).

(** The class objects of group 60 for the classes of [mask], in the order of [classes]. *)
Definition class_headers (classes : list (Z * Z)) (mask : Z) : list ObjectHeader :=
  (fun c => ReadAllObjects 60 c.2) <$> filter (fun c : Z * Z => Z.land mask c.1 <> 0) classes.

Definition newUnsolicitedTask (enable : bool) (mask : Z) : task :=
  new_task (if enable then FuncEnableUnsolicited else FuncDisableUnsolicited) priorityStartup
    (add_objects (class_headers [(Class1, 2); (Class2, 3); (Class3, 4)] mask)).

Definition scanPriority (mask : Z) : Z := if negb (Z.land mask Class0 =? 0) then priorityIntegrity else priorityPoll.
Definition newScanTask (mask : Z) : task :=
  new_task FuncRead (scanPriority mask)
    (add_objects (class_headers [(Class1, 2); (Class2, 3); (Class3, 4); (Class0, 1)] mask)).
Definition newRangeScanTask (group variation start stop : Z) : task :=
  new_task FuncRead priorityPoll (add_object (ReadRange group variation start stop)).

Inductive RestartMode := ColdRestart | WarmRestart.
Definition newRestartTask (mode : RestartMode) : task :=
  new_task (match mode with WarmRestart => FuncWarmRestart | ColdRestart => FuncColdRestart end) priorityCommand add_nothing.

Definition newWriteTimeObjectTask (variation t : Z) : task :=
  let ms := TimeToDNP3 t in
  new_task FuncWrite priorityStartup
    (add_object (mkObjectHeader 50 variation (MakeQualifier PrefixNone RangeCount8) (mkRange RangeCount8 0 0 1)
       (le_bytes 6 ms) 0 0)).
Definition newWriteTimeTask (t : Z) : task := newWriteTimeObjectTask 1 t.
Definition newWriteRecordedTimeTask (t : Z) : task := newWriteTimeObjectTask 3 t.

(** The first delay object of the fragment goes to the variable [delayMillis]. *)
Definition delay_object (h : ObjectHeader) : bool := (Group h =? 52) && (2 <=? len (Data h)).
Definition newDelayMeasureTask (delayMillis : nat) : task :=
  with_onFragment (Some (fun frag : Fragment =>
      match filter delay_object (Objects frag) with
      | h :: _ => assign delayMillis (Delay (ParseTimeDelay (Variation h) (Data h)))
      | [] => mret tt
      end ;; mret None))
    (new_task FuncDelayMeasure priorityStartup add_nothing).

(** [deadbands] gives the single-precision bits of a point's deadband. *)
Definition deadband_object (wide : bool) (deadbands : gmap Z Z) (i : Z) : list Z :=
  (if wide then [u8 i; u8 (Z.shiftr i 8)] else [u8 i]) ++ le32 (default 0 (deadbands !! i)).
Definition newWriteDeadbandTask (deadbands : gmap Z Z) : task :=
  let indexes := merge_sort Z.le (map_to_list deadbands).*1 in
  let wide := match list.last indexes with Some i => 0xFF <? i | None => false end in
  let prefix := if wide then PrefixIndex2 else PrefixIndex1 in
  let spec := if wide then RangeCount16 else RangeCount8 in
  new_task FuncWrite priorityCommand
    (add_object (mkObjectHeader 34 3 (MakeQualifier prefix spec) (mkRange spec 0 0 (u32 (len indexes)))
       (concat (deadband_object wide deadbands <$> indexes)) 0 0)).

Definition newFreezeTask (clear : bool) : task :=
  new_task (if clear then FuncFreezeClear else FuncImmedFreeze) priorityCommand (add_object (ReadAllObjects 20 0)).
(** [interval] is in nanoseconds. *)
Definition newFreezeAtTimeTask (at_time interval : Z) : task :=
  let data := AppendTime48 [] (Now at_time) ++ le32 (u32 (Z.quot interval millisecond)) in
  new_task FuncFreezeAtTime priorityCommand
    (add_objects [mkObjectHeader 50 2 (MakeQualifier PrefixNone RangeCount8) (mkRange RangeCount8 0 0 1) data 0 0;
                  ReadAllObjects 20 0]).

(** ** command.go *)

Definition CROB (index : Z) (c : ControlRelayOutputBlock) : Command :=
  mkCommand index (GV 12 1) (AppendCROB [] (mkCROB (Code c) (CCount c) (OnTime c) (OffTime c) CommandSuccess)).
Definition Trip (index pulseMillis : Z) : Command :=
  CROB index (mkCROB (Z.lor ControlPulseOn ControlTrip) 1 pulseMillis 0 0).
Definition Close (index pulseMillis : Z) : Command :=
  CROB index (mkCROB (Z.lor ControlPulseOn ControlClose) 1 pulseMillis 0 0).
Definition LatchOn (index : Z) : Command := CROB index (mkCROB ControlLatchOn 1 0 0 0).
Definition LatchOff (index : Z) : Command := CROB index (mkCROB ControlLatchOff 1 0 0 0).
(** A floating-point value is its bits. *)
Definition AnalogOutputInt16 (index v : Z) : Command := mkCommand index (GV 41 2) (AppendAnalogOutputInt16 [] (mkAO16 v 0)).
Definition AnalogOutputInt32 (index v : Z) : Command := mkCommand index (GV 41 1) (AppendAnalogOutputInt32 [] (mkAO32 v 0)).
Definition AnalogOutputFloat32 (index v : Z) : Command := mkCommand index (GV 41 3) (AppendAnalogOutputFloat32 [] (mkAOF v 0)).
Definition AnalogOutputFloat64 (index v : Z) : Command := mkCommand index (GV 41 4) (AppendAnalogOutputFloat64 [] (mkAOD v 0)).

Definition CommandResult_OK (statuses : list Z) : bool :=
  if len statuses =? 0 then false else forallb CommandStatus_OK statuses.
(** The failures are listed with the index of the command each belongs to. *)
Definition CommandResult_Err (cmds : list Command) (statuses : list Z) : option MasterErr :=
  if CommandResult_OK statuses then None
  else if len statuses =? 0 then Some ErrNoStatuses
  else Some (ErrCommandFailed
         (filter (fun f : Z * Z => negb (CommandStatus_OK f.2))
            (imap (fun i s => (default 0 (Index <$> cmds !! i), s)) statuses))).

(** The commands of one group and variation at the front of a list, and the others. *)
Fixpoint span_gv (g : Objects.GroupVar) (cmds : list Command) : list Command * list Command :=
  match cmds with
  | c :: rest => if decide (c_gv c = g) then let '(a, b) := span_gv g rest in (c :: a, b) else ([], cmds)
  | [] => ([], [])
  end.
Definition command_object (wide : bool) (c : Command) : list Z :=
  (if wide then [u8 (Index c); u8 (Z.shiftr (Index c) 8)] else [u8 (Index c)]) ++ c_data c.
Definition run_header (g : Objects.GroupVar) (cmds : list Command) : ObjectHeader :=
  let wide := existsb (fun c => 0xFF <? Index c) cmds in
  let prefix := if wide then PrefixIndex2 else PrefixIndex1 in
  let spec := if wide then RangeCount16 else RangeCount8 in
  mkObjectHeader (GV_Group g) (GV_Variation g) (MakeQualifier prefix spec) (mkRange spec 0 0 (u32 (len cmds)))
    (concat (command_object wide <$> cmds)) 0 0.
(** The headers a list of commands is sent as: one per run of a group and variation. *)
Fixpoint command_runs (fuel : nat) (cmds : list Command) : list ObjectHeader :=
  match fuel, cmds with
  | S fuel, c :: _ =>
      let '(a, b) := span_gv (c_gv c) cmds in run_header (c_gv c) a :: command_runs fuel b
  | _, _ => []
  end.
Definition buildCommands (cmds : list Command) : Builder -> C (Builder * option MasterErr) :=
  add_objects (command_runs (length cmds) cmds).

(** The status of a command object is its last octet. *)
Fixpoint statuses_loop (fuel : nat) (h : ObjectHeader) (size plen i off : Z) : list Z :=
  match fuel with
  | O => []
  | S fuel =>
      if (ObjectHeader_Count h <=? i) || (len (Data h) <? off + plen + size) then []
      else at_ (Data h) (off + plen + size - 1) :: statuses_loop fuel h size plen (i + 1) (off + plen + size)
  end.
Definition header_statuses (h : ObjectHeader) : list Z :=
  match Lookup (GV (Group h) (Variation h)) with
  | Some d =>
      match D_Kind d with
      | KindCommand =>
          match SizeOctets d with
          | Some size => if size =? 0 then [] else statuses_loop (S (length (Data h))) h size (prefix_len h) 0 0
          | None => []
          end
      | _ => []
      end
  | None => []
  end.
Definition parseCommandStatuses (frag : Fragment) : list Z := concat (header_statuses <$> Objects frag).

Definition newCommandTask (fc : Z) (cmds : list Command) (result : nat) : task :=
  with_onFragment (Some (fun frag =>
      l ← statuses_of result; assign result (Statuses (l ++ parseCommandStatuses frag)) ;; mret None))
    (new_task fc priorityCommand (buildCommands cmds)).

(** ** attribute.go *)

Definition attribute_header (set variation : Z) (data : list Z) : ObjectHeader :=
  mkObjectHeader 0 variation (MakeQualifier PrefixNone RangeStartStop8) (mkRange RangeStartStop8 set set 1) data 0 0.

(** The task of [WriteAttribute]. *)
Definition newWriteAttributeTask (a : Attribute) (data : list Z) (fail : nat) : task :=
  with_onDone (Some (fun iin => if HasAny iin RequestErrorMask then assign fail (Failure (Some (ErrWriteAttribute iin))) else mret tt))
    (new_task FuncWrite priorityCommand (add_object (attribute_header (A_Set a) (A_Variation a) data))).

(** One attribute takes at least two octets, so the octets bound the turns. *)
Fixpoint attributes_loop (fuel : nat) (h : ObjectHeader) (count i off : Z) (out : list Attribute)
    : result MasterErr (list Attribute) :=
  match fuel with
  | O => Ok out
  | S fuel =>
      if (count <=? i) || (len (Data h) <=? off) then Ok out
      else
        match ParseAttribute (u8 (IndexOf (ORange h) (u32 i))) (Variation h) (drop (Z.to_nat off) (Data h)) with
        | Err e => Err (ErrAttribute e)
        | Ok (a, n) => attributes_loop fuel h count (i + 1) (off + n) (out ++ [a])
        end
  end.
Definition decodeAttributes (h : ObjectHeader) : result MasterErr (list Attribute) :=
  let count := if ObjectHeader_Count h =? 0 then 1 else ObjectHeader_Count h in
  attributes_loop (S (length (Data h))) h count 0 0 [].

(** The headers of a fragment, up to the first that does not decode. *)
Fixpoint take_attributes (out fail : nat) (hs : list ObjectHeader) : C unit :=
  match hs with
  | [] => mret tt
  | h :: hs =>
      if negb (Group h =? 0) then take_attributes out fail hs
      else match decodeAttributes h with
           | Err e => assign fail (Failure (Some e))
           | Ok got => l ← attributes_of out; assign out (AttributeList (l ++ got)) ;; take_attributes out fail hs
           end
  end.
Definition newAttributeTask (set variation : Z) (out fail : nat) : task :=
  with_onDone (Some (fun iin =>
      l ← attributes_of out;
      if Has iin IINNoFuncCodeSupport then assign fail (Failure (Some ErrNotSupported))
      else if Has iin IINObjectUnknown && (len l =? 0) then assign fail (Failure (Some ErrNotSupported))
      else mret tt))
    (with_onFragment (Some (fun frag => take_attributes out fail (Objects frag) ;; mret None))
       (new_task FuncRead priorityCommand (add_object (attribute_header set variation [])))).
End Tasks.
