(* ===== verification/MasterFiles.v ===== *)
(** * The tasks of a file transfer and of the key exchange (src/master/file.go, file_auth.go,
      security.go), and what follows a task

    A transfer is a conversation whose state is the variable [transfer] its tasks share:
    open, a block at a time, close.  [run_next] is what the closures [next] of the source
    return: the task to send without going back to the queue, or none. *)

From stdpp Require Import gmap.
From S2P Require Import Prelude StateMonad Stack LinkLayer TaskQueue Values Floats AppHeader AppObject AppFragment Objects Codecs.
From S2P Require Import CommandEvents FileObjects ExtObjects Dispatch Commands Crypto MasterState MasterTasks.

Section Files.
Context {Env : MasterEnvironment} {LL : LinkLayer}.

(** ** transfer *)

Definition transfer_eta (t : transfer) : transfer :=
  mkTransfer (x_name t) (requestID t) (x_key t) (handle t) (x_size t) (blockSize t) (block t) (last t) (dst t) (src t)
    (transferred t) (x_err t) (x_write t) (closed t).
Ltac transfer_with proj :=
  let t := eval unfold transfer_eta in transfer_eta in
  match eval pattern proj in t with
  | ?F _ => let r := eval cbv beta in (fun v s => F (fun _ => v) s) in exact r
  end.
Definition with_key : Z -> transfer -> transfer := ltac:(transfer_with x_key).
Definition with_handle : Z -> transfer -> transfer := ltac:(transfer_with handle).
Definition with_size : Z -> transfer -> transfer := ltac:(transfer_with x_size).
Definition with_blockSize : Z -> transfer -> transfer := ltac:(transfer_with blockSize).
Definition with_block : Z -> transfer -> transfer := ltac:(transfer_with block).
Definition with_last : bool -> transfer -> transfer := ltac:(transfer_with last).
Definition with_dst : option destination -> transfer -> transfer := ltac:(transfer_with dst).
Definition with_transferred : Z -> transfer -> transfer := ltac:(transfer_with transferred).
Definition with_err : option MasterErr -> transfer -> transfer := ltac:(transfer_with x_err).
Definition with_closed : bool -> transfer -> transfer := ltac:(transfer_with closed).

Definition change (x : nat) (f : transfer -> transfer) : C unit := t ← transfer_of x; assign x (Transfer (f t)).

Definition fail (e : MasterErr) (t : transfer) : transfer :=
  match x_err t with None => with_err (Some e) t | Some _ => t end.
Definition supersede (e : MasterErr) (t : transfer) : transfer := with_err (Some e) t.
Definition checkSupported (iin : Z) (t : transfer) : transfer :=
  if Has iin IINNoFuncCodeSupport then supersede ErrNotSupported t else t.

(** The first group 70 object of a variation, if it can be taken out of its header. *)
Definition fileObject (frag : Fragment) (variation : Z) : option (list Z) :=
  match filter (fun h => (Group h =? 70) && (Variation h =? variation)) (Objects frag) with
  | h :: _ => match FirstFreeFormatObject h with Ok obj => Some obj | Err _ => None end
  | [] => None
  end.
Definition statusObject (frag : Fragment) : option FileTransportStatus :=
  match fileObject frag 6 with
  | Some obj => match ParseFileTransportStatus obj with Ok st => Some st | Err _ => None end
  | None => None
  end.

(** [app.FreeFormat(group, variation, object)] and then [b.AddObject]. *)
Definition add_free_format (group variation : Z) (object : list Z) (b : Builder) : C (Builder * option MasterErr) :=
  match FreeFormat group variation object with
  | Err e => mret (b, Some (ErrFreeFormat e))
  | Ok h => add_object h b
  end.

Definition limitedWriter_Write (max written : Z) (buf p : list Z) : destination * bool :=
  if max <? written + len p then (Limited max written buf, false)
  else (Limited max (written + len p) (buf ++ p), true).
Definition dst_Write (d : option destination) (p : list Z) : C (option destination * bool) :=
  match d with
  | Some (ToSink s) => ok ← ask (fun w => sink_Write w s p); mret (Some (ToSink s), ok)
  | Some (Limited max written buf) => let '(d, ok) := limitedWriter_Write max written buf p in mret (Some d, ok)
  | None => mret (None, false)
  end.

(** ** file.go *)

Definition newFileOpenTask (x : nat) (mode bs : Z) (after : file_step) : task :=
  with_next (FileNext x after)
  (with_onDone (Some (fun iin =>
      change x (checkSupported iin) ;;
      change x (fun t => match x_err t with None => if handle t =? 0 then fail ErrNoHandle t else t | Some _ => t end)))
  (with_onFragment (Some (fun frag =>
      match fileObject frag 4 with
      | None => mret tt
      | Some obj =>
          match ParseFileCommandStatus obj with
          | Err e => change x (fail (ErrFileObject e))
          | Ok st =>
              if negb (FS_Status st =? FileSuccess) then change x (fail (ErrFileStatus (FS_Status st)))
              else change x (fun t =>
                     with_blockSize (if (0 <? FS_MaxBlockSize st) && (FS_MaxBlockSize st <? bs) then FS_MaxBlockSize st else bs)
                       (with_size (FS_Size st) (with_handle (FS_Handle st) t)))
          end
      end ;; mret None))
  (new_task FuncOpenFile priorityCommand (fun b =>
      t ← transfer_of x;
      add_free_format 70 3 (AppendFileCommand []
        (mkFileCommand (x_name t) zeroTime 0 (x_key t) (x_size t) mode bs (requestID t))) b)))).

Definition take_block (x : nat) (b : FileTransport) : C unit :=
  t ← transfer_of x;
  if negb (FT_Block b =? block t) then change x (fail (ErrBlockNumber (FT_Block b) (block t)))
  else
    ok ← (if 0 <? len (FT_Data b) then
            '(d, ok) ← dst_Write (dst t) (FT_Data b);
            change x (with_dst d) ;;
            (if ok : bool then change x (fun t => with_transferred (u64 (transferred t + len (FT_Data b))) t)
             else change x (fail ErrSink)) ;;
            mret ok
          else mret true);
    if ok : bool then change x (fun t => with_last (FT_Last b) (with_block (u32 (block t + 1)) t)) else mret tt.

Definition newFileReadTask (x : nat) : task :=
  with_next (FileNext x AfterRead)
  (with_onDone (Some (fun iin => change x (checkSupported iin)))
  (with_onFragment (Some (fun frag =>
      match statusObject frag with
      | Some st => change x (fail (ErrFileStatus (TS_Status st)))
      | None =>
          match fileObject frag 5 with
          | None => change x (fail ErrNoFileObject)
          | Some obj =>
              match ParseFileTransport obj with
              | Err e => change x (fail (ErrFileObject e))
              | Ok b => take_block x b
              end
          end
      end ;; mret None))
  (new_task FuncRead priorityCommand (fun b =>
      t ← transfer_of x;
      add_free_format 70 5 (AppendFileTransport [] (mkFileTransport (handle t) (block t) false [])) b)))).

Definition newFileWriteTask (x : nat) (data : list Z) (is_last : bool) : task :=
  with_next (FileNext x AfterWrite)
  (with_onDone (Some (fun iin =>
      change x (checkSupported iin) ;;
      change x (fun t =>
        match x_err t with
        | None => with_last is_last (with_transferred (u64 (transferred t + len data)) (with_block (u32 (block t + 1)) t))
        | Some _ => t
        end)))
  (with_onFragment (Some (fun frag =>
      match statusObject frag with
      | None => mret tt
      | Some st => if negb (TS_Status st =? FileSuccess) then change x (fail (ErrFileStatus (TS_Status st))) else mret tt
      end ;; mret None))
  (new_task FuncWrite priorityCommand (fun b =>
      t ← transfer_of x;
      add_free_format 70 5 (AppendFileTransport [] (mkFileTransport (handle t) (block t) is_last data)) b)))).

(** The status object of a close, a delete or an open that failed. *)
Definition check_status (x : nat) (frag : Fragment) : C unit :=
  match fileObject frag 4 with
  | None => mret tt
  | Some obj =>
      match ParseFileCommandStatus obj with
      | Err e => change x (fail (ErrFileObject e))
      | Ok st => if negb (FS_Status st =? FileSuccess) then change x (fail (ErrFileStatus (FS_Status st))) else mret tt
      end
  end.
Definition handle_object (t : transfer) : list Z :=
  AppendFileCommandStatus [] (mkFileCommandStatus (handle t) 0 0 (requestID t) 0 []).

Definition newFileCloseTask (x : nat) : task :=
  with_onDone (Some (fun _ => change x (with_closed true)))
  (with_onFragment (Some (fun frag => check_status x frag ;; mret None))
  (new_task FuncCloseFile priorityCommand (fun b => t ← transfer_of x; add_free_format 70 4 (handle_object t) b))).
Definition newFileAbortTask (x : nat) : task :=
  with_onDone (Some (fun _ => change x (with_closed true)))
  (new_task FuncAbortFile priorityCommand (fun b => t ← transfer_of x; add_free_format 70 4 (handle_object t) b)).
Definition newFileDeleteTask (x : nat) : task :=
  with_onDone (Some (fun iin => change x (checkSupported iin)))
  (with_onFragment (Some (fun frag => check_status x frag ;; mret None))
  (new_task FuncDeleteFile priorityCommand (fun b =>
      t ← transfer_of x;
      add_free_format 70 3 (AppendFileCommand []
        (mkFileCommand (x_name t) zeroTime 0 (x_key t) 0 FileModeNull 0 (requestID t))) b))).

(** A status in the place of a descriptor, when it can be parsed, says the file is not there. *)
Definition newFileInfoTask (x info : nat) : task :=
  with_onDone (Some (fun iin => change x (checkSupported iin)))
  (with_onFragment (Some (fun frag =>
      match obj ← fileObject frag 4; (match ParseFileCommandStatus obj with Ok st => Some st | Err _ => None end) with
      | Some st => change x (fail (ErrFileStatus (FS_Status st)))
      | None =>
          match fileObject frag 7 with
          | None => change x (fail ErrNoFileObject)
          | Some obj =>
              match ParseFileDescriptor obj with
              | Err e => change x (fail (ErrFileObject e))
              | Ok d => assign info (Info (FileDescriptor_Info d))
              end
          end
      end ;; mret None))
  (new_task FuncGetFileInfo priorityCommand (fun b =>
      t ← transfer_of x;
      add_free_format 70 7 (AppendFileDescriptor [] (mkFileDescriptor (x_name t) 0 0 zeroTime 0 (requestID t))) b))).

(** ** file_auth.go *)

Definition newFileAuthTask (x : nat) (credentials : FileCredentials) (after : option task) : task :=
  with_next (AuthNext x after)
  (with_onDone (Some (fun iin =>
      change x (checkSupported iin) ;;
      change x (fun t => if (x_key t =? 0) && bool_decide (x_err t = None) then fail (ErrFileStatus FilePermissionDenied) t else t)))
  (with_onFragment (Some (fun frag =>
      match fileObject frag 2 with
      | None => change x (fail ErrNoFileObject)
      | Some data =>
          match ParseFileAuth data with
          | Err e => change x (fail (ErrFileObject e))
          | Ok a => change x (with_key (FA_Key a))
          end
      end ;; mret None))
  (new_task FuncAuthenticateFile priorityCommand (fun b =>
      if MaxFreeFormatObject - FileAuthSize <? len (User credentials) + len (Password credentials)
      then mret (b, Some ErrBadConfig)
      else add_free_format 70 2 (AppendFileAuth [] (mkFileAuth (User credentials) (Password credentials) 0)) b)))).
(** ** security.go *)

Definition singleAuthObject (f : Fragment) (variation : Z) : option ObjectHeader :=
  match Objects f with
  | [h] => if (Group h =? 120) && (Variation h =? variation) && (ObjectHeader_Count h =? 1) &&
              (Qualifier h =? FreeFormatQualifier) then Some h else None
  | _ => None
  end.

Definition key_change (k : nat) (f : keyExchange -> keyExchange) : C unit := v ← keys_of k; assign k (Keys (f v)).
Definition pad8 (l : list Z) : list Z := l ++ replicate (Z.to_nat ((- len l) mod 8)) 0.

(** The plaintext of a key change: the two keys and the status they answer. *)
Definition key_plaintext (ctl mon : list Z) (status : AuthKeyStatus) : list Z :=
  pad8 (AppendAuthKeyStatus (le16 32 ++ ctl ++ mon)
    (mkAuthKeyStatus (AK_Sequence status) (AK_User status) (AK_WrapAlgorithm status) (AK_Status status)
       (AK_Algorithm status) (AK_Challenge status) [])).

Definition keyChangeTask (c : SecureAuthenticationConfig) (k : nat) (after : task) : task :=
  with_next (Then after)
  (with_startup (startup after)
  (with_onFragment (Some (fun f =>
      match singleAuthObject f 5 with
      | None => mret (Some (ErrSecurity ErrAuthentication))
      | Some h =>
          match FirstFreeFormatObject h with
          | Err e => mret (Some (ErrFreeFormat e))
          | Ok data =>
              v ← keys_of k;
              match ParseAuthKeyStatus data with
              | Err _ => mret (Some (ErrSecurity ErrAuthentication))
              | Ok st =>
                  if negb (AK_User st =? SA_User c) || negb (AK_Status st =? 1) || negb (AK_Algorithm st =? 4) ||
                     negb (bool_decide (AK_MAC st = MAC hmac_sha256 (k_monitor v) [changeASDU v]))
                  then mret (Some (ErrSecurity ErrAuthentication))
                  else
                    sec ← get_security;
                    now ← ask time_Now;
                    let ttl := if KeyTimeout c <=? 0 then 600 * second else KeyTimeout c in
                    set_security (mkMasterSecurity (k_control v) (k_monitor v) (now + ttl) 0 (lastRequest sec)) ;;
                    mret None
              end
          end
      end))
  (new_task FuncAuthRequest priorityStartup (fun b =>
      ctl ← ask (fun w => rand_Read w 32);
      match ctl with
      | None => mret (b, Some ErrRandom)
      | Some ctl =>
          mon ← ask (fun w => rand_Read w 32);
          match mon with
          | None => mret (b, Some ErrRandom)
          | Some mon =>
              v ← keys_of k;
              match Wrap aes_NewCipher (UpdateKey c) (key_plaintext ctl mon (k_status v)) with
              | Err e => mret (b, Some (ErrSecurity e))
              | Ok wrapped =>
                  '(b, err) ← add_free_format 120 6
                     (AppendAuthKeyChange [] (mkAuthKeyChange (AK_Sequence (k_status v)) (SA_User c) wrapped)) b;
                  match err with
                  | Some e => mret (b, Some e)
                  | None => key_change k (fun v => mkKeyExchange (k_status v) ctl mon (Bytes b)) ;; mret (b, None)
                  end
              end
          end
      end)))).

Definition keyStatusTask (c : SecureAuthenticationConfig) (k : nat) (after : task) : task :=
  with_next (Then (keyChangeTask c k (with_done None after)))
  (with_done (t_done after)
  (with_startup (startup after)
  (with_onFragment (Some (fun f =>
      match singleAuthObject f 5 with
      | None => mret (Some (ErrSecurity ErrAuthentication))
      | Some h =>
          match FirstFreeFormatObject h with
          | Err e => mret (Some (ErrFreeFormat e))
          | Ok data =>
              let parsed := ParseAuthKeyStatus data in
              let st := match parsed with Ok st => st | Err _ => AuthKeyStatus0 end in
              key_change k (fun v => mkKeyExchange st (k_control v) (k_monitor v) (changeASDU v)) ;;
              mret (if negb (is_ok parsed) || negb (AK_User st =? SA_User c) ||
                       negb ((AK_WrapAlgorithm st =? 1) || (AK_WrapAlgorithm st =? 2)) ||
                       ((AK_WrapAlgorithm st =? 1) && negb (len (UpdateKey c) =? 16)) ||
                       ((AK_WrapAlgorithm st =? 2) && negb (len (UpdateKey c) =? 32))
                    then Some (ErrSecurity ErrAuthentication) else None)
          end
      end))
  (new_task FuncAuthRequest priorityStartup (fun b =>
      if (SA_User c =? 0) || (negb (len (UpdateKey c) =? 16) && negb (len (UpdateKey c) =? 32))
      then mret (b, Some (ErrSecurity ErrAuthentication))
      else add_object (mkObjectHeader 120 4 (MakeQualifier PrefixNone RangeCount8) (mkRange RangeCount8 0 0 1)
                         (le16 (SA_User c)) 0 0) b))))).

(** The status request, whose answer leads to the change, whose answer leads to [after]. *)
Definition newSessionKeysTask (c : SecureAuthenticationConfig) (after : task) : C task :=
  k ← new_cell (Keys keyExchange0); mret (keyStatusTask c k after).

(** ** What follows a task *)

(** [io.ReadFull].  A turn reads an octet or ends; a reader that returns nothing and no error
    is against the contract of [io.Reader], and the loop ends with [ErrNoProgress]. *)
Fixpoint read_full (fuel : nat) (s : Source) (n : Z) (got : list Z) : C (list Z * option ReadErr) :=
  if n <=? len got then mret (got, None)
  else
    match fuel with
    | O => mret (got, Some ErrNoProgress)
    | S fuel =>
        '(data, err) ← ask (fun w => source_Read w s (n - len got));
        let got := got ++ data in
        match err with
        | None => read_full fuel s n got
        | Some e =>
            mret (got, if n <=? len got then None
                       else match e with EOF => Some (if 0 <? len got then ErrUnexpectedEOF else EOF) | _ => Some e end)
        end
    end.

(** The closure [writeStep] of [WriteFile]. *)
Definition writeStep (x : nat) : C (option task) :=
  t ← transfer_of x;
  match src t with
  | None => mret None
  | Some s =>
      '(buf, err) ← read_full (Z.to_nat (blockSize t) + 1) s (blockSize t) [];
      match err with
      | None | Some EOF | Some ErrUnexpectedEOF => mret (Some (newFileWriteTask x buf (len buf <? blockSize t)))
      | Some e => change x (fail (ErrSource e)) ;; mret None
      end
  end.

Definition rejection (iin : Z) : option MasterErr :=
  if Has iin IINNoFuncCodeSupport then Some ErrNotSupported
  else if Has iin IINParameterError || Has iin IINObjectUnknown then Some (ErrRejected iin)
  else None.

Definition run_next (c : chain task) : C (option task) :=
  match c with
  | NoNext => mret None
  | Then t => mret (Some t)
  | ThenOperate cmds sel op =>
      l ← statuses_of sel;
      mret (if CommandResult_OK l then Some (newCommandTask FuncOperate cmds op) else None)
  | ThenWriteTime delay sentAt gotAt =>
      got ← moment_of gotAt; sent ← moment_of sentAt; ms ← delay_of delay;
      let oneWay := Z.max (Z.quot (got - sent - ms * millisecond) 2) 0 in
      now ← ask time_Now; mret (Some (newWriteTimeTask (now + oneWay)))
  | ThenWriteRecorded recorded rejected =>
      t ← moment_of recorded;
      mret (Some (with_onDone (Some (fun iin => assign rejected (Failure (rejection iin)))) (newWriteRecordedTimeTask t)))
  | FileNext x after =>
      t ← transfer_of x;
      match x_err t with
      | Some _ => mret None
      | None =>
          match after with
          | ReadStep => mret (Some (newFileReadTask x))
          | AfterRead => mret (Some (if last t then newFileCloseTask x else newFileReadTask x))
          | WriteStep => writeStep x
          | AfterWrite => if last t then mret (Some (newFileCloseTask x)) else writeStep x
          end
      end
  | AuthNext x after =>
      t ← transfer_of x; mret (match x_err t with Some _ => None | None => after end)
  end.
End Files.
