(* ===== verification/MasterSession.v ===== *)
(** * A master session (src/master/session.go, security.go)

    The goroutine of a session: it sends the task that is due, handles what arrives, gives up
    on what does not, and runs the startup sequence after a connection or a restart of the
    outstation.  One definition per method; [serve] is the steps of its loop. *)

From stdpp Require Import gmap.
From S2P Require Import Prelude StateMonad LinkFrame Stack LinkLayer TaskQueue Values Floats AppHeader AppObject AppFragment Objects Codecs.
From S2P Require Import CommandEvents FileObjects ExtObjects Dispatch Commands Crypto MasterState MasterTasks MasterFiles.

Section Session.
Context {Env : MasterEnvironment} {LL : LinkLayer}.

Definition Stats0 : Stats := fun _ => 0.

(** The stack is made by [Run]. *)
Definition New (c : Config) (h : HandlerKind) (l : Link) : Session :=
  mkSession (applyDefaults c) h l 0 0 false false true (mkScheduler [] 0) None 0 [] Stats0 false 0 zeroTime zeroTime false.

Definition setConnected (v : bool) : M unit := modify (set_connected v).

(** ** Tasks begin and end *)

Definition finish (t : task) (err : option MasterErr) : M unit :=
  match t_done t with None => mret tt | Some ch => offer ch err end.

Definition change_sched {T} (f : scheduler task -> scheduler task * T) : M T := fun st =>
  let '(q, v) := f (sched (sess st)) in
  (mkState (set_sched q (sess st)) (mem st) (wire st) (sent st) (heard st) (outcomes st) (channels st), v).
Definition sched_push (t : task) : M unit := change_sched (fun q => (push t q, tt)).
(** [s.sched.clear()]: who waits for a task that is dropped is told. *)
Definition sched_clear : M unit :=
  dropped ← change_sched clear; each (fun t => finish t (Some ErrTaskFailed)) dropped.

Definition enqueue (t : task) : M unit := n ← now; sched_push (with_due n t).

Definition has_next (t : task) : bool := match next t with NoNext => false | _ => true end.

Definition completeTask (t : task) (err : option MasterErr) : M unit :=
  when (startup t && (bool_decide (is_Some err) || negb (has_next t))) (modify (set_startupActive false)) ;;
  bump (match err with Some _ => TasksFailed | None => TasksSucceeded end) ;;
  when (0 <? t_period t) (n ← now; sched_push (with_done None (with_due (n + t_period t) t))) ;;
  finish t err.

Definition failInflight (err : option MasterErr) : M unit :=
  t ← gets inflight;
  match t with
  | None => mret tt
  | Some t => modify (set_inflight None) ;; completeTask t err
  end.

Fixpoint chain_steps (steps : list task) : list task :=
  match steps with
  | [] => []
  | t :: rest =>
      let rest := chain_steps rest in
      with_startup true (match rest with n :: _ => with_next (Then n) t | [] => t end) :: rest
  end.
Definition startup_steps (c : Config) : list task :=
  [newClearRestartTask]
    ++ (if DisableUnsolOnStartup c then [newUnsolicitedTask false Class123] else [])
    ++ (if IntegrityOnStartup c then [newScanTask ClassAll] else [])
    ++ (if negb (UnsolClassMask c =? 0) then [newUnsolicitedTask true (UnsolClassMask c)] else []).
Definition startupSequence : M unit :=
  sched_clear ;;
  c ← gets cfg;
  modify (set_startupActive true) ;;
  match chain_steps (startup_steps c) with t :: _ => enqueue t | [] => mret tt end.

(** ** Sending *)

Definition send (frag : list Z) : M (option MasterErr) :=
  or_return (Send frag)
    (pending ← gets (fun s => link_Pending (stack s));
     when pending (n ← now; timeout ← gets (fun s => LinkTimeout (cfg s)); modify (set_linkDeadline (n + timeout))) ;;
     mret None).

Definition confirm_fragment (sq : Z) (unsolicited : bool) : list Z :=
  AppendHeader [] (mkHeader (mkControl true true false unsolicited sq) FuncConfirm 0).
Definition sendConfirm (sq : Z) (unsolicited : bool) : M unit :=
  _ ← send (confirm_fragment sq unsolicited); mret tt.

Definition securityMessageLimit (c : SecureAuthenticationConfig) : Z := if 0 <? MaxMessages c then MaxMessages c else 500.
Definition securityReady (c : SecureAuthenticationConfig) : M bool :=
  sec ← run get_security;
  if negb (16 <=? len (control sec)) then mret false
  else n ← now; mret ((n <? until sec) && (messages sec <? securityMessageLimit c)).

(** [sendTask] once the keys are there. *)
Definition transmit (t : task) : M unit :=
  when (negb (funcCode t =? FuncAuthRequest)) (modify (fun s => set_seq (Z.rem (u8 (seq s + 1)) SeqModulus) s)) ;;
  sq ← gets seq;
  c ← gets cfg;
  let '(b, err) := SetHeader (NewBuilder (MaxTxFragment c)) (mkHeader (mkControl true true false false sq) (funcCode t) 0) in
  match err with
  | Some e => completeTask t (Some (ErrBuild e))
  | None =>
      '(b, err) ← run (build t b);
      match err with
      | Some e => completeTask t (Some e)
      | None =>
          when (bool_decide (is_Some (SecureAuthentication c)) && negb (funcCode t =? FuncAuthRequest))
            (run (sec ← get_security;
                  set_security (mkMasterSecurity (control sec) (monitor sec) (until sec) (messages sec) (Bytes b)))) ;;
          err ← send (Bytes b);
          match err with
          | Some e => completeTask t (Some e)
          | None =>
              let t := with_started false (with_seq sq t) in
              bump TasksRun ;;
              if noResponse t && negb (bool_decide (is_Some (SecureAuthentication c))) then
                modify (set_inflight None) ;;
                completeTask t None
              else
                n ← now;
                modify (set_inflight (Some (with_deadline (n + ResponseTimeout c) t)))
          end
      end
  end.

Definition sendTask (t : task) : M unit :=
  let t := with_failure None t in
  c ← gets cfg;
  match SecureAuthentication c with
  | Some sc =>
      if funcCode t =? FuncAuthRequest then transmit t
      else
        ready ← securityReady sc;
        if ready : bool then transmit t
        else k ← run (newSessionKeysTask sc t); transmit (with_failure None k)
  | None => transmit t
  end.

Definition runDueTask : M unit :=
  t ← gets inflight;
  match t with
  | Some _ => mret tt
  | None =>
      t ← gets (fun s => peek (sched s));
      match t with
      | None => mret tt
      | Some t =>
          n ← now;
          if n <? t_due t then mret tt
          else _ ← change_sched pop; sendTask t
      end
  end.

(** ** Receiving *)

Definition observeIIN (iin : Z) : M unit :=
  modify (set_lastIIN iin) ;;
  modify (set_synchronized (negb (Has iin IINNeedTime))) ;;
  if Has iin IINDeviceRestart then
    active ← gets startupActive;
    if active : bool then mret tt
    else bump RestartsSeen ;; startupSequence
  else mret tt.

Definition deliver (frag : Fragment) (unsolicited : bool) : M unit :=
  n ← now;
  k ← gets handler;
  sync ← gets synchronized;
  call_handler (Dispatch.deliver k sync n frag unsolicited).

(** Where a fragment stands in the series of a response. *)
Inductive standing := Stale | Repeat | Accepted.
Definition stands (t : task) (c : Control) : standing :=
  if negb (started t) then
    if negb (Seq c =? t_seq t) then Stale else if negb (Fir c) then Repeat else Accepted
  else if Fir c then if negb (Seq c =? t_seq t) then Stale else Repeat
  else
    let expected := Z.rem (u8 (respSeq t + 1)) SeqModulus in
    if negb (Seq c =? expected) && negb (Seq c =? respSeq t) then Stale
    else if Seq c =? respSeq t then Repeat else Accepted.

Definition extend_deadline (t : task) : M task :=
  n ← now;
  timeout ← gets (fun s => ResponseTimeout (cfg s));
  let t := with_deadline (n + timeout) t in
  modify (set_inflight (Some t)) ;; mret t.

(** The last fragment of a response was accepted. *)
Definition finishResponse (t : task) (iin : Z) : M unit :=
  modify (set_inflight None) ;;
  match onDone t with Some f => run (f iin) | None => mret tt end ;;
  match failure t with
  | Some e => completeTask t (Some e)
  | None =>
      nt ← run (run_next (next t));
      match nt with
      | Some nt => completeTask (with_done None t) None ;; sendTask (with_done (t_done t) nt)
      | None => completeTask t None
      end
  end.

Definition onSolicited (frag : Fragment) : M unit :=
  let c := HControl (FHeader frag) in
  t ← gets inflight;
  match t with
  | None => mret tt
  | Some t =>
      match stands t c with
      | Stale => mret tt
      | Repeat =>
          bump FragmentsDiscarded ;;
          when (Con c) (sendConfirm (Seq c) false) ;;
          _ ← extend_deadline t;
          mret tt
      | Accepted =>
          let t := with_respSeq (Seq c) (with_started true t) in
          modify (set_inflight (Some t)) ;;
          deliver frag false ;;
          e ← match onFragment t with Some f => run (f frag) | None => mret None end;
          let t := match e with Some e => with_failure (Some e) t | None => t end in
          modify (set_inflight (Some t)) ;;
          when (Con c) (sendConfirm (Seq c) false) ;;
          if negb (Fin c) then _ ← extend_deadline t; mret tt
          else finishResponse t (HIIN (FHeader frag))
      end
  end.

Definition onUnsolicited (frag : Fragment) : M unit :=
  let c := HControl (FHeader frag) in
  bump UnsolicitedRx ;;
  s ← gets id;
  let duplicate := hasUnsolSeq s && (Seq c =? unsolSeq s) in
  modify (fun s => set_hasUnsolSeq true (set_unsolSeq (Seq c) s)) ;;
  when (negb duplicate) (deliver frag true) ;;
  when (Con c) (sendConfirm (Seq c) true).

(** The challenge of a request in flight is answered with a message code over the challenge
    and the request. *)
Definition abandon (t : task) (e : MasterErr) : M unit := modify (set_inflight None) ;; completeTask t (Some e).
Definition auth_reply (sq : Z) (object : list Z) : list Z :=
  BuildRequest [] (mkControl true true false false sq) FuncAuthRequest
    [match FreeFormat 120 2 object with Ok h => h | Err _ => mkObjectHeader 0 0 0 (mkRange 0 0 0 0) [] 0 0 end].
Definition onAuthenticationResponse (f : Fragment) : M unit :=
  let c := HControl (FHeader f) in
  conf ← gets cfg;
  t ← gets inflight;
  match SecureAuthentication conf, t with
  | Some sc, Some t =>
      if Uns c || negb (Single c) || Con c || negb (Seq c =? t_seq t) then mret tt
      else if funcCode t =? FuncAuthRequest then onSolicited f
      else
        match singleAuthObject f 1 with
        | None => abandon t (ErrSecurity ErrAuthentication)
        | Some h =>
            match FirstFreeFormatObject h with
            | Err e => abandon t (ErrFreeFormat e)
            | Ok data =>
                match ParseAuthChallenge data with
                | Err _ => abandon t (ErrSecurity ErrAuthentication)
                | Ok ch =>
                    ready ← securityReady sc;
                    if negb ready || negb (AC_Algorithm ch =? 4) || negb (AC_Reason ch =? 1) ||
                       (negb (AC_User ch =? 0) && negb (AC_User ch =? SA_User sc)) || negb (len (AC_Data ch) =? 32)
                    then abandon t (ErrSecurity ErrAuthentication)
                    else
                      sec ← run get_security;
                      let mac := MAC hmac_sha256 (control sec) [Raw f; lastRequest sec] in
                      err ← send (auth_reply (t_seq t) (AppendAuthReply [] (mkAuthReply (AC_Sequence ch) (SA_User sc) mac)));
                      match err with
                      | Some e => abandon t e
                      | None =>
                          run (sec ← get_security;
                               set_security (mkMasterSecurity (control sec) (monitor sec) (until sec) (u32 (messages sec + 1)) (lastRequest sec))) ;;
                          if noResponse t then modify (set_inflight None) ;; completeTask t None
                          else _ ← extend_deadline t; mret tt
                      end
                end
            end
        end
  | _, _ => mret tt
  end.

Definition on_received (r : Received) : M unit :=
  bump FragmentsRx ;;
  let '(frag, err) := ParseFragment None (RFragment r) in
  match err with
  | Some e =>
      bump FragmentsDiscarded ;;
      t ← gets inflight;
      match t with
      | None => mret tt
      | Some t =>
          match ParseHeader (RFragment r) with
          | Ok (h, _) =>
              if Header_IsResponse h && (Seq (HControl h) =? t_seq t) then abandon t (ErrMalformed e) else mret tt
          | Err _ => mret tt
          end
      end
  | None =>
      let h := FHeader frag in
      secure ← gets (fun s => bool_decide (is_Some (SecureAuthentication (cfg s))));
      if negb (Header_IsResponse h) then mret tt
      else if (Func h =? FuncAuthResponse) && secure then onAuthenticationResponse frag
      else if negb (((Func h =? FuncResponse) && negb (Uns (HControl h))) ||
                    ((Func h =? FuncUnsolicitedResponse) && Uns (HControl h))) then bump FragmentsDiscarded
      else
        observeIIN (HIIN h) ;;
        if Func h =? FuncUnsolicitedResponse then onUnsolicited frag else onSolicited frag
  end.

(** ** Time *)

Definition checkTimeout : M unit :=
  t ← gets inflight;
  match t with
  | None => mret tt
  | Some t =>
      n ← now;
      if n <? deadline t then mret tt
      else modify (set_inflight None) ;; bump ResponseTimeouts ;; completeTask t (Some ErrTimeout)
  end.

(** The result says whether the link layer handled the tick. *)
Definition link_timeout : M (bool * option MasterErr) := fun st =>
  let '(l, x, failed, err) := link_OnTimeout (stack (sess st)) (wire st) in
  (mkState (set_stack l (sess st)) (mem st) x (sent st) (heard st) (outcomes st) (channels st), (failed, ErrSend <$> err)).
Definition checkLinkTimeout : M bool :=
  pending ← gets (fun s => link_Pending (stack s));
  if negb pending then mret false
  else
    n ← now;
    s ← gets id;
    if n <? linkDeadline s then mret false
    else
      '(failed, err) ← link_timeout;
      match err with
      | Some _ => mret false
      | None =>
          n ← now;
          modify (set_linkDeadline (n + LinkTimeout (cfg s))) ;;
          if failed : bool then
            when (bool_decide (inflight s = None)) (modify (set_peerSilent true)) ;;
            failInflight (Some ErrTimeout) ;;
            mret false
          else mret true
      end.

Definition link_status_request : M (option MasterErr) := fun st =>
  let '(l, x, err) := link_SendLinkStatusRequest (stack (sess st)) (wire st) in
  (mkState (set_stack l (sess st)) (mem st) x (sent st) (heard st) (outcomes st) (channels st), ErrSend <$> err).
Definition checkKeepAlive : M unit :=
  s ← gets id;
  if (KeepAlive (cfg s) <=? 0) || bool_decide (is_Some (inflight s)) || link_Busy (stack s) then mret tt
  else
    n ← now;
    if n - lastRx s <? KeepAlive (cfg s) then mret tt
    else
      n ← now;
      modify (set_lastRx n) ;;
      err ← link_status_request;
      match err with
      | Some _ => mret tt
      | None => n ← now; modify (set_linkDeadline (n + LinkTimeout (cfg s)))
      end.

(** How long the loop sleeps. *)
Definition nextWakeup : M Z :=
  n ← now;
  s ← gets id;
  let linkPending := link_Pending (stack s) in
  mret
    match inflight s with
    | Some t =>
        let d := if linkPending && (linkDeadline s <? deadline t) then linkDeadline s else deadline t in
        Z.max (d - n) millisecond
    | None =>
        if linkPending then Z.max (linkDeadline s - n) millisecond
        else match peek (sched s) with
             | Some t => Z.max (t_due t - n) millisecond
             | None => if 0 <? KeepAlive (cfg s) then Z.max (lastRx s + KeepAlive (cfg s) - n) millisecond
                       else 3600 * second
             end
    end.

(** ** Connections *)

(** A connection of [Run] begins and ends. *)
Definition connect : M unit :=
  bump Connections ;;
  modify (fun s => set_stack (link_Reset (stack s)) s) ;;
  setConnected true ;;
  n ← now;
  modify (set_lastRx n) ;;
  run (set_security masterSecurity0) ;;
  startupSequence.
Definition disconnect : M unit := setConnected false ;; failInflight (Some ErrNoConnection).

(** [case data := <-rx]; the result says whether the connection goes on. *)
Definition with_stack (l : Link) (st : state) : state :=
  mkState (set_stack l (sess st)) (mem st) (wire st) (sent st) (heard st) (outcomes st) (channels st).
Definition with_wire (x : Wire) (st : state) : state :=
  mkState (sess st) (mem st) x (sent st) (heard st) (outcomes st) (channels st).
Definition on_fragment (l : Link) (st : state) (r : Received) : Link * state :=
  let st := (on_received r (with_stack l st)).1 in (stack (sess st), st).
Definition receive (data : list Z) : M bool := fun st =>
  let '(l, st, err) := link_Receive wire with_wire on_fragment (stack (sess st)) st data in
  (with_stack l st, bool_decide (err = None)).
Definition on_data (data : list Z) : M bool :=
  n ← now; modify (set_lastRx n) ;; receive data.

(** [case <-timer.C]. *)
Definition on_timer : M bool :=
  handled ← checkLinkTimeout;
  if handled : bool then mret true
  else
    silent ← gets peerSilent;
    if silent : bool then modify (set_peerSilent false) ;; mret false
    else checkTimeout ;; checkKeepAlive ;; mret true.

(** [case t := <-s.submit]. *)
Definition take_submitted : M unit :=
  q ← gets submit;
  match q with
  | [] => mret tt
  | t :: rest => modify (set_submit rest) ;; enqueue t
  end.

Definition or_disconnect (m : M bool) : M unit :=
  on ← m; if on : bool then mret tt else disconnect.
End Session.
