(* ===== verification/MasterApi.v ===== *)
(** * The requests of a master (src/master/api.go, command.go, fileapi.go, file_auth.go,
      attribute.go)

    A method of the source hands a task to the goroutine of the session, waits for its
    outcome, and returns what the task left in the variables they share.  Here it is two
    definitions: the method up to the wait, which returns what it waits for, and, where there
    is more to it than passing the outcome on, what it returns then ([..._returns]).

    [master_step] are the steps of a session and of its callers, [lives] the states they
    lead to. *)

From stdpp Require Import gmap.
From S2P Require Import Prelude StateMonad LinkFrame Stack LinkLayer TaskQueue Values Floats AppHeader AppObject AppFragment Objects Codecs.
From S2P Require Import CommandEvents FileObjects ExtObjects Dispatch Commands Crypto MasterState MasterTasks MasterFiles MasterSession.

Section Api.
Context {Env : MasterEnvironment} {LL : LinkLayer}.

(** The channel the outcome comes on, and the variables the method shares with its task. *)
Record waiting := mkWaiting { on : nat; vars : list nat }.

(** [make(chan error, 1)]. *)
Definition new_channel : M nat := fun st =>
  (mkState (sess st) (mem st) (wire st) (sent st) (heard st) (outcomes st) (S (channels st)), channels st).

(** [s.submit <- t]. *)
Definition hand_over (t : task) : M unit := modify (fun s => set_submit (submit s ++ [t]) s).
(** [run], up to the wait. *)
Definition run_task (t : task) (vs : list nat) : M (result MasterErr waiting) :=
  ch ← new_channel;
  hand_over (with_done (Some ch) t) ;;
  mret (Ok (mkWaiting ch vs)).
Definition refuse (e : MasterErr) : M (result MasterErr waiting) := mret (Err e).

(** ** api.go *)

Definition ScanClasses (mask : Z) : M (result MasterErr waiting) :=
  if mask =? 0 then refuse ErrBadConfig else run_task (newScanTask mask) [].
Definition IntegrityPoll : M (result MasterErr waiting) := ScanClasses ClassAll.
Definition ScanRange (group variation start stop : Z) : M (result MasterErr waiting) :=
  if stop <? start then refuse ErrBadConfig else run_task (newRangeScanTask group variation start stop) [].
(** Returns as soon as the task is handed over. *)
Definition AddPeriodicScan (period mask : Z) : M (option MasterErr) :=
  if period <=? 0 then mret (Some ErrBadConfig)
  else if mask =? 0 then mret (Some ErrBadConfig)
  else hand_over (with_period period (newScanTask mask)) ;; mret None.
Definition Restart (mode : RestartMode) : M (result MasterErr waiting) := run_task (newRestartTask mode) [].
Definition WriteTime (t : Z) : M (result MasterErr waiting) := run_task (newWriteTimeTask t) [].
Definition SyncTime : M (result MasterErr waiting) := n ← now; WriteTime n.

Definition SyncTimeWithDelay : M (result MasterErr waiting) :=
  outstationDelay ← run (new_cell (Delay 0));
  gotAt ← run (new_cell (Moment zeroTime));
  n ← now;
  sentAt ← run (new_cell (Moment n));
  run_task (with_next (ThenWriteTime outstationDelay sentAt gotAt)
    (with_onDone (Some (fun _ => n ← ask time_Now; assign gotAt (Moment n))) (newDelayMeasureTask outstationDelay)))
    [outstationDelay; sentAt; gotAt].

Definition SyncTimeRecorded : M (result MasterErr waiting) :=
  recorded ← run (new_cell (Moment zeroTime));
  rejected ← run (new_cell (Failure None));
  run_task (with_next (ThenWriteRecorded recorded rejected)
    (new_task FuncRecordCurrentTime priorityStartup (fun b => n ← ask time_Now; assign recorded (Moment n) ;; mret (b, None))))
    [rejected].

(** The outcome of a task, or what the variable says if it succeeded. *)
Definition unless_failed (fail : nat) (err : option MasterErr) : C (option MasterErr) :=
  match err with Some e => mret (Some e) | None => failure_of fail end.

Definition runChecked (t : task) : M (result MasterErr waiting) :=
  rejected ← run (new_cell (Failure None));
  run_task (with_onDone (Some (fun iin => assign rejected (Failure (rejection iin)))) t) [rejected].
Definition runChecked_returns (w : waiting) (err : option MasterErr) : C (option MasterErr) :=
  match vars w with rejected :: _ => unless_failed rejected err | [] => mret err end.

Definition FreezeCounters (clear : bool) : M (result MasterErr waiting) := runChecked (newFreezeTask clear).
Definition FreezeAtTime (at_time interval : Z) : M (result MasterErr waiting) :=
  if (interval <? 0) || (2 ^ 32 - 1 <? Z.quot interval millisecond) then refuse ErrBadConfig
  else runChecked (newFreezeAtTimeTask at_time interval).
Definition WriteDeadband (deadbands : gmap Z Z) : M (result MasterErr waiting) :=
  let n := Z.of_nat (size deadbands) in
  if n =? 0 then refuse ErrBadConfig
  else if 255 <? n then refuse ErrBadConfig
  else run_task (newWriteDeadbandTask deadbands) [].
Definition EnableUnsolicited (mask : Z) : M (result MasterErr waiting) := run_task (newUnsolicitedTask true mask) [].
Definition DisableUnsolicited (mask : Z) : M (result MasterErr waiting) := run_task (newUnsolicitedTask false mask) [].

(** ** command.go *)

Definition DirectOperate (cmds : list Command) : M (result MasterErr waiting) :=
  if len cmds =? 0 then refuse ErrBadConfig
  else r ← run (new_cell (Statuses [])); run_task (newCommandTask FuncDirectOperate cmds r) [r].
Definition DirectOperate_returns (cmds : list Command) (w : waiting) (err : option MasterErr) : C (list Z * option MasterErr) :=
  match vars w with
  | r :: _ => l ← statuses_of r; mret (l, match err with Some e => Some e | None => CommandResult_Err cmds l end)
  | [] => mret ([], err)
  end.
Definition DirectOperateNoReply (cmds : list Command) : M (result MasterErr waiting) :=
  if len cmds =? 0 then refuse ErrBadConfig
  else r ← run (new_cell (Statuses [])); run_task (with_noResponse true (newCommandTask FuncDirectOperateNR cmds r)) [].

Definition SelectAndOperate (cmds : list Command) : M (result MasterErr waiting) :=
  if len cmds =? 0 then refuse ErrBadConfig
  else
    sel ← run (new_cell (Statuses []));
    op ← run (new_cell (Statuses []));
    run_task (with_next (ThenOperate cmds sel op) (newCommandTask FuncSelect cmds sel)) [sel; op].
Definition SelectAndOperate_returns (cmds : list Command) (w : waiting) (err : option MasterErr) : C (list Z * option MasterErr) :=
  match vars w with
  | [sel; op] =>
      s ← statuses_of sel; o ← statuses_of op;
      mret (match err with
            | Some e => (s, Some e)
            | None => match CommandResult_Err cmds s with Some e => (s, Some e) | None => (o, CommandResult_Err cmds o) end
            end)
  | _ => mret ([], err)
  end.

(** ** attribute.go *)

Definition WriteAttribute (a : Attribute) : M (result MasterErr waiting) :=
  match AppendAttribute [] a with
  | Err e => refuse (ErrAttribute e)
  | Ok data => f ← run (new_cell (Failure None)); run_task (newWriteAttributeTask a data f) [f]
  end.
Definition WriteAttribute_returns := runChecked_returns.

Definition readAttributes (set variation : Z) : M (result MasterErr waiting) :=
  out ← run (new_cell (AttributeList []));
  f ← run (new_cell (Failure None));
  run_task (newAttributeTask set variation out f) [out; f].
Definition readAttributes_returns (w : waiting) (err : option MasterErr) : C (list Attribute * option MasterErr) :=
  match err, vars w with
  | None, [out; f] => l ← attributes_of out; e ← failure_of f; mret (l, e)
  | _, _ => mret ([], err)
  end.
Definition ReadAttributeSet (set : Z) : M (result MasterErr waiting) := readAttributes set AttrAll.
Definition ReadAttributes : M (result MasterErr waiting) := ReadAttributeSet AttrSetStandard.
Definition ReadAttribute (set variation : Z) : M (result MasterErr waiting) :=
  if variation =? AttrAll then refuse ErrBadConfig else readAttributes set variation.
Definition ReadAttribute_returns (w : waiting) (err : option MasterErr) : C (result MasterErr Attribute) :=
  '(l, e) ← readAttributes_returns w err;
  mret (match e, l with Some e, _ => Err e | None, [] => Err ErrNoAttribute | None, a :: _ => Ok a end).

(** ** fileapi.go *)

Definition MaxFileSize : Z := Z.shiftl 16 20.
Definition nextRequestID : M Z :=
  modify (fun s => set_fileSeq (u32 (fileSeq s + 1)) s) ;; n ← gets fileSeq; mret (u16 n).
Definition fileBlockSize (c : Config) : Z :=
  if 0 <? FileBlockSize c then FileBlockSize c
  else u16 (Z.min (Z.max (Z.min (MaxRxFragment c) (MaxTxFragment c) - 32) 64) 0xFFFF).

(** [s.run] of the first task of a transfer, after the authentication if there are credentials. *)
Definition run_authenticated (x : nat) (first : task) : M (result MasterErr waiting) :=
  c ← gets cfg;
  run_task (match FileCreds c with Some cr => newFileAuthTask x cr (Some first) | None => first end) [x].

Definition ReadFile (name : list Z) (d : option destination) : M (result MasterErr waiting) :=
  if len name =? 0 then refuse ErrBadConfig
  else match d with
       | None => refuse ErrBadConfig
       | Some d =>
           id ← nextRequestID;
           x ← run (new_cell (Transfer (mkTransfer name id 0 0 0 0 0 false (Some d) None 0 None false false)));
           c ← gets cfg;
           run_authenticated x (newFileOpenTask x FileModeRead (fileBlockSize c) ReadStep)
       end.
Definition WriteFile (name : list Z) (s : option Source) (size : Z) : M (result MasterErr waiting) :=
  if len name =? 0 then refuse ErrBadConfig
  else match s with
       | None => refuse ErrBadConfig
       | Some s =>
           id ← nextRequestID;
           x ← run (new_cell (Transfer (mkTransfer name id 0 0 size 0 0 false None (Some s) 0 None true false)));
           c ← gets cfg;
           run_authenticated x (newFileOpenTask x FileModeWrite (fileBlockSize c) WriteStep)
       end.

(** [runTransfer] after the chain: the error it returns, and the task that releases the handle
    the outstation still holds. *)
Definition runTransfer_returns (x : nat) (err : option MasterErr) : C (option MasterErr * option task) :=
  t ← transfer_of x;
  let err := match err with Some e => Some e | None => x_err t end in
  mret (err,
    match err with
    | None => None
    | Some _ =>
        if negb (handle t =? 0) && negb (closed t)
        then Some (if x_write t then newFileAbortTask x else newFileCloseTask x) else None
    end).
Definition ReadFile_returns (x : nat) (err : option MasterErr) : C (Z * option MasterErr) :=
  t ← transfer_of x; '(e, _) ← runTransfer_returns x err; mret (transferred t, e).

(** [ReadFileBytes]: a buffer in memory, with a limit. *)
Definition ReadFileBytes (name : list Z) : M (result MasterErr waiting) := ReadFile name (Some (Limited MaxFileSize 0 [])).
Definition ReadFileBytes_returns (x : nat) (err : option MasterErr) : C (list Z * option MasterErr) :=
  t ← transfer_of x;
  '(e, _) ← runTransfer_returns x err;
  mret (match dst t with Some (Limited _ _ buf) => buf | _ => [] end, e).
Definition ReadDirectory (name : list Z) : M (result MasterErr waiting) := ReadFileBytes name.
Definition ReadDirectory_returns (x : nat) (err : option MasterErr) : C (list FileInfo * option MasterErr) :=
  '(content, e) ← ReadFileBytes_returns x err;
  mret (match e with
        | Some e => ([], Some e)
        | None => let '(entries, e) := ParseDirectory content in (entries, ErrFileObject <$> e)
        end).

Definition new_transfer (name : list Z) : M nat :=
  id ← nextRequestID;
  run (new_cell (Transfer (mkTransfer name id 0 0 0 0 0 false None None 0 None false false))).
Definition DeleteFile (name : list Z) : M (result MasterErr waiting) :=
  if len name =? 0 then refuse ErrBadConfig
  else x ← new_transfer name; run_authenticated x (newFileDeleteTask x).
Definition transfer_error (x : nat) (err : option MasterErr) : C (option MasterErr) :=
  match err with Some e => mret (Some e) | None => t ← transfer_of x; mret (x_err t) end.
Definition FileInfo_request (name : list Z) : M (result MasterErr waiting) :=
  if len name =? 0 then refuse ErrBadConfig
  else
    x ← new_transfer name;
    info ← run (new_cell (Info FileInfo0));
    run_task (newFileInfoTask x info) [x; info].
Definition FileInfo_returns (x info : nat) (err : option MasterErr) : C (FileInfo * option MasterErr) :=
  match err with
  | Some e => mret (FileInfo0, Some e)
  | None => i ← info_of info; t ← transfer_of x; mret (i, x_err t)
  end.
Definition AuthenticateFile (user password : list Z) : M (result MasterErr waiting) :=
  x ← run (new_cell (Transfer transfer0));
  run_task (newFileAuthTask x (mkFileCredentials user password) None) [x].
Definition AuthenticateFile_returns (x : nat) (err : option MasterErr) : C (Z * option MasterErr) :=
  match err with Some e => mret (0, Some e) | None => t ← transfer_of x; mret (x_key t, x_err t) end.

(** ** Steps *)

(** A call of a session, up to its wait. *)
Inductive call :=
| CallScanClasses (mask : Z) | CallScanRange (group variation start stop : Z) | CallAddPeriodicScan (period mask : Z)
| CallRestart (mode : RestartMode) | CallWriteTime (t : Z) | CallSyncTimeWithDelay | CallSyncTimeRecorded
| CallFreezeCounters (clear : bool) | CallFreezeAtTime (at_time interval : Z) | CallWriteDeadband (deadbands : gmap Z Z)
| CallUnsolicited (enable : bool) (mask : Z)
| CallDirectOperate (cmds : list Command) | CallDirectOperateNoReply (cmds : list Command) | CallSelectAndOperate (cmds : list Command)
| CallWriteAttribute (a : Attribute) | CallReadAttributes (set variation : Z)
| CallReadFile (name : list Z) (d : option destination) | CallWriteFile (name : list Z) (s : option Source) (size : Z)
| CallDeleteFile (name : list Z) | CallFileInfo (name : list Z) | CallAuthenticateFile (user password : list Z)
| CallRelease (x : nat) (write : bool).

Definition begin (c : call) : M unit :=
  let waits (m : M (result MasterErr waiting)) : M unit := m ;; mret tt in
  match c with
  | CallScanClasses mask => waits (ScanClasses mask)
  | CallScanRange g v start stop => waits (ScanRange g v start stop)
  | CallAddPeriodicScan p mask => AddPeriodicScan p mask ;; mret tt
  | CallRestart mode => waits (Restart mode)
  | CallWriteTime t => waits (WriteTime t)
  | CallSyncTimeWithDelay => waits SyncTimeWithDelay
  | CallSyncTimeRecorded => waits SyncTimeRecorded
  | CallFreezeCounters clear => waits (FreezeCounters clear)
  | CallFreezeAtTime t i => waits (FreezeAtTime t i)
  | CallWriteDeadband d => waits (WriteDeadband d)
  | CallUnsolicited enable mask => waits (if enable then EnableUnsolicited mask else DisableUnsolicited mask)
  | CallDirectOperate cmds => waits (DirectOperate cmds)
  | CallDirectOperateNoReply cmds => waits (DirectOperateNoReply cmds)
  | CallSelectAndOperate cmds => waits (SelectAndOperate cmds)
  | CallWriteAttribute a => waits (WriteAttribute a)
  | CallReadAttributes s v => waits (readAttributes s v)
  | CallReadFile name d => waits (ReadFile name d)
  | CallWriteFile name s size => waits (WriteFile name s size)
  | CallDeleteFile name => waits (DeleteFile name)
  | CallFileInfo name => waits (FileInfo_request name)
  | CallAuthenticateFile u p => waits (AuthenticateFile u p)
  | CallRelease x w => waits (run_task (if w then newFileAbortTask x else newFileCloseTask x) [x])
  end.

(** A step of the goroutine of a session, of a caller, or of the world.  A caller hands its
    task over when the channel has room. *)
Inductive master_step : state -> state -> Prop :=
| step_world st w x : master_step st
    (mkState (sess st) (mkStore w (cells (mem st)) (fresh (mem st)) (security (mem st))) x (sent st) (heard st) (outcomes st) (channels st))
| step_connect st : connected (sess st) = false -> master_step st (connect st).1
| step_due st : connected (sess st) = true -> master_step st (runDueTask st).1
| step_submitted st : connected (sess st) = true -> master_step st (take_submitted st).1
| step_data st data : connected (sess st) = true -> master_step st (or_disconnect (on_data data) st).1
| step_timer st : connected (sess st) = true -> master_step st (or_disconnect on_timer st).1
| step_disconnect st : connected (sess st) = true -> master_step st (disconnect st).1
| step_call st c : len (submit (sess st)) < 32 -> master_step st (begin c st).1.

(** The states a session can be in. *)
Inductive lives (c : Config) (k : HandlerKind) : state -> Prop :=
| lives_new l w x : lives c k (mkState (New c k l) (mkStore w ∅ 0 masterSecurity0) x [] [] ∅ 0)
| lives_step st st' : lives c k st -> master_step st st' -> lives c k st'.
End Api.
