(* ===== verification/MasterInvariant.v ===== *)
(** * What is always true of a master session

    [book]: the tasks a session holds, wherever they are, account for every caller that waits:
    no two tasks answer the same caller, a caller whose task is still there has no answer yet,
    and one whose task is gone has one, which stays.  [starting]: the flag [startupActive] is
    set exactly while one step of one startup sequence is queued or in flight. *)

From stdpp Require Import gmap.
From S2P Require Import Prelude StateMonad LinkFrame Stack LinkLayer TaskQueue Values Floats AppHeader AppObject AppFragment Objects Codecs.
From S2P Require Import CommandEvents FileObjects ExtObjects Dispatch Commands Crypto MasterState MasterTasks MasterFiles MasterSession MasterApi.

Section Book.
Context {Env : MasterEnvironment} {LL : LinkLayer}.

(** ** Tasks as the session makes them *)

(** What follows a task answers nobody yet, and is a step of the startup sequence if the task
    is one; such a step is neither repeated nor sent without waiting for a response. *)
Fixpoint proper (t : task) : Prop :=
  (startup t = true -> t_period t = 0 /\ noResponse t = false) /\
  match next t with
  | NoNext => True
  | Then nt => startup nt = startup t /\ t_done nt = None /\ proper nt
  | AuthNext _ (Some nt) => startup t = false /\ startup nt = false /\ t_done nt = None /\ proper nt
  | _ => startup t = false
  end.

Lemma proper_alone t : startup t = false -> next t = NoNext -> proper t.
Proof. destruct t; cbn. intros -> ->. done. Qed.

(** The fields that [proper] looks at. *)
Definition shape (t : task) := (startup t, t_period t, noResponse t, next t).
Lemma proper_shape t t' : shape t' = shape t -> proper t -> proper t'.
Proof. destruct t, t'; cbn. intros [= -> -> -> ->]. done. Qed.

Lemma proper_next t : proper t -> match next t with NoNext | Then _ => True | _ => startup t = false end.
Proof.
  intros Hp. destruct t as [????????[]]; cbn in *; try done; [naive_solver..|]. destruct after; naive_solver.
Qed.
Lemma run_next_proper t : proper t ->
  returns (fun o => forall nt, o = Some nt -> proper nt /\ startup nt = startup t /\ t_done nt = None) (run_next (next t)).
Proof.
  intros Hp. pose proof (proper_next t Hp) as Hs.
  unfold run_next. destruct (next t) as [|nt|cmds sel op|d s g|r j|x step|x after] eqn:E.
  - intros st nt [=].
  - intros st nt' [= <-]. destruct t; cbn in *. subst. naive_solver.
  - apply returns_bind. intros l st nt. cbn. destruct (CommandResult_OK l); [|done]. intros [= <-]. rewrite Hs. by split_and!.
  - do 4 (apply returns_bind; intros ?). intros st nt [= <-]. rewrite Hs. by split_and!.
  - apply returns_bind. intros m st nt [= <-]. rewrite Hs. by split_and!.
  - apply returns_bind. intros tr. destruct (x_err tr); [by intros st nt [=]|].
    assert (Hw : returns (fun o => forall nt, o = Some nt -> proper nt /\ startup nt = startup t /\ t_done nt = None) (writeStep x)).
    { unfold writeStep. apply returns_bind. intros tr'. destruct (src tr'); [|by intros st nt [=]].
      apply returns_bind. intros [buf err]. rewrite Hs.
      destruct err as [[]|]; try (intros st nt [= <-]; by split_and!). all: apply returns_bind; intros ? st nt [=]. }
    destruct step; [| |done |].
    + intros st nt [= <-]. rewrite Hs. by split_and!.
    + intros st nt [= <-]. rewrite Hs. by destruct (last tr); split_and!.
    + destruct (last tr); [|done]. intros st nt [= <-]. rewrite Hs. by split_and!.
  - apply returns_bind. intros tr st nt. cbn. destruct (x_err tr); [done|]. intros ->.
    destruct t; cbn in *. subst. naive_solver.
Qed.

(** ** The book *)

Section Accounts.
(** The callers to follow, and the answers that were given before. *)
Context (W : nat -> Prop) (O : gmap nat (option MasterErr)).

Definition waiters (ts : list task) : list nat := omap t_done ts.

Record book (ts : list task) (outs : gmap nat (option MasterErr)) (n : nat) : Prop := mkBook {
  b_proper : Forall proper ts;
  b_nodup : NoDup (waiters ts);
  b_open ch : ch ∈ waiters ts -> outs !! ch = None /\ (ch < n)%nat;
  b_given ch : is_Some (outs !! ch) -> (ch < n)%nat;
  b_followed ch : W ch -> ch ∈ waiters ts \/ is_Some (outs !! ch);
  b_final : O ⊆ outs }.

Lemma book_perm ts ts' outs n : ts ≡ₚ ts' -> book ts outs n -> book ts' outs n.
Proof.
  intros Hp [H1 H2 H3 H4 H5 H6]. assert (Hw : waiters ts ≡ₚ waiters ts') by (unfold waiters; by rewrite Hp).
  split; [by rewrite <- Hp | by rewrite <- Hw | | done | | done].
  - intros ch. rewrite <- Hw. apply H3.
  - intros ch. rewrite <- Hw. apply H5.
Qed.

(** A task nobody waits for comes and goes. *)
Lemma book_add t ts outs n : proper t -> t_done t = None -> book ts outs n -> book (t :: ts) outs n.
Proof. intros Hp Hd [H1 H2 H3 H4 H5 H6]. split; unfold waiters in *; cbn; rewrite ?Hd; [by constructor | done..]. Qed.
Lemma book_drop t ts outs n : t_done t = None -> book (t :: ts) outs n -> book ts outs n.
Proof.
  intros Hd [H1 H2 H3 H4 H5 H6]. unfold waiters in *. cbn in *. rewrite Hd in *. apply Forall_cons in H1 as [_ H1]. by split.
Qed.
(** A task may change in what does not matter here. *)
Lemma book_same t t' ts outs n :
  shape t' = shape t -> t_done t' = t_done t -> book (t :: ts) outs n -> book (t' :: ts) outs n.
Proof.
  intros Hs Hd [H1 H2 H3 H4 H5 H6]. apply Forall_cons in H1 as [Ht H1]. unfold waiters in *. cbn in *. split; cbn; rewrite ?Hd; try done.
  constructor; [|done]. by eapply proper_shape.
Qed.
(** The caller of one task becomes the caller of another. *)
Lemma book_pass t nt ts outs n : proper nt -> t_done nt = None -> book (t :: ts) outs n ->
  book (with_done None t :: with_done (t_done t) nt :: ts) outs n.
Proof.
  intros Hp Hd [H1 H2 H3 H4 H5 H6]. apply Forall_cons in H1 as [Ht H1].
  split; unfold waiters in *; cbn in *; try done.
  constructor; [by apply (proper_shape t)|]. constructor; [by apply (proper_shape nt) | done].
Qed.
(** A caller is answered. *)
Definition answered (t : task) (err : option MasterErr) (outs : gmap nat (option MasterErr)) : gmap nat (option MasterErr) :=
  match t_done t with
  | None => outs
  | Some ch => match outs !! ch with None => <[ch := err]> outs | Some _ => outs end
  end.
Lemma book_answer t err ts outs n : book (t :: ts) outs n -> book ts (answered t err outs) n.
Proof.
  intros H. unfold answered. destruct (t_done t) as [ch|] eqn:Hd; [|by eapply book_drop].
  destruct H as [H1 H2 H3 H4 H5 H6]. apply Forall_cons in H1 as [Ht H1].
  unfold waiters in *. cbn in *. rewrite Hd in *. apply NoDup_cons in H2 as [Hn H2].
  destruct (H3 ch ltac:(set_solver)) as [Ho Hlt]. rewrite Ho. split; [done | done | | | |].
  - intros c Hc. destruct (H3 c ltac:(set_solver)). split; [|done]. rewrite lookup_insert_ne by (intros ->; done). done.
  - intros c. rewrite lookup_insert_is_Some. intros [<-|[_ Hc]]; [done | by apply H4].
  - intros c Hc. rewrite lookup_insert_is_Some. destruct (H5 c Hc) as [Hin|?]; [|destruct (decide (ch = c)); naive_solver].
    apply list_elem_of_In in Hin as [->|Hin]; [by right; left|]. left. by apply list_elem_of_In.
  - etransitivity; [exact H6|]. by apply insert_subseteq.
Qed.
(** A new caller. *)
Lemma book_call t ts outs n : proper t -> book ts outs n -> book (with_done (Some n) t :: ts) outs (S n).
Proof.
  intros Hp [H1 H2 H3 H4 H5 H6]. split; unfold waiters in *; cbn.
  - constructor; [by apply (proper_shape t) | done].
  - constructor; [|done]. intros Hn. destruct (H3 _ Hn). lia.
  - intros ch Hc. apply list_elem_of_In in Hc as [<-|Hc]; [|apply list_elem_of_In in Hc; destruct (H3 _ Hc); split; [done | lia]].
    split; [|lia]. destruct (outs !! n) eqn:E; [|done]. assert (n < n)%nat by (apply H4; by rewrite E). lia.
  - intros ch Hc. specialize (H4 _ Hc). lia.
  - intros ch Hc. destruct (H5 _ Hc) as [?|?]; [left; by constructor | by right].
  - done.
Qed.
End Accounts.
End Book.

(** ** The primitive operations *)

Section Primitives.
Context {Env : MasterEnvironment} {LL : LinkLayer} (R : relation state).

Lemma t_gets {HR : PreOrder R} {T} (f : Session -> T) : guarantees R (gets f).
Proof. intros st. cbn. reflexivity. Qed.
Lemma t_modify f :
  (forall st, R st (mkState (f (sess st)) (mem st) (wire st) (sent st) (heard st) (outcomes st) (channels st))) ->
  guarantees R (modify f).
Proof. intros H st. apply H. Qed.
Lemma g_run {T} (c : C T) :
  (forall st s, R st (mkState (sess st) s (wire st) (sent st) (heard st) (outcomes st) (channels st))) -> guarantees R (run c).
Proof. intros H st. unfold run. destruct (c (mem st)). apply H. Qed.
Lemma g_call_handler calls :
  (forall st, R st (mkState (sess st) (mem st) (wire st) (sent st) (heard st ++ calls) (outcomes st) (channels st))) ->
  guarantees R (call_handler calls).
Proof. intros H st. apply H. Qed.
Lemma g_Send frag :
  (forall st l x s, R st (mkState (set_stack l (sess st)) (mem st) x s (heard st) (outcomes st) (channels st))) ->
  guarantees R (Send frag).
Proof. intros H st. unfold Send. destruct (link_Send _ _ _) as [[l x] err]. apply H. Qed.
End Primitives.

Ltac by_parts := by_parts_with ltac:(first [apply t_gets | apply t_modify | apply g_run | apply g_call_handler | apply g_Send]).

Section Keeping.
Context {Env : MasterEnvironment} {LL : LinkLayer}.

(** What the book and the startup flag depend on. *)
Definition accounts (st : state) :=
  (sched (sess st), inflight (sess st), submit (sess st), startupActive (sess st), outcomes st, channels st).

Lemma bump_accounts c : guarantees (same accounts) (bump c).
Proof. unfold bump. by_parts. done. Qed.
Lemma now_accounts : guarantees (same accounts) now.
Proof. unfold now. by_parts. done. Qed.
#[local] Hint Resolve bump_accounts now_accounts : parts.
Lemma send_accounts frag : guarantees (same accounts) (send frag).
Proof. unfold send. by_parts; done. Qed.
#[local] Hint Resolve send_accounts : parts.
Lemma sendConfirm_accounts sq u : guarantees (same accounts) (sendConfirm sq u).
Proof. unfold sendConfirm. by_parts. Qed.
Lemma deliver_accounts frag u : guarantees (same accounts) (deliver frag u).
Proof. unfold deliver. by_parts; done. Qed.
Lemma securityReady_accounts sc : guarantees (same accounts) (securityReady sc).
Proof. unfold securityReady. by_parts; done. Qed.
Lemma run_accounts {T} (c : C T) : guarantees (same accounts) (run c).
Proof. by_parts. done. Qed.
#[local] Hint Resolve sendConfirm_accounts deliver_accounts securityReady_accounts run_accounts : parts.

(** ** The books of a session

    The tasks of a session are those handed over, those queued, the one in flight and, while
    an operation works on them, those in its hands. *)

Context (W : nat -> Prop) (O : gmap nat (option MasterErr)).

Definition working (st : state) : list task := q (sched (sess st)) ++ option_list (inflight (sess st)).
Definition held (hands : list task) (st : state) : list task := hands ++ submit (sess st) ++ working st.

Definition steps_of (ts : list task) : nat := length (filter (fun t => startup t = true) ts).

Record kept (hands : list task) (st : state) : Prop := mkKept {
  k_book : book W O (held hands st) (outcomes st) (channels st);
  k_submit : Forall (fun t => startup t = false) (submit (sess st)) }.
(** [steps] are the steps of the startup sequence in the hands of an operation. *)
Definition starting (steps : nat) (st : state) : Prop :=
  (steps + steps_of (working st))%nat = if startupActive (sess st) then 1%nat else 0%nat.

Definition step (t : task) : nat := if startup t then 1%nat else 0%nat.

Definition all_kept (steps : nat) (hands : list task) (st : state) : Prop := kept hands st /\ starting steps st.

Lemma all_kept_same k hands st st' : accounts st' = accounts st -> all_kept k hands st -> all_kept k hands st'.
Proof.
  unfold accounts. intros [= E1 E2 E3 E4 E5 E6] [[H1 H2] H3].
  split; [split|]; unfold held, starting, working in *; rewrite ?E1, ?E2, ?E3, ?E4, ?E5, ?E6 in *; done.
Qed.
(** An operation that leaves the accounts alone. *)
Lemma t_frame {T} k hands (m : M T) : guarantees (same accounts) m -> triple (all_kept k hands) m (fun _ => all_kept k hands).
Proof. intros Hm. eapply (t_same _ accounts); [exact Hm | apply all_kept_same]. Qed.
(** A task in the hands may change in what does not matter here. *)
Lemma all_kept_hand k t t' hands st : shape t' = shape t -> t_done t' = t_done t ->
  all_kept k (t :: hands) st -> all_kept k (t' :: hands) st.
Proof. intros Hs Hd [[Hb Hf] Hc]. split; [split; [|done]|done]. by apply (book_same _ _ t). Qed.
Lemma all_kept_proper k t hands st : all_kept k (t :: hands) st -> proper t.
Proof. intros [[Hb _] _]. apply b_proper in Hb. by apply Forall_cons in Hb as [? _]. Qed.

Lemma steps_of_cons t ts : steps_of (t :: ts) = ((if startup t then 1 else 0) + steps_of ts)%nat.
Proof. unfold steps_of. rewrite filter_cons. destruct (startup t); by repeat case_decide. Qed.
Lemma steps_of_app ts ts' : steps_of (ts ++ ts') = (steps_of ts + steps_of ts')%nat.
Proof. unfold steps_of. by rewrite filter_app, length_app. Qed.
Lemma steps_of_none ts : Forall (fun t => startup t = false) ts -> steps_of ts = 0%nat.
Proof. induction 1 as [|t ts Ht _ IH]; [done|]. by rewrite steps_of_cons, Ht, IH. Qed.
#[local] Instance steps_of_perm : Proper ((≡ₚ) ==> eq) steps_of.
Proof. intros ts ts' H. unfold steps_of. by rewrite H. Qed.

Lemma push_perm t s : q (push t s) ≡ₚ with_order (u64 (pushN s + 1)) t :: q s.
Proof.
  unfold push, heap_Push. cbn [q set_order task_item]. rewrite up_perm. symmetry. apply Permutation_cons_append.
Qed.

(** A task in the hands goes to the queue. *)
Lemma t_push k t hands : triple (all_kept (step t + k) (t :: hands)) (sched_push t) (fun _ => all_kept k hands).
Proof.
  intros st [[Hb Hs] Hc]. unfold sched_push, change_sched. cbn [fst snd].
  set (t' := with_order (u64 (pushN (sched (sess st)) + 1)) t).
  set (st' := mkState _ _ _ _ _ _ _).
  assert (Hw : working st' ≡ₚ t' :: working st) by (unfold working, st'; cbn [sess sched inflight set_sched]; by rewrite push_perm).
  split; [split; [|done]|].
  - apply (book_perm _ _ (t' :: held hands st)).
    { unfold held. rewrite Hw. change (submit (sess st')) with (submit (sess st)). solve_Permutation. }
    by apply (book_same _ _ t).
  - unfold starting in *. rewrite Hw. change (startupActive (sess st')) with (startupActive (sess st)).
    rewrite steps_of_cons in *. change (startup t') with (startup t). unfold step in *. lia.
Qed.
Lemma t_enqueue k t hands : triple (all_kept (step t + k) (t :: hands)) (enqueue t) (fun _ => all_kept k hands).
Proof.
  unfold enqueue. eapply t_bind; [apply t_frame; auto with parts|]. intros n. eapply t_weaken; [apply (t_push k (with_due n t) hands)| |done].
  intros st H. by apply (all_kept_hand _ t).
Qed.

(** A caller gets its answer. *)
Lemma t_finish k t hands err : triple (all_kept k (t :: hands)) (finish t err) (fun _ => all_kept k hands).
Proof.
  intros st [[Hb Hs] Hc]. pose proof (book_answer _ _ t err _ _ _ Hb) as Hb'. unfold finish, answered in *.
  destruct (t_done t) as [ch|]; by split; [split|].
Qed.

(** A periodic task leaves a copy in the queue that answers nobody. *)
Lemma t_repeat k t hands : triple (all_kept k (t :: hands))
  (when (0 <? t_period t) (n ← now; sched_push (with_done None (with_due (n + t_period t) t)))) (fun _ => all_kept k (t :: hands)).
Proof.
  apply t_when; [|done]. intros Hp. eapply t_bind; [apply t_frame; auto with parts|]. intros n.
  set (t' := with_done None (with_due (n + t_period t) t)).
  intros st H. pose proof (all_kept_proper _ _ _ _ H) as Ht. revert st H Ht.
  assert (Hs : proper t -> step t' = 0%nat).
  { intros Ht. unfold step. change (startup t') with (startup t). destruct (startup t) eqn:E; [|done].
    assert (t_period t = 0) by (destruct t; cbn in *; subst; naive_solver). lia. }
  intros st H Ht. specialize (Hs Ht). apply (t_push k t' (t :: hands)). rewrite Hs. destruct H as [[Hb Hf] Hc].
  split; [split; [|done]|done]. by apply book_add; [apply (proper_shape t)| |].
Qed.

(** A task ends, with its step of the startup sequence. *)
Lemma t_complete t err : (is_Some err \/ startup t = false \/ has_next t = false) ->
  triple (all_kept (step t) [t]) (completeTask t err) (fun _ => all_kept 0 []).
Proof.
  intros Hend. unfold completeTask. eapply (t_bind _ (fun _ => all_kept 0 [t])).
  { apply t_when.
    - intros Hb st [Hk Hc]. split; [by destruct Hk|]. apply andb_true_iff in Hb as [Hst _]. unfold starting, step in *. rewrite Hst in Hc.
      cbn. change (working _) with (working st). destruct (startupActive (sess st)); lia.
    - intros Hb st H. replace 0%nat with (step t); [done|]. unfold step. destruct (startup t); [|done].
      destruct Hend as [He|[He|He]]; [rewrite bool_decide_eq_true_2 in Hb by done|..]; try done. rewrite He in Hb. by rewrite orb_true_r in Hb. }
  intros []. eapply t_bind; [apply t_frame; auto with parts|]. intros []. eapply t_bind; [apply t_repeat|]. intros []. apply t_finish.
Qed.
(** A task ends and another goes on in its place. *)
Lemma t_complete_chained k t hands : has_next t = true ->
  triple (all_kept k (t :: hands)) (completeTask t None) (fun _ => all_kept k hands).
Proof.
  intros Hn. unfold completeTask. rewrite Hn. cbn [negb]. rewrite bool_decide_eq_false_2 by (intros [? [=]]).
  rewrite andb_false_r. cbn [when]. eapply (t_bind _ (fun _ => all_kept k (t :: hands))); [by apply t_ret|]. intros [].
  eapply t_bind; [apply t_frame; auto with parts|]. intros []. eapply t_bind; [apply t_repeat|]. intros []. apply t_finish.
Qed.

Lemma completeTask_inflight t err : guarantees (same (fun st => inflight (sess st))) (completeTask t err).
Proof.
  assert (Hp : forall t, guarantees (same (fun st => inflight (sess st))) (sched_push t)) by done.
  assert (Hn : guarantees (same (fun st => inflight (sess st))) now) by (unfold now; by_parts; done).
  unfold completeTask, bump, finish. by_parts; done.
Qed.

(** ** The task in flight *)

(** Nothing is in flight. *)
Definition free (k : nat) (hands : list task) (st : state) : Prop := all_kept k hands st /\ inflight (sess st) = None.
(** [t] is in flight. *)
Definition flies (t : task) (st : state) : Prop := all_kept 0 [] st /\ inflight (sess st) = Some t.

Lemma t_free {T} k hands (m : M T) : guarantees (same accounts) m -> triple (free k hands) m (fun _ => free k hands).
Proof.
  intros Hm. eapply (t_same _ accounts); [exact Hm|]. intros st st' E [H Hi]. split; [by eapply all_kept_same|].
  unfold accounts in E. congruence.
Qed.
Lemma t_flies {T} t (m : M T) : guarantees (same accounts) m -> triple (flies t) m (fun _ => flies t).
Proof.
  intros Hm. eapply (t_same _ accounts); [exact Hm|]. intros st st' E [H Hi]. split; [by eapply all_kept_same|].
  unfold accounts in E. congruence.
Qed.

Lemma working_none st : inflight (sess st) = None -> working st = q (sched (sess st)).
Proof. intros E. unfold working. rewrite E. apply app_nil_r. Qed.
Lemma working_some st t : inflight (sess st) = Some t -> working st ≡ₚ t :: q (sched (sess st)).
Proof. intros E. unfold working. rewrite E. cbn. symmetry. apply Permutation_cons_append. Qed.

Lemma t_take t : triple (flies t) (modify (set_inflight None)) (fun _ => free (step t) [t]).
Proof.
  intros st [[[Hb Hs] Hc] Hi]. pose proof (working_some _ _ Hi) as Hw. split; [|done]. split; [split; [|done]|].
  - eapply book_perm; [|exact Hb]. unfold held. rewrite Hw. unfold working. cbn. rewrite app_nil_r. solve_Permutation.
  - unfold starting in *. rewrite Hw, steps_of_cons in Hc. rewrite working_none by done. cbn. unfold step. lia.
Qed.
Lemma t_put t t' : shape t' = shape t -> t_done t' = t_done t ->
  triple (free (step t) [t]) (modify (set_inflight (Some t'))) (fun _ => flies t').
Proof.
  intros Hs Hd st [H Hi]. apply (all_kept_hand _ t t') in H; [|done..]. destruct H as [[Hb Hf] Hc]. split; [|done]. split; [split; [|done]|].
  - eapply book_perm; [|exact Hb]. unfold held. rewrite (working_none st) by done. unfold working. cbn. solve_Permutation.
  - unfold starting in *. rewrite working_none in Hc by done. erewrite working_some by reflexivity. rewrite steps_of_cons. cbn [fst sess modify set_inflight sched startupActive].
    unfold step in Hc. unfold shape in Hs. assert (startup t' = startup t) as -> by congruence. lia.
Qed.
Lemma t_keep t t' : shape t' = shape t -> t_done t' = t_done t ->
  triple (flies t) (modify (set_inflight (Some t'))) (fun _ => flies t').
Proof.
  intros Hs Hd st H. pose proof (t_take t st H) as H1. by apply (t_put t t' Hs Hd) in H1.
Qed.
Lemma t_extend t : triple (flies t) (extend_deadline t) (fun _ => all_kept 0 []).
Proof.
  unfold extend_deadline. eapply t_bind; [apply t_flies; auto with parts|]. intros n.
  eapply t_bind; [apply t_flies, t_gets; exact _|]. intros d. cbv zeta. eapply t_bind; [by apply (t_keep t)|]. intros [].
  apply t_ret. by intros st [H _].
Qed.

(** ** Sending *)

Lemma t_transmit t : triple (free (step t) [t]) (transmit t) (fun _ => all_kept 0 []).
Proof.
  assert (Hend : forall err, is_Some err -> triple (free (step t) [t]) (completeTask t err) (fun _ => all_kept 0 [])).
  { intros err He. eapply t_weaken; [apply t_complete; by left | by intros st [H _] | done]. }
  unfold transmit. eapply t_bind; [apply t_free; by_parts; done|]. intros [].
  eapply t_bind; [apply t_free, t_gets; exact _|]. intros sq.
  eapply t_bind; [apply t_free, t_gets; exact _|]. intros c.
  destruct (SetHeader _ _) as [b [e|]]; [by apply Hend|].
  eapply t_bind; [apply t_free; auto with parts|]. intros [b' [e|]]; [by apply Hend|].
  eapply t_bind; [apply t_free; by_parts|]. intros [].
  eapply t_bind; [apply t_free; auto with parts|]. intros [e|]; [by apply Hend|].
  set (t' := with_started false (with_seq sq t)). cbv zeta. eapply t_bind; [apply t_free; auto with parts|]. intros [].
  destruct (noResponse t' && _) eqn:En.
  - eapply (t_bind _ (fun _ => free (step t) [t])).
    { intros st [[[Hb Hs] Hc] Hi]. unfold modify. cbn [fst snd]. split; [|done]. split; [split|].
      - eapply book_perm; [|exact Hb]. unfold held, working. cbn. by rewrite Hi.
      - done.
      - unfold starting, working in *. cbn. by rewrite Hi in Hc. }
    intros []. intros st [H _]. apply (t_complete t' None); [|by apply (all_kept_hand _ t)]. right; left.
    pose proof (all_kept_proper _ _ _ _ H) as Hp. apply andb_true_iff in En as [En _].
    change (noResponse t') with (noResponse t) in En. change (startup t') with (startup t).
    destruct (startup t) eqn:Es; [|done]. destruct t; cbn in *; subst; naive_solver.
  - eapply t_bind; [apply t_free; auto with parts|]. intros n.
    eapply t_weaken; [by apply (t_put t (with_deadline (n + ResponseTimeout c) t')) | done | by intros ? st [H _]].
Qed.

Lemma t_sendTask t : triple (free (step t) [t]) (sendTask t) (fun _ => all_kept 0 []).
Proof.
  unfold sendTask. set (t' := with_failure None t). cbv zeta.
  assert (Ht : triple (free (step t) [t]) (transmit t') (fun _ => all_kept 0 [])).
  { eapply t_weaken; [apply (t_transmit t') | | done]. intros st [H Hi]. split; [by apply (all_kept_hand _ t) | done]. }
  eapply t_bind; [apply t_free, t_gets; exact _|]. intros c. destruct (SecureAuthentication c) as [sc|]; [|done].
  destruct (funcCode t' =? FuncAuthRequest); [done|].
  eapply t_bind; [apply t_free; auto with parts|]. intros [|]; [done|].
  eapply (t_bind _ (fun k st => free (step t) [with_failure None k] st /\ startup k = startup t)).
  - intros st [H Hi]. unfold run, newSessionKeysTask, mbind, M_bind, new_cell, mret, M_ret. cbn [fst snd]. split; [|done].
    split; [|done]. destruct H as [[Hb Hs] Hc]. split; [split; [|done]|done].
    set (k := with_failure None _). unfold held in *. cbn [app] in *. pose proof (b_proper _ _ _ _ _ Hb) as Hp.
    apply Forall_cons in Hp as [Hp _]. 
    apply (book_pass _ _ _ (with_done None k)) in Hb; [by apply book_drop in Hb | | done].
    apply (proper_shape k); [done|]. subst k t'. destruct t. cbn in *. naive_solver.
  - intros k st [H Hs]. apply (t_transmit (with_failure None k)). unfold step in *. cbn. by rewrite Hs.
Qed.

Lemma t_runDue : triple (all_kept 0 []) runDueTask (fun _ => all_kept 0 []).
Proof.
  intros st H. unfold runDueTask, mbind, M_bind, gets. destruct (inflight (sess st)) as [t|] eqn:Hi; [done|].
  destruct (peek (sched (sess st))) as [t|] eqn:Ep; [|done].
  destruct (now st) as [st1 n] eqn:En. pose proof (now_accounts st) as Hn. rewrite En in Hn. cbn [fst] in Hn.
  pose proof (all_kept_same _ _ _ _ Hn H) as H1. destruct (n <? t_due t); [done|].
  assert (E : sched (sess st1) = sched (sess st) /\ inflight (sess st1) = None) by (unfold same, accounts in Hn; split; congruence).
  destruct E as [E Hi1]. rewrite <- E in Ep. unfold change_sched. destruct (pop (sched (sess st1))) as [s' o] eqn:Epop.
  apply t_sendTask. split; [|done]. destruct H1 as [[Hb Hs] Hc].
  assert (Hp : q (sched (sess st1)) ≡ₚ t :: q s').
  { destruct (heap_Pop_perm _ _ Ep) as (q' & Eh & Hp). unfold pop in Epop. rewrite Eh in Epop.
    apply lookup_lt_Some in Ep. destruct (Nat.eqb_spec (length (q (sched (sess st1)))) 0); [lia|]. by injection Epop as <- <-. }
  split; [split; [|done]|].
  - eapply book_perm; [|exact Hb]. unfold held. rewrite !working_none by done. cbn. rewrite Hp. solve_Permutation.
  - unfold starting in *. rewrite working_none in * by done. cbn. rewrite Hp, steps_of_cons in Hc. unfold step. lia.
Qed.
(** ** The startup sequence *)

Definition plain (t : task) : Prop := next t = NoNext /\ t_period t = 0 /\ noResponse t = false /\ t_done t = None.

Lemma chain_steps_proper l : Forall plain l ->
  Forall (fun t => proper t /\ startup t = true /\ t_done t = None) (chain_steps l).
Proof.
  induction 1 as [|t l (Hn & Hp & Hr & Hd) _ IH]; [constructor|]. cbn [chain_steps]. constructor; [|done].
  destruct (chain_steps l) as [|n rest].
  - split_and!; [|done | done]. destruct t; cbn in *; subst. done.
  - apply Forall_cons in IH as [(Hpn & Hsn & Hdn) _]. split_and!; [|done | done]. destruct t; cbn in *; subst. done.
Qed.
Lemma startup_steps_plain c : Forall plain (startup_steps c).
Proof.
  unfold startup_steps. repeat apply Forall_app_2; [by repeat constructor|..].
  all: match goal with |- Forall _ (if ?b then _ else _) => destruct b end; by repeat constructor.
Qed.

(** Only tasks that repeat stay in the queue, and no step of a startup sequence does. *)
Lemma sched_clear_kept : triple (kept []) sched_clear (fun _ st => kept [] st /\ steps_of (q (sched (sess st))) = 0%nat).
Proof.
  intros st [Hb Hs]. unfold sched_clear, change_sched, mbind, M_bind, clear. cbn [fst snd].
  set (qs := q (sched (sess st))). destruct (heap_Init_ok (filter (fun t => 0 < period t) qs)) as [_ Hi].
  set (st1 := mkState _ _ _ _ _ _ _). set (ds := filter (fun t => ~ 0 < period t) qs).
  assert (Hp : qs ≡ₚ ds ++ filter (fun t => 0 < period t) qs)
    by (rewrite Permutation_app_comm; symmetry; apply filter_app_complement).
  assert (Hk : kept ds st1).
  { split; [|done]. eapply book_perm; [|exact Hb]. unfold held, working. cbn. fold qs. rewrite Hi, Hp at 1. solve_Permutation. }
  assert (H0 : steps_of (q (sched (sess st1))) = 0%nat).
  { cbn. rewrite Hi. apply steps_of_none, Forall_forall. intros t Ht. apply not_true_iff_false. intros Hst.
    apply list_elem_of_filter in Ht as [Hper Ht]. apply b_proper in Hb. rewrite Forall_forall in Hb.
    specialize (Hb t ltac:(unfold held, working; set_solver)). cbn in Hper. destruct t; cbn in *; subst. naive_solver lia. }
  clearbody st1 ds. clear Hp Hi Hb Hs. revert st1 Hk H0. induction ds as [|t ds IH]; intros st1 Hk H0; [done|].
  cbn [each]. unfold mbind, M_bind. destruct (finish t (Some ErrTaskFailed) st1) as [st2 []] eqn:E. apply IH.
  - pose proof (t_finish (step t) t ds (Some ErrTaskFailed)) as Hf. destruct Hk as [Hb Hs].
    pose proof (book_answer _ _ t (Some ErrTaskFailed) _ _ _ Hb) as Hb'. unfold finish, answered in *.
    destruct (t_done t); injection E as <-; by split.
  - unfold finish in E. destruct (t_done t); by injection E as <-.
Qed.

Lemma sched_clear_inflight : guarantees (same (fun st => inflight (sess st))) sched_clear.
Proof.
  unfold sched_clear. apply g_bind; [exact _ | intros st; unfold change_sched; by destruct (clear _)|]. intros ds. apply g_each; [exact _|].
  intros t st. unfold finish. by destruct (t_done t).
Qed.

Lemma t_startup : triple (fun st => kept [] st /\ steps_of (option_list (inflight (sess st))) = 0%nat)
  startupSequence (fun _ => all_kept 0 []).
Proof.
  intros st [Hk Hi]. unfold startupSequence, mbind at 1, M_bind at 1.
  pose proof (sched_clear_kept st Hk) as [Hk1 H0]. pose proof (sched_clear_inflight st) as Ei. unfold same in Ei.
  destruct (sched_clear st) as [st1 []]. cbn [fst] in *. unfold mbind, M_bind, gets. cbn [modify fst snd].
  pose proof (chain_steps_proper _ (startup_steps_plain (cfg (sess st1)))) as Hc.
  destruct (chain_steps (startup_steps (cfg (sess st1)))) as [|t rest] eqn:E; [discriminate E|].
  apply Forall_cons in Hc as [(Hp & Hs & Hd) _]. apply t_enqueue. destruct Hk1 as [Hb Hf]. split; [split; [|done]|].
  - by apply book_add.
  - unfold starting, step, working. cbn. rewrite Hs, steps_of_app, H0, Ei, Hi. done.
Qed.

Lemma t_observe iin : triple (all_kept 0 []) (observeIIN iin) (fun _ => all_kept 0 []).
Proof.
  unfold observeIIN. eapply t_bind; [apply t_frame; by_parts; done|]. intros [].
  eapply t_bind; [apply t_frame; by_parts; done|]. intros []. destruct (Has iin IINDeviceRestart); [|by apply t_ret].
  intros st H. unfold mbind, M_bind, gets. destruct (startupActive (sess st)) eqn:Ea; [done|].
  pose proof (bump_accounts RestartsSeen st) as Hb. destruct (bump RestartsSeen st) as [st1 []]. cbn [fst] in Hb.
  assert (Ea1 : startupActive (sess st1) = false) by (unfold same, accounts in Hb; congruence).
  apply t_startup. pose proof (all_kept_same _ _ _ _ Hb H) as [Hk Hc]. split; [done|].
  unfold starting, working in Hc. rewrite Ea1, steps_of_app in Hc. lia.
Qed.

(** ** Responses *)

Lemma t_inflight : triple (all_kept 0 []) (gets inflight)
  (fun o st => match o with Some t => flies t st | None => all_kept 0 [] st end).
Proof. intros st H. cbn. by destruct (inflight (sess st)) eqn:E. Qed.

Lemma t_abandon t e : triple (flies t) (abandon t e) (fun _ => all_kept 0 []).
Proof.
  unfold abandon. eapply t_bind; [apply t_take|]. intros [].
  eapply t_weaken; [apply (t_complete t (Some e)); by left | by intros st [H _] | done].
Qed.

Lemma t_finishResponse t iin : triple (flies t) (finishResponse t iin) (fun _ => all_kept 0 []).
Proof.
  unfold finishResponse. eapply t_bind; [apply t_take|]. intros [].
  eapply (t_bind _ (fun _ => free (step t) [t])).
  { destruct (onDone t); [apply t_free; auto with parts | by apply t_ret]. }
  intros []. destruct (failure t) as [e|].
  { eapply t_weaken; [apply (t_complete t (Some e)); by left | by intros st [H _] | done]. }
  intros st [H Hi]. pose proof (all_kept_proper _ _ _ _ H) as Hp. unfold mbind at 1, M_bind at 1.
  pose proof (run_accounts (run_next (next t)) st) as Ha. pose proof (run_next_proper t Hp (mem st)) as Hn.
  unfold run in *. destruct (run_next (next t) (mem st)) as [s' o] eqn:Er. cbn [fst snd] in *.
  set (st1 := mkState _ _ _ _ _ _ _) in *. pose proof (all_kept_same _ _ _ _ Ha H) as H1. clearbody st1.
  assert (Hi1 : inflight (sess st1) = None) by (unfold same, accounts in Ha; congruence).
  destruct o as [nt|].
  - destruct (Hn nt eq_refl) as (Hpn & Hsn & Hdn).
    assert (Hnx : has_next (with_done None t) = true).
    { unfold has_next. cbn. destruct (next t); try done. }
    unfold mbind, M_bind. destruct (completeTask (with_done None t) None st1) as [st2 []] eqn:Ec.
    assert (H2 : all_kept (step t) [with_done None t; with_done (t_done t) nt] st1).
    { destruct H1 as [[Hb Hs] Hc]. split; [split; [|done]|done]. unfold held in *. cbn [app] in *. by apply book_pass. }
    apply (t_complete_chained _ _ _ Hnx) in H2. rewrite Ec in H2. cbn [fst snd] in H2.
    apply t_sendTask. split; [unfold step in *; cbn; by rewrite Hsn|].
    pose proof (completeTask_inflight (with_done None t) None st1) as Hci. rewrite Ec in Hci. by rewrite <- Hi1.
  - apply (t_complete t None); [|done]. destruct (startup t) eqn:Es; [|by right; left]. right; right. unfold has_next.
    pose proof (proper_next t Hp) as Hx.
    destruct (next t); try done; try congruence.
Qed.

Lemma t_onSolicited frag : triple (all_kept 0 []) (onSolicited frag) (fun _ => all_kept 0 []).
Proof.
  unfold onSolicited. set (c := HControl (FHeader frag)). cbv zeta. eapply t_bind; [apply t_inflight|].
  intros [t|]; [|by apply t_ret].
  destruct (stands t c).
  - apply t_ret. by intros st [H _].
  - eapply t_bind; [apply t_flies; auto with parts|]. intros []. eapply t_bind; [apply t_flies; by_parts|]. intros [].
    eapply t_bind; [apply t_extend|]. intros ?. by apply t_ret.
  - set (t1 := with_respSeq (Seq c) (with_started true t)). cbv zeta.
    eapply t_bind; [by apply (t_keep t t1)|]. intros []. eapply t_bind; [apply t_flies; auto with parts|]. intros [].
    eapply (t_bind _ (fun _ => flies t1)); [destruct (onFragment t1); [apply t_flies; auto with parts | by apply t_ret]|]. intros e.
    set (t2 := match e with Some _ => _ | None => _ end).
    eapply t_bind; [apply (t_keep t1 t2); by destruct e|]. intros []. eapply t_bind; [apply t_flies; by_parts|]. intros [].
    destruct (negb (Fin c)); [|apply t_finishResponse]. eapply t_bind; [apply t_extend|]. intros ?. by apply t_ret.
Qed.

Lemma t_onUnsolicited frag : triple (all_kept 0 []) (onUnsolicited frag) (fun _ => all_kept 0 []).
Proof. apply t_frame. unfold onUnsolicited. by_parts; done. Qed.

Lemma t_onAuthentication f : triple (all_kept 0 []) (onAuthenticationResponse f) (fun _ => all_kept 0 []).
Proof.
  unfold onAuthenticationResponse. set (c := HControl (FHeader f)). cbv zeta.
  eapply t_bind; [apply t_frame, t_gets; exact _|]. intros conf. eapply t_bind; [apply t_inflight|]. intros o.
  destruct (SecureAuthentication conf) as [sc|]; [|destruct o; apply t_ret; [by intros st [H _] | done]].
  destruct o as [t|]; [|by apply t_ret]. destruct (_ || _ || _ || _); [apply t_ret; by intros st [H _]|].
  destruct (funcCode t =? FuncAuthRequest). { eapply t_weaken; [apply t_onSolicited | by intros st [H _] | done]. }
  destruct (singleAuthObject f 1); [|apply t_abandon]. destruct (FirstFreeFormatObject _); [|apply t_abandon].
  destruct (ParseAuthChallenge _); [|apply t_abandon]. eapply t_bind; [apply t_flies; auto with parts|]. intros ready.
  destruct (_ || _ || _ || _ || _); [apply t_abandon|]. eapply t_bind; [apply t_flies; auto with parts|]. intros sec.
  eapply t_bind; [apply t_flies; auto with parts|]. intros [e|]; [apply t_abandon|].
  eapply t_bind; [apply t_flies; auto with parts|]. intros []. destruct (noResponse t) eqn:En.
  - eapply t_bind; [apply t_take|]. intros []. intros st [H _]. apply (t_complete t None); [|done]. right; left.
    pose proof (all_kept_proper _ _ _ _ H). destruct (startup t) eqn:Es; [|done]. destruct t; cbn in *; subst; naive_solver.
  - eapply t_bind; [apply t_extend|]. intros ?. by apply t_ret.
Qed.

Lemma t_received r : triple (all_kept 0 []) (on_received r) (fun _ => all_kept 0 []).
Proof.
  unfold on_received. eapply t_bind; [apply t_frame; auto with parts|]. intros [].
  destruct (ParseFragment None (RFragment r)) as [frag [e|]].
  - eapply t_bind; [apply t_frame; auto with parts|]. intros []. eapply t_bind; [apply t_inflight|]. intros [t|]; [|by apply t_ret].
    destruct (ParseHeader _) as [[h n]|]; [|apply t_ret; by intros st [H _]].
    destruct (_ && _); [apply t_abandon | apply t_ret; by intros st [H _]].
  - eapply t_bind; [apply t_frame, t_gets; exact _|]. intros secure. destruct (negb _); [by apply t_ret|].
    destruct (_ && _); [apply t_onAuthentication|]. destruct (negb _); [apply t_frame; auto with parts|].
    eapply t_bind; [apply t_observe|]. intros []. destruct (_ =? _); [apply t_onUnsolicited | apply t_onSolicited].
Qed.

(** ** Time *)

Lemma t_checkTimeout : triple (all_kept 0 []) checkTimeout (fun _ => all_kept 0 []).
Proof.
  unfold checkTimeout. eapply t_bind; [apply t_inflight|]. intros [t|]; [|by apply t_ret].
  eapply t_bind; [apply t_flies; auto with parts|]. intros n. destruct (n <? deadline t); [apply t_ret; by intros st [H _]|].
  eapply t_bind; [apply t_take|]. intros []. eapply t_bind; [apply t_free; auto with parts|]. intros [].
  eapply t_weaken; [apply (t_complete t (Some ErrTimeout)); by left | by intros st [H _] | done].
Qed.
Lemma t_failInflight e : triple (all_kept 0 []) (failInflight (Some e)) (fun _ => all_kept 0 []).
Proof. unfold failInflight. eapply t_bind; [apply t_inflight|]. intros [t|]; [apply (t_abandon t e) | by apply t_ret]. Qed.
Lemma t_checkLinkTimeout : triple (all_kept 0 []) checkLinkTimeout (fun _ => all_kept 0 []).
Proof.
  unfold checkLinkTimeout. eapply t_bind; [apply t_frame, t_gets; exact _|]. intros p. destruct (negb p); [by apply t_ret|].
  eapply t_bind; [apply t_frame; auto with parts|]. intros n. eapply t_bind; [apply t_frame, t_gets; exact _|]. intros s.
  destruct (n <? _); [by apply t_ret|].
  eapply t_bind; [apply t_frame; intros st; unfold link_timeout; by destruct (link_OnTimeout _ _) as [[[l x] fl] e]|]. intros [fl [e|]]; [by apply t_ret|].
  eapply t_bind; [apply t_frame; auto with parts|]. intros n'. eapply t_bind; [apply t_frame; by_parts; done|]. intros [].
  destruct fl; [|by apply t_ret]. eapply t_bind; [apply t_frame; by_parts; done|]. intros [].
  eapply t_bind; [apply t_failInflight|]. intros []. by apply t_ret.
Qed.
Lemma link_status_accounts : guarantees (same accounts) link_status_request.
Proof. intros st. unfold link_status_request. by destruct (link_SendLinkStatusRequest _ _) as [[l x] e]. Qed.
#[local] Hint Resolve link_status_accounts : parts.
Lemma t_checkKeepAlive : triple (all_kept 0 []) checkKeepAlive (fun _ => all_kept 0 []).
Proof. apply t_frame. unfold checkKeepAlive. by_parts; done. Qed.

(** ** What a session is asked to do *)

(** A task handed over. *)
Lemma hand_over_kept t st : proper t -> startup t = false -> t_done t = None -> all_kept 0 [] st -> all_kept 0 [] (hand_over t st).1.
Proof.
  intros Hp Hs Hd [[Hb Hf] Hc]. split; [split|done].
  - apply (book_perm _ _ (t :: held [] st)); [|by apply book_add]. unfold held, working. cbn. solve_Permutation.
  - cbn. apply Forall_app_2; [done | by constructor].
Qed.
Lemma t_run_task t vs : proper t -> startup t = false -> triple (all_kept 0 []) (run_task t vs) (fun _ => all_kept 0 []).
Proof.
  intros Hp Hs st [[Hb Hf] Hc]. split; [split|done].
  - apply (book_perm _ _ (with_done (Some (channels st)) t :: held [] st)); [|by apply book_call].
    unfold held, working. cbn. solve_Permutation.
  - cbn. apply Forall_app_2; [done | by constructor].
Qed.
End Keeping.

(** ** Connections

    A handler never opens or closes the connection. *)

Section Connection.
Context {Env : MasterEnvironment} {LL : LinkLayer} {WL : Walking}.

Definition up (st : state) : bool := connected (sess st).
Lemma same_up_eq st st' : up st' = up st -> same up st st'.
Proof. done. Qed.

Lemma change_sched_up {T} (f : scheduler task -> scheduler task * T) : guarantees (same up) (change_sched f).
Proof. intros st. unfold change_sched. by destruct (f _). Qed.
Lemma offer_up ch e : guarantees (same up) (offer ch e).
Proof. done. Qed.
Lemma link_timeout_up : guarantees (same up) link_timeout.
Proof. intros st. unfold link_timeout. by destruct (link_OnTimeout _ _) as [[[l x] fl] e]. Qed.
Lemma link_status_up : guarantees (same up) link_status_request.
Proof. intros st. unfold link_status_request. by destruct (link_SendLinkStatusRequest _ _) as [[l x] e]. Qed.
#[local] Hint Resolve change_sched_up offer_up link_timeout_up link_status_up : parts.
Ltac stays_up := by_parts; done.

Lemma send_up frag : guarantees (same up) (send frag).
Proof. unfold send, now. stays_up. Qed.
#[local] Hint Resolve send_up : parts.
Lemma completeTask_up t err : guarantees (same up) (completeTask t err).
Proof. unfold completeTask, bump, finish, sched_push, now. stays_up. Qed.
#[local] Hint Resolve completeTask_up : parts.
Lemma sched_clear_up : guarantees (same up) sched_clear.
Proof. unfold sched_clear, finish. stays_up. Qed.
Lemma enqueue_up t : guarantees (same up) (enqueue t).
Proof. unfold enqueue, sched_push, now. stays_up. Qed.
#[local] Hint Resolve sched_clear_up enqueue_up : parts.
Lemma startupSequence_up : guarantees (same up) startupSequence.
Proof. unfold startupSequence. stays_up. Qed.
Lemma transmit_up t : guarantees (same up) (transmit t).
Proof. unfold transmit, bump, now. stays_up. Qed.
#[local] Hint Resolve startupSequence_up transmit_up : parts.
Lemma sendTask_up t : guarantees (same up) (sendTask t).
Proof. unfold sendTask, securityReady, now. stays_up. Qed.
#[local] Hint Resolve sendTask_up : parts.
Lemma runDueTask_up : guarantees (same up) runDueTask.
Proof. unfold runDueTask, now. stays_up. Qed.
Lemma onSolicited_up f : guarantees (same up) (onSolicited f).
Proof. unfold onSolicited, finishResponse, extend_deadline, deliver, sendConfirm, bump, now. stays_up. Qed.
#[local] Hint Resolve onSolicited_up : parts.
Lemma on_received_up r : guarantees (same up) (on_received r).
Proof.
  unfold on_received, observeIIN, onUnsolicited, onAuthenticationResponse, abandon, deliver, sendConfirm, securityReady, extend_deadline, bump, now.
  stays_up.
Qed.

(** ** Every state of a session *)

Context (W : nat -> Prop) (O : gmap nat (option MasterErr)).

(** Nothing is in flight while there is no connection. *)
Record in_order (st : state) : Prop := mkInOrder {
  o_kept : all_kept W O 0 [] st;
  o_idle : connected (sess st) = false -> inflight (sess st) = None }.

Lemma with_stack_accounts l st : accounts (with_stack l st) = accounts st.
Proof. done. Qed.
Lemma receive_kept data : triple (fun st => all_kept W O 0 [] st /\ up st = true) (receive data)
  (fun _ st => all_kept W O 0 [] st /\ up st = true).
Proof.
  intros st H. unfold receive.
  pose proof (Receive_keeps state wire with_wire on_fragment (fun st => all_kept W O 0 [] st /\ up st = true) (stack (sess st)) st data) as HR.
  destruct (link_Receive _ _ _ _ _ _) as [[l st1] e]. destruct HR as [Hk1 Hu1]; [| |done|].
  { intros x s [Hk Hu]. split; [by apply (all_kept_same _ _ _ _ s) | done]. }
  2:{ split; [by apply (all_kept_same _ _ _ _ st1) | done]. }
  intros l1 s r [Hk Hu]. unfold on_fragment. cbn [snd]. split.
  - apply t_received. by apply (all_kept_same _ _ _ _ s).
  - pose proof (on_received_up r (with_stack l1 s)) as E. unfold same in E. rewrite E. exact Hu.
Qed.
Lemma on_data_kept data : triple (fun st => all_kept W O 0 [] st /\ up st = true) (on_data data)
  (fun _ st => all_kept W O 0 [] st /\ up st = true).
Proof.
  intros st [H Hu]. unfold on_data, mbind, M_bind.
  pose proof (now_accounts st) as Hn. assert (Hn' : guarantees (same up) now) by (unfold now; stays_up). specialize (Hn' st).
  destruct (now st) as [st1 n]. cbn [fst] in Hn, Hn'. cbn [modify].
  apply receive_kept. split; [by apply (all_kept_same _ _ _ _ st)|]. unfold same, up in *. cbn. congruence.
Qed.
Lemma on_timer_kept : triple (all_kept W O 0 []) on_timer (fun _ => all_kept W O 0 []).
Proof.
  unfold on_timer. eapply t_bind; [apply t_checkLinkTimeout|]. intros [|]; [by apply t_ret|].
  eapply t_bind; [apply t_frame, t_gets; exact _|]. intros [|].
  - eapply t_bind; [apply t_frame; by_parts; done|]. intros []. by apply t_ret.
  - eapply t_bind; [apply t_checkTimeout|]. intros []. eapply t_bind; [apply t_checkKeepAlive|]. intros []. by apply t_ret.
Qed.
Lemma on_timer_up : guarantees (same up) on_timer.
Proof. unfold on_timer, checkLinkTimeout, checkTimeout, checkKeepAlive, failInflight, bump, now. stays_up. Qed.

Lemma failInflight_idle e st : inflight (sess (failInflight e st).1) = None.
Proof.
  unfold failInflight, mbind, M_bind, gets. destruct (inflight (sess st)) as [t|] eqn:E; [|done]. cbn [modify].
  match goal with |- inflight (sess (completeTask t e ?s).1) = _ => pose proof (completeTask_inflight t e s) as H end.
  unfold same in H. by rewrite H.
Qed.
Lemma disconnect_in_order st : all_kept W O 0 [] st -> in_order (disconnect st).1.
Proof.
  intros H. unfold disconnect, setConnected, mbind, M_bind. cbn [modify]. split.
  - apply t_failInflight. by apply (all_kept_same _ _ _ _ st).
  - intros _. apply failInflight_idle.
Qed.
Lemma or_disconnect_in_order (m : M bool) st :
  all_kept W O 0 [] (m st).1 -> up (m st).1 = true -> in_order (or_disconnect m st).1.
Proof.
  intros H Hu. unfold or_disconnect, mbind, M_bind. destruct (m st) as [st1 [|]]; [|by apply disconnect_in_order].
  split; [done|]. unfold up in Hu. cbn in *. congruence.
Qed.

Lemma take_submitted_kept : triple (all_kept W O 0 []) take_submitted (fun _ => all_kept W O 0 []).
Proof.
  intros st H. unfold take_submitted, mbind at 1, M_bind at 1, gets.
  destruct (submit (sess st)) as [|t rest] eqn:E; [done|]. destruct H as [[Hb Hf] Hc]. rewrite E in Hf. unfold mbind, M_bind. cbn [modify]. apply Forall_cons in Hf as [Ht Hf].
  apply t_enqueue. unfold step. rewrite Ht. split; [split; [|done]|done].
  eapply book_perm; [|exact Hb]. unfold held. rewrite E. done.
Qed.
Lemma take_submitted_up : guarantees (same up) take_submitted.
Proof. unfold take_submitted. stays_up. Qed.

(** A call makes a task of its own, and nobody else is affected. *)
Lemma run_task_keeps t vs : proper t -> startup t = false -> guarantees (keeps (all_kept W O 0 [])) (run_task t vs).
Proof. intros Hp Hs st H. by apply t_run_task. Qed.
Lemma hand_over_keeps t : proper t -> startup t = false -> t_done t = None -> guarantees (keeps (all_kept W O 0 [])) (hand_over t).
Proof. intros Hp Hs Hd st H. by apply hand_over_kept. Qed.
Lemma quiet_keeps {T} (m : M T) : guarantees (same accounts) m -> guarantees (keeps (all_kept W O 0 [])) m.
Proof. intros Hm st H. eapply all_kept_same; [apply Hm | done]. Qed.
Ltac is_proper :=
  try match goal with |- context [match ?x with Some _ => newFileAuthTask _ _ _ | None => _ end] => destruct x
      | |- context [if ?b then newFileAbortTask _ else _] => destruct b end;
  solve [done | cbn; by split_and!].
#[local] Hint Extern 0 (guarantees (keeps _) (run_task _ _)) => apply run_task_keeps; is_proper : parts.
#[local] Hint Extern 0 (guarantees (keeps _) (hand_over _)) => apply hand_over_keeps; is_proper : parts.
#[local] Hint Extern 0 (guarantees (keeps _) (run _)) => apply quiet_keeps, run_accounts : parts.
#[local] Hint Extern 0 (guarantees (keeps _) now) => apply quiet_keeps, now_accounts : parts.
#[local] Hint Extern 0 (guarantees (keeps _) (modify _)) => apply quiet_keeps, t_modify; done : parts.

Lemma begin_kept c : guarantees (keeps (all_kept W O 0 [])) (begin c).
Proof.
  destruct c; cbn [begin].
  all: unfold ScanClasses, ScanRange, AddPeriodicScan, Restart, WriteTime, SyncTimeWithDelay, SyncTimeRecorded, FreezeCounters,
    FreezeAtTime, runChecked, WriteDeadband, EnableUnsolicited, DisableUnsolicited, DirectOperate, DirectOperateNoReply,
    SelectAndOperate, WriteAttribute, readAttributes, ReadFile, WriteFile, DeleteFile, new_transfer, FileInfo_request,
    AuthenticateFile, run_authenticated, nextRequestID, refuse.
  all: by_parts.
Qed.
Lemma begin_link c : guarantees (same (fun st => (connected (sess st), inflight (sess st)))) (begin c).
Proof.
  destruct c; cbn [begin].
  all: unfold ScanClasses, ScanRange, AddPeriodicScan, Restart, WriteTime, SyncTimeWithDelay, SyncTimeRecorded, FreezeCounters,
    FreezeAtTime, runChecked, WriteDeadband, EnableUnsolicited, DisableUnsolicited, DirectOperate, DirectOperateNoReply,
    SelectAndOperate, WriteAttribute, readAttributes, ReadFile, WriteFile, DeleteFile, new_transfer, FileInfo_request,
    AuthenticateFile, run_authenticated, nextRequestID, refuse, run_task, hand_over, now.
  all: by_parts; done.
Qed.
Lemma begin_in_order c st : in_order st -> in_order (begin c st).1.
Proof.
  intros [H Hi]. split; [by apply begin_kept|]. intros Hc. pose proof (begin_link c st) as HS. unfold same in HS.
  injection HS as E1 E2. rewrite E2. apply Hi. by rewrite <- E1.
Qed.

Lemma step_in_order st st' : master_step st st' -> in_order st -> in_order st'.
Proof.
  intros Hs [H Hi].
  assert (Hup : forall m : M unit, triple (all_kept W O 0 []) m (fun _ => all_kept W O 0 []) -> guarantees (same up) m ->
    up st = true -> in_order (m st).1).
  { intros m Hm Hg Hu. split; [by apply Hm|]. specialize (Hg st). unfold same, up in *. congruence. }
  destruct Hs as [st w x|st Hc|st Hc|st Hc|st data Hc|st Hc|st Hc|st c Hc].
  - split; [by apply (all_kept_same _ _ _ _ st) | done].
  - unfold connect, setConnected, mbind, M_bind, bump. cbn [modify].
    match goal with |- context [now ?s] => pose proof (now_accounts s) as Hn; assert (Hn' : guarantees (same up) now) by (unfold now; stays_up);
      specialize (Hn' s); destruct (now s) as [st1 n]; cbn [fst] in Hn, Hn' end.
    unfold run. cbn [set_security]. match goal with |- in_order (startupSequence ?s).1 => set (st2 := s) in * end.
    assert (Ha : accounts st2 = accounts st) by (unfold same, accounts in *; subst st2; cbn; rewrite Hn; done).
    assert (Hu : up st2 = true) by (unfold same, up in *; subst st2; cbn; by rewrite Hn').
    split.
    + apply t_startup. pose proof (all_kept_same _ _ _ _ _ _ Ha H) as [Hk _]. split; [done|].
      assert (inflight (sess st2) = inflight (sess st)) as -> by (unfold accounts in Ha; congruence). by rewrite (Hi Hc).
    + pose proof (startupSequence_up st2) as E. unfold same, up in *. congruence.
  - by apply Hup; [apply t_runDue | apply runDueTask_up |].
  - by apply Hup; [apply take_submitted_kept | apply take_submitted_up |].
  - by apply or_disconnect_in_order; apply on_data_kept.
  - apply or_disconnect_in_order; [by apply on_timer_kept|]. pose proof (on_timer_up st) as E. unfold same in E. by rewrite E.
  - by apply disconnect_in_order.
  - by apply begin_in_order.
Qed.
End Connection.

(** ** The theorems *)

Section Lives.
Context {Env : MasterEnvironment} {LL : LinkLayer} {WL : Walking}.

(** A caller waits: the task that will answer it is handed over, queued or in flight. *)
Definition waits (ch : nat) (st : state) : Prop := ch ∈ waiters (held [] st).

Lemma lives_in_order c k st : lives c k st -> in_order (fun _ => False) ∅ st.
Proof.
  induction 1 as [l w x|st st' _ IH Hs]; [|by eapply step_in_order].
  split; [|done]. split; [split; [|constructor]|done]. split; cbn; try done.
  - constructor.
  - intros ch Hc. by apply elem_of_nil in Hc.
  - intros ch. rewrite lookup_empty. by intros [? [=]].
Qed.
Lemma steps_in_order W O st st' : rtc master_step st st' -> in_order W O st -> in_order W O st'.
Proof. induction 1 as [|st st1 st' Hs _ IH]; [done|]. intros H. by apply IH, (step_in_order _ _ st). Qed.
(** From any point on, the callers that wait there are followed, and the answers given stay. *)
Lemma in_order_from W O st : in_order W O st -> in_order (fun ch => waits ch st) (outcomes st) st.
Proof. intros [[[[H1 H2 H3 H4 H5 H6] Hf] Hc] Hi]. split; [|done]. split; [split; [|done]|done]. split; try done. by left. Qed.

(** C6. Every caller is answered once. Take any state of a life of a session in which a caller
    waits for a task. From then on, whatever happens, either the caller still waits and its
    task is held by the session (submitted, queued, in flight, or next in a chain), or it has
    been given an outcome, which never changes and after which no task of the session will
    answer it again. *)
Theorem every_caller_answered_once c k st st' ch :
  lives c k st -> waits ch st -> rtc master_step st st' ->
  (waits ch st' /\ outcomes st' !! ch = None) \/
  (~ waits ch st' /\ exists err, forall st'', rtc master_step st' st'' -> outcomes st'' !! ch = Some err /\ ~ waits ch st'').
Proof.
  intros Hl Hw Hs. pose proof (in_order_from _ _ _ (lives_in_order _ _ _ Hl)) as H0.
  pose proof (steps_in_order _ _ _ _ Hs H0) as H1. pose proof (in_order_from _ _ _ H1) as H2.
  pose proof (k_book _ _ _ _ (proj1 (o_kept _ _ _ H1))) as [_ _ Hopen _ Hfol _].
  destruct (Hfol ch Hw) as [Hin|[err He]]; [left; split; [done | by apply Hopen]|]. right.
  assert (Hn : forall s, in_order (fun ch => waits ch st') (outcomes st') s -> outcomes s !! ch = Some err /\ ~ waits ch s).
  { intros s Hk. pose proof (k_book _ _ _ _ (proj1 (o_kept _ _ _ Hk))) as [_ _ Hopen' _ _ Hfin].
    pose proof (lookup_weaken _ _ _ _ He Hfin) as E. split; [done|]. intros Hx. destruct (Hopen' _ Hx). congruence. }
  split; [by apply Hn|]. exists err. intros st'' Hs'. apply Hn. by eapply steps_in_order.
Qed.

(** C27. The startup flag is exact. In every state of a life of a session, of the tasks in
    the queue and in flight one is a step of the startup sequence if startupActive is set,
    and none otherwise: no second sequence is started beside one that runs, and none is
    suppressed when none runs. *)
Theorem startup_flag_exact c k st : lives c k st ->
  steps_of (q (sched (sess st)) ++ option_list (inflight (sess st))) = (if startupActive (sess st) then 1 else 0)%nat.
Proof. intros Hl. apply lives_in_order in Hl as [[_ Hc] _]. exact Hc. Qed.
End Lives.
