(* ===== verification/MasterCommands.v ===== *)
(** * Controls from end to end (src/master/command.go, src/outstation/command.go)

    A master's request as the outstation takes it, and the outstation's response as the master
    reads it: every control is carried out, in order, at the point it names, and the status
    the caller gets for it is the one the outstation recorded. *)

From stdpp Require Import gmap.
From S2P Require Import Prelude StateMonad LinkLayer Values AppHeader AppObject AppFragment Objects Codecs Dispatch Commands.
From S2P Require Import MasterState MasterTasks.

(** ** Lists cut into pieces of one size *)

Lemma len_concat {A} k (bs : list (list A)) : Forall (fun b => len b = k) bs -> len (concat bs) = len bs * k.
Proof. induction 1 as [|b bs Hb _ IH]; cbn [concat]; [done|]. rewrite len_app, len_cons, IH, Hb. lia. Qed.

Lemma concat_same {A} k (bs bs' : list (list A)) :
  0 < k -> Forall (fun b => len b = k) bs -> Forall (fun b => len b = k) bs' -> concat bs = concat bs' -> bs = bs'.
Proof.
  intros Hk H. revert bs'. induction H as [|b bs Hb H IH]; intros [|b' bs'] H' E; cbn [concat] in E; try done.
  - apply Forall_cons in H' as [Hb' _]. apply (f_equal len) in E. rewrite len_app, Hb' in E.
    pose proof (len_nonneg (concat bs')). rewrite len_nil in E. lia.
  - apply (f_equal len) in E. rewrite len_app, Hb in E. pose proof (len_nonneg (concat bs)). rewrite len_nil in E. lia.
  - apply Forall_cons in H' as [Hb' H']. apply app_inj_1 in E as [-> E]; [|unfold len in *; lia]. f_equal. by apply IH.
Qed.

(** ** Headers of commands *)

(** The two layouts a master uses. *)
Definition layout (wide : bool) : Z * Z := if wide then (PrefixIndex2, RangeCount16) else (PrefixIndex1, RangeCount8).
Definition index_octets (wide : bool) : Z := if wide then 2 else 1.
Definition commands_header (wide : bool) (g : Objects.GroupVar) (n : Z) (data : list Z) : ObjectHeader :=
  mkObjectHeader (GV_Group g) (GV_Variation g) (MakeQualifier (layout wide).1 (layout wide).2) (mkRange (layout wide).2 0 0 n) data 0 0.

Definition sized_as (g : Objects.GroupVar) (size : Z) : Prop := (GV_Group g, GV_Variation g, size) ∈ command_sizes.

Ltac by_sizes H :=
  unfold sized_as, command_sizes in H; rewrite !elem_of_cons, elem_of_nil in H;
  destruct H as [[= -> -> ->]|[[= -> -> ->]|[[= -> -> ->]|[[= -> -> ->]|[[= -> -> ->]|[]]]]]].

Lemma commands_header_ok wide g size n data :
  sized_as g size -> 0 < n <= 255 -> octets_ok data -> len data = n * (index_octets wide + size) ->
  object_ok DefaultSizer true (commands_header wide g n data).
Proof.
  intros Hs Hn Hd Hl. destruct g as [g v].
  assert (Hw : index_octets wide = 1 \/ index_octets wide = 2) by (destruct wide; cbn; lia).
  unfold sized_as in Hs. cbn [GV_Group GV_Variation] in Hs.
  assert (Hdl : objectDataLen DefaultSizer (commands_header wide (GV g v) n data) data true = Ok (len data)).
  { unfold objectDataLen. rewrite Hl. cbn [commands_header GV_Group GV_Variation Group Variation Qualifier ORange Spec AppObject.Count].
    by_sizes Hs.
    all: replace (IsSize _) with false by (by destruct wide); cbn [Z.eqb Pos.eqb andb negb].
    all: replace (_ =? RangeAllObjects) with false by (by destruct wide).
    all: rewrite (proj2 (Z.eqb_neq n 0)) by lia.
    all: match goal with |- context [DefaultSizer ?g ?v] =>
           let r := eval vm_compute in (DefaultSizer g v) in change (DefaultSizer g v) with r end.
    all: cbn [Z.eqb Z.ltb Z.compare Pos.compare Pos.compare_cont].
    all: match goal with |- context [negb (Z.rem ?a ?b =? 0)] => change (negb (Z.rem a b =? 0)) with false end; cbn iota beta.
    all: match goal with |- context [u64 ?b / 8] => let r := eval vm_compute in (u64 b / 8) in change (u64 b / 8) with r end.
    all: replace (IndexPrefix_Octets _) with (index_octets wide) by (by destruct wide).
    all: unfold checkFits, u64; rewrite (Z.mod_small (_ + _)) by lia; rewrite Z.mod_small by nia.
    all: rewrite <- Hl, Z.ltb_irrefl; done. }
  unfold object_ok. cbn [commands_header Group Variation Qualifier ORange Data Spec GV_Group GV_Variation].
  split; [by_sizes Hs; vm_compute; split; congruence|]. split; [by_sizes Hs; vm_compute; split; congruence|].
  split; [destruct wide; vm_compute; split; congruence|]. split; [by destruct wide|]. split; [by destruct wide|].
  split; [by destruct wide|]. split; [|done].
  unfold range_ok. cbn [Spec Start Stop AppObject.Count]. destruct wide; cbn; split_and!; try done; lia.
Qed.

(** What the master reads in such a header: the last octet of each object. *)
Definition last_octet (b : list Z) : Z := at_ b (len b - 1).

Lemma statuses_loop_blocks h size pl bs pre fuel i :
  0 < pl + size -> 0 < size -> 0 <= pl -> Forall (fun b => len b = pl + size) bs -> Data h = pre ++ concat bs ->
  ObjectHeader_Count h = i + len bs -> (length bs < fuel)%nat ->
  statuses_loop fuel h size pl i (len pre) = last_octet <$> bs.
Proof.
  intros Hk Hs Hp H. revert pre fuel i. induction H as [|b bs Hb H IH]; intros pre fuel i Hd Hc Hf.
  all: destruct fuel as [|fuel]; [cbn in Hf; lia|]; cbn [statuses_loop].
  - rewrite Hc, len_nil, Z.add_0_r, Z.leb_refl. done.
  - rewrite len_cons in Hc. pose proof (len_nonneg bs).
    rewrite (proj2 (Z.leb_gt _ _)) by lia. cbn [orb].
    assert (Hl : len (Data h) = len pre + (pl + size) + len (concat bs)).
    { rewrite Hd. cbn [concat]. rewrite !len_app, Hb. lia. }
    pose proof (len_nonneg (concat bs)). rewrite (proj2 (Z.ltb_ge _ _)) by lia.
    cbn [fmap list_fmap]. f_equal.
    + unfold last_octet. rewrite Hd. cbn [concat]. rewrite at_skip by lia.
      rewrite at_app_l by lia. f_equal. lia.
    + replace (len pre + pl + size) with (len (pre ++ b)) by (rewrite len_app, Hb; lia).
      apply IH; [|lia|cbn in Hf; lia]. by rewrite Hd, <- app_assoc.
Qed.

Lemma last_octet_written obj st : 0 < len obj -> last_octet (status_written obj st) = u8 st.
Proof.
  intros H. unfold last_octet, status_written, len in *. rewrite length_app, length_take. cbn [length].
  unfold at_. rewrite app_nth2 by (rewrite length_take; lia). rewrite length_take.
  by replace (Z.to_nat _ - _)%nat with 0%nat by lia.
Qed.
Lemma len_written obj st : 0 < len obj -> len (status_written obj st) = len obj.
Proof. intros H. unfold status_written, len in *. rewrite length_app, length_take. cbn [length]. lia. Qed.
Lemma last_octets_written objs sts : Forall (fun b => 0 < len b) objs -> length sts = length objs ->
  last_octet <$> zip_with status_written objs sts = u8 <$> sts.
Proof.
  intros H. revert sts. induction H as [|b objs Hb _ IH]; intros [|st sts] Hl; try done.
  cbn [zip_with fmap list_fmap]. rewrite last_octet_written by done. f_equal. apply IH. by injection Hl.
Qed.

(** ** One run of commands *)

(** A command as the constructors of the package make them: an object of its group and
    variation, for a point with a 16-bit index. *)
Definition command_ok (c : Command) : Prop :=
  sized_as (c_gv c) (len (c_data c)) /\ octets_ok (c_data c) /\ is_u16 (Index c).

Definition wide_run (cmds : list Command) : bool := existsb (fun c => 0xFF <? Index c) cmds.

Lemma run_header_eq g cmds : len cmds <= 255 ->
  run_header g cmds = commands_header (wide_run cmds) g (len cmds) (concat (command_object (wide_run cmds) <$> cmds)).
Proof.
  intros Hn. unfold run_header. fold (wide_run cmds). pose proof (len_nonneg cmds).
  rewrite u32_small by (unfold is_u32; lia). by destruct (wide_run cmds).
Qed.

Lemma sized_unique g size size' : sized_as g size -> sized_as g size' -> size = size'.
Proof.
  unfold sized_as. generalize (GV_Group g), (GV_Variation g). intros a b H H'.
  unfold command_sizes in *. rewrite !elem_of_cons, elem_of_nil in H, H'.
  destruct H as [[= -> -> ->]|[[= -> -> ->]|[[= -> -> ->]|[[= -> -> ->]|[[= -> -> ->]|[]]]]]];
  destruct H' as [[=]|[[=]|[[=]|[[=]|[[=]|[]]]]]]; congruence.
Qed.

Lemma sized_pos g size : sized_as g size -> 0 < size <= 11.
Proof. destruct g as [g v]. unfold sized_as. cbn [GV_Group GV_Variation]. intros H. by_sizes H; lia. Qed.
Lemma sized_command wide g size n data : sized_as g size -> command_size (commands_header wide g n data) = Some size.
Proof.
  destruct g as [g v]. intros H. unfold command_size. cbn [commands_header Group Variation GV_Group GV_Variation].
  unfold sized_as in H. cbn [GV_Group GV_Variation] in H. by by_sizes H.
Qed.

Lemma header_statuses_blocks wide g size bs off :
  sized_as g size -> Forall (fun b => len b = index_octets wide + size) bs ->
  header_statuses (located off (commands_header wide g (len bs) (concat bs))) = last_octet <$> bs.
Proof.
  intros Hs Hb. destruct g as [g v]. unfold header_statuses. cbn [located commands_header Group Variation GV_Group GV_Variation].
  set (h := located _ _).
  assert (Hp : 0 < size <= 11) by (by eapply sized_pos).
  assert (Hpl : prefix_len h = index_octets wide) by (by destruct wide).
  assert (Hi : 1 <= index_octets wide) by (destruct wide; cbn; lia).
  assert (Hloop : statuses_loop (S (length (Data h))) h size (prefix_len h) 0 0 = last_octet <$> bs).
  { rewrite Hpl. apply (statuses_loop_blocks h size (index_octets wide) bs []); try lia; try done.
    pose proof (len_concat _ _ Hb) as Hl. cbn [Data h located commands_header]. unfold len in *. nia. }
  revert Hloop. unfold sized_as in Hs. cbn [GV_Group GV_Variation] in Hs. by_sizes Hs; intros <-.
  all: by match goal with |- context [Lookup ?g] => let r := eval vm_compute in (Lookup g) in change (Lookup g) with r end.
Qed.

Lemma len_command_object wide c size : len (c_data c) = size -> len (command_object wide c) = index_octets wide + size.
Proof. intros H. unfold command_object. rewrite len_app, H. by destruct wide. Qed.

Lemma command_object_index wide c :
  is_u16 (Index c) -> (wide = false -> Index c <= 0xFF) -> readPrefix (command_object wide c) (index_octets wide) = Index c.
Proof.
  intros Hi Hw. unfold command_object, readPrefix, is_u16 in *. destruct wide; cbn [index_octets Z.eqb Pos.eqb].
  - change (Z.lor (u8 (Index c)) (Z.shiftl (u8 (Z.shiftr (Index c) 8)) 8) = Index c).
    rewrite lor_shiftl, shiftr_8 by first [exact (u8_ok (Index c)) | done].
    unfold u8. rewrite (Z.mod_small (Index c / 256)) by (split; [apply Z.div_pos; lia | apply Z.div_lt_upper_bound; lia]).
    change (2 ^ 8) with 256. pose proof (Z.div_mod (Index c) 256 ltac:(done)). lia.
  - cbn. apply u8_small. unfold octet_ok. specialize (Hw eq_refl). lia.
Qed.

Lemma command_objects_ok wide cmds size :
  Forall command_ok cmds -> Forall (fun c => len (c_data c) = size) cmds ->
  Forall (fun b => len b = index_octets wide + size) (command_object wide <$> cmds) /\
  octets_ok (concat (command_object wide <$> cmds)).
Proof.
  intros H Hs. split.
  - apply Forall_fmap. eapply Forall_impl; [exact Hs|]. intros c Hc. by apply len_command_object.
  - apply Forall_concat, Forall_fmap. eapply Forall_impl; [exact H|]. intros c (_ & Hd & _). cbn. unfold command_object.
    apply octets_ok_app. split; [|exact Hd]. destruct wide; repeat constructor; apply u8_ok.
Qed.

Lemma same_size g cmds : Forall command_ok cmds -> Forall (fun c => c_gv c = g) cmds -> cmds <> [] ->
  exists size, sized_as g size /\ Forall (fun c => len (c_data c) = size) cmds.
Proof.
  intros H Hg Hne. destruct cmds as [|c cmds]; [done|]. exists (len (c_data c)).
  pose proof H as [Hc _]%Forall_cons. pose proof Hg as [Eg _]%Forall_cons. destruct Hc as (Hc & _). rewrite Eg in Hc.
  split; [done|]. rewrite Forall_forall in H, Hg |- *. intros c' Hin. destruct (H c' Hin) as (Hs & _).
  rewrite (Hg c' Hin) in Hs. by eapply sized_unique.
Qed.

Lemma run_header_ok g cmds :
  Forall command_ok cmds -> Forall (fun c => c_gv c = g) cmds -> 0 < len cmds <= 255 ->
  object_ok DefaultSizer true (run_header g cmds) /\ is_command (run_header g cmds) = true.
Proof.
  intros H Hg Hn. destruct (same_size g cmds) as (size & Hs & Hd); [done..|by intros ->; destruct Hn|].
  destruct (command_objects_ok (wide_run cmds) cmds size H Hd) as [Hb Ho]. rewrite run_header_eq by lia. split.
  - eapply commands_header_ok; [done..|]. rewrite (len_concat _ _ Hb). unfold len. by rewrite length_fmap.
  - unfold is_command. rewrite (sized_command _ _ _ _ _ Hs). by destruct (wide_run cmds).
Qed.

(** What comes back for a run: a header the master reads the recorded statuses from. *)
Lemma run_header_echo g cmds e outs off :
  Forall command_ok cmds -> Forall (fun c => c_gv c = g) cmds -> 0 < len cmds <= 255 ->
  echo_of (run_header g cmds) e outs ->
  object_ok DefaultSizer true e /\ o_index <$> outs = Index <$> cmds /\
  header_statuses (located off e) = u8 <$> (o_status <$> outs).
Proof.
  intros H Hg Hn He. destruct (same_size g cmds) as (size & Hs & Hd); [done..|by intros ->; destruct Hn|].
  destruct (command_objects_ok (wide_run cmds) cmds size H Hd) as [Hb Ho].
  rewrite run_header_eq in He by lia. destruct He as (size' & objs & Hs' & Hc & Hf & Hl & Hi & ->).
  rewrite (sized_command _ _ _ _ _ Hs) in Hs'. injection Hs' as <-.
  set (w := wide_run cmds) in *. cbn [commands_header Data ObjectHeader_Count ORange Group Variation Qualifier] in *.
  replace (IndexPrefix_Octets _) with (index_octets w) in * by (by destruct w).
  assert (Hp : 0 < size) by (by eapply sized_pos).
  assert (Hw : 1 <= index_octets w) by (destruct w; cbn; lia).
  apply concat_same with (k := index_octets w + size) in Hc; [|lia|done..]. subst objs.
  assert (Hln : length outs = length cmds) by (unfold len, ObjectHeader_Count in Hl; cbn in Hl; lia).
  set (bs := zip_with status_written _ _).
  assert (Hbs : Forall (fun b => len b = index_octets w + size) bs).
  { apply Forall_zip_with_fst with (P := fun b => len b = index_octets w + size); [exact Hb|].
    apply Forall_true. intros st b Hlb. rewrite len_written; lia. }
  assert (Hlb : len bs = len cmds) by (unfold bs, len; rewrite length_zip_with, !length_fmap; lia).
  split; [|split].
  - change (object_ok DefaultSizer true (commands_header w g (len cmds) (concat bs))).
    eapply commands_header_ok; [done..| |by rewrite (len_concat _ _ Hbs), Hlb].
    apply Forall_concat, Forall_zip_with_fst with (P := octets_ok).
    + apply Forall_fmap. eapply Forall_impl; [exact H|]. intros c (_ & Hcd & _). cbn. unfold command_object.
      apply octets_ok_app. split; [|exact Hcd]. destruct w; repeat constructor; apply u8_ok.
    + apply Forall_true. intros st b Hob. unfold status_written. apply octets_ok_app. split; [by apply octets_ok_take|].
      repeat constructor; apply u8_ok.
  - rewrite Hi, <- list_fmap_compose. apply Forall_fmap_ext_1. rewrite Forall_forall in H |- *. intros c Hin. cbn.
    destruct (H c Hin) as (_ & _ & Hx). apply command_object_index; [done|]. intros Ew.
    assert (Hf' : (0xFF <? Index c) = false); [|bool_prop; lia].
    destruct (0xFF <? Index c) eqn:E; [|done]. enough (w = true) by congruence.
    apply existsb_exists. exists c. split; [by apply list_elem_of_In | done].
  - change (header_statuses (located off (commands_header w g (len cmds) (concat bs))) = u8 <$> (o_status <$> outs)).
    rewrite <- Hlb, (header_statuses_blocks _ _ size) by done. unfold bs.
    apply last_octets_written; [|by rewrite !length_fmap]. eapply Forall_impl; [exact Hb|]. intros b Hlb'. cbn in Hlb'. lia.
Qed.

(** ** A whole request *)

Lemma span_gv_spec g cmds : let '(a, b) := span_gv g cmds in cmds = a ++ b /\ Forall (fun c => c_gv c = g) a.
Proof.
  induction cmds as [|c cmds IH]; cbn [span_gv]; [done|]. case_decide as E; [|done].
  destruct (span_gv g cmds) as [a b]. destruct IH as [-> H]. split; [done|]. by constructor.
Qed.

(** The runs of a list of commands. *)
Lemma command_runs_spec fuel cmds : (length cmds <= fuel)%nat ->
  exists runs : list (Objects.GroupVar * list Command),
    command_runs fuel cmds = (fun r => run_header r.1 r.2) <$> runs /\ concat runs.*2 = cmds /\
    Forall (fun r => r.2 <> [] /\ Forall (fun c => c_gv c = r.1) r.2) runs.
Proof.
  revert cmds. induction fuel as [|fuel IH]; intros cmds Hf.
  { destruct cmds; [|cbn in Hf; lia]. by exists []. }
  destruct cmds as [|c cmds]; [by exists []|]. cbn [command_runs].
  pose proof (span_gv_spec (c_gv c) (c :: cmds)) as Hs. cbn [span_gv] in Hs |- *. rewrite decide_True in Hs |- * by done.
  destruct (span_gv (c_gv c) cmds) as [a b]. destruct Hs as [E Ha]. injection E as E. subst cmds.
  destruct (IH b) as (runs & -> & Hc & Hr). { cbn in Hf. rewrite length_app in Hf. lia. }
  exists ((c_gv c, c :: a) :: runs). split_and!; [done | cbn; by rewrite Hc |]. by constructor.
Qed.

Section Request.
Context {Env : MasterEnvironment} {LL : LinkLayer}.

Lemma add_objects_bytes hs b m b' : (add_objects hs b m).2 = (b', None) ->
  Bytes b' = Bytes b ++ encode_objects hs /\ (hs <> [] -> headerWritten b = true).
Proof.
  revert b. induction hs as [|h hs IH]; intros b E.
  { injection E as <-. unfold encode_objects. cbn. by rewrite app_nil_r. }
  cbn [add_objects] in E. unfold mbind, M_bind, add_object, AddObject in E.
  destruct (headerWritten b) eqn:Ew; cbn [negb] in E; [|done]. destruct (_ <? _) in E; [done|]. cbn in E.
  apply IH in E as [E _]. split; [|done]. rewrite E. cbn [Bytes b_buf]. rewrite AppendObjectHeader_dst.
  change (encode_objects (h :: hs)) with (AppendObjectHeader [] h ++ encode_objects hs). by rewrite <- app_assoc.
Qed.
End Request.

Lemma Forall3_runs (runs : list (Objects.GroupVar * list Command)) es outs off :
  Forall (fun r => Forall command_ok r.2) runs ->
  Forall (fun r => r.2 <> [] /\ Forall (fun c => c_gv c = r.1) r.2) runs -> Forall (fun r => len r.2 <= 255) runs ->
  Forall3 echo_of ((fun r => run_header r.1 r.2) <$> runs) es outs ->
  Forall (object_ok DefaultSizer true) es /\ o_index <$> concat outs = Index <$> concat runs.*2 /\
  concat (header_statuses <$> laid_out off es) = u8 <$> (o_status <$> concat outs).
Proof.
  intros Hc Hr Hl. revert es outs off. induction runs as [|[g a] runs IH]; intros es outs off H3.
  { inversion H3; subst. done. }
  apply Forall_cons in Hc as [Hc Hcs]. apply Forall_cons in Hr as [[Hne Hg] Hrs]. apply Forall_cons in Hl as [Hn Hls].
  cbn [fst snd] in *. cbn [fmap list_fmap] in H3. inversion H3 as [|h e o hs es' outs' He H3' E1 E2 E3]; subst.
  destruct (run_header_echo g a e o off Hc Hg) as (Ho & Hi & Hs); [|done|].
  { destruct a; [done|]. unfold len in *. cbn [length] in *. lia. }
  destruct (IH Hcs Hrs Hls es' outs' (off + ObjectHeader_Size e) H3') as (Hos & His & Hss).
  split_and!; [by constructor | |].
  - cbn [concat]. rewrite !fmap_app, Hi. cbn [fmap list_fmap concat]. by rewrite fmap_app, His.
  - cbn [laid_out fmap list_fmap concat]. rewrite Hs. setoid_rewrite Hss. by rewrite !fmap_app.
Qed.

Lemma control_request fc c : IsControl fc = true -> Header_IsResponse (mkHeader c fc 0) = false /\ octet_ok fc.
Proof.
  unfold IsControl, one_of. cbn [existsb]. rewrite !orb_true_iff, !Z.eqb_eq.
  intros [-> | [-> | [-> | [-> | H]]]]; [split; [done|vm_compute; split; congruence].. | discriminate H].
Qed.

Lemma runs_within (runs : list (Objects.GroupVar * list Command)) n :
  len (concat runs.*2) <= n -> Forall (fun r => len r.2 <= n) runs.
Proof.
  induction runs as [|r runs IH]; cbn [fmap list_fmap concat]; [constructor|]. rewrite len_app. intros H.
  pose proof (len_nonneg r.2). pose proof (len_nonneg (concat runs.*2)). constructor; [|apply IH]; lia.
Qed.

Lemma only_commands hs : Forall (fun h => is_command h = true) hs -> List.filter is_command hs = hs.
Proof. induction 1 as [|h hs H _ IH]; [done|]. cbn [List.filter]. by rewrite H, IH. Qed.
Lemma is_command_located off h : is_command (located off h) = is_command h.
Proof. done. Qed.
Lemma echo_of_located off h e outs : echo_of (located off h) e outs <-> echo_of h e outs.
Proof. done. Qed.
Lemma echoes_laid_out off hs es outs :
  Forall (fun h => is_command h = true) hs ->
  Forall3 echo_of (List.filter is_command (laid_out off hs)) es outs -> Forall3 echo_of hs es outs.
Proof.
  intros H. revert off es outs. induction H as [|h hs Hh _ IH]; intros off es outs; cbn [laid_out List.filter]; [done|].
  rewrite is_command_located, Hh. intros H3. inversion H3; subst. constructor; [done|]. by eapply IH.
Qed.

Lemma laid_out_ok sizer cd off hs : Forall (object_ok sizer cd) hs -> Forall (object_ok sizer cd) (laid_out off hs).
Proof. intros H. revert off. induction H as [|h hs Hh _ IH]; intros off; cbn [laid_out]; constructor; [exact Hh | apply IH]. Qed.

(** The caller is told of success exactly when there are statuses and all say so. *)
Lemma CommandResult_Err_None {Env : MasterEnvironment} {LL : LinkLayer} cmds l :
  CommandResult_Err cmds l = None <-> l <> [] /\ Forall (fun st => CommandStatus_OK st = true) l.
Proof.
  unfold CommandResult_Err, CommandResult_OK. destruct l as [|st l].
  { split; [done | by intros [? _]]. }
  rewrite len_cons. pose proof (len_nonneg l). rewrite (proj2 (Z.eqb_neq _ _)) by lia.
  destruct (forallb _ _) eqn:E.
  - rewrite forallb_forall in E. split; [intros _|done]. split; [done|]. apply Forall_forall. intros x Hx. by apply E, list_elem_of_In.
  - split; [done|]. intros [_ Hf]. rewrite Forall_forall in Hf. enough (forallb CommandStatus_OK (st :: l) = true) by congruence.
    apply forallb_forall. intros x Hx. by apply Hf, list_elem_of_In.
Qed.

(** C12. What the outstation made of each control is what the caller is told.  The request built
    for between 1 and 255 controls, each with the data of its variation and a 16-bit index,
    when it fits the fragment, is parsed and carried out by the outstation, one outcome for
    each control, in order; the response it echoes is read back as the statuses of those
    outcomes; and the result is without error exactly if every one of them succeeded. *)
Theorem controls_reported {Env : MasterEnvironment} {LL : LinkLayer} {W} (appl_Now : W -> W * Z) handler conf
    s w op st cmds max fc sq m b rc iin :
  cmds <> [] -> len cmds <= 255 -> Forall command_ok cmds -> IsControl fc = true -> 0 <= sq < 16 ->
  (buildCommands cmds (SetHeader (NewBuilder max) (mkHeader (mkControl true true false false sq) fc 0)).1 m).2 = (b, None) ->
  control_ok rc -> is_u16 iin ->
  exists frag s' w' body outs rfrag,
    ParseRequest None (Bytes b) = (frag, None) /\
    executeCommands appl_Now handler conf s w frag op st = Some (s', w', body, outs) /\
    o_index <$> outs = Index <$> cmds /\
    ParseFragment None (AppendHeader [] (mkHeader rc FuncResponse iin) ++ body) = (rfrag, None) /\
    parseCommandStatuses rfrag = u8 <$> (o_status <$> outs) /\
    (CommandResult_Err cmds (parseCommandStatuses rfrag) = None <->
     Forall (fun o => CommandStatus_OK (u8 (o_status o)) = true) outs).
Proof.
  intros Hne Hn Hok Hfc Hsq Hb Hrc Hiin. set (hdr := mkHeader _ fc 0) in *.
  destruct (control_request fc (mkControl true true false false sq) Hfc) as [Hreq Hfo].
  destruct (command_runs_spec (length cmds) cmds (le_n _)) as (runs & Er & Ec & Hr).
  unfold buildCommands in Hb. rewrite Er in Hb. set (hs := _ <$> runs) in Hb.
  assert (Hhs : hs <> []) by (intros E; apply fmap_nil_inv in E; subst runs; by subst cmds).
  apply add_objects_bytes in Hb as [Hb Hw]. specialize (Hw Hhs).
  assert (Hb0 : Bytes (SetHeader (NewBuilder max) hdr).1 = AppendHeader [] hdr).
  { unfold SetHeader in Hw |- *. cbn [NewBuilder headerWritten] in *. by destruct (_ <? _). }
  rewrite Hb0 in Hb.
  assert (Hcs : Forall (fun r => Forall command_ok r.2) runs).
  { subst cmds. apply Forall_concat in Hok. exact (proj1 (Forall_fmap snd (Forall command_ok) runs) Hok). }
  assert (Hls : Forall (fun r => len r.2 <= 255) runs) by (apply runs_within; by rewrite Ec).
  assert (Hhok : Forall (fun h => object_ok DefaultSizer true h /\ is_command h = true) hs).
  { apply Forall_fmap, Forall_forall. intros [g a] Hin. rewrite Forall_forall in Hcs, Hr, Hls.
    destruct (Hr _ Hin) as [Hx Hg]. apply run_header_ok; [by apply Hcs | done |]. specialize (Hls _ Hin). cbn [fst snd] in *.
    destruct a; [done|]. unfold len in *. cbn [length] in *. lia. }
  apply Forall_and in Hhok as [Hho Hhc].
  assert (Hobj : objects_ok None fc hs).
  { eapply Forall_impl; [exact Hho|]. intros h Hh. cbn beta in Hh |- *. by rewrite (control_carries _ _ Hfc). }
  assert (Hhdr : header_ok hdr) by (split_and!; try done; cbn; lia).
  assert (Hp : ParseRequest None (Bytes b) = (mkFragment hdr (laid_out (Header_Size hdr) hs) (Bytes b), None)).
  { unfold ParseRequest. rewrite Hb, ParseFragment_Append by done. cbn [FHeader]. unfold hdr at 1. by rewrite Hreq. }
  exists (mkFragment hdr (laid_out (Header_Size hdr) hs) (Bytes b)).
  destruct (command_headers_echo appl_Now handler conf fc op st (laid_out (Header_Size hdr) hs) (mkWalk s w 0 []) [])
    as (x' & es & outs & He & Ho & H3).
  { by apply laid_out_ok. }
  apply (echoes_laid_out _ _ _ _ Hhc) in H3.
  destruct (Forall3_runs runs es outs (Header_Size (mkHeader rc FuncResponse iin)) Hcs Hr Hls H3) as (Heo & Hei & Hes).
  exists (w_session x'), (w_world x'), (encode_objects es), (concat outs).
  exists (mkFragment (mkHeader rc FuncResponse iin) (laid_out (Header_Size (mkHeader rc FuncResponse iin)) es)
    (AppendHeader [] (mkHeader rc FuncResponse iin) ++ encode_objects es)).
  split_and!; [done | | | | |].
  - unfold executeCommands. cbn [FHeader Func hdr Objects]. rewrite He. cbn. by rewrite Ho.
  - by rewrite Hei, Ec.
  - apply ParseFragment_Append; [split_and!; cbn; try done; lia|]. exact Heo.
  - exact Hes.
  - unfold parseCommandStatuses. cbn [Objects]. rewrite Hes, CommandResult_Err_None, !Forall_fmap. split; [by intros [_ H]|].
    intros H. split; [|exact H]. intros E%fmap_nil_inv%fmap_nil_inv. apply Hne. rewrite E, Ec in Hei. by destruct cmds.
Qed.
