(* ===== verification/MasterOperate.v ===== *)
(** * Select before operate, on the master's side (src/master/command.go, session.go)

    The requests a master sends, in order: whatever it is asked to do and whatever happens on
    the way, an OPERATE is the next request after a SELECT with the same objects, and carries
    the next sequence number.  This is the half of the two-step control that the outstation's
    [operate_needs_select] leaves to the master. *)

From stdpp Require Import gmap.
From S2P Require Import Prelude StateMonad LinkFrame Stack LinkLayer TaskQueue Values Floats AppHeader AppObject AppFragment Objects Codecs.
From S2P Require Import CommandEvents FileObjects ExtObjects Dispatch Commands Crypto MasterState MasterTasks MasterFiles MasterSession MasterApi.
From S2P Require Import MasterInvariant MasterCommands.

Section Operate.
Context {Env : MasterEnvironment} {LL : LinkLayer}.

(** ** The log of requests *)

(** Confirmations and the messages of the key exchange go in between and use no sequence
    number of their own. *)
Definition is_request (frag : list Z) : bool := negb ((at_ frag 1 =? FuncConfirm) || (at_ frag 1 =? FuncAuthRequest)).
Definition requests (st : state) : list (list Z) := List.filter is_request (sent st).
Definition frag_seq (frag : list Z) : Z := Seq (ParseControl (at_ frag 0)).

(** [op] is what the outstation accepts after [sel]. *)
Definition follows (sel op : list Z) : Prop :=
  at_ sel 1 = FuncSelect /\ drop 2 op = drop 2 sel /\ frag_seq op = nextSeq (frag_seq sel).
Definition paired (log : list (list Z)) : Prop :=
  forall pre op post, log = pre ++ op :: post -> at_ op 1 = FuncOperate -> exists pre' sel, pre = pre' ++ [sel] /\ follows sel op.

Lemma paired_snoc log frag :
  paired log -> (at_ frag 1 = FuncOperate -> exists sel, list.last log = Some sel /\ follows sel frag) -> paired (log ++ [frag]).
Proof.
  intros Hl Hf pre op post E Ho. destruct post as [|x post] using rev_ind.
  - apply app_inj_tail in E as [<- <-]. destruct (Hf Ho) as (sel & Hs & Hw). apply last_Some in Hs as [pre' ->]. by exists pre', sel.
  - rewrite app_comm_cons, app_assoc in E. apply app_inj_tail in E as [-> _]. by eapply Hl.
Qed.
Definition logged (frag : list Z) (log : list (list Z)) : list (list Z) := if is_request frag then log ++ [frag] else log.

(** ** The tasks *)

(** What a task builds is put after what is there. *)
Definition adds (b : Builder) (m : C (Builder * option MasterErr)) : Prop :=
  returns (fun r => r.2 = None -> exists rest, Bytes r.1 = Bytes b ++ rest) m.

(** A task that is not on the way to an OPERATE, or is the SELECT before it. *)
Fixpoint fit (t : task) : Prop :=
  (funcCode t <> FuncOperate /\ forall b, adds b (build t b)) /\
  match next t with
  | Then nt | AuthNext _ (Some nt) => fit nt
  | ThenOperate cmds _ _ => funcCode t = FuncSelect /\ build t = buildCommands cmds
  | _ => True
  end.
(** An OPERATE of [cmds], perhaps after a key exchange. *)
Fixpoint due_operate (cmds : list Command) (t : task) : Prop :=
  t_period t = 0 /\ noResponse t = false /\
  ((funcCode t = FuncOperate /\ build t = buildCommands cmds /\ next t = NoNext) \/
   (funcCode t = FuncAuthRequest /\ (forall b, adds b (build t b)) /\ match next t with Then nt => due_operate cmds nt | _ => False end)).

Definition makeup (t : task) := (funcCode t, build t, next t, t_period t, noResponse t).
Lemma fit_makeup t t' : makeup t' = makeup t -> fit t -> fit t'.
Proof. destruct t, t'; cbn. by intros [= -> -> -> -> ->]. Qed.
Lemma due_makeup cmds t t' : makeup t' = makeup t -> due_operate cmds t -> due_operate cmds t'.
Proof. destruct t, t'; cbn. by intros [= -> -> -> -> ->]. Qed.

Definition command_request (fc sq : Z) (cmds : list Command) : list Z :=
  AppendHeader [] (mkHeader (mkControl true true false false sq) fc 0) ++ encode_objects (command_runs (length cmds) cmds).

Definition selected (sq : Z) (log : list (list Z)) (cmds : list Command) : Prop :=
  0 <= sq < 16 /\ list.last log = Some (command_request FuncSelect sq cmds).
(** What may be sent next, and what may be in flight. *)
Definition sendable (sq : Z) (log : list (list Z)) (t : task) : Prop :=
  fit t \/ exists cmds, due_operate cmds t /\ selected sq log cmds.
Definition flying (sq : Z) (log : list (list Z)) (t : task) : Prop :=
  (fit t /\ forall cmds a b, next t = ThenOperate cmds a b -> selected sq log cmds) \/
  exists cmds, due_operate cmds t /\ (funcCode t = FuncAuthRequest -> selected sq log cmds).

Lemma sendable_makeup sq log t t' : makeup t' = makeup t -> sendable sq log t -> sendable sq log t'.
Proof.
  intros E [H|(cmds & H & Hs)]; [left; by eapply fit_makeup | right; exists cmds; split; [by eapply due_makeup | done]].
Qed.
Lemma flying_makeup sq log t t' : makeup t' = makeup t -> flying sq log t -> flying sq log t'.
Proof.
  intros E H. assert (E1 : next t' = next t) by (unfold makeup in E; congruence).
  assert (E2 : funcCode t' = funcCode t) by (unfold makeup in E; congruence). unfold flying in *. rewrite E1, E2.
  destruct H as [[H Hs]|(cmds & H & Hs)]; [left; split; [by eapply fit_makeup | done]|].
  right. exists cmds. split; [by eapply due_makeup | done].
Qed.
Lemma flying_repeats sq log t : flying sq log t -> 0 < t_period t -> fit t.
Proof. intros [[H _]|(cmds & H & _)] Hp; [done|]. destruct t; cbn in *; lia. Qed.
Lemma sendable_repeats sq log t : sendable sq log t -> 0 < t_period t -> fit t.
Proof. intros [H|(cmds & H & _)] Hp; [done|]. destruct t; cbn in *; lia. Qed.

(** ** What the constructors build *)

Lemma adds_ret b : adds b (mret (b, None)).
Proof. intros st _. exists []. by rewrite app_nil_r. Qed.
Lemma adds_fail b b' e : adds b (mret (b', Some e)).
Proof. by intros st [=]. Qed.
Lemma adds_bind {T} b (m : C T) k : (forall v, adds b (k v)) -> adds b (m ≫= k).
Proof. apply returns_bind. Qed.
Lemma adds_object h b : adds b (add_object h b).
Proof.
  intros st. unfold add_object. destruct (AddObject b h) as [b' [e|]] eqn:E; cbn; [done|]. intros _.
  unfold AddObject in E. destruct (negb _); [done|]. destruct (_ <? _); [done|]. injection E as <-.
  cbn. rewrite AppendObjectHeader_dst. by eexists.
Qed.
Lemma adds_objects hs b : adds b (add_objects hs b).
Proof.
  intros st He. destruct (add_objects hs b st) as [st' [b' [e|]]] eqn:E; [done|]. cbn.
  destruct (add_objects_bytes hs b st b') as [-> _]; [by rewrite E|]. by eexists.
Qed.
Lemma adds_free_format g v o b : adds b (add_free_format g v o b).
Proof. unfold add_free_format. destruct (FreeFormat g v o); [apply adds_object | apply adds_fail]. Qed.
Lemma adds_keys c k after b : adds b (build (keyChangeTask c k after) b).
Proof.
  cbn [build keyChangeTask with_next with_startup with_onFragment new_task].
  apply adds_bind. intros [ctl|]; [|apply adds_fail]. apply adds_bind. intros [mon|]; [|apply adds_fail].
  apply adds_bind. intros v. destruct (Wrap _ _ _) as [wrapped|]; [|apply adds_fail].
  eapply returns_bind_post; [apply adds_free_format|]. intros [b' [e|]] H; [apply adds_fail|].
  apply adds_bind. intros []. apply returns_ret. done.
Qed.
Hint Resolve adds_ret adds_fail adds_object adds_objects adds_free_format adds_keys : parts.
Ltac reveal :=
  cbv beta iota zeta delta [fit build next funcCode with_failure with_onFragment with_onDone with_noResponse with_startup with_next with_period with_done
    new_task newClearRestartTask newUnsolicitedTask newScanTask newRangeScanTask newRestartTask newWriteTimeTask newWriteTimeObjectTask
    newWriteRecordedTimeTask newDelayMeasureTask newWriteDeadbandTask newFreezeTask newFreezeAtTimeTask newCommandTask
    newWriteAttributeTask newAttributeTask newFileOpenTask newFileReadTask newFileWriteTask newFileCloseTask newFileAbortTask
    newFileDeleteTask newFileInfoTask newFileAuthTask buildCommands add_nothing].
(** A constructor makes a fit task. *)
Ltac fits :=
  reveal;
  repeat match goal with
  | |- adds _ (_ ≫= _) => apply adds_bind; intros ?
  | |- adds _ (match ?x with _ => _ end) => destruct x
  | |- adds _ _ => solve [auto with parts]
  | |- forall b, adds b _ => intros ?
  | |- _ /\ _ => split
  | |- context [if ?x then _ else _] => destruct x
  | |- context [match ?x with _ => _ end] => destruct x
  | |- _ => done
  end.

(** A task that is neither a SELECT nor an OPERATE, with nothing after it. *)
Lemma fit_alone t : funcCode t <> FuncOperate -> (forall b, adds b (build t b)) -> match next t with FileNext _ _ | NoNext | ThenWriteTime _ _ _ | ThenWriteRecorded _ _ => True | _ => False end -> fit t.
Proof. intros H1 H2 H3. destruct t; cbn in *. split; [done|]. by destruct next. Qed.

Lemma fit_commands fc cmds r : fc <> FuncOperate -> fit (newCommandTask fc cmds r).
Proof. intros H. apply fit_alone; [done | | done]. intros b. apply adds_objects. Qed.
Lemma fit_steps c : Forall fit (startup_steps c).
Proof.
  unfold startup_steps. repeat apply Forall_app_2; [|destruct (DisableUnsolOnStartup c)|destruct (IntegrityOnStartup c)|destruct (negb _)].
  all: repeat constructor; try done; cbn; auto with parts.
Qed.
Lemma fit_chain l : Forall fit l -> Forall (fun t => next t = NoNext) l -> Forall fit (chain_steps l).
Proof.
  induction 1 as [|t l Ht _ IH]; intros Hn; [constructor|]. apply Forall_cons in Hn as [Hn Hns]. specialize (IH Hns).
  cbn [chain_steps]. constructor; [|done]. destruct t; cbn in *. subst next. destruct (chain_steps l) as [|n rest]; cbn; [done|].
  apply Forall_cons in IH as [IH _]. split; [apply Ht | exact IH].
Qed.
Lemma steps_alone c : Forall (fun t => next t = NoNext) (startup_steps c).
Proof. eapply Forall_impl; [apply startup_steps_plain|]. intros t H. apply H. Qed.

(** The key exchange before a task. *)
Lemma keys_sendable sq log c k t : sendable sq log t -> sendable sq log (keyStatusTask c k t).
Proof.
  assert (Hb : forall b, adds b (build (keyStatusTask c k t) b)).
  { intros b. cbn. destruct (_ || _); auto with parts. }
  assert (Hk : forall b, adds b (build (keyChangeTask c k (with_done None t)) b)) by auto with parts.
  intros [H|(cmds & H & Hs)].
  - left. split; [split; [done | exact Hb]|]. split; [split; [done | exact Hk]|]. exact (fit_makeup t (with_done None t) eq_refl H).
  - right. exists cmds. split; [|done]. split; [done|]. split; [done|]. right. split; [done|]. split; [exact Hb|].
    split; [done|]. split; [done|]. right. split; [done|]. split; [exact Hk|]. exact (due_makeup cmds t (with_done None t) eq_refl H).
Qed.

(** What follows a task in flight may be sent. *)
Lemma run_next_sendable sq log t : flying sq log t ->
  returns (fun o => forall nt, o = Some nt -> sendable sq log nt) (run_next (next t)).
Proof.
  intros H. unfold run_next. destruct (next t) as [|nt|cmds sel op|d s g|r j|x step|x after] eqn:E.
  - intros st nt [=].
  - intros st nt' [= <-]. destruct H as [[H _]|(cmds & H & Hs)]; destruct t; cbn in *; subst.
    + left. apply H.
    + right. exists cmds. destruct H as (_ & _ & [(_ & _ & [=])|(Ha & _ & H)]). split; [done | by apply Hs].
  - apply returns_bind. intros l st nt. cbn. destruct (CommandResult_OK l); [|done]. intros [= <-].
    destruct H as [[H Hs]|(cmds' & H & _)]; [|destruct t; cbn in *; subst; naive_solver].
    right. exists cmds. split; [|by eapply Hs]. split; [done|]. split; [done|]. by left.
  - do 4 (apply returns_bind; intros ?). intros st nt [= <-]. left. apply fit_alone; [done | intros b; cbn; auto with parts | done].
  - apply returns_bind. intros m st nt [= <-]. left. apply fit_alone; [done | intros b; cbn; auto with parts | done].
  - apply returns_bind. intros tr. destruct (x_err tr); [by intros st nt [=]|].
    assert (Hfile : forall t, funcCode t <> FuncOperate -> (forall b, adds b (build t b)) ->
      match next t with FileNext _ _ | NoNext => True | _ => False end -> sendable sq log t).
    { intros t' H1 H2 H3. left. apply fit_alone; [done..|]. by destruct (next t'). }
    assert (Hr : sendable sq log (newFileReadTask x)) by (apply Hfile; [done | intros b; apply adds_bind; intros ?; auto with parts | done]).
    assert (Hc : sendable sq log (newFileCloseTask x)) by (apply Hfile; [done | intros b; apply adds_bind; intros ?; auto with parts | done]).
    assert (Hw : returns (fun o => forall nt, o = Some nt -> sendable sq log nt) (writeStep x)).
    { unfold writeStep. apply returns_bind. intros tr'. destruct (src tr'); [|by intros st nt [=]].
      apply returns_bind. intros [buf err].
      assert (Hn : forall lst, sendable sq log (newFileWriteTask x buf lst))
        by (intros lst; apply Hfile; [done | intros b; apply adds_bind; intros ?; auto with parts | done]).
      destruct err as [[]|]; try (intros st nt [= <-]; apply Hn). all: apply returns_bind; intros ? st nt [=]. }
    destruct step; [| |done |].
    + by intros st nt [= <-].
    + intros st nt [= <-]. by destruct (last tr).
    + destruct (last tr); [|done]. by intros st nt [= <-].
  - apply returns_bind. intros tr st nt. cbn. destruct (x_err tr); [done|]. intros ->.
    destruct H as [[H _]|(cmds & H & Hs)]; destruct t; cbn in *; subst; [left; apply H | naive_solver].
Qed.

(** ** The invariant *)

(** What the invariant is about, and the invariant, with what is known of the sequence number,
    the log and the task in flight. *)
Definition view (st : state) := (requests st, q (sched (sess st)), submit (sess st), seq (sess st), inflight (sess st)).
Definition known := Z -> list (list Z) -> option task -> Prop.
Record orderly (F : known) (st : state) : Prop := mkOrderly {
  r_paired : paired (requests st);
  r_fit : Forall fit (q (sched (sess st)) ++ submit (sess st));
  r_known : F (seq (sess st)) (requests st) (inflight (sess st)) }.

Lemma orderly_view F st st' : view st' = view st -> orderly F st -> orderly F st'.
Proof. unfold view. intros [= E1 E2 E3 E4 E5] [H1 H2 H3]. split; [by rewrite E1 | by rewrite E2, E3 | by rewrite E1, E4, E5]. Qed.
Lemma orderly_weaken (F G : known) st : (forall sq log o, F sq log o -> G sq log o) -> orderly F st -> orderly G st.
Proof. intros H [H1 H2 H3]. split; auto. Qed.
Lemma r_frame {T} F (m : M T) : guarantees (same view) m -> triple (orderly F) m (fun _ => orderly F).
Proof. intros Hm. eapply (t_same _ view); [exact Hm | apply orderly_view]. Qed.
(** What is known may be used. *)
Lemma r_fact {T} (F : known) (m : M T) Q (P : Prop) : (forall sq log o, F sq log o -> P) -> (P -> triple (orderly F) m Q) -> triple (orderly F) m Q.
Proof. intros HP Hm st H. apply Hm; [|done]. destruct H. eauto. Qed.

Lemma r_pure {T} F (m : M T) Q (P : Prop) : (P -> triple (orderly F) m Q) -> triple (fun st => orderly F st /\ P) m Q.
Proof. intros Hm st [H HP]. by apply Hm. Qed.

Lemma bump_view c : guarantees (same view) (bump c).
Proof. unfold bump. by_parts. done. Qed.
Lemma run_view {T} (c : C T) : guarantees (same view) (run c).
Proof. by_parts. done. Qed.
Lemma now_view : guarantees (same view) now.
Proof. apply run_view. Qed.
Lemma deliver_view frag u : guarantees (same view) (deliver frag u).
Proof. unfold deliver, now. by_parts; done. Qed.
Lemma finish_view t err : guarantees (same view) (finish t err).
Proof. intros st. unfold finish. by destruct (t_done t). Qed.
#[local] Hint Resolve bump_view run_view now_view deliver_view finish_view : parts.
Lemma securityReady_view sc : guarantees (same view) (securityReady sc).
Proof. unfold securityReady. by_parts. Qed.
#[local] Hint Resolve securityReady_view : parts.

(** What is sent goes to the log if it is a request. *)
Lemma r_send F frag : (forall sq log o, F sq log o -> paired log -> paired (logged frag log)) ->
  triple (orderly F) (send frag) (fun err => orderly (fun sq log o =>
    match err with Some _ => F sq log o | None => exists log0, log = logged frag log0 /\ F sq log0 o end)).
Proof.
  intros Hp. unfold send, or_return.
  eapply (t_bind _ (fun err => orderly (fun sq log o =>
    match err with Some _ => F sq log o | None => exists log0, log = logged frag log0 /\ F sq log0 o end))).
  - intros st [H1 H2 H3]. unfold Send. destruct (link_Send _ _ _) as [[l x] [e|]]; [by split|]. cbn [fst snd fmap option_fmap option_map].
    assert (E : List.filter is_request (sent st ++ [frag]) = logged frag (requests st)).
    { rewrite List.filter_app. unfold logged. cbn. destruct (is_request frag); [done | by rewrite app_nil_r]. }
    split; unfold requests in *; cbn [sent sess set_stack seq inflight sched submit]; rewrite ?E; [by eapply Hp | done | by eexists].
  - intros [e|]; [by apply t_ret|]. eapply t_bind; [apply r_frame, t_gets; exact _|]. intros p.
    eapply t_bind; [apply r_frame; by_parts; done|]. intros []. by apply t_ret.
Qed.
Lemma send_view frag : is_request frag = false -> guarantees (same view) (send frag).
Proof.
  intros Hf. unfold send. apply g_or_return; [exact _| |by_parts; done]. intros st. unfold Send.
  destruct (link_Send _ _ _) as [[l x] [e|]]; [done|]. unfold same, view, requests. cbn. rewrite List.filter_app. cbn. by rewrite Hf, app_nil_r.
Qed.
Lemma sendConfirm_view sq u : guarantees (same view) (sendConfirm sq u).
Proof. unfold sendConfirm. apply g_bind; [exact _ | by apply send_view|]. by_parts. Qed.
#[local] Hint Resolve sendConfirm_view : parts.

Lemma r_push F t : fit t -> triple (orderly F) (sched_push t) (fun _ => orderly F).
Proof.
  intros Ht st [H1 H2 H3]. split; [done | | done]. unfold sched_push, change_sched. cbn [fst sess set_sched sched submit].
  rewrite push_perm. cbn. constructor; [by apply (fit_makeup t) | done].
Qed.
Lemma r_enqueue F t : fit t -> triple (orderly F) (enqueue t) (fun _ => orderly F).
Proof.
  intros Ht. unfold enqueue. eapply t_bind; [apply r_frame; auto with parts|]. intros n. apply r_push. by apply (fit_makeup t).
Qed.
Lemma r_complete F t err : (0 < t_period t -> fit t) -> triple (orderly F) (completeTask t err) (fun _ => orderly F).
Proof.
  intros Ht. unfold completeTask. eapply t_bind; [apply r_frame; by_parts; done|]. intros [].
  eapply t_bind; [apply r_frame; auto with parts|]. intros []. eapply (t_bind _ (fun _ => orderly F)); [|intros []; apply r_frame; auto with parts].
  apply t_when; [|done]. intros Hp%Z.ltb_lt. eapply t_bind; [apply r_frame; auto with parts|]. intros n. apply r_push.
  apply (fit_makeup t); [done | by apply Ht].
Qed.

(** ** Sending *)

Definition idle_for (t : task) : known := fun sq log o => o = None /\ sendable sq log t.
Definition flight : known := fun sq log o => match o with Some t => flying sq log t | None => True end.
Lemma idle_flight F t err : (forall sq log o, F sq log o -> o = None) -> (0 < t_period t -> fit t) ->
  triple (orderly F) (completeTask t err) (fun _ => orderly flight).
Proof.
  intros HF Ht. eapply t_weaken; [by apply r_complete | done|]. intros [] st. apply orderly_weaken.
  intros sq log o H. apply HF in H as ->. exact I.
Qed.

(** A task that has its sequence number, and the fragment it built. *)
Definition numbered (t : task) (sq : Z) (log : list (list Z)) : Prop :=
  (fit t /\ (funcCode t <> FuncAuthRequest -> 0 <= sq < 16)) \/
  exists cmds, due_operate cmds t /\ (funcCode t = FuncAuthRequest -> selected sq log cmds) /\
    (funcCode t = FuncOperate -> exists sq0, sq = nextSeq sq0 /\ selected sq0 log cmds).
Definition built (t : task) (sq : Z) (frag : list Z) : Prop := exists rest,
  frag = AppendHeader [] (mkHeader (mkControl true true false false sq) (funcCode t) 0) ++ rest /\
  forall cmds, build t = buildCommands cmds -> rest = encode_objects (command_runs (length cmds) cmds).

Lemma nextSeq_range sq : 0 <= nextSeq sq < 16.
Proof.
  unfold nextSeq, SeqModulus. pose proof (u8_ok (sq + 1)) as H. unfold octet_ok in H.
  rewrite Z.rem_mod_nonneg by lia. apply Z.mod_pos_bound. lia.
Qed.
Lemma numbers t sq log : sendable sq log t ->
  numbered t (if negb (funcCode t =? FuncAuthRequest) then nextSeq sq else sq) log.
Proof.
  intros H. destruct (Z.eqb_spec (funcCode t) FuncAuthRequest) as [E|E]; cbn [negb].
  - destruct H as [H|(cmds & H & Hs)]; [by left|]. right. exists cmds. split_and!; [done | done |]. rewrite E. by intros [=].
  - destruct H as [H|(cmds & H & Hs)]; [left; split; [done | intros _; apply nextSeq_range]|].
    right. exists cmds. split_and!; [done | done |]. intros _. by exists sq.
Qed.
Lemma numbered_repeats t sq log : numbered t sq log -> 0 < t_period t -> fit t.
Proof. intros [[H _]|(cmds & H & _)] Hp; [done|]. destruct t; cbn in *; lia. Qed.

Lemma header_func c fc rest : at_ (AppendHeader [] (mkHeader c fc 0) ++ rest) 1 = fc.
Proof. unfold AppendHeader. cbn. by destruct (Header_IsResponse _). Qed.
Lemma header_seq c fc rest : control_ok c -> frag_seq (AppendHeader [] (mkHeader c fc 0) ++ rest) = Seq c.
Proof.
  intros Hc. unfold frag_seq. replace (at_ _ 0) with (Control_Byte c); [by rewrite app_ParseControl_Byte|].
  unfold AppendHeader. cbn. by destruct (Header_IsResponse _).
Qed.
Lemma built_func t sq frag : built t sq frag -> at_ frag 1 = funcCode t.
Proof. intros (rest & -> & _). apply header_func. Qed.

Lemma follows_request sq cmds : 0 <= sq < 16 ->
  follows (command_request FuncSelect sq cmds) (command_request FuncOperate (nextSeq sq) cmds).
Proof.
  intros Hs. unfold command_request, follows. rewrite header_func, !header_seq; [|exact Hs|apply nextSeq_range].
  split_and!; [done | | done]. unfold AppendHeader. reflexivity.
Qed.

Lemma built_paired t sq frag log : built t sq frag -> numbered t sq log -> paired log -> paired (logged frag log).
Proof.
  intros Hb Hn Hp. unfold logged. destruct (is_request frag); [|done]. apply paired_snoc; [done|].
  rewrite (built_func _ _ _ Hb). intros Ho. destruct Hn as [[H _]|(cmds & H & _ & Hs)]; [destruct t; cbn in *; naive_solver|].
  destruct (Hs Ho) as (sq0 & -> & Hr & Hl). exists (command_request FuncSelect sq0 cmds). split; [done|].
  destruct Hb as (rest & -> & Hcmd). rewrite (Hcmd cmds).
  - rewrite Ho. by apply follows_request.
  - destruct t; cbn in *. naive_solver.
Qed.
(** A request that was sent is in flight as it should be. *)
Lemma built_flying t sq frag log : built t sq frag -> numbered t sq log -> flying sq (logged frag log) t.
Proof.
  intros Hb Hn. pose proof (built_func _ _ _ Hb) as Hf. destruct Hb as (rest & -> & Hcmd).
  destruct Hn as [[H Hr]|(cmds & H & Hs & _)]; [left; split; [done|] | right; exists cmds; split; [done|]].
  - intros cmds a b E. assert (Hsel : funcCode t = FuncSelect /\ build t = buildCommands cmds) by (destruct t; cbn in *; subst; apply H).
    destruct Hsel as [Hsel Hbuild]. unfold logged, is_request. rewrite Hf, Hsel. cbn.
    split; [apply Hr; by rewrite Hsel|]. rewrite last_snoc. unfold command_request. by rewrite (Hcmd cmds Hbuild).
  - intros Ha. unfold logged, is_request. rewrite Hf, Ha. cbn. by apply Hs.
Qed.

Lemma build_built t b sq m :
  Bytes b = AppendHeader [] (mkHeader (mkControl true true false false sq) (funcCode t) 0) ->
  (forall b, adds b (build t b)) \/ (exists cmds, build t = buildCommands cmds) ->
  (build t b m).2.2 = None -> built t sq (Bytes (build t b m).2.1).
Proof.
  intros Hb Hk He.
  assert (Hx : exists rest, Bytes (build t b m).2.1 = Bytes b ++ rest).
  { destruct Hk as [Hk|(cmds & E)]; [by apply Hk|]. rewrite E in *. by apply adds_objects. }
  destruct Hx as [rest Hx]. exists rest. split; [by rewrite Hx, Hb|]. intros cmds E. rewrite E in *. unfold buildCommands in *.
  destruct (add_objects _ b m) as [m' [b' e]] eqn:Ea. cbn [snd fst] in *. subst e.
  destruct (add_objects_bytes (command_runs (length cmds) cmds) b m b') as [Hy _]; [by rewrite Ea|].
  rewrite Hy in Hx. by apply app_inv_head in Hx.
Qed.
Lemma numbered_builds t sq log : numbered t sq log -> (forall b, adds b (build t b)) \/ (exists cmds, build t = buildCommands cmds).
Proof.
  intros [[H _]|(cmds & H & _)]; [left; destruct t; apply H|]. destruct t; cbn in *. destruct H as (_ & _ & [(_ & H & _)|(_ & H & _)]); eauto.
Qed.

Lemma r_transmit t : triple (orderly (idle_for t)) (transmit t) (fun _ => orderly flight).
Proof.
  unfold transmit.
  eapply (t_bind _ (fun _ => orderly (fun sq log o => o = None /\ numbered t sq log))).
  { intros st [H1 H2 [H3 H4]]. apply numbers in H4. unfold when, nextSeq in *.
    destruct (negb (funcCode t =? FuncAuthRequest)); (split; [done | done | by split]). }
  intros []. eapply (t_bind _ (fun v => orderly (fun sq log o => sq = v /\ o = None /\ numbered t sq log))).
  { intros st [H1 H2 H3]. by split. }
  intros sq. eapply t_bind; [apply r_frame, t_gets; exact _|]. intros c.
  apply (r_fact _ _ _ ((0 < t_period t -> fit t) /\ ((forall b, adds b (build t b)) \/ (exists cmds, build t = buildCommands cmds)))).
  { intros ? log o (_ & _ & H). split; [by eapply numbered_repeats | by eapply numbered_builds]. }
  intros [Hfit Hbuild].
  assert (Hend : forall F err, (forall sq log o, F sq log o -> o = None) -> triple (orderly F) (completeTask t err) (fun _ => orderly flight))
    by (intros F err HF; by apply idle_flight).
  destruct (SetHeader _ _) as [b [e|]] eqn:Eh; [apply Hend; naive_solver|].
  assert (Hb : Bytes b = AppendHeader [] (mkHeader (mkControl true true false false sq) (funcCode t) 0)).
  { unfold SetHeader in Eh. cbn [NewBuilder headerWritten b_buf] in Eh. destruct (_ <? _); [done|]. by injection Eh as <-. }
  eapply (t_bind _ (fun r st => orderly (fun sq' log o => sq' = sq /\ o = None /\ numbered t sq' log) st /\
    (r.2 = None -> built t sq (Bytes r.1)))).
  { intros st H. split; [by apply (r_frame _ _ (run_view _))|]. unfold run. pose proof (build_built t b sq (mem st) Hb Hbuild) as Hbb.
    by destruct (build t b (mem st)) as [m [b' e]]. }
  intros [b' [e|]]; cbn [fst snd]; apply r_pure; intros Hbb; [apply Hend; naive_solver|]. specialize (Hbb eq_refl).
  eapply t_bind; [apply r_frame; by_parts|]. intros [].
  eapply t_bind; [apply r_send|].
  { intros sq' log o (-> & _ & Hn). by eapply built_paired. }
  intros [e|]; [apply Hend; naive_solver|].
  set (t' := with_started false (with_seq sq t)). cbv zeta. eapply t_bind; [apply r_frame; auto with parts|]. intros [].
  destruct (noResponse t' && _).
  - eapply (t_bind _ (fun _ => orderly (fun _ _ o => o = None))); [intros st [H1 H2 H3]; by split|].
    intros []. apply idle_flight; [done|]. intros Hp. apply (fit_makeup t); [done | by apply Hfit].
  - eapply t_bind; [apply r_frame; auto with parts|]. intros n st [H1 H2 (log0 & Hl & Hsq & Ho & Hn)]. split; [done | done |].
    cbn [modify fst sess set_inflight seq inflight flight]. change (requests _) with (requests st).
    rewrite Hl, Hsq. apply (flying_makeup _ _ t); [done|]. rewrite Hsq in Hn. by apply built_flying.
Qed.

Lemma r_sendTask t : triple (orderly (idle_for t)) (sendTask t) (fun _ => orderly flight).
Proof.
  unfold sendTask. set (t' := with_failure None t). cbv zeta.
  assert (Ht : triple (orderly (idle_for t)) (transmit t') (fun _ => orderly flight)).
  { eapply t_weaken; [apply (r_transmit t') | | done]. intros st. apply orderly_weaken. intros sq log o [H1 H2].
    split; [done | by apply (sendable_makeup _ _ t)]. }
  eapply t_bind; [apply r_frame, t_gets; exact _|]. intros c. destruct (SecureAuthentication c) as [sc|]; [|done].
  destruct (funcCode t' =? FuncAuthRequest); [done|].
  eapply t_bind; [apply r_frame; auto with parts|]. intros [|]; [done|].
  eapply (t_bind _ (fun k => orderly (idle_for k))).
  - intros st H. pose proof (r_frame _ _ (run_view (newSessionKeysTask sc t')) st H) as H'. revert H'.
    unfold run, newSessionKeysTask, mbind, M_bind, new_cell, mret, M_ret. cbn [fst snd]. apply orderly_weaken.
    intros sq log o [H1 H2]. split; [done|]. apply keys_sendable. by apply (sendable_makeup _ _ t).
  - intros k. eapply t_weaken; [apply (r_transmit (with_failure None k)) | | done]. intros st. apply orderly_weaken.
    intros sq log o [H1 H2]. split; [done | by apply (sendable_makeup _ _ k)].
Qed.

Lemma r_runDue : triple (orderly flight) runDueTask (fun _ => orderly flight).
Proof.
  intros st H. unfold runDueTask, mbind, M_bind, gets. destruct (inflight (sess st)) as [t|] eqn:Hi; [done|].
  destruct (peek (sched (sess st))) as [t|] eqn:Ep; [|done].
  destruct (now st) as [st1 n] eqn:En. pose proof (now_view st) as Hn. rewrite En in Hn. cbn [fst] in Hn.
  pose proof (orderly_view _ _ _ Hn H) as H1. destruct (n <? t_due t); [done|].
  assert (E : sched (sess st1) = sched (sess st) /\ inflight (sess st1) = None).
  { unfold now, run in En. destruct (ask time_Now (mem st)). by injection En as <- <-. }
  destruct E as [E Hi1]. rewrite <- E in Ep. unfold change_sched. destruct (pop (sched (sess st1))) as [s' o] eqn:Epop.
  apply r_sendTask. destruct H1 as [Hp Hf Hk].
  assert (Hq : q (sched (sess st1)) ≡ₚ t :: q s').
  { destruct (heap_Pop_perm _ _ Ep) as (q' & Eh & Hq). unfold pop in Epop. rewrite Eh in Epop.
    apply lookup_lt_Some in Ep. destruct (Nat.eqb_spec (length (q (sched (sess st1)))) 0); [lia|]. by injection Epop as <- <-. }
  rewrite Hq in Hf. apply Forall_cons in Hf as [Ht Hf]. split; [done | exact Hf |]. split; [done | by left].
Qed.

(** ** Receiving *)

Lemma r_idle_taken F : triple (orderly F) (modify (set_inflight None)) (fun _ => orderly (fun sq log o => o = None /\ exists o', F sq log o')).
Proof. intros st [H1 H2 H3]. split; [done | done |]. split; [done | by eexists]. Qed.

Definition flies_on (t : task) : known := fun sq log o => o = Some t /\ flying sq log t.
Lemma flies_on_flight t st : orderly (flies_on t) st -> orderly flight st.
Proof. apply orderly_weaken. by intros sq log o [-> H]. Qed.
Lemma r_inflight : triple (orderly flight) (gets inflight)
  (fun o st => match o with Some t => orderly (flies_on t) st | None => orderly flight st end).
Proof. intros st [H1 H2 H3]. cbn. unfold flight in H3. destruct (inflight (sess st)) as [t|] eqn:E; split; try done; by rewrite E. Qed.
Lemma r_keep t t' : makeup t' = makeup t -> triple (orderly (flies_on t)) (modify (set_inflight (Some t'))) (fun _ => orderly (flies_on t')).
Proof. intros E st [H1 H2 [H3 H4]]. split; [done | done |]. split; [done | by apply (flying_makeup _ _ t)]. Qed.
Lemma r_extend t : triple (orderly (flies_on t)) (extend_deadline t) (fun _ => orderly flight).
Proof.
  unfold extend_deadline. eapply t_bind; [apply r_frame; auto with parts|]. intros n.
  eapply t_bind; [apply r_frame, t_gets; exact _|]. intros d. cbv zeta. eapply t_bind; [by apply (r_keep t)|]. intros [].
  apply t_ret. apply flies_on_flight.
Qed.
Lemma r_taken t err : triple (orderly (flies_on t)) (modify (set_inflight None) ;; completeTask t err) (fun _ => orderly flight).
Proof.
  apply (r_fact _ _ _ (0 < t_period t -> fit t)). { intros sq log o [_ H]. by eapply flying_repeats. }
  intros Hf. eapply t_bind; [apply r_idle_taken|]. intros []. apply idle_flight; [naive_solver | done].
Qed.

Lemma r_startup : triple (orderly flight) startupSequence (fun _ => orderly flight).
Proof.
  unfold startupSequence. eapply (t_bind _ (fun _ => orderly flight)).
  { unfold sched_clear. eapply (t_bind _ (fun _ => orderly flight)).
    - intros st [H1 H2 H3]. unfold change_sched, clear. split; [done | | done]. cbn [fst sess set_sched sched submit q].
      destruct (heap_Init_ok (filter (fun t => 0 < period t) (q (sched (sess st))))) as [_ Hi]. rewrite Hi.
      apply Forall_app in H2 as [H2 H2']. apply Forall_app. split; [|done]. apply Forall_forall. intros t Ht.
      apply list_elem_of_filter in Ht as [_ Ht]. rewrite Forall_forall in H2. by apply H2.
    - intros ds. apply r_frame. by_parts. }
  intros []. eapply t_bind; [apply r_frame, t_gets; exact _|]. intros c. eapply t_bind; [apply r_frame; by_parts; done|]. intros [].
  pose proof (fit_chain _ (fit_steps c) (steps_alone c)) as Hc. destruct (chain_steps _) as [|t rest]; [by apply t_ret|].
  apply Forall_cons in Hc as [Hc _]. by apply r_enqueue.
Qed.
Lemma r_observe iin : triple (orderly flight) (observeIIN iin) (fun _ => orderly flight).
Proof.
  unfold observeIIN. eapply t_bind; [apply r_frame; by_parts; done|]. intros [].
  eapply t_bind; [apply r_frame; by_parts; done|]. intros []. destruct (Has iin IINDeviceRestart); [|by apply t_ret].
  eapply t_bind; [apply r_frame, t_gets; exact _|]. intros [|]; [by apply t_ret|].
  eapply t_bind; [apply r_frame; auto with parts|]. intros []. apply r_startup.
Qed.

Lemma r_finishResponse t iin : triple (orderly (flies_on t)) (finishResponse t iin) (fun _ => orderly flight).
Proof.
  unfold finishResponse. set (K := fun sq log (o : option task) => o = None /\ flying sq log t).
  eapply (t_bind _ (fun _ => orderly K)). { intros st [H1 H2 [H3 H4]]. by split. }
  intros []. apply (r_fact _ _ _ (0 < t_period t -> fit t)). { intros sq log o [_ H]. by eapply flying_repeats. }
  intros Hf. eapply (t_bind _ (fun _ => orderly K)).
  { destruct (onDone t); [apply r_frame; auto with parts | by apply t_ret]. }
  intros []. destruct (failure t) as [e|]; [apply idle_flight; [by intros ??? [-> _] | done]|].
  eapply (t_bind _ (fun o st => orderly K st /\ forall nt, o = Some nt -> orderly (idle_for nt) st)).
  { intros st H. pose proof (r_frame _ _ (run_view (run_next (next t))) st H) as H'. split; [done|]. intros nt E.
    destruct H' as [H1 H2 [H3 H4]]. split; [done | done |]. split; [done|].
    pose proof (run_next_sendable _ _ _ H4 (mem st)) as Hn. unfold run in E, Hn |- *. destruct (run_next (next t) (mem st)). by apply Hn. }
  intros [nt|].
  - intros st [_ H]. specialize (H nt eq_refl). unfold mbind, M_bind.
    pose proof (r_complete (idle_for nt) (with_done None t) None ltac:(intros; apply (fit_makeup t); auto) st H) as H1.
    destruct (completeTask (with_done None t) None st) as [st1 []]. cbn [fst snd] in H1. apply r_sendTask.
    revert H1. apply orderly_weaken. intros sq log o [E Hs]. split; [done | by apply (sendable_makeup _ _ nt)].
  - intros st [H _]. by apply (idle_flight K t None); [intros ??? [-> _]| |].
Qed.

Lemma r_onSolicited frag : triple (orderly flight) (onSolicited frag) (fun _ => orderly flight).
Proof.
  unfold onSolicited. set (c := HControl (FHeader frag)). cbv zeta. eapply t_bind; [apply r_inflight|].
  intros [t|]; [|by apply t_ret].
  destruct (stands t c).
  - apply t_ret. apply flies_on_flight.
  - eapply t_bind; [apply r_frame; auto with parts|]. intros []. eapply t_bind; [apply r_frame; by_parts|]. intros [].
    eapply t_bind; [apply r_extend|]. intros ?. by apply t_ret.
  - set (t1 := with_respSeq (Seq c) (with_started true t)). cbv zeta.
    eapply t_bind; [by apply (r_keep t t1)|]. intros []. eapply t_bind; [apply r_frame; auto with parts|]. intros [].
    eapply (t_bind _ (fun _ => orderly (flies_on t1))); [destruct (onFragment t1); [apply r_frame; auto with parts | by apply t_ret]|]. intros e.
    set (t2 := match e with Some _ => _ | None => _ end).
    eapply t_bind; [apply (r_keep t1 t2); by destruct e|]. intros []. eapply t_bind; [apply r_frame; by_parts|]. intros [].
    destruct (negb (Fin c)); [|apply r_finishResponse]. eapply t_bind; [apply r_extend|]. intros ?. by apply t_ret.
Qed.

Lemma onUnsolicited_view frag : guarantees (same view) (onUnsolicited frag).
Proof. unfold onUnsolicited. by_parts; done. Qed.

Lemma r_onAuthentication f : triple (orderly flight) (onAuthenticationResponse f) (fun _ => orderly flight).
Proof.
  unfold onAuthenticationResponse. set (c := HControl (FHeader f)). cbv zeta.
  eapply t_bind; [apply r_frame, t_gets; exact _|]. intros conf. eapply t_bind; [apply r_inflight|]. intros o.
  destruct (SecureAuthentication conf) as [sc|]; [|destruct o; apply t_ret; [apply flies_on_flight | done]].
  destruct o as [t|]; [|by apply t_ret]. destruct (_ || _ || _ || _); [apply t_ret; apply flies_on_flight|].
  destruct (funcCode t =? FuncAuthRequest). { eapply t_weaken; [apply r_onSolicited | apply flies_on_flight | done]. }
  destruct (singleAuthObject f 1); [|apply r_taken]. destruct (FirstFreeFormatObject _); [|apply r_taken].
  destruct (ParseAuthChallenge _); [|apply r_taken]. eapply t_bind; [apply r_frame; auto with parts|]. intros ready.
  destruct (_ || _ || _ || _ || _); [apply r_taken|]. eapply t_bind; [apply r_frame; auto with parts|]. intros sec.
  eapply t_bind; [apply r_frame, send_view; unfold auth_reply, BuildRequest; rewrite append_objects_encode; done|].
  intros [e|]; [apply r_taken|].
  eapply t_bind; [apply r_frame; auto with parts|]. intros []. destruct (noResponse t) eqn:En; [apply r_taken|].
  eapply t_bind; [apply r_extend|]. intros ?. by apply t_ret.
Qed.

Lemma r_received r : triple (orderly flight) (on_received r) (fun _ => orderly flight).
Proof.
  unfold on_received. eapply t_bind; [apply r_frame; auto with parts|]. intros [].
  destruct (ParseFragment None (RFragment r)) as [frag [e|]].
  - eapply t_bind; [apply r_frame; auto with parts|]. intros []. eapply t_bind; [apply r_inflight|]. intros [t|]; [|by apply t_ret].
    destruct (ParseHeader _) as [[h n]|]; [|apply t_ret; apply flies_on_flight].
    destruct (_ && _); [apply r_taken | apply t_ret; apply flies_on_flight].
  - eapply t_bind; [apply r_frame, t_gets; exact _|]. intros secure. destruct (negb _); [by apply t_ret|].
    destruct (_ && _); [apply r_onAuthentication|]. destruct (negb _); [apply r_frame; auto with parts|].
    eapply t_bind; [apply r_observe|]. intros []. destruct (_ =? _); [apply r_frame, onUnsolicited_view | apply r_onSolicited].
Qed.

(** ** Time, connections and calls *)

Lemma r_failInflight e : triple (orderly flight) (failInflight e) (fun _ => orderly flight).
Proof. unfold failInflight. eapply t_bind; [apply r_inflight|]. intros [t|]; [apply r_taken | by apply t_ret]. Qed.
Lemma r_checkTimeout : triple (orderly flight) checkTimeout (fun _ => orderly flight).
Proof.
  unfold checkTimeout. eapply t_bind; [apply r_inflight|]. intros [t|]; [|by apply t_ret].
  eapply t_bind; [apply r_frame; auto with parts|]. intros n. destruct (n <? deadline t); [apply t_ret; apply flies_on_flight|].
  apply (r_fact _ _ _ (0 < t_period t -> fit t)). { intros sq log o [_ H]. by eapply flying_repeats. }
  intros Hf. eapply t_bind; [apply r_idle_taken|]. intros []. eapply t_bind; [apply r_frame; auto with parts|]. intros [].
  apply idle_flight; [naive_solver | done].
Qed.
Lemma r_checkLinkTimeout : triple (orderly flight) checkLinkTimeout (fun _ => orderly flight).
Proof.
  unfold checkLinkTimeout. eapply t_bind; [apply r_frame, t_gets; exact _|]. intros p. destruct (negb p); [by apply t_ret|].
  eapply t_bind; [apply r_frame; auto with parts|]. intros n. eapply t_bind; [apply r_frame, t_gets; exact _|]. intros s.
  destruct (n <? _); [by apply t_ret|].
  eapply t_bind; [apply r_frame; intros st; unfold link_timeout; by destruct (link_OnTimeout _ _) as [[[l x] fl] e]|]. intros [fl [e|]]; [by apply t_ret|].
  eapply t_bind; [apply r_frame; auto with parts|]. intros n'. eapply t_bind; [apply r_frame; by_parts; done|]. intros [].
  destruct fl; [|by apply t_ret]. eapply t_bind; [apply r_frame; by_parts; done|]. intros [].
  eapply t_bind; [apply r_failInflight|]. intros []. by apply t_ret.
Qed.
Lemma link_status_view : guarantees (same view) link_status_request.
Proof. intros st. unfold link_status_request. by destruct (link_SendLinkStatusRequest _ _) as [[l x] e]. Qed.
#[local] Hint Resolve link_status_view : parts.
Lemma r_on_timer : triple (orderly flight) on_timer (fun _ => orderly flight).
Proof.
  unfold on_timer. eapply t_bind; [apply r_checkLinkTimeout|]. intros [|]; [by apply t_ret|].
  eapply t_bind; [apply r_frame, t_gets; exact _|]. intros [|].
  - eapply t_bind; [apply r_frame; by_parts; done|]. intros []. by apply t_ret.
  - eapply t_bind; [apply r_checkTimeout|]. intros []. eapply t_bind; [apply r_frame; unfold checkKeepAlive; by_parts; done|].
    intros []. by apply t_ret.
Qed.
Lemma r_disconnect : triple (orderly flight) disconnect (fun _ => orderly flight).
Proof. unfold disconnect, setConnected. eapply t_bind; [apply r_frame; by_parts; done|]. intros []. apply r_failInflight. Qed.
Lemma r_or_disconnect (m : M bool) : triple (orderly flight) m (fun _ => orderly flight) ->
  triple (orderly flight) (or_disconnect m) (fun _ => orderly flight).
Proof. intros Hm. unfold or_disconnect. eapply t_bind; [exact Hm|]. intros [|]; [by apply t_ret | apply r_disconnect]. Qed.
Lemma r_connect : triple (orderly flight) connect (fun _ => orderly flight).
Proof.
  unfold connect, setConnected. do 3 (eapply t_bind; [apply r_frame; by_parts; done|]; intros []).
  eapply t_bind; [apply r_frame; auto with parts|]. intros n. do 2 (eapply t_bind; [apply r_frame; by_parts; done|]; intros []).
  apply r_startup.
Qed.
Lemma r_take_submitted : triple (orderly flight) take_submitted (fun _ => orderly flight).
Proof.
  intros st H. unfold take_submitted, mbind at 1, M_bind at 1, gets. destruct (submit (sess st)) as [|t rest] eqn:E; [done|].
  destruct H as [H1 H2 H3]. rewrite E in H2. apply Forall_app in H2 as [H2 Hs]. apply Forall_cons in Hs as [Ht Hs].
  unfold mbind, M_bind. cbn [modify]. apply r_enqueue; [done|]. split; [done | | done]. by apply Forall_app.
Qed.

Lemma run_task_fit t vs : fit t -> guarantees (keeps (orderly flight)) (run_task t vs).
Proof.
  intros Ht st [H1 H2 H3]. split; [done | | done].
  change (Forall fit (q (sched (sess st)) ++ submit (sess st) ++ [with_done (Some (channels st)) t])).
  rewrite app_assoc. apply Forall_app. split; [done|]. constructor; [by apply (fit_makeup t) | done].
Qed.
Lemma hand_over_fit t : fit t -> guarantees (keeps (orderly flight)) (hand_over t).
Proof. intros Ht st [H1 H2 H3]. split; [done | | done]. cbn. rewrite app_assoc. apply Forall_app. split; [done | by constructor]. Qed.
Lemma view_keeps {T} (m : M T) : guarantees (same view) m -> guarantees (keeps (orderly flight)) m.
Proof. intros Hm st H. eapply orderly_view; [apply Hm | done]. Qed.
#[local] Hint Extern 0 (guarantees (keeps _) (run_task _ _)) => apply run_task_fit; by fits : parts.
#[local] Hint Extern 0 (guarantees (keeps _) (hand_over _)) => apply hand_over_fit; by fits : parts.
#[local] Hint Extern 0 (guarantees (keeps _) (run _)) => apply view_keeps, run_view : parts.
#[local] Hint Extern 0 (guarantees (keeps _) now) => apply view_keeps, now_view : parts.
#[local] Hint Extern 0 (guarantees (keeps _) (modify _)) => apply view_keeps, t_modify; done : parts.
Lemma begin_fit c : guarantees (keeps (orderly flight)) (begin c).
Proof.
  destruct c; cbn [begin].
  all: unfold ScanClasses, ScanRange, AddPeriodicScan, Restart, WriteTime, SyncTimeWithDelay, SyncTimeRecorded, FreezeCounters,
    FreezeAtTime, runChecked, WriteDeadband, EnableUnsolicited, DisableUnsolicited, DirectOperate, DirectOperateNoReply,
    SelectAndOperate, WriteAttribute, readAttributes, ReadFile, WriteFile, DeleteFile, new_transfer, FileInfo_request,
    AuthenticateFile, run_authenticated, nextRequestID, refuse.
  all: by_parts.
Qed.

Context {WL : Walking}.
Lemma r_on_data data : triple (orderly flight) (on_data data) (fun _ => orderly flight).
Proof.
  unfold on_data. eapply t_bind; [apply r_frame; auto with parts|]. intros n. eapply t_bind; [apply r_frame; by_parts; done|]. intros [].
  intros st H. unfold receive.
  pose proof (Receive_keeps state wire with_wire on_fragment (orderly flight) (stack (sess st)) st data) as HR.
  destruct (link_Receive _ _ _ _ _ _) as [[l st1] e]. cbn [fst snd] in *. apply (orderly_view _ st1); [done|]. apply HR; [| |done].
  - intros x s Hs. by apply (orderly_view _ s).
  - intros l1 s r Hs. unfold on_fragment. cbn [snd]. apply r_received. by apply (orderly_view _ s).
Qed.

Lemma step_orderly st st' : master_step st st' -> orderly flight st -> orderly flight st'.
Proof.
  intros Hs H. destruct Hs as [st w x|st _|st _|st _|st data _|st _|st _|st c _].
  - by apply (orderly_view _ st).
  - by apply r_connect.
  - by apply r_runDue.
  - by apply r_take_submitted.
  - by apply (r_or_disconnect _ (r_on_data data)).
  - by apply (r_or_disconnect _ r_on_timer).
  - by apply r_disconnect.
  - by apply begin_fit.
Qed.
Lemma lives_orderly c k st : lives c k st -> orderly flight st.
Proof.
  induction 1 as [l w x|st st' _ IH Hs]; [|by eapply step_orderly]. split; [|constructor|done]. intros [|] op post [=].
Qed.
End Operate.

(** C4. An OPERATE only ever follows its SELECT. In any life of a master session, whatever
    is asked of it, whatever the outstation answers and however connections come and go,
    each OPERATE among the requests that went out comes directly after a request that is its
    SELECT: with the same objects, octet for octet, and the sequence number before it. *)
Theorem operate_follows_select {Env : MasterEnvironment} {LL : LinkLayer} {WL : Walking} c k st pre op post :
  lives c k st -> requests st = pre ++ op :: post -> at_ op 1 = FuncOperate ->
  exists pre' sel, pre = pre' ++ [sel] /\ follows sel op.
Proof. intros Hl E Ho. apply lives_orderly in Hl as [Hp _ _]. by eapply Hp. Qed.
