(* ===== verification/MasterAnswers.v ===== *)
(** * Responses and failures (src/master/session.go)

    How a response of several fragments is put together, with fragments that come twice and
    fragments that belong to something else in between, and how a request that fails is
    reported to its caller. *)

From stdpp Require Import gmap.
From S2P Require Import Prelude StateMonad LinkFrame Stack LinkLayer TaskQueue Values Floats AppHeader AppObject AppFragment Objects Codecs.
From S2P Require Import CommandEvents FileObjects ExtObjects Dispatch Commands Crypto MasterState MasterTasks MasterFiles MasterSession MasterApi.
From S2P Require Import MasterInvariant.

Section Answers.
Context {Env : MasterEnvironment} {LL : LinkLayer}.

(** ** What the operations leave alone *)

(** What a caller and the handler see, and the task in flight. *)
Definition visible (st : state) := (inflight (sess st), outcomes st, handler (sess st), synchronized (sess st), heard st).

Lemma now_visible : guarantees (same visible) now.
Proof. unfold now. by_parts. done. Qed.
Lemma bump_visible c : guarantees (same visible) (bump c).
Proof. unfold bump. by_parts. done. Qed.
#[local] Hint Resolve now_visible bump_visible : parts.
Lemma sendConfirm_visible sq u : guarantees (same visible) (sendConfirm sq u).
Proof. unfold sendConfirm, send. by_parts; done. Qed.
#[local] Hint Resolve sendConfirm_visible : parts.
Lemma confirm_visible (b : bool) sq u : guarantees (same visible) (when b (sendConfirm sq u)).
Proof. by_parts. Qed.

Lemma deliver_visible frag u st :
  exists n, visible (deliver frag u st).1 = (inflight (sess st), outcomes st, handler (sess st), synchronized (sess st),
    heard st ++ Dispatch.deliver (handler (sess st)) (synchronized (sess st)) n frag u).
Proof.
  unfold deliver, mbind, M_bind. pose proof (now_visible st) as H. destruct (now st) as [st1 n]. cbn [fst] in H. exists n.
  unfold same, visible in *. injection H as E1 E2 E3 E4 E5. cbn. by rewrite E1, E2, E3, E4, E5.
Qed.

Lemma completeTask_heard t err : guarantees (same heard) (completeTask t err).
Proof.
  assert (Hp : forall t, guarantees (same heard) (sched_push t)) by done.
  assert (Hn : guarantees (same heard) now) by (unfold now; by_parts; done).
  unfold completeTask, bump, finish. by_parts; done.
Qed.
(** The one place where a caller is answered. *)
Lemma completeTask_outcomes t err st : outcomes (completeTask t err st).1 = answered t err (outcomes st).
Proof.
  assert (Hp : forall t, guarantees (same outcomes) (sched_push t)) by done.
  assert (Hn : guarantees (same outcomes) now) by (unfold now; by_parts; done).
  unfold completeTask. set (m3 := when (0 <? _) _). set (m1 := when _ _). set (m2 := bump _).
  assert (H1 : guarantees (same outcomes) m1) by (unfold m1; by_parts; done).
  assert (H2 : guarantees (same outcomes) m2) by (unfold m2, bump; by_parts; done).
  assert (H3 : guarantees (same outcomes) m3) by (unfold m3; by_parts; done).
  unfold mbind, M_bind. specialize (H1 st). destruct (m1 st) as [st1 []]. specialize (H2 st1). destruct (m2 st1) as [st2 []].
  specialize (H3 st2). destruct (m3 st2) as [st3 []]. cbn [fst] in *. unfold same in *.
  unfold finish, answered. destruct (t_done t) as [ch|]; cbn; by rewrite H3, H2, H1.
Qed.

(** ** Failures *)

Lemma answered_open t e ch outs : t_done t = Some ch -> outs !! ch = None -> answered t e outs !! ch = Some e.
Proof. intros Hd Ho. unfold answered. rewrite Hd, Ho. apply lookup_insert_eq. Qed.

(** The request ended with [e]: who waits on [ch] is told, and the handler is not called. *)
Definition ended (ch : nat) (e : MasterErr) (st st' : state) : Prop :=
  outcomes st' !! ch = Some (Some e) /\ inflight (sess st') = None /\ heard st' = heard st.
Lemma fails_with t e ch st :
  t_done t = Some ch -> outcomes st !! ch = None -> ended ch e st ((modify (set_inflight None) ;; completeTask t (Some e)) st).1.
Proof.
  intros Hd Ho. unfold mbind, M_bind. cbn [modify]. set (st1 := mkState _ _ _ _ _ _ _).
  split; [|split].
  - rewrite completeTask_outcomes. by apply answered_open.
  - pose proof (completeTask_inflight t (Some e) st1) as H. unfold same in H. by rewrite H.
  - pose proof (completeTask_heard t (Some e) st1) as H. unfold same in H. by rewrite H.
Qed.

Lemma lives_open {WL : Walking} c k st t ch : lives c k st -> inflight (sess st) = Some t -> t_done t = Some ch -> outcomes st !! ch = None.
Proof.
  intros Hl Hi Hd. apply lives_in_order in Hl as [[[Hb _] _] _]. apply (b_open _ _ _ _ _ Hb ch).
  apply list_elem_of_omap. exists t. split; [|done]. unfold held, working. rewrite Hi. set_solver.
Qed.
End Answers.

(** C8. Failures reach the caller who waits. While a request of a caller is in flight: a
    response to it that cannot be parsed, a deadline that has passed and a connection that
    is lost each end it with that error, once, and nothing of the response reaches the
    handler. *)
Theorem failure_reaches_caller {Env : MasterEnvironment} {LL : LinkLayer} {WL : Walking} c k st t ch :
  lives c k st -> inflight (sess st) = Some t -> t_done t = Some ch ->
  (forall r frag e h n, ParseFragment None (RFragment r) = (frag, Some e) -> ParseHeader (RFragment r) = Ok (h, n) ->
     Header_IsResponse h = true -> Seq (HControl h) = t_seq t -> ended ch (ErrMalformed e) st (on_received r st).1) /\
  (deadline t <= (time_Now (world (mem st))).2 -> ended ch ErrTimeout st (checkTimeout st).1) /\
  ended ch ErrNoConnection st (disconnect st).1.
Proof.
  intros Hl Hi Hd. pose proof (lives_open c k st t ch Hl Hi Hd) as Ho. split; [|split].
  - intros r frag e h n Hp Hh Hr Hs. unfold on_received, bump. rewrite Hp, Hh. unfold mbind at 1 2, M_bind at 1 2. cbn [modify].
    unfold mbind, M_bind, gets. cbn [sess set_stats inflight]. rewrite Hi, Hr, Hs, Z.eqb_refl. cbn [andb]. unfold abandon.
    match goal with |- ended _ _ _ (_ ?s).1 => exact (fails_with t _ ch s Hd Ho) end.
  - intros Hn. unfold checkTimeout, mbind at 1, M_bind at 1, gets. rewrite Hi. unfold mbind at 1, M_bind at 1, now, run, ask.
    destruct (time_Now (world (mem st))) as [w n]. cbn [snd] in Hn. rewrite (proj2 (Z.ltb_ge _ _)) by done.
    unfold bump, mbind, M_bind. cbn [modify]. set (st1 := mkState _ _ _ _ _ _ _).
    split; [rewrite completeTask_outcomes; by apply answered_open|]. split.
    + pose proof (completeTask_inflight t (Some ErrTimeout) st1) as H. unfold same in H. by rewrite H.
    + pose proof (completeTask_heard t (Some ErrTimeout) st1) as H. unfold same in H. by rewrite H.
  - unfold disconnect, setConnected, failInflight, mbind at 1 2, M_bind at 1 2. cbn [modify]. unfold gets. cbn [sess set_connected inflight].
    rewrite Hi. match goal with |- ended _ _ _ (_ ?s).1 => exact (fails_with t _ ch s Hd Ho) end.
Qed.

(** ** A response of several fragments *)

Section Series.
Context {Env : MasterEnvironment} {LL : LinkLayer}.

Definition ctl (f : Fragment) : Control := HControl (FHeader f).
Definition seq_at (s i : Z) : Z := (s + i) mod 16.

(** Fragment [i] of the response to the request numbered [s]. *)
Definition is_part (s i : Z) (final : bool) (f : Fragment) : Prop :=
  Fir (ctl f) = (i =? 0) /\ Fin (ctl f) = final /\ Seq (ctl f) = seq_at s i.
(** A fragment of something else, when [i] fragments of the response were taken. *)
Definition is_stale (s i : Z) (f : Fragment) : Prop :=
  if (i =? 0) || Fir (ctl f) then Seq (ctl f) <> s
  else Seq (ctl f) <> seq_at s i /\ Seq (ctl f) <> seq_at s (i - 1).

(** The fragments of a response from the [i]th on, as they may arrive: each comes at least
    once, the last one taken may come again, and others may come in between. *)
Inductive arrives (s : Z) : Z -> list Fragment -> list Fragment -> Prop :=
| arrives_last i f : is_part s i true f -> arrives s i [f] [f]
| arrives_next i f fs input : is_part s i false f -> arrives s (i + 1) fs input -> arrives s i (f :: fs) (f :: input)
| arrives_again i f fs input : 0 < i -> is_part s (i - 1) false f -> arrives s i fs input -> arrives s i fs (f :: input)
| arrives_stale i f fs input : is_stale s i f -> arrives s i fs input -> arrives s i fs (f :: input).

(** The request in flight after [i] fragments. *)
Definition taken (s i : Z) (t : task) : Prop :=
  t_seq t = s /\ started t = negb (i =? 0) /\ (i <> 0 -> respSeq t = seq_at s (i - 1)).

Lemma seq_at_range s i : 0 <= seq_at s i < 16.
Proof. apply Z.mod_pos_bound. lia. Qed.
Lemma seq_at_next s i : Z.rem (u8 (seq_at s (i - 1) + 1)) SeqModulus = seq_at s i.
Proof.
  pose proof (seq_at_range s (i - 1)). unfold u8, SeqModulus, seq_at in *. rewrite (Z.mod_small (_ + 1)) by lia.
  rewrite Z.rem_mod_nonneg, Zplus_mod_idemp_l by lia. f_equal. lia.
Qed.
Lemma seq_at_moves s i : seq_at s i <> seq_at s (i - 1).
Proof.
  unfold seq_at. intros E. assert (H : (s + i - (s + (i - 1))) mod 16 = 0) by (rewrite Zminus_mod, E, Z.sub_diag; done).
  replace (s + i - (s + (i - 1))) with 1 in H by lia. done.
Qed.

Lemma stands_part s i final f t : 0 <= s < 16 -> 0 <= i -> is_part s i final f -> taken s i t -> stands t (ctl f) = Accepted.
Proof.
  intros Hs Hi (H1 & H2 & H3) (Hq & Hst & Hr). unfold stands. rewrite H1, H3, Hst, Hq, negb_involutive.
  destruct (Z.eqb_spec i 0) as [->|Hne]; cbn [negb].
  - unfold seq_at. rewrite Z.add_0_r, Z.mod_small, Z.eqb_refl by done. done.
  - rewrite (Hr Hne), seq_at_next, Z.eqb_refl. cbn [negb andb]. by rewrite (proj2 (Z.eqb_neq _ _) (seq_at_moves s i)).
Qed.
Lemma stands_again s i f t : 0 <= s < 16 -> 0 < i -> is_part s (i - 1) false f -> taken s i t -> stands t (ctl f) = Repeat.
Proof.
  intros Hs Hi (H1 & H2 & H3) (Hq & Hst & Hr). unfold stands. rewrite Hst, (proj2 (Z.eqb_neq i 0)) by lia. cbn [negb].
  rewrite H1, H3, Hq. destruct (Z.eqb_spec (i - 1) 0) as [E|E].
  - rewrite E. unfold seq_at. rewrite Z.add_0_r, Z.mod_small, Z.eqb_refl by done. done.
  - rewrite Hr by lia. rewrite Z.eqb_refl, andb_false_r. done.
Qed.
Lemma stands_stale s i f t : 0 <= s < 16 -> 0 <= i -> is_stale s i f -> taken s i t -> stands t (ctl f) = Stale.
Proof.
  intros Hs Hi Hf (Hq & Hst & Hr). unfold stands, is_stale in *. rewrite Hst, negb_involutive.
  destruct (Z.eqb_spec i 0) as [E|E]; cbn [orb] in Hf.
  - rewrite Hq, (proj2 (Z.eqb_neq _ _) Hf). done.
  - destruct (Fir (ctl f)); [rewrite Hq, (proj2 (Z.eqb_neq _ _) Hf); done|].
    rewrite (Hr E), seq_at_next. destruct Hf as [Hf1 Hf2].
    by rewrite (proj2 (Z.eqb_neq _ _) Hf1), (proj2 (Z.eqb_neq _ _) Hf2).
Qed.

(** A task with nothing after it and nothing to do with the fragments: a scan. *)
Definition simple (t : task) : Prop := onFragment t = None /\ onDone t = None /\ next t = NoNext /\ failure t = None.

(** A state in which such a task waits for fragment [i]. *)
Record expects (s i : Z) (ch : nat) (st : state) : Prop := mkExpects {
  x_task : exists t, inflight (sess st) = Some t /\ taken s i t /\ simple t /\ t_done t = Some ch;
  x_open : outcomes st !! ch = None }.

(** The calls the handler gets for fragments that are taken at the times [ns]. *)
Definition calls_for (k : HandlerKind) (sync : bool) (ns : list Z) (fs : list Fragment) : list HandlerCall :=
  concat (zip_with (fun n f => Dispatch.deliver k sync n f false) ns fs).

#[local] Hint Resolve now_visible bump_visible sendConfirm_visible : parts.

Definition seen (st : state) := (outcomes st, handler (sess st), synchronized (sess st), heard st).
Lemma seen_visible st st' : visible st' = visible st -> inflight (sess st') = inflight (sess st) /\ seen st' = seen st.
Proof. unfold visible, seen. intros [= -> -> -> -> ->]. done. Qed.

Lemma extend_seen t st : exists d, inflight (sess (extend_deadline t st).1) = Some (with_deadline d t) /\ seen (extend_deadline t st).1 = seen st.
Proof.
  unfold extend_deadline, mbind, M_bind. pose proof (now_visible st) as H. destruct (now st) as [st1 n]. cbn [fst] in H.
  apply seen_visible in H as [_ H]. eexists. split; [done|]. exact H.
Qed.

Lemma solicited_stale f st t : inflight (sess st) = Some t -> stands t (ctl f) = Stale -> onSolicited f st = (st, tt).
Proof. intros Hi Hs. unfold onSolicited, mbind, M_bind, gets. fold (ctl f). by rewrite Hi, Hs. Qed.

Lemma solicited_again f st t : inflight (sess st) = Some t -> stands t (ctl f) = Repeat ->
  let st' := (onSolicited f st).1 in exists d, inflight (sess st') = Some (with_deadline d t) /\ seen st' = seen st.
Proof.
  intros Hi Hs. unfold onSolicited, mbind, M_bind, gets. fold (ctl f). rewrite Hi, Hs.
  pose proof (bump_visible FragmentsDiscarded st) as H1. destruct (bump FragmentsDiscarded st) as [st1 []].
  pose proof (confirm_visible (Con (ctl f)) (Seq (ctl f)) false st1) as H2. destruct (when _ _ st1) as [st2 []].
  destruct (extend_seen t st2) as (d & H3 & H4). destruct (extend_deadline t st2) as [st3 t3]. cbn [fst] in *.
  exists d. split; [done|]. apply seen_visible in H1 as [_ H1], H2 as [_ H2]. cbn. by rewrite H4, H2, H1.
Qed.

(** A fragment that is taken. *)
Lemma solicited_accepted f st t : inflight (sess st) = Some t -> stands t (ctl f) = Accepted -> simple t ->
  let t1 := with_respSeq (Seq (ctl f)) (with_started true t) in
  exists n st1, inflight (sess st1) = Some t1 /\
    seen st1 = (outcomes st, handler (sess st), synchronized (sess st),
                heard st ++ Dispatch.deliver (handler (sess st)) (synchronized (sess st)) n f false) /\
    onSolicited f st = (if negb (Fin (ctl f)) then extend_deadline t1 ;; mret tt else finishResponse t1 (HIIN (FHeader f))) st1.
Proof.
  intros Hi Hs (Hf & _ & _ & Hfail) t1.
  unfold onSolicited, mbind at 1, M_bind at 1, gets. fold (ctl f). rewrite Hi, Hs. fold t1.
  assert (Hf1 : onFragment t1 = None) by exact Hf. rewrite Hf1. unfold mbind at 1, M_bind at 1. cbn [modify].
  set (st0 := mkState _ _ _ _ _ _ _). unfold mbind at 1, M_bind at 1. destruct (deliver_visible f false st0) as (n & H1).
  destruct (deliver f false st0) as [st2 []]. cbn [fst] in H1. unfold mbind at 1, M_bind at 1. cbn [mret M_ret].
  unfold mbind at 1, M_bind at 1. cbn [modify]. set (st3 := mkState _ _ _ _ _ _ _). unfold mbind at 1, M_bind at 1.
  pose proof (confirm_visible (Con (ctl f)) (Seq (ctl f)) false st3) as H2. destruct (when _ _ st3) as [st4 []]. cbn [fst] in H2.
  exists n, st4. apply seen_visible in H2 as [H2 H3]. split; [by rewrite H2|]. split; [|done].
  rewrite H3. unfold visible in H1. injection H1 as E1 E2 E3 E4 E5. unfold seen, st3. cbn. by rewrite E2, E3, E4, E5.
Qed.

(** The last one ends the task. *)
Lemma finish_simple t iin ch st : simple t -> t_done t = Some ch -> outcomes st !! ch = None ->
  let st' := (finishResponse t iin st).1 in
  outcomes st' !! ch = Some None /\ inflight (sess st') = None /\ heard st' = heard st.
Proof.
  intros (_ & Hd & Hn & Hf) Hch Ho. unfold finishResponse. rewrite Hd, Hn, Hf.
  unfold mbind, M_bind. cbn [modify mret M_ret run run_next]. set (st1 := mkState _ _ _ _ _ _ _).
  split; [|split].
  - rewrite completeTask_outcomes. by apply answered_open.
  - pose proof (completeTask_inflight t None st1) as H. unfold same in H. by rewrite H.
  - pose proof (completeTask_heard t None st1) as H. unfold same in H. by rewrite H.
Qed.

Fixpoint receive_all (fs : list Fragment) : M unit :=
  match fs with
  | [] => mret tt
  | f :: fs => onSolicited f ;; receive_all fs
  end.
End Series.

(** C7. The response to a plain scan (a task without a hook for its fragments, without a
    follow-up and not already failed) is put together by [onSolicited] from its fragments, which
    are numbered one after the other from the number of the request on.  Between them may
    arrive, any number of times, the fragment taken last once more, and stale fragments: those
    whose number is neither the next nor the last one's, and before the first fragment or with
    FIR set those whose number is not the request's.  The handler gets the
    content of the fragments of the response, each once and in order, and the caller is told of
    success when the last one has arrived. *)
Theorem response_put_together {Env : MasterEnvironment} {LL : LinkLayer} s i ch fs input st :
  0 <= s < 16 -> 0 <= i -> arrives s i fs input -> expects s i ch st ->
  let st' := (receive_all input st).1 in
  outcomes st' !! ch = Some None /\ inflight (sess st') = None /\
  exists ns, length ns = length fs /\ heard st' = heard st ++ calls_for (handler (sess st)) (synchronized (sess st)) ns fs.
Proof.
  intros Hs Hi Ha. revert st Hi. induction Ha as [i f Hp|i f fs input Hp _ IH|i f fs input Hi0 Hp _ IH|i f fs input Hp _ IH];
    intros st Hi [(t & Ht & Hk & Hsim & Hd) Ho]; cbn [receive_all]; unfold mbind, M_bind.
  - destruct (solicited_accepted f st t Ht (stands_part _ _ _ _ _ Hs Hi Hp Hk) Hsim) as (n & st1 & Hi1 & Hs1 & ->).
    destruct Hp as (_ & -> & _). cbn [negb]. set (t1 := with_respSeq _ _) in *. injection Hs1 as E1 E2 E3 E4.
    destruct (finish_simple t1 (HIIN (FHeader f)) ch st1) as (F1 & F2 & F3); [done | done | by rewrite E1|].
    destruct (finishResponse t1 _ st1) as [st2 []]. cbn [fst mret M_ret] in *. split_and!; [done | done |].
    exists [n]. split; [done|]. rewrite F3, E4. unfold calls_for. cbn. by rewrite app_nil_r.
  - destruct (solicited_accepted f st t Ht (stands_part _ _ _ _ _ Hs Hi Hp Hk) Hsim) as (n & st1 & Hi1 & Hs1 & ->).
    destruct Hp as (Hfir & -> & Hseq). cbn [negb]. set (t1 := with_respSeq _ _) in *.
    unfold mbind, M_bind. destruct (extend_seen t1 st1) as (d & Hi2 & Hs2). destruct (extend_deadline t1 st1) as [st2 t2].
    cbn [fst mret M_ret] in *. rewrite Hs1 in Hs2. injection Hs2 as E1 E2 E3 E4.
    destruct (IH st2) as (F1 & F2 & ns & F3 & F4); [lia | |].
    { split; [|by rewrite E1]. exists (with_deadline d t1). split; [done|]. split; [|by destruct Hsim].
      destruct Hk as (Hq & _). split; [done|]. change (started (with_deadline d t1)) with true.
      rewrite (proj2 (Z.eqb_neq (i + 1) 0)) by lia. split; [done|]. intros _. replace (i + 1 - 1) with i by lia. exact Hseq. }
    split_and!; [done | done |]. exists (n :: ns). split; [cbn; by rewrite F3|]. rewrite F4, E4, E2, E3. unfold calls_for. cbn.
    by rewrite <- app_assoc.
  - destruct (solicited_again f st t Ht (stands_again _ _ _ _ Hs Hi0 Hp Hk)) as (d & Hi2 & Hs2).
    destruct (onSolicited f st) as [st2 []]. cbn [fst] in *. injection Hs2 as E1 E2 E3 E4.
    destruct (IH st2) as (F1 & F2 & ns & F3 & F4); [lia | |].
    { split; [|by rewrite E1]. exists (with_deadline d t). done. }
    split_and!; [done | done |]. exists ns. split; [done|]. by rewrite F4, E4, E2, E3.
  - rewrite (solicited_stale f st t Ht (stands_stale _ _ _ _ Hs Hi Hp Hk)). apply IH; [done|]. split; [by exists t | done].
Qed.
