(* ===== verification/MasterRuns.v ===== *)
(** * A master at work

    A concrete master, to run the session on: a clock set by hand, a line that records what is
    written to it, and an outstation that says what the run needs.  The witnesses of the
    theorems about every master are runs of it. *)

From stdpp Require Import gmap relations.
From S2P Require Import Prelude StateMonad LinkFrame LinkFsm Transport Stack LinkLayer TaskQueue Values Floats AppHeader AppObject AppFragment Objects Codecs.
From S2P Require Import CommandEvents FileObjects ExtObjects Dispatch Commands Crypto MasterState MasterTasks MasterFiles MasterSession MasterApi.
From S2P Require Import MasterInvariant MasterCommands MasterOperate MasterAnswers.

(** The world is the time. *)
#[local] Instance desk : MasterEnvironment := {|
  World := Z;
  time_Now w := (w, w);
  rand_Read w n := (w, Some (replicate (Z.to_nat n) 7));
  hmac_sha256 k m := take 32 (k ++ m ++ replicate 32 0);
  aes_NewCipher k := if decide (length k = 16%nat) then Some (fun b => b, fun b => b) else None;
  Sink := unit;
  Source := list Z;
  sink_Write w _ _ := (w, true);
  source_Read w s n := (w, (take (Z.to_nat n) s, if len s <=? n then Some EOF else None)) |}.

Definition take_write (x : list (list Z)) (o : list Z) : list (list Z) * option unit := (x ++ [o], None).
#[local] Instance wire_line : LinkLayer := stackLink take_write None.
#[local] Instance wire_walking : Walking := stack_walking take_write None.

(** A master at address 1 that polls the outstation at address 10, and starts with no more
    than clearing the restart indication. *)
Definition desk_config : Config :=
  mkConfig 1 10 (5 * second) (5 * second) false false 0 2048 2048 0 None None false 0 second 0.
Definition every_handler : HandlerKind := mkHandlerKind true true true.
Definition desk_stack : Stack := Stack.New (Stack.mkConfig 1 10 true false false 0 2048).
Definition desk_start : state := mkState (New desk_config every_handler desk_stack) (mkStore (1000 * second) ∅ 0 masterSecurity0) [] [] [] ∅ 0.

(** ** Runs *)

Inductive action := Connect | Due | Take | Data (data : list Z) | Timer | Disconnect | Call (c : call) | Wait (d : Z).

Definition allowed (a : action) (st : state) : bool :=
  match a with
  | Connect => negb (connected (sess st))
  | Call _ => len (submit (sess st)) <? 32
  | Wait _ => true
  | _ => connected (sess st)
  end.
Definition act (a : action) (st : state) : state :=
  match a with
  | Connect => (connect st).1
  | Due => (runDueTask st).1
  | Take => (take_submitted st).1
  | Data data => (or_disconnect (on_data data) st).1
  | Timer => (or_disconnect on_timer st).1
  | Disconnect => (disconnect st).1
  | Call c => (begin c st).1
  | Wait d => mkState (sess st) (mkStore (world (mem st) + d) (cells (mem st)) (fresh (mem st)) (security (mem st))) (wire st) (sent st) (heard st)
                (outcomes st) (channels st)
  end.
Fixpoint acts (l : list action) (st : state) : state := match l with [] => st | a :: l => acts l (act a st) end.
Fixpoint all_allowed (l : list action) (st : state) : bool :=
  match l with [] => true | a :: l => allowed a st && all_allowed l (act a st) end.

Lemma act_step a st : allowed a st = true -> master_step st (act a st).
Proof.
  destruct a; cbn [allowed act]; intros H.
  - apply step_connect. by apply negb_true_iff.
  - by apply step_due.
  - by apply step_submitted.
  - by apply step_data.
  - by apply step_timer.
  - by apply step_disconnect.
  - apply step_call. by apply Z.ltb_lt.
  - apply (step_world st (world (mem st) + d) (wire st)).
Defined.
Lemma acts_rtc l st : all_allowed l st = true -> rtc master_step st (acts l st).
Proof.
  revert st. induction l as [|a l IH]; intros st H; [apply rtc_refl|]. apply andb_true_iff in H as [H1 H2].
  eapply rtc_l; [by apply act_step | by apply IH].
Defined.
Lemma rtc_lives st st' : lives desk_config every_handler st -> rtc master_step st st' -> lives desk_config every_handler st'.
Proof. intros H. induction 1 as [|st st1 st' Hs _ IH]; [done|]. apply IH. by eapply lives_step. Defined.
Lemma acts_live l : all_allowed l desk_start = true -> lives desk_config every_handler (acts l desk_start).
Proof. intros H. eapply rtc_lives; [apply lives_new | by apply acts_rtc]. Defined.

(** What the outstation writes to send a fragment. *)
Definition answer (sq : Z) (objs : list ObjectHeader) : list Z :=
  let frag := BuildResponse [] (mkControl true true false false sq) FuncResponse 0 objs in
  match Stack.SendTo take_write None (Stack.New (Stack.mkConfig 10 1 false false false 0 2048)) [] 1 frag with
  | Some (_, x, _) => concat x
  | None => []
  end.

(** The connection, and the startup sequence answered. *)
Definition opening : list action := [Connect; Due; Data (answer 1 [])].
(** Close point 5, selected and then operated. *)
Definition closing : list Command := [Close 5 100].
Definition closing_answer : ObjectHeader := run_header (GV 12 1) closing.
Definition closing_run : list action :=
  opening ++ [Call (CallSelectAndOperate closing); Take; Due; Data (answer 2 [closing_answer])].

Example closing_requests : requests (acts closing_run desk_start) =
  [ [0xC1; FuncWrite; 80; 1; 0; 7; 7; 0]; command_request FuncSelect 2 closing; command_request FuncOperate 3 closing ].
Proof. vm_compute. reflexivity. Qed.

(** ** Witnesses *)

Lemma operate_follows_select_witness :
  let st := acts closing_run desk_start in
  at_ (command_request FuncOperate 3 closing) 1 = FuncOperate /\
  exists pre' sel, [ [0xC1; FuncWrite; 80; 1; 0; 7; 7; 0]; command_request FuncSelect 2 closing] = pre' ++ [sel] /\
    follows sel (command_request FuncOperate 3 closing).
Proof.
  intros st. split; [by vm_compute|].
  apply (operate_follows_select desk_config every_handler st _ _ []).
  - apply acts_live. by vm_compute.
  - exact closing_requests.
  - by vm_compute.
Defined.

(** An integrity poll, and its answer. *)
Definition polling_run : list action := opening ++ [Call (CallScanClasses ClassAll); Take; Due].
Definition polled : list action := [Data (answer 2 [])].

Lemma every_caller_answered_once_witness :
  let st := acts polling_run desk_start in
  waits 0 st /\
  exists err, forall st', rtc master_step (acts polled st) st' -> outcomes st' !! 0%nat = Some err /\ ~ waits 0 st'.
Proof.
  intros st. assert (Hw : waits 0 st) by (apply list_elem_of_In; vm_compute; by left). split; [exact Hw|].
  destruct (every_caller_answered_once desk_config every_handler st (acts polled st) 0) as [[_ H]|[_ H]].
  - apply acts_live. by vm_compute.
  - exact Hw.
  - apply acts_rtc. by vm_compute.
  - assert (E : match outcomes (acts polled st) !! 0%nat with Some _ => true | None => false end = true) by (vm_compute; reflexivity).
    rewrite H in E. discriminate E.
  - exact H.
Defined.

Lemma startup_flag_exact_witness :
  let st := acts [Connect; Due] desk_start in
  steps_of (q (sched (sess st)) ++ option_list (inflight (sess st))) = 1%nat.
Proof.
  intros st. rewrite (startup_flag_exact desk_config every_handler st); [by vm_compute|]. apply acts_live. by vm_compute.
Defined.

(** What is in flight: the caller, the sequence number, whether its time is up, and whether it
    is a scan of which nothing has arrived. *)
Definition in_flight (st : state) : option (option nat * Z * bool) :=
  (fun t => (t_done t, t_seq t, deadline t <=? (time_Now (world (mem st))).2)) <$> inflight (sess st).
Lemma in_flight_task st ch sq : in_flight st = Some (Some ch, sq, true) ->
  exists t, inflight (sess st) = Some t /\ t_done t = Some ch /\ t_seq t = sq /\ deadline t <= (time_Now (world (mem st))).2.
Proof.
  unfold in_flight. destruct (inflight (sess st)) as [t|]; [|done]. cbn [fmap option_fmap option_map]. intros E%Some_inj.
  apply pair_equal_spec in E as [E Hn%Z.leb_le]. apply pair_equal_spec in E as [Hd Hs]. by exists t.
Qed.

Definition overdue : state := acts (polling_run ++ [Wait (6 * second)]) desk_start.
Lemma overdue_lives : lives desk_config every_handler overdue.
Proof. apply acts_live. vm_compute. reflexivity. Qed.
Lemma overdue_flies : in_flight overdue = Some (Some 0%nat, 2, true).
Proof. vm_compute. reflexivity. Qed.

(** The poll is answered with octets that are no response, not answered, or cut off. *)
Definition garbled : list Z := [0xC2; 129; 0; 0; 30].
Lemma garbled_fails : ParseFragment None garbled = ((ParseFragment None garbled).1, Some (ErrObjectAt 4 ErrTruncated)).
Proof. vm_compute. reflexivity. Qed.
Lemma garbled_header : ParseHeader garbled = Ok (mkHeader (mkControl true true false false 2) FuncResponse 0, 4).
Proof. vm_compute. reflexivity. Qed.
Lemma failure_reaches_caller_witness :
  outcomes (on_received (mkReceived garbled 10 1 false) overdue).1 !! 0%nat = Some (Some (ErrMalformed (ErrObjectAt 4 ErrTruncated))) /\
  outcomes (checkTimeout overdue).1 !! 0%nat = Some (Some ErrTimeout) /\
  outcomes (disconnect overdue).1 !! 0%nat = Some (Some ErrNoConnection).
Proof.
  destruct (in_flight_task _ _ _ overdue_flies) as (t & Ht & Hd & Hs & Hn).
  destruct (failure_reaches_caller desk_config every_handler overdue t 0 overdue_lives Ht Hd) as (H1 & H2 & H3).
  split; [|split; [exact (proj1 (H2 Hn)) | exact (proj1 H3)]].
  exact (proj1 (H1 (mkReceived garbled 10 1 false) _ _ _ _ garbled_fails garbled_header eq_refl (eq_sym Hs))).
Defined.

(** A response in two fragments, the first of which comes twice, after one that belongs to an
    earlier request. *)
Definition part (fir fin : bool) (sq : Z) : Fragment :=
  mkFragment (mkHeader (mkControl fir fin true false sq) FuncResponse 0) [] [].

Definition is_simple (t : task) : bool :=
  match onFragment t, onDone t, next t, failure t with None, None, NoNext, None => true | _, _, _, _ => false end.
Definition waits_simply (ch : nat) (st : state) : option (option nat * Z * bool * bool * bool) :=
  (fun t => (t_done t, t_seq t, started t, is_simple t, match outcomes st !! ch with None => true | Some _ => false end)) <$> inflight (sess st).
Lemma waits_simply_expects st ch sq : waits_simply ch st = Some (Some ch, sq, false, true, true) -> expects sq 0 ch st.
Proof.
  unfold waits_simply. destruct (inflight (sess st)) as [t|] eqn:Et; [|done]. cbn [fmap option_fmap option_map]. intros E%Some_inj.
  apply pair_equal_spec in E as [E Ho]. apply pair_equal_spec in E as [E Hsim]. apply pair_equal_spec in E as [E Hst].
  apply pair_equal_spec in E as [Hd Hs]. split.
  - exists t. split; [done|]. split; [|split; [|done]].
    + split; [done|]. by rewrite Hst.
    + unfold is_simple in Hsim. unfold simple. destruct (onFragment t), (onDone t), (next t), (failure t); done.
  - by destruct (outcomes st !! ch).
Qed.
Definition polling : state := acts polling_run desk_start.
Lemma polling_simply : waits_simply 0 polling = Some (Some 0%nat, 2, false, true, true).
Proof. vm_compute. reflexivity. Qed.

Lemma response_put_together_witness :
  let input := [part true true 1; part true false 2; part true false 2; part false true 3] in
  exists ns, length ns = 2%nat /\
    heard (receive_all input polling).1 =
      heard polling ++ calls_for (handler (sess polling)) (synchronized (sess polling)) ns [part true false 2; part false true 3].
Proof.
  intros input. destruct (response_put_together 2 0 0 [part true false 2; part false true 3] input polling) as (_ & _ & ns & Hl & Hh).
  - lia.
  - lia.
  - apply arrives_stale; [vm_compute; discriminate|]. apply arrives_next; [by vm_compute|].
    apply arrives_again; [lia | by vm_compute|]. apply arrives_last. by vm_compute.
  - exact (waits_simply_expects _ _ _ polling_simply).
  - exists ns. split; [exact Hl | exact Hh].
Defined.

(** Two controls and a set point, refused by an outstation that has only the first point. *)
Definition three : list Command := [LatchOn 1; LatchOff 300; AnalogOutputInt16 2 1234].
Definition three_built : Builder :=
  fst (snd (buildCommands three (SetHeader (NewBuilder 2048) (mkHeader (mkControl true true false false 4) FuncDirectOperate 0)).1 (mem desk_start))).
Lemma no_error {A E} (r : A * option E) : match r.2 with None => true | Some _ => false end = true -> r = (r.1, None).
Proof. by destruct r as [a [e|]]. Qed.
Lemma three_builds :
  (buildCommands three (SetHeader (NewBuilder 2048) (mkHeader (mkControl true true false false 4) FuncDirectOperate 0)).1 (mem desk_start)).2 =
    (three_built, None).
Proof. apply no_error. vm_compute. reflexivity. Qed.
Lemma controls_reported_witness :
  exists frag s' w' body outs rfrag,
    ParseRequest None (Bytes three_built) = (frag, None) /\
    executeCommands witness_Now witness_cmds witness_cfg witness_session (0, []) frag OperateDirect CommandSuccess = Some (s', w', body, outs) /\
    o_index <$> outs = [1; 300; 2] /\
    ParseFragment None (AppendHeader [] (mkHeader (mkControl true true false false 4) FuncResponse 0) ++ body) = (rfrag, None) /\
    parseCommandStatuses rfrag = u8 <$> (o_status <$> outs).
Proof.
  destruct (controls_reported witness_Now witness_cmds witness_cfg witness_session (0, []) OperateDirect CommandSuccess three 2048
    FuncDirectOperate 4 (mem desk_start) three_built (mkControl true true false false 4) 0)
    as (frag & s' & w' & body & outs & rfrag & H1 & H2 & H3 & H4 & H5 & _).
  - discriminate.
  - vm_compute. discriminate.
  - repeat constructor; try (vm_compute; done || discriminate).
  - reflexivity.
  - lia.
  - exact three_builds.
  - vm_compute. split; discriminate || reflexivity.
  - vm_compute. split; discriminate || reflexivity.
  - exists frag, s', w', body, outs, rfrag. split; [exact H1|]. split; [exact H2|]. split; [exact H3|]. split; [exact H4 | exact H5].
Defined.

(** Three tasks, asked for, dropped and asked for again. *)
Lemma scheduler_refines_witness :
  let rs := [Push (newScanTask ClassAll); Push newClearRestartTask; Push (with_period 5 (newScanTask Class1)); Peek; Pop; Clear; Pop] in
  len rs < 2 ^ 64 /\ Forall2 same_answer (answers serve_heap (mkScheduler [] 0) rs) (answers serve_list ([], 0) rs).
Proof. intros rs. split; [reflexivity|]. apply scheduler_refines. reflexivity. Defined.

(** ** Runs that end badly *)

(** 256 set points with one-octet indexes fit in a fragment, and are announced as none: the
    outstation cannot take the request apart. *)
Definition many : list Command := (fun i => AnalogOutputInt16 i 0) <$> seqZ 0 256.
Definition many_built : Builder * option MasterErr :=
  (buildCommands many (SetHeader (NewBuilder 2048) (mkHeader (mkControl true true false false 4) FuncDirectOperate 0)).1 (mem desk_start)).2.
Example many_refused :
  match many_built.2 with None => true | Some _ => false end = true /\ (Bytes many_built.1) !! 5%nat = Some 0 /\
  (ParseRequest None (Bytes many_built.1)).2 <> None.
Proof. split; [vm_compute; reflexivity|]. split; [vm_compute; reflexivity|]. vm_compute. discriminate. Qed.

(** A periodic scan of a master with secure authentication is gone after one exchange of keys
    that is not answered. *)
Definition secure_config : Config :=
  mkConfig 1 10 (5 * second) (5 * second) false false 0 2048 2048 0 None (Some (mkSecureConfig 1 (replicate 16 9) 0 0)) false 0 second 0.
Definition secure_start : state := mkState (New secure_config every_handler desk_stack) (mkStore (1000 * second) ∅ 0 masterSecurity0) [] [] [] ∅ 0.
Definition scan_run : list action := [Call (CallAddPeriodicScan second ClassAll); Connect; Due; Wait (6 * second); Timer; Take; Due; Wait (6 * second); Timer].
Example periodic_scan_lost :
  all_allowed scan_run secure_start = true /\ length (held [] (acts (take 7 scan_run) secure_start)) = 1%nat /\
  length (held [] (acts scan_run secure_start)) = 0%nat.
Proof. split; [vm_compute; reflexivity|]. split; vm_compute; reflexivity. Qed.
(** The same run without it leaves the scan in the queue. *)
Example periodic_scan_kept : length (held [] (acts scan_run desk_start)) = 1%nat.
Proof. vm_compute. reflexivity. Qed.
