(* ===== verification/Multidrop.v ===== *)
(** * A line shared by several sessions (src/multidrop)

    A [Bus] owns one channel.  A pump reads the line and routes its frames to the stations
    they are addressed to; the stations' sessions write to the line one frame at a time, and
    the masters among them take turns.

    The goroutines of the source share the bus under mutexes.  Here each section under a
    mutex is a definition; [bus_step] lets the sections of different goroutines follow each
    other in any order, and the methods are the sections one after another.  A conversation
    of a goroutine that spans sections has its place in the state: the [phase] of a writer,
    the connections that are detached and not torn down yet, the frames that are routed and
    not queued yet.

    Connections and stations are numbered.  The line is a parameter: a state and a write.  A
    wait on a condition is a section that is not enabled; the timer of the arbiter, which
    only wakes those who wait, and the channels [up] and [dead] are left out for that
    reason. *)

From stdpp Require Import gmap.
From S2P Require Import Prelude LinkFrame LinkParser Transport.
From S2P Require AppHeader.

(** ** Stations *)

Record Station := mkStation { LocalAddr : Z; RemoteAddr : Z; Master : bool }.

Definition conflicts (s o : Station) : bool :=
  if negb (LocalAddr s =? LocalAddr o) then false
  else if negb (Master s) || negb (Master o) then true
  else RemoteAddr s =? RemoteAddr o.

Definition matches (s : Station) (h : LinkFrame.Header) : bool :=
  if Master s then (Dest h =? LocalAddr s) && (Src h =? RemoteAddr s)
  else (Dest h =? LocalAddr s) || IsBroadcast (Dest h).

(** ** arbiter.go *)

Record arbiter := mkArbiter { period : Z; holder : option nat; until : Z; arb_closed : bool }.

Definition extendLocked (now : Z) (a : arbiter) : arbiter := mkArbiter (period a) (holder a) (now + period a) (arb_closed a).
Definition holdLocked (now : Z) (c : nat) (a : arbiter) : arbiter :=
  extendLocked now (mkArbiter (period a) (Some c) (until a) (arb_closed a)).
Definition releaseLocked (a : arbiter) : arbiter := mkArbiter (period a) None (until a) (arb_closed a).

(** A turn of the loop of [acquire]: the arbiter and whether the line is closed, or a wait. *)
Definition acquire (now : Z) (c : nat) (a : arbiter) : option (arbiter * bool) :=
  if period a <=? 0 then Some (a, false)
  else if arb_closed a then Some (a, true)
  else
    match holder a with
    | None => Some (holdLocked now c a, false)
    | Some h =>
        if (h =? c)%nat || negb (now <? until a) then Some (holdLocked now c a, false) else None
    end.

Definition observe (now : Z) (c : nat) (complete : bool) (a : arbiter) : arbiter :=
  if period a <=? 0 then a
  else if bool_decide (holder a <> Some c) then a
  else if complete then releaseLocked a
  else extendLocked now a.

Definition release (c : nat) (a : arbiter) : arbiter :=
  if bool_decide (holder a = Some c) then releaseLocked a else a.
Definition arb_close (a : arbiter) : arbiter := releaseLocked (mkArbiter (period a) (holder a) (until a) true).

(** ** expectsReply *)

Definition expectsReply (frame : list Z) : bool :=
  if len frame <? LinkFrame.HeaderSize then false
  else if IsBroadcast (le_val (slice 4 6 frame)) then false
  else if negb (Prm (LinkFrame.ParseControl (at_ frame 3))) then false
  else if len frame <? LinkFrame.HeaderSize + 3 then true
  else if negb (Fir (Transport.ParseHeader (at_ frame LinkFrame.HeaderSize))) then true
  else
    let fn := at_ frame (LinkFrame.HeaderSize + 2) in
    negb (fn =? AppHeader.FuncConfirm) && negb (AppHeader.NoReply fn).

(** ** The bus *)

Definition DefaultTurnaround : Z := 2 * 1000000000.
Definition DefaultQueue : Z := 16.
Record Config := mkConfig { Turnaround : Z; Queue : Z }.
Definition applyDefaults (c : Config) : Config :=
  mkConfig (if Turnaround c =? 0 then DefaultTurnaround else if Turnaround c <? 0 then 0 else Turnaround c)
    (if Queue c <=? 0 then DefaultQueue else Queue c).

Record Stats := mkStats {
  Connections : Z; FramesRouted : Z; FramesUnrouted : Z; FramesDropped : Z; parser_stats : LinkParser.Stats }.

Section Bus.
Context {X E : Type} (w_Write : X -> nat -> list Z -> X * (Z * option E)).

Inductive BusErr := ErrClosed | errDisconnected | ErrUnusable | ErrConflict | ErrLine (e : E) | ErrChannel (e : E).

(** Where a writer is: outside [Write], waiting for its turn, about to write, or done
    writing. *)
Inductive phase := Idle | Waiting (p : list Z) | Turn (p : list Z) | Wrote (p : list Z) (n : Z) (err : option BusErr).

(** [w] is the line the connection was made on; [owed] says that the connection was torn
    down and has not given up the line yet. *)
Record conn := mkConn {
  st : nat; c_addr : Station; w : nat; rx : list (list Z); rem : list Z; done : bool; owed : bool; ph : phase }.
Record station := mkStationObj { addr : Station; cur : option nat; removed : bool }.

Record Bus := mkBus {
  cfg : Config; arb : arbiter; stations : list nat; objs : list station; conns : list conn;
  line : option nat; lines : nat; stopped : bool; err : option BusErr; closed : bool; stats : Stats;
  detached : list nat; routed : list (nat * list Z * bool); clock : Z; wire : X }.

Definition Bus_eta (b : Bus) : Bus :=
  mkBus (cfg b) (arb b) (stations b) (objs b) (conns b) (line b) (lines b) (stopped b) (err b) (closed b) (stats b)
    (detached b) (routed b) (clock b) (wire b).
Ltac updated proj :=
  let t := eval unfold Bus_eta in Bus_eta in
  match eval pattern proj in t with
  | ?F _ => let r := eval cbv beta in (fun v s => F (fun _ => v) s) in exact r
  end.
Definition set_arb : arbiter -> Bus -> Bus := ltac:(updated arb).
Definition set_stations : list nat -> Bus -> Bus := ltac:(updated stations).
Definition set_objs : list station -> Bus -> Bus := ltac:(updated objs).
Definition set_conns : list conn -> Bus -> Bus := ltac:(updated conns).
Definition set_line : option nat -> Bus -> Bus := ltac:(updated line).
Definition set_lines : nat -> Bus -> Bus := ltac:(updated lines).
Definition set_stopped : bool -> Bus -> Bus := ltac:(updated stopped).
Definition set_err : option BusErr -> Bus -> Bus := ltac:(updated err).
Definition set_closed : bool -> Bus -> Bus := ltac:(updated closed).
Definition set_stats : Stats -> Bus -> Bus := ltac:(updated stats).
Definition set_detached : list nat -> Bus -> Bus := ltac:(updated detached).
Definition set_routed : list (nat * list Z * bool) -> Bus -> Bus := ltac:(updated routed).
Definition set_clock : Z -> Bus -> Bus := ltac:(updated clock).
Definition set_wire : X -> Bus -> Bus := ltac:(updated wire).

Definition Stats0 : Stats := mkStats 0 0 0 0 (pstats NewParser).
Definition New (c : Config) (now : Z) (x : X) : Bus :=
  let c := applyDefaults c in
  mkBus c (mkArbiter (Turnaround c) None 0 false) [] [] [] None 0 false None false Stats0 [] [] now x.

Definition change_conn (c : nat) (f : conn -> conn) (b : Bus) : Bus := set_conns (alter f c (conns b)) b.
Definition change_station (i : nat) (f : station -> station) (b : Bus) : Bus := set_objs (alter f i (objs b)) b.

(** ** Stations come and go *)

Definition with_cur (v : option nat) (s : station) : station := mkStationObj (addr s) v (removed s).
Definition with_removed (v : bool) (s : station) : station := mkStationObj (addr s) (cur s) v.

(** The stations on the bus. *)
Definition present (b : Bus) : list station := omap (fun i => objs b !! i) (stations b).

Definition Add (s : Station) (b : Bus) : Bus * result BusErr nat :=
  if IsBroadcast (LocalAddr s) || IsReserved (LocalAddr s) then (b, Err ErrUnusable)
  else if closed b then (b, Err ErrClosed)
  else if existsb (fun o => conflicts (addr o) s) (present b) then (b, Err ErrConflict)
  else
    let i := length (objs b) in
    (set_stations (stations b ++ [i]) (set_objs (objs b ++ [mkStationObj s None false]) b), Ok i).

(** A connection that goes: [teardown] will follow. *)
Definition will_tear (o : option nat) (b : Bus) : Bus := set_detached (detached b ++ option_list o) b.

(** [station.Close], under the mutex. *)
Definition station_Close (i : nat) (b : Bus) : Bus :=
  match objs b !! i with
  | None => b
  | Some s =>
      will_tear (cur s)
        (set_stations (List.filter (fun j => negb (j =? i)%nat) (stations b))
           (change_station i (fun s => with_removed true (with_cur None s)) b))
  end.

(** A turn of the loop of [station.Connect]: a connection, an error, or a wait. *)
Definition station_Connect (i : nat) (b : Bus) : option (Bus * result BusErr nat) :=
  match objs b !! i with
  | None => None
  | Some s =>
      match err b with
      | Some e => Some (b, Err e)
      | None =>
          if closed b || stopped b || removed s then Some (b, Err ErrClosed)
          else
            match line b with
            | None => None
            | Some l =>
                let c := length (conns b) in
                let b' := set_conns (conns b ++ [mkConn i (addr s) l [] [] false false Idle]) b in
                Some (will_tear (cur s) (change_station i (with_cur (Some c)) b'), Ok c)
            end
      end
  end.

(** ** conn.go *)

Definition with_rx (v : list (list Z)) (c : conn) : conn := mkConn (st c) (c_addr c) (w c) v (rem c) (done c) (owed c) (ph c).
Definition with_rem (v : list Z) (c : conn) : conn := mkConn (st c) (c_addr c) (w c) (rx c) v (done c) (owed c) (ph c).
Definition with_done (v : bool) (c : conn) : conn := mkConn (st c) (c_addr c) (w c) (rx c) (rem c) v (owed c) (ph c).
Definition with_owed (v : bool) (c : conn) : conn := mkConn (st c) (c_addr c) (w c) (rx c) (rem c) (done c) v (ph c).
Definition with_ph (v : phase) (c : conn) : conn := mkConn (st c) (c_addr c) (w c) (rx c) (rem c) (done c) (owed c) v.

(** [Read] into a buffer of [n] octets: octets, the end, or a wait (a frame is never empty).  When there is a frame and
    the connection is gone, [first] says which case of the [select] is taken. *)
Definition conn_Read (c : nat) (n : Z) (first : bool) (b : Bus) : option (Bus * option (list Z)) :=
  match conns b !! c with
  | None => None
  | Some k =>
      let give (k : conn) :=
        Some (set_conns (<[c := with_rem (drop (Z.to_nat n) (rem k)) k]> (conns b)) b, Some (take (Z.to_nat n) (rem k))) in
      if negb (len (rem k) =? 0) then give k
      else
        match rx k with
        | f :: rest => if done k && negb first then Some (b, None) else give (with_rem f (with_rx rest k))
        | [] => if done k then Some (b, None) else None
        end
  end.

(** [Write], section by section. *)
Definition write_begin (c : nat) (p : list Z) (b : Bus) : Bus * option BusErr :=
  match conns b !! c with
  | None => (b, None)
  | Some k =>
      if done k then (b, Some errDisconnected)
      else (change_conn c (with_ph (if Master (c_addr k) then Waiting p else Turn p)) b, None)
  end.
Definition write_acquire (c : nat) (b : Bus) : option (Bus * option BusErr) :=
  match ph <$> conns b !! c with
  | Some (Waiting p) =>
      match acquire (clock b) c (arb b) with
      | None => None
      | Some (a, true) => Some (change_conn c (with_ph Idle) (set_arb a b), Some ErrClosed)
      | Some (a, false) => Some (change_conn c (with_ph (Turn p)) (set_arb a b), None)
      end
  | _ => None
  end.
Definition write_line (c : nat) (b : Bus) : option Bus :=
  match conns b !! c with
  | Some k =>
      match ph k with
      | Turn p =>
          Some (if done k then change_conn c (with_ph (Wrote p 0 (Some errDisconnected))) b
                else let '(x, (n, e)) := w_Write (wire b) (w k) p in
                     change_conn c (with_ph (Wrote p n (ErrLine <$> e))) (set_wire x b))
      | _ => None
      end
  | None => None
  end.
Definition write_end (c : nat) (b : Bus) : option (Bus * (Z * option BusErr)) :=
  match conns b !! c with
  | Some k =>
      match ph k with
      | Wrote p n e =>
          let b := if Master (c_addr k) && (bool_decide (is_Some e) || negb (expectsReply p))
                   then set_arb (release c (arb b)) b else b in
          Some (change_conn c (with_ph Idle) b, (n, e))
      | _ => None
      end
  | None => None
  end.

(** [conn.Close], under the mutex. *)
Definition conn_Close (c : nat) (b : Bus) : Bus :=
  match conns b !! c with
  | None => b
  | Some k =>
      let b := change_station (st k) (fun s => if bool_decide (cur s = Some c) then with_cur None s else s) b in
      will_tear (Some c) b
  end.

(** [teardown] of a connection that is detached, its two statements. *)
Definition teardown (c : nat) (b : Bus) : Bus :=
  let b := set_detached (List.filter (fun d => negb (d =? c)%nat) (detached b)) b in
  change_conn c (fun k => if done k then k else with_owed true (with_done true k)) b.
Definition give_back (c : nat) (b : Bus) : Bus :=
  match conns b !! c with
  | Some k => if owed k then change_conn c (with_owed false) (set_arb (release c (arb b)) b) else b
  | None => b
  end.

Definition push (c : nat) (frame : list Z) (b : Bus) : Bus * bool :=
  match conns b !! c with
  | None => (b, false)
  | Some k => if len (rx k) <? Queue (cfg b) then (change_conn c (with_rx (rx k ++ [frame])) b, true) else (b, false)
  end.

(** ** multidrop.go *)

Definition die (e : option BusErr) (b : Bus) : Bus :=
  set_err (match err b with None => e | Some _ => err b end) (set_stopped true b).

Definition detachAllLocked (b : Bus) : Bus * list nat :=
  let live := omap cur (present b) in
  (set_objs (imap (fun i s => if bool_decide (i ∈ stations b) then with_cur None s else s) (objs b)) b, live).
Definition attach (b : Bus) : Bus * bool :=
  if closed b then (b, false)
  else
    let s := stats b in
    (set_lines (S (lines b)) (set_line (Some (lines b))
       (set_stats (mkStats (u64 (Connections s + 1)) (FramesRouted s) (FramesUnrouted s) (FramesDropped s) (parser_stats s)) b)), true).
Definition detach (b : Bus) : Bus :=
  let '(b, live) := detachAllLocked (set_line None b) in set_detached (detached b ++ live) b.

(** [Close], up to the end of its first section, and what follows it. *)
Definition close_begin (b : Bus) : Bus :=
  if closed b then b
  else let '(b, live) := detachAllLocked (set_line None (set_closed true b)) in set_detached (detached b ++ live) b.
Definition close_arbiter (b : Bus) : Bus := set_arb (arb_close (arb b)) b.
(** Everybody who is detached is torn down and gives back the line. *)
Definition teardown_all (b : Bus) : Bus := fold_left (fun b c => give_back c (teardown c b)) (detached b) b.
Definition Close (b : Bus) : Bus :=
  if closed b then b else teardown_all (close_arbiter (die None (close_begin b))).

(** [route], under the mutex: the connections a frame goes to. *)
Definition targets (h : LinkFrame.Header) (b : Bus) : list nat :=
  omap (fun s => if matches (addr s) h then cur s else None) (present b).
Definition is_complete (f : Frame) : bool :=
  (0 <? len (Payload f)) && Fin (Transport.ParseHeader (at_ (Payload f) 0)).
Definition route_select (f : Frame) (b : Bus) : Bus :=
  let ts := targets (FHeader f) b in
  let s := stats b in
  match ts with
  | [] => set_stats (mkStats (Connections s) (FramesRouted s) (u64 (FramesUnrouted s + 1)) (FramesDropped s) (parser_stats s)) b
  | _ =>
      let b := set_stats (mkStats (Connections s) (u64 (FramesRouted s + 1)) (FramesUnrouted s) (FramesDropped s) (parser_stats s)) b in
      match Encode [] (FHeader f) (Payload f) with
      | Err _ => b
      | Ok out => set_routed (routed b ++ ((fun c => (c, out, is_complete f)) <$> ts)) b
      end
  end.
(** One turn of the loop over the connections. *)
Definition route_push (b : Bus) : Bus :=
  match routed b with
  | [] => b
  | (c, out, complete) :: rest =>
      let '(b, fits) := push c out (set_routed rest b) in
      if fits : bool then set_arb (observe (clock b) c complete (arb b)) b
      else
        let s := stats b in
        set_stats (mkStats (Connections s) (FramesRouted s) (FramesUnrouted s) (u64 (FramesDropped s + 1)) (parser_stats s)) b
  end.
Definition route (f : Frame) (b : Bus) : Bus :=
  let b := route_select f b in Nat.iter (length (routed b)) route_push b.

(** The frames in the parser, and then the octets of a read.  A turn takes a frame out of the
    buffer, or an octet out of what was read, so the fuel given is enough. *)
Fixpoint feed_frames (fuel : nat) (p : Parser) (b : Bus) : option (Parser * Bus) :=
  match fuel with
  | O => None
  | S fuel =>
      match LinkParser.Next p with
      | (p, Err _) => Some (p, b)
      | (p, Ok f) => feed_frames fuel p (route f b)
      end
  end.
Fixpoint feed (fuel : nat) (p : Parser) (b : Bus) (data : list Z) : option (Parser * Bus) :=
  match fuel with
  | O => None
  | S fuel =>
      if len data =? 0 then Some (p, b)
      else
        let '(p, n, werr) := LinkParser.Write p data in
        let data := drop (Z.to_nat n) data in
        '(p, b) ← feed_frames (S (Z.to_nat (Buffered p))) p b;
        if bool_decide (is_Some werr) && (n =? 0) then Some (p, b) else feed fuel p b data
  end.

(** The parser's counters since [prev] are added. *)
Definition add_since (cur prev total : LinkParser.Stats) : LinkParser.Stats :=
  let d (f : LinkParser.Stats -> Z) := u64 (f total + u64 (f cur - f prev)) in
  LinkParser.mkStats (d FramesDecoded) (d BytesDiscarded) (d HeaderCRCErrors) (d BodyCRCErrors) (d BadLength) (d Resyncs).
Definition syncParserStats (p : Parser) (prev : LinkParser.Stats) (b : Bus) : Bus * LinkParser.Stats :=
  let s := stats b in
  (set_stats (mkStats (Connections s) (FramesRouted s) (FramesUnrouted s) (FramesDropped s)
     (add_since (pstats p) prev (parser_stats s))) b, pstats p).

(** The reads of one connection. *)
Fixpoint read (reads : list (list Z)) (p : Parser) (prev : LinkParser.Stats) (b : Bus) : option (Parser * LinkParser.Stats * Bus) :=
  match reads with
  | [] => Some (p, prev, b)
  | data :: reads =>
      if len data =? 0 then read reads p prev b
      else
        '(p, b) ← feed (S (length data)) p b data;
        let '(b, prev) := syncParserStats p prev b in
        read reads p prev b
  end.

(** One turn of the loop of [pump]: what [Connect] returned, if it was called, with the reads
    until the connection failed; [cancelled] says whether the bus was shut down before and
    after that.  The result says whether the loop goes on. *)
Inductive dialled := Line (reads : list (list Z)) | Failed (e : E) | ChannelClosed.
Definition pump (cancelled : bool * bool) (d : dialled) (b : Bus) : option (Bus * bool) :=
  if cancelled.1 then Some (die None b, false)
  else
    match d with
    | Failed e => Some (die (if cancelled.2 then None else Some (ErrChannel e)) b, false)
    | ChannelClosed => Some (die None b, false)
    | Line reads =>
        let '(b, attached) := attach b in
        if negb attached then Some (die None b, false)
        else '(_, _, b) ← read reads NewParser (pstats NewParser) b; Some (teardown_all (detach b), true)
    end.

(** ** Steps *)

Inductive action :=
| DoAdd (s : Station) | DoStationClose (i : nat) | DoConnect (i : nat) | DoRead (c : nat) (n : Z) (first : bool)
| DoWriteBegin (c : nat) (p : list Z) | DoAcquire (c : nat) | DoWriteLine (c : nat) | DoWriteEnd (c : nat)
| DoConnClose (c : nat) | DoTeardown (c : nat) | DoGiveBack (c : nat)
| DoAttach | DoDetach | DoDie (e : option BusErr) | DoCloseBegin | DoCloseArbiter
| DoRouteSelect (f : Frame) | DoRoutePush | DoTick (d : Z).

(** A session writes one frame at a time, and the pump routes one frame at a time. *)
Definition act (a : action) (b : Bus) : option Bus :=
  match a with
  | DoAdd s => Some (Add s b).1
  | DoStationClose i => Some (station_Close i b)
  | DoConnect i => fst <$> station_Connect i b
  | DoRead c n first => fst <$> conn_Read c n first b
  | DoWriteBegin c p => match ph <$> conns b !! c with Some Idle => Some (write_begin c p b).1 | _ => None end
  | DoAcquire c => fst <$> write_acquire c b
  | DoWriteLine c => write_line c b
  | DoWriteEnd c => fst <$> write_end c b
  | DoConnClose c => Some (conn_Close c b)
  | DoTeardown c => if bool_decide (c ∈ detached b) then Some (teardown c b) else None
  | DoGiveBack c => Some (give_back c b)
  | DoAttach => Some (attach b).1
  | DoDetach => Some (detach b)
  | DoDie e => Some (die e b)
  | DoCloseBegin => Some (close_begin b)
  | DoCloseArbiter => if closed b then Some (close_arbiter b) else None
  | DoRouteSelect f => match routed b with [] => Some (route_select f b) | _ => None end
  | DoRoutePush => Some (route_push b)
  | DoTick d => if 0 <=? d then Some (set_clock (clock b + d) b) else None
  end.

Inductive reachable (c : Config) : Bus -> Prop :=
| reachable_new now x : reachable c (New c now x)
| reachable_step a b b' : reachable c b -> act a b = Some b' -> reachable c b'.

(** ** No two stations want the same frame *)

Definition usable (s : Station) : bool := negb (IsBroadcast (LocalAddr s)) && negb (IsReserved (LocalAddr s)).
(** What routing depends on. *)
Definition places (b : Bus) : list nat * list Station := (stations b, addr <$> objs b).
(** [i] is a station on the bus, at [s]. *)
Definition placed (b : Bus) (i : nat) (s : Station) : Prop := i ∈ stations b /\ (addr <$> objs b) !! i = Some s.
Lemma placed_places b b' i s : places b' = places b -> placed b' i s <-> placed b i s.
Proof. unfold places, placed. by intros [= -> ->]. Qed.

Lemma fmap_alter_addr (f : station -> station) (i : nat) (l : list station) : (forall s, addr (f s) = addr s) -> addr <$> alter f i l = addr <$> l.
Proof.
  intros Hf. apply list_eq. intros j. rewrite !list_lookup_fmap. destruct (decide (i = j)) as [->|Hn].
  - rewrite list_lookup_alter_eq. destruct (l !! j); cbn; by rewrite ?Hf.
  - by rewrite list_lookup_alter_ne.
Qed.
Lemma change_station_places i f b : (forall s, addr (f s) = addr s) -> places (change_station i f b) = places b.
Proof. intros Hf. unfold places, change_station. cbn. by rewrite fmap_alter_addr. Qed.
Lemma detachAll_places b : places (detachAllLocked b).1 = places b.
Proof.
  unfold places, detachAllLocked. cbn. f_equal. apply list_eq. intros j. rewrite !list_lookup_fmap, list_lookup_imap.
  destruct (objs b !! j) as [s|]; [|done]. cbn. by destruct (bool_decide _).
Qed.

(** Only a station that comes or goes changes the places. *)
Lemma act_places a b b' : act a b = Some b' ->
  match a with DoAdd s => b' = (Add s b).1 | DoStationClose i => b' = station_Close i b | _ => places b' = places b end.
Proof.
  destruct a as [s|i|i|c n fs|c p|c|c|c|c|c|c| | |e| | |f| |d]; cbn [act]; intros H.
  - by injection H.
  - by injection H.
  - unfold station_Connect in H. destruct (objs b !! i) as [s|]; [|done]. destruct (err b); [by injection H as <-|].
    destruct (_ || _ || _); [by injection H as <-|]. destruct (line b) as [l|]; [|done]. injection H as <-.
    set (b1 := set_conns _ b). change (places (change_station i (with_cur (Some (length (conns b)))) b1) = places b1).
    by apply change_station_places.
  - unfold conn_Read in H. destruct (conns b !! c) as [k|]; [|done]. destruct (negb _); [by injection H as <-|].
    destruct (rx k); [destruct (done k); [by injection H as <-|done] | destruct (_ && _); by injection H as <-].
  - destruct (conns b !! c) as [k|] eqn:Ek; [|done]. cbn in H. destruct (ph k); try done. injection H as <-.
    unfold write_begin. rewrite Ek. by destruct (done k).
  - unfold write_acquire in H. destruct (ph <$> _) as [[]|]; try done. destruct (acquire _ _ _) as [[a' []]|]; [by injection H as <-..|done].
  - unfold write_line in H. destruct (conns b !! c) as [k|]; [|done]. destruct (ph k); try done. injection H as <-. destruct (done k); [done|].
    by destruct (w_Write _ _ _) as [x [n e]].
  - unfold write_end in H. destruct (conns b !! c) as [k|]; [|done]. destruct (ph k); try done. injection H as <-. by destruct (_ && _).
  - injection H as <-. unfold conn_Close. destruct (conns b !! c) as [k|]; [|done]. set (f := fun s => _).
    change (places (change_station (st k) f b) = places b). apply change_station_places. intros s. unfold f. by destruct (bool_decide _).
  - destruct (bool_decide _); [by injection H as <- | done].
  - injection H as <-. unfold give_back. destruct (conns b !! c) as [k|]; [|done]. by destruct (owed k).
  - injection H as <-. unfold attach. by destruct (closed b).
  - injection H as <-. unfold detach. pose proof (detachAll_places (set_line None b)) as Hd. by destruct (detachAllLocked _).
  - by injection H as <-.
  - injection H as <-. unfold close_begin. destruct (closed b); [done|].
    pose proof (detachAll_places (set_line None (set_closed true b))) as Hd. by destruct (detachAllLocked _).
  - destruct (closed b); [by injection H as <- | done].
  - destruct (routed b); [|done]. injection H as <-. unfold route_select. destruct (targets _ _); [done|]. by destruct (Encode _ _ _).
  - injection H as <-. unfold route_push. destruct (routed b) as [|[[c out] cm] rest]; [done|].
    assert (Hp : places (push c out (set_routed rest b)).1 = places b).
    { unfold push. cbn. destruct (conns b !! c); [|done]. by destruct (_ <? _). }
    destruct (push c out (set_routed rest b)) as [b1 []]; exact Hp.
  - destruct (0 <=? d); [by injection H as <- | done].
Qed.

Record roster (b : Bus) : Prop := mkRoster {
  ro_apart i j s o : placed b i s -> placed b j o -> i <> j -> conflicts s o = false;
  ro_usable i s : placed b i s -> usable s = true }.

Lemma conflicts_sym s o : conflicts s o = conflicts o s.
Proof.
  unfold conflicts. rewrite (Z.eqb_sym (LocalAddr o)), (Z.eqb_sym (RemoteAddr o)), (orb_comm (negb (Master o))). done.
Qed.
Lemma Add_roster s b : roster b -> Forall (fun i => (i < length (objs b))%nat) (stations b) -> roster (Add s b).1.
Proof.
  intros [H1 H2] Hk. unfold Add. destruct (_ || _) eqn:Eu; [done|]. destruct (closed b); [done|].
  destruct (existsb _ _) eqn:Ec; [done|]. cbn [fst]. set (b' := set_stations _ _).
  assert (Hp : forall i o, placed b' i o -> (i = length (objs b) /\ o = s) \/ placed b i o).
  { intros i o [Hin Ho]. cbn in Hin, Ho. rewrite fmap_app in Ho. apply elem_of_app in Hin as [Hin|Hin].
    - right. split; [done|]. rewrite Forall_forall in Hk. specialize (Hk _ Hin). by rewrite lookup_app_l in Ho by (rewrite length_fmap; lia).
    - apply list_elem_of_singleton in Hin as ->. left. split; [done|]. rewrite lookup_app_r in Ho by (rewrite length_fmap; lia).
      rewrite length_fmap, Nat.sub_diag in Ho. cbn in Ho. congruence. }
  assert (Hc : forall i o, placed b i o -> conflicts o s = false).
  { intros i o [Hin Ho]. rewrite list_lookup_fmap in Ho. destruct (objs b !! i) as [x|] eqn:Ex; [|done]. injection Ho as <-.
    apply not_true_iff_false. intros Hx. rewrite <- not_true_iff_false in Ec. apply Ec, existsb_exists. exists x. split; [|done].
    apply list_elem_of_In. unfold present. apply list_elem_of_omap. by exists i. }
  split.
  - intros i j s1 o1 Hi Hj Hn. destruct (Hp _ _ Hi) as [[-> ->]|Hi'], (Hp _ _ Hj) as [[-> ->]|Hj']; [done| | |by eapply H1].
    + rewrite conflicts_sym. by eapply Hc.
    + by eapply Hc.
  - intros i o Hi. destruct (Hp _ _ Hi) as [[-> ->]|Hi']; [|by eapply H2]. unfold usable. apply orb_false_iff in Eu as [-> ->]. done.
Qed.
Lemma station_Close_placed i b j s : placed (station_Close i b) j s -> placed b j s.
Proof.
  unfold station_Close. destruct (objs b !! i) as [o|]; [|done]. unfold placed, will_tear, change_station. cbn.
  rewrite fmap_alter_addr by done. intros [Hin Ho]. split; [|done]. apply list_elem_of_In in Hin. apply filter_In in Hin as [Hin _].
  by apply list_elem_of_In.
Qed.

Lemma reachable_roster c b : reachable c b -> roster b /\ Forall (fun i => (i < length (objs b))%nat) (stations b).
Proof.
  induction 1 as [now x|a b b' _ [IH IHk] Ha]; [split; [split|constructor]; by intros ? ? [Hin%elem_of_nil _] || (intros ? ? ? ? [Hin%elem_of_nil _])|].
  pose proof (act_places _ _ _ Ha) as Hp.
  assert (Hsame : places b' = places b -> roster b' /\ Forall (fun i => (i < length (objs b'))%nat) (stations b')).
  { intros E1. split.
    - split; intros *; rewrite !(placed_places _ _ _ _ E1); apply IH.
    - assert (length (objs b') = length (objs b)) as ->; [|unfold places in E1; by injection E1 as -> _].
      unfold places in E1. injection E1 as _ E1. apply (f_equal length) in E1. by rewrite !length_fmap in E1. }
  destruct a; try (by apply Hsame); subst b'.
  - split; [by apply Add_roster|]. unfold Add. destruct (_ || _); [done|]. destruct (closed b); [done|]. destruct (existsb _ _); [done|].
    cbn. rewrite length_app. cbn. apply Forall_app. split; [eapply Forall_impl; [exact IHk|]; cbn; lia | constructor; [lia|done]].
  - split.
    + split; [intros j k s o Hj Hk; apply (ro_apart _ IH j k) | intros j s Hj; apply (ro_usable _ IH j)]; by eapply station_Close_placed.
    + unfold station_Close. destruct (objs b !! i); [|done]. cbn. rewrite length_alter. apply Forall_forall. intros j Hj.
      apply list_elem_of_In, filter_In in Hj as [Hj _]. rewrite Forall_forall in IHk. by apply IHk, list_elem_of_In.
Qed.

Lemma matches_conflict s o h : IsBroadcast (Dest h) = false -> matches s h = true -> matches o h = true -> conflicts s o = true.
Proof.
  intros Hb. unfold matches, conflicts. rewrite Hb, !orb_false_r.
  destruct (Master s), (Master o); rewrite ?andb_true_iff, ?Z.eqb_eq; intros Hs Ho; destruct_and?; subst; rewrite ?Z.eqb_refl; cbn; try done.
  all: by rewrite ?(proj2 (Z.eqb_eq _ _)) by congruence.
Qed.

(** ** The line is not lost *)

(** A connection that has the line and is dead is about to give it back. *)
Definition returning (k : conn) : Prop :=
  owed k = true \/ (exists p, ph k = Turn p) \/ exists p n e, ph k = Wrote p n (Some e).
Record turns (b : Bus) : Prop := mkTurns {
  tu_holder c : holder (arb b) = Some c ->
    exists k, conns b !! c = Some k /\ Master (c_addr k) = true /\ (done k = true -> returning k);
  tu_current c k : conns b !! c = Some k -> done k = false ->
    c ∈ detached b \/ exists s, objs b !! st k = Some s /\ cur s = Some c;
  tu_waiting c k p : conns b !! c = Some k -> ph k = Waiting p -> Master (c_addr k) = true }.

Definition turning (b : Bus) := (arb b, conns b, objs b, detached b).
Lemma turns_same b b' : turning b' = turning b -> turns b -> turns b'.
Proof. unfold turning. intros [= E1 E2 E3 E4] [H1 H2 H3]. split; rewrite ?E1, ?E2, ?E3, ?E4; done. Qed.

(** The arbiter lets go, or keeps its holder. *)
Definition lets_go (a a' : arbiter) : Prop := holder a' = None \/ holder a' = holder a.
Lemma turns_arb a b : lets_go (arb b) a -> turns b -> turns (set_arb a b).
Proof. intros [E1|E1] [H1 H2 H3]; split; cbn; rewrite ?E1; done. Qed.
Lemma release_lets_go c a : lets_go a (release c a) /\ holder (release c a) <> Some c.
Proof. unfold release, lets_go. destruct (bool_decide_reflect (holder a = Some c)); split; cbn; auto. Qed.
Lemma observe_lets_go now c m a : lets_go a (observe now c m a).
Proof. unfold observe, lets_go. destruct (_ <=? _); [auto|]. destruct (bool_decide _); [auto|]. destruct m; cbn; auto. Qed.

(** A connection changes in its queue, or in its phase. *)
Lemma turns_conn c f b :
  (forall k, conns b !! c = Some k -> c_addr (f k) = c_addr k /\ st (f k) = st k /\ (done (f k) = false -> done k = false)) ->
  (forall k, conns b !! c = Some k -> holder (arb b) = Some c -> (done k = true -> returning k) -> done (f k) = true -> returning (f k)) ->
  (forall k p, conns b !! c = Some k -> ph (f k) = Waiting p -> ph k = Waiting p \/ Master (c_addr k) = true) ->
  turns b -> turns (change_conn c f b).
Proof.
  intros Hf Hr Hw [H1 H2 H3]. split; cbn.
  - intros c' Hc. destruct (H1 c' Hc) as (k & Hk & Hm & Hd). destruct (decide (c = c')) as [<-|Hn].
    + exists (f k). rewrite list_lookup_alter_eq, Hk. split; [done|]. destruct (Hf _ Hk) as (-> & _). split; [done|]. by apply Hr.
    + exists k. by rewrite list_lookup_alter_ne.
  - intros c' k Hk Hd. destruct (decide (c = c')) as [<-|Hn].
    + rewrite list_lookup_alter_eq in Hk. destruct (conns b !! c) as [k0|] eqn:E0; [|done]. injection Hk as <-.
      destruct (Hf _ eq_refl) as (_ & -> & Hdd). apply (H2 c k0); auto.
    + rewrite list_lookup_alter_ne in Hk by done. by apply H2.
  - intros c' k p Hk Hp. destruct (decide (c = c')) as [<-|Hn].
    + rewrite list_lookup_alter_eq in Hk. destruct (conns b !! c) as [k0|] eqn:E0; [|done]. injection Hk as <-.
      destruct (Hf _ eq_refl) as (-> & _). destruct (Hw _ p eq_refl Hp) as [?|?]; [by eapply (H3 c) | done].
    + rewrite list_lookup_alter_ne in Hk by done. by eapply H3.
Qed.
(** A connection is detached, and may then leave its station. *)
Lemma turns_detached l b : turns b -> turns (set_detached (detached b ++ l) b).
Proof. intros [H1 H2 H3]. split; [done| |done]. cbn. intros c k Hk Hd. destruct (H2 c k Hk Hd); [left; apply elem_of_app; by left | by right]. Qed.
Lemma turns_station i f b :
  (forall s c, objs b !! i = Some s -> cur s = Some c -> c ∈ detached b \/ cur (f s) = Some c) -> turns b -> turns (change_station i f b).
Proof.
  intros Hf [H1 H2 H3]. split; [done| |done]. cbn. intros c k Hk Hd. destruct (H2 c k Hk Hd) as [?|(s & Hs & Hc)]; [by left|].
  destruct (decide (i = st k)) as [->|Hn].
  - rewrite list_lookup_alter_eq, Hs. destruct (Hf s c Hs Hc); [by left|]. right. by exists (f s).
  - right. exists s. by rewrite list_lookup_alter_ne.
Qed.
Lemma set_detached_swap_station l i f b : set_detached l (change_station i f b) = change_station i f (set_detached l b).
Proof. done. Qed.

Lemma turns_detachAll b : turns b -> let '(b', live) := detachAllLocked b in turns (set_detached (detached b' ++ live) b').
Proof.
  intros [H1 H2 H3]. unfold detachAllLocked. cbn. split; [done| |done]. cbn. intros c k Hk Hd. destruct (H2 c k Hk Hd) as [?|(s & Hs & Hc)].
  - left. apply elem_of_app. by left.
  - rewrite list_lookup_imap, Hs. cbn. destruct (bool_decide_reflect (st k ∈ stations b)) as [Hin|Hn].
    + left. apply elem_of_app. right. unfold present. apply list_elem_of_omap. exists s. split; [|done]. apply list_elem_of_omap. by exists (st k).
    + right. by exists s.
Qed.
Lemma turns_stats v b : turns b -> turns (set_stats v b).
Proof. by apply turns_same. Qed.

Lemma acquire_holder now c a a' closed : acquire now c a = Some (a', closed) ->
  holder a' = holder a \/ (closed = false /\ holder a' = Some c).
Proof.
  unfold acquire. destruct (_ <=? _); [intros [= <- <-]; by left|]. destruct (arb_closed a); [intros [= <- <-]; by left|].
  destruct (holder a) as [h|]; [destruct (_ || _); [|done]|]; intros [= <- <-]; by right.
Qed.

Lemma turns_acquire c b b' e : turns b -> write_acquire c b = Some (b', e) -> turns b'.
Proof.
  intros HT. unfold write_acquire. destruct (conns b !! c) as [k|] eqn:Ek; [|done]. cbn. destruct (ph k) as [|p|p|p n e0] eqn:Ep; try done.
  assert (Hsame : forall a, holder a = holder (arb b) -> forall q, (q = Idle \/ q = Turn p) -> turns (change_conn c (with_ph q) (set_arb a b))).
  { intros a Ea q Hq. apply turns_conn; cbn; [by intros k' _ | | by destruct Hq as [-> | ->] | apply turns_arb; [by right | done]].
    rewrite Ek. intros k' [= <-] _ Hr Hd. cbn in Hd. destruct Hq as [-> | ->]; [|right; left; by exists p].
    destruct (Hr Hd) as [?|[[? ?]|(? & ? & ? & ?)]]; [by left | congruence..]. }
  destruct (acquire _ _ _) as [[a []]|] eqn:Ea; [| |done]; intros [= <- _]; apply acquire_holder in Ea as [Ea|[Ec Ea]]; try done.
  - apply Hsame; auto.
  - apply Hsame; auto.
  - destruct HT as [H1 H2 H3]. split; cbn.
    + rewrite Ea. intros c' [= <-]. exists (with_ph (Turn p) k). rewrite list_lookup_alter_eq, Ek. split; [done|]. split; [exact (H3 c k p Ek Ep)|].
      intros _. right; left. by exists p.
    + intros c' k' Hk' Hd. destruct (decide (c = c')) as [<-|Hn].
      * rewrite list_lookup_alter_eq, Ek in Hk'. injection Hk' as <-. by apply (H2 c k).
      * rewrite list_lookup_alter_ne in Hk' by done. by apply H2.
    + intros c' k' p' Hk' Hp'. destruct (decide (c = c')) as [<-|Hn].
      * rewrite list_lookup_alter_eq, Ek in Hk'. by injection Hk' as <-.
      * rewrite list_lookup_alter_ne in Hk' by done. by eapply H3.
Qed.

Lemma turns_phase c q b :
  (forall k, conns b !! c = Some k -> done k = true -> returning k -> returning (with_ph q k)) ->
  (forall k p, conns b !! c = Some k -> q = Waiting p -> Master (c_addr k) = true) ->
  turns b -> turns (change_conn c (with_ph q) b).
Proof. intros Hr Hw. apply turns_conn; cbn; [done | | by right; eapply Hw]. intros k Hk _ Hd Hdd. by apply Hr, Hd. Qed.
(** A connection changes in its queues. *)
Lemma turns_queue c f b :
  (forall k, c_addr (f k) = c_addr k /\ st (f k) = st k /\ done (f k) = done k /\ owed (f k) = owed k /\ ph (f k) = ph k) ->
  turns b -> turns (change_conn c f b).
Proof.
  intros Hf. apply turns_conn; cbn.
  - intros k _. destruct (Hf k) as (? & ? & Hd & _). split_and!; congruence.
  - intros k _ _ Hr Hd. destruct (Hf k) as (_ & _ & E1 & E2 & E3). unfold returning in *. rewrite E2, E3. apply Hr. congruence.
  - intros k p _ Hp. left. destruct (Hf k) as (_ & _ & _ & _ & E3). congruence.
Qed.
Lemma turns_push c out b : turns b -> turns (push c out b).1.
Proof.
  intros H. unfold push. destruct (conns b !! c) as [k|] eqn:Ek; [|done]. destruct (_ <? _); [|done]. by apply turns_queue.
Qed.
Lemma turns_route_push b : turns b -> turns (route_push b).
Proof.
  intros H. unfold route_push. destruct (routed b) as [|[[c out] cm] rest]; [done|].
  pose proof (turns_push c out (set_routed rest b) (turns_same b (set_routed rest b) eq_refl H)) as Hp.
  destruct (push c out (set_routed rest b)) as [b1 []]; cbn [fst] in Hp; [apply turns_arb; [apply observe_lets_go | done] | by apply turns_stats].
Qed.
Lemma turns_connect i b b' r : turns b -> station_Connect i b = Some (b', r) -> turns b'.
Proof.
  intros HT. unfold station_Connect. destruct (objs b !! i) as [s|] eqn:Es; [|done]. destruct (err b); [by intros [= <- _]|].
  destruct (_ || _ || _); [by intros [= <- _]|]. destruct (line b) as [l|]; [|done]. intros [= <- _].
  destruct HT as [H1 H2 H3]. split; cbn.
  - intros c Hc. destruct (H1 c Hc) as (k & Hk & Hr). exists k. split; [|done]. rewrite lookup_app_l; [done | by eapply lookup_lt_Some].
  - intros c k Hk Hd. apply lookup_app_Some in Hk as [Hk|[Hl Hk]].
    + destruct (H2 c k Hk Hd) as [Hin|(s' & Hs' & Hc)]; [left; apply elem_of_app; by left|].
      destruct (decide (i = st k)) as [E1|Hn].
      * rewrite E1, Hs' in Es. injection Es as ->. left. apply elem_of_app. right. rewrite Hc. by apply list_elem_of_singleton.
      * right. exists s'. by rewrite list_lookup_alter_ne.
    + destruct (c - length (conns b))%nat as [|m] eqn:Em; [|done]. injection Hk as <-. right. cbn.
      exists (with_cur (Some (length (conns b))) s). rewrite list_lookup_alter_eq, Es. split; [done|]. cbn. f_equal. lia.
  - intros c k p Hk Hp. apply lookup_app_Some in Hk as [Hk|[Hl Hk]]; [by eapply H3|].
    destruct (c - length (conns b))%nat; [|done]. by injection Hk as <-.
Qed.
Lemma turns_teardown c b : turns b -> turns (teardown c b).
Proof.
  intros [H1 H2 H3]. unfold teardown. set (f := fun k : conn => _). split; cbn.
  - intros c' Hc. destruct (H1 c' Hc) as (k & Hk & Hm & Hd). destruct (decide (c = c')) as [<-|Hn].
    + exists (f k). rewrite list_lookup_alter_eq, Hk. split; [done|]. unfold f. destruct (done k) eqn:Ed; (split; [done|]; intros _); [by apply Hd | by left].
    + exists k. by rewrite list_lookup_alter_ne.
  - intros c' k Hk Hd. destruct (decide (c = c')) as [<-|Hn].
    + rewrite list_lookup_alter_eq in Hk. destruct (conns b !! c) as [k0|]; [|done]. injection Hk as <-. unfold f in Hd.
      destruct (done k0) eqn:Ed; [congruence | discriminate Hd].
    + rewrite list_lookup_alter_ne in Hk by done. destruct (H2 c' k Hk Hd) as [Hin|?]; [|by right]. left. apply list_elem_of_In, filter_In.
      split; [by apply list_elem_of_In|]. apply negb_true_iff, Nat.eqb_neq. congruence.
  - intros c' k p Hk Hp. destruct (decide (c = c')) as [<-|Hn].
    + rewrite list_lookup_alter_eq in Hk. destruct (conns b !! c) as [k0|] eqn:E0; [|done]. injection Hk as <-. unfold f in *. destruct (done k0); by eapply (H3 c k0).
    + rewrite list_lookup_alter_ne in Hk by done. by eapply H3.
Qed.
Lemma turns_release c b f :
  (forall k, c_addr (f k) = c_addr k /\ st (f k) = st k /\ done (f k) = done k) ->
  (forall k p, conns b !! c = Some k -> ph (f k) = Waiting p -> ph k = Waiting p) ->
  turns b -> turns (change_conn c f (set_arb (release c (arb b)) b)).
Proof.
  intros Hf Hp HT. destruct (release_lets_go c (arb b)) as [Hl Hn]. apply turns_conn; cbn; [| | |by apply turns_arb].
  - intros k _. destruct (Hf k) as (? & ? & ?). split_and!; congruence.
  - intros k _ Hc. done.
  - intros k p Hk Hq. left. by eapply Hp.
Qed.

Lemma act_turns a b b' : act a b = Some b' -> turns b -> turns b'.
Proof.
  intros H HT. destruct a as [s|i|i|c n fs|c p|c|c|c|c|c|c| | |e| | |f| |d]; cbn [act] in H.
  - injection H as <-. unfold Add. destruct (_ || _); [done|]. destruct (closed b); [done|]. destruct (existsb _ _); [done|].
    destruct HT as [H1 H2 H3]. split; [done | | done]. cbn. intros c k Hk Hd. destruct (H2 c k Hk Hd) as [?|(s' & Hs & Hc)]; [by left|].
    right. exists s'. split; [|done]. rewrite lookup_app_l; [done | by eapply lookup_lt_Some].
  - injection H as <-. unfold station_Close. destruct (objs b !! i) as [s|] eqn:Es; [|done].
    apply (turns_same (change_station i (fun s => with_removed true (with_cur None s)) (set_detached (detached b ++ option_list (cur s)) b))); [done|].
    apply turns_station; [|by apply turns_detached]. cbn. rewrite Es. intros s' c [= <-] ->. left. apply elem_of_app. right. by apply list_elem_of_singleton.
  - destruct (station_Connect i b) as [[b1 r]|] eqn:Ec; [|done]. injection H as <-. by eapply turns_connect.
  - unfold conn_Read in H. destruct (conns b !! c) as [k|] eqn:Ek; [|done].
    assert (Hq : forall k', c_addr k' = c_addr k -> st k' = st k -> done k' = done k -> owed k' = owed k -> ph k' = ph k ->
      turns (set_conns (<[c := k']> (conns b)) b)).
    { intros k' E1 E2 E3 E4 E5. destruct HT as [H1 H2 H3]. split; cbn.
      - intros c' Hc. destruct (H1 c' Hc) as (k0 & Hk & Hm & Hd). destruct (decide (c = c')) as [<-|Hn].
        + exists k'. rewrite list_lookup_insert_eq by (by eapply lookup_lt_Some). rewrite Ek in Hk. injection Hk as <-. unfold returning in *. rewrite E1, E3, E4, E5. done.
        + exists k0. by rewrite list_lookup_insert_ne.
      - intros c' k0 Hk Hd. destruct (decide (c = c')) as [<-|Hn].
        + rewrite list_lookup_insert_eq in Hk by (by eapply lookup_lt_Some). injection Hk as <-. rewrite E2. apply (H2 c k Ek). congruence.
        + rewrite list_lookup_insert_ne in Hk by done. by apply H2.
      - intros c' k0 p Hk Hp. destruct (decide (c = c')) as [<-|Hn].
        + rewrite list_lookup_insert_eq in Hk by (by eapply lookup_lt_Some). injection Hk as <-. rewrite E1. apply (H3 c k p Ek). congruence.
        + rewrite list_lookup_insert_ne in Hk by done. by eapply H3. }
    destruct (negb _); [injection H as <-; by apply Hq|].
    destruct (rx k); [destruct (done k); [by injection H as <-|done]|].
    destruct (_ && _); [by injection H as <-|]. injection H as <-. by apply Hq.
  - destruct (conns b !! c) as [k|] eqn:Ek; [|done]. cbn in H. destruct (ph k) eqn:Ep; try done. injection H as <-.
    unfold write_begin. rewrite Ek. destruct (done k) eqn:Ed; [done|]. apply turns_phase; [| |done].
    + intros k' Hk' Hd. congruence.
    + intros k' p' Hk' Hw. assert (k' = k) as -> by congruence. by destruct (Master (c_addr k)).
  - destruct (write_acquire c b) as [[b1 r]|] eqn:Ea; [|done]. injection H as <-. by eapply turns_acquire.
  - unfold write_line in H. destruct (conns b !! c) as [k|] eqn:Ek; [|done]. destruct (ph k) eqn:Ep; try done. injection H as <-.
    destruct (done k) eqn:Ed.
    + apply turns_phase; [|done|done]. intros k' _ _ _. right; right. by eexists _, _, _.
    + destruct (w_Write _ _ _) as [x [n e]]. apply turns_phase; cbn; [|done|by apply (turns_same b)]. intros k' Hk' Hd. congruence.
  - unfold write_end in H. destruct (conns b !! c) as [k|] eqn:Ek; [|done]. destruct (ph k) as [| | |p n e] eqn:Ep; try done. injection H as <-.
    destruct (Master (c_addr k)) eqn:Em; cbn [andb].
    2:{ apply turns_conn; cbn; [done| |done|done]. intros k' Hk' Hc _ _. destruct HT as [H1 _ _].
        destruct (H1 c Hc) as (k0 & Hk0 & Hm & _). congruence. }
    destruct (bool_decide_reflect (is_Some e)) as [He|He]; cbn [orb]; [by apply turns_release|].
    destruct (expectsReply p); cbn [negb]; [|by apply turns_release].
    apply turns_phase; [|done|done]. intros k' Hk' Hd Hr. assert (k' = k) as -> by congruence.
    destruct Hr as [?|[[? ?]|(? & ? & e' & He')]]; [by left | congruence |]. destruct He. rewrite Ep in He'. injection He' as _ _ ->. by eexists.
  - injection H as <-. unfold conn_Close. destruct (conns b !! c) as [k|]; [|done]. set (f := fun s => _).
    apply (turns_same (change_station (st k) f (set_detached (detached b ++ [c]) b))); [done|]. apply turns_station; [|by apply turns_detached].
    intros s c' _ Hc. unfold f. destruct (bool_decide_reflect (cur s = Some c)) as [E1|E1]; [|by right]. left. cbn. apply elem_of_app. right.
    apply list_elem_of_singleton. congruence.
  - destruct (bool_decide _); [injection H as <-; by apply turns_teardown | done].
  - injection H as <-. unfold give_back. destruct (conns b !! c) as [k|]; [|done]. destruct (owed k); [by apply turns_release | done].
  - injection H as <-. unfold attach. destruct (closed b); [done|]. by apply (turns_same b).
  - injection H as <-. unfold detach. pose proof (turns_detachAll (set_line None b) (turns_same b (set_line None b) eq_refl HT)) as Hd. by destruct (detachAllLocked _).
  - injection H as <-. by apply (turns_same b).
  - injection H as <-. unfold close_begin. destruct (closed b); [done|].
    pose proof (turns_detachAll (set_line None (set_closed true b)) (turns_same b (set_line None (set_closed true b)) eq_refl HT)) as Hd. by destruct (detachAllLocked _).
  - destruct (closed b); [|done]. injection H as <-. apply turns_arb; [by left | done].
  - destruct (routed b); [|done]. injection H as <-. unfold route_select. destruct (targets _ _); [by apply turns_stats|].
    destruct (Encode _ _ _); by apply (turns_same b).
  - injection H as <-. by apply turns_route_push.
  - destruct (0 <=? d); [|done]. injection H as <-. by apply (turns_same b).
Qed.
Lemma reachable_turns c b : reachable c b -> turns b.
Proof. induction 1 as [now x|a b b' _ IH Ha]; [by split | by eapply act_turns]. Qed.

(** The steps a connection takes by itself. *)
Definition own (c : nat) (a : action) : Prop := a = DoGiveBack c \/ a = DoWriteLine c \/ a = DoWriteEnd c.
Fixpoint acts (l : list action) (b : Bus) : option Bus :=
  match l with [] => Some b | a :: l => b' ← act a b; acts l b' end.

Lemma write_end_returns c b k p n e : conns b !! c = Some k -> ph k = Wrote p n (Some e) -> Master (c_addr k) = true ->
  exists b', act (DoWriteEnd c) b = Some b' /\ holder (arb b') <> Some c.
Proof.
  intros Hk Hp Hm. cbn [act]. unfold write_end. rewrite Hk, Hp, Hm, bool_decide_eq_true_2 by (by eexists). cbn.
  eexists. split; [done|]. apply release_lets_go.
Qed.
(** They give back the line, if the connection is dead and has it. *)
Lemma returning_returns c b k : conns b !! c = Some k -> Master (c_addr k) = true -> done k = true -> returning k ->
  exists l b', Forall (own c) l /\ acts l b = Some b' /\ holder (arb b') <> Some c.
Proof.
  intros Hk Hm Hd [Ho|[[p Hp]|(p & n & e & Hp)]].
  - exists [DoGiveBack c], (give_back c b). split; [by repeat constructor; left|]. split; [done|]. unfold give_back. rewrite Hk, Ho. apply release_lets_go.
  - set (b1 := change_conn c (with_ph (Wrote p 0 (Some errDisconnected))) b).
    destruct (write_end_returns c b1 (with_ph (Wrote p 0 (Some errDisconnected)) k) p 0
      errDisconnected) as (b' & Hb' & Hh); [unfold b1; cbn; by rewrite list_lookup_alter_eq, Hk | done | done |].
    exists [DoWriteLine c; DoWriteEnd c], b'.
    split; [apply Forall_cons; split; [by right; left | apply Forall_singleton; by right; right]|]. split; [|done].
    assert (Hl : act (DoWriteLine c) b = Some b1) by (cbn [act]; unfold write_line; by rewrite Hk, Hp, Hd).
    cbn [acts]. rewrite Hl. cbn [mbind option_bind]. by rewrite Hb'.
  - destruct (write_end_returns c b k p n e Hk Hp Hm) as (b' & Hb' & Hh). exists [DoWriteEnd c], b'.
    split; [apply Forall_singleton; by right; right|]. cbn [acts]. by rewrite Hb'.
Qed.
End Bus.

(** A frame has one receiver. In every state of a bus, a frame to a single address
    matches at most one of the stations on it, and a broadcast matches the outstations and
    no master. *)
Theorem frame_goes_to_one {X E : Type} (w_Write : X -> nat -> list Z -> X * (Z * option E)) c b h :
  reachable w_Write c b ->
  if IsBroadcast (Dest h)
  then forall i s, placed b i s -> matches s h = negb (Master s)
  else forall i j s o, placed b i s -> placed b j o -> matches s h = true -> matches o h = true -> i = j.
Proof.
  intros [[H1 H2] _]%reachable_roster. destruct (IsBroadcast (Dest h)) eqn:Eb.
  - intros i s Hs%H2. unfold usable in Hs. apply andb_true_iff in Hs as [Hs _]. unfold matches. rewrite Eb, orb_true_r.
    destruct (Master s); [|done]. destruct (Z.eqb_spec (Dest h) (LocalAddr s)) as [E1|]; [|done]. by rewrite <- E1, Eb in Hs.
  - intros i j s o Hi Hj Hs Ho. destruct (decide (i = j)) as [|Hn]; [done|]. specialize (H1 i j s o Hi Hj Hn).
    rewrite (matches_conflict s o h) in H1 by done. done.
Qed.

(** C24. A master that holds the line does not keep it from the others for ever. In every
    state of a bus, the one who holds it is a master whose connection is alive and current,
    or about to be torn down, or, if it is dead, has steps of its own left that give the
    line back; and once the turnaround has passed anybody can take it. *)
Theorem line_comes_back {X E : Type} (w_Write : X -> nat -> list Z -> X * (Z * option E)) cf b c :
  reachable w_Write cf b -> holder (arb b) = Some c ->
  (exists k, conns b !! c = Some k /\ Master (c_addr k) = true /\
    if done k then exists l b', Forall (own c) l /\ acts w_Write l b = Some b' /\ holder (arb b') <> Some c
    else c ∈ detached b \/ exists s, objs b !! st k = Some s /\ cur s = Some c) /\
  (until (arb b) <= clock b -> arb_closed (arb b) = false ->
   forall c', exists a, acquire (clock b) c' (arb b) = Some (a, false)).
Proof.
  intros [H1 H2 _]%reachable_turns Hh. destruct (H1 c Hh) as (k & Hk & Hm & Hr). split.
  - exists k. split_and!; [done | done |]. destruct (done k) eqn:Ed; [by eapply returning_returns; [..|apply Hr] | by apply H2].
  - intros Hu Hc c'. unfold acquire. destruct (_ <=? 0); [by eexists|]. rewrite Hc, Hh, (proj2 (Z.ltb_ge _ _)) by done.
    rewrite orb_true_r. by eexists.
Qed.
