(* ===== verification/MultidropRouting.v ===== *)
(** * What a shared line delivers (src/multidrop/multidrop.go, conn.go)

    Every session on a line reads exactly the frames addressed to it, octet for octet and in
    order, however the octets of the line were cut into reads and whatever noise was between
    the frames; and a master keeps the line after exactly the frames that will be answered. *)

From stdpp Require Import gmap.
From S2P Require Import Prelude Crc LinkFrame LinkParser Transport Multidrop.
From S2P Require AppHeader.

Section Routing.
Context {X E : Type} (w_Write : X -> nat -> list Z -> X * (Z * option E)).
#[local] Abbreviation Bus := (@Bus X E).

(** ** Connections belong to their stations *)

Record owned (b : Bus) : Prop := mkOwned {
  ow_cur i s c : objs b !! i = Some s -> cur s = Some c -> exists k, conns b !! c = Some k /\ st k = i;
  ow_nodup : NoDup (stations b);
  ow_known : Forall (fun i => (i < length (objs b))%nat) (stations b) }.

(** What this depends on. *)
Definition owning (b : Bus) := (stations b, objs b, st <$> conns b).
Lemma owned_same b b' : owning b' = owning b -> owned b -> owned b'.
Proof.
  unfold owning. intros [= E1 E2 E3] [H1 H2 H3]. split; rewrite ?E1, ?E2; [|done..].
  intros i s c Hs Hc. destruct (H1 i s c Hs Hc) as (k & Hk & Hi).
  assert (Hf : (st <$> conns b') !! c = Some i) by (rewrite E3, list_lookup_fmap, Hk; cbn; by rewrite Hi).
  rewrite list_lookup_fmap in Hf. destruct (conns b' !! c) as [k'|]; [|done]. injection Hf as Hf. by exists k'.
Qed.
Lemma change_conn_owning c f (b : Bus) : (forall k, st (f k) = st k) -> owning (change_conn c f b) = owning b.
Proof.
  intros Hf. unfold owning, change_conn. cbn. f_equal. apply list_eq. intros j. rewrite !list_lookup_fmap. destruct (decide (c = j)) as [->|Hn].
  - rewrite list_lookup_alter_eq. destruct (conns b !! j); cbn; by rewrite ?Hf.
  - by rewrite list_lookup_alter_ne.
Qed.
(** A station may lose its connection. *)
Lemma owned_objs l (b : Bus) : length l = length (objs b) ->
  (forall i s c, l !! i = Some s -> cur s = Some c -> exists s0, objs b !! i = Some s0 /\ cur s0 = Some c) -> owned b -> owned (set_objs l b).
Proof.
  intros Hl Hs [H1 H2 H3]. split; cbn; [|done|by rewrite Hl]. intros i s c Hi Hc. destruct (Hs i s c Hi Hc) as (s0 & Hs0 & Hc0). by eapply H1.
Qed.
Lemma owned_change_station i f (b : Bus) : (forall s c, cur (f s) = Some c -> cur s = Some c) -> owned b -> owned (change_station i f b).
Proof.
  intros Hf. apply owned_objs; [apply length_alter|]. intros j s c Hj Hc. destruct (decide (i = j)) as [<-|Hn].
  - rewrite list_lookup_alter_eq in Hj. destruct (objs b !! i) as [s0|]; [|done]. injection Hj as <-. exists s0. eauto.
  - rewrite list_lookup_alter_ne in Hj by done. by exists s.
Qed.
Lemma owned_detachAll b : owned b -> owned (detachAllLocked b).1.
Proof.
  apply owned_objs; [apply length_imap|]. intros i s c Hi Hc. rewrite list_lookup_imap in Hi.
  destruct (objs b !! i) as [s0|] eqn:E0; [|done]. injection Hi as <-. exists s0. split; [done|]. by destruct (bool_decide _).
Qed.
Lemma owned_connect i b b' r : owned b -> station_Connect i b = Some (b', r) -> owned b'.
Proof.
  intros HO. unfold station_Connect. destruct (objs b !! i) as [s|] eqn:Es; [|done]. destruct (err b); [by intros [= <- _]|].
  destruct (_ || _ || _); [by intros [= <- _]|]. destruct (line b) as [l|]; [|done]. intros [= <- _].
  destruct HO as [H1 H2 H3]. split; cbn; [|done|by rewrite length_alter]. intros j s' c Hj Hc. destruct (decide (i = j)) as [<-|Hn].
  - rewrite list_lookup_alter_eq, Es in Hj. injection Hj as <-. cbn in Hc. injection Hc as <-.
    rewrite lookup_app_r, Nat.sub_diag by lia. eexists. split; [done|]. done.
  - rewrite list_lookup_alter_ne in Hj by done. destruct (H1 j s' c Hj Hc) as (k & Hk & Hi). exists k. split; [|done].
    rewrite lookup_app_l; [done | by eapply lookup_lt_Some].
Qed.

Lemma act_owned a b b' : act w_Write a b = Some b' -> owned b -> owned b'.
Proof.
  intros H HO. destruct a as [s|i|i|c n fs|c p|c|c|c|c|c|c| | |e| | |f| |d]; cbn [act] in H.
  - injection H as <-. unfold Add. destruct (_ || _); [done|]. destruct (closed b); [done|]. destruct (existsb _ _); [done|].
    destruct HO as [H1 H2 H3]. split; cbn.
    + intros i o c Ho Hc. apply lookup_app_Some in Ho as [Ho|[_ Ho]]; [by eapply H1|].
      destruct (i - length (objs b))%nat; [|done]. by injection Ho as <-.
    + apply NoDup_app. split_and!; [done| |apply NoDup_singleton]. intros i Hi Hx%list_elem_of_singleton. subst i.
      rewrite Forall_forall in H3. specialize (H3 _ Hi). lia.
    + rewrite length_app. cbn. apply Forall_app. split; [eapply Forall_impl; [exact H3|]; cbn; lia | constructor; [lia|done]].
  - injection H as <-. unfold station_Close. destruct (objs b !! i) as [s|] eqn:Es; [|done].
    pose proof (owned_change_station i (fun s => with_removed true (with_cur None s)) b ltac:(done) HO) as [H1 H2 H3].
    split; cbn; [exact H1 | by apply NoDup_ListNoDup, List.NoDup_filter, NoDup_ListNoDup |].
    apply Forall_forall. intros j Hj%list_elem_of_In. apply filter_In in Hj as [Hj _]. rewrite Forall_forall in H3. by apply H3, list_elem_of_In.
  - destruct (station_Connect i b) as [[b1 r]|] eqn:Ec; [|done]. injection H as <-. by eapply owned_connect.
  - unfold conn_Read in H. destruct (conns b !! c) as [k|] eqn:Ek; [|done].
    assert (Hq : forall k', st k' = st k -> owned (set_conns (<[c := k']> (conns b)) b)).
    { intros k' E2. apply (owned_same b); [|done]. unfold owning. cbn. f_equal. rewrite list_fmap_insert, E2.
      apply list_insert_id. by rewrite list_lookup_fmap, Ek. }
    destruct (negb _); [injection H as <-; by apply Hq|].
    destruct (rx k); [destruct (done k); [by injection H as <-|done]|].
    destruct (_ && _); [by injection H as <-|]. injection H as <-. by apply Hq.
  - destruct (conns b !! c) as [k|] eqn:Ek; [|done]. cbn in H. destruct (ph k); try done. injection H as <-.
    unfold write_begin. rewrite Ek. destruct (done k); [done|]. by apply (owned_same b); [apply change_conn_owning|].
  - unfold write_acquire in H. destruct (ph <$> _) as [[]|]; try done.
    destruct (acquire _ _ _) as [[a' []]|]; [..|done]; injection H as <-; (apply (owned_same b); [by rewrite change_conn_owning | done]).
  - unfold write_line in H. destruct (conns b !! c) as [k|]; [|done]. destruct (ph k); try done. injection H as <-. destruct (done k).
    + by apply (owned_same b); [apply change_conn_owning|].
    + destruct (w_Write _ _ _) as [x [n e]]. apply (owned_same b); [by rewrite change_conn_owning | done].
  - unfold write_end in H. destruct (conns b !! c) as [k|]; [|done]. destruct (ph k); try done. injection H as <-.
    apply (owned_same b); [rewrite change_conn_owning by done; by destruct (_ && _) | done].
  - injection H as <-. unfold conn_Close. destruct (conns b !! c) as [k|]; [|done]. set (f := fun s => _).
    apply (owned_same (change_station (st k) f b)); [done|]. apply owned_change_station; [|done]. intros s c'. unfold f. by destruct (bool_decide _).
  - destruct (bool_decide _); [|done]. injection H as <-. apply (owned_same b); [|done]. unfold teardown. rewrite change_conn_owning; [done|].
    intros k. by destruct (done k).
  - injection H as <-. unfold give_back. destruct (conns b !! c) as [k|]; [|done]. destruct (owed k); [|done].
    by apply (owned_same b); [rewrite change_conn_owning|].
  - injection H as <-. unfold attach. destruct (closed b); [done|]. by apply (owned_same b).
  - injection H as <-. unfold detach. pose proof (owned_detachAll (set_line None b) (owned_same b (set_line None b) eq_refl HO)) as Hd.
    destruct (detachAllLocked _) as [b1 live]. by apply (owned_same b1).
  - injection H as <-. by apply (owned_same b).
  - injection H as <-. unfold close_begin. destruct (closed b); [done|]. set (b0 := set_line None (set_closed true b)).
    pose proof (owned_detachAll b0 (owned_same b b0 eq_refl HO)) as Hd. destruct (detachAllLocked _) as [b1 live]. by apply (owned_same b1).
  - destruct (closed b); [|done]. injection H as <-. by apply (owned_same b).
  - destruct (routed b); [|done]. injection H as <-. unfold route_select. destruct (targets _ _); [by apply (owned_same b)|].
    destruct (Encode _ _ _); by apply (owned_same b).
  - injection H as <-. apply (owned_same b); [|done]. unfold route_push. destruct (routed b) as [|[[c out] cm] rest]; [done|].
    unfold push. cbn [set_routed conns]. destruct (conns b !! c) as [k|]; [|done]. destruct (_ <? _); [|done].
    change (owning (change_conn c (with_rx (rx k ++ [out])) b) = owning b). by apply change_conn_owning.
  - destruct (0 <=? d); [|done]. injection H as <-. by apply (owned_same b).
Qed.
Lemma reachable_owned c b : reachable w_Write c b -> owned b.
Proof. induction 1 as [now x|a b b' _ IH Ha]; [split; [done | constructor | constructor] | by eapply act_owned]. Qed.

(** ** Queues *)

Definition enqueue (cap : Z) (q : list (list Z)) (f : list Z) : list (list Z) := if len q <? cap then q ++ [f] else q.
Definition queue_up (cap : Z) (q fs : list (list Z)) : list (list Z) := fold_left (enqueue cap) fs q.
(** A queue takes what it has room for. *)
Lemma queue_up_take cap q fs : queue_up cap q fs = q ++ take (Z.to_nat (cap - len q)) fs.
Proof.
  revert q. induction fs as [|f fs IH]; intros q; [rewrite take_nil, app_nil_r; reflexivity|].
  change (queue_up cap q (f :: fs)) with (queue_up cap (enqueue cap q f) fs). rewrite IH. unfold enqueue. destruct (Z.ltb_spec (len q) cap).
  - rewrite len_app. change (len [f]) with 1. rewrite <- app_assoc. replace (Z.to_nat (cap - len q)) with (S (Z.to_nat (cap - (len q + 1)))) by lia. done.
  - replace (Z.to_nat (cap - len q)) with 0%nat by lia. by rewrite !take_0.
Qed.

(** What stays the same while frames are queued. *)
Definition fixed (b : Bus) := (stations b, objs b, cfg b).
(** The queue of every connection is [f] of what it was. *)
Definition requeued (b b' : Bus) (f : nat -> conn -> list (list Z)) : Prop :=
  fixed b' = fixed b /\ st <$> conns b' = st <$> conns b /\
  forall c k, conns b !! c = Some k -> exists k', conns b' !! c = Some k' /\ rx k' = f c k.

Definition outs_for (c : nat) (l : list (nat * list Z * bool)) : list (list Z) :=
  (fun x => x.1.2) <$> List.filter (fun x => (x.1.1 =? c)%nat) l.

Lemma route_push_requeued b x l : routed b = x :: l ->
  routed (route_push b) = l /\ requeued b (route_push b) (fun c k => queue_up (Queue (cfg b)) (rx k) (outs_for c [x])).
Proof.
  intros Hr. destruct x as [[c0 out] m]. unfold route_push. rewrite Hr. unfold push. cbn [set_routed conns cfg].
  assert (Hkeep : forall b' : Bus, fixed b' = fixed b -> conns b' = conns b -> (forall k, conns b !! c0 = Some k -> Queue (cfg b) <= len (rx k)) ->
    requeued b b' (fun c k => queue_up (Queue (cfg b)) (rx k) (outs_for c [(c0, out, m)]))).
  { intros b' Hf Hc Hfull. split; [done|]. split; [by rewrite Hc|]. intros c k Hk. exists k. rewrite Hc. split; [done|].
    unfold outs_for. cbn. destruct (Nat.eqb_spec c0 c) as [->|Hn]; [|done]. cbn. unfold enqueue. specialize (Hfull k Hk).
    destruct (Z.ltb_spec (len (rx k)) (Queue (cfg b))); [lia | done]. }
  destruct (conns b !! c0) as [k0|] eqn:E0; [|split; [done|]; apply Hkeep; [done | done | by intros k [=]]].
  destruct (Z.ltb_spec (len (rx k0)) (Queue (cfg b))) as [Hlt|Hge]; [|split; [done|]; apply Hkeep; [done | done | by intros k [= <-]]].
  split; [done|]. split; [done|]. cbn. split.
  - pose proof (change_conn_owning c0 (with_rx (rx k0 ++ [out])) b ltac:(done)) as Ho. unfold owning in Ho. cbn in Ho. by injection Ho.
  - intros c k Hk. unfold outs_for. cbn. destruct (Nat.eqb_spec c0 c) as [->|Hn].
    + rewrite list_lookup_alter_eq, Hk. eexists. split; [done|]. cbn. unfold enqueue. assert (k0 = k) as -> by congruence.
      destruct (Z.ltb_spec (len (rx k)) (Queue (cfg b))); [done | lia].
    + rewrite list_lookup_alter_ne by done. by exists k.
Qed.
Lemma requeued_trans b1 b2 b3 f g : requeued b1 b2 f -> requeued b2 b3 g ->
  requeued b1 b3 (fun c k => default [] (g c <$> conns b2 !! c)).
Proof.
  intros (F1 & S1 & R1) (F2 & S2 & R2). split; [congruence|]. split; [congruence|]. intros c k Hk.
  destruct (R1 c k Hk) as (k2 & Hk2 & _). destruct (R2 c k2 Hk2) as (k3 & Hk3 & E3). exists k3. split; [done|]. by rewrite Hk2.
Qed.
Lemma requeued_ext b b' f g : (forall c k, conns b !! c = Some k -> f c k = g c k) -> requeued b b' f -> requeued b b' g.
Proof.
  intros He (F & S & R). split; [done|]. split; [done|]. intros c k Hk. destruct (R c k Hk) as (k' & Hk' & E'). exists k'. by rewrite <- He.
Qed.

(** Frames queued one after another. *)
Definition queues (fs : nat -> list (list Z)) (b b' : Bus) : Prop := requeued b b' (fun c k => queue_up (Queue (cfg b)) (rx k) (fs c)).
Lemma queues_trans b1 b2 b3 fs gs : queues fs b1 b2 -> queues gs b2 b3 -> queues (fun c => fs c ++ gs c) b1 b3.
Proof.
  intros H1 H2. eapply requeued_ext; [|by eapply requeued_trans]. intros c k Hk. destruct H1 as (F1 & _ & R1).
  destruct (R1 c k Hk) as (k2 & Hk2 & E2). rewrite Hk2. cbn. rewrite E2. unfold fixed in F1. assert (cfg b2 = cfg b1) as -> by congruence.
  unfold queue_up. by rewrite fold_left_app.
Qed.
Lemma queues_refl (b b' : Bus) : fixed b' = fixed b -> conns b' = conns b -> queues (fun _ => []) b b'.
Proof. intros F C. split; [done|]. split; [by rewrite C|]. intros c k Hk. exists k. by rewrite C. Qed.

Lemma push_all_queues l b : routed b = l ->
  routed (Nat.iter (length l) route_push b) = [] /\ queues (fun c => outs_for c l) b (Nat.iter (length l) route_push b).
Proof.
  revert b. induction l as [|x l IH]; intros b Hr; [split; [done | by apply queues_refl]|].
  destruct (route_push_requeued b x l Hr) as [Hr1 Hq1]. cbn [length]. rewrite Nat.iter_succ_r. destruct (IH _ Hr1) as [Hr2 Hq2].
  split; [done|]. pose proof (queues_trans _ _ _ _ _ Hq1 Hq2) as Hq. eapply requeued_ext; [|exact Hq]. intros c k Hk. cbn.
  f_equal. unfold outs_for. cbn. by destruct (x.1.1 =? c)%nat.
Qed.

(** ** Frames *)

Definition octets_of (f : Frame) : list Z := frame_octets (FHeader f) (Payload f).
(** What is queued for a connection when the frames [fs] arrive. *)
Definition octets_for (b : Bus) (fs : list Frame) (c : nat) : list (list Z) :=
  octets_of <$> List.filter (fun f => bool_decide (c ∈ targets (FHeader f) b)) fs.

Lemma targets_fixed (b b' : Bus) h : fixed b' = fixed b -> targets h b' = targets h b.
Proof. unfold fixed, targets, present. by intros [= -> -> _]. Qed.
Lemma elem_of_targets (b : Bus) h c :
  c ∈ targets h b <-> exists i s, i ∈ stations b /\ objs b !! i = Some s /\ matches (addr s) h = true /\ cur s = Some c.
Proof.
  unfold targets, present. rewrite list_elem_of_omap. split.
  - intros (s & (i & Hi & Hs)%list_elem_of_omap & Hc). exists i, s. by destruct (matches _ _).
  - intros (i & s & Hi & Hs & Hm & Hc). exists s. rewrite Hm. split; [|done]. apply list_elem_of_omap. by exists i.
Qed.
Lemma targets_nodup b h : owned b -> NoDup (targets h b).
Proof.
  intros [H1 H2 _]. unfold targets, present. induction H2 as [|i l Hi H2 IH]; [constructor|]. cbn.
  destruct (objs b !! i) as [s|] eqn:Es; [|done]. cbn. destruct (matches _ _); [|done]. destruct (cur s) as [c|] eqn:Ec; [|done].
  constructor; [|done]. intros (s' & (j & Hj & Hs')%list_elem_of_omap & Hc)%list_elem_of_omap. destruct (matches _ _); [|done].
  destruct (H1 i s c Es Ec) as (k & Hk & Ei). destruct (H1 j s' c Hs' Hc) as (k' & Hk' & Ej). congruence.
Qed.
Lemma outs_for_targets c out (m : bool) ts : NoDup ts ->
  outs_for c ((fun c => (c, out, m)) <$> ts) = if bool_decide (c ∈ ts) then [out] else [].
Proof.
  induction 1 as [|t ts Ht _ IH]; [done|]. unfold outs_for in *. cbn. destruct (Nat.eqb_spec t c) as [->|Hn].
  - cbn. rewrite IH, bool_decide_eq_false_2, bool_decide_eq_true_2 by (done || apply list_elem_of_In; by left). done.
  - rewrite IH. destruct (bool_decide_reflect (c ∈ ts)) as [Hc|Hc].
    + rewrite bool_decide_eq_true_2; [done|]. by right.
    + rewrite bool_decide_eq_false_2; [done|]. intros [?|?]%list_elem_of_In; [done|]. apply Hc. by apply list_elem_of_In.
Qed.

(** Routing keeps the bus as it should be. *)
Record steady (b : Bus) : Prop := mkSteady { sy_owned : owned b; sy_routed : routed b = [] }.

Lemma queues_steady fs b b' : queues fs b b' -> routed b' = [] -> steady b -> steady b'.
Proof.
  intros (F & S & _) Hr [HO _]. split; [|done]. apply (owned_same b); [|done]. unfold owning, fixed in *. congruence.
Qed.
Lemma queues_ext fs gs b b' : (forall c, fs c = gs c) -> queues fs b b' -> queues gs b b'.
Proof. intros H. apply requeued_ext. intros c k _. by rewrite H. Qed.

Lemma route_queues f b : steady b -> frame_ok f -> queues (octets_for b [f]) b (route f b) /\ steady (route f b).
Proof.
  intros Hb Hf. pose proof Hb as [HO Hr]. pose proof (targets_nodup b (FHeader f) HO) as Hn.
  assert (Hq : queues (octets_for b [f]) b (route f b) /\ routed (route f b) = []).
  2:{ destruct Hq as [Hq Hr']. split; [done|]. by eapply queues_steady. }
  unfold route. set (b1 := route_select f b).
  assert (H1 : fixed b1 = fixed b /\ conns b1 = conns b /\
    routed b1 = (fun c => (c, octets_of f, is_complete f)) <$> targets (FHeader f) b).
  { unfold b1, route_select. destruct (targets (FHeader f) b) as [|t ts]; [done|].
    rewrite Encode_frame by apply Hf. cbn. by rewrite Hr. }
  destruct H1 as (F1 & C1 & R1). destruct (push_all_queues _ b1 R1) as [R2 Q2]. rewrite R1. split; [|done].
  pose proof (queues_trans _ _ _ _ _ (queues_refl b b1 F1 C1) Q2) as Hq. eapply queues_ext; [|exact Hq]. intros c. cbn [app].
  rewrite outs_for_targets by done. unfold octets_for. cbn. by destruct (bool_decide _).
Qed.

Definition route_all (fs : list Frame) (b : Bus) : Bus := fold_left (fun b f => route f b) fs b.
Lemma octets_for_fixed b b' fs c : fixed b' = fixed b -> octets_for b' fs c = octets_for b fs c.
Proof. intros H. unfold octets_for. f_equal. apply List.filter_ext. intros f. by rewrite (targets_fixed b b'). Qed.
Lemma octets_for_app b fs gs c : octets_for b (fs ++ gs) c = octets_for b fs c ++ octets_for b gs c.
Proof. unfold octets_for. by rewrite List.filter_app, fmap_app. Qed.

Lemma route_all_queues fs b : Forall frame_ok fs -> steady b -> queues (octets_for b fs) b (route_all fs b) /\ steady (route_all fs b).
Proof.
  intros Hf. revert b. induction Hf as [|f fs Hf _ IH]; intros b Hb; [split; [by apply queues_refl | done]|].
  destruct (route_queues f b Hb Hf) as [Q1 S1]. destruct (IH _ S1) as [Q2 S2]. split; [|done].
  pose proof (queues_trans _ _ _ _ _ Q1 Q2) as Q. eapply queues_ext; [|exact Q]. intros c.
  cbv beta. rewrite (octets_for_fixed b (route f b)) by apply Q1. by rewrite <- (octets_for_app b [f] fs).
Qed.

(** ** The pump *)

Lemma feed_frames_spec fuel p b : parser_ok p -> (Z.to_nat (Buffered p) < fuel)%nat ->
  exists p', feed_frames fuel p b = Some (p', route_all (scan (content p)).1 b) /\ drained p' /\
    content p' = (scan (content p)).2 /\ Forall frame_ok (scan (content p)).1.
Proof.
  revert p b. induction fuel as [|fuel IH]; intros p b Hp Hf; [lia|]. cbn [feed_frames].
  pose proof (Next_spec p Hp) as [Hok Hr]. destruct (LinkParser.Next p) as [p1 r]. cbn [fst snd] in *. destruct r as [f|e].
  - destruct Hr as (Hfo & Hs & Hlt & _). assert (0 <= Buffered p1) by (rewrite <- (content_len _ Hok); apply len_nonneg).
    destruct (IH p1 (route f b)) as (p' & He & Hd & Hc & Ha); [done | lia |]. exists p'. rewrite He, Hs. cbn [fst snd].
    split_and!; [done | done | done |]. by constructor.
  - destruct Hr as (-> & Hs & _ & _). exists p1. rewrite Hs. cbn [fst snd]. split_and!; [done | | done | constructor]. split; [done|].
    replace (content p1) with (scan (content p)).2 by (by rewrite Hs). apply scan_rest_wait. by apply content_ok.
Qed.

Lemma feed_spec fuel p b data : drained p -> octets_ok data -> (length data < fuel)%nat ->
  exists p' fs, feed fuel p b data = Some (p', route_all fs b) /\ drained p' /\ Forall frame_ok fs /\
    same_stream (fs, content p') (scan (content p ++ data)).
Proof.
  revert p b data. induction fuel as [|fuel IH]; intros p b data Hp Hd Hf; [lia|]. cbn [feed].
  destruct (len data =? 0) eqn:E0; bool_prop.
  { exists p, []. destruct data; [|unfold len in E0; cbn in E0; lia]. rewrite app_nil_r. split_and!; try done. destruct Hp as [Hp Hw].
    rewrite scan_unfold, Hw by (by apply content_ok). done. }
  pose proof (drained_room p Hp) as Hroom. change MaxFrameSize with 292 in Hroom. destruct Hp as [Hp Hw].
  destruct (LinkParser.Write p data) as [[p1 n] e] eqn:Ew.
  destruct (Write_spec _ _ _ _ _ Hp Hd Ew) as (Hok1 & Hn & Hc1 & _ & _ & Hfree).
  pose proof (len_nonneg data). assert (0 < n) by (destruct (decide (n < len data)); lia).
  destruct (feed_frames_spec (S (Z.to_nat (Buffered p1))) p1 b Hok1) as (p2 & -> & Hd2 & Hc2 & Hf2); [lia|]. cbn [mbind option_bind].
  replace (bool_decide (is_Some e) && (n =? 0)) with false by (symmetry; apply andb_false_iff; right; apply Z.eqb_neq; lia).
  assert (Hrest : octets_ok (drop (Z.to_nat n) data)) by auto with dnp3.
  destruct (IH p2 (route_all (scan (content p1)).1 b) (drop (Z.to_nat n) data)) as (p3 & fs & He & Hd3 & Hf3 & Hs3);
    [done | done | rewrite length_drop; unfold len in *; lia |].
  exists p3, ((scan (content p1)).1 ++ fs). rewrite He. unfold route_all. rewrite fold_left_app. split; [done|]. split; [done|].
  split; [by apply Forall_app|].
  assert (Hsplit : content p ++ data = content p1 ++ drop (Z.to_nat n) data).
  { rewrite Hc1, <- app_assoc. f_equal. unfold slice. rewrite Z.sub_0_r. norm_nat. rewrite drop_0. symmetry. apply take_drop. }
  rewrite Hsplit. rewrite scan_app by (done || by apply content_ok).
  destruct Hs3 as [H1 H2]. rewrite Hc2 in *. cbn [fst snd] in *. split; cbn [fst snd]; congruence.
Qed.

Lemma read_spec reads p prev b : drained p -> octets_ok (concat reads) -> steady b ->
  exists p' prev' b' fs, read reads p prev b = Some (p', prev', b') /\ drained p' /\ queues (octets_for b fs) b b' /\ steady b' /\
    same_stream (fs, content p') (scan (content p ++ concat reads)).
Proof.
  revert p prev b. induction reads as [|data reads IH]; intros p prev b Hp Hd Hb; cbn [read concat] in *.
  { exists p, prev, b, []. rewrite app_nil_r. split_and!; try done; [by apply queues_refl|]. destruct Hp as [Hp Hw].
    rewrite scan_unfold, Hw by (by apply content_ok). done. }
  apply octets_ok_app in Hd as [Hd1 Hd2]. destruct (len data =? 0) eqn:E0; bool_prop.
  { destruct data; [by apply IH | unfold len in E0; cbn in E0; lia]. }
  destruct (feed_spec (S (length data)) p b data) as (p1 & fs & -> & Hp1 & Hf & Hs); [done | done | lia |]. cbn [mbind option_bind].
  destruct (route_all_queues fs b Hf Hb) as [Q1 S1]. set (b1 := (syncParserStats p1 prev (route_all fs b)).1).
  assert (Q2 : queues (octets_for b fs) b b1) by exact Q1.
  assert (S2 : steady b1) by (split; [eapply owned_same; [|apply S1]; done | apply S1]).
  destruct (IH p1 (pstats p1) b1) as (p' & prev' & b' & gs & He & Hp' & Q3 & S3 & Hs'); [done | done | done |].
  exists p', prev', b', (fs ++ gs). split; [exact He|]. split; [done|]. split; [|split; [done|]].
  - pose proof (queues_trans _ _ _ _ _ Q2 Q3) as Q. eapply queues_ext; [|exact Q]. intros c. cbv beta.
    rewrite (octets_for_fixed b b1) by apply Q2. by rewrite <- octets_for_app.
  - assert (Ho : octets_ok (content p ++ data)) by (apply octets_ok_app; split; [apply content_ok, Hp | done]).
    rewrite app_assoc, scan_app by done.
    destruct (scan_same_rest (content p1) (scan (content p ++ data)).2 (concat reads) (proj2 Hs)
      (content_ok _ (proj1 Hp1)) (scan_rest_ok _ Ho) Hd2) as [H5 H6].
    destruct Hs as [H1 _], Hs' as [H3 H4]. cbn [fst snd] in *. split; cbn [fst snd]; congruence.
Qed.

(** A connection of a station on the bus takes what is addressed to the station. *)
Lemma octets_for_station b i s c fs : owned b -> i ∈ stations b -> objs b !! i = Some s -> cur s = Some c ->
  octets_for b fs c = octets_of <$> List.filter (fun f => matches (addr s) (FHeader f)) fs.
Proof.
  intros [H1 _ _] Hi Hs Hc. unfold octets_for. f_equal. apply List.filter_ext. intros f. apply eq_bool_prop_intro.
  rewrite !Is_true_true, bool_decide_eq_true, elem_of_targets. split; [|by intros Hm; exists i, s].
  intros (j & s' & Hj & Hs' & Hm & Hc'). destruct (H1 i s c Hs Hc) as (k & Hk & <-), (H1 j s' c Hs' Hc') as (k' & Hk' & <-). congruence.
Qed.
End Routing.

(** C22. A station hears what is addressed to it. If the line carries frames with noise
    between them, cut into reads in any way, then the connection of a station on the bus has
    queued, after what was there, the octets of exactly the frames that match the station,
    in order, as many as its queue has room for. *)
Theorem frames_reach_station {X E : Type} (w_Write : X -> nat -> list Z -> X * (Z * option E)) cf b i s c xs reads :
  reachable w_Write cf b -> routed b = [] ->
  i ∈ stations b -> objs b !! i = Some s -> cur s = Some c ->
  Forall noisy_ok xs -> concat reads = concat (noisy <$> xs) ->
  exists k k' p prev b', conns b !! c = Some k /\
    read reads NewParser (pstats NewParser) b = Some (p, prev, b') /\ conns b' !! c = Some k' /\
    rx k' = rx k ++ take (Z.to_nat (Queue (cfg b) - len (rx k)))
                      (octets_of <$> List.filter (fun f => matches (addr s) (FHeader f)) (snd <$> xs)).
Proof.
  intros HR Hr Hi Hs Hc Hx Hst. apply reachable_owned in HR as HO. destruct (ow_cur _ HO i s c Hs Hc) as (k & Hk & _).
  destruct (read_spec reads NewParser (pstats NewParser) b) as (p & prev & b' & fs & He & _ & (_ & _ & Q) & _ & Hsc);
    [apply NewParser_drained | rewrite Hst; by apply noisy_octets_ok | by split |].
  replace (content NewParser) with (@nil Z) in Hsc by (by vm_compute). cbn [app] in Hsc.
  rewrite Hst, (scan_noisy xs Hx) in Hsc. destruct Hsc as [E1 _]. cbn [fst] in E1. subst fs.
  destruct (Q c k Hk) as (k' & Hk' & E2). exists k, k', p, prev, b'. split_and!; [done | done | done |].
  by rewrite E2, queue_up_take, (octets_for_station b i s).
Qed.

(** ** Which frames are answered *)

(** A primary frame to one station is answered, except one that begins a confirmation or a
    request of a function that has no response. *)
Definition answered (f : Frame) : bool :=
  negb (IsBroadcast (Dest (FHeader f))) && Prm (HControl (FHeader f)) &&
  match Payload f with
  | t :: _ :: fn :: _ => negb (Fir (Transport.ParseHeader t)) || negb (fn =? AppHeader.FuncConfirm) && negb (AppHeader.NoReply fn)
  | _ => true
  end.

Lemma frame_octets_front h p : exists c1 c2, frame_octets h p = header_octets h p ++ c1 :: c2 :: blocks_of (length p) p.
Proof. unfold frame_octets. rewrite appendCRC_app, <- app_assoc. by eexists _, _. Qed.
Lemma blocks_of_front t a fn l : exists rest, blocks_of (length (t :: a :: fn :: l)) (t :: a :: fn :: l) = t :: a :: fn :: rest.
Proof. cbn [length blocks_of]. rewrite appendCRC_app. by eexists. Qed.

Theorem expectsReply_answered f : frame_ok f -> Payload f = [] \/ 3 <= len (Payload f) -> expectsReply (octets_of f) = answered f.
Proof.
  destruct f as [h p]. intros ((Hc & Hd & _) & _ & Hmax & _) Hp. cbn [FHeader Payload] in *. unfold expectsReply, octets_of, answered.
  cbn [FHeader Payload]. destruct (frame_octets_front h p) as (c1 & c2 & E). assert (E1 : len (frame_octets h p) = 10 + len (blocks_of (length p) p)).
  { rewrite E. unfold len. cbn. lia. }
  rewrite E1, E. change LinkFrame.HeaderSize with 10. pose proof (len_nonneg (blocks_of (length p) p)).
  replace (10 + _ <? 10) with false by (symmetry; apply Z.ltb_ge; lia).
  replace (le_val _) with (Dest h) by (symmetry; by apply le16_val). 
  replace (LinkFrame.ParseControl _) with (HControl h) by (symmetry; by apply ParseControl_Byte).
  destruct (IsBroadcast _); [done|]. destruct (Prm _); [|done]. cbn [negb andb].
  destruct p as [|t [|a [|fn p]]]; [done | unfold len in Hp; cbn in Hp; destruct Hp; [done | lia] .. |].
  destruct (blocks_of_front t a fn p) as [rest ->]. replace (_ <? 10 + 3) with false by (symmetry; apply Z.ltb_ge; unfold len; cbn; lia).
  change (at_ _ 10) with t. change (at_ _ (10 + 2)) with fn. by destruct (Fir _).
Qed.
