(* ===== verification/Registry.v ===== *)
(** * Lines shared by callers that do not know each other (src/multidrop/registry.go)

    A [Registry] keeps one bus for each channel, by the channel's name, and counts the callers
    that use it.  Channels and buses are objects: both are numbered, and the buses are those of
    [Multidrop], here with the channel they own.

    [Release] closes the bus after it has let go of the registry's mutex, so a bus that was
    released by its last caller may stay open for a while: [leaving] has those. *)

From stdpp Require Import gmap strings.
From S2P Require Import Prelude Multidrop.

Record registryEntry := mkEntry { bus : nat; ch : nat; refs : Z }.
Record Registry := mkRegistry { entries : gmap string registryEntry; byBus : gmap nat string }.

Section Registry.
(** The name of a channel. *)
Context (String : nat -> string).
Context {X E : Type} (w_Write : X -> nat -> list Z -> X * (Z * option E)).
#[local] Abbreviation Bus := (@Bus X E).

Definition NewRegistry : Registry := mkRegistry ∅ ∅.

(** The registry and the objects around it: the buses with their channels, and the channels
    that were closed. *)
Record World := mkWorld { reg : Registry; buses : list (Bus * nat); shut : list nat; leaving : list nat }.
Definition World0 : World := mkWorld NewRegistry [] [] [].

Definition isClosed (i : nat) (w : World) : bool := match buses w !! i with Some (b, _) => closed b | None => false end.
Definition chan (i : nat) (w : World) : option nat := snd <$> buses w !! i.

(** [Bus.Close], with the channel. *)
Definition Bus_Close (i : nat) (w : World) : World :=
  match buses w !! i with
  | None => w
  | Some (b, c) =>
      if closed b then w
      else mkWorld (reg w) (<[i := (Close b, c)]> (buses w)) (shut w ++ [c]) (leaving w)
  end.

Definition Open (c : nat) (cfg : Config) (now : Z) (x : X) (w : World) : World * nat :=
  let key := String c in
  let r := reg w in
  let r :=
    match entries r !! key with
    | Some e => if isClosed (bus e) w then mkRegistry (delete key (entries r)) (delete (bus e) (byBus r)) else r
    | None => r
    end in
  match entries r !! key with
  | Some e =>
      let r := mkRegistry (<[key := mkEntry (bus e) (ch e) (refs e + 1)]> (entries r)) (byBus r) in
      (mkWorld r (buses w) (shut w ++ if (c =? ch e)%nat then [] else [c]) (leaving w), bus e)
  | None =>
      let b := length (buses w) in
      let r := mkRegistry (<[key := mkEntry b c 1]> (entries r)) (<[b := key]> (byBus r)) in
      (mkWorld r (buses w ++ [(New cfg now x, c)]) (shut w) (leaving w), b)
  end.

(** [Release], up to where it lets go of the mutex: whether the bus was known.  There is no
    entry for a bus that is known only if the registry is broken; the code would stop. *)
Definition Release (i : nat) (w : World) : option (World * bool) :=
  let r := reg w in
  match byBus r !! i with
  | None => Some (w, false)
  | Some key =>
      match entries r !! key with
      | None => None
      | Some e =>
          let e := mkEntry (bus e) (ch e) (refs e - 1) in
          if 0 <? refs e then Some (mkWorld (mkRegistry (<[key := e]> (entries r)) (byBus r)) (buses w) (shut w) (leaving w), true)
          else Some (mkWorld (mkRegistry (delete key (entries r)) (delete i (byBus r))) (buses w) (shut w) (leaving w ++ [i]), true)
      end
  end.
(** The rest of [Release]. *)
Definition Release_close (i : nat) (w : World) : World :=
  Bus_Close i (mkWorld (reg w) (buses w) (shut w) (List.filter (fun j => negb (j =? i)%nat) (leaving w))).

Definition Len (w : World) : nat := size (entries (reg w)).

(** ** Runs *)

(** What callers do, and what they are told. *)
Inductive event := Opened (c i : nat) | Released (i : nat) | Refused (i : nat) | ClosedDirectly (i : nat) | Left (i : nat) | Works (i : nat).

Inductive happens : World -> event -> World -> Prop :=
| happens_open c cfg now x w w' i : Open c cfg now x w = (w', i) -> happens w (Opened c i) w'
| happens_release i w w' : Release i w = Some (w', true) -> happens w (Released i) w'
| happens_refuse i w w' : Release i w = Some (w', false) -> happens w (Refused i) w'
| happens_left i w : i ∈ leaving w -> happens w (Left i) (Release_close i w)
| happens_close i w : happens w (ClosedDirectly i) (Bus_Close i w)
| happens_work i a b b' c w : buses w !! i = Some (b, c) -> act w_Write a b = Some b' -> a <> DoCloseBegin ->
    happens w (Works i) (mkWorld (reg w) (<[i := (b', c)]> (buses w)) (shut w) (leaving w)).

Inductive runs : list event -> World -> Prop :=
| runs_nil : runs [] World0
| runs_snoc evs e w w' : runs evs w -> happens w e w' -> runs (evs ++ [e]) w'.

(** How many callers have the bus. *)
Definition change (i : nat) (e : event) : Z :=
  match e with
  | Opened _ j => if (i =? j)%nat then 1 else 0
  | Released j => if (i =? j)%nat then -1 else 0
  | _ => 0
  end.
Definition users (i : nat) (evs : list event) : Z := foldr (fun e n => change i e + n) 0 evs.
Lemma users_snoc i evs e : users i (evs ++ [e]) = users i evs + change i e.
Proof. induction evs as [|e' evs IH]; cbn; [lia|]. unfold users in *. rewrite IH. lia. Qed.
Definition closed_directly (i : nat) (evs : list event) : Prop := ClosedDirectly i ∈ evs.

(** Only [Close] closes a bus. *)
Lemma act_closed a (b b' : Bus) : act w_Write a b = Some b' -> a <> DoCloseBegin -> closed b' = closed b.
Proof.
  intros Ha Hn. destruct a as [s|i|i|c n fs|c p|c|c|c|c|c|c| | |e| | |f| |d]; cbn [act] in Ha; try done.
  - injection Ha as <-. unfold Add. by repeat case_match.
  - injection Ha as <-. unfold station_Close. by repeat case_match.
  - unfold station_Connect in Ha. repeat case_match; try done; by injection Ha as <-.
  - unfold conn_Read in Ha. repeat case_match; try done; by injection Ha as <-.
  - unfold write_begin in Ha. repeat case_match; try done; by injection Ha as <-.
  - unfold write_acquire in Ha. repeat case_match; try done; by injection Ha as <-.
  - unfold write_line in Ha. repeat case_match; try done; by injection Ha as <-.
  - unfold write_end in Ha. repeat case_match; try done; by injection Ha as <-.
  - injection Ha as <-. unfold conn_Close. by repeat case_match.
  - repeat case_match; try done; by injection Ha as <-.
  - injection Ha as <-. unfold give_back. by repeat case_match.
  - injection Ha as <-. unfold attach. case_match eqn:E0; cbn; congruence.
  - by injection Ha as <-.
  - by injection Ha as <-.
  - case_match; [|done]. by injection Ha as <-.
  - case_match; [|done]. injection Ha as <-. unfold route_select. by repeat case_match.
  - injection Ha as <-. unfold route_push, push. cbn. by repeat case_match; simplify_eq/=.
  - case_match; [|done]. by injection Ha as <-.
Qed.
Lemma Close_closed (b : Bus) : closed (Close b) = true.
Proof.
  unfold Close. destruct (closed b) eqn:E0; [done|]. unfold teardown_all. set (b1 := close_arbiter _).
  assert (H1 : closed b1 = true) by (unfold b1, close_begin; by rewrite E0). clearbody b1.
  generalize (detached b1). intros l. revert b1 H1. induction l as [|c l IH]; intros b1 H1; [done|]. cbn. apply IH.
  unfold give_back. by repeat case_match.
Qed.

(** ** The registry and the buses agree *)

(** Both maps of the registry have the same buses. *)
Record linked (r : Registry) : Prop := mkLinked {
  li_entry key e : entries r !! key = Some e -> byBus r !! bus e = Some key;
  li_bus i key : byBus r !! i = Some key -> exists e, entries r !! key = Some e /\ bus e = i }.
Definition known (r : Registry) (i : nat) : option registryEntry := key ← byBus r !! i; entries r !! key.

Lemma known_Some r i e : linked r -> known r i = Some e -> exists key, byBus r !! i = Some key /\ entries r !! key = Some e /\ bus e = i.
Proof.
  intros [L1 L2]. unfold known. destruct (byBus r !! i) as [key|] eqn:Eb; [|done]. cbn. intros He. exists key.
  destruct (L2 i key Eb) as (e' & He' & Hi). split_and!; congruence.
Qed.
Lemma entry_known r key e : linked r -> entries r !! key = Some e -> known r (bus e) = Some e.
Proof. intros [L1 _] He. unfold known. by rewrite (L1 _ _ He). Qed.
Lemma known_None r i : linked r -> known r i = None -> byBus r !! i = None.
Proof.
  intros [_ L2]. unfold known. destruct (byBus r !! i) as [key|] eqn:Eb; [|done]. cbn. destruct (L2 i key Eb) as (e & He & _). congruence.
Qed.

Lemma linked_update r key e c n : linked r -> entries r !! key = Some e ->
  let r' := mkRegistry (<[key := mkEntry (bus e) c n]> (entries r)) (byBus r) in
  linked r' /\ forall j, known r' j = if decide (j = bus e) then Some (mkEntry (bus e) c n) else known r j.
Proof.
  intros [L1 L2] He r'. pose proof (L1 _ _ He) as Hb. split.
  - split; cbn.
    + intros key' e' [[-> <-]|[Hn He']]%lookup_insert_Some; [done | by apply L1].
    + intros j key' Hj. destruct (L2 j key' Hj) as (e' & He' & <-). destruct (decide (key = key')) as [->|Hn].
      * rewrite lookup_insert_eq. eexists. split; [done|]. cbn. congruence.
      * rewrite lookup_insert_ne by done. by exists e'.
  - intros j. unfold known, r'. cbn. destruct (decide (j = bus e)) as [->|Hn]; [rewrite Hb; cbn; by rewrite lookup_insert_eq|].
    destruct (byBus r !! j) as [key'|] eqn:Ej; [|done]. cbn. rewrite lookup_insert_ne; [done|]. intros <-. destruct (L2 j key Ej) as (e' & ? & ?). congruence.
Qed.
Lemma linked_delete r key e : linked r -> entries r !! key = Some e ->
  let r' := mkRegistry (delete key (entries r)) (delete (bus e) (byBus r)) in
  linked r' /\ forall j, known r' j = if decide (j = bus e) then None else known r j.
Proof.
  intros [L1 L2] He r'. pose proof (L1 _ _ He) as Hb. split.
  - split; cbn.
    + intros key' e' [Hn He']%lookup_delete_Some. rewrite lookup_delete_ne; [by apply L1|]. intros E1. apply L1 in He'. congruence.
    + intros j key' [Hn Hj]%lookup_delete_Some. destruct (L2 j key' Hj) as (e' & He' & <-). exists e'.
      rewrite lookup_delete_ne; [done|]. intros <-. congruence.
  - intros j. unfold known, r'. cbn. destruct (decide (j = bus e)) as [->|Hn]; [by rewrite lookup_delete_eq|].
    rewrite lookup_delete_ne by done. destruct (byBus r !! j) as [key'|] eqn:Ej; [|done]. cbn. rewrite lookup_delete_ne; [done|].
    intros <-. destruct (L2 j key Ej) as (e' & ? & ?). congruence.
Qed.
Lemma linked_insert r key i c n : linked r -> entries r !! key = None -> byBus r !! i = None ->
  let r' := mkRegistry (<[key := mkEntry i c n]> (entries r)) (<[i := key]> (byBus r)) in
  linked r' /\ forall j, known r' j = if decide (j = i) then Some (mkEntry i c n) else known r j.
Proof.
  intros [L1 L2] He Hi r'. split.
  - split; cbn.
    + intros key' e' [[-> <-]|[Hn He']]%lookup_insert_Some; cbn; [by rewrite lookup_insert_eq|]. rewrite lookup_insert_ne; [by apply L1|].
      intros ->. apply L1 in He'. congruence.
    + intros j key' [[-> <-]|[Hn Hj]]%lookup_insert_Some; [rewrite lookup_insert_eq; by eexists|]. destruct (L2 j key' Hj) as (e' & He' & <-).
      exists e'. rewrite lookup_insert_ne by congruence. done.
  - intros j. unfold known, r'. cbn. destruct (decide (j = i)) as [->|Hn]; [rewrite lookup_insert_eq; cbn; by rewrite lookup_insert_eq|].
    rewrite lookup_insert_ne by done. destruct (byBus r !! j) as [key'|] eqn:Ej; [|done]. cbn. rewrite lookup_insert_ne; [done|].
    intros <-. destruct (L2 j key Ej) as (e' & ? & ?). congruence.
Qed.

(** A bus the registry knows is counted right, has the name of its channel, and is not about to
    leave; it is open unless somebody closed it.  A bus it does not know has no users, and is
    closed or about to be, unless somebody closed it. *)
Definition fine (i : nat) (evs : list event) (w : World) : Prop :=
  match buses w !! i with
  | None => known (reg w) i = None /\ users i evs = 0 /\ i ∉ leaving w
  | Some (b, c) =>
      match known (reg w) i with
      | Some e => refs e = users i evs /\ 0 < refs e /\ c = ch e /\ byBus (reg w) !! i = Some (String (ch e)) /\ (i ∉ leaving w) /\
          (closed b = true -> closed_directly i evs)
      | None => (closed_directly i evs \/ users i evs = 0) /\ (closed b = false -> i ∈ leaving w) /\
          (closed b = true -> closed_directly i evs \/ i ∉ leaving w)
      end
  end.
Definition agrees (evs : list event) (w : World) : Prop := linked (reg w) /\ forall i, fine i evs w.

(** What [fine] depends on. *)
Lemma fine_same i evs evs' w w' :
  known (reg w') i = known (reg w) i -> byBus (reg w') !! i = byBus (reg w) !! i -> buses w' !! i = buses w !! i -> ((i ∈ leaving w') <-> (i ∈ leaving w)) ->
  users i evs' = users i evs -> (closed_directly i evs -> closed_directly i evs') -> fine i evs w -> fine i evs' w'.
Proof.
  intros E1 E2 E3 E4 E5 Hc. unfold fine. rewrite E1, E2, E3, E5. destruct (buses w !! i) as [[b c]|]; [|by rewrite E4].
  destruct (known (reg w) i); rewrite E4; naive_solver.
Qed.
Lemma closed_directly_snoc i evs e : closed_directly i evs -> closed_directly i (evs ++ [e]).
Proof. intros Hc. apply elem_of_app. by left. Qed.
(** An event about one bus. *)
Lemma agrees_step evs ev w w' i :
  agrees evs w -> linked (reg w') ->
  (forall j, j <> i -> known (reg w') j = known (reg w) j /\ byBus (reg w') !! j = byBus (reg w) !! j /\
    buses w' !! j = buses w !! j /\ ((j ∈ leaving w') <-> (j ∈ leaving w)) /\ (change j ev = 0)) ->
  fine i (evs ++ [ev]) w' -> agrees (evs ++ [ev]) w'.
Proof.
  intros [_ HA] HL Hj Hi. split; [done|]. intros j. destruct (decide (j = i)) as [->|Hn]; [done|]. destruct (Hj j Hn) as (E1 & E2 & E3 & E4 & E5).
  apply (fine_same j evs _ w); try done; [|by apply closed_directly_snoc]. rewrite users_snoc. lia.
Qed.

Lemma agrees_start : agrees [] World0.
Proof.
  split; [by split|]. intros i. unfold fine. cbn. split_and!; [done | done | by intros ?%not_elem_of_nil].
Qed.

(** A bus is closed, or works on. *)
Lemma agrees_bus evs ev w i b b' c sh l :
  buses w !! i = Some (b, c) -> (forall j, change j ev = 0) ->
  (forall j, j ∈ l -> j ∈ leaving w) -> (forall j, j <> i -> j ∈ leaving w -> j ∈ l) ->
  closed b' = closed b /\ l = leaving w \/ closed b' = true /\ (closed_directly i (evs ++ [ev]) \/ i ∈ leaving w /\ i ∉ l) ->
  agrees evs w -> agrees (evs ++ [ev]) (mkWorld (reg w) (<[i := (b', c)]> (buses w)) sh l).
Proof.
  intros Hi Hch Hl1 Hl2 Hb HA. assert (Hlt : (i < length (buses w))%nat) by (by eapply lookup_lt_Some).
  apply (agrees_step evs ev w _ i); [done | apply HA | |].
  - intros j Hn. cbn. rewrite list_lookup_insert_ne by done. split_and!; try done. split; [apply Hl1 | by apply Hl2].
  - destruct HA as [_ HA]. specialize (HA i). unfold fine in *. cbn. rewrite list_lookup_insert_eq by done. rewrite Hi in HA.
    rewrite users_snoc, Hch, Z.add_0_r. pose proof (closed_directly_snoc i evs ev). specialize (Hl1 i).
    destruct (known (reg w) i) as [e|]; destruct Hb as [[-> ->]|(-> & Hd)]; naive_solver.
Qed.
(** Nothing happens to a bus. *)
Lemma agrees_still evs ev w : (forall j, change j ev = 0) -> agrees evs w -> agrees (evs ++ [ev]) w.
Proof.
  intros Hch [HL HA]. split; [done|]. intros i. apply (fine_same i evs _ w); try done; [|by apply closed_directly_snoc].
  rewrite users_snoc, Hch. lia.
Qed.
Lemma agrees_close evs i w : agrees evs w -> agrees (evs ++ [ClosedDirectly i]) (Bus_Close i w).
Proof.
  intros HA. unfold Bus_Close. destruct (buses w !! i) as [[b c]|] eqn:Eb; [|by apply agrees_still].
  destruct (closed b) eqn:Ec; [by apply agrees_still|]. apply (agrees_bus _ _ _ _ b); try done. right. rewrite Close_closed. split; [done|].
  left. apply elem_of_app. right. by apply list_elem_of_singleton.
Qed.
Lemma agrees_left evs i w : i ∈ leaving w -> agrees evs w -> agrees (evs ++ [Left i]) (Release_close i w).
Proof.
  intros Hi HA. unfold Release_close, Bus_Close. cbn [buses reg shut leaving]. set (l := List.filter _ (leaving w)).
  assert (Hl : forall j, j ∈ l <-> (j ∈ leaving w /\ j <> i)).
  { intros j. unfold l. rewrite !list_elem_of_In, filter_In, negb_true_iff, Nat.eqb_neq. done. }
  assert (Hb : forall b' b c sh, buses w !! i = Some (b, c) -> closed b' = true ->
    agrees (evs ++ [Left i]) (mkWorld (reg w) (<[i := (b', c)]> (buses w)) sh l)).
  { intros b' b c sh Eb Ec. apply (agrees_bus _ _ _ _ b); try done; [intros j; rewrite Hl; tauto | intros j; rewrite Hl; tauto |].
    right. split; [done|]. right. split; [done|]. rewrite Hl. tauto. }
  pose proof (proj2 HA i) as Hf. unfold fine in Hf. destruct (buses w !! i) as [[b c]|] eqn:Eb; [|naive_solver].
  destruct (closed b) eqn:Ec; [|by apply (Hb _ b), Close_closed].
  specialize (Hb b b c (shut w) eq_refl Ec). by rewrite list_insert_id in Hb by done.
Qed.
Lemma agrees_work evs i b b' c a w : buses w !! i = Some (b, c) -> act w_Write a b = Some b' -> a <> DoCloseBegin -> agrees evs w ->
  agrees (evs ++ [Works i]) (mkWorld (reg w) (<[i := (b', c)]> (buses w)) (shut w) (leaving w)).
Proof. intros Hb Ha Hn. apply (agrees_bus _ _ _ _ b); try done. left. split; [by eapply act_closed | done]. Qed.

(** [Release] never finds the registry broken. *)
Lemma Release_spec evs i w : agrees evs w ->
  exists w' ok, Release i w = Some (w', ok) /\ ok = bool_decide (is_Some (known (reg w) i)) /\
    agrees (evs ++ [if ok : bool then Released i else Refused i]) w'.
Proof.
  intros HA. pose proof HA as [HL HF]. unfold Release. destruct (known (reg w) i) as [e|] eqn:Ek.
  2:{ rewrite (known_None _ _ HL Ek). exists w, false. split_and!; [done | done |]. by apply agrees_still. }
  destruct (known_Some _ _ _ HL Ek) as (key & -> & He & <-). rewrite He. cbn [refs bus ch].
  assert (Hch : forall j, j <> bus e -> change j (Released (bus e)) = 0) by (intros j Hn; cbn; by rewrite (proj2 (Nat.eqb_neq j (bus e)))).
  specialize (HF (bus e)). unfold fine in HF. destruct (buses w !! bus e) as [[b c]|] eqn:Eb; [|naive_solver].
  rewrite Ek in HF. destruct HF as (F1 & F2 & F3 & F4 & F5 & F6).
  assert (Hu : users (bus e) (evs ++ [Released (bus e)]) = refs e - 1) by (rewrite users_snoc, F1; cbn; rewrite Nat.eqb_refl; lia).
  destruct (0 <? refs e - 1) eqn:E0; bool_prop; (eexists _, true; split; [done|]; split; [by rewrite bool_decide_eq_true_2|]).
  - destruct (linked_update (reg w) key e (ch e) (refs e - 1) HL He) as [HL' HK]. apply (agrees_step evs _ w _ (bus e)); [done | done | |].
    + intros j Hn. cbn -[known]. rewrite HK, decide_False by done. split_and!; try done. by apply Hch.
    + unfold fine. cbn -[known users]. rewrite Eb, HK, decide_True, Hu by done. cbn. split_and!; try done. intros Hc. by apply closed_directly_snoc, F6.
  - destruct (linked_delete (reg w) key e HL He) as [HL' HK]. apply (agrees_step evs _ w _ (bus e)); [done | done | |].
    + intros j Hn. cbn -[known]. rewrite HK, decide_False, lookup_delete_ne by done. split_and!; try done; [|by apply Hch].
      rewrite elem_of_app, list_elem_of_singleton. tauto.
    + unfold fine. cbn -[known users]. rewrite Eb, HK, decide_True, Hu by done. cbn. split_and!; [right; lia | |intros Hc; left; by apply closed_directly_snoc, F6].
      intros _. apply elem_of_app. right. by apply list_elem_of_singleton.
Qed.

(** [Open] without the part that drops a closed bus. *)
Definition Open_fresh (c : nat) (cfg : Config) (now : Z) (x : X) (w : World) : World * nat :=
  match entries (reg w) !! String c with
  | Some e =>
      (mkWorld (mkRegistry (<[String c := mkEntry (bus e) (ch e) (refs e + 1)]> (entries (reg w))) (byBus (reg w))) (buses w)
         (shut w ++ if (c =? ch e)%nat then [] else [c]) (leaving w), bus e)
  | None =>
      (mkWorld (mkRegistry (<[String c := mkEntry (length (buses w)) c 1]> (entries (reg w))) (<[length (buses w) := String c]> (byBus (reg w))))
         (buses w ++ [(New cfg now x, c)]) (shut w) (leaving w), length (buses w))
  end.
Definition drop_closed (key : string) (w : World) : World :=
  match entries (reg w) !! key with
  | Some e =>
      if isClosed (bus e) w
      then mkWorld (mkRegistry (delete key (entries (reg w))) (delete (bus e) (byBus (reg w)))) (buses w) (shut w) (leaving w) else w
  | None => w
  end.
Lemma Open_parts c cfg now x w : Open c cfg now x w = Open_fresh c cfg now x (drop_closed (String c) w).
Proof. unfold Open, Open_fresh, drop_closed. destruct (entries (reg w) !! String c) as [e|]; [|done]. by destruct (isClosed _ _). Qed.

(** After the drop, the bus of the channel, if there is one, is open. *)
Lemma drop_closed_spec evs key w : agrees evs w -> agrees evs (drop_closed key w) /\
  match entries (reg (drop_closed key w)) !! key with Some e => isClosed (bus e) (drop_closed key w) = false | None => True end.
Proof.
  intros HA. unfold drop_closed. destruct (entries (reg w) !! key) as [e|] eqn:He; [|by rewrite He].
  destruct (isClosed (bus e) w) eqn:Ec; [|by rewrite He]. destruct HA as [HL HF]. destruct (linked_delete (reg w) key e HL He) as [HL' HK].
  cbn -[known]. rewrite lookup_delete_eq. split; [|done]. split; [done|]. intros j. specialize (HF j). unfold fine in *. cbn -[known]. rewrite HK.
  destruct (decide (j = bus e)) as [->|Hn]; [|rewrite lookup_delete_ne by done; exact HF].
  unfold isClosed in Ec. destruct (buses w !! bus e) as [[b c]|] eqn:Eb; [|done]. rewrite (entry_known _ _ _ HL He) in HF.
  rewrite Ec in *. destruct HF as (_ & _ & _ & _ & _ & F6). specialize (F6 eq_refl). split_and!; [by left | done | by left].
Qed.
Lemma Open_fresh_spec evs c cfg now x w : agrees evs w ->
  match entries (reg w) !! String c with Some e => isClosed (bus e) w = false | None => True end ->
  let '(w', i) := Open_fresh c cfg now x w in
  agrees (evs ++ [Opened c i]) w' /\ isClosed i w' = false /\ byBus (reg w') !! i = Some (String c).
Proof.
  intros HA Hc. pose proof HA as [HL HF]. unfold Open_fresh.
  assert (Hch : forall i j, j <> i -> change j (Opened c i) = 0) by (intros i j Hn; cbn; by rewrite (proj2 (Nat.eqb_neq j i))).
  destruct (entries (reg w) !! String c) as [e|] eqn:He.
  - pose proof (li_entry _ HL _ _ He) as Hb. split; [|done]. destruct (linked_update (reg w) _ e (ch e) (refs e + 1) HL He) as [HL' HK].
    apply (agrees_step evs _ w _ (bus e)); [done | done | |].
    + intros j Hn. cbn -[known]. rewrite HK, decide_False by done. split_and!; try done. by apply Hch.
    + specialize (HF (bus e)). unfold fine in *. cbn -[known users]. rewrite HK, decide_True, users_snoc by done. cbn [change]. rewrite Nat.eqb_refl.
      rewrite (entry_known _ _ _ HL He) in HF. destruct (buses w !! bus e) as [[b c']|]; [|naive_solver]. cbn.
      destruct HF as (F1 & F2 & F3 & F4 & F5 & F6). split_and!; [lia | lia | done | done | done |]. intros H0. by apply closed_directly_snoc, F6.
  - set (i := length (buses w)). assert (Ei : buses w !! i = None) by (apply lookup_ge_None; unfold i; lia).
    pose proof (HF i) as Hi. unfold fine in Hi. rewrite Ei in Hi. destruct Hi as (F1 & F2 & F3).
    destruct (linked_insert (reg w) (String c) i c 1 HL He (known_None _ _ HL F1)) as [HL' HK].
    assert (En : (buses w ++ [(New cfg now x, c)]) !! i = Some (New cfg now x, c)) by (by apply list_lookup_middle).
    split; [|split; [unfold isClosed; cbn; by rewrite En | cbn; apply lookup_insert_eq]].
    apply (agrees_step evs _ w _ i); [done | done | |].
    + intros j Hn. cbn -[known]. rewrite HK, decide_False, lookup_insert_ne by done. split_and!; try done; [|by apply Hch].
      destruct (decide (j < i)%nat); [by apply lookup_app_l|]. rewrite !(proj2 (lookup_ge_None _ _)); [done | unfold i in *; lia | rewrite length_app; cbn; unfold i in *; lia].
    + unfold fine. cbn -[known users New]. rewrite En, HK, decide_True, users_snoc, F2 by done. cbn [change]. rewrite Nat.eqb_refl.
      cbn -[New]. rewrite lookup_insert_eq. split_and!; done.
Qed.

Lemma happens_agrees evs w ev w' : happens w ev w' -> agrees evs w -> agrees (evs ++ [ev]) w'.
Proof.
  intros Hh HA. destruct Hh as [c cfg now x w w' i Ho|i w w' Hr|i w w' Hr|i w Hi|i w|i a b b' c w Hb Ha Hn].
  - rewrite Open_parts in Ho. destruct (drop_closed_spec evs (String c) w HA) as [HA' Hc].
    pose proof (Open_fresh_spec evs c cfg now x _ HA' Hc) as Hs. rewrite Ho in Hs. apply Hs.
  - destruct (Release_spec evs i w HA) as (w1 & ok & E1 & _ & Hs). rewrite Hr in E1. by injection E1 as <- <-.
  - destruct (Release_spec evs i w HA) as (w1 & ok & E1 & _ & Hs). rewrite Hr in E1. by injection E1 as <- <-.
  - by apply agrees_left.
  - by apply agrees_close.
  - by eapply agrees_work.
Qed.
Lemma runs_agrees evs w : runs evs w -> agrees evs w.
Proof. induction 1 as [|evs ev w w' _ IH Hh]; [apply agrees_start | by eapply happens_agrees]. Qed.
End Registry.

(** C25. A registry shares buses and counts their users. After any calls, of callers who
    release what they opened, close a bus directly, or use it: a bus that nobody closed
    directly is open as long as somebody who opened it has not released it, and closed once
    the last one has; of the buses for channels of one name at most one is open, apart from
    those on their way out; releasing never finds the registry inconsistent; and opening
    returns a bus that is open, for a channel of that name, and closes the given channel
    exactly if it is not the one in use. *)
Theorem registry_shares (String : nat -> string) {X E : Type} (w_Write : X -> nat -> list Z -> X * (Z * option E)) evs w :
  runs String w_Write evs w ->
  (forall i b c, buses w !! i = Some (b, c) -> ~ closed_directly i evs ->
    0 <= users i evs /\ (closed b = true <-> (users i evs = 0 /\ i ∉ leaving w))) /\
  (forall i j bi bj ci cj, buses w !! i = Some (bi, ci) -> buses w !! j = Some (bj, cj) -> String ci = String cj ->
    closed bi = false -> closed bj = false -> i ∉ leaving w -> j ∉ leaving w -> i = j) /\
  (forall i, exists w' ok, Release i w = Some (w', ok)) /\
  (forall c cfg now x, let '(w', i) := Open String c cfg now x w in
    exists c', chan i w' = Some c' /\ String c' = String c /\ isClosed i w' = false /\
      shut w' = shut w ++ if (c =? c')%nat then [] else [c]).
Proof.
  intros HA%runs_agrees. pose proof HA as [HL HF]. split_and!.
  - intros i b c Hb Hn. specialize (HF i). unfold fine in HF. rewrite Hb in HF. destruct (known (reg w) i) as [e|]; [|destruct (closed b); naive_solver lia].
    destruct HF as (F1 & F2 & _ & _ & F5 & F6). split; [lia|]. split; [by intros ?%F6 | lia].
  - intros i j bi bj ci cj Hi Hj Hs Ei Ej Li Lj. pose proof (HF i) as Fi. pose proof (HF j) as Fj. unfold fine in *. rewrite Hi in Fi. rewrite Hj in Fj.
    destruct (known (reg w) i) as [ei|] eqn:Ki; [|naive_solver]. destruct (known (reg w) j) as [ej|] eqn:Kj; [|naive_solver].
    destruct (known_Some _ _ _ HL Ki) as (ki & Bi & Hei & <-), (known_Some _ _ _ HL Kj) as (kj & Bj & Hej & <-).
    destruct Fi as (_ & _ & -> & Fi & _), Fj as (_ & _ & -> & Fj & _). congruence.
  - intros i. destruct (Release_spec String evs i w HA) as (w' & ok & Hr & _). by exists w', ok.
  - intros c cfg now x. rewrite Open_parts. destruct (drop_closed_spec String evs (String c) w HA) as [HA' Hc]. set (w1 := drop_closed _ _) in *.
    assert (Hsh : shut w1 = shut w) by (unfold w1, drop_closed; by repeat case_match). rewrite <- Hsh.
    pose proof (Open_fresh_spec String w_Write evs c cfg now x w1 HA' Hc) as Hs. destruct (Open_fresh _ _ _ _ _ _) as [w' i] eqn:Eo.
    destruct Hs as ([HL2 HF2] & H1 & H2). specialize (HF2 i). unfold fine in HF2. destruct (li_bus _ HL2 _ _ H2) as (e & He & Hi).
    assert (Hk : known (reg w') i = Some e) by (unfold known; by rewrite H2). rewrite Hk in HF2.
    destruct (buses w' !! i) as [[b c']|] eqn:Eb; [|naive_solver]. destruct HF2 as (_ & _ & -> & F4 & _).
    exists (ch e). unfold chan. rewrite Eb. split_and!; [done | congruence | done |].
    unfold Open_fresh in Eo. destruct (entries (reg w1) !! String c) as [e1|] eqn:E1; injection Eo as <- <-; cbn in *.
    + rewrite lookup_insert_eq in He. by injection He as <-.
    + rewrite lookup_insert_eq in He. injection He as <-. cbn. by rewrite Nat.eqb_refl, app_nil_r.
Qed.
