(* ===== verification/MultidropRuns.v ===== *)
(** * Runs of a shared line

    A line with two masters that share an address and an outstation, and what happens on it;
    two callers that want the same line.  The line keeps what is written to it. *)

From stdpp Require Import gmap strings.
From S2P Require Import Prelude LinkFrame LinkParser Transport Multidrop MultidropRouting Registry.

Definition wires := list (nat * list Z).
Definition keep (x : wires) (l : nat) (p : list Z) : wires * (Z * option unit) := (x ++ [(l, p)], (len p, None)).

Lemma reachable_acts cf l (b b' : @Bus wires unit) : reachable keep cf b -> acts keep l b = Some b' -> reachable keep cf b'.
Proof.
  revert b. induction l as [|a l IH]; intros b Hb; cbn [acts]; [by intros [= <-]|].
  destruct (act keep a b) as [b1|] eqn:Ea; [|done]. cbn. apply IH. by eapply reachable_step.
Qed.

Definition plain : Config := mkConfig 0 0.
Definition bus0 : @Bus wires unit := New plain 0 [].
Definition after (l : list (@action unit)) : @Bus wires unit := default bus0 (acts keep l bus0).
Lemma reachable_after l : is_Some (acts keep l bus0) -> reachable keep plain (after l).
Proof.
  intros [b Hb]. unfold after. rewrite Hb. cbn. eapply reachable_acts; [|exact Hb]. apply reachable_new.
Qed.

(** Two masters at 1 poll the outstations 10 and 11; an outstation is at 20. *)
Definition party : list (@action unit) :=
  [DoAdd (mkStation 1 10 true); DoAdd (mkStation 1 11 true); DoAdd (mkStation 20 1 false); DoAttach; DoConnect 0; DoConnect 1; DoConnect 2].
Definition shared : @Bus wires unit := after party.

Definition header (dest src : Z) : LinkFrame.Header := LinkFrame.mkHeader (mkControl false true false false 4) dest src 0.

Lemma frame_goes_to_one_witness :
  matches (mkStation 1 11 true) (header 1 11) = true /\
  (forall i o, placed shared i o -> matches o (header 1 11) = true -> 1%nat = i) /\
  (forall i s, placed shared i s -> matches s (header 65535 11) = negb (Master s)).
Proof.
  assert (HR : reachable keep plain shared) by (apply reachable_after; vm_compute; by eexists).
  split; [done|]. split.
  - intros i o Hi Ho. apply (frame_goes_to_one keep plain shared (header 1 11) HR 1%nat i (mkStation 1 11 true) o); try done.
    split; [|vm_compute; done]. change (stations shared) with [0; 1; 2]%nat. set_solver.
  - exact (frame_goes_to_one keep plain shared (header 65535 11) HR).
Defined.

(** A read request of the master at 1 to the outstation 10, as it is written. *)
Definition request_frame : Frame := mkFrame (LinkFrame.mkHeader (mkControl true true false false 4) 10 1 8) [192; 192; 1].
Lemma request_frame_ok : frame_ok request_frame.
Proof. vm_compute. split_and!; try done; repeat constructor; done. Qed.
Lemma expectsReply_answered_witness : expectsReply (octets_of request_frame) = true.
Proof. rewrite (expectsReply_answered request_frame request_frame_ok); [done | right; vm_compute; done]. Defined.

(** The master takes the line, its request is on its way, and its session goes. *)
Definition deserted : @Bus wires unit :=
  after (party ++ [DoWriteBegin 0 (octets_of request_frame); DoAcquire 0; DoWriteLine 0; DoConnClose 0; DoTeardown 0; DoTick 500]).

Lemma line_comes_back_witness :
  holder (arb deserted) = Some 0%nat /\
  exists k, conns deserted !! 0%nat = Some k /\ done k = true /\
  exists l b', Forall (own 0) l /\ acts keep l deserted = Some b' /\ holder (arb b') <> Some 0%nat.
Proof.
  assert (HR : reachable keep plain deserted) by (apply reachable_after; vm_compute; by eexists).
  assert (Hh : holder (arb deserted) = Some 0%nat) by (by vm_compute). split; [done|].
  destruct (line_comes_back keep plain deserted 0%nat HR Hh) as [(k & Hk & _ & Hl) _]. exists k. split; [done|].
  assert (Hd : (done <$> conns deserted !! 0%nat) = Some true) by (by vm_compute).
  rewrite Hk in Hd. injection Hd as Hd. by rewrite Hd in Hl.
Defined.

(** A response to each of the masters and a broadcast, with noise between them, in two reads. *)
Definition response_from (src : Z) (n : Z) : Frame := mkFrame (LinkFrame.mkHeader (mkControl false true false false 4) 1 src 10) [192; 192; 129; 0; n].
Definition to_all : Frame := mkFrame (LinkFrame.mkHeader (mkControl true true false false 4) 65535 3 8) [192; 192; 2].
Definition traffic : list (list Z * Frame) := [([1; 2], response_from 10 7); ([], response_from 11 8); ([9], to_all)].
Definition cut : list (list Z) := let l := concat (noisy <$> traffic) in [take 20 l; drop 20 l].

Lemma traffic_ok : Forall noisy_ok traffic.
Proof. repeat constructor; vm_compute; try done; split_and!; try done; repeat constructor; done. Qed.
Lemma frames_reach_station_witness : exists p prev b',
  read cut NewParser (pstats NewParser) shared = Some (p, prev, b') /\
  (rx <$> conns b' !! 0%nat) = Some [octets_of (response_from 10 7)].
Proof.
  assert (HR : reachable keep plain shared) by (apply reachable_after; vm_compute; by eexists).
  destruct (frames_reach_station keep plain shared 0 (mkStationObj (mkStation 1 10 true) (Some 0%nat) false) 0 traffic cut)
    as (k & k' & p & prev & b' & Hk & He & Hk' & Hr).
  - exact HR.
  - by vm_compute.
  - change (stations shared) with [0; 1; 2]%nat. set_solver.
  - by vm_compute.
  - done.
  - apply traffic_ok.
  - by vm_compute.
  - exists p, prev, b'. split; [done|]. rewrite Hk'. cbn [fmap option_fmap option_map]. rewrite Hr.
    assert (Hq : (rx <$> conns shared !! 0%nat) = Some []) by (by vm_compute). rewrite Hk in Hq. injection Hq as ->. by vm_compute.
Defined.

(** ** Two callers *)

(** Channels 0 and 1 are the same port. *)
Definition port (c : nat) : string := if (c <? 2)%nat then "serial /dev/ttyUSB0 9600/8N1" else "tcp :20000".
Definition w1 : World := (Open port 0 plain 0 [] (World0 (X := wires) (E := unit))).1.
Definition w2 : World := (Open port 1 plain 0 [] w1).1.
Definition w3 : World := (default (w2, false) (Release 0 w2)).1.
Definition w4 : World := (default (w3, false) (Release 0 w3)).1.
Definition w5 : World := Release_close 0 w4.

Lemma both_run : runs port keep [Opened 0 0; Opened 1 0; Released 0; Released 0; Left 0] w5.
Proof.
  apply (runs_snoc _ _ [Opened 0 0; Opened 1 0; Released 0; Released 0] _ w4).
  - apply (runs_snoc _ _ [Opened 0 0; Opened 1 0; Released 0] _ w3).
    + apply (runs_snoc _ _ [Opened 0 0; Opened 1 0] _ w2).
      * apply (runs_snoc _ _ [Opened 0 0] _ w1); [apply (runs_snoc _ _ [] _ World0); [constructor|]|].
        -- by apply (happens_open _ _ 0 plain 0 []).
        -- by apply (happens_open _ _ 1 plain 0 []).
      * by apply happens_release.
    + by apply happens_release.
  - apply happens_left. change (leaving w4) with [0%nat]. set_solver.
Qed.
Lemma registry_shares_witness : exists b c, buses w5 !! 0%nat = Some (b, c) /\ closed b = true /\ shut w5 = [1; 0]%nat /\ Len w5 = 0%nat.
Proof.
  destruct (registry_shares port keep _ _ both_run) as [H1 _]. destruct (buses w5 !! 0%nat) as [[b c]|] eqn:Eb; [|by vm_compute in Eb].
  exists b, c. split; [done|]. split; [|by vm_compute]. apply (H1 0%nat b c Eb).
  - intros Hc%list_elem_of_In. cbn in Hc. clear H1. intuition discriminate.
  - split; [done|]. change (leaving w5) with (@nil nat). apply not_elem_of_nil.
Defined.

(** The last caller has released the bus and has not closed it yet: a new caller gets a
    second bus on the same port, while the first one still has it open. *)
Example two_at_once :
  let w := (Open port 1 plain 0 [] w4).1 in
  isClosed 0 w = false /\ isClosed 1 w = false /\ (port <$> chan 0 w) = (port <$> chan 1 w).
Proof. by vm_compute. Qed.

(** The port could not be opened: the bus has stopped for good, and is handed out again. *)
Definition broken_bus : @Bus wires unit := default bus0 (act keep (DoDie (Some (ErrChannel tt))) bus0).
Definition broken : World := mkWorld (reg w1) [(broken_bus, 0%nat)] [] [].
Example stopped_bus_reused :
  let '(w, i) := Open port 1 plain 0 [] broken in
  i = 0%nat /\ isClosed i w = false /\
  match buses w !! i with Some (b, _) => (snd <$> station_Connect 0 (Add (mkStation 1 10 true) b).1) = Some (Err (ErrChannel tt)) | None => False end.
Proof. by vm_compute. Qed.
