(* ===== verification/Channel.v ===== *)
(** * Channels (src/channel/channel.go, tls.go, serial.go)

    A channel hands out connections, one after the other: by dialling, with waits that grow
    from one failed attempt to the next; by accepting; by opening a serial port; or, between
    two sessions of one process, by making a pipe.

    Sockets, ports, timers and contexts are not the program's.  A loop that uses them is given,
    turn by turn, what they did: a [turn] of a client, an [arrival] at a server.  A connection
    that the code closes is returned with the result. *)

From Stdlib Require Import SpecFloat.
From S2P Require Import Prelude Values Floats.

(** ** Retries *)

Record Retry := mkRetry { Min : Z; Max : Z; Factor : spec_float; Jitter : spec_float }.
Definition DefaultRetry : Retry := mkRetry (500 * 1000000) (60 * 1000000000) f64_two (f64_from_bits 0x3FC999999999999A).
Definition NoRetry : Retry := mkRetry 0 0 f64_one f64_zero.

(** The [max] of the language: not a number if one of its arguments is not. *)
Definition f64_max (x y : spec_float) : spec_float :=
  match x, y with S754_nan, _ | _, S754_nan => S754_nan | _, _ => if SFltb x y then y else x end.

Definition ceiling_of (r : Retry) : Z := Z.max (if Max r <=? 0 then Max DefaultRetry else Max r) (Min r).
Fixpoint grow (n : nat) (factor ceiling d : spec_float) : spec_float :=
  match n with
  | O => d
  | S n => let d := f64_mul d factor in if SFleb ceiling d then ceiling else grow n factor ceiling d
  end.
(** [u] is what [rand.Float64] returns. *)
Definition delay (r : Retry) (n : Z) (u : spec_float) : Z :=
  if Min r <=? 0 then 0
  else
    let d := grow (Z.to_nat n) (f64_max (Factor r) f64_one) (f64_of_Z (ceiling_of r)) (f64_of_Z (Min r)) in
    let d := if SFltb f64_zero (Jitter r)
             then f64_mul d (f64_add f64_one (f64_mul (Jitter r) (f64_sub (f64_mul f64_two u) f64_one))) else d in
    f64_trunc d.

(** The waits that the default policy has without its jitter: half a second, doubled until it
    is a minute. *)
Definition steady (r : Retry) : Retry := mkRetry (Min r) (Max r) (Factor r) f64_zero.
Lemma grow_stays k n factor ceiling d : SFleb ceiling ceiling = true -> grow k factor ceiling d = ceiling -> (0 < k <= n)%nat ->
  grow n factor ceiling d = ceiling.
Proof.
  intros Hc. revert n d. induction k as [|k IH]; intros n d Hk Hn; [lia|]. destruct n as [|n]; [lia|]. cbn [grow] in *.
  destruct (SFleb ceiling (f64_mul d factor)) eqn:E1; [done|]. destruct k as [|k]; [cbn in Hk; congruence|]. apply IH; [done | lia].
Qed.
Lemma default_delays n u : 0 <= n ->
  delay (steady DefaultRetry) n u = Z.min (500000000 * 2 ^ n) 60000000000.
Proof.
  intros Hn. destruct (decide (n < 7)) as [Hs|Hs].
  - apply Z.eqb_eq. assert (Hb : 0 <= n < 7) by lia. clear Hn Hs. revert n Hb. apply (forall_below 7). by vm_compute.
  - assert (2 ^ 7 <= 2 ^ n) by (apply Z.pow_le_mono_r; lia). change (2 ^ 7) with 128 in *. rewrite Z.min_r by lia. unfold delay. cbn [Min steady].
    change (Min DefaultRetry <=? 0) with false. cbv iota zeta. change (SFltb f64_zero (Jitter (steady DefaultRetry))) with false. cbv iota.
    rewrite (grow_stays 7); [by vm_compute | by vm_compute | by vm_compute | lia].
Qed.

(** ** Clients *)

Section Channels.
Context {Conn E : Type}.

Inductive ChanErr := ErrClosed | ErrContext | ErrDial (e : E) | ErrParity | ErrStopBits | ErrReadTimeout (e : E) | ErrListener (e : E).

(** One turn of the loop of [Connect]: whether the channel was closed and the context over at
    its start, what the dial returned, whether the context was over then, what the random
    source gave, whether the context ended during the wait, and whether the channel was closed
    when the connection had been made. *)
Record turn := mkTurn {
  t_closed : bool; t_ctx : bool; t_dial : result E Conn; t_ctx_after : bool; t_rand : spec_float; t_ctx_wait : bool; t_closed_after : bool }.
Record client := mkClient { retry : Retry; attempt : Z }.
(** What a turn comes to: a result, with a connection that is closed; or a wait. *)
Inductive outcome := Returns (r : result ChanErr Conn) (drop : option Conn) | Waits (d : Z).

Definition closeIfClosed (closed : bool) (c : Conn) : outcome := if closed then Returns (Err ErrClosed) (Some c) else Returns (Ok c) None.

(** A failed dial: the wait, and the attempt counted after it. *)
Definition backoff (c : client) (t : turn) : client * outcome :=
  if t_ctx_wait t then (c, Returns (Err ErrContext) None)
  else (mkClient (retry c) (attempt c + 1), Waits (delay (retry c) (attempt c) (t_rand t))).

(** [tcpClient.Connect] and [tlsClient.Connect]. *)
Definition client_turn (c : client) (t : turn) : client * outcome :=
  if t_closed t then (c, Returns (Err ErrClosed) None)
  else if t_ctx t then (c, Returns (Err ErrContext) None)
  else
    match t_dial t with
    | Ok conn => (mkClient (retry c) 0, closeIfClosed (t_closed_after t) conn)
    | Err e =>
        if t_ctx_after t then (c, Returns (Err ErrContext) None)
        else if Min (retry c) <=? 0 then (c, Returns (Err (ErrDial e)) None)
        else backoff c t
    end.

(** The turns of a call, with the waits between them; [None] while it has not returned. *)
Fixpoint connect (step : client -> turn -> client * outcome) (c : client) (ts : list turn)
    : client * list Z * option (result ChanErr Conn * option Conn) :=
  match ts with
  | [] => (c, [], None)
  | t :: ts =>
      match step c t with
      | (c, Returns r o) => (c, [], Some (r, o))
      | (c, Waits d) => let '(c, ds, r) := connect step c ts in (c, d :: ds, r)
      end
  end.

(** The clients of both kinds. *)
Definition client_Connect : client -> list turn -> client * list Z * option (result ChanErr Conn * option Conn) := connect client_turn.

(** A turn in which the dial fails and nothing else happens. *)
Definition fails (t : turn) : Prop :=
  t_closed t = false /\ t_ctx t = false /\ is_ok (t_dial t) = false /\ t_ctx_after t = false /\ t_ctx_wait t = false.
(** The waits after [n] failures in a row. *)
Fixpoint waits (r : Retry) (n : Z) (ts : list turn) : list Z :=
  match ts with [] => [] | t :: ts => delay r n (t_rand t) :: waits r (n + 1) ts end.
Lemma connect_waits c ts last conn : 0 < Min (retry c) -> Forall fails ts ->
  t_closed last = false -> t_ctx last = false -> t_dial last = Ok conn -> t_closed_after last = false ->
  client_Connect c (ts ++ [last]) = (mkClient (retry c) 0, waits (retry c) (attempt c) ts, Some (Ok conn, None)).
Proof.
  intros Hm Hf H1 H2 H3 H4. unfold client_Connect. revert c Hm.
  induction Hf as [|t ts (F1 & F2 & F3 & F4 & F5) _ IH]; intros c Hm; cbn [app connect waits].
  - unfold client_turn, closeIfClosed. by rewrite H1, H2, H3, H4.
  - unfold client_turn at 1. rewrite F1, F2, F4. destruct (t_dial t) as [|e]; [done|]. rewrite (proj2 (Z.leb_gt _ _)) by done.
    unfold backoff. rewrite F5. by rewrite IH.
Qed.

(** ** Serial ports *)

Inductive Parity := ParityNone | ParityOdd | ParityEven | ParityMark | ParitySpace | ParityOther (name : list Z).
Inductive StopBits := StopBits1 | StopBits1Point5 | StopBits2 | StopBitsOther (name : list Z).
Record SerialConfig := mkSerialConfig { Baud : Z; DataBits : Z; c_Parity : Parity; c_StopBits : StopBits; ReadTimeout : Z }.
Definition applyDefaults (c : SerialConfig) : SerialConfig :=
  mkSerialConfig (if Baud c =? 0 then 9600 else Baud c) (if DataBits c =? 0 then 8 else DataBits c)
    (match c_Parity c with ParityOther [] => ParityNone | p => p end) (match c_StopBits c with StopBitsOther [] => StopBits1 | b => b end)
    (if ReadTimeout c <=? 0 then 1000000000 else ReadTimeout c).
(** The mode for the port: baud rate, data bits, parity and stop bits. *)
Definition mode (c : SerialConfig) : result ChanErr (Z * Z * Parity * StopBits) :=
  match c_Parity c with
  | ParityOther _ => Err ErrParity
  | p => match c_StopBits c with StopBitsOther _ => Err ErrStopBits | b => Ok (Baud c, DataBits c, p, b) end
  end.

(** A turn opens the port; [timeout] is what setting its read timeout returns.  The result
    says, besides, which port the channel holds. *)
Definition serial_turn (timeout : option E) (c : client) (t : turn) : client * outcome :=
  if t_closed t then (c, Returns (Err ErrClosed) None)
  else if t_ctx t then (c, Returns (Err ErrContext) None)
  else
    match t_dial t with
    | Ok port =>
        match timeout with
        | Some e => (c, Returns (Err (ErrReadTimeout e)) (Some port))
        | None => if t_closed_after t then (c, Returns (Err ErrClosed) (Some port)) else (mkClient (retry c) 0, Returns (Ok port) None)
        end
    | Err e => if Min (retry c) <=? 0 then (c, Returns (Err (ErrDial e)) None) else backoff c t
    end.
(** [ser_closed] is set by [Close], which closes the port that was handed out last. *)
Record serialChannel := mkSerial { ser_cfg : SerialConfig; ser_client : client; ser_closed : bool; port : option Conn }.
Definition SerialChannel (cfg : SerialConfig) (r : Retry) : serialChannel := mkSerial (applyDefaults cfg) (mkClient r 0) false None.
Definition serial_Connect (timeout : option E) (s : serialChannel) (ts : list turn)
    : serialChannel * list Z * option (result ChanErr Conn * option Conn) :=
  match mode (ser_cfg s) with
  | Err e => (s, [], Some (Err e, None))
  | Ok _ =>
      let '(c, ds, r) := connect (serial_turn timeout) (ser_client s) ts in
      (mkSerial (ser_cfg s) c (ser_closed s) (match r with Some (Ok p, _) => Some p | _ => port s end), ds, r)
  end.
Definition serial_Close (s : serialChannel) : serialChannel * option Conn := (mkSerial (ser_cfg s) (ser_client s) true None, port s).

(** [serialConn.Read]: the reads of the port, in which a timeout is an empty one. *)
Fixpoint serial_Read (reads : list (list Z * option E)) : option (list Z * option E) :=
  match reads with
  | [] => None
  | (o, Some e) :: _ => Some (o, Some e)
  | (o, None) :: reads => if 0 <? len o then Some (o, None) else serial_Read reads
  end.

(** ** Servers *)

Record server {L : Type} := mkServer { listener : option L; srv_closed : bool }.
Arguments server : clear implicits.
(** [bind] is what [net.Listen] returns. *)
Definition listen {L} (bind : result E L) (s : server L) : server L * result ChanErr L :=
  if srv_closed s then (s, Err ErrClosed)
  else
    match listener s with
    | Some l => (s, Ok l)
    | None => match bind with Err e => (s, Err (ErrListener e)) | Ok l => (mkServer L (Some l) false, Ok l) end
    end.
Definition server_Close {L} (s : server L) : server L := mkServer L (listener s) true.

Inductive AcceptErr := NetClosed | AcceptFailed.
(** One accept: whether the context was over before it, what it returned, whether the context
    is over now, and whether it ends in the wait that may follow. *)
Record arrival := mkArrival { a_ctx : bool; a_conn : result AcceptErr Conn; a_ctx_after : bool; a_ctx_wait : bool }.
Definition acceptOnce (a : arrival) : result (ChanErr + AcceptErr) Conn * option Conn :=
  if a_ctx a then (Err (inl ErrContext), None)
  else
    match a_conn a with
    | Err e => (if a_ctx_after a then Err (inl ErrContext) else Err (inr e), None)
    | Ok c => if a_ctx_after a then (Err (inl ErrContext), Some c) else (Ok c, None)
    end.
Definition acceptMinBackoff : Z := 5 * 1000000.
Definition acceptMaxBackoff : Z := 1000000000.
Fixpoint acceptContext (backoff : Z) (l : list arrival) : list Z * option (result ChanErr Conn * option Conn) * list arrival :=
  match l with
  | [] => ([], None, [])
  | a :: l =>
      match acceptOnce a with
      | (Ok c, o) => ([], Some (Ok c, o), l)
      | (Err (inl e), o) => ([], Some (Err e, o), l)
      | (Err (inr NetClosed), o) => ([], Some (Err ErrClosed, o), l)
      | (Err (inr AcceptFailed), _) =>
          let b := Z.min (Z.max (2 * backoff) acceptMinBackoff) acceptMaxBackoff in
          if a_ctx_wait a then ([b], Some (Err ErrContext, None), l)
          else let '(ds, r, l) := acceptContext b l in (b :: ds, r, l)
      end
  end.

(** The waits of a listener in trouble: five milliseconds, doubled until it is a second. *)
Definition in_trouble (a : arrival) : Prop :=
  a_ctx a = false /\ a_conn a = Err AcceptFailed /\ a_ctx_after a = false /\ a_ctx_wait a = false.
Lemma accept_waits l a rest c b : Forall in_trouble l -> a_ctx a = false -> a_conn a = Ok c -> a_ctx_after a = false ->
  exists ds, acceptContext b (l ++ a :: rest) = (ds, Some (Ok c, None), rest) /\ length ds = length l /\
    Forall (fun d => acceptMinBackoff <= d <= acceptMaxBackoff) ds.
Proof.
  intros Hl H1 H2 H3. revert b. induction Hl as [|x l (F1 & F2 & F3 & F4) _ IH]; intros b; cbn [app acceptContext].
  - unfold acceptOnce. rewrite H1, H2, H3. by exists [].
  - unfold acceptOnce. rewrite F1, F2, F3, F4. set (b' := Z.min _ _). destruct (IH b') as (ds & -> & Hn & Hd). exists (b' :: ds).
    split_and!; [done | cbn; by rewrite Hn |]. constructor; [|done]. unfold b', acceptMinBackoff, acceptMaxBackoff. lia.
Qed.

(** [tlsServer.Connect]: peers until one completes the handshake.  [ctx_after] says whether the
    context is over after a handshake that failed. *)
Fixpoint tls_connect (peers : list (list arrival * bool * bool)) : option (result ChanErr Conn * list Conn) :=
  match peers with
  | [] => None
  | (l, handshake, ctx_after) :: peers =>
      match acceptContext 0 l with
      | (_, Some (Ok c, _), _) =>
          if handshake : bool then Some (Ok c, [])
          else if ctx_after : bool then Some (Err ErrContext, [c])
          else '(r, cs) ← tls_connect peers; Some (r, c :: cs)
      | (_, Some (Err e, o), _) => Some (Err e, option_list o)
      | (_, None, _) => None
      end
  end.
End Channels.

(** ** Pipes

    The two ends of the [k]-th pair [net.Pipe] makes are [(k, false)] and [(k, true)]; [shut]
    has the ends that were closed by the channels. *)

Definition end_ : Type := nat * bool.
Record pipePair := mkPipe { pending : option nat; claimed : bool * bool; done : bool; pairs : nat; shut : list end_ }.
Definition Pipe : pipePair := mkPipe None (false, false) false 0 [].

Definition is_claimed (p : pipePair) (side : bool) : bool := if side then (claimed p).2 else (claimed p).1.
Definition claim_side (side : bool) (c : bool * bool) : bool * bool := if side then (c.1, true) else (true, c.2).

Definition discardLocked (p : pipePair) : pipePair :=
  match pending p with
  | None => p
  | Some k => mkPipe None (claimed p) (done p) (pairs p) (shut p ++ [(k, false); (k, true)])
  end.
(** [None]: the channel is closed. *)
Definition claim (side : bool) (p : pipePair) : pipePair * option end_ :=
  if done p then (p, None)
  else
    let p := if bool_decide (pending p = None) || is_claimed p side
             then let p := discardLocked p in mkPipe (Some (pairs p)) (false, false) (done p) (S (pairs p)) (shut p) else p in
    match pending p with
    | None => (p, None)
    | Some k =>
        let c := claim_side side (claimed p) in
        (if c.1 && c.2 then mkPipe None (false, false) (done p) (pairs p) (shut p)
         else mkPipe (Some k) c (done p) (pairs p) (shut p), Some (k, side))
    end.
(** [Close] of an end, its two statements. *)
Definition close_done (p : pipePair) : pipePair := mkPipe (pending p) (claimed p) true (pairs p) (shut p).

(** What sessions do with the two channels, and the ends they were handed, in order. *)
Inductive pipe_event := Claim (side : bool) | CloseDone | Discard.
Definition pipe_act (e : pipe_event) (st : pipePair * list end_) : pipePair * list end_ :=
  match e with
  | Claim side => let '(p, o) := claim side st.1 in (p, st.2 ++ option_list o)
  | CloseDone => (close_done st.1, st.2)
  | Discard => (if done st.1 then discardLocked st.1 else st.1, st.2)
  end.
Definition pipe_run (es : list pipe_event) : pipePair * list end_ := fold_left (fun st e => pipe_act e st) es (Pipe, []).

Definition other (x : end_) : end_ := (x.1, negb x.2).
(** An end is paired, or waits for its peer, or was closed. *)
Record joined (p : pipePair) (given : list end_) : Prop := mkJoined {
  jo_once : NoDup given;
  jo_made : Forall (fun x => (x.1 < pairs p)%nat) given;
  jo_pending k : pending p = Some k -> (k < pairs p)%nat /\ negb ((claimed p).1 && (claimed p).2) = true /\ (forall side, (k, side) ∈ given <-> is_claimed p side = true) /\
    (forall side, (k, side) ∉ shut p);
  jo_alone x : x ∈ given -> other x ∈ given \/ pending p = Some x.1 \/ (x ∈ shut p /\ other x ∈ shut p);
  jo_shut x : x ∈ shut p -> other x ∈ shut p /\ (x.1 < pairs p)%nat /\ ~ (x ∈ given /\ other x ∈ given) }.

Lemma joined_start : joined Pipe [].
Proof. split; cbn; [apply NoDup_nil_2 | apply Forall_nil_2 | done | by intros x ?%not_elem_of_nil | by intros x ?%not_elem_of_nil]. Qed.
Lemma end_cases (x : end_) k : x.1 = k -> x = (k, false) \/ x = (k, true).
Proof. destruct x as [k' []]; cbn; intros ->; auto. Qed.

Lemma joined_discard p given : joined p given -> joined (discardLocked p) given.
Proof.
  intros HJ. unfold discardLocked. destruct (pending p) as [k|] eqn:Ek; [|done]. destruct HJ as [J1 J2 J3 J4 J5].
  destruct (J3 k Ek) as (Hk & Hb & Hg & Hs). split; cbn; [done | done | done | |].
  - intros x Hx. destruct (J4 x Hx) as [?|[E1|[H1 H2]]]; [by left | | right; right; rewrite !elem_of_app; auto].
    rewrite Ek in E1. injection E1 as E1. right; right. rewrite !elem_of_app.
    destruct (end_cases x k (eq_sym E1)) as [->| ->]; cbn; split; right; set_solver.
  - intros x [Hx|Hx]%elem_of_app.
    + destruct (J5 x Hx) as (H1 & H2 & H3). split_and!; [apply elem_of_app; by left | done | done].
    + assert (E1 : x = (k, false) \/ x = (k, true)) by set_solver.
      assert (Hn : ~ ((k, false) ∈ given /\ (k, true) ∈ given)) by (rewrite !Hg; cbn; destruct (claimed p) as [[] []]; cbn in *; naive_solver).
      destruct E1 as [->| ->]; cbn; split_and!; try done; [apply elem_of_app; right; set_solver | apply elem_of_app; right; set_solver | tauto].
Qed.
(** A new pair. *)
Lemma joined_fresh p given : joined p given -> pending p = None ->
  joined (mkPipe (Some (pairs p)) (false, false) (done p) (S (pairs p)) (shut p)) given.
Proof.
  intros [J1 J2 J3 J4 J5] Hp. rewrite Forall_forall in J2. split; cbn.
  - done.
  - apply Forall_forall. intros x Hx. specialize (J2 x Hx). lia.
  - intros k [= <-]. split_and!; [lia | done | |].
    + intros side. split; [|by destruct side]. intros Hx. specialize (J2 _ Hx). cbn in J2. lia.
    + intros side Hx. destruct (J5 _ Hx) as (_ & H1 & _). cbn in H1. lia.
  - intros x Hx. destruct (J4 x Hx) as [?|[E1|?]]; [by left | congruence | by right; right].
  - intros x Hx. destruct (J5 x Hx) as (H1 & H2 & H3). split_and!; [done | lia | done].
Qed.
Lemma joined_claim side p given k : joined p given -> pending p = Some k -> is_claimed p side = false ->
  let c := claim_side side (claimed p) in
  joined (if c.1 && c.2 then mkPipe None (false, false) (done p) (pairs p) (shut p) else mkPipe (Some k) c (done p) (pairs p) (shut p))
    (given ++ [(k, side)]).
Proof.
  intros [J1 J2 J3 J4 J5] Hp Hc c. destruct (J3 k Hp) as (Hk & Hb & Hg & Hs).
  assert (Hnew : (k, side) ∉ given) by (rewrite Hg, Hc; done).
  assert (Hin : forall x, x ∈ given ++ [(k, side)] <-> (x ∈ given \/ x = (k, side))) by (intros x; rewrite elem_of_app, list_elem_of_singleton; done).
  assert (J1' : NoDup (given ++ [(k, side)])) by (apply NoDup_app; split_and!; [done | | apply NoDup_singleton]; intros x Hx ->%list_elem_of_singleton; done).
  assert (J2' : Forall (fun x => (x.1 < pairs p)%nat) (given ++ [(k, side)])) by (apply Forall_app; split; [done | by constructor]).
  assert (J5' : forall x, x ∈ shut p -> other x ∈ shut p /\ (x.1 < pairs p)%nat /\ ~ (x ∈ given ++ [(k, side)] /\ other x ∈ given ++ [(k, side)])).
  { intros x Hx. destruct (J5 x Hx) as (H1 & H2 & H3). split_and!; [done | done |]. rewrite !Hin. intros [[Ha|Ha] [Hb'|Hb']]; [tauto | | |].
    - apply (Hs side). by rewrite <- Hb'.
    - apply (Hs side). by rewrite <- Ha.
    - apply (Hs side). by rewrite <- Ha. }
  destruct (c.1 && c.2) eqn:Ec; split; cbn; try done.
  - intros x Hx. rewrite !Hin. apply Hin in Hx as [Hx| ->].
    + destruct (J4 x Hx) as [?|[E1|?]]; [left; by left | | by right; right]. rewrite Hp in E1. injection E1 as E1.
      left. right. unfold other. destruct x as [k' s']. cbn in *. subst k'. apply Hg in Hx. destruct side, s'; cbn in *; congruence.
    + left. left. cbn. apply Hg. unfold c in Ec. destruct side; cbn in *; [by rewrite andb_true_r in Ec | done].
  - intros k' [= <-]. split_and!; [done | by rewrite Ec | | done]. intros s'. rewrite Hin, Hg. unfold c. destruct side, s'; cbn in *; rewrite ?Hc; split; intros; try tauto; try congruence; try (by left); try (by right).
    all: by destruct H as [?|[=]].
  - intros x Hx. rewrite !Hin. apply Hin in Hx as [Hx| ->]; [|right; left; done].
    destruct (J4 x Hx) as [?|[E1|?]]; [left; by left | right; left; congruence | by right; right].
Qed.
Lemma joined_act e st : joined st.1 st.2 -> joined (pipe_act e st).1 (pipe_act e st).2.
Proof.
  destruct st as [p given]. cbn [fst snd]. intros HJ. destruct e as [side| |]; cbn [pipe_act fst snd].
  - unfold claim. destruct (done p) eqn:Ed; [cbn; by rewrite app_nil_r|].
    assert (Hfresh : joined (mkPipe (Some (pairs (discardLocked p))) (false, false) (done (discardLocked p)) (S (pairs (discardLocked p))) (shut (discardLocked p))) given).
    { apply joined_fresh; [by apply joined_discard|]. unfold discardLocked. destruct (pending p) eqn:E1; [done | by rewrite E1]. }
    destruct (bool_decide_reflect (pending p = None)) as [Hp|Hp]; cbn [orb].
    + exact (joined_claim side _ _ _ Hfresh eq_refl ltac:(by destruct side)).
    + destruct (is_claimed p side) eqn:Ec; [exact (joined_claim side _ _ _ Hfresh eq_refl ltac:(by destruct side))|].
      destruct (pending p) as [k|] eqn:Ek; [|done]. exact (joined_claim side p given k HJ Ek Ec).
  - destruct HJ as [J1 J2 J3 J4 J5]. by split.
  - destruct (done p); [by apply joined_discard | done].
Qed.
Lemma acts_joined es st : joined st.1 st.2 -> let st' := fold_left (fun st e => pipe_act e st) es st in joined st'.1 st'.2.
Proof. revert st. induction es as [|e es IH]; intros st H; [done|]. by apply (IH (pipe_act e st)), joined_act. Qed.
Lemma pipe_run_joined es : joined (pipe_run es).1 (pipe_run es).2.
Proof. apply (acts_joined es (Pipe, [])), joined_start. Qed.

(** Pipes join the two sides. Whatever the sessions on both ends do, each end of a pair is
    handed out at most once, and to its own side; and an end that was handed out has a peer who
    was handed the other one, or waits for the peer, or is closed together with the other one:
    nobody talks into a pipe that was given up. *)
Theorem pipe_joins es x : let '(p, given) := pipe_run es in
  NoDup given /\ (x ∈ given -> other x ∈ given \/ pending p = Some x.1 \/ (x ∈ shut p /\ other x ∈ shut p)) /\
  (x ∈ shut p -> ~ (x ∈ given /\ other x ∈ given)).
Proof.
  pose proof (pipe_run_joined es) as [J1 _ _ J4 J5]. destruct (pipe_run es) as [p given]. cbn in *.
  split_and!; [done | apply J4 | apply J5].
Qed.
