(* ===== verification/Udp.v ===== *)
(** * Datagrams as a stream (src/channel/udp.go)

    A UDP socket as the connection of a session: a datagram is read whole and handed out in
    pieces, and the frames of a fragment, which the stack brackets with [BeginMessage] and
    [EndMessage], leave as one datagram.

    The socket is a parameter: a state [W] with [ReadFromUDP] and [WriteToUDP].  A read that
    waits is [None].  Whether the channel's socket is open is a field, since only the channel
    closes it. *)

From S2P Require Import Prelude LinkFrame LinkParser LinkFsm Transport Stack.

Definition maxDatagram : Z := 65507.

Section Udp.
Context {W Addr E : Type}.
Context (ReadFromUDP : W -> Z -> option (W * result E (list Z * Addr))).
Context (WriteToUDP : W -> list Z -> Addr -> W * (Z * option E)).
(** Resolving the configured addresses and binding the socket. *)
Context (resolve : list Z -> result E Addr) (ListenUDP : W -> Addr -> W * option E).

Inductive UdpErr := ErrClosed | ErrTooLarge | ErrNoPeer | ErrContext | ErrSocket (e : E) | ErrResolve (e : E).

Record UDPConfig := mkUDPConfig { LocalAddr : list Z; RemoteAddr : list Z }.
(** [conn] says whether there is a socket. *)
Record udpChannel := mkUdpChannel { cfg : UDPConfig; conn : bool; remote : option Addr; closed : bool }.
Record udpConn := mkUdpConn { pending : list Z; wbuf : list Z; batching : bool }.

(** A connection with its channel and the host. *)
Record endpoint := mkEndpoint { ch : udpChannel; u : udpConn; host : W }.

Definition UDPChannel (c : UDPConfig) : udpChannel := mkUdpChannel c false None false.
Definition udpConn0 : udpConn := mkUdpConn [] [] false.

(** [cancelled] says whether the context has ended. *)
Definition Connect (cancelled : bool) (c : udpChannel) (w : W) : udpChannel * W * result UdpErr udpConn :=
  if closed c then (c, w, Err ErrClosed)
  else if cancelled then (c, w, Err ErrContext)
  else if conn c then (c, w, Ok udpConn0)
  else
    let local := match LocalAddr (cfg c) with [] => [58; 48] | l => l end in
    match resolve local with
    | Err e => (c, w, Err (ErrResolve e))
    | Ok laddr =>
        let '(w, err) := ListenUDP w laddr in
        match err with
        | Some e => (c, w, Err (ErrSocket e))
        | None =>
            match RemoteAddr (cfg c) with
            | [] => (mkUdpChannel (cfg c) true (remote c) (closed c), w, Ok udpConn0)
            | r =>
                match resolve r with
                | Err e => (mkUdpChannel (cfg c) false (remote c) (closed c), w, Err (ErrResolve e))
                | Ok raddr => (mkUdpChannel (cfg c) true (Some raddr) (closed c), w, Ok udpConn0)
                end
            end
        end
    end.
Definition Close (c : udpChannel) : udpChannel := mkUdpChannel (cfg c) false (remote c) true.

Definition set_pending (p : list Z) (x : endpoint) : endpoint := mkEndpoint (ch x) (mkUdpConn p (wbuf (u x)) (batching (u x))) (host x).
Definition set_out (b : list Z) (on : bool) (x : endpoint) : endpoint := mkEndpoint (ch x) (mkUdpConn (pending (u x)) b on) (host x).
Definition set_host (w : W) (x : endpoint) : endpoint := mkEndpoint (ch x) (u x) w.
(** The peer is learnt from the first datagram. *)
Definition learn (a : Addr) (x : endpoint) : endpoint :=
  let c := ch x in
  mkEndpoint (mkUdpChannel (cfg c) (conn c) (match remote c with None => Some a | r => r end) (closed c)) (u x) (host x).

(** A turn per datagram; the fuel counts the empty ones that are skipped. *)
Fixpoint Read (fuel : nat) (n : Z) (x : endpoint) : option (endpoint * result UdpErr (list Z)) :=
  if negb (len (pending (u x)) =? 0) then
    Some (set_pending (drop (Z.to_nat n) (pending (u x))) x, Ok (take (Z.to_nat n) (pending (u x))))
  else
    match fuel with
    | O => None
    | S fuel =>
        if negb (conn (ch x)) then Some (x, Err ErrClosed)
        else
          match ReadFromUDP (host x) maxDatagram with
          | None => None
          | Some (w, Err e) => Some (set_host w x, Err (ErrSocket e))
          | Some (w, Ok (d, a)) => Read fuel n (set_pending d (learn a (set_host w x)))
          end
    end.

Definition send (p : list Z) (x : endpoint) : endpoint * (Z * option UdpErr) :=
  if negb (conn (ch x)) then (x, (0, Some ErrClosed))
  else
    match remote (ch x) with
    | None => (x, (0, Some ErrNoPeer))
    | Some r => let '(w, (n, err)) := WriteToUDP (host x) p r in (set_host w x, (n, ErrSocket <$> err))
    end.
Definition BeginMessage (x : endpoint) : endpoint := set_out [] true x.
Definition EndMessage (x : endpoint) : endpoint * option UdpErr :=
  let x := set_out (wbuf (u x)) false x in
  if len (wbuf (u x)) =? 0 then (x, None)
  else let '(x', (_, err)) := send (wbuf (u x)) x in (set_out [] false x', err).
Definition Write (p : list Z) (x : endpoint) : endpoint * (Z * option UdpErr) :=
  if batching (u x) then
    if maxDatagram <? len (wbuf (u x)) + len p then (x, (0, Some ErrTooLarge))
    else (set_out (wbuf (u x) ++ p) true x, (len p, None))
  else send p x.

(** The connection as the stack writes to it: the stack looks at the error alone. *)
Definition udp_Write (x : endpoint) (p : list Z) : endpoint * option UdpErr := let '(x, (_, err)) := Write p x in (x, err).
Definition udp_message : option ((endpoint -> endpoint) * (endpoint -> endpoint * option UdpErr)) := Some (BeginMessage, EndMessage).

(** ** A fragment is a datagram *)

Lemma udp_Write_gathers x p : batching (u x) = true -> len (wbuf (u x)) + len p <= maxDatagram ->
  udp_Write x p = (set_out (wbuf (u x) ++ p) true x, None).
Proof. intros Hb Hl. unfold udp_Write, Write. rewrite Hb, (proj2 (Z.ltb_ge _ _)) by done. done. Qed.

(** Octets a segment takes on the line. *)
Lemma data_frame_size p d sg : 0 < len sg <= MaxPayload ->
  len (frame_octets (FHeader (data_frame p d sg)) (Payload (data_frame p d sg))) <= MaxFrameSize.
Proof. intros [H0 H1]. rewrite len_frame_octets. change (Payload _) with sg. apply FrameSize_bounds. lia. Qed.
Lemma frames_octets_size p d l : Forall (fun sg => 0 < len sg <= MaxPayload) l ->
  len (frames_octets (data_frame p d <$> l)) <= MaxFrameSize * len l.
Proof.
  induction 1 as [|sg l Hs _ IH]; [done|]. cbn [fmap list_fmap]. rewrite frames_octets_cons, len_app, len_cons.
  pose proof (data_frame_size p d sg Hs). lia.
Qed.
Lemma segs_count fuel q first rest : len (segs fuel q first rest) <= 1 + len rest / 249.
Proof.
  revert q first rest. induction fuel as [|fuel IH]; intros q first rest; cbn [segs].
  { pose proof (len_nonneg rest). pose proof (Z.div_pos (len rest) 249). change (len []) with 0. lia. }
  destruct (len rest <=? MaxSegmentPayload) eqn:El; bool_prop; rewrite len_cons.
  - pose proof (len_nonneg rest). pose proof (Z.div_pos (len rest) 249). change (len []) with 0. lia.
  - specialize (IH (next_seq q) false (drop 249 rest)). unfold MaxSegmentPayload in El.
    replace (len (drop 249 rest)) with (len rest + (-1) * 249) in IH by (unfold len in *; rewrite length_drop; lia).
    rewrite Z.div_add in IH by lia. lia.
Qed.

(** The reads of a session, until a datagram has been read out. *)
Fixpoint read_out (ns : list Z) (x : endpoint) : option (endpoint * list (list Z)) :=
  match ns with
  | [] => Some (x, [])
  | n :: ns =>
      match Read 1 n x with
      | Some (x, Ok o) => if len (pending (u x)) =? 0 then Some (x, [o]) else '(x, os) ← read_out ns x; Some (x, o :: os)
      | _ => None
      end
  end.
Lemma Read_pending fuel n x : pending (u x) <> [] ->
  Read fuel n x = Some (set_pending (drop (Z.to_nat n) (pending (u x))) x, Ok (take (Z.to_nat n) (pending (u x)))).
Proof. intros Hp. destruct fuel; cbn; (destruct (pending (u x)); [done|]); by rewrite len_cons, (proj2 (Z.eqb_neq _ _)) by (pose proof (len_nonneg l); lia). Qed.
Lemma read_out_pending ns x : pending (u x) <> [] -> Forall (fun n => 0 < n) ns -> (length (pending (u x)) <= length ns)%nat ->
  exists x' chunks, read_out ns x = Some (x', chunks) /\ concat chunks = pending (u x).
Proof.
  intros Hp Hns. revert x Hp. induction Hns as [|n ns Hn _ IH]; intros x Hp Hl; [by destruct (pending (u x)); [|cbn in Hl; lia]|].
  cbn [read_out]. rewrite Read_pending by done. cbn [set_pending u pending]. set (rest := drop (Z.to_nat n) (pending (u x))).
  destruct (Z.eqb_spec (len rest) 0) as [E0|E0].
  - eexists _, _. split; [done|]. cbn. rewrite app_nil_r. rewrite <- (take_drop (Z.to_nat n) (pending (u x))) at 2. fold rest.
    destruct rest; [by rewrite app_nil_r | unfold len in E0; cbn in E0; lia].
  - destruct (IH (set_pending rest x)) as (x' & chunks & He & Hc); [cbn; by intros -> | |].
    + cbn. unfold rest. rewrite length_drop. destruct (pending (u x)); [done|]. cbn in *. lia.
    + rewrite He. cbn [mbind option_bind]. eexists _, _. split; [done|]. cbn. rewrite Hc. apply take_drop.
Qed.
Lemma read_out_datagram ns x w octs from : pending (u x) = [] -> conn (ch x) = true -> octs <> [] ->
  ReadFromUDP (host x) maxDatagram = Some (w, Ok (octs, from)) -> Forall (fun n => 0 < n) ns -> (length octs <= length ns)%nat ->
  exists x' chunks, read_out ns x = Some (x', chunks) /\ concat chunks = octs.
Proof.
  intros Hp Hc Hne Hr Hns Hl. set (y := set_pending octs (learn from (set_host w x))).
  destruct (read_out_pending ns y Hne Hns Hl) as (x' & chunks & He & Hcc). exists x', chunks. split; [|done]. rewrite <- He.
  destruct ns as [|n ns]; [destruct octs; [done | cbn in Hl; lia]|]. cbn [read_out].
  replace (Read 1 n x) with (Read 0 n y); [by rewrite !Read_pending by done|]. cbn [Read]. rewrite Hp, Hc, Hr. done.
Qed.
End Udp.

(** C35. Over UDP a fragment is a datagram.  Sent without link confirms by an idle stack with a valid source address over
    a connection whose peer is known, a fragment that is not empty and has fewer than 55776 octets
    is handed to the socket in one datagram that is within the limit.  At the other end, at a
    connection that holds no octets of an earlier datagram, when the datagram arrives, reads of
    any sizes give its octets, from which the station they are addressed to, of the other role,
    delivers the fragment, once and whole, when it is within the station's fragment limit
    and the station's parser holds no part of a frame. *)
Theorem udp_carries_fragment {W Addr E : Type} (ReadFromUDP : W -> Z -> option (W * result E (list Z * Addr)))
    (WriteToUDP : W -> list Z -> Addr -> W * (Z * option E)) a b d frag (x y : endpoint) r :
  quiet (pri a) -> Stack_Busy a = false -> 0 <= s_seq (seg a) < 64 ->
  is_u16 (LinkFsm.LocalAddr (pri a)) -> IsValidSource (LinkFsm.LocalAddr (pri a)) = true ->
  is_u16 d -> octets_ok frag -> frag <> [] -> len frag < 55776 ->
  addressedToUs b d = true -> IsMaster (pri a) = negb (c_IsMaster (Stack.cfg b)) ->
  drained (parser b) -> norm (content (parser b)) = [] -> len frag <= maxFragment (reasm b) ->
  conn (ch x) = true -> remote (ch x) = Some r -> conn (ch y) = true -> pending (u y) = [] ->
  exists a' octs, len octs <= maxDatagram /\
    (let '(w, (_, err)) := WriteToUDP (host x) octs r in
     Stack.SendTo (udp_Write WriteToUDP) (udp_message WriteToUDP) a x d frag =
       Some (a', set_out [] false (set_host w x), ErrWrite <$> (ErrSocket <$> err))) /\
    forall w from ns, ReadFromUDP (host y) maxDatagram = Some (w, Ok (octs, from)) ->
      Forall (fun n => 0 < n) ns -> (length octs <= length ns)%nat ->
      exists y' chunks b', read_out ReadFromUDP ns y = Some (y', chunks) /\
        receive_all b ([], []) chunks = Some (b', ([], [mkReceived frag (LinkFsm.LocalAddr (pri a)) d (IsBroadcast d)]), None).
Proof.
  intros Hq Hb Hseq Hla Hva Hd Hfrag Hne Hlen Haddr Hrole Hdr Hnorm Hmax Hcx Hrx Hcy Hpy.
  set (octs := frames_octets (fragment_frames a d frag)).
  assert (Hsize : len octs <= maxDatagram).
  { pose proof (frames_octets_size (pri a) d _ (segs_nonempty (length frag + 2) (s_seq (seg a)) true frag)) as H1.
    pose proof (segs_count (length frag + 2) (s_seq (seg a)) true frag) as H2.
    assert (len frag / 249 < 224) by (apply Z.div_lt_upper_bound; lia). change MaxFrameSize with 292 in H1. unfold maxDatagram.
    change octs with (frames_octets (data_frame (pri a) d <$> segs (length frag + 2) (s_seq (seg a)) true frag)). lia. }
  assert (Hnz : octs <> []).
  { unfold octs, fragment_frames. destruct frag as [|z l] eqn:Ef; [done|]. cbn [length Nat.add segs].
    destruct (_ <=? _); cbn [fmap list_fmap]; rewrite frames_octets_cons; by unfold frame_octets, header_octets. }
  assert (Hz : len octs <> 0) by (clearbody octs; destruct octs as [|z l]; [done | rewrite len_cons; pose proof (len_nonneg l); lia]).
  destruct (SendTo_frames a d frag Hseq Hfrag (udp_Write WriteToUDP)
    (fun x' l => batching (u x') = true /\ x' = set_out l true x) maxDatagram (udp_message WriteToUDP) x []) as (a' & x' & Hs & Hx' & ->); try done.
  { intros x0 l o [Hx0 ->] Hl. rewrite udp_Write_gathers; [|done|by rewrite <- len_app]. eexists. split; [done|]. done. }
  exists a', octs. split; [done|]. change ([] ++ octs) with octs in Hs. split.
  - destruct (WriteToUDP (host x) octs r) as [w [n err]] eqn:Ew. rewrite Hs. cbn. unfold EndMessage. cbn [set_out u wbuf ch].
    fold octs. rewrite (proj2 (Z.eqb_neq (len octs) 0) Hz).
    unfold send. cbn [set_out ch host]. rewrite Hcx, Hrx, Ew. done.
  - intros w from ns Hr Hns Hl. destruct (read_out_datagram ReadFromUDP ns y w octs from Hpy Hcy Hnz Hr Hns Hl) as (y' & chunks & He & Hc).
    destruct (frames_delivered a b d frag Hseq Hla Hd Hfrag chunks) as [b' Hb']; try done. by exists y', chunks, b'.
Qed.

(** A wire that keeps datagrams, with one peer. *)
Definition put_datagram (w : list (list Z)) (p : list Z) (_ : unit) : list (list Z) * (Z * option unit) := (w ++ [p], (len p, None)).
Definition get_datagram (w : list (list Z)) (_ : Z) : option (list (list Z) * result unit (list Z * unit)) :=
  match w with [] => None | d :: w => Some (w, Ok (d, tt)) end.

(** A request of two segments from a master to the outstation it polls, read sixty octets at a
    time. *)
Lemma udp_carries_fragment_witness :
  let a := Stack.New (mkConfig 1 10 true false false 3 0) in
  let b := Stack.New (mkConfig 10 1 false false false 3 0) in
  let frag := replicate 300 7 in
  let x := mkEndpoint (mkUdpChannel (mkUDPConfig [] []) true (Some tt) false) udpConn0 [] in
  exists a' octs, len octs <= maxDatagram /\
    Stack.SendTo (udp_Write put_datagram) (udp_message put_datagram) a x 10 frag = Some (a', set_host [octs] x, None) /\
    exists y' chunks b', read_out get_datagram (replicate 400 60) (set_host [octs] x) = Some (y', chunks) /\
      receive_all b ([], []) chunks = Some (b', ([], [mkReceived frag 1 10 false]), None).
Proof.
  intros a b frag x.
  set (octs0 := frames_octets (fragment_frames a 10 frag)).
  destruct (udp_carries_fragment get_datagram put_datagram a b 10 frag x (set_host [octs0] x) tt) as (a' & octs & Hl & Hs & Hr);
    try reflexivity; try discriminate.
  - by vm_compute.
  - vm_compute. split; [discriminate | reflexivity].
  - vm_compute. split; [discriminate | reflexivity].
  - vm_compute. split; [discriminate | reflexivity].
  - apply Forall_replicate. vm_compute. split; [discriminate | reflexivity].
  - apply NewParser_drained.
  - assert (Ho : octs = octs0).
    { assert (E0 : (match Stack.SendTo (udp_Write put_datagram) (udp_message put_datagram) a x 10 frag with Some (_, x', _) => host x' | None => [] end) = [octs0])
        by (vm_compute; reflexivity).
      cbn [put_datagram] in Hs. rewrite Hs in E0. cbn in E0. by injection E0. }
    exists a', octs. split; [exact Hl|]. split; [exact Hs|]. subst octs. apply (Hr [] tt).
    + reflexivity.
    + by apply Forall_replicate.
    + rewrite length_replicate. vm_compute. lia.
Defined.
