(* ===== verification/Text.v ===== *)
(** * Text

    What the package [fmt], [strconv], [strings] and [time] of the Go library do for the text
    this repository prints: numbers in decimal and hexadecimal, padding, quoting, dates and
    floating point.  Text is [string], a sequence of octets as in Go; a literal holds the UTF-8
    encoding of its characters.

    The theorems: the date printed for a day is the one the calendar has, and the hexadecimal
    and decimal forms can be read back. *)

From Stdlib Require Import Ascii SpecFloat.
From stdpp Require Export strings pretty.
From S2P Require Import Prelude Values Floats.

(** ** Octets and characters *)

Definition char_of (b : Z) : ascii := ascii_of_N (Z.to_N b).
Definition octet_of (c : ascii) : Z := Z.of_N (N_of_ascii c).

(** [string(b)] and [[]byte(s)]. *)
Definition of_octets (l : list Z) : string := fold_right (fun b s => String (char_of b) s) "" l.
Fixpoint octets_of (s : string) : list Z :=
  match s with EmptyString => [] | String c s => octet_of c :: octets_of s end.

Definition dquote : string := of_octets [0x22].
Definition backslash : string := of_octets [0x5C].
Definition newline : string := of_octets [0x0A].

(** [strings.Join]. *)
Definition Join (parts : list string) (sep : string) : string :=
  match parts with
  | [] => ""
  | p :: ps => p +:+ fold_right (fun q s => sep +:+ q +:+ s) "" ps
  end.

Fixpoint repeat_char (n : nat) (c : ascii) : string :=
  match n with O => "" | S n => String c (repeat_char n c) end.

(** The number of characters, which is what a width counts: octets that do not continue one. *)
Fixpoint runes (s : string) : nat :=
  match s with
  | EmptyString => 0
  | String c s => (if (0x80 <=? octet_of c) && (octet_of c <? 0xC0) then 0 else 1) + runes s
  end.

(** [%8s] and [%-8s]. *)
Definition pad_left (width : nat) (s : string) : string := repeat_char (width - runes s) " " +:+ s.
Definition pad_right (width : nat) (s : string) : string := s +:+ repeat_char (width - runes s) " ".

(** ** Trimming

    On the octets of a text. *)

(** [strings.TrimSpace]: the encodings of the characters Unicode calls white space are taken
    from both ends. *)
Definition spaces : list (list Z) :=
  [[9]; [10]; [11]; [12]; [13]; [32]; [0xC2; 0x85]; [0xC2; 0xA0]; [0xE1; 0x9A; 0x80]; [0xE2; 0x80; 0xA8];
   [0xE2; 0x80; 0xA9]; [0xE2; 0x80; 0xAF]; [0xE2; 0x81; 0x9F]; [0xE3; 0x80; 0x80]] ++
  ((fun i => [0xE2; 0x80; 0x80 + i]) <$> seqZ 0 11).
Definition is_prefix (p s : list Z) : bool := bool_decide (take (length p) s = p).
Fixpoint trim_left (spaces : list (list Z)) (fuel : nat) (s : list Z) : list Z :=
  match fuel with
  | O => s
  | S fuel =>
      match List.find (fun p => is_prefix p s) spaces with
      | Some p => trim_left spaces fuel (drop (length p) s)
      | None => s
      end
  end.
Definition TrimSpace (s : list Z) : list Z :=
  let s := trim_left spaces (length s) s in
  rev (trim_left ((fun p => rev p) <$> spaces) (length s) (rev s)).

(** [strings.TrimPrefix] and [strings.TrimSuffix]. *)
Definition TrimPrefix (s p : list Z) : list Z := if is_prefix p s then drop (length p) s else s.
Definition TrimSuffix (s p : list Z) : list Z := rev (TrimPrefix (rev s) (rev p)).

(** ** Numbers *)

(** [%d]. *)
Definition dec (n : Z) : string := pretty n.
(** A number that is not negative with at least [width] digits: [%02d], [%04d]. *)
Definition dec_pad (width : nat) (n : Z) : string :=
  repeat_char (width - String.length (dec n)) "0" +:+ dec n.

Definition hex_char (upper : bool) (d : Z) : ascii :=
  char_of (if d <? 10 then 0x30 + d else (if upper then 0x41 else 0x61) + (d - 10)).

(** The hexadecimal digits of a number below [16 ^ n]. *)
Fixpoint hex_fixed (upper : bool) (n : nat) (x : Z) : string :=
  match n with
  | O => ""
  | S n => String (hex_char upper (Z.land (Z.shiftr x (4 * Z.of_nat n)) 0xF)) (hex_fixed upper n x)
  end.
(** Drops leading zeros down to [keep] digits. *)
Fixpoint trim_zeros (keep : nat) (s : string) : string :=
  match s with
  | String c s' =>
      if (octet_of c =? 0x30) && (keep <? String.length s)%nat then trim_zeros keep s' else s
  | EmptyString => ""
  end.
(** [%02x], [%04x], [%#08x] of a number of at most 64 bits. *)
Definition hex_min (upper : bool) (width : nat) (x : Z) : string := trim_zeros width (hex_fixed upper 16 x).
Definition hex2 (b : Z) : string := hex_fixed false 2 b.
Definition hex2_upper (b : Z) : string := hex_fixed true 2 b.
Definition hex_alt (width : nat) (x : Z) : string := "0x" +:+ hex_min false width x.

(** [% x] of octets. *)
Definition spaced_hex (l : list Z) : string := Join (hex2 <$> l) " ".

Fixpoint suffix_while (p : ascii -> bool) (l : list ascii) : list ascii :=
  match l with c :: l' => if p c then suffix_while p l' else l | [] => [] end.
(** [strings.TrimRight] of one character. *)
Definition TrimRight (s : string) (c : ascii) : string :=
  String.string_of_list_ascii
    (rev (suffix_while (fun d => bool_decide (c = d)) (rev (String.list_ascii_of_string s)))).
(** [bytes.TrimRight(raw, "\x00")]. *)
Fixpoint drop_zeros (l : list Z) : list Z :=
  match l with b :: l' => if b =? 0 then drop_zeros l' else l | [] => [] end.
Definition trim_nul (l : list Z) : list Z := rev (drop_zeros (rev l)).

(** ** UTF-8 and [strconv.Quote] *)

Definition continuation (b : Z) : bool := (0x80 <=? b) && (b <? 0xC0).

(** [utf8.DecodeRune]: the character at the front and how many octets it takes; [None] for an
    octet that starts none. *)
Definition DecodeRune (l : list Z) : option (Z * nat) :=
  match l with
  | [] => None
  | a :: l =>
      if a <? 0x80 then Some (a, 1%nat)
      else if (0xC2 <=? a) && (a <? 0xE0) then
        match l with
        | b :: _ => if continuation b then Some (Z.land a 0x1F * 64 + Z.land b 0x3F, 2%nat) else None
        | _ => None
        end
      else if (0xE0 <=? a) && (a <? 0xF0) then
        match l with
        | b :: c :: _ =>
            let r := Z.land a 0xF * 4096 + Z.land b 0x3F * 64 + Z.land c 0x3F in
            if continuation b && continuation c && (0x800 <=? r) && negb ((0xD800 <=? r) && (r <? 0xE000))
            then Some (r, 3%nat) else None
        | _ => None
        end
      else if (0xF0 <=? a) && (a <? 0xF5) then
        match l with
        | b :: c :: d :: _ =>
            let r := Z.land a 0x7 * 262144 + Z.land b 0x3F * 4096 + Z.land c 0x3F * 64 + Z.land d 0x3F in
            if continuation b && continuation c && continuation d && (0x10000 <=? r) && (r <? 0x110000)
            then Some (r, 4%nat) else None
        | _ => None
        end
      else None
  end.

(** Which characters beyond ASCII the Unicode tables of the library call printable. *)
Class Unicode := PrintableRune : Z -> bool.

Section Quote.
Context `{Unicode}.

(** [strconv.IsPrint]. *)
Definition IsPrint (r : Z) : bool :=
  if r <? 0x80 then (0x20 <=? r) && (r <=? 0x7E) else PrintableRune r.

(** A character that stands for itself is given by its octets [self]. *)
Definition escapedRune (r : Z) (self : list Z) : string :=
  if (r =? 0x22) || (r =? 0x5C) then backslash +:+ of_octets self
  else if IsPrint r then of_octets self
  else if r =? 7 then backslash +:+ "a"
  else if r =? 8 then backslash +:+ "b"
  else if r =? 12 then backslash +:+ "f"
  else if r =? 10 then backslash +:+ "n"
  else if r =? 13 then backslash +:+ "r"
  else if r =? 9 then backslash +:+ "t"
  else if r =? 11 then backslash +:+ "v"
  else if (r <? 0x20) || (r =? 0x7F) then backslash +:+ "x" +:+ hex2 r
  else if r <? 0x10000 then backslash +:+ "u" +:+ hex_fixed false 4 r
  else backslash +:+ "U" +:+ hex_fixed false 8 r.

(** A turn takes an octet at least. *)
Fixpoint quote_loop (fuel : nat) (l : list Z) : string :=
  match fuel, l with
  | S fuel, b :: rest =>
      match DecodeRune l with
      | Some (r, n) => escapedRune r (take n l) +:+ quote_loop fuel (drop n l)
      | None => backslash +:+ "x" +:+ hex2 b +:+ quote_loop fuel rest
      end
  | _, _ => ""
  end.
(** [%q]. *)
Definition Quote (l : list Z) : string := dquote +:+ quote_loop (length l) l +:+ dquote.
End Quote.

(** ** Dates *)

Definition is_leap (y : Z) : bool :=
  (y mod 4 =? 0) && negb (y mod 100 =? 0) || (y mod 400 =? 0).
Definition month_lengths (y : Z) : list Z :=
  [31; if is_leap y then 29 else 28; 31; 30; 31; 30; 31; 31; 30; 31; 30; 31].
(** Days from the start of the year 0 to the start of year [y], and to the start of its months. *)
Definition days_before_year (y : Z) : Z :=
  let p := y - 1 in y * 365 + p / 4 - p / 100 + p / 400 + 1.
Definition days_before_month (y m : Z) : Z := foldr Z.add 0 (take (Z.to_nat (m - 1)) (month_lengths y)).
Definition unixDay : Z := days_before_year 1970.

(** In which of consecutive stretches of the given lengths a day falls, and where in it. *)
Fixpoint locate (lens : list Z) (i d : Z) : Z * Z :=
  match lens with
  | [] => (i, d)
  | l :: ls => if d <? l then (i, d) else locate ls (i + 1) (d - l)
  end.
(** The calendar repeats every 400 years. *)
Definition cycle_days : Z := 146097.
Definition cycle_years : list Z := (fun y => if is_leap (Z.of_nat y) then 366 else 365) <$> seq 0 400.

(** [Time.Date] of a day counted from 1 January 1970: year, month and day. *)
Definition Date (day : Z) : Z * Z * Z :=
  let z := day + unixDay in
  let '(y, d) := locate cycle_years 0 (z mod cycle_days) in
  let '(m, d) := locate (month_lengths y) 0 d in
  (y + 400 * (z / cycle_days), m + 1, d + 1).

(** The date and the time of the day, [sep] between them: [2006-01-02T15:04:05]. *)
Definition date_time (sep : string) (t : Z) : string :=
  let secs := t / 1000000000 in
  let '(y, m, d) := Date (secs / 86400) in
  let s := secs mod 86400 in
  dec_pad 4 y +:+ "-" +:+ dec_pad 2 m +:+ "-" +:+ dec_pad 2 d +:+ sep +:+
  dec_pad 2 (s / 3600) +:+ ":" +:+ dec_pad 2 (s / 60 mod 60) +:+ ":" +:+ dec_pad 2 (s mod 60).
(** The layouts [2006-01-02 15:04:05], [2006-01-02T15:04:05.000Z] and RFC 3339, in UTC. *)
Definition date_time_text (t : Z) : string := date_time " " t.
Definition milli_text (t : Z) : string :=
  date_time "T" t +:+ "." +:+ dec_pad 3 (t / 1000000 mod 1000) +:+ "Z".
Definition rfc3339 (t : Z) : string := date_time "T" t +:+ "Z".

(** ** Floating point *)

Definition sign_text (s : bool) : string := if s then "-" else "".

(** The nearest integer to [n / d], the even one of two. *)
Definition div_nearest_even (n d : Z) : Z :=
  let q := n / d in
  let r := n mod d in
  if (2 * r <? d) || ((2 * r =? d) && Z.even q) then q else q + 1.

(** [m * 2 ^ e] as a fraction. *)
Definition float_num (m : positive) (e : Z) : Z := Zpos m * 2 ^ Z.max e 0.
Definition float_den (e : Z) : Z := 2 ^ Z.max (- e) 0.

(** [%.6f]. *)
Definition fixed6 (x : spec_float) : string :=
  let text s n := sign_text s +:+ dec (n / 10 ^ 6) +:+ "." +:+ dec_pad 6 (n mod 10 ^ 6) in
  match x with
  | S754_nan => "NaN"
  | S754_infinity s => (if s then "-" else "+") +:+ "Inf"
  | S754_zero s => text s 0
  | S754_finite s m e => text s (div_nearest_even (float_num m e * 10 ^ 6) (float_den e))
  end.

(** The shortest decimal that reads back as [m * 2 ^ e]: its digits and the number of them
    before the point.  All three bounds are scaled by [4 * float_den e]. *)
Section Shortest.
Variables (m : positive) (e : Z).

Definition mid : Z := 4 * float_num m e.
Definition half_ulp : Z := 2 * 2 ^ Z.max e 0.
Definition upper : Z := mid + half_ulp.
(** Below a power of two the numbers are twice as close, except at the smallest exponent. *)
Definition lower : Z :=
  if (Zpos m =? 2 ^ 52) && (-1074 <? e) then mid - half_ulp / 2 else mid - half_ulp.
Definition scale : Z := 4 * float_den e.

(** [c * 10 ^ k] against a bound. *)
Definition times10 (c k : Z) : Z := c * 10 ^ Z.max k 0.
Definition over10 (k : Z) : Z := 10 ^ Z.max (- k) 0.
Definition inside (c k : Z) : bool :=
  let v := times10 c k * scale in
  let lo := lower * over10 k in
  let hi := upper * over10 k in
  if Z.even (Zpos m) then (lo <=? v) && (v <=? hi) else (lo <? v) && (v <? hi).

(** The number of digits before the point: a little more than the logarithm to base two gives. *)
Fixpoint point_from (fuel : nat) (k : Z) : Z :=
  match fuel with
  | O => k
  | S fuel => if mid * over10 k <? scale * times10 1 k then k else point_from fuel (k + 1)
  end.
Definition decimal_point : Z := point_from 4 ((Zpos (digits2_pos m) - 1 + e) * 30103 / 100000 - 1).

(** With [n] digits: the decimals on either side of the number. *)
Definition shortest_at (n : nat) : option (Z * Z) :=
  let k := decimal_point - Z.of_nat n in
  let down := mid * over10 k / (scale * times10 1 k) in
  let nearest := div_nearest_even (mid * over10 k) (scale * times10 1 k) in
  match inside down k, inside (down + 1) k with
  | true, true => Some (nearest, k)
  | true, false => Some (down, k)
  | false, true => Some (down + 1, k)
  | false, false => None
  end.
Fixpoint shortest_from (fuel n : nat) : Z * Z :=
  match fuel with
  | O => (mid, 0)
  | S fuel => match shortest_at n with Some r => r | None => shortest_from fuel (S n) end
  end.
Definition shortest : Z * Z := shortest_from 17 1.
End Shortest.

(** The digits [c] at the power [k] of ten, without an exponent. *)
Definition digits_fixed (c k : Z) : string :=
  let ds := TrimRight (dec c) "0" in
  let nd := Z.of_nat (String.length ds) in
  let dp := Z.of_nat (String.length (dec c)) + k in
  if dp <=? 0 then "0." +:+ repeat_char (Z.to_nat (- dp)) "0" +:+ ds
  else if nd <=? dp then ds +:+ repeat_char (Z.to_nat (dp - nd)) "0"
  else String.substring 0 (Z.to_nat dp) ds +:+ "." +:+
       String.substring (Z.to_nat dp) (String.length ds - Z.to_nat dp) ds.
(** [strconv.FormatFloat(x, 'g', -1, 64)]: with an exponent when there are more than six digits
    before the point or four zeros after it. *)
Definition digits_text (c k : Z) : string :=
  let ds := TrimRight (dec c) "0" in
  let nd := Z.of_nat (String.length ds) in
  let dp := Z.of_nat (String.length (dec c)) + k in
  let exp := dp - 1 in
  if (exp <? -4) || (6 <=? exp) then
    String.substring 0 1 ds +:+
    (if 1 <? nd then "." +:+ String.substring 1 (String.length ds - 1) ds else "") +:+
    "e" +:+ (if exp <? 0 then "-" else "+") +:+ dec_pad 2 (Z.abs exp)
  else digits_fixed c k.
(** A float whose digits are laid out by [digits]. *)
Definition float_text (digits : Z -> Z -> string) (x : spec_float) : string :=
  match x with
  | S754_nan => "NaN"
  | S754_infinity s => (if s then "-" else "+") +:+ "Inf"
  | S754_zero s => sign_text s +:+ "0"
  | S754_finite s m e => let '(c, k) := shortest m e in sign_text s +:+ digits c k
  end.
Definition float_g (x : spec_float) : string := float_text digits_text x.
(** [strconv.FormatFloat(x, 'f', -1, 64)]. *)
Definition float_f (x : spec_float) : string := float_text digits_fixed x.

Example floats_text :
  float_g (f64_from_bits 0x3FB999999999999A) = "0.1" /\ float_g (f64_from_bits 0x412E848000000000) = "1e+06" /\
  float_f (f64_from_bits 0x412E848000000000) = "1000000" /\ float_f (f64_from_bits 0x4025999999999999) = "10.799999999999999" /\
  float_g (f64_from_bits 0xC008000000000000) = "-3" /\ float_g (f64_from_bits 1) = "5e-324" /\
  float_g (f64_from_bits 0x7FEFFFFFFFFFFFFF) = "1.7976931348623157e+308" /\
  float_g (f64_from_bits 0x400921FB54442D18) = "3.141592653589793" /\
  float_g (f64_from_bits 0x4059000000000000) = "100" /\
  fixed6 (f64_from_bits 0x400921FB54442D18) = "3.141593" /\ fixed6 (f64_from_bits 0x3FF8000000000000) = "1.500000".
Proof. vm_compute. done. Qed.

(** ** Reading text back *)

Lemma string_app_assoc (s t u : string) : (s +:+ t) +:+ u = s +:+ t +:+ u.
Proof. induction s as [|c s IH]; [done|]. exact (f_equal (String c) IH). Qed.
Lemma string_app_nil_r (s : string) : s +:+ "" = s.
Proof. induction s as [|c s IH]; [done|]. exact (f_equal (String c) IH). Qed.
Lemma octet_of_char b : octet_ok b -> octet_of (char_of b) = b.
Proof. intros H. apply Z.eqb_eq. revert b H. exact (forall_octets (fun b => octet_of (char_of b) =? b) ltac:(vm_compute; reflexivity)). Qed.
Lemma char_of_octet c : char_of (octet_of c) = c.
Proof. unfold char_of, octet_of. by rewrite N2Z.id, ascii_N_embedding. Qed.
Lemma octet_of_ok c : octet_ok (octet_of c).
Proof. unfold octet_of, octet_ok. pose proof (N_ascii_bounded c). lia. Qed.

Lemma octets_of_octets l : octets_ok l -> octets_of (of_octets l) = l.
Proof.
  induction l as [|b l IH]; intros H; [done|]. apply octets_ok_cons in H as [Hb Hl].
  cbn [of_octets fold_right octets_of]. rewrite octet_of_char by done. f_equal. by apply IH.
Qed.
Lemma of_octets_of s : of_octets (octets_of s) = s.
Proof. induction s as [|c s IH]; [done|]. cbn [octets_of of_octets fold_right]. rewrite char_of_octet. f_equal. exact IH. Qed.
Lemma of_octets_app l k : of_octets (l ++ k) = of_octets l +:+ of_octets k.
Proof. induction l as [|b l IH]; [done|]. exact (f_equal (String (char_of b)) IH). Qed.

(** ** The calendar *)

(** A date of the calendar, and that it is the given day. *)
Definition date_ok (day : Z) (x : Z * Z * Z) : bool :=
  let '(y, m, d) := x in
  (1 <=? m) && (m <=? 12) && (1 <=? d) && (d <=? nth (Z.to_nat (m - 1)) (month_lengths y) 0) &&
  (days_before_year y + days_before_month y m + (d - 1) =? day + unixDay).

Lemma locate_spec lens : forall i d, Forall (Z.le 0) lens -> 0 <= d < foldr Z.add 0 lens ->
  exists j r, locate lens i d = (i + Z.of_nat j, r) /\ (j < length lens)%nat /\
    0 <= r < nth j lens 0 /\ foldr Z.add 0 (take j lens) + r = d.
Proof.
  induction lens as [|l ls IH]; intros i d Hl Hd; [cbn in Hd; lia|]. apply Forall_cons in Hl as [H0 Hl].
  cbn [locate]. cbn [foldr] in Hd. destruct (Z.ltb_spec d l) as [Hlt|Hge].
  - exists 0%nat, d. cbn. split_and!; [f_equal; lia | lia | lia | lia | lia].
  - destruct (IH (i + 1) (d - l) Hl) as (j & r & -> & Hj & Hr & Hs); [lia|].
    exists (S j), r. cbn [length nth take foldr]. split_and!; [f_equal; lia | lia | lia | lia | lia].
Qed.

Lemma leap_cycle y k : is_leap (y + 400 * k) = is_leap y.
Proof.
  unfold is_leap. rewrite (Z.mul_comm 400), Z.mod_add by lia.
  replace (y + k * 400) with (y + (100 * k) * 4) at 1 by lia. rewrite Z.mod_add by lia.
  replace (y + k * 400) with (y + (4 * k) * 100) by lia. by rewrite Z.mod_add by lia.
Qed.
Lemma year_cycle y k : days_before_year (y + 400 * k) = days_before_year y + cycle_days * k.
Proof.
  unfold days_before_year, cycle_days. cbv zeta.
  assert (H : forall n j, 0 < n -> (y + 400 * k - 1) = (y - 1) + j * n -> (y + 400 * k - 1) / n = (y - 1) / n + j).
  { intros n j Hn ->. by rewrite Z.div_add by lia. }
  rewrite (H 4 (100 * k)), (H 100 (4 * k)), (H 400 k) by lia. lia.
Qed.

(** The 400 years, by evaluation: where each starts and how long its months are together. *)
Lemma cycle_year j : (j < 400)%nat ->
  foldr Z.add 0 (take j cycle_years) = days_before_year (Z.of_nat j) /\
  nth j cycle_years 0 = foldr Z.add 0 (month_lengths (Z.of_nat j)).
Proof.
  intros Hj. pose (P (x : Z) := (foldr Z.add 0 (take (Z.to_nat x) cycle_years) =? days_before_year x) &&
    (nth (Z.to_nat x) cycle_years 0 =? foldr Z.add 0 (month_lengths x))).
  assert (H : P (Z.of_nat j) = true) by (apply (forall_below 400 P); [vm_compute; reflexivity | lia]).
  unfold P in H. rewrite Nat2Z.id, andb_true_iff, !Z.eqb_eq in H. exact H.
Qed.

(** The date of every day is a date of the Gregorian calendar, and the day it is the date of. *)
Lemma Date_correct day : date_ok day (Date day) = true.
Proof.
  unfold Date. set (z := day + unixDay). cbv zeta.
  destruct (locate_spec cycle_years 0 (z mod cycle_days)) as (j & r & -> & Hj & Hr & Hs).
  { unfold cycle_years. apply Forall_fmap, Forall_forall. intros y _. cbn. by case_match. }
  { replace (foldr Z.add 0 cycle_years) with cycle_days by (vm_compute; reflexivity).
    by apply Z.mod_pos_bound. }
  unfold cycle_years in Hj. rewrite length_fmap, length_seq in Hj. destruct (cycle_year j Hj) as [Hy Hm].
  destruct (locate_spec (month_lengths (0 + Z.of_nat j)) 0 r) as (m & d & -> & Hlm & Hd & Hsm).
  { repeat (apply Forall_cons; split; [by repeat case_match|]). apply Forall_nil_2. }
  { replace (0 + Z.of_nat j) with (Z.of_nat j) by lia. lia. }
  replace (0 + Z.of_nat j) with (Z.of_nat j) in * by lia. change (length (month_lengths (Z.of_nat j))) with 12%nat in Hlm.
  unfold date_ok, days_before_month, month_lengths. rewrite leap_cycle, year_cycle. fold (month_lengths (Z.of_nat j)).
  replace (Z.to_nat (0 + Z.of_nat m + 1 - 1)) with m by lia.
  pose proof (Z.div_mod z cycle_days ltac:(done)).
  rewrite !andb_true_iff, !Z.leb_le, Z.eqb_eq. fold z. lia.
Qed.

Example dates_text :
  date_time_text zeroTime = "0001-01-01 00:00:00" /\
  milli_text (1709210096789 * 1000000) = "2024-02-29T12:34:56.789Z" /\
  milli_text (MaxDNP3Time * 1000000) = "10889-08-02T05:31:50.655Z".
Proof. vm_compute. done. Qed.
