(* ===== verification/Names.v ===== *)
(** * The names things are printed by

    The [String] methods of src/flags.go, types.go, file.go, attribute.go, objects/objects.go,
    internal/link/frame.go and primary.go, internal/transport/transport.go,
    internal/app/funccode.go, iin.go, qualifier.go, header.go and objheader.go, and
    outstation/command.go.  A map from codes to names is an association list.

    The theorems: a code can be told from its name, whether the standard names it or not. *)

From Stdlib Require Import SpecFloat.
From S2P Require Import Prelude Values Floats AppHeader LinkFrame LinkFsm Transport AppObject AppFragment.
From S2P Require Import Objects ExtObjects FileObjects Commands Text.
#[local] Open Scope Z_scope.

Definition lookup_name (table : list (Z * string)) (k : Z) : option string :=
  snd <$> List.find (fun x => fst x =? k) table.
(** A name, or the number in a form of its own. *)
Definition name_or (table : list (Z * string)) (k : Z) (other : string) : string :=
  default other (lookup_name table k).

(** Names of the bits that are set, joined: the loop of [Flags.StringFor] and [IIN.String]. *)
Definition bit_names (bits : list (Z * string)) (v : Z) : list string :=
  snd <$> List.filter (fun x => negb (Z.land v (fst x) =? 0)) bits.

(** ** src/flags.go *)

Definition commonNames : list (Z * string) :=
  [(0x01, "ONLINE"); (0x02, "RESTART"); (0x04, "COMM_LOST"); (0x08, "REMOTE_FORCED"); (0x10, "LOCAL_FORCED")].
Definition upperBitNames (t : PointType) : list (Z * string) :=
  match t with
  | TypeBinary | TypeBinaryOutputStatus | TypeDoubleBitBinary =>
      [(ChatterFilter, "CHATTER_FILTER"); (0x40, "BIT6"); (StateBit, "STATE")]
  | TypeCounter | TypeFrozenCounter =>
      [(Rollover, "ROLLOVER"); (Discontinuity, "DISCONTINUITY"); (0x80, "BIT7")]
  | TypeAnalog | TypeFrozenAnalog | TypeAnalogOutputStatus =>
      [(OverRange, "OVER_RANGE"); (ReferenceErr, "REFERENCE_ERR"); (0x80, "BIT7")]
  | _ => [(0x20, "BIT5"); (0x40, "BIT6"); (0x80, "BIT7")]
  end.
Definition StringFor (f : Z) (t : PointType) : string :=
  if f =? 0 then "—" else Join (bit_names commonNames f ++ bit_names (upperBitNames t) f) "|".
Definition Flags_String (f : Z) : string := StringFor f TypeUnknown.

Definition PointType_String (p : PointType) : string :=
  match p with
  | TypeSecurityStatistic => "SecurityStatistic"
  | TypeDataset => "Dataset"
  | TypeFrozenAnalog => "FrozenAnalog"
  | TypeVirtualTerminal => "VirtualTerminal"
  | TypeUnknown => "Unknown"
  | TypeBinary => "Binary"
  | TypeDoubleBitBinary => "DoubleBitBinary"
  | TypeCounter => "Counter"
  | TypeFrozenCounter => "FrozenCounter"
  | TypeAnalog => "Analog"
  | TypeBinaryOutputStatus => "BinaryOutputStatus"
  | TypeAnalogOutputStatus => "AnalogOutputStatus"
  | TypeOctetString => "OctetString"
  | TypeBinaryCommandEvent => "BinaryCommandEvent"
  | TypeAnalogCommandEvent => "AnalogCommandEvent"
  end.

(** ** src/types.go *)

Definition TimestampQuality_String (q : TimestampQuality) : string :=
  match q with
  | TimestampInvalid => "invalid"
  | TimestampUnsynchronized => "unsynchronized"
  | TimestampSynchronized => "synchronized"
  end.
Definition Timestamp_String (t : Timestamp) : string :=
  if negb (Timestamp_IsValid t) then "—"
  else milli_text (TTime t) +:+ " (" +:+ TimestampQuality_String (Quality t) +:+ ")".

Definition DoubleBit_String (d : Z) : string :=
  if d =? DoubleBitIntermediate then "Intermediate"
  else if d =? DoubleBitDeterminedOff then "Off"
  else if d =? DoubleBitDeterminedOn then "On"
  else if d =? DoubleBitIndeterminate then "Indeterminate"
  else "DoubleBit(?)".

Definition Class_String (c : Z) : string :=
  if c =? 0 then "none"
  else Join (bit_names [(Class0, "0"); (Class1, "1"); (Class2, "2"); (Class3, "3")] c) "+".

Definition ControlCode_String (c : Z) : string :=
  let op :=
    if OpType c =? ControlNUL then "NUL"
    else if OpType c =? ControlPulseOn then "PULSE_ON"
    else if OpType c =? ControlPulseOff then "PULSE_OFF"
    else if OpType c =? ControlLatchOn then "LATCH_ON"
    else if OpType c =? ControlLatchOff then "LATCH_OFF"
    else "OP(" +:+ dec (OpType c) +:+ ")" in
  let op := if IsTrip c then op +:+ "|TRIP" else if IsClose c then op +:+ "|CLOSE" else op in
  let op := if ControlCode_Clear c then op +:+ "|CLEAR" else op in
  if negb (Z.land c controlQueue =? 0) then op +:+ "|QUEUE" else op.

Definition commandStatusNames : list (Z * string) :=
  [(CommandSuccess, "SUCCESS"); (CommandTimeout, "TIMEOUT"); (CommandNoSelect, "NO_SELECT");
   (CommandFormatError, "FORMAT_ERROR"); (CommandNotSupported, "NOT_SUPPORTED");
   (CommandAlreadyActive, "ALREADY_ACTIVE"); (CommandHardwareError, "HARDWARE_ERROR");
   (CommandLocal, "LOCAL"); (CommandTooManyOps, "TOO_MANY_OPS"); (CommandNotAuthorized, "NOT_AUTHORIZED");
   (CommandAutomationInhibit, "AUTOMATION_INHIBIT"); (CommandProcessingLimited, "PROCESSING_LIMITED");
   (CommandOutOfRange, "OUT_OF_RANGE"); (CommandDownstreamLocal, "DOWNSTREAM_LOCAL");
   (CommandAlreadyComplete, "ALREADY_COMPLETE"); (CommandBlocked, "BLOCKED");
   (CommandCanceled, "CANCELED"); (CommandBlockedOtherMstr, "BLOCKED_OTHER_MASTER");
   (CommandDownstreamFail, "DOWNSTREAM_FAIL"); (CommandNonParticipating, "NON_PARTICIPATING");
   (CommandUndefined, "UNDEFINED")].
Definition CommandStatus_String (s : Z) : string :=
  name_or commandStatusNames s ("CommandStatus(" +:+ dec s +:+ ")").
Definition CROB_String (c : ControlRelayOutputBlock) : string :=
  "CROB{" +:+ ControlCode_String (Code c) +:+ " count=" +:+ dec (CCount c) +:+ " on=" +:+ dec (OnTime c) +:+
  "ms off=" +:+ dec (OffTime c) +:+ "ms status=" +:+ CommandStatus_String (CStatus c) +:+ "}".

(** ** src/file.go *)

Definition FileType_String (t : Z) : string :=
  if t =? FileTypeDirectory then "directory"
  else if t =? FileTypeSimple then "file"
  else "FileType(" +:+ dec t +:+ ")".
Definition FileMode_String (m : Z) : string :=
  if m =? FileModeNull then "null"
  else if m =? FileModeRead then "read"
  else if m =? FileModeWrite then "write"
  else if m =? FileModeAppend then "append"
  else "FileMode(" +:+ dec m +:+ ")".

Definition fileStatusNames : list (Z * string) :=
  [(FileSuccess, "success"); (FilePermissionDenied, "permission denied");
   (FileInvalidMode, "invalid mode"); (FileNotFound, "file not found"); (FileLocked, "file locked");
   (FileTooManyOpen, "too many files open"); (FileInvalidHandle, "invalid handle");
   (FileWriteBlockSize, "invalid block size"); (FileCommLost, "communications lost");
   (FileCannotAbort, "cannot abort"); (FileNotOpen, "file not open");
   (FileHandleExpired, "handle expired"); (FileBufferOverrun, "buffer overrun");
   (FileFatal, "fatal error"); (FileBlockSequence, "block sequence error");
   (FileUndefined, "undefined error")].
Definition FileStatus_String (s : Z) : string :=
  name_or fileStatusNames s ("FileStatus(" +:+ dec s +:+ ")").

Definition PermWorldExecute : Z := 0x0001.
Definition PermWorldWrite : Z := 0x0002.
Definition PermWorldRead : Z := 0x0004.
Definition PermGroupExecute : Z := 0x0008.
Definition PermGroupWrite : Z := 0x0010.
Definition PermGroupRead : Z := 0x0020.
Definition PermOwnerExecute : Z := 0x0040.
Definition PermOwnerWrite : Z := 0x0080.
Definition PermOwnerRead : Z := 0x0100.

Definition permission_bits : list (Z * string) :=
  [(PermOwnerRead, "r"); (PermOwnerWrite, "w"); (PermOwnerExecute, "x");
   (PermGroupRead, "r"); (PermGroupWrite, "w"); (PermGroupExecute, "x");
   (PermWorldRead, "r"); (PermWorldWrite, "w"); (PermWorldExecute, "x")].
Definition FilePermissions_String (p : Z) : string :=
  fold_right (fun b s => (if negb (Z.land p (fst b) =? 0) then snd b else "-") +:+ s) "" permission_bits.
Definition FileInfo_String (f : FileInfo) : string :=
  (if IsDir f then "d" else "-") +:+ FilePermissions_String (FI_Permissions f) +:+ " " +:+
  pad_left 8 (dec (FI_Size f)) +:+ " " +:+ of_octets (FI_Name f).

(** ** src/attribute.go *)

Definition AttributeType_String (t : Z) : string :=
  if t =? AttrVisibleString then "string"
  else if t =? AttrUnsignedInt then "uint"
  else if t =? AttrSignedInt then "int"
  else if t =? AttrFloat then "float"
  else if t =? AttrOctetString then "octets"
  else if t =? AttrBitString then "bits"
  else if t =? AttrTime then "time"
  else if (t =? AttrAttributeList) || (t =? AttrExtAttributeList) then "list"
  else "AttributeType(" +:+ dec t +:+ ")".

(** The [octetText] of this package. *)
Definition attribute_octetText (b : list Z) : string :=
  if len b =? 0 then ""
  else if forallb (fun c => negb ((c <? 0x20) || (0x7E <? c))) b then of_octets b
  else Join (hex2_upper <$> b) " ".

Definition Attribute_Value (a : Attribute) : string :=
  if A_Type a =? AttrVisibleString then of_octets (A_Text a)
  else if (A_Type a =? AttrUnsignedInt) || (A_Type a =? AttrSignedInt) then dec (A_Number a)
  else if A_Type a =? AttrFloat then float_g (A_Real a)
  else if A_Type a =? AttrTime then if A_Time a =? zeroTime then "—" else rfc3339 (A_Time a)
  else if (A_Type a =? AttrOctetString) || (A_Type a =? AttrBitString) then attribute_octetText (A_Octets a)
  else if (A_Type a =? AttrAttributeList) || (A_Type a =? AttrExtAttributeList) then
    Join ((fun it => dec (LI_Variation it) +:+ (if LI_Writable it then "(w)" else "")) <$> Attribute_List a) " "
  else attribute_octetText (A_Octets a).

Definition attributeNames : list (Z * string) :=
  [(196, "configuration ID"); (197, "configuration version"); (198, "configuration build date");
   (199, "configuration last change date"); (200, "configuration signature");
   (201, "configuration signature algorithm"); (202, "master resource ID (mRID)");
   (203, "device location altitude"); (204, "device location longitude");
   (205, "device location latitude"); (206, "secondary operator name"); (207, "primary operator name");
   (208, "system name"); (209, "secure authentication version");
   (210, "number of security statistics per association"); (211, "user-specific attribute sets");
   (212, "master-defined data set prototypes"); (213, "outstation-defined data set prototypes");
   (214, "master-defined data sets"); (215, "outstation-defined data sets");
   (216, "max binary outputs per request"); (217, "local timing accuracy");
   (218, "duration of time accuracy"); (219, "analog output events supported");
   (220, "max analog output index"); (221, "number of analog outputs");
   (222, "binary output events supported"); (223, "max binary output index");
   (224, "number of binary outputs"); (225, "frozen counter events supported");
   (226, "frozen counters supported"); (227, "counter events supported"); (228, "max counter index");
   (229, "number of counters"); (230, "frozen analog inputs supported");
   (231, "analog input events supported"); (232, "max analog input index");
   (233, "number of analog inputs"); (234, "double-bit binary input events supported");
   (235, "max double-bit binary input index"); (236, "number of double-bit binary inputs");
   (237, "binary input events supported"); (238, "max binary input index");
   (239, "number of binary inputs"); (240, "max transmit fragment size");
   (241, "max receive fragment size"); (242, "software version"); (243, "hardware version");
   (244, "owner name"); (245, "location"); (246, "ID code"); (247, "device name"); (248, "serial number");
   (249, "subset level and conformance"); (250, "product name and model"); (252, "manufacturer name");
   (AttrAll, "all attributes"); (AttrList, "list of attributes")].
Definition AttributeName (variation : Z) : option string := lookup_name attributeNames variation.
Definition Attribute_Name (a : Attribute) : string :=
  let numbered :=
    if negb (A_Set a =? AttrSetStandard)
    then "set " +:+ dec (A_Set a) +:+ " attribute " +:+ dec (A_Variation a)
    else "attribute " +:+ dec (A_Variation a) in
  if A_Set a =? AttrSetStandard then default numbered (lookup_name attributeNames (A_Variation a)) else numbered.
Definition Attribute_String (a : Attribute) : string := Attribute_Name a +:+ ": " +:+ Attribute_Value a.

(** ** src/objects/objects.go and src/outstation/command.go *)

Definition GroupVar_String (g : Objects.GroupVar) : string := "g" +:+ dec (GV_Group g) +:+ "v" +:+ dec (GV_Variation g).
Definition Kind_String (k : Kind) : string :=
  match k with
  | KindUnknown => "unknown" | KindStatic => "static" | KindEvent => "event" | KindCommand => "command"
  | KindCommandEvent => "command-event" | KindTime => "time" | KindClass => "class"
  | KindIndication => "indication" | KindDeadband => "deadband" | KindString => "string"
  | KindFile => "file" | KindAttribute => "attribute"
  end.
Definition OperateType_String (o : OperateType) : string :=
  match o with
  | OperateDirect => "direct-operate"
  | OperateDirectNoAck => "direct-operate-no-reply"
  | OperateSelected => "operate-after-select"
  end.

(** ** src/internal/link *)

Definition primaryFuncNames : list (Z * string) :=
  [(FuncResetLinkStates, "RESET_LINK_STATES"); (FuncTestLinkStates, "TEST_LINK_STATES");
   (FuncConfirmedUserData, "CONFIRMED_USER_DATA"); (FuncUnconfirmedUserData, "UNCONFIRMED_USER_DATA");
   (FuncRequestLinkStatus, "REQUEST_LINK_STATUS")].
Definition secondaryFuncNames : list (Z * string) :=
  [(FuncAck, "ACK"); (FuncNack, "NACK"); (FuncLinkStatus, "LINK_STATUS");
   (FuncNotSupported, "NOT_SUPPORTED")].
Definition Function_Name (f : Z) (primary : bool) : string :=
  name_or (if primary then primaryFuncNames else secondaryFuncNames) f ("FUNC_" +:+ dec f).
Definition LinkControl_String (c : LinkFrame.Control) : string :=
  let s := (if LinkFrame.Dir c then "MSTR→OUTS" else "OUTS→MSTR") +:+ " " +:+
           Function_Name (LinkFrame.Func c) (LinkFrame.Prm c) in
  if LinkFrame.Prm c then
    if LinkFrame.Fcv c then s +:+ " FCB=" +:+ (if LinkFrame.Fcb c then "1" else "0") +:+ " FCV" else s
  else if LinkFrame.Fcv c then s +:+ " DFC" else s.
Definition Frame_String (f : Frame) : string :=
  let h := LinkFrame.FHeader f in
  "[" +:+ LinkControl_String (LinkFrame.HControl h) +:+ "] " +:+ dec (Src h) +:+ "→" +:+ dec (Dest h) +:+
  " len=" +:+ dec (Length h) +:+ " payload=" +:+ dec (len (Payload f)) +:+ "B".
Definition Action_String (a : Action) : string :=
  match a with
  | ActionNone => "none" | ActionTransmit => "transmit" | ActionComplete => "complete" | ActionFailed => "failed"
  end.
Definition priState_String (s : priState) : string :=
  match s with
  | priIdle => "idle" | priWaitLinkReset => "wait-link-reset" | priWaitConfirm => "wait-confirm"
  | priWaitStatus => "wait-status"
  end.

(** ** src/internal/transport *)

Definition TransportHeader_String (h : Transport.Header) : string :=
  let f := if Transport.Fir h && Transport.Fin h then "FIR|FIN"
           else if Transport.Fir h then "FIR" else if Transport.Fin h then "FIN" else "   " in
  "seq=" +:+ dec_pad 2 (Transport.Seq h) +:+ " " +:+ f.
Definition DiscardReason_String (d : DiscardReason) : string :=
  match d with
  | DiscardNone => "none"
  | DiscardEmptySegment => "empty segment"
  | DiscardNoFIR => "continuation without FIR"
  | DiscardUnexpectedFIR => "FIR during assembly"
  | DiscardBadSequence => "sequence mismatch"
  | DiscardOverflow => "fragment overflow"
  end.

(** ** src/internal/app *)

Definition funcNameTable : list (Z * string) :=
  [(FuncConfirm, "CONFIRM"); (FuncRead, "READ"); (FuncWrite, "WRITE"); (FuncSelect, "SELECT");
   (FuncOperate, "OPERATE"); (FuncDirectOperate, "DIRECT_OPERATE");
   (FuncDirectOperateNR, "DIRECT_OPERATE_NR"); (FuncImmedFreeze, "IMMED_FREEZE");
   (FuncImmedFreezeNR, "IMMED_FREEZE_NR"); (FuncFreezeClear, "FREEZE_CLEAR");
   (FuncFreezeClearNR, "FREEZE_CLEAR_NR"); (FuncFreezeAtTime, "FREEZE_AT_TIME");
   (FuncFreezeAtTimeNR, "FREEZE_AT_TIME_NR"); (FuncColdRestart, "COLD_RESTART");
   (FuncWarmRestart, "WARM_RESTART"); (FuncInitializeData, "INITIALIZE_DATA");
   (FuncInitializeAppl, "INITIALIZE_APPL"); (FuncStartAppl, "START_APPL"); (FuncStopAppl, "STOP_APPL");
   (FuncSaveConfig, "SAVE_CONFIG"); (FuncEnableUnsolicited, "ENABLE_UNSOLICITED");
   (FuncDisableUnsolicited, "DISABLE_UNSOLICITED"); (FuncAssignClass, "ASSIGN_CLASS");
   (FuncDelayMeasure, "DELAY_MEASURE"); (FuncRecordCurrentTime, "RECORD_CURRENT_TIME");
   (FuncOpenFile, "OPEN_FILE"); (FuncCloseFile, "CLOSE_FILE"); (FuncDeleteFile, "DELETE_FILE");
   (FuncGetFileInfo, "GET_FILE_INFO"); (FuncAuthenticateFile, "AUTHENTICATE_FILE");
   (FuncAbortFile, "ABORT_FILE"); (FuncActivateConfig, "ACTIVATE_CONFIG");
   (FuncAuthRequest, "AUTHENTICATE_REQ"); (FuncAuthRequestNoAck, "AUTHENTICATE_REQ_NO_ACK");
   (FuncResponse, "RESPONSE"); (FuncUnsolicitedResponse, "UNSOLICITED_RESPONSE");
   (FuncAuthResponse, "AUTHENTICATE_RESP")].
Definition FuncCode_String (f : Z) : string := name_or funcNameTable f ("FUNC_" +:+ dec f).

Definition iinNames : list (Z * string) :=
  [(IINBroadcast, "BROADCAST"); (IINClass1Events, "CLASS_1_EVENTS"); (IINClass2Events, "CLASS_2_EVENTS");
   (IINClass3Events, "CLASS_3_EVENTS"); (IINNeedTime, "NEED_TIME"); (IINLocalControl, "LOCAL_CONTROL");
   (IINDeviceTrouble, "DEVICE_TROUBLE"); (IINDeviceRestart, "DEVICE_RESTART");
   (IINNoFuncCodeSupport, "NO_FUNC_CODE_SUPPORT"); (IINObjectUnknown, "OBJECT_UNKNOWN");
   (IINParameterError, "PARAMETER_ERROR"); (IINEventBufferOverflow, "EVENT_BUFFER_OVERFLOW");
   (IINAlreadyExecuting, "ALREADY_EXECUTING"); (IINConfigCorrupt, "CONFIG_CORRUPT");
   (IINReserved1, "RESERVED_1"); (IINReserved2, "RESERVED_2")].
Definition IIN_String (i : Z) : string := if i =? 0 then "—" else Join (bit_names iinNames i) "|".

Definition AppControl_String (c : AppHeader.Control) : string :=
  let flag (on : bool) (name : string) := if on then " " +:+ name else "" in
  "seq=" +:+ dec_pad 2 (AppHeader.Seq c) +:+ flag (AppHeader.Fir c) "FIR" +:+ flag (AppHeader.Fin c) "FIN" +:+
  flag (AppHeader.Con c) "CON" +:+ flag (AppHeader.Uns c) "UNS".
Definition AppHeader_String (h : AppHeader.Header) : string :=
  if Header_IsResponse h
  then FuncCode_String (AppHeader.Func h) +:+ " " +:+ AppControl_String (AppHeader.HControl h) +:+ " iin=" +:+ IIN_String (HIIN h)
  else FuncCode_String (AppHeader.Func h) +:+ " " +:+ AppControl_String (AppHeader.HControl h).

Definition prefixNames : list string :=
  ["none"; "index8"; "index16"; "index32"; "size8"; "size16"; "size32"; "reserved"].
Definition IndexPrefix_String (p : Z) : string :=
  if p <? 8 then nth (Z.to_nat p) prefixNames "" else "IndexPrefix(?)".
Definition rangeNames : list string :=
  ["start-stop8"; "start-stop16"; "start-stop32"; "virtual8"; "virtual16"; "virtual32"; "all-objects";
   "count8"; "count16"; "count32"; "reserved"; "variable"; "reserved"; "reserved"; "reserved"; "reserved"].
Definition RangeSpec_String (r : Z) : string :=
  if r <? 16 then nth (Z.to_nat r) rangeNames "" else "RangeSpec(?)".
Definition Qualifier_String (q : Z) : string :=
  hex_alt 2 q +:+ "(" +:+ IndexPrefix_String (IndexPrefix q) +:+ "," +:+ RangeSpec_String (RangeSpec q) +:+ ")".
Definition Range_String (r : Range) : string :=
  if Spec r =? RangeAllObjects then "all"
  else if IsStartStop (Spec r) then "[" +:+ dec (Start r) +:+ ".." +:+ dec (Stop r) +:+ "]"
  else "count=" +:+ dec (Count r).
Definition ObjectHeader_String (h : ObjectHeader) : string :=
  "g" +:+ dec (Group h) +:+ "v" +:+ dec (Variation h) +:+ " " +:+ Qualifier_String (Qualifier h) +:+ " " +:+
  Range_String (ORange h) +:+ " data=" +:+ dec (len (Data h)) +:+ "B".
Definition Fragment_String (f : AppFragment.Fragment) : string :=
  AppHeader_String (AppFragment.FHeader f) +:+
  fold_right (fun o s => newline +:+ "  " +:+ ObjectHeader_String o +:+ s) "" (Objects f).


(** ** Names tell codes apart *)

Lemma octets_distinct (f : Z -> string) :
  bool_decide (NoDup (f <$> (Z.of_nat <$> seq 0 256))) = true ->
  forall a b, octet_ok a -> octet_ok b -> f a = f b -> a = b.
Proof.
  intros H%bool_decide_eq_true a b Ha Hb Hf. unfold octet_ok in *.
  assert (L : forall x, 0 <= x < 256 -> (f <$> (Z.of_nat <$> seq 0 256)) !! Z.to_nat x = Some (f x)).
  { intros x Hx. rewrite !list_lookup_fmap, lookup_seq_lt by lia. cbn. do 2 f_equal. lia. }
  assert (Z.to_nat a = Z.to_nat b); [|lia].
  apply (NoDup_lookup _ _ _ (f a) H); [by apply L | rewrite Hf; by apply L].
Qed.

(** A function code, a command status and a file status can be told from what is printed,
    including those that have no name. *)
Theorem code_names_distinct a b : octet_ok a -> octet_ok b ->
  (FuncCode_String a = FuncCode_String b -> a = b) /\
  (CommandStatus_String a = CommandStatus_String b -> a = b) /\
  (FileStatus_String a = FileStatus_String b -> a = b).
Proof.
  intros Ha Hb. split_and!.
  - exact (octets_distinct FuncCode_String ltac:(vm_compute; reflexivity) a b Ha Hb).
  - exact (octets_distinct CommandStatus_String ltac:(vm_compute; reflexivity) a b Ha Hb).
  - exact (octets_distinct FileStatus_String ltac:(vm_compute; reflexivity) a b Ha Hb).
Qed.

(** *** Names joined by a bar *)

Fixpoint bar_free (s : string) : bool :=
  match s with EmptyString => true | String c s => negb (octet_of c =? 0x7C) && bar_free s end.
(** What is before the first bar, and after it. *)
Fixpoint cut_bar (s : string) : string * option string :=
  match s with
  | EmptyString => ("", None)
  | String c s' =>
      if octet_of c =? 0x7C then ("", Some s')
      else let '(p, r) := cut_bar s' in (String c p, r)
  end.
Lemma cut_bar_free p : bar_free p = true -> cut_bar p = (p, None).
Proof.
  induction p as [|c p IH]; [done|]. cbn [bar_free cut_bar]. rewrite andb_true_iff, negb_true_iff.
  intros [-> H]. by rewrite IH.
Qed.
Lemma cut_bar_app p s : bar_free p = true -> cut_bar (p +:+ "|" +:+ s) = (p, Some s).
Proof.
  induction p as [|c p IH]; [done|]. cbn [bar_free]. rewrite andb_true_iff, negb_true_iff. intros [Hc H].
  change (String c p +:+ "|" +:+ s) with (String c (p +:+ "|" +:+ s)). cbn [cut_bar]. by rewrite Hc, IH.
Qed.
Lemma Join_cons p q ps : Join (p :: q :: ps) "|" = p +:+ "|" +:+ Join (q :: ps) "|".
Proof. done. Qed.
Lemma append_empty s : s +:+ "" = s.
Proof. induction s as [|c s IH]; [done|]. exact (f_equal (String c) IH). Qed.
Lemma Join_inj ps qs : ps <> [] -> qs <> [] -> Forall (fun p => bar_free p = true) ps -> Forall (fun p => bar_free p = true) qs ->
  Join ps "|" = Join qs "|" -> ps = qs.
Proof.
  revert qs. induction ps as [|p ps IH]; intros qs Hp Hq Fp Fq H; [done|]. destruct qs as [|q qs]; [done|].
  apply Forall_cons in Fp as [Fp1 Fp]. apply Forall_cons in Fq as [Fq1 Fq].
  apply (f_equal cut_bar) in H. destruct ps as [|p' ps], qs as [|q' qs]; rewrite ?Join_cons in H.
  all: rewrite ?cut_bar_app in H by done.
  all: cbn [Join fold_right] in H; rewrite ?append_empty in H.
  - rewrite !cut_bar_free in H by done. congruence.
  - rewrite cut_bar_free in H by done. congruence.
  - rewrite cut_bar_free in H by done. congruence.
  - injection H as -> H. f_equal. apply IH; done.
Qed.

(** The names of the bits say which bits are set. *)
Lemma bit_names_inj bits v w : NoDup (snd <$> bits) -> bit_names bits v = bit_names bits w ->
  Forall (fun b => (Z.land v (fst b) =? 0) = (Z.land w (fst b) =? 0)) bits.
Proof.
  unfold bit_names. induction bits as [|[b n] bits IH]; [constructor|]. cbn [fmap list_fmap List.filter fst snd].
  intros [Hn Hd]%NoDup_cons H.
  assert (N : forall u, n ∉ (snd <$> List.filter (fun x => negb (Z.land u (fst x) =? 0)) bits)).
  { intros u [x [-> Hx]]%list_elem_of_fmap. apply Hn, list_elem_of_fmap_2.
    apply list_elem_of_In in Hx. apply list_elem_of_In. by apply List.filter_In in Hx as [? _]. }
  constructor.
  - destruct (Z.land v b =? 0) eqn:Ev, (Z.land w b =? 0) eqn:Ew; cbn in H |- *; rewrite ?Ev, ?Ew; [done|..|done].
    + destruct (N v). rewrite H. constructor.
    + destruct (N w). rewrite <- H. constructor.
  - apply IH; [done|]. destruct (Z.land v b =? 0) eqn:Ev, (Z.land w b =? 0) eqn:Ew; cbn in H; [done|..|by injection H].
    + destruct (N v). rewrite H. constructor.
    + destruct (N w). rewrite <- H. constructor.
Qed.

Lemma testbit_land x n : 0 <= n -> Z.testbit x n = negb (Z.land x (2 ^ n) =? 0).
Proof.
  intros Hn. destruct (Z.eqb_spec (Z.land x (2 ^ n)) 0) as [E|E]; cbn.
  - apply (f_equal (fun y => Z.testbit y n)) in E.
    by rewrite Z.land_spec, Z.pow2_bits_true, andb_true_r, Z.testbit_0_l in E.
  - destruct (Z.testbit x n) eqn:T; [done|]. destruct E. apply Z.bits_inj. intros k.
    rewrite Z.land_spec, Z.testbit_0_l, Z.pow2_bits_eqb by done.
    destruct (Z.eqb_spec n k) as [<-|]; [by rewrite T | apply andb_false_r].
Qed.
Lemma iin_bits i j : is_u16 i -> is_u16 j -> bit_names iinNames i = bit_names iinNames j -> i = j.
Proof.
  unfold is_u16. intros Hi Hj H. apply bit_names_inj in H; [|apply (bool_decide_unpack _); vm_compute; exact I].
  assert (K : forall n, 0 <= n < 16 -> Z.testbit i n = Z.testbit j n).
  { intros n Hn. rewrite Forall_forall in H.
    assert (Hb : exists name, (2 ^ n, name) ∈ iinNames).
    { assert (E : existsb (fun x => fst x =? 2 ^ n) iinNames = true) by (revert n Hn; apply (forall_below 16); vm_compute; reflexivity).
      apply existsb_exists in E as ([b name] & Hin & Hb). apply Z.eqb_eq in Hb. cbn in Hb. subst b. exists name. by apply list_elem_of_In. }
    destruct Hb as [name Hb]. specialize (H _ Hb). cbn in H.
    rewrite !testbit_land by lia. by rewrite H. }
  apply Z.bits_inj. intros n. destruct (Z.lt_ge_cases n 0); [by rewrite !Z.testbit_neg_r|].
  destruct (Z.lt_ge_cases n 16); [by apply K|].
  assert (T : forall x, 0 <= x < 65536 -> Z.testbit x n = false).
  { intros x Hx. destruct (decide (x = 0)) as [->|]; [apply Z.testbit_0_l|]. apply Z.bits_above_log2; [lia|].
    assert (Z.log2 x < 16); [apply Z.log2_lt_pow2; lia | lia]. }
  by rewrite !T.
Qed.

(** The internal indications can be read off what is printed for them. *)
Theorem IIN_String_inj i j : is_u16 i -> is_u16 j -> IIN_String i = IIN_String j -> i = j.
Proof.
  intros Hi Hj. assert (is_u16 0) as H0 by done.
  assert (F : forall v, Forall (fun p => bar_free p = true /\ String.get 0 p <> String.get 0 "—" /\ p <> "") (bit_names iinNames v)).
  { intros v. apply Forall_fmap, List.Forall_forall. intros x Hx. apply List.filter_In in Hx as [Hx _]. revert x Hx.
    apply List.Forall_forall. unfold iinNames. repeat (constructor; [by vm_compute|]). constructor. }
  assert (D : forall v, v <> 0 -> is_u16 v -> bit_names iinNames v <> [] /\ Join (bit_names iinNames v) "|" <> "—").
  { intros v Hv Hu. pose proof (F v) as Fv. destruct (bit_names iinNames v) as [|p ps] eqn:E.
    - destruct Hv. by apply iin_bits.
    - split; [done|]. intros Hx. apply Forall_cons in Fv as [(_ & Hg & Hp) _]. destruct Hg. rewrite <- Hx.
      by destruct p. }
  unfold IIN_String. destruct (Z.eqb_spec i 0) as [->|Ni], (Z.eqb_spec j 0) as [->|Nj]; [done|..].
  - intros H. by destruct (D j Nj Hj) as [_ []].
  - intros H. by destruct (D i Ni Hi) as [_ []].
  - intros H. apply iin_bits; [done..|]. apply Join_inj; [by apply D.. | | | exact H].
    + eapply Forall_impl; [apply F | by intros ? (? & ? & ?)].
    + eapply Forall_impl; [apply F | by intros ? (? & ? & ?)].
Qed.

Example names_text :
  IIN_String 0x9001 = "BROADCAST|ALREADY_EXECUTING|RESERVED_2" /\
  StringFor 0x85 TypeBinary = "ONLINE|COMM_LOST|STATE" /\ Qualifier_String 0x28 = "0x28(index16,count16)" /\
  ControlCode_String 0x41 = "PULSE_ON|CLOSE" /\ FilePermissions_String 0x1A4 = "rw-r--r--".
Proof. by vm_compute. Qed.
