(* ===== verification/DecoderValues.v ===== *)
(** * The values a decoder shows (src/decoder/values.go, attribute.go, file.go)

    A decoder prints what arrived.  A value is text with the index, quality and time it came
    with; where the text of an error stands in it, the error does here.

    The theorem of this file: what the decoder shows of the objects of a fragment is what a
    master makes of them, point by point and in order. *)

From Stdlib Require Import Ascii SpecFloat.
From S2P Require Import Prelude Values Floats AppHeader LinkFrame AppObject AppFragment Objects Codecs.
From S2P Require Import CommandEvents Commands FileObjects ExtObjects Dispatch Text Names.
#[local] Open Scope Z_scope.

(** The errors whose text is shown. *)
Inductive shown_err :=
| InAttribute (e : AttributeErr)
| InFile (e : FileErr)
| InFrame (e : LinkErr)
| InFragment (e : FragmentErr).

(** Text with the texts of errors in it. *)
Inductive piece := Txt (s : string) | ErrText (e : shown_err).
Definition text : Type := list piece.

Record DValue := mkDValue {
  V_Index : Z; V_Type : PointType; V_Value : text; V_Flags : Z; V_Time : Timestamp }.

Definition DValue_String (v : DValue) : text :=
  let flags := if bool_decide (V_Type v = TypeBinary) || bool_decide (V_Type v = TypeBinaryOutputStatus)
               then Z.ldiff (V_Flags v) StateBit else V_Flags v in
  [Txt ("[" +:+ dec (V_Index v) +:+ "] ")] ++ V_Value v ++
  (if negb (flags =? 0) then [Txt ("  " +:+ StringFor flags (V_Type v))] else []) ++
  (if Timestamp_IsValid (V_Time v) then [Txt ("  " +:+ Timestamp_String (V_Time v))] else []).

Definition boolText (v : bool) : string := if v then "ON" else "OFF".

(** [v == math.Trunc(v)]: an integer or an infinity. *)
Definition is_whole (x : spec_float) : bool :=
  match x with
  | S754_zero _ | S754_infinity _ => true
  | S754_nan => false
  | S754_finite _ m e => (0 <=? e) || (Zpos m mod 2 ^ (- e) =? 0)
  end.
(** [math.Abs(v) < 1e15], of a whole number. *)
Definition below_1e15 (x : spec_float) : bool :=
  match x with S754_infinity _ | S754_nan => false | _ => Z.abs (f64_trunc x) <? 10 ^ 15 end.
Definition formatFloat (v : spec_float) : string :=
  if is_whole v && below_1e15 v then dec (f64_trunc v)
  else TrimRight (TrimRight (fixed6 v) "0") ".".

(** The [readPrefix] of this package. *)
Definition decoder_readPrefix (buf : list Z) (width : Z) : Z :=
  if width =? 1 then at_ buf 0
  else if width =? 2 then Z.lor (at_ buf 0) (Z.shiftl (at_ buf 1) 8)
  else if width =? 4 then
    Z.lor (Z.lor (Z.lor (at_ buf 0) (Z.shiftl (at_ buf 1) 8)) (Z.shiftl (at_ buf 2) 16)) (Z.shiftl (at_ buf 3) 24)
  else 0.
Definition decoder_prefixLen (h : ObjectHeader) : Z :=
  let prefix := IndexPrefix (Qualifier h) in if IsIndex prefix then IndexPrefix_Octets prefix else 0.

(** The loop over the objects of a header that [DecodeValues], [decodeCommands] and
    [decodeOctetStrings] share; [item] makes the value of an index and its octets, and [None]
    is a [continue].  A turn takes at least an octet or stops. *)
Fixpoint value_loop (fuel : nat) (h : ObjectHeader) (size prefixLen : Z) (item : Z -> list Z -> option DValue)
    (i off : Z) (out : list DValue) : option (list DValue) :=
  if ObjectHeader_Count h <=? i then Some out
  else match fuel with
       | O => None
       | S fuel =>
           if len (Data h) <? off + prefixLen + size then Some out
           else
             let '(index, off) :=
               if 0 <? prefixLen
               then (decoder_readPrefix (drop (Z.to_nat off) (Data h)) prefixLen, off + prefixLen)
               else (IndexOf (ORange h) (u32 i), off) in
             let out := match item index (slice off (off + size) (Data h)) with
                        | Some v => out ++ [v] | None => out end in
             value_loop fuel h size prefixLen item (i + 1) (off + size) out
       end.
Definition value_run (h : ObjectHeader) (size : Z) (item : Z -> list Z -> option DValue) : list DValue :=
  default [] (value_loop (length (Data h) + 1) h size (decoder_prefixLen h) item 0 0 []).

Section Values.
Context `{Unicode}.

(** ** Measurements *)

Definition measured {T} (index : Z) (t : PointType) (c : option (Codec T)) (show : T -> string * Z * Timestamp)
    (buf : list Z) (ctx : Context) : DValue :=
  match c with
  | Some c => let '(s, f, tm) := show (Parse c buf ctx) in mkDValue index t [Txt s] f tm
  | None => mkDValue index t [] 0 NoTime
  end.
(** What is shown of a measurement whose value prints as [str]. *)
Definition show_with {T} (str : T -> string) (m : measurement T) : string * Z * Timestamp :=
  (str (Value m), Flags m, Time m).

Definition decodeOne (g : Objects.GroupVar) (d : Descriptor) (index : Z) (buf : list Z) (ctx : Context) : DValue :=
  match Measurement d with
  | TypeBinary => measured index TypeBinary (BinaryCodec g) (show_with boolText) buf ctx
  | TypeDoubleBitBinary => measured index TypeDoubleBitBinary (DoubleBitCodec g) (show_with DoubleBit_String) buf ctx
  | TypeCounter => measured index TypeCounter (CounterCodec g) (show_with dec) buf ctx
  | TypeFrozenCounter => measured index TypeFrozenCounter (FrozenCounterCodec g) (show_with dec) buf ctx
  | TypeAnalog => measured index TypeAnalog (AnalogCodec g) (show_with formatFloat) buf ctx
  | TypeBinaryOutputStatus => measured index TypeBinaryOutputStatus (BinaryOutputCodec g) (show_with boolText) buf ctx
  | TypeAnalogOutputStatus => measured index TypeAnalogOutputStatus (AnalogOutputCodec g) (show_with formatFloat) buf ctx
  | t => mkDValue index t [] 0 NoTime
  end.

Definition packed_values {T} (h : ObjectHeader) (t : PointType) (str : T -> string) (ms : list (measurement T)) : list DValue :=
  imap (fun i m => mkDValue (IndexOf (ORange h) (u32 (Z.of_nat i))) t [Txt (str (Value m))] (Flags m) NoTime) ms.
Definition decodePacked (h : ObjectHeader) (d : Descriptor) (count : Z) : list DValue :=
  match Measurement d with
  | TypeDoubleBitBinary => packed_values h TypeDoubleBitBinary DoubleBit_String (ParsePackedDoubleBit (Data h) count [])
  | TypeBinaryOutputStatus => packed_values h TypeBinaryOutputStatus boolText (ParsePackedBinaryOutput (Data h) count [])
  | t => packed_values h t boolText (ParsePackedBinary (Data h) count [])
  end.

(** ** Commands *)

Definition analogOutputText (variation : Z) (buf : list Z) : string :=
  let line (v kind : string) (status : Z) := v +:+ " (" +:+ kind +:+ ") → " +:+ CommandStatus_String status in
  if variation =? 1 then
    let c := ParseAnalogOutputInt32 buf in line (dec (AO32_Value c)) "int32" (AO32_Status c)
  else if variation =? 2 then
    let c := ParseAnalogOutputInt16 buf in line (dec (AO16_Value c)) "int16" (AO16_Status c)
  else if variation =? 3 then
    let c := ParseAnalogOutputFloat32 buf in line (formatFloat (f64_of_f32_bits (AOF_Bits c))) "float32" (AOF_Status c)
  else if variation =? 4 then
    let c := ParseAnalogOutputFloat64 buf in line (formatFloat (f64_from_bits (AOD_Bits c))) "float64" (AOD_Status c)
  else "".

Definition command_value (h : ObjectHeader) (index : Z) (buf : list Z) : option DValue :=
  if Group h =? 12 then
    let c := ParseCROB buf in
    Some (mkDValue index TypeUnknown
      [Txt (ControlCode_String (Code c) +:+ " count=" +:+ dec (CCount c) +:+ " on=" +:+ dec (OnTime c) +:+
            "ms off=" +:+ dec (OffTime c) +:+ "ms → " +:+ CommandStatus_String (CStatus c))] 0 NoTime)
  else if Group h =? 41 then Some (mkDValue index TypeUnknown [Txt (analogOutputText (Variation h) buf)] 0 NoTime)
  else None.
Definition decodeCommands (h : ObjectHeader) (d : Descriptor) : list DValue * bool :=
  match SizeOctets d with
  | None => ([], false)
  | Some size =>
      if size =? 0 then ([], false)
      else let out := value_run h size (command_value h) in (out, 0 <? len out)
  end.

(** ** Octet strings *)

Definition octetText (raw : list Z) : string :=
  if forallb (fun c => negb (negb (c =? 0) && ((c <? 0x20) || (0x7E <? c)))) raw
  then Quote (trim_nul raw) else spaced_hex raw.
Definition octet_value (index : Z) (raw : list Z) : option DValue :=
  Some (mkDValue index TypeOctetString [Txt (octetText raw)] 0 NoTime).
Definition decodeOctetStrings (h : ObjectHeader) : list DValue :=
  let size := Variation h in if size =? 0 then [] else value_run h size octet_value.

(** ** Device attributes *)

(** A turn takes the header of an attribute at least, or ends the loop. *)
Fixpoint attribute_values (fuel : nat) (h : ObjectHeader) (count i off : Z) (out : list DValue) : option (list DValue) :=
  if count <=? i then Some out
  else match fuel with
       | O => None
       | S fuel =>
           if len (Data h) <=? off then Some out
           else
             match ParseAttribute (u8 (IndexOf (ORange h) (u32 i))) (Variation h) (drop (Z.to_nat off) (Data h)) with
             | Err e => Some (out ++ [mkDValue (Variation h) TypeUnknown [Txt "malformed: "; ErrText (InAttribute e)] 0 NoTime])
             | Ok (a, n) =>
                 attribute_values fuel h count (i + 1) (off + n)
                   (out ++ [mkDValue (A_Variation a) TypeUnknown
                      [Txt (Attribute_Name a +:+ " = " +:+ Attribute_Value a +:+ " [" +:+ AttributeType_String (A_Type a) +:+ "]")]
                      0 NoTime])
             end
       end.
Definition decodeAttributes (h : ObjectHeader) : list DValue * bool :=
  let count := if ObjectHeader_Count h =? 0 then 1 else ObjectHeader_Count h in
  let out := default [] (attribute_values (length (Data h) + 1) h count 0 0 []) in
  (out, 0 <? len out).

(** ** File objects *)

Definition malformed (e : FileErr) : text := [Txt "malformed: "; ErrText (InFile e)].
Definition optionalText (s : list Z) : string := if len s =? 0 then "" else " (" +:+ of_octets s +:+ ")".

Definition fileObjectText (variation : Z) (obj : list Z) : option text :=
  let or_malformed {A} (r : result FileErr A) (f : A -> string) : option text :=
    match r with Ok a => Some [Txt (f a)] | Err e => Some (malformed e) end in
  let sizes (size block : Z) :=
    (if 0 <? size then " size=" +:+ dec size else "") +:+ (if 0 <? block then " block=" +:+ dec block else "") in
  if variation =? 2 then
    or_malformed (ParseFileAuth obj) (fun a => "auth user=" +:+ Quote (FA_User a) +:+ " key=" +:+ hex_alt 8 (FA_Key a))
  else if variation =? 3 then
    or_malformed (ParseFileCommand obj) (fun c =>
      FileMode_String (FC_Mode c) +:+ " " +:+ Quote (FC_Name c) +:+ " req=" +:+ dec (FC_RequestID c) +:+
      sizes (FC_Size c) (FC_MaxBlockSize c))
  else if variation =? 4 then
    or_malformed (ParseFileCommandStatus obj) (fun st =>
      "handle=" +:+ hex_alt 8 (FS_Handle st) +:+ " req=" +:+ dec (FS_RequestID st) +:+ " → " +:+
      FileStatus_String (FS_Status st) +:+ sizes (FS_Size st) (FS_MaxBlockSize st) +:+ optionalText (FS_Text st))
  else if variation =? 5 then
    or_malformed (ParseFileTransport obj) (fun t =>
      "handle=" +:+ hex_alt 8 (FT_Handle t) +:+ " block=" +:+ dec (FT_Block t) +:+
      (if FT_Last t then " last" else "") +:+ " data=" +:+ dec (len (FT_Data t)) +:+ "B")
  else if variation =? 6 then
    or_malformed (ParseFileTransportStatus obj) (fun st =>
      "handle=" +:+ hex_alt 8 (TS_Handle st) +:+ " block=" +:+ dec (TS_Block st) +:+
      (if TS_Last st then " last" else "") +:+ " → " +:+ FileStatus_String (TS_Status st) +:+ optionalText (TS_Text st))
  else if variation =? 7 then
    or_malformed (ParseFileDescriptor obj) (fun d =>
      FileType_String (FD_Type d) +:+ " " +:+ Quote (FD_Name d) +:+ " " +:+ FilePermissions_String (FD_Permissions d) +:+
      " " +:+ dec (FD_Size d) +:+ " octets" +:+
      (if negb (FD_Created d =? zeroTime) then " " +:+ date_time_text (FD_Created d) else ""))
  else if variation =? 8 then Some [Txt ("file specification " +:+ Quote (trim_nul obj))]
  else None.

Definition decodeFileObjects (h : ObjectHeader) : list DValue * bool :=
  match FreeFormatObjects h with
  | Err _ => ([], false)
  | Ok objs =>
      let out := omap id (imap (fun i obj =>
        (fun t => mkDValue (u32 (Z.of_nat i)) TypeUnknown t 0 NoTime) <$> fileObjectText (Variation h) obj) objs) in
      (out, 0 <? len out)
  end.

(** ** A header *)

(** The end of [DecodeValues]: a row of the table that is not a command. *)
Definition measurements (h : ObjectHeader) (ctx : Context) (d : Descriptor) : list DValue * bool :=
  if bool_decide (Measurement d = TypeUnknown) then ([], false)
  else if Packed d then (decodePacked h d (ObjectHeader_Count h), true)
  else
    match SizeOctets d with
    | None => ([], false)
    | Some size =>
        if size =? 0 then ([], false)
        else (value_run h size (fun index buf => Some (decodeOne (GV (Group h) (Variation h)) d index buf ctx)), true)
    end.

Definition DecodeValues (h : ObjectHeader) (ctx : Context) : list DValue * bool :=
  if len (Data h) =? 0 then ([], false)
  else if (Group h =? 110) || (Group h =? 111) then (decodeOctetStrings h, true)
  else if Group h =? 70 then decodeFileObjects h
  else if Group h =? 0 then decodeAttributes h
  else
    match Objects.Lookup (GV (Group h) (Variation h)) with
    | None => ([], false)
    | Some d => match D_Kind d with KindCommand => decodeCommands h d | _ => measurements h ctx d end
    end.

(** [decodeValues] of src/decoder/decoder.go: the values of each header of a fragment, the
    common time of occurrence going before the relative times that follow it. *)
Fixpoint decode_headers (ctx : Context) (headers : list ObjectHeader) : list (list DValue) :=
  match headers with
  | [] => []
  | h :: hs =>
      if (Group h =? 51) && (Time48Size <=? len (Data h))
      then [] :: decode_headers (WithGroup51 ctx (TTime (ParseTime48 (Data h))) (Variation h)) hs
      else (let '(vals, ok) := DecodeValues h ctx in if ok then vals else []) :: decode_headers ctx hs
  end.
Definition decodeValues (synchronized : bool) (headers : list ObjectHeader) : list (list DValue) :=
  decode_headers (mkContext synchronized zeroTime false false) headers.
End Values.

(** ** The decoder and the master

    The groups both read as measurements: not the attributes, commands and files only the
    decoder shows, nor the command events, data sets and terminals only a master hears of. *)
Definition alike (group : Z) : bool := negb (one_of group [0; 12; 13; 41; 43; 70; 85; 86; 87; 88; 112; 113]).

Section Agree.
Context `{Unicode}.

(** What a decoder shows of a point a master is told about. *)
Definition shown {T} (i : Z) (t : PointType) (str : T -> string) (m : measurement T) : DValue :=
  mkDValue i t [Txt (str (Value m))] (Flags m) (Time m).
Definition show_report (r : report) : DValue :=
  let '(_, i, v) := r in
  match v with
  | RBinary m => shown i TypeBinary boolText m
  | RDoubleBit m => shown i TypeDoubleBitBinary DoubleBit_String m
  | RCounter m => shown i TypeCounter dec m
  | RFrozenCounter m => shown i TypeFrozenCounter dec m
  | RAnalog m | RFrozenAnalog m => shown i TypeAnalog formatFloat m
  | RBinaryOutputStatus m => shown i TypeBinaryOutputStatus boolText m
  | RAnalogOutputStatus m => shown i TypeAnalogOutputStatus formatFloat m
  | ROctetString s => mkDValue i TypeOctetString [Txt (octetText s)] 0 NoTime
  | RCommandEvent _ | RDataset _ => mkDValue i TypeUnknown [] 0 NoTime
  end.

Lemma value_loop_run {T} (parse : list Z -> T) (f : Indexed T -> DValue) h size plen fuel : forall i off (out : list (Indexed T)),
  value_loop fuel h size plen (fun index buf => Some (f (mkIndexed index (parse buf)))) i off (f <$> out) =
  (fun l : list (Indexed T) => f <$> l) <$> decode_loop fuel h size plen parse i off out.
Proof.
  induction fuel as [|fuel IH]; intros i off out; cbn [value_loop decode_loop].
  { by destruct (ObjectHeader_Count h <=? i). }
  destruct (ObjectHeader_Count h <=? i); [done|].
  destruct (len (Data h) <? off + plen + size); [done|].
  destruct (0 <? plen); cbv zeta; rewrite <- IH; f_equal; by rewrite fmap_app.
Qed.
Lemma value_run_decodeRun {T} (parse : list Z -> T) (f : Indexed T -> DValue) h size :
  value_run h size (fun index buf => Some (f (mkIndexed index (parse buf)))) = f <$> decodeRun h size (prefix_len h) parse.
Proof.
  unfold value_run, decodeRun. change (decoder_prefixLen h) with (prefix_len h).
  pose proof (value_loop_run parse f h size (prefix_len h) (length (Data h) + 1) 0 0 []) as E.
  cbn [fmap list_fmap] in E. rewrite E. by destruct (decode_loop _ _ _ _ _ _ _ _).
Qed.

(** A header of measurements of one type: the same list, shown and reported. *)
Lemma run_shown {T} (wrap : measurement T -> reading) (t : PointType) (str : T -> string) info h size ctx (c : Codec (measurement T)) :
  (forall g i m, show_report (g, i, wrap m) = shown i t str m) ->
  value_run h size (fun index buf => Some (measured index t (Some c) (show_with str) buf ctx)) =
  show_report <$> reports_of wrap info (decode_with h size (prefix_len h) ctx (Some c)).
Proof.
  intros Hs. unfold measured, show_with, decode_with, reports_of.
  etransitivity; [exact (value_run_decodeRun (fun b => Parse c b ctx) (fun x => shown (Index x) t str (IValue x)) h size)|].
  rewrite <- list_fmap_compose. apply list_fmap_ext. intros ? x _. unfold compose. by rewrite Hs.
Qed.
Lemma packed_shown {T} (wrap : measurement T -> reading) (t : PointType) (str : T -> string) info h ms :
  (forall g i m, show_report (g, i, wrap m) = shown i t str m) -> Forall (fun m : measurement T => Time m = NoTime) ms ->
  packed_values h t str ms = show_report <$> reports_of wrap info (packed_indexed (Start (ORange h)) ms).
Proof.
  intros Hs Ht. unfold packed_values, reports_of, packed_indexed. rewrite <- list_fmap_compose, fmap_imap.
  apply imap_ext. intros i m Hm. unfold compose. cbn [Index IValue]. rewrite Hs. unfold shown. rewrite Forall_lookup in Ht. rewrite (Ht i m Hm).
  f_equal. unfold IndexOf, u32. by rewrite Z.add_mod_idemp_r.
Qed.
Lemma packed_untimed {T} (f : Z -> T) count :
  Forall (fun m : measurement T => Time m = NoTime) ([] ++ ((fun i => mkMeasurement (f i) Online NoTime) <$> seqZ 0 count)).
Proof. apply Forall_fmap, Forall_true. done. Qed.

(** *** The table *)

(** What the proof needs of a row: a command is of group 12 or 41, a packed row is of one of
    three types, and a type that is decoded has a codec. *)
Definition row_ok (x : (Z * Z) * Descriptor) : bool :=
  let '((g, v), d) := x in
  let k := GV g v in
  (match D_Kind d with KindCommand => one_of g [12; 41] | _ => true end) &&
  (bool_decide (Measurement d = TypeUnknown) ||
   (if Packed d then
      match Measurement d with TypeBinary | TypeDoubleBitBinary | TypeBinaryOutputStatus => true | _ => false end
    else
      match Measurement d with
      | TypeBinary => bool_decide (is_Some (BinaryCodec k))
      | TypeDoubleBitBinary => bool_decide (is_Some (DoubleBitCodec k))
      | TypeCounter => bool_decide (is_Some (CounterCodec k))
      | TypeFrozenCounter => bool_decide (is_Some (FrozenCounterCodec k))
      | TypeAnalog => bool_decide (is_Some (AnalogCodec k))
      | TypeBinaryOutputStatus => bool_decide (is_Some (BinaryOutputCodec k))
      | TypeAnalogOutputStatus => bool_decide (is_Some (AnalogOutputCodec k))
      | _ => false
      end)).
Lemma rows_ok : forallb row_ok descriptors = true.
Proof. vm_compute. reflexivity. Qed.
Lemma row_of g d : Objects.Lookup g = Some d -> row_ok ((GV_Group g, GV_Variation g), d) = true.
Proof.
  unfold Objects.Lookup. destruct (find _ descriptors) as [[[a b] d']|] eqn:E; [|done]. cbn. intros [= ->].
  apply find_some in E as [Hin Hk]. cbn in Hk. rewrite andb_true_iff, !Z.eqb_eq in Hk. destruct Hk as [<- <-].
  pose proof rows_ok as Hr. rewrite forallb_forall in Hr. exact (Hr _ Hin).
Qed.

Lemma alike_not group x : alike group = true -> one_of x [0; 12; 13; 41; 43; 70; 85; 86; 87; 88; 112; 113] = true ->
  (group =? x) = false.
Proof.
  unfold alike. rewrite negb_true_iff. intros Ha Hx. destruct (Z.eqb_spec group x) as [->|]; [congruence | done].
Qed.

Lemma all_reports_one c : all_reports [c] = reports c.
Proof. unfold all_reports. cbn. apply app_nil_r. Qed.

(** The octets of a string, shown and reported. *)
Lemma strings_shown h info size :
  value_run h size octet_value = show_report <$> reports_of ROctetString info (decodeRun h size (prefix_len h) (fun b => b)).
Proof.
  unfold reports_of. rewrite <- list_fmap_compose.
  exact (value_run_decodeRun (fun b => b) (fun x => mkDValue (Index x) TypeOctetString [Txt (octetText (IValue x))] 0 NoTime) h size).
Qed.

(** A header of a group both read. *)
Lemma decode_dispatch k h ctx : alike (Group h) = true ->
  (let '(vals, ok) := DecodeValues h ctx in if ok then vals else []) = show_report <$> all_reports (dispatch k h ctx).
Proof.
  intros Ha. assert (N : forall x, one_of x [0; 12; 13; 41; 43; 70; 85; 86; 87; 88; 112; 113] = true -> (Group h =? x) = false)
    by (intros x; by apply alike_not).
  unfold DecodeValues, dispatch. destruct (len (Data h) =? 0); [done|].
  replace ((85 <=? Group h) && (Group h <=? 88)) with false.
  2:{ symmetry. apply andb_false_iff. pose proof (N 85 eq_refl). pose proof (N 86 eq_refl). pose proof (N 87 eq_refl).
      pose proof (N 88 eq_refl). rewrite !Z.leb_gt. rewrite Z.eqb_neq in *. lia. }
  cbn [one_of existsb]. unfold groupOctetString, groupOctetStringEvent.
  rewrite (N 70 eq_refl), (N 0 eq_refl), (N 112 eq_refl), (N 113 eq_refl), (N 13 eq_refl), (N 43 eq_refl). cbn [orb].
  rewrite !orb_false_r.
  destruct ((Group h =? 110) || (Group h =? 111)).
  { unfold decodeOctetStrings, dispatchOctetStrings. destruct (Variation h =? 0); [done|].
    rewrite all_reports_one. apply strings_shown. }
  destruct (Objects.Lookup (GV (Group h) (Variation h))) as [d|] eqn:El; [|done].
  apply row_of in El. cbn [GV_Group GV_Variation GV] in El. unfold row_ok in El. apply andb_true_iff in El as [Hk El].
  assert (Hc : match D_Kind d with KindCommand => False | _ => True end).
  { destruct (D_Kind d); try exact I. cbn [one_of existsb] in Hk. by rewrite (N 12 eq_refl), (N 41 eq_refl) in Hk. }
  replace (match D_Kind d with KindCommand => decodeCommands h d | _ => measurements h ctx d end) with (measurements h ctx d)
    by (destruct (D_Kind d); [done..|]; done).
  unfold measurements. destruct (bool_decide (Measurement d = TypeUnknown)); [done|]. cbn [orb] in El.
  destruct (Packed d).
  { unfold decodePacked, dispatchPacked. destruct (Measurement d); try done; rewrite all_reports_one.
    - apply (packed_shown RBinary); [done | apply packed_untimed].
    - apply (packed_shown RDoubleBit); [done | apply packed_untimed].
    - apply (packed_shown RBinaryOutputStatus); [done | apply packed_untimed]. }
  destruct (SizeOctets d) as [size|]; [|done]. destruct (size =? 0); [done|].
  unfold decodeOne. destruct (Measurement d); try done; apply bool_decide_eq_true in El as [c Ec]; rewrite !Ec.
  all: try rewrite all_reports_one.
  - by apply (run_shown RBinary).
  - by apply (run_shown RDoubleBit).
  - by apply (run_shown RCounter).
  - by apply (run_shown RFrozenCounter).
  - destruct (_ && _); rewrite all_reports_one; [by apply (run_shown RFrozenAnalog) | by apply (run_shown RAnalog)].
  - by apply (run_shown RBinaryOutputStatus).
  - by apply (run_shown RAnalogOutputStatus).
Qed.

(** The reports of a header are of its group. *)
Lemma reports_of_group {T} (wrap : T -> reading) g kind c vs :
  Forall (fun r : report => fst (fst r) = g) (reports_of wrap (mkHeaderInfo g kind c) vs).
Proof. apply Forall_fmap, Forall_true. done. Qed.
Lemma dispatch_group k h ctx :
  Forall (fun r : report => fst (fst r) = GV (Group h) (Variation h)) (all_reports (dispatch k h ctx)).
Proof.
  unfold dispatch. repeat case_match; try apply Forall_nil_2.
  all: rewrite ?all_reports_one; try apply reports_of_group.
  all: unfold dispatchDatasets, dispatchOctetStrings, dispatchCommandEvents, dispatchPacked.
  all: repeat case_match; rewrite ?all_reports_one; try apply Forall_nil_2; try apply reports_of_group.
  all: try (by repeat constructor).
  all: unfold all_reports; apply Forall_concat, Forall_fmap, Forall_fmap, Forall_true; intros; by repeat constructor.
Qed.

(** What the decoder shows of the headers in groups both read. *)
Definition shown_alike (hs : list ObjectHeader) (values : list (list DValue)) : list DValue :=
  concat (omap (fun x => if alike (Group (fst x)) then Some (snd x) else None) (zip hs values)).
Definition reported_alike (rs : list report) : list report :=
  List.filter (fun r => alike (GV_Group (fst (fst r)))) rs.

Lemma headers_agree k hs : forall ctx,
  shown_alike hs (decode_headers ctx hs) = show_report <$> reported_alike (all_reports (deliver_objects k ctx hs)).
Proof.
  unfold shown_alike. induction hs as [|h hs IH]; intros ctx; [done|]. cbn [decode_headers deliver_objects].
  destruct ((Group h =? 51) && (Time48Size <=? len (Data h))) eqn:E.
  { cbn [zip zip_with omap list_omap fst snd]. destruct (alike (Group h)); apply IH. }
  rewrite all_reports_app. unfold reported_alike. rewrite List.filter_app, fmap_app. fold (reported_alike (all_reports (deliver_objects k ctx hs))).
  cbn [zip zip_with omap list_omap fst snd]. destruct (alike (Group h)) eqn:Ea.
  - cbn [concat]. rewrite IH. f_equal. rewrite (decode_dispatch k h ctx Ea). f_equal. symmetry.
    apply List.forallb_filter_id, forallb_forall. intros r Hr.
    pose proof (dispatch_group k h ctx) as G. rewrite List.Forall_forall in G. by rewrite (G r Hr).
  - rewrite IH. replace (List.filter _ (all_reports (dispatch k h ctx))) with (@nil report); [done|].
    symmetry. rewrite (List.filter_ext_in _ (fun _ => false)); [apply List.filter_false|]. intros r Hr.
    pose proof (dispatch_group k h ctx) as G. rewrite List.Forall_forall in G. by rewrite (G r Hr).
Qed.

(** The decoder shows what the master is told. Whatever object headers a fragment has, the
    values the decoder shows for those in the groups that carry measurements, in the order it
    shows them, are exactly the points a master session hands its handler from the same
    headers: the same indexes, values, qualities and times, relative times included. *)
Theorem decoder_agrees (k : HandlerKind) (synchronized : bool) (hs : list ObjectHeader) :
  shown_alike hs (decodeValues synchronized hs) =
  show_report <$> reported_alike (all_reports (deliver_objects k (fragment_context synchronized) hs)).
Proof. apply headers_agree. Qed.
End Agree.
