(* ===== verification/Decoder.v ===== *)
(** * The decoder (src/decoder/decoder.go)

    Octets of one direction of a connection become traces: a frame with its transport segment
    and, when that completes one, the application fragment with its values.  The callback of
    [Feed] is given traces in order; they are the list the functions here return.

    The theorems: the traces are those of the frames in the stream, however it is cut, and
    feeding never gets stuck; a frame given by itself is decoded with exactly its octets; and
    a fragment a station sends is shown once, whole, with the values the station it is for
    makes of it; and a hex dump can be read back. *)

From Stdlib Require Import Ascii.
From S2P Require Import Prelude Values AppHeader LinkFrame LinkParser LinkFsm Transport Stack AppObject AppFragment.
From S2P Require Import Objects Dispatch Text Names DecoderValues.
#[local] Open Scope Z_scope.

Inductive Direction := DirUnknown | DirTx | DirRx.
Definition Direction_String (d : Direction) : string :=
  match d with DirTx => "TX" | DirRx => "RX" | DirUnknown => "--" end.

Record LinkInfo := mkLinkInfo {
  L_Control : LinkFrame.Control; L_Dest : Z; L_Src : Z; L_Length : Z; L_PayloadLen : Z; L_FrameSize : Z }.
Record TransportInfo := mkTransportInfo { T_Header : Transport.Header; T_Complete : bool; T_Discarded : DiscardReason }.
Record AppInfo := mkAppInfo {
  AI_Header : AppHeader.Header; AI_Objects : list ObjectHeader; AI_Values : list (list DValue); AI_Err : option FragmentErr }.
Record Trace := mkTrace {
  Tr_Direction : Direction; Tr_Link : LinkInfo; Tr_Transport : option TransportInfo; Tr_App : option AppInfo;
  Tr_Raw : list Z; Tr_Err : option LinkErr }.

Record Decoder := mkDecoder {
  d_dir : Direction; d_parser : Parser; d_reasm : Reassembler; d_sizer : ObjectSizer; d_synchronized : bool }.

Definition with_dparser (p : Parser) (d : Decoder) : Decoder :=
  mkDecoder (d_dir d) p (d_reasm d) (d_sizer d) (d_synchronized d).
Definition with_dreasm (r : Reassembler) (d : Decoder) : Decoder :=
  mkDecoder (d_dir d) (d_parser d) r (d_sizer d) (d_synchronized d).

(** A nil sizer is [None]. *)
Definition New (dir : Direction) (sizer : option ObjectSizer) : Decoder :=
  mkDecoder dir NewParser (NewReassembler 0) (default DefaultSizer sizer) true.
Definition SetSynchronized (d : Decoder) (v : bool) : Decoder :=
  mkDecoder (d_dir d) (d_parser d) (d_reasm d) (d_sizer d) v.
Definition Decoder_Reset (d : Decoder) : Decoder :=
  with_dreasm (Reassembler_Reset (d_reasm d)) (with_dparser NewParser d).
Definition Decoder_Stats (d : Decoder) : LinkParser.Stats * Transport.Stats := (pstats (d_parser d), r_stats (d_reasm d)).

Section Decoding.
Context `{Unicode}.

Definition trace_link (f : Frame) : LinkInfo :=
  let h := LinkFrame.FHeader f in
  mkLinkInfo (LinkFrame.HControl h) (Dest h) (Src h) (Length h) (len (Payload f)) (FrameSize (len (Payload f))).

(** Only user data frames carry a transport segment. *)
Definition carries_segment (f : Frame) : bool :=
  let c := LinkFrame.HControl (LinkFrame.FHeader f) in
  negb (negb (LinkFrame.Prm c) ||
        (negb (LinkFrame.Func c =? FuncConfirmedUserData) && negb (LinkFrame.Func c =? FuncUnconfirmedUserData))) &&
  negb (len (Payload f) =? 0).

Definition app_info (d : Decoder) (fragment : list Z) : AppInfo :=
  let '(frag, err) := ParseFragment (Some (d_sizer d)) fragment in
  mkAppInfo (AppFragment.FHeader frag) (AppFragment.Objects frag) (decodeValues (d_synchronized d) (AppFragment.Objects frag)) err.

Definition trace (d : Decoder) (f : Frame) : Decoder * Trace :=
  let raw := match Encode [] (LinkFrame.FHeader f) (Payload f) with Ok raw => raw | Err _ => [] end in
  let t transport app := mkTrace (d_dir d) (trace_link f) transport app raw None in
  if negb (carries_segment f) then (d, t None None)
  else
    let '(r, res) := Accept (d_reasm d) (Payload f) in
    let d := with_dreasm r d in
    let ti := mkTransportInfo (Transport.ParseHeader (at_ (Payload f) 0)) (Complete res) (Discarded res) in
    match Transport.Fragment res with
    | None => (d, t (Some ti) None)
    | Some fragment => (d, t (Some ti) (Some (app_info d fragment)))
    end.

(** Each turn takes a frame out of the buffer, or is the last. *)
Fixpoint decoder_drain (fuel : nat) (d : Decoder) : option (Decoder * list Trace) :=
  match fuel with
  | O => None
  | S fuel =>
      match LinkParser.Next (d_parser d) with
      | (p, Err _) => Some (with_dparser p d, [])
      | (p, Ok f) =>
          let '(d, t) := trace (with_dparser p d) f in
          '(d, ts) ← decoder_drain fuel d; Some (d, t :: ts)
      end
  end.
Definition drain_all (d : Decoder) : option (Decoder * list Trace) :=
  decoder_drain (S (Z.to_nat (Buffered (d_parser d)))) d.

(** Each turn takes an octet of the data, or is the last. *)
Fixpoint feed_loop (fuel : nat) (d : Decoder) (data : list Z) : option (Decoder * list Trace) :=
  if negb (0 <? len data) then Some (d, [])
  else match fuel with
       | O => None
       | S fuel =>
           let '(p, n, _) := Write (d_parser d) data in
           let d := with_dparser p d in
           if n =? 0 then
             '(d, ts) ← drain_all d;
             let '(p, n, _) := Write (d_parser d) data in
             let d := with_dparser p d in
             if n =? 0 then Some (d, ts)
             else '(d, ts') ← drain_all d; '(d, ts'') ← feed_loop fuel d (drop (Z.to_nat n) data); Some (d, ts ++ ts' ++ ts'')
           else '(d, ts) ← drain_all d; '(d, ts') ← feed_loop fuel d (drop (Z.to_nat n) data); Some (d, ts ++ ts')
       end.
Definition Feed (d : Decoder) (data : list Z) : option (Decoder * list Trace) := feed_loop (length data) d data.

(** [Trace{Raw: raw, Err: err}]. *)
Definition error_trace (raw : list Z) (e : LinkErr) : Trace :=
  mkTrace DirUnknown (mkLinkInfo Control0 0 0 0 0 0) None None raw (Some e).

(** The trace, the octets consumed and the error; the last trace [Feed] reports is the one
    that is returned. *)
Definition DecodeFrame (sizer : option ObjectSizer) (data : list Z) : option (Trace * Z * option LinkErr) :=
  match Decode data with
  | Err e => Some (error_trace data e, 0, Some e)
  | Ok (_, n) =>
      '(_, ts) ← Feed (New DirUnknown sizer) (slice 0 n data);
      match last ts with
      | None => Some (error_trace (slice 0 n data) ErrShortFrame, n, Some ErrShortFrame)
      | Some t => Some (t, n, None)
      end
  end.

(** ** Rendering *)

Definition linkLine (t : Trace) : string :=
  let l := Tr_Link t in
  "link  " +:+ LinkControl_String (L_Control l) +:+ "  " +:+ dec (L_Src l) +:+ "→" +:+ dec (L_Dest l) +:+
  "  len=" +:+ dec (L_Length l) +:+ "  frame=" +:+ dec (L_FrameSize l) +:+ "B".

Definition perLine : nat := 16.
(** The columns of a line: two digits each, spaces where the data has ended, and one more
    space after the eighth. *)
Fixpoint hex_columns (n : nat) (i : nat) (line : list Z) : string :=
  match n with
  | O => ""
  | S n =>
      (match line with c :: _ => hex2 c +:+ " " | [] => "   " end) +:+
      (if (i =? 7)%nat then " " else "") +:+ hex_columns n (S i) (tail line)
  end.
Definition printable_char (c : Z) : ascii := if (0x20 <=? c) && (c <? 0x7F) then char_of c else ".".
Definition ascii_column (line : list Z) : string := fold_right (fun c s => String (printable_char c) s) "" line.
Definition hex_line (indent : string) (off : Z) (line : list Z) : string :=
  indent +:+ hex_min false 4 off +:+ "  " +:+ hex_columns perLine 0 line +:+ " |" +:+ ascii_column line +:+ "|" +:+ newline.
Fixpoint writeHex_loop (fuel : nat) (indent : string) (off : Z) (data : list Z) : string :=
  match fuel, data with
  | S fuel, _ :: _ =>
      hex_line indent off (take perLine data) +:+ writeHex_loop fuel indent (off + 16) (drop perLine data)
  | _, _ => ""
  end.
Definition writeHex (data : list Z) (indent : string) : string := writeHex_loop (length data) indent 0 data.
Definition HexDump (data : list Z) : string := writeHex data "".

Definition object_line (o : ObjectHeader) (values : list DValue) : text :=
  [Txt ("        g" +:+ dec (Group o) +:+ "v" +:+ dec (Variation o) +:+ "  " +:+
        pad_right 22 (Qualifier_String (Qualifier o)) +:+ " " +:+ pad_right 14 (Range_String (ORange o)) +:+ " " +:+
        dec (ObjectHeader_Count o) +:+ " object(s)" +:+
        (if 0 <? len (Data o) then "  " +:+ dec (len (Data o)) +:+ " octets" else "") +:+ newline)] ++
  concat ((fun v => [Txt "          "] ++ DValue_String v ++ [Txt newline]) <$> values).
(** The objects with the values at the same place; a place without values has none. *)
Fixpoint object_lines (objs : list ObjectHeader) (values : list (list DValue)) : text :=
  match objs, values with
  | [], _ => []
  | o :: objs, vs :: values => object_line o vs ++ object_lines objs values
  | o :: objs, [] => object_line o [] ++ object_lines objs []
  end.

Definition Render (t : Trace) (showHex : bool) : text :=
  [Txt (Direction_String (Tr_Direction t) +:+ "  " +:+ linkLine t +:+ newline)] ++
  match Tr_Err t with
  | Some e => [Txt "      error: "; ErrText (InFrame e); Txt newline]
  | None =>
      match Tr_Transport t with
      | Some ti =>
          [Txt ("      transport  " +:+ TransportHeader_String (T_Header ti) +:+
                (if bool_decide (T_Discarded ti = DiscardNone) then ""
                 else "  DISCARDED: " +:+ DiscardReason_String (T_Discarded ti)) +:+ newline)]
      | None => []
      end ++
      match Tr_App t with
      | Some ai =>
          [Txt ("      application  " +:+ AppHeader_String (AI_Header ai) +:+ newline)] ++
          object_lines (AI_Objects ai) (AI_Values ai) ++
          match AI_Err ai with
          | Some e => [Txt "        error: "; ErrText (InFragment e); Txt newline]
          | None => []
          end
      | None => []
      end ++
      (if showHex then [Txt (writeHex (Tr_Raw t) "      ")] else [])
  end.

(** [strings.TrimRight(text, "\n")], from the end of the text. *)
Fixpoint trim_newlines (rev_text : text) : text :=
  match rev_text with
  | Txt s :: rest =>
      let s := TrimRight s "010" in
      if bool_decide (s = "") then trim_newlines rest else Txt s :: rest
  | _ => rev_text
  end.
Definition Trace_String (t : Trace) : text := rev (trim_newlines (rev (Render t false))).

(** ** Feeding *)

(** The traces of frames that follow each other. *)
Fixpoint trace_all (d : Decoder) (fs : list Frame) : Decoder * list Trace :=
  match fs with
  | [] => (d, [])
  | f :: fs => let '(d, t) := trace d f in let '(d, ts) := trace_all d fs in (d, t :: ts)
  end.

Lemma trace_parser p d f : trace (with_dparser p d) f = (with_dparser p (fst (trace d f)), snd (trace d f)).
Proof.
  destruct d as [dir q r sizer sync]. unfold trace. destruct (carries_segment f); [|done]. cbn [d_reasm with_dparser negb].
  destruct (Accept r (Payload f)) as [r' res]. by destruct (Transport.Fragment res).
Qed.
Lemma trace_all_parser p d fs :
  trace_all (with_dparser p d) fs = (with_dparser p (fst (trace_all d fs)), snd (trace_all d fs)).
Proof.
  revert d. induction fs as [|f fs IH]; intros d; [done|]. cbn [trace_all]. rewrite trace_parser.
  destruct (trace d f) as [d1 t]. cbn [fst snd]. rewrite IH. by destruct (trace_all d1 fs).
Qed.
Lemma trace_all_app d fs gs :
  trace_all d (fs ++ gs) =
  (fst (trace_all (fst (trace_all d fs)) gs), snd (trace_all d fs) ++ snd (trace_all (fst (trace_all d fs)) gs)).
Proof.
  revert d. induction fs as [|f fs IH]; intros d; cbn [app trace_all]; [apply surjective_pairing|].
  destruct (trace d f) as [d1 t]. rewrite IH. by destruct (trace_all d1 fs).
Qed.
Lemma trace_keeps_parser d f : d_parser (fst (trace d f)) = d_parser d.
Proof.
  unfold trace. destruct (carries_segment f); [|done]. cbn [negb].
  destruct (Accept (d_reasm d) (Payload f)) as [r res]. by destruct (Transport.Fragment res).
Qed.

Lemma with_dparser_idem p q d : with_dparser p (with_dparser q d) = with_dparser p d.
Proof. done. Qed.

Lemma decoder_drain_spec fuel d :
  parser_ok (d_parser d) -> (Z.to_nat (Buffered (d_parser d)) < fuel)%nat ->
  exists p', let fs := fst (scan (LinkParser.content (d_parser d))) in
    decoder_drain fuel d = Some (with_dparser p' (fst (trace_all d fs)), snd (trace_all d fs)) /\
    drained p' /\ LinkParser.content p' = snd (scan (LinkParser.content (d_parser d))).
Proof.
  revert d. induction fuel as [|fuel IH]; intros d Hp Hf; [lia|]. cbn [decoder_drain].
  pose proof (Next_spec (d_parser d) Hp) as [Hok Hr]. destruct (LinkParser.Next (d_parser d)) as [p r].
  cbn [fst snd] in *. destruct r as [f|e].
  - destruct Hr as (_ & Hs & Hlt & _). rewrite trace_parser. destruct (trace d f) as [d1 t] eqn:Et. cbn [fst snd].
    assert (0 <= Buffered p) by (rewrite <- (content_len _ Hok); apply len_nonneg).
    destruct (IH (with_dparser p d1)) as (p' & He & Hd' & Hc); [done | cbn; lia |].
    cbn [d_parser with_dparser] in *. rewrite trace_all_parser in He. cbn [fst snd] in He.
    exists p'. rewrite Hs. cbn [fst snd trace_all]. rewrite Et. destruct (trace_all d1 (fst (scan (LinkParser.content p)))) as [d2 ts] eqn:E2.
    cbn [fst snd] in *. rewrite He. by rewrite with_dparser_idem.
  - destruct Hr as (-> & Hs & Hb & _). exists p. rewrite Hs. cbn [fst snd trace_all]. split_and!; [done| |done].
    split; [done|]. replace (LinkParser.content p) with (snd (scan (LinkParser.content (d_parser d)))) by (by rewrite Hs).
    by apply scan_rest_wait, content_ok.
Qed.

(** Feeding a decoder that has taken out every frame it could: it traces the frames the stream
    now has, and keeps what may yet become one. *)
Lemma Feed_spec d data :
  drained (d_parser d) -> octets_ok data ->
  exists p', let fs := fst (scan (LinkParser.content (d_parser d) ++ data)) in
    Feed d data = Some (with_dparser p' (fst (trace_all d fs)), snd (trace_all d fs)) /\
    drained p' /\ norm (LinkParser.content p') = norm (snd (scan (LinkParser.content (d_parser d) ++ data))).
Proof.
  unfold Feed. assert (Hf : (length data <= length data)%nat) by lia. revert Hf.
  generalize (length data) at 2 3 as fuel. intros fuel. revert d data.
  induction fuel as [|fuel IH]; intros d data Hf Hd Hok.
  all: cbn [feed_loop]; destruct (0 <? len data) eqn:E0; cbn [negb]; bool_prop.
  1: unfold len in E0; lia.
  all: try (destruct data; [|rewrite len_cons in E0; pose proof (len_nonneg data); lia]).
  1, 3: exists (d_parser d); rewrite app_nil_r; pose proof Hd as [Hp Hw].
  1, 2: rewrite scan_unfold, Hw by (by apply content_ok); cbn [fst snd trace_all]; by destruct d.
  pose proof (drained_room _ Hd) as Hroom. change MaxFrameSize with 292 in Hroom. pose proof Hd as [Hp Hw].
  destruct (Write (d_parser d) data) as [[p n] we] eqn:Ew.
  destruct (Write_spec _ _ _ _ _ Hp Hok Ew) as (Hok1 & Hn & Hc1 & _ & _ & Hfree).
  assert (Hn0 : 0 < n) by (destruct (decide (n < len data)); lia).
  replace (n =? 0) with false by (symmetry; apply Z.eqb_neq; lia).
  assert (Hsplit : LinkParser.content (d_parser d) ++ data = LinkParser.content p ++ drop (Z.to_nat n) data).
  { rewrite Hc1, <- app_assoc. f_equal. unfold slice. rewrite Z.sub_0_r. norm_nat. rewrite drop_0.
    symmetry. apply take_drop. }
  assert (Hrest : octets_ok (drop (Z.to_nat n) data)) by auto with dnp3.
  rewrite Hsplit. destruct (scan_app (LinkParser.content p) _ (content_ok _ Hok1) Hrest) as [Hsc1 Hsc2]. rewrite Hsc1. cbn [fst snd] in Hsc2 |- *.
  unfold drain_all. destruct (decoder_drain_spec (S (Z.to_nat (Buffered p))) (with_dparser p d)) as (p1 & He & Hd1 & Hcn);
    [done | cbn; lia |]. cbn [d_parser with_dparser] in *.
  rewrite trace_all_parser in He. cbn [fst snd] in He. rewrite with_dparser_idem in He. rewrite He. cbn [mbind option_bind].
  set (fs := fst (scan (LinkParser.content p))) in *. set (d1 := fst (trace_all d fs)) in *.
  destruct (IH (with_dparser p1 d1) (drop (Z.to_nat n) data)) as (p2 & He2 & Hd2 & Hcn2);
    [rewrite length_drop; unfold len in *; lia | done | done |]. cbn [d_parser with_dparser] in *.
  rewrite Hcn in He2, Hcn2. rewrite trace_all_parser in He2. cbn [fst snd] in He2. rewrite with_dparser_idem in He2. rewrite He2.
  exists p2. rewrite trace_all_app. cbn [fst snd mbind option_bind]. split_and!; [done | done | by rewrite Hcn2].
Qed.

(** [Feed] for each read. *)
Fixpoint feed_all (d : Decoder) (reads : list (list Z)) : option (Decoder * list Trace) :=
  match reads with
  | [] => Some (d, [])
  | r :: reads => '(d, ts) ← Feed d r; '(d, ts') ← feed_all d reads; Some (d, ts ++ ts')
  end.

(** How a stream is cut does not matter, and no octet is left behind: the traces are those of
    the frames the stream has, in order. *)
Theorem feed_any_cut reads : forall d, drained (d_parser d) -> Forall octets_ok reads ->
  exists p', let fs := fst (scan (LinkParser.content (d_parser d) ++ concat reads)) in
    feed_all d reads = Some (with_dparser p' (fst (trace_all d fs)), snd (trace_all d fs)) /\
    drained p' /\ norm (LinkParser.content p') = norm (snd (scan (LinkParser.content (d_parser d) ++ concat reads))).
Proof.
  induction reads as [|r reads IH]; intros d Hd Hok; cbn [feed_all concat].
  - exists (d_parser d). rewrite app_nil_r. pose proof Hd as [Hp Hw].
    rewrite scan_unfold, Hw by (by apply content_ok). cbn [fst snd trace_all]. by destruct d.
  - apply Forall_cons in Hok as [Hr Hok]. destruct (Feed_spec d r Hd Hr) as (p1 & -> & Hd1 & Hn1). cbn [mbind option_bind].
    pose proof Hd as [Hp _]. assert (Ho1 : octets_ok (LinkParser.content (d_parser d) ++ r)) by (apply octets_ok_app; split; [by apply content_ok | done]).
    assert (Ho2 : octets_ok (concat reads)) by (by apply Forall_concat).
    set (d1 := fst (trace_all d (fst (scan (LinkParser.content (d_parser d) ++ r))))).
    destruct (IH (with_dparser p1 d1) Hd1 Hok) as (p2 & He & Hd2 & Hn2). cbn [d_parser with_dparser] in *.
    rewrite app_assoc. destruct (scan_app _ _ Ho1 Ho2) as [Hs1 Hs2]. cbn [fst snd] in Hs1, Hs2. rewrite Hs1.
    pose proof Hd1 as [Hp1 _].
    destruct (scan_same_rest _ _ _ Hn1 (content_ok _ Hp1) (scan_rest_ok _ Ho1) Ho2) as [Hj1 Hj2].
    rewrite trace_all_parser in He. cbn [fst snd] in He. rewrite with_dparser_idem, Hj1 in He. rewrite He.
    exists p2. rewrite trace_all_app. cbn [fst snd mbind option_bind]. split_and!; [done | done | congruence].
Qed.

(** ** One frame *)

Lemma trace_raw d f : len (Payload f) <= MaxPayload -> Tr_Raw (snd (trace d f)) = frame_octets (LinkFrame.FHeader f) (Payload f).
Proof.
  intros Hl. unfold trace. rewrite (Encode_frame [] _ _ Hl). destruct (carries_segment f); [|done]. cbn [negb].
  destruct (Accept (d_reasm d) (Payload f)) as [r res]. by destruct (Transport.Fragment res).
Qed.

(** [DecodeFrame] answers for every input: the error of the frame at the front, or its trace
    with exactly the octets of that frame, whatever follows it. *)
Theorem DecodeFrame_total sizer data : octets_ok data ->
  match Decode data with
  | Err e => DecodeFrame sizer data = Some (error_trace data e, 0, Some e)
  | Ok (f, n) =>
      let t := snd (trace (New DirUnknown sizer) f) in
      DecodeFrame sizer data = Some (t, n, None) /\ Tr_Raw t = slice 0 n data /\ 0 < n <= len data
  end.
Proof.
  intros Hok. unfold DecodeFrame. destruct (Decode data) as [[f n]|e] eqn:Ed; [|done].
  pose proof (Decode_consumes _ _ _ Hok Ed) as Hn. destruct (Decode_inv _ _ _ Hok Ed) as (Hf & Hsz & Hle & Heq).
  destruct (Feed_spec (New DirUnknown sizer) (slice 0 n data) NewParser_drained) as (p' & He & _); [auto with dnp3|].
  cbn [d_parser New] in He. replace (LinkParser.content NewParser) with (@nil Z) in He by (by vm_compute).
  rewrite app_nil_l, Heq in He. pose proof (scan_frame f [] Hf octets_ok_nil) as Hs. rewrite app_nil_r in Hs. rewrite Hs in He.
  change (fst (f :: fst (scan []), snd (scan []))) with [f] in He. rewrite Heq, He. cbn [mbind option_bind trace_all].
  destruct (trace (New DirUnknown sizer) f) as [d1 t] eqn:Et. cbn [snd last]. split; [done|]. unfold LinkFrame.HeaderSize in Hn. split; [|lia].
  change t with (snd (d1, t)). rewrite <- Et. apply trace_raw. apply Hf.
Qed.

(** ** A capture of a fragment *)

(** The fragment each segment completes, if it does. *)
Fixpoint accept_results (r : Reassembler) (l : list (list Z)) : list (option (list Z)) :=
  match l with [] => [] | sg :: l => let '(r, res) := Accept r sg in Transport.Fragment res :: accept_results r l end.
Lemma accept_results_all l : forall r, omap id (accept_results r l) = snd (accept_all r l).
Proof.
  induction l as [|sg l IH]; intros r; [done|]. cbn [accept_results accept_all]. destruct (Accept r sg) as [r' res]. specialize (IH r').
  destruct (accept_all r' l) as [r'' out]. cbn [omap list_omap snd] in *. change (id (Transport.Fragment res)) with (Transport.Fragment res).
  destruct (Transport.Fragment res); [by rewrite <- IH | exact IH].
Qed.

Definition is_final (sg : list Z) : bool := Transport.Fin (Transport.ParseHeader (at_ sg 0)).
(** A fragment is complete with a segment that is marked as the final one. *)
Lemma Accept_final r sg fr : Transport.Fragment (snd (Accept r sg)) = Some fr -> is_final sg = true.
Proof.
  unfold Accept, is_final. destruct (len sg <? _); [done|]. set (h := Transport.ParseHeader (at_ sg 0)).
  assert (Happ : forall r p, Transport.Fragment (snd (Transport.append r h p)) = Some fr -> Transport.Fin h = true).
  { intros r' p. unfold Transport.append. destruct (_ <? _); [done|]. by destruct (Transport.Fin h). }
  destruct (Transport.Fir h).
  - destruct (r_assembly _);
      (match goal with |- context [Transport.append ?r' h ?p] => specialize (Happ r' p); destruct (Transport.append r' h p) as [r1 res] end;
       cbn [snd] in Happ |- *; destruct (bool_decide _); exact Happ).
  - destruct (negb (r_assembly _)); [done|]. destruct (negb _); [done|]. apply Happ.
Qed.
(** Only the last segment of a fragment is. *)
Lemma segs_final fuel : forall q first rest, 0 <= q < 64 -> (length rest < fuel)%nat ->
  exists init sg, segs fuel q first rest = init ++ [sg] /\ Forall (fun sg => is_final sg = false) init.
Proof.
  induction fuel as [|fuel IH]; intros q first rest Hq Hf; [lia|]. cbn [segs].
  destruct (len rest <=? MaxSegmentPayload) eqn:E; [by exists [], (Header_Byte (Transport.mkHeader first true q) :: rest)|].
  destruct (IH (next_seq q) false (drop 249 rest)) as (init & sg & -> & Hi).
  - unfold next_seq. by apply Z.mod_pos_bound.
  - bool_prop. unfold MaxSegmentPayload, len in E. rewrite length_drop. lia.
  - exists ((Header_Byte (Transport.mkHeader first false q) :: take 249 rest) :: init), sg. split; [done|]. constructor; [|done].
    unfold is_final. change (at_ _ 0) with (Header_Byte (Transport.mkHeader first false q)). by rewrite ParseHeader_Byte.
Qed.
Lemma accept_results_init init : forall r l, Forall (fun sg => is_final sg = false) init ->
  exists r', accept_results r (init ++ l) = replicate (length init) None ++ accept_results r' l.
Proof.
  induction init as [|sg init IH]; intros r l Hi; [by exists r|]. apply Forall_cons in Hi as [Hs Hr]. cbn [app accept_results].
  pose proof (Accept_final r sg) as Ha. destruct (Accept r sg) as [r1 res]. cbn [snd] in Ha. destruct (IH r1 l Hr) as (r' & ->). exists r'.
  destruct (Transport.Fragment res) as [fr|]; [|done]. specialize (Ha fr eq_refl). congruence.
Qed.
(** So a fragment is reported once, with its last segment. *)
Lemma accept_results_segs q frag r : 0 <= q < 64 -> len frag <= maxFragment r ->
  let l := segs (length frag + 2) q true frag in accept_results r l = replicate (length l - 1) None ++ [Some frag].
Proof.
  intros Hq Hm l. destruct (accept_all_segs (length frag + 2) q true frag r []) as [Hacc _]; [done | lia | rewrite len_nil; lia | done |].
  fold l in Hacc. rewrite <- accept_results_all in Hacc. destruct (segs_final (length frag + 2) q true frag Hq) as (init & sg & E & Hi); [lia|].
  fold l in E. rewrite E in *. destruct (accept_results_init init r [sg] Hi) as (r' & E'). rewrite E' in *. rewrite omap_app in Hacc.
  rewrite length_app. cbn [length]. replace (length init + 1 - 1)%nat with (length init) by lia. f_equal.
  replace (omap id (replicate (length init) None)) with (@nil (list Z)) in Hacc by (clear; by induction (length init)).
  cbn [app accept_results] in *. destruct (Accept r' sg) as [r1 res]. cbn [omap list_omap] in Hacc.
  change (id (Transport.Fragment res)) with (Transport.Fragment res) in Hacc. destruct (Transport.Fragment res) as [fr|]; [|done].
  by injection Hacc as ->.
Qed.

Definition wire_octets (f : Frame) : list Z := frame_octets (LinkFrame.FHeader f) (Payload f).
Lemma trace_segments p dst l : forall d, Forall (fun sg => 0 < len sg /\ len sg <= MaxPayload) l ->
  let ts := snd (trace_all d (data_frame p dst <$> l)) in
  Tr_App <$> ts = fmap (app_info d) <$> accept_results (d_reasm d) l /\ Tr_Raw <$> ts = wire_octets <$> (data_frame p dst <$> l).
Proof.
  induction l as [|sg l IH]; intros d Hl; [done|]. apply Forall_cons in Hl as [[H0 Hm] Hl].
  cbn [fmap list_fmap trace_all accept_results].
  pose proof (trace_raw d (data_frame p dst sg) Hm) as Hraw.
  assert (Hc : carries_segment (data_frame p dst sg) = true).
  { unfold carries_segment. cbn. apply negb_true_iff, Z.eqb_neq. lia. }
  unfold trace in Hraw |- *. rewrite Hc in Hraw |- *. cbn [negb] in Hraw |- *.
  change (Payload (data_frame p dst sg)) with sg in Hraw |- *.
  destruct (Accept (d_reasm d) sg) as [r res]. specialize (IH (with_dreasm r d) Hl). cbn [d_reasm with_dreasm] in IH.
  destruct (Transport.Fragment res) as [fr|]; cbn [snd] in Hraw.
  all: destruct (trace_all (with_dreasm r d) (data_frame p dst <$> l)) as [d2 ts].
  all: cbn [fst snd] in *; destruct IH as [IH1 IH2].
  all: cbn [fmap list_fmap Tr_App Tr_Raw option_fmap option_map] in *.
  all: split; f_equal; done.
Qed.

(** The parts of the capture of a fragment: the frames on the line are traced one by one, each
    with its octets, and the fragment appears with the last of them and with no other. *)
Lemma capture_shown a d frag dec reads :
  0 <= s_seq (seg a) < 64 -> is_u16 (LocalAddr (pri a)) -> is_u16 d -> octets_ok frag ->
  drained (d_parser dec) -> norm (LinkParser.content (d_parser dec)) = [] -> len frag <= maxFragment (d_reasm dec) ->
  concat reads = frames_octets (fragment_frames a d frag) ->
  exists dec' ts, feed_all dec reads = Some (dec', ts) /\ Tr_Raw <$> ts = wire_octets <$> fragment_frames a d frag /\
    Tr_App <$> ts = replicate (length ts - 1) None ++ [Some (app_info dec frag)].
Proof.
  intros Hseq Hla Hd Hfrag Hdr Hnorm Hmax Hreads.
  pose proof (fragment_frames_ok a d frag Hseq Hla Hd Hfrag) as Hok. destruct (scan_frames _ Hok) as [Hscan Hoct].
  rewrite <- Hreads in Hoct. destruct (feed_any_cut reads dec Hdr) as (p' & Hf & _ & _); [by apply Forall_concat|].
  pose proof Hdr as [Hp _]. rewrite (same_stream_fst _ _ (scan_noise _ _ (content_ok _ Hp) Hoct Hnorm)) in Hf.
  rewrite Hreads, Hscan in Hf. cbn [fst] in Hf. eexists _, _. split; [exact Hf|].
  destruct (trace_segments (pri a) d (segs (length frag + 2) (s_seq (seg a)) true frag) dec) as [Happ Hraw].
  { eapply Forall_impl; [apply segs_nonempty|]. naive_solver. }
  split; [exact Hraw|]. fold (fragment_frames a d frag) in Happ, Hraw. set (ts := snd _) in *.
  assert (Hn : length ts = length (segs (length frag + 2) (s_seq (seg a)) true frag)).
  { apply (f_equal length) in Hraw. unfold fragment_frames in Hraw. by rewrite !length_fmap in Hraw. }
  rewrite Happ, Hn, accept_results_segs by done. by rewrite fmap_app, fmap_replicate.
Qed.

Lemma all_reports_deliver k sync now frag uns :
  all_reports (Dispatch.deliver k sync now frag uns) =
  all_reports (deliver_objects k (fragment_context sync) (AppFragment.Objects frag)).
Proof. unfold Dispatch.deliver. rewrite !all_reports_app. cbn. by rewrite app_nil_r. Qed.

(** C38. A capture shows what arrives.  An idle stack with a valid source address sends a fragment
    that is not empty without link confirms; the station it is for, of the other role, and a
    decoder read the same line, each with a parser that holds no part of a frame and a fragment
    limit the fragment is within.  However the octets are cut for either, the station delivers
    the fragment, and the decoder makes one trace per frame of the fragment, in order and each
    with exactly the octets of its frame; the fragment is shown at the last of them, which completes it, and at no other;
    and the values shown for measurements are those a master session makes of that fragment for
    its handler, point by point. *)
Theorem capture_shows a b dec d frag (k : HandlerKind) (now : Z) (unsolicited : bool) :
  quiet (pri a) -> Stack_Busy a = false -> 0 <= s_seq (seg a) < 64 ->
  is_u16 (LocalAddr (pri a)) -> IsValidSource (LocalAddr (pri a)) = true ->
  is_u16 d -> octets_ok frag -> frag <> [] ->
  addressedToUs b d = true -> IsMaster (pri a) = negb (c_IsMaster (cfg b)) ->
  drained (parser b) -> norm (LinkParser.content (parser b)) = [] -> len frag <= maxFragment (reasm b) ->
  drained (d_parser dec) -> norm (LinkParser.content (d_parser dec)) = [] -> len frag <= maxFragment (d_reasm dec) ->
  exists a' octs, SendTo keep None a [] d frag = Some (a', octs, None) /\
    forall chunks reads, concat chunks = octs -> concat reads = octs ->
    (exists b', receive_all b ([], []) chunks =
      Some (b', ([], [mkReceived frag (LocalAddr (pri a)) d (IsBroadcast d)]), None)) /\
    exists dec' ts ai, feed_all dec reads = Some (dec', ts) /\
      Tr_Raw <$> ts = wire_octets <$> fragment_frames a d frag /\ concat (Tr_Raw <$> ts) = octs /\
      Tr_App <$> ts = replicate (length ts - 1) None ++ [Some ai] /\
      let parsed := fst (ParseFragment (Some (d_sizer dec)) frag) in
      AI_Objects ai = AppFragment.Objects parsed /\
      shown_alike (AI_Objects ai) (AI_Values ai) =
        show_report <$> reported_alike (all_reports (Dispatch.deliver k (d_synchronized dec) now parsed unsolicited)).
Proof.
  intros Hq Hb Hseq Hla Hva Hd Hfrag Hne Haddr Hrole Hdr Hnorm Hmax Hdr' Hnorm' Hmax'.
  set (octs := frames_octets (fragment_frames a d frag)).
  destruct (SendTo_frames a d frag Hseq Hfrag keep eq (len octs) None [] []) as (a' & x' & Hs & Hx); try done.
  { intros x l o -> _. by eexists. }
  exists a', octs. change ([] ++ octs) with octs in Hx. split; [by rewrite Hs, Hx|]. intros chunks reads Hch Hre.
  split; [by apply frames_delivered|].
  destruct (capture_shown a d frag dec reads) as (dec' & ts & Hf & Hraw & Happ); [done..|].
  exists dec', ts, (app_info dec frag). split_and!; [done | done | by rewrite Hraw | done | ..]. cbv zeta. rewrite all_reports_deliver. unfold app_info.
  destruct (ParseFragment (Some (d_sizer dec)) frag) as [fr err]. cbn [fst AI_Objects AI_Values]. split; [done|]. apply headers_agree.
Qed.
End Decoding.

(** ** Reading a hex dump back *)

Definition hex_val (c : ascii) : option Z :=
  let o := octet_of c in
  if (0x30 <=? o) && (o <? 0x3A) then Some (o - 0x30)
  else if (0x61 <=? o) && (o <? 0x67) then Some (o - 0x61 + 10) else None.
Fixpoint read_columns (n i : nat) (s : string) : list Z :=
  match n, s with
  | S n, String a (String b (String _ s)) =>
      match hex_val a, hex_val b with
      | Some x, Some y => 16 * x + y :: read_columns n (S i) (if (i =? 7)%nat then String.substring 1 (String.length s) s else s)
      | _, _ => []
      end
  | _, _ => []
  end.
(** What follows the first [c]. *)
Fixpoint after (c : ascii) (s : string) : string :=
  match s with EmptyString => "" | String x s => if Ascii.eqb x c then s else after c s end.
Fixpoint read_dump (fuel : nat) (s : string) : list Z :=
  match fuel, s with
  | S fuel, String _ _ => read_columns perLine 0 (after " " (after " " s)) ++ read_dump fuel (after "010" s)
  | _, _ => []
  end.

Fixpoint free_of (c : ascii) (s : string) : bool :=
  match s with EmptyString => true | String x s => negb (Ascii.eqb x c) && free_of c s end.
Lemma free_app c s t : free_of c (s +:+ t) = free_of c s && free_of c t.
Proof.
  induction s as [|x s IH]; [done|]. change (String x s +:+ t) with (String x (s +:+ t)). cbn [free_of]. by rewrite IH, andb_assoc.
Qed.
Lemma after_free c s t : free_of c s = true -> after c (s +:+ String c t) = t.
Proof.
  induction s as [|x s IH]; intros Hf.
  - change ("" +:+ String c t) with (String c t). cbn [after]. by rewrite Ascii.eqb_refl.
  - cbn [free_of] in Hf. rewrite andb_true_iff, negb_true_iff in Hf. destruct Hf as [Hx Hf].
    change (String x s +:+ String c t) with (String x (s +:+ String c t)). cbn [after]. rewrite Hx. by apply IH.
Qed.

Lemma hex2_read b : octet_ok b ->
  exists x y, hex2 b = String x (String y "") /\ hex_val x = Some (b / 16) /\ hex_val y = Some (b mod 16) /\
    free_of " " (hex2 b) = true /\ free_of "010" (hex2 b) = true.
Proof.
  intros Hb. eexists _, _. split; [reflexivity|].
  pose (P b := bool_decide (hex_val (hex_char false (Z.land (Z.shiftr b 4) 0xF)) = Some (b / 16)) &&
    bool_decide (hex_val (hex_char false (Z.land (Z.shiftr b 0) 0xF)) = Some (b mod 16)) && free_of " " (hex2 b) && free_of "010" (hex2 b)).
  assert (H : P b = true) by (revert b Hb; apply forall_octets; vm_compute; reflexivity).
  unfold P in H. rewrite !andb_true_iff, !bool_decide_eq_true in H. destruct H as [[[? ?] ?] ?]. done.
Qed.

Lemma substring_all s : forall n, (String.length s <= n)%nat -> String.substring 0 n s = s.
Proof.
  induction s as [|c s IH]; intros n Hn; [by destruct n|]. cbn [String.length] in Hn.
  destruct n as [|n]; [lia|]. cbn. by rewrite IH by lia.
Qed.

Lemma columns_read n : forall i line rest, octets_ok line -> (length line <= n)%nat ->
  read_columns n i (hex_columns n i line +:+ rest) = line.
Proof.
  induction n as [|n IH]; intros i line rest Hl Hn; [by destruct line; [|cbn in Hn; lia]|].
  cbn [hex_columns]. destruct line as [|c line]; [done|]. apply octets_ok_cons in Hl as [Hc Hl].
  destruct (hex2_read c Hc) as (x & y & -> & Hx & Hy & _). cbn [tail].
  set (more := hex_columns n (S i) line).
  assert (E : ((String x (String y "") +:+ " ") +:+ (if (i =? 7)%nat then " " else "") +:+ more) +:+ rest =
    String x (String y (String " " ((if (i =? 7)%nat then " " else "") +:+ more +:+ rest)))) by (by destruct (i =? 7)%nat).
  rewrite E. cbn [read_columns]. rewrite Hx, Hy. f_equal; [pose proof (Z.div_mod c 16); lia|].
  etransitivity; [|exact (IH (S i) line rest Hl ltac:(cbn in Hn; lia))]. f_equal. fold more.
  destruct (i =? 7)%nat; [|done]. exact (substring_all (more +:+ rest) (S (String.length (more +:+ rest))) ltac:(lia)).
Qed.

(** The columns and the text beside them have no newline in them. *)
Lemma columns_free n : forall i line, octets_ok line -> free_of "010" (hex_columns n i line) = true.
Proof.
  induction n as [|n IH]; intros i line Hl; [done|]. cbn [hex_columns]. rewrite !free_app.
  assert (Ht : octets_ok (tail line)) by (destruct line; [done|]; by apply octets_ok_cons in Hl as [_ ?]).
  rewrite (IH _ _ Ht), andb_true_r. apply andb_true_iff. split; [|by destruct (i =? 7)%nat].
  destruct line as [|c line]; [done|]. apply octets_ok_cons in Hl as [Hc _].
  destruct (hex2_read c Hc) as (x & y & _ & _ & _ & _ & Hf). by rewrite free_app, Hf.
Qed.
Lemma ascii_free line : octets_ok line -> free_of "010" (ascii_column line) = true.
Proof.
  induction line as [|c line IH]; intros Hl; [done|]. apply octets_ok_cons in Hl as [Hc Hl].
  change (negb (Ascii.eqb (printable_char c) "010") && free_of "010" (ascii_column line) = true).
  rewrite IH by done. rewrite andb_true_r.
  exact (forall_octets (fun c => negb (Ascii.eqb (printable_char c) "010")) ltac:(vm_compute; reflexivity) c Hc).
Qed.
(** Nor has the offset, nor a space. *)
Lemma hex_char_free d : 0 <= d < 16 -> negb (Ascii.eqb (hex_char false d) " ") && negb (Ascii.eqb (hex_char false d) "010") = true.
Proof. revert d. apply (forall_below 16). vm_compute. reflexivity. Qed.
Lemma hex_fixed_free n x : free_of " " (hex_fixed false n x) = true /\ free_of "010" (hex_fixed false n x) = true.
Proof.
  induction n as [|n [IH1 IH2]]; [done|]. cbn [hex_fixed free_of]. rewrite IH1, IH2, !andb_true_r.
  apply andb_true_iff, hex_char_free. change 0xF with (Z.ones 4). rewrite Z.land_ones by lia. by apply Z.mod_pos_bound.
Qed.
Lemma trim_zeros_free c k s : free_of c s = true -> free_of c (trim_zeros k s) = true.
Proof.
  induction s as [|x s IH]; [done|]. cbn [trim_zeros free_of]. rewrite andb_true_iff. intros [Hx Hs].
  destruct (_ && _); [by apply IH|]. cbn [free_of]. by rewrite Hx, Hs.
Qed.

Lemma hex_line_read off line rest : octets_ok line -> (length line <= 16)%nat ->
  let s := hex_line "" off line +:+ rest in
  read_columns perLine 0 (after " " (after " " s)) = line /\ after "010" s = rest /\ s <> "".
Proof.
  intros Hl Hn. unfold hex_line. cbv zeta.
  destruct (hex_fixed_free 16 off) as [F1 F2].
  pose proof (trim_zeros_free " " 4 _ F1) as Fs. pose proof (trim_zeros_free "010" 4 _ F2) as Fn.
  fold (hex_min false 4 off) in Fs, Fn. set (o := hex_min false 4 off) in *. set (cols := hex_columns perLine 0 line).
  change ("" +:+ ?x) with x. split_and!.
  - rewrite !string_app_assoc. change ("  " +:+ ?x) with (String " " (String " " x)).
    rewrite (after_free " " o) by done. cbn [after]. change (Ascii.eqb " " " ") with true. cbv iota.
    apply columns_read; [done | exact Hn].
  - assert (E : (o +:+ "  " +:+ cols +:+ " |" +:+ ascii_column line +:+ "|" +:+ newline) +:+ rest =
      (o +:+ "  " +:+ cols +:+ " |" +:+ ascii_column line +:+ "|") +:+ String "010" rest) by (by rewrite !string_app_assoc).
    rewrite E. apply after_free. rewrite !free_app, Fn. unfold cols. rewrite (columns_free perLine 0 line Hl), (ascii_free line Hl). done.
  - by destruct o.
Qed.

(** A hex dump holds the octets it was made of. *)
Theorem HexDump_read data : octets_ok data -> read_dump (length data) (HexDump data) = data.
Proof.
  unfold HexDump, writeHex. intros Hok. generalize 0 as off. assert (Hf : (length data <= length data)%nat) by lia.
  revert Hf. generalize (length data) at 2 3 4 as fuel. intros fuel. revert data Hok.
  induction fuel as [|fuel IH]; intros data Hok Hf off; [by destruct data; [|cbn in Hf; lia]|].
  destruct data as [|b data]; [done|]. set (all := b :: data) in *.
  change (writeHex_loop (S fuel) "" off all) with (hex_line "" off (take perLine all) +:+ writeHex_loop fuel "" (off + 16) (drop perLine all)).
  destruct (hex_line_read off (take perLine all) (writeHex_loop fuel "" (off + 16) (drop perLine all))) as (H1 & H2 & H3);
    [auto with dnp3 | rewrite length_take; unfold perLine; lia |].
  cbn [read_dump]. destruct (hex_line "" off (take perLine all) +:+ _) eqn:E; [done|]. rewrite <- E in *. rewrite H1, H2.
  rewrite IH; [apply take_drop | auto with dnp3 | rewrite length_drop; unfold perLine, all in *; cbn in *; lia].
Qed.

(** ** A capture: an outstation answers a poll with two binary inputs *)

#[local] Instance ascii_only : Unicode := fun _ => false.

Definition sender : Stack := Stack.New (mkConfig 10 1 false false false 3 0).
Definition poller : Stack := Stack.New (mkConfig 1 10 true false false 3 0).
Definition sent_fragment : list Z := [0xC3; 0x81; 0; 0; 1; 2; 0; 0; 1; 0x81; 0x01].
Definition first_capture : list Trace :=
  match SendTo keep None sender [] 1 sent_fragment with
  | Some (_, octs, _) => default [] (snd <$> Feed (New DirRx None) octs)
  | None => []
  end.

Example capture_text :
  (fun t => Render t false) <$> first_capture =
  [[Txt ("RX  link  OUTS→MSTR UNCONFIRMED_USER_DATA  10→1  len=17  frame=24B" +:+ newline);
    Txt ("      transport  seq=00 FIR|FIN" +:+ newline);
    Txt ("      application  RESPONSE seq=03 FIR FIN iin=—" +:+ newline);
    Txt ("        g1v2  0x00(none,start-stop8) [0..1]         2 object(s)  2 octets" +:+ newline);
    Txt "          "; Txt "[0] "; Txt "ON"; Txt "  ONLINE"; Txt newline;
    Txt "          "; Txt "[1] "; Txt "OFF"; Txt "  ONLINE"; Txt newline]].
Proof. vm_compute. reflexivity. Qed.

Lemma capture_shows_witness :
  exists a' octs, SendTo keep None sender [] 1 sent_fragment = Some (a', octs, None) /\
    exists dec' ts ai, feed_all (New DirRx None) [take 7 octs; drop 7 octs] = Some (dec', ts) /\
      concat (Tr_Raw <$> ts) = octs /\ Tr_App <$> ts = replicate (length ts - 1) None ++ [Some ai] /\
      shown_alike (AI_Objects ai) (AI_Values ai) =
        [mkDValue 0 TypeBinary [Txt "ON"] 0x81 NoTime; mkDValue 1 TypeBinary [Txt "OFF"] 0x01 NoTime].
Proof.
  destruct (capture_shows sender poller (New DirRx None) 1 sent_fragment (mkHandlerKind false false false) 0 false)
    as (a' & octs & Hs & Hr).
  - by vm_compute.
  - reflexivity.
  - vm_compute. split; [discriminate | reflexivity].
  - vm_compute. split; [discriminate | reflexivity].
  - reflexivity.
  - vm_compute. split; [discriminate | reflexivity].
  - vm_compute. repeat constructor; discriminate.
  - discriminate.
  - reflexivity.
  - reflexivity.
  - apply NewParser_drained.
  - by vm_compute.
  - vm_compute. discriminate.
  - apply NewParser_drained.
  - by vm_compute.
  - vm_compute. discriminate.
  - exists a', octs. split; [exact Hs|].
    destruct (Hr [octs] [take 7 octs; drop 7 octs]) as [_ (dec' & ts & ai & Hf & _ & Hraw & Happ & _ & Hshow)].
    + apply app_nil_r.
    + cbn [concat]. rewrite app_nil_r. apply take_drop.
    + exists dec', ts, ai. split; [exact Hf|]. split; [exact Hraw|]. split; [exact Happ|].
      rewrite Hshow. vm_compute. reflexivity.
Defined.
