(* ===== verification/DecodeCommand.v ===== *)
(** * The decoding command (src/cmd/dnp3-decode/main.go)

    Hex is read leniently from lines of text, and the octets are decoded, as one stream or a
    frame at a time.  The lines are given as octets; arguments, files and the exit are the
    operating system's.

    The theorems: a line of a hex dump the decoder printed is read back as the octets it was
    made of, when the text beside them has no two spaces in a row (with two it is not:
    [gutter_invents]); and a frame at a time every octet is accounted for, so that a run
    without errors has decoded everything.  Runs in which the program departs from its
    documentation are at the end. *)

From Stdlib Require Import Ascii.
From S2P Require Import Prelude Values AppHeader LinkFrame LinkParser Transport Stack AppObject AppFragment Text Names DecoderValues Decoder.
#[local] Open Scope Z_scope.

(** ** Reading hex *)

Definition isHexDigit (c : Z) : bool :=
  (0x30 <=? c) && (c <=? 0x39) || (0x61 <=? c) && (c <=? 0x66) || (0x41 <=? c) && (c <=? 0x46).
Definition hexVal (c : Z) : Z :=
  if (0x30 <=? c) && (c <=? 0x39) then c - 0x30
  else if (0x61 <=? c) && (c <=? 0x66) then c - 0x61 + 10
  else u8 (c - 0x41 + 10).
Definition isAllHex (s : list Z) : bool := if len s =? 0 then false else forallb isHexDigit s.
Definition isSeparator (c : Z) : bool := one_of c [0x20; 0x09; 0x2C; 0x3A; 0x2D; 0x7C].

(** [strings.SplitSeq(s, "  ")]: [cur] is the field being read. *)
Fixpoint split2 (cur s : list Z) : list (list Z) :=
  match s with
  | [] => [cur]
  | c :: s' =>
      match s' with
      | d :: s'' => if (c =? 0x20) && (d =? 0x20) then cur :: split2 [] s'' else split2 (cur ++ [c]) s'
      | [] => [cur ++ [c]]
      end
  end.
Definition splitColumns (s : list Z) : list (list Z) :=
  List.filter (fun t => negb (len t =? 0)) (TrimSpace <$> split2 [] s).

Definition isOffsetColumn (s : list Z) : bool :=
  let s := TrimSuffix s [0x3A] in
  (4 <=? len s) && (len s <=? 8) && isAllHex s && negb (existsb (fun c => (c =? 0x20) || (c =? 0x09)) s).

(** [strings.FieldsFunc(col, isSeparator)]. *)
Fixpoint fields (cur s : list Z) : list (list Z) :=
  match s with
  | [] => if len cur =? 0 then [] else [cur]
  | c :: s =>
      if isSeparator c then if len cur =? 0 then fields [] s else cur :: fields [] s
      else fields (cur ++ [c]) s
  end.
Definition token_digits (tok : list Z) : list Z :=
  let tok := TrimPrefix (TrimPrefix tok [0x30; 0x78]) [0x30; 0x58] in
  if len tok =? 0 then [] else if negb (isAllHex tok) then [] else tok.

Fixpoint before_hash (s : list Z) : list Z :=
  match s with c :: s' => if c =? 0x23 then [] else c :: before_hash s' | [] => [] end.

Inductive HexErr := ErrOddDigits (n : Z).

Fixpoint pairs (digits : list Z) : list Z :=
  match digits with
  | a :: b :: rest => Z.lor (u8 (Z.shiftl (hexVal a) 4)) (hexVal b) :: pairs rest
  | _ => []
  end.
Definition column_digits (cols : list (list Z)) : list Z :=
  concat ((fun col => concat (token_digits <$> fields [] col)) <$> cols).
Definition parseHex (s : list Z) : result HexErr (list Z) :=
  let cols := splitColumns (before_hash s) in
  let cols := match cols with c :: ((_ :: _) as rest) => if isOffsetColumn c then rest else cols | _ => cols end in
  let cols := if 2 <=? len cols then removelast cols else cols in
  let digits := column_digits cols in
  if negb (Z.rem (len digits) 2 =? 0) then Err (ErrOddDigits (len digits)) else Ok (pairs digits).

(** [readHex] of the lines a scanner finds; an error carries the number of its line. *)
Fixpoint readHex_lines (line : Z) (lines : list (list Z)) (all : list Z) : result (Z * HexErr) (list Z) :=
  match lines with
  | [] => Ok all
  | l :: lines =>
      match parseHex l with
      | Err e => Err (line, e)
      | Ok b => readHex_lines (line + 1) lines (all ++ b)
      end
  end.
Definition readHex (lines : list (list Z)) : result (Z * HexErr) (list Z) := readHex_lines 1 lines [].

(** ** Decoding *)

Section Command.
Context `{Unicode}.

Definition app_error (t : Trace) : bool :=
  match Tr_App t with Some ai => bool_decide (is_Some (AI_Err ai)) | None => false end.
Definition count_if (b : bool) : Z := if b then 1 else 0.

(** The [-s] branch of [decode]: the text written, the frames and the errors. *)
Definition decode_stream (data : list Z) (showHex : bool) : option (text * Z * Z) :=
  '(d, ts) ← Feed (New DirUnknown None) data;
  let out := concat ((fun t => Render t showHex ++ [Txt newline]) <$> ts) in
  let errs := foldr Z.add 0 ((fun t => count_if (bool_decide (is_Some (Tr_Err t)) || app_error t)) <$> ts) in
  let '(lst, tst) := Decoder_Stats d in
  if (0 <? BytesDiscarded lst) || (0 <? SegmentsDiscarded tst)
  then Some (out ++ [Txt ("discarded " +:+ dec (BytesDiscarded lst) +:+ " octet(s) at the link layer, " +:+
                          dec (SegmentsDiscarded tst) +:+ " segment(s) at the transport layer" +:+ newline)],
             len ts, errs + 1)
  else Some (out, len ts, errs).

(** [flushSkipped]: octets skipped so far and why. *)
Definition flushSkipped (skipped : Z) (skipErr : option LinkErr) (out : text) (errs : Z) : text * Z :=
  if 0 <? skipped
  then (out ++ [Txt ("-- skipped " +:+ dec skipped +:+ " octet(s) that do not form a valid frame: ")] ++
        match skipErr with Some e => [ErrText (InFrame e)] | None => [Txt "<nil>"] end ++ [Txt (newline +:+ newline)],
        errs + 1)
  else (out, errs).

(** The loop of a frame at a time; every turn takes an octet, or is the last. *)
Fixpoint decode_loop (fuel : nat) (data : list Z) (showHex : bool) (skipped : Z) (skipErr : option LinkErr)
    (out : text) (frames errs : Z) : option (text * Z * Z) :=
  if len data <=? 0 then
    let '(out, errs) := flushSkipped skipped skipErr out errs in Some (out, frames, errs)
  else match fuel with
       | O => None
       | S fuel =>
           '(t, n, err) ← DecodeFrame None data;
           match err with
           | Some ErrShortFrame =>
               let '(out, errs) := flushSkipped skipped skipErr out errs in
               Some (out ++ [Txt ("-- " +:+ dec (len data) +:+ " trailing octet(s) do not form a complete frame" +:+ newline)],
                     frames, errs + 1)
           | Some e =>
               decode_loop fuel (drop 1 data) showHex (skipped + 1) (if skipped =? 0 then Some e else skipErr) out frames errs
           | None =>
               let '(out, errs) := flushSkipped skipped skipErr out errs in
               decode_loop fuel (drop (Z.to_nat n) data) showHex 0 None (out ++ Render t showHex ++ [Txt newline])
                 (frames + 1) (errs + count_if (app_error t))
           end
       end.
Definition decode (data : list Z) (showHex stream : bool) : option (text * Z * Z) :=
  if stream then decode_stream data showHex else decode_loop (length data) data showHex 0 None [] 0 0.

(** ** Every octet is accounted for *)

(** What a run prints: a frame, a run of octets that form none, or octets at the end that may
    be the start of one. *)
Inductive item :=
| AFrame (t : Trace)
| Skipped (octets : list Z) (why : LinkErr)
| Trailing (octets : list Z).
Definition item_octets (i : item) : list Z :=
  match i with AFrame t => Tr_Raw t | Skipped o _ => o | Trailing o => o end.
Definition item_frames (i : item) : Z := match i with AFrame _ => 1 | _ => 0 end.
Definition item_errors (i : item) : Z := match i with AFrame t => count_if (app_error t) | _ => 1 end.
Definition item_text (showHex : bool) (i : item) : text :=
  match i with
  | AFrame t => Render t showHex ++ [Txt newline]
  | Skipped o e => [Txt ("-- skipped " +:+ dec (len o) +:+ " octet(s) that do not form a valid frame: "); ErrText (InFrame e);
                    Txt (newline +:+ newline)]
  | Trailing o => [Txt ("-- " +:+ dec (len o) +:+ " trailing octet(s) do not form a complete frame" +:+ newline)]
  end.
Definition total (f : item -> Z) (items : list item) : Z := foldr Z.add 0 (f <$> items).

Lemma total_app f l k : total f (l ++ k) = total f l + total f k.
Proof. unfold total. induction l as [|x l IH]; cbn; [done|]. cbn in IH. lia. Qed.

Lemma total_nil f : total f [] = 0.
Proof. done. Qed.
Lemma total_cons f x l : total f (x :: l) = f x + total f l.
Proof. done. Qed.

(** [items] is a run that printed [showHex]. *)
Definition printed (showHex : bool) (out : text) (frames errs : Z) (items : list item) : text * Z * Z :=
  (out ++ concat (item_text showHex <$> items), frames + total item_frames items, errs + total item_errors items).

(** The octets skipped so far are [pre]. *)
Definition skipping (pre : list Z) (skipErr : option LinkErr) : Prop := pre = [] \/ is_Some skipErr.

Lemma flush_items pre skipErr showHex out errs : skipping pre skipErr ->
  exists items, concat (item_octets <$> items) = pre /\ total item_frames items = 0 /\
    flushSkipped (len pre) skipErr out errs =
      (out ++ concat (item_text showHex <$> items), errs + total item_errors items).
Proof.
  intros Hs. unfold flushSkipped. destruct pre as [|b pre].
  - exists []. split_and!; [done | done|]. change (0 <? len (@nil Z)) with false. cbv iota. cbn [fmap list_fmap concat]. rewrite app_nil_r.
    f_equal. unfold total. cbn. lia.
  - destruct Hs as [?|[e ->]]; [done|]. exists [Skipped (b :: pre) e].
    rewrite (proj2 (Z.ltb_lt _ _)) by (rewrite len_cons; pose proof (len_nonneg pre); lia).
    cbn. rewrite !app_nil_r. done.
Qed.

Lemma frame_loop_items showHex fuel : forall data pre skipErr out frames errs,
  (length data <= fuel)%nat -> octets_ok data -> skipping pre skipErr ->
  exists items, concat (item_octets <$> items) = pre ++ data /\
    decode_loop fuel data showHex (len pre) skipErr out frames errs = Some (printed showHex out frames errs items).
Proof.
  induction fuel as [|fuel IH]; intros data pre skipErr out frames errs Hf Hok Hs.
  all: destruct (flush_items pre skipErr showHex out errs Hs) as (its & Ho & Hn & Hfl).
  { destruct data; [|cbn in Hf; lia]. cbn [decode_loop]. change (len [] <=? 0) with true. cbv iota. rewrite Hfl.
    exists its. rewrite app_nil_r. split; [done|]. unfold printed. rewrite Hn. do 2 f_equal. by rewrite Z.add_0_r. }
  cbn [decode_loop]. destruct (Z.leb_spec (len data) 0) as [Hl|Hl].
  { destruct data; [|rewrite len_cons in Hl; pose proof (len_nonneg data); lia]. rewrite Hfl.
    exists its. rewrite app_nil_r. split; [done|]. unfold printed. rewrite Hn. do 2 f_equal. by rewrite Z.add_0_r. }
  pose proof (DecodeFrame_total None data Hok) as HD. destruct (Decode data) as [[f n]|e] eqn:Ed.
  - destruct HD as (-> & Hraw & Hn0). cbn [mbind option_bind]. rewrite Hfl. set (t := snd (trace _ f)) in *.
    destruct (IH (drop (Z.to_nat n) data) [] None (out ++ concat (item_text showHex <$> its) ++ Render t showHex ++ [Txt newline])
      (frames + 1) (errs + total item_errors its + count_if (app_error t))) as (items & Hi & He);
      [rewrite length_drop; unfold len in *; lia | auto with dnp3 | by left |].
    exists (its ++ AFrame t :: items). rewrite len_nil in He. rewrite <- app_assoc. rewrite He. split.
    + rewrite fmap_app, concat_app, Ho. cbn [fmap list_fmap concat item_octets]. rewrite Hi, Hraw. f_equal. cbn [app].
      unfold slice. rewrite Z.sub_0_r, drop_0. apply take_drop.
    + unfold printed. rewrite !total_app, !total_cons, !fmap_app, !concat_app, Hn.
      cbn [fmap list_fmap concat item_text item_frames item_errors]. rewrite <- !app_assoc. f_equal. f_equal; [f_equal|].
      all: try done; lia.
  - rewrite HD. cbn [mbind option_bind]. assert (De : e = ErrShortFrame \/ e <> ErrShortFrame) by (destruct e; auto).
    destruct De as [->|Hne].
    + rewrite Hfl. exists (its ++ [Trailing data]). split.
      * rewrite fmap_app, concat_app, Ho. cbn. by rewrite app_nil_r.
      * unfold printed. rewrite !total_app, !total_cons, !fmap_app, !concat_app, Hn.
        cbn [fmap list_fmap concat item_text item_frames item_errors]. rewrite app_nil_r, <- app_assoc. f_equal. f_equal; [f_equal|].
        all: rewrite ?total_nil; try done; lia.
    + destruct data as [|b data]; [done|]. apply octets_ok_cons in Hok as [_ Hok].
      destruct (IH data (pre ++ [b]) (if len pre =? 0 then Some e else skipErr) out frames errs) as (items & Hi & He).
      { cbn in Hf. lia. }
      { done. }
      { right. destruct Hs as [->|[e' ->]]; [by eexists|]. destruct (len pre =? 0); by eexists. }
      exists items. rewrite <- app_assoc in Hi. split; [done|]. rewrite <- He, len_app.
      change (len [b]) with 1. cbn [drop]. rewrite drop_0. by destruct e.
Qed.

(** A frame at a time, every octet is accounted for: the input is the frames printed, the runs
    reported as skipped and the octets reported as trailing, in order; the counts are of those.
    So when no error is counted, the input is the frames printed and nothing else, and the
    application layer of each was understood. *)
Theorem decode_accounts data showHex : octets_ok data ->
  exists items out frames errs, decode data showHex false = Some (out, frames, errs) /\
    concat (item_octets <$> items) = data /\ out = concat (item_text showHex <$> items) /\
    frames = total item_frames items /\ errs = total item_errors items /\
    (errs = 0 -> Forall (fun i => exists t, i = AFrame t /\ app_error t = false) items).
Proof.
  intros Hok. destruct (frame_loop_items showHex (length data) data [] None [] 0 0) as (items & Hi & He);
    [lia | done | by left |].
  eexists items, _, _, _. split; [exact He|]. cbn [printed]. split_and!; [done | done | lia | lia |].
  rewrite Z.add_0_l. clear Hi He. induction items as [|i items IH]; [constructor|].
  assert (N : forall l, 0 <= total item_errors l).
  { induction l as [|x l IHl]; unfold total in *; cbn; [done|].
    assert (0 <= item_errors x) by (destruct x; cbn; unfold count_if; try case_match; lia). cbn in IHl. lia. }
  pose proof (N items) as Hn. change (total item_errors (i :: items)) with (item_errors i + total item_errors items).
  intros E. destruct i as [t|o e|o]; cbn [item_errors] in E; [|lia|lia].
  unfold count_if in E. destruct (app_error t) eqn:Et; [lia|]. constructor; [by exists t | apply IH; lia].
Qed.
End Command.

(** ** Reading back a hex dump *)

Definition digits2 (c : Z) : list Z := octets_of (hex2 c).
(** Octets as they stand in a column. *)
Definition joined (l : list Z) : list Z :=
  match l with [] => [] | c :: l => digits2 c ++ concat ((fun c => 0x20 :: digits2 c) <$> l) end.
Fixpoint no_double (s : list Z) : bool :=
  match s with
  | c :: ((d :: _) as s') => negb ((c =? 0x20) && (d =? 0x20)) && no_double s'
  | _ => true
  end.
Definition plain (c : Z) : bool := (0x21 <=? c) && (c <=? 0x7E).
Abbreviation gap n := (replicate n 0x20).

Lemma octets_of_app s t : octets_of (s +:+ t) = octets_of s ++ octets_of t.
Proof. induction s as [|c s IH]; [done|]. exact (f_equal (cons (octet_of c)) IH). Qed.

(** *** Splitting *)

Lemma split2_eq c d s cur :
  split2 cur (c :: d :: s) = if (c =? 0x20) && (d =? 0x20) then cur :: split2 [] s else split2 (cur ++ [c]) (d :: s).
Proof. done. Qed.
Lemma split2_cur s : forall p cur, exists f fs, split2 cur s = f :: fs /\ split2 (p ++ cur) s = (p ++ f) :: fs.
Proof.
  remember (length s) as n eqn:En. revert s En. induction n as [n IH] using lt_wf_ind. intros s -> p cur.
  destruct s as [|c [|d s]].
  - by eexists _, _.
  - eexists _, _. cbn [split2]. by rewrite <- app_assoc.
  - rewrite !split2_eq. destruct ((c =? 0x20) && (d =? 0x20)); [by eexists _, _|]. rewrite <- app_assoc.
    apply (IH (length (d :: s))); [cbn; lia | done].
Qed.
Lemma split2_step c d s cur : (c =? 0x20) && (d =? 0x20) = false -> split2 cur (c :: d :: s) = split2 (cur ++ [c]) (d :: s).
Proof. intros E. rewrite split2_eq. by rewrite E. Qed.

Lemma split2_solid a : forall cur b, no_double (a ++ [0x21]) = true -> last a <> Some 0x20 ->
  split2 cur (a ++ 0x20 :: 0x20 :: b) = (cur ++ a) :: split2 [] b.
Proof.
  induction a as [|c a IH]; intros cur b Hn Hl.
  - cbn [app]. rewrite split2_eq. by rewrite app_nil_r.
  - destruct a as [|d a]; cbn [app].
    + assert (c <> 0x20) by (intros ->; by apply Hl).
      rewrite split2_step by (apply andb_false_iff; left; by apply Z.eqb_neq).
      by rewrite split2_eq.
    + cbn [app no_double] in Hn. apply andb_true_iff in Hn as [Hc Hn]. apply negb_true_iff in Hc.
      rewrite split2_step by done. change (d :: a ++ 0x20 :: 0x20 :: b) with ((d :: a) ++ 0x20 :: 0x20 :: b).
      rewrite IH by done. by rewrite <- app_assoc.
Qed.
Lemma split2_end a : forall cur, no_double a = true -> split2 cur a = [cur ++ a].
Proof.
  induction a as [|c a IH]; intros cur Hn; [cbn; by rewrite app_nil_r|]. destruct a as [|d a]; [done|].
  cbn [no_double] in Hn. apply andb_true_iff in Hn as [Hc Hn]. apply negb_true_iff in Hc.
  rewrite split2_step by done. rewrite IH by done. by rewrite <- app_assoc.
Qed.

(** *** Trimming *)

Lemma spaces_unprintable : forallb (fun p => negb (len p =? 0) && forallb (fun c => negb (plain c)) p) (spaces ++ ((fun p => rev p) <$> spaces)) = true.
Proof. vm_compute. reflexivity. Qed.
Lemma space_unprintable p : p ∈ spaces \/ p ∈ ((fun p => rev p) <$> spaces) -> p <> [] /\ forall c, c ∈ p -> plain c = false.
Proof.
  intros Hp. pose proof spaces_unprintable as S. rewrite forallb_forall in S. specialize (S p).
  rewrite andb_true_iff, forallb_forall in S. destruct S as [S1 S2].
  { apply list_elem_of_In, elem_of_app. exact Hp. }
  split; [by intros ->|]. intros c Hc. apply list_elem_of_In in Hc. apply negb_true_iff. by apply S2.
Qed.
Lemma is_prefix_app p s : is_prefix p s = true -> s = p ++ drop (length p) s.
Proof. unfold is_prefix. rewrite bool_decide_eq_true. intros E. rewrite <- E at 1. by rewrite take_drop. Qed.

Section Trim.
Context (sp : list (list Z)) (Hsp : forall p, p ∈ sp -> p <> [] /\ forall c, c ∈ p -> plain c = false).
Lemma trim_left_plain fuel c s : plain c = true -> trim_left sp fuel (c :: s) = c :: s.
Proof.
  intros Hc. destruct fuel as [|fuel]; [done|]. cbn [trim_left].
  destruct (List.find (fun p => is_prefix p (c :: s)) sp) as [p|] eqn:E; [|done]. exfalso.
  apply find_some in E as [Hin Hp]. apply list_elem_of_In in Hin. destruct (Hsp p Hin) as [Hne Hpl].
  apply is_prefix_app in Hp. destruct p as [|x p]; [done|]. injection Hp as <- _.
  by rewrite (Hpl c) in Hc by (rewrite list_elem_of_In; cbn; by left).
Qed.
Lemma trim_left_keeps fuel : forall c s, plain c = true -> c ∈ s -> c ∈ trim_left sp fuel s.
Proof.
  induction fuel as [|fuel IH]; intros c s Hc Hs; [done|]. cbn [trim_left].
  destruct (List.find (fun p => is_prefix p s) sp) as [p|] eqn:E; [|done].
  apply find_some in E as [Hin Hp]. apply list_elem_of_In in Hin. destruct (Hsp p Hin) as [_ Hpl].
  apply is_prefix_app in Hp. apply IH; [done|]. rewrite Hp in Hs. apply elem_of_app in Hs as [Hs|Hs]; [|done].
  by rewrite (Hpl c Hs) in Hc.
Qed.
End Trim.

Lemma TrimSpace_plain a : (exists c, head a = Some c /\ plain c = true) -> (exists c, last a = Some c /\ plain c = true) -> TrimSpace a = a.
Proof.
  intros (c & Hh & Hc) (d & Hl & Hd). unfold TrimSpace. destruct a as [|x a]; [done|]. injection Hh as ->.
  rewrite trim_left_plain by (done || (intros p Hp; apply space_unprintable; by left)).
  destruct (rev (c :: a)) as [|y r] eqn:E.
  { apply (f_equal (@length Z)) in E. rewrite length_rev in E. done. }
  assert (y = d) as ->.
  { rewrite <- (rev_involutive (c :: a)), E in Hl. cbn [rev] in Hl. rewrite last_snoc in Hl. congruence. }
  rewrite trim_left_plain by (done || (intros p Hp; apply space_unprintable; by right)).
  rewrite <- E. apply rev_involutive.
Qed.
Lemma TrimSpace_keeps c a : plain c = true -> c ∈ a -> c ∈ TrimSpace a.
Proof.
  intros Hc Ha. unfold TrimSpace. rewrite list_elem_of_In, <- in_rev, <- list_elem_of_In. apply trim_left_keeps; [|done|].
  { intros p Hp. apply space_unprintable. by right. }
  rewrite list_elem_of_In, <- in_rev, <- list_elem_of_In. apply trim_left_keeps; [|done|done].
  intros p Hp. apply space_unprintable. by left.
Qed.
Lemma TrimSpace_space f : TrimSpace (0x20 :: f) = TrimSpace f.
Proof.
  unfold TrimSpace. cbn [length trim_left].
  assert (List.find (fun p => is_prefix p (0x20 :: f)) spaces = Some [0x20]) as ->; [|done].
  unfold spaces. cbn [app List.find]. unfold is_prefix. cbn [length take].
  repeat (rewrite bool_decide_eq_false_2 by congruence). by rewrite bool_decide_eq_true_2.
Qed.

(** *** Columns *)

Definition column (a : list Z) : Prop :=
  no_double (a ++ [0x21]) = true /\ (exists c, head a = Some c /\ plain c = true) /\ (exists c, last a = Some c /\ plain c = true).
Lemma column_kept a : column a -> TrimSpace a = a /\ negb (len a =? 0) = true /\ last a <> Some 0x20.
Proof.
  intros (_ & Hh & Hl). split_and!.
  - by apply TrimSpace_plain.
  - destruct Hh as (c & Hh & _). destruct a; [done|]. rewrite len_cons. pose proof (len_nonneg a). apply negb_true_iff, Z.eqb_neq. lia.
  - destruct Hl as (c & -> & Hc). by intros [= ->].
Qed.

Lemma splitColumns_gap n c b : plain c = true -> splitColumns (gap n ++ c :: b) = splitColumns (c :: b).
Proof.
  intros Hc. unfold splitColumns. induction n as [n IH] using lt_wf_ind. destruct n as [|[|n]]; [done| |].
  - assert (c <> 0x20) by (by intros ->). cbn [replicate app].
    rewrite split2_step by (apply andb_false_iff; right; by apply Z.eqb_neq).
    destruct (split2_cur (c :: b) [0x20] []) as (f & fs & E1 & E2). cbn [app] in *. rewrite E1, E2.
    cbn [fmap list_fmap]. by rewrite TrimSpace_space.
  - cbn [replicate app]. rewrite split2_eq. change ((0x20 =? 0x20) && (0x20 =? 0x20)) with true. cbv iota.
    cbn [fmap list_fmap List.filter]. change (TrimSpace []) with (@nil Z). change (negb (len (@nil Z) =? 0)) with false. cbv iota.
    apply IH. lia.
Qed.
Lemma splitColumns_column a n c b : column a -> plain c = true ->
  splitColumns (a ++ gap (2 + n) ++ c :: b) = a :: splitColumns (c :: b).
Proof.
  intros Ha Hc. destruct (column_kept a Ha) as (Ht & Hne & Hl). destruct Ha as (Hn & _).
  rewrite <- (splitColumns_gap n c b Hc). unfold splitColumns. cbn [Nat.add replicate app].
  rewrite (split2_solid a []) by done. cbn [app fmap list_fmap List.filter]. by rewrite Ht, Hne.
Qed.
Lemma splitColumns_last g c : no_double g = true -> plain c = true -> c ∈ g -> exists t, splitColumns g = [t].
Proof.
  intros Hn Hc Hg. unfold splitColumns. rewrite split2_end by done. cbn [app fmap list_fmap List.filter].
  pose proof (TrimSpace_keeps c g Hc Hg) as Hk. destruct (TrimSpace g) as [|x t]; [by apply not_elem_of_nil in Hk|].
  rewrite len_cons. pose proof (len_nonneg t). destruct (Z.eqb_spec (1 + len t) 0); [lia|]. by eexists.
Qed.

(** *** Digits *)

Definition digit_ok (c : Z) : bool := isHexDigit c && plain c && negb (isSeparator c) && negb (c =? 0x23) && negb (c =? 0x3A).
Lemma digits2_ok c : octet_ok c ->
  exists x y, digits2 c = [x; y] /\ digit_ok x = true /\ digit_ok y = true /\
    token_digits [x; y] = [x; y] /\ Z.lor (u8 (Z.shiftl (hexVal x) 4)) (hexVal y) = c.
Proof.
  intros Hc. pose (P c := match digits2 c with
    | [x; y] => digit_ok x && digit_ok y && bool_decide (token_digits [x; y] = [x; y]) && (Z.lor (u8 (Z.shiftl (hexVal x) 4)) (hexVal y) =? c)
    | _ => false end).
  assert (Hp : P c = true) by (revert c Hc; apply forall_octets; vm_compute; reflexivity). unfold P in Hp. clear P.
  destruct (digits2 c) as [|x [|y [|]]]; try done. exists x, y.
  rewrite !andb_true_iff, bool_decide_eq_true, Z.eqb_eq in Hp. destruct Hp as [[[? ?] ?] ?]. by split_and!.
Qed.

Lemma digit_plain c : digit_ok c = true -> plain c = true /\ c <> 0x20 /\ isSeparator c = false /\ (c =? 0x23) = false /\ isHexDigit c = true /\ (c =? 0x3A) = false.
Proof.
  unfold digit_ok. rewrite !andb_true_iff, !negb_true_iff. intros [[[[? ?] ?] ?] ?]. split_and!; try done. by intros ->.
Qed.

Lemma fields_word w : forall cur s, forallb (fun c => negb (isSeparator c)) w = true -> fields cur (w ++ s) = fields (cur ++ w) s.
Proof.
  induction w as [|c w IH]; intros cur s Hw; [by rewrite app_nil_r|]. cbn [forallb app] in *.
  rewrite andb_true_iff, negb_true_iff in Hw. destruct Hw as [Hc Hw]. cbn [fields]. rewrite Hc, IH by done. by rewrite <- app_assoc.
Qed.
(** The octets of a column, read. *)
Lemma joined_read l : octets_ok l -> l <> [] -> concat (token_digits <$> fields [] (joined l)) = concat (digits2 <$> l).
Proof.
  intros Hl Hne. destruct l as [|c l]; [done|]. clear Hne. unfold joined. revert c Hl.
  induction l as [|d l IH]; intros c Hl; apply octets_ok_cons in Hl as [Hc Hl].
  all: destruct (digits2_ok c Hc) as (x & y & E & Hx & Hy & Ht & _); rewrite E.
  all: destruct (digit_plain x Hx) as (_ & _ & Sx & _); destruct (digit_plain y Hy) as (_ & _ & Sy & _).
  all: rewrite fields_word by (cbn [forallb]; by rewrite Sx, Sy).
  - cbn [fmap list_fmap concat]. rewrite E. change (fields ([] ++ [x; y]) []) with [[x; y]]. cbn [fmap list_fmap concat]. by rewrite Ht.
  - cbn [fmap list_fmap concat app]. change (fields [x; y] (0x20 :: ?s)) with ([x; y] :: fields [] s).
    cbn [fmap list_fmap concat]. rewrite Ht, E. apply (f_equal (app [x; y])). by apply IH.
Qed.
Lemma pairs_digits l : octets_ok l -> pairs (concat (digits2 <$> l)) = l /\ Z.rem (len (concat (digits2 <$> l))) 2 = 0.
Proof.
  induction l as [|c l IH]; intros Hl; [done|]. apply octets_ok_cons in Hl as [Hc Hl]. destruct (IH Hl) as [IH1 IH2].
  cbn [fmap list_fmap concat]. destruct (digits2_ok c Hc) as (x & y & -> & _ & _ & _ & Hv). cbn [app pairs]. rewrite IH1, Hv.
  split; [done|]. rewrite !len_cons. pose proof (len_nonneg (concat (digits2 <$> l))).
  rewrite Z.rem_mod_nonneg in * by lia. replace (1 + (1 + len (concat (digits2 <$> l)))) with (len (concat (digits2 <$> l)) + 1 * 2) by lia.
  by rewrite Z.mod_add.
Qed.
Lemma column_joined l : octets_ok l -> l <> [] -> column (joined l).
Proof.
  intros Hl Hne. destruct l as [|c l]; [done|]. clear Hne. unfold joined. split_and!.
  - revert c Hl. induction l as [|d l IH]; intros c Hl; apply octets_ok_cons in Hl as [Hc Hl].
    all: destruct (digits2_ok c Hc) as (x & y & E & Hx & Hy & _); rewrite E.
    all: destruct (digit_plain x Hx) as (_ & Nx & _); destruct (digit_plain y Hy) as (_ & Ny & _).
    all: apply Z.eqb_neq in Nx, Ny.
    + cbn. by rewrite Nx, Ny.
    + cbn [fmap list_fmap concat app no_double]. rewrite Nx, Ny. cbn [andb negb].
      specialize (IH d Hl). apply octets_ok_cons in Hl as [Hd _]. destruct (digits2_ok d Hd) as (x' & y' & E' & Hx' & _).
      rewrite E' in *. destruct (digit_plain x' Hx') as (_ & Nx' & _). apply Z.eqb_neq in Nx'. cbn [app] in *.
      rewrite Nx'. rewrite andb_false_r. cbn [negb andb]. exact IH.
  - apply octets_ok_cons in Hl as [Hc _]. destruct (digits2_ok c Hc) as (x & y & -> & Hx & _). exists x. split; [done|]. by apply digit_plain.
  - revert c Hl. induction l as [|d l IH]; intros c Hl; apply octets_ok_cons in Hl as [Hc Hl].
    + destruct (digits2_ok c Hc) as (x & y & -> & _ & Hy & _). exists y. split; [done|]. by apply digit_plain.
    + destruct (IH d Hl) as (z & Hz & Hp). exists z. split; [|done]. cbn [fmap list_fmap concat].
      change (digits2 c ++ (0x20 :: digits2 d) ++ ?r) with (digits2 c ++ 0x20 :: (digits2 d ++ r)).
      rewrite last_app, last_cons. by rewrite Hz.
Qed.

(** *** A line *)

(** A line without its newline, as [writeHex] makes it. *)
Definition hex_text (n : nat) (off : Z) (line : list Z) : string :=
  repeat_char n " " +:+ hex_min false 4 off +:+ "  " +:+ hex_columns perLine 0 line +:+ " |" +:+ ascii_column line +:+ "|".
Lemma hex_text_line n off line : hex_line (repeat_char n " ") off line = hex_text n off line +:+ newline.
Proof. unfold hex_line, hex_text. by rewrite !string_app_assoc. Qed.

Lemma columns_octets line : (1 <= length line <= 16)%nat ->
  octets_of (hex_columns perLine 0 line) =
  if (length line <=? 8)%nat then joined line ++ gap (2 + 3 * (16 - length line))
  else joined (take 8 line) ++ gap 2 ++ joined (drop 8 line) ++ gap (1 + 3 * (16 - length line)).
Proof.
  intros [H1 H2]. do 17 (destruct line as [|? line]; [cbn in H1; try lia; reflexivity|]; cbn in H2). lia.
Qed.

(** The offset column: four to eight digits. *)
Lemma hex_fixed_octets n x : forallb digit_ok (octets_of (hex_fixed false n x)) = true /\ length (octets_of (hex_fixed false n x)) = n.
Proof.
  induction n as [|n [IH1 IH2]]; [done|]. cbn [hex_fixed octets_of forallb length]. rewrite IH1, IH2, andb_true_r. split; [|done].
  assert (0 <= Z.land (Z.shiftr x (4 * Z.of_nat n)) 0xF < 16).
  { change 0xF with (Z.ones 4). rewrite Z.land_ones by lia. by apply Z.mod_pos_bound. }
  revert H. generalize (Z.land (Z.shiftr x (4 * Z.of_nat n)) 0xF). apply (forall_below 16). vm_compute. reflexivity.
Qed.
Lemma trim_zeros_bounds k s : (k <= String.length s)%nat ->
  (k <= String.length (trim_zeros k s) <= String.length s)%nat /\
  (forallb digit_ok (octets_of s) = true -> forallb digit_ok (octets_of (trim_zeros k s)) = true).
Proof.
  induction s as [|c s IH]; intros Hk; [done|]. cbn [trim_zeros]. destruct (_ && _) eqn:E; [|done].
  apply andb_true_iff in E as [_ E]. apply Nat.ltb_lt in E. cbn [String.length] in *. destruct IH as [IH1 IH2]; [lia|].
  split; [lia|]. cbn [octets_of forallb]. rewrite andb_true_iff. intros [_ ?]. by apply IH2.
Qed.
Lemma length_octets_of s : length (octets_of s) = String.length s.
Proof. induction s as [|c s IH]; [done|]. cbn. by rewrite IH. Qed.
Lemma hex_min_short off n : 0 <= off < 2 ^ 32 -> (8 <= n)%nat ->
  trim_zeros 4 (hex_fixed false (S n) off) = trim_zeros 4 (hex_fixed false n off).
Proof.
  intros Ho Hn. cbn [hex_fixed trim_zeros String.length]. rewrite Z.shiftr_div_pow2 by lia.
  assert (2 ^ 32 <= 2 ^ (4 * Z.of_nat n)) by (apply Z.pow_le_mono_r; lia).
  rewrite Z.div_small by lia. change (octet_of (hex_char false (Z.land 0 15)) =? 0x30) with true. cbn [andb].
  rewrite <- (length_octets_of (hex_fixed false n off)), (proj2 (hex_fixed_octets n off)).
  by rewrite (proj2 (Nat.ltb_lt _ _)) by lia.
Qed.
Lemma offset_octets off : 0 <= off < 2 ^ 32 ->
  let o := octets_of (hex_min false 4 off) in forallb digit_ok o = true /\ (4 <= length o <= 8)%nat.
Proof.
  intros Ho. cbv zeta. unfold hex_min. do 8 rewrite hex_min_short by lia.
  destruct (hex_fixed_octets 8 off) as [H1 H2]. rewrite length_octets_of in H2.
  destruct (trim_zeros_bounds 4 (hex_fixed false 8 off)) as [H3 H4]; [lia|]. rewrite length_octets_of. split; [by apply H4 | lia].
Qed.

Lemma no_double_snoc s c : (c =? 0x20) = false -> no_double s = true -> no_double (s ++ [c]) = true.
Proof.
  intros Hc. induction s as [|x [|y s] IH]; intros Hn; [done| |].
  - cbn. by rewrite Hc, andb_false_r.
  - cbn [app no_double] in *. apply andb_true_iff in Hn as [Hx Hn]. rewrite Hx. by apply IH.
Qed.
Lemma no_double_digits s : forallb digit_ok s = true -> no_double s = true.
Proof.
  induction s as [|x [|y s] IH]; intros Hs; [done|done|]. cbn [forallb] in Hs. rewrite !andb_true_iff in Hs. destruct Hs as (Hx & Hs).
  cbn [no_double]. destruct (digit_plain x Hx) as (_ & Nx & _). apply Z.eqb_neq in Nx. rewrite Nx. apply IH. cbn [forallb]. by rewrite !andb_true_iff.
Qed.
Lemma no_double_before s : no_double s = true -> no_double (before_hash s) = true.
Proof.
  induction s as [|x [|y s] IH]; intros Hn; [done | cbn; by case_match |]. cbn [no_double] in Hn. apply andb_true_iff in Hn as [Hx Hn].
  specialize (IH Hn). cbn [before_hash] in *. destruct (x =? 0x23); [done|]. destruct (y =? 0x23); [done|].
  cbn [no_double]. by rewrite Hx.
Qed.
Lemma before_hash_app a b : forallb (fun c => negb (c =? 0x23)) a = true -> before_hash (a ++ b) = a ++ before_hash b.
Proof.
  induction a as [|c a IH]; intros Ha; [done|]. cbn [forallb app before_hash] in *. rewrite andb_true_iff, negb_true_iff in Ha.
  destruct Ha as [-> Ha]. by rewrite IH.
Qed.
Lemma column_digits_only o : forallb digit_ok o = true -> o <> [] -> column o.
Proof.
  intros Ho Hne. split_and!.
  - apply no_double_snoc; [done|]. by apply no_double_digits.
  - destruct o as [|c o]; [done|]. exists c. split; [done|]. cbn in Ho. apply andb_true_iff in Ho as [Hc _]. by apply digit_plain.
  - destruct o as [|c o _] using rev_ind; [done|]. exists c. rewrite last_snoc. split; [done|].
    rewrite forallb_app in Ho. cbn in Ho. rewrite !andb_true_iff in Ho. destruct Ho as (_ & Hc & _). by apply digit_plain.
Qed.
Lemma offset_column o : forallb digit_ok o = true -> (4 <= length o <= 8)%nat -> isOffsetColumn o = true.
Proof.
  intros Ho Hl. unfold isOffsetColumn. assert (E : TrimSuffix o [0x3A] = o).
  { destruct o as [|c o _] using rev_ind; [done|]. unfold TrimSuffix. rewrite rev_app_distr. cbn [rev app]. unfold TrimPrefix, is_prefix. cbn [length take].
    rewrite forallb_app in Ho. cbn in Ho. rewrite !andb_true_iff in Ho. destruct Ho as [_ [Hc _]].
    apply digit_plain in Hc as (_ & _ & _ & _ & _ & N). apply Z.eqb_neq in N. rewrite bool_decide_eq_false_2 by congruence.
    cbn [rev]. by rewrite rev_involutive. }
  rewrite E. unfold isAllHex, len. rewrite !andb_true_iff, !Z.leb_le. destruct (Z.eqb_spec (Z.of_nat (length o)) 0); [lia|].
  split_and!; [lia | lia | |].
  - apply forallb_forall. intros c Hc. rewrite forallb_forall in Ho. by apply digit_plain, Ho.
  - apply negb_true_iff, not_true_iff_false. intros (c & Hc & Hs)%existsb_exists. rewrite forallb_forall in Ho.
    destruct (digit_plain c (Ho c Hc)) as (_ & _ & Sc & _). unfold isSeparator in Sc. cbn [one_of existsb] in Sc.
    rewrite !orb_false_iff in Sc. rewrite orb_true_iff in Hs. destruct Sc as (S1 & S2 & _). destruct Hs; congruence.
Qed.

Lemma gap_octets n : octets_of (repeat_char n " ") = gap n.
Proof. induction n as [|n IH]; [done|]. exact (f_equal (cons 0x20) IH). Qed.
Lemma gap_app n m : gap n ++ gap m = gap (n + m).
Proof. symmetry. apply replicate_add. Qed.

Definition no_hash (s : list Z) : bool := forallb (fun c => negb (c =? 0x23)) s.
Lemma no_hash_app a b : no_hash a = true -> no_hash b = true -> no_hash (a ++ b) = true.
Proof. unfold no_hash. intros Ha Hb. by rewrite forallb_app, Ha, Hb. Qed.
Lemma no_hash_gap n : no_hash (gap n) = true.
Proof. by induction n. Qed.
Lemma no_hash_digits o : forallb digit_ok o = true -> no_hash o = true.
Proof.
  intros Ho. apply forallb_forall. intros c Hc. rewrite forallb_forall in Ho. by destruct (digit_plain c (Ho c Hc)) as (_ & _ & _ & -> & _).
Qed.
Lemma no_hash_joined l : octets_ok l -> no_hash (joined l) = true.
Proof.
  assert (D : forall c, octet_ok c -> no_hash (digits2 c) = true).
  { intros c Hc. destruct (digits2_ok c Hc) as (x & y & -> & Hx & Hy & _). apply no_hash_digits. cbn. by rewrite Hx, Hy. }
  destruct l as [|c l]; [done|]. intros Hl. apply octets_ok_cons in Hl as [Hc Hl]. apply no_hash_app; [by apply D|].
  induction l as [|d l IH]; [done|]. apply octets_ok_cons in Hl as [Hd Hl]. cbn [fmap list_fmap concat].
  apply no_hash_app; [|by apply IH]. by apply (D d).
Qed.

(** Columns of octets, each with the gap after it, before the text. *)
Definition laid (cols : list (list Z * nat)) (rest : list Z) : list Z :=
  foldr (fun p rest => joined (fst p) ++ gap (2 + snd p) ++ rest) rest cols.
Definition columns_ok (cols : list (list Z * nat)) : Prop := Forall (fun p => octets_ok (fst p) /\ fst p <> []) cols.

Lemma laid_cons l k cols rest : laid ((l, k) :: cols) rest = joined l ++ gap (2 + k) ++ laid cols rest.
Proof. done. Qed.
Lemma laid_before cols rest : columns_ok cols -> before_hash (laid cols rest) = laid cols (before_hash rest).
Proof.
  induction 1 as [|[l k] cols [Hl _] _ IH]; [done|]. rewrite !laid_cons.
  rewrite before_hash_app by (by apply no_hash_joined). rewrite before_hash_app by apply no_hash_gap. by rewrite IH.
Qed.
Lemma laid_split cols rest : columns_ok cols -> (exists c r, rest = c :: r /\ plain c = true) ->
  (exists c r, laid cols rest = c :: r /\ plain c = true) /\
  splitColumns (laid cols rest) = ((fun p => joined (fst p)) <$> cols) ++ splitColumns rest.
Proof.
  intros Hc Hr. induction Hc as [|[l k] cols [Hl Hne] _ [(c & r & E & Hp) IH]]; [done|]. rewrite laid_cons. cbn [fst fmap list_fmap app].
  pose proof (column_joined l Hl Hne) as J. split.
  - destruct J as (_ & (x & Hx & Hpx) & _). destruct (joined l) as [|y j]; [done|]. injection Hx as ->. by eexists _, _.
  - fold (fmap (fun p : list Z * nat => joined p.1) cols). rewrite <- IH, E. by apply splitColumns_column.
Qed.
Lemma laid_digits cols : columns_ok cols ->
  column_digits ((fun p => joined (fst p)) <$> cols) = concat (digits2 <$> concat (fst <$> cols)).
Proof.
  unfold column_digits. induction 1 as [|[l k] cols [Hl Hne] _ IH]; [done|]. cbn [fst fmap list_fmap concat].
  rewrite fmap_app, concat_app. f_equal; [by apply joined_read | exact IH].
Qed.
Lemma laid_octets cols : columns_ok cols -> octets_ok (concat (fst <$> cols)).
Proof.
  induction 1 as [|[l k] cols [Hl _] _ IH]; [by constructor|]. cbn [fmap list_fmap concat fst]. by apply Forall_app.
Qed.

Lemma parse_laid n o cols g :
  forallb digit_ok o = true -> (4 <= length o <= 8)%nat -> columns_ok cols -> cols <> [] -> no_double g = true ->
  parseHex (gap n ++ o ++ gap 2 ++ laid cols (0x7C :: g ++ [0x7C])) = Ok (concat (fst <$> cols)).
Proof.
  intros Ho Hl Hc Hne Hg. set (tail := 0x7C :: before_hash (g ++ [0x7C])).
  assert (T : exists t, splitColumns tail = [t]).
  { apply (splitColumns_last _ 0x7C); [| done | by left].
    apply (no_double_before (0x7C :: g ++ [0x7C])).
    pose proof (no_double_snoc g 0x7C eq_refl Hg) as Hs. by destruct (g ++ [0x7C]). }
  destruct T as [t T]. destruct (laid_split cols tail Hc) as ((c & r & Ec & Hpc) & Sp); [by eexists _, _|].
  assert (Co : column o) by (apply column_digits_only; [done | by intros ->; cbn in Hl; lia]).
  assert (S : splitColumns (before_hash (gap n ++ o ++ gap 2 ++ laid cols (0x7C :: g ++ [0x7C]))) =
              o :: ((fun p => joined (fst p)) <$> cols) ++ [t]).
  { rewrite before_hash_app by apply no_hash_gap. rewrite before_hash_app by (by apply no_hash_digits).
    rewrite before_hash_app by apply no_hash_gap. rewrite laid_before by done. change (before_hash (0x7C :: g ++ [0x7C])) with tail.
    rewrite <- T, <- Sp, Ec. rewrite <- (splitColumns_column o 0 c r Co Hpc).
    destruct Co as (_ & (x & Hx & Hpx) & _). destruct o as [|y o]; [done|]. injection Hx as ->. by apply (splitColumns_gap n x). }
  assert (L : exists x js, (fun p => joined (fst p)) <$> cols = x :: js) by (destruct cols; [done | by eexists _, _]).
  destruct L as (x & js & L). unfold parseHex. rewrite S, L. cbn [app].
  rewrite (offset_column o Ho Hl). rewrite (proj2 (Z.leb_le _ _)) by (unfold len; cbn; rewrite length_app; cbn; lia).
  rewrite app_comm_cons, removelast_last, <- L, laid_digits by done. destruct (pairs_digits _ (laid_octets _ Hc)) as [-> ->]. done.
Qed.

(** The columns a dump line is laid out in. *)
Definition line_columns (line : list Z) : list (list Z * nat) :=
  let pad := (3 * (16 - length line))%nat in
  if (length line <=? 8)%nat then [(line, 1 + pad)%nat] else [(take 8 line, 0%nat); (drop 8 line, pad)].
Lemma text_laid n off line : (1 <= length line <= 16)%nat ->
  octets_of (hex_text n off line) =
  gap n ++ octets_of (hex_min false 4 off) ++ gap 2 ++ laid (line_columns line) (0x7C :: octets_of (ascii_column line) ++ [0x7C]).
Proof.
  intros Hl. unfold hex_text. rewrite !octets_of_app, gap_octets, columns_octets by done.
  change (octets_of "  ") with (gap 2). change (octets_of " |") with (gap 1 ++ [0x7C]). change (octets_of "|") with [0x7C].
  do 3 f_equal. unfold line_columns. destruct (length line <=? 8)%nat; cbn [laid foldr fst snd].
  - rewrite <- !app_assoc. f_equal. rewrite (app_assoc _ (gap 1)), gap_app. f_equal. f_equal. lia.
  - rewrite <- !app_assoc. do 3 f_equal. rewrite (app_assoc _ (gap 1)), gap_app. f_equal. f_equal. lia.
Qed.

(** The text beside the octets has a space where they have one. *)
Lemma ascii_spaces l : octets_ok l -> no_double (octets_of (ascii_column l)) = no_double l.
Proof.
  assert (P : forall c, octet_ok c -> (octet_of (printable_char c) =? 0x20) = (c =? 0x20)).
  { intros c Hc. apply eqb_prop. revert c Hc. apply forall_octets. vm_compute. reflexivity. }
  induction l as [|c [|d l] IH]; intros Hl; [done | done|]. apply octets_ok_cons in Hl as [Hc Hl]. specialize (IH Hl).
  apply octets_ok_cons in Hl as [Hd _].
  change (negb ((octet_of (printable_char c) =? 0x20) && (octet_of (printable_char d) =? 0x20)) &&
    no_double (octets_of (ascii_column (d :: l))) = negb ((c =? 0x20) && (d =? 0x20)) && no_double (d :: l)).
  by rewrite IH, !P.
Qed.
Lemma no_double_app a b : no_double (a ++ b) = true -> no_double a = true /\ no_double b = true.
Proof.
  induction a as [|c a IH]; intros H; [done|]. destruct a as [|d a].
  - destruct b as [|e b]; [done|]. cbn [app no_double] in H. by apply andb_true_iff in H as [_ H].
  - cbn [app no_double] in *. apply andb_true_iff in H as [Hc H]. destruct (IH H) as [-> Hb]. by rewrite Hc.
Qed.

(** A line of a hex dump is read back as its octets, whatever the indentation, when the text
    beside them has no two spaces in a row. *)
Lemma dump_line_read n off line : octets_ok line -> (1 <= length line <= 16)%nat -> 0 <= off < 2 ^ 32 ->
  no_double line = true ->
  parseHex (octets_of (hex_text n off line)) = Ok line.
Proof.
  intros Hok Hl Ho Hg. rewrite <- ascii_spaces in Hg by done. rewrite text_laid by done. destruct (offset_octets off Ho) as [Hd Hn].
  assert (E : concat (fst <$> line_columns line) = line).
  { unfold line_columns. destruct (length line <=? 8)%nat; cbn; rewrite app_nil_r; [done | apply take_drop]. }
  etrans; [apply parse_laid; try done | by rewrite E].
  - unfold line_columns, columns_ok. destruct (Nat.leb_spec (length line) 8) as [H8|H8].
    + constructor; [|constructor]. split; [done|]. cbn [fst]. by intros ->; cbn in Hl; lia.
    + constructor; [|constructor; [|constructor]].
      all: cbn [fst]; split; [auto with dnp3|]; intros E'; apply (f_equal length) in E'.
      all: rewrite ?length_take, ?length_drop in E'; cbn [length] in E'; lia.
  - unfold line_columns. by destruct (_ <=? _)%nat.
Qed.

(** The lines of a dump, without their newlines. *)
Fixpoint dump_lines (fuel : nat) (n : nat) (off : Z) (data : list Z) : list string :=
  match fuel, data with
  | S fuel, _ :: _ => hex_text n off (take perLine data) :: dump_lines fuel n (off + 16) (drop perLine data)
  | _, _ => []
  end.
Lemma nonempty_length (l : list Z) : l <> [] -> (0 < length l)%nat.
Proof. destruct l; [done | cbn; lia]. Qed.
Lemma dump_lines_text n fuel : forall off data,
  writeHex_loop fuel (repeat_char n " ") off data = fold_right (fun l s => l +:+ newline +:+ s) "" (dump_lines fuel n off data).
Proof.
  induction fuel as [|fuel IH]; intros off data; [by destruct data|]. destruct data as [|b data]; [done|].
  set (all := b :: data). change (dump_lines (S fuel) n off all) with (hex_text n off (take perLine all) :: dump_lines fuel n (off + 16) (drop perLine all)).
  change (writeHex_loop (S fuel) ?i off all) with (hex_line i off (take perLine all) +:+ writeHex_loop fuel i (off + 16) (drop perLine all)).
  cbn [fold_right]. by rewrite IH, hex_text_line, string_app_assoc.
Qed.
Lemma dump_lines_read n fuel : forall line off data all, (length data <= fuel)%nat -> octets_ok data -> 0 <= off -> (data <> [] -> off + len data < 2 ^ 32) ->
  no_double data = true ->
  readHex_lines line (octets_of <$> dump_lines fuel n off data) all = Ok (all ++ data).
Proof.
  induction fuel as [|fuel IH]; intros line off data all Hf Hok H0 Ho Hg; (destruct data as [|b data]; [cbn; by rewrite app_nil_r|]).
  { cbn in Hf; lia. }
  set (d := b :: data) in *.
  assert (Hd : (1 <= length (take perLine d) <= 16)%nat) by (rewrite length_take; unfold perLine, d; cbn [length]; lia).
  change (octets_of <$> dump_lines (S fuel) n off d) with
    (octets_of (hex_text n off (take perLine d)) :: (octets_of <$> dump_lines fuel n (off + 16) (drop perLine d))).
  cbn [readHex_lines]. destruct (no_double_app (take perLine d) (drop perLine d)) as [G1 G2]; [by rewrite take_drop|].
  specialize (Ho ltac:(done)). pose proof (len_nonneg d). rewrite dump_line_read by (auto with dnp3; lia).
  rewrite IH; [by rewrite <- app_assoc, take_drop | | auto with dnp3 | lia | | done].
  - rewrite length_drop. unfold perLine, d in *. cbn [length] in *. lia.
  - intros Hne. apply nonempty_length in Hne. unfold len in *. rewrite length_drop in *. unfold perLine in *. lia.
Qed.

(** The dump the decoder prints is read back by the command as the octets it was made of,
    whatever the indentation, unless two spaces stand beside each other in them. *)
Theorem dump_read_back n data : octets_ok data -> len data < 2 ^ 32 -> no_double data = true ->
  let lines := dump_lines (length data) n 0 data in
  writeHex data (repeat_char n " ") = fold_right (fun l s => l +:+ newline +:+ s) "" lines /\
  readHex (octets_of <$> lines) = Ok data.
Proof.
  intros Hok Hl Hg. split; [apply dump_lines_text|]. unfold readHex. by rewrite (dump_lines_read n) by (done || lia).
Qed.

(** ** Runs that depart from the documentation *)

(** The text beside the octets splits at two spaces, and a word of it that looks like hex is
    read as octets: the dump of ["cafe  x"] is read with two octets more. *)
Example gutter_invents :
  let data := [0x63; 0x61; 0x66; 0x65; 0x20; 0x20; 0x78] in
  readHex (octets_of <$> dump_lines 7 0 0 data) = Ok (data ++ [0xCA; 0xFE]).
Proof. vm_compute. reflexivity. Qed.

(** A line of [tcpdump -x]: its offset is not seen as one, and its octets are taken for the
    text beside them. *)
Example tcpdump_misread :
  let line := octets_of "0x0000:  4500 0034 0001 0000 4006 0000 7f00 0001" in
  parseHex (0x09 :: line) = Ok [0; 0].
Proof. vm_compute. reflexivity. Qed.

#[local] Instance no_unicode : Unicode := fun _ => false.

(** A link frame of a response with two binary inputs. *)
Definition run_frame : list Z :=
  match SendTo keep None sender [] 1 sent_fragment with Some (_, octs, _) => octs | None => [] end.
Definition counts (data : list Z) (stream : bool) : option (Z * Z) :=
  (fun r => let '(_, frames, errs) := r in (frames, errs)) <$> decode data false stream.

(** A frame cut short at the end is an error a frame at a time and none as a stream. *)
Example cut_short_counts :
  let data := run_frame ++ take 9 run_frame in
  counts data false = Some (1, 1) /\ counts data true = Some (1, 0).
Proof. vm_compute. done. Qed.

(** A header whose frame was lost, then a whole frame: a frame at a time the rest is reported
    as trailing and not decoded; as a stream nothing is decoded and no error is counted. *)
Example cut_short_ends :
  let data := [0x05; 0x64; 60; 0x44; 1; 0; 10; 0; 0xF4; 0xC7] ++ run_frame in
  counts data false = Some (0, 1) /\ counts data true = Some (0, 0).
Proof. vm_compute. done. Qed.
