(* ===== verification/MemFiles.v ===== *)
(** * Where files are served from (src/outstation/file.go, src/cmd/dnp3-outstation/files.go)

    A session asks a handler for files.  Modelled here are the handlers of the repository: one
    that refuses everything, one over a directory of the host ([DirFileHandler], with the
    directory a parameter), and the file system in memory of the simulated device ([memFiles])
    with the writer it hands out.  A name is its octets.

    The theorems: whatever a master asks for, the path handed to the host names something below
    the directory that is served ([resolve_inside]); a listing does not depend on the order in
    which a map is walked and names the children of the directory, in order ([List_children]);
    what was written is what is read back, under every spelling of the name, and nothing else
    changes ([write_read_back]); a file over the limit is not installed, and a device that is
    read-only never changes.  Runs in which the program departs from its comments are at the
    end. *)

From stdpp Require Import gmap sorting.
From S2P Require Import Prelude Values FileObjects OutstationState Text Names.
#[local] Open Scope Z_scope.

(** ** Paths *)

Definition slash : Z := 0x2F.
Definition name_of (s : string) : list Z := octets_of s.

(** The elements between slashes; [cur] is the one being read. *)
Fixpoint split_slash (cur s : list Z) : list (list Z) :=
  match s with
  | [] => [cur]
  | c :: s => if c =? slash then cur :: split_slash [] s else split_slash (cur ++ [c]) s
  end.

(** [path.Clean] of a rooted path: empty elements and [.] go, and [..] takes the element
    before it, or nothing at the root.  The stack has the last element first. *)
Definition clean_step (st : list (list Z)) (e : list Z) : list (list Z) :=
  if bool_decide (e = []) || bool_decide (e = name_of ".") then st
  else if bool_decide (e = name_of "..") then tail st
  else e :: st.
Definition clean_elements (s : list Z) : list (list Z) := rev (fold_left clean_step (split_slash [] s) []).
Definition rooted (es : list (list Z)) : list Z :=
  match es with [] => [slash] | _ => concat ((fun e => slash :: e) <$> es) end.
Definition path_Clean (s : list Z) : list Z := rooted (clean_elements s).

(** What follows the last slash, and what comes before it with the slash. *)
Fixpoint last_slash (cur s : list Z) : list Z :=
  match s with [] => cur | c :: s => if c =? slash then last_slash [] s else last_slash (cur ++ [c]) s end.
Definition dir_part (s : list Z) : list Z := take (length s - length (last_slash [] s)) s.
(** [path.Dir] of a rooted path. *)
Definition path_Dir (s : list Z) : list Z := path_Clean (dir_part s).

Fixpoint strip_slashes (rev_s : list Z) : list Z :=
  match rev_s with c :: s => if c =? slash then strip_slashes s else rev_s | [] => [] end.
Definition path_Base (s : list Z) : list Z :=
  match s with
  | [] => name_of "."
  | _ => match rev (strip_slashes (rev s)) with [] => [slash] | s => last_slash [] s end
  end.

(** [strings.ReplaceAll(name, `\`, "/")]. *)
Definition forward_slashes (s : list Z) : list Z := (fun c => if c =? 0x5C then slash else c) <$> s.

(** ** A handler that refuses everything *)

Section Refusing.
Context {Env : Environment} (no_reader : Reader) (no_writer : Writer).
Definition RejectingFileHandler : FileHandler :=
  mkFileHandler (fun a _ => (a, (FileInfo0, FilePermissionDenied))) (fun a _ => (a, ([], FilePermissionDenied)))
    (fun a _ => (a, (no_reader, FileInfo0, FilePermissionDenied))) (fun a _ _ _ => (a, (no_writer, FilePermissionDenied)))
    (fun a _ => (a, FilePermissionDenied)).
End Refusing.

(** ** A handler over a directory *)

Definition resolve (name : list Z) : list Z :=
  match path_Clean (slash :: forward_slashes name) with
  | c :: rest => let clean := if c =? slash then rest else c :: rest in if len clean =? 0 then name_of "." else clean
  | [] => name_of "."
  end.

Inductive FsErr := ErrNotExist | ErrPermission | ErrOther.
Definition statusForError (err : option FsErr) : Z :=
  match err with
  | None => FileSuccess
  | Some ErrNotExist => FileNotFound
  | Some ErrPermission => FilePermissionDenied
  | Some ErrOther => FileFatal
  end.

(** What the host says of a file: [fs.FileInfo]. *)
Record Stat := mkStat { St_ModTime : Z; St_Mode : Z; St_IsDir : bool; St_Size : Z }.
Definition permissionsFor (mode : Z) : Z := Z.land mode 0x1FF.
Definition infoFor (name : list Z) (st : Stat) : FileInfo :=
  mkFileInfo name (if St_IsDir st then FileTypeDirectory else FileTypeSimple)
    (if 0 <? St_Size st then u32 (Z.min (St_Size st) (2 ^ 32 - 1)) else 0) (St_ModTime st) (permissionsFor (St_Mode st)).

(** [os.Root]: each operation is given the path it is asked for.  An entry of a directory has
    its name, and what [Info] of it returns. *)
Record Root {Env : Environment} := mkRoot {
  root_Stat : App -> list Z -> App * result FsErr Stat;
  root_ReadDir : App -> list Z -> App * result FsErr (list (list Z * option Stat));
  root_Open : App -> list Z -> App * result FsErr Reader;
  root_OpenFile : App -> list Z -> bool -> App * result FsErr Writer;
  root_Remove : App -> list Z -> App * option FsErr }.
Arguments Root : clear implicits.
Arguments Root {Env}.

Section Directory.
Context {Env : Environment} (no_reader : Reader) (no_writer : Writer) (root : Root) (ReadOnly : bool).

Definition Dir_Info (a : App) (name : list Z) : App * (FileInfo * Z) :=
  let '(a, r) := root_Stat root a (resolve name) in
  match r with
  | Err e => (a, (FileInfo0, statusForError (Some e)))
  | Ok st => (a, (infoFor (path_Base name) st, FileSuccess))
  end.
(** [Open] and [ReadDir]; an entry that has gone since is left out. *)
Definition Dir_List (a : App) (name : list Z) : App * (list FileInfo * Z) :=
  let '(a, r) := root_ReadDir root a (resolve name) in
  match r with
  | Err e => (a, ([], statusForError (Some e)))
  | Ok entries => (a, (omap (fun e => infoFor (fst e) <$> snd e) entries, FileSuccess))
  end.
Definition Dir_OpenRead (a : App) (name : list Z) : App * (Reader * FileInfo * Z) :=
  let p := resolve name in
  let '(a, r) := root_Stat root a p in
  match r with
  | Err e => (a, (no_reader, FileInfo0, statusForError (Some e)))
  | Ok st =>
      if St_IsDir st then (a, (no_reader, FileInfo0, FileInvalidMode))
      else
        let '(a, f) := root_Open root a p in
        match f with
        | Err e => (a, (no_reader, FileInfo0, statusForError (Some e)))
        | Ok f => (a, (f, infoFor (path_Base name) st, FileSuccess))
        end
  end.
(** The flag says whether the file is appended to; otherwise it is truncated. *)
Definition Dir_OpenWrite (a : App) (name : list Z) (mode size : Z) : App * (Writer * Z) :=
  if ReadOnly then (a, (no_writer, FilePermissionDenied))
  else
    let '(a, f) := root_OpenFile root a (resolve name) (mode =? FileModeAppend) in
    match f with
    | Err e => (a, (no_writer, statusForError (Some e)))
    | Ok f => (a, (f, FileSuccess))
    end.
Definition Dir_Delete (a : App) (name : list Z) : App * Z :=
  if ReadOnly then (a, FilePermissionDenied)
  else let '(a, e) := root_Remove root a (resolve name) in (a, statusForError e).
Definition DirFileHandler : FileHandler := mkFileHandler Dir_Info Dir_List Dir_OpenRead Dir_OpenWrite Dir_Delete.
End Directory.

(** ** The file system in memory *)

Definition memFileLimit : Z := Z.shiftl 4 20.

Record memFile := mkMemFile { mf_name : list Z; mf_data : list Z; mf_dir : bool; mf_created : Z; mf_perms : Z }.
Record memFiles := mkMemFiles { mf_files : gmap (list Z) memFile; mf_readOnly : bool }.

Definition clean (name : list Z) : list Z := path_Clean (slash :: forward_slashes name).
Definition lookup_file (m : memFiles) (name : list Z) : option memFile := mf_files m !! clean name.
Definition mem_info (f : memFile) : FileInfo :=
  mkFileInfo (path_Base (mf_name f)) (if mf_dir f then FileTypeDirectory else FileTypeSimple)
    (if mf_dir f then 0 else u32 (len (mf_data f))) (mf_created f) (mf_perms f).

Definition mem_Info (m : memFiles) (name : list Z) : FileInfo * Z :=
  if bool_decide (clean name = [slash])
  then (mkFileInfo [slash] FileTypeDirectory 0 zeroTime (Z.lor PermOwnerRead PermOwnerExecute), FileSuccess)
  else match lookup_file m name with
       | None => (FileInfo0, FileNotFound)
       | Some f => (mem_info f, FileSuccess)
       end.

(** [out[i].Name < out[j].Name] sorts; the order of strings is that of their octets. *)
Fixpoint octets_le (a b : list Z) : bool :=
  match a, b with
  | [], _ => true
  | _ :: _, [] => false
  | x :: a, y :: b => if x <? y then true else if y <? x then false else octets_le a b
  end.
Definition name_le (a b : list Z) : Prop := octets_le a b = true.
Definition info_le (a b : FileInfo) : Prop := name_le (FI_Name a) (FI_Name b).
#[global] Instance name_le_dec a b : Decision (name_le a b).
Proof. unfold name_le. apply _. Defined.
#[global] Instance info_le_dec a b : Decision (info_le a b).
Proof. unfold info_le. apply _. Defined.
(** The entries of a map, walked in the order of [entries]. *)
Definition children (entries : list (list Z * memFile)) (dir : list Z) : list FileInfo :=
  (fun e => mem_info (snd e)) <$> List.filter (fun e => bool_decide (path_Dir (fst e) = dir)) entries.
Definition list_order (entries : list (list Z * memFile)) (m : memFiles) (name : list Z) : list FileInfo * Z :=
  let dir := clean name in
  let out := (merge_sort info_le (children entries dir), FileSuccess) in
  if bool_decide (dir = [slash]) then out
  else match lookup_file m dir with
       | None => ([], FileNotFound)
       | Some f => if mf_dir f then out else ([], FileInvalidMode)
       end.
Definition mem_List (m : memFiles) (name : list Z) : list FileInfo * Z := list_order (map_to_list (mf_files m)) m name.

(** The contents to read, or the status. *)
Definition mem_OpenRead (m : memFiles) (name : list Z) : result Z (list Z * FileInfo) :=
  match lookup_file m name with
  | None => Err FileNotFound
  | Some f =>
      if mf_dir f then Err FileInvalidMode
      else if Z.land (mf_perms f) PermOwnerRead =? 0 then Err FilePermissionDenied
      else Ok (mf_data f, mem_info f)
  end.

Record memWriter := mkMemWriter { mw_name : list Z; mw_mode : Z; mw_buf : list Z; mw_over : bool }.

Definition mem_OpenWrite (m : memFiles) (name : list Z) (mode : Z) : result Z memWriter :=
  if mf_readOnly m then Err FilePermissionDenied
  else
    let full := clean name in
    let start := mkMemWriter full mode
      (if mode =? FileModeAppend then match mf_files m !! full with Some f => mf_data f | None => [] end else []) false in
    let opened :=
      let dir := path_Dir full in
      if bool_decide (dir = [slash]) then Ok start
      else match mf_files m !! dir with
           | Some d => if mf_dir d then Ok start else Err FileNotFound
           | None => Err FileNotFound
           end in
    match mf_files m !! full with
    | Some f =>
        if mf_dir f then Err FileInvalidMode
        else if Z.land (mf_perms f) PermOwnerWrite =? 0 then Err FilePermissionDenied
        else opened
    | None => opened
    end.

Definition mem_Delete (m : memFiles) (name : list Z) : memFiles * Z :=
  if mf_readOnly m then (m, FilePermissionDenied)
  else
    let full := clean name in
    match mf_files m !! full with
    | None => (m, FileNotFound)
    | Some f =>
        if mf_dir f && existsb (fun e => bool_decide (path_Dir (fst e) = full)) (map_to_list (mf_files m))
        then (m, FileInvalidMode)
        else (mkMemFiles (delete full (mf_files m)) (mf_readOnly m), FileSuccess)
    end.

(** [false] is an error. *)
Definition mem_Write (w : memWriter) (p : list Z) : memWriter * bool :=
  if memFileLimit <? len (mw_buf w) + len p
  then (mkMemWriter (mw_name w) (mw_mode w) (mw_buf w) true, false)
  else (mkMemWriter (mw_name w) (mw_mode w) (mw_buf w ++ p) (mw_over w), true).

Definition new_perms : Z := Z.lor (Z.lor PermOwnerRead PermOwnerWrite) PermGroupRead.
Definition mem_Close (m : memFiles) (w : memWriter) (now : Z) : memFiles :=
  if mw_over w then m
  else
    let f := match mf_files m !! mw_name w with
             | Some f => f
             | None => mkMemFile (mw_name w) [] false zeroTime new_perms
             end in
    mkMemFiles (<[mw_name w := mkMemFile (mf_name f) (mw_buf w) (mf_dir f) now (mf_perms f)]> (mf_files m)) (mf_readOnly m).

(** The listing of the startup banner. *)
Definition mem_names (m : memFiles) : list (list Z) := merge_sort name_le (fst <$> map_to_list (mf_files m)).
Definition mem_Describe (m : memFiles) : string :=
  fold_right (fun name s =>
    match mf_files m !! name with
    | Some f => let i := mem_info f in
        "    " +:+ FileInfo_String (mkFileInfo name (FI_Type i) (FI_Size i) (FI_Created i) (FI_Permissions i)) +:+ newline +:+ s
    | None => s
    end) "" (mem_names m).

(** ** Clean paths *)

(** An element of a clean path. *)
Definition element (e : list Z) : Prop :=
  e <> [] /\ e <> name_of "." /\ e <> name_of ".." /\ slash ∉ e.

Lemma split_slash_free s : forall cur, slash ∉ cur -> Forall (fun e => slash ∉ e) (split_slash cur s).
Proof.
  induction s as [|c s IH]; intros cur Hc; cbn [split_slash]; [by constructor|]. destruct (Z.eqb_spec c slash) as [->|Hn].
  - constructor; [done|]. apply IH. by apply not_elem_of_nil.
  - apply IH. rewrite elem_of_app, list_elem_of_singleton. naive_solver.
Qed.
Lemma split_slash_word e s : forall cur, slash ∉ e -> split_slash cur (e ++ s) = split_slash (cur ++ e) s.
Proof.
  induction e as [|c e IH]; intros cur He; [by rewrite app_nil_r|]. cbn [app split_slash].
  apply not_elem_of_cons in He as [Hc He]. destruct (Z.eqb_spec c slash); [congruence|]. rewrite IH by done. by rewrite <- app_assoc.
Qed.
Lemma split_rooted es : Forall element es -> es <> [] -> split_slash [] (rooted es) = [] :: es.
Proof.
  intros He Hne. destruct es as [|e es]; [done|]. clear Hne. unfold rooted. cbn [fmap list_fmap concat app split_slash].
  change (slash =? slash) with true. cbv iota. f_equal. revert e He.
  induction es as [|d es IH]; intros e He; apply Forall_cons in He as [(_ & _ & _ & Hs) He].
  - cbn. rewrite app_nil_r. pose proof (split_slash_word e [] [] Hs) as E. rewrite app_nil_r in E. by rewrite E.
  - rewrite split_slash_word by done. cbn [fmap list_fmap concat app split_slash]. change (slash =? slash) with true. cbv iota.
    f_equal. by apply IH.
Qed.

Lemma clean_step_keeps e st : element e -> clean_step st e = e :: st.
Proof. intros (H1 & H2 & H3 & _). unfold clean_step. by rewrite !bool_decide_eq_false_2. Qed.
Lemma clean_step_ok st e : slash ∉ e -> Forall element st -> Forall element (clean_step st e).
Proof.
  intros Hs Hst. unfold clean_step. destruct (bool_decide_reflect (e = [])); [done|]. destruct (bool_decide_reflect (e = name_of ".")); [done|].
  cbn [orb]. destruct (bool_decide_reflect (e = name_of "..")); [by destruct Hst; [constructor|] |]. by constructor.
Qed.
Lemma fold_keeps es : forall st, Forall element es -> fold_left clean_step es st = rev es ++ st.
Proof.
  induction es as [|e es IH]; intros st He; [done|]. apply Forall_cons in He as [He Hes]. cbn [fold_left rev].
  rewrite clean_step_keeps, IH by done. by rewrite <- app_assoc.
Qed.

Lemma clean_elements_ok s : Forall element (clean_elements s).
Proof.
  unfold clean_elements. apply Forall_rev.
  assert (Hf : Forall (fun e => slash ∉ e) (split_slash [] s)) by (apply split_slash_free, not_elem_of_nil).
  assert (H0 : Forall element []) by constructor. revert H0. generalize (@nil (list Z)) at 1 2.
  induction Hf as [|e es He _ IH]; intros st Hst; [done|]. cbn [fold_left]. apply IH. by apply clean_step_ok.
Qed.
Lemma clean_elements_rooted es : Forall element es -> clean_elements (rooted es) = es.
Proof.
  intros He. destruct (decide (es = [])) as [->|Hne]; [done|]. unfold clean_elements. rewrite split_rooted by done.
  cbn [fold_left]. change (clean_step [] []) with (@nil (list Z)). rewrite fold_keeps, app_nil_r by done. apply rev_involutive.
Qed.
Lemma rooted_inj es es' : Forall element es -> Forall element es' -> rooted es = rooted es' -> es = es'.
Proof. intros H1 H2 E. by rewrite <- (clean_elements_rooted es), E, clean_elements_rooted. Qed.

(** *** The parent and the last element *)

Lemma last_slash_word e : forall cur, slash ∉ e -> last_slash cur e = cur ++ e.
Proof.
  induction e as [|c e IH]; intros cur He; [by rewrite app_nil_r|]. cbn [last_slash]. apply not_elem_of_cons in He as [Hc He].
  destruct (Z.eqb_spec c slash); [congruence|]. rewrite IH by done. by rewrite <- app_assoc.
Qed.
Lemma last_slash_at s e : forall cur, slash ∉ e -> last_slash cur (s ++ slash :: e) = e.
Proof.
  induction s as [|c s IH]; intros cur He; cbn [app last_slash].
  - change (slash =? slash) with true. cbv iota. by rewrite last_slash_word.
  - by destruct (c =? slash); apply IH.
Qed.
Lemma rooted_snoc es e : rooted (es ++ [e]) = (match es with [] => [] | _ => rooted es end) ++ slash :: e.
Proof.
  destruct es as [|d es]; [cbn; by rewrite app_nil_r|]. unfold rooted at 1. destruct ((d :: es) ++ [e]) eqn:E; [done|]. rewrite <- E.
  rewrite fmap_app, concat_app. cbn [fmap list_fmap concat]. by rewrite app_nil_r.
Qed.
Lemma path_Dir_rooted es e : Forall element (es ++ [e]) -> path_Dir (rooted (es ++ [e])) = rooted es.
Proof.
  intros He. apply Forall_app in He as [Hes He]. apply Forall_cons in He as [(_ & _ & _ & Hs) _].
  unfold path_Dir, dir_part. rewrite rooted_snoc. set (p := match es with [] => [] | _ => rooted es end).
  rewrite last_slash_at by done. rewrite length_app. cbn [length].
  replace (length p + S (length e) - length e)%nat with (length (p ++ [slash])) by (rewrite length_app; cbn; lia).
  change (slash :: e) with ([slash] ++ e). rewrite app_assoc, take_app_length. unfold path_Clean. f_equal. unfold p.
  destruct es as [|d es]; [done|]. unfold clean_elements.
  rewrite <- (clean_elements_rooted (d :: es)) at 2 by done. unfold clean_elements. f_equal.
  rewrite (split_rooted (d :: es)) by done.
  assert (E : split_slash [] (rooted (d :: es) ++ [slash]) = ([] :: d :: es) ++ [[]]).
  { rewrite <- (split_rooted (d :: es)) by done. generalize (rooted (d :: es)). intros s. generalize (@nil Z) at 1 3.
    induction s as [|c s IH]; intros cur; [done|]. cbn [app split_slash]. destruct (c =? slash); [|apply IH]. cbn [app]. f_equal. apply IH. }
  rewrite E, fold_left_app. done.
Qed.
Lemma path_Dir_root : path_Dir [slash] = [slash].
Proof. reflexivity. Qed.
Lemma path_Base_rooted es e : Forall element (es ++ [e]) -> path_Base (rooted (es ++ [e])) = e.
Proof.
  intros He. apply Forall_app in He as [_ He]. apply Forall_cons in He as [(Hne & _ & _ & Hs) _]. rewrite rooted_snoc.
  set (p := match es with [] => [] | _ => rooted es end). unfold path_Base. destruct (p ++ slash :: e) as [|c q] eqn:E; [by destruct p|].
  rewrite <- E. clear c q E. assert (S : strip_slashes (rev (p ++ slash :: e)) = rev (p ++ slash :: e)).
  { destruct e as [|x e _] using rev_ind; [done|]. change (slash :: e ++ [x]) with ((slash :: e) ++ [x]). rewrite app_assoc, rev_app_distr.
    cbn [rev app strip_slashes]. destruct (Z.eqb_spec x slash) as [->|]; [|done]. exfalso. apply Hs, elem_of_app. right. by left. }
  rewrite S, rev_involutive. destruct (p ++ slash :: e) as [|c q] eqn:E; [by destruct p|]. rewrite <- E. by apply last_slash_at.
Qed.

(** ** What the host is asked for *)

(** A relative path, walked from the directory that is served; [None] is a step out of it. *)
Definition walk_step (at_dir : option (list (list Z))) (e : list Z) : option (list (list Z)) :=
  st ← at_dir;
  if bool_decide (e = []) || bool_decide (e = name_of ".") then Some st
  else if bool_decide (e = name_of "..") then match st with [] => None | _ :: st => Some st end
  else Some (e :: st).
Definition walk (path : list Z) : option (list (list Z)) := fold_left walk_step (split_slash [] path) (Some []).

Lemma walk_elements es : forall st, Forall element es -> fold_left walk_step es (Some st) = Some (rev es ++ st).
Proof.
  induction es as [|e es IH]; intros st He; [done|]. apply Forall_cons in He as [(H1 & H2 & H3 & _) Hes]. cbn [fold_left].
  replace (walk_step (Some st) e) with (Some (e :: st)).
  { rewrite IH by done. cbn [rev]. by rewrite <- app_assoc. }
  unfold walk_step. cbn. by rewrite !bool_decide_eq_false_2.
Qed.

(** Whatever name a master sends, the path handed to the host walks down from the directory
    that is served and never out of it; it names what the cleaned name names. *)
Theorem resolve_inside name :
  walk (resolve name) = Some (rev (clean_elements (slash :: forward_slashes name))) /\ head (resolve name) <> Some slash.
Proof.
  unfold resolve, path_Clean. pose proof (clean_elements_ok (slash :: forward_slashes name)) as He.
  destruct (clean_elements (slash :: forward_slashes name)) as [|e es] eqn:E; [done|].
  pose proof (split_rooted (e :: es) He ltac:(done)) as Hs. destruct (rooted (e :: es)) as [|c rest] eqn:R; [done|].
  injection R as <- R. cbn [split_slash] in Hs. change (slash =? slash) with true in *. cbv iota in Hs. injection Hs as Hs.
  assert (Hr : exists x r, rest = x :: r /\ x <> slash).
  { apply Forall_cons in He as [(Hne & _ & _ & Hfree) _]. destruct e as [|x e]; [done|]. rewrite <- R. eexists _, _. split; [done|].
    apply not_elem_of_cons in Hfree as [? _]. congruence. }
  destruct Hr as (x & r & -> & Hx). rewrite len_cons. pose proof (len_nonneg r). rewrite (proj2 (Z.eqb_neq _ _)) by lia.
  split; [|cbn; congruence]. unfold walk. rewrite Hs, walk_elements, app_nil_r by done. done.
Qed.

(** ** Listings *)

Lemma name_le_antisymm a : forall b, name_le a b -> name_le b a -> a = b.
Proof.
  unfold name_le. induction a as [|x a IH]; intros [|y b]; cbn; try done.
  destruct (Z.ltb_spec x y), (Z.ltb_spec y x); try done; try lia. intros. f_equal; [lia | by apply IH].
Qed.
#[global] Instance name_le_total : Total name_le.
Proof.
  unfold name_le. intros a. induction a as [|x a IH]; intros [|y b]; cbn; try (by left); try (by right).
  destruct (Z.ltb_spec x y), (Z.ltb_spec y x); try (by left); try (by right). apply IH.
Qed.
#[global] Instance name_le_trans : Transitive name_le.
Proof.
  unfold name_le. intros a. induction a as [|x a IH]; intros [|y b] [|z c]; cbn; try done.
  destruct (Z.ltb_spec x y), (Z.ltb_spec y x), (Z.ltb_spec y z), (Z.ltb_spec z y), (Z.ltb_spec x z), (Z.ltb_spec z x); try done; try lia.
  apply IH.
Qed.
#[global] Instance info_le_total : Total info_le.
Proof. intros a b. apply name_le_total. Qed.
#[global] Instance info_le_trans : Transitive info_le.
Proof. intros a b c. apply name_le_trans. Qed.

(** Every file is kept under its own clean name. *)
Definition named (m : memFiles) : Prop :=
  forall k f, mf_files m !! k = Some f -> mf_name f = k /\ exists es, Forall element es /\ k = rooted es.

Lemma child_unique k k' es es' :
  Forall element es -> Forall element es' -> k = rooted es -> k' = rooted es' ->
  path_Dir k = path_Dir k' -> path_Base k = path_Base k' -> k = k'.
Proof.
  intros He He' -> ->. destruct es as [|e es _] using rev_ind; destruct es' as [|e' es' _] using rev_ind; [done| | |].
  - intros _. rewrite (path_Base_rooted es' e') by done. intros <-. exfalso.
    apply Forall_app in He' as [_ He']. apply Forall_cons in He' as [(_ & _ & _ & Hs) _]. apply Hs. by left.
  - intros _. rewrite (path_Base_rooted es e) by done. intros ->. exfalso.
    apply Forall_app in He as [_ He]. apply Forall_cons in He as [(_ & _ & _ & Hs) _]. apply Hs. by left.
  - rewrite !path_Dir_rooted, !path_Base_rooted by done. intros E <-. apply Forall_app in He as [He _]. apply Forall_app in He' as [He' _].
    by rewrite (rooted_inj _ _ He He' E).
Qed.

Lemma children_elem m entries dir i : entries ≡ₚ map_to_list (mf_files m) ->
  i ∈ children entries dir <-> exists k f, mf_files m !! k = Some f /\ path_Dir k = dir /\ i = mem_info f.
Proof.
  intros Hp. unfold children. rewrite list_elem_of_fmap. split.
  - intros ((k & f) & -> & Hin). apply list_elem_of_In, filter_In in Hin as [Hin Hd]. apply list_elem_of_In in Hin.
    rewrite Hp in Hin. apply elem_of_map_to_list in Hin. apply bool_decide_eq_true in Hd. by exists k, f.
  - intros (k & f & Hk & Hd & ->). exists (k, f). split; [done|]. apply list_elem_of_In, filter_In. split.
    + apply list_elem_of_In. rewrite Hp. by apply elem_of_map_to_list.
    + by apply bool_decide_eq_true.
Qed.
Lemma filter_Permutation {A} (P : A -> bool) l l' : l ≡ₚ l' -> List.filter P l ≡ₚ List.filter P l'.
Proof.
  induction 1 as [|x l l' _ IH|x y l|l l' l'' _ IH1 _ IH2]; cbn.
  - done.
  - destruct (P x); [by rewrite IH | done].
  - destruct (P y), (P x); try done. constructor.
  - by rewrite IH1.
Qed.

Lemma children_order m entries dir : named m -> entries ≡ₚ map_to_list (mf_files m) ->
  merge_sort info_le (children entries dir) = merge_sort info_le (children (map_to_list (mf_files m)) dir).
Proof.
  intros Hn Hp. apply (StronglySorted_unique_strong info_le).
  - intros i j Hi Hj Hij Hji. rewrite merge_sort_Permutation in Hi, Hj. apply (children_elem m) in Hi as (k & f & Hk & Hd & ->); [|done].
    apply (children_elem m) in Hj as (k' & f' & Hk' & Hd' & ->); [|done].
    pose proof (name_le_antisymm _ _ Hij Hji) as E. cbn in E.
    destruct (Hn k f Hk) as (N & es & He & Ek). destruct (Hn k' f' Hk') as (N' & es' & He' & Ek'). rewrite N, N' in E.
    assert (k = k') as <- by (apply (child_unique k k' es es'); congruence). congruence.
  - apply StronglySorted_merge_sort; apply _.
  - apply StronglySorted_merge_sort; apply _.
  - rewrite !merge_sort_Permutation. unfold children. by rewrite (filter_Permutation _ _ _ Hp).
Qed.

Lemma children_names m dir : named m -> NoDup (FI_Name <$> children (map_to_list (mf_files m)) dir).
Proof.
  intros Hn. unfold children. rewrite <- list_fmap_compose. apply NoDup_fmap_2_strong.
  - intros [k f] [k' f'] Hk Hk' E. apply list_elem_of_In, filter_In in Hk as [Hk Hd]. apply list_elem_of_In, filter_In in Hk' as [Hk' Hd'].
    apply list_elem_of_In, elem_of_map_to_list in Hk. apply list_elem_of_In, elem_of_map_to_list in Hk'.
    apply bool_decide_eq_true in Hd, Hd'. cbn in E, Hd, Hd'. destruct (Hn k f Hk) as (N & es & He & Ek). destruct (Hn k' f' Hk') as (N' & es' & He' & Ek').
    rewrite N, N' in E. assert (k = k') as <- by (apply (child_unique k k' es es'); congruence). congruence.
  - apply NoDup_ListNoDup, List.NoDup_filter, NoDup_ListNoDup, NoDup_map_to_list.
Qed.

(** A listing of a directory names its children, each once and in order of their names, and does
    not depend on the order in which the map of files is walked. *)
Theorem List_children m name entries : named m -> entries ≡ₚ map_to_list (mf_files m) ->
  list_order entries m name = mem_List m name /\
  (snd (mem_List m name) = FileSuccess ->
   StronglySorted info_le (fst (mem_List m name)) /\ NoDup (FI_Name <$> fst (mem_List m name)) /\
   forall i, i ∈ fst (mem_List m name) <-> exists k f, mf_files m !! k = Some f /\ path_Dir k = clean name /\ i = mem_info f).
Proof.
  intros Hn Hp. split.
  { unfold mem_List, list_order. by rewrite (children_order m entries) by done. }
  set (sorted := merge_sort info_le (children (map_to_list (mf_files m)) (clean name))).
  assert (S : StronglySorted info_le sorted /\ NoDup (FI_Name <$> sorted) /\
    forall i, i ∈ sorted <-> exists k f, mf_files m !! k = Some f /\ path_Dir k = clean name /\ i = mem_info f).
  { split_and!.
    - apply StronglySorted_merge_sort; apply _.
    - unfold sorted. rewrite merge_sort_Permutation. by apply children_names.
    - intros i. unfold sorted. rewrite merge_sort_Permutation. by apply children_elem. }
  unfold mem_List, list_order. fold sorted. destruct (bool_decide_reflect (clean name = [slash])); [by intros _|].
  destruct (lookup_file m (clean name)) as [f|]; [|by intros [=]]. destruct (mf_dir f); [by intros _ | by intros [=]].
Qed.

(** ** Writing and reading back *)

(** The blocks of a transfer, written until one fails. *)
Fixpoint mem_writes (w : memWriter) (blocks : list (list Z)) : memWriter * bool :=
  match blocks with
  | [] => (w, true)
  | p :: blocks => let '(w, ok) := mem_Write w p in if (ok : bool) then mem_writes w blocks else (w, false)
  end.
Lemma mem_writes_spec blocks : forall w, mw_over w = false ->
  let '(w', ok) := mem_writes w blocks in
  mw_name w' = mw_name w /\ mw_over w' = negb ok /\ (ok = true -> mw_buf w' = mw_buf w ++ concat blocks).
Proof.
  induction blocks as [|p blocks IH]; intros w Hw; cbn [mem_writes concat].
  - rewrite app_nil_r. by rewrite Hw.
  - unfold mem_Write. destruct (memFileLimit <? len (mw_buf w) + len p); [by split_and!|].
    specialize (IH (mkMemWriter (mw_name w) (mw_mode w) (mw_buf w ++ p) (mw_over w)) Hw). destruct (mem_writes _ blocks) as [w' ok].
    cbn [mw_name mw_buf] in IH. by rewrite app_assoc.
Qed.
Lemma mem_OpenWrite_spec m name mode w : mem_OpenWrite m name mode = Ok w ->
  mf_readOnly m = false /\ mw_name w = clean name /\ mw_over w = false /\
  mw_buf w = (if mode =? FileModeAppend then default [] (mf_data <$> lookup_file m name) else []) /\
  (forall f, lookup_file m name = Some f -> mf_dir f = false /\ Z.land (mf_perms f) PermOwnerWrite <> 0) /\
  (path_Dir (clean name) = [slash] \/ exists d, mf_files m !! path_Dir (clean name) = Some d /\ mf_dir d = true).
Proof.
  unfold mem_OpenWrite, lookup_file. destruct (mf_readOnly m); [done|]. intros E.
  assert (O : forall start, (if bool_decide (path_Dir (clean name) = [slash]) then Ok start
     else match mf_files m !! path_Dir (clean name) with
          | Some d => if mf_dir d then Ok start else Err FileNotFound
          | None => Err FileNotFound end) = Ok w ->
     w = start /\ (path_Dir (clean name) = [slash] \/ exists d, mf_files m !! path_Dir (clean name) = Some d /\ mf_dir d = true)).
  { intros start. destruct (bool_decide_reflect (path_Dir (clean name) = [slash])) as [Hd|]; [intros [= <-]; auto|].
    destruct (mf_files m !! path_Dir (clean name)) as [d|] eqn:Ed; [|done]. destruct (mf_dir d) eqn:Edd; [|done].
    intros [= <-]. split; [done|]. right. by exists d. }
  destruct (mf_files m !! clean name) as [f|] eqn:Ef.
  - destruct (mf_dir f) eqn:Efd; [done|]. destruct (Z.eqb_spec (Z.land (mf_perms f) PermOwnerWrite) 0) as [|Hp]; [done|].
    apply O in E as [-> Hdir]. split_and!; try done. by intros ? [= <-].
  - apply O in E as [-> Hdir]. by split_and!.
Qed.

(** What a master wrote is what is read back.  A transfer is opened, its blocks are written and
    it is closed, while the file system may have changed meanwhile.  If every block was taken,
    the file then holds what it held when an append was opened followed by the blocks, under
    every spelling of its name; if one was refused, nothing is installed.  No other file is
    touched. *)
Theorem write_read_back m m2 name mode w blocks now : mem_OpenWrite m name mode = Ok w ->
  let '(w', ok) := mem_writes w blocks in
  let m' := mem_Close m2 w' now in
  (ok = true -> forall name', clean name' = clean name ->
    exists f, lookup_file m' name' = Some f /\
      mf_data f = (if mode =? FileModeAppend then default [] (mf_data <$> lookup_file m name) else []) ++ concat blocks /\
      (lookup_file m2 name = None -> mem_OpenRead m' name' = Ok (mf_data f, mem_info f))) /\
  (ok = false -> m' = m2) /\
  (forall name', clean name' <> clean name -> lookup_file m' name' = lookup_file m2 name').
Proof.
  intros Ho. destruct (mem_OpenWrite_spec m name mode w Ho) as (_ & Hname & Hover & Hbuf & _).
  pose proof (mem_writes_spec blocks w Hover) as Hw. destruct (mem_writes w blocks) as [w' ok]. destruct Hw as (Hn & Hov & Hb).
  unfold mem_Close. rewrite Hov, Hn, Hname. destruct ok; cbn [negb].
  - specialize (Hb eq_refl). split_and!; [|done|].
    + intros _ name' En. unfold lookup_file. cbn [mf_files]. rewrite En, lookup_insert. rewrite decide_True by done. eexists. split; [done|].
      cbn [mf_data]. split; [by rewrite Hb, Hbuf|]. intros Hnew. rewrite Hnew. unfold mem_OpenRead, lookup_file. cbn [mf_files].
      rewrite En, lookup_insert, decide_True by done. done.
    + intros name' Hne. unfold lookup_file. cbn [mf_files]. by rewrite lookup_insert_ne by congruence.
  - by split_and!.
Qed.

(** A read-only device never changes: no writer is handed out, and nothing is deleted. *)
Theorem read_only_kept m name mode : mf_readOnly m = true ->
  mem_OpenWrite m name mode = Err FilePermissionDenied /\ mem_Delete m name = (m, FilePermissionDenied).
Proof. intros Hr. unfold mem_OpenWrite, mem_Delete. by rewrite Hr. Qed.

(** ** The tree *)

(** Everything is in the root or in a directory that is there. *)
Definition parent_there (m : memFiles) (k : list Z) : Prop :=
  path_Dir k = [slash] \/ exists d, mf_files m !! path_Dir k = Some d /\ mf_dir d = true.
Definition tree (m : memFiles) : Prop := named m /\ forall k f, mf_files m !! k = Some f -> parent_there m k.
(** A writer that was handed out. *)
Definition writer_named (w : memWriter) : Prop := exists es, Forall element es /\ mw_name w = rooted es.

Lemma Delete_named m name : named m -> named (fst (mem_Delete m name)).
Proof.
  intros Hn. unfold mem_Delete. destruct (mf_readOnly m); [done|]. destruct (mf_files m !! clean name) as [f|]; [|done].
  destruct (_ && _); [done|]. intros k g. cbn. rewrite lookup_delete_Some. intros [_ Hk]. by apply Hn.
Qed.
Lemma Close_named m w now : named m -> writer_named w -> named (mem_Close m w now).
Proof.
  intros Hn (es & He & Ew). unfold mem_Close. destruct (mw_over w); [done|]. intros k g. cbn [mf_files]. rewrite lookup_insert_Some.
  intros [[<- <-]|[_ Hk]]; [|by apply Hn]. cbn [mf_name]. split; [|by exists es].
  destruct (mf_files m !! mw_name w) as [f|] eqn:Ef; [by apply (Hn _ _ Ef) | done].
Qed.

(** The tree stays a tree: a delete leaves no orphan, and neither does a transfer that is closed
    while the directory it was opened in is still there, which it was when it was opened. *)
Theorem tree_kept m : tree m ->
  (forall name, tree (fst (mem_Delete m name))) /\
  (forall name mode w, mem_OpenWrite m name mode = Ok w -> writer_named w /\ parent_there m (mw_name w)) /\
  (forall w now, writer_named w -> parent_there m (mw_name w) -> tree (mem_Close m w now)).
Proof.
  intros [Hn Ht]. split_and!.
  - intros name. split; [by apply Delete_named|]. unfold mem_Delete. destruct (mf_readOnly m); [done|].
    destruct (mf_files m !! clean name) as [f|] eqn:Ef; [|done].
    destruct (mf_dir f && existsb _ _) eqn:Ec; [done|]. intros k g. cbn [fst mf_files]. rewrite lookup_delete_Some. intros [Hne Hk].
    destruct (Ht k g Hk) as [|(d & Hd & Hdd)]; [by left|]. right. exists d. split; [|done]. cbn [mf_files]. rewrite lookup_delete_ne; [done|].
    intros E. rewrite <- E, Ef in Hd. injection Hd as <-. rewrite Hdd in Ec. cbn [andb] in Ec. apply not_true_iff_false in Ec. apply Ec.
    apply existsb_exists. exists (k, g). split; [by apply list_elem_of_In, elem_of_map_to_list | by apply bool_decide_eq_true].
  - intros name mode w Hw. destruct (mem_OpenWrite_spec m name mode w Hw) as (_ & Hname & _ & _ & _ & Hp). rewrite <- Hname in Hp.
    split; [|exact Hp]. exists (clean_elements (slash :: forward_slashes name)). split; [apply clean_elements_ok | by rewrite Hname].
  - intros w now Hw Hp. split; [by apply Close_named|]. unfold mem_Close. destruct (mw_over w); [done|].
    assert (P : forall k, parent_there m k -> parent_there (mkMemFiles (<[mw_name w := mkMemFile
        (mf_name (default (mkMemFile (mw_name w) [] false zeroTime new_perms) (mf_files m !! mw_name w))) (mw_buf w)
        (mf_dir (default (mkMemFile (mw_name w) [] false zeroTime new_perms) (mf_files m !! mw_name w))) now
        (mf_perms (default (mkMemFile (mw_name w) [] false zeroTime new_perms) (mf_files m !! mw_name w)))]> (mf_files m)) (mf_readOnly m)) k).
    { intros k [|(d & Hd & Hdd)]; [by left|]. right. cbn [mf_files]. destruct (decide (mw_name w = path_Dir k)) as [E|E].
      - rewrite <- E in *. rewrite lookup_insert, decide_True by done. eexists. split; [done|]. cbn. by rewrite Hd.
      - rewrite lookup_insert_ne by done. by exists d. }
    intros k g. cbn [mf_files]. rewrite lookup_insert_Some. intros [[<- _]|[_ Hk]]; [by apply P | by eapply P, Ht].
Qed.

(** ** Runs *)

Example paths_text :
  of_octets (resolve (name_of "/../../etc/passwd")) = "etc/passwd" /\
  of_octets (resolve (0x5C :: name_of "logs//./../logs/x/")) = "logs/x" /\
  of_octets (resolve (name_of "..")) = "." /\
  of_octets (path_Dir (name_of "/logs/events.log")) = "/logs" /\
  of_octets (path_Base (name_of "logs/events.log//")) = "events.log".
Proof. vm_compute. done. Qed.

Definition sample_files : memFiles :=
  mkMemFiles (<[name_of "/logs" := mkMemFile (name_of "/logs") [] true 0 (Z.lor PermOwnerRead PermOwnerExecute)]>
    (<[name_of "/config.yaml" := mkMemFile (name_of "/config.yaml") [1; 2; 3] false 0 new_perms]> ∅)) false.

Lemma sample_tree : tree sample_files.
Proof.
  assert (E : forall s, Forall element [name_of s] <-> element (name_of s)) by (intros; rewrite Forall_singleton; done).
  assert (L : element (name_of "logs")) by (split_and!; try done; set_solver).
  assert (C : element (name_of "config.yaml")) by (split_and!; try done; set_solver).
  split; intros k f; cbn [sample_files mf_files]; rewrite !lookup_insert_Some; intros [[<- <-]|[_ [[<- <-]|[_ Hk]]]]; try (by rewrite lookup_empty in Hk).
  - split; [done|]. exists [name_of "logs"]. split; [by apply E | reflexivity].
  - split; [done|]. exists [name_of "config.yaml"]. split; [by apply E | reflexivity].
  - left. reflexivity.
  - left. reflexivity.
Qed.

(** A transfer that is closed before its end replaces the file with what had arrived. *)
Example cut_short_installed :
  match mem_OpenWrite sample_files (name_of "config.yaml") FileModeWrite with
  | Ok w => mf_data <$> lookup_file (mem_Close sample_files (fst (mem_Write w [9])) 0) (name_of "config.yaml") = Some [9]
  | Err _ => False
  end.
Proof. vm_compute. done. Qed.

(** The root can be opened for writing, and is then listed in itself. *)
Example root_written :
  match mem_OpenWrite sample_files (name_of "/") FileModeWrite with
  | Ok w => let m := mem_Close sample_files w 0 in
            of_octets ∘ FI_Name <$> fst (mem_List m (name_of "/")) = ["/"; "config.yaml"; "logs"]
  | Err _ => False
  end.
Proof. vm_compute. done. Qed.

(** A directory deleted while a file in it is being written leaves the file without one. *)
Example orphan_left :
  match mem_OpenWrite sample_files (name_of "logs/new") FileModeWrite, mem_Delete sample_files (name_of "logs") with
  | Ok w, (m, status) =>
      let m := mem_Close m w 0 in
      status = FileSuccess /\ is_Some (lookup_file m (name_of "logs/new")) /\ mem_List m (name_of "logs") = ([], FileNotFound)
  | Err _, _ => False
  end.
Proof. vm_compute. split_and!; [done | by eexists | done]. Qed.
