(* ===== verification/FileUpload.v ===== *)
(** * What a file transfer takes

    The other direction of FileTransfer: a master that writes a file.  [Writes] states what the
    writer of a handler promises; with one that keeps to it, the blocks a master sends in order
    are acknowledged and taken as they are, and the close tells the truth: it reports success
    exactly when the last block came and the octets are as many as the master declared
    ([file_uploaded]).  The writer is closed in either case, with what it has taken; what that
    means for the file is the handler's. *)

From stdpp Require Import gmap.
From S2P Require Import Prelude StateMonad Stack LinkLayer Values AppHeader AppObject AppFragment Objects Codecs FileObjects ExtObjects.
From S2P Require Import EventBuffer Database ExtendedDatabase Commands Response OutstationState Respond FileServer FileTransfer.

(** ** Writers *)

(** [taken a w octets] says that the writer [w] has taken [octets].  It takes what it is given
    up to its capacity, and the clock leaves it alone. *)
Class Writes {Env : Environment} := {
  taken : App -> Writer -> list Z -> Prop;
  capacity : Z;
  writer_contract a w octets data : taken a w octets -> len octets + len data <= capacity ->
    exists a', writer_Write a w data = (a', true) /\ taken a' w (octets ++ data);
  clock_leaves_writer a w octets : taken a w octets -> taken (appl_Now a).1 w octets }.

Section Writing.
Context {Env : Environment} {LL : LinkLayer} {WR : Writes} {RL : Reliable}.

(** The objects of a written block and of a close. *)
Definition brings (h : ObjectHeader) (n block : Z) (last : bool) (data : list Z) : Prop := exists obj,
  FirstFreeFormatObject h = Ok obj /\ ParseFileTransport obj = Ok (mkFileTransport n block last data).

(** The bodies of the answers. *)
Definition taken_body (n block : Z) (last : bool) (status : Z) : list Z :=
  match FreeFormat 70 6 (AppendFileTransportStatus [] (mkFileTransportStatus n block last status [])) with
  | Ok h => AppendObjectHeader [] h | Err _ => [] end.
Definition closed_body (n request status : Z) : list Z :=
  match FreeFormat 70 4 (AppendFileCommandStatus [] (file_reply n 0 0 request status)) with
  | Ok h => AppendObjectHeader [] h | Err _ => [] end.

Lemma respondFile_taken r req n block last status :
  respondFile r req 6 (AppendFileTransportStatus [] (mkFileTransportStatus n block last status [])) = respond r req (taken_body n block last status).
Proof. reflexivity. Qed.
Lemma respondFile_closed r req n request status :
  respondFile r req 4 (AppendFileCommandStatus [] (file_reply n 0 0 request status)) = respond r req (closed_body n request status).
Proof. reflexivity. Qed.

(** A file open for writing, the block [i] expected next; [before] is what the writer held when
    the file was opened, and [got] what the master sent since. *)
Record uploading (st : state) (n bs i size : Z) (last : bool) (w : Writer) (before got : list Z) : Prop := mkUploading {
  u_idle : idle st;
  u_enabled : fileEnabled (sess st) = true;
  u_file : exists t, file (sess st) = Some t /\ handle t = n /\ blockSize t = bs /\ is_writing t = true /\ t_done t = last /\
    t_block t = i /\ t_received t = len got /\ t_size t = size /\ t_r t = None /\ t_w t = Some w /\ taken (appl st) w (before ++ got) }.

Lemma onFileWrite_block r frag h st n bs i size last last' w before got data :
  Broadcast r = false -> 0 <= Seq (HControl (FHeader frag)) -> brings h n i last' data ->
  uploading st n bs i size last w before got -> len data <= bs -> len (before ++ got) + len data <= capacity -> len (got ++ data) < 2 ^ 64 ->
  exists st' v, onFileWrite r frag h st = (st', None) /\
    uploading st' n bs (u32 (i + 1)) size last' w before (got ++ data) /\
    sent st' = sent st ++ [response_fragment [taken_body n i last' FileSuccess] (Source r) (Seq (HControl (FHeader frag))) false 0 v].
Proof.
  intros Hb Hq (obj & Ho & Hp) [Hid Hen (t & Hf & Hn & Hbs & Hm & Hl & Hi & Hr & Hs & Hnr & Hw & Ht)] Hd Hc H64.
  unfold onFileWrite. compute_session. rewrite Hen, Ho, Hp, Hf. cbn [negb FT_Handle FT_Block FT_Data FT_Last]. rewrite Hn, Hm, Hi, Hbs, !Z.eqb_refl.
  cbn [negb]. rewrite (proj2 (Z.ltb_ge _ _)) by lia. unfold write_block. compute_session. unfold call.
  pose proof (clock_leaves_writer _ _ _ Ht) as Ht'. destruct (appl_Now (appl st)) as [a now]. cbn [fst] in Ht'. compute_session.
  change (t_w (with_deadline _ t)) with (t_w t). rewrite Hw. compute_session.
  destruct (writer_contract a w (before ++ got) data Ht' Hc) as (a' & Ew & Ht2). cbn [FT_Data FT_Last]. rewrite Ew. compute_session.
  unfold transportStatus. cbn [TS_Status]. change (negb (FileSuccess =? FileSuccess)) with false. compute_session. rewrite respondFile_taken.
  match goal with |- context [respond _ _ _ ?s] => destruct (respond_once r (FHeader frag) (taken_body n i last' FileSuccess) s Hb Hq)
    as (st' & v & E' & Hid' & Hbe & Hsent) end; [by destruct Hid|].
  rewrite E'. exists st', v. split; [done|]. split; [|done].
  injection Hbe as Hc' Hf' Ha'. split; [exact Hid' | unfold fileEnabled; rewrite Hc'; exact Hen|]. rewrite Hf', Ha'.
  eexists. split; [done|]. split_and!; try done; cbn.
  - by rewrite Hi.
  - rewrite Hr. unfold u64. rewrite <- len_app. rewrite Z.mod_small; [done|]. pose proof (len_nonneg (got ++ data)). lia.
  - by rewrite app_assoc.
Qed.

(** ** The close *)

Definition whole (size : Z) (last : bool) (got : list Z) : bool := last && (len got =? size).

Lemma onCloseFile_upload r frag st req n bs i size last w before got :
  Broadcast r = false -> 0 <= Seq (HControl (FHeader frag)) -> parseFileStatus frag = Some req -> FS_Handle req = n ->
  uploading st n bs i size last w before got ->
  exists st' v, onCloseFile r frag st = (st', None) /\ idle st' /\ file (sess st') = None /\
    appl st' = (writer_Close (appl st) w).1 /\
    sent st' = sent st ++ [response_fragment [closed_body n (FS_RequestID req)
      (if (writer_Close (appl st) w).2 && whole size last got then FileSuccess else FileFatal)] (Source r) (Seq (HControl (FHeader frag))) false 0 v].
Proof.
  intros Hb Hq Hp Hn' [Hid Hen (t & Hf & Hn & Hbs & Hm & Hl & Hi & Hr & Hs & Hnr & Hw & Ht)].
  unfold onCloseFile. compute_session. rewrite Hen, Hp, Hf. cbn [negb]. rewrite Hn, Hn', Z.eqb_refl. cbn [negb].
  unfold closeFile. compute_session. rewrite Hf. compute_session. unfold transfer_close. rewrite Hnr, Hw. unfold call. compute_session.
  destruct (writer_Close (appl st) w) as [a' closed]. compute_session. cbn [fst snd].
  assert (Ei : incomplete t = negb (whole size last got)).
  { unfold incomplete, whole. rewrite Hm, Hl, Hr, Hs. by destruct last, (_ =? _). }
  rewrite Ei. unfold commandStatus. destruct (closed && whole size last got) eqn:Ec.
  - replace (negb closed || negb (whole size last got)) with false by (by rewrite <- negb_andb, Ec).
    cbn [file_reply FS_Status]. change (negb (FileSuccess =? FileSuccess)) with false. compute_session. rewrite respondFile_closed.
    match goal with |- context [respond _ _ ?b ?s] => destruct (respond_once r (FHeader frag) b s Hb Hq) as (st' & v & E' & Hid' & Hbe & Hsent) end; [by destruct Hid|].
    injection Hbe as Hc' Hf' Ha'. exists st', v. rewrite E'. split_and!; [done | done | by rewrite Hf' | by rewrite Ha' | by rewrite Hsent].
  - replace (negb closed || negb (whole size last got)) with true by (by rewrite <- negb_andb, Ec).
    cbn [file_reply FS_Status]. change (negb (FileFatal =? FileSuccess)) with true. unfold bump. compute_session. rewrite respondFile_closed.
    match goal with |- context [respond _ _ ?b ?s] => destruct (respond_once r (FHeader frag) b s Hb Hq) as (st' & v & E' & Hid' & Hbe & Hsent) end; [by destruct Hid|].
    injection Hbe as Hc' Hf' Ha'. exists st', v. rewrite E'. split_and!; [done | done | by rewrite Hf' | by rewrite Ha' | by rewrite Hsent].
Qed.

(** The documentation of [OpenWrite] lets a master that does not know the length declare zero; the
    close takes that for the length, and refuses every file that has an octet. *)
Lemma undeclared_size_refused r frag st req n bs i last w before got :
  Broadcast r = false -> 0 <= Seq (HControl (FHeader frag)) -> parseFileStatus frag = Some req -> FS_Handle req = n ->
  uploading st n bs i 0 last w before got -> got <> [] ->
  exists st' v, onCloseFile r frag st = (st', None) /\ file (sess st') = None /\
    sent st' = sent st ++ [response_fragment [closed_body n (FS_RequestID req) FileFatal] (Source r) (Seq (HControl (FHeader frag))) false 0 v].
Proof.
  intros Hb Hq Hp Hn Hu Hg. destruct (onCloseFile_upload r frag st req n bs i 0 last w before got Hb Hq Hp Hn Hu) as (st' & v & E & _ & Hf & _ & Hs).
  exists st', v. split_and!; [done | done|]. rewrite Hs. unfold whole.
  rewrite (proj2 (Z.eqb_neq (len got) 0)) by (destruct got; [done | rewrite len_cons; pose proof (len_nonneg got); lia]).
  by rewrite !andb_false_r.
Qed.

(** ** The whole file *)

Section Upload.
Context (r : Received) (frag : nat -> Fragment) (h : nat -> ObjectHeader) (n : Z) (blocks : list (list Z)).

Definition is_last (i : nat) : bool := bool_decide (S i = length blocks).
(** The master sends the first [k] blocks. *)
Fixpoint upload (k : nat) (st : state) : state :=
  match k with O => st | S k => (onFileWrite r (frag k) (h k) (upload k st)).1 end.
Definition upload_answer (i : nat) (iin : Z) : Z * list Z :=
  response_fragment [taken_body n (Z.of_nat i) (is_last i) FileSuccess] (Source r) (Seq (HControl (FHeader (frag i)))) false 0 iin.

(** The requests carry the blocks, in order, and the last is marked. *)
Definition sends (bs : Z) : Prop :=
  (forall i, 0 <= Seq (HControl (FHeader (frag i)))) /\
  forall i data, blocks !! i = Some data -> brings (h i) n (Z.of_nat i) (is_last i) data /\ len data <= bs.

Lemma upload_takes bs size w before st k :
  Broadcast r = false -> sends bs -> blocks <> [] -> len before + len (concat blocks) <= capacity ->
  Z.of_nat (length blocks) < 2 ^ 32 -> len (concat blocks) < 2 ^ 64 -> uploading st n bs 0 size false w before [] -> (k <= length blocks)%nat ->
  (exists iins, length iins = k /\ sent (upload k st) = sent st ++ zip_with upload_answer (seq 0 k) iins) /\
  uploading (upload k st) n bs (Z.of_nat k) size (bool_decide (k = length blocks)) w before (concat (take k blocks)).
Proof.
  intros Hb [Hq Hs] Hne Hcap H32 H64 H0. induction k as [|k IH]; intros Hk.
  - split; [exists []; by rewrite app_nil_r|]. rewrite bool_decide_eq_false_2; [done|]. by destruct blocks.
  - destruct IH as [(iins & Hl & Hsent) Hu]; [lia|]. destruct (lookup_lt_is_Some_2 blocks k) as [data Hd]; [lia|].
    destruct (Hs k data Hd) as [Hbr Hsz]. cbn [upload]. rewrite (take_S_r _ _ _ Hd), concat_app. cbn [concat]. rewrite app_nil_r.
    assert (E : concat blocks = (concat (take k blocks) ++ data) ++ concat (drop (S k) blocks)).
    { rewrite <- (take_drop_middle blocks k data Hd) at 1. rewrite concat_app. cbn [concat]. by rewrite app_assoc. }
    rewrite E in Hcap, H64. rewrite !len_app in Hcap, H64. pose proof (len_nonneg (concat (drop (S k) blocks))).
    destruct (onFileWrite_block r (frag k) (h k) (upload k st) n bs (Z.of_nat k) size (bool_decide (k = length blocks)) (is_last k) w before
      (concat (take k blocks)) data Hb (Hq k) Hbr Hu Hsz) as (st1 & v & E1 & Hu1 & Hs1); [rewrite len_app; lia | rewrite len_app; lia|].
    rewrite E1. cbn [fst]. split.
    + exists (iins ++ [v]). rewrite length_app, Hl. split; [cbn; lia|]. rewrite seq_S, zip_with_app by (by rewrite length_seq).
      cbn [zip_with]. by rewrite Hs1, Hsent, app_assoc.
    + replace (u32 (Z.of_nat k + 1)) with (Z.of_nat (S k)) in Hu1 by (unfold u32; rewrite Z.mod_small; lia). exact Hu1.
Qed.

(** C23. A master that writes a file, in blocks within the size agreed and in order, has every
    block acknowledged and taken as it is, over a link that takes what it is given and with a
    writer that has room for them.  When it closes after [k] of them, the writer is closed with
    exactly what was sent, the transfer is over, and the answer is a success when all blocks
    were sent, the octets are exactly as many as were declared (a declared size of zero is no
    exception: it goes only with a file of no octets) and the writer could be closed, and only
    then. *)
Theorem file_uploaded bs size w before st k rc close req :
  Broadcast r = false -> sends bs -> blocks <> [] -> len before + len (concat blocks) <= capacity ->
  Z.of_nat (length blocks) < 2 ^ 32 -> len (concat blocks) < 2 ^ 64 -> uploading st n bs 0 size false w before [] -> (k <= length blocks)%nat ->
  Broadcast rc = false -> 0 <= Seq (HControl (FHeader close)) -> parseFileStatus close = Some req -> FS_Handle req = n ->
  let st1 := upload k st in
  (exists iins, length iins = k /\ sent st1 = sent st ++ zip_with upload_answer (seq 0 k) iins) /\
  taken (appl st1) w (before ++ concat (take k blocks)) /\
  exists st2 v, onCloseFile rc close st1 = (st2, None) /\ file (sess st2) = None /\ appl st2 = (writer_Close (appl st1) w).1 /\
    sent st2 = sent st1 ++ [response_fragment [closed_body n (FS_RequestID req)
      (if (writer_Close (appl st1) w).2 && (bool_decide (k = length blocks) && (len (concat (take k blocks)) =? size)) then FileSuccess
       else FileFatal)] (Source rc) (Seq (HControl (FHeader close))) false 0 v].
Proof.
  intros Hb Hs Hne Hcap H32 H64 H0 Hk Hbc Hqc Hp Hh st1.
  destruct (upload_takes bs size w before st k) as [Hsent Hu]; [done..|]. split; [exact Hsent|]. fold st1 in Hu.
  split; [by destruct Hu as [_ _ (t & _ & _ & _ & _ & _ & _ & _ & _ & _ & _ & Ht)]|].
  destruct (onCloseFile_upload rc close st1 req n bs (Z.of_nat k) size _ w before _ Hbc Hqc Hp Hh Hu) as (st2 & v & E & _ & Hf & Ha & Hs2).
  by exists st2, v.
Qed.
End Upload.
End Writing.
