(* ===== verification/Simulator.v ===== *)
(** * The simulated plant (src/cmd/dnp3-outstation/sim.go, and the handlers of main.go)

    What a simulated outstation has to report: analogs that follow a signal, breakers that take
    their time to move, setpoints that hold what they were written, and counters.  [Apply]
    writes it into the database of the outstation; commands reach it through [plantHandler].

    The sine, the random source and what a conversion to [uint32] makes of a number it cannot
    hold are parameters ([Numerics]); the order in which a map is walked is an argument.

    The theorems: a select answers what the operate would and moves nothing ([select_asks]), for
    a control code the plant knows; a setpoint holds and reports exactly what was accepted
    ([setpoint_held]); a breaker that was operated stays where it is until its travel time has
    passed and is then where it was sent, in the database as well ([breaker_travels]). *)

From Stdlib Require Import Ascii SpecFloat.
From stdpp Require Import gmap.
From S2P Require Import Prelude Values Floats EventBuffer Database Commands Text.
#[local] Open Scope Z_scope.

(** ** Numbers and times *)

Class Numerics := {
  math_Sin : spec_float -> spec_float;
  Rand : Type;
  rand_Float64 : Rand -> Rand * spec_float;
  uint32_beyond : spec_float -> Z }.

Definition one_second : Z := 1000000000.
(** [Time.Sub], which saturates; [Duration.Seconds]; [Time.IsZero]. *)
Definition time_Sub (a b : Z) : Z := Z.max (- 2 ^ 63) (Z.min (a - b) (2 ^ 63 - 1)).
Definition Seconds (d : Z) : spec_float :=
  f64_add (f64_of_Z (Z.quot d one_second)) (f64_div (f64_of_Z (Z.rem d one_second)) (f64_of_Z one_second)).
Definition IsZero (t : Z) : bool := t =? zeroTime.

Definition is_nan (x : spec_float) : bool := match x with S754_nan => true | _ => false end.
Definition is_inf (x : spec_float) : bool := match x with S754_infinity _ => true | _ => false end.
Definition is_neg (x : spec_float) : bool :=
  match x with S754_zero s | S754_infinity s | S754_finite s _ _ => s | S754_nan => false end.

(** [math.Min], [math.Max] and [math.Mod]. *)
Definition math_Min (x y : spec_float) : spec_float :=
  if is_inf x && is_neg x || is_inf y && is_neg y then S754_infinity true
  else if is_nan x || is_nan y then S754_nan
  else if SFeqb x f64_zero && SFeqb x y then if is_neg x then x else y
  else if SFltb x y then x else y.
Definition math_Max (x y : spec_float) : spec_float :=
  if is_inf x && negb (is_neg x) || is_inf y && negb (is_neg y) then S754_infinity false
  else if is_nan x || is_nan y then S754_nan
  else if SFeqb x f64_zero && SFeqb x y then if is_neg x then y else x
  else if SFltb y x then x else y.
(** The remainder is a multiple of the smaller of the two units in the last place, and smaller
    than the divisor: it is held exactly. *)
Definition math_Mod (x y : spec_float) : spec_float :=
  match x, y with
  | S754_nan, _ | _, S754_nan | S754_infinity _, _ | _, S754_zero _ => S754_nan
  | S754_zero _, _ | _, S754_infinity _ => x
  | S754_finite s m e, S754_finite _ m' e' =>
      let k := Z.min e e' in
      binary_normalize f64_prec f64_emax
        (cond_Zopp s ((Zpos m * 2 ^ (e - k)) mod (Zpos m' * 2 ^ (e' - k)))) k s
  end.

(** The constants [2*math.Pi], [0.02] and [tickSeconds]. *)
Definition two_pi : spec_float := f64_from_bits 0x401921FB54442D18.
Definition walk_step_size : spec_float := f64_from_bits 0x3F947AE147AE147B.
Definition tickSeconds : spec_float := f64_from_bits 0x3FD0000000000000.

(** ** The parts of the plant *)

Definition Signal : Type := string.
Definition SignalSine : Signal := "sine".
Definition SignalRamp : Signal := "ramp".
Definition SignalRandomWalk : Signal := "walk".
Definition SignalStep : Signal := "step".
Definition SignalFixed : Signal := "fixed".

Record AnalogSim := mkAnalogSim {
  as_Index : Z; as_Name : string; as_Units : string; as_Signal : Signal; as_Min : spec_float; as_Max : spec_float;
  as_Period : Z; as_Noise : spec_float; as_Deadband : spec_float; as_Class : Z;
  as_value : spec_float; as_phase : spec_float }.
Definition with_signal (g : Signal) (v : spec_float) (a : AnalogSim) : AnalogSim :=
  mkAnalogSim (as_Index a) (as_Name a) (as_Units a) g (as_Min a) (as_Max a) (as_Period a) (as_Noise a) (as_Deadband a)
    (as_Class a) v (as_phase a).
Definition with_start (v phase : spec_float) (a : AnalogSim) : AnalogSim :=
  mkAnalogSim (as_Index a) (as_Name a) (as_Units a) (as_Signal a) (as_Min a) (as_Max a) (as_Period a) (as_Noise a)
    (as_Deadband a) (as_Class a) v phase.

Record SetpointSim := mkSetpointSim {
  sp_Index : Z; sp_Name : string; sp_Units : string; sp_Min : spec_float; sp_Max : spec_float; sp_Initial : spec_float;
  sp_Class : Z; sp_value : spec_float; sp_written : Z }.
Definition with_written (v : spec_float) (t : Z) (s : SetpointSim) : SetpointSim :=
  mkSetpointSim (sp_Index s) (sp_Name s) (sp_Units s) (sp_Min s) (sp_Max s) (sp_Initial s) (sp_Class s) v t.
Definition SetpointSim0 (i : Z) : SetpointSim := mkSetpointSim i "" "" f64_zero f64_zero f64_zero 0 f64_zero zeroTime.

Definition bounded (s : SetpointSim) : bool := negb (SFeqb (sp_Min s) f64_zero) || negb (SFeqb (sp_Max s) f64_zero).
Definition accepts (s : SetpointSim) (v : spec_float) : bool :=
  if is_nan v || is_inf v then false
  else negb (bounded s) || (SFleb (sp_Min s) v && SFleb v (sp_Max s)).

Record BreakerSim := mkBreakerSim {
  bs_StatusIndex : Z; bs_ControlIndex : Z; bs_Name : string; bs_Closed : bool; bs_Interlocked : bool;
  bs_TravelTime : Z; bs_Class : Z; bs_movingUntil : Z; bs_target : bool }.
Definition with_position (closed : bool) (until : Z) (target : bool) (b : BreakerSim) : BreakerSim :=
  mkBreakerSim (bs_StatusIndex b) (bs_ControlIndex b) (bs_Name b) closed (bs_Interlocked b) (bs_TravelTime b) (bs_Class b)
    until target.

Record CounterSim := mkCounterSim {
  cs_Index : Z; cs_Name : string; cs_PerSecond : spec_float; cs_Class : Z; cs_value : spec_float }.

Record Injection := mkInjection { EventStorm : Z; DeviceTrouble : bool; RestartAfter : Z; OfflineEvery : Z }.

Record Simulator := mkSimulator {
  analogs : list AnalogSim; breakers : list BreakerSim; counters : list CounterSim;
  setpoints : gmap Z SetpointSim; setpointOrder : list Z; inject : Injection; sim_start : Z;
  stormIndex : Z; lastOffline : Z; offlineNow : bool }.
Definition with_plant (a : list AnalogSim) (b : list BreakerSim) (c : list CounterSim) (sp : gmap Z SetpointSim) (s : Simulator)
    : Simulator :=
  mkSimulator a b c sp (setpointOrder s) (inject s) (sim_start s) (stormIndex s) (lastOffline s) (offlineNow s).
Definition with_faults (storm last : Z) (offline : bool) (s : Simulator) : Simulator :=
  mkSimulator (analogs s) (breakers s) (counters s) (setpoints s) (setpointOrder s) (inject s) (sim_start s) storm last offline.

(** The part of a configuration the plant is built from ([Points.AnalogOutputStatus] is
    [outputs]). *)
Section Plant.
Context `{Numerics}.

Definition to_uint32 (x : spec_float) : Z :=
  match x with
  | S754_infinity _ | S754_nan => uint32_beyond x
  | _ => if (0 <=? f64_trunc x) && (f64_trunc x <? 2 ^ 32) then f64_trunc x else uint32_beyond x
  end.

Fixpoint start_analogs (r : Rand) (l : list AnalogSim) : Rand * list AnalogSim :=
  match l with
  | [] => (r, [])
  | a :: l =>
      let '(r, u) := rand_Float64 r in
      let a := with_start (f64_div (f64_add (as_Min a) (as_Max a)) f64_two)
                 (f64_mul (f64_mul u f64_two) (f64_from_bits 0x400921FB54442D18)) a in
      let '(r, l) := start_analogs r l in (r, a :: l)
  end.
Definition add_setpoint (m : gmap Z SetpointSim) (sp : SetpointSim) : gmap Z SetpointSim :=
  <[sp_Index sp := with_written (sp_Initial sp) (sp_written sp) sp]> m.
Definition add_unnamed (m : gmap Z SetpointSim) (i : Z) : gmap Z SetpointSim :=
  match m !! i with Some _ => m | None => <[i := SetpointSim0 i]> m end.
Definition NewSimulator (as_ : list AnalogSim) (bs : list BreakerSim) (cs : list CounterSim) (sps : list SetpointSim)
    (outputs : Z) (inj : Injection) (now : Z) (r : Rand) : Rand * Simulator :=
  let '(r, as_) := start_analogs r as_ in
  let bs := (fun b => with_position (bs_Closed b) (bs_movingUntil b) (bs_Closed b) b) <$> bs in
  let named := fold_left add_setpoint sps ∅ in
  (r, mkSimulator as_ bs cs (fold_left add_unnamed (seqZ 0 (u16 outputs)) named) (sp_Index <$> sps) inj now 0 zeroTime false).

(** ** Signals *)

Definition period_of (d : Z) (otherwise : Z) : spec_float :=
  let p := Seconds d in if SFleb p f64_zero then f64_of_Z otherwise else p.
(** [2*rand.Float64() - 1]. *)
Definition jitter (u : spec_float) : spec_float := f64_sub (f64_mul f64_two u) f64_one.

Definition next (a : AnalogSim) (elapsed : spec_float) (r : Rand) : Rand * spec_float :=
  let span := f64_sub (as_Max a) (as_Min a) in
  let mid := f64_div (f64_add (as_Min a) (as_Max a)) f64_two in
  let '(r, v) :=
    if String.eqb (as_Signal a) SignalSine then
      let period := period_of (as_Period a) 60 in
      (r, f64_add mid (f64_mul (f64_div span f64_two)
            (math_Sin (f64_add (f64_div (f64_mul two_pi elapsed) period) (as_phase a)))))
    else if String.eqb (as_Signal a) SignalRamp then
      let period := period_of (as_Period a) 60 in
      (r, f64_add (as_Min a) (f64_mul span (f64_div (math_Mod elapsed period) period)))
    else if String.eqb (as_Signal a) SignalRandomWalk then
      let '(r, u) := rand_Float64 r in
      (r, math_Min (math_Max (f64_add (as_value a) (f64_mul (f64_mul span walk_step_size) (jitter u))) (as_Min a)) (as_Max a))
    else if String.eqb (as_Signal a) SignalStep then
      let period := period_of (as_Period a) 30 in
      (r, if SFltb (math_Mod elapsed period) (f64_div period f64_two) then as_Min a else as_Max a)
    else (r, if SFeqb (as_value a) f64_zero then mid else as_value a) in
  if SFltb f64_zero (as_Noise a)
  then let '(r, u) := rand_Float64 r in (r, f64_add v (f64_mul (f64_mul span (as_Noise a)) (jitter u)))
  else (r, v).

(** ** Writing the plant into the database *)

Fixpoint apply_analogs (elapsed : spec_float) (flags now : Z) (l : list AnalogSim) (r : Rand) (db : Database)
    : list AnalogSim * Rand * Database :=
  match l with
  | [] => ([], r, db)
  | a :: l =>
      let '(r, v) := next a elapsed r in
      let '(l, r, db) := apply_analogs elapsed flags now l r (UpdateAnalog db (as_Index a) (mkMeasurement v flags (Now now))) in
      (with_start v (as_phase a) a :: l, r, db)
  end.

(** A breaker in travel keeps its position until it arrives. *)
Definition arrive (now : Z) (b : BreakerSim) : BreakerSim :=
  if negb (IsZero (bs_movingUntil b)) && (bs_movingUntil b <? now)
  then with_position (bs_target b) zeroTime (bs_target b) b else b.
Definition apply_breaker (flags now : Z) (db : Database) (b : BreakerSim) : Database :=
  let m := mkMeasurement (bs_Closed b) flags (Now now) in
  UpdateBinaryOutputStatus (UpdateBinary db (bs_StatusIndex b) m) (bs_ControlIndex b) m.
Definition apply_setpoint (sps : gmap Z SetpointSim) (flags now : Z) (db : Database) (i : Z) : Database :=
  match sps !! i with
  | Some sp => UpdateAnalogOutputStatus db (sp_Index sp) (mkMeasurement (sp_value sp) flags (Now now))
  | None => db
  end.
Definition count_on (c : CounterSim) : CounterSim :=
  mkCounterSim (cs_Index c) (cs_Name c) (cs_PerSecond c) (cs_Class c)
    (f64_add (cs_value c) (f64_mul (cs_PerSecond c) tickSeconds)).
Definition apply_counter (flags now : Z) (db : Database) (c : CounterSim) : Database :=
  UpdateCounter db (cs_Index c) (mkMeasurement (to_uint32 (cs_value c)) flags (Now now)).

(** The events of a storm. *)
Fixpoint storm (n : nat) (bs : list BreakerSim) (now index : Z) (db : Database) : Z * Database :=
  match n with
  | O => (index, db)
  | S n =>
      let i := Z.rem index (len bs) in
      let index := u16 (index + 1) in
      let db := match bs !! Z.to_nat i with
                | Some b => UpdateBinary db (bs_StatusIndex b) (mkMeasurement (Z.rem index 2 =? 0) Online (Now now))
                | None => db
                end in
      storm n bs now index db
  end.
Definition storm_size (s : Simulator) : nat := Z.to_nat (f64_trunc (f64_mul (f64_of_Z (EventStorm (inject s))) tickSeconds)).

(** [order] is the order in which the map of setpoints is walked. *)
Definition Apply (s : Simulator) (now : Z) (order : list Z) (r : Rand) (db : Database) : Simulator * Rand * Database :=
  let elapsed := Seconds (time_Sub now (sim_start s)) in
  let flip := (0 <? OfflineEvery (inject s)) && (OfflineEvery (inject s) <? time_Sub now (lastOffline s)) in
  let offline := if flip then negb (offlineNow s) else offlineNow s in
  let last := if flip then now else lastOffline s in
  let flags := if offline then CommLost else Online in
  let '(as_, r, db) := apply_analogs elapsed flags now (analogs s) r db in
  let bs := arrive now <$> breakers s in
  let db := fold_left (apply_breaker flags now) bs db in
  let db := fold_left (apply_setpoint (setpoints s) flags now) order db in
  let cs := count_on <$> counters s in
  let db := fold_left (apply_counter flags now) cs db in
  let '(index, db) :=
    if (0 <? EventStorm (inject s)) && (0 <? len bs) then storm (storm_size s) bs now (stormIndex s) db
    else (stormIndex s, db) in
  (with_faults index last offline (with_plant as_ bs cs (setpoints s) s), r, db).

(** ** Commands *)

(** What a breaker says to a command, and where it then is. *)
Definition breaker_status (b : BreakerSim) : Z :=
  if bs_Interlocked b then CommandNotSupported
  else if negb (IsZero (bs_movingUntil b)) then CommandAlreadyActive
  else CommandSuccess.
Definition breaker_moves (close : bool) (now : Z) (b : BreakerSim) : BreakerSim :=
  if 0 <? bs_TravelTime b then with_position (bs_Closed b) (now + bs_TravelTime b) close b
  else with_position close (bs_movingUntil b) close b.
(** The loop of [Operate]: the first breaker with the index. *)
Fixpoint operate_loop (controlIndex : Z) (close : bool) (now : Z) (bs : list BreakerSim) : list BreakerSim * Z :=
  match bs with
  | [] => ([], CommandNotSupported)
  | b :: bs =>
      if negb (bs_ControlIndex b =? controlIndex)
      then let '(bs, status) := operate_loop controlIndex close now bs in (b :: bs, status)
      else if breaker_status b =? CommandSuccess then (breaker_moves close now b :: bs, CommandSuccess)
      else (b :: bs, breaker_status b)
  end.
Definition Operate (s : Simulator) (controlIndex : Z) (close : bool) (now : Z) : Simulator * Z :=
  let '(bs, status) := operate_loop controlIndex close now (breakers s) in
  (with_plant (analogs s) bs (counters s) (setpoints s) s, status).
Definition wouldAccept (s : Simulator) (controlIndex : Z) : Z :=
  match List.find (fun b => bs_ControlIndex b =? controlIndex) (breakers s) with
  | Some b => breaker_status b
  | None => CommandNotSupported
  end.

(** The analog input at the index follows, if the value is one it could have reached. *)
Fixpoint follow (index : Z) (value : spec_float) (l : list AnalogSim) : list AnalogSim :=
  match l with
  | [] => []
  | a :: l =>
      if negb (as_Index a =? index) then a :: follow index value l
      else (if SFleb (as_Min a) value && SFleb value (as_Max a) then with_signal SignalFixed value a else a) :: l
  end.
Definition SetAnalog (s : Simulator) (index : Z) (value : spec_float) (now : Z) : Simulator * Z :=
  match setpoints s !! index with
  | None => (s, CommandNotSupported)
  | Some sp =>
      if negb (accepts sp value) then (s, CommandOutOfRange)
      else (with_plant (follow index value (analogs s)) (breakers s) (counters s)
              (<[index := with_written value now sp]> (setpoints s)) s, CommandSuccess)
  end.
Definition wouldAcceptAnalog (s : Simulator) (index : Z) (value : spec_float) : Z :=
  match setpoints s !! index with
  | None => CommandNotSupported
  | Some sp => if negb (accepts sp value) then CommandOutOfRange else CommandSuccess
  end.
Definition Setpoint (s : Simulator) (index : Z) : option spec_float := sp_value <$> setpoints s !! index.

(** The position a control code asks for. *)
Definition closing (code : Z) : option bool :=
  if IsTrip code then Some false
  else if IsClose code then Some true
  else if OpType code =? ControlLatchOn then Some true
  else if OpType code =? ControlLatchOff then Some false
  else None.
Definition plant_OperateCROB (s : Simulator) (index : Z) (c : ControlRelayOutputBlock) (now : Z) : Simulator * Z :=
  match closing (Code c) with
  | None => (s, CommandNotSupported)
  | Some close => Operate s index close now
  end.
Definition plant_SelectCROB (s : Simulator) (index : Z) : Z := wouldAccept s index.
Definition plant_SelectAnalog (s : Simulator) (index : Z) (v : AnalogOutput) : Z := wouldAcceptAnalog s index (AOValue v).
Definition plant_OperateAnalog (s : Simulator) (index : Z) (v : AnalogOutput) (now : Z) : Simulator * Z :=
  SetAnalog s index (AOValue v) now.
End Plant.

(** ** Commands *)

Section Commanded.
Context `{Numerics}.

Lemma operate_loop_spec ci close now bs :
  snd (operate_loop ci close now bs) =
    match List.find (fun b => bs_ControlIndex b =? ci) bs with Some b => breaker_status b | None => CommandNotSupported end /\
  (snd (operate_loop ci close now bs) <> CommandSuccess -> fst (operate_loop ci close now bs) = bs) /\
  (snd (operate_loop ci close now bs) = CommandSuccess -> exists l b k,
     bs = l ++ b :: k /\ bs_ControlIndex b = ci /\ breaker_status b = CommandSuccess /\
     fst (operate_loop ci close now bs) = l ++ breaker_moves close now b :: k).
Proof.
  induction bs as [|b bs (IH1 & IH2 & IH3)]; cbn [operate_loop List.find]; [done|].
  destruct (bs_ControlIndex b =? ci) eqn:E; cbn [negb].
  - destruct (breaker_status b =? CommandSuccess) eqn:Es; cbn [fst snd].
    + apply Z.eqb_eq in E, Es. split_and!; [done | done|]. intros _. by exists [], b, bs.
    + apply Z.eqb_neq in Es. split_and!; done.
  - destruct (operate_loop ci close now bs) as [bs' st]. cbn [fst snd] in *. split_and!; [done | intros; f_equal; auto|].
    intros Hs. destruct (IH3 Hs) as (l & x & k & -> & H1 & H2 & ->). by exists (b :: l), x, k.
Qed.

(** A select answers what the operate that follows it would, for every setpoint and for every
    control code the plant knows; and a command that is refused moves nothing. *)
Theorem select_asks s index c v now :
  (closing (Code c) <> None -> plant_SelectCROB s index = snd (plant_OperateCROB s index c now)) /\
  plant_SelectAnalog s index v = snd (plant_OperateAnalog s index v now) /\
  (snd (plant_OperateCROB s index c now) <> CommandSuccess -> fst (plant_OperateCROB s index c now) = s) /\
  (snd (plant_OperateAnalog s index v now) <> CommandSuccess -> fst (plant_OperateAnalog s index v now) = s).
Proof.
  unfold plant_SelectCROB, plant_OperateCROB, plant_SelectAnalog, plant_OperateAnalog. split_and!.
  - destruct (closing (Code c)) as [cl|]; [|done]. intros _. unfold wouldAccept, Operate.
    destruct (operate_loop_spec index cl now (breakers s)) as (E & _). destruct (operate_loop index cl now (breakers s)). cbn in *. by rewrite E.
  - unfold wouldAcceptAnalog, SetAnalog. destruct (setpoints s !! index) as [sp|]; [|done]. by destruct (accepts sp (AOValue v)).
  - destruct (closing (Code c)) as [cl|]; [|done]. unfold Operate.
    destruct (operate_loop_spec index cl now (breakers s)) as (_ & E & _). destruct (operate_loop index cl now (breakers s)). cbn in *.
    intros Hs. rewrite (E Hs). by destruct s.
  - unfold SetAnalog. destruct (setpoints s !! index) as [sp|]; [|done]. by destruct (accepts sp (AOValue v)).
Qed.

(** ** What the database shows *)

(** The values of the points the plant writes and a command can move. *)
Definition view (db : Database) : list Binary * list BinaryOutputStatus * list AnalogOutputStatus :=
  (value <$> binary db, value <$> binaryOut db, value <$> analogOut db).

Lemma raise_view db cfg e : view (raise db cfg e) = view db.
Proof. unfold raise, view. destruct (db_events db); [|done]. by destruct (_ =? _). Qed.
Lemma with_value_insert {T} (pts : list (point T)) (i : nat) p v : pts !! i = Some p ->
  value <$> <[i := with_value v p]> pts = <[i := v]> (value <$> pts).
Proof. intros _. by rewrite list_fmap_insert. Qed.
Lemma absent_insert {T} (pts : list (point T)) (i : nat) v : pts !! i = None -> value <$> pts = <[i := v]> (value <$> pts).
Proof. intros E. rewrite list_insert_ge; [done|]. rewrite length_fmap. by apply lookup_ge_None. Qed.
Lemma shouldReport_value {T} (p p' : point T) v c r : shouldReport p v c = (p', r) -> value p' = value p.
Proof. unfold shouldReport. repeat case_match; by intros [= <- _]. Qed.

Lemma UpdateBinary_view db i v : view (UpdateBinary db i v) =
  (<[Z.to_nat i := v]> (value <$> binary db), value <$> binaryOut db, value <$> analogOut db).
Proof.
  unfold UpdateBinary. destruct (binary db !! Z.to_nat i) as [p|] eqn:E; [|unfold view; f_equal; f_equal; by apply absent_insert].
  rewrite <- (with_value_insert _ _ p) by done. by destruct (changed _ _ _); [rewrite raise_view|].
Qed.
Lemma UpdateBinaryOutputStatus_view db i v : view (UpdateBinaryOutputStatus db i v) =
  (value <$> binary db, <[Z.to_nat i := v]> (value <$> binaryOut db), value <$> analogOut db).
Proof.
  unfold UpdateBinaryOutputStatus. destruct (binaryOut db !! Z.to_nat i) as [p|] eqn:E; [|unfold view; f_equal; f_equal; by apply absent_insert].
  rewrite <- (with_value_insert _ _ p) by done. by destruct (changed _ _ _); [rewrite raise_view|].
Qed.
Lemma UpdateAnalogOutputStatus_view db i v : view (UpdateAnalogOutputStatus db i v) =
  (value <$> binary db, value <$> binaryOut db, <[Z.to_nat i := v]> (value <$> analogOut db)).
Proof.
  unfold UpdateAnalogOutputStatus. destruct (analogOut db !! Z.to_nat i) as [p|] eqn:E; [|unfold view; f_equal; by apply absent_insert].
  destruct (shouldReport _ _ _) as [p' rep] eqn:R. apply shouldReport_value in R.
  assert (V : value <$> <[Z.to_nat i := p']> (analogOut db) = <[Z.to_nat i := v]> (value <$> analogOut db)) by (rewrite list_fmap_insert; by rewrite R).
  rewrite <- V. by destruct rep; [rewrite raise_view|].
Qed.
Lemma UpdateAnalog_view db i v : view (UpdateAnalog db i v) = view db.
Proof.
  unfold UpdateAnalog. destruct (analog db !! Z.to_nat i) as [p|]; [|done]. destruct (shouldReport _ _ _) as [p' rep].
  by destruct rep; [rewrite raise_view|].
Qed.
Lemma UpdateCounter_view db i v : view (UpdateCounter db i v) = view db.
Proof.
  unfold UpdateCounter, setCounter. destruct (counter db !! Z.to_nat i) as [p|]; [|done].
  destruct (if _ || _ then _ else _) as [p' rep]. by destruct rep; [rewrite raise_view|].
Qed.

Lemma apply_analogs_view elapsed flags now l : forall r db, view (snd (apply_analogs elapsed flags now l r db)) = view db.
Proof.
  induction l as [|a l IH]; intros r db; [done|]. cbn [apply_analogs]. destruct (next a elapsed r) as [r' v].
  specialize (IH r' (UpdateAnalog db (as_Index a) (mkMeasurement v flags (Now now)))).
  destruct (apply_analogs _ _ _ l r' _) as [[l' r''] db']. cbn [snd] in *. by rewrite IH, UpdateAnalog_view.
Qed.
Lemma apply_counters_view flags now l : forall db, view (fold_left (apply_counter flags now) l db) = view db.
Proof. induction l as [|c l IH]; intros db; [done|]. cbn [fold_left]. by rewrite IH; apply UpdateCounter_view. Qed.

(** Values written at distinct places are all there. *)
Definition write_all {A T} (key : A -> Z) (val : A -> T) (xs : list A) (l : list T) : list T :=
  fold_left (fun l x => <[Z.to_nat (key x) := val x]> l) xs l.
Lemma write_all_other {A T} (key : A -> Z) (val : A -> T) xs (i : Z) : forall l, 0 <= i -> Forall (fun x => 0 <= key x) xs ->
  i ∉ key <$> xs -> write_all key val xs l !! Z.to_nat i = l !! Z.to_nat i.
Proof.
  induction xs as [|x xs IH]; intros l Hi Hf Hn; [done|]. apply Forall_cons in Hf as [Hx Hf]. cbn [fmap list_fmap] in Hn.
  apply not_elem_of_cons in Hn as [Hne Hn].
  change (write_all key val xs (<[Z.to_nat (key x) := val x]> l) !! Z.to_nat i = l !! Z.to_nat i).
  rewrite IH by done. apply list_lookup_insert_ne. lia.
Qed.
Lemma write_all_lookup {A T} (key : A -> Z) (val : A -> T) xs x : forall l, Forall (fun x => 0 <= key x) xs -> NoDup (key <$> xs) ->
  x ∈ xs -> key x < len l -> write_all key val xs l !! Z.to_nat (key x) = Some (val x).
Proof.
  induction xs as [|y xs IH]; intros l Hf Hn Hx Hl; [by apply not_elem_of_nil in Hx|]. apply Forall_cons in Hf as [Hy Hf].
  cbn [fmap list_fmap] in Hn. apply NoDup_cons in Hn as [Hny Hn]. apply elem_of_cons in Hx as [->|Hx].
  - change (write_all key val xs (<[Z.to_nat (key y) := val y]> l) !! Z.to_nat (key y) = Some (val y)).
    rewrite write_all_other by done. rewrite list_lookup_insert, decide_True; [done|]. unfold len in Hl. lia.
  - change (write_all key val xs (<[Z.to_nat (key y) := val y]> l) !! Z.to_nat (key x) = Some (val x)).
    apply IH; [done..|]. unfold len. by rewrite length_insert.
Qed.

Definition shown_at (flags now : Z) (b : BreakerSim) : measurement bool := mkMeasurement (bs_Closed b) flags (Now now).
Lemma apply_breakers_view flags now bs : forall db, view (fold_left (apply_breaker flags now) bs db) =
  (write_all bs_StatusIndex (shown_at flags now) bs (value <$> binary db),
   write_all bs_ControlIndex (shown_at flags now) bs (value <$> binaryOut db), value <$> analogOut db).
Proof.
  induction bs as [|b bs IH]; intros db; [done|]. cbn [fold_left]. rewrite IH. unfold apply_breaker at 1 2 3.
  pose proof (UpdateBinaryOutputStatus_view (UpdateBinary db (bs_StatusIndex b) (shown_at flags now b)) (bs_ControlIndex b) (shown_at flags now b)) as E1.
  pose proof (UpdateBinary_view db (bs_StatusIndex b) (shown_at flags now b)) as E2. unfold view in E1, E2.
  injection E1 as E1 E3 E5. injection E2 as E2 E4 E6. fold (shown_at flags now b). rewrite E1, E3, E5, E2, E4, E6. done.
Qed.
End Commanded.

(** ** A tick, as the database shows it *)

Section Ticks.
Context `{Numerics}.

Lemma storm_view bs now n : forall index db, exists bin, view (snd (storm n bs now index db)) = (bin, value <$> binaryOut db, value <$> analogOut db).
Proof.
  induction n as [|n IH]; intros index db; [by eexists|]. cbn [storm]. destruct (bs !! Z.to_nat (Z.rem index (len bs))) as [b|]; [|apply IH].
  edestruct IH as [bin E]. exists bin. rewrite E.
  match goal with |- context [UpdateBinary db ?i ?v] => pose proof (UpdateBinary_view db i v) as V end.
  unfold view in V. injection V as _ E2 E3. by rewrite E2, E3.
Qed.

(** What a setpoint reads. *)
Definition setpoint_shown (sps : gmap Z SetpointSim) (flags now i : Z) : AnalogOutputStatus :=
  mkMeasurement (default f64_zero (sp_value <$> sps !! i)) flags (Now now).
(** A setpoint is kept under its own index. *)
Definition plant_ok (s : Simulator) : Prop := forall i sp, setpoints s !! i = Some sp -> sp_Index sp = i /\ 0 <= i.
Definition setpoint_keys (s : Simulator) : list Z := fst <$> map_to_list (setpoints s).

Lemma apply_setpoints_view sps flags now order : forall db,
  (forall i sp, sps !! i = Some sp -> sp_Index sp = i) -> Forall (fun i => is_Some (sps !! i)) order ->
  view (fold_left (apply_setpoint sps flags now) order db) =
  (value <$> binary db, value <$> binaryOut db, write_all id (setpoint_shown sps flags now) order (value <$> analogOut db)).
Proof.
  intros db Hok Hf. revert db. induction Hf as [|i order [sp Hi] _ IH]; intros db; [done|]. cbn [fold_left]. rewrite IH.
  unfold apply_setpoint. rewrite Hi.
  assert (E : mkMeasurement (sp_value sp) flags (Now now) = setpoint_shown sps flags now i) by (unfold setpoint_shown; by rewrite Hi).
  rewrite E, (Hok i sp Hi). pose proof (UpdateAnalogOutputStatus_view db i (setpoint_shown sps flags now i)) as V.
  unfold view in V. injection V as E1 E2 E3. by rewrite E1, E2, E3.
Qed.

(** The flags of a tick. *)
Definition tick_flags (s : Simulator) : Z := if offlineNow s then CommLost else Online.

Lemma Apply_view s now order r db : plant_ok s -> order ≡ₚ setpoint_keys s ->
  let '(s', _, db') := Apply s now order r db in
  breakers s' = arrive now <$> breakers s /\ setpoints s' = setpoints s /\
  (exists bin, view db' = (bin, write_all bs_ControlIndex (shown_at (tick_flags s') now) (breakers s') (value <$> binaryOut db),
     write_all id (setpoint_shown (setpoints s) (tick_flags s') now) order (value <$> analogOut db)) /\
   (EventStorm (inject s) <= 0 -> bin = write_all bs_StatusIndex (shown_at (tick_flags s') now) (breakers s') (value <$> binary db))).
Proof.
  intros Hok Hord. unfold Apply. set (flip := (0 <? _) && _). set (offline := if flip then _ else _). set (last := if flip then _ else _).
  set (flags := if offline then CommLost else Online).
  pose proof (apply_analogs_view (Seconds (time_Sub now (sim_start s))) flags now (analogs s) r db) as Va.
  destruct (apply_analogs _ flags now (analogs s) r db) as [[as_ r'] db1]. cbn [snd] in Va.
  set (bs := arrive now <$> breakers s). set (db2 := fold_left (apply_breaker flags now) bs db1).
  set (db3 := fold_left (apply_setpoint (setpoints s) flags now) order db2).
  set (db4 := fold_left (apply_counter flags now) (count_on <$> counters s) db3).
  assert (V4 : view db4 = (write_all bs_StatusIndex (shown_at flags now) bs (value <$> binary db),
    write_all bs_ControlIndex (shown_at flags now) bs (value <$> binaryOut db),
    write_all id (setpoint_shown (setpoints s) flags now) order (value <$> analogOut db))).
  { unfold db4. rewrite apply_counters_view. unfold db3. rewrite apply_setpoints_view.
    - pose proof (apply_breakers_view flags now bs db1) as V2. fold db2 in V2. unfold view in V2, Va. injection V2 as E1 E2 E3. injection Va as F1 F2 F3.
      by rewrite E1, E2, E3, F1, F2, F3.
    - intros i sp Hi. by apply (Hok i sp).
    - rewrite Hord. apply Forall_forall. intros i Hi. apply list_elem_of_fmap in Hi as ([k sp] & -> & Hk).
      apply elem_of_map_to_list in Hk. by eexists. }
  destruct ((0 <? EventStorm (inject s)) && (0 <? len bs)) eqn:Es.
  - destruct (storm_view bs now (storm_size s) (stormIndex s) db4) as [bin E]. destruct (storm _ bs now _ db4) as [index db5]. cbn [snd] in E.
    split_and!; [done | done|]. exists bin. split; [|intros ?; apply andb_true_iff in Es as [Es _]; apply Z.ltb_lt in Es; lia].
    rewrite E. unfold view in V4. injection V4 as _ E2 E3. by rewrite E2, E3.
  - split_and!; [done | done|]. eexists. by rewrite V4.
Qed.

(** ** Setpoints *)

Inductive plant_op :=
| OpOperate (ci : Z) (close : bool) (t : Z)
| OpSet (i : Z) (v : spec_float) (t : Z)
| OpApply (t : Z) (order : list Z) (r : Rand) (db : Database).
Definition plant_do (s : Simulator) (op : plant_op) : Simulator :=
  match op with
  | OpOperate ci close t => fst (Operate s ci close t)
  | OpSet i v t => fst (SetAnalog s i v t)
  | OpApply t order r db => fst (fst (Apply s t order r db))
  end.
Definition spares (index : Z) (op : plant_op) : Prop := match op with OpSet i _ _ => i <> index | _ => True end.

Lemma Apply_setpoints s t order r db : setpoints (fst (fst (Apply s t order r db))) = setpoints s.
Proof.
  unfold Apply. destruct (apply_analogs _ _ _ _ _ _) as [[as_ r'] db1]. by destruct (if _ && _ then _ else _) as [index db5].
Qed.
Lemma plant_do_ok s op : plant_ok s -> plant_ok (plant_do s op).
Proof.
  intros Hok. destruct op as [ci close t|i v t|t order r db]; cbn [plant_do].
  - unfold Operate. by destruct (operate_loop _ _ _ _).
  - unfold SetAnalog. destruct (setpoints s !! i) as [sp|] eqn:E; [|done]. destruct (accepts sp v); [|done].
    intros j sp'. cbn. rewrite lookup_insert_Some. intros [[<- <-]|[_ Hj]]; [|by apply Hok]. by apply (Hok i sp).
  - intros j sp. rewrite Apply_setpoints. apply Hok.
Qed.
Lemma plant_do_spares s op index : spares index op -> Setpoint (plant_do s op) index = Setpoint s index.
Proof.
  unfold Setpoint. destruct op as [ci close t|i v t|t order r db]; cbn [plant_do spares]; intros Hs.
  - unfold Operate. by destruct (operate_loop _ _ _ _).
  - unfold SetAnalog. destruct (setpoints s !! i) as [sp|] eqn:E; [|done]. destruct (accepts sp v); [|done]. cbn.
    by rewrite lookup_insert_ne.
  - by rewrite Apply_setpoints.
Qed.

(** A setpoint that was accepted is a number within the range, if there is one, and is held:
    whatever else is commanded and however the plant moves on, the output reads the value until
    it is set again, and every tick writes exactly it into the database.  No other setpoint
    changes. *)
Theorem setpoint_held s index v now s' ops : plant_ok s -> SetAnalog s index v now = (s', CommandSuccess) ->
  Forall (spares index) ops ->
  (exists sp, setpoints s !! index = Some sp /\ accepts sp v = true) /\
  (forall j, j <> index -> Setpoint s' j = Setpoint s j) /\
  let s2 := fold_left plant_do ops s' in
  Setpoint s2 index = Some v /\
  forall t order r db, order ≡ₚ setpoint_keys s2 -> index < len (analogOut db) ->
    let '(s3, _, db') := Apply s2 t order r db in
    (value <$> analogOut db') !! Z.to_nat index = Some (mkMeasurement v (tick_flags s3) (Now t)).
Proof.
  intros Hok Hset Hops. unfold SetAnalog in Hset. destruct (setpoints s !! index) as [sp|] eqn:Esp; [|done].
  destruct (accepts sp v) eqn:Ea; [|done]. cbn [negb] in Hset. injection Hset as <-.
  set (s1 := with_plant _ _ _ _ s). split_and!; [by exists sp | |].
  { intros j Hj. unfold Setpoint. cbn. by rewrite lookup_insert_ne. }
  assert (Hok1 : plant_ok s1).
  { intros j sp'. cbn. rewrite lookup_insert_Some. intros [[<- <-]|[_ Hj]]; [|by apply Hok]. by apply (Hok index sp). }
  assert (H1 : Setpoint s1 index = Some v) by (unfold Setpoint; cbn; by rewrite lookup_insert, decide_True).
  clearbody s1. cbv zeta. assert (H2 : plant_ok (fold_left plant_do ops s1) /\ Setpoint (fold_left plant_do ops s1) index = Some v).
  { clear Hok Esp Ea. revert s1 Hok1 H1. induction Hops as [|op ops Hop _ IH]; intros s1 Hok1 H1; [done|]. cbn [fold_left]. apply IH.
    - by apply plant_do_ok.
    - by rewrite plant_do_spares. }
  destruct H2 as [Hok2 H2]. split; [done|]. set (s2 := fold_left plant_do ops s1) in *. intros t order r db Hord Hl.
  pose proof (Apply_view s2 t order r db Hok2 Hord) as V. destruct (Apply s2 t order r db) as [[s3 r'] db'].
  destruct V as (_ & _ & bin & V & _). unfold view in V. injection V as _ _ V. rewrite V.
  unfold Setpoint in H2. destruct (setpoints s2 !! index) as [sp2|] eqn:E2; [|done].
  rewrite (write_all_lookup id (setpoint_shown (setpoints s2) (tick_flags s3) t) order index).
  - unfold setpoint_shown. rewrite E2. cbn in *. by injection H2 as ->.
  - rewrite Hord. apply Forall_forall. intros i Hi. apply list_elem_of_fmap in Hi as ([k x] & -> & Hk). apply elem_of_map_to_list in Hk.
    by apply (Hok2 k x).
  - rewrite list_fmap_id, Hord. apply NoDup_fst_map_to_list.
  - rewrite Hord. apply list_elem_of_fmap. exists (index, sp2). split; [done|]. by apply elem_of_map_to_list.
  - unfold len in *. by rewrite length_fmap.
Qed.

Lemma NewSimulator_ok as_ bs cs sps outputs inj now r : Forall (fun sp => 0 <= sp_Index sp) sps ->
  plant_ok (snd (NewSimulator as_ bs cs sps outputs inj now r)).
Proof.
  intros Hsps. unfold NewSimulator. destruct (start_analogs r as_) as [r' as'].
  pose (own (m : gmap Z SetpointSim) := forall i sp, m !! i = Some sp -> sp_Index sp = i /\ 0 <= i).
  assert (H1 : own (fold_left add_setpoint sps ∅)).
  { assert (H0 : own ∅) by (intros i sp; by rewrite lookup_empty). revert H0. generalize (∅ : gmap Z SetpointSim).
    induction Hsps as [|sp sps Hsp _ IH]; intros m Hm; [done|]. cbn [fold_left]. apply IH. intros i x. unfold add_setpoint.
    rewrite lookup_insert_Some. intros [[<- <-]|[_ Hi]]; [done | by apply Hm]. }
  assert (H2 : Forall (fun i => 0 <= i) (seqZ 0 (u16 outputs))).
  { apply Forall_forall. intros i Hi. apply elem_of_seqZ in Hi. lia. }
  cbn. revert H1. generalize (fold_left add_setpoint sps ∅).
  change (forall m, own m -> own (fold_left add_unnamed (seqZ 0 (u16 outputs)) m)).
  induction H2 as [|i l Hi _ IH]; intros m Hm; [done|]. cbn [fold_left]. apply IH. unfold add_unnamed. destruct (m !! i); [done|].
  intros j x. rewrite lookup_insert_Some. intros [[<- <-]|[_ Hj]]; [done | by apply Hm].
Qed.

(** ** Breakers *)

Definition indexed (bs : list BreakerSim) : Prop :=
  NoDup (bs_ControlIndex <$> bs) /\ NoDup (bs_StatusIndex <$> bs) /\
  Forall (fun b => 0 <= bs_ControlIndex b) bs /\ Forall (fun b => 0 <= bs_StatusIndex b) bs.
Lemma moves_same close now l b k :
  (bs_ControlIndex <$> l ++ breaker_moves close now b :: k) = (bs_ControlIndex <$> l ++ b :: k) /\
  (bs_StatusIndex <$> l ++ breaker_moves close now b :: k) = (bs_StatusIndex <$> l ++ b :: k).
Proof. rewrite !fmap_app. cbn. unfold breaker_moves. by destruct (_ <? _). Qed.
Lemma arrive_same now (bs : list BreakerSim) :
  (bs_ControlIndex <$> (arrive now <$> bs)) = (bs_ControlIndex <$> bs) /\
  (bs_StatusIndex <$> (arrive now <$> bs)) = (bs_StatusIndex <$> bs).
Proof. rewrite <- !list_fmap_compose. split; apply list_fmap_ext; intros i b _; cbn; unfold arrive; by destruct (_ && _). Qed.
Lemma Forall_fmap_same (P : Z -> Prop) {A} (f g : A -> Z) (l k : list A) : f <$> l = g <$> k -> Forall (fun x => P (g x)) k -> Forall (fun x => P (f x)) l.
Proof. intros E Hk. apply (proj1 (Forall_fmap f P l)). rewrite E. by apply (proj2 (Forall_fmap g P k)). Qed.

(** A breaker that accepts a command stays where it is until its travel time has passed, and is
    then where it was sent; that is what a tick puts into its status input and its output. *)
Theorem breaker_travels s ci close now b t order r db :
  plant_ok s -> indexed (breakers s) -> b ∈ breakers s -> bs_ControlIndex b = ci -> now + bs_TravelTime b <> zeroTime ->
  snd (Operate s ci close now) = CommandSuccess -> EventStorm (inject s) <= 0 ->
  order ≡ₚ setpoint_keys s -> bs_StatusIndex b < len (binary db) -> ci < len (binaryOut db) ->
  let '(s', _, db') := Apply (fst (Operate s ci close now)) t order r db in
  let at_ := if (bs_TravelTime b <=? 0) || (now + bs_TravelTime b <? t) then close else bs_Closed b in
  (value <$> binary db') !! Z.to_nat (bs_StatusIndex b) = Some (mkMeasurement at_ (tick_flags s') (Now t)) /\
  (value <$> binaryOut db') !! Z.to_nat ci = Some (mkMeasurement at_ (tick_flags s') (Now t)).
Proof.
  intros Hok (N1 & N2 & F1 & F2) Hb Hci Hz Hop Hstorm Hord Hl1 Hl2. unfold Operate in *.
  destruct (operate_loop_spec ci close now (breakers s)) as (_ & _ & Hm). destruct (operate_loop ci close now (breakers s)) as [bs' st].
  cbn [fst snd] in *. destruct (Hm Hop) as (l & b' & k & Ebs & Hci' & Hst & ->).
  assert (b' = b) as ->.
  { assert (Hb' : b' ∈ breakers s) by (rewrite Ebs; apply elem_of_app; right; by left).
    apply list_elem_of_lookup in Hb as [i Hi]. apply list_elem_of_lookup in Hb' as [j Hj].
    assert (i = j) as ->; [|congruence].
    apply (NoDup_lookup (bs_ControlIndex <$> breakers s) i j ci); [done | |]; rewrite list_lookup_fmap; by rewrite ?Hi, ?Hj; cbn; f_equal. }
  set (s1 := with_plant _ _ _ _ s). pose proof (Apply_view s1 t order r db Hok Hord) as V.
  destruct (Apply s1 t order r db) as [[s' r'] db']. destruct V as (Eb & _ & bin & V & Hbin). specialize (Hbin Hstorm). subst bin.
  unfold view in V. injection V as V1 V2 _. rewrite V1, V2, Eb. cbn [breakers with_plant s1].
  destruct (moves_same close now l b k) as [M1 M2]. destruct (arrive_same t (l ++ breaker_moves close now b :: k)) as [A1 A2].
  rewrite M1, <- Ebs in A1. rewrite M2, <- Ebs in A2.
  set (b2 := arrive t (breaker_moves close now b)). assert (Hin : b2 ∈ arrive t <$> l ++ breaker_moves close now b :: k).
  { apply list_elem_of_fmap. eexists. split; [done|]. apply elem_of_app. right. by left. }
  assert (I1 : bs_ControlIndex b2 = ci) by (unfold b2, arrive, breaker_moves; repeat case_match; done).
  assert (I2 : bs_StatusIndex b2 = bs_StatusIndex b) by (unfold b2, arrive, breaker_moves; repeat case_match; done).
  assert (P : shown_at (tick_flags s') t b2 =
    mkMeasurement (if (bs_TravelTime b <=? 0) || (now + bs_TravelTime b <? t) then close else bs_Closed b) (tick_flags s') (Now t)).
  { unfold shown_at, b2, arrive, breaker_moves. f_equal. unfold breaker_status in Hst.
    destruct (bs_Interlocked b); [done|]. destruct (IsZero (bs_movingUntil b)) eqn:Ez; [|done].
    destruct (Z.ltb_spec 0 (bs_TravelTime b)), (Z.leb_spec (bs_TravelTime b) 0); try lia; cbn [orb].
    - cbn [bs_movingUntil with_position bs_target bs_Closed]. unfold IsZero. rewrite (proj2 (Z.eqb_neq _ _)) by done. cbn [negb andb].
      by destruct (_ <? _).
    - cbn [bs_movingUntil with_position]. by rewrite Ez. }
  rewrite <- P. split.
  - rewrite <- I2. apply write_all_lookup; [| by rewrite A2 | done | rewrite I2; unfold len in *; by rewrite length_fmap].
    by apply (Forall_fmap_same (fun x => 0 <= x) bs_StatusIndex bs_StatusIndex _ (breakers s)).
  - rewrite <- I1. apply write_all_lookup; [| by rewrite A1 | done | rewrite I1; unfold len in *; by rewrite length_fmap].
    by apply (Forall_fmap_same (fun x => 0 <= x) bs_ControlIndex bs_ControlIndex _ (breakers s)).
Qed.
End Ticks.

(** ** The listing of the plant (and [pad] and [trim] of config.go) *)

Definition pad (i : Z) : string := repeat_char (3 - String.length (dec i)) " " +:+ dec i.
Definition trim (v : spec_float) : string := float_f v.
Definition describe_breaker (b : BreakerSim) : string :=
  "    BI " +:+ pad (bs_StatusIndex b) +:+ " / BO " +:+ pad (bs_ControlIndex b) +:+ "  " +:+ bs_Name b +:+ " (" +:+
  (if bs_Closed b then "closed" else "open") +:+ ")" +:+
  (if bs_Interlocked b then "  [interlocked: commands refused]" else "") +:+ newline.
Definition describe_analog (a : AnalogSim) : string :=
  "    AI " +:+ pad (as_Index a) +:+ "  " +:+ as_Name a +:+ "  " +:+ as_Signal a +:+ " " +:+ trim (as_Min a) +:+ ".." +:+
  trim (as_Max a) +:+ " " +:+ as_Units a +:+ newline.
Definition describe_setpoint (sp : SetpointSim) : string :=
  "    AO " +:+ pad (sp_Index sp) +:+ "  " +:+ sp_Name sp +:+ "  " +:+ trim (sp_value sp) +:+
  (if String.eqb (sp_Units sp) "" then "" else " " +:+ sp_Units sp) +:+
  (if bounded sp then "  [" +:+ trim (sp_Min sp) +:+ ".." +:+ trim (sp_Max sp) +:+ "]" else "") +:+ newline.
Definition describe_counter (c : CounterSim) : string :=
  "    CT " +:+ pad (cs_Index c) +:+ "  " +:+ cs_Name c +:+ "  " +:+ trim (cs_PerSecond c) +:+ "/s" +:+ newline.
(** The lines under a heading, if there are any. *)
Definition section (heading : string) {A} (line : A -> string) (l : list A) : string :=
  match l with [] => "" | _ => newline +:+ heading +:+ newline +:+ Join (line <$> l) "" end.
Definition Simulator_Describe (s : Simulator) : string :=
  "Simulated plant" +:+ newline +:+
  section "  Breakers (binary input / binary output)" describe_breaker (breakers s) +:+
  section "  Analogs" describe_analog (analogs s) +:+
  section "  Analog outputs (setpoints)" (fun i => default "" (describe_setpoint <$> setpoints s !! i)) (setpointOrder s) +:+
  section "  Counters" describe_counter (counters s).

(** ** Runs *)

Module PlantRuns.
#[local] Instance still : Numerics := {|
  math_Sin x := x; Rand := unit; rand_Float64 r := (r, f64_zero); uint32_beyond _ := 0 |}.

Definition current : AnalogSim :=
  mkAnalogSim 0 "Feeder 1 current" "A" SignalRandomWalk f64_zero (f64_of_Z 400) 0 f64_zero f64_zero 2 f64_zero f64_zero.
Definition tap : SetpointSim :=
  mkSetpointSim 4 "Tap position" "" (f64_of_Z 7) (f64_of_Z 9) (f64_of_Z 8) 2 f64_zero zeroTime.
Definition feeder : BreakerSim := mkBreakerSim 0 1 "Feeder 1 breaker" true false 200000000 1 zeroTime false.
Definition plant : Simulator := snd (NewSimulator [current] [feeder] [] [tap] 5 (mkInjection 0 false 0 0) 0 tt).
Definition plant_db : Database := NewDatabase (mkDatabaseConfig 2 0 0 0 1 0 0 0 2 5 0 Class1) None.

Lemma plant_is_ok : plant_ok plant.
Proof. apply NewSimulator_ok. repeat constructor. done. Qed.

Lemma setpoint_held_witness :
  let s' := fst (SetAnalog plant 4 (f64_of_Z 9) 5) in
  let s2 := fold_left plant_do [OpOperate 1 false 6; OpSet 2 (f64_of_Z 3) 7] s' in
  Setpoint s2 4 = Some (f64_of_Z 9) /\
  let '(_, _, db') := Apply s2 8 (setpoint_keys s2) tt plant_db in
  Value <$> (value <$> analogOut db') !! 4%nat = Some (f64_of_Z 9).
Proof.
  destruct (setpoint_held plant 4 (f64_of_Z 9) 5 (fst (SetAnalog plant 4 (f64_of_Z 9) 5)) [OpOperate 1 false 6; OpSet 2 (f64_of_Z 3) 7])
    as (_ & _ & H1 & H2).
  - exact plant_is_ok.
  - vm_compute. reflexivity.
  - repeat constructor. done.
  - split; [exact H1|]. set (s2 := fold_left plant_do _ _) in *. specialize (H2 8 (setpoint_keys s2) tt plant_db). clearbody s2.
    destruct (Apply _ _ _ _ _) as [[s3 r'] db']. rewrite list_lookup_fmap. rewrite list_lookup_fmap in H2.
    assert (H3 : value <$> analogOut db' !! 4%nat = Some (mkMeasurement (f64_of_Z 9) (tick_flags s3) (Now 8))) by (apply H2; [done | vm_compute; reflexivity]).
    rewrite H3. reflexivity.
Defined.

Lemma breaker_travels_witness :
  let at_ t := let '(_, _, db') := Apply (fst (Operate plant 1 false 5)) t (setpoint_keys plant) tt plant_db in
               Value <$> (value <$> binary db') !! 0%nat in
  at_ 100 = Some true /\ at_ 300000000 = Some false.
Proof.
  assert (B : forall t, let '(s', _, db') := Apply (fst (Operate plant 1 false 5)) t (setpoint_keys plant) tt plant_db in
    Value <$> (value <$> binary db') !! 0%nat = Some (if 5 + 200000000 <? t then false else true)).
  { intros t. pose proof (breaker_travels plant 1 false 5 (with_position true zeroTime true feeder) t (setpoint_keys plant) tt plant_db) as T.
    destruct (Apply _ _ _ _ _) as [[s' r'] db']. destruct T as [T _].
    - exact plant_is_ok.
    - split_and!; repeat constructor; try done. all: set_solver.
    - by left.
    - reflexivity.
    - done.
    - reflexivity.
    - done.
    - done.
    - done.
    - done.
    - change (Z.to_nat (bs_StatusIndex (with_position true zeroTime true feeder))) with 0%nat in T. rewrite T. reflexivity. }
  cbv zeta. split; [specialize (B 100) | specialize (B 300000000)]; destruct (Apply _ _ _ _ _) as [[? ?] ?]; exact B.
Defined.

(** An analog that follows a setpoint of zero shows the middle of its range instead. *)
Example setpoint_zero_not_followed :
  let '(s', status) := SetAnalog plant 0 f64_zero 5 in
  let '(_, _, db') := Apply s' 6 (setpoint_keys s') tt plant_db in
  status = CommandSuccess /\ Value <$> (value <$> analog db') !! 0%nat = Some (f64_of_Z 200).
Proof. vm_compute. done. Qed.

(** A select of a control code the plant does not know succeeds, and the operate is refused. *)
Example select_promises_too_much :
  let c := mkCROB ControlPulseOn 1 100 0 0 in
  plant_SelectCROB plant 1 = CommandSuccess /\ snd (plant_OperateCROB plant 1 c 5) = CommandNotSupported.
Proof. vm_compute. done. Qed.

(** With 65536 analog outputs none that the configuration does not name takes a setpoint. *)
Example outputs_wrapped :
  snd (SetAnalog (snd (NewSimulator [] [] [] [] 65536 (mkInjection 0 false 0 0) 0 tt)) 0 f64_one 5) = CommandNotSupported.
Proof. vm_compute. done. Qed.

Example plant_text :
  Simulator_Describe plant =
  "Simulated plant" +:+ newline +:+ newline +:+
  "  Breakers (binary input / binary output)" +:+ newline +:+ "    BI   0 / BO   1  Feeder 1 breaker (closed)" +:+ newline +:+ newline +:+
  "  Analogs" +:+ newline +:+ "    AI   0  Feeder 1 current  walk 0..400 A" +:+ newline +:+ newline +:+
  "  Analog outputs (setpoints)" +:+ newline +:+ "    AO   4  Tap position  8  [7..9]" +:+ newline.
Proof. vm_compute. done. Qed.
End PlantRuns.
