(* ===== verification/SimConfig.v ===== *)
(** * The configuration of the simulated outstation (src/cmd/dnp3-outstation/config.go, device.go,
      the options of main.go, and the files of files.go)

    A configuration names the parts of the plant, what the device says of itself and which files
    it serves; [Validate] checks it and sizes the database.  The decoder of YAML, the parsers of
    floating point numbers and of durations and the text of a duration are parameters
    ([Parsers]); flags, logging and the choice of a channel are left to the program.

    The theorem: a configuration that passes [Validate] has no point that is silently missing
    ([validated]): no index is used twice, every point of the plant is in the database that is
    built from it, and every setting of a point is taken. *)

From Stdlib Require Import Ascii SpecFloat.
From stdpp Require Import gmap.
From S2P Require Import Prelude Values Floats FileObjects ExtObjects EventBuffer Database Commands OutstationState.
From S2P Require Import Text Names MemFiles Simulator SessionRuns.
#[local] Open Scope Z_scope.

(** ** Parsing *)

Class Parsers := {
  ParseFloat : string -> option spec_float;
  ParseDuration : string -> option Z;
  Duration_String : Z -> string }.

(** [strconv.ParseUint(s, 10, 64)] and [strconv.ParseInt(s, 10, 64)]. *)
Fixpoint digits_value (acc : Z) (s : list Z) : option Z :=
  match s with
  | [] => Some acc
  | c :: s => if (0x30 <=? c) && (c <=? 0x39) then digits_value (acc * 10 + (c - 0x30)) s else None
  end.
Definition ParseUint (s : list Z) : option Z :=
  match s with
  | [] => None
  | _ => match digits_value 0 s with Some n => if n <? 2 ^ 64 then Some n else None | None => None end
  end.
Definition ParseInt (s : list Z) : option Z :=
  let '(neg, digits) := match s with
                        | c :: rest => if c =? 0x2B then (false, rest) else if c =? 0x2D then (true, rest) else (false, s)
                        | [] => (false, s) end in
  match ParseUint digits with
  | None => None
  | Some n => if neg then if n <=? 2 ^ 63 then Some (- n) else None else if n <? 2 ^ 63 then Some n else None
  end.

(** [strings.ToLower], as far as its result is ASCII: the Kelvin sign and the capital I with a
    dot have lower-case letters of ASCII. *)
Fixpoint ToLower (s : list Z) : list Z :=
  match s with
  | 0xE2 :: 0x84 :: 0xAA :: s => 0x6B :: ToLower s
  | 0xC4 :: 0xB0 :: s => 0x69 :: ToLower s
  | c :: s => (if (0x41 <=? c) && (c <=? 0x5A) then c + 32 else c) :: ToLower s
  | [] => []
  end.

(** ** The device *)

Definition Version : string := "0.5.3".

Definition attrSoftwareVersion : Z := 242.
Definition attrHardwareVersion : Z := 243.
Definition attrOwner : Z := 244.
Definition attrLocation : Z := 245.
Definition attrIDCode : Z := 246.
Definition attrDeviceName : Z := 247.
Definition attrSerialNumber : Z := 248.
Definition attrSubsetLevel : Z := 249.
Definition attrProductName : Z := 250.
Definition attrVendorName : Z := 252.

Record AttributeYAML := mkAttributeYAML { ay_Set : Z; ay_Variation : Z; ay_Type : string; ay_Value : string }.
Record DeviceYAML := mkDeviceYAML {
  dv_Vendor : string; dv_Model : string; dv_Version : string; dv_Hardware : string; dv_Serial : string; dv_Name : string;
  dv_Location : string; dv_Owner : string; dv_IDCode : Z; dv_Subset : Z; dv_Disabled : bool; dv_Extra : list AttributeYAML }.
Definition DefaultDevice : DeviceYAML :=
  mkDeviceYAML "DSC Systems" "dnp3-outstation (simulator)" Version "none — this is software" "SIM-0000-0001" "SIM-RTU"
    "simulated substation" "" 0 2 false [].

Inductive AttrTextErr := ErrNotUnsigned (variation : Z) (value : string) | ErrNotNumber (variation : Z) (value : string) | ErrUnknownType (variation : Z) (type : string).

Definition with_set (set : Z) (a : Attribute) : Attribute :=
  mkAttribute set (A_Variation a) (A_Type a) (A_Text a) (A_Number a) (A_Real a) (A_Octets a) (A_Time a).

Section Reading.
Context `{Parsers}.

Definition AttributeYAML_attribute (e : AttributeYAML) : result AttrTextErr Attribute :=
  let type := of_octets (ToLower (TrimSpace (octets_of (ay_Type e)))) in
  let v := ay_Variation e in
  if String.eqb type "" || String.eqb type "string" then Ok (with_set (ay_Set e) (StringAttribute v (octets_of (ay_Value e))))
  else if String.eqb type "uint" then
    match ParseUint (octets_of (ay_Value e)) with
    | None => Err (ErrNotUnsigned v (ay_Value e))
    | Some n => Ok (with_set (ay_Set e) (UintAttribute v n))
    end
  else if String.eqb type "int" then
    match ParseInt (octets_of (ay_Value e)) with
    | None => Err (ErrNotNumber v (ay_Value e))
    | Some n => Ok (with_set (ay_Set e) (IntAttribute v n))
    end
  else if String.eqb type "float" then
    match ParseFloat (ay_Value e) with
    | None => Err (ErrNotNumber v (ay_Value e))
    | Some f => Ok (mkAttribute (ay_Set e) v AttrFloat [] 0 f [] zeroTime)
    end
  else Err (ErrUnknownType v (ay_Type e)).

Fixpoint extra_attributes (out : list Attribute) (es : list AttributeYAML) : result AttrTextErr (list Attribute) :=
  match es with
  | [] => Ok out
  | e :: es => match AttributeYAML_attribute e with Err err => Err err | Ok a => extra_attributes (out ++ [a]) es end
  end.
Definition text_attribute (variation : Z) (s : string) : list Attribute :=
  if String.eqb s "" then [] else [StringAttribute variation (octets_of s)].
Definition device_attributes (d : DeviceYAML) : result AttrTextErr (list Attribute) :=
  if dv_Disabled d then Ok []
  else
    extra_attributes
      (text_attribute attrVendorName (dv_Vendor d) ++ text_attribute attrProductName (dv_Model d) ++
       text_attribute attrSoftwareVersion (dv_Version d) ++ text_attribute attrHardwareVersion (dv_Hardware d) ++
       text_attribute attrSerialNumber (dv_Serial d) ++ text_attribute attrDeviceName (dv_Name d) ++
       text_attribute attrLocation (dv_Location d) ++ text_attribute attrOwner (dv_Owner d) ++
       (if negb (dv_IDCode d =? 0) then [UintAttribute attrIDCode (dv_IDCode d mod 2 ^ 64)] else []) ++
       (if negb (dv_Subset d =? 0) then [UintAttribute attrSubsetLevel (dv_Subset d mod 2 ^ 64)] else [])) (dv_Extra d).

(** ** Faults to inject *)

Inductive InjectErr := ErrStormCount (value : list Z) | ErrRestartAfter (value : list Z) | ErrOfflineEvery (value : list Z) | ErrUnknownInjection (name : list Z).

(** [strings.Cut(f, "=")]. *)
Fixpoint cut (before s : list Z) : list Z * list Z :=
  match s with [] => (before, []) | c :: s => if c =? 0x3D then (before, s) else cut (before ++ [c]) s end.
Fixpoint parseInjections (inj : Injection) (flags : list (list Z)) : result InjectErr Injection :=
  match flags with
  | [] => Ok inj
  | f :: flags =>
      let '(name, value) := cut [] f in
      let key := of_octets (TrimSpace name) in
      if String.eqb key "event-storm" then
        match ParseInt value with
        | None => Err (ErrStormCount value)
        | Some n => if n <=? 0 then Err (ErrStormCount value)
                    else parseInjections (mkInjection n (DeviceTrouble inj) (RestartAfter inj) (OfflineEvery inj)) flags
        end
      else if String.eqb key "device-trouble" then
        parseInjections (mkInjection (EventStorm inj) true (RestartAfter inj) (OfflineEvery inj)) flags
      else if String.eqb key "restart-after" then
        match ParseDuration (of_octets value) with
        | None => Err (ErrRestartAfter value)
        | Some d => parseInjections (mkInjection (EventStorm inj) (DeviceTrouble inj) d (OfflineEvery inj)) flags
        end
      else if String.eqb key "offline-every" then
        match ParseDuration (of_octets value) with
        | None => Err (ErrOfflineEvery value)
        | Some d => parseInjections (mkInjection (EventStorm inj) (DeviceTrouble inj) (RestartAfter inj) d) flags
        end
      else Err (ErrUnknownInjection name)
  end.
Definition Injection_any (i : Injection) : bool :=
  (0 <? EventStorm i) || DeviceTrouble i || (0 <? RestartAfter i) || (0 <? OfflineEvery i).
Definition Injection_String (i : Injection) : string :=
  Join ((if 0 <? EventStorm i then ["event storm " +:+ dec (EventStorm i) +:+ "/s"] else []) ++
        (if DeviceTrouble i then ["device trouble"] else []) ++
        (if 0 <? RestartAfter i then ["restart every " +:+ Duration_String (RestartAfter i)] else []) ++
        (if 0 <? OfflineEvery i then ["points offline every " +:+ Duration_String (OfflineEvery i)] else [])) ", ".

(** ** The configuration *)

Record PointCounts := mkPointCounts {
  pc_Binary : Z; pc_Analog : Z; pc_Counter : Z; pc_FrozenCounter : Z; pc_BinaryOutputStatus : Z; pc_AnalogOutputStatus : Z }.
Record FilesYAML := mkFilesYAML { fy_Directory : string; fy_ReadOnly : bool; fy_Disabled : bool; fy_BlockSize : Z; fy_Timeout : Z }.
Record UnsolicitedYAML := mkUnsolicitedYAML { uy_Enabled : bool; uy_HoldTime : Z; uy_MaxEvents : Z }.

Record SimConfig := mkSimConfig {
  sc_Address : Z; sc_Master : Z; sc_Points : PointCounts; sc_Breakers : list BreakerSim; sc_Analogs : list AnalogSim;
  sc_Counters : list CounterSim; sc_Setpoints : list SetpointSim; sc_Unsolicited : UnsolicitedYAML; sc_Files : FilesYAML;
  sc_Device : DeviceYAML; sc_MaxEvents : Z; sc_injection : Injection; sc_attributes : list Attribute }.
Definition with_points (p : PointCounts) (c : SimConfig) : SimConfig :=
  mkSimConfig (sc_Address c) (sc_Master c) p (sc_Breakers c) (sc_Analogs c) (sc_Counters c) (sc_Setpoints c)
    (sc_Unsolicited c) (sc_Files c) (sc_Device c) (sc_MaxEvents c) (sc_injection c) (sc_attributes c).
Definition with_attributes (a : list Attribute) (c : SimConfig) : SimConfig :=
  mkSimConfig (sc_Address c) (sc_Master c) (sc_Points c) (sc_Breakers c) (sc_Analogs c) (sc_Counters c) (sc_Setpoints c)
    (sc_Unsolicited c) (sc_Files c) (sc_Device c) (sc_MaxEvents c) (sc_injection c) a.
Definition with_injection (i : Injection) (c : SimConfig) : SimConfig :=
  mkSimConfig (sc_Address c) (sc_Master c) (sc_Points c) (sc_Breakers c) (sc_Analogs c) (sc_Counters c) (sc_Setpoints c)
    (sc_Unsolicited c) (sc_Files c) (sc_Device c) (sc_MaxEvents c) i (sc_attributes c).

Definition ms (n : Z) : Z := n * 1000000.
Definition DefaultConfig : SimConfig :=
  let breaker i name closed interlocked travel := mkBreakerSim i i name closed interlocked travel 1 zeroTime false in
  let analog i name units signal lo hi period noise deadband class :=
    mkAnalogSim i name units signal lo hi period noise deadband class f64_zero f64_zero in
  let n := f64_of_Z in
  let volts_low := f64_from_bits 0x402599999999999A in
  let volts_high := f64_from_bits 0x4026666666666666 in
  mkSimConfig 10 1 (mkPointCounts 0 0 0 0 0 0)
    [breaker 0 "Feeder 1 breaker" true false (ms 200); breaker 1 "Feeder 2 breaker" true false (ms 200);
     breaker 2 "Bus tie" false false (ms 500); breaker 3 "Earth switch (racked out)" false true 0]
    [analog 0 "Bus voltage" "kV" SignalSine volts_low volts_high (45 * one_second) (f64_from_bits 0x3F847AE147AE147B)
       (f64_from_bits 0x3FA999999999999A) 2;
     analog 1 "Feeder 1 current" "A" SignalRandomWalk f64_zero (n 400) 0 (f64_from_bits 0x3F747AE147AE147B) (n 5) 2;
     analog 2 "Feeder 2 current" "A" SignalRandomWalk f64_zero (n 400) 0 (f64_from_bits 0x3F747AE147AE147B) (n 5) 2;
     analog 3 "Transformer temperature" "degC" SignalRamp (n 35) (n 85) (120 * one_second) f64_zero (n 1) 3;
     analog 4 "Tap position" "" SignalStep (n 7) (n 9) (90 * one_second) f64_zero f64_zero 2]
    [mkCounterSim 0 "Feeder 1 energy" (n 12) 3 f64_zero; mkCounterSim 1 "Feeder 2 energy" (n 8) 3 f64_zero]
    [mkSetpointSim 0 "Voltage setpoint" "kV" volts_low volts_high (n 11) 2 f64_zero zeroTime;
     mkSetpointSim 4 "Tap position setpoint" "" (n 7) (n 9) (n 8) 2 f64_zero zeroTime]
    (mkUnsolicitedYAML false (ms 500) 0) (mkFilesYAML "" false false 0 0) DefaultDevice 1000 (mkInjection 0 false 0 0) [].

(** [decode] is the decoder of YAML: it fills in a configuration from the contents of a file. *)
Definition LoadConfig {E} (decode : SimConfig -> list Z -> result E SimConfig) (data : list Z) : result E SimConfig :=
  let c := DefaultConfig in
  decode (mkSimConfig (sc_Address c) (sc_Master c) (sc_Points c) [] [] [] [] (sc_Unsolicited c) (sc_Files c) (sc_Device c)
    (sc_MaxEvents c) (sc_injection c) (sc_attributes c)) data.

(** [need] of one index. *)
Definition need (have index : Z) : Z := Z.max have (Z.max (-1) index + 1).
Definition derivePoints (c : SimConfig) : SimConfig :=
  let p := sc_Points c in
  let bin := fold_left need (bs_StatusIndex <$> sc_Breakers c) (pc_Binary p) in
  let out := fold_left need (bs_ControlIndex <$> sc_Breakers c) (pc_BinaryOutputStatus p) in
  let ana := fold_left need (as_Index <$> sc_Analogs c) (pc_Analog p) in
  let cnt := fold_left need (cs_Index <$> sc_Counters c) (pc_Counter p) in
  let frz := if pc_FrozenCounter p =? 0 then cnt else pc_FrozenCounter p in
  let aout := if pc_AnalogOutputStatus p =? 0 then ana else pc_AnalogOutputStatus p in
  let aout := fold_left need (sp_Index <$> sc_Setpoints c) aout in
  with_points (mkPointCounts bin ana cnt frz out aout) c.

Inductive ConfigErr :=
| ErrSameAddress (address : Z)
| ErrAttributeText (e : AttrTextErr)
| ErrUsedTwice (kind : string) (index : Z) (prev name : string)
| ErrAnalogRange (a : AnalogSim)
| ErrSetpointRange (sp : SetpointSim)
| ErrSetpointInitial (sp : SetpointSim).

(** [dup]: the names seen so far, by kind and index. *)
Definition seen_key (kind : string) (index : Z) : string := kind +:+ ":" +:+ dec index.
Definition dup (kind : string) (index : Z) (name : string) (seen : gmap string string) : result ConfigErr (gmap string string) :=
  match seen !! seen_key kind index with
  | Some prev => Err (ErrUsedTwice kind index prev name)
  | None => Ok (<[seen_key kind index := name]> seen)
  end.
(** A loop of checks over the points of a kind. *)
Fixpoint check_all {A} (check : A -> gmap string string -> result ConfigErr (gmap string string)) (l : list A)
    (seen : gmap string string) : result ConfigErr (gmap string string) :=
  match l with
  | [] => Ok seen
  | x :: l => match check x seen with Err e => Err e | Ok seen => check_all check l seen end
  end.
Definition check_breaker (b : BreakerSim) (seen : gmap string string) : result ConfigErr (gmap string string) :=
  match dup "binary input" (bs_StatusIndex b) (bs_Name b) seen with
  | Err e => Err e
  | Ok seen => dup "binary output" (bs_ControlIndex b) (bs_Name b) seen
  end.
Definition check_analog (a : AnalogSim) (seen : gmap string string) : result ConfigErr (gmap string string) :=
  match dup "analog" (as_Index a) (as_Name a) seen with
  | Err e => Err e
  | Ok seen => if SFltb (as_Max a) (as_Min a) then Err (ErrAnalogRange a) else Ok seen
  end.
Definition check_counter (c : CounterSim) (seen : gmap string string) : result ConfigErr (gmap string string) :=
  dup "counter" (cs_Index c) (cs_Name c) seen.
Definition check_setpoint (sp : SetpointSim) (seen : gmap string string) : result ConfigErr (gmap string string) :=
  match dup "analog output" (sp_Index sp) (sp_Name sp) seen with
  | Err e => Err e
  | Ok seen =>
      if SFltb (sp_Max sp) (sp_Min sp) then Err (ErrSetpointRange sp)
      else if bounded sp && negb (accepts sp (sp_Initial sp)) then Err (ErrSetpointInitial sp) else Ok seen
  end.

(** The configuration, with its attributes and points filled in as far as it got, and the
    error. *)
Definition Validate (c : SimConfig) : SimConfig * option ConfigErr :=
  if sc_Address c =? sc_Master c then (c, Some (ErrSameAddress (sc_Address c)))
  else
    match device_attributes (sc_Device c) with
    | Err e => (c, Some (ErrAttributeText e))
    | Ok attrs =>
        let c := derivePoints (with_attributes attrs c) in
        (c, match check_all check_breaker (sc_Breakers c) ∅ with
            | Err e => Some e
            | Ok seen =>
                match check_all check_analog (sc_Analogs c) seen with
                | Err e => Some e
                | Ok seen =>
                    match check_all check_counter (sc_Counters c) seen with
                    | Err e => Some e
                    | Ok seen => match check_all check_setpoint (sc_Setpoints c) seen with Err e => Some e | Ok _ => None end
                    end
                end
            end)
    end.
End Reading.

(** ** What the library is given *)

Definition database_config (c : SimConfig) : DatabaseConfig :=
  let p := sc_Points c in
  mkDatabaseConfig (pc_Binary p) 0 (pc_Counter p) (pc_FrozenCounter p) (pc_Analog p) 0 0 0 (pc_BinaryOutputStatus p)
    (pc_AnalogOutputStatus p) 0 Class1.
Definition outstationConfig {Env : Environment} (c : SimConfig) : Config :=
  let c := derivePoints c in
  mkConfig (sc_Address c) (sc_Master c) (database_config c) (sc_MaxEvents c) 0 0 0 (mkCommandConfig 0 0)
    (mkUnsolicitedConfig (uy_Enabled (sc_Unsolicited c)) (uy_HoldTime (sc_Unsolicited c)) (uy_MaxEvents (sc_Unsolicited c)) 0 0)
    (mkClockConfig 0 0) (mkFileConfig None None 0 0) (sc_attributes c) (dv_Disabled (sc_Device c)) [] None false None None None
    None [] None false 0 0 0.

Definition class_of (n : Z) : Z :=
  if n =? 1 then Class1 else if n =? 2 then Class2 else if n =? 3 then Class3 else if n =? 0 then ClassNone else Class1.
(** The settings, in the order in which they are made. *)
Definition point_settings (c : SimConfig) : list (PointType * Z * PointConfig) :=
  let with_class n := mkPointConfig (class_of n) 0 0 f64_zero ClassNone 0 in
  ((fun sp => (TypeAnalogOutputStatus, sp_Index sp, mkPointConfig (class_of (sp_Class sp)) 3 7 f64_zero ClassNone 0)) <$> sc_Setpoints c) ++
  concat ((fun b => [(TypeBinary, bs_StatusIndex b, with_class (bs_Class b));
                     (TypeBinaryOutputStatus, bs_ControlIndex b, with_class (bs_Class b))]) <$> sc_Breakers c) ++
  ((fun a => (TypeAnalog, as_Index a, mkPointConfig (class_of (as_Class a)) 5 7 (as_Deadband a) ClassNone 0)) <$> sc_Analogs c) ++
  ((fun ct => (TypeCounter, cs_Index ct, with_class (cs_Class ct))) <$> sc_Counters c).
Definition apply_setting (db : Database) (x : PointType * Z * PointConfig) : Database * bool :=
  let '(pt, i, cfg) := x in Configure db pt i cfg.
Definition applyPointConfig (c : SimConfig) (db : Database) : Database :=
  fold_left (fun db x => fst (apply_setting db x)) (point_settings c) db.

(** [NewSimulator(cfg)]. *)
Definition NewSimulator_of `{Numerics} (c : SimConfig) (now : Z) (r : Rand) : Rand * Simulator :=
  NewSimulator (sc_Analogs c) (sc_Breakers c) (sc_Counters c) (sc_Setpoints c) (pc_AnalogOutputStatus (sc_Points c))
    (sc_injection c) now r.

(** ** The files of the device *)

Section Files.
Context `{Unicode}.

Definition line_of (key value : string) : string := key +:+ value +:+ newline.
Definition deviceFile (c : SimConfig) : string :=
  let d := sc_Device c in
  line_of "vendor:        " (dv_Vendor d) +:+ line_of "model:         " (dv_Model d) +:+
  line_of "version:       " (dv_Version d) +:+ line_of "serial:        " (dv_Serial d) +:+
  line_of "address:       " (dec (sc_Address c)) +:+ line_of "master:        " (dec (sc_Master c)) +:+
  line_of "binary_inputs: " (dec (pc_Binary (sc_Points c))) +:+ line_of "analog_inputs: " (dec (pc_Analog (sc_Points c))) +:+
  line_of "counters:      " (dec (pc_Counter (sc_Points c))).

Definition quoted (s : string) : string := Quote (octets_of s).
Definition configFile (c : SimConfig) : string :=
  "# The running configuration of this simulated outstation." +:+ newline +:+
  "# Writing it back changes nothing: the simulator keeps what" +:+ newline +:+
  "# a master sends so the transfer can be verified, and goes on" +:+ newline +:+
  "# running the plant it started with." +:+ newline +:+
  "address: " +:+ dec (sc_Address c) +:+ newline +:+ "master: " +:+ dec (sc_Master c) +:+ newline +:+
  match sc_Breakers c with
  | [] => ""
  | bs => "breakers:" +:+ newline +:+
      Join ((fun b => "  - {status_index: " +:+ dec (bs_StatusIndex b) +:+ ", control_index: " +:+ dec (bs_ControlIndex b) +:+
                      ", name: " +:+ quoted (bs_Name b) +:+ "}" +:+ newline) <$> bs) ""
  end +:+
  match sc_Analogs c with
  | [] => ""
  | as_ => "analogs:" +:+ newline +:+
      Join ((fun a => "  - {index: " +:+ dec (as_Index a) +:+ ", name: " +:+ quoted (as_Name a) +:+ ", units: " +:+
                      quoted (as_Units a) +:+ "}" +:+ newline) <$> as_) ""
  end.

Definition log_lines : list string :=
  ["cold start"; "database initialised"; "listening for master"; "master connected"; "integrity poll served";
   "clock synchronised by master"; "breaker 0 opened by control"; "breaker 0 closed by control";
   "analog 3 crossed its deadband"; "event buffer high water mark 128"].
Definition eventLogFile (now : Z) : string :=
  Join (imap (fun i line => date_time_text (now - (len log_lines - Z.of_nat i) * (60 * one_second)) +:+ "  " +:+ line +:+ newline) log_lines) "".

Definition rw_perms : Z := Z.lor (Z.lor PermOwnerRead PermOwnerWrite) PermGroupRead.
Definition ro_perms : Z := Z.lor (Z.lor PermOwnerRead PermGroupRead) PermWorldRead.
Definition add_file (now : Z) (m : gmap (list Z) memFile) (name : string) (perms : Z) (content : string) : gmap (list Z) memFile :=
  <[name_of name := mkMemFile (name_of name) (octets_of content) false now perms]> m.
Definition newMemFiles (c : SimConfig) (sim : Simulator) (readOnly : bool) (now : Z) : memFiles :=
  let m := <[name_of "/logs" := mkMemFile (name_of "/logs") [] true now (Z.lor PermOwnerRead PermOwnerExecute)]> ∅ in
  let m := add_file now m "/device.txt" ro_perms (deviceFile c) in
  let m := add_file now m "/points.txt" ro_perms (Simulator_Describe sim) in
  let m := add_file now m "/config.yaml" rw_perms (configFile c) in
  let m := add_file now m "/logs/events.log" ro_perms (eventLogFile now) in
  mkMemFiles m readOnly.

(** Where files are served from: nowhere, memory, or a directory of the host. *)
Inductive FileSource := NoFiles | FromMemory (m : memFiles) | FromHost (directory : string) (readOnly : bool).
(** The source with the block size and the timeout, and what the banner says; [None] when the
    directory cannot be opened. *)
Definition buildFileConfig (open_dir : string -> bool) (c : SimConfig) (sim : Simulator) (now : Z)
    : option (FileSource * Z * Z * string) :=
  let fc := sc_Files c in
  if fy_Disabled fc then Some (NoFiles, 0, 0, "disabled")
  else if String.eqb (fy_Directory fc) "" then
    Some (FromMemory (newMemFiles c sim (fy_ReadOnly fc) now), fy_BlockSize fc, fy_Timeout fc,
          "simulated, in memory" +:+ (if fy_ReadOnly fc then ", read-only" else ""))
  else if open_dir (fy_Directory fc) then
    Some (FromHost (fy_Directory fc) (fy_ReadOnly fc), fy_BlockSize fc, fy_Timeout fc,
          fy_Directory fc +:+ (if fy_ReadOnly fc then " (read-only)" else ""))
  else None.

Definition describeAttributes (attrs : list Attribute) (disabled : bool) : string :=
  if disabled then "  Device attributes: disabled — every group 0 request is refused" +:+ newline
  else match attrs with
       | [] => "  Device attributes: none — the outstation reports only its point counts" +:+ newline
       | _ => newline +:+ "  Device attributes (group 0)" +:+ newline +:+
           Join ((fun a => "    " +:+ pad_left 3 (dec (A_Variation a)) +:+ "  " +:+ pad_right 28 (Attribute_Name a) +:+ " " +:+
                           Attribute_Value a +:+ newline) <$> attrs) ""
       end.

(** The files of a new device are a tree. *)
Lemma newMemFiles_tree c sim readOnly now : tree (newMemFiles c sim readOnly now).
Proof.
  unfold newMemFiles, add_file. cbv zeta.
  generalize (octets_of (deviceFile c)), (octets_of (Simulator_Describe sim)), (octets_of (configFile c)), (octets_of (eventLogFile now)).
  intros d1 d2 d3 d4.
  assert (E : forall s es, name_of s = rooted es -> bool_decide (Forall (fun e => e <> [] /\ e <> name_of "." /\ e <> name_of "..") es) = true ->
    forallb (fun e => forallb (fun c => negb (c =? slash)) e) es = true -> exists es, Forall element es /\ name_of s = rooted es).
  { intros s es Hs Hb Hf. exists es. split; [|done]. apply bool_decide_eq_true in Hb. rewrite forallb_forall in Hf. rewrite Forall_forall in *.
    intros e He. destruct (Hb e He) as (H1 & H2 & H3). split_and!; [done..|]. intros Hin. specialize (Hf e). rewrite <- list_elem_of_In in Hf.
    specialize (Hf He). rewrite forallb_forall in Hf. specialize (Hf slash). rewrite <- list_elem_of_In in Hf. by specialize (Hf Hin). }
  split; intros k f; cbn [mf_files]; rewrite !lookup_insert_Some.
  - intros [[<- <-]|[_ [[<- <-]|[_ [[<- <-]|[_ [[<- <-]|[_ [[<- <-]|[_ Hk]]]]]]]]]]; [..|by rewrite lookup_empty in Hk].
    + split; [done|]. apply (E _ [name_of "logs"; name_of "events.log"]); vm_compute; reflexivity.
    + split; [done|]. apply (E _ [name_of "config.yaml"]); vm_compute; reflexivity.
    + split; [done|]. apply (E _ [name_of "points.txt"]); vm_compute; reflexivity.
    + split; [done|]. apply (E _ [name_of "device.txt"]); vm_compute; reflexivity.
    + split; [done|]. apply (E _ [name_of "logs"]); vm_compute; reflexivity.
  - intros [[<- <-]|[_ [[<- <-]|[_ [[<- <-]|[_ [[<- <-]|[_ [[<- <-]|[_ Hk]]]]]]]]]]; [..|by rewrite lookup_empty in Hk]; try (by left).
    right. cbn [mf_files]. exists (mkMemFile (name_of "/logs") [] true now (Z.lor PermOwnerRead PermOwnerExecute)). split; [|done].
    change (path_Dir (name_of "/logs/events.log")) with (name_of "/logs").
    rewrite !lookup_insert_ne by done. by rewrite lookup_insert, decide_True.
Qed.
End Files.

(** ** The command line *)

(** The options that change a configuration. *)
Record Options := mkOptions {
  o_address : Z; o_master : Z; o_unsolicited : bool; o_files : string; o_files_read_only : bool; o_no_files : bool;
  o_no_attributes : bool; o_inject : list (list Z) }.
Definition with_options (o : Options) (c : SimConfig) : SimConfig :=
  let u := sc_Unsolicited c in
  let f := sc_Files c in
  let d := sc_Device c in
  mkSimConfig (if 0 <? o_address o then u16 (o_address o) else sc_Address c) (if 0 <? o_master o then u16 (o_master o) else sc_Master c)
    (sc_Points c) (sc_Breakers c) (sc_Analogs c) (sc_Counters c) (sc_Setpoints c)
    (mkUnsolicitedYAML (if o_unsolicited o then true else uy_Enabled u) (uy_HoldTime u) (uy_MaxEvents u))
    (mkFilesYAML (if String.eqb (o_files o) "" then fy_Directory f else o_files o) (if o_files_read_only o then true else fy_ReadOnly f)
       (if o_no_files o then true else fy_Disabled f) (fy_BlockSize f) (fy_Timeout f))
    (mkDeviceYAML (dv_Vendor d) (dv_Model d) (dv_Version d) (dv_Hardware d) (dv_Serial d) (dv_Name d) (dv_Location d) (dv_Owner d)
       (dv_IDCode d) (dv_Subset d) (if o_no_attributes o then true else dv_Disabled d) (dv_Extra d))
    (sc_MaxEvents c) (sc_injection c) (sc_attributes c).
(** The configuration that is run, or why there is none. *)
Definition configured `{Parsers} (o : Options) (c : SimConfig) : result (InjectErr + ConfigErr) SimConfig :=
  match parseInjections (mkInjection 0 false 0 0) (o_inject o) with
  | Err e => Err (inl e)
  | Ok inj => match Validate (with_injection inj (with_options o c)) with (_, Some e) => Err (inr e) | (c, None) => Ok c end
  end.

(** ** No point is missing *)

(** A check that remembers each point under its key. *)
Definition remembers {A} (key : A -> string) (check : A -> gmap string string -> result ConfigErr (gmap string string)) : Prop :=
  forall x seen seen', check x seen = Ok seen' ->
    seen !! key x = None /\ is_Some (seen' !! key x) /\ forall k, is_Some (seen !! k) -> is_Some (seen' !! k).
Lemma dup_remembers kind i name seen seen' : dup kind i name seen = Ok seen' ->
  seen !! seen_key kind i = None /\ is_Some (seen' !! seen_key kind i) /\ (forall k, is_Some (seen !! k) -> is_Some (seen' !! k)) /\
  (forall k, seen' !! k = None -> seen !! k = None).
Proof.
  unfold dup. destruct (seen !! seen_key kind i) eqn:E; [done|]. intros [= <-]. split_and!; [done | | |].
  - rewrite lookup_insert, decide_True by done. by eexists.
  - intros k Hk. destruct (decide (seen_key kind i = k)) as [<-|]; [rewrite lookup_insert, decide_True by done; by eexists|].
    by rewrite lookup_insert_ne.
  - intros k. rewrite lookup_insert_None. by intros [? _].
Qed.
Lemma breaker_inputs : remembers (fun b => seen_key "binary input" (bs_StatusIndex b)) check_breaker.
Proof.
  intros b seen seen'. unfold check_breaker. destruct (dup "binary input" _ _ seen) as [s1|] eqn:E1; [|done]. intros E2.
  apply dup_remembers in E1 as (H1 & H2 & H3 & _). apply dup_remembers in E2 as (_ & _ & H4 & _). split_and!; auto.
Qed.
Lemma breaker_outputs : remembers (fun b => seen_key "binary output" (bs_ControlIndex b)) check_breaker.
Proof.
  intros b seen seen'. unfold check_breaker. destruct (dup "binary input" _ _ seen) as [s1|] eqn:E1; [|done]. intros E2.
  apply dup_remembers in E1 as (_ & _ & H3 & H5). apply dup_remembers in E2 as (H1 & H2 & H4 & _). split_and!; auto.
Qed.
Lemma analog_inputs : remembers (fun a => seen_key "analog" (as_Index a)) check_analog.
Proof.
  intros a seen seen'. unfold check_analog. destruct (dup _ _ _ seen) as [s1|] eqn:E1; [|done]. destruct (SFltb _ _); [done|]. intros [= <-].
  by apply dup_remembers in E1 as (H1 & H2 & H3 & _).
Qed.
Lemma counter_inputs : remembers (fun c => seen_key "counter" (cs_Index c)) check_counter.
Proof. intros c seen seen' E. by apply dup_remembers in E as (H1 & H2 & H3 & _). Qed.
Lemma analog_outputs : remembers (fun sp => seen_key "analog output" (sp_Index sp)) check_setpoint.
Proof.
  intros sp seen seen'. unfold check_setpoint. destruct (dup _ _ _ seen) as [s1|] eqn:E1; [|done]. destruct (SFltb _ _); [done|].
  destruct (_ && _); [done|]. intros [= <-]. by apply dup_remembers in E1 as (H1 & H2 & H3 & _).
Qed.

Lemma check_all_once {A} (key : A -> string) check l : remembers key check -> forall seen seen',
  check_all check l seen = Ok seen' -> NoDup (key <$> l) /\ Forall (fun x => seen !! key x = None) l.
Proof.
  intros Hr. induction l as [|x l IH]; intros seen seen'; cbn [check_all]; [by split; constructor|].
  destruct (check x seen) as [s1|] eqn:E; [|done]. intros E2. destruct (Hr _ _ _ E) as (H1 & H2 & H3). destruct (IH _ _ E2) as [IH1 IH2].
  cbn [fmap list_fmap]. rewrite NoDup_cons, Forall_cons. split_and!; [|done | done|].
  - intros Hin. apply list_elem_of_fmap in Hin as (y & Ey & Hy). rewrite Forall_forall in IH2. specialize (IH2 y Hy).
    cbn in IH2. rewrite <- Ey in IH2. rewrite IH2 in H2. by destruct H2.
  - apply (Forall_impl _ _ _ IH2). intros y Hy. destruct (seen !! key y) eqn:Es; [|done].
    destruct (H3 (key y)) as [z Hz]; [by eexists|]. congruence.
Qed.
Lemma check_all_indexes {A} (kind : string) (index : A -> Z) check l seen seen' :
  remembers (fun x => seen_key kind (index x)) check -> check_all check l seen = Ok seen' -> NoDup (index <$> l).
Proof.
  intros Hr E. destruct (check_all_once _ check l Hr _ _ E) as [Hn _]. apply (NoDup_fmap_1 (seen_key kind)). by rewrite <- list_fmap_compose.
Qed.

(** *** Counts *)

Lemma need_fold l : forall have, have <= fold_left need l have /\ Forall (fun i => i < fold_left need l have) l.
Proof.
  induction l as [|i l IH]; intros have; cbn [fold_left]; [split; [lia | constructor]|]. destruct (IH (need have i)) as [H1 H2]. unfold need in *.
  split; [lia|]. constructor; [lia | done].
Qed.
Lemma need_fold_same l : forall have, Forall (fun i => i < have) l -> 0 <= have -> fold_left need l have = have.
Proof.
  induction l as [|i l IH]; intros have Hl H0; cbn [fold_left]; [done|]. apply Forall_cons in Hl as [Hi Hl].
  replace (need have i) with have by (unfold need; lia). by apply IH.
Qed.
Lemma need_fold_again l have : fold_left need l (fold_left need l have) = fold_left need l have.
Proof.
  destruct l as [|i l]; [done|]. apply need_fold_same; [apply need_fold|]. cbn [fold_left].
  destruct (need_fold l (need have i)) as [H _]. unfold need in *. lia.
Qed.
Lemma derive_again c : 0 <= pc_AnalogOutputStatus (sc_Points c) -> derivePoints (derivePoints c) = derivePoints c.
Proof.
  intros H0. unfold derivePoints, with_points.
  cbn [sc_Points sc_Breakers sc_Analogs sc_Counters sc_Setpoints pc_Binary pc_Analog pc_Counter pc_FrozenCounter pc_BinaryOutputStatus
    pc_AnalogOutputStatus sc_Address sc_Master sc_Unsolicited sc_Files sc_Device sc_MaxEvents sc_injection sc_attributes].
  rewrite !need_fold_again. f_equal. f_equal.
  - set (n := pc_FrozenCounter (sc_Points c)). set (k := fold_left need _ _). destruct (Z.eqb_spec n 0) as [E|E]; [by destruct (k =? 0)|].
    by rewrite (proj2 (Z.eqb_neq _ _)).
  - set (ana := fold_left need (as_Index <$> sc_Analogs c) _). destruct (Z.eqb_spec (pc_AnalogOutputStatus (sc_Points c)) 0) as [E|E].
    + destruct (_ =? 0); [done | apply need_fold_again].
    + destruct (need_fold (sp_Index <$> sc_Setpoints c) (pc_AnalogOutputStatus (sc_Points c))) as [H1 _].
      rewrite (proj2 (Z.eqb_neq _ _)) by lia. apply need_fold_again.
Qed.

(** *** Settings *)

Fixpoint settings_taken (db : Database) (xs : list (PointType * Z * PointConfig)) : Prop :=
  match xs with [] => True | x :: xs => snd (apply_setting db x) = true /\ settings_taken (fst (apply_setting db x)) xs end.
Definition sizes (db : Database) : Z * Z * Z * Z * Z :=
  (len (binary db), len (binaryOut db), len (analog db), len (analogOut db), len (counter db)).
Definition setting_fits (sz : Z * Z * Z * Z * Z) (x : PointType * Z * PointConfig) : Prop :=
  let '(b, bo, a, ao, c) := sz in
  let '(pt, i, cfg) := x in
  0 <= i /\ eventVariationEncodable pt (EventVariation cfg) = true /\
  match pt with
  | TypeBinary => i < b | TypeBinaryOutputStatus => i < bo | TypeAnalog => i < a | TypeAnalogOutputStatus => i < ao
  | TypeCounter => i < c | _ => False
  end.
Lemma setConfig_taken {T} (pts : list (point T)) i cfg : 0 <= i < len pts ->
  exists pts', setConfig pts i cfg = Some pts' /\ len pts' = len pts.
Proof.
  intros Hi. unfold setConfig. rewrite (proj2 (Z.ltb_ge _ _)), (proj2 (Z.leb_gt _ _)) by lia. cbn [orb].
  destruct (lookup_lt_is_Some_2 pts (Z.to_nat i)) as [p ->]; [unfold len in Hi; lia|]. eexists. split; [done|].
  unfold len. by rewrite length_insert.
Qed.
Lemma Configure_fits db x : setting_fits (sizes db) x -> snd (apply_setting db x) = true /\ sizes (fst (apply_setting db x)) = sizes db.
Proof.
  destruct x as [[pt i] cfg]. cbn [setting_fits sizes apply_setting]. intros (H0 & He & Hi). unfold Configure. rewrite He. cbn [negb].
  destruct pt; try done.
  - destruct (setConfig_taken (binary db) i cfg) as (pts & -> & E); [done|]. unfold sizes. cbn. by rewrite E.
  - destruct (setConfig_taken (counter db) i cfg) as (pts & -> & E); [done|]. unfold sizes. cbn. by rewrite E.
  - destruct (setConfig_taken (analog db) i cfg) as (pts & -> & E); [done|]. unfold sizes. cbn. by rewrite E.
  - destruct (setConfig_taken (binaryOut db) i cfg) as (pts & -> & E); [done|]. unfold sizes. cbn. by rewrite E.
  - destruct (setConfig_taken (analogOut db) i cfg) as (pts & -> & E); [done|]. unfold sizes. cbn. by rewrite E.
Qed.
Lemma settings_fit xs : forall db, Forall (setting_fits (sizes db)) xs ->
  settings_taken db xs /\ sizes (fold_left (fun db x => fst (apply_setting db x)) xs db) = sizes db.
Proof.
  induction xs as [|x xs IH]; intros db Hx; [done|]. apply Forall_cons in Hx as [Hx Hxs]. destruct (Configure_fits db x Hx) as [H1 H2].
  rewrite <- H2 in Hxs. destruct (IH _ Hxs) as [H3 H4]. cbn [settings_taken fold_left]. split_and!; [done | done|]. by rewrite H4.
Qed.
Lemma NewDatabase_sizes cfg ev : sizes (NewDatabase cfg ev) =
  (Z.max 0 (n_Binary cfg), Z.max 0 (n_BinaryOutputStatus cfg), Z.max 0 (n_Analog cfg), Z.max 0 (n_AnalogOutputStatus cfg), Z.max 0 (n_Counter cfg)).
Proof. unfold sizes, NewDatabase, makePoints, len. cbn. rewrite !length_replicate. repeat f_equal; lia. Qed.

(** Indexes are not negative: they are 16 bits wide.  A count could be. *)
Definition config_typed (c : SimConfig) : Prop :=
  Forall (fun b => 0 <= bs_StatusIndex b /\ 0 <= bs_ControlIndex b) (sc_Breakers c) /\ Forall (fun a => 0 <= as_Index a) (sc_Analogs c) /\
  Forall (fun k => 0 <= cs_Index k) (sc_Counters c) /\ Forall (fun sp => 0 <= sp_Index sp) (sc_Setpoints c) /\
  0 <= pc_Analog (sc_Points c) /\ 0 <= pc_AnalogOutputStatus (sc_Points c).

Lemma Validate_spec `{Parsers} c c' : config_typed c -> Validate c = (c', None) ->
  config_typed c' /\ derivePoints c' = c' /\
  NoDup (bs_StatusIndex <$> sc_Breakers c') /\ NoDup (bs_ControlIndex <$> sc_Breakers c') /\ NoDup (as_Index <$> sc_Analogs c') /\
  NoDup (cs_Index <$> sc_Counters c') /\ NoDup (sp_Index <$> sc_Setpoints c').
Proof.
  intros Ht. unfold Validate. destruct (_ =? _); [done|]. destruct (device_attributes _) as [attrs|]; [|done].
  set (c1 := with_attributes attrs c). assert (Ht1 : config_typed c1) by exact Ht. intros E.
  assert (E1 : derivePoints c1 = c') by congruence. apply (f_equal snd) in E. cbn [snd] in E. rewrite E1 in E.
  destruct (check_all check_breaker (sc_Breakers c') ∅) as [s1|] eqn:C1; [|done].
  destruct (check_all check_analog (sc_Analogs c') s1) as [s2|] eqn:C2; [|done].
  destruct (check_all check_counter (sc_Counters c') s2) as [s3|] eqn:C3; [|done].
  destruct (check_all check_setpoint (sc_Setpoints c') s3) as [s4|] eqn:C4; [|done].
  split_and!.
  - rewrite <- E1. destruct Ht1 as (T1 & T2 & T3 & T4 & T5 & T6).
    destruct (need_fold (as_Index <$> sc_Analogs c) (pc_Analog (sc_Points c))) as [Ha _].
    split_and!; [done..| |]; cbn [derivePoints with_points sc_Points pc_Analog pc_AnalogOutputStatus].
    + change (sc_Points c1) with (sc_Points c) in *. change (sc_Analogs c1) with (sc_Analogs c). lia.
    + set (a0 := if _ =? 0 then _ else _). destruct (need_fold (sp_Index <$> sc_Setpoints c1) a0) as [Hge _].
      assert (0 <= a0); [|lia]. unfold a0. change (sc_Points c1) with (sc_Points c) in *. change (sc_Analogs c1) with (sc_Analogs c).
      destruct (_ =? 0); lia.
  - rewrite <- E1. apply derive_again, Ht1.
  - exact (check_all_indexes _ _ _ _ _ _ breaker_inputs C1).
  - exact (check_all_indexes _ _ _ _ _ _ breaker_outputs C1).
  - exact (check_all_indexes _ _ _ _ _ _ analog_inputs C2).
  - exact (check_all_indexes _ _ _ _ _ _ counter_inputs C3).
  - exact (check_all_indexes _ _ _ _ _ _ analog_outputs C4).
Qed.

(** *** The plant that is built *)

Lemma start_analogs_index `{Numerics} l : forall r, as_Index <$> snd (start_analogs r l) = as_Index <$> l.
Proof.
  induction l as [|a l IH]; intros r; [done|]. cbn [start_analogs]. destruct (rand_Float64 r) as [r1 u]. specialize (IH r1).
  destruct (start_analogs r1 l) as [r2 l']. cbn [snd fmap list_fmap]. f_equal. exact IH.
Qed.
Lemma setpoint_keys_from sps : forall m i, is_Some (fold_left add_setpoint sps m !! i) -> is_Some (m !! i) \/ i ∈ sp_Index <$> sps.
Proof.
  induction sps as [|sp sps IH]; intros m i Hi; [by left|]. cbn [fold_left fmap list_fmap] in *. apply IH in Hi as [Hi|Hi]; [|right; by right].
  unfold add_setpoint in Hi. destruct (decide (sp_Index sp = i)) as [->|]; [right; by left|]. rewrite lookup_insert_ne in Hi by done. by left.
Qed.
Lemma unnamed_keys_from l : forall (m : gmap Z SetpointSim) i, is_Some (fold_left add_unnamed l m !! i) -> is_Some (m !! i) \/ i ∈ l.
Proof.
  induction l as [|j l IH]; intros m i Hi; [by left|]. cbn [fold_left] in *. apply IH in Hi as [Hi|Hi]; [|right; by right].
  unfold add_unnamed in Hi. destruct (m !! j); [by left|]. destruct (decide (j = i)) as [->|]; [right; by left|].
  rewrite lookup_insert_ne in Hi by done. by left.
Qed.

Lemma derived_fits c : derivePoints c = c ->
  Forall (fun i => i < pc_Binary (sc_Points c)) (bs_StatusIndex <$> sc_Breakers c) /\
  Forall (fun i => i < pc_BinaryOutputStatus (sc_Points c)) (bs_ControlIndex <$> sc_Breakers c) /\
  Forall (fun i => i < pc_Analog (sc_Points c)) (as_Index <$> sc_Analogs c) /\
  Forall (fun i => i < pc_Counter (sc_Points c)) (cs_Index <$> sc_Counters c) /\
  Forall (fun i => i < pc_AnalogOutputStatus (sc_Points c)) (sp_Index <$> sc_Setpoints c).
Proof.
  intros E. apply (f_equal sc_Points) in E. rewrite <- E. unfold derivePoints. cbn [with_points sc_Points].
  split_and!; apply need_fold.
Qed.

(** The sizes of the database of a configuration. *)
Definition config_sizes (c : SimConfig) : Z * Z * Z * Z * Z :=
  let p := sc_Points c in
  (Z.max 0 (pc_Binary p), Z.max 0 (pc_BinaryOutputStatus p), Z.max 0 (pc_Analog p), Z.max 0 (pc_AnalogOutputStatus p), Z.max 0 (pc_Counter p)).
Lemma point_settings_fit c : config_typed c -> derivePoints c = c -> Forall (setting_fits (config_sizes c)) (point_settings c).
Proof.
  intros (T1 & T2 & T3 & T4 & _) Hd. destruct (derived_fits c Hd) as (F1 & F2 & F3 & F4 & F5).
  rewrite Forall_fmap in F1. rewrite Forall_fmap in F2. rewrite Forall_fmap in F3. rewrite Forall_fmap in F4. rewrite Forall_fmap in F5.
  unfold point_settings, config_sizes. rewrite !Forall_app, !Forall_fmap. split_and!.
  - apply Forall_forall. intros sp Hsp. rewrite Forall_forall in F5, T4.
    specialize (F5 sp Hsp). specialize (T4 sp Hsp). cbn in *. split_and!; [done | by vm_compute | lia].
  - rewrite Forall_concat, Forall_fmap. apply Forall_forall. intros b Hb. rewrite Forall_forall in T1, F1, F2.
    specialize (T1 b Hb). specialize (F1 b Hb). specialize (F2 b Hb). cbn in *.
    constructor; [|constructor; [|constructor]]; cbn; (split_and!; [lia | by vm_compute | lia]).
  - apply Forall_forall. intros a Ha. rewrite Forall_forall in T2, F3. specialize (T2 a Ha). specialize (F3 a Ha). cbn in *.
    split_and!; [done | by vm_compute | lia].
  - apply Forall_forall. intros k Hk. rewrite Forall_forall in T3, F4. specialize (T3 k Hk). specialize (F4 k Hk). cbn in *.
    split_and!; [done | by vm_compute | lia].
Qed.

(** The outputs of the plant and the points of a database. *)
Definition all_there (sim : Simulator) (db : Database) : Prop :=
  Forall (fun b => bs_StatusIndex b < len (binary db) /\ bs_ControlIndex b < len (binaryOut db)) (breakers sim) /\
  Forall (fun a => as_Index a < len (analog db)) (analogs sim) /\
  Forall (fun k => cs_Index k < len (counter db)) (counters sim) /\
  (forall i, is_Some (Setpoint sim i) -> i < len (analogOut db)).

(** A configuration that passes its checks leaves no point out: in the database that is built
    from it every setting of a point is taken, and every breaker, analog, counter and setpoint
    of the plant is a point of it, under an index no other of its kind has. *)
Theorem validated `{Parsers} `{Numerics} {Env : Environment} c c' events now r : config_typed c -> Validate c = (c', None) ->
  let db := NewDatabase (DatabaseCfg (outstationConfig c')) events in
  let sim := snd (NewSimulator_of c' now r) in
  settings_taken db (point_settings c') /\ all_there sim (applyPointConfig c' db) /\ plant_ok sim /\ indexed (breakers sim) /\
  NoDup (as_Index <$> analogs sim) /\ NoDup (cs_Index <$> counters sim).
Proof.
  intros Ht Hv. destruct (Validate_spec c c' Ht Hv) as ((T1 & T2 & T3 & T4 & T5 & T6) & Hd & N1 & N2 & N3 & N4 & N5).
  destruct (derived_fits c' Hd) as (F1 & F2 & F3 & F4 & F5). rewrite Forall_fmap in F1. rewrite Forall_fmap in F2. rewrite Forall_fmap in F3. rewrite Forall_fmap in F4.
  cbv zeta. set (db := NewDatabase _ events).
  assert (Hs : sizes db = config_sizes c') by (unfold db, outstationConfig; rewrite Hd; apply NewDatabase_sizes).
  assert (Hfit : Forall (setting_fits (sizes db)) (point_settings c')) by (rewrite Hs; by apply point_settings_fit).
  destruct (settings_fit _ db Hfit) as [Htaken Hsz]. fold (applyPointConfig c' db) in Hsz. rewrite Hs in Hsz. unfold sizes, config_sizes in Hsz.
  injection Hsz as S1 S2 S3 S4 S5. split; [done|].
  unfold NewSimulator_of, NewSimulator at 1. pose proof (start_analogs_index (sc_Analogs c') r) as Ea.
  split_and!.
  - unfold NewSimulator. destruct (start_analogs r (sc_Analogs c')) as [r1 as1] eqn:Es. cbn [snd] in Ea. split_and!; cbn [snd breakers analogs counters].
    + rewrite Forall_fmap. apply Forall_forall. intros b Hb. rewrite Forall_forall in F1, F2. specialize (F1 b Hb). specialize (F2 b Hb). cbn in *. lia.
    + apply (proj1 (Forall_fmap as_Index (fun i => i < len (analog (applyPointConfig c' db))) as1)). rewrite Ea, Forall_fmap.
      apply (Forall_impl _ _ _ F3). intros a Ha. cbn in *. lia.
    + apply (Forall_impl _ _ _ F4). intros k Hk. cbn in *. lia.
    + intros i Hi. unfold Setpoint in Hi. cbn [snd setpoints] in Hi. apply fmap_is_Some in Hi. apply unnamed_keys_from in Hi as [Hi|Hi].
      * apply setpoint_keys_from in Hi as [Hi|Hi]; [by rewrite lookup_empty in Hi; destruct Hi|]. rewrite Forall_forall in F5. specialize (F5 i Hi). cbn in *. lia.
      * apply elem_of_seqZ in Hi. unfold u16 in Hi. assert (pc_AnalogOutputStatus (sc_Points c') mod 65536 <= pc_AnalogOutputStatus (sc_Points c')) by (apply Z.mod_le; lia).
        lia.
  - by apply NewSimulator_ok.
  - unfold NewSimulator. destruct (start_analogs r (sc_Analogs c')) as [r1 as1]. unfold indexed. cbn [snd breakers].
    rewrite <- !list_fmap_compose, !Forall_fmap. split_and!; [done | done | |].
    + apply (Forall_impl _ _ _ T1). by intros b [_ Hb].
    + apply (Forall_impl _ _ _ T1). by intros b [Hb _].
  - unfold NewSimulator. destruct (start_analogs r (sc_Analogs c')) as [r1 as1]. cbn [snd analogs] in *. by rewrite Ea.
  - unfold NewSimulator. by destruct (start_analogs r (sc_Analogs c')) as [r1 as1].
Qed.

(** ** Runs *)

Module ConfigRuns.
#[local] Instance no_floats : Parsers := {| ParseFloat _ := None; ParseDuration _ := None; Duration_String _ := "" |}.

Lemma default_typed : config_typed DefaultConfig.
Proof. split_and!; repeat constructor; vm_compute; discriminate. Qed.
Lemma default_validated : snd (Validate DefaultConfig) = None.
Proof. vm_compute. reflexivity. Qed.

Lemma validated_witness :
  let c' := fst (Validate DefaultConfig) in
  let db := NewDatabase (DatabaseCfg (@outstationConfig (Shelf.shelf) c')) None in
  settings_taken db (point_settings c') /\ all_there (snd (@NewSimulator_of PlantRuns.still c' 0 tt)) (applyPointConfig c' db).
Proof.
  destruct (@validated _ PlantRuns.still Shelf.shelf DefaultConfig (fst (Validate DefaultConfig)) None 0 tt) as (H1 & H2 & _).
  - exact default_typed.
  - rewrite <- default_validated. by destruct (Validate DefaultConfig).
  - split; [exact H1 | exact H2].
Defined.

Example injections_text :
  parseInjections (mkInjection 0 false 0 0) [octets_of "event-storm=500"; octets_of " device-trouble "] = Ok (mkInjection 500 true 0 0) /\
  parseInjections (mkInjection 0 false 0 0) [octets_of "event-storm=0"] = Err (ErrStormCount (octets_of "0")) /\
  Injection_String (mkInjection 500 true 0 0) = "event storm 500/s, device trouble".
Proof. vm_compute. done. Qed.

Example numbers_text :
  ParseInt (octets_of "-9223372036854775808") = Some (- 2 ^ 63) /\ ParseInt (octets_of "9223372036854775808") = None /\
  ParseUint (octets_of "18446744073709551615") = Some (2 ^ 64 - 1) /\ ParseUint (octets_of "+1") = None /\ ParseInt (octets_of "+1") = Some 1.
Proof. vm_compute. done. Qed.
End ConfigRuns.
