(* ===== verification/Simulated.v ===== *)
(** * The simulated outstation put together

    cmd/dnp3-outstation/main.go: the session of the library with the plant of Simulator as its
    command handler, the files of MemFiles, the clock of the command, and the goroutine that
    advances the plant.  Everything the session calls is one [Device]; readers and writers are
    the objects the file handler has handed out, in the order in which it did.  The device keeps
    what a file transfer asks of a reader ([Reads]) and of a writer ([Writes]), so that the
    theorems of FileTransfer and FileUpload hold of it. *)

From Stdlib Require Import Ascii SpecFloat.
From stdpp Require Import gmap.
From S2P Require Import Prelude StateMonad Stack LinkLayer Values AppHeader AppObject AppFragment Objects Codecs FileObjects ExtObjects.
From S2P Require Import EventBuffer Database ExtendedDatabase Commands Response OutstationState Respond FileServer FileTransfer FileUpload.
From S2P Require Import Requests Serve SessionRuns Text MemFiles Simulator SimConfig.
#[local] Open Scope Z_scope.

(** ** The device *)

(** [d_now] is the clock of the host, [offset] that of the command's [clock]. *)
Record Device := mkDevice {
  plant : Simulator; d_files : memFiles; readers : list (list Z); writers : list memWriter; offset : Z; d_now : Z }.
Definition with_plant_ (s : Simulator) (d : Device) : Device := mkDevice s (d_files d) (readers d) (writers d) (offset d) (d_now d).
Definition with_files (m : memFiles) (d : Device) : Device := mkDevice (plant d) m (readers d) (writers d) (offset d) (d_now d).
Definition with_readers (l : list (list Z)) (d : Device) : Device := mkDevice (plant d) (d_files d) l (writers d) (offset d) (d_now d).
Definition with_writers (l : list memWriter) (d : Device) : Device := mkDevice (plant d) (d_files d) (readers d) l (offset d) (d_now d).

(** ** The clock *)

Definition clock_Now (d : Device) : Device * Z := (d, d_now d + offset d).
Definition clock_WriteAbsoluteTime (d : Device) (t : Z) : Device * bool :=
  (mkDevice (plant d) (d_files d) (readers d) (writers d) (time_Sub t (d_now d)) (d_now d), true).
Definition clock_ColdRestart (d : Device) : Device * Z := (d, 3 * one_second).
Definition clock_WarmRestart (d : Device) : Device * Z := (d, one_second).
Definition clock_SupportsWriteTime (d : Device) : Device * bool := (d, true).

(** ** The plant as a command handler *)

Definition plantHandler `{Numerics} : CommandHandler Device :=
  mkCommandHandler
    (fun d i _ => (d, plant_SelectCROB (plant d) i))
    (fun d i c _ => let '(s, status) := plant_OperateCROB (plant d) i c (d_now d) in (with_plant_ s d, status))
    (fun d i v => (d, plant_SelectAnalog (plant d) i v))
    (fun d i v _ => let '(s, status) := plant_OperateAnalog (plant d) i v (d_now d) in (with_plant_ s d, status))
    None.

(** ** Readers and writers *)

(** A [bytes.Reader]. *)
Definition bytes_Read (d : Device) (r : nat) (n : Z) : Device * (list Z * option ReadErr) :=
  match readers d !! r with
  | None => (d, ([], Some EOF))
  | Some [] => (d, ([], Some EOF))
  | Some l => (with_readers (<[r := drop (Z.to_nat n) l]> (readers d)) d, (take (Z.to_nat n) l, None))
  end.
Definition device_Write (d : Device) (w : nat) (p : list Z) : Device * bool :=
  match writers d !! w with
  | None => (d, false)
  | Some x => let '(x, done) := mem_Write x p in (with_writers (<[w := x]> (writers d)) d, done)
  end.
Definition device_Close (d : Device) (w : nat) : Device * bool :=
  match writers d !! w with
  | None => (d, true)
  | Some x => (with_files (mem_Close (d_files d) x (d_now d)) d, true)
  end.

(** What the session asks of the host, beside the time, is a parameter. *)
Class Machine := {
  machine_rand : Z -> option (list Z);
  machine_hmac : list Z -> list Z -> list Z;
  machine_aes : list Z -> option ((list Z -> list Z) * (list Z -> list Z));
  machine_grow : Z -> Z -> Z }.

#[export] Instance device `{Numerics} `{Machine} : Environment := {|
  App := Device; Host := Z;
  appl_Now := clock_Now;
  OutstationState.WriteAbsoluteTime := clock_WriteAbsoluteTime;
  OutstationState.ColdRestart := clock_ColdRestart;
  OutstationState.WarmRestart := clock_WarmRestart;
  OutstationState.SupportsWriteTime := clock_SupportsWriteTime;
  RestartSupport := None;
  cmds := plantHandler;
  Reader := nat; Writer := nat;
  reader_Read := bytes_Read;
  reader_Close d _ := (d, true);
  writer_Write := device_Write;
  writer_Close := device_Close;
  time_Now h := (h, h);
  rand_Read h n := (h, machine_rand n);
  hmac_sha256 := machine_hmac;
  aes_NewCipher := machine_aes;
  grow := machine_grow |}.

Section Served.
Context `{Numerics} `{Machine} {LL : LinkLayer}.

(** [memFiles] as the session's file handler. *)
Definition device_OpenRead (d : Device) (name : list Z) : Device * (nat * FileInfo * Z) :=
  match mem_OpenRead (d_files d) name with
  | Err status => (d, (0%nat, FileInfo0, status))
  | Ok (data, info) => (with_readers (readers d ++ [data]) d, (length (readers d), info, FileSuccess))
  end.
Definition device_OpenWrite (d : Device) (name : list Z) (mode size : Z) : Device * (nat * Z) :=
  match mem_OpenWrite (d_files d) name mode with
  | Err status => (d, (0%nat, status))
  | Ok w => (with_writers (writers d ++ [w]) d, (length (writers d), FileSuccess))
  end.
Definition memHandler : FileHandler :=
  mkFileHandler (fun (d : App) name => (d, mem_Info (d_files d) name)) (fun (d : App) name => (d, mem_List (d_files d) name))
    device_OpenRead device_OpenWrite
    (fun (d : App) name => let '(m, status) := mem_Delete (d_files d) name in (with_files m d, status)).

(** ** What it keeps *)

(** A reader returns the file as it was when it was opened. *)
#[export] Instance device_reads : Reads.
Proof.
  refine {| left_of := fun (d : @App device) (r : nat) rest => readers d !! r = Some rest |}; [|done].
  intros d r rest n Hr Hn. change (@Reader device) with nat in r. cbn [reader_Read device]. unfold bytes_Read. rewrite Hr. destruct rest as [|x rest].
  - exists d, [], (Some EOF), []. split_and!; [done | done | rewrite len_nil; lia | done | by right].
  - eexists _, _, _, _. split; [done|]. split_and!; [by rewrite take_drop | unfold len; rewrite length_take; lia | |].
    + cbn. apply list_lookup_insert_eq. by eapply lookup_lt_Some.
    + left. split; [done|]. by destruct (Z.to_nat n) eqn:E; [lia|].
Defined.

(** A writer takes the octets up to the limit of a simulated file. *)
#[export] Instance device_writes : Writes.
Proof.
  refine {| taken := fun (d : @App device) (w : nat) octets => exists x, writers d !! w = Some x /\ mw_buf x = octets /\ mw_over x = false;
            capacity := memFileLimit |}; [|done].
  intros d w octets data (x & Hw & Hb & Ho) Hc. change (@Writer device) with nat in w. cbn [writer_Write device]. unfold device_Write. rewrite Hw. unfold mem_Write.
  rewrite Hb, (proj2 (Z.ltb_ge _ _)) by lia. eexists. split; [done|]. eexists. split; [cbn; by rewrite list_lookup_insert_eq by (by eapply lookup_lt_Some)|].
  by split.
Defined.

(** ** The plant in time *)

(** A tick: the plant moves on and is written to the database.  The session runs the update
    when it takes it up, between two requests. *)
Definition tick (now : Z) (order : list Z) (r : Rand) : ST state Rand := fun st =>
  let '(s, r, database) := Simulator.Apply (plant (appl st)) now order r (db (sess st)) in
  (mkState (set_sdb database (sess st)) (with_plant_ s (appl st)) (host st) (wire st) (sent st), r).

(** [simulate] before its loop, and one turn of the loop; the result is when the next restart
    is to be injected. *)
Definition simulate_start (inject : Injection) (now : Z) (order : list Z) (r : Rand) : ST state (Rand * Z) := fun st =>
  let '(st, r) := tick now order r st in
  let st := if DeviceTrouble inject
            then mkState (SetIndication IndicationDeviceTrouble true (sess st)) (appl st) (host st) (wire st) (sent st) else st in
  (st, (r, if 0 <? RestartAfter inject then now + RestartAfter inject else zeroTime)).
Definition simulate_step (inject : Injection) (now : Z) (order : list Z) (restartAt : Z) (r : Rand) : ST state (Rand * Z) := fun st =>
  let '(st, r) := tick now order r st in
  if negb (IsZero restartAt) && (restartAt <? now) then
    let '(st, _) := Serve.Restart st in (st, (r, now + RestartAfter inject))
  else (st, (r, restartAt)).
End Served.

(** ** The transport *)

(** The channel of the flags: a serial line, UDP, TLS or TCP.  [None] is an error: an incomplete
    TLS configuration, or one that TLS refuses. *)
Inductive Transport_ := OnSerial (dev : string) (baud : Z) | OnUDP (addr : string) | OnTLS (addr cert key ca : string) | OnTCP (addr : string).
Definition buildChannel (tls_ok : string -> string -> string -> bool) (listen serialDev : string) (baud : Z) (udp : bool) (cert key ca : string)
    : option (Transport_ * string) :=
  if negb (String.eqb serialDev "") then Some (OnSerial serialDev baud, "serial " +:+ serialDev +:+ " at " +:+ dec baud +:+ " baud")
  else if udp then Some (OnUDP listen, "UDP " +:+ listen)
  else if negb (String.eqb cert "") || negb (String.eqb key "") || negb (String.eqb ca "") then
    if String.eqb cert "" || String.eqb key "" || String.eqb ca "" then None
    else if tls_ok cert key ca then Some (OnTLS listen cert key ca, "TLS " +:+ listen) else None
  else Some (OnTCP listen, "TCP " +:+ listen).

(** ** Runs *)

Module DeviceRuns.
#[local] Existing Instance PlantRuns.still.
#[local] Instance machine : Machine := {| machine_rand _ := None; machine_hmac _ _ := []; machine_aes _ := None; machine_grow _ n := n |}.
#[local] Instance line : LinkLayer := stackLink record_write None.
#[local] Instance line_reliable : Reliable := quiet_line.

(** An outstation at address 10 with one breaker, whose master is at address 1, and which
    serves the files of [sample_files]. *)
Definition config : Config := mkConfig 10 1 (mkDatabaseConfig 2 0 0 0 1 0 0 0 2 5 0 Class1) 10 2048 2048 one_second
  (mkCommandConfig one_second 8) (mkUnsolicitedConfig false 0 0 one_second 3) (mkClockConfig 0 0)
  (mkFileConfig (Some memHandler) None 512 (60 * one_second))
  [] false [] None false None None None None [] None false 0 0 0.
Definition started : state :=
  mkState (New config (station_stack false)) (mkDevice PlantRuns.plant sample_files [] [] 0 one_second) one_second [] [].
Definition asks (fc : Z) (objs : list ObjectHeader) (st : state) : state := (Requests.handle (from_master 10 (request 1 fc objs)) st).1.
Definition free (group variation : Z) (obj : list Z) : ObjectHeader :=
  match FreeFormat group variation obj with Ok h => h | Err _ => ReadAllObjects 60 1 end.

Definition name : list Z := name_of "config.yaml".
Definition opens (size : Z) : state -> state :=
  asks FuncOpenFile [free 70 3 (AppendFileCommand [] (mkFileCommand name 0 0 0 size FileModeWrite 512 9))].
Definition sends_block (i : nat) (last : bool) (data : list Z) : ObjectHeader :=
  free 70 5 (AppendFileTransport [] (mkFileTransport 1 (Z.of_nat i) last data)).
Definition aborts : state -> state := asks FuncAbortFile [free 70 4 (AppendFileCommandStatus [] (file_reply 1 0 0 9 0))].
Definition stored (st : state) : option (list Z) := mf_data <$> lookup_file (d_files (appl st)) name.

(** A master replaces a file. *)
Definition new_blocks : list (list Z) := [[1; 2]; [7]].
Definition block_at (i : nat) : ObjectHeader := sends_block i (bool_decide (S i = 2%nat)) (nth i new_blocks []).
Definition any_fragment (i : nat) : Fragment := mkFragment (mkHeader (mkControl true true false false 3) FuncWrite 0) [] [].
Definition close_fragment : Fragment :=
  (ParseFragment None (request 4 FuncCloseFile [free 70 4 (AppendFileCommandStatus [] (file_reply 1 0 0 9 0))])).1.

Definition just_opened (o : option transfer) : bool :=
  match o with
  | Some t =>
      (OutstationState.handle t =? 1) && (blockSize t =? 512) && is_writing t && negb (t_done t) && (t_block t =? 0) && (t_received t =? 0) && (t_size t =? 3) &&
      match t_r t, t_w t with None, Some w => Nat.eqb w 0 | _, _ => false end
  | None => false
  end.
Lemma just_opened_spec o : just_opened o = true -> exists t, o = Some t /\ OutstationState.handle t = 1 /\ blockSize t = 512 /\
  is_writing t = true /\ t_done t = false /\ t_block t = 0 /\ t_received t = 0 /\ t_size t = 3 /\ t_r t = None /\ t_w t = Some (0%nat : @Writer device).
Proof.
  destruct o as [t|]; [|done]. unfold just_opened. intros Hf.
  destruct (t_r t) as [|] eqn:Er, (t_w t) as [w|] eqn:Ew; try (by rewrite andb_false_r in Hf).
  rewrite !andb_true_iff, !negb_true_iff, !Z.eqb_eq, Nat.eqb_eq in Hf. destruct Hf as [[[[[[[H1 H2] H3] H4] H5] H6] H7] ->].
  exists t. by split_and!.
Qed.
Lemma opened_idle : idle (opens 3 started).
Proof. split; [by vm_compute | | by vm_compute]. vm_compute. repeat split; done || discriminate. Qed.
Lemma opened_writer : writers (appl (opens 3 started)) !! 0%nat = Some (mkMemWriter (clean name) FileModeWrite [] false).
Proof. by vm_compute. Qed.
Lemma opened_uploading : uploading (opens 3 started) 1 512 0 3 false (0%nat : @Writer device) [] [].
Proof.
  split; [exact opened_idle | by vm_compute|].
  destruct (just_opened_spec (file (sess (opens 3 started)))) as (t & Hf & H1 & H2 & H3 & H4 & H5 & H6 & H7 & H8 & H9); [by vm_compute|].
  exists t. split_and!; try assumption. eexists. split; [exact opened_writer | split; reflexivity].
Qed.

(** Both blocks are taken, and the close installs them. *)
Lemma file_uploaded_witness :
  let st := upload (from_master 10 []) any_fragment block_at 2 (opens 3 started) in
  taken (appl st) (0%nat : @Writer device) [1; 2; 7] /\ stored (onCloseFile (from_master 10 []) close_fragment st).1 = Some [1; 2; 7].
Proof.
  intros st.
  destruct (file_uploaded (from_master 10 []) any_fragment block_at 1 new_blocks 512 3 (0%nat : @Writer device) [] (opens 3 started) 2
    (from_master 10 []) close_fragment (mkFileCommandStatus 1 0 0 9 0 [])) as (_ & Ht & st2 & v & E & _ & Ha & _).
  - done.
  - split; [intros i; cbn; lia|]. intros i data Hi. destruct i as [|[|i]]; [injection Hi as <-.. | done]; (split; [|vm_compute; discriminate]).
    + exists (AppendFileTransport [] (mkFileTransport 1 0 false [1; 2])). split; by vm_compute.
    + exists (AppendFileTransport [] (mkFileTransport 1 1 true [7])). split; by vm_compute.
  - done.
  - vm_compute. discriminate.
  - by vm_compute.
  - by vm_compute.
  - apply opened_uploading.
  - cbn. lia.
  - done.
  - vm_compute. discriminate.
  - by vm_compute.
  - done.
  - split; [exact Ht|]. unfold st. rewrite E. cbn [fst]. unfold stored. rewrite Ha. by vm_compute.
Defined.

(** An upload that the master aborts, or whose connection is lost, after the first block
    replaces the file with that block. *)
Example aborted_upload_installed :
  let st := asks FuncWrite [sends_block 0 false [1; 2]] (opens 3 started) in
  stored started = Some [1; 2; 3] /\ stored st = Some [1; 2; 3] /\
  stored (aborts st) = Some [1; 2] /\ stored (serve_end st).1 = Some [1; 2].
Proof. vm_compute. done. Qed.

(** A breaker tripped over the line: it reports closed until it has travelled, and then open. *)
Definition trips : state -> state := asks FuncDirectOperate
  [mkObjectHeader 12 1 (MakeQualifier PrefixIndex1 RangeCount8) (mkRange RangeCount8 0 0 1) [1; 0x81; 1; 100; 0; 0; 0; 100; 0; 0; 0; 0] 0 0].
Definition position_after (d : Z) (st : state) : list bool := Value ∘ value <$> binary (db (sess (tick (one_second + d) [] tt st).1)).
Example breaker_tripped :
  let st := (tick one_second [] tt started).1 in
  position_after 100000000 (trips st) = [true; false] /\ position_after 200000001 (trips st) = [false; false].
Proof. vm_compute. done. Qed.
End DeviceRuns.
