(* ===== verification/Recording.v ===== *)
(** * What a master passes on

    master/handler.go: the [ChannelHandler], a queue between the session and whoever reads the
    measurements; and cmd/dnp3-master/record.go: the recorder, which writes them to CSV files,
    and the snapshot, which keeps the latest of each point.

    No update gets lost without being counted and none overtakes another ([updates_accounted]);
    the recording reads back as what was recorded, and the file of events holds the events in
    order ([recording_reads_back]); the snapshot shows the last update of each point, once, in
    an order that does not depend on the order of its maps ([snapshot_latest], [points_listed]). *)

From Stdlib Require Import Ascii.
From stdpp Require Import gmap sorting.
From S2P Require Import Prelude Values Floats AppHeader AppObject AppFragment Objects Codecs CommandEvents Dispatch Text Names MemFiles.
#[local] Open Scope Z_scope.

(** ** The handler *)

(** One of the measurements is set, by the type; the others are zero. *)
Record Update := mkUpdate {
  u_Info : HeaderInfo; u_Fragment : ResponseInfo; u_Type : PointType; u_Index : Z;
  u_Binary : Binary; u_DoubleBit : DoubleBitBinary; u_Counter : Counter; u_FrozenCounter : FrozenCounter; u_Analog : Analog;
  u_FrozenAnalog : Analog; u_BinaryOutput : BinaryOutputStatus; u_AnalogOutput : AnalogOutputStatus; u_OctetString : list Z;
  u_CommandEvent : CommandEvent }.
Definition zero_of {T} (x : T) : measurement T := mkMeasurement x 0 NoTime.
Definition ResponseInfo0 : ResponseInfo := mkResponseInfo 0 false 0 zeroTime.
Definition Update0 (info : HeaderInfo) (t : PointType) (index : Z) : Update :=
  mkUpdate info ResponseInfo0 t index (zero_of false) (zero_of 0) (zero_of 0) (zero_of 0) (zero_of f64_zero) (zero_of f64_zero)
    (zero_of false) (zero_of f64_zero) [] CommandEvent0.

(** [h_dropped] is a [uint64]. *)
Record ChannelHandler := mkChannelHandler { h_ch : list Update; h_cap : Z; h_dropped : Z; h_info : ResponseInfo }.
Definition NewChannelHandler (buffer : Z) : ChannelHandler :=
  mkChannelHandler [] (if buffer <=? 0 then 256 else buffer) 0 ResponseInfo0.

Definition with_fragment (i : ResponseInfo) (u : Update) : Update :=
  mkUpdate (u_Info u) i (u_Type u) (u_Index u) (u_Binary u) (u_DoubleBit u) (u_Counter u) (u_FrozenCounter u) (u_Analog u)
    (u_FrozenAnalog u) (u_BinaryOutput u) (u_AnalogOutput u) (u_OctetString u) (u_CommandEvent u).
Definition send (h : ChannelHandler) (u : Update) : ChannelHandler :=
  let u := with_fragment (h_info h) u in
  if len (h_ch h) <? h_cap h then mkChannelHandler (h_ch h ++ [u]) (h_cap h) (h_dropped h) (h_info h)
  else mkChannelHandler (h_ch h) (h_cap h) (u64 (h_dropped h + 1)) (h_info h).

(** The updates a call of the handler sends. *)
Definition set_Binary (v : Binary) (u : Update) : Update :=
  mkUpdate (u_Info u) (u_Fragment u) (u_Type u) (u_Index u) v (u_DoubleBit u) (u_Counter u) (u_FrozenCounter u) (u_Analog u)
    (u_FrozenAnalog u) (u_BinaryOutput u) (u_AnalogOutput u) (u_OctetString u) (u_CommandEvent u).
Definition set_DoubleBit (v : DoubleBitBinary) (u : Update) : Update :=
  mkUpdate (u_Info u) (u_Fragment u) (u_Type u) (u_Index u) (u_Binary u) v (u_Counter u) (u_FrozenCounter u) (u_Analog u)
    (u_FrozenAnalog u) (u_BinaryOutput u) (u_AnalogOutput u) (u_OctetString u) (u_CommandEvent u).
Definition set_Counter (v : Counter) (u : Update) : Update :=
  mkUpdate (u_Info u) (u_Fragment u) (u_Type u) (u_Index u) (u_Binary u) (u_DoubleBit u) v (u_FrozenCounter u) (u_Analog u)
    (u_FrozenAnalog u) (u_BinaryOutput u) (u_AnalogOutput u) (u_OctetString u) (u_CommandEvent u).
Definition set_FrozenCounter (v : FrozenCounter) (u : Update) : Update :=
  mkUpdate (u_Info u) (u_Fragment u) (u_Type u) (u_Index u) (u_Binary u) (u_DoubleBit u) (u_Counter u) v (u_Analog u)
    (u_FrozenAnalog u) (u_BinaryOutput u) (u_AnalogOutput u) (u_OctetString u) (u_CommandEvent u).
Definition set_Analog (v : Analog) (u : Update) : Update :=
  mkUpdate (u_Info u) (u_Fragment u) (u_Type u) (u_Index u) (u_Binary u) (u_DoubleBit u) (u_Counter u) (u_FrozenCounter u) v
    (u_FrozenAnalog u) (u_BinaryOutput u) (u_AnalogOutput u) (u_OctetString u) (u_CommandEvent u).
Definition set_FrozenAnalog (v : Analog) (u : Update) : Update :=
  mkUpdate (u_Info u) (u_Fragment u) (u_Type u) (u_Index u) (u_Binary u) (u_DoubleBit u) (u_Counter u) (u_FrozenCounter u) (u_Analog u)
    v (u_BinaryOutput u) (u_AnalogOutput u) (u_OctetString u) (u_CommandEvent u).
Definition set_BinaryOutput (v : BinaryOutputStatus) (u : Update) : Update :=
  mkUpdate (u_Info u) (u_Fragment u) (u_Type u) (u_Index u) (u_Binary u) (u_DoubleBit u) (u_Counter u) (u_FrozenCounter u) (u_Analog u)
    (u_FrozenAnalog u) v (u_AnalogOutput u) (u_OctetString u) (u_CommandEvent u).
Definition set_AnalogOutput (v : AnalogOutputStatus) (u : Update) : Update :=
  mkUpdate (u_Info u) (u_Fragment u) (u_Type u) (u_Index u) (u_Binary u) (u_DoubleBit u) (u_Counter u) (u_FrozenCounter u) (u_Analog u)
    (u_FrozenAnalog u) (u_BinaryOutput u) v (u_OctetString u) (u_CommandEvent u).
Definition set_OctetString (v : list Z) (u : Update) : Update :=
  mkUpdate (u_Info u) (u_Fragment u) (u_Type u) (u_Index u) (u_Binary u) (u_DoubleBit u) (u_Counter u) (u_FrozenCounter u) (u_Analog u)
    (u_FrozenAnalog u) (u_BinaryOutput u) (u_AnalogOutput u) v (u_CommandEvent u).
Definition set_CommandEvent (v : CommandEvent) (u : Update) : Update :=
  mkUpdate (u_Info u) (u_Fragment u) (u_Type u) (u_Index u) (u_Binary u) (u_DoubleBit u) (u_Counter u) (u_FrozenCounter u) (u_Analog u)
    (u_FrozenAnalog u) (u_BinaryOutput u) (u_AnalogOutput u) (u_OctetString u) v.

Definition updates_of {T} (info : HeaderInfo) (t : T -> PointType) (set : T -> Update -> Update) (values : list (Indexed T)) : list Update :=
  (fun v => set (IValue v) (Update0 info (t (IValue v)) (Index v))) <$> values.
Definition octet_type (info : HeaderInfo) : PointType :=
  let g := GV_Group (I_GV info) in if (g =? 112) || (g =? 113) then TypeVirtualTerminal else TypeOctetString.
Definition call_updates (c : HandlerCall) : list Update :=
  match c with
  | BeginFragment _ | EndFragment _ | HandleDataset _ _ => []
  | HandleBinary i vs => updates_of i (fun _ => TypeBinary) set_Binary vs
  | HandleDoubleBit i vs => updates_of i (fun _ => TypeDoubleBitBinary) set_DoubleBit vs
  | HandleCounter i vs => updates_of i (fun _ => TypeCounter) set_Counter vs
  | HandleFrozenCounter i vs => updates_of i (fun _ => TypeFrozenCounter) set_FrozenCounter vs
  | HandleAnalog i vs => updates_of i (fun _ => TypeAnalog) set_Analog vs
  | HandleFrozenAnalog i vs => updates_of i (fun _ => TypeFrozenAnalog) set_FrozenAnalog vs
  | HandleBinaryOutputStatus i vs => updates_of i (fun _ => TypeBinaryOutputStatus) set_BinaryOutput vs
  | HandleAnalogOutputStatus i vs => updates_of i (fun _ => TypeAnalogOutputStatus) set_AnalogOutput vs
  | HandleOctetString i vs => updates_of i (fun _ => octet_type i) set_OctetString vs
  | HandleCommandEvent i vs =>
      updates_of i (fun v => if CE_Analog v then TypeAnalogCommandEvent else TypeBinaryCommandEvent) set_CommandEvent vs
  end.
Definition handle_call (h : ChannelHandler) (c : HandlerCall) : ChannelHandler :=
  match c with
  | BeginFragment info => mkChannelHandler (h_ch h) (h_cap h) (h_dropped h) info
  | _ => fold_left send (call_updates c) h
  end.
(** It takes command events and frozen analogs, and no data sets. *)
Definition channel_kind : HandlerKind := mkHandlerKind false true true.

(** Someone takes an update from the channel. *)
Definition take_update (h : ChannelHandler) : ChannelHandler * option Update :=
  match h_ch h with
  | [] => (h, None)
  | u :: us => (mkChannelHandler us (h_cap h) (h_dropped h) (h_info h), Some u)
  end.

(** ** The recording *)

Definition boolText (v : bool) : string := if v then "ON" else "OFF".
Definition formatFloat (v : SpecFloat.spec_float) : string := float_g v.
Definition described {T} (text : T -> string) (m : measurement T) : string * Z * Timestamp := (text (Value m), Flags m, Time m).
Definition describeUpdate (u : Update) : string * Z * Timestamp :=
  match u_Type u with
  | TypeBinary => described boolText (u_Binary u)
  | TypeDoubleBitBinary => described DoubleBit_String (u_DoubleBit u)
  | TypeCounter => described dec (u_Counter u)
  | TypeFrozenCounter => described dec (u_FrozenCounter u)
  | TypeAnalog => described formatFloat (u_Analog u)
  | TypeBinaryOutputStatus => described boolText (u_BinaryOutput u)
  | TypeAnalogOutputStatus => described formatFloat (u_AnalogOutput u)
  | _ => ("", 0, NoTime)
  end.
Definition qualityText (f : Z) (t : PointType) : string :=
  StringFor (if bool_decide (t = TypeBinary) || bool_decide (t = TypeBinaryOutputStatus) then Z.ldiff f StateBit else f) t.
(** RFC 3339 with as many digits of the second as needed, in UTC. *)
Definition nano_text (t : Z) : string :=
  let ns := t mod 1000000000 in
  date_time "T" t +:+ (if ns =? 0 then "" else "." +:+ TrimRight (dec_pad 9 ns) "0") +:+ "Z".
Definition stampText (t : Timestamp) : string := if negb (Timestamp_IsValid t) then "" else nano_text (TTime t).
Definition source_of (u : Update) : string := if IsEvent (u_Info u) then "event" else "static".
(** [now] is the time of the host as RFC 3339 has it. *)
Definition row_of (now : string) (site : string) (u : Update) : list string :=
  let '(value, flags, stamp) := describeUpdate u in
  [now; site; PointType_String (u_Type u); dec (u_Index u); value; qualityText flags (u_Type u); stampText stamp; source_of u].

(** [csv.Writer.Write], on octets: a field is quoted when it has a comma, a quote or a line end
    in it, starts with white space, or is the end marker of some databases. *)
Definition comma : Z := 0x2C.
Definition quote_mark : Z := 0x22.
Definition line_end : Z := 0x0A.
Definition special (c : Z) : bool := (c =? line_end) || (c =? 0x0D) || (c =? quote_mark) || (c =? comma).
Definition fieldNeedsQuotes (f : list Z) : bool :=
  match f with
  | [] => false
  | _ => bool_decide (f = octets_of "\.") || existsb special f || existsb (fun p => is_prefix p f) spaces
  end.
Definition double_quotes (f : list Z) : list Z := concat ((fun c => if c =? quote_mark then [quote_mark; quote_mark] else [c]) <$> f).
Definition csv_field (f : list Z) : list Z :=
  if fieldNeedsQuotes f then quote_mark :: double_quotes f ++ [quote_mark] else f.
Fixpoint csv_fields (fs : list (list Z)) : list Z :=
  match fs with
  | [] => []
  | [f] => csv_field f
  | f :: fs => csv_field f ++ comma :: csv_fields fs
  end.
Definition csv_line (fs : list (list Z)) : list Z := csv_fields fs ++ [line_end].
Definition row_octets (row : list string) : list Z := csv_line (octets_of <$> row).

(** A file, and whether a write of it has failed: the writer keeps an error for good.  [fails]
    is after how many octets of this write the operating system refuses, if it does. *)
Record csvFile := mkCsvFile { cf_content : list Z; cf_failed : bool }.
Definition csvFile_write (c : csvFile) (fails : option nat) (row : list string) : csvFile * bool :=
  if cf_failed c then (c, false)
  else match fails with
       | None => (mkCsvFile (cf_content c ++ row_octets row) false, true)
       | Some k => (mkCsvFile (cf_content c ++ take k (row_octets row)) true, false)
       end.
(** An existing file is appended to; the header goes to an empty one. *)
Definition newCSVFile (existing : list Z) (header : list string) : csvFile :=
  match existing with [] => mkCsvFile (row_octets header) false | _ => mkCsvFile existing false end.

Record Recorder := mkRecorder { rc_values : csvFile; rc_events : csvFile }.
Definition event_columns : list string := ["received"; "site"; "type"; "index"; "value"; "quality"; "timestamp"].
Definition NewRecorder (values events : list Z) : Recorder :=
  mkRecorder (newCSVFile values (event_columns ++ ["source"])) (newCSVFile events event_columns).
(** [false] is an error. *)
Definition Record_ (r : Recorder) (fails_values fails_events : option nat) (now site : string) (u : Update) : Recorder * bool :=
  let row := row_of now site u in
  match csvFile_write (rc_values r) fails_values row with
  | (v, false) => (mkRecorder v (rc_events r), false)
  | (v, true) =>
      if IsEvent (u_Info u) then
        let '(e, ok) := csvFile_write (rc_events r) fails_events (take 7 row) in (mkRecorder v e, ok)
      else (mkRecorder v (rc_events r), true)
  end.

(** ** The snapshot *)

Definition pointKey : Type := PointType * Z.
#[export] Instance PointType_countable : Countable PointType.
Proof.
  refine (inj_countable' (fun t => match t with
    | TypeUnknown => 0%nat | TypeBinary => 1 | TypeDoubleBitBinary => 2 | TypeCounter => 3 | TypeFrozenCounter => 4
    | TypeAnalog => 5 | TypeBinaryOutputStatus => 6 | TypeAnalogOutputStatus => 7 | TypeOctetString => 8
    | TypeBinaryCommandEvent => 9 | TypeAnalogCommandEvent => 10 | TypeFrozenAnalog => 11 | TypeVirtualTerminal => 12
    | TypeSecurityStatistic => 13 | TypeDataset => 14 end%nat)
    (fun n => nth n [TypeUnknown; TypeBinary; TypeDoubleBitBinary; TypeCounter; TypeFrozenCounter; TypeAnalog; TypeBinaryOutputStatus;
      TypeAnalogOutputStatus; TypeOctetString; TypeBinaryCommandEvent; TypeAnalogCommandEvent; TypeFrozenAnalog; TypeVirtualTerminal;
      TypeSecurityStatistic; TypeDataset] TypeUnknown) _).
  by intros [].
Defined.

Record PointValue := mkPointValue {
  pv_Site : string; pv_Type : string; pv_Index : Z; pv_Value : string; pv_Quality : string; pv_Good : bool; pv_Stamp : string;
  pv_Received : string; pv_Source : string }.
Record SiteStatus := mkSiteStatus {
  ss_Name : string; ss_Target : string; ss_Connected : bool; ss_Indications : string; ss_TasksRun : Z; ss_TasksSucceeded : Z;
  ss_TasksFailed : Z; ss_Timeouts : Z; ss_Unsolicited : Z; ss_Restarts : Z; ss_Connections : Z }.
Record Snapshot := mkSnapshot { sn_values : gmap string (gmap pointKey PointValue); sn_status : gmap string SiteStatus }.
Definition NewSnapshot : Snapshot := mkSnapshot ∅ ∅.

Definition shown (now site : string) (u : Update) : PointValue :=
  let '(value, flags, stamp) := describeUpdate u in
  mkPointValue site (PointType_String (u_Type u)) (u_Index u) value (qualityText flags (u_Type u)) (IsGood flags) (stampText stamp) now
    (source_of u).
Definition Snapshot_Apply (s : Snapshot) (now site : string) (u : Update) : Snapshot :=
  let m := default ∅ (sn_values s !! site) in
  mkSnapshot (<[site := <[(u_Type u, u_Index u) := shown now site u]> m]> (sn_values s)) (sn_status s).
Definition SetStatus (s : Snapshot) (st : SiteStatus) : Snapshot := mkSnapshot (sn_values s) (<[ss_Name st := st]> (sn_status s)).

Definition text_le (a b : string) : bool := octets_le (octets_of a) (octets_of b).
(** By site, then type, then index. *)
Definition point_le (a b : PointValue) : bool :=
  if negb (String.eqb (pv_Site a) (pv_Site b)) then text_le (pv_Site a) (pv_Site b)
  else if negb (String.eqb (pv_Type a) (pv_Type b)) then text_le (pv_Type a) (pv_Type b)
  else pv_Index a <=? pv_Index b.
#[export] Instance point_le_dec a b : Decision (Is_true (point_le a b)).
Proof. destruct (point_le a b); [by left | by right; intros []]. Defined.
Definition status_le (a b : SiteStatus) : bool := text_le (ss_Name a) (ss_Name b).
#[export] Instance status_le_dec a b : Decision (Is_true (status_le a b)).
Proof. destruct (status_le a b); [by left | by right; intros []]. Defined.

(** [order] is the order in which the maps are walked. *)
Definition points_order (order : list PointValue) : list PointValue := merge_sort (fun a b => Is_true (point_le a b)) order.
(** The values a walk of the maps meets. *)
Definition known (s : Snapshot) (site : string) : list PointValue :=
  concat ((fun x => if negb (String.eqb site "") && negb (String.eqb x.1 site) then [] else snd <$> map_to_list x.2) <$> map_to_list (sn_values s)).
Definition Points (s : Snapshot) (site : string) : list PointValue := points_order (known s site).
Definition Status (s : Snapshot) : list SiteStatus := merge_sort (fun a b => Is_true (status_le a b)) (snd <$> map_to_list (sn_status s)).
Definition summary_line (st : SiteStatus) : string :=
  "  " +:+ pad_right 16 (ss_Name st) +:+ " " +:+ pad_right 4 (if ss_Connected st then "up" else "down") +:+ " " +:+
  pad_right 24 (ss_Indications st) +:+ " tasks " +:+ dec (ss_TasksSucceeded st) +:+ "/" +:+ dec (ss_TasksRun st) +:+ "  timeouts " +:+
  dec (ss_Timeouts st) +:+ newline.
Definition Summary (s : Snapshot) : string := fold_right (fun st t => summary_line st +:+ t) "" (Status s).

(** ** No update is lost without being counted *)

(** The session calls the handler, and the reader takes from the channel. *)
Inductive moment := Calls (c : HandlerCall) | Takes.
(** Everything the session reported, with the fragment it came in. *)
Fixpoint produced (info : ResponseInfo) (ms : list moment) : list Update :=
  match ms with
  | [] => []
  | Calls (BeginFragment i) :: ms => produced i ms
  | Calls c :: ms => (with_fragment info <$> call_updates c) ++ produced info ms
  | Takes :: ms => produced info ms
  end.
Fixpoint moments (h : ChannelHandler) (taken : list Update) (ms : list moment) : ChannelHandler * list Update :=
  match ms with
  | [] => (h, taken)
  | Calls c :: ms => moments (handle_call h c) taken ms
  | Takes :: ms => let '(h, u) := take_update h in moments h (taken ++ option_list u) ms
  end.

(** [h] holds, behind what was taken, part of [all] in order, and counts the rest. *)
Record accounted (cap : Z) (h : ChannelHandler) (taken all : list Update) : Prop := mkAccounted {
  ac_part : (taken ++ h_ch h) `sublist_of` all;
  ac_count : h_dropped h = u64 (len all - len taken - len (h_ch h));
  ac_cap : h_cap h = cap;
  ac_bound : len (h_ch h) <= cap;
  ac_whole : len all <= cap -> taken ++ h_ch h = all }.

Lemma send_accounted cap h taken all u : accounted cap h taken all -> accounted cap (send h u) taken (all ++ [with_fragment (h_info h) u]).
Proof.
  intros [Hs Hd Hc Hb Hw]. pose proof (sublist_length _ _ Hs) as Hl. unfold send. rewrite Hc. destruct (Z.ltb_spec (len (h_ch h)) cap).
  - split; cbn [h_ch h_dropped h_cap].
    + rewrite app_assoc. by apply sublist_app.
    + rewrite Hd, !len_app. f_equal. lia.
    + done.
    + rewrite len_app, len_cons, len_nil. lia.
    + rewrite len_app, len_cons, len_nil. intros Hx. rewrite app_assoc, Hw; [done | lia].
  - split; cbn [h_ch h_dropped h_cap]; [by apply sublist_inserts_r | | done | done|].
    + rewrite Hd, len_app. unfold u64. rewrite Z.add_mod_idemp_l by lia. rewrite ?len_cons, ?len_nil. f_equal. lia.
    + rewrite len_app, len_cons, len_nil. rewrite length_app in Hl. unfold len in *. lia.
Qed.
Lemma send_info h u : h_info (send h u) = h_info h.
Proof. unfold send. by destruct (_ <? _). Qed.
Lemma sends_accounted cap us : forall h taken all, accounted cap h taken all ->
  accounted cap (fold_left send us h) taken (all ++ (with_fragment (h_info h) <$> us)) /\ h_info (fold_left send us h) = h_info h.
Proof.
  induction us as [|u us IH]; intros h taken all Ha; [by rewrite app_nil_r|]. cbn [fold_left fmap list_fmap].
  destruct (IH (send h u) taken (all ++ [with_fragment (h_info h) u])) as [H1 H2]; [by apply send_accounted|].
  rewrite send_info in H1, H2. split; [|done]. by rewrite cons_middle, app_assoc.
Qed.
Lemma moments_accounted cap ms : forall h taken all, accounted cap h taken all ->
  let '(h', taken') := moments h taken ms in accounted cap h' taken' (all ++ produced (h_info h) ms).
Proof.
  induction ms as [|m ms IH]; intros h taken all Ha; cbn [moments produced]; [by rewrite app_nil_r|].
  assert (Hsend : forall us, let '(h', taken') := moments (fold_left send us h) taken ms in
    accounted cap h' taken' (all ++ (with_fragment (h_info h) <$> us) ++ produced (h_info h) ms)).
  { intros us. destruct (sends_accounted cap us h taken all Ha) as [H1 H2]. specialize (IH _ _ _ H1). rewrite H2 in IH.
    destruct (moments _ _ _). by rewrite app_assoc. }
  destruct m as [c|].
  - destruct c as [info| | | | | | | | | | | |]; try apply Hsend.
    apply (IH (mkChannelHandler (h_ch h) (h_cap h) (h_dropped h) info)). by destruct Ha.
  - unfold take_update. destruct (h_ch h) as [|u us] eqn:E.
    + apply IH. by rewrite app_nil_r.
    + apply (IH (mkChannelHandler us (h_cap h) (h_dropped h) (h_info h))). destruct Ha as [Hs Hd Hc Hb Hw]. rewrite E in Hs, Hd, Hb, Hw.
      assert (Ea : taken ++ u :: us = (taken ++ [u]) ++ us) by (by rewrite <- app_assoc).
      rewrite Ea in Hs, Hw. rewrite len_cons in Hd, Hb.
      split; cbn [h_ch h_dropped h_cap option_list]; [done | | done | lia | done].
      rewrite Hd, len_app. change (len (option_list (Some u))) with 1. f_equal. lia.
Qed.

(** Whatever the session reports and whenever the reader takes: the reader gets updates in the
    order in which they were reported, each with the fragment it came in; what it has not got
    and is not queued is what the handler counts as dropped; the queue stays within its
    capacity, and while no more was reported than it holds nothing is dropped. *)
Theorem updates_accounted buffer ms :
  let h0 := NewChannelHandler buffer in
  let '(h, taken) := moments h0 [] ms in
  let all := produced ResponseInfo0 ms in
  (taken ++ h_ch h) `sublist_of` all /\
  h_dropped h = u64 (len all - len taken - len (h_ch h)) /\
  len (h_ch h) <= h_cap h0 /\
  (len all <= h_cap h0 -> taken ++ h_ch h = all /\ h_dropped h = 0).
Proof.
  intros h0. pose proof (moments_accounted (h_cap h0) ms h0 [] []) as H. destruct (moments h0 [] ms) as [h taken].
  destruct H as [Hs Hd Hc Hb Hw].
  { split; [constructor | done | done | | done]. change (0 <= (if buffer <=? 0 then 256 else buffer)). destruct (Z.leb_spec buffer 0); lia. }
  cbn [app] in *. change (h_info h0) with ResponseInfo0 in *. split_and!; try done. intros Hx. split; [by apply Hw|]. rewrite Hd, <- (Hw Hx), len_app.
  replace (_ - _ - _) with 0 by lia. done.
Qed.

(** ** The recording reads back *)

(** A reader of CSV as RFC 4180 has it: at the start of a field, in one, between quotes, and
    after a quote between quotes. *)
Inductive csv_state := AtStart | InPlain | InQuotes | AfterQuote.
Fixpoint csv_parse (st : csv_state) (field : list Z) (row : list (list Z)) (s : list Z) : option (list (list (list Z))) :=
  match s with
  | [] => match st, row with AtStart, [] => Some [] | _, _ => None end
  | c :: s =>
      let plain (field : list Z) :=
        if c =? comma then csv_parse AtStart [] (row ++ [field]) s
        else if c =? line_end then cons (row ++ [field]) <$> csv_parse AtStart [] [] s
        else if special c then None
        else csv_parse InPlain (field ++ [c]) row s in
      match st with
      | AtStart => if c =? quote_mark then csv_parse InQuotes [] row s else plain []
      | InPlain => plain field
      | InQuotes => if c =? quote_mark then csv_parse AfterQuote field row s else csv_parse InQuotes (field ++ [c]) row s
      | AfterQuote =>
          if c =? quote_mark then csv_parse InQuotes (field ++ [c]) row s
          else if c =? comma then csv_parse AtStart [] (row ++ [field]) s
          else if c =? line_end then cons (row ++ [field]) <$> csv_parse AtStart [] [] s
          else None
      end
  end.
Definition csv_read (s : list Z) : option (list (list (list Z))) := csv_parse AtStart [] [] s.

(** What follows a field: the next one, or the end of the row. *)
Definition after_field (sep : Z) (f : list Z) (row : list (list Z)) (s : list Z) : option (list (list (list Z))) :=
  if sep =? comma then csv_parse AtStart [] (row ++ [f]) s else cons (row ++ [f]) <$> csv_parse AtStart [] [] s.

Lemma plain_read f sep s row : (sep = comma \/ sep = line_end) -> existsb special f = false ->
  forall acc, csv_parse InPlain acc row (f ++ sep :: s) = after_field sep (acc ++ f) row s.
Proof.
  intros Hs. induction f as [|c f IH]; intros Hf acc.
  - rewrite app_nil_r. by destruct Hs as [-> | ->].
  - cbn [existsb] in Hf. apply orb_false_iff in Hf as [Hc Hf]. cbn [app csv_parse]. rewrite Hc.
    unfold special in Hc. rewrite !orb_false_iff in Hc. destruct Hc as [[[H1 H2] H3] H4]. rewrite H4, H1, IH by done. by rewrite <- app_assoc.
Qed.
Lemma quoted_read f sep s row : (sep = comma \/ sep = line_end) ->
  forall acc, csv_parse InQuotes acc row (double_quotes f ++ quote_mark :: sep :: s) = after_field sep (acc ++ f) row s.
Proof.
  intros Hs. induction f as [|c f IH]; intros acc.
  - rewrite app_nil_r. by destruct Hs as [-> | ->].
  - unfold double_quotes. cbn [fmap list_fmap concat]. fold (double_quotes f). destruct (Z.eqb_spec c quote_mark) as [->|Hc].
    + change (csv_parse InQuotes (acc ++ [quote_mark]) row (double_quotes f ++ quote_mark :: sep :: s) = after_field sep (acc ++ quote_mark :: f) row s).
      rewrite IH. by rewrite <- app_assoc.
    + cbn [app csv_parse]. rewrite (proj2 (Z.eqb_neq c quote_mark)) by done. rewrite IH. by rewrite <- app_assoc.
Qed.
Lemma csv_field_read f sep s row : (sep = comma \/ sep = line_end) ->
  csv_parse AtStart [] row (csv_field f ++ sep :: s) = after_field sep f row s.
Proof.
  intros Hs. unfold csv_field. destruct (fieldNeedsQuotes f) eqn:E.
  - rewrite <- app_comm_cons, <- app_assoc. by apply (quoted_read f sep s row Hs []).
  - destruct f as [|c f]; [by destruct Hs as [-> | ->]|]. unfold fieldNeedsQuotes in E. rewrite !orb_false_iff in E. destruct E as [[_ Hf] _].
    pose proof (plain_read (c :: f) sep s row Hs Hf []) as P. cbn [app] in P. rewrite <- P. cbn [app csv_parse]. cbn [existsb] in Hf. apply orb_false_iff in Hf as [Hc _].
    unfold special in Hc. rewrite !orb_false_iff in Hc. destruct Hc as [[_ Hq] _]. by rewrite Hq.
Qed.
Lemma fields_read fs s : fs <> [] -> forall row,
  csv_parse AtStart [] row (csv_line fs ++ s) = cons (row ++ fs) <$> csv_read s.
Proof.
  induction fs as [|f fs IH]; [done|]. intros _ row. unfold csv_line. destruct fs as [|g fs].
  - cbn [csv_fields]. rewrite <- app_assoc. cbn [app]. rewrite csv_field_read by (by right). done.
  - change (csv_fields (f :: g :: fs)) with (csv_field f ++ comma :: csv_fields (g :: fs)). rewrite <- !app_assoc, <- app_comm_cons.
    rewrite csv_field_read by (by left). unfold after_field. rewrite Z.eqb_refl.
    replace (csv_fields (g :: fs) ++ [line_end] ++ s) with (csv_line (g :: fs) ++ s) by (unfold csv_line; by rewrite <- app_assoc).
    rewrite IH by done. by rewrite <- app_assoc.
Qed.
(** What reads by itself reads the same before more. *)
Lemma read_app a b : forall st field row ra, csv_parse st field row a = Some ra -> csv_parse st field row (a ++ b) = app ra <$> csv_read b.
Proof.
  induction a as [|c a IH]; intros st field row ra H.
  - cbn [csv_parse] in H. destruct st, row; try discriminate. injection H as <-. cbn [app].
    assert (E : forall o : option (list (list (list Z))), app [] <$> o = o) by (by intros []). rewrite E. by destruct b.
  - cbn [app csv_parse] in *.
    assert (Hcons : forall r, cons r <$> csv_parse AtStart [] [] a = Some ra ->
      cons r <$> csv_parse AtStart [] [] (a ++ b) = app ra <$> csv_read b).
    { intros r Hr. destruct (csv_parse AtStart [] [] a) as [ra'|] eqn:Ea; [|done]. injection Hr as <-. rewrite (IH _ _ _ _ Ea).
      by destruct (csv_read b). }
    destruct st; repeat case_match; try discriminate; try (by apply IH); by apply Hcons.
Qed.

(** A recording of some updates: each with the time, the site, and whether the two files take
    the write. *)
Record entry := mkEntry { en_now : string; en_site : string; en_update : Update; en_values : option nat; en_events : option nat }.
Definition record_all (r : Recorder) (es : list entry) : Recorder :=
  fold_left (fun r e => fst (Record_ r (en_values e) (en_events e) (en_now e) (en_site e) (en_update e))) es r.
Definition entry_row (e : entry) : list string := row_of (en_now e) (en_site e) (en_update e).
Definition is_event (e : entry) : bool := IsEvent (u_Info (en_update e)).
(** The rows the files are to hold. *)
Definition value_rows (es : list entry) : list (list string) := entry_row <$> es.
Definition event_rows (es : list entry) : list (list string) := (fun e => take 7 (entry_row e)) <$> List.filter is_event es.
Definition lines (rows : list (list string)) : list Z := concat (row_octets <$> rows).

Definition as_octets (rows : list (list string)) : list (list (list Z)) := (fun r : list string => octets_of <$> r) <$> rows.

Lemma row_nonempty now site u : octets_of <$> row_of now site u <> [] /\ octets_of <$> take 7 (row_of now site u) <> [].
Proof. unfold row_of. by destruct (describeUpdate u) as [[]]. Qed.
Lemma lines_app rows rows' : lines (rows ++ rows') = lines rows ++ lines rows'.
Proof. unfold lines. by rewrite fmap_app, concat_app. Qed.
Lemma lines_read rows : Forall (fun r => octets_of <$> r <> []) rows -> csv_read (lines rows) = Some (as_octets rows).
Proof.
  induction rows as [|r rows IH]; [done|]. intros [Hr Hrs]%Forall_cons. change (lines (r :: rows)) with (csv_line (octets_of <$> r) ++ lines rows).
  unfold csv_read at 1. rewrite (fields_read _ _ Hr []). by rewrite (IH Hrs).
Qed.
Lemma file_reads v rv rows : csv_read v = Some rv -> Forall (fun r => octets_of <$> r <> []) rows ->
  csv_read (v ++ lines rows) = Some (rv ++ (as_octets rows)).
Proof. intros Hv Hr. unfold csv_read. rewrite (read_app v _ _ _ _ rv Hv). by rewrite (lines_read rows Hr). Qed.

Definition no_failure (e : entry) : Prop := en_values e = None /\ en_events e = None.
Lemma record_all_content es : forall r, cf_failed (rc_values r) = false -> cf_failed (rc_events r) = false -> Forall no_failure es ->
  let r' := record_all r es in
  cf_content (rc_values r') = cf_content (rc_values r) ++ lines (value_rows es) /\
  cf_content (rc_events r') = cf_content (rc_events r) ++ lines (event_rows es).
Proof.
  induction es as [|e es IH]; intros r Hv He Hes; [by rewrite !app_nil_r|]. apply Forall_cons in Hes as [[H1 H2] Hes].
  unfold record_all. cbn [fold_left]. unfold Record_ at 2 4, csvFile_write. rewrite H1, H2, Hv, He. unfold value_rows, event_rows, lines. cbn [List.filter fmap list_fmap concat].
  unfold is_event at 1. destruct (IsEvent (u_Info (en_update e))) eqn:Ee; cbn [fst].
  - destruct (IH (mkRecorder (mkCsvFile (cf_content (rc_values r) ++ row_octets (entry_row e)) false)
      (mkCsvFile (cf_content (rc_events r) ++ row_octets (take 7 (entry_row e))) false))) as [E1 E2]; [done..|].
    cbn [fmap list_fmap concat]. rewrite !app_assoc. by split.
  - destruct (IH (mkRecorder (mkCsvFile (cf_content (rc_values r) ++ row_octets (entry_row e)) false) (rc_events r))) as [E1 E2]; [done..|].
    rewrite !app_assoc. by split.
Qed.

(** What was in the file before, or the header. *)
Definition before (existing : list Z) (rows : list (list (list Z))) (header : list string) : list (list (list Z)) :=
  match existing with [] => [octets_of <$> header] | _ => rows end.
Lemma newCSVFile_reads existing rows header : csv_read existing = Some rows -> octets_of <$> header <> [] ->
  csv_read (cf_content (newCSVFile existing header)) = Some (before existing rows header).
Proof.
  intros Hr Hh. destruct existing as [|x s]; [|done]. cbn [newCSVFile cf_content before]. unfold row_octets.
  rewrite <- (app_nil_r (csv_line _)). unfold csv_read. by rewrite (fields_read _ _ Hh []).
Qed.

(** A recorder whose files take what is written: whatever the names of the sites and the texts
    of the values, the file of values reads back as what was in it before, or its header, and
    one row for each update, in order; and the file of events as that and a row for each event,
    without the last column. *)
Theorem recording_reads_back v e rv re es : csv_read v = Some rv -> csv_read e = Some re -> Forall no_failure es ->
  let r := record_all (NewRecorder v e) es in
  csv_read (cf_content (rc_values r)) = Some (before v rv (event_columns ++ ["source"]) ++ as_octets (value_rows es)) /\
  csv_read (cf_content (rc_events r)) = Some (before e re event_columns ++ as_octets (event_rows es)).
Proof.
  intros Hv He Hes r. destruct (record_all_content es (NewRecorder v e)) as [E1 E2]; [by destruct v | by destruct e | done|].
  fold r in E1, E2. rewrite E1, E2. split; apply file_reads.
  - by apply newCSVFile_reads.
  - apply Forall_fmap, Forall_true. intros x. apply row_nonempty.
  - by apply newCSVFile_reads.
  - apply Forall_fmap, Forall_true. intros x. apply row_nonempty.
Qed.

(** A write that fails loses what comes after it and nothing before: what is in a file is the
    start of what should be. *)
Definition file_ok (c : csvFile) (full : list Z) : Prop :=
  cf_content c `prefix_of` full /\ (cf_failed c = false -> cf_content c = full).
Lemma write_ok c full k row : file_ok c full -> file_ok (fst (csvFile_write c k row)) (full ++ row_octets row).
Proof.
  intros [Hp Hf]. unfold csvFile_write. destruct (cf_failed c) eqn:E; [|rewrite (Hf eq_refl); destruct k as [k|]]; split; cbn.
  - by apply prefix_app_r.
  - by rewrite E.
  - apply prefix_app, prefix_take.
  - done.
  - done.
  - done.
Qed.
Definition recorded_ok (r : Recorder) (values events : list Z) : Prop :=
  file_ok (rc_values r) values /\ cf_content (rc_events r) `prefix_of` events /\
  (cf_failed (rc_values r) = false -> cf_failed (rc_events r) = false -> cf_content (rc_events r) = events).
Lemma Record_ok r values events x : recorded_ok r values events ->
  recorded_ok (fst (Record_ r (en_values x) (en_events x) (en_now x) (en_site x) (en_update x)))
    (values ++ row_octets (entry_row x)) (events ++ if is_event x then row_octets (take 7 (entry_row x)) else []).
Proof.
  intros (Hv & Hp & He). pose proof (write_ok _ _ (en_values x) (entry_row x) Hv) as Hv'. unfold Record_. fold (entry_row x).
  destruct (csvFile_write (rc_values r) (en_values x) (entry_row x)) as [v ok] eqn:Ev. cbn [fst] in Hv'. unfold is_event.
  assert (Hok : ok = true -> cf_failed (rc_values r) = false).
  { unfold csvFile_write in Ev. destruct (cf_failed (rc_values r)); [|done]. by injection Ev as <- <-. }
  destruct ok.
  - specialize (Hok eq_refl). destruct (IsEvent (u_Info (en_update x))).
    + unfold csvFile_write. destruct (cf_failed (rc_events r)) eqn:Ef; [|rewrite (He Hok eq_refl); destruct (en_events x) as [k|]];
        (split; [exact Hv'|]); cbn; (split; [|intros; congruence]); [by apply prefix_app_r | apply prefix_app, prefix_take | done].
    + rewrite app_nil_r. split; [exact Hv'|]. split; [done|]. intros _ Hf. by apply He.
  - split; [exact Hv'|]. split; [by apply prefix_app_r|]. cbn. intros Hf. exfalso. unfold csvFile_write in Ev.
    destruct (cf_failed (rc_values r)) eqn:Er; [injection Ev as <-; congruence|]. destruct (en_values x); [|done]. by injection Ev as <-.
Qed.

(** Whatever fails: each file holds a beginning of what it should, so a row that is in it is
    where it belongs, and only the last can be cut short. *)
Theorem recording_truncated es r : cf_failed (rc_values r) = false -> cf_failed (rc_events r) = false ->
  let r' := record_all r es in
  cf_content (rc_values r') `prefix_of` cf_content (rc_values r) ++ lines (value_rows es) /\
  cf_content (rc_events r') `prefix_of` cf_content (rc_events r) ++ lines (event_rows es).
Proof.
  intros Hv He. enough (H : forall es r values events, recorded_ok r values events ->
    recorded_ok (record_all r es) (values ++ lines (value_rows es)) (events ++ lines (event_rows es))).
  { destruct (H es r (cf_content (rc_values r)) (cf_content (rc_events r))) as ([H1 _] & H2 & _); [|by split].
    split; [by split|]. by split. }
  clear. induction es as [|x es IH]; intros r values events Hr; [by rewrite !app_nil_r|].
  change (record_all r (x :: es)) with (record_all (fst (Record_ r (en_values x) (en_events x) (en_now x) (en_site x) (en_update x))) es).
  specialize (IH _ _ _ (Record_ok _ _ _ x Hr)). unfold event_rows in *. cbn [List.filter]. rewrite <- !app_assoc in IH.
  destruct (is_event x); exact IH.
Qed.

(** ** The snapshot shows the last update of each point *)

Definition reported_at : Type := string * string * Update.   (* time, site, update *)
Definition apply_all (s : Snapshot) (xs : list reported_at) : Snapshot := fold_left (fun s '(now, site, u) => Snapshot_Apply s now site u) xs s.
Definition point_at (s : Snapshot) (site : string) (k : pointKey) : option PointValue := m ← sn_values s !! site; m !! k.
Definition is_of (site : string) (k : pointKey) (x : reported_at) : bool :=
  let '(_, st, u) := x in bool_decide (st = site) && bool_decide ((u_Type u, u_Index u) = k).

Lemma Apply_point s now st u site k :
  point_at (Snapshot_Apply s now st u) site k = if is_of site k (now, st, u) then Some (shown now st u) else point_at s site k.
Proof.
  unfold point_at, Snapshot_Apply, is_of. cbn [sn_values]. destruct (bool_decide_reflect (st = site)) as [->|Hs]; cbn [andb].
  - rewrite lookup_insert_eq. cbn. destruct (bool_decide_reflect ((u_Type u, u_Index u) = k)) as [<-|Hk]; [by rewrite lookup_insert_eq|].
    rewrite lookup_insert_ne by done. by destruct (sn_values s !! site).
  - by rewrite lookup_insert_ne.
Qed.

Lemma apply_all_snoc s xs now st u : apply_all s (xs ++ [(now, st, u)]) = Snapshot_Apply (apply_all s xs) now st u.
Proof. unfold apply_all. by rewrite fold_left_app. Qed.

(** After any updates the snapshot shows each point as the last update of it did, and no others. *)
Theorem snapshot_latest xs site k :
  point_at (apply_all NewSnapshot xs) site k = (fun '(now, st, u) => shown now st u) <$> last (List.filter (is_of site k) xs).
Proof.
  induction xs as [|[[now st] u] xs IH] using rev_ind; [done|].
  rewrite apply_all_snoc, Apply_point, IH, List.filter_app. cbn [List.filter].
  destruct (is_of site k (now, st, u)); [by rewrite last_snoc | by rewrite app_nil_r].
Qed.

(** *** Its listing *)

Definition keyed (s : Snapshot) : Prop := forall site k v, point_at s site k = Some v ->
  pv_Site v = site /\ pv_Type v = PointType_String k.1 /\ pv_Index v = k.2.
Lemma apply_all_keyed xs : keyed (apply_all NewSnapshot xs).
Proof.
  intros site k v. rewrite snapshot_latest. intros H. apply fmap_Some in H as ([[now st] u] & Hl & ->).
  apply last_Some_elem_of, list_elem_of_In, filter_In in Hl as [_ Hi]. unfold is_of in Hi.
  apply andb_true_iff in Hi as [Hs Hk]. apply bool_decide_eq_true in Hs, Hk. subst. unfold shown. by destruct (describeUpdate u) as [[]].
Qed.
Lemma PointType_String_inj : Inj (=) (=) PointType_String.
Proof. by intros [] []. Qed.

Lemma text_le_antisymm a b : text_le a b = true -> text_le b a = true -> a = b.
Proof. intros H1 H2. rewrite <- (of_octets_of a), <- (of_octets_of b). f_equal. by apply name_le_antisymm. Qed.
Lemma text_le_total a b : text_le a b = true \/ text_le b a = true.
Proof. apply name_le_total. Qed.
Lemma text_le_trans a b c : text_le a b = true -> text_le b c = true -> text_le a c = true.
Proof. apply name_le_trans. Qed.

(** [a] before [b], by the first key in which they differ. *)
Lemma point_le_spec a b : point_le a b = true <->
  text_le (pv_Site a) (pv_Site b) = true /\ (pv_Site a = pv_Site b ->
    text_le (pv_Type a) (pv_Type b) = true /\ (pv_Type a = pv_Type b -> pv_Index a <= pv_Index b)).
Proof.
  assert (R : forall x, text_le x x = true) by (intros x; by destruct (text_le_total x x)).
  unfold point_le. destruct (String.eqb_spec (pv_Site a) (pv_Site b)) as [->|Hs]; cbn [negb]; [|naive_solver].
  destruct (String.eqb_spec (pv_Type a) (pv_Type b)) as [->|Ht]; cbn [negb]; [|naive_solver].
  rewrite Z.leb_le. naive_solver.
Qed.
#[export] Instance point_le_total : Total (fun a b => Is_true (point_le a b)).
Proof.
  intros a b. rewrite !Is_true_true, !point_le_spec. destruct (decide (pv_Site a = pv_Site b)) as [Es|Es].
  - rewrite Es. destruct (text_le_total (pv_Site b) (pv_Site b)) as [R|R]; rewrite R;
      (destruct (decide (pv_Type a = pv_Type b)) as [Et|Et]; [rewrite Et|]).
    all: destruct (text_le_total (pv_Type a) (pv_Type b)), (text_le_total (pv_Type b) (pv_Type b)), (Z.le_ge_cases (pv_Index a) (pv_Index b)); naive_solver.
  - destruct (text_le_total (pv_Site a) (pv_Site b)); naive_solver.
Qed.
#[export] Instance point_le_trans : Transitive (fun a b => Is_true (point_le a b)).
Proof.
  intros a b c. rewrite !Is_true_true, !point_le_spec. intros [S1 T1] [S2 T2]. split; [by eapply text_le_trans|].
  intros E. assert (Eb : pv_Site a = pv_Site b) by (rewrite <- E in S2; by apply text_le_antisymm).
  destruct (T1 Eb) as [X1 I1]. destruct T2 as [X2 I2]; [congruence|]. split; [by eapply text_le_trans|].
  intros Et. assert (Eu : pv_Type a = pv_Type b) by (rewrite <- Et in X2; by apply text_le_antisymm).
  transitivity (pv_Index b); [by apply I1 | apply I2; congruence].
Qed.

Lemma known_elem s site v : v ∈ known s site <-> exists st k, (site = "" \/ st = site) /\ point_at s st k = Some v.
Proof.
  unfold known. rewrite list_elem_of_In, in_concat. setoid_rewrite <- list_elem_of_In. setoid_rewrite list_elem_of_fmap. split.
  - intros (l & ([st m] & -> & Hm) & Hv). apply elem_of_map_to_list in Hm. cbn [fst snd] in Hv.
    destruct (negb (String.eqb site "") && negb (String.eqb st site)) eqn:E; [by apply elem_of_nil in Hv|].
    apply list_elem_of_fmap in Hv as ([k v'] & -> & Hk). apply elem_of_map_to_list in Hk. exists st, k. split.
    + apply andb_false_iff in E as [E|E]; apply negb_false_iff, String.eqb_eq in E; [by left | by right].
    + unfold point_at. by rewrite Hm.
  - intros (st & k & Hs & Hp). unfold point_at in Hp. destruct (sn_values s !! st) as [m|] eqn:Hm; [|done]. cbn in Hp.
    exists (snd <$> map_to_list m). split.
    + exists (st, m). split; [|by apply elem_of_map_to_list]. cbn [fst snd].
      destruct Hs as [-> | ->]; [done|]. rewrite (String.eqb_refl site). by rewrite andb_false_r.
    + apply list_elem_of_fmap. exists (k, v). split; [done|]. by apply elem_of_map_to_list.
Qed.

(** The listing of a snapshot, of one site or of all, has exactly the points known of it, sorted
    by site, type and index, and does not depend on the order in which the maps are walked. *)
Theorem points_listed xs site order :
  let s := apply_all NewSnapshot xs in
  order ≡ₚ known s site ->
  points_order order = Points s site /\
  StronglySorted (fun a b => Is_true (point_le a b)) (Points s site) /\
  forall v, v ∈ Points s site <-> exists st k, (site = "" \/ st = site) /\ point_at s st k = Some v.
Proof.
  intros s Hp. split_and!.
  - apply (StronglySorted_unique_strong (fun a b => Is_true (point_le a b))).
    + intros a b Ha Hb Hab Hba. unfold Points, points_order in Ha, Hb. rewrite merge_sort_Permutation in Ha, Hb. rewrite Hp in Ha.
      apply known_elem in Ha as (st & k & _ & Ha). apply known_elem in Hb as (st' & k' & _ & Hb).
      destruct (apply_all_keyed xs _ _ _ Ha) as (A1 & A2 & A3). destruct (apply_all_keyed xs _ _ _ Hb) as (B1 & B2 & B3).
      rewrite Is_true_true, point_le_spec in Hab, Hba. destruct Hab as [S1 T1], Hba as [S2 T2].
      pose proof (text_le_antisymm _ _ S1 S2) as Es. destruct (T1 Es) as [X1 I1]. destruct (T2 (eq_sym Es)) as [X2 I2].
      pose proof (text_le_antisymm _ _ X1 X2) as Et. specialize (I1 Et). specialize (I2 (eq_sym Et)).
      assert (st = st') as <- by congruence. assert (k.1 = k'.1) by (apply PointType_String_inj; congruence). assert (k.2 = k'.2) by lia.
      assert (k = k') as <- by (destruct k, k'; cbn in *; congruence). congruence.
    + apply StronglySorted_merge_sort; apply _.
    + apply StronglySorted_merge_sort; apply _.
    + unfold Points, points_order. by rewrite !merge_sort_Permutation.
  - apply StronglySorted_merge_sort; apply _.
  - intros v. unfold Points, points_order. rewrite merge_sort_Permutation. apply known_elem.
Qed.

(** ** Runs *)

Module RecordingRuns.
Definition event_info : HeaderInfo := mkHeaderInfo (GV 32 3) KindEvent 1.
Definition current : Update :=
  set_Analog (mkMeasurement (f64_from_bits 0x3FF8000000000000) Online (mkTimestamp 1000000000123000000 TimestampSynchronized))
    (Update0 event_info TypeAnalog 7).
Definition one_entry : list entry := [mkEntry "now" "North, 2" current None None].

Example current_row :
  row_of "now" "North, 2" current =
    ["now"; "North, 2"; PointType_String TypeAnalog; "7"; "1.5"; "ONLINE"; "2001-09-09T01:46:40.123Z"; "event"] /\
  csv_line (octets_of <$> ["a,b"; ""; " x"]) = [0x22; 0x61; 0x2C; 0x62; 0x22; 0x2C; 0x2C; 0x22; 0x20; 0x78; 0x22; 0x0A].
Proof. vm_compute. done. Qed.

Lemma recording_reads_back_witness :
  csv_read (cf_content (rc_events (record_all (NewRecorder [] []) one_entry))) =
    Some [octets_of <$> event_columns; octets_of <$> take 7 (row_of "now" "North, 2" current)].
Proof. apply (recording_reads_back [] [] [] [] one_entry); [done | done | by repeat constructor]. Defined.

(** A frozen analog, an octet string and a command event are recorded without their value. *)
Example frozen_analog_blank :
  let u := set_FrozenAnalog (mkMeasurement (f64_from_bits 0x3FF8000000000000) Online NoTime) (Update0 event_info TypeFrozenAnalog 7) in
  take 4 (drop 3 (row_of "now" "North" u)) = ["7"; ""; "—"; ""] /\ pv_Good (shown "now" "North" u) = false.
Proof. vm_compute. done. Qed.
End RecordingRuns.
