(* ===== verification/MasterCommand.v ===== *)
(** * The master command

    cmd/dnp3-master: the sites of its configuration with their defaults and checks (config.go),
    the session and the work of a site (run.go), the flags and the control it issues (main.go).
    Each site that passes the checks has one way to be reached and addresses a session can use,
    and a serial one has its frames confirmed ([sites_sound]). *)

From Stdlib Require Import Ascii SpecFloat.
From stdpp Require Import gmap.
From S2P Require Import Prelude Values Floats AppHeader AppObject Objects Codecs MasterState MasterTasks.
From S2P Require Import Text Names Recording SimConfig.
#[local] Open Scope Z_scope.

(** ** Sites *)

Record SiteDefaults := mkSiteDefaults {
  sd_Poll : Z; sd_Integrity : Z; sd_Timeout : Z; sd_KeepAlive : Z; sd_Unsolicited : bool; sd_LinkConfirms : bool; sd_SyncClock : bool }.
Record TLSFiles := mkTLSFiles { tf_Cert : string; tf_Key : string; tf_CA : string; tf_ServerName : string }.
(** [None] is a setting the file does not make. *)
Record Site := mkSite {
  st_Name : string; st_Host : string; st_Serial : string; st_Baud : Z; st_Local : Z; st_Address : Z; st_TLS : option TLSFiles;
  st_Poll : Z; st_Integrity : Z; st_Timeout : Z; st_KeepAlive : Z; st_Unsolicited : option bool; st_LinkConfirms : option bool;
  st_SyncClock : option bool }.
Record MasterConfig := mkMasterConfig { mc_Local : Z; mc_Defaults : SiteDefaults; mc_Sites : list Site }.

Definition master_DefaultConfig : MasterConfig :=
  mkMasterConfig 1 (mkSiteDefaults (5 * second) (300 * second) (5 * second) (30 * second) false false true) [].
Definition master_LoadConfig {E} (decode : MasterConfig -> list Z -> result E MasterConfig) (data : list Z) : result E MasterConfig :=
  decode master_DefaultConfig data.

Inductive SiteErr :=
| ErrNoSites | ErrNoName (i : Z) | ErrSameName (name : string) | ErrNoTarget (name : string) | ErrTwoTargets (name : string)
| ErrNoAddress (name : string) | ErrTLSFiles (name : string) | ErrTLSSerial (name : string) | ErrSameAddress (name : string) (address : Z).

Definition empty (s : string) : bool := String.eqb s "".
Definition check_site (c : MasterConfig) (i : Z) (names : gset string) (s : Site) : option SiteErr :=
  let name := st_Name s in
  if empty name then Some (ErrNoName i)
  else if bool_decide (name ∈ names) then Some (ErrSameName name)
  else if empty (st_Host s) && empty (st_Serial s) then Some (ErrNoTarget name)
  else if negb (empty (st_Host s)) && negb (empty (st_Serial s)) then Some (ErrTwoTargets name)
  else if st_Address s =? 0 then Some (ErrNoAddress name)
  else
    let tls := match st_TLS s with
               | None => None
               | Some t => if empty (tf_Cert t) || empty (tf_Key t) || empty (tf_CA t) then Some (ErrTLSFiles name)
                           else if negb (empty (st_Serial s)) then Some (ErrTLSSerial name) else None
               end in
    match tls with
    | Some e => Some e
    | None =>
        let local := if st_Local s =? 0 then mc_Local c else st_Local s in
        if local =? st_Address s then Some (ErrSameAddress name local) else None
    end.
Fixpoint check_sites (c : MasterConfig) (i : Z) (names : gset string) (sites : list Site) : option SiteErr :=
  match sites with
  | [] => None
  | s :: sites => match check_site c i names s with Some e => Some e | None => check_sites c (i + 1) ({[st_Name s]} ∪ names) sites end
  end.
Definition master_Validate (c : MasterConfig) : option SiteErr :=
  if len (mc_Sites c) =? 0 then Some ErrNoSites else check_sites c 0 ∅ (mc_Sites c).

Definition or_default (v d : Z) : Z := if v =? 0 then d else v.
Definition resolved (c : MasterConfig) (s : Site) : Site :=
  let d := mc_Defaults c in
  let confirms := default (sd_LinkConfirms d) (st_LinkConfirms s) in
  mkSite (st_Name s) (st_Host s) (st_Serial s) (or_default (st_Baud s) 9600) (or_default (st_Local s) (mc_Local c)) (st_Address s) (st_TLS s)
    (or_default (st_Poll s) (sd_Poll d)) (or_default (st_Integrity s) (sd_Integrity d)) (or_default (st_Timeout s) (sd_Timeout d))
    (or_default (st_KeepAlive s) (sd_KeepAlive d))
    (Some (default (sd_Unsolicited d) (st_Unsolicited s)))
    (Some (if negb (empty (st_Serial s)) && negb confirms then true else confirms))
    (Some (default (sd_SyncClock d) (st_SyncClock s))).
Definition unsolMask (s : Site) : Z := match st_Unsolicited s with Some true => Class123 | _ => 0 end.
Definition Site_describe (s : Site) : string :=
  if negb (empty (st_Serial s)) then "serial " +:+ st_Serial s +:+ " at " +:+ dec (st_Baud s) +:+ " baud"
  else match st_TLS s with Some _ => "TLS " +:+ st_Host s | None => "TCP " +:+ st_Host s end.

(** ** The session of a site *)

(** [None] is a TLS configuration that cannot be loaded. *)
Inductive SiteChannel := SerialTo (dev : string) (baud : Z) | TLSTo (host : string) (files : TLSFiles) | TCPTo (host : string).
Definition master_buildChannel (tls_ok : TLSFiles -> bool) (s : Site) : option SiteChannel :=
  if negb (empty (st_Serial s)) then Some (SerialTo (st_Serial s) (st_Baud s))
  else match st_TLS s with
       | Some t => if tls_ok t then Some (TLSTo (st_Host s) t) else None
       | None => Some (TCPTo (st_Host s))
       end.
Definition is_set (b : option bool) : bool := match b with Some v => v | None => false end.
Definition session_config (s : Site) : MasterState.Config :=
  MasterState.mkConfig (st_Local s) (st_Address s) (st_Timeout s) 0 true true (unsolMask s) 0 0 0 None None
    (is_set (st_LinkConfirms s)) 3 0 (st_KeepAlive s).
Definition newSession (tls_ok : TLSFiles -> bool) (s : Site) : option (Site * MasterState.Config * SiteChannel * ChannelHandler) :=
  ch ← master_buildChannel tls_ok s; Some (s, session_config s, ch, NewChannelHandler 4096).
(** The sessions of [run], one per site; the first that cannot be built ends it. *)
Definition run_sessions (tls_ok : TLSFiles -> bool) (c : MasterConfig) : option (list (Site * MasterState.Config * SiteChannel * ChannelHandler)) :=
  mapM (fun raw => newSession tls_ok (resolved c raw)) (mc_Sites c).

(** What [schedule] asks of a session, in order; an error does not keep it from the next. *)
Inductive site_work := AsksSyncTime | AsksPeriodicScan (period mask : Z).
Definition schedule (s : Site) : list site_work :=
  (if is_set (st_SyncClock s) then [AsksSyncTime] else []) ++
  (if 0 <? st_Poll s then [AsksPeriodicScan (st_Poll s) Class123] else []) ++
  (if 0 <? st_Integrity s then [AsksPeriodicScan (st_Integrity s) ClassAll] else []).

(** [consume] takes one update from the handler, if there is one: it is shown, and recorded. *)
Definition consume_one (site now : string) (fails_values fails_events : option nat) (h : ChannelHandler) (snap : Snapshot)
    (rec : option Recorder) : ChannelHandler * Snapshot * option Recorder :=
  match take_update h with
  | (h, None) => (h, snap, rec)
  | (h, Some u) =>
      (h, Snapshot_Apply snap now site u, (fun r => fst (Record_ r fails_values fails_events now site u)) <$> rec)
  end.

(** ** The command line *)

Definition buildConfig (file : option (option MasterConfig)) (host serialDev : string) (baud local remote poll integrity timeout : Z) (unsol : bool)
    : option MasterConfig :=
  match file with
  | Some c => c
  | None =>
      if empty host && empty serialDev then None
      else
        let d := mc_Defaults master_DefaultConfig in
        Some (mkMasterConfig (u16 local) (mkSiteDefaults poll integrity timeout (sd_KeepAlive d) unsol (sd_LinkConfirms d) (sd_SyncClock d))
          [mkSite (if empty host then serialDev else host) host serialDev baud 0 (u16 remote) None 0 0 0 0 None None None])
  end.

Inductive OperateErr := ErrUsage | ErrNoTargetFlag | ErrIndex (s : list Z) | ErrNoValue | ErrValue (s : list Z) | ErrUnknownControl (s : list Z).
(** The command of the arguments; [host_given] says whether a host or a serial port is. *)
Definition operate_command `{Parsers} (args : list (list Z)) (target_given : bool) : result OperateErr Command :=
  match args with
  | control :: index :: rest =>
      if negb target_given then Err ErrNoTargetFlag
      else match ParseUint index with
           | None => Err (ErrIndex index)
           | Some i =>
               if 65535 <? i then Err (ErrIndex index)
               else if bool_decide (control = octets_of "latch-on") then Ok (LatchOn i)
               else if bool_decide (control = octets_of "latch-off") then Ok (LatchOff i)
               else if bool_decide (control = octets_of "trip") then Ok (Trip i 1000)
               else if bool_decide (control = octets_of "close") then Ok (Close i 1000)
               else if bool_decide (control = octets_of "analog") then
                 match rest with
                 | [] => Err ErrNoValue
                 | value :: _ => match ParseFloat (of_octets value) with
                                 | None => Err (ErrValue value)
                                 | Some v => Ok (AnalogOutputFloat32 i (f32_bits (f32_of_f64 v)))
                                 end
                 end
               else Err (ErrUnknownControl control)
           end
  | _ => Err ErrUsage
  end.
(** The session that issues it polls nothing and enables nothing. *)
Definition operate_config (local remote timeout : Z) : MasterState.Config :=
  MasterState.mkConfig (u16 local) (u16 remote) timeout 0 false false 0 0 0 0 None None false 0 0 0.

(** ** What the checks give *)

(** A site a session can be built from. *)
Record site_ok (s : Site) : Prop := mkSiteOk {
  so_named : st_Name s <> "";
  so_target : empty (st_Host s) = negb (empty (st_Serial s));
  so_address : st_Address s <> 0;
  so_differs : st_Local s <> st_Address s;
  so_tls : forall t, st_TLS s = Some t -> st_Serial s = "" /\ tf_Cert t <> "" /\ tf_Key t <> "" /\ tf_CA t <> "" }.

Lemma empty_spec s : reflect (s = "") (empty s).
Proof. unfold empty. destruct (String.eqb_spec s ""); by constructor. Qed.
Lemma check_site_ok c i names s : check_site c i names s = None -> (st_Name s ∉ names) /\ site_ok (resolved c s).
Proof.
  unfold check_site. destruct (empty_spec (st_Name s)) as [|Hn]; [done|]. destruct (bool_decide_reflect (st_Name s ∈ names)) as [|Hi]; [done|].
  destruct (empty (st_Host s) && empty (st_Serial s)) eqn:E1; [done|].
  destruct (negb (empty (st_Host s)) && negb (empty (st_Serial s))) eqn:E2; [done|].
  destruct (Z.eqb_spec (st_Address s) 0) as [|Ha]; [done|]. intros H. split; [done|].
  assert (Hl : (if st_Local s =? 0 then mc_Local c else st_Local s) <> st_Address s).
  { intros E. rewrite E, Z.eqb_refl in H. by repeat case_match. }
  split; cbn [resolved st_Name st_Host st_Serial st_Address st_Local st_TLS].
  - done.
  - revert E1 E2. by destruct (empty (st_Host s)), (empty (st_Serial s)).
  - done.
  - exact Hl.
  - intros t Ht. rewrite Ht in H. destruct (empty_spec (tf_Cert t)) as [|H1]; [done|]. destruct (empty_spec (tf_Key t)) as [|H2]; [done|].
    destruct (empty_spec (tf_CA t)) as [|H3]; [done|]. cbn [orb] in H. destruct (empty_spec (st_Serial s)) as [Hs|]; [|done]. done.
Qed.
Lemma check_sites_ok c sites : forall i names, check_sites c i names sites = None ->
  NoDup (st_Name <$> sites) /\ Forall (fun s => (st_Name s ∉ names) /\ site_ok (resolved c s)) sites.
Proof.
  induction sites as [|s sites IH]; intros i names H; [split; constructor|]. cbn [check_sites] in H.
  destruct (check_site c i names s) eqn:E; [done|]. destruct (IH _ _ H) as [Hd Hf]. split.
  - cbn. constructor; [|done]. intros Hin. apply list_elem_of_fmap in Hin as (x & Ex & Hx). rewrite Forall_forall in Hf.
    destruct (Hf x Hx) as [Hn _]. rewrite <- Ex in Hn. set_solver.
  - constructor; [by apply (check_site_ok c i)|]. eapply Forall_impl; [exact Hf|]. intros x [Hx Ho]. split; [set_solver | done].
Qed.

(** How a session reaches its site. *)
Definition reaches (raw : Site) (cfg : MasterState.Config) (ch : SiteChannel) : Prop :=
  match ch with
  | SerialTo dev _ => dev = st_Serial raw /\ dev <> "" /\ MasterState.UseLinkConfirms cfg = true
  | TLSTo host t => host = st_Host raw /\ host <> "" /\ st_TLS raw = Some t
  | TCPTo host => host = st_Host raw /\ host <> "" /\ st_TLS raw = None
  end.
Lemma newSession_ok c tls_ok s : site_ok (resolved c s) -> (forall t, tls_ok t = true) ->
  exists ch, newSession tls_ok (resolved c s) = Some (resolved c s, session_config (resolved c s), ch, NewChannelHandler 4096) /\
    reaches s (session_config (resolved c s)) ch.
Proof.
  intros [_ Ht _ _ _] Hl. cbn [resolved st_Host st_Serial] in Ht. unfold newSession, master_buildChannel. cbn [resolved st_Serial st_TLS st_Host st_Baud].
  destruct (empty_spec (st_Serial s)) as [Es|Es]; cbn [negb] in *.
  - destruct (empty_spec (st_Host s)) as [|Eh]; [done|]. destruct (st_TLS s) as [t|] eqn:E; [rewrite Hl|]; eexists; (split; [reflexivity|]); by split_and!.
  - eexists. split; [reflexivity|]. split_and!; [done | done|]. cbn. destruct (empty_spec (st_Serial s)); [done|].
    by destruct (default _ _).
Qed.

(** In a configuration that passes the checks the sites have different names; each, with the
    defaults folded in, is reached by a host or by a serial port and not both, has an address
    other than its master's, and complete certificates if it has any; its session can be built
    when the certificates can be loaded, and on a serial line it has its frames confirmed
    whatever the file says. *)
Theorem sites_sound c tls_ok : master_Validate c = None -> (forall t, tls_ok t = true) ->
  mc_Sites c <> [] /\ NoDup (st_Name <$> mc_Sites c) /\
  exists sessions, run_sessions tls_ok c = Some sessions /\
    Forall2 (fun raw '(s, cfg, ch, h) =>
      s = resolved c raw /\ site_ok s /\ cfg = session_config s /\ h = NewChannelHandler 4096 /\
      MasterState.LocalAddr cfg <> MasterState.RemoteAddr cfg /\ reaches raw cfg ch) (mc_Sites c) sessions.
Proof.
  unfold master_Validate. intros H Ht. destruct (Z.eqb_spec (len (mc_Sites c)) 0) as [|Hl]; [done|].
  destruct (check_sites_ok c _ _ _ H) as [Hd Hf]. split; [intros E; by rewrite E in Hl|]. split; [done|].
  unfold run_sessions. clear Hl Hd H. induction (mc_Sites c) as [|s sites IH]; [by exists []|].
  apply Forall_cons in Hf as [[_ Ho] Hf]. destruct (IH Hf) as (ss & Es & Fs). destruct (newSession_ok c tls_ok s Ho Ht) as (ch & En & Hr).
  eexists. cbn [mapM]. rewrite En. cbn [mbind option_bind]. rewrite Es. split; [reflexivity|].
  constructor; [|exact Fs]. split_and!; try done. by destruct Ho.
Qed.

(** ** Runs *)

Module MasterCommandRuns.
#[local] Existing Instance ConfigRuns.no_floats.
Definition north : Site := mkSite "north" "10.0.0.5:20000" "" 0 0 10 None 0 0 0 0 None None None.
Definition pole : Site := mkSite "pole" "" "/dev/ttyUSB0" 0 2 20 None (30 * second) 0 0 0 None (Some false) None.
Definition two_sites : MasterConfig := mkMasterConfig 1 (mc_Defaults master_DefaultConfig) [north; pole].

Lemma sites_sound_witness : exists sessions, run_sessions (fun _ => true) two_sites = Some sessions /\ length sessions = 2%nat.
Proof.
  destruct (sites_sound two_sites (fun _ => true)) as (_ & _ & ss & E & F); [by vm_compute | done|].
  exists ss. split; [exact E|]. by rewrite <- (Forall2_length _ _ _ F).
Defined.

(** The confirmations of a serial site cannot be turned off. *)
Example serial_always_confirmed : st_LinkConfirms pole = Some false /\ MasterState.UseLinkConfirms (session_config (resolved two_sites pole)) = true.
Proof. vm_compute. done. Qed.

(** What the sites have scheduled. *)
Example sites_scheduled :
  schedule (resolved two_sites pole) = [AsksSyncTime; AsksPeriodicScan (30 * second) Class123; AsksPeriodicScan (300 * second) ClassAll] /\
  Site_describe (resolved two_sites pole) = "serial /dev/ttyUSB0 at 9600 baud".
Proof. vm_compute. done. Qed.

Example controls_parsed :
  operate_command [octets_of "trip"; octets_of "3"] true = Ok (Trip 3 1000) /\
  operate_command [octets_of "trip"; octets_of "65536"] true = Err (ErrIndex (octets_of "65536")) /\
  operate_command [octets_of "analog"; octets_of "3"] true = Err ErrNoValue.
Proof. vm_compute. done. Qed.
End MasterCommandRuns.
