(* ===== verification/Generator.v ===== *)
(** * The code generator

    internal/gen: it reads the table of objects (objects/spec/dnp3_objects.yaml), checks it, and
    writes the registry, the codecs and the size table the rest of the program uses, which are
    modelled where they are used (Objects, Codecs, AppObject).  Here are the table, the checks,
    and what is written: a codec is a list of statements, printed as text by [readExpr],
    [writeExpr] and the functions that call them.  The text is Go; the part of Go it uses is a
    small language with its text and its meaning, and what a codec does is what its code means.

    The checks leave a table in order, with no variation twice ([loadSpec_sorted]); the text of
    every statement is that of its code ([pstmt_shown], [wstmt_shown]); a writer
    appends as many octets as the table gives the object, and a reader looks at no others
    ([emitted_size], [emitted_reads]); and the registry, the size table and every codec of the
    program are what the generator makes of the table of the repository ([descriptors_generated],
    [sizes_generated], [codecs_generated]). *)

From Stdlib Require Import Ascii SpecFloat.
From stdpp Require Import gmap sorting.
From S2P Require Import Prelude Floats Values AppHeader AppObject Objects Codecs Text.
#[local] Open Scope Z_scope.

(** ** The table *)

Record Field := mkField { fd_Name : string; fd_Type : string }.
Record Object := mkObject {
  ob_Group : Z; ob_Variation : Z; ob_Name : string; ob_Level : Z; ob_Kind : string; ob_Measure : string; ob_Packed : Z;
  ob_Variable : bool; ob_LengthIsV : bool; ob_Fields : list Field }.

Fixpoint assoc {T} (k : string) (l : list (string * T)) : option T :=
  match l with [] => None | (k', v) :: l => if String.eqb k k' then Some v else assoc k l end.
Definition fieldBitsTable : list (string * Z) :=
  [("flags", 8); ("u8", 8); ("status", 8); ("i16", 16); ("u16", 16); ("i32", 32); ("u32", 32); ("f32", 32); ("f64", 64);
   ("time48", 48); ("time16", 16)].
Definition fieldBits (t : string) : Z := default 0 (assoc t fieldBitsTable).
(** The name of the Go type, and the point type it has in the registry. *)
Definition validMeasurements : list (string * (string * PointType)) :=
  [("binary", ("Binary", TypeBinary)); ("doublebit", ("DoubleBitBinary", TypeDoubleBitBinary)); ("counter", ("Counter", TypeCounter));
   ("frozencounter", ("FrozenCounter", TypeFrozenCounter)); ("analog", ("Analog", TypeAnalog));
   ("binaryoutput", ("BinaryOutputStatus", TypeBinaryOutputStatus)); ("analogoutput", ("AnalogOutputStatus", TypeAnalogOutputStatus));
   ("none", ("", TypeUnknown))].
Definition validKinds : list (string * (string * Kind)) :=
  [("static", ("KindStatic", KindStatic)); ("event", ("KindEvent", KindEvent)); ("command", ("KindCommand", KindCommand));
   ("command_event", ("KindCommandEvent", KindCommandEvent)); ("time", ("KindTime", KindTime)); ("class", ("KindClass", KindClass));
   ("indication", ("KindIndication", KindIndication)); ("deadband", ("KindDeadband", KindDeadband)); ("string", ("KindString", KindString));
   ("file", ("KindFile", KindFile)); ("attribute", ("KindAttribute", KindAttribute))].

Definition SizeBits (o : Object) : Z * bool :=
  if ob_Variable o || ob_LengthIsV o then (0, false)
  else if 0 <? ob_Packed o then (ob_Packed o, true)
  else (fold_left (fun total f => total + fieldBits (fd_Type f)) (ob_Fields o) 0, true).
Definition GoName (o : Object) : string := "G" +:+ dec (ob_Group o) +:+ "V" +:+ dec (ob_Variation o).
Definition findType (o : Object) (t : string) : option Field := find (fun f => String.eqb (fd_Type f) t) (ob_Fields o).
Definition flagsField (o : Object) : option Field := findType o "flags".
Definition absTimeField (o : Object) : option Field := findType o "time48".
Definition relTimeField (o : Object) : option Field := findType o "time16".
Definition numeric (t : string) : bool := existsb (String.eqb t) ["i16"; "u16"; "i32"; "u32"; "f32"; "f64"].
Fixpoint value_field (off : Z) (fs : list Field) : option (Field * Z) :=
  match fs with
  | [] => None
  | f :: fs => if numeric (fd_Type f) && String.eqb (fd_Name f) "Value" then Some (f, off / 8) else value_field (off + fieldBits (fd_Type f)) fs
  end.
Definition valueField (o : Object) : option (Field * Z) := value_field 0 (ob_Fields o).
Fixpoint offset_of (name : string) (off : Z) (fs : list Field) : Z :=
  match fs with
  | [] => -1
  | f :: fs => if String.eqb (fd_Name f) name then off / 8 else offset_of name (off + fieldBits (fd_Type f)) fs
  end.
Definition offsetOf (o : Object) (name : string) : Z := offset_of name 0 (ob_Fields o).
Definition IsMeasurement (o : Object) : bool :=
  negb (String.eqb (ob_Measure o) "") && negb (String.eqb (ob_Measure o) "none") && (ob_Packed o =? 0) && negb (ob_Variable o) && negb (ob_LengthIsV o).

(** ** The checks *)

Inductive SpecErr :=
| ErrMissingName (i : nat) | ErrKind (i : nat) | ErrMeasurement (i : nat) | ErrFieldType (i : nat) (f : Field) | ErrPackedFields (i : nat)
| ErrNoValue (i : nat) | ErrNoFlags (i : nat) | ErrDuplicate (i : nat) (prev : string).
Definition isBinaryLike (m : string) : bool := existsb (String.eqb m) ["binary"; "doublebit"; "binaryoutput"].
Definition check_object (i : nat) (seen : gmap Z string) (o : Object) : option SpecErr :=
  if String.eqb (ob_Name o) "" then Some (ErrMissingName i)
  else if negb (bool_decide (is_Some (assoc (ob_Kind o) validKinds))) then Some (ErrKind i)
  else if negb (bool_decide (is_Some (assoc (ob_Measure o) validMeasurements))) then Some (ErrMeasurement i)
  else match find (fun f => negb (bool_decide (is_Some (assoc (fd_Type f) fieldBitsTable)))) (ob_Fields o) with
       | Some f => Some (ErrFieldType i f)
       | None =>
           if (0 <? ob_Packed o) && (0 <? len (ob_Fields o)) then Some (ErrPackedFields i)
           else if IsMeasurement o && negb (bool_decide (is_Some (valueField o))) && negb (isBinaryLike (ob_Measure o)) then Some (ErrNoValue i)
           else if IsMeasurement o && isBinaryLike (ob_Measure o) && negb (bool_decide (is_Some (flagsField o))) then Some (ErrNoFlags i)
           else match seen !! gv (ob_Group o) (ob_Variation o) with Some prev => Some (ErrDuplicate i prev) | None => None end
       end.
Fixpoint check_objects (i : nat) (seen : gmap Z string) (l : list Object) : option SpecErr :=
  match l with
  | [] => None
  | o :: l => match check_object i seen o with
              | Some e => Some e
              | None => check_objects (S i) (<[gv (ob_Group o) (ob_Variation o) := ob_Name o]> seen) l
              end
  end.
Definition object_le (a b : Object) : bool :=
  if negb (ob_Group a =? ob_Group b) then ob_Group a <? ob_Group b else ob_Variation a <=? ob_Variation b.
#[export] Instance object_le_dec a b : Decision (Is_true (object_le a b)).
Proof. destruct (object_le a b); [by left | by right; intros []]. Defined.
(** From the decoded file. *)
Definition loadSpec (file : list Object) : result SpecErr (list Object) :=
  match check_objects 0 ∅ file with
  | Some e => Err e
  | None => Ok (merge_sort (fun a b => Is_true (object_le a b)) file)
  end.

(** ** The registry and the sizes *)

Definition is_rule (o : Object) : bool := ob_Variable o || ob_LengthIsV o.
Definition rows (s : list Object) : list Object := List.filter (fun o => negb (is_rule o)) s.
(** A row of the registry. *)
Definition descriptor_row (o : Object) : (Z * Z) * Descriptor :=
  let rel := bool_decide (is_Some (relTimeField o)) in
  ((ob_Group o, ob_Variation o),
   mkDescriptor (default KindUnknown (snd <$> assoc (ob_Kind o) validKinds)) (default TypeUnknown (snd <$> assoc (ob_Measure o) validMeasurements))
     (fst (SizeBits o)) (0 <? ob_Packed o) (bool_decide (is_Some (flagsField o))) (bool_decide (is_Some (absTimeField o)) || rel) rel
     (match valueField o with Some (f, _) => fieldBits (fd_Type f) | None => 0 end)
     (match valueField o with Some (f, _) => String.eqb (fd_Type f) "f32" || String.eqb (fd_Type f) "f64" | None => false end)).
Definition emitDescriptors (s : list Object) : list ((Z * Z) * Descriptor) := descriptor_row <$> rows s.
Definition emitSizes (s : list Object) : list ((Z * Z) * Z) := (fun o => ((ob_Group o, ob_Variation o), fst (SizeBits o))) <$> rows s.
Definition emit_lengthIsVariation (s : list Object) : list Z := ob_Group <$> List.filter ob_LengthIsV s.
(** The groups of variable size: of each the first object stands for it. *)
Fixpoint first_variable (seen : list Z) (s : list Object) : list Object :=
  match s with
  | [] => []
  | o :: s => if ob_Variable o && negb (one_of (ob_Group o) seen) then o :: first_variable (ob_Group o :: seen) s else first_variable seen s
  end.
Definition emit_variable (s : list Object) : list Z := ob_Group <$> first_variable [] s.

(** ** The codecs

    A reader is a list of assignments to the parts of a measurement, a writer a list of
    statements that append to a slice. *)

Inductive pstmt :=
| PFlags (off : Z) | PBit (off : Z) | PDouble (off : Z) | POnline | PValue (typ : string) (off : Z) (toFloat : bool)
| PAbsTime (off : Z) | PRelTime (off : Z).
Inductive wstmt :=
| WClamp (helper : string) (hasFlags : bool) | WFlagsBit | WFlagsDouble | WFlagsClamped | WFlagsPlain | WTime48 | WTime16
| WValue (typ : string) (fromFloat : bool).

Definition as_float (measure : string) : bool := String.eqb measure "analog" || String.eqb measure "analogoutput".
Definition emitParse (o : Object) : list pstmt :=
  (match flagsField o with
   | Some f =>
       let off := offsetOf o (fd_Name f) in
       PFlags off ::
       (if String.eqb (ob_Measure o) "binary" || String.eqb (ob_Measure o) "binaryoutput" then [PBit off]
        else if String.eqb (ob_Measure o) "doublebit" then [PDouble off] else [])
   | None => [POnline]
   end) ++
  (match valueField o with Some (f, off) => [PValue (fd_Type f) off (as_float (ob_Measure o))] | None => [] end) ++
  (match absTimeField o with
   | Some f => [PAbsTime (offsetOf o (fd_Name f))]
   | None => match relTimeField o with Some f => [PRelTime (offsetOf o (fd_Name f))] | None => [] end
   end).

Definition clampOf (o : Object) : string :=
  if negb (as_float (ob_Measure o)) then ""
  else match valueField o with
       | None => ""
       | Some (f, _) => default "" (assoc (fd_Type f) [("i16", "clampInt16"); ("u16", "clampUint16"); ("i32", "clampInt32"); ("u32", "clampUint32")])
       end.
Definition emit_field (o : Object) (clamp : string) (f : Field) : list wstmt :=
  let t := fd_Type f in
  if String.eqb t "flags" then
    [if String.eqb (ob_Measure o) "binary" || String.eqb (ob_Measure o) "binaryoutput" then WFlagsBit
     else if String.eqb (ob_Measure o) "doublebit" then WFlagsDouble
     else if negb (String.eqb clamp "") then WFlagsClamped else WFlagsPlain]
  else if String.eqb t "time48" then [WTime48]
  else if String.eqb t "time16" then [WTime16]
  else if String.eqb (fd_Name f) "Value" then [WValue t (as_float (ob_Measure o))] else [].
Definition emitWrite (o : Object) : list wstmt :=
  let clamp := clampOf o in
  (if String.eqb clamp "" then [] else [WClamp clamp (bool_decide (is_Some (flagsField o)))]) ++
  concat (emit_field o clamp <$> ob_Fields o).

(** *** As text *)

Definition generated_header : string :=
  "// Code generated by internal/gen from objects/spec/dnp3_objects.yaml. DO NOT EDIT." +:+ newline +:+ newline.

Definition tab : string := of_octets [9].
Definition line (s : string) : string := tab +:+ s +:+ newline.
Definition buf_range (a n : Z) : string := "buf[" +:+ dec a +:+ ":" +:+ dec (a + n) +:+ "]".
Definition wrap (e : string) (do : bool) (as_ : string) : string := if do then as_ +:+ "(" +:+ e +:+ ")" else e.
Definition readExpr (typ : string) (off : Z) (toFloat : bool) : string :=
  let le n bits := "binary.LittleEndian.Uint" +:+ bits +:+ "(" +:+ buf_range off n +:+ ")" in
  if String.eqb typ "i16" then wrap ("int16(" +:+ le 2 "16" +:+ ")") toFloat "float64"
  else if String.eqb typ "u16" then (if toFloat then "float64(" else "uint32(") +:+ le 2 "16" +:+ ")"
  else if String.eqb typ "i32" then wrap ("int32(" +:+ le 4 "32" +:+ ")") toFloat "float64"
  else if String.eqb typ "u32" then (if toFloat then "float64(" +:+ le 4 "32" +:+ ")" else le 4 "32")
  else if String.eqb typ "f32" then "float64(math.Float32frombits(" +:+ le 4 "32" +:+ "))"
  else if String.eqb typ "f64" then "math.Float64frombits(" +:+ le 8 "64" +:+ ")"
  else "0".
Definition readTime48_expr (off : Z) : string :=
  Join ((fun i => "uint64(buf[" +:+ dec (off + i) +:+ "])<<" +:+ dec (i * 8)) <$> [0; 1; 2; 3; 4; 5]) "|".
Definition pstmt_text (s : pstmt) : string :=
  match s with
  | PFlags off => line ("v.Flags = dnp3.Flags(buf[" +:+ dec off +:+ "])")
  | PBit off => line ("v.Value = buf[" +:+ dec off +:+ "]&0x80 != 0")
  | PDouble off => line ("v.Value = dnp3.DoubleBit(buf[" +:+ dec off +:+ "] >> 6)")
  | POnline => line "v.Flags = dnp3.Online"
  | PValue t off f => line ("v.Value = " +:+ readExpr t off f)
  | PAbsTime off => line ("v.Time = dnp3.Timestamp{Time: dnp3.DNP3ToTime(" +:+ readTime48_expr off +:+ "), Quality: ctx.TimeQuality()}")
  | PRelTime off =>
      line "// A relative-time event is an offset from the common time of" +:+
      line "// occurrence in a preceding group 51 object. Without one the" +:+
      line "// offset is meaningless, so the timestamp is left invalid" +:+
      line "// rather than being anchored to the epoch." +:+
      line ("v.Time = ctx.RelativeTime(uint16(binary.LittleEndian.Uint16(" +:+ buf_range off 2 +:+ ")))")
  end.
Definition writeExpr (typ : string) (fromFloat : bool) : string :=
  let le bits e := "dst = binary.LittleEndian.AppendUint" +:+ bits +:+ "(dst, " +:+ e +:+ ")" in
  if String.eqb typ "i16" then le "16" (if fromFloat then "uint16(n)" else "uint16(v.Value)")
  else if String.eqb typ "u16" then le "16" (if fromFloat then "n" else "uint16(v.Value)")
  else if String.eqb typ "i32" then le "32" (if fromFloat then "uint32(n)" else "uint32(v.Value)")
  else if String.eqb typ "u32" then le "32" (if fromFloat then "n" else "uint32(v.Value)")
  else if String.eqb typ "f32" then le "32" "math.Float32bits(float32(v.Value))"
  else if String.eqb typ "f64" then le "64" "math.Float64bits(v.Value)"
  else "".
Definition wstmt_text (s : wstmt) : string :=
  match s with
  | WClamp helper hasFlags => line ("n, " +:+ (if hasFlags then "over" else "_") +:+ " := " +:+ helper +:+ "(v.Value)")
  | WFlagsBit =>
      line "flags := v.Flags &^ dnp3.StateBit" +:+ line "if v.Value {" +:+ line (tab +:+ "flags |= dnp3.StateBit") +:+ line "}" +:+
      line "dst = append(dst, byte(flags))"
  | WFlagsDouble => line "dst = append(dst, byte(v.Flags&0x3F)|byte(v.Value&0x03)<<6)"
  | WFlagsClamped =>
      line "flags := v.Flags" +:+ line "if over {" +:+ line (tab +:+ "flags |= dnp3.OverRange") +:+ line "}" +:+ line "dst = append(dst, byte(flags))"
  | WFlagsPlain => line "dst = append(dst, byte(v.Flags))"
  | WTime48 => line "dst = appendTime48(dst, dnp3.TimeToDNP3(v.Time.Time))"
  | WTime16 => line "dst = binary.LittleEndian.AppendUint16(dst, ctx.RelativeOffset(v.Time))"
  | WValue t f => line (writeExpr t f)
  end.
Definition texts {A} (f : A -> string) (l : list A) : string := fold_right (fun x s => f x +:+ s) "" l.
Definition what (o : Object) : string := "g" +:+ dec (ob_Group o) +:+ "v" +:+ dec (ob_Variation o) +:+ ", " +:+ ob_Name o.
Definition parse_text (o : Object) (goType : string) : string :=
  "// parse" +:+ GoName o +:+ " decodes " +:+ what o +:+ "." +:+ newline +:+
  "func parse" +:+ GoName o +:+ "(buf []byte, ctx Context) " +:+ goType +:+ " {" +:+ newline +:+
  line ("var v " +:+ goType) +:+
  line ("_ = buf[" +:+ dec (Z.quot (fst (SizeBits o)) 8 - 1) +:+ "] // bounds check once, then index freely") +:+
  texts pstmt_text (emitParse o) +:+ line "return v" +:+ "}" +:+ newline +:+ newline.
Definition write_text (o : Object) (goType : string) : string :=
  "// write" +:+ GoName o +:+ " encodes " +:+ what o +:+ "." +:+ newline +:+
  "func write" +:+ GoName o +:+ "(dst []byte, v " +:+ goType +:+ ", ctx Context) []byte {" +:+ newline +:+
  line "_ = ctx" +:+ texts wstmt_text (emitWrite o) +:+ line "return dst" +:+ "}" +:+ newline +:+ newline.
Definition measures : list string := ["binary"; "doublebit"; "counter"; "frozencounter"; "analog"; "binaryoutput"; "analogoutput"].
Definition by_measure (s : list Object) (m : string) : list Object := List.filter (fun o => IsMeasurement o && String.eqb (ob_Measure o) m) s.
Definition codec_row_text (o : Object) : string :=
  line ("GV(" +:+ dec (ob_Group o) +:+ ", " +:+ dec (ob_Variation o) +:+ "): {Parse: parse" +:+ GoName o +:+ ", Write: write" +:+ GoName o +:+ "},").
Definition measure_text (s : list Object) (m : string) : string :=
  match by_measure s m with
  | [] => ""
  | objs =>
      let goType := "dnp3." +:+ default "" (fst <$> assoc m validMeasurements) in
      "// ---- " +:+ goType +:+ " ----" +:+ newline +:+ newline +:+
      texts (fun o => parse_text o goType +:+ write_text o goType) objs +:+
      "var " +:+ m +:+ "Codecs = map[GroupVar]Codec[" +:+ goType +:+ "]{" +:+ newline +:+
      texts codec_row_text objs +:+ "}" +:+ newline +:+ newline
  end.
Definition emitCodecs (s : list Object) : string :=
  generated_header +:+ "package objects" +:+ newline +:+ newline +:+ "import (" +:+ newline +:+
  line (dquote +:+ "encoding/binary" +:+ dquote) +:+ line (dquote +:+ "math" +:+ dquote) +:+ newline +:+
  line (dquote +:+ "github.com/dscsystems/go-dnp3" +:+ dquote) +:+ ")" +:+ newline +:+ newline +:+
  "var (" +:+ newline +:+ line "_ = binary.LittleEndian" +:+ line "_ = math.Float64bits" +:+ line "_ = dnp3.Online" +:+ ")" +:+ newline +:+ newline +:+
  texts (measure_text s) measures.

(** *** What they do

    What the text of a statement means is the meaning of the Go it is.  The expressions and
    statements of that Go are a small language, with the text of each ([show], [show_stmt]) and
    its meaning ([eval], [run_parse], [run_write]); [pstmt_shown] and [wstmt_shown] say that what
    the generator prints is the text of [pstmt_code] and [wstmt_code], and a codec is what that
    code does. *)
Inductive goType := Int16 | Int32 | Uint16 | Uint32 | Uint64 | Float32 | Float64 | Byte | TFlags | TDoubleBit.
Inductive goConst := COnline | CStateBit | COverRange.
Inductive goExpr :=
| EZero | EConst (k : goConst) | EValue | EFlags | EN | EOver | ELocal | EOffset
| EBuf (off : Z) | EWord (n : Z) (off : Z) | EConv (t : goType) (e : goExpr)
| EFrombits (w : Z) (e : goExpr) | EBits (w : Z) (e : goExpr)
| EMask (e : goExpr) (m : Z) | ENonzero (e : goExpr) | EShiftR (e : goExpr) (k : Z) | EShiftL (e : goExpr) (k : Z)
| EOr (a b : goExpr) | EAndNot (a b : goExpr).
Inductive goStmt :=
| SFlags (e : goExpr) | SValue (e : goExpr) | SAbsTime (e : goExpr) | SRelTime (e : goExpr)
| SClamp (helper : string) (hasFlags : bool) | SLocal (e : goExpr) | SIf (e k : goExpr)
| SAppend (e : goExpr) | SAppendWord (n : Z) (e : goExpr) | SAppendTime48 | SBlank.

Definition type_name (t : goType) : string :=
  match t with
  | Int16 => "int16" | Int32 => "int32" | Uint16 => "uint16" | Uint32 => "uint32" | Uint64 => "uint64"
  | Float32 => "float32" | Float64 => "float64" | Byte => "byte" | TFlags => "dnp3.Flags" | TDoubleBit => "dnp3.DoubleBit"
  end.
Definition const_name (k : goConst) : string :=
  match k with COnline => "dnp3.Online" | CStateBit => "dnp3.StateBit" | COverRange => "dnp3.OverRange" end.
Fixpoint show (e : goExpr) : string :=
  match e with
  | EZero => "0" | EConst k => const_name k
  | EValue => "v.Value" | EFlags => "v.Flags" | EN => "n" | EOver => "over" | ELocal => "flags"
  | EOffset => "ctx.RelativeOffset(v.Time)"
  | EBuf off => "buf[" +:+ dec off +:+ "]"
  | EWord n off => "binary.LittleEndian.Uint" +:+ dec (8 * n) +:+ "(" +:+ buf_range off n +:+ ")"
  | EConv t e => type_name t +:+ "(" +:+ show e +:+ ")"
  | EFrombits w e => "math.Float" +:+ dec w +:+ "frombits(" +:+ show e +:+ ")"
  | EBits w e => "math.Float" +:+ dec w +:+ "bits(" +:+ show e +:+ ")"
  | EMask e m => show e +:+ "&0x" +:+ hex2_upper m
  | ENonzero e => show e +:+ " != 0"
  | EShiftR e k => show e +:+ " >> " +:+ dec k
  | EShiftL e k => show e +:+ "<<" +:+ dec k
  | EOr a b => show a +:+ "|" +:+ show b
  | EAndNot a b => show a +:+ " &^ " +:+ show b
  end.
Definition show_stmt (s : goStmt) : string :=
  match s with
  | SFlags e => line ("v.Flags = " +:+ show e)
  | SValue e => line ("v.Value = " +:+ show e)
  | SAbsTime e => line ("v.Time = dnp3.Timestamp{Time: dnp3.DNP3ToTime(" +:+ show e +:+ "), Quality: ctx.TimeQuality()}")
  | SRelTime e =>
      line "// A relative-time event is an offset from the common time of" +:+
      line "// occurrence in a preceding group 51 object. Without one the" +:+
      line "// offset is meaningless, so the timestamp is left invalid" +:+
      line "// rather than being anchored to the epoch." +:+ line ("v.Time = ctx.RelativeTime(" +:+ show e +:+ ")")
  | SClamp helper hasFlags => line ("n, " +:+ (if hasFlags then "over" else "_") +:+ " := " +:+ helper +:+ "(v.Value)")
  | SLocal e => line ("flags := " +:+ show e)
  | SIf e k => line ("if " +:+ show e +:+ " {") +:+ line (tab +:+ "flags |= " +:+ show k) +:+ line "}"
  | SAppend e => line ("dst = append(dst, " +:+ show e +:+ ")")
  | SAppendWord n e => line ("dst = binary.LittleEndian.AppendUint" +:+ dec (8 * n) +:+ "(dst, " +:+ show e +:+ ")")
  | SAppendTime48 => line "dst = appendTime48(dst, dnp3.TimeToDNP3(v.Time.Time))"
  | SBlank => line ""
  end.

(** The code of a statement of the generator. *)
Definition conv_if (do : bool) (t : goType) (e : goExpr) : goExpr := if do then EConv t e else e.
Definition read_code (typ : string) (off : Z) (toFloat : bool) : goExpr :=
  if String.eqb typ "i16" then conv_if toFloat Float64 (EConv Int16 (EWord 2 off))
  else if String.eqb typ "u16" then EConv (if toFloat then Float64 else Uint32) (EWord 2 off)
  else if String.eqb typ "i32" then conv_if toFloat Float64 (EConv Int32 (EWord 4 off))
  else if String.eqb typ "u32" then conv_if toFloat Float64 (EWord 4 off)
  else if String.eqb typ "f32" then EConv Float64 (EFrombits 32 (EWord 4 off))
  else if String.eqb typ "f64" then EFrombits 64 (EWord 8 off)
  else EZero.
Definition time48_code (off : Z) : goExpr :=
  let octet i := EShiftL (EConv Uint64 (EBuf (off + i))) (i * 8) in
  EOr (EOr (EOr (EOr (EOr (octet 0) (octet 1)) (octet 2)) (octet 3)) (octet 4)) (octet 5).
Definition pstmt_code (s : pstmt) : goStmt :=
  match s with
  | PFlags off => SFlags (EConv TFlags (EBuf off))
  | PBit off => SValue (ENonzero (EMask (EBuf off) 0x80))
  | PDouble off => SValue (EConv TDoubleBit (EShiftR (EBuf off) 6))
  | POnline => SFlags (EConst COnline)
  | PValue t off f => SValue (read_code t off f)
  | PAbsTime off => SAbsTime (time48_code off)
  | PRelTime off => SRelTime (EConv Uint16 (EWord 2 off))
  end.
Definition write_code (typ : string) (fromFloat : bool) : goStmt :=
  if String.eqb typ "i16" then SAppendWord 2 (EConv Uint16 (if fromFloat then EN else EValue))
  else if String.eqb typ "u16" then SAppendWord 2 (if fromFloat then EN else EConv Uint16 EValue)
  else if String.eqb typ "i32" then SAppendWord 4 (EConv Uint32 (if fromFloat then EN else EValue))
  else if String.eqb typ "u32" then SAppendWord 4 (if fromFloat then EN else EConv Uint32 EValue)
  else if String.eqb typ "f32" then SAppendWord 4 (EBits 32 (EConv Float32 EValue))
  else if String.eqb typ "f64" then SAppendWord 8 (EBits 64 EValue)
  else SBlank.
Definition wstmt_code (s : wstmt) : list goStmt :=
  match s with
  | WClamp helper hasFlags => [SClamp helper hasFlags]
  | WFlagsBit => [SLocal (EAndNot EFlags (EConst CStateBit)); SIf EValue (EConst CStateBit); SAppend (EConv Byte ELocal)]
  | WFlagsDouble => [SAppend (EOr (EConv Byte (EMask EFlags 0x3F)) (EShiftL (EConv Byte (EMask EValue 0x03)) 6))]
  | WFlagsClamped => [SLocal EFlags; SIf EOver (EConst COverRange); SAppend (EConv Byte ELocal)]
  | WFlagsPlain => [SAppend (EConv Byte EFlags)]
  | WTime48 => [SAppendTime48]
  | WTime16 => [SAppendWord 2 EOffset]
  | WValue t f => [write_code t f]
  end.

(** Values: an integer has its type, and a [float32] is the pattern of its bits. *)
Inductive goVal := GBool (b : bool) | GInt (t : goType) (z : Z) | GF32 (w : Z) | GF64 (x : spec_float).
Definition width (t : goType) : Z :=
  match t with Int16 | Uint16 => 16 | Int32 | Uint32 | Float32 => 32 | Uint64 | Float64 => 64 | Byte | TFlags | TDoubleBit => 8 end.
Definition signed (t : goType) : bool := match t with Int16 | Int32 => true | _ => false end.
(** Conversions between integers keep the low bits; they change nothing in a wider type that has
    the sign, and in the types the program names for its octets. *)
Definition conv_int (t t' : goType) (z : Z) : Z :=
  match t with
  | TFlags | TDoubleBit => z
  | _ => if signed t then int_of (width t) (if width t' <=? width t then z else uint_of (width t) z)
         else if negb (signed t') && (width t' <? width t) then z else uint_of (width t) z
  end.
Definition conv (t : goType) (x : goVal) : goVal :=
  match t, x with
  | Float64, GInt _ z => GF64 (f64_of_Z z)
  | Float64, GF32 w => GF64 (f64_of_f32_bits w)
  | Float32, GF64 x => GF32 (f32_bits (f32_of_f64 x))
  | _, GInt t' z => GInt t (conv_int t t' z)
  | _, _ => x
  end.
Definition int_val (x : goVal) : Z := match x with GInt _ z => z | _ => 0 end.
Definition bool_val (x : goVal) : bool := match x with GBool b => b | _ => false end.
Definition float_val (x : goVal) : spec_float := match x with GF64 f => f | _ => f64_zero end.
Definition on_int (f : goType -> Z -> goVal) (x : goVal) : goVal := match x with GInt t z => f t z | _ => x end.
Definition const_val (k : goConst) : Z := match k with COnline => Online | CStateBit => StateBit | COverRange => OverRange end.
Definition word_type (n : Z) : goType := if n =? 2 then Uint16 else if n =? 4 then Uint32 else Uint64.

(** What the names of an expression stand for. *)
Record scope := mkScope {
  sc_buf : list Z; sc_ctx : Context; sc_value : goVal; sc_flags : Z; sc_time : Timestamp; sc_n : goVal; sc_over : bool; sc_local : Z }.
Fixpoint eval (sc : scope) (e : goExpr) : goVal :=
  match e with
  | EZero => GInt Uint32 0 | EConst k => GInt TFlags (const_val k)
  | EValue => sc_value sc | EFlags => GInt TFlags (sc_flags sc) | EN => sc_n sc | EOver => GBool (sc_over sc) | ELocal => GInt TFlags (sc_local sc)
  | EOffset => GInt Uint16 (RelativeOffset (sc_ctx sc) (sc_time sc))
  | EBuf off => GInt Byte (at_ (sc_buf sc) off)
  | EWord n off => GInt (word_type n) (le_val (slice off (off + n) (sc_buf sc)))
  | EConv t e => conv t (eval sc e)
  | EFrombits w e => let x := int_val (eval sc e) in if w =? 32 then GF32 x else GF64 (f64_from_bits x)
  | EBits w e => match eval sc e with GF32 x => GInt Uint32 x | GF64 f => GInt Uint64 (f64_bits f) | x => x end
  | EMask e m => on_int (fun t z => GInt t (Z.land z m)) (eval sc e)
  | ENonzero e => on_int (fun _ z => GBool (negb (z =? 0))) (eval sc e)
  | EShiftR e k => on_int (fun t z => GInt t (Z.shiftr z k)) (eval sc e)
  | EShiftL e k => on_int (fun t z => GInt t (uint_of (width t) (Z.shiftl z k))) (eval sc e)
  | EOr a b => on_int (fun t z => GInt t (Z.lor z (int_val (eval sc b)))) (eval sc a)
  | EAndNot a b => on_int (fun t z => GInt t (Z.ldiff z (int_val (eval sc b)))) (eval sc a)
  end.
Definition clamp_helper (name : string) : spec_float -> Z * bool :=
  if String.eqb name "clampInt16" then clampInt16
  else if String.eqb name "clampUint16" then clampUint16
  else if String.eqb name "clampInt32" then clampInt32 else clampUint32.
Definition clamp_type (name : string) : goType :=
  if String.eqb name "clampInt16" then Int16
  else if String.eqb name "clampUint16" then Uint16
  else if String.eqb name "clampInt32" then Int32 else Uint32.

(** A type of measurement: its zero value, and its values as Go has them. *)
Record carrier (T : Type) := mkCarrier { nothing : T; of_val : goVal -> T; to_val : T -> goVal }.
Arguments nothing {T}.
Arguments of_val {T}.
Arguments to_val {T}.
Definition bits : carrier bool := mkCarrier bool false bool_val GBool.
Definition doubles : carrier Z := mkCarrier Z 0 int_val (GInt TDoubleBit).
Definition counts : carrier Z := mkCarrier Z 0 int_val (GInt Uint32).
Definition reals : carrier spec_float := mkCarrier spec_float f64_zero float_val GF64.

Section Meaning.
Context {T : Type} (c : carrier T).

(** The statements of a reader, on [v]. *)
Definition read_scope (buf : list Z) (ctx : Context) (v : measurement T) : scope :=
  mkScope buf ctx (to_val c (Value v)) (Flags v) (Time v) (GInt Uint32 0) false 0.
Definition run_parse (buf : list Z) (ctx : Context) (v : measurement T) (s : goStmt) : measurement T :=
  let sc := read_scope buf ctx v in
  match s with
  | SFlags e => mkMeasurement (Value v) (int_val (eval sc e)) (Time v)
  | SValue e => mkMeasurement (of_val c (eval sc e)) (Flags v) (Time v)
  | SAbsTime e => mkMeasurement (Value v) (Flags v) (mkTimestamp (DNP3ToTime (int_val (eval sc e))) (TimeQuality ctx))
  | SRelTime e => mkMeasurement (Value v) (Flags v) (RelativeTime ctx (int_val (eval sc e)))
  | _ => v
  end.
Definition reader (o : Object) (buf : list Z) (ctx : Context) : measurement T :=
  fold_left (run_parse buf ctx) (pstmt_code <$> emitParse o) (mkMeasurement (nothing c) 0 NoTime).

(** The statements of a writer: the variables they declare, and what they append. *)
Fixpoint run_write (ss : list goStmt) (n : goVal) (over : bool) (local : Z) (dst : list Z) (v : measurement T) (ctx : Context) : list Z :=
  match ss with
  | [] => dst
  | s :: ss =>
      let sc := mkScope [] ctx (to_val c (Value v)) (Flags v) (Time v) n over local in
      match s with
      | SClamp helper _ =>
          let '(n, over) := clamp_helper helper (float_val (to_val c (Value v))) in
          run_write ss (GInt (clamp_type helper) n) over local dst v ctx
      | SLocal e => run_write ss n over (int_val (eval sc e)) dst v ctx
      | SIf e k => run_write ss n over (if bool_val (eval sc e) then Z.lor local (int_val (eval sc k)) else local) dst v ctx
      | SAppend e => run_write ss n over local (dst ++ [int_val (eval sc e)]) v ctx
      | SAppendWord k e => run_write ss n over local (dst ++ le_bytes (Z.to_nat k) (int_val (eval sc e))) v ctx
      | SAppendTime48 => run_write ss n over local (appendTime48 dst (TimeToDNP3 (TTime (Time v)))) v ctx
      | _ => run_write ss n over local dst v ctx
      end
  end.
Definition writer (o : Object) (dst : list Z) (v : measurement T) (ctx : Context) : list Z :=
  run_write (concat (wstmt_code <$> emitWrite o)) (GInt Uint32 0) false 0 dst v ctx.
Definition codec_row (o : Object) : (Z * Z) * Codec (measurement T) := ((ob_Group o, ob_Variation o), mkCodec (reader o) (writer o)).
End Meaning.

(** *** The other files as text *)

Definition pointTypeConst (measure : string) : string :=
  match assoc measure validMeasurements with
  | None => "dnp3.TypeUnknown"
  | Some (name, _) => if String.eqb name "" then "dnp3.TypeUnknown" else "dnp3.Type" +:+ name
  end.
Definition line2 (s : string) : string := line (tab +:+ s).
Definition flag_line (on : bool) (name : string) : string := if on then line2 (name +:+ ": true,") else "".
Definition gv_text (o : Object) : string := "(" +:+ dec (ob_Group o) +:+ ", " +:+ dec (ob_Variation o) +:+ ")".
Definition descriptor_text `{Unicode} (o : Object) : string :=
  let rel := bool_decide (is_Some (relTimeField o)) in
  line ("GV" +:+ gv_text o +:+ ": {") +:+ line2 ("GV: GV" +:+ gv_text o +:+ ",") +:+
  line2 ("Name: " +:+ Quote (octets_of (ob_Name o)) +:+ ",") +:+ line2 ("Level: " +:+ dec (ob_Level o) +:+ ",") +:+
  line2 ("Kind: " +:+ default "" (fst <$> assoc (ob_Kind o) validKinds) +:+ ",") +:+
  line2 ("Measurement: " +:+ pointTypeConst (ob_Measure o) +:+ ",") +:+ line2 ("SizeBits: " +:+ dec (fst (SizeBits o)) +:+ ",") +:+
  flag_line (0 <? ob_Packed o) "Packed" +:+ flag_line (bool_decide (is_Some (flagsField o))) "HasFlags" +:+
  flag_line (bool_decide (is_Some (absTimeField o)) || rel) "HasTime" +:+ flag_line rel "RelativeTime" +:+
  (match valueField o with
   | Some (f, _) => line2 ("ValueBits: " +:+ dec (fieldBits (fd_Type f)) +:+ ",") +:+
                    flag_line (String.eqb (fd_Type f) "f32" || String.eqb (fd_Type f) "f64") "FloatValue"
   | None => ""
   end) +:+ line "},".
Definition group_line (o : Object) : string := line (dec (ob_Group o) +:+ ": true, // " +:+ ob_Name o).
Definition text_line (s : string) : string := s +:+ newline.
Definition descriptors_text `{Unicode} (s : list Object) : string :=
  generated_header +:+ text_line "package objects" +:+ newline +:+
  text_line ("import " +:+ dquote +:+ "github.com/dscsystems/go-dnp3" +:+ dquote) +:+ newline +:+
  text_line "// descriptors is every group and variation the spec defines." +:+ text_line "var descriptors = map[GroupVar]Descriptor{" +:+
  texts descriptor_text (rows s) +:+ text_line "}" +:+ newline +:+
  text_line "// lengthIsVariationGroups carry their octet length in the variation" +:+
  text_line "// number, so a range of them needs no size table entry." +:+ text_line "var lengthIsVariationGroups = map[uint8]bool{" +:+
  texts group_line (List.filter ob_LengthIsV s) +:+ text_line "}" +:+ newline +:+
  text_line "// variableGroups are genuinely variable-length. Their encodings carry an" +:+
  text_line "// explicit size, so a parser walks them instead of looking them up." +:+ text_line "var variableGroups = map[uint8]bool{" +:+
  texts group_line (first_variable [] s) +:+ text_line "}" +:+ newline +:+ text_line "var _ = dnp3.TypeUnknown".
Definition sizes_text (s : list Object) : string :=
  generated_header +:+ text_line "package app" +:+ newline +:+
  text_line "// generatedSizes maps a group and variation to the encoded size of one" +:+
  text_line "// object in bits. Sizes under eight bits are bit-packed across a range." +:+ text_line "var generatedSizes = map[uint16]int{" +:+
  texts (fun o => line ("gv" +:+ gv_text o +:+ ": " +:+ dec (fst (SizeBits o)) +:+ ", // " +:+ ob_Name o)) (rows s) +:+ text_line "}" +:+ newline +:+
  text_line "// lengthIsVariationGroups carry their octet length in the variation number." +:+
  text_line "var lengthIsVariationGroups = map[uint8]bool{" +:+ texts group_line (List.filter ob_LengthIsV s) +:+ text_line "}" +:+ newline +:+
  text_line "// variableGroups have no fixed size; their encoding carries one." +:+ text_line "var variableGroups = map[uint8]bool{" +:+
  texts group_line (first_variable [] s) +:+ text_line "}".

(** ** The table of the repository *)

Definition Fld := mkField.
Definition Row := mkObject.
Definition spec_file : list Object :=
  [Row 1 1 "BinaryInputPacked" 1 "static" "binary" 1 false false [];
   Row 1 2 "BinaryInputWithFlags" 1 "static" "binary" 0 false false [Fld "Flags" "flags"];
   Row 2 1 "BinaryInputEventNoTime" 1 "event" "binary" 0 false false [Fld "Flags" "flags"];
   Row 2 2 "BinaryInputEventAbsTime" 1 "event" "binary" 0 false false [Fld "Flags" "flags"; Fld "Time" "time48"];
   Row 2 3 "BinaryInputEventRelTime" 1 "event" "binary" 0 false false [Fld "Flags" "flags"; Fld "Time" "time16"];
   Row 3 1 "DoubleBitInputPacked" 4 "static" "doublebit" 2 false false [];
   Row 3 2 "DoubleBitInputWithFlags" 4 "static" "doublebit" 0 false false [Fld "Flags" "flags"];
   Row 4 1 "DoubleBitEventNoTime" 4 "event" "doublebit" 0 false false [Fld "Flags" "flags"];
   Row 4 2 "DoubleBitEventAbsTime" 4 "event" "doublebit" 0 false false [Fld "Flags" "flags"; Fld "Time" "time48"];
   Row 4 3 "DoubleBitEventRelTime" 4 "event" "doublebit" 0 false false [Fld "Flags" "flags"; Fld "Time" "time16"];
   Row 10 1 "BinaryOutputPacked" 1 "static" "binaryoutput" 1 false false [];
   Row 10 2 "BinaryOutputWithFlags" 1 "static" "binaryoutput" 0 false false [Fld "Flags" "flags"];
   Row 11 1 "BinaryOutputEventNoTime" 2 "event" "binaryoutput" 0 false false [Fld "Flags" "flags"];
   Row 11 2 "BinaryOutputEventAbsTime" 2 "event" "binaryoutput" 0 false false [Fld "Flags" "flags"; Fld "Time" "time48"];
   Row 12 1 "ControlRelayOutputBlock" 1 "command" "none" 0 false false [Fld "Code" "u8"; Fld "Count" "u8"; Fld "OnTime" "u32"; Fld "OffTime" "u32"; Fld "Status" "status"];
   Row 12 2 "PatternControlBlock" 4 "command" "none" 0 false false [Fld "Code" "u8"; Fld "Count" "u8"; Fld "OnTime" "u32"; Fld "OffTime" "u32"; Fld "Status" "status"];
   Row 12 3 "PatternMask" 4 "command" "none" 1 false false [];
   Row 13 1 "BinaryOutputCmdEventNoTime" 4 "command_event" "none" 0 false false [Fld "Status" "status"];
   Row 13 2 "BinaryOutputCmdEventAbsTime" 4 "command_event" "none" 0 false false [Fld "Status" "status"; Fld "Time" "time48"];
   Row 20 1 "Counter32WithFlag" 1 "static" "counter" 0 false false [Fld "Flags" "flags"; Fld "Value" "u32"];
   Row 20 2 "Counter16WithFlag" 1 "static" "counter" 0 false false [Fld "Flags" "flags"; Fld "Value" "u16"];
   Row 20 5 "Counter32NoFlag" 1 "static" "counter" 0 false false [Fld "Value" "u32"];
   Row 20 6 "Counter16NoFlag" 1 "static" "counter" 0 false false [Fld "Value" "u16"];
   Row 21 1 "FrozenCounter32WithFlag" 2 "static" "frozencounter" 0 false false [Fld "Flags" "flags"; Fld "Value" "u32"];
   Row 21 2 "FrozenCounter16WithFlag" 2 "static" "frozencounter" 0 false false [Fld "Flags" "flags"; Fld "Value" "u16"];
   Row 21 5 "FrozenCounter32WithFlagTime" 2 "static" "frozencounter" 0 false false [Fld "Flags" "flags"; Fld "Value" "u32"; Fld "Time" "time48"];
   Row 21 6 "FrozenCounter16WithFlagTime" 2 "static" "frozencounter" 0 false false [Fld "Flags" "flags"; Fld "Value" "u16"; Fld "Time" "time48"];
   Row 21 9 "FrozenCounter32NoFlag" 2 "static" "frozencounter" 0 false false [Fld "Value" "u32"];
   Row 21 10 "FrozenCounter16NoFlag" 2 "static" "frozencounter" 0 false false [Fld "Value" "u16"];
   Row 22 1 "CounterEvent32WithFlag" 2 "event" "counter" 0 false false [Fld "Flags" "flags"; Fld "Value" "u32"];
   Row 22 2 "CounterEvent16WithFlag" 2 "event" "counter" 0 false false [Fld "Flags" "flags"; Fld "Value" "u16"];
   Row 22 5 "CounterEvent32WithFlagTime" 2 "event" "counter" 0 false false [Fld "Flags" "flags"; Fld "Value" "u32"; Fld "Time" "time48"];
   Row 22 6 "CounterEvent16WithFlagTime" 2 "event" "counter" 0 false false [Fld "Flags" "flags"; Fld "Value" "u16"; Fld "Time" "time48"];
   Row 23 1 "FrozenCounterEvent32WithFlag" 2 "event" "frozencounter" 0 false false [Fld "Flags" "flags"; Fld "Value" "u32"];
   Row 23 2 "FrozenCounterEvent16WithFlag" 2 "event" "frozencounter" 0 false false [Fld "Flags" "flags"; Fld "Value" "u16"];
   Row 23 5 "FrozenCounterEvent32WithFlagTime" 2 "event" "frozencounter" 0 false false [Fld "Flags" "flags"; Fld "Value" "u32"; Fld "Time" "time48"];
   Row 23 6 "FrozenCounterEvent16WithFlagTime" 2 "event" "frozencounter" 0 false false [Fld "Flags" "flags"; Fld "Value" "u16"; Fld "Time" "time48"];
   Row 30 1 "AnalogInput32WithFlag" 1 "static" "analog" 0 false false [Fld "Flags" "flags"; Fld "Value" "i32"];
   Row 30 2 "AnalogInput16WithFlag" 1 "static" "analog" 0 false false [Fld "Flags" "flags"; Fld "Value" "i16"];
   Row 30 3 "AnalogInput32NoFlag" 1 "static" "analog" 0 false false [Fld "Value" "i32"];
   Row 30 4 "AnalogInput16NoFlag" 1 "static" "analog" 0 false false [Fld "Value" "i16"];
   Row 30 5 "AnalogInputFloatWithFlag" 2 "static" "analog" 0 false false [Fld "Flags" "flags"; Fld "Value" "f32"];
   Row 30 6 "AnalogInputDoubleWithFlag" 4 "static" "analog" 0 false false [Fld "Flags" "flags"; Fld "Value" "f64"];
   Row 31 1 "FrozenAnalog32WithFlag" 4 "static" "analog" 0 false false [Fld "Flags" "flags"; Fld "Value" "i32"];
   Row 31 2 "FrozenAnalog16WithFlag" 4 "static" "analog" 0 false false [Fld "Flags" "flags"; Fld "Value" "i16"];
   Row 31 3 "FrozenAnalog32WithFlagTime" 4 "static" "analog" 0 false false [Fld "Flags" "flags"; Fld "Value" "i32"; Fld "Time" "time48"];
   Row 31 4 "FrozenAnalog16WithFlagTime" 4 "static" "analog" 0 false false [Fld "Flags" "flags"; Fld "Value" "i16"; Fld "Time" "time48"];
   Row 31 5 "FrozenAnalog32NoFlag" 4 "static" "analog" 0 false false [Fld "Value" "i32"];
   Row 31 6 "FrozenAnalog16NoFlag" 4 "static" "analog" 0 false false [Fld "Value" "i16"];
   Row 31 7 "FrozenAnalogFloatWithFlag" 4 "static" "analog" 0 false false [Fld "Flags" "flags"; Fld "Value" "f32"];
   Row 31 8 "FrozenAnalogDoubleWithFlag" 4 "static" "analog" 0 false false [Fld "Flags" "flags"; Fld "Value" "f64"];
   Row 32 1 "AnalogEvent32WithFlag" 2 "event" "analog" 0 false false [Fld "Flags" "flags"; Fld "Value" "i32"];
   Row 32 2 "AnalogEvent16WithFlag" 2 "event" "analog" 0 false false [Fld "Flags" "flags"; Fld "Value" "i16"];
   Row 32 3 "AnalogEvent32WithFlagTime" 2 "event" "analog" 0 false false [Fld "Flags" "flags"; Fld "Value" "i32"; Fld "Time" "time48"];
   Row 32 4 "AnalogEvent16WithFlagTime" 2 "event" "analog" 0 false false [Fld "Flags" "flags"; Fld "Value" "i16"; Fld "Time" "time48"];
   Row 32 5 "AnalogEventFloatWithFlag" 2 "event" "analog" 0 false false [Fld "Flags" "flags"; Fld "Value" "f32"];
   Row 32 6 "AnalogEventDoubleWithFlag" 4 "event" "analog" 0 false false [Fld "Flags" "flags"; Fld "Value" "f64"];
   Row 32 7 "AnalogEventFloatWithFlagTime" 2 "event" "analog" 0 false false [Fld "Flags" "flags"; Fld "Value" "f32"; Fld "Time" "time48"];
   Row 32 8 "AnalogEventDoubleWithFlagTime" 4 "event" "analog" 0 false false [Fld "Flags" "flags"; Fld "Value" "f64"; Fld "Time" "time48"];
   Row 33 1 "FrozenAnalogEvent32WithFlag" 4 "event" "analog" 0 false false [Fld "Flags" "flags"; Fld "Value" "i32"];
   Row 33 2 "FrozenAnalogEvent16WithFlag" 4 "event" "analog" 0 false false [Fld "Flags" "flags"; Fld "Value" "i16"];
   Row 33 3 "FrozenAnalogEvent32WithFlagTime" 4 "event" "analog" 0 false false [Fld "Flags" "flags"; Fld "Value" "i32"; Fld "Time" "time48"];
   Row 33 4 "FrozenAnalogEvent16WithFlagTime" 4 "event" "analog" 0 false false [Fld "Flags" "flags"; Fld "Value" "i16"; Fld "Time" "time48"];
   Row 33 5 "FrozenAnalogEventFloatWithFlag" 4 "event" "analog" 0 false false [Fld "Flags" "flags"; Fld "Value" "f32"];
   Row 33 6 "FrozenAnalogEventDoubleWithFlag" 4 "event" "analog" 0 false false [Fld "Flags" "flags"; Fld "Value" "f64"];
   Row 33 7 "FrozenAnalogEventFloatWithFlagTime" 4 "event" "analog" 0 false false [Fld "Flags" "flags"; Fld "Value" "f32"; Fld "Time" "time48"];
   Row 33 8 "FrozenAnalogEventDoubleWithFlagTime" 4 "event" "analog" 0 false false [Fld "Flags" "flags"; Fld "Value" "f64"; Fld "Time" "time48"];
   Row 34 1 "AnalogDeadband16" 4 "deadband" "none" 0 false false [Fld "Value" "u16"];
   Row 34 2 "AnalogDeadband32" 4 "deadband" "none" 0 false false [Fld "Value" "u32"];
   Row 34 3 "AnalogDeadbandFloat" 4 "deadband" "none" 0 false false [Fld "Value" "f32"];
   Row 40 1 "AnalogOutputStatus32" 2 "static" "analogoutput" 0 false false [Fld "Flags" "flags"; Fld "Value" "i32"];
   Row 40 2 "AnalogOutputStatus16" 2 "static" "analogoutput" 0 false false [Fld "Flags" "flags"; Fld "Value" "i16"];
   Row 40 3 "AnalogOutputStatusFloat" 2 "static" "analogoutput" 0 false false [Fld "Flags" "flags"; Fld "Value" "f32"];
   Row 40 4 "AnalogOutputStatusDouble" 4 "static" "analogoutput" 0 false false [Fld "Flags" "flags"; Fld "Value" "f64"];
   Row 41 1 "AnalogOutput32" 2 "command" "none" 0 false false [Fld "Value" "i32"; Fld "Status" "status"];
   Row 41 2 "AnalogOutput16" 2 "command" "none" 0 false false [Fld "Value" "i16"; Fld "Status" "status"];
   Row 41 3 "AnalogOutputFloat" 2 "command" "none" 0 false false [Fld "Value" "f32"; Fld "Status" "status"];
   Row 41 4 "AnalogOutputDouble" 4 "command" "none" 0 false false [Fld "Value" "f64"; Fld "Status" "status"];
   Row 42 1 "AnalogOutputEvent32" 3 "event" "analogoutput" 0 false false [Fld "Flags" "flags"; Fld "Value" "i32"];
   Row 42 2 "AnalogOutputEvent16" 3 "event" "analogoutput" 0 false false [Fld "Flags" "flags"; Fld "Value" "i16"];
   Row 42 3 "AnalogOutputEvent32Time" 3 "event" "analogoutput" 0 false false [Fld "Flags" "flags"; Fld "Value" "i32"; Fld "Time" "time48"];
   Row 42 4 "AnalogOutputEvent16Time" 3 "event" "analogoutput" 0 false false [Fld "Flags" "flags"; Fld "Value" "i16"; Fld "Time" "time48"];
   Row 42 5 "AnalogOutputEventFloat" 3 "event" "analogoutput" 0 false false [Fld "Flags" "flags"; Fld "Value" "f32"];
   Row 42 6 "AnalogOutputEventDouble" 4 "event" "analogoutput" 0 false false [Fld "Flags" "flags"; Fld "Value" "f64"];
   Row 42 7 "AnalogOutputEventFloatTime" 3 "event" "analogoutput" 0 false false [Fld "Flags" "flags"; Fld "Value" "f32"; Fld "Time" "time48"];
   Row 42 8 "AnalogOutputEventDoubleTime" 4 "event" "analogoutput" 0 false false [Fld "Flags" "flags"; Fld "Value" "f64"; Fld "Time" "time48"];
   Row 43 1 "AnalogOutputCmdEvent32" 4 "command_event" "none" 0 false false [Fld "Status" "status"; Fld "Value" "i32"];
   Row 43 2 "AnalogOutputCmdEvent16" 4 "command_event" "none" 0 false false [Fld "Status" "status"; Fld "Value" "i16"];
   Row 43 3 "AnalogOutputCmdEvent32Time" 4 "command_event" "none" 0 false false [Fld "Status" "status"; Fld "Value" "i32"; Fld "Time" "time48"];
   Row 43 4 "AnalogOutputCmdEvent16Time" 4 "command_event" "none" 0 false false [Fld "Status" "status"; Fld "Value" "i16"; Fld "Time" "time48"];
   Row 43 5 "AnalogOutputCmdEventFloat" 4 "command_event" "none" 0 false false [Fld "Status" "status"; Fld "Value" "f32"];
   Row 43 6 "AnalogOutputCmdEventDouble" 4 "command_event" "none" 0 false false [Fld "Status" "status"; Fld "Value" "f64"];
   Row 43 7 "AnalogOutputCmdEventFloatTime" 4 "command_event" "none" 0 false false [Fld "Status" "status"; Fld "Value" "f32"; Fld "Time" "time48"];
   Row 43 8 "AnalogOutputCmdEventDoubleTime" 4 "command_event" "none" 0 false false [Fld "Status" "status"; Fld "Value" "f64"; Fld "Time" "time48"];
   Row 50 1 "TimeAndDate" 1 "time" "none" 0 false false [Fld "Time" "time48"];
   Row 50 2 "TimeAndDateInterval" 4 "time" "none" 0 false false [Fld "Time" "time48"; Fld "Interval" "u32"];
   Row 50 3 "TimeAndDateLastRecorded" 3 "time" "none" 0 false false [Fld "Time" "time48"];
   Row 50 4 "TimeAndDateIndexed" 4 "time" "none" 0 false false [Fld "Time" "time48"; Fld "Interval" "u32"; Fld "Units" "u8"];
   Row 51 1 "TimeAndDateCTO" 2 "time" "none" 0 false false [Fld "Time" "time48"];
   Row 51 2 "UnsyncTimeAndDateCTO" 2 "time" "none" 0 false false [Fld "Time" "time48"];
   Row 52 1 "TimeDelayCoarse" 1 "time" "none" 0 false false [Fld "Value" "u16"];
   Row 52 2 "TimeDelayFine" 1 "time" "none" 0 false false [Fld "Value" "u16"];
   Row 60 1 "Class0Data" 1 "class" "none" 0 false false [];
   Row 60 2 "Class1Data" 1 "class" "none" 0 false false [];
   Row 60 3 "Class2Data" 1 "class" "none" 0 false false [];
   Row 60 4 "Class3Data" 1 "class" "none" 0 false false [];
   Row 80 1 "InternalIndications" 1 "indication" "none" 1 false false [];
   Row 110 0 "OctetString" 2 "string" "none" 0 false true [];
   Row 111 0 "OctetStringEvent" 2 "string" "none" 0 false true [];
   Row 112 0 "VirtualTerminalOutput" 4 "string" "none" 0 false true [];
   Row 113 0 "VirtualTerminalEvent" 4 "string" "none" 0 false true [];
   Row 0 0 "DeviceAttribute" 4 "attribute" "none" 0 true false [];
   Row 70 0 "FileTransfer" 0 "file" "none" 0 true false [];
   Row 120 1 "AuthenticationChallenge" 4 "time" "none" 0 true false [];
   Row 120 2 "AuthenticationReply" 4 "time" "none" 0 true false [];
   Row 120 3 "AuthenticationAggressiveRequest" 4 "time" "none" 0 false false [Fld "Sequence" "u32"; Fld "User" "u16"];
   Row 120 4 "AuthenticationKeyStatusRequest" 4 "time" "none" 0 false false [Fld "User" "u16"];
   Row 120 5 "AuthenticationKeyStatus" 4 "time" "none" 0 true false [];
   Row 120 6 "AuthenticationKeyChange" 4 "time" "none" 0 true false [];
   Row 120 7 "AuthenticationError" 4 "time" "none" 0 true false [];
   Row 120 9 "AuthenticationMAC" 4 "time" "none" 0 true false [];
   Row 121 1 "SecurityStatistic" 4 "static" "none" 0 false false [Fld "Flags" "flags"; Fld "Association" "u16"; Fld "Value" "u32"];
   Row 122 1 "SecurityStatisticEvent" 4 "event" "none" 0 false false [Fld "Flags" "flags"; Fld "Association" "u16"; Fld "Value" "u32"];
   Row 122 2 "SecurityStatisticEventTime" 4 "event" "none" 0 false false [Fld "Flags" "flags"; Fld "Association" "u16"; Fld "Value" "u32"; Fld "Time" "time48"];
   Row 85 1 "DatasetPrototype" 4 "attribute" "none" 0 true false [];
   Row 86 1 "DatasetDescriptor" 4 "attribute" "none" 0 true false [];
   Row 86 2 "DatasetCharacteristics" 4 "attribute" "none" 0 false false [Fld "Characteristics" "u8"];
   Row 86 3 "DatasetPointAttributes" 4 "attribute" "none" 0 true false [];
   Row 87 1 "DatasetPresentValue" 4 "static" "none" 0 true false [];
   Row 88 1 "DatasetSnapshot" 4 "event" "none" 0 true false [];
   Row 90 1 "ApplicationIdentifier" 4 "attribute" "none" 0 true false [];
   Row 91 1 "ActivationResult" 4 "attribute" "none" 0 true false []].

(** The program's table passes the checks. *)
Definition spec : list Object := match loadSpec spec_file with Ok s => s | Err _ => [] end.
Lemma spec_loads : loadSpec spec_file = Ok spec.
Proof. vm_compute. reflexivity. Qed.

(** ** The checks leave a table in order *)

Definition key_lt (a b : Object) : Prop := ob_Group a < ob_Group b \/ ob_Group a = ob_Group b /\ ob_Variation a < ob_Variation b.
Definition octet_keys (o : Object) : Prop := 0 <= ob_Group o < 256 /\ 0 <= ob_Variation o < 256.

Lemma gv_value g v : 0 <= v < 256 -> gv g v = v + g * 256.
Proof. intros Hv. unfold gv. rewrite Z.lor_comm. apply (lor_shiftl v g 8); lia. Qed.
Lemma check_object_new i seen o : check_object i seen o = None -> seen !! gv (ob_Group o) (ob_Variation o) = None.
Proof. unfold check_object. intros H. by repeat case_match. Qed.
Lemma check_objects_distinct l : forall i seen, Forall octet_keys l -> check_objects i seen l = None ->
  NoDup ((fun o => (ob_Group o, ob_Variation o)) <$> l) /\ Forall (fun o => seen !! gv (ob_Group o) (ob_Variation o) = None) l.
Proof.
  induction l as [|o l IH]; intros i seen Hk H; [split; constructor|]. apply Forall_cons in Hk as [Ho Hk]. cbn [check_objects] in H.
  destruct (check_object i seen o) eqn:E; [done|]. destruct (IH _ _ Hk H) as [Hd Hf]. split.
  - cbn. constructor; [|done]. intros Hin. apply list_elem_of_fmap in Hin as (p & Ep & Hp). injection Ep as Eg Ev.
    rewrite Forall_forall in Hf. specialize (Hf p Hp). rewrite <- Eg, <- Ev, lookup_insert_eq in Hf. done.
  - constructor; [by apply (check_object_new i)|]. eapply Forall_impl; [exact Hf|]. cbn. intros p Hp.
    by apply lookup_insert_None in Hp as [Hp _].
Qed.

Lemma object_le_spec a b : object_le a b = true <-> key_lt a b \/ ob_Group a = ob_Group b /\ ob_Variation a = ob_Variation b.
Proof. unfold object_le, key_lt. destruct (Z.eqb_spec (ob_Group a) (ob_Group b)); cbn [negb]; lia. Qed.
#[export] Instance object_le_total : Total (fun a b => Is_true (object_le a b)).
Proof. intros a b. rewrite !Is_true_true, !object_le_spec. unfold key_lt. lia. Qed.
#[export] Instance object_le_trans : Transitive (fun a b => Is_true (object_le a b)).
Proof. intros a b c. rewrite !Is_true_true, !object_le_spec. unfold key_lt. lia. Qed.

(** A table that is accepted has all the objects of the file, with strictly ascending groups and
    variations: none is there twice, and what is emitted for it does not depend on the order of
    the file. *)
Theorem loadSpec_sorted file s : Forall octet_keys file -> loadSpec file = Ok s ->
  s ≡ₚ file /\ StronglySorted key_lt s /\ forall file', file' ≡ₚ file -> forall s', loadSpec file' = Ok s' -> s' = s.
Proof.
  intros Hk H. assert (S : forall f t, f ≡ₚ file -> loadSpec f = Ok t -> t ≡ₚ file /\ StronglySorted key_lt t).
  { clear H. intros f t Hp H. unfold loadSpec in H. destruct (check_objects 0 ∅ f) eqn:E; [done|]. injection H as <-.
    assert (Hkf : Forall octet_keys f) by (by rewrite Hp). destruct (check_objects_distinct _ _ _ Hkf E) as [Hd _].
    split; [by rewrite merge_sort_Permutation|].
    assert (Hs : StronglySorted (fun a b => Is_true (object_le a b)) (merge_sort (fun a b => Is_true (object_le a b)) f))
      by (apply StronglySorted_merge_sort; apply _).
    rewrite <- (merge_sort_Permutation (fun a b => Is_true (object_le a b)) f) in Hd. revert Hs Hd.
    generalize (merge_sort (fun a b => Is_true (object_le a b)) f). intros l. induction l as [|o l IH]; intros Hs Hd; [constructor|].
    apply StronglySorted_inv in Hs as [Hs Ho]. cbn in Hd. apply NoDup_cons in Hd as [Hn Hd]. constructor; [by apply IH|].
    rewrite Forall_forall in Ho |- *. intros p Hp'. specialize (Ho p Hp'). rewrite Is_true_true, object_le_spec in Ho.
    destruct Ho as [|[Eg Ev]]; [done|]. destruct Hn. apply list_elem_of_fmap. exists p. by rewrite Eg, Ev. }
  destruct (S file s ltac:(done) H) as [Hp Hs]. split; [done|]. split; [done|]. intros file' Hf s' H'. destruct (S file' s' Hf H') as [Hp' Hs'].
  apply (StronglySorted_unique_strong key_lt); [|done|done|by rewrite Hp, Hp'].
  intros a b _ _ Hab Hba. unfold key_lt in *. lia.
Qed.

(** ** What is printed is the text of the code *)

Ltac same_text := cbn; rewrite ?string_app_assoc; try done.
Lemma readExpr_shown typ off toFloat : readExpr typ off toFloat = show (read_code typ off toFloat).
Proof.
  unfold readExpr, read_code, conv_if, wrap.
  repeat match goal with |- context [String.eqb typ ?x] => destruct (String.eqb typ x); [destruct toFloat; same_text|] end. done.
Qed.
Lemma writeExpr_shown typ fromFloat : line (writeExpr typ fromFloat) = show_stmt (write_code typ fromFloat).
Proof.
  unfold writeExpr, write_code.
  repeat match goal with |- context [String.eqb typ ?x] => destruct (String.eqb typ x); [by destruct fromFloat|] end. done.
Qed.
Lemma readTime48_shown off : readTime48_expr off = show (time48_code off).
Proof. same_text. Qed.

(** The text of a reader is that of the code that [reader] runs, statement by statement, and the
    same for a writer. *)
Theorem pstmt_shown s : pstmt_text s = show_stmt (pstmt_code s).
Proof.
  destruct s as [off|off|off| |t off f|off|off]; cbn [pstmt_text pstmt_code show_stmt]; rewrite ?readExpr_shown, ?readTime48_shown; try done.
  all: same_text.
Qed.
Theorem wstmt_shown s : wstmt_text s = texts show_stmt (wstmt_code s).
Proof.
  destruct s as [helper hasFlags| | | | | | |t f]; cbn [wstmt_text wstmt_code texts fold_right]; rewrite ?writeExpr_shown, ?string_app_nil_r; same_text.
Qed.
Lemma texts_app {A} (f : A -> string) l k : texts f (l ++ k) = texts f l +:+ texts f k.
Proof. induction l as [|x l IH]; [done|]. cbn [texts fold_right app]. rewrite string_app_assoc. by f_equal. Qed.
Corollary parse_text_code o goType :
  parse_text o goType =
  "// parse" +:+ GoName o +:+ " decodes " +:+ what o +:+ "." +:+ newline +:+
  "func parse" +:+ GoName o +:+ "(buf []byte, ctx Context) " +:+ goType +:+ " {" +:+ newline +:+
  line ("var v " +:+ goType) +:+
  line ("_ = buf[" +:+ dec (Z.quot (fst (SizeBits o)) 8 - 1) +:+ "] // bounds check once, then index freely") +:+
  texts show_stmt (pstmt_code <$> emitParse o) +:+ line "return v" +:+ "}" +:+ newline +:+ newline.
Proof.
  unfold parse_text. replace (texts show_stmt (pstmt_code <$> emitParse o)) with (texts pstmt_text (emitParse o)); [done|].
  induction (emitParse o) as [|s ss IH]; [done|]. cbn [texts fold_right fmap list_fmap]. rewrite pstmt_shown. by f_equal.
Qed.

Corollary write_text_code o goType :
  write_text o goType =
  "// write" +:+ GoName o +:+ " encodes " +:+ what o +:+ "." +:+ newline +:+
  "func write" +:+ GoName o +:+ "(dst []byte, v " +:+ goType +:+ ", ctx Context) []byte {" +:+ newline +:+
  line "_ = ctx" +:+ texts show_stmt (concat (wstmt_code <$> emitWrite o)) +:+ line "return dst" +:+ "}" +:+ newline +:+ newline.
Proof.
  unfold write_text. replace (texts show_stmt (concat (wstmt_code <$> emitWrite o))) with (texts wstmt_text (emitWrite o)); [done|].
  induction (emitWrite o) as [|s ss IH]; [done|]. cbn [fmap list_fmap concat]. rewrite texts_app, <- IH. cbn [texts fold_right]. by rewrite wstmt_shown.
Qed.

(** ** What is emitted keeps to the size of the object *)

Lemma fieldBits_octets t : exists k, 0 <= k /\ fieldBits t = 8 * k.
Proof.
  unfold fieldBits, fieldBitsTable, assoc.
  repeat match goal with |- context [String.eqb t ?x] => destruct (String.eqb t x); [first [by exists 1 | by exists 2 | by exists 4 | by exists 8 | by exists 6]|] end.
  by exists 0.
Qed.
(** The octets of a list of fields. *)
Definition octets_of_fields (fs : list Field) : Z := fold_right (fun f n => fieldBits (fd_Type f) / 8 + n) 0 fs.
Lemma fold_bits fs : forall n, fold_left (fun total f => total + fieldBits (fd_Type f)) fs n = n + 8 * octets_of_fields fs.
Proof.
  induction fs as [|f fs IH]; intros n; cbn [fold_left octets_of_fields fold_right]; [lia|]. rewrite IH. fold (octets_of_fields fs).
  destruct (fieldBits_octets (fd_Type f)) as (k & _ & ->). rewrite Z.mul_comm, Z.div_mul by lia. lia.
Qed.
Lemma octets_nonneg fs : 0 <= octets_of_fields fs.
Proof.
  induction fs as [|f fs IH]; [done|]. cbn [octets_of_fields fold_right]. fold (octets_of_fields fs). destruct (fieldBits_octets (fd_Type f)) as (k & ? & ->).
  rewrite Z.mul_comm, Z.div_mul by lia. lia.
Qed.
Lemma measurement_size o : IsMeasurement o = true -> SizeBits o = (8 * octets_of_fields (ob_Fields o), true).
Proof.
  unfold IsMeasurement, SizeBits. rewrite !andb_true_iff, !negb_true_iff, Z.eqb_eq. intros [[[_ Hp] Hv] Hl]. rewrite Hv, Hl, Hp. cbn [orb].
  change (0 <? 0) with false. cbn match. by rewrite fold_bits.
Qed.

(** A field the writer writes: flags, a time, or a number named Value. *)
Definition written (f : Field) : bool :=
  existsb (String.eqb (fd_Type f)) ["flags"; "time48"; "time16"] || numeric (fd_Type f) && String.eqb (fd_Name f) "Value".

Section Sizes.
Context {T : Type} (c : carrier T).

(** What a list of statements appends, whatever the variables hold. *)
Lemma run_write_app v ctx ss1 : forall ss2 n over local dst, exists n' over' local',
  run_write c (ss1 ++ ss2) n over local dst v ctx = run_write c ss2 n' over' local' (run_write c ss1 n over local dst v ctx) v ctx.
Proof.
  induction ss1 as [|s ss1 IH]; intros ss2 n over local dst; [by exists n, over, local|].
  destruct s; cbn [app run_write]; try apply IH. destruct (clamp_helper _ _) as [n1 over1]. apply IH.
Qed.
Lemma len_write_code t f v ctx n over local dst : numeric t = true ->
  len (run_write c [write_code t f] n over local dst v ctx) = len dst + fieldBits t / 8.
Proof.
  unfold numeric, existsb. intros H. rewrite orb_false_r, !orb_true_iff, !String.eqb_eq in H.
  repeat (destruct H as [->|H]; [by apply len_app|]). subst. by apply len_app.
Qed.
Lemma len_emit_field o clamp f v ctx n over local dst : written f = true ->
  len (run_write c (concat (wstmt_code <$> emit_field o clamp f)) n over local dst v ctx) = len dst + fieldBits (fd_Type f) / 8.
Proof.
  unfold written, emit_field. intros Hw. destruct (String.eqb_spec (fd_Type f) "flags") as [->|H1].
  { clear Hw. change (fieldBits "flags" / 8) with 1. destruct (String.eqb (ob_Measure o) "binary" || String.eqb (ob_Measure o) "binaryoutput");
      [|destruct (String.eqb (ob_Measure o) "doublebit"); [|destruct (negb (String.eqb clamp ""))]];
      cbn [fmap list_fmap concat wstmt_code app run_write]; cbv zeta; by rewrite len_app. }
  destruct (String.eqb_spec (fd_Type f) "time48") as [->|H2];
    [cbn [fmap list_fmap concat wstmt_code app run_write]; by rewrite appendTime48_dst, len_app|].
  destruct (String.eqb_spec (fd_Type f) "time16") as [->|H3];
    [cbn [fmap list_fmap concat wstmt_code app run_write]; rewrite len_app, len_le_bytes; done|].
  cbn [existsb] in Hw. rewrite (proj2 (String.eqb_neq _ _) H1), (proj2 (String.eqb_neq _ _) H2), (proj2 (String.eqb_neq _ _) H3) in Hw.
  cbn [orb] in Hw. apply andb_true_iff in Hw as [Hn ->]. cbn [fmap list_fmap concat wstmt_code app]. by apply len_write_code.
Qed.
Lemma len_emit_fields o clamp v ctx fs : forall n over local dst, forallb written fs = true ->
  len (run_write c (concat (wstmt_code <$> concat (emit_field o clamp <$> fs))) n over local dst v ctx) = len dst + octets_of_fields fs.
Proof.
  induction fs as [|f fs IH]; intros n over local dst Hw; [cbn [octets_of_fields fold_right fmap list_fmap concat run_write]; lia|].
  cbn [forallb] in Hw. apply andb_true_iff in Hw as [Hf Hw]. cbn [fmap list_fmap concat]. rewrite fmap_app, concat_app.
  destruct (run_write_app v ctx (concat (wstmt_code <$> emit_field o clamp f)) (concat (wstmt_code <$> concat (emit_field o clamp <$> fs))) n over local dst)
    as (n' & over' & local' & E).
  rewrite E, IH, len_emit_field by done. cbn [octets_of_fields fold_right]. fold (octets_of_fields fs). lia.
Qed.

(** The writer emitted for a measurement all of whose fields it writes appends as many octets as
    the table gives the object, whatever the value. *)
Theorem emitted_size o dst v ctx : IsMeasurement o = true -> forallb written (ob_Fields o) = true ->
  8 * len (writer c o dst v ctx) = 8 * len dst + fst (SizeBits o).
Proof.
  intros Hm Hw. rewrite (measurement_size o Hm). unfold writer, emitWrite. rewrite fmap_app, concat_app.
  destruct (String.eqb (clampOf o) "") eqn:E; cbn [fmap list_fmap concat wstmt_code app run_write].
  - rewrite len_emit_fields by done. cbn [fst]. lia.
  - destruct (clamp_helper _ _) as [n over]. rewrite len_emit_fields by done. cbn [fst]. lia.
Qed.

(** Where a statement looks. *)
Definition within (n : Z) (s : pstmt) : Prop :=
  match s with
  | PFlags off | PBit off | PDouble off => 0 <= off /\ off + 1 <= n
  | POnline => True
  | PValue t off _ => 0 <= off /\ off + fieldBits t / 8 <= n
  | PAbsTime off => 0 <= off /\ off + 6 <= n
  | PRelTime off => 0 <= off /\ off + 2 <= n
  end.
Lemma bits_octets t : 8 * (fieldBits t / 8) = fieldBits t /\ 0 <= fieldBits t / 8.
Proof. destruct (fieldBits_octets t) as (k & Hk & ->). rewrite (Z.mul_comm 8 k), Z.div_mul by lia. lia. Qed.
Lemma offset_within f fs : forall k, 0 <= k -> f ∈ fs ->
  k <= offset_of (fd_Name f) (8 * k) fs /\ offset_of (fd_Name f) (8 * k) fs + fieldBits (fd_Type f) / 8 <= k + octets_of_fields fs.
Proof.
  induction fs as [|g fs IH]; intros k Hk Hf; [by apply elem_of_nil in Hf|]. cbn [offset_of octets_of_fields fold_right]. fold (octets_of_fields fs).
  pose proof (octets_nonneg fs). destruct (bits_octets (fd_Type g)) as [Eg Hg]. destruct (bits_octets (fd_Type f)) as [Ef Hf'].
  assert (Hsum : f ∈ fs -> fieldBits (fd_Type f) / 8 <= octets_of_fields fs).
  { intros Hin. destruct (IH 0 ltac:(lia) Hin) as [H0 H1]. lia. }
  destruct (String.eqb_spec (fd_Name g) (fd_Name f)) as [En|En].
  - rewrite Z.mul_comm, Z.div_mul by lia. split; [lia|]. apply elem_of_cons in Hf as [->|Hf]; [lia|]. specialize (Hsum Hf). lia.
  - apply elem_of_cons in Hf as [->|Hf]; [done|]. replace (8 * k + fieldBits (fd_Type g)) with (8 * (k + fieldBits (fd_Type g) / 8)) by lia.
    destruct (IH (k + fieldBits (fd_Type g) / 8) ltac:(lia) Hf). lia.
Qed.
Lemma value_within fs : forall k f off, 0 <= k -> value_field (8 * k) fs = Some (f, off) ->
  k <= off /\ off + fieldBits (fd_Type f) / 8 <= k + octets_of_fields fs.
Proof.
  induction fs as [|g fs IH]; intros k f off Hk H; [done|]. cbn [value_field octets_of_fields fold_right] in *. fold (octets_of_fields fs).
  pose proof (octets_nonneg fs). destruct (bits_octets (fd_Type g)) as [Eg Hg]. destruct (_ && _).
  - injection H as <- <-. rewrite Z.mul_comm, Z.div_mul by lia. lia.
  - replace (8 * k + fieldBits (fd_Type g)) with (8 * (k + fieldBits (fd_Type g) / 8)) in H by lia.
    destruct (IH (k + fieldBits (fd_Type g) / 8) f off ltac:(lia) H). lia.
Qed.
Lemma find_within o t f : findType o t = Some f ->
  0 <= offsetOf o (fd_Name f) /\ offsetOf o (fd_Name f) + fieldBits t / 8 <= octets_of_fields (ob_Fields o).
Proof.
  intros H. apply find_some in H as [Hin Ht]. apply String.eqb_eq in Ht. apply list_elem_of_In in Hin.
  destruct (offset_within f (ob_Fields o) 0 ltac:(lia) Hin) as [H0 H1]. unfold offsetOf. change (8 * 0) with 0 in *. rewrite <- Ht. lia.
Qed.
Lemma emitParse_within o : Forall (within (octets_of_fields (ob_Fields o))) (emitParse o).
Proof.
  unfold emitParse. apply Forall_app. split; [|apply Forall_app; split].
  - destruct (flagsField o) as [f|] eqn:E; [|by repeat constructor]. pose proof (find_within o "flags" f E) as H. change (fieldBits "flags" / 8) with 1 in H.
    constructor; [done|].
    destruct (String.eqb (ob_Measure o) "binary" || String.eqb (ob_Measure o) "binaryoutput"); [by apply Forall_singleton|].
    destruct (String.eqb (ob_Measure o) "doublebit"); [by apply Forall_singleton | constructor].
  - destruct (valueField o) as [[f off]|] eqn:E; [|constructor]. constructor; [|constructor].
    destruct (value_within (ob_Fields o) 0 f off ltac:(lia) E). cbn [within]. lia.
  - destruct (absTimeField o) as [f|] eqn:E; [|destruct (relTimeField o) as [f|] eqn:E'; [|constructor]]; (constructor; [|constructor]).
    + apply (find_within o "time48" f E).
    + apply (find_within o "time16" f E').
Qed.
Lemma run_parse_app n buf rest ctx v s : within n s -> n <= len buf ->
  run_parse c (buf ++ rest) ctx v (pstmt_code s) = run_parse c buf ctx v (pstmt_code s).
Proof.
  intros Hw Hn. destruct s as [off|off|off| |t off f|off|off]; cbn [within] in Hw; cbn [run_parse pstmt_code].
  1-3: cbn [eval read_scope sc_buf]; by rewrite at_app_l by lia.
  - done.
  - f_equal. f_equal. unfold read_code, conv_if. destruct Hw as [H0 H1].
    assert (W : forall x k, t = x -> fieldBits x / 8 = k -> slice off (off + k) (buf ++ rest) = slice off (off + k) buf).
    { intros x k -> <-. apply slice_app_l; lia. }
    repeat match goal with |- context [String.eqb t ?x] => destruct (String.eqb_spec t x) as [E|_];
      [destruct f; cbn [eval read_scope sc_buf]; by rewrite (W x _ E) by reflexivity|] end. done.
  - destruct Hw. unfold time48_code. cbn [eval read_scope sc_buf]. by rewrite !at_app_l by lia.
  - destruct Hw. cbn [eval read_scope sc_buf]. by rewrite slice_app_l by lia.
Qed.

(** The reader emitted for a measurement looks at the octets of the object and no others. *)
Theorem emitted_reads o buf rest ctx : IsMeasurement o = true -> 8 * len buf = fst (SizeBits o) ->
  reader c o (buf ++ rest) ctx = reader c o buf ctx.
Proof.
  intros Hm Hl. rewrite (measurement_size o Hm) in Hl. cbn [fst] in Hl. unfold reader. pose proof (emitParse_within o) as Hw. revert Hw.
  generalize (mkMeasurement (nothing c) 0 NoTime). induction (emitParse o) as [|s ss IH]; intros v Hw; [done|].
  apply Forall_cons in Hw as [Hs Hw]. cbn [fmap list_fmap fold_left].
  rewrite (run_parse_app (octets_of_fields (ob_Fields o))) by (done || lia). by apply IH.
Qed.
End Sizes.

(** ** The program is what the generator makes of the table *)

(** The registry and the size table are the ones of the program, row by row. *)
Theorem descriptors_generated : emitDescriptors spec = Objects.descriptors.
Proof. vm_compute. reflexivity. Qed.
Theorem sizes_generated :
  emitSizes spec = generatedSizes_table /\
  (forall g, lengthIsVariationGroups g = one_of g (emit_lengthIsVariation spec)) /\ (forall g, variableGroups g = one_of g (emit_variable spec)).
Proof.
  split; [vm_compute; reflexivity|]. split; intros g.
  - by replace (emit_lengthIsVariation spec) with [110; 111; 112; 113] by (vm_compute; reflexivity).
  - by replace (emit_variable spec) with [0; 70; 85; 86; 87; 88; 90; 91; 120] by (vm_compute; reflexivity).
Qed.

(** The same group and variation, and the same functions of octets and of measurements. *)
Definition same_codec {T} (a b : (Z * Z) * Codec T) : Prop :=
  a.1 = b.1 /\ (forall buf ctx, octets_ok buf -> Parse a.2 buf ctx = Parse b.2 buf ctx) /\
  (forall dst v ctx, Codecs.Write a.2 dst v ctx = Codecs.Write b.2 dst v ctx).

(** The six octets of a time, put together by the emitted expression. *)
Lemma eval_time48 {T} (c : carrier T) buf ctx v off : 0 <= off -> octets_ok buf ->
  eval (read_scope c buf ctx v) (time48_code off) = GInt Uint64 (readTime48 (drop (Z.to_nat off) buf)).
Proof.
  intros H0 Hb. unfold time48_code, readTime48. cbn [eval read_scope sc_buf conv conv_int signed width negb andb on_int int_val]. change (8 <? 64) with true.
  assert (E : forall i k, 0 <= i -> 0 <= k <= 40 ->
    uint_of 64 (Z.shiftl (at_ buf (off + i)) k) = Z.shiftl (at_ (drop (Z.to_nat off) buf) i) k).
  { intros i k Hi Hk. replace (at_ (drop (Z.to_nat off) buf) i) with (at_ buf (off + i)).
    - pose proof (octets_ok_at buf (off + i) Hb) as Ho. unfold octet_ok in Ho. unfold uint_of. rewrite Z.shiftl_mul_pow2 by lia. apply Z.mod_small.
      assert (2 ^ k <= 2 ^ 40) by (apply Z.pow_le_mono_r; lia). assert (0 < 2 ^ k) by (apply Z.pow_pos_nonneg; lia). nia.
    - unfold at_. rewrite Z2Nat.inj_add by lia. symmetry. apply nth_skipn. }
  cbv iota. rewrite !E by lia. by rewrite Z.shiftl_0_r.
Qed.

Lemma run_abs_time {T} (c : carrier T) buf ctx v off : 0 <= off -> octets_ok buf ->
  run_parse c buf ctx v (pstmt_code (PAbsTime off)) = mkMeasurement (Value v) (Flags v) (parseTime buf (Z.to_nat off) ctx).
Proof. intros H0 Hb. cbn [pstmt_code run_parse]. by rewrite (eval_time48 c buf ctx v off H0 Hb). Qed.

Lemma run_rel_time {T} (c : carrier T) buf ctx v off : octets_ok buf ->
  run_parse c buf ctx v (pstmt_code (PRelTime off)) = mkMeasurement (Value v) (Flags v) (RelativeTime ctx (le_val (slice off (off + 2) buf))).
Proof.
  intros Hb. cbn [pstmt_code run_parse eval conv conv_int read_scope sc_buf int_val]. change (word_type 2) with Uint16. do 2 f_equal.
  change (uint_of 16 (le_val (slice off (off + 2) buf)) = le_val (slice off (off + 2) buf)).
  pose proof (le_val_bound (slice off (off + 2) buf) (octets_ok_slice off (off + 2) buf Hb)) as H.
  assert (Hl : len (slice off (off + 2) buf) <= 2) by (unfold slice, len; rewrite length_take; lia).
  assert (256 ^ len (slice off (off + 2) buf) <= 256 ^ 2) by (apply Z.pow_le_mono_r; lia). apply Z.mod_small. lia.
Qed.

(** A codec with a time is compared after its last statement, the others at once. *)
Ltac same_parse :=
  intros buf ctx Hbuf; first
  [ reflexivity
  | unfold codec_row, reader; cbn [fst snd Parse];
    match goal with |- context [emitParse ?o] => let ss := eval vm_compute in (emitParse o) in change (emitParse o) with ss end;
    cbn [fmap list_fmap fold_left]; first [rewrite run_abs_time by done | rewrite run_rel_time by done]; reflexivity ].
Ltac regenerated m :=
  let l := eval vm_compute in (by_measure spec m) in
  replace (by_measure spec m) with l by (vm_compute; reflexivity); cbn [fmap list_fmap];
  repeat (constructor; [split; [reflexivity | split; [same_parse | reflexivity]]|]); constructor.

Lemma binary_generated : Forall2 same_codec (codec_row bits <$> by_measure spec "binary") binaryCodecs.
Proof. regenerated "binary". Qed.
Lemma doublebit_generated : Forall2 same_codec (codec_row doubles <$> by_measure spec "doublebit") doublebitCodecs.
Proof. regenerated "doublebit". Qed.
Lemma counter_generated : Forall2 same_codec (codec_row counts <$> by_measure spec "counter") counterCodecs.
Proof. regenerated "counter". Qed.
Lemma frozencounter_generated : Forall2 same_codec (codec_row counts <$> by_measure spec "frozencounter") frozencounterCodecs.
Proof. regenerated "frozencounter". Qed.
Lemma analog_generated : Forall2 same_codec (codec_row reals <$> by_measure spec "analog") analogCodecs.
Proof. regenerated "analog". Qed.
Lemma binaryoutput_generated : Forall2 same_codec (codec_row bits <$> by_measure spec "binaryoutput") binaryoutputCodecs.
Proof. regenerated "binaryoutput". Qed.
Lemma analogoutput_generated : Forall2 same_codec (codec_row reals <$> by_measure spec "analogoutput") analogoutputCodecs.
Proof. regenerated "analogoutput". Qed.

(** The codecs of the program are the ones the generator makes of the table of objects.
    The table passes the generator's checks; for each type of measurement the codecs are those
    of its objects in the table, in its order, and each reads every octet sequence and writes
    every measurement as the statements emitted for its object do; and no measurement of the
    table is of another type or has a field that its codec leaves out. *)
Theorem codecs_generated :
  loadSpec spec_file = Ok spec /\
  Forall2 same_codec (codec_row bits <$> by_measure spec "binary") binaryCodecs /\
  Forall2 same_codec (codec_row doubles <$> by_measure spec "doublebit") doublebitCodecs /\
  Forall2 same_codec (codec_row counts <$> by_measure spec "counter") counterCodecs /\
  Forall2 same_codec (codec_row counts <$> by_measure spec "frozencounter") frozencounterCodecs /\
  Forall2 same_codec (codec_row reals <$> by_measure spec "analog") analogCodecs /\
  Forall2 same_codec (codec_row bits <$> by_measure spec "binaryoutput") binaryoutputCodecs /\
  Forall2 same_codec (codec_row reals <$> by_measure spec "analogoutput") analogoutputCodecs /\
  forallb (fun o => negb (IsMeasurement o) || existsb (String.eqb (ob_Measure o)) measures && forallb written (ob_Fields o)) spec = true.
Proof.
  refine (conj spec_loads (conj binary_generated (conj doublebit_generated (conj counter_generated (conj frozencounter_generated
    (conj analog_generated (conj binaryoutput_generated (conj analogoutput_generated _)))))))).
  vm_compute. reflexivity.
Qed.

(** ** Runs *)

(** A measurement with a field that no codec writes is accepted: its writer is short of the size
    in the registry. *)
Example unwritten_field_accepted :
  let o := mkObject 1 2 "Odd" 1 "static" "binary" 0 false false [mkField "Flags" "flags"; mkField "Extra" "u8"] in
  loadSpec [o] = Ok [o] /\ SizeBits o = (16, true) /\ len (writer bits o [] (mkMeasurement true 1 NoTime) (mkContext true 0 false false)) = 1.
Proof. vm_compute. done. Qed.

Example emitted_text :
  parse_text (mkObject 30 2 "Analog16WithFlag" 1 "static" "analog" 0 false false [mkField "Flags" "flags"; mkField "Value" "i16"]) "dnp3.Analog" =
  "// parseG30V2 decodes g30v2, Analog16WithFlag." +:+ newline +:+ "func parseG30V2(buf []byte, ctx Context) dnp3.Analog {" +:+ newline +:+
  line "var v dnp3.Analog" +:+ line "_ = buf[2] // bounds check once, then index freely" +:+ line "v.Flags = dnp3.Flags(buf[0])" +:+
  line "v.Value = float64(int16(binary.LittleEndian.Uint16(buf[1:3])))" +:+ line "return v" +:+ "}" +:+ newline +:+ newline.
Proof. vm_compute. reflexivity. Qed.

Lemma spec_keys : Forall octet_keys spec_file.
Proof.
  assert (H : forallb (fun o => (0 <=? ob_Group o) && (ob_Group o <? 256) && (0 <=? ob_Variation o) && (ob_Variation o <? 256)) spec_file = true)
    by (vm_compute; reflexivity).
  rewrite forallb_forall in H. apply List.Forall_forall. intros o Ho. specialize (H o Ho). unfold octet_keys. lia.
Qed.
Lemma loadSpec_sorted_witness : spec ≡ₚ spec_file /\ StronglySorted key_lt spec.
Proof. destruct (loadSpec_sorted spec_file spec spec_keys spec_loads) as (H1 & H2 & _). by split. Defined.
