(* ===== verification/DutModel.v ===== *)
(** * The points and the checks of the conformance device (src/conformance/dnp3c/dut)

    The device a test harness is run against knows what it did: the changes it made to its
    points and the events these raise (model.go), and it checks what the harness saw reported
    against that (verify.go).  Here are its points, its clock, its changes and its checks; the
    device itself is in Dut.

    Indices are natural numbers.  Of the errors the list that is joined is kept, which is empty
    when the check passes; what is printed about points and events is left out.

    The theorems: stamps are whole milliseconds and strictly increase, whatever the clock of the
    host does ([stamps_increase]); a check of events that passes has accounted for every event
    and every report, one for one and in order ([verifyEvents_sound]), and a report of the
    events as they happened passes ([verifyEvents_complete]); a change is recorded as an event
    exactly when the database queues one ([change_recorded]); a check of static values passes
    exactly when what is reported is what is held ([verifyStatic_exact]). *)

From Stdlib Require Import Ascii SpecFloat Sorted.
From stdpp Require Import gmap.
From S2P Require Import Prelude Values Floats Objects EventBuffer Database Text Simulator.
#[local] Open Scope Z_scope.

(** ** Kinds of points *)

(** A kind is a string in the source, so the harness may name others. *)
Inductive kind :=
| kindBinary | kindDoubleBit | kindCounter | kindFrozenCounter | kindAnalog | kindFrozenAnalog
| kindBinaryOutput | kindAnalogOutput | kindOther (name : string).
#[export] Instance kind_eq_dec : EqDecision kind.
Proof. solve_decision. Defined.

Definition kind_code (k : kind) : nat + string :=
  match k with
  | kindBinary => inl 0%nat | kindDoubleBit => inl 1%nat | kindCounter => inl 2%nat
  | kindFrozenCounter => inl 3%nat | kindAnalog => inl 4%nat | kindFrozenAnalog => inl 5%nat
  | kindBinaryOutput => inl 6%nat | kindAnalogOutput => inl 7%nat | kindOther s => inr s
  end.
Definition kind_of_code (c : nat + string) : kind :=
  match c with
  | inl 0%nat => kindBinary | inl 1%nat => kindDoubleBit | inl 2%nat => kindCounter
  | inl 3%nat => kindFrozenCounter | inl 4%nat => kindAnalog | inl 5%nat => kindFrozenAnalog
  | inl 6%nat => kindBinaryOutput | inl _ => kindAnalogOutput | inr s => kindOther s
  end.
#[export] Instance kind_countable : Countable kind.
Proof. refine (inj_countable' kind_code kind_of_code _). by intros []. Defined.

Definition pointType (k : kind) : PointType :=
  match k with
  | kindBinary => TypeBinary
  | kindDoubleBit => TypeDoubleBitBinary
  | kindCounter => TypeCounter
  | kindFrozenCounter => TypeFrozenCounter
  | kindAnalog => TypeAnalog
  | kindFrozenAnalog => TypeFrozenAnalog
  | kindBinaryOutput => TypeBinaryOutputStatus
  | kindAnalogOutput => TypeAnalogOutputStatus
  | kindOther _ => TypeUnknown
  end.

Definition stateMask (k : kind) : Z :=
  match k with
  | kindBinary | kindBinaryOutput => 0x80
  | kindDoubleBit => 0xC0
  | _ => 0
  end.

(** The classes events go to; a kind that is not there has none. *)
Definition eventClass (k : kind) : option Z :=
  match k with
  | kindBinary | kindDoubleBit => Some Class1
  | kindCounter | kindFrozenCounter => Some Class2
  | kindAnalog => Some Class3
  | _ => None
  end.
Definition eventVariation (k : kind) : Z :=
  match k with kindCounter | kindFrozenCounter | kindAnalog => 1 | _ => 0 end.

Definition pointsPerType : nat := 20.
Definition maxEvents : Z := 1000.
Definition binaryClassOthers : nat := 16.

Definition pointClass (k : kind) (i : nat) : Z :=
  if bool_decide (k = kindBinary) && (binaryClassOthers <=? i)%nat then
    if (i <? binaryClassOthers + 2)%nat then Class2 else Class3
  else default ClassNone (eventClass k).

Definition generated (k : kind) : nat := if decide (k = kindBinary) then binaryClassOthers else pointsPerType.

(** ** Snapshots *)

Record snapshot := mkSnapshot {
  sn_binary : list Binary; sn_doubleBit : list DoubleBitBinary; sn_counter : list Counter;
  sn_frozenCounter : list FrozenCounter; sn_analog : list Analog; sn_binaryOutput : list BinaryOutputStatus;
  sn_analogOutput : list AnalogOutputStatus }.

Definition boolNum (b : bool) : spec_float := if b then f64_one else f64_zero.

(** The value, the flags, and whether there is such a point. *)
Definition snapshot_value (s : snapshot) (k : kind) (i : nat) : spec_float * Z * bool :=
  let at_ {T} (num : T -> spec_float) (l : list (measurement T)) :=
    match l !! i with Some m => (num (Value m), Flags m, true) | None => (f64_zero, 0, false) end in
  match k with
  | kindBinary => at_ boolNum (sn_binary s)
  | kindDoubleBit => at_ f64_of_Z (sn_doubleBit s)
  | kindCounter => at_ f64_of_Z (sn_counter s)
  | kindFrozenCounter => at_ f64_of_Z (sn_frozenCounter s)
  | kindAnalog => at_ id (sn_analog s)
  | kindBinaryOutput => at_ boolNum (sn_binaryOutput s)
  | kindAnalogOutput => at_ id (sn_analogOutput s)
  | _ => (f64_zero, 0, false)
  end.

Definition snapshot_count (s : snapshot) (k : kind) : nat :=
  match k with
  | kindBinary => length (sn_binary s)
  | kindDoubleBit => length (sn_doubleBit s)
  | kindCounter => length (sn_counter s)
  | kindFrozenCounter => length (sn_frozenCounter s)
  | kindAnalog => length (sn_analog s)
  | kindBinaryOutput => length (sn_binaryOutput s)
  | kindAnalogOutput => length (sn_analogOutput s)
  | _ => 0
  end.

(** ** The clock *)

Definition millisecond : Z := 1000000.
Definition syncInterval : Z := 10 * 1000000000.
Definition clockHoldover : Z := 2 * 1000000000.

(** [None] is the zero time. *)
Record clock := mkClock { ck_offset : Z; ck_syncedAt : option Z; ck_last : Z; ck_noCold : bool }.
Definition newClock (cold : bool) : clock := mkClock 0 None zeroTime cold.

(** Each reading of the host's clock is an argument. *)
Definition clock_Now (c : clock) (now : Z) : Z := now + ck_offset c.
Definition clock_WriteAbsoluteTime (c : clock) (t now now' : Z) : clock * bool :=
  (mkClock (time_Sub t now) (Some now') (ck_last c) (ck_noCold c), true).
Definition SupportsColdRestart (c : clock) : bool := negb (ck_noCold c).
Definition setColdRestart (supported : bool) (c : clock) : clock := mkClock (ck_offset c) (ck_syncedAt c) (ck_last c) (negb supported).

Definition stamp (c : clock) (now now' : Z) : clock * Timestamp :=
  let t := now + ck_offset c in
  let t := t - (t - zeroTime) mod millisecond in
  let t := if ck_last c <? t then t else ck_last c + millisecond in
  let c := mkClock (ck_offset c) (ck_syncedAt c) t (ck_noCold c) in
  (c, match ck_syncedAt c with
      | Some at_ => if time_Sub now' at_ <? syncInterval + clockHoldover then Now t else Unsynchronized t
      | None => Unsynchronized t
      end).

(** ** Events and changes *)

Record dut_event := mkDutEvent { ev_kind : kind; ev_index : nat; ev_value : spec_float; ev_flags : Z; ev_at : Z }.
#[export] Instance dut_event_eq_dec : EqDecision dut_event.
Proof. solve_decision. Defined.

Record tracker := mkTracker {
  batches : list (list dut_event); checked : nat; counters : option snapshot; timeEvent : option dut_event }.
Definition tracker0 : tracker := mkTracker [] 0 None None.
Definition tracker_add (t : tracker) (batch : list dut_event) : tracker :=
  mkTracker (batches t ++ [batch]) 0 (counters t) (timeEvent t).
Definition tracker_latest (t : tracker) : list dut_event := default [] (last (batches t)).
Definition tracker_all (t : tracker) : list dut_event := concat (batches t).

Record change := mkChange { ch_kind : kind; ch_index : nat; ch_next : spec_float -> spec_float; ch_flags : option Z }.

Section Changes.
Context {N : Numerics}.

(** A conversion to [DoubleBit], of eight bits. *)
Definition to_DoubleBit (x : spec_float) : Z := u8 (to_uint32 x).

(** One change; [None] when it raised no event.  The time is that of the stamp. *)
Definition applyOne (db : Database) (at_ : Timestamp) (c : change) : Database * option dut_event :=
  let i := u16 (Z.of_nat (ch_index c)) in
  let flagsOr f := default f (ch_flags c) in
  let ev (v : spec_float) (f : Z) := mkDutEvent (ch_kind c) (ch_index c) v f (TTime at_) in
  let raised (changed : bool) (e : dut_event) := if changed && bool_decide (is_Some (eventClass (ch_kind c))) then Some e else None in
  match ch_kind c with
  | kindBinary =>
      let '(v, _, ok) := Database_Binary db i in
      if negb ok then (db, None)
      else
        let n := mkMeasurement (negb (SFeqb (ch_next c (boolNum (Value v))) f64_zero)) (flagsOr (Flags v)) at_ in
        (UpdateBinary db i n,
         raised (negb (Bool.eqb (Value n) (Value v)) || negb (Flags n =? Flags v)) (ev (boolNum (Value n)) (Flags n)))
  | kindDoubleBit =>
      let '(v, _, ok) := Database_DoubleBit db i in
      if negb ok then (db, None)
      else
        let n := mkMeasurement (to_DoubleBit (ch_next c (f64_of_Z (Value v)))) (flagsOr (Flags v)) at_ in
        (UpdateDoubleBit db i n,
         raised (negb (Value n =? Value v) || negb (Flags n =? Flags v)) (ev (f64_of_Z (Value n)) (Flags n)))
  | kindCounter =>
      let '(v, _, ok) := Database_Counter db i in
      if negb ok then (db, None)
      else
        let n := mkMeasurement (to_uint32 (ch_next c (f64_of_Z (Value v)))) (flagsOr (Flags v)) at_ in
        (UpdateCounter db i n,
         raised (negb (Value n =? Value v) || negb (Flags n =? Flags v)) (ev (f64_of_Z (Value n)) (Flags n)))
  | kindFrozenCounter =>
      let '(v, _, ok) := Database_FrozenCounter db i in
      if negb ok then (db, None)
      else
        let n := mkMeasurement (to_uint32 (ch_next c (f64_of_Z (Value v)))) (flagsOr (Flags v)) at_ in
        (UpdateFrozenCounter db i n,
         raised (negb (Value n =? Value v) || negb (Flags n =? Flags v)) (ev (f64_of_Z (Value n)) (Flags n)))
  | kindAnalog =>
      let '(v, _, ok) := Database_Analog db i in
      if negb ok then (db, None)
      else
        let n := mkMeasurement (ch_next c (Value v)) (flagsOr (Flags v)) at_ in
        (UpdateAnalog db i n,
         raised (negb (SFeqb (Value n) (Value v)) || negb (Flags n =? Flags v)) (ev (Value n) (Flags n)))
  | kindBinaryOutput =>
      let '(v, _, ok) := Database_BinaryOutputStatus db i in
      if negb ok then (db, None)
      else
        let n := mkMeasurement (negb (SFeqb (ch_next c (boolNum (Value v))) f64_zero)) (flagsOr (Flags v)) at_ in
        (UpdateBinaryOutputStatus db i n, None)
  | kindAnalogOutput =>
      let '(v, _, ok) := Database_AnalogOutputStatus db i in
      if negb ok then (db, None)
      else
        let n := mkMeasurement (ch_next c (Value v)) (flagsOr (Flags v)) at_ in
        (UpdateAnalogOutputStatus db i n, None)
  | _ => (db, None)
  end.

Definition toggle (v : spec_float) : spec_float := f64_sub f64_one v.
Definition flipDoubleBit (v : spec_float) : spec_float :=
  if to_DoubleBit v =? DoubleBitDeterminedOn then f64_of_Z DoubleBitDeterminedOff else f64_of_Z DoubleBitDeterminedOn.
Definition countUp (v : spec_float) : spec_float := f64_add v f64_one.
Definition stepAnalog (v : spec_float) : spec_float :=
  if SFleb (f64_of_Z 30000) v then f64_one else f64_add v (f64_of_Z 7).
Definition same (v : spec_float) : spec_float := v.

Definition nextFor (k : kind) : option (spec_float -> spec_float) :=
  match k with
  | kindBinary => Some toggle
  | kindDoubleBit => Some flipDoubleBit
  | kindCounter | kindFrozenCounter => Some countUp
  | kindAnalog => Some stepAnalog
  | _ => None
  end.

Definition changesOf (k : kind) (n : nat) : option (list change) :=
  next ← nextFor k; Some ((fun i => mkChange k (i mod generated k) next None) <$> seq 0 n).

Definition classKinds (class : Z) : list kind :=
  List.filter (fun k => negb (Z.land (default ClassNone (eventClass k)) class =? 0))
    [kindBinary; kindDoubleBit; kindCounter; kindFrozenCounter; kindAnalog].
End Changes.

(** ** The checks *)

(** [p_Time] is in milliseconds. *)
Record dut_point := mkDutPoint {
  p_Kind : kind; p_Index : nat; p_Value : spec_float; p_Flags : option Z; p_Time : option Z; p_Event : bool }.

Inductive CheckErr :=
| NoSuchPoint (p : dut_point)
| HoldsValue (p : dut_point) (v : spec_float)
| HoldsFlags (p : dut_point) (f : Z)
| EventAmongStatic (p : dut_point)
| Missing (k : kind) (i : nat)
| Repeated (k : kind) (i n : nat)
| StaticAmongEvents (p : dut_point)
| NotGenerated (p : dut_point)
| MissingEvent (e : dut_event)
| OutOfOrder (b a : dut_event)
| WrongGap (p : dut_point) (got want : Z)
| NoEventFor (k : kind) (i : nat)
| NotPresent (p : dut_point) (v : spec_float).

Definition timestampTolerance : Z := 1.
(** 1e-6 in double precision. *)
Definition f64_micro : spec_float := S754_finite false 4722366482869645 (-72).
(** [math.Max]. *)
Definition math_Max (x y : spec_float) : spec_float :=
  match x, y with
  | S754_infinity false, _ | _, S754_infinity false => S754_infinity false
  | S754_nan, _ | _, S754_nan => S754_nan
  | S754_zero s, S754_zero _ => if s then y else x
  | _, _ => if SFltb y x then x else y
  end.

Definition sameValue (k : kind) (reported held : spec_float) : bool :=
  if SFeqb reported held then true
  else match k with
       | kindAnalog | kindAnalogOutput | kindFrozenAnalog =>
           SFleb (SFabs (f64_sub reported held)) (math_Max f64_micro (f64_mul (SFabs held) f64_micro))
       | _ => false
       end.

(** The flags but for the state, [uint8(x) & ^mask]. *)
Definition quality_of (k : kind) (f : Z) : Z := Z.land (u8 f) (Z.lxor 0xFF (stateMask k)).

Definition matchesHeld (p : dut_point) (held : snapshot) : option CheckErr :=
  let '(v, flags, ok) := snapshot_value held (p_Kind p) (p_Index p) in
  if negb ok then Some (NoSuchPoint p)
  else if negb (sameValue (p_Kind p) (p_Value p) v) then Some (HoldsValue p v)
  else match p_Flags p with
       | Some f =>
           if negb (quality_of (p_Kind p) f =? quality_of (p_Kind p) flags)
           then Some (HoldsFlags p (quality_of (p_Kind p) flags)) else None
       | None => None
       end.

Definition static_one (held : snapshot) (st : gmap (kind * nat) nat * list CheckErr) (p : dut_point)
    : gmap (kind * nat) nat * list CheckErr :=
  let '(seen, errs) := st in
  if p_Event p then (seen, errs ++ [EventAmongStatic p])
  else
    let seen := <[(p_Kind p, p_Index p) := S (default 0%nat (seen !! (p_Kind p, p_Index p)))]> seen in
    (seen, errs ++ option_list (matchesHeld p held)).
Definition static_missing (seen : gmap (kind * nat) nat) (k : kind) (i : nat) : list CheckErr :=
  match default 0%nat (seen !! (k, i)) with
  | O => [Missing k i]
  | 1%nat => []
  | n => [Repeated k i n]
  end.
Definition verifyStatic (points : list dut_point) (held : snapshot) (complete : list kind) : list CheckErr :=
  let '(seen, errs) := fold_left (static_one held) points (∅, []) in
  errs ++ concat ((fun k => concat (static_missing seen k <$> seq 0 (snapshot_count held k))) <$> complete).

Definition sameEvent (p : dut_point) (e : dut_event) : bool :=
  bool_decide (p_Kind p = ev_kind e) && (p_Index p =? ev_index e)%nat && sameValue (p_Kind p) (p_Value p) (ev_value e) &&
  match p_Flags p with
  | Some f => quality_of (p_Kind p) f =? quality_of (p_Kind p) (ev_flags e)
  | None => true
  end.

Definition inOrderAcrossPoints (k : kind) : bool :=
  match k with kindBinary | kindDoubleBit => true | _ => false end.

(** The earliest expected event that is not used yet and is the one reported. *)
Fixpoint find_match (p : dut_point) (j : nat) (expected : list dut_event) (used : list bool) : option nat :=
  match expected, used with
  | e :: expected, u :: used => if negb u && sameEvent p e then Some j else find_match p (S j) expected used
  | _, _ => None
  end.

(** A position is [None] where the source has -1. *)
Fixpoint match_loop (expected : list dut_event) (points : list dut_point) (used : list bool)
    : list bool * list (option nat) * list CheckErr :=
  match points with
  | [] => (used, [], [])
  | p :: points =>
      if negb (p_Event p) then
        let '(used, pos, errs) := match_loop expected points used in (used, None :: pos, StaticAmongEvents p :: errs)
      else match find_match p 0 expected used with
           | Some j => let '(used, pos, errs) := match_loop expected points (<[j := true]> used) in (used, Some j :: pos, errs)
           | None => let '(used, pos, errs) := match_loop expected points used in (used, None :: pos, NotGenerated p :: errs)
           end
  end.

Definition related (a b : dut_event) : bool :=
  bool_decide (ev_kind a = ev_kind b) && ((ev_index a =? ev_index b)%nat || inOrderAcrossPoints (ev_kind a)).

(** The inner loop of the order check, for the report at [x] and those after it. *)
Definition order_one (expected : list dut_event) (x y : option nat) : list CheckErr :=
  match x, y with
  | Some x, Some y =>
      match expected !! x, expected !! y with
      | Some a, Some b => if related a b && (y <? x)%nat then [OutOfOrder b a] else []
      | _, _ => []
      end
  | _, _ => []
  end.
Fixpoint order_loop (expected : list dut_event) (position : list (option nat)) : list CheckErr :=
  match position with
  | [] => []
  | x :: position => concat (order_one expected x <$> position) ++ order_loop expected position
  end.

Definition at_of (expected : list dut_event) (x : option nat) : Z :=
  match x ≫= (expected !!.) with Some e => ev_at e | None => zeroTime end.

(** [first] is the time of the first report that has one and when its event happened. *)
Fixpoint verifyGaps (expected : list dut_event) (points : list dut_point) (position : list (option nat))
    (first : option (Z * Z)) : option CheckErr :=
  match points, position with
  | p :: points, x :: position =>
      match p_Time p, first with
      | None, _ => verifyGaps expected points position first
      | Some t, None => verifyGaps expected points position (Some (t, at_of expected x))
      | Some t, Some (t0, at0) =>
          let want := Milliseconds (time_Sub (at_of expected x) at0) in
          let got := t - t0 in
          if (timestampTolerance <? got - want) || (got - want <? - timestampTolerance) then Some (WrongGap p got want)
          else verifyGaps expected points position first
      end
  | _, _ => None
  end.

Definition missing_events (expected : list dut_event) (used : list bool) : list CheckErr :=
  concat (zip_with (fun e (u : bool) => if u then [] else [MissingEvent e]) expected used).
Definition verifyEvents (points : list dut_point) (expected : list dut_event) : list CheckErr :=
  let '(used, position, errs) := match_loop expected points (replicate (length expected) false) in
  let errs := errs ++ missing_events expected used in
  match errs with
  | _ :: _ => errs
  | [] => order_loop expected position ++ option_list (verifyGaps expected points position None)
  end.

(** The map of the changed points is walked in any order, given as a list. *)
Definition earlier_one (all : list dut_event) (st : gmap (kind * nat) dut_point * list CheckErr) (p : dut_point)
    : gmap (kind * nat) dut_point * list CheckErr :=
  let '(last, errs) := st in
  if negb (p_Event p) then (last, errs ++ [StaticAmongEvents p])
  else (<[(p_Kind p, p_Index p) := p]> last, errs ++ (if existsb (sameEvent p) all then [] else [NotGenerated p])).
Definition present_one (held : snapshot) (last : gmap (kind * nat) dut_point) (ki : kind * nat) : list CheckErr :=
  match last !! ki with
  | None => [NoEventFor ki.1 ki.2]
  | Some p =>
      let '(v, _, _) := snapshot_value held ki.1 ki.2 in
      if sameValue ki.1 (p_Value p) v then [] else [NotPresent p v]
  end.
Definition changed_points (latest : list dut_event) : gset (kind * nat) :=
  list_to_set ((fun e => (ev_kind e, ev_index e)) <$> latest).
Definition verifyCurrentWithEarlier (walk : gset (kind * nat) -> list (kind * nat)) (points : list dut_point)
    (latest all : list dut_event) (held : snapshot) : list CheckErr :=
  let '(last, errs) := fold_left (earlier_one all) points (∅, []) in
  errs ++ concat (present_one held last <$> walk (changed_points latest)).

Definition verifyGenerated (points : list dut_point) (all : list dut_event) : list CheckErr :=
  concat ((fun p => if existsb (sameEvent p) all then [] else [NotGenerated p]) <$> points).

Definition ofKinds (events : list dut_event) (kinds : list kind) : list dut_event :=
  List.filter (fun e => existsb (fun k => bool_decide (ev_kind e = k)) kinds) events.

(** ** Stamps *)

Inductive clock_call := CallStamp (now now' : Z) | CallWrite (t now now' : Z).
Fixpoint stamps (c : clock) (calls : list clock_call) : list Z :=
  match calls with
  | [] => []
  | CallStamp now now' :: calls => let '(c, t) := stamp c now now' in TTime t :: stamps c calls
  | CallWrite t now now' :: calls => stamps (clock_WriteAbsoluteTime c t now now').1 calls
  end.

(** A time that a report carries as it is. *)
Definition whole (t : Z) : Prop := (millisecond | t).

Lemma stamp_next c now now' : whole (ck_last c) ->
  ck_last (stamp c now now').1 = TTime (stamp c now now').2 /\ whole (TTime (stamp c now now').2) /\
  ck_last c + millisecond <= TTime (stamp c now now').2.
Proof.
  intros [l Hl]. unfold stamp, whole. cbn [fst snd ck_last ck_syncedAt].
  set (t := now + ck_offset c). pose proof (Z.div_mod (t - zeroTime) millisecond ltac:(done)) as D.
  set (q := (t - zeroTime) / millisecond) in *. set (r := (t - zeroTime) mod millisecond) in *. clearbody q r t.
  assert (Hz : zeroTime = -62135596800000 * millisecond) by done.
  set (u := if ck_last c <? t - r then t - r else ck_last c + millisecond).
  assert (Hu : (millisecond | u) /\ ck_last c + millisecond <= u).
  { unfold u, millisecond in *. destruct (Z.ltb_spec (ck_last c) (t - r)).
    - split; [exists (q - 62135596800000); lia|]. nia.
    - split; [exists (l + 1)|]; lia. }
  destruct Hu. assert (E : forall x : bool, TTime (if x then Now u else Unsynchronized u) = u) by by intros [].
  destruct (ck_syncedAt c); rewrite ?E; by split_and!.
Qed.

Lemma stamps_from calls : forall c, whole (ck_last c) ->
  Forall (fun t => whole t /\ ck_last c + millisecond <= t) (stamps c calls) /\
  StronglySorted (fun a b => a + millisecond <= b) (stamps c calls).
Proof.
  induction calls as [|[now now'|t now now'] calls IH]; intros c Hc; cbn [stamps].
  - by split; constructor.
  - destruct (stamp_next c now now' Hc) as (E & W & L). destruct (stamp c now now') as [c' t]. cbn [fst snd] in *.
    rewrite <- E in W, L. destruct (IH c' W) as [F S]. rewrite <- E. split.
    + constructor; [done|]. eapply Forall_impl; [exact F|]. unfold millisecond in *. intros u [? ?]. split; [done|lia].
    + constructor; [done|]. eapply Forall_impl; [exact F|]. cbn beta. tauto.
  - exact (IH (mkClock (time_Sub t now) (Some now') (ck_last c) (ck_noCold c)) Hc).
Qed.

(** Stamps have the resolution of the protocol and are apart by at least that much: whatever
    the clock of the host reads, also backwards, and however often the master sets the time. *)
Theorem stamps_increase cold calls :
  Forall whole (stamps (newClock cold) calls) /\
  StronglySorted (fun a b => a + millisecond <= b) (stamps (newClock cold) calls).
Proof.
  destruct (stamps_from calls (newClock cold)) as [F S]; [by exists (-62135596800000)|].
  split; [|done]. eapply Forall_impl; [exact F|]. cbn beta. tauto.
Qed.

(** ** The check of events *)

Lemma concat_nil {A} (l : list (list A)) : concat l = [] <-> Forall (fun x => x = []) l.
Proof.
  split.
  - induction l as [|x l IH]; [constructor|]. cbn. intros E. apply app_eq_nil in E as [-> E]. constructor; auto.
  - by induction 1 as [|x l -> _ IH].
Qed.

Lemma find_match_spec p expected : forall j used k, find_match p j expected used = Some k ->
  exists i e, k = (j + i)%nat /\ expected !! i = Some e /\ used !! i = Some false /\ sameEvent p e = true.
Proof.
  induction expected as [|e expected IH]; intros j [|u used] k; cbn [find_match]; try done.
  destruct (negb u && sameEvent p e) eqn:E.
  - intros [= <-]. apply andb_prop in E as [U Sm]. exists 0%nat, e. rewrite Nat.add_0_r. by destruct u.
  - intros F. destruct (IH _ _ _ F) as (i & e' & -> & L & U & Sm). exists (S i), e'. split; [lia|done].
Qed.

Definition reported_as (expected : list dut_event) (p : dut_point) (j : nat) : Prop :=
  p_Event p = true /\ exists e, expected !! j = Some e /\ sameEvent p e = true.

(** What the matching has used is what was used before and the positions it found. *)
Lemma match_loop_spec expected points : forall used used' pos,
  match_loop expected points used = (used', pos, []) ->
  exists order, pos = Some <$> order /\ Forall2 (reported_as expected) points order /\ NoDup order /\
    length used' = length used /\
    (forall j, used' !! j = Some true -> used !! j = Some true \/ j ∈ order) /\
    (forall j, j ∈ order -> used !! j = Some false).
Proof.
  induction points as [|p points IH]; intros used used' pos; cbn [match_loop].
  - intros [= <- <-]. exists []. split_and!; [done | constructor | constructor | done | tauto |]. by intros j ?%not_elem_of_nil.
  - destruct (p_Event p) eqn:Ep; cbn [negb]; [|by destruct (match_loop expected points used) as [[??]?]].
    destruct (find_match p 0 expected used) as [k|] eqn:F; [|by destruct (match_loop expected points used) as [[??]?]].
    destruct (match_loop expected points (<[k:=true]> used)) as [[u ps] es] eqn:R. intros [= -> <- ->].
    destruct (find_match_spec _ _ _ _ _ F) as (i & e & -> & Le & Lu & Sm). cbn [plus] in *.
    destruct (IH _ _ _ R) as (order & -> & F2 & ND & Len & U1 & U2). exists (i :: order).
    rewrite length_insert in Len. split_and!; try done.
    + constructor; [split; [done|by exists e]|done].
    + constructor; [|done]. intros Hin. specialize (U2 i Hin).
      rewrite list_lookup_insert_eq in U2 by (eapply lookup_lt_Some; eassumption). done.
    + intros j Hj. destruct (U1 j Hj) as [Hu|Hin]; [|right; by right].
      destruct (decide (j = i)) as [->|Ne]; [right; by left|]. rewrite list_lookup_insert_ne in Hu by done. by left.
    + intros j [->|Hin]%elem_of_cons; [done|]. specialize (U2 j Hin).
      destruct (decide (j = i)) as [->|Ne]; [|by rewrite list_lookup_insert_ne in U2].
      rewrite list_lookup_insert_eq in U2 by (eapply lookup_lt_Some; eassumption). done.
Qed.

Lemma missing_none expected used : length used = length expected -> missing_events expected used = [] ->
  forall j, (j < length expected)%nat -> used !! j = Some true.
Proof.
  unfold missing_events. rewrite concat_nil. revert used.
  induction expected as [|e expected IH]; intros [|u used]; cbn; try done; [lia|].
  intros [= L] [E F]%Forall_cons [|j] Hj; [by destruct u|]. cbn. apply IH; [done..|lia].
Qed.

Lemma nodup_seq (order : list nat) n : NoDup order -> (forall j, (j < n)%nat -> j ∈ order) ->
  (forall j, j ∈ order -> (j < n)%nat) -> order ≡ₚ seq 0 n.
Proof.
  intros ND H1 H2. apply NoDup_Permutation; [done | apply NoDup_seq|]. intros j. rewrite elem_of_seq.
  split; [intros ?%H2; lia | intros ?; apply H1; lia].
Qed.

Definition in_order (expected : list dut_event) (order : list nat) : Prop :=
  forall a b x y ex ey, order !! a = Some x -> order !! b = Some y -> (a < b)%nat ->
    expected !! x = Some ex -> expected !! y = Some ey -> related ex ey = true -> (x <= y)%nat.

Lemma order_loop_spec expected order : order_loop expected (Some <$> order) = [] <-> in_order expected order.
Proof.
  unfold in_order. induction order as [|x order IH]; cbn [order_loop fmap list_fmap]; [by split|].
  rewrite app_nil, concat_nil, IH, Forall_fmap, Forall_fmap, Forall_lookup. cbn [compose].
  split.
  - intros [F R] [|a] [|b] x0 y ex ey Hx Hy; cbn in Hx, Hy; [lia| |lia|intros ?; eapply R; [done..|lia]].
    injection Hx as <-. intros _ Ex Ey Rl. specialize (F b y Hy).
    change (order_one expected (Some x) (Some y) = []) in F. unfold order_one in F. rewrite Ex, Ey, Rl in F. cbn [andb] in F.
    destruct (Nat.ltb_spec y x); [done|lia].
  - intros R. split; [|intros a b x0 y ex ey ???; apply (R (S a) (S b)); [done..|lia]].
    intros b y Hy. change (order_one expected (Some x) (Some y) = []). unfold order_one.
    destruct (expected !! x) as [ex|] eqn:Ex; [|done]. destruct (expected !! y) as [ey|] eqn:Ey; [|done].
    destruct (related ex ey) eqn:Rl; [|done]. specialize (R 0%nat (S b) x y ex ey eq_refl Hy ltac:(lia) Ex Ey Rl).
    destruct (Nat.ltb_spec y x); [lia|done].
Qed.

(** The reports with a time: the time, and when the event happened. *)
Fixpoint timed (expected : list dut_event) (points : list dut_point) (order : list nat) : list (Z * Z) :=
  match points, order with
  | p :: points, x :: order =>
      match p_Time p with Some t => [(t, at_of expected (Some x))] | None => [] end ++ timed expected points order
  | _, _ => []
  end.
(** As far from the first as they were when they happened, to the tolerance. *)
Definition gap_ok (first t : Z * Z) : Prop :=
  Z.abs (t.1 - first.1 - Milliseconds (time_Sub t.2 first.2)) <= timestampTolerance.
Definition gaps_ok (l : list (Z * Z)) : Prop := match l with [] => True | first :: l => Forall (gap_ok first) l end.

Lemma verifyGaps_first expected points : forall order t0 at0,
  verifyGaps expected points (Some <$> order) (Some (t0, at0)) = None <-> Forall (gap_ok (t0, at0)) (timed expected points order).
Proof.
  induction points as [|p points IH]; intros [|x order] t0 at0; cbn [verifyGaps timed fmap list_fmap]; try by split.
  destruct (p_Time p) as [t|]; [|apply IH]. cbn [app]. rewrite Forall_cons, <- IH. unfold gap_ok at 1. cbn [fst snd].
  set (d := t - t0 - _). unfold timestampTolerance. destruct (Z.ltb_spec 1 d); cbn [orb]; [split; [done|lia]|].
  destruct (Z.ltb_spec d (- (1))); [split; [done|lia]|]. split; [intros ->; split; [lia|done] | tauto].
Qed.
Lemma verifyGaps_spec expected points order :
  verifyGaps expected points (Some <$> order) None = None <-> gaps_ok (timed expected points order).
Proof.
  revert order. induction points as [|p points IH]; intros [|x order]; cbn [verifyGaps timed fmap list_fmap]; try by split.
  destruct (p_Time p) as [t|]; [|apply IH]. cbn [app gaps_ok]. apply verifyGaps_first.
Qed.

(** A check of events that passes has found the events there are: each report is of one of them,
    each of them is reported once, those of a point and those of the binary types in the order
    in which they happened, and the times that are reported are as far apart as they were. *)
Theorem verifyEvents_sound points expected : verifyEvents points expected = [] ->
  exists order, order ≡ₚ seq 0 (length expected) /\ Forall2 (reported_as expected) points order /\
    in_order expected order /\ gaps_ok (timed expected points order).
Proof.
  unfold verifyEvents. destruct (match_loop _ _ _) as [[used pos] errs] eqn:M.
  destruct (errs ++ missing_events expected used) eqn:E; [|done]. apply app_eq_nil in E as [-> Ms].
  destruct (match_loop_spec _ _ _ _ _ M) as (order & -> & F2 & ND & Len & U1 & U2). rewrite length_replicate in Len.
  intros [O G]%app_eq_nil. exists order. split_and!; [|done|by apply order_loop_spec|].
  - apply nodup_seq; [done| |].
    + intros j Hj. destruct (U1 j (missing_none _ _ Len Ms j Hj)) as [[[=] _]%lookup_replicate|]; done.
    + intros j Hj. specialize (U2 j Hj). apply lookup_lt_Some in U2. by rewrite length_replicate in U2.
  - apply verifyGaps_spec. by destruct (verifyGaps _ _ _ _).
Qed.

Lemma find_match_next p e pre : forall rest us j, sameEvent p e = true ->
  find_match p j (pre ++ e :: rest) (replicate (length pre) true ++ false :: us) = Some (j + length pre)%nat.
Proof.
  induction pre as [|x pre IH]; intros rest us j S; cbn.
  - rewrite S. f_equal. lia.
  - rewrite IH by done. f_equal. lia.
Qed.

(** A report of an event: marked as one, and with its time if it has one, which is a time a
    clock of 64 bits can tell. *)
Definition reports (p : dut_point) (e : dut_event) : Prop :=
  p_Event p = true /\ sameEvent p e = true /\ 0 <= ev_at e < 2 ^ 63 /\ forall t, p_Time p = Some t -> ev_at e = t * millisecond.

Lemma match_loop_next points : forall rest pre, Forall2 reports points rest ->
  match_loop (pre ++ rest) points (replicate (length pre) true ++ replicate (length rest) false) =
  (replicate (length (pre ++ rest)) true, Some <$> seq (length pre) (length rest), []).
Proof.
  induction points as [|p points IH]; intros rest pre F; inversion F as [|? e ? rest' R F']; subst.
  - cbn [match_loop length replicate seq fmap list_fmap]. by rewrite !app_nil_r.
  - destruct R as (Ev & Sm & _). cbn [match_loop length replicate]. rewrite Ev. cbn [negb].
    rewrite find_match_next by done. cbn [plus].
    replace (<[length pre:=true]> (replicate (length pre) true ++ false :: replicate (length rest') false))
      with (replicate (length (pre ++ [e])) true ++ replicate (length rest') false).
    + specialize (IH rest' (pre ++ [e]) F'). rewrite <- app_assoc in IH. cbn [app] in IH. rewrite IH.
      replace (length (pre ++ [e])) with (S (length pre)) by (rewrite length_app; cbn [length]; lia). done.
    + rewrite insert_app_r_alt by by rewrite length_replicate. rewrite length_replicate, Nat.sub_diag. cbn [insert list_insert].
      rewrite length_app, Nat.add_1_r, replicate_S_end, <- app_assoc. done.
Qed.

Lemma missing_all expected : missing_events expected (replicate (length expected) true) = [].
Proof. unfold missing_events. rewrite concat_nil. induction expected; by constructor. Qed.

Lemma in_order_seq expected n : in_order expected (seq 0 n).
Proof. intros a b x y ex ey [-> _]%lookup_seq [-> _]%lookup_seq L _ _ _. lia. Qed.

Lemma timed_reports points expected : forall pre rest, expected = pre ++ rest -> Forall2 reports points rest ->
  Forall (fun t => t.2 = t.1 * millisecond /\ 0 <= t.2 < 2 ^ 63) (timed expected points (seq (length pre) (length rest))).
Proof.
  induction points as [|p points IH]; intros pre rest E F; inversion F as [|? e ? rest' R F']; subst; [constructor|].
  cbn [length seq timed]. apply Forall_app. split.
  - destruct R as (_ & _ & B & T). destruct (p_Time p) as [t|]; [|constructor]. apply Forall_cons. split; [|constructor].
    unfold at_of. cbn [mbind option_bind fst snd]. rewrite list_lookup_middle by done. split; [by apply T | done].
  - specialize (IH (pre ++ [e]) rest'). rewrite length_app, <- app_assoc in IH. cbn [length] in IH. rewrite Nat.add_1_r in IH.
    by apply IH.
Qed.

(** A report of the events as they happened passes the check: in their order, each with its
    value, and with its time or without. *)
Theorem verifyEvents_complete points expected : Forall2 reports points expected -> verifyEvents points expected = [].
Proof.
  intros F. unfold verifyEvents. pose proof (match_loop_next points expected [] F) as M. cbn [length app replicate] in M.
  rewrite M, missing_all, app_nil_r. rewrite (proj2 (order_loop_spec _ _) (in_order_seq _ _)).
  rewrite (proj2 (verifyGaps_spec _ _ _)); [done|]. pose proof (timed_reports points expected [] expected eq_refl F) as T.
  cbn [length] in T. destruct (timed _ _ _) as [|[t0 a0] l]; [done|]. apply Forall_cons in T as [T0 T].
  cbn [gaps_ok]. eapply Forall_impl; [exact T|]. intros [t a]. unfold gap_ok, Milliseconds, time_Sub. intros [Ht B].
  destruct T0 as [Ht0 B0]. cbn [fst snd] in *. subst a a0. unfold millisecond in *. rewrite Z.min_l, Z.max_r by lia. rewrite <- Z.mul_sub_distr_r.
  rewrite Z.quot_mul by done. unfold timestampTolerance. lia.
Qed.

(** ** Changes and events *)

Section Recorded.
Context {N : Numerics}.

Definition in_class {T} (pts : list (Database.point T)) (i : Z) : Prop :=
  exists p, pts !! Z.to_nat i = Some p /\ Class (pcfg p) <> ClassNone.
(** The point is there and its events are reported; of the kinds whose events do not depend on
    a deadband. *)
Definition reporting (db : Database) (c : change) : Prop :=
  let i := u16 (Z.of_nat (ch_index c)) in
  match ch_kind c with
  | kindBinary => in_class (binary db) i
  | kindDoubleBit => in_class (doubleBit db) i
  | kindFrozenCounter => in_class (frozen db) i
  | _ => False
  end.

Definition event_state (x : Event) (k : kind) : spec_float * Z :=
  match k with
  | kindBinary => (boolNum (Value (EBinary x)), Flags (EBinary x))
  | kindDoubleBit => (f64_of_Z (Value (EDoubleBit x)), Flags (EDoubleBit x))
  | kindFrozenCounter => (f64_of_Z (Value (EFrozenCounter x)), Flags (EFrozenCounter x))
  | _ => (f64_zero, 0)
  end.
(** The event the outstation reports is the one the device has in mind. *)
Definition queued_as (x : Event) (e : dut_event) : Prop :=
  EType x = pointType (ev_kind e) /\ EIndex x = u16 (Z.of_nat (ev_index e)) /\ EClass x <> ClassNone /\
  TTime (ETime x) = ev_at e /\ event_state x (ev_kind e) = (ev_value e, ev_flags e).

(** What a change leaves of the queue [b], given the event it is recorded as. *)
Definition recorded (b : EventBuffer) (x : Database * option dut_event) : Prop :=
  match x.2 with
  | None => db_events x.1 = Some b
  | Some e => exists q, db_events x.1 = Some (EventBuffer.Add b q) /\ queued_as q e
  end.

Lemma raised_in_class cfg b e : Class cfg <> ClassNone -> raised cfg (Some b) e = Some (EventBuffer.Add b e).
Proof. intros H. unfold raised. by rewrite (proj2 (Z.eqb_neq _ _) H). Qed.

Lemma changed_flip {T} (eqb : T -> T -> bool) (a b : measurement T) : (forall x y, eqb x y = eqb y x) ->
  changed eqb a b = negb (eqb (Value b) (Value a)) || negb (Flags b =? Flags a).
Proof. intros H. unfold changed. by rewrite H, Z.eqb_sym. Qed.

Lemma u16_twice x : u16 (u16 x) = u16 x.
Proof. unfold u16. by rewrite Z.mod_mod. Qed.

(** What the device records of a change is what the outstation will report: an event is queued
    exactly when one is recorded, and it is the same. *)
Theorem change_recorded db b at_ c : db_events db = Some b -> reporting db c ->
  recorded b (applyOne db at_ c).
Proof.
  intros Hb. unfold recorded, reporting, applyOne. destruct c as [k n next fl]. cbn [ch_kind ch_index ch_next ch_flags].
  set (i := u16 (Z.of_nat n)). destruct k; try done; intros (p & Hp & Hc).
  - unfold Database_Binary, get. rewrite Hp. cbn [negb]. unfold UpdateBinary. rewrite Hp.
    rewrite changed_flip by (by intros [] []). cbn [Value Flags].
    destruct (_ || _); cbn [fst snd]; [|done]. eexists. rewrite raise_events.
    cbn [db_events set_binary]. rewrite Hb, raised_in_class by done. by split.
  - unfold Database_DoubleBit, get. rewrite Hp. cbn [negb]. unfold UpdateDoubleBit. rewrite Hp.
    rewrite changed_flip by apply Z.eqb_sym. cbn [Value Flags].
    destruct (_ || _); cbn [fst snd]; [|done]. eexists. rewrite raise_events.
    cbn [db_events set_doubleBit]. rewrite Hb, raised_in_class by done. by split.
  - unfold Database_FrozenCounter, get. rewrite Hp. cbn [negb]. unfold UpdateFrozenCounter.
    assert (Hi : (i <? len (frozen db)) = true).
    { apply Z.ltb_lt. apply lookup_lt_Some in Hp. unfold len, i, u16 in *. lia. }
    rewrite Hi. unfold setFrozen. rewrite Hp, orb_false_r.
    rewrite changed_flip by apply Z.eqb_sym. cbn [Value Flags].
    destruct (_ || _); cbn [fst snd]; [|done]. eexists. rewrite raise_events.
    cbn [db_events set_frozen]. rewrite Hb, raised_in_class by done. split; [done|].
    unfold queued_as, i. split; [done|]. split; [apply u16_twice|]. by split_and!.
Qed.
End Recorded.

(** ** The check of static values *)

Definition is_point (k : kind) (i : nat) (p : dut_point) : bool := bool_decide (p_Kind p = k) && (p_Index p =? i)%nat.
Definition reported_times (points : list dut_point) (k : kind) (i : nat) : nat := length (List.filter (is_point k i) points).

Lemma static_loop held points : forall seen errs seen' errs',
  fold_left (static_one held) points (seen, errs) = (seen', errs') ->
  (errs' = [] <-> errs = [] /\ Forall (fun p => p_Event p = false /\ matchesHeld p held = None) points) /\
  (errs' = [] -> forall k i, default 0%nat (seen' !! (k, i)) = (default 0%nat (seen !! (k, i)) + reported_times points k i)%nat).
Proof.
  unfold reported_times. induction points as [|p points IH]; intros seen errs seen' errs'; cbn [fold_left].
  - intros [= <- <-]. split; [|cbn; intros; lia]. split; [done|tauto].
  - unfold static_one at 2. destruct (p_Event p) eqn:Ev; intros E; destruct (IH _ _ _ _ E) as [I1 I2].
    + assert (Ne : errs' <> []) by (rewrite I1; intros [[_ [=]]%app_nil _]).
      split; [|done]. rewrite Forall_cons, Ev. split; [done|]. by intros (_ & [? _] & _).
    + split.
      * rewrite I1, app_nil, Forall_cons, Ev. destruct (matchesHeld p held) as [e|]; cbn [option_list]; [|tauto].
        split; [by intros [[_ ?] _] | by intros (_ & [_ ?] & _)].
      * intros -> k i. rewrite I2 by done. cbn [List.filter]. unfold is_point at 2.
        destruct (bool_decide_reflect (p_Kind p = k)) as [<-|Nk]; cbn [andb].
        -- destruct (Nat.eqb_spec (p_Index p) i) as [<-|Ni]; [rewrite lookup_insert_eq; cbn [from_option id length]; lia|].
           rewrite lookup_insert_ne by naive_solver. done.
        -- rewrite lookup_insert_ne by naive_solver. done.
Qed.

(** A check of static values passes exactly when no report is of an event, each is what the
    device holds, and of the kinds that should be complete each point is reported once. *)
Theorem verifyStatic_exact points held complete : verifyStatic points held complete = [] <->
  Forall (fun p => p_Event p = false /\ matchesHeld p held = None) points /\
  (forall k i, k ∈ complete -> (i < snapshot_count held k)%nat -> reported_times points k i = 1%nat).
Proof.
  unfold verifyStatic. destruct (fold_left _ _ _) as [seen errs] eqn:E. destruct (static_loop _ _ _ _ _ _ E) as [I1 I2].
  rewrite app_nil, I1, concat_nil, Forall_fmap. rewrite I1 in I2.
  assert (Q : Forall (fun p => p_Event p = false /\ matchesHeld p held = None) points ->
    forall k i, static_missing seen k i = [] <-> reported_times points k i = 1%nat).
  { intros F k i. unfold static_missing. rewrite I2 by done. rewrite lookup_empty. cbn [from_option id plus].
    destruct (reported_times points k i) as [|[|n]]; naive_solver. }
  split.
  - intros [[_ F] M]. split; [done|]. intros k i Hk Hi. apply (Q F). rewrite Forall_forall in M. specialize (M k Hk). cbn in M.
    rewrite concat_nil, Forall_fmap, Forall_forall in M. apply M, elem_of_seq. lia.
  - intros [F M]. split; [by split|]. apply Forall_forall. intros k Hk. cbn. rewrite concat_nil, Forall_fmap, Forall_forall.
    intros i Hi%elem_of_seq. apply (Q F), M; [done|lia].
Qed.
