(* ===== verification/Dut.v ===== *)
(** * The conformance device (src/conformance/dnp3c/dut: device.go, rpc.go, snapshots of model.go)

    An outstation with twenty points of each type, which a test harness configures, restarts,
    changes and asks for checks; the harness calls its methods by name.  The session that runs
    is the library's; of it the device holds the database and the indication of local control.

    [host] gives the readings of the host's clock, in order.  Whether a started session comes to
    listen is an argument.  A session is taken to apply what it is given to apply.  What is
    logged is left out, the encoding of calls and replies belongs to the JSON library.

    The theorems: a restart keeps the values of the points and raises no event ([restart_quiet],
    [restart_keeps]); the attributes the device expects in a reply are those the outstation has
    ([attributes_expected]); an operation is checked off once ([operation_checked]).  The runs at
    the end show where the device does not do what it says. *)

From Stdlib Require Import Ascii SpecFloat.
From stdpp Require Import gmap.
From S2P Require Import Prelude Values Floats AppHeader AppObject Objects ExtObjects EventBuffer Database Commands OutstationState.
From S2P Require Import Response Respond Services SessionRuns Text Simulator DutModel.
#[local] Open Scope Z_scope.

(** ** Settings *)

Definition outstationAddr : Z := 1024.
Definition masterAddr : Z := 1.
Definition selectTimeout : Z := 2 * second.
Definition confirmTimeout : Z := 2 * second.
Definition unsolTimeout_ : Z := 2 * second.
Definition linkTimeout : Z := second.
Definition linkRetries : Z := 3.
Definition fragmentSize_ : Z := 2048.
Definition maxControls : Z := 4.
Definition unlimitedRetries : Z := 2 ^ 31 - 1.

(** Of the map only the keys that are true are ever set; a changed map is always a copy. *)
Record settings := mkSettings {
  linkConfirms : bool; selfAddress : bool; fragmentSize : Z; unsolicited : bool; unsolTimeout : Z; unsolRetries : Z;
  master : Z; uninstalled : gset kind; noColdRestart : bool }.
Definition defaultSettings : settings :=
  mkSettings false false fragmentSize_ false unsolTimeout_ unlimitedRetries masterAddr ∅ false.
Definition settings_count (s : settings) (k : kind) : nat := if decide (k ∈ uninstalled s) then 0 else pointsPerType.

Definition set_linkConfirms v s := mkSettings v (selfAddress s) (fragmentSize s) (unsolicited s) (unsolTimeout s) (unsolRetries s) (master s) (uninstalled s) (noColdRestart s).
Definition set_selfAddress v s := mkSettings (linkConfirms s) v (fragmentSize s) (unsolicited s) (unsolTimeout s) (unsolRetries s) (master s) (uninstalled s) (noColdRestart s).
Definition set_fragmentSize v s := mkSettings (linkConfirms s) (selfAddress s) v (unsolicited s) (unsolTimeout s) (unsolRetries s) (master s) (uninstalled s) (noColdRestart s).
Definition set_unsolicited v s := mkSettings (linkConfirms s) (selfAddress s) (fragmentSize s) v (unsolTimeout s) (unsolRetries s) (master s) (uninstalled s) (noColdRestart s).
Definition set_unsolTimeout v s := mkSettings (linkConfirms s) (selfAddress s) (fragmentSize s) (unsolicited s) v (unsolRetries s) (master s) (uninstalled s) (noColdRestart s).
Definition set_unsolRetries v s := mkSettings (linkConfirms s) (selfAddress s) (fragmentSize s) (unsolicited s) (unsolTimeout s) v (master s) (uninstalled s) (noColdRestart s).
Definition set_master v s := mkSettings (linkConfirms s) (selfAddress s) (fragmentSize s) (unsolicited s) (unsolTimeout s) (unsolRetries s) v (uninstalled s) (noColdRestart s).
Definition set_uninstalled v s := mkSettings (linkConfirms s) (selfAddress s) (fragmentSize s) (unsolicited s) (unsolTimeout s) (unsolRetries s) (master s) v (noColdRestart s).
Definition set_noColdRestart v s := mkSettings (linkConfirms s) (selfAddress s) (fragmentSize s) (unsolicited s) (unsolTimeout s) (unsolRetries s) (master s) (uninstalled s) v.

(** ** Attributes *)

Definition configuredAttributes : list Attribute :=
  (fun x => StringAttribute x.1 (octets_of x.2)) <$>
  [(242, "go-dnp3"); (243, "software"); (245, "conformance bench"); (247, "go-dnp3 dut"); (248, "0001");
   (250, "go-dnp3 outstation"); (252, "DSC Systems")]%string.
Definition writableAttributes : list AttributeID := [mkAttributeID 0 245; mkAttributeID 0 247].

Definition uint_ (v n : Z) : Attribute := mkAttribute 0 v AttrUnsignedInt [] n f64_zero [] zeroTime.
(** The fields of the configuration that are used. *)
Definition expectedAttributes (db : DatabaseConfig) (tx rx : Z) (attrs : list Attribute) : gmap Z Attribute :=
  let rx := if rx <=? 0 then fragmentSize_ else rx in
  let out := <[AttrMaxRxFragment := uint_ AttrMaxRxFragment rx]> {[AttrMaxTxFragment := uint_ AttrMaxTxFragment tx]} in
  let out := fold_left (fun out x => if 0 <? x.2 then <[x.1 := uint_ x.1 x.2]> out else out)
    [(AttrBinaryInputCount, n_Binary db); (AttrDoubleBitInputCount, n_DoubleBitBinary db); (AttrCounterCount, n_Counter db);
     (AttrAnalogInputCount, n_Analog db); (AttrBinaryOutputCount, n_BinaryOutputStatus db);
     (AttrAnalogOutputCount, n_AnalogOutputStatus db)] out in
  fold_left (fun out a => <[A_Variation a := a]> out) attrs out.

Record attrIn := mkAttrIn { ai_Variation : Z; ai_Type : string; ai_Text : list Z; ai_Number : spec_float }.
Inductive AttrErr := NotAnAttribute (v : Z) | DiffersFrom (v : Z) (want : Attribute).

Definition attribute_differs (a : attrIn) (w : Attribute) : bool :=
  if A_Type w =? AttrVisibleString then
    negb (bool_decide (ai_Type a = "vstr"%string)) || negb (bool_decide (ai_Text a = A_Text w))
  else if (A_Type w =? AttrUnsignedInt) || (A_Type w =? AttrSignedInt) then
    negb (bool_decide (ai_Type a = "uint"%string)) && negb (bool_decide (ai_Type a = "int"%string)) ||
    negb (SFeqb (ai_Number a) (f64_of_Z (A_Number w)))
  else if A_Type w =? AttrFloat then
    negb (bool_decide (ai_Type a = "flt"%string)) || SFltb f64_micro (SFabs (f64_sub (ai_Number a) (A_Real w)))
  else false.
Definition attribute_one (want : gmap Z Attribute) (a : attrIn) : list AttrErr :=
  let v := u8 (ai_Variation a) in
  if (v =? 254) || (v =? 255) then []
  else match want !! v with
       | None => [NotAnAttribute v]
       | Some w => if attribute_differs a w then [DiffersFrom v w] else []
       end.
Definition verifyAttributes (got : list attrIn) (want : gmap Z Attribute) : list AttrErr := concat (attribute_one want <$> got).

(** ** The device *)

Record dut_session := mkDutSession { ds_db : Database; ds_local : bool }.
(** [d_clock] is there when [d_sess] is; of [d_localPoints] only true entries are ever made;
    [d_reads] counts the readings of the host's clock. *)
Record device := mkDut {
  d_level : Z; d_settings : settings; d_running : settings; d_sess : option dut_session; d_clock : option clock;
  d_values : option snapshot; d_globalLocal : bool; d_localPoints : gset Z; d_operations : list (kind * Z);
  d_attributes : gmap Z Attribute; d_track : tracker; d_reads : nat }.
Definition settings0 : settings := mkSettings false false 0 false 0 0 0 ∅ false.
Definition newDevice (level : Z) : device :=
  mkDut level defaultSettings settings0 None None None false ∅ [] ∅ tracker0 0.

Definition on_settings v d := mkDut (d_level d) v (d_running d) (d_sess d) (d_clock d) (d_values d) (d_globalLocal d) (d_localPoints d) (d_operations d) (d_attributes d) (d_track d) (d_reads d).
Definition on_running v d := mkDut (d_level d) (d_settings d) v (d_sess d) (d_clock d) (d_values d) (d_globalLocal d) (d_localPoints d) (d_operations d) (d_attributes d) (d_track d) (d_reads d).
Definition on_sess v d := mkDut (d_level d) (d_settings d) (d_running d) v (d_clock d) (d_values d) (d_globalLocal d) (d_localPoints d) (d_operations d) (d_attributes d) (d_track d) (d_reads d).
Definition on_clock v d := mkDut (d_level d) (d_settings d) (d_running d) (d_sess d) v (d_values d) (d_globalLocal d) (d_localPoints d) (d_operations d) (d_attributes d) (d_track d) (d_reads d).
Definition on_values v d := mkDut (d_level d) (d_settings d) (d_running d) (d_sess d) (d_clock d) v (d_globalLocal d) (d_localPoints d) (d_operations d) (d_attributes d) (d_track d) (d_reads d).
Definition on_local g p d := mkDut (d_level d) (d_settings d) (d_running d) (d_sess d) (d_clock d) (d_values d) g p (d_operations d) (d_attributes d) (d_track d) (d_reads d).
Definition on_operations v d := mkDut (d_level d) (d_settings d) (d_running d) (d_sess d) (d_clock d) (d_values d) (d_globalLocal d) (d_localPoints d) v (d_attributes d) (d_track d) (d_reads d).
Definition on_attributes v d := mkDut (d_level d) (d_settings d) (d_running d) (d_sess d) (d_clock d) (d_values d) (d_globalLocal d) (d_localPoints d) (d_operations d) v (d_track d) (d_reads d).
Definition on_track v d := mkDut (d_level d) (d_settings d) (d_running d) (d_sess d) (d_clock d) (d_values d) (d_globalLocal d) (d_localPoints d) (d_operations d) (d_attributes d) v (d_reads d).
Definition on_reads v d := mkDut (d_level d) (d_settings d) (d_running d) (d_sess d) (d_clock d) (d_values d) (d_globalLocal d) (d_localPoints d) (d_operations d) (d_attributes d) (d_track d) v.
Definition clock_of (d : device) : clock := default (newClock false) (d_clock d).

(** [d.mu] held. *)
Definition isLocal (d : device) (index : Z) : bool := d_globalLocal d || bool_decide (index ∈ d_localPoints d).

(** *** Snapshots *)

Definition read_points {T} (get : Z -> T * PointConfig * bool) (n : nat) : list T :=
  (fun i => (get (u16 (Z.of_nat i))).1.1) <$> seq 0 n.
Definition kept_or {T} (n : nat) (kept : option snapshot) (field : snapshot -> list T) (l : list T) : list T :=
  match n, kept with O, Some k => field k | _, _ => l end.
Definition device_snapshot (d : device) (s : dut_session) : snapshot :=
  let st := d_running d in let kept := d_values d in let db := ds_db s in
  let one {T} (k : kind) (get : Z -> T * PointConfig * bool) (field : snapshot -> list T) :=
    kept_or (settings_count st k) kept field (read_points get (settings_count st k)) in
  mkSnapshot (one kindBinary (Database_Binary db) sn_binary) (one kindDoubleBit (Database_DoubleBit db) sn_doubleBit)
    (one kindCounter (Database_Counter db) sn_counter) (one kindFrozenCounter (Database_FrozenCounter db) sn_frozenCounter)
    (one kindAnalog (Database_Analog db) sn_analog) (one kindBinaryOutput (Database_BinaryOutputStatus db) sn_binaryOutput)
    (one kindAnalogOutput (Database_AnalogOutputStatus db) sn_analogOutput).
Definition current (d : device) : option snapshot := device_snapshot d <$> d_sess d.

(** *** Starting *)

Definition database_config (st : settings) : DatabaseConfig :=
  let n k := Z.of_nat (settings_count st k) in
  mkDatabaseConfig (n kindBinary) (n kindDoubleBit) (n kindCounter) (n kindFrozenCounter) (n kindAnalog) 0 0 0
    (n kindBinaryOutput) (n kindAnalogOutput) 0 ClassNone.

(** The points [0..n-1] one after the other: [v] where the device has kept a value. *)
Definition load {T} (upd : Database -> Z -> T -> Database) (kept : list T) (init : T) (adjust : Z -> T -> T) (n : nat)
    (db : Database) : Database :=
  fold_left (fun db i => upd db (u16 (Z.of_nat i)) (adjust (u16 (Z.of_nat i)) (default init (kept !! i)))) (seq 0 n) db.
Definition local_flags (local : bool) (v : BinaryOutputStatus) : BinaryOutputStatus :=
  mkMeasurement (Value v) (if local then Flags_Clear (Flags v) Online else Flags_Set (Flags v) Online) (Time v).
Definition configure_kind (st : settings) (db : Database) (k : kind) : Database :=
  fold_left (fun db i => (Configure db (pointType k) (u16 (Z.of_nat i))
      (mkPointConfig (pointClass k i) 0 (eventVariation k) f64_zero ClassNone 0)).1) (seq 0 (settings_count st k)) db.

Section Device.
Context {N : Numerics}.
Variable host : nat -> Z.
(** The order in which the map of classes is walked. *)
Variable class_order : list kind.
(** The order in which the changed points are walked. *)
Variable walk : gset (kind * nat) -> list (kind * nat).

Definition initialise (d : device) (db : Database) (st : settings) (now : Z) : Database :=
  let at_ := Unsynchronized now in
  let kept {T} (field : snapshot -> list T) := match d_values d with Some v => field v | None => [] end in
  let same_ {T} (_ : Z) (v : T) := v in
  let db := load UpdateBinary (kept sn_binary) (mkMeasurement false Online at_) same_ (settings_count st kindBinary) db in
  let db := load UpdateDoubleBit (kept sn_doubleBit) (mkMeasurement DoubleBitDeterminedOff Online at_) same_
              (settings_count st kindDoubleBit) db in
  let db := load UpdateCounter (kept sn_counter) (mkMeasurement 0 Online at_) same_ (settings_count st kindCounter) db in
  let db := load UpdateFrozenCounter (kept sn_frozenCounter) (mkMeasurement 0 Online at_) same_ (settings_count st kindFrozenCounter) db in
  let db := load UpdateAnalog (kept sn_analog) (mkMeasurement f64_zero Online at_) same_ (settings_count st kindAnalog) db in
  let db := load UpdateBinaryOutputStatus (kept sn_binaryOutput) (mkMeasurement false Online at_)
              (fun i v => local_flags (isLocal d i) v) (settings_count st kindBinaryOutput) db in
  let db := load UpdateAnalogOutputStatus (kept sn_analogOutput) (mkMeasurement f64_zero Online at_) same_
              (settings_count st kindAnalogOutput) db in
  let db := if d_level d =? 2
            then fold_left (fun db i => (Configure db TypeAnalogOutputStatus (u16 (Z.of_nat i)) (mkPointConfig ClassNone 2 0 f64_zero ClassNone 0)).1)
                   (seq 0 (settings_count st kindAnalogOutput)) db
            else db in
  fold_left (configure_kind st) class_order db.

Inductive DutErr :=
| NotListening | NotRunning | CannotGenerate (k : kind) | NoPattern (k : kind) | NoInputInClass (c : Z) | DidNotOperate
| Operated (k : kind) (i : Z) | AnalogDiffers | NoEventRaised | NoPointGiven | NoSuchOutput | NothingRecorded
| CheckFailed (errs : list CheckErr) | AttributesFailed (errs : list AttrErr) | NoneGenerated | CannotCheck | PolledAgain (p : dut_point)
| MissingNow (p : dut_point) | NoTimeEvent | WrongTime (diff : Z) | EventNotReported | WrongCommandTime (diff : Z) | WrongDelay (ms : Z)
| Unimplemented (method : string).

Definition start (listens : bool) (d : device) : device * option DutErr :=
  let st := d_settings d in
  let d := on_attributes (expectedAttributes (database_config st) (fragmentSize st) 0 configuredAttributes) d in
  let db := initialise d (NewDatabase (database_config st) (Some (NewEventBuffer maxEvents))) st (host (d_reads d)) in
  let d := on_reads (S (d_reads d)) d in
  let local := d_globalLocal d || negb (bool_decide (d_localPoints d = ∅)) in
  if negb listens then (d, Some NotListening)
  else (on_running st (on_clock (Some (newClock (noColdRestart st))) (on_sess (Some (mkDutSession db local)) d)), None).

(** Stopping is two sections under the mutex; the session runs on until the end. *)
Definition stop_begin (d : device) : device * option dut_session := (on_sess None d, d_sess d).
Definition stop_end (d : device) (s : dut_session) : device := on_values (Some (device_snapshot d s)) d.
Definition stop (d : device) : device :=
  let '(d, s) := stop_begin d in match s with None => d | Some s => stop_end d s end.

Definition restart (listens : bool) (d : device) : device * option DutErr := start listens (stop d).
Definition device_reset (listens : bool) (d : device) : device * option DutErr :=
  let d := stop d in
  start listens (on_track tracker0 (on_operations [] (on_local false ∅ (on_values None (on_settings defaultSettings d))))).

(** *** Updates *)

Definition read_stamp (c : clock) (n : nat) : clock * nat * Timestamp :=
  let '(c, t) := stamp c (host n) (host (S n)) in (c, S (S n), t).

Definition update {A} (d : device) (fn : Database -> clock -> nat -> Database * clock * nat * A) : device * result DutErr A :=
  match d_sess d with
  | None => (d, Err NotRunning)
  | Some s =>
      let '(c, n, _) := read_stamp (clock_of d) (d_reads d) in
      let '(db, c, n, a) := fn (ds_db s) c n in
      (on_reads n (on_clock (Some c) (on_sess (Some (mkDutSession db (ds_local s))) d)), Ok a)
  end.

Definition apply_step (st : Database * clock * nat * list dut_event) (c : change) : Database * clock * nat * list dut_event :=
  let '(db, clk, n, batch) := st in
  let '(clk, n, t) := read_stamp clk n in
  let '(db, ev) := applyOne db t c in
  (db, clk, n, batch ++ option_list ev).
Definition device_apply (d : device) (changes : list change) : device * result DutErr (list dut_event) :=
  match update d (fun db clk n => fold_left apply_step changes (db, clk, n, [])) with
  | (d, Err e) => (d, Err e)
  | (d, Ok batch) => (on_track (tracker_add (d_track d) batch) d, Ok batch)
  end.

Definition set_local_flags (global : bool) (points : gset Z) (db : Database) (i : nat) : Database :=
  let i := u16 (Z.of_nat i) in
  UpdateBinaryOutputStatus db i (local_flags (global || bool_decide (i ∈ points)) (Database_BinaryOutputStatus db i).1.1).
Definition setLocal (global : bool) (points : gset Z) (d : device) : device * option DutErr :=
  let d := on_local global points d in
  match d_sess d with
  | None => (d, Some NotRunning)
  | Some s =>
      let n := settings_count (d_running d) kindBinaryOutput in
      let anyLocal := global || negb (bool_decide (points = ∅)) in
      let d := on_sess (Some (mkDutSession (ds_db s) anyLocal)) d in
      match update d (fun db clk r => (fold_left (set_local_flags global points) (seq 0 n) db, clk, r, tt)) with
      | (d, Err e) => (d, Some e)
      | (d, Ok _) => (d, None)
      end
  end.

(** *** Commands *)

Definition codePulseOn : Z := ControlPulseOn.
Definition codeLatchOn : Z := ControlLatchOn.
Definition codeLatchOff : Z := ControlLatchOff.
Definition codePulseClose : Z := Z.lor ControlClose ControlPulseOn.
Definition codePulseTrip : Z := Z.lor ControlTrip ControlPulseOn.
Definition crobCodes : list Z := [codePulseOn; codeLatchOn; codeLatchOff; codePulseClose; codePulseTrip].

Definition dut_HasOutput (d : device) (pt : PointType) (index : Z) : bool :=
  let k := if decide (pt = TypeAnalogOutputStatus) then kindAnalogOutput else kindBinaryOutput in
  index <? Z.of_nat (settings_count (d_running d) k).

Definition crobStatus (d : device) (index : Z) (c : ControlRelayOutputBlock) : Z :=
  if Z.of_nat (settings_count (d_running d) kindBinaryOutput) <=? index then CommandNotSupported
  else if negb (existsb (fun code => code =? Code c) crobCodes) then CommandNotSupported
  else if isLocal d index then CommandLocal
  else CommandSuccess.
Definition dut_SelectCROB (d : device) (index : Z) (c : ControlRelayOutputBlock) : Z := crobStatus d index c.

(** [None] is a dereference of nil: a command may find the session gone while it stops. *)
Definition with_session (d : device) (f : dut_session -> device) (status : Z) : option (device * Z) :=
  s ← d_sess d; Some (f s, status).
Definition dut_OperateCROB (d : device) (index : Z) (c : ControlRelayOutputBlock) : option (device * Z) :=
  let status := crobStatus d index c in
  if negb (status =? CommandSuccess) then Some (d, status)
  else
    let d := on_operations (d_operations d ++ [(kindBinaryOutput, index)]) d in
    with_session d (fun s =>
      let db := ds_db s in
      let v := (Database_BinaryOutputStatus db index).1.1 in
      let state := if (Code c =? codeLatchOn) || (Code c =? codePulseClose) then true
                   else if (Code c =? codeLatchOff) || (Code c =? codePulseTrip) then false else Value v in
      let '(clk, n, t) := read_stamp (clock_of d) (d_reads d) in
      on_reads n (on_clock (Some clk) (on_sess (Some (mkDutSession
        (UpdateBinaryOutputStatus db index (mkMeasurement state (Flags v) t)) (ds_local s))) d))) CommandSuccess.

Definition analogStatus (d : device) (index : Z) : Z :=
  if Z.of_nat (settings_count (d_running d) kindAnalogOutput) <=? index then CommandNotSupported else CommandSuccess.
Definition dut_SelectAnalog (d : device) (index : Z) : Z := analogStatus d index.
Definition dut_OperateAnalog (d : device) (index : Z) (v : AnalogOutput) : option (device * Z) :=
  let status := analogStatus d index in
  if negb (status =? CommandSuccess) then Some (d, status)
  else
    let d := on_operations (d_operations d ++ [(kindAnalogOutput, index)]) d in
    with_session d (fun s =>
      let db := ds_db s in
      let out := (Database_AnalogOutputStatus db index).1.1 in
      let '(clk, n, t) := read_stamp (clock_of d) (d_reads d) in
      on_reads n (on_clock (Some clk) (on_sess (Some (mkDutSession
        (UpdateAnalogOutputStatus db index (mkMeasurement (AOValue v) (Flags out) t)) (ds_local s))) d))) CommandSuccess.

Fixpoint take_operation (k : kind) (index : Z) (ops : list (kind * Z)) : option (list (kind * Z)) :=
  match ops with
  | [] => None
  | op :: ops => if decide (op = (k, index)) then Some ops else cons op <$> take_operation k index ops
  end.
(** Whether it operated, and the operations there were. *)
Definition takeOperation (k : kind) (index : Z) (d : device) : device * bool * list (kind * Z) :=
  match take_operation k index (d_operations d) with
  | Some ops => (on_operations ops d, true, d_operations d)
  | None => (d, false, d_operations d)
  end.
Definition takeOperations (d : device) : device * list (kind * Z) := (on_operations [] d, d_operations d).

Definition attributeWritten (d : device) (a : Attribute) : device * bool :=
  (if A_Set a =? 0 then on_attributes (<[A_Variation a := a]> (d_attributes d)) d else d, true).

(** *** Calls of the harness *)

Record args := mkArgs {
  a_Value : bool; a_Kind : kind; a_Index : nat; a_Indices : list nat; a_Count : nat; a_Class : Z; a_Expect : string;
  a_Points : list dut_point; a_Previous : list dut_point; a_IsClass0 : bool; a_Address : Z; a_TimeoutMs : Z; a_Retries : option Z;
  a_Size : Z; a_Expected : spec_float; a_Actual : spec_float; a_Analog : spec_float; a_Flag : nat; a_DelayMs : Z; a_SentMs : Z;
  a_EventMs : Z; a_Attributes : list attrIn }.
Inductive reply_result := NoResult | Performed | IndexAndFlags (index : nat) (flags : Z).
Definition handler : Type := args -> device -> device * reply_result * option DutErr.
Definition plain (f : args -> device -> device * option DutErr) : handler :=
  fun a d => let '(d, e) := f a d in (d, NoResult, e).
(** A check changes nothing. *)
Definition checks (f : args -> device -> option DutErr) : handler := fun a d => (d, NoResult, f a d).
Definition failed (errs : list CheckErr) : option DutErr := match errs with [] => None | _ => Some (CheckFailed errs) end.

Definition configure (fn : settings -> args -> settings) : handler := plain (fun a d => (on_settings (fn (d_settings d) a) d, None)).
Definition reconfigure (listens : bool) (fn : settings -> args -> settings) : handler :=
  plain (fun a d => restart listens (on_settings (fn (d_settings d) a) d)).

Definition record_ (changes : list change) (d : device) : device * option DutErr :=
  match device_apply d changes with (d, Err e) => (d, Some e) | (d, Ok _) => (d, None) end.
Definition generate (k : kind) (n : nat) (d : device) : device * option DutErr :=
  match changesOf k n with None => (d, Some (CannotGenerate k)) | Some changes => record_ changes d end.

Definition classMask (c : Z) : Z := if c =? 1 then Class1 else if c =? 2 then Class2 else if c =? 3 then Class3 else Class123.
Fixpoint class_changes (classes : list Z) (n : nat) : result DutErr (list change) :=
  match classes with
  | [] => Ok []
  | c :: classes =>
      match classKinds (classMask c) with
      | [] => Err (NoInputInClass c)
      | k :: _ =>
          match changesOf k n with
          | None => Err (CannotGenerate k)
          | Some cs => rest ← class_changes classes n; Ok (cs ++ rest)
          end
      end
  end.
Definition generateClasses (class : Z) (n : nat) (d : device) : device * option DutErr :=
  match class_changes (if class =? 0 then [1; 2; 3] else [class]) n with
  | Err e => (d, Some e)
  | Ok changes => record_ changes d
  end.

Definition pattern_value (k : kind) (i : nat) : option spec_float :=
  match k with
  | kindBinary => Some (f64_of_Z (Z.of_nat (i mod 2)))
  | kindDoubleBit => Some (f64_of_Z (DoubleBitDeterminedOff + Z.of_nat (i mod 2)))
  | kindAnalog => Some (f64_of_Z (100 + 10 * Z.of_nat i))
  | _ => None
  end.
Definition generatePattern (k : kind) (d : device) : device * option DutErr :=
  match mapM (fun i => (fun v => mkChange k i (fun _ => v) None) <$> pattern_value k i) (seq 0 (generated k)) with
  | None => (d, Some (NoPattern k))
  | Some changes => record_ changes d
  end.

Definition verifyExpectation (points : list dut_point) (kinds : list kind) (expectation : string) (d : device) : option DutErr :=
  let t := d_track d in
  let latest := ofKinds (tracker_latest t) kinds in
  let all := ofKinds (tracker_all t) kinds in
  if decide (expectation = "LatestBatch"%string) then failed (verifyEvents points latest)
  else if decide (expectation = "RemainingLatestBatch"%string) then failed (verifyEvents points (drop (min (checked t) (length latest)) latest))
  else if decide (expectation = "AllGeneratedBatches"%string) then failed (verifyEvents points all)
  else if decide (expectation = "CurrentValuesWithOptionalEarlier"%string) then
    match current d with
    | None => Some NotRunning
    | Some held => failed (verifyCurrentWithEarlier walk points latest all held)
    end
  else if decide (expectation = "ReturnedEventsOnly"%string) then failed (verifyGenerated points all)
  else Some CannotCheck.

Definition with_checked (n : nat) (t : tracker) : tracker := mkTracker (batches t) n (counters t) (timeEvent t).
Definition with_counters (s : snapshot) (t : tracker) : tracker := mkTracker (batches t) (checked t) (Some s) (timeEvent t).
Definition with_timeEvent (e : dut_event) (t : tracker) : tracker := mkTracker (batches t) (checked t) (counters t) (Some e).

Definition verifyFirst (points : list dut_point) (kinds : list kind) (d : device) : device * option DutErr :=
  match ofKinds (tracker_latest (d_track d)) kinds with
  | [] => (d, Some NoneGenerated)
  | e :: _ =>
      match verifyEvents points [e] with
      | [] => (on_track (with_checked 1 (d_track d)) d, None)
      | errs => (d, Some (CheckFailed errs))
      end
  end.

Definition samePoint (a b : dut_point) : bool :=
  bool_decide (p_Kind a = p_Kind b) && (p_Index a =? p_Index b)%nat && sameValue (p_Kind a) (p_Value a) (p_Value b) &&
  match p_Time a, p_Time b with Some s, Some t => s =? t | _, _ => true end.

Definition verifyNotRepeated (a : args) : option DutErr :=
  head (concat ((fun u => omap (fun p => if samePoint u p then Some (PolledAgain p) else None) (a_Points a)) <$> a_Previous a)).
Definition verifyRetained (a : args) : option DutErr :=
  head (omap (fun u => if existsb (samePoint u) (a_Points a) then None else Some (MissingNow u)) (a_Previous a)).

Definition outside (diff : Z) : bool := (timestampTolerance <? diff) || (diff <? - timestampTolerance).
Definition verifyTimestamp (a : args) (d : device) : option DutErr :=
  match timeEvent (d_track d) with
  | None => Some NoTimeEvent
  | Some te =>
      match head (omap (fun p => t ← p_Time p; if sameEvent p te then Some t else None) (a_Points a)) with
      | None => Some EventNotReported
      | Some t => let diff := t - ev_at te / millisecond in if outside diff then Some (WrongTime diff) else None
      end
  end.

Definition held_check (a : args) (d : device) (complete : list kind) : option DutErr :=
  match current d with None => Some NotRunning | Some held => failed (verifyStatic (a_Points a) held complete) end.
Definition allKinds : list kind :=
  [kindBinary; kindDoubleBit; kindCounter; kindFrozenCounter; kindAnalog; kindBinaryOutput; kindAnalogOutput].

Definition generateTimeEvent (d : device) : device * option DutErr :=
  match device_apply d [mkChange kindBinary 0 toggle None] with
  | (d, Err e) => (d, Some e)
  | (d, Ok [e]) => (on_track (with_timeEvent e (d_track d)) d, None)
  | (d, Ok _) => (d, Some NoEventRaised)
  end.
Definition multiFragment : list (kind * nat) := [(kindBinary, 300%nat); (kindCounter, 200%nat); (kindAnalog, 200%nat)].
Definition generateMultiFragmentResponse (d : device) : device * option DutErr :=
  match mapM (fun x => changesOf x.1 x.2) multiFragment with
  | None => (d, Some NoEventRaised)
  | Some changes => record_ (concat changes) d
  end.
Definition setFlagAbnormal : handler := fun a d =>
  match a_Indices a with
  | [] => (d, NoResult, Some NoPointGiven)
  | i :: _ =>
      match record_ [mkChange (a_Kind a) i same (Some 0)] d with
      | (d, Some e) => (d, NoResult, Some e)
      | (d, None) => (d, IndexAndFlags i 0, None)
      end
  end.
Definition changeOutputFlag (a : args) (d : device) : device * option DutErr :=
  match current d with
  | None => (d, Some NotRunning)
  | Some held =>
      let '(_, flags, ok) := snapshot_value held (a_Kind a) (a_Index a) in
      if negb ok then (d, Some NoSuchOutput)
      else record_ [mkChange (a_Kind a) (a_Index a) same (Some (Z.lxor flags (u8 (Z.shiftl 1 (Z.of_nat (a_Flag a))))))] d
  end.
Definition setColdRestartSupport (a : args) (d : device) : device * option DutErr :=
  let d := on_settings (set_noColdRestart (negb (a_Value a)) (d_settings d)) d in
  let d := on_running (set_noColdRestart (negb (a_Value a)) (d_running d)) d in
  (on_clock (setColdRestart (a_Value a) <$> d_clock d) d, None).
Definition checkOperate (a : args) (d : device) : device * option DutErr :=
  let '(d, ok, _) := takeOperation (a_Kind a) (u16 (Z.of_nat (a_Index a))) d in
  (d, if ok then None else Some DidNotOperate).
Definition checkNotOperate (a : args) (d : device) : device * option DutErr :=
  let '(d, ops) := takeOperations d in
  (d, head (omap (fun op => if decide (op.1 = a_Kind a) then Some (Operated op.1 op.2) else None) ops)).
Definition recordCurrentCounterValues (d : device) : device * option DutErr :=
  match current d with
  | None => (d, Some NotRunning)
  | Some held => (on_track (with_counters held (d_track d)) d, None)
  end.
Definition change_to (k : kind) (i : nat) (v : spec_float) : list change := [mkChange k i (fun _ => v) None].

(** *** Configuration and power *)
Definition config_methods (listens : bool) : list (string * handler) :=
  [("startProcedure"%string, plain (fun _ => device_reset listens));
   ("endProcedure"%string, checks (fun _ _ => None));
   ("cyclePower"%string, plain (fun _ => restart listens));
   ("setLinkLayerConfirm"%string, configure (fun s a => set_linkConfirms (a_Value a) s));
   ("setSelfAddressSupport"%string, configure (fun s a => set_selfAddress (a_Value a) s));
   ("enableUnsolicitedResponse"%string, configure (fun s a => set_unsolicited (a_Value a) s));
   ("setUnsolicitedResponseTimeout"%string, configure (fun s a => set_unsolTimeout (int_of 64 (u64 (a_TimeoutMs a * millisecond))) s));
   ("setMaxUnsolicitedRetries"%string, configure (fun s a => set_unsolRetries (default unlimitedRetries (a_Retries a)) s));
   ("setColdRestartSupport"%string, plain setColdRestartSupport);
   ("setMasterAddress"%string, configure (fun s a => set_master (u16 (a_Address a)) s));
   ("setMaxFragmentSize"%string, reconfigure listens (fun s a => set_fragmentSize (a_Size a) s));
   ("uninstall"%string, reconfigure listens (fun s a => set_uninstalled ({[a_Kind a]} ∪ uninstalled s) s));
   ("reinstallPoints"%string, reconfigure listens (fun s _ => set_uninstalled ∅ s))].

(** *** Supervisory control and controls *)
Definition control_methods : list (string * handler) :=
  [("enableRemoteSupervisoryControl"%string, plain (fun _ => setLocal false ∅));
   ("setGlobalRemoteSupervisoryControl"%string, plain (fun _ => setLocal true ∅));
   ("setIndividualRemoteSupervisoryControl"%string, plain (fun a => setLocal false {[u16 (Z.of_nat (a_Index a))]}));
   ("checkOperate"%string, plain checkOperate);
   ("checkNotOperate"%string, plain checkNotOperate);
   ("checkAnalogOutputTolerance"%string,
     checks (fun a _ => if sameValue kindAnalogOutput (a_Actual a) (a_Expected a) then None else Some AnalogDiffers))].

(** *** Changes and events *)
Definition generate_methods : list (string * handler) :=
  [("generateInputChanges"%string, plain (fun a => generate (a_Kind a) (if decide (a_Kind a = kindCounter) then pointsPerType else 3)));
   ("generateExactInputEvents"%string, plain (fun a => generate (a_Kind a) (a_Count a)));
   ("generateClassEvents"%string, plain (fun a => generateClasses (a_Class a) 3));
   ("generateExactClassEvents"%string, plain (fun a => generateClasses (a_Class a) (a_Count a)));
   ("generatePattern"%string, plain (fun a => generatePattern (a_Kind a)));
   ("generateEventOn"%string, plain (fun a d => match nextFor (a_Kind a) with
     | None => (d, Some (CannotGenerate (a_Kind a)))
     | Some next => record_ [mkChange (a_Kind a) (a_Index a) next None] d end));
   ("generateExactFrozenCounterEvents"%string, plain (fun a => generate kindFrozenCounter (a_Count a)));
   ("generateExactSmallAnalogInputEvents"%string, plain (fun a => generate kindAnalog (a_Count a)));
   ("generateMultiFragmentResponse"%string, plain (fun _ => generateMultiFragmentResponse));
   ("generateUnsolicitedEvents"%string, fun _ d => let '(d, e) := generate kindBinary 1 d in (d, Performed, e));
   ("generateNotEnoughUnsolicitedEvents"%string, plain (fun _ => generate kindBinary 1));
   ("generateTimeEvent"%string, plain (fun _ => generateTimeEvent));
   ("setAnalogInput"%string, plain (fun a => record_ (change_to kindAnalog (a_Index a) (a_Analog a))));
   ("setFlagsNormal"%string, plain (fun a => record_ ((fun i => mkChange (a_Kind a) i same (Some Online)) <$> seq 0 pointsPerType)));
   ("setFlagAbnormal"%string, setFlagAbnormal);
   ("changeOutputFlag"%string, plain changeOutputFlag);
   ("changeBinaryOutputState"%string, plain (fun a => record_ [mkChange kindBinaryOutput (a_Index a) toggle None]));
   ("setAnalogOutputValue"%string, plain (fun a => record_ (change_to kindAnalogOutput (a_Index a) (a_Analog a))));
   ("recordCurrentCounterValues"%string, plain (fun _ => recordCurrentCounterValues))].

(** *** Checks of static values *)
Definition static_methods : list (string * handler) :=
  [("verifyAllStaticCurrentValues"%string, checks (fun a d => held_check a d (if a_IsClass0 a then allKinds else [])));
   ("verifyInputCurrentValues"%string, checks (fun a d => held_check a d []));
   ("verifyRecordedCounterValues"%string, checks (fun a d => match counters (d_track d) with
     | None => Some NothingRecorded
     | Some rec => failed (verifyStatic (a_Points a) rec []) end))].

(** *** Checks of events and times *)
Definition event_methods : list (string * handler) :=
  [("verifyInputEvents"%string, checks (fun a d => verifyExpectation (a_Points a) [a_Kind a] (a_Expect a) d));
   ("verifyFirstInputEvent"%string, plain (fun a => verifyFirst (a_Points a) [a_Kind a]));
   ("verifyClassEvents"%string, checks (fun a d => verifyExpectation (a_Points a) (classKinds (classMask (a_Class a))) (a_Expect a) d));
   ("verifyFirstClassEvent"%string, plain (fun a => verifyFirst (a_Points a) (classKinds (classMask (a_Class a)))));
   ("verifyFrozenCounterEvents"%string, checks (fun a d => verifyExpectation (a_Points a) [kindFrozenCounter] "LatestBatch"%string d));
   ("verifyPolledDataDoNotRepeatUnsolicitedData"%string, checks (fun a _ => verifyNotRepeated a));
   ("verifyResponseRetainsEvents"%string, checks (fun a _ => verifyRetained a));
   ("verifyTimestamp"%string, checks verifyTimestamp);
   ("verifyCommandEventTime"%string, checks (fun a _ => let diff := a_EventMs a - a_SentMs a in
     if (diff <? -1000) || (1000 <? diff) then Some (WrongCommandTime diff) else None));
   ("verifyDelayMeasurementAccuracy"%string, checks (fun a _ =>
     if (a_DelayMs a <? 0) || (100 <? a_DelayMs a) then Some (WrongDelay (a_DelayMs a)) else None));
   ("verifyDeviceAttributes"%string, checks (fun a d => match verifyAttributes (a_Attributes a) (d_attributes d) with
     | [] => None | errs => Some (AttributesFailed errs) end))].

Definition methods (listens : bool) : list (string * handler) :=
  config_methods listens ++ control_methods ++ generate_methods ++ static_methods ++ event_methods.

Definition assoc {A} (name : string) (l : list (string * A)) : option A :=
  snd <$> head (List.filter (fun x => bool_decide (x.1 = name)) l).
(** A call of a method by its name. *)
Definition call (listens : bool) (method : string) (a : args) (d : device) : device * reply_result * option DutErr :=
  match assoc method (methods listens) with
  | None => (d, NoResult, Some (Unimplemented method))
  | Some h => h a d
  end.
End Device.

(** ** Restarts *)

Definition classless {T} (p : Database.point T) : Prop := Class (pcfg p) = ClassNone.

(** A list of points of the database, and how an update acts on it while no point of it is in a
    class: it replaces a point and does nothing else. *)
Record loads {T} (get_ : Database -> list (Database.point T)) (set_ : list (Database.point T) -> Database -> Database)
    (upd : Database -> Z -> T -> Database) : Prop := {
  get_set : forall l db, get_ (set_ l db) = l;
  set_set : forall l l' db, set_ l (set_ l' db) = set_ l db;
  set_get : forall db, set_ (get_ db) db = db;
  upd_sets : forall db i v p, 0 <= i -> get_ db !! Z.to_nat i = Some p -> classless p ->
    exists p', upd db i v = set_ (<[Z.to_nat i := p']> (get_ db)) db /\ Database.value p' = v /\ pcfg p' = pcfg p }.

Lemma raise_classless db cfg e : Class cfg = ClassNone -> raise db cfg e = db.
Proof. intros H. unfold raise. rewrite H. by destruct (db_events db). Qed.

Lemma shouldReport_keeps {T} (p : Database.point T) v fl :
  pcfg (shouldReport p v fl).1 = pcfg p /\ Database.value (shouldReport p v fl).1 = Database.value p.
Proof. unfold shouldReport. by repeat case_match. Qed.

(** Proves that an update of a list of points loads it. *)
Ltac loading :=
  constructor; [done | done | by intros [] |];
  intros db i v p Hi Hp Hc; unfold classless in Hc.

Lemma loads_binary : loads binary set_binary UpdateBinary.
Proof. loading. unfold UpdateBinary. rewrite Hp, raise_classless by done. destruct (changed _ _ _); eexists; by split_and!. Qed.
Lemma loads_doubleBit : loads doubleBit set_doubleBit UpdateDoubleBit.
Proof. loading. unfold UpdateDoubleBit. rewrite Hp, raise_classless by done. destruct (changed _ _ _); eexists; by split_and!. Qed.
Lemma loads_binaryOut : loads binaryOut set_binaryOut UpdateBinaryOutputStatus.
Proof. loading. unfold UpdateBinaryOutputStatus. rewrite Hp, raise_classless by done. destruct (changed _ _ _); eexists; by split_and!. Qed.
Lemma loads_frozen : loads frozen set_frozen UpdateFrozenCounter.
Proof.
  loading. unfold UpdateFrozenCounter, setFrozen.
  assert (Hl : (i <? len (frozen db)) = true) by (apply lookup_lt_Some in Hp; unfold len; lia).
  rewrite Hl, Hp, raise_classless by done. destruct (changed _ _ _ || _); eexists; by split_and!.
Qed.
Lemma loads_counter : loads counter set_counter UpdateCounter.
Proof.
  loading. unfold UpdateCounter, setCounter. rewrite Hp.
  set (x := if _ || _ then _ else _).
  assert (Hx : pcfg x.1 = pcfg p /\ Database.value x.1 = v).
  { unfold x. destruct (_ || _); [|done]. destruct (shouldReport_keeps (with_value v p) (f64_of_Z (Value v)) (negb (Flags (Database.value p) =? Flags v))) as [-> ->]. done. }
  clearbody x. destruct x as [p' r], Hx as [Hcf Hv]. cbn [fst] in *. rewrite raise_classless by (by rewrite Hcf).
  destruct r; exists p'; by split_and!.
Qed.
Lemma loads_analog : loads analog set_analog UpdateAnalog.
Proof.
  loading. unfold UpdateAnalog. rewrite Hp. set (x := shouldReport _ _ _).
  assert (Hx : pcfg x.1 = pcfg p /\ Database.value x.1 = v).
  { unfold x. destruct (shouldReport_keeps (with_value v p) (Value v) (negb (Flags (Database.value p) =? Flags v))) as [-> ->]. done. }
  clearbody x. destruct x as [p' r], Hx as [Hcf Hv]. cbn [fst] in *. rewrite raise_classless by (by rewrite Hcf).
  destruct r; exists p'; by split_and!.
Qed.
Lemma loads_analogOut : loads analogOut set_analogOut UpdateAnalogOutputStatus.
Proof.
  loading. unfold UpdateAnalogOutputStatus. rewrite Hp. set (x := shouldReport _ _ _).
  assert (Hx : pcfg x.1 = pcfg p /\ Database.value x.1 = v).
  { unfold x. destruct (shouldReport_keeps (with_value v p) (Value v) (negb (Flags (Database.value p) =? Flags v))) as [-> ->]. done. }
  clearbody x. destruct x as [p' r], Hx as [Hcf Hv]. cbn [fst] in *. rewrite raise_classless by (by rewrite Hcf).
  destruct r; exists p'; by split_and!.
Qed.

(** What the loop leaves in the points it has been to. *)
Definition loaded {T} (kept : list T) (init : T) (adjust : Z -> T -> T) (n : nat) : list T :=
  (fun i => adjust (Z.of_nat i) (default init (kept !! i))) <$> seq 0 n.

Lemma u16_nat (i n : nat) : (i < n)%nat -> (n <= pointsPerType)%nat -> u16 (Z.of_nat i) = Z.of_nat i.
Proof. unfold u16, pointsPerType. intros. apply Z.mod_small. lia. Qed.

Lemma load_spec {T} get_ set_ upd (kept : list T) init adjust (n : nat) db : loads get_ set_ upd ->
  Forall classless (get_ db) -> (n <= length (get_ db))%nat -> (n <= pointsPerType)%nat ->
  exists pts, load upd kept init adjust n db = set_ pts db /\ length pts = length (get_ db) /\ Forall classless pts /\
    Database.value <$> take n pts = loaded kept init adjust n.
Proof.
  intros L Hc. induction n as [|n IH]; intros Hn H16.
  - exists (get_ db). split_and!; [by rewrite (set_get _ _ _ L) | done..].
  - destruct IH as (pts & E & Len & Hcl & V); [lia..|]. unfold load in *. rewrite seq_S, fold_left_app, E. cbn [fold_left plus].
    destruct (lookup_lt_is_Some_2 pts n) as [p Hp]; [lia|].
    rewrite (u16_nat n (S n)) by lia.
    destruct (upd_sets _ _ _ L (set_ pts db) (Z.of_nat n) (adjust (Z.of_nat n) (default init (kept !! n))) p) as (p' & -> & Hv & Hcfg).
    + lia.
    + by rewrite (get_set _ _ _ L), Nat2Z.id.
    + by apply (Forall_lookup_1 _ _ _ _ Hcl Hp).
    + rewrite (get_set _ _ _ L), (set_set _ _ _ L), Nat2Z.id. eexists. split; [reflexivity|]. rewrite length_insert. split; [done|]. split.
      * apply Forall_insert; [done|]. unfold classless. rewrite Hcfg. by apply (Forall_lookup_1 _ _ _ _ Hcl Hp).
      * rewrite (take_S_r _ _ p') by (apply list_lookup_insert_eq; lia). rewrite take_insert_ge by done.
        unfold loaded in *. rewrite seq_S, !fmap_app, V. cbn [fmap list_fmap plus]. by rewrite Hv.
Qed.

Lemma makePoints_classless {T} (zero : T) n pt : Forall classless (makePoints zero n pt ClassNone).
Proof. apply Forall_replicate. done. Qed.
Lemma makePoints_length {T} (zero : T) (n : nat) pt c : length (makePoints zero (Z.of_nat n) pt c) = n.
Proof. unfold makePoints. by rewrite length_replicate, Nat2Z.id. Qed.

(** What the database holds of the points a snapshot has. *)
Definition stored (db : Database) : snapshot :=
  mkSnapshot (Database.value <$> binary db) (Database.value <$> doubleBit db) (Database.value <$> counter db)
    (Database.value <$> frozen db) (Database.value <$> analog db) (Database.value <$> binaryOut db)
    (Database.value <$> analogOut db).

Lemma setConfig_values {T} (pts pts' : list (Database.point T)) i c :
  setConfig pts i c = Some pts' -> Database.value <$> pts' = Database.value <$> pts.
Proof.
  unfold setConfig. destruct (_ || _); [done|]. destruct (pts !! Z.to_nat i) as [p|] eqn:E; cbn [fmap option_fmap option_map]; [|done].
  intros [= <-]. rewrite list_fmap_insert. apply list_insert_id. by rewrite list_lookup_fmap, E.
Qed.
Lemma Configure_keeps db pt i c : stored (Configure db pt i c).1 = stored db /\ db_events (Configure db pt i c).1 = db_events db.
Proof.
  unfold Configure. destruct (negb _); [done|]. unfold stored.
  destruct pt; try done;
    match goal with |- context [setConfig ?l ?i ?c] => destruct (setConfig l i c) eqn:E end; try done;
    apply setConfig_values in E; cbn in E |- *; by rewrite ?E.
Qed.
(** A loop of steps that keep both. *)
Lemma configuring_keeps {A} (f : Database -> A -> Database) (l : list A) : forall db,
  (forall db x, stored (f db x) = stored db /\ db_events (f db x) = db_events db) ->
  stored (fold_left f l db) = stored db /\ db_events (fold_left f l db) = db_events db.
Proof.
  induction l as [|x l IH]; intros db H; [done|]. cbn [fold_left]. destruct (IH (f db x) H) as [-> ->]. apply H.
Qed.
Lemma configure_kind_keeps st db k : stored (configure_kind st db k) = stored db /\ db_events (configure_kind st db k) = db_events db.
Proof. apply configuring_keeps. intros. apply Configure_keeps. Qed.

Definition kept_of {T} (d : device) (field : snapshot -> list T) : list T :=
  match d_values d with Some v => field v | None => [] end.
Definition same_ {T} (_ : Z) (v : T) : T := v.
(** The values a device starts with. *)
Definition initial (d : device) (st : settings) (now : Z) : snapshot :=
  let at_ := Unsynchronized now in
  mkSnapshot (loaded (kept_of d sn_binary) (mkMeasurement false Online at_) same_ (settings_count st kindBinary))
    (loaded (kept_of d sn_doubleBit) (mkMeasurement DoubleBitDeterminedOff Online at_) same_ (settings_count st kindDoubleBit))
    (loaded (kept_of d sn_counter) (mkMeasurement 0 Online at_) same_ (settings_count st kindCounter))
    (loaded (kept_of d sn_frozenCounter) (mkMeasurement 0 Online at_) same_ (settings_count st kindFrozenCounter))
    (loaded (kept_of d sn_analog) (mkMeasurement f64_zero Online at_) same_ (settings_count st kindAnalog))
    (loaded (kept_of d sn_binaryOutput) (mkMeasurement false Online at_) (fun i v => local_flags (isLocal d i) v)
       (settings_count st kindBinaryOutput))
    (loaded (kept_of d sn_analogOutput) (mkMeasurement f64_zero Online at_) same_ (settings_count st kindAnalogOutput)).

Lemma count_small st k : (settings_count st k <= pointsPerType)%nat.
Proof. unfold settings_count. destruct (decide _); unfold pointsPerType; lia. Qed.

(** Runs the next loop of [initialise]. *)
Ltac load_next L :=
  let pts := fresh "pts" in let Len := fresh "Len" in let V := fresh "V" in let E := fresh "E" in
  match goal with |- context [load ?u ?k ?i ?a ?n ?db] =>
    destruct (load_spec _ _ u k i a n db L) as (pts & E & Len & _ & V);
    [ apply makePoints_classless | cbn; by rewrite makePoints_length | apply count_small |];
    rewrite E; clear E; cbn in Len; rewrite makePoints_length in Len;
    rewrite take_ge in V by (by rewrite Len)
  end.

Lemma initialise_spec order d st now :
  let db := initialise order d (NewDatabase (database_config st) (Some (NewEventBuffer maxEvents))) st now in
  stored db = initial d st now /\ db_events db = Some (NewEventBuffer maxEvents).
Proof.
  intros db. subst db. unfold initialise.
  load_next loads_binary. load_next loads_doubleBit. load_next loads_counter. load_next loads_frozen.
  load_next loads_analog. load_next loads_binaryOut. load_next loads_analogOut.
  match goal with |- context [fold_left (configure_kind st) order ?db] =>
    destruct (configuring_keeps (configure_kind st) order db) as [-> ->]; [intros; apply configure_kind_keeps|] end.
  match goal with |- context [if ?c then ?a else ?b] =>
    assert (K : stored (if c then a else b) = stored b /\ db_events (if c then a else b) = db_events b) end.
  { destruct (d_level d =? 2); [|done]. apply configuring_keeps. intros. apply Configure_keeps. }
  destruct K as [-> ->]. split; [|done]. unfold stored, initial. cbn. by f_equal.
Qed.

(** A device that starts has nothing to report: the values it comes back with are not events. *)
Theorem restart_quiet host order d : exists d' s,
  restart host order true d = (d', None) /\ d_sess d' = Some s /\ db_events (ds_db s) = Some (NewEventBuffer maxEvents).
Proof.
  unfold restart, start. cbn [negb]. eexists _, _. split; [done|]. split; [done|]. cbn [ds_db].
  apply (initialise_spec order (on_attributes _ (stop d))).
Qed.

Lemma read_points_get {T} (zero : T) (pts : list (Database.point T)) n : length pts = n -> (n <= pointsPerType)%nat ->
  read_points (get zero pts) n = Database.value <$> pts.
Proof.
  intros <- H. apply list_eq. intros i. unfold read_points. rewrite !list_lookup_fmap.
  destruct (decide (i < length pts)%nat) as [Hi|Hi].
  - rewrite lookup_seq_lt by done. cbn [fmap option_fmap option_map plus]. rewrite (u16_nat i (length pts)) by lia.
    unfold get. rewrite Nat2Z.id. by destruct (lookup_lt_is_Some_2 pts i Hi) as [p ->].
  - rewrite lookup_seq_ge, lookup_ge_None_2 by lia. done.
Qed.
Lemma loaded_imap {T} (l : list T) init (adjust : Z -> T -> T) n : length l = n ->
  loaded l init adjust n = imap (fun i v => adjust (Z.of_nat i) v) l.
Proof.
  intros <-. apply list_eq. intros i. unfold loaded. rewrite list_lookup_fmap, list_lookup_imap.
  destruct (decide (i < length l)%nat) as [Hi|Hi].
  - rewrite lookup_seq_lt by done. cbn [fmap option_fmap option_map plus]. by destruct (lookup_lt_is_Some_2 l i Hi) as [v ->].
  - by rewrite lookup_seq_ge, lookup_ge_None_2 by lia.
Qed.
Lemma imap_same {T} (l : list T) : imap (fun i v => same_ (Z.of_nat i) v) l = l.
Proof. rewrite <- (list_fmap_id l) at 2. apply list_eq. intros i. rewrite list_lookup_imap, list_lookup_fmap. by destruct (l !! i). Qed.

(** What a device that has kept [kept] of some points shows of them once it has started. *)
Lemma shown {T} (zero : T) (pts : list (Database.point T)) st k (kept : snapshot) (field : snapshot -> list T) init adjust :
  Database.value <$> pts = loaded (field kept) init adjust (settings_count st k) -> length (field kept) = pointsPerType ->
  kept_or (settings_count st k) (Some kept) field (read_points (get zero pts) (settings_count st k)) =
  if decide (k ∈ uninstalled st) then field kept else imap (fun i v => adjust (Z.of_nat i) v) (field kept).
Proof.
  intros V Len. rewrite (read_points_get zero pts); [| |apply count_small].
  - rewrite V. unfold settings_count. destruct (decide _); [done|]. rewrite loaded_imap by done. done.
  - apply (f_equal length) in V. unfold loaded in V. by rewrite !length_fmap, length_seq in V.
Qed.
Lemma shown_same {T} (zero : T) (pts : list (Database.point T)) st k (kept : snapshot) (field : snapshot -> list T) init :
  Database.value <$> pts = loaded (field kept) init same_ (settings_count st k) -> length (field kept) = pointsPerType ->
  kept_or (settings_count st k) (Some kept) field (read_points (get zero pts) (settings_count st k)) = field kept.
Proof. intros V Len. rewrite (shown _ _ _ _ _ _ _ _ V Len), imap_same. by destruct (decide _). Qed.

(** A value for each point. *)
Definition full (s : snapshot) : Prop := Forall (fun k => snapshot_count s k = pointsPerType) allKinds.
Definition with_binaryOutput (l : list BinaryOutputStatus) (s : snapshot) : snapshot :=
  mkSnapshot (sn_binary s) (sn_doubleBit s) (sn_counter s) (sn_frozenCounter s) (sn_analog s) l (sn_analogOutput s).

(** A power cycle does not change the plant: with points installed or uninstalled since, the
    device shows the values it had, the outputs with the flag of who controls them. *)
Theorem restart_keeps host order d s : d_sess d = Some s -> full (device_snapshot d s) -> exists d' s',
  restart host order true d = (d', None) /\ d_sess d' = Some s' /\
  device_snapshot d' s' =
    with_binaryOutput
      (if decide (kindBinaryOutput ∈ uninstalled (d_settings d)) then sn_binaryOutput (device_snapshot d s)
       else imap (fun i v => local_flags (isLocal d (Z.of_nat i)) v) (sn_binaryOutput (device_snapshot d s)))
      (device_snapshot d s).
Proof.
  intros Hs F. unfold restart, start. cbn [negb]. eexists _, _. split; [done|]. split; [done|].
  assert (St : d_settings (stop d) = d_settings d) by (unfold stop; cbn; by rewrite Hs).
  assert (Vs : d_values (stop d) = Some (device_snapshot d s)) by (unfold stop; cbn; by rewrite Hs).
  assert (Lc : forall i, isLocal (stop d) i = isLocal d i) by (intros i; unfold stop; cbn; by rewrite Hs).
  rewrite St. set (st := d_settings d). set (d1 := on_attributes _ (stop d)). set (now := host _).
  destruct (initialise_spec order d1 st now) as [V _]. cbv zeta in V.
  set (db := initialise order d1 _ st now) in *. clearbody db. injection V as V1 V2 V3 V4 V5 V6 V7.
  unfold kept_of in *. change (d_values d1) with (d_values (stop d)) in *. rewrite Vs in *.
  clearbody now. set (kept := device_snapshot d s) in *. unfold device_snapshot.
  unfold full, allKinds in F. rewrite !Forall_cons in F. destruct F as (F1 & F2 & F3 & F4 & F5 & F6 & F7 & _).
  cbn [d_running on_running on_reads on_clock on_sess d_values ds_db]. change (d_values d1) with (d_values (stop d)). rewrite Vs.
  unfold with_binaryOutput. f_equal; try (eapply shown_same; eassumption).
  unfold Database_BinaryOutputStatus. rewrite (shown _ _ _ _ _ _ _ _ V6 F6). destruct (decide _); [done|].
  apply imap_ext. intros i v _. by change (isLocal d1 (Z.of_nat i)) with (isLocal (stop d) (Z.of_nat i)); rewrite Lc.
Qed.

(** ** Attributes *)

Section Attributes.
Context {Env : Environment}.
(** The callback for a written attribute. *)
Variable aw : App -> Attribute -> App * bool.

(** The configuration of the session [start] makes. *)
Definition dut_config (st : settings) : Config :=
  mkConfig outstationAddr (master st) (database_config st) maxEvents (fragmentSize st) 0 confirmTimeout
    (mkCommandConfig selectTimeout maxControls)
    (mkUnsolicitedConfig (unsolicited st) 0 0 (unsolTimeout st) (unsolRetries st))
    (mkClockConfig syncInterval clockHoldover) (mkFileConfig None None 0 0)
    configuredAttributes false writableAttributes (Some aw) (selfAddress st) None None None None [] None
    (linkConfirms st) linkRetries linkTimeout 0.

Lemma u64_int n : 0 <= n < 2 ^ 63 -> int_of 64 (u64 n) = n.
Proof. intros H. unfold int_of, u64. rewrite Z.mod_small by lia. destruct (Z.ltb_spec n (2 ^ (64 - 1))); lia. Qed.

(** Attributes of the standard set, by their variation. *)
Definition by_variation (m : gmap Z Attribute) (a : Attribute) : gmap Z Attribute := <[A_Variation a := a]> m.
Lemma stored_by_variation l : forall (m : gmap (Z * Z) Attribute) (m' : gmap Z Attribute), Forall (fun a => A_Set a = 0) l ->
  (forall v, m !! (0, v) = m' !! v) -> forall v, fold_left store_attribute l m !! (0, v) = fold_left by_variation l m' !! v.
Proof.
  induction l as [|a l IH]; intros m m' F H v; [apply H|]. apply Forall_cons in F as [Ha F]. cbn [fold_left].
  apply (IH _ _ F). intros w. unfold store_attribute, by_variation. rewrite Ha, !lookup_insert, H.
  by do 2 case_decide; simplify_eq.
Qed.
Lemma by_variation_later a l : forall m, Forall (fun b => A_Variation b <> A_Variation a) l ->
  fold_left by_variation l (by_variation m a) = by_variation (fold_left by_variation l m) a.
Proof.
  induction l as [|b l IH]; intros m F; [done|]. apply Forall_cons in F as [Hb F]. cbn [fold_left]. rewrite <- IH by done.
  f_equal. by apply insert_insert_ne.
Qed.

Definition counts_of (st : settings) : list (Z * Z) :=
  let db := database_config st in
  [(AttrBinaryInputCount, n_Binary db); (AttrDoubleBitInputCount, n_DoubleBitBinary db); (AttrCounterCount, n_Counter db);
   (AttrAnalogInputCount, n_Analog db); (AttrBinaryOutputCount, n_BinaryOutputStatus db);
   (AttrAnalogOutputCount, n_AnalogOutputStatus db)].
Definition count_attributes (ps : list (Z * Z)) : list Attribute :=
  (fun x => uint_ x.1 x.2) <$> List.filter (fun x => 0 <? x.2) ps.

Lemma counts_fold ps : forall m,
  fold_left (fun out x => if 0 <? x.2 then <[x.1 := uint_ x.1 x.2]> out else out) ps m = fold_left by_variation (count_attributes ps) m.
Proof.
  unfold count_attributes. induction ps as [|x ps IH]; intros m; [done|]. cbn [fold_left List.filter].
  destruct (0 <? x.2); apply IH.
Qed.
Lemma counts_derived (ps : list (Z * Z)) : Forall (fun x => 0 <= x.2 < 2 ^ 63) ps ->
  (fun c : Z * Z => UintAttribute c.1 (u64 c.2)) <$> List.filter (fun c : Z * Z => negb (c.2 <=? 0)) ps = count_attributes ps.
Proof.
  unfold count_attributes. induction 1 as [|x ps Hx _ IH]; [done|]. cbn [List.filter]. rewrite <- Z.ltb_antisym.
  destruct (0 <? x.2); [|done]. cbn [fmap list_fmap]. rewrite IH. unfold UintAttribute at 1. by rewrite u64_int.
Qed.
Lemma counts_small st : Forall (fun x => 0 <= x.2 < 2 ^ 63) (counts_of st).
Proof.
  unfold counts_of, database_config. rewrite !Forall_cons. cbn [snd n_Binary n_DoubleBitBinary n_Counter n_Analog
    n_BinaryOutputStatus n_AnalogOutputStatus]. unfold settings_count, pointsPerType. repeat case_decide; split_and!; try lia; constructor.
Qed.
(** The numbers of the counts are none of those of the fragment sizes. *)
Lemma counts_apart st v : AttrMaxTxFragment <= v -> Forall (fun b => A_Variation b <> v) (count_attributes (counts_of st)).
Proof.
  intros Hv. unfold count_attributes. rewrite Forall_fmap. apply Forall_filter_list. unfold AttrMaxTxFragment in Hv.
  unfold counts_of. rewrite !Forall_cons. cbn. unfold AttrBinaryInputCount, AttrDoubleBitInputCount, AttrCounterCount,
    AttrAnalogInputCount, AttrBinaryOutputCount, AttrAnalogOutputCount. split_and!; try lia; constructor.
Qed.

(** The attributes the outstation has are the ones the device expects the harness to be told,
    whatever is installed. *)
Theorem attributes_expected st v : 0 < fragmentSize st < 2 ^ 63 ->
  buildAttributes (applyDefaults (dut_config st)) !! (0, v) =
  expectedAttributes (database_config st) (fragmentSize st) 0 configuredAttributes !! v.
Proof.
  intros Hf. unfold buildAttributes. change (DisableAttributes _) with false.
  change (Attributes (applyDefaults (dut_config st))) with configuredAttributes. cbv iota.
  change (expectedAttributes _ _ _ _) with (fold_left by_variation configuredAttributes
    (fold_left (fun out x => if 0 <? x.2 then <[x.1 := uint_ x.1 x.2]> out else out) (counts_of st)
       (by_variation (by_variation ∅ (uint_ AttrMaxTxFragment (fragmentSize st))) (uint_ AttrMaxRxFragment 2048)))).
  rewrite counts_fold, !by_variation_later by (apply counts_apart; done).
  apply stored_by_variation; [by repeat constructor|]. clear v.
  assert (D : derivedAttributes (applyDefaults (dut_config st)) =
    count_attributes (counts_of st) ++ [uint_ AttrMaxTxFragment (fragmentSize st); uint_ AttrMaxRxFragment 2048]).
  { unfold derivedAttributes. f_equal; [apply (counts_derived (counts_of st)), counts_small|].
    cbn [applyDefaults dut_config MaxTxFragment MaxRxFragment]. destruct (Z.leb_spec (fragmentSize st) 0); [lia|].
    unfold UintAttribute at 1. by rewrite u64_int by lia. }
  rewrite D. intros v.
  rewrite (stored_by_variation _ ∅ ∅); [| |done].
  - by rewrite fold_left_app, by_variation_later by (apply counts_apart; done).
  - apply Forall_app. split; [|by repeat constructor]. unfold count_attributes. rewrite Forall_fmap. by apply Forall_true.
Qed.
End Attributes.

(** ** Operations *)

Lemma take_operation_spec k i ops ops' : take_operation k i ops = Some ops' -> ops ≡ₚ (k, i) :: ops'.
Proof.
  revert ops'. induction ops as [|op ops IH]; intros ops'; cbn [take_operation]; [done|].
  destruct (decide (op = (k, i))) as [->|Ne]; [by intros [= ->]|].
  destruct (take_operation k i ops) as [rest|]; [|done]. cbn [fmap option_fmap option_map]. intros [= <-].
  rewrite (IH rest eq_refl). constructor.
Qed.
Lemma take_operation_none k i ops : take_operation k i ops = None <-> ~ ((k, i) ∈ ops).
Proof.
  induction ops as [|op ops IH]; cbn [take_operation]; [split; [by intros _ ?%not_elem_of_nil | done]|].
  rewrite elem_of_cons. destruct (decide (op = (k, i))) as [->|Ne]; [split; [done|tauto]|].
  destruct (take_operation k i ops) as [rest|]; cbn [fmap option_fmap option_map]; naive_solver.
Qed.

(** A check that an output operated passes exactly when it did since, and takes one of its
    operations off the list and nothing else. *)
Theorem operation_checked a d : let key := (a_Kind a, u16 (Z.of_nat (a_Index a))) in
  match checkOperate a d with
  | (d', None) => d_operations d ≡ₚ key :: d_operations d' /\ d' = on_operations (d_operations d') d
  | (d', Some _) => ~ (key ∈ d_operations d) /\ d' = d
  end.
Proof.
  intros key. unfold checkOperate, takeOperation. fold key.
  destruct (take_operation _ _ _) as [ops|] eqn:E.
  - split; [by apply take_operation_spec | done].
  - split; [by apply take_operation_none | done].
Qed.

(** ** Runs *)

Module DutRuns.
#[local] Instance still : Numerics := {|
  math_Sin x := x; Rand := unit; rand_Float64 r := (r, f64_zero); uint32_beyond _ := 0 |}.

(** A clock that stands still. *)
Definition noon (_ : nat) : Z := 1800000000 * second.
Definition order : list kind := [kindAnalog; kindBinary; kindCounter; kindDoubleBit; kindFrozenCounter].
Definition args0 : args :=
  mkArgs false kindBinary 0 [] 0 0 "" [] [] false 0 0 None 0 f64_zero f64_zero f64_zero 0 0 0 0 [].
Definition with_retries (n : Z) : args :=
  mkArgs false kindBinary 0 [] 0 0 "" [] [] false 0 0 (Some n) 0 f64_zero f64_zero f64_zero 0 0 0 0 [].
Definition do (m : string) (a : args) (d : device) : device * reply_result * option DutErr := call noon order elements true m a d.
Definition ready : device := (do "startProcedure"%string args0 (newDevice 3)).1.1.
Definition database (d : device) : option Database := ds_db <$> d_sess d.
Definition queued (d : device) : list Event :=
  match database d ≫= db_events with Some b => events b | None => [] end.

(** Three changes of binary inputs, and a restart. *)
Definition changed_ : device := (do "generateInputChanges"%string args0 ready).1.1.
Definition session_ : dut_session := default (mkDutSession (NewDatabase (database_config settings0) None) false) (d_sess changed_).

Lemma restart_keeps_witness : exists d' s',
  restart noon order true changed_ = (d', None) /\ d_sess d' = Some s' /\
  device_snapshot d' s' =
    with_binaryOutput
      (if decide (kindBinaryOutput ∈ uninstalled (d_settings changed_)) then sn_binaryOutput (device_snapshot changed_ session_)
       else imap (fun i v => local_flags (isLocal changed_ (Z.of_nat i)) v) (sn_binaryOutput (device_snapshot changed_ session_)))
      (device_snapshot changed_ session_).
Proof.
  refine (restart_keeps noon order changed_ session_ _ _); [vm_compute; reflexivity|]. unfold full, allKinds.
  repeat (apply Forall_cons; split; [vm_compute; reflexivity|]). constructor.
Defined.

Lemma attributes_expected_witness :
  buildAttributes (applyDefaults (@dut_config Shelf.shelf (fun a _ => (a, true)) defaultSettings)) !! (0, AttrMaxTxFragment) =
  expectedAttributes (database_config defaultSettings) 2048 0 configuredAttributes !! AttrMaxTxFragment.
Proof. apply (@attributes_expected Shelf.shelf (fun a _ => (a, true)) defaultSettings AttrMaxTxFragment). by vm_compute. Defined.

(** The events of the changes: recorded, queued, and found by the check when they are reported. *)
Definition batch : list dut_event := tracker_latest (d_track changed_).
Definition report (e : dut_event) : dut_point :=
  mkDutPoint (ev_kind e) (ev_index e) (ev_value e) (Some (ev_flags e)) (Some (ev_at e / millisecond)) true.
Definition reported_batch : list dut_point := report <$> batch.

Lemma batch_queued : length batch = 3%nat /\ length (queued changed_) = 3%nat.
Proof. by vm_compute. Qed.

Definition checked_report (e : dut_event) : bool :=
  sameEvent (report e) e && (0 <=? ev_at e) && (ev_at e <? 2 ^ 63) && (ev_at e =? ev_at e / millisecond * millisecond).
Lemma report_reports e : checked_report e = true -> reports (report e) e.
Proof.
  unfold checked_report, reports. intros H. apply andb_prop in H as [[[Sm L]%andb_prop U]%andb_prop W].
  split_and!; [done | done | lia | lia |]. cbn [report p_Time]. intros t [= <-]. lia.
Qed.
Lemma reports_all l : forallb checked_report l = true -> Forall2 reports (report <$> l) l.
Proof.
  induction l as [|e l IH]; cbn [forallb]; [constructor|]. intros [H1 H2]%andb_prop.
  constructor; [by apply report_reports | by apply IH].
Qed.
Lemma verifyEvents_complete_witness : verifyEvents reported_batch batch = [].
Proof. refine (verifyEvents_complete reported_batch batch (reports_all batch _)). vm_compute. reflexivity. Defined.
Lemma verifyEvents_sound_witness : exists order, order ≡ₚ seq 0 (length batch) /\
  Forall2 (reported_as batch) reported_batch order /\ in_order batch order /\ gaps_ok (timed batch reported_batch order).
Proof. refine (verifyEvents_sound reported_batch batch _). vm_compute. reflexivity. Defined.

(** A report that leaves one out, repeats one, or swaps two of them does not pass. *)
Lemma wrong_reports : verifyEvents (drop 1 reported_batch) batch <> [] /\
  verifyEvents (reported_batch ++ take 1 reported_batch) batch <> [] /\ verifyEvents (reverse reported_batch) batch <> [].
Proof. by vm_compute. Qed.

(** A change is recorded: the first binary input of the database that was started. *)
Definition db_ready : Database := default (NewDatabase (database_config settings0) None) (database ready).
Definition first_input : change := mkChange kindBinary 0 toggle None.
Definition reporting_first (db : Database) : bool :=
  match binary db with p :: _ => negb (Class (pcfg p) =? ClassNone) | [] => false end.
Lemma reporting_first_input db : reporting_first db = true -> reporting db first_input.
Proof.
  unfold reporting_first, reporting, in_class. cbn [ch_kind ch_index first_input].
  change (Z.to_nat (u16 (Z.of_nat 0))) with 0%nat. destruct (binary db) as [|p l]; [done|]. intros H.
  exists p. split; [done|]. destruct (Z.eqb_spec (Class (pcfg p)) ClassNone); done.
Qed.
Lemma change_recorded_witness : recorded (NewEventBuffer maxEvents) (applyOne db_ready (Unsynchronized 0) first_input).
Proof.
  refine (change_recorded db_ready (NewEventBuffer maxEvents) (Unsynchronized 0) first_input _ (reporting_first_input db_ready _)).
  - vm_compute. reflexivity.
  - vm_compute. reflexivity.
Defined.

(** A master that operates while the device stops: the session answers requests until the end
    of [stop], and finds the device's session gone, which is a dereference of nil. *)
Definition close_first : ControlRelayOutputBlock := mkCROB codePulseClose 1 100 100 0.
Lemma operate_while_stopping :
  bool_decide (is_Some (dut_OperateCROB noon ready 0 close_first)) = true /\
  dut_OperateCROB noon (stop_begin ready).1 0 close_first = None.
Proof. by vm_compute. Qed.

(** A procedure that asks for no retries gets three: zero is taken for the default. *)
Lemma no_retries_are_three (Env : Environment) aw :
  unsolRetries (d_settings (do "setMaxUnsolicitedRetries"%string (with_retries 0) ready).1.1) = 0 /\
  forall st, unsolRetries st = 0 -> MaxRetries (UnsolicitedCfg (applyDefaults (dut_config aw st))) = 3.
Proof. split; [by vm_compute|]. intros st E. cbn. by rewrite E. Qed.

(** The events that are to be too many for a fragment: those of class 2 fit in one, and so do
    those of class 3, because their variation has no time. *)
Definition crowded : device := (do "generateMultiFragmentResponse"%string args0 ready).1.1.
Definition fragments_for (class : Z) : nat :=
  let '(b, _, _) := Response.buildEvents (fun w : unit => (w, 0)) false []
    (Response.newResponseBuilder fragmentSize_ (mkContext false 0 false false)) tt (List.filter (in_mask class) (queued crowded)) in
  length (Response.done b).
Lemma classes_fit : (length (List.filter (in_mask Class2) (queued crowded)), length (List.filter (in_mask Class3) (queued crowded))) = (200, 200)%nat /\
  (fragments_for Class1, fragments_for Class2, fragments_for Class3) = (2, 1, 1)%nat.
Proof. by vm_compute. Qed.
End DutRuns.
